(* ===== verification/_CoqProject ===== *)
-Q . S2P
Prelude.v
Mem.v
LHash.v
Packet.v
Buffer.v
WPacket.v
Wire.v
PQueue.v
TlsState.v
Protocol.v
StatemLib.v
Dtls.v
DtlsWrite.v
StatemClnt.v
StatemSrvr.v
Statem.v
Sample.v
Extensions.v
Version.v
Handshake.v
Flights.v
Agreement.v
Machine.v
ConstantTime.v
Words.v
Bignum.v
Montgomery.v
BnCodec.v
BnShift.v
BnWord.v
Reassembly.v
Record.v
Negotiation.v
Collect.v
Message.v
Receive.v
Datagram.v
Transfer.v
Retransmit.v
Timer.v
Bitmap.v
DtlsRecord.v
Replay.v
