(* ===== verification/Prelude.v ===== *)
(** * A verification library for the TLS core of Opentls

    The development models the part of the library that decides what a TLS or DTLS
    handshake does: the packet reader and writer that every message goes
    through, the buffers under them, the client's and the server's handshake state
    machines with the message flow machine that drives them, the choice of the
    protocol version, the framework of extensions, the framing of messages, the
    fragmentation, reassembly and retransmission of DTLS, and the parts of the record
    layer that must not leak what they decrypt.  The program is C; the model is a
    translation of its functions, one definition per function or per case of a large
    one, named like it, so that the two can be read side by side.

    ** The program's parts, and where they are modelled

    Foundations:

    - [Prelude.v]: machine integers as [Z] with their truncation written out
      ([u8] to [u64], [s32], [s64], [sz] for [size_t], 64 bits wide as on LP64),
      memory blocks as lists of bytes with checked access ([rd], [rdn], [wr],
      [wrn]; [None] is an access outside of the block), record update, tactics.
    - [Mem.v]: [crypto/mem.c], [CRYPTO_memcmp] of [crypto/cryptlib.c],
      [strnlen] and [strndup] of [crypto/o_str.c].  The C allocator is the interface
      [Malloc]: whether it succeeds and what a fresh block holds is arbitrary.
    - [LHash.v]: the hash table of [crypto/lhash/lhash.c].
    - [Packet.v]: [PACKET], the reader of [include/internal/packet.h].
    - [Buffer.v]: [BUF_MEM] of [crypto/buffer/buffer.c].
    - [WPacket.v]: [WPACKET], the writer of [crypto/packet.c]: nested sub-packets
      with length fields, over a fixed block, a growing [BUF_MEM] or nothing.
    - [Wire.v]: whole messages, written with the one and read with the other.
    - [PQueue.v]: the priority queue, [ssl/pqueue.c].
    - [ConstantTime.v]: [include/internal/constant_time.h].

    The handshake:

    - [TlsState.v]: the connection object [struct tls_st] as far as the state machines
      use it, the enumerations of [ssl/statem/statem.h], [otls_statem_fatal], and
      [Callouts], the interface to all code that is not modelled.
    - [Protocol.v]: the methods of [ssl/methods.c] and which versions a connection may
      use, from [ssl/statem/statem_lib.c] and [ssl/t1_lib.c].
    - [StatemLib.v]: [ssl/statem/statem_lib.c] (setting up and finishing a handshake,
      reading message headers and bodies, framing, sending) and a few
      functions of [ssl/s3_lib.c].
    - [Dtls.v], [DtlsWrite.v]: the reading and the writing half of
      [ssl/statem/statem_dtls.c], the latter with the timer of [ssl/d1_lib.c].
    - [StatemClnt.v], [StatemSrvr.v]: the read and write transitions of
      [ssl/statem/statem_clnt.c] and [ssl/statem/statem_srvr.c], the work before
      and after a message, which function constructs or processes it, its limits.
    - [Statem.v]: [ssl/statem/statem.c]: [state_machine], its reading and writing
      sub-machines, and the queries and requests other parts of the library make.
    - [Extensions.v]: the framework of [ssl/statem/extensions.c] and
      [ssl/statem/extensions_cust.c].
    - [Version.v]: the choice of a version by a server and by a client
      ([ssl/statem/statem_lib.c]) and the downgrade sentinels of [ssl/s3_lib.c].
    - [Sample.v]: concrete connections and environments, among them a scripted peer;
      the theorems are instantiated on them.

    The record layer:

    - [Record.v]: removing the padding and the MAC of a CBC record, and the count of
      early data, [ssl/record/ssl3_record.c].
    - [Bitmap.v]: the DTLS replay window, [ssl/record/dtls1_bitmap.c].
    - [DtlsRecord.v]: reading DTLS records: [dtls1_get_record] and
      [dtls1_process_record] of [ssl/record/ssl3_record.c], the epochs and the queues
      of records that come too early of [ssl/record/rec_layer_d1.c], [tls3_read_n] of
      [ssl/record/rec_layer_s3.c], the read buffer of [ssl/record/ssl3_buffer.c]; the
      record [reader] is a connection with its [RECORD_LAYER] and the datagrams to come.

    Big numbers, which the constant-time discipline matters most for:

    - [Words.v]: the word arithmetic of [crypto/bn/bn_local.h] and the loops over
      words of [crypto/bn/bn_asm.c], on a heap of numbers whose blocks are
      pointed into.
    - [Bignum.v]: growing, comparing and copying of [crypto/bn/bn_lib.c], the sums and
      differences of [bn_add.c].
    - [Montgomery.v]: multiplication row by row ([bn_mul.c]) and Montgomery reduction
      ([bn_mont.c]).
    - [BnCodec.v]: the number of bits, and reading and writing bytes ([bn_lib.c]).
    - [BnShift.v]: shifts ([bn_shift.c]).
    - [BnWord.v]: arithmetic with one word ([bn_word.c]) and the quotient of two words by
      one ([bn_asm.c]).

    Properties of several parts: [Handshake.v], [Flights.v], [Agreement.v],
    [Machine.v] (the state machines), [Negotiation.v] (versions), [Collect.v]
    (extensions), [Message.v], [Receive.v] (TLS messages), [Reassembly.v],
    [Datagram.v], [Transfer.v], [Retransmit.v], [Timer.v] (DTLS messages), [Replay.v]
    (DTLS records).

    ** How they interact

    [state_machine] alternates between [write_state_machine] and
    [read_state_machine].  The writing one asks the write transition of the
    client or the server for the next handshake state, has the message of that
    state constructed with a [WPACKET] on [s->init_buf] (a [BUF_MEM]) between
    [tls3_set_handshake_header] and [tls_close_construct_packet], and sends it.
    The reading one takes a header from the record layer, asks the read transition
    whether the message may come now, grows [s->init_buf], reads the body and hands
    it to the processing function as a [PACKET].  With DTLS the framing functions of the
    method are those of [DtlsWrite.v], a message is sent in fragments by
    [dtls1_do_write] and kept in a [pqueue] for [dtls1_handle_timeout], and
    [dtls_get_message] of [Dtls.v] reads.  In the model these calls are
    the same calls; a mutable object is passed along and returned.  What is called
    but not modelled (record protection, hashing, key derivation, BIOs, the bodies of
    the construct and process functions) is a member of [Callouts],
    [Constructors] or [ExtCallouts] when the result matters, and an entry of the log
    [calls] when only its effect elsewhere does.  Theorems hold for every such
    environment unless they name an assumption, which is an interface or a relation:

    - [RecordLayer] ([Receive.v]): reads deliver some of the bytes to come and
      hashing disturbs nothing; [DatagramLayer] ([Datagram.v]): what is to come are
      records, a read stays in one; [DatagramWriter] ([Transfer.v]): what is
      written becomes a record; [KeyedWriter] ([Retransmit.v]): a record is written
      with the contexts of the connection and in the epoch that was set last;
      [Clock] ([Timer.v]): the time of day, which the
      retransmission of a flight does not turn back; [RecordProtection]
      ([DtlsRecord.v]): decryption, MAC and decompression, which [ProtectionLaws]
      ([Replay.v]) asks to stay inside of the record.  Each has an instance, so the
      theorems are applied to concrete connections.
    - [client_processed], [server_processed], [client_sent] and [server_sent] say
      which fields processing or sending a message leaves alone.

    ** What the theorems show

    - The languages of messages that each side accepts, exactly: a client never
      takes a Finished from a server that has not proved who it is, a server none from
      a client that did not prove possession of its certificate's key, nothing is
      accepted out of order ([Handshake.v]).
    - Agreement: the flights one side can send are flights the other side accepts,
      for full and resumed handshakes before TLS 1.3 and for TLS 1.3, given that
      they agree on what was negotiated; with the one exception found, an anonymous
      server that insists on a client certificate ([Flights.v], [Agreement.v]).
    - Versions: what a client offers makes a server choose the highest version both
      may use, and a client notices when somebody in between made them choose TLS 1.2
      instead of 1.3, or less than TLS 1.2 instead of it ([Negotiation.v]).
    - Extensions: exactly the blocks the protocol allows are taken, each known
      extension goes to its place, everything else is refused with an alert.  What the
      protocol allows is stated apart from the code, by a table of the extensions'
      numbers, messages and transport and by what was asked for ([Collect.v]).
    - The flow: fatal errors are final, unexpected messages are fatal, the tables of
      transitions, constructors and handlers fit together, no deadlock, flights
      are finite, what the result of [state_machine] means; a whole handshake is
      executed inside of the logic ([Machine.v]).
    - The wire: messages are framed as they should be and are received as they were
      sent, whatever pieces the record layer delivers, without leaving the buffer
      ([Message.v], [Receive.v]).
    - DTLS: a message is sent in fragments that fit, and whoever gets them in any
      order, repeated, split and mixed with others, has the message
      ([Transfer.v], [Datagram.v], [Reassembly.v]); a flight is kept, sent again with
      the keys and in the epoch it had when the timer has run out, and given up in the
      end ([Retransmit.v], [Timer.v]); the replay window implements the set of received
      numbers ([Bitmap.v]), and no record is delivered twice, however datagrams, calls of
      [dtls1_get_record] and changes of the keys follow one another, buffered records
      included ([Replay.v]); the queue is an ordered map ([PQueue.v]).
    - Records: removing padding and MAC without branches on what was decrypted gives
      what code with branches gives, and opens what was sealed ([Record.v],
      [ConstantTime.v]).
    - Big numbers: sums, differences, shifts, products, quotients by a word and Montgomery
      reduction are those of the integers, whichever of the arguments are the same
      object, the results are normalised and nothing else is written ([Bignum.v],
      [BnShift.v], [BnWord.v], [Montgomery.v]); what is written as bytes without branches on
      the number is read back, in either order of bytes ([BnCodec.v]).  The words are 64
      bits wide and no assembly is used; that the inverse stored in the Montgomery
      context is one, is a hypothesis.
    - The foundations: the [PACKET] readers implement abstract readers and the
      [WPACKET] programs an abstract encoder, reading back what was written
      yields it, buffers keep their contents and invariant, the hash table is a finite
      map however it is resized ([Packet.v], [WPacket.v], [Wire.v], [Buffer.v],
      [LHash.v]).

    ** Fuel

    The loops of [StatemLib.v], [Statem.v], [Dtls.v] and [DtlsWrite.v] that are not
    structural carry fuel, one unit per iteration, and yield [NoFuel] without it; [UB]
    is undefined behaviour.  Reading a header takes at most 4 reads and a body at
    most as many as it has bytes: [message_received] asks for that much and proves
    that it is enough.  [dtls_get_message] needs one unit per record that is to come
    and [dtls1_do_write] one per byte of the message, as [dtls_message_received] and
    [dtls_message_transfer] prove.  That a flight is finite is a theorem, so the
    writing machine needs a fuel that [client_rank] and [server_rank] bound.

    [dtls1_get_record] starts again after each record it drops; [enough] ([Replay.v]) bounds
    how often by the bytes and records that are there, and [dtls_no_replay] shows that
    this is enough.

    The loop of [bn_div_words] that corrects a guess gets three units, and its theorem shows
    that the guess is never off by more than two.

    ** What is not modelled

    The error queue (reason codes), SCTP (over which records are not checked for replay),
    tracing and statistics beyond the log; the
    bodies of the functions that construct and process single messages and single
    extensions (but for supported_versions), certificates and key exchange; the record
    layer but for the parts above: the reading of TLS records and of application data,
    [DTLSv1_listen], and protecting and writing records, which depend on the ciphers
    behind EVP; of the big numbers, multiplication by columns and by Karatsuba's
    method, division by more than a word, exponentiation, square roots, primes and the pool of temporary
    numbers, whose next element is an argument; under [src/crypto/] otherwise,
    cryptography and encodings, which the handshake only calls; tools, tests,
    providers and engines. *)

From stdpp Require Export base list numbers option tactics.

From Stdlib Require Export ZArith Lia.

#[global] Set Default Goal Selector "!".

(** ** Scope and notations of the development *)

Declare Scope tls_scope.
Delimit Scope tls_scope with tls.
Open Scope Z_scope.
Open Scope tls_scope.

(** *** Machine integers

    A C integer of width [w] is a [Z]; an operation that can leave the range is
    followed by the truncation the C conversion performs. *)

Definition u8 (x : Z) : Z := x `mod` 2 ^ 8.
Definition u16 (x : Z) : Z := x `mod` 2 ^ 16.
Definition u32 (x : Z) : Z := x `mod` 2 ^ 32.
Definition u64 (x : Z) : Z := x `mod` 2 ^ 64.

(** Conversion of an unsigned 64-bit value to [int64_t]. *)
Definition s64 (x : Z) : Z :=
  let y := u64 x in if y <? 2 ^ 63 then y else y - 2 ^ 64.

(** The conversion to [int]. *)
Definition s32 (x : Z) : Z :=
  let y := u32 x in if y <? 2 ^ 31 then y else y - 2 ^ 32.

(** [size_t] is 64 bits wide on the modelled platform (LP64). *)
Definition SIZE_MAX : Z := 2 ^ 64 - 1.
Definition sz (x : Z) : Z := x `mod` 2 ^ 64.

(** C truth values: every non-zero integer is true. *)
Definition truth (x : Z) : bool := negb (x =? 0).
Definition has_bits (x mask : Z) : bool := truth (Z.land x mask).

(** *** Byte strings and memory blocks *)

Definition byte_ok (b : Z) : Prop := 0 <= b < 256.
Definition bytes_ok (l : list Z) : Prop := Forall byte_ok l.

(** The length of a list, as a C size. *)
Definition zlen {A} (l : list A) : Z := Z.of_nat (length l).

(** Reading the byte at offset [i] of a block; [None] is an access outside of
    the block, i.e. undefined behaviour. *)
Definition rd (mem : list Z) (i : Z) : option Z :=
  if i <? 0 then None else mem !! Z.to_nat i.

(** The [n] bytes at offset [i] (the source operand of [memcpy]). *)
Definition rdn (mem : list Z) (i n : Z) : option (list Z) :=
  if bool_decide (0 <= i /\ 0 <= n /\ i + n <= zlen mem)
  then Some (take (Z.to_nat n) (drop (Z.to_nat i) mem)) else None.

(** Storing a byte, and storing a string of bytes (the destination operand of
    [memcpy] and [memset]). *)
Definition wr (mem : list Z) (i v : Z) : option (list Z) :=
  if bool_decide (0 <= i < zlen mem) then Some (<[Z.to_nat i := v]> mem) else None.

Definition wrn (mem : list Z) (i : Z) (vs : list Z) : option (list Z) :=
  if bool_decide (0 <= i /\ i + zlen vs <= zlen mem)
  then Some (take (Z.to_nat i) mem ++ vs ++ drop (Z.to_nat i + length vs) mem)
  else None.

(** Big-endian values of byte strings. *)
Definition be_val (l : list Z) : Z := fold_left (fun acc b => acc * 256 + b) l 0.

Fixpoint be_bytes (n : nat) (v : Z) : list Z :=
  match n with
  | O => []
  | S m => be_bytes m (v / 256) ++ [v `mod` 256]
  end.

(** ** Functional record update

    [r <| f := v |>] is the record [r] with the field [f] replaced.  A record
    type declares its eta expansion as an instance of [Eta]; the updater of a
    field is found by abstracting the projection in that expansion. *)

Class Eta (R : Type) := eta : R -> R.

Class Updater {R T : Type} (proj : R -> T) := update : (T -> T) -> R -> R.

Ltac find_updater :=
  lazymatch goal with
  | |- @Updater ?R ?T ?proj =>
      let inst := constr:(_ : Eta R) in
      let inst := eval hnf in inst in
      lazymatch eval pattern proj in inst with
      | ?ctx proj => exact (fun g r => ctx (fun r' => g (proj r')) r)
      end
  end.

#[global] Hint Extern 1 (Updater _) => find_updater : typeclass_instances.

Notation "r <| f := v |>" := (update (proj := f) (fun _ => v) r)
  (at level 1, left associativity, format "r  <| f  :=  v |>") : tls_scope.
Notation "r <| f ::= g |>" := (update (proj := f) g r)
  (at level 1, left associativity, format "r  <| f  ::=  g |>") : tls_scope.

#[global] Arguments update {R T} proj _ _ _ / : assert.

(** ** Tactics *)

(** Turn boolean comparisons of the code into propositions. *)
Ltac zify_bools :=
  repeat match goal with
  | H : (_ && _)%bool = true |- _ => apply andb_true_iff in H; destruct H
  | H : (_ || _)%bool = false |- _ => apply orb_false_iff in H; destruct H
  | H : negb _ = true |- _ => apply negb_true_iff in H
  | H : negb _ = false |- _ => apply negb_false_iff in H
  | H : (_ <? _) = true |- _ => apply Z.ltb_lt in H
  | H : (_ <? _) = false |- _ => apply Z.ltb_ge in H
  | H : (_ <=? _) = true |- _ => apply Z.leb_le in H
  | H : (_ <=? _) = false |- _ => apply Z.leb_gt in H
  | H : (_ =? _) = true |- _ => apply Z.eqb_eq in H
  | H : (_ =? _) = false |- _ => apply Z.eqb_neq in H
  | H : bool_decide _ = true |- _ => apply bool_decide_eq_true in H
  | H : bool_decide _ = false |- _ => apply bool_decide_eq_false in H
  end.

(** [lia] with quotients and remainders by constants. *)
Ltac lia_div := Z.div_mod_to_equations; lia.

(** Case analysis on the first conditional of the goal. *)
Ltac case_if :=
  match goal with
  | |- context [if ?b then _ else _] =>
      lazymatch type of b with
      | bool => let E := fresh "E" in destruct b eqn:E
      | _ => case_decide
      end
  end.

(** The same in a hypothesis. *)
Ltac case_if_in H :=
  match type of H with
  | context [if ?b then _ else _] =>
      lazymatch type of b with
      | bool => let E := fresh "E" in destruct b eqn:E
      | _ => case_decide
      end
  end.

(** ** Lemmas shared by the components *)

Section Lengths.
  Context {A : Type}.
  Implicit Types l k : list A.

Lemma zlen_nonneg l : 0 <= zlen l.
Proof. unfold zlen. lia. Qed.

Lemma zlen_app l k : zlen (l ++ k) = zlen l + zlen k.
Proof. unfold zlen. rewrite length_app. lia. Qed.

Lemma zlen_cons x l : zlen (x :: l) = 1 + zlen l.
Proof. unfold zlen. simpl. lia. Qed.

Lemma zlen_nil : zlen (@nil A) = 0.
Proof. reflexivity. Qed.

Lemma zlen_take n l : 0 <= n <= zlen l -> zlen (take (Z.to_nat n) l) = n.
Proof. unfold zlen. intros. rewrite length_take. lia. Qed.

Lemma zlen_drop n l : 0 <= n <= zlen l -> zlen (drop (Z.to_nat n) l) = zlen l - n.
Proof. unfold zlen. intros. rewrite length_drop. lia. Qed.

Lemma zlen_replicate n (x : A) : zlen (replicate n x) = Z.of_nat n.
Proof. unfold zlen. by rewrite length_replicate. Qed.

End Lengths.

Create Rewrite HintDb zlen.
#[export] Hint Rewrite @zlen_app @zlen_cons @zlen_nil @zlen_replicate
  @length_app @length_replicate @length_take @length_drop @length_insert : zlen.

(** [lia] with the lengths of concrete list shapes unfolded. *)
Ltac len_lia := autorewrite with zlen in *; unfold zlen in *;
  autorewrite with zlen in *; simpl length in *; lia.

Section Memory.

Lemma rd_in mem i : 0 <= i < zlen mem -> exists b, rd mem i = Some b.
Proof.
  intros H. unfold rd. destruct (Z.ltb_spec i 0); [lia|].
  destruct (lookup_lt_is_Some_2 mem (Z.to_nat i)) as [b Hb]; [unfold zlen in H; lia|].
  by exists b.
Qed.

Lemma rd_drop mem i j :
  0 <= i -> 0 <= j -> rd mem (i + j) = drop (Z.to_nat i) mem !! Z.to_nat j.
Proof.
  intros. unfold rd. destruct (Z.ltb_spec (i + j) 0); [lia|].
  rewrite lookup_drop. f_equal. lia.
Qed.

Lemma snoc_cons {A} (l : list A) x k : l ++ x :: k = (l ++ [x]) ++ k.
Proof. by rewrite <- app_assoc. Qed.

Lemma rd_middle l x k : rd (l ++ x :: k) (zlen l) = Some x.
Proof.
  unfold rd, zlen. rewrite (proj2 (Z.ltb_ge _ _)), Nat2Z.id by lia. by apply list_lookup_middle.
Qed.

Lemma rdn_spec mem i n :
  0 <= i -> 0 <= n -> i + n <= zlen mem ->
  rdn mem i n = Some (take (Z.to_nat n) (drop (Z.to_nat i) mem)).
Proof. intros. unfold rdn. by rewrite bool_decide_eq_true_2. Qed.

Lemma rdn_whole (l : list Z) : rdn l 0 (zlen l) = Some l.
Proof.
  rewrite rdn_spec by (pose proof (zlen_nonneg l); lia). change (Z.to_nat 0) with 0%nat. rewrite drop_0.
  unfold zlen. by rewrite Nat2Z.id, firstn_all.
Qed.

Lemma rdn_Some mem i n l :
  rdn mem i n = Some l ->
  0 <= i /\ 0 <= n /\ i + n <= zlen mem /\
  l = take (Z.to_nat n) (drop (Z.to_nat i) mem).
Proof. unfold rdn. case_bool_decide; [|done]. intros [= <-]. tauto. Qed.

Lemma rdn_zlen mem i n l : rdn mem i n = Some l -> zlen l = n.
Proof.
  intros (Hi & Hn & Hb & ->)%rdn_Some. rewrite zlen_take; [done|].
  rewrite zlen_drop by lia. lia.
Qed.

(** Reading a non-empty string byte by byte. *)
Lemma rdn_cons mem i x l n :
  rdn mem i (1 + n) = Some (x :: l) -> 0 <= n ->
  rd mem i = Some x /\ rdn mem (i + 1) n = Some l.
Proof.
  intros (Hi & Hn & Hb & Heq)%rdn_Some H.
  replace (Z.to_nat (1 + n)) with (S (Z.to_nat n)) in Heq by lia.
  destruct (drop (Z.to_nat i) mem) as [|y r] eqn:E; [done|].
  simpl in Heq. injection Heq as -> ->. split.
  - replace i with (i + 0) by lia. rewrite rd_drop, E by lia. done.
  - rewrite rdn_spec by lia. f_equal.
    replace (Z.to_nat (i + 1)) with (Z.to_nat i + 1)%nat by lia.
    rewrite <- drop_drop, E. done.
Qed.

Lemma wr_spec mem i v : 0 <= i < zlen mem -> wr mem i v = Some (<[Z.to_nat i := v]> mem).
Proof. intros. unfold wr. by rewrite bool_decide_eq_true_2. Qed.

Lemma wr_middle l x k v : wr (l ++ x :: k) (zlen l) v = Some (l ++ v :: k).
Proof.
  rewrite wr_spec by (rewrite zlen_app, zlen_cons; pose proof (zlen_nonneg l);
                      pose proof (zlen_nonneg k); lia).
  unfold zlen. rewrite Nat2Z.id, <- (Nat.add_0_r (length l)). by rewrite insert_app_r.
Qed.

Lemma wrn_spec mem i vs :
  0 <= i -> i + zlen vs <= zlen mem ->
  wrn mem i vs = Some (take (Z.to_nat i) mem ++ vs ++ drop (Z.to_nat i + length vs) mem).
Proof. intros. unfold wrn. by rewrite bool_decide_eq_true_2. Qed.

Lemma wr_length mem i v mem' : wr mem i v = Some mem' -> zlen mem' = zlen mem.
Proof.
  unfold wr. case_bool_decide; [|done]. intros [= <-].
  unfold zlen. by rewrite length_insert.
Qed.

Lemma wrn_length mem i vs mem' : wrn mem i vs = Some mem' -> zlen mem' = zlen mem.
Proof.
  unfold wrn. case_bool_decide as H; [|done]. intros [= <-].
  unfold zlen in *. rewrite !length_app, length_take, length_drop. lia.
Qed.

End Memory.

Section BigEndian.

Lemma bytes_ok_app l k : bytes_ok (l ++ k) <-> bytes_ok l /\ bytes_ok k.
Proof. apply Forall_app. Qed.

Lemma be_val_acc l a :
  fold_left (fun acc b => acc * 256 + b) l a = a * 256 ^ zlen l + be_val l.
Proof.
  unfold be_val. revert a. induction l as [|x l IH]; intros a; simpl.
  { rewrite zlen_nil. lia. }
  rewrite (IH (a * 256 + x)), (IH (0 * 256 + x)), zlen_cons, Z.pow_add_r by (pose proof (zlen_nonneg l); lia).
  lia.
Qed.

Lemma be_val_app l k : be_val (l ++ k) = be_val l * 256 ^ zlen k + be_val k.
Proof. unfold be_val at 1. rewrite fold_left_app. apply be_val_acc. Qed.

Lemma be_val_bound l : bytes_ok l -> 0 <= be_val l < 256 ^ zlen l.
Proof.
  induction l as [|x l IH] using rev_ind; intros H.
  { vm_compute. by split. }
  apply bytes_ok_app in H as [Hl Hx]. inversion Hx as [|?? Hb _]; subst.
  specialize (IH Hl). unfold byte_ok in Hb.
  rewrite be_val_app, zlen_app, Z.pow_add_r by (pose proof (zlen_nonneg l); len_lia).
  change (zlen [x]) with 1. change (be_val [x]) with x. nia.
Qed.

Lemma length_be_bytes n v : length (be_bytes n v) = n.
Proof.
  revert v. induction n as [|n IH]; intros v; simpl; [done|].
  rewrite length_app, IH. simpl. lia.
Qed.

Lemma zlen_be_bytes n v : zlen (be_bytes n v) = Z.of_nat n.
Proof. unfold zlen. by rewrite length_be_bytes. Qed.

Lemma bytes_ok_be_bytes n v : bytes_ok (be_bytes n v).
Proof.
  revert v. induction n as [|n IH]; intros v; simpl; [constructor|].
  apply bytes_ok_app. split; [apply IH|].
  repeat constructor; apply Z.mod_pos_bound; lia.
Qed.

Lemma be_val_be_bytes n v : be_val (be_bytes n v) = v `mod` 256 ^ Z.of_nat n.
Proof.
  revert v. induction n as [|n IH]; intros v.
  { simpl. by rewrite Z.mod_1_r. }
  cbn [be_bytes]. rewrite be_val_app, IH. change (zlen [_]) with 1.
  change (be_val [v `mod` 256]) with (v `mod` 256).
  rewrite Nat2Z.inj_succ, Z.pow_succ_r by lia.
  rewrite Z.rem_mul_r by lia. lia.
Qed.

Lemma be_bytes_be_val l : bytes_ok l -> be_bytes (length l) (be_val l) = l.
Proof.
  induction l as [|x l IH] using rev_ind; intros H; [done|].
  apply bytes_ok_app in H as [Hl Hx]. inversion Hx as [|?? Hb _]; subst.
  unfold byte_ok in Hb.
  rewrite length_app, Nat.add_comm. cbn [length Nat.add be_bytes].
  rewrite be_val_app. change (zlen [x]) with 1. change (be_val [x]) with x.
  rewrite Z.pow_1_r, Z.div_add_l, (Z.div_small x), Z.add_0_r by lia.
  rewrite (Z.add_comm (_ * 256)), Z.mod_add, (Z.mod_small x) by lia.
  by rewrite IH.
Qed.

(** Assembling a word from parts that do not overlap: [lor] is [+]. *)
Lemma lor_shiftl_add a b k :
  0 <= k -> 0 <= b < 2 ^ k -> Z.lor (Z.shiftl a k) b = a * 2 ^ k + b.
Proof.
  intros Hk Hb. rewrite <- Z.shiftl_mul_pow2 by lia. symmetry.
  apply Z.add_nocarry_lor. apply Z.bits_inj'. intros i Hi.
  rewrite Z.land_spec, Z.bits_0. destruct (Z.lt_ge_cases i k).
  - by rewrite Z.shiftl_spec_low.
  - rewrite <- (Z.mod_small b (2 ^ k)) by lia.
    rewrite Z.mod_pow2_bits_high by lia. apply andb_false_r.
Qed.

End BigEndian.

Create HintDb tls.
#[export] Hint Resolve bytes_ok_be_bytes : tls.

Section Truncation.

Lemma u32_small x : 0 <= x < 2 ^ 32 -> u32 x = x.
Proof. apply Z.mod_small. Qed.

Lemma u64_small x : 0 <= x < 2 ^ 64 -> u64 x = x.
Proof. apply Z.mod_small. Qed.

Lemma sz_small x : 0 <= x <= SIZE_MAX -> sz x = x.
Proof. unfold SIZE_MAX. intros. apply Z.mod_small. lia. Qed.

Lemma SIZE_MAX_half : SIZE_MAX / 2 = 2 ^ 63 - 1.
Proof. reflexivity. Qed.

Lemma s32_small x : 0 <= x < 2 ^ 31 -> s32 x = x.
Proof.
  intros Hx. unfold s32, u32. rewrite Z.mod_small by lia. by rewrite (proj2 (Z.ltb_lt _ _)) by lia.
Qed.

Lemma sz_range x : 0 <= sz x <= SIZE_MAX.
Proof. unfold sz, SIZE_MAX. pose proof (Z.mod_pos_bound x (2 ^ 64)). lia. Qed.

End Truncation.

(** ** Words assembled from bytes with shifts *)

Section Words.

Lemma land_255 x : Z.land x 255 = x `mod` 256.
Proof. change 255 with (Z.ones 8). by rewrite Z.land_ones. Qed.

(** Flags. *)

Lemma has_bits_lor x a b : has_bits x (Z.lor a b) = has_bits x a || has_bits x b.
Proof.
  unfold has_bits, truth. rewrite Z.land_lor_distr_r.
  destruct (Z.eqb_spec (Z.lor (Z.land x a) (Z.land x b)) 0) as [E|E];
    rewrite Z.lor_eq_0_iff in E;
    destruct (Z.eqb_spec (Z.land x a) 0), (Z.eqb_spec (Z.land x b) 0); simpl; tauto.
Qed.

Lemma has_bits_pow2 x n : 0 <= n -> has_bits x (2 ^ n) = Z.testbit x n.
Proof.
  intros Hn. unfold has_bits, truth.
  destruct (Z.testbit x n) eqn:E; [apply negb_true_iff, Z.eqb_neq|apply negb_false_iff, Z.eqb_eq].
  - intros H. apply (f_equal (fun y => Z.testbit y n)) in H.
    by rewrite Z.land_spec, E, Z.pow2_bits_true, Z.bits_0 in H.
  - apply Z.bits_inj'. intros i Hi. rewrite Z.land_spec, Z.bits_0, Z.pow2_bits_eqb by done.
    destruct (Z.eqb_spec n i) as [<-|]; [by rewrite E|apply andb_false_r].
Qed.

(** [x lor b] where [x] is a multiple of [2 ^ k] and [b] fits below. *)
Lemma lor_add x a b k :
  0 <= k -> 0 <= b < 2 ^ k -> x = a * 2 ^ k -> Z.lor x b = x + b.
Proof. intros Hk Hb ->. rewrite <- Z.shiftl_mul_pow2 by lia. by rewrite lor_shiftl_add, Z.shiftl_mul_pow2. Qed.

Lemma u64_shl_byte b k : byte_ok b -> 0 <= k <= 56 -> u64 (Z.shiftl b k) = b * 2 ^ k.
Proof.
  unfold byte_ok. intros Hb Hk. rewrite Z.shiftl_mul_pow2 by lia. apply u64_small.
  assert (0 < 2 ^ k <= 2 ^ 56) by (split; [lia|apply Z.pow_le_mono_r; lia]).
  change (2 ^ 64) with (256 * 2 ^ 56). nia.
Qed.

Lemma u32_shl_byte b k : byte_ok b -> 0 <= k <= 24 -> u32 (Z.shiftl b k) = b * 2 ^ k.
Proof.
  unfold byte_ok. intros Hb Hk. rewrite Z.shiftl_mul_pow2 by lia. apply u32_small.
  assert (0 < 2 ^ k <= 2 ^ 24) by (split; [lia|apply Z.pow_le_mono_r; lia]).
  change (2 ^ 32) with (256 * 2 ^ 24). nia.
Qed.

Lemma word_be_2 a b :
  byte_ok a -> byte_ok b -> Z.lor (u32 (Z.shiftl a 8)) b = be_val [a; b].
Proof.
  intros Ha Hb. rewrite u32_shl_byte by (done || lia). unfold byte_ok in *.
  rewrite (lor_add _ a b 8) by lia. unfold be_val. simpl. lia.
Qed.

Lemma word_be_3 a b c :
  byte_ok a -> byte_ok b -> byte_ok c ->
  Z.lor (Z.lor (u64 (Z.shiftl a 16)) (u64 (Z.shiftl b 8))) c = be_val [a; b; c].
Proof.
  intros Ha Hb Hc. rewrite !u64_shl_byte by (done || lia). unfold byte_ok in *.
  rewrite (lor_add (a * 2 ^ 16) a _ 16) by lia.
  rewrite (lor_add _ (a * 2 ^ 8 + b) c 8) by lia. unfold be_val. simpl. lia.
Qed.

Lemma word_be_4 a b c d :
  byte_ok a -> byte_ok b -> byte_ok c -> byte_ok d ->
  Z.lor (Z.lor (Z.lor (u64 (Z.shiftl a 24)) (u64 (Z.shiftl b 16))) (u64 (Z.shiftl c 8))) d
  = be_val [a; b; c; d].
Proof.
  intros Ha Hb Hc Hd. rewrite !u64_shl_byte by (done || lia). unfold byte_ok in *.
  rewrite (lor_add (a * 2 ^ 24) a _ 24) by lia.
  rewrite (lor_add _ (a * 2 ^ 8 + b) (c * 2 ^ 8) 16) by lia.
  rewrite (lor_add _ (a * 2 ^ 16 + b * 2 ^ 8 + c) d 8) by lia. unfold be_val. simpl. lia.
Qed.

Lemma word_le_4 a b c d :
  byte_ok a -> byte_ok b -> byte_ok c -> byte_ok d ->
  Z.lor (Z.lor (Z.lor a (u64 (Z.shiftl b 8))) (u64 (Z.shiftl c 16))) (u64 (Z.shiftl d 24))
  = be_val [d; c; b; a].
Proof.
  intros Ha Hb Hc Hd.
  rewrite Z.lor_comm, (Z.lor_comm _ (u64 (Z.shiftl c 16))), (Z.lor_comm a), !Z.lor_assoc.
  by apply word_be_4.
Qed.

End Words.
