(* ===== verification/Mem.v ===== *)
(** * Allocation and byte-string helpers of libcrypto

    [src/crypto/mem.c], [src/crypto/o_str.c] and [CRYPTO_memcmp] of
    [src/crypto/cryptlib.c].  A heap block is the list of its bytes; a pointer
    into a block is an offset, and the null pointer is [None].  The C library's
    [malloc] is the interface [Malloc]: whether a request of [n] bytes succeeds,
    and the indeterminate contents of the block it returns, are arbitrary. *)

From S2P Require Import Prelude.

(** The C library's allocator. *)
Class Malloc := {
  malloc : Z -> option (list Z);
  malloc_zlen n blk : 0 <= n -> malloc n = Some blk -> zlen blk = n
}.

Definition INT_MAX : Z := 2 ^ 31 - 1.

(** ** Allocation, [crypto/mem.c] *)

Section Alloc.
Context `{Malloc}.

(** No allocator was installed with [CRYPTO_set_mem_functions]. *)
Definition CRYPTO_malloc (num : Z) : option (list Z) :=
  if num =? 0 then None else malloc num.

Definition CRYPTO_zalloc (num : Z) : option (list Z) :=
  match CRYPTO_malloc num with
  | Some ret => Some (replicate (length ret) 0)
  | None => None
  end.

(** [realloc] keeps the common prefix of the two blocks. *)
Definition realloc (str : list Z) (num : Z) : option (list Z) :=
  match malloc num with
  | Some ret =>
      let n := Nat.min (length str) (length ret) in
      Some (take n str ++ drop n ret)
  | None => None
  end.

Definition CRYPTO_realloc (str : option (list Z)) (num : Z) : option (list Z) :=
  match str with
  | None => CRYPTO_malloc num
  | Some blk => if num =? 0 then None else realloc blk num
  end.

(** [OPENtls_cleanse] overwrites with zeros.  The outer [option] is undefined
    behaviour, the inner one the null pointer. *)
Definition CRYPTO_clear_realloc (str : option (list Z)) (old_len num : Z)
  : option (option (list Z)) :=
  match str with
  | None => Some (CRYPTO_malloc num)
  | Some blk =>
      if num =? 0 then Some None
      else if num <? old_len then
        blk' ← wrn blk num (replicate (Z.to_nat (old_len - num)) 0);
        Some (Some blk')
      else
        match CRYPTO_malloc num with
        | None => Some None
        | Some ret =>
            src ← rdn blk 0 old_len;
            ret' ← wrn ret 0 src;
            Some (Some ret')
        end
  end.

End Alloc.

(** ** Comparison in constant time, [crypto/cryptlib.c] *)

(** One pass of the loop per byte; [a] and [b] are read at [oa + i], [ob + i]. *)
Fixpoint memcmp_loop (a b : list Z) (oa ob : Z) (n : nat) (x : Z) : option Z :=
  match n with
  | O => Some x
  | S m =>
      va ← rd a oa;
      vb ← rd b ob;
      memcmp_loop a b (oa + 1) (ob + 1) m (u8 (Z.lor x (Z.lxor va vb)))
  end.

Definition CRYPTO_memcmp (a : list Z) (oa : Z) (b : list Z) (ob len : Z) : option Z :=
  memcmp_loop a b oa ob (Z.to_nat len) 0.

(** ** Strings, [crypto/o_str.c] *)

(** [for (p = str; maxlen-- != 0 && *p != 0; ++p);] the result is [p - str]. *)
Fixpoint strnlen_loop (mem : list Z) (p : Z) (maxlen : nat) (count : Z) : option Z :=
  match maxlen with
  | O => Some count
  | S m =>
      c ← rd mem p;
      if c =? 0 then Some count else strnlen_loop mem (p + 1) m (count + 1)
  end.

Definition OPENtls_strnlen (mem : list Z) (str : Z) (maxlen : Z) : option Z :=
  strnlen_loop mem str (Z.to_nat maxlen) 0.

Section Dup.
Context `{Malloc}.

Definition CRYPTO_strndup (mem : list Z) (str : option Z) (s : Z)
  : option (option (list Z)) :=
  match str with
  | None => Some None
  | Some p =>
      maxlen ← OPENtls_strnlen mem p s;
      match CRYPTO_malloc (sz (maxlen + 1)) with
      | None => Some None
      | Some ret =>
          src ← rdn mem p maxlen;
          ret1 ← wrn ret 0 src;
          ret2 ← wr ret1 maxlen 0;
          Some (Some ret2)
      end
  end.

Definition CRYPTO_memdup (mem : list Z) (data : option Z) (siz : Z)
  : option (option (list Z)) :=
  match data with
  | None => Some None
  | Some p =>
      if INT_MAX <=? siz then Some None
      else
        match CRYPTO_malloc siz with
        | None => Some None
        | Some ret =>
            src ← rdn mem p siz;
            ret1 ← wrn ret 0 src;
            Some (Some ret1)
        end
  end.

End Dup.

(** ** Two allocators *)

(** An allocator that always succeeds and returns zeroed memory. *)
#[refine] Definition generous_malloc : Malloc :=
  {| malloc n := Some (replicate (Z.to_nat n) 0) |}.
Proof. intros n blk Hn [= <-]. rewrite zlen_replicate. lia. Defined.

(** An allocator that always fails. *)
#[refine] Definition exhausted_malloc : Malloc := {| malloc n := None |}.
Proof. done. Defined.

(** ** Specification functions *)

(** The bytes before the first NUL, at most all of them. *)
Fixpoint c_prefix (l : list Z) : list Z :=
  match l with
  | [] => []
  | c :: r => if c =? 0 then [] else c :: c_prefix r
  end.

(** ** Lemmas *)

Section AllocLemmas.
Context `{Malloc}.

Lemma CRYPTO_malloc_zlen n blk : 0 <= n -> CRYPTO_malloc n = Some blk -> zlen blk = n.
Proof.
  unfold CRYPTO_malloc. intros Hn. destruct (n =? 0); [done|]. by apply malloc_zlen.
Qed.

Lemma CRYPTO_realloc_zlen str n blk :
  0 <= n -> CRYPTO_realloc str n = Some blk -> zlen blk = n.
Proof.
  intros Hn. destruct str as [old|]; simpl; [|by apply CRYPTO_malloc_zlen].
  destruct (n =? 0); [done|]. unfold realloc.
  destruct (malloc n) as [ret|] eqn:E; [|done]. intros [= <-].
  apply malloc_zlen in E; [|done]. unfold zlen in *.
  rewrite length_app, length_take, length_drop. lia.
Qed.

(** A block that grows keeps its contents. *)
Lemma CRYPTO_realloc_prefix old n blk :
  zlen old <= n -> CRYPTO_realloc (Some old) n = Some blk ->
  exists fresh, blk = old ++ fresh.
Proof.
  intros Hn. simpl. destruct (n =? 0); [done|]. unfold realloc.
  destruct (malloc n) as [ret|] eqn:E; [|done]. intros [= <-].
  apply malloc_zlen in E; [|pose proof (zlen_nonneg old); lia]. unfold zlen in *.
  eexists. rewrite take_ge by lia. reflexivity.
Qed.

Lemma CRYPTO_clear_realloc_grow old n r :
  zlen old <= n -> 0 < n -> CRYPTO_clear_realloc (Some old) (zlen old) n = Some r ->
  match r with
  | Some blk => zlen blk = n /\ exists fresh, blk = old ++ fresh
  | None => True
  end.
Proof.
  intros Hn Hp. simpl. rewrite (proj2 (Z.eqb_neq n 0)), (proj2 (Z.ltb_ge n (zlen old))) by lia.
  destruct (CRYPTO_malloc n) as [ret|] eqn:E; [|by intros [= <-]].
  apply CRYPTO_malloc_zlen in E; [|lia].
  rewrite rdn_spec by (pose proof (zlen_nonneg old); lia). simpl.
  change (Z.to_nat 0) with 0%nat. rewrite drop_0, take_ge by len_lia.
  rewrite wrn_spec by lia. simpl. intros [= <-].
  split; [|by eexists]. rewrite zlen_app.
  replace (length old) with (Z.to_nat (zlen old)) by len_lia.
  rewrite zlen_drop by (pose proof (zlen_nonneg old); lia). lia.
Qed.

End AllocLemmas.

Section MemcmpLemmas.

Lemma log2_byte x : byte_ok x -> Z.log2 x < 8.
Proof.
  unfold byte_ok. intros. destruct (Z.eq_dec x 0) as [->|]; [done|].
  apply Z.log2_lt_pow2; lia.
Qed.

Lemma byte_lor_lxor x a b :
  byte_ok x -> byte_ok a -> byte_ok b -> byte_ok (Z.lor x (Z.lxor a b)).
Proof.
  intros Hx Ha Hb.
  pose proof (log2_byte _ Hx). pose proof (log2_byte _ Ha). pose proof (log2_byte _ Hb).
  unfold byte_ok in *.
  assert (Hab : 0 <= Z.lxor a b) by (apply Z.lxor_nonneg; lia).
  assert (Hr : 0 <= Z.lor x (Z.lxor a b)) by (apply Z.lor_nonneg; lia).
  split; [done|]. destruct (Z.eq_dec (Z.lor x (Z.lxor a b)) 0); [lia|].
  change 256 with (2 ^ 8). apply Z.log2_lt_pow2; [lia|].
  rewrite Z.log2_lor by lia. pose proof (Z.log2_lxor a b ltac:(lia) ltac:(lia)). lia.
Qed.

Lemma memcmp_loop_spec a b oa ob l k x :
  rdn a oa (zlen l) = Some l -> rdn b ob (zlen l) = Some k ->
  bytes_ok l -> bytes_ok k -> byte_ok x ->
  exists r, memcmp_loop a b oa ob (length l) x = Some r /\ (r = 0 <-> x = 0 /\ l = k).
Proof.
  revert k x oa ob.
  induction l as [|y l IH]; intros k x oa ob Ha Hb Hl Hk Hx;
    pose proof (rdn_zlen _ _ _ _ Hb) as Hlen.
  { destruct k; [|len_lia]. exists x. simpl. split; [done|]. tauto. }
  destruct k as [|z k]; [len_lia|].
  inversion Hl as [|?? Hy Hl']; subst. inversion Hk as [|?? Hz Hk']; subst.
  rewrite zlen_cons in Ha, Hb. pose proof (zlen_nonneg l) as Hn.
  apply rdn_cons in Ha as [Ra Ha]; [|done]. apply rdn_cons in Hb as [Rb Hb]; [|done].
  cbn [length memcmp_loop]. rewrite Ra, Rb. simpl.
  pose proof (byte_lor_lxor x y z Hx Hy Hz) as Hok.
  unfold u8. rewrite Z.mod_small by (unfold byte_ok in Hok; lia).
  destruct (IH k _ _ _ Ha Hb Hl' Hk' Hok) as (r & Hr & Hiff).
  exists r. split; [done|]. rewrite Hiff, Z.lor_eq_0_iff, Z.lxor_eq_0_iff.
  split; [intros [[? ->] ->]; done|intros [? [= -> ->]]; done].
Qed.

(** [CRYPTO_memcmp] is zero exactly when the two strings agree. *)
Lemma CRYPTO_memcmp_spec a b oa ob l k :
  rdn a oa (zlen l) = Some l -> rdn b ob (zlen l) = Some k ->
  bytes_ok l -> bytes_ok k ->
  exists r, CRYPTO_memcmp a oa b ob (zlen l) = Some r /\ (r = 0 <-> l = k).
Proof.
  intros Ha Hb Hl Hk. unfold CRYPTO_memcmp.
  replace (Z.to_nat (zlen l)) with (length l) by (unfold zlen; lia).
  destruct (memcmp_loop_spec a b oa ob l k 0) as (r & Hr & Hiff); try done.
  exists r. split; [done|]. rewrite Hiff. tauto.
Qed.

End MemcmpLemmas.

Section StrnlenLemmas.

Lemma strnlen_loop_spec mem p l c :
  rdn mem p (zlen l) = Some l ->
  strnlen_loop mem p (length l) c = Some (c + zlen (c_prefix l)).
Proof.
  revert p c. induction l as [|x l IH]; intros p c Hp; simpl.
  { f_equal. rewrite zlen_nil. lia. }
  rewrite zlen_cons in Hp. pose proof (zlen_nonneg l).
  apply rdn_cons in Hp as [-> Hp]; [|done]. simpl.
  destruct (x =? 0).
  { f_equal. rewrite zlen_nil. lia. }
  rewrite (IH _ _ Hp), zlen_cons. f_equal. lia.
Qed.

Lemma OPENtls_strnlen_spec mem p l :
  rdn mem p (zlen l) = Some l ->
  OPENtls_strnlen mem p (zlen l) = Some (zlen (c_prefix l)).
Proof.
  intros Hp. unfold OPENtls_strnlen.
  replace (Z.to_nat (zlen l)) with (length l) by (unfold zlen; lia).
  by rewrite (strnlen_loop_spec _ _ _ _ Hp).
Qed.

Lemma c_prefix_length l : zlen (c_prefix l) <= zlen l.
Proof.
  induction l as [|x l IH]; simpl; [done|].
  destruct (x =? 0); rewrite ?zlen_cons, ?zlen_nil; pose proof (zlen_nonneg l); lia.
Qed.

Lemma c_prefix_take l : c_prefix l = take (length (c_prefix l)) l.
Proof. induction l as [|x l IH]; simpl; [done|]. destruct (x =? 0); simpl; congruence. Qed.

End StrnlenLemmas.
