(* ===== verification/LHash.v ===== *)
(** * The hash table

    [src/crypto/lhash/lhash.c]: linear hashing.  The table has [num_nodes] chains of
    which the first [p] have already been split; inserting may split the next
    chain, deleting may put the last one back, and the array is doubled or halved
    when all chains have been split or none.  The array is the list of its chains and
    a chain the list of its nodes; the statistics are kept as the code keeps them. *)

From S2P Require Import Prelude Mem.
From stdpp Require Import gmap.
#[local] Open Scope Z_scope.
#[local] Open Scope tls_scope.

Definition MIN_NODES : Z := 16.
Definition LH_LOAD_MULT : Z := 256.
Definition UP_LOAD : Z := 2 * LH_LOAD_MULT.
Definition DOWN_LOAD : Z := LH_LOAD_MULT.
Definition sizeof_LH_NODE : Z := 24.
Definition sizeof_LHASH : Z := 176.
Definition sizeof_pointer : Z := 8.

Record LH_NODE {D : Type} := mk_LH_NODE { node_data : D; node_hash : Z }.
Arguments LH_NODE : clear implicits.

(** The comparison and the hash function are parameters of the operations. *)
Record LHASH {D : Type} := mk_LHASH {
  lh_b : list (list (LH_NODE D));
  num_nodes : Z;
  num_alloc_nodes : Z;
  lh_p : Z;
  lh_pmax : Z;
  up_load : Z;
  down_load : Z;
  num_items : Z;
  num_expands : Z;
  num_expand_reallocs : Z;
  num_contracts : Z;
  num_contract_reallocs : Z;
  num_hash_calls : Z;
  num_comp_calls : Z;
  num_insert : Z;
  num_replace : Z;
  num_delete : Z;
  num_no_delete : Z;
  num_retrieve : Z;
  num_retrieve_miss : Z;
  num_hash_comps : Z;
  lh_error : Z
}.
Arguments LHASH : clear implicits.
#[export] Instance eta_LHASH {D} : Eta (LHASH D) := fun r =>
  mk_LHASH _ (lh_b r) (num_nodes r) (num_alloc_nodes r) (lh_p r) (lh_pmax r) (up_load r) (down_load r)
    (num_items r) (num_expands r) (num_expand_reallocs r) (num_contracts r) (num_contract_reallocs r)
    (num_hash_calls r) (num_comp_calls r) (num_insert r) (num_replace r) (num_delete r) (num_no_delete r)
    (num_retrieve r) (num_retrieve_miss r) (num_hash_comps r) (lh_error r).

(** Counting up an [unsigned long]. *)
Definition ul_succ (n : Z) : Z := u64 (n + 1).

Section Table.
Context `{Malloc} {D : Type} (comp : D -> D -> Z) (hash : D -> Z).

(** [None] is the null pointer. *)
Definition OPENtls_LH_new : option (LHASH D) :=
  match CRYPTO_zalloc sizeof_LHASH with
  | None => None
  | Some _ =>
      match CRYPTO_zalloc (sizeof_pointer * MIN_NODES) with
      | None => None
      | Some _ =>
          Some (mk_LHASH _ (replicate (Z.to_nat MIN_NODES) []) (MIN_NODES / 2) MIN_NODES 0 (MIN_NODES / 2)
                  UP_LOAD DOWN_LOAD 0 0 0 0 0 0 0 0 0 0 0 0 0 0 0)
      end
  end.

(** The nodes are freed, and the chains are empty. *)
Fixpoint flush_loop (n : nat) (b : list (list (LH_NODE D))) : list (list (LH_NODE D)) :=
  match n, b with
  | S n, _ :: b => [] :: flush_loop n b
  | _, _ => b
  end.

Definition OPENtls_LH_flush (lh : LHASH D) : LHASH D :=
  lh <| lh_b := flush_loop (Z.to_nat (num_nodes lh)) (lh_b lh) |>.

(** The loop of [getrn]: the position in the chain that it ends at, how many nodes it
    has looked at and how often it has called [comp]. *)
Fixpoint getrn_loop (chain : list (LH_NODE D)) (data : D) (h : Z) : nat * nat * nat :=
  match chain with
  | [] => (O, O, O)
  | n1 :: chain =>
      if negb (node_hash n1 =? h) then
        let '(i, c1, c2) := getrn_loop chain data h in (S i, S c1, c2)
      else if comp (node_data n1) data =? 0 then (O, 1, 1)%nat
      else let '(i, c1, c2) := getrn_loop chain data h in (S i, S c1, S c2)
  end.

(** Counting up [n] times. *)
Definition ul_count (c : Z) (n : nat) : Z := u64 (c + Z.of_nat n).

(** The cell that [getrn] returns a pointer to, as its chain and the position in it;
    the hash; and the table. *)
Definition getrn (lh : LHASH D) (data : D) : option (nat * nat * Z * LHASH D) :=
  let h := hash data in
  let nn := h `mod` lh_pmax lh in
  let nn := if nn <? lh_p lh then h `mod` num_alloc_nodes lh else nn in
  chain ← lh_b lh !! Z.to_nat nn;
  let '(i, c1, c2) := getrn_loop chain data h in
  Some (Z.to_nat nn, i, h,
        lh <| num_hash_calls ::= ul_succ |> <| num_hash_comps ::= fun c => ul_count c c1 |>
           <| num_comp_calls ::= fun c => ul_count c c2 |>).

(** The nodes of the chain [n1] that stay, and those that move to the front of [n2]. *)
Fixpoint split_loop (nni p : Z) (n1 n2 : list (LH_NODE D)) : list (LH_NODE D) * list (LH_NODE D) :=
  match n1 with
  | [] => ([], n2)
  | np :: n1 =>
      if negb (node_hash np `mod` nni =? p) then split_loop nni p n1 (np :: n2)
      else let '(n1, n2) := split_loop nni p n1 n2 in (np :: n1, n2)
  end.

(** Whether the array can be made [n] pointers large. *)
Definition realloc_b (n : Z) : bool :=
  match CRYPTO_realloc (Some []) n with Some _ => true | None => false end.

(** The array is made twice as large when all chains have been split. *)
Definition enlarge (lh : LHASH D) (j : Z) : LHASH D :=
  if lh_pmax lh <=? u32 (lh_p lh + 1)
  then lh <| lh_b ::= fun b => b ++ replicate (Z.to_nat (j - num_alloc_nodes lh)) [] |>
          <| lh_pmax := num_alloc_nodes lh |> <| num_alloc_nodes := j |>
          <| num_expand_reallocs ::= ul_succ |> <| lh_p := 0 |>
  else lh <| lh_p ::= fun p => u32 (p + 1) |>.

Definition expand (lh : LHASH D) : option (bool * LHASH D) :=
  let nni := num_alloc_nodes lh in
  let p := lh_p lh in
  let pmax := lh_pmax lh in
  let j := u32 (nni * 2) in
  if (pmax <=? u32 (p + 1)) && negb (realloc_b (sz (sizeof_pointer * j)))
  then Some (false, lh <| lh_error ::= fun e => e + 1 |>)
  else
    let lh := (enlarge lh j) <| num_nodes ::= fun n => u32 (n + 1) |> <| num_expands ::= ul_succ |> in
    n1 ← lh_b lh !! Z.to_nat p;
    _ ← lh_b lh !! Z.to_nat (u32 (p + pmax));
    let '(n1, n2) := split_loop nni p n1 [] in
    Some (true, lh <| lh_b ::= fun b => <[Z.to_nat p := n1]> (<[Z.to_nat (u32 (p + pmax)) := n2]> b) |>).

(** The array is made half as large when no chain has been split. *)
Definition shrink (lh : LHASH D) : LHASH D :=
  if lh_p lh =? 0
  then lh <| num_contract_reallocs ::= ul_succ |> <| num_alloc_nodes ::= fun n => n / 2 |>
          <| lh_pmax := lh_pmax lh / 2 |> <| lh_p := u32 (lh_pmax lh / 2 - 1) |>
          <| lh_b ::= take (Z.to_nat (lh_pmax lh)) |>
  else lh <| lh_p ::= fun p => u32 (p - 1) |>.

Definition contract (lh : LHASH D) : option (LHASH D) :=
  let last := Z.to_nat (u32 (u32 (lh_p lh + lh_pmax lh) - 1)) in
  np ← lh_b lh !! last;
  let lh := lh <| lh_b ::= <[last := []]> |> in
  if (lh_p lh =? 0) && negb (realloc_b (u32 (sizeof_pointer * lh_pmax lh)))
  then Some (lh <| lh_error ::= fun e => e + 1 |>)
  else
    let lh := (shrink lh) <| num_nodes ::= fun n => u32 (n - 1) |> <| num_contracts ::= ul_succ |> in
    n1 ← lh_b lh !! Z.to_nat (lh_p lh);
    Some (lh <| lh_b ::= <[Z.to_nat (lh_p lh) := n1 ++ np]> |>).

(** The load of the table. *)
Definition load (lh : LHASH D) : Z := u64 (num_items lh * LH_LOAD_MULT) / num_nodes lh.

(** Writing a chain. *)
Definition set_chain (nn : nat) (chain : list (LH_NODE D)) (lh : LHASH D) : LHASH D :=
  lh <| lh_b ::= <[nn := chain]> |>.

(** The result, [None] for the null pointer, and the table. *)
Definition OPENtls_LH_insert (lh : LHASH D) (data : D) : option (option D * LHASH D) :=
  let lh := lh <| lh_error := 0 |> in
  '(ok, lh) ← (if up_load lh <=? load lh then expand lh else Some (true, lh));
  if negb ok then Some (None, lh)
  else
    '(nn, i, h, lh) ← getrn lh data;
    chain ← lh_b lh !! nn;
    match chain !! i with
    | None =>
        match CRYPTO_malloc sizeof_LH_NODE with
        | None => Some (None, lh <| lh_error ::= fun e => e + 1 |>)
        | Some _ =>
            Some (None, (set_chain nn (chain ++ [mk_LH_NODE _ data h]) lh)
                          <| num_insert ::= ul_succ |> <| num_items ::= ul_succ |>)
        end
    | Some rn =>
        Some (Some (node_data rn),
              (set_chain nn (<[i := mk_LH_NODE _ data (node_hash rn)]> chain) lh) <| num_replace ::= ul_succ |>)
    end.

Definition OPENtls_LH_delete (lh : LHASH D) (data : D) : option (option D * LHASH D) :=
  let lh := lh <| lh_error := 0 |> in
  '(nn, i, h, lh) ← getrn lh data;
  chain ← lh_b lh !! nn;
  match chain !! i with
  | None => Some (None, lh <| num_no_delete ::= ul_succ |>)
  | Some rn =>
      let lh := (set_chain nn (delete i chain) lh) <| num_delete ::= ul_succ |>
                  <| num_items ::= fun n => u64 (n - 1) |> in
      lh ← (if (MIN_NODES <? num_nodes lh) && (load lh <=? down_load lh) then contract lh else Some lh);
      Some (Some (node_data rn), lh)
  end.

Definition OPENtls_LH_retrieve (lh : LHASH D) (data : D) : option (option D * LHASH D) :=
  let lh := lh <| lh_error := 0 |> in
  '(nn, i, h, lh) ← getrn lh data;
  chain ← lh_b lh !! nn;
  match chain !! i with
  | None => Some (None, lh <| num_retrieve_miss ::= ul_succ |>)
  | Some rn => Some (Some (node_data rn), lh <| num_retrieve ::= ul_succ |>)
  end.

(** The function is called for the data of every node, the last chain first. *)
Fixpoint doall_loop {S : Type} (f : D -> S -> S) (n : nat) (b : list (list (LH_NODE D))) (s : S) : option S :=
  match n with
  | O => Some s
  | S n => chain ← b !! n; doall_loop f n b (fold_left (fun s a => f (node_data a) s) chain s)
  end.

Definition doall_util_fn {S : Type} (lh : LHASH D) (f : D -> S -> S) (s : S) : option S :=
  doall_loop f (Z.to_nat (num_nodes lh)) (lh_b lh) s.

Definition OPENtls_LH_num_items (lh : option (LHASH D)) : Z :=
  match lh with Some lh => num_items lh | None => 0 end.

Definition OPENtls_LH_get_down_load (lh : LHASH D) : Z := down_load lh.
Definition OPENtls_LH_set_down_load (lh : LHASH D) (down : Z) : LHASH D := lh <| down_load := down |>.
Definition OPENtls_LH_error (lh : LHASH D) : Z := lh_error lh.

End Table.

(** ** Chains *)

Section Chains.
Context {D K : Type} `{Countable K} (key : D -> K).
Context (comp : D -> D -> Z) (hash : D -> Z) (h : K -> Z).
Context (comp_key : forall a b, comp a b = 0 <-> key a = key b) (hash_key : forall a, hash a = h (key a)).

(** The hash of a node is that of its data. *)
Definition rightly_hashed (nd : LH_NODE D) : Prop := node_hash nd = hash (node_data nd).

Definition key_of (nd : LH_NODE D) : K := key (node_data nd).

(** The search ends at the node with the key, or at the end of the chain. *)
Lemma getrn_loop_spec chain d : Forall rightly_hashed chain -> NoDup (map key_of chain) ->
  let i := (getrn_loop comp chain d (hash d)).1.1 in
  match chain !! i with
  | Some nd => key_of nd = key d
  | None => i = length chain /\ forall nd, nd ∈ chain -> key_of nd <> key d
  end.
Proof using comp_key hash_key.
  intros Hh Hnd. cbn zeta. induction chain as [|n1 chain IH]; [split; [done|]; intros nd []%not_elem_of_nil|].
  apply Forall_cons in Hh as [H1 Hh]. apply NoDup_cons in Hnd as [Hn1 Hnd]. specialize (IH Hh Hnd).
  cbn [getrn_loop]. unfold rightly_hashed in H1.
  assert (Hother : forall c1 c2 : nat, match (n1 :: chain) !! S (getrn_loop comp chain d (hash d)).1.1 with
      | Some nd => key_of nd = key d
      | None => S (getrn_loop comp chain d (hash d)).1.1 = length (n1 :: chain) /\
                (key_of n1 <> key d -> forall nd, nd ∈ n1 :: chain -> key_of nd <> key d)
      end).
  { intros _ _. cbn [lookup list_lookup]. destruct (chain !! _) eqn:E; [done|]. destruct IH as [-> IH].
    split; [done|]. intros Hne nd [->|Hin]%elem_of_cons; [done|]. by apply IH. }
  destruct (Z.eqb_spec (node_hash n1) (hash d)) as [Eh|Eh]; cbn [negb].
  - destruct (Z.eqb_spec (comp (node_data n1) d) 0) as [Ec|Ec].
    + cbn. by apply comp_key.
    + destruct (getrn_loop comp chain d (hash d)) as [[i c1] c2] eqn:E. cbn [fst] in *.
      specialize (Hother c1 c2). destruct ((n1 :: chain) !! S i); [done|]. destruct Hother as [-> Ho].
      split; [done|]. apply Ho. unfold key_of. by rewrite <- comp_key.
  - destruct (getrn_loop comp chain d (hash d)) as [[i c1] c2] eqn:E. cbn [fst] in *.
    specialize (Hother c1 c2). destruct ((n1 :: chain) !! S i); [done|]. destruct Hother as [-> Ho].
    split; [done|]. apply Ho. unfold key_of. intros Ek. apply Eh. rewrite H1, !hash_key. by rewrite Ek.
Qed.

(** Splitting a chain keeps its nodes. *)
Lemma split_loop_spec nni p (chain : list (LH_NODE D)) : forall n2 l1 l2, split_loop nni p chain n2 = (l1, l2) ->
  l1 ++ l2 ≡ₚ chain ++ n2 /\
  Forall (fun nd : LH_NODE D => node_hash nd `mod` nni = p) l1 /\
  (forall nd, nd ∈ l2 -> nd ∈ n2 \/ nd ∈ chain /\ node_hash nd `mod` nni <> p) /\
  (forall nd, nd ∈ l1 -> nd ∈ chain).
Proof.
  induction chain as [|np chain IH]; intros n2 l1 l2 E; cbn [split_loop] in E.
  - injection E as <- <-. split; [done|]. split; [constructor|]. split; [auto|]. done.
  - destruct (Z.eqb_spec (node_hash np `mod` nni) p) as [Ep|Ep]; cbn [negb] in E.
    + destruct (split_loop nni p chain n2) as [k1 k2] eqn:Es. injection E as <- <-.
      destruct (IH _ _ _ Es) as (Hp & H1 & H2 & H3). split; [cbn; by rewrite Hp|].
      split; [by constructor|]. split.
      * intros nd Hnd. destruct (H2 nd Hnd) as [|[? ?]]; [by left|right]. split; [by apply list_elem_of_further|done].
      * intros nd [->|Hnd]%elem_of_cons; [by apply list_elem_of_here|]. apply list_elem_of_further. auto.
    + destruct (IH _ _ _ E) as (Hp & H1 & H2 & H3). split; [rewrite Hp; cbn; by rewrite Permutation_middle|].
      split; [done|]. split.
      * intros nd Hnd. destruct (H2 nd Hnd) as [[->|Hn]%elem_of_cons|[? ?]]; [right|by left|right].
        -- split; [by apply list_elem_of_here|done].
        -- split; [by apply list_elem_of_further|done].
      * intros nd Hnd. apply list_elem_of_further. auto.
Qed.

(** Replacing a chain of the table. *)
Lemma concat_insert {A} (b : list (list A)) i c c' : b !! i = Some c -> concat (<[i:=c']> b) ++ c ≡ₚ concat b ++ c'.
Proof.
  revert i. induction b as [|x b IH]; intros [|i] Hi; [done|done| |].
  - injection Hi as ->. cbn. rewrite (Permutation_app_comm c), (Permutation_app_comm c').
    rewrite <- !app_assoc, (Permutation_app_comm c' c). done.
  - cbn. rewrite <- !app_assoc. by rewrite IH.
Qed.

End Chains.

(** ** The addresses of linear hashing

    The chain of a hash when [p] of [pmax] chains have been split. *)
Definition chain_of (pmax p h : Z) : Z :=
  let nn := h `mod` pmax in if nn <? p then h `mod` (2 * pmax) else nn.

Lemma chain_of_bound pmax p h : 0 < pmax -> 0 <= p <= pmax -> 0 <= chain_of pmax p h < pmax + p.
Proof.
  intros Hm Hp. unfold chain_of. pose proof (Z.mod_pos_bound h pmax Hm).
  destruct (Z.ltb_spec (h `mod` pmax) p); [|lia].
  assert (Hr : h `mod` (2 * pmax) = h `mod` pmax + pmax * ((h / pmax) `mod` 2)).
  { rewrite (Z.mul_comm 2). rewrite Z.rem_mul_r by lia. lia. }
  pose proof (Z.mod_pos_bound (h / pmax) 2 ltac:(lia)). nia.
Qed.

(** Splitting chain [p]: its hashes go to [p] or [p + pmax], the others stay. *)
Lemma chain_of_split pmax p h : 0 < pmax -> 0 <= p < pmax ->
  (chain_of pmax p h = p -> h `mod` (2 * pmax) = p \/ h `mod` (2 * pmax) = p + pmax) /\
  chain_of pmax (p + 1) h = if chain_of pmax p h =? p then h `mod` (2 * pmax) else chain_of pmax p h.
Proof.
  intros Hm Hp. unfold chain_of. pose proof (Z.mod_pos_bound h pmax Hm).
  assert (Hr : h `mod` (2 * pmax) = h `mod` pmax + pmax * ((h / pmax) `mod` 2)).
  { rewrite (Z.mul_comm 2). rewrite Z.rem_mul_r by lia. lia. }
  pose proof (Z.mod_pos_bound (h / pmax) 2 ltac:(lia)).
  assert (Hc : (h / pmax) `mod` 2 = 0 \/ (h / pmax) `mod` 2 = 1) by lia.
  destruct (Z.ltb_spec (h `mod` pmax) p), (Z.ltb_spec (h `mod` pmax) (p + 1));
    destruct Hc as [Hc|Hc]; rewrite Hc in Hr; rewrite Hr;
    match goal with |- context [?a =? ?b] => destruct (Z.eqb_spec a b) end; try split; intros; try lia.
Qed.

(** All chains split is no chain split of twice as many. *)
Lemma chain_of_full pmax h : 0 < pmax -> chain_of pmax pmax h = chain_of (2 * pmax) 0 h.
Proof.
  intros Hm. unfold chain_of. pose proof (Z.mod_pos_bound h pmax Hm).
  pose proof (Z.mod_pos_bound h (2 * pmax) ltac:(lia)).
  by rewrite (proj2 (Z.ltb_lt _ _)), (proj2 (Z.ltb_ge _ 0)) by lia.
Qed.

(** ** The table *)

Section Correct.
Context {D K : Type} `{Countable K} (key : D -> K).
Context (comp : D -> D -> Z) (hash : D -> Z) (h : K -> Z).
Context (comp_key : forall a b, comp a b = 0 <-> key a = key b) (hash_key : forall a, hash a = h (key a)).
Context `{Malloc}.

#[local] Abbreviation node_key := (key_of key).
#[local] Abbreviation hashed_right := (rightly_hashed hash).

Definition nodes (lh : LHASH D) : list (LH_NODE D) := concat (lh_b lh).

(** The finite map that the table stands for. *)
Definition contents (lh : LHASH D) : gmap K D :=
  list_to_map (map (fun nd => (node_key nd, node_data nd)) (nodes lh)).

(** A table between two operations; it has less than 2^28 chains. *)
Record table_ok (lh : LHASH D) : Prop := {
  table_pmax : exists k, lh_pmax lh = 8 * 2 ^ Z.of_nat k;
  table_p : 0 <= lh_p lh < lh_pmax lh;
  table_alloc : num_alloc_nodes lh = 2 * lh_pmax lh;
  table_nodes : num_nodes lh = lh_pmax lh + lh_p lh;
  table_len : length (lh_b lh) = Z.to_nat (2 * lh_pmax lh);
  table_placed i c nd : lh_b lh !! i = Some c -> nd ∈ c ->
    i = Z.to_nat (chain_of (lh_pmax lh) (lh_p lh) (node_hash nd));
  table_hashed : Forall hashed_right (nodes lh);
  table_keys : NoDup (map node_key (nodes lh));
  table_items : num_items lh = zlen (nodes lh)
}.

(** What the invariant and the contents depend on. *)
Definition same_table (lh lh' : LHASH D) : Prop :=
  lh_b lh' = lh_b lh /\ num_nodes lh' = num_nodes lh /\ num_alloc_nodes lh' = num_alloc_nodes lh /\
  lh_p lh' = lh_p lh /\ lh_pmax lh' = lh_pmax lh /\ num_items lh' = num_items lh.

Lemma same_table_ok lh lh' : same_table lh lh' -> table_ok lh -> table_ok lh'.
Proof.
  intros (E1 & E2 & E3 & E4 & E5 & E6) [H1 H2 H3 H4 H5 H6 H7 H8 H9].
  split; unfold nodes in *; rewrite ?E1, ?E2, ?E3, ?E4, ?E5, ?E6; try done.
Qed.

Lemma pmax_pos lh : table_ok lh -> 8 <= lh_pmax lh.
Proof. intros Hok. destruct (table_pmax _ Hok) as [k ->]. assert (0 < 2 ^ Z.of_nat k) by lia. lia. Qed.

(** Reading the map. *)
Lemma contents_Some lh nd : NoDup (map node_key (nodes lh)) -> nd ∈ nodes lh ->
  contents lh !! node_key nd = Some (node_data nd).
Proof.
  intros Hnd Hin. apply elem_of_list_to_map.
  - rewrite <- list_fmap_compose. exact Hnd.
  - apply (list_elem_of_fmap_2 (fun nd => (node_key nd, node_data nd))) in Hin. exact Hin.
Qed.

Lemma contents_None lh k : (forall nd, nd ∈ nodes lh -> node_key nd <> k) -> contents lh !! k = None.
Proof.
  intros Hno. apply not_elem_of_list_to_map_1. rewrite <- list_fmap_compose.
  intros (nd & -> & Hin)%list_elem_of_fmap. by apply (Hno nd).
Qed.

Lemma contents_perm lh lh' : NoDup (map node_key (nodes lh)) -> nodes lh' ≡ₚ nodes lh ->
  contents lh' = contents lh.
Proof.
  intros Hnd Hp. unfold contents. apply list_to_map_proper; [|by rewrite Hp].
  rewrite <- list_fmap_compose. change (NoDup (map node_key (nodes lh'))). by rewrite Hp.
Qed.

Lemma elem_of_nodes (lh : LHASH D) nd : nd ∈ nodes lh <-> exists i c, lh_b lh !! i = Some c /\ nd ∈ c.
Proof.
  unfold nodes. rewrite list_elem_of_In, in_concat. split.
  - intros (c & Hc%list_elem_of_In & Hnd%list_elem_of_In). apply list_elem_of_lookup in Hc as [i Hi]. by exists i, c.
  - intros (i & c & Hi & Hnd). exists c. by split; apply list_elem_of_In; [eapply list_elem_of_lookup_2|].
Qed.

(** The chain for [d]. *)
Lemma chain_for lh d : table_ok lh -> exists c,
  lh_b lh !! Z.to_nat (chain_of (lh_pmax lh) (lh_p lh) (hash d)) = Some c /\
  Forall hashed_right c /\ NoDup (map node_key c) /\
  (forall nd, nd ∈ c -> nd ∈ nodes lh) /\
  (forall nd, nd ∈ nodes lh -> node_key nd = key d -> nd ∈ c).
Proof using hash_key.
  intros Hok. pose proof (pmax_pos _ Hok) as Hpm. pose proof (table_p _ Hok) as Hp.
  pose proof (chain_of_bound (lh_pmax lh) (lh_p lh) (hash d)) as Hb.
  destruct (lookup_lt_is_Some_2 (lh_b lh) (Z.to_nat (chain_of (lh_pmax lh) (lh_p lh) (hash d)))) as [c Hc].
  { rewrite (table_len _ Hok). lia. }
  assert (Hin : forall nd, nd ∈ c -> nd ∈ nodes lh).
  { intros nd Hnd. apply elem_of_nodes. by eexists _, c. }
  exists c. split; [done|]. split; [|split; [|split; [done|]]].
  - pose proof (table_hashed _ Hok) as Hh. rewrite Forall_forall in *. auto.
  - pose proof (table_keys _ Hok) as Hk. unfold nodes in Hk.
    apply take_drop_middle in Hc. rewrite <- Hc in Hk. rewrite concat_app in Hk. cbn in Hk.
    rewrite !map_app in Hk. apply NoDup_app in Hk as (_ & _ & Hk). by apply NoDup_app in Hk as (? & _).
  - intros nd Hnd Hkey. pose proof Hnd as (i & c' & Hi & Hndc)%elem_of_nodes. pose proof (table_placed _ Hok i c' nd Hi Hndc) as Hpl.
    assert (Hhash : node_hash nd = hash d).
    { pose proof (table_hashed _ Hok) as Hh. rewrite Forall_forall in Hh.
      rewrite (Hh nd Hnd), !hash_key. f_equal. exact Hkey. }
    rewrite Hhash in Hpl. subst i. rewrite Hc in Hi. congruence.
Qed.

(** The cell found: the node with the key of [d], or the end of the chain it would be in. *)
Lemma getrn_spec lh d : table_ok lh -> lh_pmax lh < 2 ^ 28 -> exists nn i c lh',
  getrn comp hash lh d = Some (nn, i, hash d, lh') /\ same_table lh lh' /\ up_load lh' = up_load lh /\
  down_load lh' = down_load lh /\ lh_error lh' = lh_error lh /\
  nn = Z.to_nat (chain_of (lh_pmax lh) (lh_p lh) (hash d)) /\ lh_b lh !! nn = Some c /\
  match c !! i with
  | Some nd => node_key nd = key d /\ contents lh !! key d = Some (node_data nd)
  | None => i = length c /\ contents lh !! key d = None
  end.
Proof using comp_key hash_key.
  intros Hok Hsmall. destruct (chain_for lh d Hok) as (c & Hc & Hh & Hnd & Hin & Hother).
  unfold getrn. rewrite (table_alloc _ Hok).
  change (if hash d `mod` lh_pmax lh <? lh_p lh then _ else _) with (chain_of (lh_pmax lh) (lh_p lh) (hash d)).
  rewrite Hc. cbn [mbind option_bind].
  pose proof (getrn_loop_spec key comp hash h comp_key hash_key c d Hh Hnd) as Hloop. cbn zeta in Hloop.
  destruct (getrn_loop comp c d (hash d)) as [[i c1] c2]. cbn [fst] in Hloop.
  do 4 eexists. split; [reflexivity|]. do 6 (split; [done|]). destruct (c !! i) as [nd|] eqn:Ei.
  - split; [done|]. rewrite <- Hloop. apply contents_Some; [by destruct Hok|]. apply Hin. by eapply list_elem_of_lookup_2.
  - destruct Hloop as [-> Hno]. split; [done|]. apply contents_None. intros nd Hnd' Hk.
    exact (Hno nd (Hother nd Hnd' Hk) Hk).
Qed.

(** The array can be made as large as it has to be. *)
Definition reallocs_ok : Prop := forall n, 0 < n < 2 ^ 34 -> realloc_b n = true.

Lemma nodes_expanded b i j c l1 l2 : b !! i = Some c -> b !! j = Some [] -> i <> j -> l1 ++ l2 ≡ₚ c ->
  concat (<[i := l1]> (<[j := l2]> b) : list (list (LH_NODE D))) ≡ₚ concat b.
Proof.
  intros Hi Hj Hij Hp. assert (Hi' : <[j := l2]> b !! i = Some c) by (by rewrite list_lookup_insert_ne).
  pose proof (concat_insert _ _ _ l1 Hi') as H1. pose proof (concat_insert _ _ _ l2 Hj) as H2.
  rewrite app_nil_r in H2. rewrite H2, <- Hp in H1. rewrite (Permutation_app_comm l1), app_assoc in H1.
  apply Permutation_app_inv_r in H1.
  apply (Permutation_app_inv_r l2). by rewrite H1.
Qed.

Definition placed (pmax p : Z) (b : list (list (LH_NODE D))) : Prop :=
  forall i c nd, b !! i = Some c -> nd ∈ c -> i = Z.to_nat (chain_of pmax p (node_hash nd)).

Lemma split_placed pmax p b c l1 l2 : 0 < pmax -> 0 <= p < pmax -> placed pmax p b ->
  b !! Z.to_nat p = Some c -> split_loop (2 * pmax) p c [] = (l1, l2) ->
  placed pmax (p + 1) (<[Z.to_nat p := l1]> (<[Z.to_nat (p + pmax) := l2]> b)).
Proof.
  intros Hm Hp Hpl Hc Hs. destruct (split_loop_spec _ _ _ _ _ _ Hs) as (_ & H1 & H2 & H3).
  rewrite Forall_forall in H1. intros i c' nd Hi Hnd.
  destruct (chain_of_split pmax p (node_hash nd) Hm Hp) as [Hor ->].
  pose proof (chain_of_bound pmax p (node_hash nd) Hm ltac:(lia)) as Hb.
  apply list_lookup_insert_Some in Hi as [(<- & <- & _)|(Hne & Hi)].
  - pose proof (Hpl _ _ _ Hc (H3 _ Hnd)) as E. apply Z2Nat.inj in E; [|lia|lia]. rewrite <- E, Z.eqb_refl, (H1 _ Hnd). done.
  - apply list_lookup_insert_Some in Hi as [(<- & <- & _)|(Hne' & Hi)].
    + destruct (H2 _ Hnd) as [Hnil|[Hin Hmod]]; [by apply not_elem_of_nil in Hnil|].
      pose proof (Hpl _ _ _ Hc Hin) as E. apply Z2Nat.inj in E; [|lia|lia]. rewrite <- E, Z.eqb_refl.
      destruct (Hor (eq_sym E)) as [Ex|Ex]; rewrite Ex in *; done.
    + pose proof (Hpl _ _ _ Hi Hnd) as E. destruct (Z.eqb_spec (chain_of pmax p (node_hash nd)) p) as [Ep|]; [|done].
      rewrite Ep in E. by destruct Hne.
Qed.

(** The chains that are not used yet are empty. *)
Lemma unused_empty pmax p b i c : 0 < pmax -> 0 <= p < pmax -> placed pmax p b -> b !! i = Some c ->
  pmax + p <= Z.of_nat i -> c = [].
Proof.
  intros Hm Hp Hpl Hi Hle. destruct c as [|nd c]; [done|].
  pose proof (Hpl _ _ _ Hi (list_elem_of_here _ _)) as E.
  pose proof (chain_of_bound pmax p (node_hash nd) Hm ltac:(lia)). lia.
Qed.

(** The nodes, with their hashes and keys, are the same. *)
Lemma same_nodes lh lh' : nodes lh' ≡ₚ nodes lh -> num_items lh' = num_items lh -> table_ok lh ->
  Forall hashed_right (nodes lh') /\ NoDup (map node_key (nodes lh')) /\ num_items lh' = zlen (nodes lh').
Proof.
  intros Hp Hn Hok. split; [|split].
  - rewrite Hp. by destruct Hok.
  - rewrite (Permutation_map node_key Hp). by destruct Hok.
  - rewrite Hn, (table_items _ Hok). unfold zlen. by rewrite Hp.
Qed.

(** What expanding gives when the array has room for the new chain. *)
Lemma expanded_ok lh lh' b0 c l1 l2 : table_ok lh ->
  (forall i c, b0 !! i = Some c -> lh_b lh !! i = Some c \/ c = []) ->
  b0 !! Z.to_nat (lh_p lh) = Some c -> concat b0 = nodes lh ->
  b0 !! Z.to_nat (lh_p lh + lh_pmax lh) = Some [] ->
  split_loop (2 * lh_pmax lh) (lh_p lh) c [] = (l1, l2) ->
  lh_b lh' = <[Z.to_nat (lh_p lh) := l1]> (<[Z.to_nat (lh_p lh + lh_pmax lh) := l2]> b0) ->
  placed (lh_pmax lh) (lh_p lh + 1) (lh_b lh') /\ nodes lh' ≡ₚ nodes lh.
Proof.
  intros Hok Hb0 Hc Hcat Hnew Hs E. pose proof (pmax_pos _ Hok) as Hpm. pose proof (table_p _ Hok) as Hp. split.
  - rewrite E. eapply split_placed; [lia|done| |done|done]. intros i c' nd Hi Hnd.
    destruct (Hb0 _ _ Hi) as [Hi'| ->]; [|by apply not_elem_of_nil in Hnd]. by apply (table_placed _ Hok i c').
  - unfold nodes at 1. rewrite E, <- Hcat. eapply nodes_expanded; [done|done|lia|].
    destruct (split_loop_spec _ _ _ _ _ _ Hs) as (Hperm & _). by rewrite app_nil_r in Hperm.
Qed.

(** The array after it was made larger, if need be: its size fits the next number of chains. *)
Lemma enlarge_spec lh : table_ok lh -> num_nodes lh < 2 ^ 28 ->
  let lh1 := enlarge lh (4 * lh_pmax lh) in
  lh_b lh1 = lh_b lh ++ (if lh_pmax lh <=? lh_p lh + 1 then replicate (Z.to_nat (2 * lh_pmax lh)) [] else []) /\
  num_nodes lh1 = num_nodes lh /\ num_items lh1 = num_items lh /\ up_load lh1 = up_load lh /\ lh_error lh1 = lh_error lh /\
  (exists k, lh_pmax lh1 = 8 * 2 ^ Z.of_nat k) /\ 0 <= lh_p lh1 < lh_pmax lh1 /\
  num_alloc_nodes lh1 = 2 * lh_pmax lh1 /\ lh_pmax lh1 + lh_p lh1 = num_nodes lh + 1 /\
  length (lh_b lh1) = Z.to_nat (2 * lh_pmax lh1) /\
  (forall b, placed (lh_pmax lh) (lh_p lh + 1) b -> placed (lh_pmax lh1) (lh_p lh1) b).
Proof.
  intros Hok Hsmall. pose proof (pmax_pos _ Hok) as Hpm. pose proof (table_p _ Hok) as Hp.
  pose proof (table_nodes _ Hok) as Hn. pose proof (table_len _ Hok) as Hlen. pose proof (table_alloc _ Hok) as Ha.
  assert (E1 : u32 (lh_p lh + 1) = lh_p lh + 1) by (apply Z.mod_small; lia).
  unfold enlarge. rewrite E1, Ha. destruct (table_pmax _ Hok) as [k Hk].
  destruct (Z.leb_spec (lh_pmax lh) (lh_p lh + 1)) as [Hfull|Hroom]; cbn zeta.
  - set (lh1 := update _ _ _ _). set (m := lh_pmax lh) in *.
    assert (F1 : lh_b lh1 = lh_b lh ++ replicate (Z.to_nat (4 * m - 2 * m)) []) by reflexivity.
    assert (F2 : lh_pmax lh1 = 2 * m) by reflexivity. assert (F3 : lh_p lh1 = 0) by reflexivity.
    assert (F4 : num_alloc_nodes lh1 = 4 * m) by reflexivity.
    rewrite F1, F2, F3, F4. replace (4 * m - 2 * m) with (2 * m) by lia. do 5 (split; [done|]).
    split; [exists (S k); rewrite Nat2Z.inj_succ, Z.pow_succ_r by lia; lia|]. split; [lia|]. split; [lia|].
    split; [lia|]. split; [rewrite length_app, length_replicate, Hlen; lia|].
    intros b Hb i c nd Hi Hnd. rewrite <- chain_of_full by lia. replace m with (lh_p lh + 1) at 2 by lia. by apply (Hb i c).
  - set (lh1 := update _ _ _ _). set (m := lh_pmax lh) in *.
    assert (F1 : lh_b lh1 = lh_b lh) by reflexivity. assert (F2 : lh_pmax lh1 = m) by reflexivity.
    assert (F3 : lh_p lh1 = u32 (lh_p lh + 1)) by reflexivity. assert (F4 : num_alloc_nodes lh1 = num_alloc_nodes lh) by reflexivity.
    rewrite F1, F2, F3, F4, E1, app_nil_r. do 5 (split; [done|]). split; [by exists k|]. split; [lia|]. split; [done|].
    split; [lia|]. split; [done|]. done.
Qed.

(** The array has to be made larger, and cannot be. *)
Definition expand_fails (lh : LHASH D) : bool :=
  (lh_pmax lh <=? u32 (lh_p lh + 1)) && negb (realloc_b (sz (sizeof_pointer * u32 (num_alloc_nodes lh * 2)))).

Lemma expand_eq lh : table_ok lh -> num_nodes lh < 2 ^ 28 -> expand_fails lh = false ->
  let lh1 := enlarge lh (4 * lh_pmax lh) in
  exists n1 l1 l2, lh_b lh1 !! Z.to_nat (lh_p lh) = Some n1 /\ split_loop (2 * lh_pmax lh) (lh_p lh) n1 [] = (l1, l2) /\
  exists lh', expand lh = Some (true, lh') /\
    lh_b lh' = <[Z.to_nat (lh_p lh) := l1]> (<[Z.to_nat (lh_p lh + lh_pmax lh) := l2]> (lh_b lh1)) /\
    num_nodes lh' = num_nodes lh + 1 /\ num_alloc_nodes lh' = num_alloc_nodes lh1 /\ lh_p lh' = lh_p lh1 /\
    lh_pmax lh' = lh_pmax lh1 /\ num_items lh' = num_items lh /\ up_load lh' = up_load lh1 /\ lh_error lh' = lh_error lh1.
Proof.
  intros Hok Hsmall Hre. cbn zeta. pose proof (pmax_pos _ Hok) as Hpm. pose proof (table_p _ Hok) as Hp.
  pose proof (table_nodes _ Hok) as Hn.
  destruct (enlarge_spec lh Hok Hsmall) as (Eb & En & Ei & _ & _ & _ & _ & _ & _ & Hlen & _).
  unfold expand. fold (expand_fails lh). rewrite Hre, (table_alloc _ Hok).
  assert (E2 : u32 (lh_p lh + lh_pmax lh) = lh_p lh + lh_pmax lh) by (apply Z.mod_small; lia).
  assert (E3 : u32 (2 * lh_pmax lh * 2) = 4 * lh_pmax lh) by (unfold u32; rewrite Z.mod_small; lia).
  rewrite E2, E3.
  set (lh1 := enlarge lh (4 * lh_pmax lh)) in *.
  assert (Hlt : forall n, 0 <= n < 2 * lh_pmax lh -> is_Some (lh_b lh1 !! Z.to_nat n)).
  { intros n Hn'. apply lookup_lt_is_Some_2. rewrite Eb, length_app, (table_len _ Hok). lia. }
  destruct (Hlt (lh_p lh)) as [n1 H1]; [lia|]. destruct (Hlt (lh_p lh + lh_pmax lh)) as [n2 H2]; [lia|].
  destruct (split_loop (2 * lh_pmax lh) (lh_p lh) n1 []) as [l1 l2] eqn:Es. exists n1, l1, l2.
  split; [done|]. split; [done|].
  assert (E4 : u32 (num_nodes lh1 + 1) = num_nodes lh + 1) by (rewrite En; apply Z.mod_small; lia).
  set (lh2 := lh1 <| num_nodes ::= fun n => u32 (n + 1) |> <| num_expands ::= ul_succ |>).
  change (lh_b lh2) with (lh_b lh1). rewrite H1, H2. cbn [mbind option_bind]. rewrite Es.
  eexists. split; [reflexivity|]. split; [reflexivity|]. split; [exact E4|]. by rewrite <- Ei.
Qed.

Lemma expand_spec lh : table_ok lh -> num_nodes lh < 2 ^ 28 -> expand_fails lh = false -> exists lh',
  expand lh = Some (true, lh') /\ table_ok lh' /\ nodes lh' ≡ₚ nodes lh /\
  num_nodes lh' = num_nodes lh + 1 /\ lh_error lh' = lh_error lh.
Proof.
  intros Hok Hsmall Hre. pose proof (pmax_pos _ Hok) as Hpm. pose proof (table_p _ Hok) as Hp.
  destruct (enlarge_spec lh Hok Hsmall) as (Eb & En & Ei & Eu & Ee & Hk & Hp1 & Ha & Hn & Hlen & Hplaced).
  destruct (expand_eq lh Hok Hsmall Hre) as (n1 & l1 & l2 & H1 & Hs & lh' & Hrun & Fb & Fn & Fa & Fp & Fm & Fi & Fu & Fe).
  set (lh1 := enlarge lh (4 * lh_pmax lh)) in *.
  destruct (expanded_ok lh lh' (lh_b lh1) n1 l1 l2 Hok) as [Hpl Hperm]; [| done| | |done|exact Fb|].
  - intros i c Hi. rewrite Eb in Hi. apply lookup_app_Some in Hi as [Hi|[_ Hi]]; [by left|right].
    destruct (_ <=? _); [|done]. by apply lookup_replicate in Hi as [-> _].
  - rewrite Eb, concat_app. destruct (_ <=? _); [|apply app_nil_r].
    assert (forall n, concat (replicate n []) = ([] : list (LH_NODE D))) as -> by (by intros n; induction n).
    apply app_nil_r.
  - rewrite Eb. apply lookup_app_l_Some.
    destruct (lookup_lt_is_Some_2 (lh_b lh) (Z.to_nat (lh_p lh + lh_pmax lh))) as [c2 Hc2]; [rewrite (table_len _ Hok); lia|].
    rewrite Hc2. f_equal. eapply (unused_empty (lh_pmax lh) (lh_p lh)); [lia|done|exact (table_placed _ Hok)|done|lia].
  - exists lh'. split; [done|]. destruct (same_nodes lh lh' Hperm Fi Hok) as (G1 & G2 & G3).
    split; [|split; [done|split; [done|congruence]]].
    split; rewrite ?Fp, ?Fm, ?Fa, ?Fn; try done.
    + rewrite Fb, !length_insert. exact Hlen.
    + apply Hplaced. exact Hpl.
Qed.

Lemma merge_placed m q b b0 n1 np : 0 < m -> 0 <= q < m -> placed m (q + 1) b ->
  b !! Z.to_nat q = Some n1 -> b !! Z.to_nat (q + m) = Some np ->
  (forall i c, b0 !! i = Some c -> <[Z.to_nat (q + m) := []]> b !! i = Some c) ->
  placed m q (<[Z.to_nat q := n1 ++ np]> b0).
Proof.
  intros Hm Hq Hpl H1 H2 Hb0 i c nd Hi Hnd.
  destruct (chain_of_split m q (node_hash nd) Hm Hq) as [Hor Hs].
  pose proof (chain_of_bound m q (node_hash nd) Hm ltac:(lia)) as Hb.
  pose proof (chain_of_bound m (q + 1) (node_hash nd) Hm ltac:(lia)) as Hb'.
  apply list_lookup_insert_Some in Hi as [(<- & <- & _)|(Hne & Hi)].
  - apply elem_of_app in Hnd as [Hnd|Hnd].
    + pose proof (Hpl _ _ _ H1 Hnd) as E. apply Z2Nat.inj in E; [|lia|lia]. f_equal.
      destruct (Z.eqb_spec (chain_of m q (node_hash nd)) q); lia.
    + pose proof (Hpl _ _ _ H2 Hnd) as E. apply Z2Nat.inj in E; [|lia|lia]. f_equal.
      destruct (Z.eqb_spec (chain_of m q (node_hash nd)) q); lia.
  - apply Hb0, list_lookup_insert_Some in Hi as [(_ & <- & _)|(Hne' & Hi)]; [by apply not_elem_of_nil in Hnd|].
    pose proof (Hpl _ _ _ Hi Hnd) as E. destruct (Z.eqb_spec (chain_of m q (node_hash nd)) q) as [Eq|]; [|lia].
    destruct (Hor Eq); lia.
Qed.

Lemma nodes_merged b b0 i j n1 np : b !! i = Some n1 -> b !! j = Some np -> i <> j ->
  b0 !! i = Some n1 -> concat b0 = concat (<[j := []]> b) ->
  concat (<[i := n1 ++ np]> b0 : list (list (LH_NODE D))) ≡ₚ concat b.
Proof.
  intros Hi Hj Hij Hi0 E. pose proof (concat_insert _ _ _ (n1 ++ np) Hi0) as Hx.
  pose proof (concat_insert _ _ _ [] Hj) as Hy. rewrite app_nil_r in Hy. rewrite E in Hx.
  apply (Permutation_app_inv_r n1). rewrite Hx, (Permutation_app_comm n1 np), app_assoc. by rewrite Hy.
Qed.

(** The table as if the last chain had just been split. *)
Definition before_split (lh : LHASH D) : Z * Z :=
  if lh_p lh =? 0 then (lh_pmax lh / 2, lh_pmax lh / 2 - 1) else (lh_pmax lh, lh_p lh - 1).

Lemma before_split_spec lh m q : table_ok lh -> 16 < num_nodes lh -> before_split lh = (m, q) ->
  (exists k, m = 8 * 2 ^ Z.of_nat k) /\ 0 <= q < m /\ m + q + 1 = num_nodes lh /\ q + m = lh_p lh + lh_pmax lh - 1 /\
  placed m (q + 1) (lh_b lh) /\ (if lh_p lh =? 0 then lh_pmax lh = 2 * m else m = lh_pmax lh).
Proof.
  intros Hok Hn E. pose proof (pmax_pos _ Hok) as Hpm. pose proof (table_p _ Hok) as Hp.
  pose proof (table_nodes _ Hok) as Hnn. destruct (table_pmax _ Hok) as [k Hk]. unfold before_split in E.
  destruct (Z.eqb_spec (lh_p lh) 0) as [E0|E0]; injection E as <- <-.
  - destruct k as [|k]; [cbn in Hk; lia|]. rewrite Nat2Z.inj_succ, Z.pow_succ_r in Hk by lia.
    assert (Hh : lh_pmax lh / 2 = 8 * 2 ^ Z.of_nat k) by (rewrite Hk; lia_div).
    rewrite Hh. split; [by exists k|]. split; [lia|]. split; [lia|]. split; [lia|]. split; [|lia].
    intros i c nd Hi Hnd. rewrite Z.sub_add, chain_of_full by lia. rewrite <- E0.
    replace (2 * (8 * 2 ^ Z.of_nat k)) with (lh_pmax lh) by lia. by apply (table_placed _ Hok i c).
  - split; [by exists k|]. split; [lia|]. split; [lia|]. split; [lia|]. split; [|done].
    rewrite Z.sub_add. exact (table_placed _ Hok).
Qed.

Lemma shrink_spec lh m q : table_ok lh -> 16 < num_nodes lh < 2 ^ 28 -> before_split lh = (m, q) ->
  let lh1 := shrink (lh <| lh_b ::= <[Z.to_nat (q + m) := []]> |>) in
  num_nodes lh1 = num_nodes lh /\ num_items lh1 = num_items lh /\ lh_error lh1 = lh_error lh /\
  lh_pmax lh1 = m /\ lh_p lh1 = q /\ num_alloc_nodes lh1 = 2 * m /\ length (lh_b lh1) = Z.to_nat (2 * m) /\
  (forall i, (i < Z.to_nat (2 * m))%nat -> lh_b lh1 !! i = <[Z.to_nat (q + m) := []]> (lh_b lh) !! i) /\
  concat (lh_b lh1) = concat (<[Z.to_nat (q + m) := []]> (lh_b lh)).
Proof.
  intros Hok Hn E. pose proof (pmax_pos _ Hok) as Hpm. pose proof (table_p _ Hok) as Hp.
  pose proof (table_nodes _ Hok) as Hnn. pose proof (table_len _ Hok) as Hlen. pose proof (table_alloc _ Hok) as Ha.
  destruct (before_split_spec lh m q Hok ltac:(lia) E) as (_ & Hq & Hmq & Hl & _ & Hcase).
  set (b1 := <[Z.to_nat (q + m) := []]> (lh_b lh)). set (lh0 := lh <| lh_b ::= _ |>).
  unfold shrink. change (lh_p lh0) with (lh_p lh). change (lh_pmax lh0) with (lh_pmax lh). cbn zeta.
  unfold before_split in E. destruct (Z.eqb_spec (lh_p lh) 0) as [E0|E0]; injection E as E1 E2.
  - set (lh1 := update _ _ _ _).
    assert (F1 : lh_b lh1 = take (Z.to_nat (lh_pmax lh)) b1) by reflexivity.
    assert (F2 : lh_pmax lh1 = lh_pmax lh / 2) by reflexivity.
    assert (F3 : lh_p lh1 = u32 (lh_pmax lh / 2 - 1)) by reflexivity.
    assert (F4 : num_alloc_nodes lh1 = num_alloc_nodes lh / 2) by reflexivity.
    rewrite F1, F2, F3, F4, Ha, E1. unfold u32. rewrite Z.mod_small by lia. do 3 (split; [done|]).
    split; [done|]. split; [lia|]. split; [rewrite Z.mul_comm, Z.div_mul; lia|].
    split; [rewrite length_take; unfold b1; rewrite length_insert, Hlen; lia|]. split.
    + intros i Hi. apply lookup_take_lt. lia.
    + rewrite <- (take_drop (Z.to_nat (lh_pmax lh)) b1) at 2. rewrite concat_app.
      assert (Hdrop : concat (drop (Z.to_nat (lh_pmax lh)) b1) = []).
      { apply concat_nil_Forall, Forall_lookup. intros i c Hi. rewrite lookup_drop in Hi. unfold b1 in Hi.
        apply list_lookup_insert_Some in Hi as [(_ & <- & _)|(_ & Hi)]; [done|].
        apply (unused_empty (lh_pmax lh) (lh_p lh) _ _ c ltac:(lia) Hp (table_placed _ Hok) Hi). lia. }
      by rewrite Hdrop, app_nil_r.
  - set (lh1 := update _ _ _ _).
    assert (F1 : lh_b lh1 = b1) by reflexivity. assert (F2 : lh_pmax lh1 = lh_pmax lh) by reflexivity.
    assert (F3 : lh_p lh1 = u32 (lh_p lh - 1)) by reflexivity.
    assert (F4 : num_alloc_nodes lh1 = num_alloc_nodes lh) by reflexivity.
    rewrite F1, F2, F3, F4, Ha, E1. unfold u32. rewrite Z.mod_small by lia. do 3 (split; [done|]).
    split; [done|]. split; [lia|]. split; [done|]. split; [unfold b1; rewrite length_insert, Hlen; lia|]. by split.
Qed.

Lemma contract_spec lh : table_ok lh -> 16 < num_nodes lh < 2 ^ 28 -> reallocs_ok -> exists lh',
  contract lh = Some lh' /\ table_ok lh' /\ nodes lh' ≡ₚ nodes lh /\ num_nodes lh' <= num_nodes lh /\
  lh_error lh' = lh_error lh.
Proof.
  intros Hok Hn Hre. pose proof (pmax_pos _ Hok) as Hpm. pose proof (table_p _ Hok) as Hp.
  pose proof (table_nodes _ Hok) as Hnn. pose proof (table_len _ Hok) as Hlen.
  destruct (before_split lh) as [m q] eqn:Es.
  destruct (before_split_spec lh m q Hok ltac:(lia) Es) as (Hk & Hq & Hmq & Hl & Hpl & Hcase).
  destruct (shrink_spec lh m q Hok Hn Es) as (En & Ei & Ee & Em & Eq & Ea & El & Elook & Ecat).
  assert (Em2 : m <= lh_pmax lh) by (destruct (_ =? 0); lia).
  unfold contract.
  assert (E1 : u32 (u32 (lh_p lh + lh_pmax lh) - 1) = q + m).
  { unfold u32. rewrite (Z.mod_small (lh_p lh + lh_pmax lh)), Z.mod_small; lia. }
  rewrite E1. destruct (lookup_lt_is_Some_2 (lh_b lh) (Z.to_nat (q + m))) as [np Hnp]; [lia|].
  destruct (lookup_lt_is_Some_2 (lh_b lh) (Z.to_nat q)) as [n1 Hn1]; [lia|].
  rewrite Hnp. cbn [mbind option_bind].
  set (lh0 := lh <| lh_b ::= <[Z.to_nat (q + m) := []]> |>) in *.
  rewrite Hre, andb_false_r by (change (lh_pmax lh0) with (lh_pmax lh); unfold sizeof_pointer, u32; rewrite Z.mod_small; lia).
  set (lh1 := shrink lh0) in *. set (lh2 := lh1 <| num_nodes ::= fun n => u32 (n - 1) |> <| num_contracts ::= ul_succ |>).
  change (lh_p lh2) with (lh_p lh1). change (lh_b lh2) with (lh_b lh1).
  assert (Hlook : lh_b lh1 !! Z.to_nat q = Some n1) by (rewrite Elook, list_lookup_insert_ne; [done|lia|lia]).
  rewrite Eq, Hlook. cbn [mbind option_bind]. eexists. split; [reflexivity|].
  set (lh' := update _ _ _ _).
  assert (F1 : lh_b lh' = <[Z.to_nat q := n1 ++ np]> (lh_b lh1)) by reflexivity.
  assert (F2 : num_nodes lh' = num_nodes lh - 1).
  { transitivity (u32 (num_nodes lh1 - 1)); [reflexivity|]. rewrite En. apply Z.mod_small. lia. }
  assert (F3 : lh_pmax lh' = m) by exact Em. assert (F4 : lh_p lh' = q) by exact Eq.
  assert (F5 : num_alloc_nodes lh' = 2 * m) by exact Ea. assert (F6 : num_items lh' = num_items lh) by exact Ei.
  assert (Hperm : nodes lh' ≡ₚ nodes lh).
  { unfold nodes. rewrite F1. eapply nodes_merged; [exact Hn1|exact Hnp|lia|done|done]. }
  destruct (same_nodes lh lh' Hperm F6 Hok) as (G1 & G2 & G3).
  split; [|split; [done|split; [lia|exact Ee]]].
  split; rewrite ?F2, ?F3, ?F4, ?F5; try done; [lia| |].
  - rewrite F1, length_insert. exact El.
  - rewrite F1. eapply merge_placed; [lia|done|exact Hpl|done|done|].
    intros i c Hi. rewrite <- Elook; [done|]. apply lookup_lt_Some in Hi. lia.
Qed.

(** Changing the chain of [d]. *)
Lemma set_chain_ok lh lh1 d nn c c' : table_ok lh -> same_table lh lh1 ->
  nn = Z.to_nat (chain_of (lh_pmax lh) (lh_p lh) (hash d)) -> lh_b lh !! nn = Some c ->
  Forall hashed_right c' -> (forall nd, nd ∈ c' -> nd ∈ c \/ node_key nd = key d) ->
  let lh' := set_chain nn c' lh1 in
  nodes lh' ++ c ≡ₚ nodes lh ++ c' /\
  (NoDup (map node_key (nodes lh')) -> forall lh2, lh_b lh2 = lh_b lh' -> num_nodes lh2 = num_nodes lh' ->
     num_alloc_nodes lh2 = num_alloc_nodes lh' -> lh_p lh2 = lh_p lh' -> lh_pmax lh2 = lh_pmax lh' ->
     num_items lh2 = zlen (nodes lh') -> table_ok lh2).
Proof using hash_key.
  intros Hok (S1 & S2 & S3 & S4 & S5 & S6) -> Hc Hc' Hin. cbn zeta. set (nn := Z.to_nat _) in *.
  assert (E : lh_b (set_chain nn c' lh1) = <[nn := c']> (lh_b lh)) by (rewrite <- S1; reflexivity).
  assert (Hp : nodes (set_chain nn c' lh1) ++ c ≡ₚ nodes lh ++ c') by (unfold nodes; rewrite E; by apply concat_insert).
  split; [done|]. intros Hnd lh2 T1 T2 T3 T4 T5 T6.
  assert (Hh : Forall hashed_right (nodes (set_chain nn c' lh1))).
  { apply Forall_forall. intros nd Hnd'. pose proof (table_hashed _ Hok) as Hh. rewrite Forall_forall in Hh, Hc'.
    assert (Hx : nd ∈ nodes lh ++ c') by (rewrite <- Hp; apply elem_of_app; by left).
    apply elem_of_app in Hx as [Hx|Hx]; auto. }
  change (num_nodes (set_chain nn c' lh1)) with (num_nodes lh1) in T2.
  change (num_alloc_nodes (set_chain nn c' lh1)) with (num_alloc_nodes lh1) in T3.
  change (lh_p (set_chain nn c' lh1)) with (lh_p lh1) in T4. change (lh_pmax (set_chain nn c' lh1)) with (lh_pmax lh1) in T5.
  split; unfold nodes in *; rewrite ?T1, ?T2, ?T3, ?T4, ?T5, ?T6, ?S2, ?S3, ?S4, ?S5; try (by destruct Hok); try done.
  - rewrite E, length_insert. by destruct Hok.
  - intros i cc nd Hi Hnd'. rewrite E in Hi. apply list_lookup_insert_Some in Hi as [(<- & <- & _)|(_ & Hi)].
    + destruct (Hin _ Hnd') as [Hc''|Hk]; [by apply (table_placed _ Hok nn c)|].
      rewrite Forall_forall in Hc'. rewrite (Hc' _ Hnd'), hash_key. unfold key_of in Hk. rewrite Hk, <- hash_key. done.
    + by apply (table_placed _ Hok i cc).
Qed.

(** The map of a list of nodes. *)
Definition map_of (l : list (LH_NODE D)) : gmap K D := list_to_map (map (fun nd => (node_key nd, node_data nd)) l).

Lemma map_of_perm l l' : NoDup (map node_key l) -> l' ≡ₚ l -> map_of l' = map_of l.
Proof.
  intros Hnd Hp. unfold map_of. apply list_to_map_proper; [|by rewrite Hp].
  rewrite <- list_fmap_compose. change (NoDup (map node_key l')). by rewrite (Permutation_map node_key Hp).
Qed.

Lemma map_of_cons nd l : map_of (nd :: l) = <[node_key nd := node_data nd]> (map_of l).
Proof. reflexivity. Qed.

Lemma map_of_fresh nd l : NoDup (map node_key (nd :: l)) -> map_of l !! node_key nd = None.
Proof.
  intros Hnd. apply NoDup_cons in Hnd as [Hni _]. apply not_elem_of_list_to_map_1.
  rewrite <- list_fmap_compose. exact Hni.
Qed.

(** A pair of a chain's old and new contents gives one of all nodes. *)
Lemma nodes_chain (n n' c r : list (LH_NODE D)) (old new : list (LH_NODE D)) :
  n' ++ c ≡ₚ n ++ (new ++ r) -> c ≡ₚ old ++ r -> old ++ n' ≡ₚ new ++ n.
Proof.
  intros Hp Hc. apply (Permutation_app_inv_r r). rewrite Hc in Hp.
  rewrite (Permutation_app_comm old n'), <- (app_assoc n'), Hp, app_assoc. by rewrite (Permutation_app_comm n new).
Qed.

Definition node_alloc_ok : Prop := is_Some (malloc sizeof_LH_NODE).

(** There is room for [n] more items. *)
Definition room (n : Z) (lh : LHASH D) : Prop := num_nodes lh + n < 2 ^ 28 /\ num_items lh + n < 2 ^ 63.

Lemma lh_retrieve_spec lh d : table_ok lh -> room 0 lh -> exists lh',
  OPENtls_LH_retrieve comp hash lh d = Some (contents lh !! key d, lh') /\ same_table lh lh' /\ lh_error lh' = 0.
Proof using comp_key hash_key.
  intros Hok [Hn _]. unfold OPENtls_LH_retrieve. set (lh0 := lh <| lh_error := 0 |>).
  pose proof (pmax_pos _ Hok). pose proof (table_p _ Hok) as Hp. pose proof (table_nodes _ Hok) as Hnn.
  assert (Hok0 : table_ok lh0) by (eapply same_table_ok; [|exact Hok]; repeat split).
  destruct (getrn_spec lh0 d Hok0) as (nn & i & c & lh1 & -> & Hsame & _ & _ & Herr & -> & Hc & Hi).
  { change (lh_pmax lh0) with (lh_pmax lh). lia. }
  pose proof Hsame as (S1 & _). cbn [mbind option_bind]. rewrite S1, Hc. cbn [mbind option_bind].
  change (contents lh) with (contents lh0).
  destruct (c !! i) as [nd|]; destruct Hi as [_ ->]; eexists; (split; [reflexivity|]); (split; [exact Hsame|exact Herr]).
Qed.

Lemma delete_node lh lh1 d i c rn : table_ok lh -> same_table lh lh1 ->
  let nn := Z.to_nat (chain_of (lh_pmax lh) (lh_p lh) (hash d)) in
  lh_b lh !! nn = Some c -> c !! i = Some rn -> node_key rn = key d -> num_items lh < 2 ^ 63 ->
  let lh2 := (set_chain nn (delete i c) lh1) <| num_delete ::= ul_succ |> <| num_items ::= fun n => u64 (n - 1) |> in
  table_ok lh2 /\ contents lh2 = delete (key d) (contents lh) /\ num_nodes lh2 = num_nodes lh /\
  num_items lh2 = num_items lh - 1 /\ lh_error lh2 = lh_error lh1.
Proof using hash_key.
  intros Hok Hsame. cbn zeta. set (nn := Z.to_nat _). intros Hc Hi Hkey Hsmall. set (lh2 := update _ _ _ _).
  assert (Hcp : c ≡ₚ [rn] ++ delete i c) by (by apply delete_Permutation).
  assert (Hch : Forall hashed_right c).
  { pose proof (table_hashed _ Hok) as Hh. rewrite Forall_forall in *. intros nd Hnd. apply Hh, elem_of_nodes. by exists nn, c. }
  destruct (set_chain_ok lh lh1 d nn c (delete i c) Hok Hsame eq_refl Hc) as [Hp Hall].
  { rewrite Hcp in Hch. by apply Forall_cons in Hch as [_ ?]. }
  { intros nd Hnd. left. rewrite Hcp. by apply elem_of_app; right. }
  pose proof (nodes_chain _ _ c (delete i c) [rn] [] Hp Hcp) as Hn. cbn [app] in Hn.
  change (nodes (set_chain nn (delete i c) lh1)) with (nodes lh2) in *.
  assert (Hnd : NoDup (map node_key (rn :: nodes lh2))) by (rewrite (Permutation_map node_key Hn); by destruct Hok).
  destruct Hsame as (S1 & S2 & S3 & S4 & S5 & S6).
  assert (Hitems : num_items lh2 = num_items lh - 1).
  { transitivity (u64 (num_items lh1 - 1)); [reflexivity|]. rewrite S6. apply Z.mod_small.
    rewrite (table_items _ Hok) in *. unfold zlen in *. rewrite <- Hn in *. cbn [length] in *. lia. }
  split; [|split; [|split; [exact S2|split; [exact Hitems|reflexivity]]]].
  - apply Hall; try reflexivity; [by apply NoDup_cons in Hnd as [_ ?]|].
    rewrite Hitems, (table_items _ Hok). unfold zlen. rewrite <- Hn. cbn [length]. lia.
  - change (contents lh2) with (map_of (nodes lh2)). change (contents lh) with (map_of (nodes lh)).
    rewrite <- (map_of_perm (nodes lh) _ (table_keys _ Hok) Hn), map_of_cons, <- Hkey.
    rewrite delete_insert_id; [done|by apply map_of_fresh].
Qed.

Lemma lh_delete_spec lh d : table_ok lh -> room 0 lh -> reallocs_ok -> exists lh',
  OPENtls_LH_delete comp hash lh d = Some (contents lh !! key d, lh') /\ table_ok lh' /\
  contents lh' = delete (key d) (contents lh) /\ num_nodes lh' <= num_nodes lh /\ num_items lh' <= num_items lh /\
  lh_error lh' = 0.
Proof using comp_key hash_key.
  intros Hok [Hn Hi0] Hre. unfold OPENtls_LH_delete. set (lh0 := lh <| lh_error := 0 |>).
  pose proof (pmax_pos _ Hok). pose proof (table_p _ Hok) as Hp. pose proof (table_nodes _ Hok) as Hnn.
  assert (Hok0 : table_ok lh0) by (eapply same_table_ok; [|exact Hok]; repeat split).
  destruct (getrn_spec lh0 d Hok0) as (nn & i & c & lh1 & -> & Hsame & _ & _ & Herr & -> & Hc & Hi).
  { change (lh_pmax lh0) with (lh_pmax lh). lia. }
  pose proof Hsame as (S1 & S2 & _). cbn [mbind option_bind]. rewrite S1, Hc. cbn [mbind option_bind].
  change (contents lh) with (contents lh0). change (num_nodes lh) with (num_nodes lh0).
  change (num_items lh) with (num_items lh0). destruct (c !! i) as [rn|] eqn:Ei; destruct Hi as [Hkey Hcont].
  - destruct (delete_node lh0 lh1 d i c rn Hok0 Hsame Hc Ei Hkey) as (Hok2 & Hc2 & Hn2 & Hi2 & He2).
    { change (num_items lh0) with (num_items lh). lia. }
    set (lh2 := (set_chain _ _ _) <| num_delete ::= _ |> <| num_items ::= _ |>) in *. rewrite Hcont. change (num_nodes lh) with (num_nodes lh0) in *.
    destruct (Z.ltb_spec MIN_NODES (num_nodes lh2)) as [Hmin|Hmin]; cbn [andb].
    + destruct (load lh2 <=? down_load lh2).
      * destruct (contract_spec lh2 Hok2 ltac:(unfold MIN_NODES in *; lia) Hre) as (lh3 & -> & Hok3 & Hp3 & Hn3 & He3).
        eexists. split; [reflexivity|]. split; [done|]. split; [|split; [lia|split; [|exact (eq_trans He3 (eq_trans He2 Herr))]]].
        -- rewrite <- Hc2. apply contents_perm; [by destruct Hok2|done].
        -- rewrite (table_items _ Hok3). unfold zlen. rewrite Hp3. fold (zlen (nodes lh2)).
           rewrite <- (table_items _ Hok2). lia.
      * eexists. split; [reflexivity|]. split; [done|]. split; [done|]. split; [lia|]. split; [lia|exact (eq_trans He2 Herr)].
    + eexists. split; [reflexivity|]. split; [done|]. split; [done|]. split; [lia|]. split; [lia|exact (eq_trans He2 Herr)].
  - rewrite Hcont. eexists. split; [reflexivity|].
    assert (Hs : same_table lh0 (lh1 <| num_no_delete ::= ul_succ |>)) by exact Hsame.
    split; [by eapply same_table_ok|]. destruct Hsame as (_ & S2' & _ & _ & _ & S6).
    split; [|split; [by apply Z.eq_le_incl|split; [by apply Z.eq_le_incl|exact Herr]]].
    rewrite delete_id by done. change (map_of (nodes (lh1 <| num_no_delete ::= ul_succ |>)) = map_of (nodes lh0)).
    unfold nodes. destruct Hs as (-> & _). done.
Qed.

(** Adding a node, and replacing the data of one. *)
Lemma insert_node lh lh1 d c : table_ok lh -> same_table lh lh1 -> num_items lh + 1 < 2 ^ 63 ->
  let nn := Z.to_nat (chain_of (lh_pmax lh) (lh_p lh) (hash d)) in
  lh_b lh !! nn = Some c -> contents lh !! key d = None ->
  let lh2 := (set_chain nn (c ++ [mk_LH_NODE _ d (hash d)]) lh1) <| num_insert ::= ul_succ |> <| num_items ::= ul_succ |> in
  table_ok lh2 /\ contents lh2 = <[key d := d]> (contents lh) /\ num_nodes lh2 = num_nodes lh /\
  num_items lh2 = num_items lh + 1 /\ lh_error lh2 = lh_error lh1.
Proof using hash_key.
  intros Hok Hsame Hi0. cbn zeta. set (nn := Z.to_nat _). intros Hc Hnone. set (nd := mk_LH_NODE _ d (hash d)).
  set (lh2 := update _ _ _ _).
  assert (Hch : Forall hashed_right c).
  { pose proof (table_hashed _ Hok) as Hh. rewrite Forall_forall in *. intros x Hx. apply Hh, elem_of_nodes. by exists nn, c. }
  destruct (set_chain_ok lh lh1 d nn c (c ++ [nd]) Hok Hsame eq_refl Hc) as [Hp Hall].
  { apply Forall_app. split; [done|]. by constructor. }
  { intros x [Hx|Hx]%elem_of_app; [by left|right]. apply list_elem_of_singleton in Hx as ->. reflexivity. }
  assert (Hn : nodes lh2 ≡ₚ nd :: nodes lh).
  { change (nodes (set_chain nn (c ++ [nd]) lh1)) with (nodes lh2) in Hp. rewrite (Permutation_app_comm c) in Hp.
    by pose proof (nodes_chain _ (nodes lh2) c c [] [nd] Hp ltac:(done)). }
  destruct Hsame as (S1 & S2 & S3 & S4 & S5 & S6).
  assert (Hnd : NoDup (map node_key (nd :: nodes lh))).
  { apply NoDup_cons. split; [|by destruct Hok]. intros (x & Hx & Hin)%list_elem_of_fmap.
    pose proof (contents_Some lh x (table_keys _ Hok) Hin) as Hs. rewrite <- Hx in Hs.
    change (node_key nd) with (key d) in Hs. congruence. }
  assert (Hitems : num_items lh2 = num_items lh + 1).
  { transitivity (u64 (num_items lh1 + 1)); [reflexivity|]. rewrite S6. apply Z.mod_small.
    rewrite (table_items _ Hok) in *. unfold zlen in *. lia. }
  split; [|split; [|split; [exact S2|split; [exact Hitems|reflexivity]]]].
  - apply Hall; try reflexivity.
    + change (nodes (set_chain nn (c ++ [nd]) lh1)) with (nodes lh2). by rewrite (Permutation_map node_key Hn).
    + change (nodes (set_chain nn (c ++ [nd]) lh1)) with (nodes lh2).
      rewrite Hitems, (table_items _ Hok). unfold zlen. rewrite Hn. cbn [length]. lia.
  - change (contents lh2) with (map_of (nodes lh2)). change (contents lh) with (map_of (nodes lh)).
    by rewrite (map_of_perm _ _ Hnd Hn), map_of_cons.
Qed.

Lemma delete_insert_list {A} (l : list A) i x : delete i (<[i := x]> l) = delete i l.
Proof. revert i. induction l as [|y l IH]; intros [|i]; [done..|]. cbn. f_equal. apply IH. Qed.

Lemma replace_node lh lh1 d i c rn : table_ok lh -> same_table lh lh1 ->
  let nn := Z.to_nat (chain_of (lh_pmax lh) (lh_p lh) (hash d)) in
  lh_b lh !! nn = Some c -> c !! i = Some rn -> node_key rn = key d ->
  let lh2 := (set_chain nn (<[i := mk_LH_NODE _ d (node_hash rn)]> c) lh1) <| num_replace ::= ul_succ |> in
  table_ok lh2 /\ contents lh2 = <[key d := d]> (contents lh) /\ num_nodes lh2 = num_nodes lh /\
  num_items lh2 = num_items lh /\ lh_error lh2 = lh_error lh1.
Proof using hash_key.
  intros Hok Hsame. cbn zeta. set (nn := Z.to_nat _). intros Hc Hi Hkey. set (nd := mk_LH_NODE _ d (node_hash rn)).
  set (lh2 := update _ _ _ _).
  assert (Hcp : c ≡ₚ [rn] ++ delete i c) by (by apply delete_Permutation).
  assert (Hcp' : <[i := nd]> c ≡ₚ [nd] ++ delete i c).
  { rewrite (delete_Permutation (<[i := nd]> c) i nd) by (apply list_lookup_insert_eq; by eapply lookup_lt_Some).
    by rewrite delete_insert_list. }
  assert (Hch : Forall hashed_right c).
  { pose proof (table_hashed _ Hok) as Hh. rewrite Forall_forall in *. intros x Hx. apply Hh, elem_of_nodes. by exists nn, c. }
  assert (Hnh : hashed_right nd).
  { rewrite Hcp in Hch. apply Forall_cons in Hch as [Hr _]. unfold rightly_hashed in *. cbn. rewrite Hr, !hash_key.
    f_equal. exact Hkey. }
  destruct (set_chain_ok lh lh1 d nn c (<[i := nd]> c) Hok Hsame eq_refl Hc) as [Hp Hall].
  { rewrite Hcp'. rewrite Hcp in Hch. apply Forall_cons in Hch as [_ ?]. by constructor. }
  { intros x Hx. rewrite Hcp' in Hx. apply elem_of_app in Hx as [Hx|Hx].
    - right. apply list_elem_of_singleton in Hx as ->. reflexivity.
    - left. rewrite Hcp. apply elem_of_app. by right. }
  assert (Hn : rn :: nodes lh2 ≡ₚ nd :: nodes lh).
  { change (nodes (set_chain nn (<[i := nd]> c) lh1)) with (nodes lh2) in Hp. rewrite Hcp' in Hp at 1.
    by pose proof (nodes_chain _ (nodes lh2) c (delete i c) [rn] [nd] Hp Hcp). }
  destruct Hsame as (S1 & S2 & S3 & S4 & S5 & S6).
  assert (Hrest : exists l, nodes lh ≡ₚ rn :: l /\ nodes lh2 ≡ₚ nd :: l).
  { assert (Hin : rn ∈ nodes lh) by (apply elem_of_nodes; exists nn, c; split; [done|by eapply list_elem_of_lookup_2]).
    apply elem_of_Permutation in Hin as [l Hl]. exists l. split; [done|]. apply (Permutation_cons_inv (a := rn)).
    rewrite Hn, Hl. apply Permutation_swap. }
  destruct Hrest as (l & Hl & Hl2).
  assert (Hnd : NoDup (map node_key (rn :: l))) by (rewrite <- (Permutation_map node_key Hl); by destruct Hok).
  assert (Hnd2 : NoDup (map node_key (nd :: l))).
  { cbn [map] in *. change (node_key nd) with (key d). by rewrite <- Hkey. }
  split; [|split; [|split; [exact S2|split; [exact S6|reflexivity]]]].
  - apply Hall; try reflexivity.
    + change (nodes (set_chain nn (<[i := nd]> c) lh1)) with (nodes lh2). by rewrite (Permutation_map node_key Hl2).
    + change (nodes (set_chain nn (<[i := nd]> c) lh1)) with (nodes lh2).
      change (num_items lh2) with (num_items lh1). rewrite S6, (table_items _ Hok). unfold zlen. by rewrite Hl, Hl2.
  - change (contents lh2) with (map_of (nodes lh2)). change (contents lh) with (map_of (nodes lh)).
    rewrite (map_of_perm _ _ Hnd2 Hl2), (map_of_perm _ _ Hnd Hl), !map_of_cons, Hkey, insert_insert_eq. done.
Qed.

(** Before an insertion: the table may be expanded. *)
Lemma grown_spec lh : table_ok lh -> num_nodes lh < 2 ^ 28 -> exists ok lh1,
  (if up_load lh <=? load lh then expand lh else Some (true, lh)) = Some (ok, lh1) /\
  table_ok lh1 /\ contents lh1 = contents lh /\ num_nodes lh1 <= num_nodes lh + 1 /\ num_items lh1 = num_items lh /\
  lh_error lh1 = (if ok then lh_error lh else lh_error lh + 1) /\ (reallocs_ok -> ok = true).
Proof using Type.
  intros Hok Hn. destruct (_ <=? _).
  - destruct (expand_fails lh) eqn:Ef.
    + exists false. eexists. split; [unfold expand; fold (expand_fails lh); rewrite Ef; reflexivity|].
      split; [eapply same_table_ok; [|exact Hok]; repeat split|]. split; [reflexivity|].
      split; [by apply Z.le_succ_diag_r|]. split; [reflexivity|]. split; [reflexivity|].
      intros Hre. unfold expand_fails in Ef. pose proof (pmax_pos _ Hok). pose proof (table_p _ Hok).
      pose proof (table_nodes _ Hok). rewrite Hre, andb_false_r in Ef; [done|]. rewrite (table_alloc _ Hok).
      unfold u32. rewrite Z.mod_small, sz_small by (unfold sizeof_pointer, SIZE_MAX; lia). unfold sizeof_pointer. lia.
    + destruct (expand_spec lh Hok Hn Ef) as (lh1 & Hrun & Hok1 & Hp & Hn1 & He).
      exists true, lh1. split; [exact Hrun|]. split; [exact Hok1|]. split; [|split; [lia|split; [|by split]]].
      * apply contents_perm; [by destruct Hok|done].
      * rewrite (table_items _ Hok1), (table_items _ Hok). unfold zlen. by rewrite Hp.
  - exists true, lh. split; [reflexivity|]. split; [exact Hok|]. split; [reflexivity|]. split; [lia|]. by split.
Qed.

(** An insertion happens, or fails without effect. *)
Lemma lh_insert_spec lh d : table_ok lh -> room 1 lh -> exists r lh',
  OPENtls_LH_insert comp hash lh d = Some (r, lh') /\ table_ok lh' /\
  num_nodes lh' <= num_nodes lh + 1 /\ num_items lh' <= num_items lh + 1 /\
  (lh_error lh' = 0 /\ r = contents lh !! key d /\ contents lh' = <[key d := d]> (contents lh) \/
   lh_error lh' = 1 /\ r = None /\ contents lh' = contents lh /\ ~ (reallocs_ok /\ node_alloc_ok)).
Proof using comp_key hash_key.
  intros Hok [Hn0 Hi0]. unfold OPENtls_LH_insert. set (lh0 := lh <| lh_error := 0 |>).
  assert (Hok0 : table_ok lh0) by (eapply same_table_ok; [|exact Hok]; repeat split).
  destruct (grown_spec lh0 Hok0) as (ok & lh1 & -> & Hok1 & Hc1 & Hn1 & Hi1 & He1 & Hre).
  { change (num_nodes lh0) with (num_nodes lh). lia. }
  change (contents lh0) with (contents lh) in Hc1. change (num_nodes lh0) with (num_nodes lh) in Hn1.
  change (num_items lh0) with (num_items lh) in Hi1. change (lh_error lh0) with 0 in He1. clear Hok0.
  cbn [mbind option_bind]. destruct ok; cbn [negb].
  2:{ exists None, lh1. split; [done|]. split; [done|]. split; [lia|]. split; [lia|]. right. rewrite He1, Hc1.
      do 3 (split; [done|]). intros [Hr _]. by specialize (Hre Hr). }
  pose proof (pmax_pos _ Hok1). pose proof (table_p _ Hok1) as Hp1. pose proof (table_nodes _ Hok1) as Hnn1.
  destruct (getrn_spec lh1 d Hok1 ltac:(lia)) as (nn & i & c & lh2 & -> & Hsame & _ & _ & Herr & -> & Hc & Hi).
  pose proof Hsame as (S1 & S2 & _ & _ & _ & S6). cbn [mbind option_bind]. rewrite S1, Hc. cbn [mbind option_bind].
  rewrite <- Hc1. destruct (c !! i) as [rn|] eqn:Ei; destruct Hi as [Hi Hcont]; rewrite Hcont.
  - destruct (replace_node lh1 lh2 d i c rn Hok1 Hsame Hc Ei Hi) as (Hok3 & Hc3 & Hn3 & Hi3 & He3).
    do 2 eexists. split; [reflexivity|]. split; [exact Hok3|]. split; [lia|]. split; [lia|]. left.
    split; [congruence|]. by split.
  - destruct (CRYPTO_malloc sizeof_LH_NODE) as [blk|] eqn:Em.
    + destruct (insert_node lh1 lh2 d c Hok1 Hsame) as (Hok3 & Hc3 & Hn3 & Hi3 & He3); [lia|done|done|].
      do 2 eexists. split; [reflexivity|]. split; [exact Hok3|]. split; [lia|]. split; [lia|]. left.
      split; [congruence|]. by split.
    + do 2 eexists. split; [reflexivity|]. set (lh3 := update _ _ _ _).
      assert (Hs : same_table lh1 lh3) by exact Hsame. split; [by eapply same_table_ok|].
      split; [change (num_nodes lh3) with (num_nodes lh2); lia|]. split; [change (num_items lh3) with (num_items lh2); lia|].
      right. split; [change (lh_error lh3) with (lh_error lh2 + 1); lia|]. split; [done|]. split.
      * change (map_of (nodes lh3) = map_of (nodes lh1)). unfold nodes. destruct Hs as (-> & _). done.
      * intros [_ [blk Hblk]]. unfold CRYPTO_malloc in Em. change (sizeof_LH_NODE =? 0) with false in Em.
        cbv iota in Em. congruence.
Qed.

(** A new table, and all nodes of a table. *)
Lemma new_spec lh : OPENtls_LH_new (D := D) = Some lh ->
  table_ok lh /\ contents lh = ∅ /\ num_nodes lh = 8 /\ num_items lh = 0 /\ lh_error lh = 0.
Proof.
  unfold OPENtls_LH_new. destruct (CRYPTO_zalloc sizeof_LHASH); [|done].
  destruct (CRYPTO_zalloc _); [|done]. intros [= <-]. split; [|done]. split; try done.
  - by exists 0%nat.
  - intros i c nd Hi Hnd. change (replicate 16 ([] : list (LH_NODE D)) !! i = Some c) in Hi.
    apply lookup_replicate in Hi as [-> _]. by apply not_elem_of_nil in Hnd.
  - constructor.
Qed.

Lemma doall_spec lh : table_ok lh -> exists l, doall_util_fn lh cons [] = Some l /\ l ≡ₚ map node_data (nodes lh).
Proof.
  intros Hok. pose proof (pmax_pos _ Hok). pose proof (table_p _ Hok) as Hp. pose proof (table_nodes _ Hok) as Hnn.
  pose proof (table_len _ Hok) as Hlen. unfold doall_util_fn.
  assert (Hfold : forall (chain : list (LH_NODE D)) acc,
    fold_left (fun s a => node_data a :: s) chain acc ≡ₚ map node_data chain ++ acc).
  { induction chain as [|nd chain IH]; intros acc; [done|]. cbn. rewrite IH. by rewrite Permutation_middle. }
  assert (Hloop : forall n acc, (n <= length (lh_b lh))%nat -> exists l,
    doall_loop cons n (lh_b lh) acc = Some l /\ l ≡ₚ map node_data (concat (take n (lh_b lh))) ++ acc).
  { induction n as [|n IH]; intros acc Hn; [by exists acc|]. cbn [doall_loop].
    destruct (lookup_lt_is_Some_2 (lh_b lh) n) as [c Hc]; [lia|]. rewrite Hc. cbn [mbind option_bind].
    destruct (IH (fold_left (fun s a => node_data a :: s) c acc)) as (l & -> & Hl); [lia|]. exists l. split; [done|].
    rewrite Hl, Hfold, (take_S_r _ _ _ Hc), concat_app, map_app. cbn [concat]. by rewrite app_nil_r, <- app_assoc. }
  destruct (Hloop (Z.to_nat (num_nodes lh)) []) as (l & -> & Hl); [lia|]. exists l. split; [done|].
  rewrite Hl, app_nil_r. unfold nodes. rewrite <- (take_drop (Z.to_nat (num_nodes lh)) (lh_b lh)) at 2.
  assert (Hdrop : concat (drop (Z.to_nat (num_nodes lh)) (lh_b lh)) = []).
  { apply concat_nil_Forall, Forall_lookup. intros i c Hi. rewrite lookup_drop in Hi.
    apply (unused_empty (lh_pmax lh) (lh_p lh) _ _ c ltac:(lia) Hp (table_placed _ Hok) Hi). lia. }
  by rewrite concat_app, Hdrop, app_nil_r.
Qed.

(** ** Requests *)

Inductive request := Insert (d : D) | Delete (d : D) | Retrieve (d : D).

Definition serve (r : request) (lh : LHASH D) : option (option D * LHASH D) :=
  match r with
  | Insert d => OPENtls_LH_insert comp hash lh d
  | Delete d => OPENtls_LH_delete comp hash lh d
  | Retrieve d => OPENtls_LH_retrieve comp hash lh d
  end.

Fixpoint serve_all (rs : list request) (lh : LHASH D) : option (list (option D) * LHASH D) :=
  match rs with
  | [] => Some ([], lh)
  | r :: rs => '(a, lh) ← serve r lh; '(l, lh) ← serve_all rs lh; Some (a :: l, lh)
  end.

(** The same requests to a finite map. *)
Definition answer (r : request) (m : gmap K D) : option D * gmap K D :=
  match r with
  | Insert d => (m !! key d, <[key d := d]> m)
  | Delete d => (m !! key d, delete (key d) m)
  | Retrieve d => (m !! key d, m)
  end.

Fixpoint answer_all (rs : list request) (m : gmap K D) : list (option D) * gmap K D :=
  match rs with
  | [] => ([], m)
  | r :: rs => let '(a, m) := answer r m in let '(l, m) := answer_all rs m in (a :: l, m)
  end.

Lemma serve_spec r lh : table_ok lh -> room 1 lh -> reallocs_ok -> node_alloc_ok -> exists lh',
  serve r lh = Some ((answer r (contents lh)).1, lh') /\ table_ok lh' /\ contents lh' = (answer r (contents lh)).2 /\
  num_nodes lh' <= num_nodes lh + 1 /\ num_items lh' <= num_items lh + 1.
Proof using comp_key hash_key.
  intros Hok Hroom Hre Hal. destruct r as [d|d|d]; cbn [serve answer fst snd].
  - destruct (lh_insert_spec lh d Hok Hroom) as (r & lh' & Hrun & Hok' & Hn & Hi & [(_ & -> & Hc)|(_ & _ & _ & Hno)]); [|by destruct Hno].
    by exists lh'.
  - destruct (lh_delete_spec lh d Hok) as (lh' & Hrun & Hok' & Hc & Hn & Hi & _); [unfold room in *; lia|done|].
    exists lh'. do 3 (split; [done|]). lia.
  - destruct (lh_retrieve_spec lh d Hok) as (lh' & Hrun & Hs & _); [unfold room in *; lia|]. exists lh'.
    split; [exact Hrun|]. split; [by eapply same_table_ok|]. destruct Hs as (S1 & S2 & _ & _ & _ & S6).
    rewrite S2, S6. split; [|lia]. change (map_of (nodes lh') = map_of (nodes lh)). unfold nodes. by rewrite S1.
Qed.

Lemma serve_all_spec rs : forall lh, table_ok lh -> room (zlen rs) lh -> reallocs_ok -> node_alloc_ok -> exists lh',
  serve_all rs lh = Some ((answer_all rs (contents lh)).1, lh') /\ table_ok lh' /\
  contents lh' = (answer_all rs (contents lh)).2.
Proof using comp_key hash_key.
  induction rs as [|r rs IH]; intros lh Hok Hroom Hre Hal; [by exists lh|]. rewrite zlen_cons in Hroom.
  pose proof (zlen_nonneg rs) as Hz. cbn [serve_all answer_all].
  destruct (serve_spec r lh Hok) as (lh1 & -> & Hok1 & Hc1 & Hn1 & Hi1); [unfold room in *; lia|done|done|].
  destruct (answer r (contents lh)) as [a m]. cbn [mbind option_bind fst snd] in *.
  destruct (IH lh1 Hok1) as (lh2 & -> & Hok2 & Hc2); [unfold room in *; lia|done|done|]. rewrite Hc1 in *.
  destruct (answer_all rs m) as [l m']. cbn [mbind option_bind fst snd] in *. by exists lh2.
Qed.

(** The number of items is the size of the map. *)
Lemma items_size lh : table_ok lh -> num_items lh = Z.of_nat (size (contents lh)).
Proof.
  intros Hok. rewrite (table_items _ Hok). unfold contents, zlen. rewrite map_size_list_to_map; [by rewrite length_map|].
  rewrite <- list_fmap_compose. exact (table_keys _ Hok).
Qed.

End Correct.

(** ** Properties *)

(** C31: the hash table is a finite map: whatever is inserted, deleted and retrieved,
    the answers are those of a map from keys (what the comparison function compares)
    to data, however often the table is made larger and smaller on the way; the
    number of items is the size of the map, and going through the table visits every
    item once.  Allocations are assumed to succeed, and there are fewer than 2^27
    requests. *)
Theorem lhash_refines_map `{Malloc} {D K} `{Countable K} (key : D -> K) comp hash (h : K -> Z) rs lh :
  (forall a b, comp a b = 0 <-> key a = key b) -> (forall a, hash a = h (key a)) ->
  reallocs_ok -> node_alloc_ok -> OPENtls_LH_new = Some lh -> zlen rs < 2 ^ 27 ->
  exists lh' l, serve_all comp hash rs lh = Some ((answer_all key rs ∅).1, lh') /\
    contents key lh' = (answer_all key rs ∅).2 /\
    OPENtls_LH_num_items (Some lh') = Z.of_nat (size (contents key lh')) /\
    doall_util_fn lh' cons [] = Some l /\ l ≡ₚ map snd (map_to_list (contents key lh')).
Proof.
  intros Hcomp Hhash Hre Hal Hnew Hrs. destruct (new_spec key hash lh Hnew) as (Hok & Hc & Hn & Hi & _).
  destruct (serve_all_spec key comp hash h Hcomp Hhash rs lh Hok) as (lh' & Hrun & Hok' & Hc'); [unfold room; lia|done|done|].
  rewrite Hc in *. destruct (doall_spec key hash lh' Hok') as (l & Hl & Hp).
  exists lh', l. split; [done|]. split; [done|]. split; [by apply (items_size key hash)|]. split; [done|].
  rewrite Hp. unfold contents. rewrite map_to_list_to_map; [by rewrite map_map|].
  rewrite <- list_fmap_compose. exact (table_keys _ _ _ Hok').
Qed.

(** C32: an insertion into a hash table happens or fails cleanly: with any allocator,
    [OPENtls_LH_insert] either returns what was stored for the key, with the table
    changed there, or it returns the null pointer with the error set, and the table
    holds what it held. *)
Theorem lhash_insert_all_or_nothing `{Malloc} {D K} `{Countable K} (key : D -> K) comp hash (h : K -> Z) lh d :
  (forall a b, comp a b = 0 <-> key a = key b) -> (forall a, hash a = h (key a)) ->
  table_ok key hash lh -> room 1 lh ->
  exists r lh', OPENtls_LH_insert comp hash lh d = Some (r, lh') /\ table_ok key hash lh' /\
    if OPENtls_LH_error lh' =? 0
    then r = contents key lh !! key d /\ contents key lh' = <[key d := d]> (contents key lh)
    else r = None /\ contents key lh' = contents key lh.
Proof.
  intros Hcomp Hhash Hok Hroom. unfold OPENtls_LH_error.
  destruct (lh_insert_spec key comp hash h Hcomp Hhash lh d Hok Hroom)
    as (r & lh' & Hrun & Hok' & _ & _ & [(E & Hr)|(E & Hr & Hc & _)]);
    exists r, lh'; rewrite E; by split.
Qed.

(** ** Witnesses *)

#[local] Existing Instance generous_malloc.

(** Numbers with their remainders modulo 100 as keys; every hash occurs ten times. *)
Definition rem100 (n : Z) : Z := n `mod` 100.
Definition rem_comp (a b : Z) : Z := rem100 a - rem100 b.
Definition rem_hash (a : Z) : Z := rem100 a / 10.

Definition fresh_table : LHASH Z :=
  match OPENtls_LH_new (D := Z) with Some lh => lh | None => mk_LHASH _ [] 0 0 0 0 0 0 0 0 0 0 0 0 0 0 0 0 0 0 0 0 0 end.

Lemma rem_comp_key a b : rem_comp a b = 0 <-> rem100 a = rem100 b.
Proof. unfold rem_comp. lia. Qed.

Lemma generous_reallocs : reallocs_ok.
Proof. intros n Hn. unfold realloc_b, CRYPTO_realloc. destruct (Z.eqb_spec n 0); [lia|done]. Qed.

(** Forty insertions, so that the table grows twice, one of which replaces; a deletion. *)
Definition rem_requests : list (@request Z) :=
  map (fun n => Insert (Z.of_nat n)) (seq 0 40) ++ [Insert 105; Delete 207; Retrieve 5; Retrieve 7; Retrieve 39].

Lemma lhash_refines_map_witness :
  exists lh', serve_all rem_comp rem_hash rem_requests fresh_table
    = Some (replicate 40 None ++ [Some 5; Some 7; Some 105; None; Some 39], lh') /\
    OPENtls_LH_num_items (Some lh') = 39.
Proof.
  destruct (lhash_refines_map rem100 rem_comp rem_hash (fun k => k / 10) rem_requests fresh_table rem_comp_key
              (fun a => eq_refl) generous_reallocs) as (lh' & l & Hrun & Hc & Hn & _).
  - by eexists.
  - reflexivity.
  - reflexivity.
  - exists lh'. split; [rewrite Hrun; vm_compute; reflexivity|]. rewrite Hn, Hc. vm_compute. reflexivity.
Defined.

Lemma lhash_insert_all_or_nothing_witness :
  exists r lh', OPENtls_LH_insert rem_comp rem_hash fresh_table 5 = Some (r, lh') /\ r = None.
Proof.
  assert (Hnew : OPENtls_LH_new = Some fresh_table) by reflexivity.
  destruct (new_spec rem100 rem_hash fresh_table Hnew) as (Hok & Hc & Hn & Hi & _).
  destruct (lhash_insert_all_or_nothing rem100 rem_comp rem_hash (fun k => k / 10) fresh_table 5 rem_comp_key
              (fun a => eq_refl) Hok) as (r & lh' & Hrun & _ & Hr).
  - split; rewrite ?Hn, ?Hi; reflexivity.
  - exists r, lh'. split; [exact Hrun|]. rewrite Hc in Hr. destruct (_ =? 0); by destruct Hr.
Defined.

(** ** Two defects *)

(** Emptying a table does not reset its number of items. *)
Example flush_keeps_count : exists lh,
  serve_all rem_comp rem_hash [Insert 1; Insert 2] fresh_table = Some ([None; None], lh) /\
  contents rem100 (OPENtls_LH_flush lh) = ∅ /\ OPENtls_LH_num_items (Some (OPENtls_LH_flush lh)) = 2.
Proof. eexists. split; [vm_compute; reflexivity|]. split; vm_compute; reflexivity. Qed.

(** When the array cannot be reallocated to be made smaller, the last chain has already
    been taken out of it: its items are lost. *)
#[refine] Definition no_malloc : Malloc := {| malloc n := None |}.
Proof. done. Defined.

Definition many_requests : list (@request Z) :=
  map (fun n => Insert (Z.of_nat n)) (seq 0 63) ++ map (fun n => Delete (Z.of_nat n)) (seq 0 30).

Example contract_loses_items : exists l lh lh',
  serve_all rem_comp rem100 many_requests fresh_table = Some (l, lh) /\
  @OPENtls_LH_delete no_malloc _ rem_comp rem100 lh 30 = Some (Some 30, lh') /\
  contents rem100 lh !! 31 = Some 31 /\ contents rem100 lh' !! 31 = None /\
  OPENtls_LH_num_items (Some lh') = OPENtls_LH_num_items (Some lh) - 1.
Proof.
  do 3 eexists. split; [vm_compute; reflexivity|]. split; [vm_compute; reflexivity|].
  split; [vm_compute; reflexivity|]. split; vm_compute; reflexivity.
Qed.
