(* ===== verification/Packet.v ===== *)
(** * Reading packets: [PACKET], [src/include/internal/packet.h]

    A [PACKET] is a pointer into a block of bytes and the number of bytes left.
    The block is the section variable [mem]; the pointer is [None] when it is
    NULL and the offset of a byte otherwise.  An operation that the C code gives
    the type [int f(PACKET *pkt, T *data)] is a function to
    [option (bool * PACKET * T)]: the returned truth value and the final contents
    of [*pkt] and [*data], or [None] when it would read outside of the block
    (undefined behaviour).  Operations on [const PACKET *] do not return one. *)

From S2P Require Import Prelude Mem.

(** [curr], [remaining] *)
Record PACKET := mk_PACKET { curr : option Z; remaining : Z }.
#[export] Instance eta_PACKET : Eta PACKET := fun p => mk_PACKET (curr p) (remaining p).

(** Pointer arithmetic; NULL stays NULL (only [NULL + 0] is meaningful). *)
Definition ptr_add (p : option Z) (n : Z) : option Z := option_map (fun o => o + n) p.

Definition packet_forward (pkt : PACKET) (len : Z) : PACKET :=
  pkt <| curr ::= fun c => ptr_add c len |> <| remaining ::= fun r => sz (r - len) |>.

Definition PACKET_remaining (pkt : PACKET) : Z := remaining pkt.

Definition PACKET_end (pkt : PACKET) : option Z := ptr_add (curr pkt) (remaining pkt).

Definition PACKET_data (pkt : PACKET) : option Z := curr pkt.

(** The returned truth value and the final [*pkt]. *)
Definition PACKET_buf_init (pkt : PACKET) (buf : option Z) (len : Z) : bool * PACKET :=
  if SIZE_MAX / 2 <? len then (false, pkt)
  else (true, pkt <| curr := buf |> <| remaining := len |>).

Definition PACKET_null_init (pkt : PACKET) : PACKET :=
  pkt <| curr := None |> <| remaining := 0 |>.

Section Reading.
(** The block the packet points into. *)
Variable mem : list Z.

(** [*(p + n)] *)
Definition deref (p : option Z) (n : Z) : option Z :=
  match p with Some o => rd mem (o + n) | None => None end.

(** [n] bytes read from [p]; the null pointer is only good for none. *)
Definition deref_n (p : option Z) (n : Z) : option (list Z) :=
  match p with
  | Some o => rdn mem o n
  | None => if n =? 0 then Some [] else None
  end.

Definition PACKET_equal (pkt : PACKET) (ptr : list Z) (num : Z) : option bool :=
  if negb (PACKET_remaining pkt =? num) then Some false
  else
    match curr pkt with
    | Some o => r ← CRYPTO_memcmp mem o ptr 0 num; Some (r =? 0)
    | None => if num =? 0 then Some true else None
    end.

Definition PACKET_peek_sub_packet (pkt subpkt : PACKET) (len : Z) : bool * PACKET :=
  if PACKET_remaining pkt <? len then (false, subpkt)
  else PACKET_buf_init subpkt (curr pkt) len.

(** The final [*pkt] and [*subpkt]. *)
Definition PACKET_get_sub_packet (pkt subpkt : PACKET) (len : Z) : bool * PACKET * PACKET :=
  let '(ok, subpkt') := PACKET_peek_sub_packet pkt subpkt len in
  if negb ok then (false, pkt, subpkt')
  else (true, packet_forward pkt len, subpkt').

(** ** Integers in network order *)

Definition PACKET_peek_net_2 (pkt : PACKET) (data : Z) : option (bool * Z) :=
  if PACKET_remaining pkt <? 2 then Some (false, data)
  else
    b0 ← deref (curr pkt) 0;
    b1 ← deref (curr pkt) 1;
    let data := u32 (Z.shiftl b0 8) in
    Some (true, Z.lor data b1).

Definition PACKET_get_net_2 (pkt : PACKET) (data : Z) : option (bool * PACKET * Z) :=
  '(ok, data') ← PACKET_peek_net_2 pkt data;
  if negb ok then Some (false, pkt, data') else Some (true, packet_forward pkt 2, data').

Definition PACKET_get_net_2_len (pkt : PACKET) (data : Z) : option (bool * PACKET * Z) :=
  '(ret, pkt', i) ← PACKET_get_net_2 pkt 0;
  Some (ret, pkt', if (ret : bool) then i else data).

Definition PACKET_peek_net_3 (pkt : PACKET) (data : Z) : option (bool * Z) :=
  if PACKET_remaining pkt <? 3 then Some (false, data)
  else
    b0 ← deref (curr pkt) 0;
    b1 ← deref (curr pkt) 1;
    b2 ← deref (curr pkt) 2;
    let data := u64 (Z.shiftl b0 16) in
    let data := Z.lor data (u64 (Z.shiftl b1 8)) in
    Some (true, Z.lor data b2).

Definition PACKET_get_net_3 (pkt : PACKET) (data : Z) : option (bool * PACKET * Z) :=
  '(ok, data') ← PACKET_peek_net_3 pkt data;
  if negb ok then Some (false, pkt, data') else Some (true, packet_forward pkt 3, data').

Definition PACKET_get_net_3_len (pkt : PACKET) (data : Z) : option (bool * PACKET * Z) :=
  '(ret, pkt', i) ← PACKET_get_net_3 pkt 0;
  Some (ret, pkt', if (ret : bool) then i else data).

Definition PACKET_peek_net_4 (pkt : PACKET) (data : Z) : option (bool * Z) :=
  if PACKET_remaining pkt <? 4 then Some (false, data)
  else
    b0 ← deref (curr pkt) 0;
    b1 ← deref (curr pkt) 1;
    b2 ← deref (curr pkt) 2;
    b3 ← deref (curr pkt) 3;
    let data := u64 (Z.shiftl b0 24) in
    let data := Z.lor data (u64 (Z.shiftl b1 16)) in
    let data := Z.lor data (u64 (Z.shiftl b2 8)) in
    Some (true, Z.lor data b3).

Definition PACKET_get_net_4 (pkt : PACKET) (data : Z) : option (bool * PACKET * Z) :=
  '(ok, data') ← PACKET_peek_net_4 pkt data;
  if negb ok then Some (false, pkt, data') else Some (true, packet_forward pkt 4, data').

Definition PACKET_get_net_4_len (pkt : PACKET) (data : Z) : option (bool * PACKET * Z) :=
  '(ret, pkt', i) ← PACKET_get_net_4 pkt 0;
  Some (ret, pkt', if (ret : bool) then i else data).

Definition PACKET_peek_1 (pkt : PACKET) (data : Z) : option (bool * Z) :=
  if negb (truth (PACKET_remaining pkt)) then Some (false, data)
  else
    b0 ← deref (curr pkt) 0;
    Some (true, b0).

Definition PACKET_get_1 (pkt : PACKET) (data : Z) : option (bool * PACKET * Z) :=
  '(ok, data') ← PACKET_peek_1 pkt data;
  if negb ok then Some (false, pkt, data') else Some (true, packet_forward pkt 1, data').

Definition PACKET_get_1_len (pkt : PACKET) (data : Z) : option (bool * PACKET * Z) :=
  '(ret, pkt', i) ← PACKET_get_1 pkt 0;
  Some (ret, pkt', if (ret : bool) then i else data).

(** Reverse network order. *)
Definition PACKET_peek_4 (pkt : PACKET) (data : Z) : option (bool * Z) :=
  if PACKET_remaining pkt <? 4 then Some (false, data)
  else
    b0 ← deref (curr pkt) 0;
    b1 ← deref (curr pkt) 1;
    b2 ← deref (curr pkt) 2;
    b3 ← deref (curr pkt) 3;
    let data := b0 in
    let data := Z.lor data (u64 (Z.shiftl b1 8)) in
    let data := Z.lor data (u64 (Z.shiftl b2 16)) in
    Some (true, Z.lor data (u64 (Z.shiftl b3 24))).

Definition PACKET_get_4 (pkt : PACKET) (data : Z) : option (bool * PACKET * Z) :=
  '(ok, data') ← PACKET_peek_4 pkt data;
  if negb ok then Some (false, pkt, data') else Some (true, packet_forward pkt 4, data').

(** ** Strings of bytes *)

(** [*data] is a pointer. *)
Definition PACKET_peek_bytes (pkt : PACKET) (data : option Z) (len : Z) : bool * option Z :=
  if PACKET_remaining pkt <? len then (false, data) else (true, curr pkt).

Definition PACKET_get_bytes (pkt : PACKET) (data : option Z) (len : Z)
  : bool * PACKET * option Z :=
  let '(ok, data') := PACKET_peek_bytes pkt data len in
  if negb ok then (false, pkt, data') else (true, packet_forward pkt len, data').

(** [data] is a block of the caller. *)
Definition PACKET_peek_copy_bytes (pkt : PACKET) (data : list Z) (len : Z)
  : option (bool * list Z) :=
  if PACKET_remaining pkt <? len then Some (false, data)
  else
    src ← deref_n (curr pkt) len;
    data' ← wrn data 0 src;
    Some (true, data').

Definition PACKET_copy_bytes (pkt : PACKET) (data : list Z) (len : Z)
  : option (bool * PACKET * list Z) :=
  '(ok, data') ← PACKET_peek_copy_bytes pkt data len;
  if negb ok then Some (false, pkt, data') else Some (true, packet_forward pkt len, data').

(** The returned value, [dest] and [*len]. *)
Definition PACKET_copy_all (pkt : PACKET) (dest : list Z) (dest_len : Z)
  : option (bool * list Z * Z) :=
  if dest_len <? PACKET_remaining pkt then Some (false, dest, 0)
  else
    src ← deref_n (curr pkt) (remaining pkt);
    dest' ← wrn dest 0 src;
    Some (true, dest', remaining pkt).

(** The returned value, the block [*data] points to and [*len]. *)
Definition PACKET_memdup `{Malloc} (pkt : PACKET) : option (bool * option (list Z) * Z) :=
  let length := PACKET_remaining pkt in
  if length =? 0 then Some (true, None, 0)
  else
    data ← CRYPTO_memdup mem (curr pkt) length;
    match data with
    | None => Some (false, None, 0)
    | Some blk => Some (true, Some blk, length)
    end.

Definition PACKET_strndup `{Malloc} (pkt : PACKET) : option (bool * option (list Z)) :=
  data ← CRYPTO_strndup mem (curr pkt) (PACKET_remaining pkt);
  Some (bool_decide (is_Some data), data).

(** [memchr(pkt->curr, 0, pkt->remaining) != NULL] *)
Definition PACKET_contains_zero_byte (pkt : PACKET) : option bool :=
  l ← deref_n (curr pkt) (remaining pkt);
  Some (existsb (fun b => b =? 0) l).

Definition PACKET_forward (pkt : PACKET) (len : Z) : bool * PACKET :=
  if PACKET_remaining pkt <? len then (false, pkt) else (true, packet_forward pkt len).

(** ** Length-prefixed vectors

    The final [*pkt] and [*subpkt]. *)

Definition PACKET_get_length_prefixed_1 (pkt subpkt : PACKET)
  : option (bool * PACKET * PACKET) :=
  let tmp := pkt in
  '(ok1, tmp, length) ← PACKET_get_1 tmp 0;
  if negb ok1 then Some (false, pkt, subpkt)
  else
    let '(ok2, tmp, data) := PACKET_get_bytes tmp None length in
    if negb ok2 then Some (false, pkt, subpkt)
    else Some (true, tmp, subpkt <| curr := data |> <| remaining := length |>).

Definition PACKET_as_length_prefixed_1 (pkt subpkt : PACKET)
  : option (bool * PACKET * PACKET) :=
  let tmp := pkt in
  '(ok1, tmp, length) ← PACKET_get_1 tmp 0;
  if negb ok1 then Some (false, pkt, subpkt)
  else
    let '(ok2, tmp, data) := PACKET_get_bytes tmp None length in
    if negb ok2 || negb (PACKET_remaining tmp =? 0) then Some (false, pkt, subpkt)
    else Some (true, tmp, subpkt <| curr := data |> <| remaining := length |>).

Definition PACKET_get_length_prefixed_2 (pkt subpkt : PACKET)
  : option (bool * PACKET * PACKET) :=
  let tmp := pkt in
  '(ok1, tmp, length) ← PACKET_get_net_2 tmp 0;
  if negb ok1 then Some (false, pkt, subpkt)
  else
    let '(ok2, tmp, data) := PACKET_get_bytes tmp None length in
    if negb ok2 then Some (false, pkt, subpkt)
    else Some (true, tmp, subpkt <| curr := data |> <| remaining := length |>).

Definition PACKET_as_length_prefixed_2 (pkt subpkt : PACKET)
  : option (bool * PACKET * PACKET) :=
  let tmp := pkt in
  '(ok1, tmp, length) ← PACKET_get_net_2 tmp 0;
  if negb ok1 then Some (false, pkt, subpkt)
  else
    let '(ok2, tmp, data) := PACKET_get_bytes tmp None length in
    if negb ok2 || negb (PACKET_remaining tmp =? 0) then Some (false, pkt, subpkt)
    else Some (true, tmp, subpkt <| curr := data |> <| remaining := length |>).

Definition PACKET_get_length_prefixed_3 (pkt subpkt : PACKET)
  : option (bool * PACKET * PACKET) :=
  let tmp := pkt in
  '(ok1, tmp, length) ← PACKET_get_net_3 tmp 0;
  if negb ok1 then Some (false, pkt, subpkt)
  else
    let '(ok2, tmp, data) := PACKET_get_bytes tmp None length in
    if negb ok2 then Some (false, pkt, subpkt)
    else Some (true, tmp, subpkt <| curr := data |> <| remaining := length |>).

End Reading.

(** ** What the operations mean on the bytes left

    [packet_view mem pkt l]: the bytes left to read in [pkt] are [l]. *)

Definition packet_view (mem : list Z) (pkt : PACKET) (l : list Z) : Prop :=
  0 <= remaining pkt <= SIZE_MAX / 2 /\ deref_n mem (curr pkt) (remaining pkt) = Some l.

(** Abstract readers: a value and the rest, or a refusal. *)
Definition spec_net (n : nat) (l : list Z) : option (Z * list Z) :=
  if bool_decide (n <= length l)%nat then Some (be_val (take n l), drop n l) else None.

Definition spec_le (n : nat) (l : list Z) : option (Z * list Z) :=
  if bool_decide (n <= length l)%nat then Some (be_val (rev (take n l)), drop n l) else None.

Definition spec_bytes (n : Z) (l : list Z) : option (list Z * list Z) :=
  if bool_decide (n <= zlen l) then Some (take (Z.to_nat n) l, drop (Z.to_nat n) l) else None.

(** A vector with a length prefix of [n] bytes. *)
Definition spec_prefixed (n : nat) (l : list Z) : option (list Z * list Z) :=
  '(len, l') ← spec_net n l; spec_bytes len l'.

(** [f] implements [spec]: it never leaves the block; when [spec] accepts it
    returns 1, stores the value and leaves the rest; when [spec] refuses it
    returns 0 and changes nothing. *)
Definition implements (mem : list Z) (f : PACKET -> Z -> option (bool * PACKET * Z))
  (spec : list Z -> option (Z * list Z)) : Prop :=
  forall pkt l d, packet_view mem pkt l ->
    match spec l with
    | Some (v, rest) => exists pkt', f pkt d = Some (true, pkt', v) /\ packet_view mem pkt' rest
    | None => f pkt d = Some (false, pkt, d)
    end.

Definition implements_sub (mem : list Z) (f : PACKET -> PACKET -> option (bool * PACKET * PACKET))
  (spec : list Z -> option (list Z * list Z)) : Prop :=
  forall pkt sub l, packet_view mem pkt l ->
    match spec l with
    | Some (body, rest) =>
        exists pkt' sub', f pkt sub = Some (true, pkt', sub') /\
          packet_view mem pkt' rest /\ packet_view mem sub' body
    | None => f pkt sub = Some (false, pkt, sub)
    end.

Section ViewLemmas.
Context {mem : list Z}.
Implicit Types pkt : PACKET.

Lemma deref_n_zlen p n l : deref_n mem p n = Some l -> zlen l = n.
Proof.
  destruct p; simpl; [apply rdn_zlen|].
  destruct (Z.eqb_spec n 0); [|done]. intros [= <-]. by rewrite zlen_nil.
Qed.

Lemma view_remaining pkt l : packet_view mem pkt l -> remaining pkt = zlen l.
Proof. intros [_ H]. by apply deref_n_zlen in H. Qed.

Lemma deref_n_app p l k n :
  deref_n mem p n = Some (l ++ k) ->
  deref_n mem p (zlen l) = Some l /\ deref_n mem (ptr_add p (zlen l)) (zlen k) = Some k.
Proof.
  intros H. pose proof (deref_n_zlen _ _ _ H) as Hn. rewrite zlen_app in Hn.
  pose proof (zlen_nonneg l). pose proof (zlen_nonneg k).
  destruct p as [o|]; simpl in *.
  - apply rdn_Some in H as (Ho & Hn0 & Hb & Heq). rewrite !rdn_spec by lia.
    assert (E : drop (Z.to_nat o) mem = l ++ k ++ drop (Z.to_nat n) (drop (Z.to_nat o) mem)).
    { rewrite <- (take_drop (Z.to_nat n) (drop (Z.to_nat o) mem)) at 1.
      by rewrite <- Heq, <- app_assoc. }
    split; f_equal.
    + rewrite E, take_app_le by len_lia. by rewrite take_ge by len_lia.
    + replace (Z.to_nat (o + zlen l)) with (Z.to_nat o + length l)%nat by len_lia.
      rewrite <- drop_drop, E, drop_app_length, take_app_le by len_lia.
      by rewrite take_ge by len_lia.
  - destruct (Z.eqb_spec n 0); [|done]. injection H as Hnil.
    symmetry in Hnil. apply app_eq_nil in Hnil as [-> ->]. done.
Qed.

Lemma view_forward pkt l k :
  packet_view mem pkt (l ++ k) -> packet_view mem (packet_forward pkt (zlen l)) k.
Proof.
  unfold packet_view. rewrite SIZE_MAX_half. intros [Hr H].
  pose proof (deref_n_zlen _ _ _ H) as Hn. rewrite zlen_app in Hn.
  pose proof (zlen_nonneg l). pose proof (zlen_nonneg k).
  apply deref_n_app in H as [_ H]. simpl.
  rewrite sz_small by (unfold SIZE_MAX; lia).
  replace (remaining pkt - zlen l) with (zlen k) by lia.
  split; [lia|done].
Qed.

Lemma view_forward_drop pkt l n :
  packet_view mem pkt l -> 0 <= n <= zlen l ->
  packet_view mem (packet_forward pkt n) (drop (Z.to_nat n) l).
Proof.
  intros H Hn. rewrite <- (take_drop (Z.to_nat n) l) in H.
  apply view_forward in H. by rewrite zlen_take in H.
Qed.

(** Reading the [i]-th byte left. *)
Lemma view_deref pkt l i x :
  packet_view mem pkt l -> l !! i = Some x -> deref mem (curr pkt) (Z.of_nat i) = Some x.
Proof.
  intros [Hr H] Hx. destruct (curr pkt) as [o|]; simpl in *.
  - apply rdn_Some in H as (Ho & Hn & Hb & ->).
    rewrite rd_drop, Nat2Z.id by lia.
    apply lookup_take_Some in Hx. tauto.
  - destruct (_ =? 0); [|done]. by injection H as <-.
Qed.

(** A view whose first bytes are read off. *)
Lemma view_prefix pkt l n :
  packet_view mem pkt l -> 0 <= n <= zlen l ->
  deref_n mem (curr pkt) n = Some (take (Z.to_nat n) l).
Proof.
  intros [_ H] Hn. rewrite <- (take_drop (Z.to_nat n) l) in H.
  apply deref_n_app in H as [H _]. by rewrite zlen_take in H.
Qed.

End ViewLemmas.

#[export] Hint Resolve view_forward_drop : tls.

(** Evaluates the reads of a [peek] operation along the bytes left, whose first
    elements are exposed. *)
Ltac view_reads H :=
  repeat match goal with
  | |- context [deref ?mem ?p ?i] =>
      let n := eval compute in (Z.to_nat i) in
      let E := fresh "E" in
      epose proof (view_deref _ _ n _ H eq_refl) as E;
      change (Z.of_nat n) with i in E; rewrite E; clear E; simpl mbind
  end.

(** Opens a view of at least [n] bytes: [x :: y :: ... :: rest]. *)
Ltac expose n l :=
  lazymatch n with
  | O => idtac
  | S ?m => let x := fresh "b" in let r := fresh "rest" in
            destruct l as [|x r]; [simpl in *; lia|]; expose m r
  end.

Section Integers.
Context {mem : list Z} (mem_ok : bytes_ok mem).

Lemma view_bytes_ok pkt l : packet_view mem pkt l -> bytes_ok l.
Proof using mem_ok.
  intros [_ H]. destruct (curr pkt); simpl in H.
  - apply rdn_Some in H as (_ & _ & _ & ->). by apply Forall_take, Forall_drop.
  - destruct (_ =? 0); [|done]. injection H as <-. constructor.
Qed.

Lemma ltb_remaining pkt l n :
  packet_view mem pkt l -> (PACKET_remaining pkt <? n) = (zlen l <? n).
Proof. intros H. unfold PACKET_remaining. by rewrite (view_remaining _ _ H). Qed.

(** A [get] operation that peeks and then moves forward implements the reader
    its [peek] computes. *)
Lemma implements_get n peek spec :
  (forall pkt l d, packet_view mem pkt l ->
     peek pkt d = Some (match spec l with Some (v, _) => (true, v) | None => (false, d) end)) ->
  (forall l v r, spec l = Some (v, r) -> 0 <= n <= zlen l /\ r = drop (Z.to_nat n) l) ->
  implements mem (fun pkt data =>
    '(ok, data') ← peek pkt data;
    if negb ok then Some (false, pkt, data') else Some (true, packet_forward pkt n, data')) spec.
Proof.
  intros Hpeek Hspec pkt l d H. rewrite (Hpeek _ _ d H).
  destruct (spec l) as [[v r]|] eqn:E; simpl; [|done].
  apply Hspec in E as [Hn ->]. eexists. split; [done|]. eauto with tls.
Qed.

Lemma implements_len (get : PACKET -> Z -> option (bool * PACKET * Z)) spec :
  implements mem get spec ->
  implements mem (fun pkt data =>
    '(ret, pkt', i) ← get pkt 0; Some (ret, pkt', if (ret : bool) then i else data)) spec.
Proof.
  intros Hget pkt l d H. specialize (Hget pkt l 0 H).
  destruct (spec l) as [[v r]|].
  - destruct Hget as (pkt' & -> & Hv). by exists pkt'.
  - by rewrite Hget.
Qed.

Lemma spec_net_drop n l v r :
  spec_net n l = Some (v, r) -> 0 <= Z.of_nat n <= zlen l /\ r = drop (Z.to_nat (Z.of_nat n)) l.
Proof.
  unfold spec_net. case_bool_decide; [|done]. intros [= <- <-].
  rewrite Nat2Z.id. unfold zlen. split; [lia|done].
Qed.

Lemma spec_le_drop n l v r :
  spec_le n l = Some (v, r) -> 0 <= Z.of_nat n <= zlen l /\ r = drop (Z.to_nat (Z.of_nat n)) l.
Proof.
  unfold spec_le. case_bool_decide; [|done]. intros [= <- <-].
  rewrite Nat2Z.id. unfold zlen. split; [lia|done].
Qed.

(** The comparison and the reads of one [peek] operation of [n] bytes; what
    remains is the equation between the assembled word and [be_val]. *)
Ltac peek_step n H :=
  let Hok := fresh "Hok" in
  pose proof (view_bytes_ok _ _ H) as Hok; unfold bytes_ok in Hok;
  rewrite (ltb_remaining _ _ _ H);
  unfold spec_net, spec_le; case_bool_decide as Hlen;
  [ rewrite (proj2 (Z.ltb_ge _ _)) by (unfold zlen; lia);
    match type of H with packet_view _ _ ?l => expose n l end;
    repeat match goal with X : Forall byte_ok (_ :: _) |- _ => inversion X; clear X; subst end;
    view_reads H; simpl take; rewrite ?take_0
  | rewrite (proj2 (Z.ltb_lt _ _)) by (unfold zlen; lia); done ].

Lemma peek_net_2_spec pkt l d :
  packet_view mem pkt l ->
  PACKET_peek_net_2 mem pkt d =
  Some (match spec_net 2 l with Some (v, _) => (true, v) | None => (false, d) end).
Proof using mem_ok.
  intros H. unfold PACKET_peek_net_2. peek_step 2%nat H. by rewrite word_be_2.
Qed.

Lemma peek_net_3_spec pkt l d :
  packet_view mem pkt l ->
  PACKET_peek_net_3 mem pkt d =
  Some (match spec_net 3 l with Some (v, _) => (true, v) | None => (false, d) end).
Proof using mem_ok.
  intros H. unfold PACKET_peek_net_3. peek_step 3%nat H. by rewrite word_be_3.
Qed.

Lemma peek_net_4_spec pkt l d :
  packet_view mem pkt l ->
  PACKET_peek_net_4 mem pkt d =
  Some (match spec_net 4 l with Some (v, _) => (true, v) | None => (false, d) end).
Proof using mem_ok.
  intros H. unfold PACKET_peek_net_4. peek_step 4%nat H. by rewrite word_be_4.
Qed.

Lemma peek_4_spec pkt l d :
  packet_view mem pkt l ->
  PACKET_peek_4 mem pkt d =
  Some (match spec_le 4 l with Some (v, _) => (true, v) | None => (false, d) end).
Proof using mem_ok.
  intros H. unfold PACKET_peek_4. peek_step 4%nat H. by rewrite word_le_4.
Qed.

Lemma peek_1_spec pkt l d :
  packet_view mem pkt l ->
  PACKET_peek_1 mem pkt d =
  Some (match spec_net 1 l with Some (v, _) => (true, v) | None => (false, d) end).
Proof using mem_ok.
  intros H. unfold PACKET_peek_1, PACKET_remaining. rewrite (view_remaining _ _ H).
  destruct l as [|b l]; [done|]. unfold truth.
  rewrite (proj2 (Z.eqb_neq _ _)) by (pose proof (zlen_nonneg l); len_lia).
  simpl negb. cbn match. view_reads H.
  unfold spec_net. rewrite bool_decide_eq_true_2 by (simpl; lia). done.
Qed.

End Integers.

Create HintDb packet.
#[export] Hint Resolve peek_net_2_spec peek_net_3_spec peek_net_4_spec peek_4_spec peek_1_spec
  spec_net_drop spec_le_drop : packet.

Section Getters.
Context {mem : list Z} (mem_ok : bytes_ok mem).

Lemma get_1_implements : implements mem (PACKET_get_1 mem) (spec_net 1).
Proof using mem_ok. apply (implements_get 1); eauto with packet. apply spec_net_drop. Qed.

Lemma get_net_2_implements : implements mem (PACKET_get_net_2 mem) (spec_net 2).
Proof using mem_ok. apply (implements_get 2); eauto with packet. apply spec_net_drop. Qed.

Lemma get_net_3_implements : implements mem (PACKET_get_net_3 mem) (spec_net 3).
Proof using mem_ok. apply (implements_get 3); eauto with packet. apply spec_net_drop. Qed.

Lemma get_net_4_implements : implements mem (PACKET_get_net_4 mem) (spec_net 4).
Proof using mem_ok. apply (implements_get 4); eauto with packet. apply spec_net_drop. Qed.

Lemma get_4_implements : implements mem (PACKET_get_4 mem) (spec_le 4).
Proof using mem_ok. apply (implements_get 4); eauto with packet. apply spec_le_drop. Qed.

Lemma get_bytes_spec pkt l d n :
  packet_view mem pkt l -> 0 <= n ->
  match spec_bytes n l with
  | Some (body, rest) =>
      exists pkt' p, PACKET_get_bytes pkt d n = (true, pkt', p) /\
        packet_view mem pkt' rest /\ deref_n mem p n = Some body /\ zlen body = n /\ n <= zlen l
  | None => PACKET_get_bytes pkt d n = (false, pkt, d)
  end.
Proof.
  intros H Hn. unfold spec_bytes, PACKET_get_bytes, PACKET_peek_bytes.
  rewrite (ltb_remaining _ _ _ H). case_bool_decide.
  - rewrite (proj2 (Z.ltb_ge _ _)) by lia. simpl. do 2 eexists. split; [done|].
    split; [auto with tls|]. split; [by apply (view_prefix _ l)|].
    by rewrite zlen_take by lia.
  - by rewrite (proj2 (Z.ltb_lt _ _)) by lia.
Qed.

(** The body all length-prefixed readers share; [strict] asks for no leftover. *)
Definition prefixed_body (get : PACKET -> Z -> option (bool * PACKET * Z)) (strict : bool)
  (pkt subpkt : PACKET) : option (bool * PACKET * PACKET) :=
  let tmp := pkt in
  '(ok1, tmp, length) ← get tmp 0;
  if negb ok1 then Some (false, pkt, subpkt)
  else
    let '(ok2, tmp, data) := PACKET_get_bytes tmp None length in
    if negb ok2 || (strict && negb (PACKET_remaining tmp =? 0)) then Some (false, pkt, subpkt)
    else Some (true, tmp, subpkt <| curr := data |> <| remaining := length |>).

(** The strict readers accept only when the rest is empty. *)
Definition spec_prefixed_all (n : nat) (l : list Z) : option (list Z * list Z) :=
  '(body, rest) ← spec_prefixed n l;
  match rest with [] => Some (body, []) | _ :: _ => None end.

Lemma prefixed_body_implements get n strict :
  (n > 0)%nat -> implements mem get (spec_net n) ->
  implements_sub mem (prefixed_body get strict)
    (if strict then spec_prefixed_all n else spec_prefixed n).
Proof using mem_ok.
  intros Hn Hget pkt sub l H. specialize (Hget pkt l 0 H).
  assert (Hspec : (if strict then spec_prefixed_all n else spec_prefixed n) l =
    ('(len, l') ← spec_net n l; '(body, rest) ← spec_bytes len l';
     if strict && negb (zlen rest =? 0) then None else Some (body, rest))).
  { unfold spec_prefixed_all, spec_prefixed. destruct strict;
      destruct (spec_net n l) as [[??]|]; simpl; try done;
      destruct (spec_bytes _ _) as [[? [|??]]|]; simpl; done. }
  rewrite Hspec. unfold prefixed_body.
  destruct (spec_net n l) as [[len l']|] eqn:Enet; simpl; [|by rewrite Hget].
  destruct Hget as (pkt1 & -> & Hv1). simpl.
  assert (Hlen : 0 <= len).
  { unfold spec_net in Enet. case_bool_decide; [|done]. injection Enet as <- _.
    apply be_val_bound, Forall_take. by eapply view_bytes_ok. }
  pose proof (get_bytes_spec pkt1 l' None len Hv1 Hlen) as Hb.
  destruct (spec_bytes len l') as [[body rest]|]; simpl; [|by rewrite Hb].
  destruct Hb as (pkt2 & p & -> & Hv2 & Hp & Hz & Hle). simpl.
  unfold PACKET_remaining. rewrite (view_remaining _ _ Hv2).
  destruct (strict && _); [done|]. do 2 eexists. split; [done|]. split; [done|].
  split; [|done]. simpl. pose proof (view_remaining _ _ Hv1). destruct Hv1 as [Hr _]. lia.
Qed.

Lemma prefixed_body_lax get pkt subpkt :
  prefixed_body get false pkt subpkt =
  ('(ok1, tmp, length) ← get pkt 0;
   if negb ok1 then Some (false, pkt, subpkt)
   else
     let '(ok2, tmp, data) := PACKET_get_bytes tmp None length in
     if negb ok2 then Some (false, pkt, subpkt)
     else Some (true, tmp, subpkt <| curr := data |> <| remaining := length |>)).
Proof.
  unfold prefixed_body. destruct (get pkt 0) as [[[[] p] v]|]; simpl; try done.
  by destruct (PACKET_get_bytes p None v) as [[[] ?] ?].
Qed.

Lemma get_prefixed_1_implements : implements_sub mem (PACKET_get_length_prefixed_1 mem) (spec_prefixed 1).
Proof using mem_ok.
  intros pkt sub l H. unfold PACKET_get_length_prefixed_1. rewrite <- prefixed_body_lax.
  by apply (prefixed_body_implements _ 1%nat false ltac:(lia) get_1_implements).
Qed.

Lemma get_prefixed_2_implements : implements_sub mem (PACKET_get_length_prefixed_2 mem) (spec_prefixed 2).
Proof using mem_ok.
  intros pkt sub l H. unfold PACKET_get_length_prefixed_2. rewrite <- prefixed_body_lax.
  by apply (prefixed_body_implements _ 2%nat false ltac:(lia) get_net_2_implements).
Qed.

Lemma get_prefixed_3_implements : implements_sub mem (PACKET_get_length_prefixed_3 mem) (spec_prefixed 3).
Proof using mem_ok.
  intros pkt sub l H. unfold PACKET_get_length_prefixed_3. rewrite <- prefixed_body_lax.
  by apply (prefixed_body_implements _ 3%nat false ltac:(lia) get_net_3_implements).
Qed.

End Getters.

(** ** Copies and comparisons *)

Section Copies.
Context {mem : list Z} (mem_ok : bytes_ok mem).

Lemma copy_bytes_spec pkt l dest len :
  packet_view mem pkt l -> 0 <= len <= zlen dest ->
  match spec_bytes len l with
  | Some (body, rest) =>
      exists pkt', PACKET_copy_bytes mem pkt dest len =
        Some (true, pkt', body ++ drop (Z.to_nat len) dest) /\ packet_view mem pkt' rest
  | None => PACKET_copy_bytes mem pkt dest len = Some (false, pkt, dest)
  end.
Proof.
  intros H Hlen. unfold spec_bytes, PACKET_copy_bytes, PACKET_peek_copy_bytes.
  rewrite (ltb_remaining _ _ _ H). case_bool_decide.
  - rewrite (proj2 (Z.ltb_ge _ _)) by lia. rewrite (view_prefix _ l) by (done || lia).
    assert (Hz : zlen (take (Z.to_nat len) l) = len) by (apply zlen_take; lia). simpl.
    rewrite wrn_spec by lia. simpl. eexists. split; [|by apply view_forward_drop; [|lia]].
    do 3 f_equal. unfold zlen in Hz. f_equal. lia.
  - by rewrite (proj2 (Z.ltb_lt _ _)) by lia.
Qed.

Lemma view_all pkt l : packet_view mem pkt l -> deref_n mem (curr pkt) (remaining pkt) = Some l.
Proof. by intros []. Qed.

Lemma copy_all_spec pkt l dest dest_len :
  packet_view mem pkt l -> dest_len <= zlen dest ->
  PACKET_copy_all mem pkt dest dest_len =
  Some (if bool_decide (zlen l <= dest_len)
        then (true, l ++ drop (length l) dest, zlen l) else (false, dest, 0)).
Proof.
  intros H Hd. unfold PACKET_copy_all, PACKET_remaining.
  rewrite (view_all _ _ H), (view_remaining _ _ H).
  case_bool_decide; [|by rewrite (proj2 (Z.ltb_lt _ _)) by lia].
  rewrite (proj2 (Z.ltb_ge _ _)) by lia. simpl. rewrite wrn_spec by lia. done.
Qed.

Lemma memdup_spec `{Malloc} pkt l :
  packet_view mem pkt l ->
  PACKET_memdup mem pkt =
  Some (if bool_decide (l = []) then (true, None, 0)
        else if bool_decide (is_Some (curr pkt) /\ zlen l < INT_MAX /\ is_Some (malloc (zlen l)))
        then (true, Some l, zlen l) else (false, None, 0)).
Proof.
  intros Hv. unfold PACKET_memdup, PACKET_remaining. rewrite (view_remaining _ _ Hv).
  case_bool_decide as Hl; [by subst|].
  rewrite (proj2 (Z.eqb_neq _ _)) by (destruct l; [done|pose proof (zlen_nonneg l); len_lia]).
  pose proof (view_all _ _ Hv) as Hall. rewrite (view_remaining _ _ Hv) in Hall.
  unfold CRYPTO_memdup. destruct (curr pkt) as [o|] eqn:Ec; simpl in *.
  2:{ done. }
  destruct (Z.leb_spec INT_MAX (zlen l)); simpl.
  { by rewrite bool_decide_eq_false_2 by lia. }
  unfold CRYPTO_malloc.
  rewrite (proj2 (Z.eqb_neq _ _)) by (destruct l; [done|pose proof (zlen_nonneg l); len_lia]).
  destruct (malloc (zlen l)) as [blk|] eqn:Em; simpl.
  2:{ by rewrite bool_decide_eq_false_2 by (intros (_ & _ & [? ?]); done). }
  rewrite bool_decide_eq_true_2 by eauto. rewrite Hall. simpl.
  apply malloc_zlen in Em; [|apply zlen_nonneg]. rewrite wrn_spec by lia. simpl.
  rewrite drop_ge by len_lia. by rewrite app_nil_r.
Qed.

Lemma strndup_spec `{Malloc} pkt l :
  packet_view mem pkt l ->
  PACKET_strndup mem pkt =
  Some (if bool_decide (is_Some (curr pkt) /\ is_Some (malloc (zlen (c_prefix l) + 1)))
        then (true, Some (c_prefix l ++ [0])) else (false, None)).
Proof.
  intros Hv. unfold PACKET_strndup, PACKET_remaining.
  pose proof (view_all _ _ Hv) as Hall. pose proof (view_remaining _ _ Hv) as Hr.
  destruct Hv as [Hb _]. rewrite SIZE_MAX_half in Hb. rewrite Hr in *.
  pose proof (c_prefix_length l). pose proof (zlen_nonneg (c_prefix l)).
  unfold CRYPTO_strndup. destruct (curr pkt) as [o|] eqn:Ec; simpl in *.
  2:{ done. }
  rewrite (OPENtls_strnlen_spec _ _ _ Hall). simpl.
  rewrite sz_small by (unfold SIZE_MAX; lia). unfold CRYPTO_malloc.
  rewrite (proj2 (Z.eqb_neq _ _)) by lia.
  destruct (malloc _) as [blk|] eqn:Em; simpl.
  2:{ done. }
  apply malloc_zlen in Em; [|lia].
  rewrite <- (take_drop (length (c_prefix l)) l), <- c_prefix_take in Hall.
  pose proof (deref_n_app (mem := mem) (Some o) (c_prefix l) _ _ Hall) as [Hp _].
  simpl in Hp. rewrite Hp. simpl. rewrite wrn_spec by lia. simpl.
  assert (exists x, drop (length (c_prefix l)) blk = [x]) as [x ->].
  { assert (length (drop (length (c_prefix l)) blk) = 1%nat) by (rewrite length_drop; len_lia).
    destruct (drop _ blk) as [|x [|??]]; try done. by exists x. }
  rewrite wr_spec by len_lia. simpl. do 3 f_equal.
  unfold zlen. rewrite Nat2Z.id, insert_app_r_alt, Nat.sub_diag by lia. done.
Qed.

Lemma equal_spec pkt l ptr num :
  packet_view mem pkt l -> bytes_ok ptr -> 0 <= num <= zlen ptr ->
  PACKET_equal mem pkt ptr num = Some (bool_decide (l = take (Z.to_nat num) ptr)).
Proof using mem_ok.
  intros H Hp Hn. unfold PACKET_equal, PACKET_remaining. rewrite (view_remaining _ _ H).
  destruct (Z.eqb_spec (zlen l) num) as [<-|Hne]; simpl.
  2:{ rewrite bool_decide_eq_false_2; [done|]. intros ->. by rewrite zlen_take in Hne. }
  assert (Hl : bytes_ok l) by (by apply (view_bytes_ok mem_ok pkt)).
  pose proof (view_all _ _ H) as Hall. rewrite (view_remaining _ _ H) in Hall.
  destruct (curr pkt) as [o|]; simpl in *.
  - destruct (CRYPTO_memcmp_spec mem ptr o 0 l (take (Z.to_nat (zlen l)) ptr)) as (r & -> & Hr);
      try done;
      [by rewrite rdn_spec by lia|by apply Forall_take|].
    simpl. f_equal. destruct (Z.eqb_spec r 0); [|]; symmetry;
      [apply bool_decide_eq_true_2|apply bool_decide_eq_false_2]; tauto.
  - destruct (zlen l =? 0); [|done]. injection Hall as <-. done.
Qed.

Lemma contains_zero_spec pkt l :
  packet_view mem pkt l -> PACKET_contains_zero_byte mem pkt = Some (bool_decide (0 ∈ l)).
Proof.
  intros H. unfold PACKET_contains_zero_byte. rewrite (view_all _ _ H). simpl. f_equal.
  case_bool_decide as Hin.
  - apply existsb_exists. exists 0. split; [by apply list_elem_of_In|done].
  - apply not_true_iff_false. intros (b & Hb & Hz)%existsb_exists.
    apply Hin. apply list_elem_of_In. apply Z.eqb_eq in Hz. by subst.
Qed.

End Copies.

(** ** Properties *)

(** C30: every integer reader of [packet.h] implements the corresponding abstract
    reader: on any packet into a block of bytes it never reads outside of the
    block; if enough bytes are left it returns 1, stores their value in network
    order (in reverse order for [PACKET_get_4]) and leaves exactly the rest;
    otherwise it returns 0 and changes neither the packet nor [*data]. *)
Theorem PACKET_integers_refine mem :
  bytes_ok mem ->
  implements mem (PACKET_get_1 mem) (spec_net 1) /\
  implements mem (PACKET_get_net_2 mem) (spec_net 2) /\
  implements mem (PACKET_get_net_3 mem) (spec_net 3) /\
  implements mem (PACKET_get_net_4 mem) (spec_net 4) /\
  implements mem (PACKET_get_4 mem) (spec_le 4) /\
  implements mem (PACKET_get_1_len mem) (spec_net 1) /\
  implements mem (PACKET_get_net_2_len mem) (spec_net 2) /\
  implements mem (PACKET_get_net_3_len mem) (spec_net 3) /\
  implements mem (PACKET_get_net_4_len mem) (spec_net 4).
Proof.
  intros Hok. pose proof (get_1_implements Hok) as H1. pose proof (get_net_2_implements Hok) as H2.
  pose proof (get_net_3_implements Hok) as H3. pose proof (get_net_4_implements Hok) as H4.
  repeat match goal with |- _ /\ _ => split end; try done; try by apply implements_len.
  by apply get_4_implements.
Qed.

(** The length-prefixed readers parse exactly a prefix of 1, 2 or 3 bytes
    followed by as many bytes as it says, and yield a sub-packet over them; the
    [as_] variants further insist that nothing is left over.  On refusal neither
    packet is modified, and no read leaves the block. *)
Theorem PACKET_length_prefixed_refine mem :
  bytes_ok mem ->
  implements_sub mem (PACKET_get_length_prefixed_1 mem) (spec_prefixed 1) /\
  implements_sub mem (PACKET_get_length_prefixed_2 mem) (spec_prefixed 2) /\
  implements_sub mem (PACKET_get_length_prefixed_3 mem) (spec_prefixed 3) /\
  implements_sub mem (PACKET_as_length_prefixed_1 mem) (spec_prefixed_all 1) /\
  implements_sub mem (PACKET_as_length_prefixed_2 mem) (spec_prefixed_all 2).
Proof.
  intros Hok. repeat match goal with |- _ /\ _ => split end.
  - by apply get_prefixed_1_implements.
  - by apply get_prefixed_2_implements.
  - by apply get_prefixed_3_implements.
  - exact (prefixed_body_implements Hok _ 1%nat true ltac:(lia) (get_1_implements Hok)).
  - exact (prefixed_body_implements Hok _ 2%nat true ltac:(lia) (get_net_2_implements Hok)).
Qed.

(** The copying operations copy exactly the bytes asked for, never outside of
    the source block or the destination: [PACKET_copy_bytes] and
    [PACKET_copy_all] overwrite a prefix of the destination and leave its tail;
    [PACKET_memdup] yields a block that is the packet's bytes (no block for an
    empty packet, failure for a failed allocation or [INT_MAX] bytes and more);
    [PACKET_strndup] yields the bytes before the first NUL, NUL-terminated, and
    fails only for a null pointer or a failed allocation. *)
Theorem PACKET_copies_refine `{Malloc} mem pkt l dest len dest_len :
  packet_view mem pkt l -> 0 <= len <= zlen dest -> dest_len <= zlen dest ->
  match spec_bytes len l with
  | Some (body, rest) =>
      exists pkt', PACKET_copy_bytes mem pkt dest len =
        Some (true, pkt', body ++ drop (Z.to_nat len) dest) /\ packet_view mem pkt' rest
  | None => PACKET_copy_bytes mem pkt dest len = Some (false, pkt, dest)
  end /\
  PACKET_copy_all mem pkt dest dest_len =
    Some (if bool_decide (zlen l <= dest_len)
          then (true, l ++ drop (length l) dest, zlen l) else (false, dest, 0)) /\
  PACKET_memdup mem pkt =
    Some (if bool_decide (l = []) then (true, None, 0)
          else if bool_decide (is_Some (curr pkt) /\ zlen l < INT_MAX /\ is_Some (malloc (zlen l)))
          then (true, Some l, zlen l) else (false, None, 0)) /\
  PACKET_strndup mem pkt =
    Some (if bool_decide (is_Some (curr pkt) /\ is_Some (malloc (zlen (c_prefix l) + 1)))
          then (true, Some (c_prefix l ++ [0])) else (false, None)).
Proof.
  intros Hv Hlen Hd. split; [by apply copy_bytes_spec|]. split; [by apply copy_all_spec|].
  split; [by apply memdup_spec|by apply strndup_spec].
Qed.

(** [PACKET_equal] compares the whole packet with [num] bytes, and
    [PACKET_contains_zero_byte] finds a NUL byte exactly when there is one. *)
Theorem PACKET_comparisons_correct mem pkt l ptr num :
  bytes_ok mem -> packet_view mem pkt l -> bytes_ok ptr -> 0 <= num <= zlen ptr ->
  PACKET_equal mem pkt ptr num = Some (bool_decide (l = take (Z.to_nat num) ptr)) /\
  PACKET_contains_zero_byte mem pkt = Some (bool_decide (0 ∈ l)).
Proof. intros. split; [by apply equal_spec|by apply contains_zero_spec]. Qed.

(** *** Witnesses *)

(** A block with a 2-byte length-prefixed vector at offset 1. *)
Definition sample_block : list Z := [9; 0; 3; 65; 0; 66; 7].
Definition sample_packet : PACKET := mk_PACKET (Some 1) 6.

Lemma sample_block_ok : bytes_ok sample_block.
Proof. repeat constructor; done. Qed.

Lemma sample_view : packet_view sample_block sample_packet [0; 3; 65; 0; 66; 7].
Proof. split; [by rewrite SIZE_MAX_half|done]. Qed.

Lemma PACKET_integers_refine_witness :
  bytes_ok sample_block /\
  exists pkt', PACKET_get_net_3 sample_block sample_packet 77 = Some (true, pkt', 833) /\
               packet_view sample_block pkt' [0; 66; 7].
Proof.
  split; [exact sample_block_ok|].
  destruct (PACKET_integers_refine sample_block sample_block_ok) as (_ & _ & H & _).
  exact (H sample_packet _ 77 sample_view).
Defined.

Lemma PACKET_length_prefixed_refine_witness :
  bytes_ok sample_block /\
  exists pkt' sub', PACKET_get_length_prefixed_2 sample_block sample_packet sample_packet =
                      Some (true, pkt', sub') /\
    packet_view sample_block pkt' [7] /\ packet_view sample_block sub' [65; 0; 66].
Proof.
  split; [exact sample_block_ok|].
  destruct (PACKET_length_prefixed_refine sample_block sample_block_ok) as (_ & H & _).
  exact (H sample_packet sample_packet _ sample_view).
Defined.

Lemma PACKET_copies_refine_witness :
  PACKET_copy_all sample_block sample_packet (replicate 8 1) 8 =
    Some (true, [0; 3; 65; 0; 66; 7; 1; 1], 6).
Proof.
  exact (proj1 (proj2 (@PACKET_copies_refine generous_malloc sample_block sample_packet _
    (replicate 8 1) 2 8 sample_view ltac:(vm_compute; done) ltac:(vm_compute; done)))).
Defined.

Lemma PACKET_comparisons_correct_witness :
  PACKET_equal sample_block sample_packet [0; 3; 65; 0; 66; 7; 2] 6 = Some true.
Proof.
  exact (proj1 (PACKET_comparisons_correct sample_block sample_packet _ [0; 3; 65; 0; 66; 7; 2] 6
    sample_block_ok sample_view ltac:(repeat constructor; done) ltac:(vm_compute; done))).
Defined.
