(* ===== verification/Buffer.v ===== *)
(** * Growable buffers: [BUF_MEM], [src/crypto/buffer/buffer.c]

    [buf_data] is the block the buffer owns ([None] for NULL), [buf_length] the number of
    bytes in use and [buf_max] the size of the block.  Bytes between [buf_length]
    and [buf_max] are there but not in use; a fresh block has arbitrary contents. *)

From S2P Require Import Prelude Mem.

Record BUF_MEM := mk_BUF_MEM {
  buf_length : Z;
  buf_data : option (list Z);
  buf_max : Z;
  buf_flags : Z
}.
#[export] Instance eta_BUF_MEM : Eta BUF_MEM :=
  fun b => mk_BUF_MEM (buf_length b) (buf_data b) (buf_max b) (buf_flags b).

Definition BUF_MEM_FLAG_SECURE : Z := 1.

(** The maximum [n] such that [(n+3)/3*4 < 2^31]. *)
Definition LIMIT_BEFORE_EXPANSION : Z := 0x5ffffffc.

(** [memset(&data[off], 0, n)]; [None] is undefined behaviour. *)
Definition zero_range (blk : option (list Z)) (off n : Z) : option (option (list Z)) :=
  match blk with
  | Some b => b' ← wrn b off (replicate (Z.to_nat n) 0); Some (Some b')
  | None => if n =? 0 then Some None else None
  end.

Section Operations.
Context `{Malloc}.

(** The allocator of secure memory is outside of this component. *)
Variable OPENtls_secure_malloc : Z -> option (list Z).

Definition BUF_MEM_new : option BUF_MEM :=
  match CRYPTO_zalloc 32 with
  | None => None
  | Some _ => Some {| buf_length := 0; buf_data := None; buf_max := 0; buf_flags := 0 |}
  end.

Definition BUF_MEM_new_ex (flags' : Z) : option BUF_MEM :=
  match BUF_MEM_new with
  | Some ret => Some (ret <| buf_flags := flags' |>)
  | None => None
  end.

(** The block to use from now on ([None] inside: allocation failed) and the
    buffer, whose [buf_data] is dropped once its contents have been moved. *)
Definition sec_alloc_realloc (str : BUF_MEM) (len : Z)
  : option (option (list Z) * BUF_MEM) :=
  let ret := OPENtls_secure_malloc len in
  match buf_data str, ret with
  | Some old, Some r =>
      src ← rdn old 0 (buf_length str);
      r' ← wrn r 0 src;
      Some (Some r', str <| buf_data := None |>)
  | _, _ => Some (ret, str)
  end.

(** The returned size and the final [*str]. *)
Definition BUF_MEM_grow (str : BUF_MEM) (len : Z) : option (Z * BUF_MEM) :=
  if len <=? buf_length str then Some (len, str <| buf_length := len |>)
  else if len <=? buf_max str then
    data' ← match buf_data str with
            | Some _ => zero_range (buf_data str) (buf_length str) (len - buf_length str)
            | None => Some None
            end;
    Some (len, str <| buf_data := data' |> <| buf_length := len |>)
  else if LIMIT_BEFORE_EXPANSION <? len then Some (0, str)
  else
    let n := (len + 3) / 3 * 4 in
    '(ret, str1) ← if has_bits (buf_flags str) BUF_MEM_FLAG_SECURE
                   then sec_alloc_realloc str n
                   else Some (CRYPTO_realloc (buf_data str) n, str);
    match ret with
    | None => Some (0, str1)
    | Some blk =>
        data' ← zero_range (Some blk) (buf_length str1) (len - buf_length str1);
        Some (len, str1 <| buf_data := data' |> <| buf_max := n |> <| buf_length := len |>)
    end.

Definition BUF_MEM_grow_clean (str : BUF_MEM) (len : Z) : option (Z * BUF_MEM) :=
  if len <=? buf_length str then
    data' ← match buf_data str with
            | Some _ => zero_range (buf_data str) len (buf_length str - len)
            | None => Some None
            end;
    Some (len, str <| buf_data := data' |> <| buf_length := len |>)
  else if len <=? buf_max str then
    data' ← zero_range (buf_data str) (buf_length str) (len - buf_length str);
    Some (len, str <| buf_data := data' |> <| buf_length := len |>)
  else if LIMIT_BEFORE_EXPANSION <? len then Some (0, str)
  else
    let n := (len + 3) / 3 * 4 in
    '(ret, str1) ← if has_bits (buf_flags str) BUF_MEM_FLAG_SECURE
                   then sec_alloc_realloc str n
                   else r ← CRYPTO_clear_realloc (buf_data str) (buf_max str) n; Some (r, str);
    match ret with
    | None => Some (0, str1)
    | Some blk =>
        data' ← zero_range (Some blk) (buf_length str1) (len - buf_length str1);
        Some (len, str1 <| buf_data := data' |> <| buf_max := n |> <| buf_length := len |>)
    end.

End Operations.

(** [in] not NULL: the loop [*out-- = *in++], [out] starting at its last byte. *)
Fixpoint reverse_copy (out : list Z) (inp : list Z) (o i : Z) (n : nat) : option (list Z) :=
  match n with
  | O => Some out
  | S m =>
      c ← rd inp i;
      out' ← wr out o c;
      reverse_copy out' inp (o - 1) (i + 1) m
  end.

(** [in] NULL: swap [*q--] and [*out++] for half of the length. *)
Fixpoint reverse_swap (out : list Z) (q o : Z) (n : nat) : option (list Z) :=
  match n with
  | O => Some out
  | S m =>
      c ← rd out q;
      d ← rd out o;
      out1 ← wr out q d;
      out2 ← wr out1 o c;
      reverse_swap out2 (q - 1) (o + 1) m
  end.

Definition BUF_reverse (out : list Z) (inp : option (list Z)) (size : Z) : option (list Z) :=
  match inp with
  | Some l => reverse_copy out l (size - 1) 0 (Z.to_nat size)
  | None => reverse_swap out (size - 1) 0 (Z.to_nat (size / 2))
  end.

(** ** Invariant and contents *)

(** The block has [buf_max] bytes, the first [buf_length] of which are in use. *)
Definition BUF_MEM_ok (b : BUF_MEM) : Prop :=
  0 <= buf_length b <= buf_max b /\
  match buf_data b with Some blk => zlen blk = buf_max b | None => buf_max b = 0 end.

(** The bytes in use. *)
Definition contents (b : BUF_MEM) : list Z :=
  match buf_data b with Some blk => take (Z.to_nat (buf_length b)) blk | None => [] end.

(** What growing means: cut off at [len], or padded with zeros. *)
Definition resize (len : Z) (l : list Z) : list Z :=
  take (Z.to_nat len) l ++ replicate (Z.to_nat (len - zlen l)) 0.

(** ** Lemmas *)

Section GrowLemmas.
Context `{Malloc}.
Variable OPENtls_secure_malloc : Z -> option (list Z).
Hypothesis secure_malloc_zlen : forall n blk,
  0 <= n -> OPENtls_secure_malloc n = Some blk -> zlen blk = n.

Lemma zero_range_Some blk off n :
  0 <= off -> 0 <= n -> off + n <= zlen blk ->
  zero_range (Some blk) off n =
  Some (Some (take (Z.to_nat off) blk ++ replicate (Z.to_nat n) 0 ++
              drop (Z.to_nat off + Z.to_nat n) blk)).
Proof.
  intros. unfold zero_range. rewrite wrn_spec by (rewrite ?zlen_replicate; lia). simpl.
  by rewrite length_replicate.
Qed.

Lemma resize_shrink len l : len <= zlen l -> resize len l = take (Z.to_nat len) l.
Proof.
  intros. unfold resize. replace (Z.to_nat (len - zlen l)) with O by lia. apply app_nil_r.
Qed.

Lemma resize_grow len l : zlen l <= len -> resize len l = l ++ replicate (Z.to_nat (len - zlen l)) 0.
Proof. intros. unfold resize. by rewrite take_ge by len_lia. Qed.

Lemma contents_zlen b : BUF_MEM_ok b -> zlen (contents b) = buf_length b.
Proof.
  unfold BUF_MEM_ok, contents. intros [Hl Hd]. destruct (buf_data b) as [blk|].
  - rewrite zlen_take by lia. done.
  - rewrite zlen_nil. lia.
Qed.

(** A block that starts with the bytes in use, with zeros after them: what all
    the growing branches leave behind. *)
Lemma contents_padded b blk old len off :
  buf_data b = Some (old ++ replicate (Z.to_nat (len - off)) 0 ++ blk) ->
  zlen old = off -> off <= len -> buf_length b = len ->
  contents b = resize len old.
Proof.
  intros Hd Ho Hle Hl. unfold contents. rewrite Hd, Hl, resize_grow by lia.
  rewrite app_assoc, Ho. rewrite take_app_le by len_lia. by rewrite take_ge by len_lia.
Qed.

Lemma expansion_bound len :
  0 <= len <= LIMIT_BEFORE_EXPANSION -> len <= (len + 3) / 3 * 4 < 2 ^ 31.
Proof. unfold LIMIT_BEFORE_EXPANSION. intros. split; lia_div. Qed.

(** Outcome of growing [b] to [len]: the size asked for, with the contents
    resized, or 0, with the buffer as it was. *)
Definition grown (b : BUF_MEM) (len : Z) (r : Z * BUF_MEM) : Prop :=
  BUF_MEM_ok r.2 /\ buf_flags r.2 = buf_flags b /\
  (r.1 = len /\ contents r.2 = resize len (contents b) /\ buf_length r.2 = len \/
   r = (0, b)).

(** The branches that stay within the block. *)
Lemma grown_shrink b len data' :
  BUF_MEM_ok b -> 0 <= len <= buf_length b ->
  match buf_data b, data' with
  | Some blk, Some blk' => zlen blk' = zlen blk /\ take (Z.to_nat len) blk' = take (Z.to_nat len) blk
  | None, None => True
  | _, _ => False
  end ->
  grown b len (len, b <| buf_data := data' |> <| buf_length := len |>).
Proof.
  intros Hok Hlen Hd. pose proof (contents_zlen b Hok) as Hz.
  destruct Hok as [Hl Hb]. unfold grown, BUF_MEM_ok. simpl.
  rewrite resize_shrink by lia. unfold contents in *. simpl.
  destruct (buf_data b) as [blk|], data' as [blk'|]; try done.
  - destruct Hd as [Hz' Ht]. split; [lia|]. split; [done|left].
    rewrite take_take, Nat.min_l by lia. done.
  - split; [lia|]. split; [done|left]. split; [done|]. split; [|done]. by destruct (Z.to_nat len).
Qed.

Lemma grown_within b blk len :
  BUF_MEM_ok b -> buf_data b = Some blk -> buf_length b <= len <= buf_max b ->
  grown b len (len, b <| buf_data := Some (take (Z.to_nat (buf_length b)) blk ++
      replicate (Z.to_nat (len - buf_length b)) 0 ++
      drop (Z.to_nat (buf_length b) + Z.to_nat (len - buf_length b)) blk) |>
    <| buf_length := len |>).
Proof.
  intros Hok Hd Hlen. pose proof (contents_zlen b Hok) as Hz.
  destruct Hok as [Hl Hb]. rewrite Hd in Hb. unfold grown, BUF_MEM_ok. simpl.
  split.
  { split; [lia|]. rewrite !zlen_app, zlen_take, zlen_replicate by lia.
    rewrite <- Z2Nat.inj_add, zlen_drop by lia. lia. }
  split; [done|left]. split; [done|]. split; [|done].
  assert (Hc : contents b = take (Z.to_nat (buf_length b)) blk) by (unfold contents; by rewrite Hd).
  rewrite Hc in *. by eapply contents_padded; simpl; [reflexivity|..]; [|lia|].
Qed.

(** The branch that moves the contents to a bigger block. *)
Lemma grown_moved b str1 fresh n len :
  BUF_MEM_ok b -> buf_max b < len <= n ->
  buf_length str1 = buf_length b -> buf_flags str1 = buf_flags b ->
  zlen (contents b ++ fresh) = n ->
  exists r, (data' ← zero_range (Some (contents b ++ fresh)) (buf_length str1) (len - buf_length str1);
             Some (len, str1 <| buf_data := data' |> <| buf_max := n |> <| buf_length := len |>))
            = Some r /\ grown b len r.
Proof.
  intros Hok Hlen Hl1 Hf1 Hn. pose proof (contents_zlen b Hok) as Hz.
  destruct Hok as [Hl Hb]. rewrite Hl1.
  rewrite zero_range_Some by lia. simpl. eexists. split; [done|].
  unfold grown, BUF_MEM_ok. simpl. rewrite <- Hz.
  rewrite take_app_le, take_ge by len_lia.
  split.
  { split; [lia|]. rewrite !zlen_app, zlen_replicate.
    rewrite <- Z2Nat.inj_add, zlen_drop by (rewrite ?Hz; lia). lia. }
  split; [done|left]. split; [done|]. split; [|done].
  eapply contents_padded; simpl; [reflexivity|..]; try done; lia.
Qed.

(** The contents moved by [CRYPTO_realloc], [CRYPTO_clear_realloc] and by
    [sec_alloc_realloc] are a prefix of the new block. *)
Lemma contents_prefix b blk fresh :
  BUF_MEM_ok b -> buf_data b = Some blk ->
  exists fresh', blk ++ fresh = contents b ++ fresh'.
Proof.
  intros Hok Hd. unfold contents. rewrite Hd. eexists.
  by rewrite <- (take_drop (Z.to_nat (buf_length b)) blk) at 1; rewrite <- app_assoc.
Qed.

Lemma realloc_contents b n blk :
  BUF_MEM_ok b -> buf_max b <= n -> CRYPTO_realloc (buf_data b) n = Some blk ->
  zlen blk = n /\ exists fresh, blk = contents b ++ fresh.
Proof.
  intros Hok Hn E. pose proof Hok as [Hl Hb].
  split; [apply CRYPTO_realloc_zlen in E; [done|lia]|].
  destruct (buf_data b) as [old|] eqn:Hd.
  - apply CRYPTO_realloc_prefix in E as [fresh ->]; [|lia]. by apply contents_prefix.
  - exists blk. unfold contents. by rewrite Hd.
Qed.

Lemma clear_realloc_contents b n :
  BUF_MEM_ok b -> 0 < n -> buf_max b <= n ->
  exists r, CRYPTO_clear_realloc (buf_data b) (buf_max b) n = Some r /\
    match r with
    | Some blk => zlen blk = n /\ exists fresh, blk = contents b ++ fresh
    | None => True
    end.
Proof.
  intros Hok Hp Hn. pose proof Hok as [Hl Hb]. destruct (buf_data b) as [old|] eqn:Hd.
  - destruct (CRYPTO_clear_realloc (Some old) (buf_max b) n) as [r|] eqn:E.
    + exists r. split; [done|]. rewrite <- Hb in E. apply CRYPTO_clear_realloc_grow in E; [|lia|done].
      destruct r as [blk|]; [|done]. destruct E as [Hz [fresh ->]]. split; [done|].
      by apply contents_prefix.
    + exfalso. revert E. simpl.
      rewrite (proj2 (Z.eqb_neq n 0)), (proj2 (Z.ltb_ge n (buf_max b))) by lia.
      destruct (CRYPTO_malloc n) as [ret|] eqn:E; [|done]. apply CRYPTO_malloc_zlen in E; [|lia].
      rewrite rdn_spec by lia. change (Z.to_nat 0) with 0%nat. rewrite drop_0, take_ge by len_lia.
      simpl. by rewrite wrn_spec by lia.
  - simpl. eexists. split; [done|]. destruct (CRYPTO_malloc n) as [blk|] eqn:E; [|done].
    apply CRYPTO_malloc_zlen in E; [|lia]. split; [done|]. exists blk. unfold contents. by rewrite Hd.
Qed.

Lemma secure_contents b n :
  BUF_MEM_ok b -> buf_length b <= n ->
  exists ret str1, sec_alloc_realloc OPENtls_secure_malloc b n = Some (ret, str1) /\
    match ret with
    | Some blk => zlen blk = n /\ (exists fresh, blk = contents b ++ fresh) /\
        buf_length str1 = buf_length b /\ buf_flags str1 = buf_flags b
    | None => str1 = b
    end.
Proof.
  intros Hok Hn. pose proof (contents_zlen b Hok) as Hz. pose proof Hok as [Hl Hb].
  unfold sec_alloc_realloc. destruct (OPENtls_secure_malloc n) as [r|] eqn:E.
  2:{ destruct (buf_data b); by do 2 eexists. }
  apply secure_malloc_zlen in E; [|lia]. unfold contents in *.
  destruct (buf_data b) as [old|] eqn:Hd.
  - rewrite rdn_spec by lia. change (Z.to_nat 0) with 0%nat. rewrite drop_0. simpl.
    rewrite wrn_spec by lia. simpl. do 2 eexists. split; [done|].
    split; [|split; [by eexists|done]].
    rewrite zlen_app, Hz. unfold zlen in *. rewrite length_drop, length_take. lia.
  - do 2 eexists. split; [done|]. split; [done|]. split; [by exists r|done].
Qed.

Lemma grow_spec b len :
  BUF_MEM_ok b -> 0 <= len ->
  exists r, BUF_MEM_grow OPENtls_secure_malloc b len = Some r /\ grown b len r.
Proof using secure_malloc_zlen.
  intros Hok Hlen. pose proof (contents_zlen b Hok) as Hz. pose proof Hok as [Hl Hb].
  unfold BUF_MEM_grow. destruct (Z.leb_spec len (buf_length b)).
  { eexists. split; [done|].
    assert (Hs : b <| buf_length := len |> =
                 b <| buf_data := buf_data b |> <| buf_length := len |>) by done.
    rewrite Hs. apply grown_shrink; [done|lia|]. by destruct (buf_data b). }
  destruct (Z.leb_spec len (buf_max b)).
  { destruct (buf_data b) as [blk|] eqn:Hd; [|lia].
    rewrite zero_range_Some by lia. simpl. eexists. split; [done|].
    apply grown_within; [done|done|lia]. }
  destruct (Z.ltb_spec LIMIT_BEFORE_EXPANSION len).
  { eexists. split; [done|]. split; [done|]. split; [done|by right]. }
  pose proof (expansion_bound len ltac:(lia)) as Hn. set (n := (len + 3) / 3 * 4) in *. clearbody n.
  destruct (has_bits (buf_flags b) BUF_MEM_FLAG_SECURE); simpl.
  - destruct (secure_contents b n Hok ltac:(lia)) as (ret & str1 & -> & Hret). simpl.
    destruct ret as [blk|]; [|subst; eexists; split; [done|]; split; [done|]; split; [done|by right]].
    destruct Hret as (Hzn & [fresh ->] & ? & ?). by apply grown_moved; [|lia|..].
  - destruct (CRYPTO_realloc (buf_data b) n) as [blk|] eqn:E.
    2:{ eexists. split; [done|]. split; [done|]. split; [done|by right]. }
    apply realloc_contents in E as [Hzn [fresh ->]]; [|done|lia].
    by apply grown_moved; [|lia|..].
Qed.

Lemma grow_clean_spec b len :
  BUF_MEM_ok b -> 0 <= len ->
  exists r, BUF_MEM_grow_clean OPENtls_secure_malloc b len = Some r /\ grown b len r.
Proof using secure_malloc_zlen.
  intros Hok Hlen. pose proof (contents_zlen b Hok) as Hz. pose proof Hok as [Hl Hb].
  unfold BUF_MEM_grow_clean. destruct (Z.leb_spec len (buf_length b)).
  { destruct (buf_data b) as [blk|] eqn:Hd.
    - rewrite zero_range_Some by lia. simpl. eexists. split; [done|].
      apply grown_shrink; [done|lia|]. rewrite Hd. split; [|by rewrite take_app_le, take_take, Nat.min_id by len_lia].
      rewrite !zlen_app, zlen_take, zlen_replicate, <- Z2Nat.inj_add, zlen_drop by lia. lia.
    - simpl. eexists. split; [done|]. apply grown_shrink; [done|lia|]. by rewrite Hd. }
  destruct (Z.leb_spec len (buf_max b)).
  { destruct (buf_data b) as [blk|] eqn:Hd; [|lia].
    rewrite zero_range_Some by lia. simpl. eexists. split; [done|].
    apply grown_within; [done|done|lia]. }
  destruct (Z.ltb_spec LIMIT_BEFORE_EXPANSION len).
  { eexists. split; [done|]. split; [done|]. split; [done|by right]. }
  pose proof (expansion_bound len ltac:(lia)) as Hn. set (n := (len + 3) / 3 * 4) in *. clearbody n.
  destruct (has_bits (buf_flags b) BUF_MEM_FLAG_SECURE); simpl.
  - destruct (secure_contents b n Hok ltac:(lia)) as (ret & str1 & -> & Hret). simpl.
    destruct ret as [blk|]; [|subst; eexists; split; [done|]; split; [done|]; split; [done|by right]].
    destruct Hret as (Hzn & [fresh ->] & ? & ?). by apply grown_moved; [|lia|..].
  - destruct (clear_realloc_contents b n Hok ltac:(lia) ltac:(lia)) as (r & -> & Hr). simpl.
    destruct r as [blk|].
    2:{ eexists. split; [done|]. split; [done|]. split; [done|by right]. }
    destruct Hr as [Hzn [fresh ->]]. by apply grown_moved; [|lia|..].
Qed.

(** Growing succeeds below the limit when the allocator does. *)
Lemma grow_succeeds b len :
  (forall n, 0 < n < 2 ^ 31 -> is_Some (malloc n)) ->
  has_bits (buf_flags b) BUF_MEM_FLAG_SECURE = false ->
  BUF_MEM_ok b -> 0 < len <= LIMIT_BEFORE_EXPANSION ->
  forall r, BUF_MEM_grow OPENtls_secure_malloc b len = Some r -> r.1 = len.
Proof.
  intros Hm Hf Hok Hlen r. pose proof Hok as [Hl Hb]. unfold BUF_MEM_grow.
  destruct (Z.leb_spec len (buf_length b)); [by intros [= <-]|].
  destruct (Z.leb_spec len (buf_max b)).
  { destruct (buf_data b); simpl; [|by intros [= <-]].
    destruct (wrn _ _ _); simpl; [by intros [= <-]|done]. }
  rewrite (proj2 (Z.ltb_ge _ _)) by lia. rewrite Hf.
  pose proof (expansion_bound len ltac:(lia)) as Hn. set (n := (len + 3) / 3 * 4) in *. clearbody n.
  assert (is_Some (CRYPTO_realloc (buf_data b) n)) as [blk ->].
  { unfold CRYPTO_realloc, CRYPTO_malloc, realloc. rewrite (proj2 (Z.eqb_neq n 0)) by lia.
    destruct (Hm n ltac:(lia)) as [? ->]. by destruct (buf_data b). }
  cbn [mbind option_bind]. destruct (zero_range _ _ _); simpl; [by intros [= <-]|done].
Qed.

Lemma grow_clean_succeeds b len :
  (forall n, 0 < n < 2 ^ 31 -> is_Some (malloc n)) ->
  has_bits (buf_flags b) BUF_MEM_FLAG_SECURE = false ->
  BUF_MEM_ok b -> 0 < len <= LIMIT_BEFORE_EXPANSION ->
  forall r, BUF_MEM_grow_clean OPENtls_secure_malloc b len = Some r -> r.1 = len.
Proof.
  intros Hm Hf Hok Hlen r. pose proof Hok as [Hl Hb]. unfold BUF_MEM_grow_clean.
  destruct (Z.leb_spec len (buf_length b)).
  { destruct (match buf_data b with Some _ => _ | None => _ end); simpl; [by intros [= <-]|done]. }
  destruct (Z.leb_spec len (buf_max b)).
  { destruct (zero_range _ _ _); simpl; [by intros [= <-]|done]. }
  rewrite (proj2 (Z.ltb_ge _ _)) by lia. rewrite Hf.
  pose proof (expansion_bound len ltac:(lia)) as Hn. set (n := (len + 3) / 3 * 4) in *. clearbody n.
  destruct (clear_realloc_contents b n Hok ltac:(lia) ltac:(lia)) as (blk & E & _). rewrite E.
  cbn [mbind option_bind]. destruct blk as [blk|].
  - destruct (zero_range _ _ _); simpl; [by intros [= <-]|done].
  - exfalso. revert E. unfold CRYPTO_clear_realloc, CRYPTO_malloc.
    rewrite (proj2 (Z.eqb_neq n 0)) by lia. destruct (Hm n ltac:(lia)) as [new ->].
    destruct (buf_data b); [|done]. rewrite (proj2 (Z.ltb_ge n (buf_max b))) by lia.
    destruct (rdn _ _ _); simpl; [|done]. by destruct (wrn _ _ _).
Qed.

End GrowLemmas.

Section ReverseLemmas.

Lemma reverse_copy_spec n : forall out a l,
  (n <= length l)%nat -> (n <= length out)%nat ->
  reverse_copy out (a ++ l) (Z.of_nat n - 1) (zlen a) n = Some (rev (take n l) ++ drop n out).
Proof.
  induction n as [|n IH]; intros out a l Hl Ho; [done|].
  destruct l as [|c l]; [simpl in Hl; lia|].
  cbn [reverse_copy]. rewrite rd_middle. cbn [mbind option_bind].
  destruct (lookup_lt_is_Some_2 out n ltac:(lia)) as [x Hx].
  pose proof (take_drop_middle out n x Hx) as Hout.
  assert (Hlt : zlen (take n out) = Z.of_nat (S n) - 1) by (unfold zlen; rewrite length_take; lia).
  rewrite <- Hout at 1. rewrite <- Hlt, wr_middle. cbn [mbind option_bind].
  replace (zlen (take n out) - 1) with (Z.of_nat n - 1) by lia.
  replace (a ++ c :: l) with ((a ++ [c]) ++ l) by (by rewrite <- app_assoc).
  replace (zlen a + 1) with (zlen (a ++ [c])) by (rewrite zlen_app; done).
  rewrite IH by (simpl in Hl; rewrite ?length_app, ?length_take; simpl; lia). f_equal.
  rewrite drop_app_ge, length_take by (rewrite length_take; lia).
  replace (n - n `min` length out)%nat with O by lia.
  simpl. by rewrite <- app_assoc.
Qed.

Lemma list_ends (l : list Z) :
  (2 <= length l)%nat -> exists x m y, l = x :: m ++ [y].
Proof.
  destruct l as [|x l]; [simpl; lia|]. destruct l as [|y l] using rev_ind; [simpl; lia|].
  intros _. by exists x, l, y.
Qed.

Lemma half_SS n : (S (S n) / 2 = S (n / 2))%nat.
Proof. replace (S (S n)) with (n + 1 * 2)%nat by lia. rewrite Nat.div_add by lia. lia. Qed.

Lemma reverse_swap_spec k : forall a m b,
  (length m / 2 = k)%nat ->
  reverse_swap (a ++ m ++ b) (zlen a + zlen m - 1) (zlen a) k = Some (a ++ rev m ++ b).
Proof.
  induction k as [|k IH]; intros a m b Hk.
  { assert (rev m = m) as ->; [|done].
    destruct m as [|x [|y m]]; try done. exfalso. cbn [length] in Hk.
    by rewrite half_SS in Hk. }
  destruct (list_ends m) as (x & m' & y & ->).
  { destruct m as [|? [|??]]; simpl in *; lia. }
  assert (Hm : zlen a + zlen (x :: m' ++ [y]) - 1 = zlen (a ++ x :: m')) by len_lia.
  cbn [reverse_swap]. rewrite Hm.
  assert (E1 : forall u v, a ++ (u :: m' ++ [v]) ++ b = (a ++ u :: m') ++ v :: b).
  { intros. by rewrite <- app_assoc; simpl; rewrite <- app_assoc. }
  assert (E2 : forall u v, a ++ (u :: m' ++ [v]) ++ b = a ++ u :: (m' ++ v :: b)).
  { intros. simpl. by rewrite <- app_assoc. }
  rewrite E1 at 1. rewrite rd_middle. cbn [mbind option_bind].
  rewrite E2 at 1. rewrite rd_middle. cbn [mbind option_bind].
  rewrite E1, wr_middle. cbn [mbind option_bind].
  rewrite <- E1, E2, wr_middle. cbn [mbind option_bind].
  replace (zlen (a ++ x :: m') - 1) with (zlen (a ++ [y]) + zlen m' - 1) by len_lia.
  replace (zlen a + 1) with (zlen (a ++ [y])) by len_lia.
  replace (a ++ y :: m' ++ x :: b) with ((a ++ [y]) ++ m' ++ x :: b) by (by rewrite <- app_assoc).
  rewrite IH.
  - f_equal. rewrite <- app_assoc. simpl. rewrite rev_app_distr. simpl. by rewrite <- app_assoc.
  - cbn [length] in Hk. rewrite length_app, Nat.add_1_r, half_SS in Hk. lia.
Qed.

End ReverseLemmas.

(** ** Properties *)

(** [BUF_MEM_grow] and [BUF_MEM_grow_clean] either return the size asked
    for, with the contents cut off or padded with zero bytes to that size, or
    return 0 and leave the buffer as it was; they keep the buffer well formed
    (block size, length and maximum agree), never write outside of the block,
    and never ask the allocator for 2^31 bytes or more. *)
Theorem BUF_MEM_grow_correct `{Malloc} (secure_malloc : Z -> option (list Z)) b len :
  (forall n blk, 0 <= n -> secure_malloc n = Some blk -> zlen blk = n) ->
  BUF_MEM_ok b -> 0 <= len ->
  (exists r, BUF_MEM_grow secure_malloc b len = Some r /\ grown b len r) /\
  (exists r, BUF_MEM_grow_clean secure_malloc b len = Some r /\ grown b len r) /\
  (len <= LIMIT_BEFORE_EXPANSION -> len <= (len + 3) / 3 * 4 < 2 ^ 31).
Proof.
  intros Hs Hok Hlen. split; [by apply grow_spec|]. split; [by apply grow_clean_spec|].
  intros. by apply expansion_bound.
Qed.

(** [BUF_reverse] stores the reverse of the first [size] source bytes (of the
    buffer itself when there is no source) and leaves the rest of the output. *)
Theorem BUF_reverse_correct out inp size :
  0 <= size <= zlen out ->
  match inp with Some l => size <= zlen l | None => True end ->
  BUF_reverse out inp size =
  Some (rev (take (Z.to_nat size) (default out inp)) ++ drop (Z.to_nat size) out).
Proof.
  intros Ho Hi. unfold BUF_reverse. destruct inp as [l|]; simpl.
  - replace (size - 1) with (Z.of_nat (Z.to_nat size) - 1) by lia.
    exact (reverse_copy_spec (Z.to_nat size) out [] l ltac:(len_lia) ltac:(len_lia)).
  - pose proof (reverse_swap_spec (Z.to_nat (size / 2)) [] (take (Z.to_nat size) out)
      (drop (Z.to_nat size) out)) as R. simpl in R. rewrite take_drop in R.
    rewrite zlen_take in R by lia. rewrite Z.add_0_l in R. apply R.
    rewrite length_take_le by len_lia. rewrite Z2Nat.inj_div by lia. done.
Qed.

(** *** Witnesses *)

Definition sample_buf : BUF_MEM := mk_BUF_MEM 2 (Some [7; 8; 9]) 3 0.

Lemma BUF_MEM_grow_correct_witness :
  exists r, @BUF_MEM_grow generous_malloc (fun _ => None) sample_buf 5 = Some r /\
            grown sample_buf 5 r.
Proof.
  exact (proj1 (@BUF_MEM_grow_correct generous_malloc (fun _ => None) sample_buf 5
    ltac:(done) ltac:(vm_compute; repeat split; done) ltac:(done))).
Defined.

Example grow_sample :
  @BUF_MEM_grow generous_malloc (fun _ => None) sample_buf 5 =
  Some (5, mk_BUF_MEM 5 (Some [7; 8; 0; 0; 0; 0; 0; 0]) 8 0).
Proof. reflexivity. Qed.

Lemma BUF_reverse_correct_witness :
  BUF_reverse [1; 2; 3; 4; 5; 6] None 5 = Some [5; 4; 3; 2; 1; 6].
Proof.
  exact (BUF_reverse_correct [1; 2; 3; 4; 5; 6] None 5 ltac:(vm_compute; done) I).
Defined.
