(* ===== verification/WPacket.v ===== *)
(** * Writing packets: [WPACKET], [src/crypto/packet.c]

    A [WPACKET] writes to a growable [BUF_MEM], to a fixed block, or nowhere.  The
    list [subs] is the chain of open sub-packets, innermost first ([sub->parent]
    is the tail, NULL is [[]]).  An operation is a function to
    [option (bool * WPACKET)]: the returned truth value and the final [*pkt], or
    [None] for undefined behaviour (an access outside of the buffer).  Pointers
    into the buffer are offsets.  [otls_assert(x)] is [x], as in builds with
    [NDEBUG]. *)

From S2P Require Import Prelude Mem Buffer.

Record WPACKET_SUB := mk_WPACKET_SUB {
  packet_len : Z;
  lenbytes : Z;
  pwritten : Z;
  sub_flags : Z
}.
#[export] Instance eta_WPACKET_SUB : Eta WPACKET_SUB :=
  fun s => mk_WPACKET_SUB (packet_len s) (lenbytes s) (pwritten s) (sub_flags s).

Record WPACKET := mk_WPACKET {
  wp_buf : option BUF_MEM;
  staticbuf : option (list Z);
  wp_curr : Z;
  written : Z;
  maxsize : Z;
  subs : list WPACKET_SUB
}.
#[export] Instance eta_WPACKET : Eta WPACKET := fun p =>
  mk_WPACKET (wp_buf p) (staticbuf p) (wp_curr p) (written p) (maxsize p) (subs p).

Definition WPACKET_FLAGS_NONE : Z := 0.
Definition WPACKET_FLAGS_NON_ZERO_LENGTH : Z := 1.
Definition WPACKET_FLAGS_ABANDON_ON_ZERO_LENGTH : Z := 2.

Definition DEFAULT_BUF_SIZE : Z := 256.
(** [sizeof(WPACKET_SUB)], [sizeof(size_t)] and [sizeof(unsigned int)] (LP64) *)
Definition sizeof_WPACKET_SUB : Z := 40.
Definition sizeof_size_t : Z := 8.
Definition sizeof_uint : Z := 4.

(** The block behind the packet. *)
Definition GETBUF (p : WPACKET) : option (list Z) :=
  match staticbuf p with
  | Some b => Some b
  | None => match wp_buf p with Some m => buf_data m | None => None end
  end.

(** Storing through a pointer into that block. *)
Definition PUTBUF (p : WPACKET) (blk : list Z) : WPACKET :=
  match staticbuf p with
  | Some _ => p <| staticbuf := Some blk |>
  | None =>
      match wp_buf p with
      | Some m => p <| wp_buf := Some (m <| buf_data := Some blk |>) |>
      | None => p
      end
  end.

Definition WPACKET_get_curr (pkt : WPACKET) : option Z :=
  match GETBUF pkt with
  | None => None
  | Some _ => Some (wp_curr pkt)
  end.

Definition WPACKET_is_null_buf (pkt : WPACKET) : bool :=
  match wp_buf pkt, staticbuf pkt with None, None => true | _, _ => false end.

Definition maxmaxsize (lenbytes : Z) : Z :=
  if (sizeof_size_t <=? lenbytes) || (lenbytes =? 0) then SIZE_MAX
  else sz (sz (sz (Z.shiftl 1 (lenbytes * 8)) - 1) + lenbytes).

(** [for (sub = pkt->subs; sub->parent != NULL; sub = sub->parent);] *)
Fixpoint top_sub (chain : list WPACKET_SUB) : option WPACKET_SUB :=
  match chain with
  | [] => None
  | [sub] => Some sub
  | _ :: parent => top_sub parent
  end.

Section Writing.
Context `{Malloc}.
Variable OPENtls_secure_malloc : Z -> option (list Z).

(** Also the final [*allocbytes]. *)
Definition WPACKET_reserve_bytes (pkt : WPACKET) (len : Z)
  : option (bool * WPACKET * option Z) :=
  if negb (match subs pkt with [] => false | _ => true end && negb (len =? 0))
  then Some (false, pkt, None)
  else if sz (maxsize pkt - written pkt) <? len then Some (false, pkt, None)
  else
    '(ok, pkt) ←
      match wp_buf pkt with
      | Some buf =>
          if sz (buf_length buf - written pkt) <? len then
            let reflen := if buf_length buf <? len then len else buf_length buf in
            let newlen :=
              if SIZE_MAX / 2 <? reflen then SIZE_MAX
              else let newlen := reflen * 2 in
                   if newlen <? DEFAULT_BUF_SIZE then DEFAULT_BUF_SIZE else newlen in
            '(r, buf') ← BUF_MEM_grow OPENtls_secure_malloc buf newlen;
            Some (negb (r =? 0), pkt <| wp_buf := Some buf' |>)
          else Some (true, pkt)
      | None => Some (true, pkt)
      end;
    if negb ok then Some (false, pkt, None)
    else Some (true, pkt, WPACKET_get_curr pkt).

Definition WPACKET_allocate_bytes (pkt : WPACKET) (len : Z)
  : option (bool * WPACKET * option Z) :=
  '(ok, pkt, allocbytes) ← WPACKET_reserve_bytes pkt len;
  if negb ok then Some (false, pkt, allocbytes)
  else Some (true, pkt <| written ::= fun w => sz (w + len) |>
                       <| wp_curr ::= fun c => sz (c + len) |>, allocbytes).

Definition WPACKET_sub_reserve_bytes__ (pkt : WPACKET) (len lenbytes : Z)
  : option (bool * WPACKET * option Z) :=
  '(ok, pkt, allocbytes) ← WPACKET_reserve_bytes pkt (sz (lenbytes + len));
  if negb ok then Some (false, pkt, allocbytes)
  else Some (true, pkt, option_map (fun p => p + lenbytes) allocbytes).

Definition zero_sub : WPACKET_SUB := mk_WPACKET_SUB 0 0 0 0.

Definition wpacket_intern_init_len (pkt : WPACKET) (lenbytes' : Z) : option (bool * WPACKET) :=
  let pkt := pkt <| wp_curr := 0 |> <| written := 0 |> in
  match CRYPTO_zalloc sizeof_WPACKET_SUB with
  | None => Some (false, pkt <| subs := [] |>)
  | Some _ =>
      if lenbytes' =? 0 then Some (true, pkt <| subs := [zero_sub] |>)
      else
        let sub := zero_sub <| pwritten := lenbytes' |> <| lenbytes := lenbytes' |> in
        '(ok, pkt, _) ← WPACKET_allocate_bytes (pkt <| subs := [sub] |>) lenbytes';
        if negb ok then Some (false, pkt <| subs := [] |>)
        else Some (true, pkt <| subs := [sub <| packet_len := 0 |>] |>)
  end.

Definition WPACKET_init_static_len (pkt : WPACKET) (buf : option (list Z)) (len lenbytes' : Z)
  : option (bool * WPACKET) :=
  let max := maxmaxsize lenbytes' in
  match buf with
  | None => Some (false, pkt)
  | Some b =>
      if len <=? 0 then Some (false, pkt)
      else
        wpacket_intern_init_len
          (pkt <| staticbuf := Some b |> <| wp_buf := None |>
               <| maxsize := if max <? len then max else len |>) lenbytes'
  end.

Definition WPACKET_init_len (pkt : WPACKET) (buf : option BUF_MEM) (lenbytes' : Z)
  : option (bool * WPACKET) :=
  match buf with
  | None => Some (false, pkt)
  | Some b =>
      wpacket_intern_init_len
        (pkt <| staticbuf := None |> <| wp_buf := Some b |> <| maxsize := maxmaxsize lenbytes' |>)
        lenbytes'
  end.

Definition WPACKET_init (pkt : WPACKET) (buf : option BUF_MEM) : option (bool * WPACKET) :=
  WPACKET_init_len pkt buf 0.

Definition WPACKET_init_null (pkt : WPACKET) (lenbytes' : Z) : option (bool * WPACKET) :=
  wpacket_intern_init_len
    (pkt <| staticbuf := None |> <| wp_buf := None |> <| maxsize := maxmaxsize lenbytes' |>) 0.

Definition WPACKET_set_flags (pkt : WPACKET) (flags : Z) : bool * WPACKET :=
  match subs pkt with
  | [] => (false, pkt)
  | sub :: parent => (true, pkt <| subs := sub <| sub_flags := flags |> :: parent |>)
  end.

(** The loop of [put_value]: stores the low bytes of [value] backwards from
    [data + len - 1]; yields the block and what is left of [value]. *)
Fixpoint put_value_loop (blk : list Z) (data value : Z) (len : nat) : option (list Z * Z) :=
  match len with
  | O => Some (blk, value)
  | S n =>
      blk' ← wr blk (data + Z.of_nat n) (Z.land value 0xff);
      put_value_loop blk' data (Z.shiftr value 8) n
  end.

Definition put_value (pkt : WPACKET) (data : option Z) (value len : Z) : option (bool * WPACKET) :=
  match data with
  | None => Some (true, pkt)
  | Some p =>
      match GETBUF pkt with
      | None => None
      | Some blk =>
          '(blk', value') ← put_value_loop blk p value (Z.to_nat len);
          Some (negb (0 <? value'), PUTBUF pkt blk')
      end
  end.

(** [sub] is an open sub-packet and [parent] the chain above it.  The changes the
    code makes to [*sub] before freeing it are the local [sub] below. *)
Definition wpacket_intern_close (pkt : WPACKET) (sub : WPACKET_SUB) (parent : list WPACKET_SUB)
  (doclose : bool) : option (bool * WPACKET) :=
  let packlen := sz (written pkt - pwritten sub) in
  if (packlen =? 0) && has_bits (sub_flags sub) WPACKET_FLAGS_NON_ZERO_LENGTH
  then Some (false, pkt)
  else
    let abandon :=
      (packlen =? 0) && has_bits (sub_flags sub) WPACKET_FLAGS_ABANDON_ON_ZERO_LENGTH in
    if abandon && negb doclose then Some (false, pkt)
    else
      let pkt :=
        if abandon && (sz (wp_curr pkt - lenbytes sub) =? packet_len sub)
        then pkt <| written ::= fun w => sz (w - lenbytes sub) |>
                 <| wp_curr ::= fun c => sz (c - lenbytes sub) |>
        else pkt in
      let sub := if abandon then sub <| packet_len := 0 |> <| lenbytes := 0 |> else sub in
      '(ok, pkt) ←
        (if 0 <? lenbytes sub then
           match GETBUF pkt with
           | Some _ => put_value pkt (Some (packet_len sub)) packlen (lenbytes sub)
           | None => Some (true, pkt)
           end
         else Some (true, pkt));
      if negb ok then Some (false, pkt)
      else Some (true, if doclose then pkt <| subs := parent |> else pkt).

Fixpoint fill_lengths_loop (pkt : WPACKET) (chain : list WPACKET_SUB) : option (bool * WPACKET) :=
  match chain with
  | [] => Some (true, pkt)
  | sub :: parent =>
      '(ok, pkt) ← wpacket_intern_close pkt sub parent false;
      if negb ok then Some (false, pkt) else fill_lengths_loop pkt parent
  end.

Definition WPACKET_fill_lengths (pkt : WPACKET) : option (bool * WPACKET) :=
  match subs pkt with
  | [] => Some (false, pkt)
  | chain => fill_lengths_loop pkt chain
  end.

Definition WPACKET_close (pkt : WPACKET) : option (bool * WPACKET) :=
  match subs pkt with
  | [] | [_] => Some (false, pkt)
  | sub :: parent => wpacket_intern_close pkt sub parent true
  end.

Definition WPACKET_finish (pkt : WPACKET) : option (bool * WPACKET) :=
  match subs pkt with
  | [sub] =>
      '(ret, pkt) ← wpacket_intern_close pkt sub [] true;
      Some (ret, if (ret : bool) then pkt <| subs := [] |> else pkt)
  | _ => Some (false, pkt)
  end.

Definition WPACKET_start_sub_packet_len__ (pkt : WPACKET) (lenbytes' : Z)
  : option (bool * WPACKET) :=
  match subs pkt with
  | [] => Some (false, pkt)
  | chain =>
      match CRYPTO_zalloc sizeof_WPACKET_SUB with
      | None => Some (false, pkt)
      | Some _ =>
          let sub := zero_sub <| pwritten := sz (written pkt + lenbytes') |>
                              <| lenbytes := lenbytes' |> in
          if lenbytes' =? 0 then
            Some (true, pkt <| subs := sub <| packet_len := 0 |> :: chain |>)
          else
            let sub := sub <| packet_len := written pkt |> in
            '(ok, pkt, _) ← WPACKET_allocate_bytes (pkt <| subs := sub :: chain |>) lenbytes';
            Some (ok, pkt)
      end
  end.

Definition WPACKET_start_sub_packet (pkt : WPACKET) : option (bool * WPACKET) :=
  WPACKET_start_sub_packet_len__ pkt 0.

(** [val] is an [unsigned int]. *)
Definition WPACKET_put_bytes__ (pkt : WPACKET) (val size : Z) : option (bool * WPACKET) :=
  if negb (size <=? sizeof_uint) then Some (false, pkt)
  else
    '(ok, pkt, data) ← WPACKET_allocate_bytes pkt size;
    if negb ok then Some (false, pkt) else put_value pkt data val size.

Definition WPACKET_set_max_size (pkt : WPACKET) (maxsize' : Z) : bool * WPACKET :=
  match top_sub (subs pkt) with
  | None => (false, pkt)
  | Some sub =>
      let lenbytes' := if lenbytes sub =? 0 then sizeof_size_t else lenbytes sub in
      if (maxmaxsize lenbytes' <? maxsize') || (maxsize' <? written pkt) then (false, pkt)
      else (true, pkt <| maxsize := maxsize' |>)
  end.

(** [memcpy(dest, src, len)] into the packet's block. *)
Definition store (pkt : WPACKET) (dest : option Z) (bytes : list Z) : option (bool * WPACKET) :=
  match dest with
  | None => Some (true, pkt)
  | Some p =>
      match GETBUF pkt with
      | None => None
      | Some blk => blk' ← wrn blk p bytes; Some (true, PUTBUF pkt blk')
      end
  end.

Definition WPACKET_memset (pkt : WPACKET) (ch len : Z) : option (bool * WPACKET) :=
  if len =? 0 then Some (true, pkt)
  else
    '(ok, pkt, dest) ← WPACKET_allocate_bytes pkt len;
    if negb ok then Some (false, pkt)
    else store pkt dest (replicate (Z.to_nat len) (u8 ch)).

(** The source block is [src]; its first [len] bytes are copied. *)
Definition WPACKET_memcpy (pkt : WPACKET) (src : list Z) (len : Z) : option (bool * WPACKET) :=
  if len =? 0 then Some (true, pkt)
  else
    '(ok, pkt, dest) ← WPACKET_allocate_bytes pkt len;
    if negb ok then Some (false, pkt)
    else bytes ← rdn src 0 len; store pkt dest bytes.

Definition WPACKET_sub_memcpy__ (pkt : WPACKET) (src : list Z) (len lenbytes' : Z)
  : option (bool * WPACKET) :=
  '(ok, pkt) ← WPACKET_start_sub_packet_len__ pkt lenbytes';
  if negb ok then Some (false, pkt)
  else
    '(ok, pkt) ← WPACKET_memcpy pkt src len;
    if negb ok then Some (false, pkt)
    else
      '(ok, pkt) ← WPACKET_close pkt;
      Some (ok, pkt).

Definition WPACKET_sub_allocate_bytes__ (pkt : WPACKET) (len lenbytes' : Z)
  : option (bool * WPACKET * option Z) :=
  '(ok, pkt) ← WPACKET_start_sub_packet_len__ pkt lenbytes';
  if negb ok then Some (false, pkt, None)
  else
    '(ok, pkt, allocbytes) ← WPACKET_allocate_bytes pkt len;
    if negb ok then Some (false, pkt, allocbytes)
    else
      '(ok, pkt) ← WPACKET_close pkt;
      Some (ok, pkt, allocbytes).

Definition WPACKET_get_total_written (pkt : WPACKET) : bool * Z := (true, written pkt).

Definition WPACKET_get_length (pkt : WPACKET) (len : Z) : bool * Z :=
  match subs pkt with
  | [] => (false, len)
  | sub :: _ => (true, sz (written pkt - pwritten sub))
  end.

Definition WPACKET_cleanup (pkt : WPACKET) : WPACKET := pkt <| subs := [] |>.

End Writing.

(** ** Programs that write packets, and what they should write

    [item]s are the ways to write into an open packet; a sub-packet has a length
    field of [lenbytes] bytes (none when it is 0) and flags. *)

Inductive item : Type :=
| IBytes (l : list Z)
| IFill (ch : Z) (len : Z)
| INum (val : Z) (size : Z)
| ISub (lenbytes : Z) (flags : Z) (body : list item).

Section Programs.
Context `{Malloc}.
Variable secure : Z -> option (list Z).

(** The calls that write an item: for a sub-packet, start it, set its flags,
    write its items and close it, stopping at the first failure. *)
Fixpoint run_item (i : item) (pkt : WPACKET) : option (bool * WPACKET) :=
  match i with
  | IBytes l => WPACKET_memcpy secure pkt l (zlen l)
  | IFill ch len => WPACKET_memset secure pkt ch len
  | INum val size => WPACKET_put_bytes__ secure pkt val size
  | ISub n flags body =>
      '(ok, pkt) ← WPACKET_start_sub_packet_len__ secure pkt n;
      if negb ok then Some (false, pkt)
      else
        let '(ok, pkt) := WPACKET_set_flags pkt flags in
        if negb ok then Some (false, pkt)
        else
          '(ok, pkt) ←
            (fix run_items (l : list item) (pkt : WPACKET) : option (bool * WPACKET) :=
               match l with
               | [] => Some (true, pkt)
               | i :: l =>
                   '(ok, pkt) ← run_item i pkt;
                   if negb ok then Some (false, pkt) else run_items l pkt
               end) body pkt;
          if negb ok then Some (false, pkt) else WPACKET_close pkt
  end.

Fixpoint run_items (l : list item) (pkt : WPACKET) : option (bool * WPACKET) :=
  match l with
  | [] => Some (true, pkt)
  | i :: l =>
      '(ok, pkt) ← run_item i pkt;
      if negb ok then Some (false, pkt) else run_items l pkt
  end.

End Programs.

(** A length field of [n] bytes in front of [b], under the sub-packet's flags. *)
Definition wrap (n flags : Z) (b : list Z) : option (list Z) :=
  if bool_decide (b = []) && has_bits flags WPACKET_FLAGS_NON_ZERO_LENGTH then None
  else if bool_decide (b = []) && has_bits flags WPACKET_FLAGS_ABANDON_ON_ZERO_LENGTH
  then Some []
  else if bool_decide (n = 0 \/ zlen b < 256 ^ n)
  then Some (be_bytes (Z.to_nat n) (zlen b) ++ b)
  else None.

(** The bytes of an item; [None] when a value or a length does not fit its field
    or a sub-packet that must not be empty is. *)
Fixpoint encode (i : item) : option (list Z) :=
  match i with
  | IBytes l => Some l
  | IFill ch len => Some (replicate (Z.to_nat len) (u8 ch))
  | INum val size =>
      if bool_decide (0 < size <= sizeof_uint /\ 0 <= val < 256 ^ size)
      then Some (be_bytes (Z.to_nat size) val) else None
  | ISub n flags body =>
      b ← (fix encode_all (l : list item) : option (list Z) :=
             match l with
             | [] => Some []
             | i :: l => b ← encode i; r ← encode_all l; Some (b ++ r)
             end) body;
      wrap n flags b
  end.

Fixpoint encode_all (l : list item) : option (list Z) :=
  match l with
  | [] => Some []
  | i :: l => b ← encode i; r ← encode_all l; Some (b ++ r)
  end.

(** The most the packet grows by while an item is written: an abandoned
    sub-packet gives back its length field. *)
Definition encoded_length (i : item) : Z :=
  match encode i with Some b => zlen b | None => 0 end.

Fixpoint peak (i : item) : Z :=
  match i with
  | IBytes l => zlen l
  | IFill ch len => len
  | INum val size => size
  | ISub n flags body =>
      n + (fix peak_all (l : list item) : Z :=
             match l with
             | [] => 0
             | i :: l => Z.max (peak i) (encoded_length i + peak_all l)
             end) body
  end.

Fixpoint peak_all (l : list item) : Z :=
  match l with
  | [] => 0
  | i :: l => Z.max (peak i) (encoded_length i + peak_all l)
  end.

(** Sizes a program passes are sizes. *)
Fixpoint item_ok (i : item) : Prop :=
  match i with
  | IBytes l => zlen l <= SIZE_MAX
  | IFill ch len => 0 <= len <= SIZE_MAX
  | INum val size => 0 <= val < 2 ^ 32 /\ 0 <= size
  | ISub n flags body =>
      0 <= n < 8 /\ (fix all_ok (l : list item) : Prop :=
                      match l with [] => True | i :: l => item_ok i /\ all_ok l end) body
  end.

Definition items_ok (l : list item) : Prop :=
  (fix all_ok (l : list item) : Prop :=
     match l with [] => True | i :: l => item_ok i /\ all_ok l end) l.

(** ** Invariant

    [wp_view pkt out]: the packet is well formed and [out] is what has been
    written to it. *)

Definition block_ok (pkt : WPACKET) : Prop :=
  match staticbuf pkt with
  | Some b => wp_buf pkt = None /\ maxsize pkt <= zlen b
  | None =>
      match wp_buf pkt with
      | Some m => BUF_MEM_ok m /\ written pkt <= buf_length m /\ buf_length m <= SIZE_MAX
      | None => False
      end
  end.

(** The chain of open sub-packets: each has its length field, if any, between
    what its parent had written and its own contents. *)
Fixpoint chain_ok (w : Z) (chain : list WPACKET_SUB) : Prop :=
  match chain with
  | [] => True
  | s :: parent =>
      0 <= lenbytes s < 8 /\ pwritten s <= w /\ 0 <= pwritten s - lenbytes s /\
      (lenbytes s = 0 \/ packet_len s = pwritten s - lenbytes s) /\
      chain_ok (pwritten s - lenbytes s) parent
  end.

Definition wp_view (pkt : WPACKET) (out : list Z) : Prop :=
  wp_curr pkt = written pkt /\ written pkt = zlen out /\
  written pkt <= maxsize pkt <= SIZE_MAX /\
  block_ok pkt /\ chain_ok (written pkt) (subs pkt) /\ subs pkt <> [] /\
  match GETBUF pkt with
  | Some blk => take (length out) blk = out
  | None => out = []
  end.

(** ** Lemmas *)

(** What an operation leaves alone. *)
Definition same_frame (pkt pkt' : WPACKET) : Prop :=
  maxsize pkt' = maxsize pkt /\ subs pkt' = subs pkt.

Lemma same_frame_trans p q r : same_frame p q -> same_frame q r -> same_frame p r.
Proof. unfold same_frame. intros [] []. split; congruence. Qed.

Lemma chain_ok_mono w w' chain : chain_ok w chain -> w <= w' -> chain_ok w' chain.
Proof. destruct chain as [|s c]; simpl; [done|]. intuition lia. Qed.

(** The block behind a well-formed packet starts with what was written. *)
Lemma view_block pkt out blk :
  wp_view pkt out -> GETBUF pkt = Some blk ->
  exists rest, blk = out ++ rest.
Proof.
  intros (_ & _ & _ & _ & _ & _ & Hv) Hb. rewrite Hb in Hv.
  exists (drop (length out) blk). by rewrite <- Hv at 1; rewrite take_drop.
Qed.

(** Overwriting the block with one of the same size. *)
Lemma view_putbuf pkt out out' blk blk' rest :
  wp_view pkt out -> GETBUF pkt = Some blk ->
  blk' = out' ++ rest -> zlen out' = zlen out -> zlen blk' = zlen blk ->
  wp_view (PUTBUF pkt blk') out' /\ same_frame pkt (PUTBUF pkt blk').
Proof.
  unfold wp_view, GETBUF, PUTBUF, block_ok, same_frame, BUF_MEM_ok.
  intros (Hc & Hw & Hm & Hb & Hch & Hs & _) Hg -> Hz Hzb.
  destruct (staticbuf pkt) as [sb|] eqn:Es; simpl.
  - injection Hg as <-. rewrite take_app_length. repeat split; try lia; try done. tauto.
  - destruct (wp_buf pkt) as [m|]; [|done]. simpl. rewrite Es, Hg in *. simpl.
    rewrite take_app_length. intuition (lia || done).
Qed.

(** Overwriting part of what was written. *)
Lemma view_overwrite pkt a old new c blk :
  wp_view pkt (a ++ old ++ c) -> GETBUF pkt = Some blk -> zlen new = zlen old ->
  exists rest, blk = a ++ old ++ (c ++ rest) /\
    wp_view (PUTBUF pkt (a ++ new ++ (c ++ rest))) (a ++ new ++ c) /\
    same_frame pkt (PUTBUF pkt (a ++ new ++ (c ++ rest))).
Proof.
  intros Hv Hb Hz. destruct (view_block _ _ _ Hv Hb) as [rest ->].
  exists rest. rewrite <- !app_assoc. split; [done|].
  eapply (view_putbuf pkt _ (a ++ new ++ c) _ _ rest Hv Hb).
  - by rewrite <- !app_assoc.
  - rewrite !zlen_app. lia.
  - rewrite !zlen_app. lia.
Qed.

Lemma view_has_block pkt x out : wp_view pkt (x :: out) -> is_Some (GETBUF pkt).
Proof.
  intros (_ & _ & _ & _ & _ & _ & H). destruct (GETBUF pkt); [by eexists|done].
Qed.

(** [put_value] writes the big-endian bytes and reports whether the value fits. *)
Lemma put_value_loop_spec n : forall a old c v,
  length old = n ->
  put_value_loop (a ++ old ++ c) (zlen a) v n =
  Some (a ++ be_bytes n v ++ c, v / 256 ^ Z.of_nat n).
Proof.
  induction n as [|n IH]; intros a old c v Hl.
  { destruct old; [|done]. simpl. by rewrite Z.div_1_r. }
  destruct old as [|x old _] using rev_ind; [done|].
  rewrite length_app in Hl. simpl in Hl. assert (length old = n) as Hn by lia.
  cbn [put_value_loop].
  replace (zlen a + Z.of_nat n) with (zlen (a ++ old)) by (rewrite zlen_app; unfold zlen; lia).
  replace (a ++ (old ++ [x]) ++ c) with ((a ++ old) ++ x :: c) by (by rewrite <- !app_assoc).
  rewrite wr_middle. cbn [mbind option_bind]. rewrite <- app_assoc, IH by done.
  rewrite land_255, Z.shiftr_div_pow2 by lia. change (2 ^ 8) with 256.
  rewrite Z.div_div by lia. rewrite <- Z.pow_succ_r, <- Nat2Z.inj_succ by lia.
  cbn [be_bytes]. by rewrite <- !app_assoc.
Qed.

Lemma put_value_spec pkt a old c v n :
  wp_view pkt (a ++ old ++ c) -> zlen old = n -> 0 < n -> 0 <= v ->
  exists pkt', put_value pkt (Some (zlen a)) v n = Some (bool_decide (v < 256 ^ n), pkt') /\
    wp_view pkt' (a ++ be_bytes (Z.to_nat n) v ++ c) /\ same_frame pkt pkt'.
Proof.
  intros Hv Hz Hn Hpos. unfold put_value.
  assert (is_Some (GETBUF pkt)) as [blk Hblk].
  { destruct Hv as (_ & _ & _ & _ & _ & _ & H). destruct (GETBUF pkt); [by eexists|].
    apply app_eq_nil in H as [_ H]. apply app_eq_nil in H as [-> _]. len_lia. }
  rewrite Hblk.
  destruct (view_overwrite pkt a old (be_bytes (Z.to_nat n) v) c blk Hv Hblk) as (rest & -> & H1 & H2).
  { rewrite zlen_be_bytes. lia. }
  rewrite put_value_loop_spec by len_lia. simpl. eexists. split; [|by split].
  rewrite Z2Nat.id by lia. do 2 f_equal.
  assert (0 < 256 ^ n) by (apply Z.pow_pos_nonneg; lia).
  case_bool_decide.
  - by rewrite Z.div_small by lia.
  - assert (1 <= v / 256 ^ n) by (apply Z.div_le_lower_bound; lia).
    by rewrite (proj2 (Z.ltb_lt _ _)) by lia.
Qed.

Lemma store_spec pkt a old c new :
  wp_view pkt (a ++ old ++ c) -> zlen new = zlen old -> 0 < zlen old ->
  exists pkt', store pkt (Some (zlen a)) new = Some (true, pkt') /\
    wp_view pkt' (a ++ new ++ c) /\ same_frame pkt pkt'.
Proof.
  intros Hv Hz Hpos. unfold store.
  assert (is_Some (GETBUF pkt)) as [blk Hblk].
  { destruct Hv as (_ & _ & _ & _ & _ & _ & H). destruct (GETBUF pkt); [by eexists|].
    apply app_eq_nil in H as [_ H]. apply app_eq_nil in H as [-> _]. len_lia. }
  rewrite Hblk.
  destruct (view_overwrite pkt a old new c blk Hv Hblk Hz) as (rest & -> & H1 & H2).
  rewrite wrn_spec by (rewrite ?zlen_app; pose proof (zlen_nonneg a); pose proof (zlen_nonneg c);
                       pose proof (zlen_nonneg rest); rewrite ?zlen_app; lia).
  simpl. eexists. split; [done|].
  replace (Z.to_nat (zlen a)) with (length a) by len_lia.
  rewrite take_app_length.
  replace (length new) with (length old) by len_lia.
  rewrite <- (length_app a old), (app_assoc a old), drop_app_length. by split.
Qed.

Section Reserve.
Context `{Malloc}.
Variable secure : Z -> option (list Z).
Hypothesis secure_zlen : forall n blk, 0 <= n -> secure n = Some blk -> zlen blk = n.

(** The block has room for [len] more bytes. *)
Definition room (pkt : WPACKET) (len : Z) : Prop :=
  written pkt + len <= maxsize pkt /\
  match staticbuf pkt, wp_buf pkt with
  | None, Some m => written pkt + len <= buf_length m
  | _, _ => True
  end.

Lemma view_grown pkt m out newlen r :
  wp_view pkt out -> staticbuf pkt = None -> wp_buf pkt = Some m ->
  buf_length m <= newlen <= SIZE_MAX -> 0 < newlen -> grown m newlen r ->
  wp_view (pkt <| wp_buf := Some r.2 |>) out /\
  (negb (r.1 =? 0) = true -> buf_length r.2 = newlen).
Proof.
  unfold wp_view, block_ok, GETBUF. intros (Hc & Hw & Hm & Hb & Hch & Hs & Hv) Hst Hbuf Hn Hp Hg.
  rewrite Hst, Hbuf in Hb, Hv. simpl. rewrite Hst. destruct Hb as (Hok & Hwl & Hlm).
  destruct Hg as (Hok' & _ & [(Hr & Hcont & Hl) | ->]); simpl.
  2:{ split; [|done]. repeat (split; [first [done|lia]|]). done. }
  split; [|by intros; lia].
  repeat (split; [first [done|lia|by split_and!; [done|lia|lia]]|]).
  pose proof (contents_zlen _ Hok) as Hz.
  rewrite resize_grow in Hcont by lia. unfold contents in *.
  destruct Hok' as [Hl1 Hd1]. destruct Hok as [Hl2 Hd2].
  assert (Hlen : (length out <= Z.to_nat (buf_length m))%nat) by len_lia.
  destruct (buf_data r.2) as [blk'|], (buf_data m) as [blk|].
  - rewrite Hl in Hcont.
    apply (f_equal (take (length out))) in Hcont.
    rewrite take_take, Nat.min_l in Hcont by lia. rewrite Hcont.
    rewrite take_app_le by len_lia. rewrite take_take, Nat.min_l by lia. done.
  - subst out. done.
  - lia.
  - done.
Qed.

(** Nothing but the maximum size stops [len] more bytes: the block is fixed, or
    the allocator provides and doubling stays below the limit of [BUF_MEM]. *)
Definition ample (pkt : WPACKET) (len : Z) : Prop :=
  written pkt + len <= maxsize pkt /\
  match wp_buf pkt with
  | None => True
  | Some m => (forall n, 0 < n < 2 ^ 31 -> is_Some (malloc n)) /\
              has_bits (buf_flags m) BUF_MEM_FLAG_SECURE = false /\
              2 * (written pkt + len) <= LIMIT_BEFORE_EXPANSION
  end.

(** Two packets whose growth is restricted alike. *)
Definition same_room (pkt pkt' : WPACKET) : Prop :=
  maxsize pkt' = maxsize pkt /\
  match wp_buf pkt, wp_buf pkt' with
  | None, None => True
  | Some m, Some m' => buf_flags m' = buf_flags m
  | _, _ => False
  end.

(** The write position, once there is something to write to. *)
Lemma get_curr_spec pkt out :
  wp_view pkt out ->
  match staticbuf pkt, wp_buf pkt with None, Some m => 0 < buf_length m | _, _ => True end ->
  WPACKET_get_curr pkt = Some (zlen out).
Proof.
  intros (Hc & Hw & Hm & Hb & _ & _ & Hg) Hl.
  unfold WPACKET_get_curr, GETBUF, block_ok, BUF_MEM_ok in *. rewrite Hc, Hw.
  destruct (staticbuf pkt); [done|]. destruct (wp_buf pkt) as [m|]; [|done].
  destruct (buf_data m); [done|]. lia.
Qed.

(** The size [WPACKET_reserve_bytes] grows the buffer to. *)
Definition newlen_of (m : BUF_MEM) (len : Z) : Z :=
  let reflen := if buf_length m <? len then len else buf_length m in
  if SIZE_MAX / 2 <? reflen then SIZE_MAX
  else let newlen := reflen * 2 in
       if newlen <? DEFAULT_BUF_SIZE then DEFAULT_BUF_SIZE else newlen.

Lemma newlen_bounds m len w :
  0 <= w <= buf_length m -> buf_length m <= SIZE_MAX -> 0 < len -> w + len <= SIZE_MAX ->
  buf_length m - w < len ->
  buf_length m <= newlen_of m len <= SIZE_MAX /\ w + len <= newlen_of m len /\
  0 < newlen_of m len /\
  (2 * (w + len) <= LIMIT_BEFORE_EXPANSION -> newlen_of m len <= LIMIT_BEFORE_EXPANSION).
Proof.
  intros. unfold newlen_of, LIMIT_BEFORE_EXPANSION. rewrite SIZE_MAX_half.
  unfold SIZE_MAX, DEFAULT_BUF_SIZE in *.
  set (reflen := if buf_length m <? len then len else buf_length m).
  assert (Hr : reflen = Z.max len (buf_length m)).
  { unfold reflen. destruct (Z.ltb_spec (buf_length m) len); lia. }
  clearbody reflen. destruct (Z.ltb_spec (2 ^ 63 - 1) reflen); [lia|].
  destruct (Z.ltb_spec (reflen * 2) 256); lia.
Qed.

(** The branch that grows the buffer. *)
Lemma reserve_grow_spec pkt out m len :
  wp_view pkt out -> wp_buf pkt = Some m -> 0 < len ->
  written pkt + len <= maxsize pkt -> buf_length m - written pkt < len ->
  exists r m', BUF_MEM_grow secure m (newlen_of m len) = Some (r, m') /\
    (negb (r =? 0) = true ->
       wp_view (pkt <| wp_buf := Some m' |>) out /\
       written pkt + len <= buf_length m' /\ buf_flags m' = buf_flags m) /\
    (ample pkt len -> negb (r =? 0) = true).
Proof using secure_zlen.
  intros Hv Em Hlen Hmax Hshort. pose proof Hv as (Hc & Hw & Hm & Hb & _ & _ & _).
  pose proof (zlen_nonneg out) as Hz. unfold block_ok in Hb. rewrite Em in Hb.
  assert (Es : staticbuf pkt = None) by (by destruct (staticbuf pkt); [destruct Hb|]).
  rewrite Es in Hb. destruct Hb as (Hok & Hwl & Hlm).
  destruct (newlen_bounds m len (written pkt)) as (N1 & N2 & N3 & N4); try lia.
  set (n := newlen_of m len) in *. clearbody n.
  destruct (grow_spec secure secure_zlen m n Hok ltac:(lia)) as ([r m'] & Hg & Hgr).
  exists r, m'. split; [done|].
  destruct (view_grown pkt m out n _ Hv Es Em N1 N3 Hgr) as [Hv' Hlen']. simpl in *.
  split.
  - intros Hr. split; [done|]. specialize (Hlen' Hr). split; [lia|]. by destruct Hgr as (_ & ? & _).
  - intros [_ Ha]. rewrite Em in Ha. destruct Ha as (Hmal & Hsec & Hlim).
    pose proof (grow_succeeds secure m n Hmal Hsec Hok ltac:(lia) _ Hg) as Hr. simpl in Hr.
    apply negb_true_iff, Z.eqb_neq. lia.
Qed.

Lemma reserve_spec pkt out len :
  wp_view pkt out -> 0 <= len <= SIZE_MAX ->
  exists ok pkt' p, WPACKET_reserve_bytes secure pkt len = Some (ok, pkt', p) /\
    (ok = true -> 0 < len /\ wp_view pkt' out /\ same_frame pkt pkt' /\
                  room pkt' len /\ p = Some (zlen out) /\ same_room pkt pkt') /\
    (0 < len -> ample pkt len -> ok = true).
Proof using secure_zlen.
  intros Hv Hlen. pose proof Hv as (Hc & Hw & Hm & Hb & Hch & Hs & Hg).
  pose proof (zlen_nonneg out) as Hz.
  unfold WPACKET_reserve_bytes.
  assert (match subs pkt with [] => false | _ => true end = true) as -> by (by destruct (subs pkt)).
  cbn [andb]. destruct (Z.eqb_spec len 0); cbn [negb].
  { do 3 eexists. split; [done|]. split; [done|lia]. }
  rewrite sz_small by lia. destruct (Z.ltb_spec (maxsize pkt - written pkt) len).
  { do 3 eexists. split; [done|]. split; [done|]. intros _ [? _]. lia. }
  destruct (wp_buf pkt) as [m|] eqn:Em; cbn [mbind option_bind].
  - assert (Es : staticbuf pkt = None).
    { unfold block_ok in Hb. rewrite Em in Hb. by destruct (staticbuf pkt); [destruct Hb|]. }
    assert (Hwl : written pkt <= buf_length m <= SIZE_MAX).
    { unfold block_ok in Hb. rewrite Es, Em in Hb. lia. }
    rewrite sz_small by lia. destruct (Z.ltb_spec (buf_length m - written pkt) len).
    + fold (newlen_of m len).
      destruct (reserve_grow_spec pkt out m len Hv Em) as (r & m' & -> & Hr & Hok); try lia.
      cbn [mbind option_bind]. destruct (negb (r =? 0)); cbn [negb].
      2:{ do 3 eexists. split; [done|]. split; [done|]. intros _ Ha. by apply Hok. }
      destruct (Hr eq_refl) as (Hv' & Hl' & Hf').
      do 3 eexists. split; [done|]. split; [intros _|done].
      split; [lia|]. split; [done|]. split; [done|]. unfold room, same_room. simpl.
      rewrite Em. split; [split; [lia|by rewrite Es]|]. split; [|done].
      apply get_curr_spec; [done|]. simpl. rewrite Es. lia.
    + do 3 eexists. split; [done|]. split; [intros _|done].
      split; [lia|]. split; [done|]. split; [done|]. unfold room, same_room.
      rewrite Em, Es. split; [lia|]. split; [|done].
      apply get_curr_spec; [done|]. rewrite Es, Em. lia.
  - do 3 eexists. split; [done|]. split; [intros _|done].
    split; [lia|]. split; [done|]. split; [done|]. unfold room, same_room. rewrite Em.
    split; [destruct (staticbuf pkt); lia|]. split; [|done].
    apply get_curr_spec; [done|]. rewrite Em. by destruct (staticbuf pkt).
Qed.

(** Allocating [len] bytes appends indeterminate bytes to what is written. *)
Lemma allocate_spec pkt out len :
  wp_view pkt out -> 0 <= len <= SIZE_MAX ->
  exists ok pkt' p, WPACKET_allocate_bytes secure pkt len = Some (ok, pkt', p) /\
    (ok = true -> exists junk, zlen junk = len /\ 0 < len /\ wp_view pkt' (out ++ junk) /\
                  same_frame pkt pkt' /\ p = Some (zlen out) /\ same_room pkt pkt') /\
    (0 < len -> ample pkt len -> ok = true).
Proof using secure_zlen.
  intros Hv Hlen. unfold WPACKET_allocate_bytes.
  destruct (reserve_spec pkt out len Hv Hlen) as (ok & pkt1 & p & -> & Hok & Hample).
  destruct ok; simpl; [|by do 3 eexists]. do 3 eexists. split; [done|]. split; [intros _|done].
  destruct (Hok eq_refl) as (Hpos & Hv1 & Hf & [Hr1 Hr2] & -> & Hroom). clear Hok Hv Hample.
  pose proof (get_curr_spec pkt1 out Hv1) as Hgc.
  pose proof (zlen_nonneg out) as Hz.
  pose proof Hv1 as (Hc & Hw & Hm & Hb & Hch & Hs & Hg).
  assert (Hblk : exists blk, GETBUF pkt1 = Some blk /\ zlen out + len <= zlen blk).
  { unfold GETBUF, block_ok, BUF_MEM_ok in *. destruct (staticbuf pkt1); [eexists; split; [done|lia]|].
    destruct (wp_buf pkt1) as [m|]; [|done].
    destruct (buf_data m); [eexists; split; [done|lia]|lia]. }
  destruct Hblk as (blk & Hblk & Hbl). rewrite Hblk in Hg.
  destruct (view_block _ _ _ Hv1 Hblk) as [rest Hrest].
  assert (Hrl : len <= zlen rest) by (subst blk; rewrite zlen_app in Hbl; lia).
  exists (take (Z.to_nat len) rest).
  assert (Hj : zlen (take (Z.to_nat len) rest) = len) by (apply zlen_take; lia).
  split; [done|]. split; [done|]. split; [|done].
  clear Hroom. unfold wp_view. simpl. unfold GETBUF, block_ok in *. simpl. rewrite zlen_app, Hj.
  rewrite !sz_small by lia. rewrite Hc. split; [done|]. split; [lia|]. split; [lia|].
  split; [destruct (staticbuf pkt1); [done|]; destruct (wp_buf pkt1); [|done]; intuition lia|].
  split; [by eapply chain_ok_mono; [done|lia]|]. split; [done|].
  rewrite Hblk. subst blk. rewrite length_app. rewrite take_app_add.
  f_equal. rewrite length_take. rewrite Nat.min_l by len_lia. done.
Qed.

End Reserve.

Section Programs.
Context `{Malloc}.
Variable secure : Z -> option (list Z).
Hypothesis secure_zlen : forall n blk, 0 <= n -> secure n = Some blk -> zlen blk = n.

(** The chain of sub-packets does not matter to the allocation of bytes. *)
Lemma allocate_subs pkt len chain :
  subs pkt <> [] -> chain <> [] ->
  WPACKET_allocate_bytes secure (pkt <| subs := chain |>) len =
  ('(ok, p, q) ← WPACKET_allocate_bytes secure pkt len; Some (ok, p <| subs := chain |>, q)).
Proof.
  intros Hs Hc. unfold WPACKET_allocate_bytes, WPACKET_reserve_bytes, update.
  destruct pkt as [[m|] sb c w mx sl]; cbn [wp_buf staticbuf wp_curr written maxsize subs] in *;
    destruct sl as [|s0 c0], chain as [|s c1]; try done.
  all: cbn [andb negb]; destruct (len =? 0); [done|]; destruct (sz _ <? len); [done|].
  - fold (newlen_of m len). destruct (sz _ <? len); [|done].
    destruct (BUF_MEM_grow _ _ _) as [[r m']|]; [|done].
    cbn [mbind option_bind]. by destruct (r =? 0).
  - done.
Qed.

Lemma view_subs pkt out chain :
  wp_view pkt out -> chain_ok (written pkt) chain -> chain <> [] ->
  wp_view (pkt <| subs := chain |>) out.
Proof. unfold wp_view, block_ok, GETBUF. simpl. tauto. Qed.

Lemma same_room_trans p q r : same_room p q -> same_room q r -> same_room p r.
Proof.
  unfold same_room. intros [] []. split; [congruence|].
  destruct (wp_buf p), (wp_buf q), (wp_buf r); try done. congruence.
Qed.

Lemma ample_mono pkt pkt' len len' out out' :
  wp_view pkt out -> wp_view pkt' out' -> same_room pkt pkt' ->
  zlen out' + len' <= zlen out + len -> ample pkt len -> ample pkt' len'.
Proof.
  unfold same_room, ample. intros (_ & Hw & _) (_ & Hw' & _) [Hm Hb] Hle [Ha1 Ha2].
  split; [lia|]. destruct (wp_buf pkt'), (wp_buf pkt); try done.
  destruct Ha2 as (? & Hs & ?). rewrite Hb. split_and!; [done|done|lia].
Qed.

(** The sub-packet opened when [out] has been written. *)
Definition opened (n flags : Z) (out : list Z) : WPACKET_SUB :=
  mk_WPACKET_SUB (if n =? 0 then 0 else zlen out) n (zlen out + n) flags.

Lemma opened_chain_ok n flags out chain :
  0 <= n < 8 -> chain_ok (zlen out) chain -> chain_ok (zlen out + n) (opened n flags out :: chain).
Proof.
  intros Hn Hc. simpl. pose proof (zlen_nonneg out).
  replace (zlen out + n - n) with (zlen out) by lia.
  split; [lia|]. split; [lia|]. split; [lia|]. split; [|done].
  destruct (Z.eqb_spec n 0); [by left|by right].
Qed.

Lemma zalloc_succeeds n : n <> 0 -> is_Some (malloc n) -> CRYPTO_zalloc n <> None.
Proof.
  unfold CRYPTO_zalloc, CRYPTO_malloc. intros Hn%Z.eqb_neq [b Hb]. by rewrite Hn, Hb.
Qed.

Lemma start_spec pkt out n :
  wp_view pkt out -> 0 <= n < 8 ->
  exists ok pkt', WPACKET_start_sub_packet_len__ secure pkt n = Some (ok, pkt') /\
    (ok = true -> exists field, zlen field = n /\ wp_view pkt' (out ++ field) /\
       subs pkt' = opened n 0 out :: subs pkt /\ same_room pkt pkt') /\
    (is_Some (malloc sizeof_WPACKET_SUB) -> ample pkt n -> ok = true).
Proof using secure_zlen.
  intros Hv Hn. pose proof Hv as (Hc & Hw & Hm & Hb & Hch & Hs & Hg).
  rewrite Hw in Hch. pose proof (opened_chain_ok n 0 out (subs pkt) Hn Hch) as Hok'.
  unfold WPACKET_start_sub_packet_len__. pose proof (zlen_nonneg out) as Hz0.
  destruct (subs pkt) as [|s0 c0] eqn:Es; [done|]. rewrite <- Es in *.
  destruct (CRYPTO_zalloc sizeof_WPACKET_SUB) as [blk|] eqn:Emal.
  2:{ do 2 eexists. split; [done|]. split; [done|].
      intros Hm'%zalloc_succeeds; done. }
  destruct (Z.eqb_spec n 0) as [->|Hn0].
  - do 2 eexists. split; [done|]. split; [intros _|done].
    exists []. split; [done|]. rewrite app_nil_r.
    assert (Ho : zero_sub <| pwritten := sz (written pkt + 0) |> <| lenbytes := 0 |>
                   <| packet_len := 0 |> = opened 0 0 out).
    { unfold opened. rewrite Hw, Z.add_0_r. simpl. by rewrite sz_small by lia. }
    rewrite Ho. split; [|split; [done|split; [done|by simpl; destruct (wp_buf pkt)]]].
    apply view_subs; [done| |done]. by rewrite Hw, <- (Z.add_0_r (zlen out)).
  - rewrite allocate_subs by done.
    destruct (allocate_spec secure secure_zlen pkt out n Hv) as (ok & p & q & -> & Hok & Hample).
    { unfold SIZE_MAX. lia. }
    do 2 eexists. split; [done|]. split; [|intros _; apply Hample; lia].
    intros ->. destruct (Hok eq_refl) as (field & Hz & _ & Hv' & [Hf1 Hf2] & _ & Hr).
    exists field. split; [done|]. pose proof Hv' as (_ & Hw' & Hmax & _).
    rewrite zlen_app, Hz in Hw'.
    assert (Ho : zero_sub <| pwritten := sz (written pkt + n) |> <| lenbytes := n |>
                   <| packet_len := written pkt |> = opened n 0 out).
    { unfold opened. simpl. rewrite (proj2 (Z.eqb_neq n 0)), Hw, sz_small by lia. done. }
    rewrite Ho. split; [|split; [done|exact Hr]].
    apply view_subs; [done| |done]. by rewrite Hw'.
Qed.

(** Closing the innermost sub-packet wraps what it holds. *)

Lemma same_room_putbuf pkt blk : same_room pkt (PUTBUF pkt blk).
Proof.
  unfold same_room, PUTBUF. destruct (staticbuf pkt); simpl; [by destruct (wp_buf pkt)|].
  destruct (wp_buf pkt) eqn:E; simpl; [done|by rewrite E].
Qed.

Lemma put_value_room pkt d v n ok pkt' :
  put_value pkt d v n = Some (ok, pkt') -> same_room pkt pkt'.
Proof.
  unfold put_value. destruct d; [|intros [= <- <-]; split; [done|by destruct (wp_buf pkt)]].
  destruct (GETBUF pkt); [|done]. destruct (put_value_loop _ _ _ _) as [[blk' v']|]; [|done].
  intros [= <- <-]. apply same_room_putbuf.
Qed.

Lemma store_room pkt d l ok pkt' : store pkt d l = Some (ok, pkt') -> same_room pkt pkt'.
Proof.
  unfold store. destruct d; [|intros [= <- <-]; split; [done|by destruct (wp_buf pkt)]].
  destruct (GETBUF pkt); [|done]. destruct (wrn _ _ _) as [blk'|]; [|done].
  intros [= <- <-]. apply same_room_putbuf.
Qed.

Lemma bool_decide_nil {A} (l : list A) : bool_decide (l = []) = (zlen l =? 0).
Proof. destruct l; [done|]. rewrite zlen_cons. symmetry. apply Z.eqb_neq. pose proof (zlen_nonneg l). lia. Qed.

(** Giving back the length field of an empty sub-packet. *)
Lemma view_abandon pkt a field chain :
  wp_view pkt (a ++ field) -> chain_ok (zlen a) chain -> chain <> [] ->
  wp_view (pkt <| written := zlen a |> <| wp_curr := zlen a |> <| subs := chain |>) a.
Proof.
  unfold wp_view, block_ok, GETBUF. simpl. rewrite zlen_app.
  pose proof (zlen_nonneg field) as Hz.
  intros (Hc & Hw & Hm & Hb & _ & _ & Hg) Hch Hs. split; [done|]. split; [done|].
  split; [lia|]. split.
  { destruct (staticbuf pkt); [done|]. destruct (wp_buf pkt); [|done]. intuition lia. }
  split; [done|]. split; [done|].
  destruct (match staticbuf pkt with Some b => _ | None => _ end).
  - apply (f_equal (take (length a))) in Hg. rewrite take_take, take_app_length in Hg.
    rewrite Nat.min_l in Hg by len_lia. done.
  - by apply app_eq_nil in Hg as [-> _].
Qed.

(** What [wpacket_intern_close] leaves when an empty sub-packet is abandoned. *)
Lemma close_abandon pkt a field n :
  wp_view pkt (a ++ field) -> zlen field = n -> 0 <= n < 8 ->
  let pkt1 :=
    if sz (wp_curr pkt - n) =? (if n =? 0 then 0 else zlen a)
    then pkt <| written ::= fun w => sz (w - n) |> <| wp_curr ::= fun c => sz (c - n) |>
    else pkt in
  (forall chain, chain_ok (zlen a) chain -> chain <> [] -> wp_view (pkt1 <| subs := chain |>) a) /\
  same_room pkt pkt1.
Proof.
  intros Hv Hz Hn pkt1.
  pose proof Hv as (Hc & Hw & Hm & _). rewrite zlen_app in Hw. pose proof (zlen_nonneg a).
  assert (H1 : pkt1 = pkt <| written := zlen a |> <| wp_curr := zlen a |>).
  { unfold pkt1. simpl. rewrite Hc, Hw, sz_small by lia.
    replace (zlen a + zlen field - n) with (zlen a) by lia.
    destruct (Z.eqb_spec n 0) as [->|]; [|by rewrite Z.eqb_refl].
    destruct (zlen a =? 0); [done|].
    destruct pkt as [b s c w m ch]. simpl in *. repeat f_equal; lia. }
  clearbody pkt1. subst pkt1. split; [by intros; apply (view_abandon _ _ field)|].
  split; [done|]. simpl. by destruct (wp_buf pkt).
Qed.

Lemma intern_close_spec pkt a field body n flags parent :
  wp_view pkt (a ++ field ++ body) -> zlen field = n -> 0 <= n < 8 ->
  exists ok pkt', wpacket_intern_close pkt (opened n flags a) parent true = Some (ok, pkt') /\
    match wrap n flags body with
    | Some e => ok = true /\ subs pkt' = parent /\ same_room pkt pkt' /\
        forall chain, chain_ok (zlen a) chain -> chain <> [] ->
                      wp_view (pkt' <| subs := chain |>) (a ++ e)
    | None => ok = false
    end.
Proof.
  intros Hv Hz Hn. pose proof Hv as (Hc & Hw & Hm & _). rewrite !zlen_app in Hw.
  pose proof (zlen_nonneg body). pose proof (zlen_nonneg a).
  unfold wpacket_intern_close, wrap. rewrite bool_decide_nil.
  cbn [opened pwritten lenbytes sub_flags packet_len].
  replace (sz (written pkt - (zlen a + n))) with (zlen body) by (rewrite sz_small; lia).
  case_if; [by do 2 eexists|]. cbn [negb]. rewrite andb_false_r.
  destruct ((zlen body =? 0) && has_bits flags WPACKET_FLAGS_ABANDON_ON_ZERO_LENGTH)%bool eqn:E0;
    cbn [negb andb].
  - zify_bools. destruct body; [|len_lia]. rewrite app_nil_r in Hv.
    destruct (close_abandon pkt a field n) as [Hv1 Hr1]; try done.
    set (pkt1 := if sz _ =? _ then _ else pkt) in *. clearbody pkt1.
    do 2 eexists. split; [done|]. simpl. by rewrite app_nil_r.
  - cbn [opened lenbytes packet_len]. destruct (Z.ltb_spec 0 n) as [Hpos|].
    + destruct (put_value_spec pkt a field body (zlen body) n) as (pkt' & Hput & Hv' & Hf); try done; try lia.
      assert (is_Some (GETBUF pkt)) as [blk ->].
      { destruct (a ++ field ++ body) eqn:Ew; [|by eapply view_has_block].
        apply (f_equal zlen) in Ew. rewrite !zlen_app, zlen_nil in Ew. lia. }
      rewrite (proj2 (Z.eqb_neq n 0)) by lia. rewrite Hput. cbn [mbind option_bind].
      pose proof (put_value_room _ _ _ _ _ _ Hput) as Hroom.
      destruct (bool_decide_reflect (zlen body < 256 ^ n)).
      * rewrite bool_decide_eq_true_2 by tauto. do 2 eexists. split; [done|]. split; [done|].
        split; [done|]. split; [exact Hroom|]. intros chain Hch Hne.
        apply (view_subs pkt'); [done| |done].
        destruct Hv' as (_ & -> & _). rewrite !zlen_app, zlen_be_bytes.
        eapply chain_ok_mono; [done|lia].
      * rewrite bool_decide_eq_false_2 by lia. by do 2 eexists.
    + assert (n = 0) as -> by lia. cbn [mbind option_bind negb]. destruct field; [|len_lia].
      rewrite bool_decide_eq_true_2 by tauto. simpl in *. do 2 eexists. split; [done|]. split; [done|].
      split; [done|]. split; [split; [done|by simpl; destruct (wp_buf pkt)]|].
      intros chain Hch Hne. apply (view_subs pkt); [done| |done]. rewrite Hw. eapply chain_ok_mono; [done|lia].
Qed.

Lemma close_spec pkt a field body n flags parent :
  wp_view pkt (a ++ field ++ body) -> zlen field = n -> 0 <= n < 8 ->
  subs pkt = opened n flags a :: parent -> parent <> [] -> chain_ok (zlen a) parent ->
  exists ok pkt', WPACKET_close pkt = Some (ok, pkt') /\
    match wrap n flags body with
    | Some e => ok = true /\ wp_view pkt' (a ++ e) /\ subs pkt' = parent /\ same_room pkt pkt'
    | None => ok = false
    end.
Proof.
  intros Hv Hz Hn Hsub Hpar Hch. unfold WPACKET_close. rewrite Hsub.
  destruct parent as [|p0 p1] eqn:Ep; [done|]. rewrite <- Ep in *. clear Ep.
  destruct (intern_close_spec pkt a field body n flags parent Hv Hz Hn) as (ok & p & -> & Hc).
  do 2 eexists. split; [done|]. destruct (wrap n flags body); [|done].
  destruct Hc as (-> & Hs & Hr & Hview). split; [done|]. split; [|done].
  specialize (Hview parent Hch Hpar). rewrite <- Hs in Hview. by destruct p.
Qed.

(** What a step of a program promises: it never leaves the buffer; when it
    succeeds it has appended [spec]; and it succeeds when [spec] exists, the
    allocator provides and there is room for [len] bytes. *)
Definition writes (pkt : WPACKET) (out : list Z) (len : Z) (spec : option (list Z))
  (r : option (bool * WPACKET)) : Prop :=
  exists ok pkt', r = Some (ok, pkt') /\
    (ok = true -> exists e, spec = Some e /\ wp_view pkt' (out ++ e) /\
                  subs pkt' = subs pkt /\ same_room pkt pkt') /\
    (is_Some (malloc sizeof_WPACKET_SUB) -> ample pkt len -> is_Some spec -> ok = true).

Lemma same_room_refl pkt : same_room pkt pkt.
Proof. split; [done|by destruct (wp_buf pkt)]. Qed.

Lemma writes_nil pkt out : wp_view pkt out -> forall len, writes pkt out len (Some []) (Some (true, pkt)).
Proof.
  intros Hv len. do 2 eexists. split; [done|]. split; [|done]. intros _. exists [].
  rewrite app_nil_r. split; [done|]. split; [done|]. split; [done|apply same_room_refl].
Qed.

(** Allocating and then storing. *)
Lemma allocate_store pkt out len bytes :
  wp_view pkt out -> zlen bytes = len -> 0 < len <= SIZE_MAX ->
  writes pkt out len (Some bytes)
    ('(ok, pkt, dest) ← WPACKET_allocate_bytes secure pkt len;
     if negb ok then Some (false, pkt) else store pkt dest bytes).
Proof using secure_zlen.
  intros Hv Hz Hlen.
  destruct (allocate_spec secure secure_zlen pkt out len Hv) as (ok & p & q & -> & Hok & Hample); [lia|].
  cbn [mbind option_bind]. destruct ok; cbn [negb].
  2:{ do 2 eexists. split; [done|]. split; [done|]. intros _ Ha _. apply Hample; [lia|done]. }
  destruct (Hok eq_refl) as (junk & Hj & _ & Hv1 & [_ Hf2] & -> & Hr).
  rewrite <- (app_nil_r (out ++ junk)), <- app_assoc in Hv1.
  destruct (store_spec p out junk [] bytes Hv1) as (p' & Hs & Hv2 & [_ Hg2]); [lia|lia|].
  rewrite Hs. do 2 eexists. split; [done|]. split; [|done]. intros _.
  rewrite app_nil_r in Hv2. exists bytes. split; [done|]. split; [done|].
  split; [congruence|]. eapply same_room_trans; [done|by eapply store_room].
Qed.

Lemma memcpy_spec pkt out src :
  wp_view pkt out -> zlen src <= SIZE_MAX ->
  writes pkt out (zlen src) (Some src) (WPACKET_memcpy secure pkt src (zlen src)).
Proof using secure_zlen.
  intros Hv Hl. unfold WPACKET_memcpy. pose proof (zlen_nonneg src).
  destruct (Z.eqb_spec (zlen src) 0).
  { destruct src; [by apply writes_nil|len_lia]. }
  assert (rdn src 0 (zlen src) = Some src) as ->.
  { rewrite rdn_spec by lia. f_equal. change (Z.to_nat 0) with O. rewrite drop_0.
    apply take_ge. len_lia. }
  apply allocate_store; [done|done|lia].
Qed.

Lemma memset_spec pkt out ch len :
  wp_view pkt out -> 0 <= len <= SIZE_MAX ->
  writes pkt out len (Some (replicate (Z.to_nat len) (u8 ch))) (WPACKET_memset secure pkt ch len).
Proof using secure_zlen.
  intros Hv Hl. unfold WPACKET_memset. destruct (Z.eqb_spec len 0) as [->|].
  { by apply writes_nil. }
  apply allocate_store; [done| |lia]. rewrite zlen_replicate. lia.
Qed.

Lemma put_bytes_spec pkt out val size :
  wp_view pkt out -> 0 <= val -> 0 <= size ->
  writes pkt out size (encode (INum val size)) (WPACKET_put_bytes__ secure pkt val size).
Proof using secure_zlen.
  intros Hv Hval Hsize. unfold WPACKET_put_bytes__, encode.
  destruct (Z.leb_spec size sizeof_uint) as [Hs|Hs]; cbn [negb].
  2:{ rewrite bool_decide_eq_false_2 by lia. do 2 eexists. split; [done|]. split; [done|]. by intros _ _ [? ?]. }
  unfold sizeof_uint in *.
  destruct (allocate_spec secure secure_zlen pkt out size Hv) as (ok & p & q & -> & Hok & Hample).
  { unfold SIZE_MAX. lia. }
  cbn [mbind option_bind]. destruct ok; cbn [negb].
  2:{ do 2 eexists. split; [done|]. split; [done|]. intros _ Ha [? Hsome].
      case_bool_decide; [|done]. apply Hample; [lia|done]. }
  destruct (Hok eq_refl) as (junk & Hj & Hpos & Hv1 & [_ Hf2] & -> & Hr).
  rewrite <- (app_nil_r (out ++ junk)), <- app_assoc in Hv1.
  destruct (put_value_spec p out junk [] val size Hv1) as (p' & Hput & Hv2 & [_ Hg2]); try done.
  rewrite Hput, app_nil_r in *. do 2 eexists. split; [done|].
  split.
  - intros Hfit%bool_decide_eq_true. rewrite bool_decide_eq_true_2 by lia.
    eexists. split; [done|]. split; [done|]. split; [congruence|].
    eapply same_room_trans; [done|by eapply put_value_room].
  - intros _ _ [? Hsome]. case_bool_decide; [|done]. apply bool_decide_eq_true_2. lia.
Qed.

(** Induction on items with the items of a sub-packet as hypotheses. *)
Lemma item_nested_ind (P : item -> Prop) :
  (forall l, P (IBytes l)) -> (forall ch len, P (IFill ch len)) ->
  (forall val size, P (INum val size)) ->
  (forall n flags body, Forall P body -> P (ISub n flags body)) ->
  forall i, P i.
Proof.
  intros H1 H2 H3 H4. fix IH 1. intros [l|ch len|val size|n flags body]; [apply H1|apply H2|apply H3|].
  apply H4. induction body; constructor; [apply IH|done].
Qed.

Lemma run_item_sub n flags body pkt :
  run_item secure (ISub n flags body) pkt =
  ('(ok, pkt) ← WPACKET_start_sub_packet_len__ secure pkt n;
   if negb ok then Some (false, pkt)
   else
     let '(ok, pkt) := WPACKET_set_flags pkt flags in
     if negb ok then Some (false, pkt)
     else
       '(ok, pkt) ← run_items secure body pkt;
       if negb ok then Some (false, pkt) else WPACKET_close pkt).
Proof. reflexivity. Qed.

Lemma encode_sub n flags body :
  encode (ISub n flags body) = (b ← encode_all body; wrap n flags b).
Proof. reflexivity. Qed.

Lemma peak_sub n flags body : peak (ISub n flags body) = n + peak_all body.
Proof. reflexivity. Qed.

Lemma item_ok_sub n flags body : item_ok (ISub n flags body) = (0 <= n < 8 /\ items_ok body).
Proof. reflexivity. Qed.

Lemma peak_all_nonneg l : 0 <= peak_all l.
Proof.
  induction l as [|i l IH]; simpl; [lia|]. unfold encoded_length.
  destruct (encode i); [pose proof (zlen_nonneg l0)|]; lia.
Qed.

(** A failing step ends the program. *)
Lemma writes_fail pkt out len pkt' spec :
  (is_Some (malloc sizeof_WPACKET_SUB) -> ample pkt len -> is_Some spec -> False) ->
  writes pkt out len spec (Some (false, pkt')).
Proof. intros Hn. do 2 eexists. split; [done|]. split; [done|]. intros H1 H2 H3. by destruct Hn. Qed.

Lemma run_items_spec_of l :
  Forall (fun i => item_ok i -> forall pkt out, wp_view pkt out ->
                   writes pkt out (peak i) (encode i) (run_item secure i pkt)) l ->
  items_ok l -> forall pkt out, wp_view pkt out ->
  writes pkt out (peak_all l) (encode_all l) (run_items secure l pkt).
Proof using secure_zlen.
  induction 1 as [|i l Hi _ IH]; intros Hok pkt out Hv; cbn [run_items encode_all peak_all].
  { by apply writes_nil. }
  destruct Hok as [Hok1 Hok2].
  destruct (Hi Hok1 pkt out Hv) as (ok & p & -> & Hsucc & Hcomp). cbn [mbind option_bind].
  assert (Hle : ample pkt (peak_all (i :: l)) -> ample pkt (peak i)).
  { simpl. intros Ha. eapply (ample_mono pkt pkt); [exact Hv|exact Hv|apply same_room_refl| |exact Ha]. lia. }
  cbn [peak_all] in Hle. destruct ok; cbn [negb].
  2:{ apply writes_fail. intros Hm Ha [e He]. destruct (encode i) eqn:Ei; [|done].
      by discriminate Hcomp; try apply Hle. }
  destruct (Hsucc eq_refl) as (e & He & Hv1 & Hs1 & Hr1).
  destruct (IH Hok2 p _ Hv1) as (ok & q & -> & Hsucc' & Hcomp').
  do 2 eexists. split; [done|]. rewrite He. cbn [mbind option_bind]. split.
  - intros ->. destruct (Hsucc' eq_refl) as (e' & -> & Hv2 & Hs2 & Hr2).
    exists (e ++ e'). split; [done|]. rewrite app_assoc. split; [done|].
    split; [congruence|by eapply same_room_trans].
  - intros Hm Ha Hsome. apply Hcomp'; [done| |by destruct (encode_all l)].
    eapply ample_mono; [exact Hv|exact Hv1|done| |exact Ha]. rewrite zlen_app.
    unfold encoded_length. rewrite He. lia.
Qed.

Lemma run_item_spec i :
  item_ok i -> forall pkt out, wp_view pkt out ->
  writes pkt out (peak i) (encode i) (run_item secure i pkt).
Proof using secure_zlen.
  induction i as [l|ch len|val size|n flags body IH] using item_nested_ind; intros Hok pkt out Hv.
  - by apply memcpy_spec.
  - by apply memset_spec.
  - apply put_bytes_spec; simpl in Hok; [done|lia|lia].
  - rewrite run_item_sub, encode_sub, peak_sub. rewrite item_ok_sub in Hok. destruct Hok as [Hn Hok].
    pose proof (peak_all_nonneg body) as Hpk.
    destruct (start_spec pkt out n Hv Hn) as (ok & p & -> & Hsucc & Hcomp). cbn [mbind option_bind].
    destruct ok; cbn [negb].
    2:{ apply writes_fail. intros Hm Ha _. discriminate Hcomp; [done|].
        eapply (ample_mono pkt pkt); [exact Hv|exact Hv|apply same_room_refl| |exact Ha]. lia. }
    destruct (Hsucc eq_refl) as (field & Hz & Hv1 & Hs1 & Hr1). clear Hsucc.
    unfold WPACKET_set_flags. rewrite Hs1. cbn [negb].
    pose proof Hv as (_ & Hw & _ & _ & Hch & Hne & _). rewrite Hw in Hch.
    set (p1 := p <| subs := _ |>).
    assert (Hs1' : subs p1 = opened n flags out :: subs pkt) by done.
    assert (Hr1' : same_room pkt p1) by exact Hr1.
    assert (Hv1' : wp_view p1 (out ++ field)).
    { apply view_subs; [done| |done]. destruct Hv1 as (_ & -> & _). rewrite zlen_app, Hz.
      by apply opened_chain_ok. }
    clearbody p1.
    destruct (run_items_spec_of body IH Hok p1 _ Hv1') as (ok & q & -> & Hsucc' & Hcomp').
    cbn [mbind option_bind]. destruct ok; cbn [negb].
    2:{ apply writes_fail. intros Hm Ha [e He]. discriminate Hcomp'; [done| |].
        - eapply ample_mono; [exact Hv|exact Hv1'|done| |exact Ha]. rewrite zlen_app. lia.
        - by destruct (encode_all body). }
    destruct (Hsucc' eq_refl) as (b & -> & Hv2 & Hs2 & Hr2). cbn [mbind option_bind].
    rewrite <- app_assoc in Hv2.
    destruct (close_spec q out field b n flags (subs pkt)) as (ok & r & -> & Hclose); try done; [congruence|].
    do 2 eexists. split; [done|]. destruct (wrap n flags b) as [e|].
    + destruct Hclose as (-> & Hv3 & Hs3 & Hr3). split; [|done]. intros _. exists e.
      split; [done|]. split; [done|]. split; [done|].
      eapply same_room_trans; [done|by eapply same_room_trans].
    + subst ok. split; [done|]. by intros _ _ [? ?].
Qed.

Lemma run_items_spec l :
  items_ok l -> forall pkt out, wp_view pkt out ->
  writes pkt out (peak_all l) (encode_all l) (run_items secure l pkt).
Proof using secure_zlen.
  apply run_items_spec_of, Forall_forall. intros i _. apply run_item_spec.
Qed.

(** A packet before its first use: where to write, and how much. *)
Definition init_ready (pkt : WPACKET) : Prop :=
  0 <= maxsize pkt <= SIZE_MAX /\
  match staticbuf pkt, wp_buf pkt with
  | Some b, None => maxsize pkt <= zlen b
  | None, Some m => BUF_MEM_ok m /\ 0 <= buf_length m <= SIZE_MAX
  | _, _ => False
  end.

Lemma init_view pkt :
  init_ready pkt -> wp_view (pkt <| wp_curr := 0 |> <| written := 0 |> <| subs := [zero_sub] |>) [].
Proof.
  unfold init_ready, wp_view, block_ok, GETBUF. simpl. intros [Hm Hb].
  split; [done|]. split; [done|]. split; [lia|].
  destruct (staticbuf pkt); [|].
  - destruct (wp_buf pkt); [done|]. split_and!; try done; first [lia|by left].
  - destruct (wp_buf pkt) as [m|]; [|done]. destruct Hb as [? ?].
    split_and!; try done; first [lia|by left|by destruct (buf_data m)].
Qed.

Lemma init_spec pkt n :
  init_ready pkt -> 0 <= n < 8 ->
  exists ok pkt', wpacket_intern_init_len secure pkt n = Some (ok, pkt') /\
    (ok = true -> exists field, zlen field = n /\ wp_view pkt' field /\
       subs pkt' = [opened n 0 []] /\ same_room pkt pkt') /\
    (is_Some (malloc sizeof_WPACKET_SUB) -> ample (pkt <| written := 0 |>) n -> ok = true).
Proof using secure_zlen.
  intros Hr Hn. pose proof (init_view pkt Hr) as Hv. unfold wpacket_intern_init_len.
  destruct (CRYPTO_zalloc sizeof_WPACKET_SUB) as [blk|] eqn:Emal.
  2:{ do 2 eexists. split; [done|]. split; [done|]. intros Hm'%zalloc_succeeds; done. }
  destruct (Z.eqb_spec n 0) as [->|Hn0].
  - do 2 eexists. split; [done|]. split; [intros _|done]. exists [].
    split; [done|]. split; [exact Hv|]. split; [done|]. split; [done|by simpl; destruct (wp_buf pkt)].
  - set (pkt0 := pkt <| wp_curr := 0 |> <| written := 0 |> <| subs := [zero_sub] |>) in *.
    set (sub := zero_sub <| pwritten := n |> <| lenbytes := n |>).
    change (_ <| subs := [sub] |>) with (pkt0 <| subs := [sub] |>).
    rewrite allocate_subs by done.
    destruct (allocate_spec secure secure_zlen pkt0 [] n Hv) as (ok & p & q & -> & Hok & Hample).
    { unfold SIZE_MAX. lia. }
    assert (Ha : ample (pkt <| written := 0 |>) n -> ample pkt0 n) by done.
    assert (Hroom : same_room pkt pkt0) by (split; [done|by simpl; destruct (wp_buf pkt)]).
    clearbody pkt0. cbn [mbind option_bind]. destruct ok; cbn [negb].
    2:{ do 2 eexists. split; [done|]. split; [done|]. intros _ H1. apply Hample; [lia|by apply Ha]. }
    do 2 eexists. split; [done|]. split; [|done]. intros _.
    destruct (Hok eq_refl) as (field & Hz & _ & Hv' & [Hf1 Hf2] & _ & Hr').
    exists field. split; [done|].
    assert (Ho : sub <| packet_len := 0 |> = opened n 0 []).
    { unfold opened, sub. simpl. by rewrite (proj2 (Z.eqb_neq n 0)). }
    rewrite Ho. split; [|split; [done|by eapply same_room_trans]].
    apply (view_subs p); [done| |done]. pose proof Hv' as (_ & -> & _). rewrite zlen_app, Hz.
    apply (opened_chain_ok n 0 [] []); [done|exact I].
Qed.

(** Finishing the packet closes its outermost sub-packet. *)
Lemma finish_spec pkt field body n :
  wp_view pkt (field ++ body) -> zlen field = n -> 0 <= n < 8 -> subs pkt = [opened n 0 []] ->
  exists ok pkt', WPACKET_finish pkt = Some (ok, pkt') /\
    match wrap n 0 body with
    | Some e => ok = true /\ subs pkt' = [] /\ written pkt' = zlen e /\ zlen e <= maxsize pkt' /\
                maxsize pkt' = maxsize pkt /\
                match GETBUF pkt' with Some blk => take (length e) blk = e | None => e = [] end
    | None => ok = false
    end.
Proof.
  intros Hv Hz Hn Hs. unfold WPACKET_finish. rewrite Hs.
  destruct (intern_close_spec pkt [] field body n 0 [] Hv Hz Hn) as (ok & p & -> & Hc).
  do 2 eexists. split; [done|]. destruct (wrap n 0 body) as [e|]; [|by subst ok].
  destruct Hc as (-> & Hsp & [Hm _] & Hview).
  destruct (Hview [zero_sub]) as (_ & Hw & Hmax & _ & _ & _ & Hblk); [|done|].
  { simpl. split_and!; try done; by left. }
  cbn [update] in *. simpl in *. split_and!; try done; lia.
Qed.
End Programs.

(** ** Properties *)

(** C17: any program of [WPACKET] calls (bytes, fills, integers of 1 to 4 bytes and
    nested sub-packets with length fields of up to 7 bytes and any flags), run on a
    well-formed packet, never leaves the buffer; when it succeeds it has appended
    exactly the bytes of the abstract encoder, every length field filled in, and
    left the open sub-packets and the maximum size alone; and it does succeed
    whenever the encoder accepts the items and there is room for them. *)
Theorem WPACKET_programs_refine `{Malloc} secure
  (secure_zlen : forall n blk, 0 <= n -> secure n = Some blk -> zlen blk = n) pkt out l :
  wp_view pkt out -> items_ok l ->
  exists ok pkt', run_items secure l pkt = Some (ok, pkt') /\
    (ok = true -> exists e, encode_all l = Some e /\ wp_view pkt' (out ++ e) /\
                  subs pkt' = subs pkt /\ maxsize pkt' = maxsize pkt) /\
    (is_Some (malloc sizeof_WPACKET_SUB) -> ample pkt (peak_all l) ->
     is_Some (encode_all l) -> ok = true).
Proof.
  intros Hv Hl.
  destruct (run_items_spec secure secure_zlen l Hl pkt out Hv) as (ok & pkt' & Hrun & Hsucc & Hcomp).
  do 2 eexists. split; [done|]. split; [|done]. intros Hok.
  destruct (Hsucc Hok) as (e & ? & ? & ? & [? _]). by exists e.
Qed.

(** ** Witnesses *)

Definition no_secure : Z -> option (list Z) := fun _ => None.

Lemma no_secure_zlen n blk : 0 <= n -> no_secure n = Some blk -> zlen blk = n.
Proof. done. Qed.

Definition sample_items : list item :=
  [INum 3 1; ISub 2 WPACKET_FLAGS_NON_ZERO_LENGTH
               [IBytes [65; 66]; ISub 1 WPACKET_FLAGS_ABANDON_ON_ZERO_LENGTH []; INum 513 2];
   IFill 7 2].

Definition sample_wpacket : WPACKET :=
  mk_WPACKET None (Some (9 :: replicate 15 0)) 1 1 16 [zero_sub].

Definition blank_wpacket : WPACKET := mk_WPACKET None None 0 0 0 [].

#[local] Instance packet_malloc : Malloc := generous_malloc.

Lemma WPACKET_programs_refine_witness :
  exists pkt', run_items no_secure sample_items sample_wpacket = Some (true, pkt') /\
    wp_view pkt' [9; 3; 0; 4; 65; 66; 2; 1; 7; 7].
Proof.
  destruct (WPACKET_programs_refine no_secure no_secure_zlen sample_wpacket [9] sample_items)
    as (ok & pkt' & Hrun & Hok & _).
  - unfold wp_view, block_ok. simpl. split_and!; try done; by left.
  - simpl. repeat split; done.
  - assert (ok = true) as -> by (vm_compute in Hrun; congruence).
    destruct (Hok eq_refl) as (e & He & Hv & _). vm_compute in He. injection He as <-.
    exists pkt'. split; [exact Hrun|exact Hv].
Defined.
