(* ===== verification/Wire.v ===== *)
(** * Whole messages: writing a packet and reading it back

    The writers and the readers of the two preceding files put together, the way
    the handshake uses them: a message is written between
    [WPACKET_init_static_len] or [WPACKET_init_len] and [WPACKET_finish], and the
    peer reads what was sent through a [PACKET]. *)

From S2P Require Import Prelude Mem Packet Buffer WPacket.

(** ** Writing a whole message *)

Section Messages.
Context `{Malloc}.
Variable secure : Z -> option (list Z).

Definition write_open (r : option (bool * WPACKET)) (l : list item) : option (bool * WPACKET) :=
  '(ok, pkt) ← r;
  if negb ok then Some (false, pkt)
  else
    '(ok, pkt) ← run_items secure l pkt;
    if negb ok then Some (false, pkt) else WPACKET_finish pkt.

(** Into a fixed block, with a length prefix of [n] bytes for the whole. *)
Definition write_static (pkt : WPACKET) (buf : list Z) (n : Z) (l : list item) :=
  write_open (WPACKET_init_static_len secure pkt (Some buf) (zlen buf) n) l.

(** Into a growing buffer. *)
Definition write_buffer (pkt : WPACKET) (m : BUF_MEM) (n : Z) (l : list item) :=
  write_open (WPACKET_init_len secure pkt (Some m) n) l.

End Messages.

(** ** Reading fields *)

Inductive field : Type :=
| FNum (size : nat) (v : Z)
| FVec (n : nat) (l : list Z).

(** How a field is written. *)
Definition field_item (f : field) : item :=
  match f with
  | FNum size v => INum v (Z.of_nat size)
  | FVec n l => ISub (Z.of_nat n) WPACKET_FLAGS_NONE [IBytes l]
  end.

(** What is known of a field before it is read. *)
Inductive shape : Type := SNum (size : nat) | SVec (n : nat).

Definition shape_of (f : field) : shape :=
  match f with FNum size _ => SNum size | FVec n _ => SVec n end.

Section Reading.
Variable mem : list Z.

Definition get_number (size : nat) : option (PACKET -> Z -> option (bool * PACKET * Z)) :=
  match size with
  | 1%nat => Some (PACKET_get_1 mem)
  | 2%nat => Some (PACKET_get_net_2 mem)
  | 3%nat => Some (PACKET_get_net_3 mem)
  | 4%nat => Some (PACKET_get_net_4 mem)
  | _ => None
  end.

Definition get_vector (n : nat) : option (PACKET -> PACKET -> option (bool * PACKET * PACKET)) :=
  match n with
  | 1%nat => Some (PACKET_get_length_prefixed_1 mem)
  | 2%nat => Some (PACKET_get_length_prefixed_2 mem)
  | 3%nat => Some (PACKET_get_length_prefixed_3 mem)
  | _ => None
  end.

(** Reads one field of the given shape; a vector's bytes are those its
    sub-packet views. *)
Definition read_field (s : shape) (pkt : PACKET) : option (option field * PACKET) :=
  match s with
  | SNum size =>
      get ← get_number size;
      '(ok, pkt, v) ← get pkt 0;
      Some (if (ok : bool) then Some (FNum size v) else None, pkt)
  | SVec n =>
      get ← get_vector n;
      '(ok, pkt, sub) ← get pkt (PACKET_null_init pkt);
      if negb ok then Some (None, pkt)
      else l ← deref_n mem (curr sub) (remaining sub); Some (Some (FVec n l), pkt)
  end.

Fixpoint read_fields (ss : list shape) (pkt : PACKET) : option (option (list field) * PACKET) :=
  match ss with
  | [] => Some (Some [], pkt)
  | s :: ss =>
      '(f, pkt) ← read_field s pkt;
      match f with
      | None => Some (None, pkt)
      | Some f =>
          '(fs, pkt) ← read_fields ss pkt;
          Some (option_map (cons f) fs, pkt)
      end
  end.

End Reading.

(** The sizes for which there is a reader, and the values that fit. *)
Definition field_ok (f : field) : Prop :=
  match f with
  | FNum size v => (1 <= size <= 4)%nat /\ 0 <= v < 256 ^ Z.of_nat size
  | FVec n l => (1 <= n <= 3)%nat /\ bytes_ok l /\ zlen l < 256 ^ Z.of_nat n
  end.

(** ** Lemmas *)

Lemma maxmaxsize_bounds n : 0 <= n < 8 -> 0 <= maxmaxsize n <= SIZE_MAX.
Proof.
  intros Hn. unfold maxmaxsize. case_if; [done|]. apply sz_range.
Qed.

Lemma field_item_ok f : field_ok f -> item_ok (field_item f).
Proof.
  destruct f as [size v|n l]; simpl; intros [Hn H].
  - assert (256 ^ Z.of_nat size <= 2 ^ 32); [|lia].
    change (2 ^ 32) with (256 ^ 4). apply Z.pow_le_mono_r; lia.
  - destruct H as [_ H]. split; [lia|]. split; [|done].
    assert (256 ^ Z.of_nat n <= 256 ^ 3) by (apply Z.pow_le_mono_r; lia).
    unfold SIZE_MAX. lia.
Qed.

(** The bytes of a field. *)
Definition field_bytes (f : field) : list Z :=
  match f with
  | FNum size v => be_bytes size v
  | FVec n l => be_bytes n (zlen l) ++ l
  end.

Lemma encode_field f : field_ok f -> encode (field_item f) = Some (field_bytes f).
Proof.
  destruct f as [size v|n l]; intros Hok.
  - simpl in *. rewrite bool_decide_eq_true_2 by (unfold sizeof_uint; lia). by rewrite Nat2Z.id.
  - simpl. rewrite app_nil_r. unfold wrap, has_bits.
    change (truth (Z.land WPACKET_FLAGS_NONE _)) with false. simpl in Hok. rewrite !andb_false_r.
    rewrite bool_decide_eq_true_2 by lia. by rewrite Nat2Z.id.
Qed.

Lemma encode_fields fs :
  Forall field_ok fs ->
  items_ok (map field_item fs) /\
  encode_all (map field_item fs) = Some (concat (map field_bytes fs)).
Proof.
  induction 1 as [|f fs Hf _ [IH1 IH2]]; [done|].
  split; [split; [by apply field_item_ok|done]|]. cbn [map encode_all]. by rewrite encode_field, IH2.
Qed.

Lemma bytes_ok_field f : field_ok f -> bytes_ok (field_bytes f).
Proof.
  destruct f; simpl; intros Hf; [apply bytes_ok_be_bytes|].
  apply bytes_ok_app. split; [apply bytes_ok_be_bytes|tauto].
Qed.

Lemma bytes_ok_fields fs : Forall field_ok fs -> bytes_ok (concat (map field_bytes fs)).
Proof.
  induction 1; simpl; [constructor|]. apply bytes_ok_app. split; [by apply bytes_ok_field|done].
Qed.

Lemma spec_net_be_bytes n v rest :
  0 <= v < 256 ^ Z.of_nat n -> spec_net n (be_bytes n v ++ rest) = Some (v, rest).
Proof.
  intros Hv. unfold spec_net. rewrite length_app, length_be_bytes.
  rewrite bool_decide_eq_true_2 by lia.
  rewrite <- (length_be_bytes n v) at 1 3. rewrite take_app_length, drop_app_length.
  by rewrite be_val_be_bytes, Z.mod_small by lia.
Qed.

Lemma spec_prefixed_vector n l rest :
  zlen l < 256 ^ Z.of_nat n ->
  spec_prefixed n ((be_bytes n (zlen l) ++ l) ++ rest) = Some (l, rest).
Proof.
  intros Hl. unfold spec_prefixed. rewrite <- app_assoc.
  rewrite spec_net_be_bytes by (pose proof (zlen_nonneg l); lia).
  cbn [mbind option_bind]. unfold spec_bytes. rewrite zlen_app.
  rewrite bool_decide_eq_true_2 by (pose proof (zlen_nonneg rest); lia).
  unfold zlen. by rewrite Nat2Z.id, take_app_length, drop_app_length.
Qed.

Section ReadBack.
Context {mem : list Z} (mem_ok : bytes_ok mem).

Lemma get_number_implements size :
  (1 <= size <= 4)%nat -> exists get, get_number mem size = Some get /\ implements mem get (spec_net size).
Proof using mem_ok.
  intros Hs. assert (size = 1 \/ size = 2 \/ size = 3 \/ size = 4)%nat
    as [-> | [-> | [-> | ->]]] by lia; eexists; (split; [done|]).
  - by apply get_1_implements.
  - by apply get_net_2_implements.
  - by apply get_net_3_implements.
  - by apply get_net_4_implements.
Qed.

Lemma get_vector_implements n :
  (1 <= n <= 3)%nat ->
  exists get, get_vector mem n = Some get /\ implements_sub mem get (spec_prefixed n).
Proof using mem_ok.
  intros Hs. assert (n = 1 \/ n = 2 \/ n = 3)%nat
    as [-> | [-> | ->]] by lia; eexists; (split; [done|]).
  - by apply get_prefixed_1_implements.
  - by apply get_prefixed_2_implements.
  - by apply get_prefixed_3_implements.
Qed.

Lemma read_field_back f pkt rest :
  field_ok f -> packet_view mem pkt (field_bytes f ++ rest) ->
  exists pkt', read_field mem (shape_of f) pkt = Some (Some f, pkt') /\ packet_view mem pkt' rest.
Proof using mem_ok.
  destruct f as [size v|n l]; intros Hok Hv; simpl in Hok; cbn [shape_of read_field field_bytes] in *.
  - destruct (get_number_implements size) as (get & -> & Hget); [lia|].
    specialize (Hget pkt _ 0 Hv). rewrite spec_net_be_bytes in Hget by lia.
    destruct Hget as (pkt' & Hg & Hv'). cbn [mbind option_bind]. rewrite Hg. by exists pkt'.
  - destruct (get_vector_implements n) as (get & -> & Hget); [lia|].
    specialize (Hget pkt (PACKET_null_init pkt) _ Hv). rewrite spec_prefixed_vector in Hget by lia.
    destruct Hget as (pkt' & sub & Hg & Hv' & Hsub). cbn [mbind option_bind]. rewrite Hg.
    cbn [mbind option_bind negb]. rewrite (view_all _ _ Hsub). by exists pkt'.
Qed.

Lemma read_fields_back fs : forall pkt rest,
  Forall field_ok fs -> packet_view mem pkt (concat (map field_bytes fs) ++ rest) ->
  exists pkt', read_fields mem (map shape_of fs) pkt = Some (Some fs, pkt') /\
               packet_view mem pkt' rest.
Proof using mem_ok.
  induction fs as [|f fs IH]; intros pkt rest Hok Hv; cbn [map concat read_fields] in *.
  { by exists pkt. }
  apply Forall_cons_1 in Hok as [Hf Hok]. rewrite <- app_assoc in Hv.
  destruct (read_field_back f pkt _ Hf Hv) as (p & -> & Hv1). cbn [mbind option_bind].
  destruct (IH p rest Hok Hv1) as (q & -> & Hv2). by exists q.
Qed.

End ReadBack.

(** Opening, writing and finishing a message. *)
Section WholeMessage.
Context `{Malloc}.
Variable secure : Z -> option (list Z).
Hypothesis secure_zlen : forall n blk, 0 <= n -> secure n = Some blk -> zlen blk = n.

(** What a whole message is: [e] is in the block and nothing is left open. *)
Definition finished_with (pkt : WPACKET) (e : list Z) : Prop :=
  subs pkt = [] /\ WPACKET_get_total_written pkt = (true, zlen e) /\ zlen e <= maxsize pkt /\
  match GETBUF pkt with Some blk => take (length e) blk = e | None => e = [] end.

Lemma write_open_spec pkt0 n l :
  init_ready pkt0 -> 0 <= n < 8 -> items_ok l ->
  exists ok pkt', write_open secure (wpacket_intern_init_len secure pkt0 n) l = Some (ok, pkt') /\
    (ok = true -> exists e, encode (ISub n WPACKET_FLAGS_NONE l) = Some e /\ finished_with pkt' e /\
                  maxsize pkt' = maxsize pkt0) /\
    (is_Some (malloc sizeof_WPACKET_SUB) -> ample (pkt0 <| written := 0 |>) (n + peak_all l) ->
     is_Some (encode (ISub n WPACKET_FLAGS_NONE l)) -> ok = true).
Proof using secure_zlen.
  intros Hr Hn Hl. rewrite encode_sub. unfold write_open. pose proof (peak_all_nonneg l) as Hpk.
  destruct (init_spec secure secure_zlen pkt0 n Hr Hn) as (ok & p & -> & Hsucc & Hcomp).
  cbn [mbind option_bind].
  assert (Hv0 := init_view pkt0 Hr). set (p00 := _ <| subs := _ |>) in Hv0.
  assert (Ha0 : forall k, ample (pkt0 <| written := 0 |>) k -> ample p00 k) by done.
  assert (Hr0 : same_room pkt0 p00) by (split; [done|by simpl; destruct (wp_buf pkt0)]).
  assert (Hr00 : same_room p00 pkt0) by (split; [done|by simpl; destruct (wp_buf pkt0)]).
  assert (Hbk : ample p00 n -> ample (pkt0 <| written := 0 |>) n) by done.
  clearbody p00. destruct ok; cbn [negb].
  2:{ do 2 eexists. split; [done|]. split; [done|]. intros Hm Ha%Ha0 _. apply Hcomp; [done|].
      apply Hbk. eapply (ample_mono p00 p00); [exact Hv0|exact Hv0|apply same_room_refl| |exact Ha]. lia. }
  destruct (Hsucc eq_refl) as (field & Hz & Hv & Hs & Hroom). clear Hsucc Hcomp.
  destruct (run_items_spec secure secure_zlen l Hl p field Hv) as (ok & q & -> & Hsucc & Hcomp).
  cbn [mbind option_bind]. destruct ok; cbn [negb].
  2:{ do 2 eexists. split; [done|]. split; [done|]. intros Hm Ha%Ha0 [? He]. apply Hcomp; [done| |].
      - eapply ample_mono; [exact Hv0|exact Hv| | |exact Ha]; [by eapply same_room_trans|].
        rewrite zlen_nil. lia.
      - by destruct (encode_all l). }
  destruct (Hsucc eq_refl) as (b & -> & Hv2 & Hs2 & Hr2). cbn [mbind option_bind].
  rewrite Hs in Hs2.
  destruct (finish_spec q field b n Hv2 Hz Hn Hs2) as (ok & r & -> & Hf).
  do 2 eexists. split; [done|]. unfold WPACKET_FLAGS_NONE. destruct (wrap n 0 b) as [e|].
  - destruct Hf as (-> & Hsr & Hw & Hmax & Hmm & Hb). split; [|done]. intros _. exists e.
    assert (maxsize r = maxsize pkt0) by (destruct Hroom, Hr2; congruence).
    split; [done|]. split; [|done]. split; [done|]. split; [|done]. unfold WPACKET_get_total_written. by rewrite Hw.
  - subst ok. split; [done|]. by intros _ _ [? ?].
Qed.

End WholeMessage.

(** ** Properties *)

(** A whole message written to a fixed block ([WPACKET_init_static_len], any
    program, [WPACKET_finish]) stays inside of the block; a success means that the
    block starts with the encoding of the items behind a length field for the
    whole, that its length is the one reported and that no sub-packet is left
    open; and the encoder's accepting the items is enough for success when the
    peak size fits the block and the length field's limit. *)
Theorem WPACKET_static_message `{Malloc} secure
  (secure_zlen : forall n blk, 0 <= n -> secure n = Some blk -> zlen blk = n) pkt buf n l :
  0 < zlen buf <= SIZE_MAX -> 0 <= n < 8 -> items_ok l ->
  exists ok pkt', write_static secure pkt buf n l = Some (ok, pkt') /\
    (ok = true -> exists e, encode (ISub n WPACKET_FLAGS_NONE l) = Some e /\ finished_with pkt' e) /\
    (is_Some (malloc sizeof_WPACKET_SUB) ->
     n + peak_all l <= Z.min (zlen buf) (maxmaxsize n) ->
     is_Some (encode (ISub n WPACKET_FLAGS_NONE l)) -> ok = true).
Proof.
  intros Hb Hn Hl. unfold write_static, WPACKET_init_static_len.
  destruct (Z.leb_spec (zlen buf) 0); [lia|]. pose proof (maxmaxsize_bounds n Hn).
  set (mx := if maxmaxsize n <? zlen buf then maxmaxsize n else zlen buf).
  assert (mx = Z.min (zlen buf) (maxmaxsize n)) as Hmx.
  { unfold mx. destruct (Z.ltb_spec (maxmaxsize n) (zlen buf)); lia. }
  clearbody mx. set (pkt0 := _ <| maxsize := mx |>).
  destruct (write_open_spec secure secure_zlen pkt0 n l) as (ok & p & Hw & Hs & Hc); try done.
  { unfold init_ready. simpl. lia. }
  exists ok, p. split; [done|].
  split; [intros Hok; destruct (Hs Hok) as (e & ? & ? & _); by exists e|]. intros Hm Hroom. apply Hc; [done|].
  unfold ample. simpl. split; [lia|done].
Qed.

(** The same for a message written to a growing [BUF_MEM] ([WPACKET_init_len]):
    the buffer is enlarged as needed, and the message is written if the allocator
    provides and twice its peak size is within the limit of [BUF_MEM]. *)
Theorem WPACKET_buffer_message `{Malloc} secure
  (secure_zlen : forall n blk, 0 <= n -> secure n = Some blk -> zlen blk = n) pkt m n l :
  BUF_MEM_ok m -> 0 <= buf_length m <= SIZE_MAX -> 0 <= n < 8 -> items_ok l ->
  exists ok pkt', write_buffer secure pkt m n l = Some (ok, pkt') /\
    (ok = true -> exists e, encode (ISub n WPACKET_FLAGS_NONE l) = Some e /\ finished_with pkt' e) /\
    ((forall k, 0 < k < 2 ^ 31 -> is_Some (malloc k)) ->
     has_bits (buf_flags m) BUF_MEM_FLAG_SECURE = false ->
     n + peak_all l <= maxmaxsize n -> 2 * (n + peak_all l) <= LIMIT_BEFORE_EXPANSION ->
     is_Some (encode (ISub n WPACKET_FLAGS_NONE l)) -> ok = true).
Proof.
  intros Hm Hlen Hn Hl. unfold write_buffer, WPACKET_init_len. pose proof (maxmaxsize_bounds n Hn).
  set (pkt0 := _ <| maxsize := maxmaxsize n |>).
  destruct (write_open_spec secure secure_zlen pkt0 n l) as (ok & p & Hw & Hs & Hc); try done.
  exists ok, p. split; [done|].
  split; [intros Hok; destruct (Hs Hok) as (e & ? & ? & _); by exists e|]. intros Hmal Hsec Hroom Hlim. apply Hc.
  - apply Hmal. unfold sizeof_WPACKET_SUB. lia.
  - unfold ample. cbn [update wp_buf written maxsize pkt0]. simpl. tauto.
Qed.

(** C18: reading back what was written.  A message of integers of 1 to 4 bytes and
    of vectors with length prefixes of 1 to 3 bytes, written by [WPACKET] into a
    block, is read by the [PACKET] getters of the same shapes as the same fields,
    and nothing is left. *)
Theorem message_roundtrip `{Malloc} secure
  (secure_zlen : forall n blk, 0 <= n -> secure n = Some blk -> zlen blk = n) pkt buf fs pkt' blk :
  0 < zlen buf <= SIZE_MAX / 2 -> Forall field_ok fs ->
  write_static secure pkt buf 0 (map field_item fs) = Some (true, pkt') ->
  GETBUF pkt' = Some blk ->
  let sent := take (Z.to_nat (WPACKET_get_total_written pkt').2) blk in
  exists rcv end_, PACKET_buf_init (mk_PACKET None 0) (Some 0) (zlen sent) = (true, rcv) /\
    read_fields sent (map shape_of fs) rcv = Some (Some fs, end_) /\ PACKET_remaining end_ = 0.
Proof.
  intros Hb Hok Hw Hg sent. rewrite SIZE_MAX_half in Hb.
  destruct (encode_fields fs Hok) as [Hitems Henc].
  unfold write_static, WPACKET_init_static_len in Hw.
  destruct (Z.leb_spec (zlen buf) 0); [lia|].
  set (pkt0 := _ <| maxsize := _ |>) in Hw.
  destruct (write_open_spec secure secure_zlen pkt0 0 (map field_item fs)) as (ok & p & Hw' & Hs & _);
    [|lia|done|].
  { unfold init_ready. simpl. change (maxmaxsize 0) with SIZE_MAX. unfold SIZE_MAX.
    destruct (Z.ltb_spec (2 ^ 64 - 1) (zlen buf)); lia. }
  rewrite Hw in Hw'. injection Hw' as <- <-.
  destruct (Hs eq_refl) as (e & He & Hfin & Hmax). rewrite encode_sub, Henc in He.
  cbn [mbind option_bind] in He. unfold wrap, has_bits in He.
  change (truth (Z.land WPACKET_FLAGS_NONE _)) with false in He. rewrite !andb_false_r in He.
  rewrite bool_decide_eq_true_2 in He by tauto. injection He as He. simpl in He.
  destruct Hfin as (_ & Htot & Hle & Hblk). rewrite Hg in Hblk.
  assert (sent = e) as ->.
  { unfold sent. rewrite Htot. simpl. unfold zlen. by rewrite Nat2Z.id. }
  assert (Hlen : zlen e <= 2 ^ 63 - 1).
  { rewrite Hmax in Hle. simpl in Hle. case_if_in Hle; zify_bools; lia. }
  exists (mk_PACKET (Some 0) (zlen e)). unfold PACKET_buf_init. rewrite SIZE_MAX_half.
  destruct (Z.ltb_spec (2 ^ 63 - 1) (zlen e)); [lia|]. pose proof (zlen_nonneg e).
  subst e. destruct (@read_fields_back _ (bytes_ok_fields fs Hok) fs (mk_PACKET (Some 0)
    (zlen (concat (map field_bytes fs)))) [] Hok) as (q & Hq & Hvq).
  { unfold packet_view. rewrite SIZE_MAX_half. simpl. split; [lia|].
    rewrite rdn_spec by lia. rewrite drop_0, app_nil_r. f_equal. apply take_ge. len_lia. }
  exists q. split; [done|]. split; [done|]. apply (view_remaining _ _ Hvq).
Qed.

(** ** Witnesses *)

Definition sample_fields : list field := [FNum 2 0x0303; FVec 1 [1; 2; 3]; FVec 2 []; FNum 1 0].

#[local] Instance wire_malloc : Malloc := generous_malloc.

Lemma WPACKET_static_message_witness :
  exists pkt', write_static no_secure blank_wpacket (replicate 20 0) 3 sample_items = Some (true, pkt') /\
    finished_with pkt' [0; 0; 9; 3; 0; 4; 65; 66; 2; 1; 7; 7].
Proof.
  destruct (WPACKET_static_message no_secure no_secure_zlen blank_wpacket (replicate 20 0) 3 sample_items)
    as (ok & pkt' & Hrun & Hok & _).
  - done.
  - done.
  - simpl. repeat split; done.
  - assert (ok = true) as -> by (vm_compute in Hrun; congruence).
    destruct (Hok eq_refl) as (e & He & Hv). vm_compute in He. injection He as <-.
    exists pkt'. split; [exact Hrun|exact Hv].
Defined.

Lemma WPACKET_buffer_message_witness :
  exists pkt', write_buffer no_secure blank_wpacket (mk_BUF_MEM 0 None 0 0) 0 sample_items = Some (true, pkt') /\
    finished_with pkt' [3; 0; 4; 65; 66; 2; 1; 7; 7].
Proof.
  destruct (WPACKET_buffer_message no_secure no_secure_zlen blank_wpacket (mk_BUF_MEM 0 None 0 0) 0 sample_items)
    as (ok & pkt' & Hrun & Hok & Hcomp).
  - done.
  - done.
  - done.
  - simpl. repeat split; done.
  - assert (ok = true) as ->.
    { apply Hcomp; try done; by eexists. }
    destruct (Hok eq_refl) as (e & He & Hv). vm_compute in He. injection He as <-.
    exists pkt'. split; [exact Hrun|exact Hv].
Defined.

Definition sample_written : WPACKET := Eval vm_compute in
  match write_static no_secure blank_wpacket (replicate 20 0) 0 (map field_item sample_fields) with
  | Some (_, pkt) => pkt
  | None => blank_wpacket
  end.

Definition sample_sent : list Z := [3; 3; 3; 1; 2; 3; 0; 0; 0].

Lemma message_roundtrip_witness :
  take 9 <$> GETBUF sample_written = Some sample_sent /\
  exists rcv end_,
    PACKET_buf_init (mk_PACKET None 0) (Some 0) (zlen sample_sent) = (true, rcv) /\
    read_fields sample_sent [SNum 2; SVec 1; SVec 2; SNum 1] rcv = Some (Some sample_fields, end_) /\
    PACKET_remaining end_ = 0.
Proof.
  split; [reflexivity|].
  apply (message_roundtrip no_secure no_secure_zlen blank_wpacket (replicate 20 0) sample_fields
           sample_written (sample_sent ++ replicate 11 0)).
  - done.
  - repeat constructor; done.
  - vm_compute. reflexivity.
  - reflexivity.
Defined.
