(* ===== verification/PQueue.v ===== *)
(** * The priority queue of DTLS, [src/ssl/pqueue.c]

    A singly linked list of items with 64-bit big-endian priorities, kept in
    ascending order without duplicates; DTLS buffers records and handshake messages
    in it.  The list from [pq->items] on is the list of the model. *)

From Stdlib Require Import Sorted Permutation.

From S2P Require Import Prelude Mem.

(** ** Data and operations *)

(** [memcmp] of the C library: the sign of the first difference. *)
Fixpoint memcmp (a b : list Z) (n : nat) : option Z :=
  match n with
  | O => Some 0
  | S n =>
      match a, b with
      | x :: a, y :: b => if x =? y then memcmp a b n else Some (if x <? y then -1 else 1)
      | _, _ => None
      end
  end.

Section Queue.
Context {D : Type}.

Record pitem : Type := mk_pitem {
  priority : list Z;
  data : D;
}.

Record pqueue : Type := mk_pqueue {
  items : list pitem;
  count : Z;
}.

Definition sizeof_pitem : Z := 24.
Definition sizeof_pqueue : Z := 16.

Section Alloc.
Context `{Malloc}.

(** [None] is undefined behaviour, the inner one the null pointer. *)
Definition pitem_new (prio64be : list Z) (data : D) : option (option pitem) :=
  match CRYPTO_malloc sizeof_pitem with
  | None => Some None
  | Some _ => p ← rdn prio64be 0 8; Some (Some (mk_pitem p data))
  end.

Definition pqueue_new : option pqueue :=
  match CRYPTO_zalloc sizeof_pqueue with
  | None => None
  | Some _ => Some (mk_pqueue [] 0)
  end.

End Alloc.

(** The loop of [pqueue_insert]: false if there is a duplicate. *)
Fixpoint insert_loop (next : list pitem) (item : pitem) : option (bool * list pitem) :=
  match next with
  | [] => Some (true, [item])
  | n :: rest =>
      cmp ← memcmp (priority n) (priority item) 8;
      if 0 <? cmp then Some (true, item :: n :: rest)
      else if cmp =? 0 then Some (false, n :: rest)
      else '(ok, rest) ← insert_loop rest item; Some (ok, n :: rest)
  end.

Definition pqueue_insert (pq : pqueue) (item : pitem) : option (option pitem * pqueue) :=
  '(ok, l) ← insert_loop (items pq) item;
  Some (if (ok : bool) then Some item else None, mk_pqueue l (count pq)).

Definition pqueue_peek (pq : pqueue) : option pitem := head (items pq).

Definition pqueue_pop (pq : pqueue) : option pitem * pqueue :=
  match items pq with
  | [] => (None, pq)
  | item :: rest => (Some item, mk_pqueue rest (count pq))
  end.

(** The loop stops at a match or at the last item, which is compared once more. *)
Fixpoint find_loop (next : list pitem) (prio64be : list Z) : option (option pitem) :=
  match next with
  | [] => Some None
  | n :: rest =>
      cmp ← memcmp (priority n) prio64be 8;
      match rest with
      | [] => Some (if cmp =? 0 then Some n else None)
      | _ => if cmp =? 0 then Some (Some n) else find_loop rest prio64be
      end
  end.

Definition pqueue_find (pq : pqueue) (prio64be : list Z) : option (option pitem) :=
  find_loop (items pq) prio64be.

(** An iterator is the list from an item on. *)
Definition pqueue_iterator (pq : pqueue) : list pitem := items pq.

Definition pqueue_next (item : list pitem) : option pitem * list pitem :=
  match item with
  | [] => (None, [])
  | ret :: rest => (Some ret, rest)
  end.

Fixpoint size_loop (item : list pitem) (count : Z) : Z :=
  match item with
  | [] => count
  | _ :: rest => size_loop rest (sz (count + 1))
  end.

Definition pqueue_size (pq : pqueue) : Z := size_loop (items pq) 0.

(** ** Specification *)

Definition prio_ok (p : list Z) : Prop := bytes_ok p /\ length p = 8%nat.
Definition key (i : pitem) : Z := be_val (priority i).

Definition queue_ok (pq : pqueue) : Prop :=
  Forall (fun i => prio_ok (priority i)) (items pq) /\
  StronglySorted (fun a b => key a < key b) (items pq).

(** Popping until the queue is empty. *)
Fixpoint drain (n : nat) (pq : pqueue) : list pitem :=
  match n with
  | O => []
  | S n =>
      match pqueue_pop pq with
      | (None, _) => []
      | (Some i, pq) => i :: drain n pq
      end
  end.

(** ** Lemmas *)

(** Comparing big-endian strings is comparing their values. *)
Lemma memcmp_be_val n : forall a b,
  bytes_ok a -> bytes_ok b -> length a = n -> length b = n ->
  exists c, memcmp a b n = Some c /\ (c < 0 <-> be_val a < be_val b) /\ (c = 0 <-> be_val a = be_val b).
Proof.
  induction n as [|n IH]; intros a b Ha Hb La Lb.
  - destruct a, b; try done. exists 0. split; [done|]. split; [|done]. unfold be_val. simpl. lia.
  - destruct a as [|x a], b as [|y b]; try done. simpl in La, Lb. injection La as La.
    injection Lb as Lb. pose proof (Forall_inv Ha) as Hx. pose proof (Forall_inv Hb) as Hy.
    pose proof (Forall_inv_tail Ha) as Ha'. pose proof (Forall_inv_tail Hb) as Hb'.
    change (x :: a) with ([x] ++ a). change (y :: b) with ([y] ++ b). rewrite !be_val_app.
    cbn [app memcmp]. change (be_val [x]) with x. change (be_val [y]) with y.
    pose proof (be_val_bound a Ha'). pose proof (be_val_bound b Hb').
    unfold zlen in *. rewrite La, Lb in *. set (m := 256 ^ Z.of_nat n) in *.
    destruct (Z.eqb_spec x y) as [->|Hne].
    + destruct (IH a b Ha' Hb' La Lb) as (c & -> & H1 & H2). exists c. split; [done|]. lia.
    + eexists. split; [done|]. destruct (Z.ltb_spec x y); nia.
Qed.

Lemma prio_memcmp p q :
  prio_ok p -> prio_ok q ->
  exists c, memcmp p q 8 = Some c /\ (c < 0 <-> be_val p < be_val q) /\ (c = 0 <-> be_val p = be_val q).
Proof. intros [Hp Lp] [Hq Lq]. by apply memcmp_be_val. Qed.

Lemma insert_loop_spec l item :
  Forall (fun i => prio_ok (priority i)) l -> StronglySorted (fun a b => key a < key b) l ->
  prio_ok (priority item) ->
  exists ok l', insert_loop l item = Some (ok, l') /\
    if ok then (forall i, In i l -> key i <> key item) /\ Permutation l' (item :: l) /\
               StronglySorted (fun a b => key a < key b) l'
    else (exists i, In i l /\ key i = key item) /\ l' = l.
Proof.
  intros Hp Hs Hi. induction Hs as [|n rest Hs IH Hlt]; cbn [insert_loop].
  { exists true, [item]. split; [done|]. split; [done|]. split; [done|]. by repeat constructor. }
  apply Forall_cons_1 in Hp as [Hn Hp]. specialize (IH Hp).
  destruct (prio_memcmp _ _ Hn Hi) as (c & -> & H1 & H2). cbn [mbind option_bind].
  change (be_val (priority n)) with (key n) in H1, H2.
  change (be_val (priority item)) with (key item) in H1, H2.
  rewrite List.Forall_forall in Hlt.
  destruct (Z.ltb_spec 0 c) as [Hc|Hc].
  - exists true, (item :: n :: rest). split; [done|]. split; [|split; [done|]].
    + intros i [<-|Hin%Hlt]; lia.
    + constructor; [by constructor; [|apply List.Forall_forall]|].
      apply List.Forall_forall. intros i [<-|Hin%Hlt]; lia.
  - destruct (Z.eqb_spec c 0) as [->|Hne].
    + exists false, (n :: rest). split; [done|]. split; [|done]. exists n. split; [by left|tauto].
    + destruct IH as (ok & l' & -> & Hok). exists ok, (n :: l'). split; [done|].
      destruct ok; [|].
      * destruct Hok as (Hne' & Hperm & Hsort). split; [|split].
        -- intros i [<-|Hin]; [lia|auto].
        -- rewrite Hperm. by constructor.
        -- constructor; [done|]. apply List.Forall_forall. intros i Hin.
           eapply Permutation_in in Hin; [|exact Hperm]. destruct Hin as [<-|Hin%Hlt]; lia.
      * destruct Hok as ((i & Hin & Hk) & ->). split; [|done]. exists i. split; [by right|done].
Qed.

Lemma find_loop_spec l p :
  Forall (fun i => prio_ok (priority i)) l -> prio_ok p ->
  find_loop l p = Some (List.find (fun i => key i =? be_val p) l).
Proof.
  intros Hl Hp. induction l as [|n rest IH]; [done|]. apply Forall_cons_1 in Hl as [Hn Hl].
  cbn [find_loop List.find]. destruct (prio_memcmp _ _ Hn Hp) as (c & -> & _ & H2).
  cbn [mbind option_bind]. change (be_val (priority n)) with (key n) in H2.
  assert (E : (c =? 0) = (key n =? be_val p)).
  { destruct (Z.eqb_spec c 0), (Z.eqb_spec (key n) (be_val p)); tauto. }
  rewrite E. destruct rest as [|m rest]; [by destruct (_ =? _)|].
  destruct (key n =? be_val p); [done|]. by apply IH.
Qed.

Lemma size_loop_spec l n : 0 <= n -> n + zlen l <= SIZE_MAX -> size_loop l n = n + zlen l.
Proof.
  revert n. induction l as [|i l IH]; intros n Hn Hl; cbn [size_loop]; [rewrite zlen_nil; lia|].
  rewrite zlen_cons in *. pose proof (zlen_nonneg l). rewrite sz_small by lia. rewrite IH; lia.
Qed.

Lemma drain_all pq : drain (length (items pq)) pq = items pq.
Proof.
  destruct pq as [l c]. cbn [items]. induction l as [|i l IH]; [done|].
  cbn [length drain pqueue_pop items count]. by rewrite IH.
Qed.

End Queue.

(** ** Properties *)

(** [pqueue_insert] refuses exactly an item whose priority is in the queue, and
    leaves the queue as it was; any other item is added, in its place in ascending
    order of the 64-bit priorities. *)
Theorem pqueue_insert_correct {D} (pq : @pqueue D) item :
  queue_ok pq -> prio_ok (priority item) ->
  exists r pq', pqueue_insert pq item = Some (r, pq') /\ queue_ok pq' /\
    if existsb (fun i => key i =? key item) (items pq) then r = None /\ pq' = pq
    else r = Some item /\ Permutation (items pq') (item :: items pq).
Proof.
  intros [Hp Hs] Hi. unfold pqueue_insert.
  destruct (insert_loop_spec (items pq) item Hp Hs Hi) as (ok & l' & -> & Hok).
  cbn [mbind option_bind]. do 2 eexists. split; [done|]. destruct ok.
  - destruct Hok as (Hne & Hperm & Hsort). split.
    + split; [|exact Hsort]. cbn [items]. rewrite Hperm. by constructor.
    + destruct (existsb _ _) eqn:E; [|done]. apply existsb_exists in E as (i & Hin & Hk%Z.eqb_eq).
      by destruct (Hne i Hin).
  - destruct Hok as ((i & Hin & Hk) & ->). split; [done|].
    replace (existsb _ _) with true; [by destruct pq|]. symmetry. apply existsb_exists.
    exists i. by rewrite Hk, Z.eqb_refl.
Qed.

(** The other operations of the queue: [pqueue_find] finds an item exactly if there
    is one of the priority; popping yields the item of the least priority and keeps the
    queue in order, so that emptying the queue yields all items in ascending
    order; and [pqueue_size] is their number. *)
Theorem pqueue_queries_correct {D} (pq : @pqueue D) p :
  queue_ok pq -> prio_ok p -> zlen (items pq) <= SIZE_MAX ->
  pqueue_find pq p = Some (List.find (fun i => key i =? be_val p) (items pq)) /\
  queue_ok (pqueue_pop pq).2 /\ (pqueue_pop pq).1 = pqueue_peek pq /\
  (forall i, pqueue_peek pq = Some i -> forall j, In j (items pq) -> key i <= key j) /\
  drain (length (items pq)) pq = items pq /\ pqueue_size pq = zlen (items pq).
Proof.
  intros [Hp Hs] Hok Hz. split; [by apply find_loop_spec|]. unfold pqueue_pop, pqueue_peek.
  split; [|split; [by destruct (items pq)|split; [|split; [apply drain_all|]]]].
  - destruct pq as [[|i l] c]; [done|]. cbn [items snd] in *.
    split; [by apply Forall_cons_1 in Hp as [_ ?]|by inversion Hs].
  - intros i Hi j Hj. destruct (items pq) as [|i' l]; [done|]. injection Hi as ->.
    inversion Hs as [|? ? _ Hlt]; subst. rewrite List.Forall_forall in Hlt.
    destruct Hj as [<-|Hj%Hlt]; lia.
  - unfold pqueue_size. by rewrite size_loop_spec.
Qed.

(** ** Witnesses *)

Definition item_at (n : Z) : @pitem Z := mk_pitem (be_bytes 8 n) n.

Lemma item_at_ok n : prio_ok (priority (item_at n)).
Proof. split; [apply bytes_ok_be_bytes|apply length_be_bytes]. Qed.

Definition sample_queue : @pqueue Z := mk_pqueue [item_at 2; item_at 300] 0.

Lemma sample_queue_ok : queue_ok sample_queue.
Proof.
  split; [|by repeat constructor].
  constructor; [apply (item_at_ok 2)|constructor; [apply (item_at_ok 300)|constructor]].
Qed.

Lemma pqueue_insert_correct_witness :
  exists pq', pqueue_insert sample_queue (item_at 255) = Some (Some (item_at 255), pq') /\ queue_ok pq'.
Proof.
  destruct (pqueue_insert_correct sample_queue (item_at 255)) as (r & pq' & Hi & Hok & Hr).
  - exact sample_queue_ok.
  - apply item_at_ok.
  - exists pq'. split; [|exact Hok]. rewrite Hi.
    change (existsb _ _) with false in Hr. destruct Hr as [-> _]. reflexivity.
Defined.

Lemma pqueue_queries_correct_witness :
  pqueue_find sample_queue (be_bytes 8 300) = Some (Some (item_at 300)) /\
  (pqueue_pop sample_queue).1 = Some (item_at 2) /\ pqueue_size sample_queue = 2.
Proof.
  destruct (pqueue_queries_correct sample_queue (be_bytes 8 300)) as (Hf & _ & Hp & _ & _ & Hs).
  - exact sample_queue_ok.
  - apply (item_at_ok 300).
  - done.
  - rewrite Hf, Hp, Hs. repeat split; reflexivity.
Defined.
