(* ===== verification/TlsState.v ===== *)
(** * The connection object and the enumerations of the state machines

    The part of [struct tls_st] ([src/ssl/ssl_local.h]) that the state machines of
    [src/ssl/statem/] read and write, the enumerations of
    [src/ssl/statem/statem.h], and the calls that leave this part: calls whose
    result the state machines use are members of the class [Callouts], calls made
    only for their effect elsewhere are recorded in the field [calls].  The
    configuration is the default one without SCTP. *)

From S2P Require Import Prelude Mem PQueue Packet Buffer.

(** ** Enumerations *)

Inductive Otls_HANDSHAKE_STATE : Type :=
| TLS_ST_BEFORE | TLS_ST_OK
| DTLS_ST_CR_HELLO_VERIFY_REQUEST | TLS_ST_CR_SRVR_HELLO | TLS_ST_CR_CERT
| TLS_ST_CR_CERT_STATUS | TLS_ST_CR_KEY_EXCH | TLS_ST_CR_CERT_REQ
| TLS_ST_CR_SRVR_DONE | TLS_ST_CR_SESSION_TICKET | TLS_ST_CR_CHANGE
| TLS_ST_CR_FINISHED | TLS_ST_CW_CLNT_HELLO | TLS_ST_CW_CERT | TLS_ST_CW_KEY_EXCH
| TLS_ST_CW_CERT_VRFY | TLS_ST_CW_CHANGE | TLS_ST_CW_NEXT_PROTO
| TLS_ST_CW_FINISHED | TLS_ST_SW_HELLO_REQ | TLS_ST_SR_CLNT_HELLO
| DTLS_ST_SW_HELLO_VERIFY_REQUEST | TLS_ST_SW_SRVR_HELLO | TLS_ST_SW_CERT
| TLS_ST_SW_KEY_EXCH | TLS_ST_SW_CERT_REQ | TLS_ST_SW_SRVR_DONE | TLS_ST_SR_CERT
| TLS_ST_SR_KEY_EXCH | TLS_ST_SR_CERT_VRFY | TLS_ST_SR_NEXT_PROTO
| TLS_ST_SR_CHANGE | TLS_ST_SR_FINISHED | TLS_ST_SW_SESSION_TICKET
| TLS_ST_SW_CERT_STATUS | TLS_ST_SW_CHANGE | TLS_ST_SW_FINISHED
| TLS_ST_SW_ENCRYPTED_EXTENSIONS | TLS_ST_CR_ENCRYPTED_EXTENSIONS
| TLS_ST_CR_CERT_VRFY | TLS_ST_SW_CERT_VRFY | TLS_ST_CR_HELLO_REQ
| TLS_ST_SW_KEY_UPDATE | TLS_ST_CW_KEY_UPDATE | TLS_ST_SR_KEY_UPDATE
| TLS_ST_CR_KEY_UPDATE | TLS_ST_EARLY_DATA | TLS_ST_PENDING_EARLY_DATA_END
| TLS_ST_CW_END_OF_EARLY_DATA | TLS_ST_SR_END_OF_EARLY_DATA.

(** The value of an enumerator, in source order. *)
Definition hs_index (h : Otls_HANDSHAKE_STATE) : nat :=
  match h with
  | TLS_ST_BEFORE => 0 | TLS_ST_OK => 1
  | DTLS_ST_CR_HELLO_VERIFY_REQUEST => 2 | TLS_ST_CR_SRVR_HELLO => 3 | TLS_ST_CR_CERT => 4
  | TLS_ST_CR_CERT_STATUS => 5 | TLS_ST_CR_KEY_EXCH => 6 | TLS_ST_CR_CERT_REQ => 7
  | TLS_ST_CR_SRVR_DONE => 8 | TLS_ST_CR_SESSION_TICKET => 9 | TLS_ST_CR_CHANGE => 10
  | TLS_ST_CR_FINISHED => 11 | TLS_ST_CW_CLNT_HELLO => 12 | TLS_ST_CW_CERT => 13
  | TLS_ST_CW_KEY_EXCH => 14 | TLS_ST_CW_CERT_VRFY => 15 | TLS_ST_CW_CHANGE => 16
  | TLS_ST_CW_NEXT_PROTO => 17 | TLS_ST_CW_FINISHED => 18 | TLS_ST_SW_HELLO_REQ => 19
  | TLS_ST_SR_CLNT_HELLO => 20 | DTLS_ST_SW_HELLO_VERIFY_REQUEST => 21
  | TLS_ST_SW_SRVR_HELLO => 22 | TLS_ST_SW_CERT => 23 | TLS_ST_SW_KEY_EXCH => 24
  | TLS_ST_SW_CERT_REQ => 25 | TLS_ST_SW_SRVR_DONE => 26 | TLS_ST_SR_CERT => 27
  | TLS_ST_SR_KEY_EXCH => 28 | TLS_ST_SR_CERT_VRFY => 29 | TLS_ST_SR_NEXT_PROTO => 30
  | TLS_ST_SR_CHANGE => 31 | TLS_ST_SR_FINISHED => 32 | TLS_ST_SW_SESSION_TICKET => 33
  | TLS_ST_SW_CERT_STATUS => 34 | TLS_ST_SW_CHANGE => 35 | TLS_ST_SW_FINISHED => 36
  | TLS_ST_SW_ENCRYPTED_EXTENSIONS => 37 | TLS_ST_CR_ENCRYPTED_EXTENSIONS => 38
  | TLS_ST_CR_CERT_VRFY => 39 | TLS_ST_SW_CERT_VRFY => 40 | TLS_ST_CR_HELLO_REQ => 41
  | TLS_ST_SW_KEY_UPDATE => 42 | TLS_ST_CW_KEY_UPDATE => 43 | TLS_ST_SR_KEY_UPDATE => 44
  | TLS_ST_CR_KEY_UPDATE => 45 | TLS_ST_EARLY_DATA => 46
  | TLS_ST_PENDING_EARLY_DATA_END => 47 | TLS_ST_CW_END_OF_EARLY_DATA => 48
  | TLS_ST_SR_END_OF_EARLY_DATA => 49
  end.

Inductive WORK_STATE : Type :=
| WORK_ERROR | WORK_FINISHED_STOP | WORK_FINISHED_CONTINUE
| WORK_MORE_A | WORK_MORE_B | WORK_MORE_C.

Inductive WRITE_TRAN : Type := WRITE_TRAN_ERROR | WRITE_TRAN_CONTINUE | WRITE_TRAN_FINISHED.

Inductive MSG_FLOW_STATE : Type :=
| MSG_FLOW_UNINITED | MSG_FLOW_ERROR | MSG_FLOW_READING | MSG_FLOW_WRITING | MSG_FLOW_FINISHED.

Inductive READ_STATE : Type := READ_STATE_HEADER | READ_STATE_BODY | READ_STATE_POST_PROCESS.

Inductive WRITE_STATE : Type :=
| WRITE_STATE_TRANSITION | WRITE_STATE_PRE_WORK | WRITE_STATE_SEND | WRITE_STATE_POST_WORK.

Inductive ENC_WRITE_STATES : Type :=
| ENC_WRITE_STATE_VALID | ENC_WRITE_STATE_INVALID | ENC_WRITE_STATE_WRITE_PLAIN_ALERTS.

Inductive ENC_READ_STATES : Type := ENC_READ_STATE_VALID | ENC_READ_STATE_ALLOW_PLAIN_ALERTS.

Inductive MSG_PROCESS_RETURN : Type :=
| MSG_PROCESS_ERROR | MSG_PROCESS_FINISHED_READING
| MSG_PROCESS_CONTINUE_PROCESSING | MSG_PROCESS_CONTINUE_READING.

Inductive SUB_STATE_RETURN : Type :=
| SUB_STATE_ERROR | SUB_STATE_FINISHED | SUB_STATE_END_HANDSHAKE.

Inductive tls_PHA_STATE : Type :=
| tls_PHA_NONE | tls_PHA_EXT_SENT | tls_PHA_EXT_RECEIVED
| tls_PHA_REQUEST_PENDING | tls_PHA_REQUESTED.

Inductive tls_EARLY_DATA_STATE : Type :=
| tls_EARLY_DATA_NONE | tls_EARLY_DATA_CONNECT_RETRY | tls_EARLY_DATA_CONNECTING
| tls_EARLY_DATA_WRITE_RETRY | tls_EARLY_DATA_WRITING | tls_EARLY_DATA_WRITE_FLUSH
| tls_EARLY_DATA_UNAUTH_WRITING | tls_EARLY_DATA_FINISHED_WRITING
| tls_EARLY_DATA_ACCEPT_RETRY | tls_EARLY_DATA_ACCEPTING | tls_EARLY_DATA_READ_RETRY
| tls_EARLY_DATA_READING | tls_EARLY_DATA_FINISHED_READING.

Inductive HELLO_RETRY_REQUEST : Type := tls_HRR_NONE | tls_HRR_PENDING | tls_HRR_COMPLETE.

(** ** Constants *)

Definition tls_kRSA : Z := 0x1.
Definition tls_kDHE : Z := 0x2.
Definition tls_kECDHE : Z := 0x4.
Definition tls_kPSK : Z := 0x8.
Definition tls_kGOST : Z := 0x10.
Definition tls_kSRP : Z := 0x20.
Definition tls_kRSAPSK : Z := 0x40.
Definition tls_kECDHEPSK : Z := 0x80.
Definition tls_kDHEPSK : Z := 0x100.
Definition tls_PSK : Z := Z.lor (Z.lor (Z.lor tls_kPSK tls_kRSAPSK) tls_kECDHEPSK) tls_kDHEPSK.

Definition tls_aRSA : Z := 0x1.
Definition tls_aDSS : Z := 0x2.
Definition tls_aNULL : Z := 0x4.
Definition tls_aECDSA : Z := 0x8.
Definition tls_aPSK : Z := 0x10.
Definition tls_aGOST01 : Z := 0x20.
Definition tls_aSRP : Z := 0x40.
Definition tls_aGOST12 : Z := 0x80.

Definition tls3_MT_HELLO_REQUEST : Z := 0.
Definition tls3_MT_CLIENT_HELLO : Z := 1.
Definition tls3_MT_SERVER_HELLO : Z := 2.
Definition DTLS1_MT_HELLO_VERIFY_REQUEST : Z := 3.
Definition tls3_MT_NEWSESSION_TICKET : Z := 4.
Definition tls3_MT_END_OF_EARLY_DATA : Z := 5.
Definition tls3_MT_ENCRYPTED_EXTENSIONS : Z := 8.
Definition tls3_MT_CERTIFICATE : Z := 11.
Definition tls3_MT_SERVER_KEY_EXCHANGE : Z := 12.
Definition tls3_MT_CERTIFICATE_REQUEST : Z := 13.
Definition tls3_MT_SERVER_DONE : Z := 14.
Definition tls3_MT_CERTIFICATE_VERIFY : Z := 15.
Definition tls3_MT_CLIENT_KEY_EXCHANGE : Z := 16.
Definition tls3_MT_FINISHED : Z := 20.
Definition tls3_MT_CERTIFICATE_STATUS : Z := 22.
Definition tls3_MT_KEY_UPDATE : Z := 24.
Definition tls3_MT_NEXT_PROTO : Z := 67.
Definition tls3_MT_CHANGE_CIPHER_SPEC : Z := 0x0101.
Definition tls3_MT_DUMMY : Z := -1.
Definition tls3_HM_HEADER_LENGTH : Z := 4.

Definition tls3_VERSION : Z := 0x0300.
Definition tls3_VERSION_MAJOR : Z := 0x03.
Definition TLS1_VERSION : Z := 0x0301.
Definition TLS1_2_VERSION : Z := 0x0303.
Definition TLS1_3_VERSION : Z := 0x0304.
Definition TLS_ANY_VERSION : Z := 0x10000.
Definition DTLS1_VERSION : Z := 0xFEFF.
Definition DTLS1_2_VERSION : Z := 0xFEFD.
Definition DTLS1_BAD_VER : Z := 0x0100.

Definition tls3_AL_FATAL : Z := 2.
Definition tls_AD_NO_ALERT : Z := -1.
Definition tls3_AD_UNEXPECTED_MESSAGE : Z := 10.
Definition tls_AD_HANDSHAKE_FAILURE : Z := 40.
Definition tls_AD_ILLEGAL_PARAMETER : Z := 47.
Definition tls_AD_INTERNAL_ERROR : Z := 80.

Definition TLS1_FLAGS_SKIP_CERT_VERIFY : Z := 0x10.
Definition TLS1_FLAGS_STATELESS : Z := 0x800.
Definition tls_OP_COOKIE_EXCHANGE : Z := 0x2000.
Definition tls_OP_ENABLE_MIDDLEBOX_COMPAT : Z := 0x100000.
Definition tls_VERIFY_PEER : Z := 0x1.
Definition tls_VERIFY_FAIL_IF_NO_PEER_CERT : Z := 0x2.
Definition tls_VERIFY_CLIENT_ONCE : Z := 0x4.
Definition tls_VERIFY_POST_HANDSHAKE : Z := 0x8.
Definition tls_SENT_SHUTDOWN : Z := 1.
Definition tls_NOTHING : Z := 1.
Definition tls_WRITING : Z := 2.
Definition tls_READING : Z := 3.
Definition tls_ENC_FLAG_DTLS : Z := 0x8.
Definition tls_EARLY_DATA_NOT_SENT : Z := 0.
Definition tls_EARLY_DATA_REJECTED : Z := 1.
Definition tls_EARLY_DATA_ACCEPTED : Z := 2.
Definition tls_KEY_UPDATE_NONE : Z := -1.

Definition tls3_CC_READ : Z := 0x1.
Definition tls3_CC_WRITE : Z := 0x2.
Definition tls3_CC_CLIENT : Z := 0x10.
Definition tls3_CC_SERVER : Z := 0x20.
Definition tls3_CC_EARLY : Z := 0x40.
Definition tls3_CC_HANDSHAKE : Z := 0x80.
Definition tls3_CC_APPLICATION : Z := 0x100.
Definition tls3_CHANGE_CIPHER_CLIENT_WRITE : Z := Z.lor tls3_CC_CLIENT tls3_CC_WRITE.
Definition tls3_CHANGE_CIPHER_SERVER_READ : Z := Z.lor tls3_CC_SERVER tls3_CC_READ.
Definition tls3_CHANGE_CIPHER_SERVER_WRITE : Z := Z.lor tls3_CC_SERVER tls3_CC_WRITE.

Definition tls3_RT_CHANGE_CIPHER_SPEC : Z := 20.
Definition tls3_RT_HANDSHAKE : Z := 22.
Definition tls3_RT_MAX_PLAIN_LENGTH : Z := 16384.

Definition tls_CB_LOOP : Z := 0x1.
Definition tls_CB_EXIT : Z := 0x2.
Definition tls_ST_CONNECT : Z := 0x1000.
Definition tls_ST_ACCEPT : Z := 0x2000.
Definition tls_CB_ACCEPT_LOOP : Z := Z.lor tls_ST_ACCEPT tls_CB_LOOP.
Definition tls_CB_ACCEPT_EXIT : Z := Z.lor tls_ST_ACCEPT tls_CB_EXIT.
Definition tls_CB_CONNECT_LOOP : Z := Z.lor tls_ST_CONNECT tls_CB_LOOP.
Definition tls_CB_CONNECT_EXIT : Z := Z.lor tls_ST_CONNECT tls_CB_EXIT.
Definition tls_CB_HANDSHAKE_START : Z := 0x10.
Definition tls_CB_HANDSHAKE_DONE : Z := 0x20.

(** ** The connection object

    A pointer that is only tested for NULL is a [bool] (true: not NULL). *)

(** [struct tls_cipher_st], the fields used *)
Record tls_CIPHER := mk_tls_CIPHER {
  algorithm_mkey : Z;
  algorithm_auth : Z;
  min_tls : Z;
  max_tls : Z;
  min_dtls : Z;
  max_dtls : Z
}.
#[export] Instance eta_tls_CIPHER : Eta tls_CIPHER := fun r =>
  mk_tls_CIPHER (algorithm_mkey r) (algorithm_auth r) (min_tls r) (max_tls r)
    (min_dtls r) (max_dtls r).

(** [struct otls_statem_st] *)
Record Otls_STATEM := mk_Otls_STATEM {
  state : MSG_FLOW_STATE;
  write_state : WRITE_STATE;
  write_state_work : WORK_STATE;
  read_state : READ_STATE;
  read_state_work : WORK_STATE;
  hand_state : Otls_HANDSHAKE_STATE;
  request_state : Otls_HANDSHAKE_STATE;
  in_init : bool;
  read_state_first_init : bool;
  in_handshake : Z;
  cleanuphand : bool;
  no_cert_verify : bool;
  use_timer : bool;
  enc_write_state : ENC_WRITE_STATES;
  enc_read_state : ENC_READ_STATES
}.
#[export] Instance eta_Otls_STATEM : Eta Otls_STATEM := fun r =>
  mk_Otls_STATEM (state r) (write_state r) (write_state_work r) (read_state r)
    (read_state_work r) (hand_state r) (request_state r) (in_init r)
    (read_state_first_init r) (in_handshake r) (cleanuphand r) (no_cert_verify r)
    (use_timer r) (enc_write_state r) (enc_read_state r).

(** [s->s3.tmp] *)
Record tls_S3_TMP := mk_tls_S3_TMP {
  finish_md_len : Z;
  peer_finish_md_len : Z;
  message_size : Z;
  message_type : Z;
  new_cipher : tls_CIPHER;
  cert_req : Z;
  new_compression : option Z;
  cert_request : bool
}.
#[export] Instance eta_tls_S3_TMP : Eta tls_S3_TMP := fun r =>
  mk_tls_S3_TMP (finish_md_len r) (peer_finish_md_len r) (message_size r)
    (message_type r) (new_cipher r) (cert_req r) (new_compression r) (cert_request r).

(** [s->s3] *)
Record tls_S3 := mk_tls_S3 {
  flags : Z;
  client_random : list Z;
  change_cipher_spec : bool;
  s3_renegotiate : bool;
  total_renegotiations : Z;
  num_renegotiations : Z;
  in_read_app_data : Z;
  tmp : tls_S3_TMP;
  previous_server_finished_len : Z;
  npn_seen : bool
}.
#[export] Instance eta_tls_S3 : Eta tls_S3 := fun r =>
  mk_tls_S3 (flags r) (client_random r) (change_cipher_spec r) (s3_renegotiate r)
    (total_renegotiations r) (num_renegotiations r) (in_read_app_data r) (tmp r)
    (previous_server_finished_len r) (npn_seen r).

(** [s->ext] *)
Record tls_EXT := mk_tls_EXT {
  extflags : list Z;
  early_data : Z;
  ticket_expected : bool;
  status_expected : bool;
  session_secret_cb : bool
}.
#[export] Instance eta_tls_EXT : Eta tls_EXT := fun r =>
  mk_tls_EXT (extflags r) (early_data r) (ticket_expected r) (status_expected r)
    (session_secret_cb r).

(** [s->session] *)
Record tls_SESSION := mk_tls_SESSION {
  peer : bool;
  ext_tick : bool;
  cipher : option tls_CIPHER;
  compress_meth : Z
}.
#[export] Instance eta_tls_SESSION : Eta tls_SESSION := fun r =>
  mk_tls_SESSION (peer r) (ext_tick r) (cipher r) (compress_meth r).

(** Which end a custom extension is for. *)
Inductive ENDPOINT : Type := ENDPOINT_CLIENT | ENDPOINT_SERVER | ENDPOINT_BOTH.

(** [custom_ext_method]; the callbacks themselves are callouts. *)
Record custom_ext_method := mk_custom_ext_method {
  ext_type : Z;
  role : ENDPOINT;
  ext_context : Z;
  ext_flags : Z;
  add_cb : bool;
  parse_cb : bool
}.
#[export] Instance eta_custom_ext_method : Eta custom_ext_method := fun r =>
  mk_custom_ext_method (ext_type r) (role r) (ext_context r) (ext_flags r) (add_cb r)
    (parse_cb r).

(** [CERT_PKEY]; [ec_curve] is the name of the curve of an EC private key. *)
Record CERT_PKEY := mk_CERT_PKEY {
  x509 : bool;
  privatekey : bool;
  ec_curve : option Z
}.
#[export] Instance eta_CERT_PKEY : Eta CERT_PKEY := fun r =>
  mk_CERT_PKEY (x509 r) (privatekey r) (ec_curve r).

(** [s->cert] *)
Record CERT := mk_CERT {
  cert_flags : Z;
  pkeys : list CERT_PKEY;
  conf_sigalgs : option (list Z);
  cert_cb : bool;
  custext : list custom_ext_method
}.
#[export] Instance eta_CERT : Eta CERT := fun r =>
  mk_CERT (cert_flags r) (pkeys r) (conf_sigalgs r) (cert_cb r) (custext r).

(** [dtls1_retransmit_state]; contexts are known by their address. *)
Record retransmit_state := mk_retransmit_state {
  saved_enc_write_ctx : Z;
  saved_write_hash : Z;
  saved_compress : Z;
  saved_session : option tls_SESSION;
  saved_epoch : Z
}.
Definition no_state : retransmit_state := mk_retransmit_state 0 0 0 None 0.

(** [hm_header_st] *)
Record hm_header := mk_hm_header {
  hm_type : Z;
  hm_msg_len : Z;
  hm_seq : Z;
  hm_frag_off : Z;
  hm_frag_len : Z;
  hm_is_ccs : bool;
  saved_retransmit_state : retransmit_state
}.
#[export] Instance eta_hm_header : Eta hm_header := fun r =>
  mk_hm_header (hm_type r) (hm_msg_len r) (hm_seq r) (hm_frag_off r) (hm_frag_len r) (hm_is_ccs r)
    (saved_retransmit_state r).

(** What [memset] leaves. *)
Definition zero_header : hm_header := mk_hm_header 0 0 0 0 0 false no_state.

Record hm_fragment := mk_hm_fragment {
  msg_header : hm_header;
  fragment : option (list Z);
  reassembly : option (list Z)
}.
#[export] Instance eta_hm_fragment : Eta hm_fragment := fun r =>
  mk_hm_fragment (msg_header r) (fragment r) (reassembly r).

(** [struct timeval] *)
Record timeval := mk_timeval { tv_sec : Z; tv_usec : Z }.
#[export] Instance eta_timeval : Eta timeval := fun r => mk_timeval (tv_sec r) (tv_usec r).

(** [dtls1_timeout_st] *)
Record dtls1_timeout := mk_dtls1_timeout {
  read_timeouts : Z;
  write_timeouts : Z;
  num_alerts : Z
}.
#[export] Instance eta_dtls1_timeout : Eta dtls1_timeout := fun r =>
  mk_dtls1_timeout (read_timeouts r) (write_timeouts r) (num_alerts r).

(** [s->d1], without the cookie *)
Record DTLS1_STATE := mk_DTLS1_STATE {
  handshake_write_seq : Z;
  next_handshake_write_seq : Z;
  handshake_read_seq : Z;
  buffered_messages : @PQueue.pqueue hm_fragment;
  sent_messages : @PQueue.pqueue hm_fragment;
  link_mtu : Z;
  mtu : Z;
  w_msg_hdr : hm_header;
  r_msg_hdr : hm_header;
  timeout : dtls1_timeout;
  next_timeout : timeval;
  timeout_duration_us : Z;
  retransmitting : bool;
  (** is there a callback? *)
  timer_cb : bool
}.
#[export] Instance eta_DTLS1_STATE : Eta DTLS1_STATE := fun r =>
  mk_DTLS1_STATE (handshake_write_seq r) (next_handshake_write_seq r) (handshake_read_seq r)
    (buffered_messages r) (sent_messages r) (link_mtu r) (mtu r) (w_msg_hdr r) (r_msg_hdr r)
    (timeout r) (next_timeout r) (timeout_duration_us r) (retransmitting r) (timer_cb r).

(** As [dtls1_new] makes it. *)
Definition zero_d1 : DTLS1_STATE :=
  mk_DTLS1_STATE 0 0 0 (PQueue.mk_pqueue [] 0) (PQueue.mk_pqueue [] 0) 0 0 zero_header zero_header
    (mk_dtls1_timeout 0 0 0) (mk_timeval 0 0) 0 false false.

(** The fields of [struct tls_st] that version negotiation and the extensions
    use; [ctx_method_version] is [ctx->method->version], [session_flags],
    [session_alpn_selected] and [max_fragment_len_mode] belong to [s->session]. *)
Record tls_CONF := mk_tls_CONF {
  ctx_method_version : Z;
  min_proto_version : Z;
  max_proto_version : Z;
  mode : Z;
  client_version : Z;
  server_random : list Z;
  cert : CERT;
  psk_server_callback : bool;
  psk_find_session_cb : bool;
  debug_cb : bool;
  allow_early_data_cb : bool;
  psk_kex_mode : Z;
  peer_tmp : bool;
  group_id : Z;
  cookieok : bool;
  early_data_ok : bool;
  ecpointformats : option (list Z);
  peer_ecpointformats : option (list Z);
  session_flags : Z;
  session_alpn_selected : bool;
  max_fragment_len_mode : Z;
  max_send_fragment : Z;
  (** [recv_max_early_data], [early_data_count], and [ext.max_early_data] of
      [s->session] and of [s->psksession], if there is one *)
  recv_max_early_data : Z;
  early_data_count : Z;
  session_max_early_data : Z;
  psksession_max_early_data : option Z;
  (** contexts for writing, known by their address; 0 is the null pointer *)
  enc_write_ctx : Z;
  write_hash : Z;
  compress : Z;
  d1 : DTLS1_STATE
}.
#[export] Instance eta_tls_CONF : Eta tls_CONF := fun r =>
  mk_tls_CONF (ctx_method_version r) (min_proto_version r) (max_proto_version r)
    (mode r) (client_version r) (server_random r) (cert r) (psk_server_callback r)
    (psk_find_session_cb r) (debug_cb r) (allow_early_data_cb r) (psk_kex_mode r)
    (peer_tmp r) (group_id r) (cookieok r) (early_data_ok r) (ecpointformats r)
    (peer_ecpointformats r) (session_flags r) (session_alpn_selected r)
    (max_fragment_len_mode r) (max_send_fragment r) (recv_max_early_data r)
    (early_data_count r) (session_max_early_data r) (psksession_max_early_data r)
    (enc_write_ctx r) (write_hash r) (compress r) (d1 r).

(** Calls made for their effect outside of the model only, in the order made. *)
Inductive call : Type :=
| C_tls3_send_alert (level desc : Z)
| C_info_callback (where_ ret : Z)
| C_msg_callback (write_p type : Z) (bytes : list Z)
| C_BIO_set_next_timeout (tv : timeval)
| C_BIO_set_mtu (mtu : Z)
| C_BIO_set_flags_read
| C_dtls1_reset_seq_numbers (rw : Z)
| C_tls3_cleanup_key_block
| C_tls_update_cache (server : bool)
| C_tls_CTX_remove_session
| C_count (stat : nat)
| C_BIO_set_retry_read
| C_free_enc_write_ctx
| C_debug_cb (type : Z) (bytes : list Z).

(** [struct tls_st].  [method_version] and [enc_flags] are [method->version] and
    [method->tls3_enc->enc_flags]; [init_msg] is an offset into [init_buf->data];
    [rest] stands for all that is not modelled (BIOs, record layer, keys): only
    the callouts use it. *)
Record tls := mk_tls {
  version : Z;
  method_version : Z;
  enc_flags : Z;
  rwstate : Z;
  handshake_func : option bool;
  server : bool;
  new_session : bool;
  shutdown : Z;
  statem : Otls_STATEM;
  early_data_state : tls_EARLY_DATA_STATE;
  init_buf : option BUF_MEM;
  init_msg : Z;
  init_num : Z;
  init_off : Z;
  s3 : tls_S3;
  cookie_verified : bool;
  msg_callback : bool;
  hit : bool;
  psk_identity_hint : bool;
  hello_retry_request : HELLO_RETRY_REQUEST;
  session : tls_SESSION;
  info_callback : bool;
  verify_mode : Z;
  options : Z;
  max_cert_list : Z;
  first_packet : bool;
  ext : tls_EXT;
  sent_tickets : Z;
  num_tickets : Z;
  renegotiate : bool;
  key_update : Z;
  post_handshake_auth : tls_PHA_STATE;
  certreqs_sent : Z;
  max_early_data : Z;
  cache_client : bool;
  conf : tls_CONF;
  calls : list call;
  rest : list Z
}.
#[export] Instance eta_tls : Eta tls := fun r =>
  mk_tls (version r) (method_version r) (enc_flags r) (rwstate r) (handshake_func r)
    (server r) (new_session r) (shutdown r) (statem r) (early_data_state r) (init_buf r)
    (init_msg r) (init_num r) (init_off r) (s3 r) (cookie_verified r) (msg_callback r)
    (hit r) (psk_identity_hint r) (hello_retry_request r) (session r) (info_callback r)
    (verify_mode r) (options r) (max_cert_list r) (first_packet r) (ext r)
    (sent_tickets r) (num_tickets r) (renegotiate r) (key_update r)
    (post_handshake_auth r) (certreqs_sent r) (max_early_data r) (cache_client r)
    (conf r) (calls r) (rest r).

(** Assigning to [s->statem.f], [s->s3.f], ... *)
Notation "s <| r .: f := v |>" := (@update _ _ r _ (@update _ _ f _ (fun _ => v)) s)
  (at level 1, left associativity) : tls_scope.

(** ** Comparing enumerators *)

Definition hs_of_index (n : nat) : Otls_HANDSHAKE_STATE :=
  nth n
    [TLS_ST_BEFORE; TLS_ST_OK; DTLS_ST_CR_HELLO_VERIFY_REQUEST; TLS_ST_CR_SRVR_HELLO;
     TLS_ST_CR_CERT; TLS_ST_CR_CERT_STATUS; TLS_ST_CR_KEY_EXCH; TLS_ST_CR_CERT_REQ;
     TLS_ST_CR_SRVR_DONE; TLS_ST_CR_SESSION_TICKET; TLS_ST_CR_CHANGE; TLS_ST_CR_FINISHED;
     TLS_ST_CW_CLNT_HELLO; TLS_ST_CW_CERT; TLS_ST_CW_KEY_EXCH; TLS_ST_CW_CERT_VRFY;
     TLS_ST_CW_CHANGE; TLS_ST_CW_NEXT_PROTO; TLS_ST_CW_FINISHED; TLS_ST_SW_HELLO_REQ;
     TLS_ST_SR_CLNT_HELLO; DTLS_ST_SW_HELLO_VERIFY_REQUEST; TLS_ST_SW_SRVR_HELLO;
     TLS_ST_SW_CERT; TLS_ST_SW_KEY_EXCH; TLS_ST_SW_CERT_REQ; TLS_ST_SW_SRVR_DONE;
     TLS_ST_SR_CERT; TLS_ST_SR_KEY_EXCH; TLS_ST_SR_CERT_VRFY; TLS_ST_SR_NEXT_PROTO;
     TLS_ST_SR_CHANGE; TLS_ST_SR_FINISHED; TLS_ST_SW_SESSION_TICKET; TLS_ST_SW_CERT_STATUS;
     TLS_ST_SW_CHANGE; TLS_ST_SW_FINISHED; TLS_ST_SW_ENCRYPTED_EXTENSIONS;
     TLS_ST_CR_ENCRYPTED_EXTENSIONS; TLS_ST_CR_CERT_VRFY; TLS_ST_SW_CERT_VRFY;
     TLS_ST_CR_HELLO_REQ; TLS_ST_SW_KEY_UPDATE; TLS_ST_CW_KEY_UPDATE; TLS_ST_SR_KEY_UPDATE;
     TLS_ST_CR_KEY_UPDATE; TLS_ST_EARLY_DATA; TLS_ST_PENDING_EARLY_DATA_END;
     TLS_ST_CW_END_OF_EARLY_DATA; TLS_ST_SR_END_OF_EARLY_DATA] TLS_ST_BEFORE.

Lemma hs_of_index_index h : hs_of_index (hs_index h) = h.
Proof. by destruct h. Qed.

#[export] Instance hs_eq_dec : EqDecision Otls_HANDSHAKE_STATE.
Proof.
  refine (fun a b => match Nat.eq_dec (hs_index a) (hs_index b) with
                     | left H => left _ | right H => right _ end).
  - rewrite <- (hs_of_index_index a), <- (hs_of_index_index b). by rewrite H.
  - by intros ->.
Defined.

#[export] Instance WORK_STATE_eq_dec : EqDecision WORK_STATE.
Proof. solve_decision. Defined.
#[export] Instance MSG_FLOW_STATE_eq_dec : EqDecision MSG_FLOW_STATE.
Proof. solve_decision. Defined.
#[export] Instance ENC_WRITE_STATES_eq_dec : EqDecision ENC_WRITE_STATES.
Proof. solve_decision. Defined.
#[export] Instance tls_PHA_STATE_eq_dec : EqDecision tls_PHA_STATE.
Proof. solve_decision. Defined.
#[export] Instance tls_EARLY_DATA_STATE_eq_dec : EqDecision tls_EARLY_DATA_STATE.
Proof. solve_decision. Defined.
#[export] Instance HELLO_RETRY_REQUEST_eq_dec : EqDecision HELLO_RETRY_REQUEST.
Proof. solve_decision. Defined.

(** [x == y] on enumerations *)
Notation "x == y" := (bool_decide (x = y)) (at level 70, no associativity) : tls_scope.
Notation "x != y" := (negb (bool_decide (x = y))) (at level 70, no associativity) : tls_scope.

(** ** Macros of [ssl_local.h] *)

Definition tls_IS_DTLS (s : tls) : bool := has_bits (enc_flags s) tls_ENC_FLAG_DTLS.

Definition tls_IS_TLS13 (s : tls) : bool :=
  negb (tls_IS_DTLS s) && (TLS1_3_VERSION <=? method_version s)
  && negb (method_version s =? TLS_ANY_VERSION).

Definition tls_IS_FIRST_HANDSHAKE (s : tls) : bool :=
  (finish_md_len (tmp (s3 s)) =? 0) || (peer_finish_md_len (tmp (s3 s)) =? 0).

Definition dtls_ver_ordinal (v1 : Z) : Z := if v1 =? DTLS1_BAD_VER then 0xff00 else v1.
Definition DTLS_VERSION_GE (v1 v2 : Z) : bool := dtls_ver_ordinal v1 <=? dtls_ver_ordinal v2.
Definition DTLS_VERSION_LE (v1 v2 : Z) : bool := dtls_ver_ordinal v2 <=? dtls_ver_ordinal v1.

(** ** Fatal errors *)

(** Recording a call. *)
Definition log (s : tls) (c : call) : tls := s <| calls ::= fun l => l ++ [c] |>.

Definition otls_statem_fatal (s : tls) (al : Z) : tls :=
  if in_init (statem s) && (state (statem s) == MSG_FLOW_ERROR) then s
  else
    let s := s <| statem .: in_init := true |> <| statem .: state := MSG_FLOW_ERROR |> in
    if negb (al =? tls_AD_NO_ALERT)
       && (enc_write_state (statem s) != ENC_WRITE_STATE_INVALID)
    then log s (C_tls3_send_alert tls3_AL_FATAL al)
    else s.

(** The reason codes only go to the error queue, which is not modelled. *)
Definition tlsfatal (s : tls) (al : Z) : tls := otls_statem_fatal s al.

Definition check_fatal (s : tls) : tls :=
  if in_init (statem s) && (state (statem s) == MSG_FLOW_ERROR) then s
  else tlsfatal s tls_AD_INTERNAL_ERROR.

Definition upd_d1 (f : DTLS1_STATE -> DTLS1_STATE) (s : tls) : tls := s <| conf ::= fun c => c <| d1 ::= f |> |>.

(** [st->hand_state = h] *)
Definition set_hand_state (s : tls) (h : Otls_HANDSHAKE_STATE) : tls :=
  s <| statem .: hand_state := h |>.

(** ** Functions called by the state machines *)

(** Message constructors, by the name of the C function. *)
Inductive confunc_f : Type :=
| dtls_construct_change_cipher_spec | tls_construct_change_cipher_spec
| tls_construct_client_hello | tls_construct_end_of_early_data
| tls_construct_client_certificate | tls_construct_client_key_exchange
| tls_construct_cert_verify | tls_construct_next_proto | tls_construct_finished
| tls_construct_key_update | dtls_construct_hello_verify_request
| tls_construct_server_hello | tls_construct_server_certificate
| tls_construct_server_key_exchange | tls_construct_certificate_request
| tls_construct_server_done | tls_construct_new_session_ticket
| tls_construct_cert_status | tls_construct_encrypted_extensions.

(** Message processing functions. *)
Inductive process_f : Type :=
| tls_process_server_hello | dtls_process_hello_verify | tls_process_server_certificate
| tls_process_cert_verify | tls_process_cert_status | tls_process_key_exchange
| tls_process_certificate_request | tls_process_server_done
| tls_process_change_cipher_spec | tls_process_new_session_ticket
| tls_process_finished | tls_process_hello_req | tls_process_encrypted_extensions
| tls_process_key_update | tls_process_client_hello | tls_process_end_of_early_data
| tls_process_client_certificate | tls_process_client_key_exchange
| tls_process_next_proto.

Inductive post_process_f : Type :=
| tls_prepare_client_certificate | tls_post_process_client_hello
| tls_post_process_client_key_exchange.

(** An operation with a C truth value for result. *)
Definition action : Type := tls -> bool * tls.

(** Which protocols the library was built without ([OPENtls_NO_...]). *)
Class Build : Type := {
  no_tls1_3 : bool;
  no_tls1_2 : bool;
  no_tls1_1 : bool;
  no_tls1 : bool;
  no_tls3 : bool;
  no_dtls1_2 : bool;
  no_dtls1 : bool
}.

(** The build, and the functions whose result decides what the state machines do next. *)
Class Callouts : Type := {
  callouts_build :: Build;
  BIO_flush : tls -> Z;
  tls_clear : action;
  (** [tls_security(s, tls_SECOP_VERSION, 0, version, NULL)]: the application's callback *)
  tls_security_version : tls -> Z -> bool;
  tls3_setup_buffers : action;
  tls_init_wbio_buffer : action;
  tls_free_wbio_buffer : action;
  tls3_init_finished_mac : action;
  tls3_finish_mac : list Z -> action;
  tls3_take_mac : action;
  tls_get_ciphers : tls -> list tls_CIPHER;
  setup_key_block : action;
  change_cipher_state : Z -> action;
  tls13_change_cipher_state : Z -> action;
  generate_master_secret : action;
  tls13_update_key : action;
  tls13_save_handshake_digest_for_pha : action;
  tls13_restore_handshake_digest_for_pha : action;
  tls_client_key_exchange_post_work : action;
  RECORD_LAYER_read_pending : tls -> bool;
  RECORD_LAYER_write_pending : tls -> bool;
  RECORD_LAYER_is_tlsv2_record : tls -> bool;
  RECORD_LAYER_get_rrec_length : tls -> Z;
  (** [tls_get_error(s, 0) == tls_ERROR_SYSCALL], and the system's error number *)
  tls_error_is_syscall : tls -> bool;
  get_last_sys_error : tls -> Z;
  (** [tls_read_bytes type len]: the result, the record type, the bytes *)
  tls_read_bytes : Z -> Z -> tls -> Z * Z * list Z * tls;
  (** [tls3_write_bytes type bytes]: the result and the number written *)
  tls3_write_bytes : Z -> list Z -> tls -> Z * Z * tls;
  (** [dtls1_write_bytes type bytes]: the result and the number written *)
  dtls1_write_bytes : Z -> list Z -> tls -> Z * Z * tls;
  DTLS_RECORD_LAYER_get_w_epoch : tls -> Z;
  DTLS_RECORD_LAYER_set_saved_w_epoch : Z -> tls -> tls;
  (** [BIO_wpending] of the BIO written to, and what [BIO_ctrl] says of it *)
  BIO_wpending : tls -> Z;
  BIO_dgram_get_mtu_overhead : tls -> Z;
  BIO_dgram_query_mtu : tls -> Z;
  BIO_dgram_get_fallback_mtu : tls -> Z;
  BIO_dgram_mtu_exceeded : tls -> bool;
  (** of the contexts for writing *)
  EVP_CIPHER_is_aead : Z -> bool;
  EVP_CIPHER_is_cbc : Z -> bool;
  EVP_CIPHER_CTX_block_size : Z -> Z;
  EVP_MD_CTX_size : Z -> Z;
  (** the clock, and the application's timer callback *)
  get_current_time : tls -> timeval * tls;
  call_timer_cb : tls -> Z -> Z;
  run_process : process_f -> PACKET -> tls -> MSG_PROCESS_RETURN * tls;
  run_post_process : post_process_f -> WORK_STATE -> tls -> WORK_STATE * tls;
}.
