(* ===== verification/Protocol.v ===== *)
(** * Protocol versions and methods

    The table of methods of [src/ssl/methods.c], and the part of
    [src/ssl/statem/statem_lib.c] that says which protocol versions a connection
    may use: [version_cmp], [tls_method_error], [is_tls13_capable] (with the
    signature algorithms of [src/ssl/t1_lib.c] it consults),
    [tls_version_supported], [tls_check_version_downgrade],
    [tls_set_version_bound] and [tls_get_min_max_version].  Which protocols the
    library was built with is a parameter. *)

From S2P Require Import Prelude Mem Packet Buffer TlsState.

(** ** Constants *)

Definition TLS1_1_VERSION : Z := 0x0302.
Definition DTLS_ANY_VERSION : Z := 0x1FFFF.
Definition TLS_MAX_VERSION_INTERNAL : Z := TLS1_3_VERSION.
Definition DTLS_MAX_VERSION_INTERNAL : Z := DTLS1_2_VERSION.
Definition DTLS_VERSION_GT (v1 v2 : Z) : bool := dtls_ver_ordinal v1 <? dtls_ver_ordinal v2.
Definition DTLS_VERSION_LT (v1 v2 : Z) : bool := dtls_ver_ordinal v2 <? dtls_ver_ordinal v1.

Definition tls_OP_NO_tlsv3 : Z := 0x02000000.
Definition tls_OP_NO_TLSv1 : Z := 0x04000000.
Definition tls_OP_NO_TLSv1_2 : Z := 0x08000000.
Definition tls_OP_NO_TLSv1_1 : Z := 0x10000000.
Definition tls_OP_NO_TLSv1_3 : Z := 0x20000000.
Definition tls_OP_NO_DTLSv1 : Z := 0x04000000.
Definition tls_OP_NO_DTLSv1_2 : Z := 0x08000000.
Definition tls_METHOD_NO_FIPS : Z := 1.
Definition tls_METHOD_NO_SUITEB : Z := 2.
Definition tls_CERT_FLAG_SUITEB_128_LOS : Z := 0x30000.
Definition tls_ENC_FLAG_EXPLICIT_IV : Z := 0x1.
Definition tls_ENC_FLAG_SIGALGS : Z := 0x2.
Definition tls_ENC_FLAG_SHA256_PRF : Z := 0x4.
Definition tls_ENC_FLAG_TLS1_2_CIPHERS : Z := 0x10.

(** ** Methods *)

(** [tls_METHOD], the members that differ between methods: the version, the
    flags, the option that disables it, whether it accepts and connects (the other
    entry is [tls_undefined_function]), and the flags of its [tls3_enc]. *)
Record tls_METHOD := mk_tls_METHOD {
  m_version : Z;
  m_flags : Z;
  m_mask : Z;
  m_accepts : bool;
  m_connects : bool;
  m_enc_flags : Z
}.

Definition tlsv3_enc_data_flags : Z := 0.
Definition TLSv1_enc_data_flags : Z := 0.
Definition TLSv1_1_enc_data_flags : Z := tls_ENC_FLAG_EXPLICIT_IV.
Definition TLSv1_2_enc_data_flags : Z :=
  Z.lor (Z.lor (Z.lor tls_ENC_FLAG_EXPLICIT_IV tls_ENC_FLAG_SIGALGS) tls_ENC_FLAG_SHA256_PRF)
    tls_ENC_FLAG_TLS1_2_CIPHERS.
Definition TLSv1_3_enc_data_flags : Z := Z.lor tls_ENC_FLAG_SIGALGS tls_ENC_FLAG_SHA256_PRF.
Definition DTLSv1_enc_data_flags : Z := Z.lor tls_ENC_FLAG_DTLS tls_ENC_FLAG_EXPLICIT_IV.
Definition DTLSv1_2_enc_data_flags : Z :=
  Z.lor (Z.lor (Z.lor (Z.lor tls_ENC_FLAG_DTLS tls_ENC_FLAG_EXPLICIT_IV) tls_ENC_FLAG_SIGALGS)
           tls_ENC_FLAG_SHA256_PRF) tls_ENC_FLAG_TLS1_2_CIPHERS.

Definition TLS_method : tls_METHOD :=
  mk_tls_METHOD TLS_ANY_VERSION 0 0 true true TLSv1_2_enc_data_flags.
Definition tlsv1_3_server_method : tls_METHOD :=
  mk_tls_METHOD TLS1_3_VERSION 0 tls_OP_NO_TLSv1_3 true false TLSv1_3_enc_data_flags.
Definition tlsv1_2_server_method : tls_METHOD :=
  mk_tls_METHOD TLS1_2_VERSION 0 tls_OP_NO_TLSv1_2 true false TLSv1_2_enc_data_flags.
Definition tlsv1_1_server_method : tls_METHOD :=
  mk_tls_METHOD TLS1_1_VERSION tls_METHOD_NO_SUITEB tls_OP_NO_TLSv1_1 true false
    TLSv1_1_enc_data_flags.
Definition tlsv1_server_method : tls_METHOD :=
  mk_tls_METHOD TLS1_VERSION tls_METHOD_NO_SUITEB tls_OP_NO_TLSv1 true false TLSv1_enc_data_flags.
Definition tlsv3_server_method : tls_METHOD :=
  mk_tls_METHOD tls3_VERSION (Z.lor tls_METHOD_NO_FIPS tls_METHOD_NO_SUITEB) tls_OP_NO_tlsv3
    true false tlsv3_enc_data_flags.
Definition tlsv1_3_client_method : tls_METHOD :=
  mk_tls_METHOD TLS1_3_VERSION 0 tls_OP_NO_TLSv1_3 false true TLSv1_3_enc_data_flags.
Definition tlsv1_2_client_method : tls_METHOD :=
  mk_tls_METHOD TLS1_2_VERSION 0 tls_OP_NO_TLSv1_2 false true TLSv1_2_enc_data_flags.
Definition tlsv1_1_client_method : tls_METHOD :=
  mk_tls_METHOD TLS1_1_VERSION tls_METHOD_NO_SUITEB tls_OP_NO_TLSv1_1 false true
    TLSv1_1_enc_data_flags.
Definition tlsv1_client_method : tls_METHOD :=
  mk_tls_METHOD TLS1_VERSION tls_METHOD_NO_SUITEB tls_OP_NO_TLSv1 false true TLSv1_enc_data_flags.
Definition tlsv3_client_method : tls_METHOD :=
  mk_tls_METHOD tls3_VERSION (Z.lor tls_METHOD_NO_FIPS tls_METHOD_NO_SUITEB) tls_OP_NO_tlsv3
    false true tlsv3_enc_data_flags.

Definition DTLS_method : tls_METHOD :=
  mk_tls_METHOD DTLS_ANY_VERSION 0 0 true true DTLSv1_2_enc_data_flags.
Definition dtlsv1_server_method : tls_METHOD :=
  mk_tls_METHOD DTLS1_VERSION tls_METHOD_NO_SUITEB tls_OP_NO_DTLSv1 true false
    DTLSv1_enc_data_flags.
Definition dtlsv1_2_server_method : tls_METHOD :=
  mk_tls_METHOD DTLS1_2_VERSION 0 tls_OP_NO_DTLSv1_2 true false DTLSv1_2_enc_data_flags.
Definition dtlsv1_client_method : tls_METHOD :=
  mk_tls_METHOD DTLS1_VERSION tls_METHOD_NO_SUITEB tls_OP_NO_DTLSv1 false true
    DTLSv1_enc_data_flags.
Definition dtls_bad_ver_client_method : tls_METHOD :=
  mk_tls_METHOD DTLS1_BAD_VER tls_METHOD_NO_SUITEB tls_OP_NO_DTLSv1 false true
    DTLSv1_enc_data_flags.
Definition dtlsv1_2_client_method : tls_METHOD :=
  mk_tls_METHOD DTLS1_2_VERSION 0 tls_OP_NO_DTLSv1_2 false true DTLSv1_2_enc_data_flags.

(** ** The tables of versions *)

Record version_info := mk_version_info {
  v_version : Z;
  cmeth : option tls_METHOD;
  smeth : option tls_METHOD
}.

(** The entry of a version, empty when it was left out of the build. *)
Definition version_entry (left_out : bool) (v : Z) (cm sm : option tls_METHOD) : version_info :=
  if left_out then mk_version_info v None None else mk_version_info v cm sm.

(** The closing entry [{0, NULL, NULL}] is the end of the list. *)
Definition tls_version_table `{Build} : list version_info :=
  [version_entry no_tls1_3 TLS1_3_VERSION (Some tlsv1_3_client_method) (Some tlsv1_3_server_method);
   version_entry no_tls1_2 TLS1_2_VERSION (Some tlsv1_2_client_method) (Some tlsv1_2_server_method);
   version_entry no_tls1_1 TLS1_1_VERSION (Some tlsv1_1_client_method) (Some tlsv1_1_server_method);
   version_entry no_tls1 TLS1_VERSION (Some tlsv1_client_method) (Some tlsv1_server_method);
   version_entry no_tls3 tls3_VERSION (Some tlsv3_client_method) (Some tlsv3_server_method)].

Definition dtls_version_table `{Build} : list version_info :=
  [version_entry no_dtls1_2 DTLS1_2_VERSION (Some dtlsv1_2_client_method) (Some dtlsv1_2_server_method);
   version_entry no_dtls1 DTLS1_VERSION (Some dtlsv1_client_method) (Some dtlsv1_server_method);
   version_entry no_dtls1 DTLS1_BAD_VER (Some dtls_bad_ver_client_method) None].

(** [s->method = m] *)
Definition set_method (s : tls) (m : tls_METHOD) : tls :=
  s <| method_version := m_version m |> <| enc_flags := m_enc_flags m |>.

(** The table of a version-flexible method, [None] for another one. *)
Definition table_of `{Build} (mv : Z) : option (list version_info) :=
  if mv =? TLS_ANY_VERSION then Some tls_version_table
  else if mv =? DTLS_ANY_VERSION then Some dtls_version_table
  else None.

(** ** Comparing versions *)

Definition version_cmp (s : tls) (a b : Z) : Z :=
  let dtls := tls_IS_DTLS s in
  if a =? b then 0
  else if negb dtls then (if a <? b then -1 else 1)
  else if DTLS_VERSION_LT a b then -1 else 1.

(** ** Methods that may be used *)

Definition tls_R_VERSION_TOO_LOW : Z := 396.
Definition tls_R_VERSION_TOO_HIGH : Z := 166.
Definition tls_R_UNSUPPORTED_PROTOCOL : Z := 258.
Definition tls_R_AT_LEAST_TLS_1_2_NEEDED_IN_SUITEB_MODE : Z := 158.
Definition tls_R_NO_PROTOCOLS_AVAILABLE : Z := 191.
Definition ERR_R_INTERNAL_ERROR : Z := 68.

Definition tls1_suiteb (s : tls) : bool :=
  has_bits (cert_flags (cert (conf s))) tls_CERT_FLAG_SUITEB_128_LOS.

Section Methods.
Context `{Callouts}.

Definition tls_method_error (s : tls) (method : tls_METHOD) : Z :=
  let version := m_version method in
  let min := min_proto_version (conf s) in
  let max := max_proto_version (conf s) in
  if (negb (min =? 0) && (version_cmp s version min <? 0))
     || negb (tls_security_version s version)
  then tls_R_VERSION_TOO_LOW
  else if negb (max =? 0) && (0 <? version_cmp s version max)
  then tls_R_VERSION_TOO_HIGH
  else if has_bits (options s) (m_mask method) then tls_R_UNSUPPORTED_PROTOCOL
  else if has_bits (m_flags method) tls_METHOD_NO_SUITEB && tls1_suiteb s
  then tls_R_AT_LEAST_TLS_1_2_NEEDED_IN_SUITEB_MODE
  else 0.

End Methods.

(** ** Signature algorithms *)

(** The key types ([EVP_PKEY_...], [NID_id_GostR3410_...]) of signatures. *)
Inductive sig_type : Type :=
| EVP_PKEY_EC | EVP_PKEY_ED25519 | EVP_PKEY_ED448 | EVP_PKEY_RSA_PSS | EVP_PKEY_RSA
| EVP_PKEY_DSA | NID_id_GostR3410_2012_256 | NID_id_GostR3410_2012_512
| NID_id_GostR3410_2001.

#[export] Instance sig_type_eq_dec : EqDecision sig_type.
Proof. solve_decision. Defined.

Definition NID_undef : Z := 0.
Definition NID_X9_62_prime256v1 : Z := 415.
Definition NID_secp384r1 : Z := 715.
Definition NID_secp521r1 : Z := 716.

(** [SIGALG_LOOKUP], the fields used *)
Record SIGALG_LOOKUP := mk_SIGALG_LOOKUP { sigalg : Z; sig : sig_type; curve : Z }.

Definition tls12_sigalgs : list Z :=
  [0x0403; 0x0503; 0x0603; 0x0807; 0x0808;
   0x0809; 0x080a; 0x080b; 0x0804; 0x0805; 0x0806;
   0x0401; 0x0501; 0x0601;
   0x0303; 0x0203; 0x0301; 0x0201;
   0x0302; 0x0202; 0x0402; 0x0502; 0x0602;
   0xeeee; 0xefef; 0xeded].

Definition sigalg_lookup_tbl : list SIGALG_LOOKUP :=
  [mk_SIGALG_LOOKUP 0x0403 EVP_PKEY_EC NID_X9_62_prime256v1;
   mk_SIGALG_LOOKUP 0x0503 EVP_PKEY_EC NID_secp384r1;
   mk_SIGALG_LOOKUP 0x0603 EVP_PKEY_EC NID_secp521r1;
   mk_SIGALG_LOOKUP 0x0807 EVP_PKEY_ED25519 NID_undef;
   mk_SIGALG_LOOKUP 0x0808 EVP_PKEY_ED448 NID_undef;
   mk_SIGALG_LOOKUP 0x0303 EVP_PKEY_EC NID_undef;
   mk_SIGALG_LOOKUP 0x0203 EVP_PKEY_EC NID_undef;
   mk_SIGALG_LOOKUP 0x0804 EVP_PKEY_RSA_PSS NID_undef;
   mk_SIGALG_LOOKUP 0x0805 EVP_PKEY_RSA_PSS NID_undef;
   mk_SIGALG_LOOKUP 0x0806 EVP_PKEY_RSA_PSS NID_undef;
   mk_SIGALG_LOOKUP 0x0809 EVP_PKEY_RSA_PSS NID_undef;
   mk_SIGALG_LOOKUP 0x080a EVP_PKEY_RSA_PSS NID_undef;
   mk_SIGALG_LOOKUP 0x080b EVP_PKEY_RSA_PSS NID_undef;
   mk_SIGALG_LOOKUP 0x0401 EVP_PKEY_RSA NID_undef;
   mk_SIGALG_LOOKUP 0x0501 EVP_PKEY_RSA NID_undef;
   mk_SIGALG_LOOKUP 0x0601 EVP_PKEY_RSA NID_undef;
   mk_SIGALG_LOOKUP 0x0301 EVP_PKEY_RSA NID_undef;
   mk_SIGALG_LOOKUP 0x0201 EVP_PKEY_RSA NID_undef;
   mk_SIGALG_LOOKUP 0x0402 EVP_PKEY_DSA NID_undef;
   mk_SIGALG_LOOKUP 0x0502 EVP_PKEY_DSA NID_undef;
   mk_SIGALG_LOOKUP 0x0602 EVP_PKEY_DSA NID_undef;
   mk_SIGALG_LOOKUP 0x0302 EVP_PKEY_DSA NID_undef;
   mk_SIGALG_LOOKUP 0x0202 EVP_PKEY_DSA NID_undef;
   mk_SIGALG_LOOKUP 0xeeee NID_id_GostR3410_2012_256 NID_undef;
   mk_SIGALG_LOOKUP 0xefef NID_id_GostR3410_2012_512 NID_undef;
   mk_SIGALG_LOOKUP 0xeded NID_id_GostR3410_2001 NID_undef].

Definition tls1_lookup_sigalg (alg : Z) : option SIGALG_LOOKUP :=
  List.find (fun s => sigalg s =? alg) sigalg_lookup_tbl.

Definition tls_check_sigalg_curve (s : tls) (crv : Z) : bool :=
  let sigs := match conf_sigalgs (cert (conf s)) with
              | Some sigs => sigs
              | None => tls12_sigalgs
              end in
  existsb (fun alg => match tls1_lookup_sigalg alg with
                      | None => false
                      | Some lu => (sig lu == EVP_PKEY_EC) && negb (curve lu =? NID_undef)
                                   && (crv =? curve lu)
                      end) sigs.

(** ** Servers that can do TLS 1.3 *)

Definition tls_PKEY_DSA_SIGN : nat := 2.
Definition tls_PKEY_ECC : nat := 3.
Definition tls_PKEY_GOST01 : nat := 4.
Definition tls_PKEY_GOST12_256 : nat := 5.
Definition tls_PKEY_GOST12_512 : nat := 6.
Definition tls_PKEY_NUM : nat := 9.

Definition tls_has_cert (s : tls) (idx : nat) : bool :=
  if (tls_PKEY_NUM <=? idx)%nat then false
  else match pkeys (cert (conf s)) !! idx with
       | Some k => x509 k && privatekey k
       | None => false
       end.

(** The body of the loop over the certificate types: true returns 1. *)
Definition tls13_capable_cert (s : tls) (i : nat) : bool :=
  if (i =? tls_PKEY_DSA_SIGN)%nat || (i =? tls_PKEY_GOST01)%nat
     || (i =? tls_PKEY_GOST12_256)%nat || (i =? tls_PKEY_GOST12_512)%nat then false
  else if negb (tls_has_cert s i) then false
  else if negb (i =? tls_PKEY_ECC)%nat then true
  else match pkeys (cert (conf s)) !! tls_PKEY_ECC ≫= ec_curve with
       | None => false
       | Some crv => tls_check_sigalg_curve s crv
       end.

Definition is_tls13_capable (s : tls) : bool :=
  if psk_server_callback (conf s) then true
  else if psk_find_session_cb (conf s) || cert_cb (cert (conf s)) then true
  else existsb (tls13_capable_cert s) (seq 0 tls_PKEY_NUM).

(** ** Supported versions *)

Section Versions.
Context `{Callouts}.

(** The loop of [tls_version_supported]: it stops below the version. *)
Fixpoint version_supported_loop (s : tls) (version : Z) (table : list version_info)
  : option tls_METHOD :=
  match table with
  | [] => None
  | vent :: rest =>
      if negb (version_cmp s version (v_version vent) <=? 0) then None
      else match cmeth vent with
           | Some cm =>
               if (version_cmp s version (v_version vent) =? 0)
                  && (tls_method_error s cm =? 0)
                  && (negb (server s) || negb (version =? TLS1_3_VERSION) || is_tls13_capable s)
               then Some cm
               else version_supported_loop s version rest
           | None => version_supported_loop s version rest
           end
  end.

(** The truth value, and the method stored in [*meth], if any. *)
Definition tls_version_supported (s : tls) (version : Z) : bool * option tls_METHOD :=
  match table_of (method_version s) with
  | None => (version_cmp s version (TlsState.version s) =? 0, None)
  | Some table =>
      match version_supported_loop s version table with
      | Some cm => (true, Some cm)
      | None => (false, None)
      end
  end.

(** The loop of [tls_check_version_downgrade]. *)
Fixpoint highest_server_version (s : tls) (table : list version_info) : option Z :=
  match table with
  | [] => None
  | vent :: rest =>
      match smeth vent with
      | Some sm => if tls_method_error s sm =? 0 then Some (v_version vent)
                   else highest_server_version s rest
      | None => highest_server_version s rest
      end
  end.

Definition tls_check_version_downgrade (s : tls) : bool :=
  if version s =? ctx_method_version (conf s) then true
  else
    let check table :=
      match highest_server_version s table with
      | Some v => version s =? v
      | None => false
      end in
    if ctx_method_version (conf s) =? m_version TLS_method then check tls_version_table
    else if ctx_method_version (conf s) =? m_version DTLS_method then check dtls_version_table
    else false.

(** The truth value and the new value of [*bound]. *)
Definition tls_set_version_bound (method_version version bound : Z) : bool * Z :=
  if version =? 0 then (true, version)
  else if method_version =? TLS_ANY_VERSION then
    if (version <? tls3_VERSION) || (TLS_MAX_VERSION_INTERNAL <? version) then (false, bound)
    else (true, version)
  else if method_version =? DTLS_ANY_VERSION then
    if DTLS_VERSION_GT version DTLS_MAX_VERSION_INTERNAL || DTLS_VERSION_LT version DTLS1_BAD_VER
    then (false, bound)
    else (true, version)
  else (false, bound).

(** The variables of the loop of [tls_get_min_max_version]. *)
Record min_max := mk_min_max {
  mm_min : Z;
  mm_version : Z;
  mm_real_max : Z;
  mm_hole : bool;
  mm_tmp_real_max : Z
}.

(** One iteration, for the entry [vent]. *)
Definition min_max_step (s : tls) (a : min_max) (vent : version_info) : min_max :=
  match cmeth vent with
  | None => mk_min_max (mm_min a) (mm_version a) (mm_real_max a) true 0
  | Some method =>
      let tmp := if mm_hole a && (mm_tmp_real_max a =? 0) then v_version vent
                 else mm_tmp_real_max a in
      if negb (tls_method_error s method =? 0)
      then mk_min_max (mm_min a) (mm_version a) (mm_real_max a) true tmp
      else if negb (mm_hole a)
      then mk_min_max (m_version method) (mm_version a) (mm_real_max a) (mm_hole a) tmp
      else mk_min_max (m_version method) (m_version method)
             (if negb (tmp =? 0) then tmp else mm_real_max a) false tmp
  end.

(** The error code, the minimum, the maximum and [*real_max]; [want_real_max]
    says whether the caller asks for the last. *)
Definition tls_get_min_max_version (s : tls) (want_real_max : bool) : Z * Z * Z * Z :=
  match table_of (method_version s) with
  | None =>
      (if want_real_max then ERR_R_INTERNAL_ERROR else 0, version s, version s, 0)
  | Some table =>
      let a := fold_left (min_max_step s) table (mk_min_max 0 0 0 true 0) in
      (if mm_version a =? 0 then tls_R_NO_PROTOCOLS_AVAILABLE else 0,
       mm_min a, mm_version a, mm_real_max a)
  end.

End Versions.
