(* ===== verification/StatemLib.v ===== *)
(** * Functions shared by the client's and the server's state machines

    From [src/ssl/statem/statem_lib.c], [src/ssl/statem/statem.c] and
    [src/ssl/s3_lib.c]: setting up and finishing a handshake, reading a message
    from the record layer and framing one that is written. *)

From S2P Require Import Prelude Mem PQueue Packet Buffer WPacket TlsState Protocol.

(** ** Computations that can go wrong

    [UB] is undefined behaviour, [NoFuel] a loop cut short by its fuel. *)

Inductive comp (A : Type) : Type :=
| Ret (a : A)
| UB
| NoFuel.
Arguments Ret {A} a.
Arguments UB {A}.
Arguments NoFuel {A}.

#[export] Instance comp_bind : MBind comp := fun A B f c =>
  match c with Ret a => f a | UB => UB | NoFuel => NoFuel end.

(** The operations on memory blocks yield [None] for undefined behaviour. *)
Definition defined {A} (o : option A) : comp A :=
  match o with Some a => Ret a | None => UB end.

(** ** Maximum message lengths, [src/ssl/statem/statem_local.h] *)

Definition HELLO_VERIFY_REQUEST_MAX_LENGTH : Z := 258.
Definition END_OF_EARLY_DATA_MAX_LENGTH : Z := 0.
Definition SERVER_HELLO_MAX_LENGTH : Z := 20000.
Definition ENCRYPTED_EXTENSIONS_MAX_LENGTH : Z := 20000.
Definition SERVER_KEY_EXCH_MAX_LENGTH : Z := 102400.
Definition SERVER_HELLO_DONE_MAX_LENGTH : Z := 0.
Definition KEY_UPDATE_MAX_LENGTH : Z := 1.
Definition CCS_MAX_LENGTH : Z := 1.
Definition FINISHED_MAX_LENGTH : Z := 64.

(** ** State changes requested from outside of the state machine *)

Definition otls_statem_set_in_init (s : tls) (init : bool) : tls :=
  s <| statem .: in_init := init |>.

Definition otls_statem_set_renegotiate (s : tls) : tls :=
  s <| statem .: in_init := true |> <| statem .: request_state := TLS_ST_SW_HELLO_REQ |>.

Definition otls_statem_in_error (s : tls) : bool := state (statem s) == MSG_FLOW_ERROR.

Definition tls_in_init (s : tls) : bool := in_init (statem s).

Section Lib.
Context `{Callouts}.

Definition tls3_renegotiate_check (s : tls) (initok : bool) : bool * tls :=
  if s3_renegotiate (s3 s) then
    if negb (RECORD_LAYER_read_pending s) && negb (RECORD_LAYER_write_pending s)
       && (initok || negb (tls_in_init s))
    then
      let s := otls_statem_set_renegotiate s in
      (true, s <| s3 .: s3_renegotiate := false |>
               <| s3 ::= fun r => r <| num_renegotiations ::= fun n => n + 1 |>
                                    <| total_renegotiations ::= fun n => n + 1 |> |>)
    else (false, s)
  else (false, s).

Definition statem_flush (s : tls) : bool * tls :=
  let s := s <| rwstate := tls_WRITING |> in
  if BIO_flush s <=? 0 then (false, s) else (true, s <| rwstate := tls_NOTHING |>).

(** Is cipher [c] usable with the maximum version? *)
Definition cipher_in_range (s : tls) (ver_max : Z) (c : tls_CIPHER) : bool :=
  if tls_IS_DTLS s
  then DTLS_VERSION_GE ver_max (min_dtls c) && DTLS_VERSION_LE ver_max (max_dtls c)
  else (min_tls c <=? ver_max) && (ver_max <=? max_tls c).

(** The statistics counters touched. *)
Definition sess_accept : nat := 0.
Definition sess_accept_renegotiate : nat := 1.
Definition sess_connect : nat := 2.
Definition sess_connect_renegotiate : nat := 3.
Definition sess_accept_good : nat := 4.
Definition sess_hit : nat := 5.
Definition sess_connect_good : nat := 6.

Definition tls_setup_handshake (s : tls) : bool * tls :=
  let '(ok, s) := tls3_init_finished_mac s in
  if negb ok then (false, s)
  else
    let s := s <| ext ::= fun e => e <| extflags ::= map (fun _ => 0) |> |> in
    if server s then
      let '(ret, ver_min, ver_max, _) := tls_get_min_max_version s false in
      if negb (ret =? 0) then (false, tlsfatal s tls_AD_INTERNAL_ERROR)
      else if negb (existsb (cipher_in_range s ver_max) (tls_get_ciphers s))
      then (false, tlsfatal s tls_AD_HANDSHAKE_FAILURE)
      else if tls_IS_FIRST_HANDSHAKE s then (true, log s (C_count sess_accept))
      else
        let s := log s (C_count sess_accept_renegotiate) in
        (true, s <| s3 ::= fun r => r <| tmp .: cert_request := false |> |>)
    else
      let s := log s (C_count (if tls_IS_FIRST_HANDSHAKE s then sess_connect
                               else sess_connect_renegotiate)) in
      let s := s <| s3 ::= fun r => r <| client_random ::= map (fun _ => 0) |> |> in
      let s := s <| hit := false |> in
      let s := s <| s3 ::= fun r => r <| tmp .: cert_req := 0 |> |> in
      (true, if tls_IS_DTLS s then s <| statem .: use_timer := true |> else s).

Definition dtls1_clear_received_buffer (s : tls) : tls :=
  upd_d1 (fun d => d <| buffered_messages ::= fun q => PQueue.mk_pqueue [] (PQueue.count q) |>) s.

(** What is reset once a handshake with a Finished message is over. *)
Definition finish_cleanup (s : tls) : tls :=
  let s := s <| renegotiate := false |> <| new_session := false |>
             <| statem .: cleanuphand := false |> <| ext .: ticket_expected := false |> in
  let s := log s C_tls3_cleanup_key_block in
  let s :=
    if server s then
      let s := if negb (tls_IS_TLS13 s) then log s (C_tls_update_cache true) else s in
      (log s (C_count sess_accept_good)) <| handshake_func := Some true |>
    else
      let s :=
        if tls_IS_TLS13 s then
          if cache_client s then log s C_tls_CTX_remove_session else s
        else log s (C_tls_update_cache false) in
      let s := if hit s then log s (C_count sess_hit) else s in
      log (s <| handshake_func := Some false |>) (C_count sess_connect_good) in
  if tls_IS_DTLS s then
    dtls1_clear_received_buffer
      (upd_d1 (fun d => d <| handshake_read_seq := 0 |> <| handshake_write_seq := 0 |>
                          <| next_handshake_write_seq := 0 |>) s)
  else s.

(** The info callback of the connection or of its context, if there is one. *)
Definition call_info (s : tls) (where_ ret : Z) : tls :=
  if info_callback s then log s (C_info_callback where_ ret) else s.

Definition tls_finish_handshake (s : tls) (wst : WORK_STATE) (clearbufs stop : bool)
  : WORK_STATE * tls :=
  let cleanuphand' := cleanuphand (statem s) in
  let '(ok, s) :=
    if clearbufs then
      let s := if negb (tls_IS_DTLS s) then s <| init_buf := None |> else s in
      let '(ok, s) := tls_free_wbio_buffer s in
      if negb ok then (false, tlsfatal s tls_AD_INTERNAL_ERROR)
      else (true, s <| init_num := 0 |>)
    else (true, s) in
  if negb ok then (WORK_ERROR, s)
  else
    let s :=
      if tls_IS_TLS13 s && negb (server s) && (post_handshake_auth s == tls_PHA_REQUESTED)
      then s <| post_handshake_auth := tls_PHA_EXT_SENT |> else s in
    let s := if (cleanuphand' : bool) then finish_cleanup s else s in
    let s := otls_statem_set_in_init s false in
    let s :=
      if cleanuphand' || negb (tls_IS_TLS13 s) || tls_IS_FIRST_HANDSHAKE s
      then call_info s tls_CB_HANDSHAKE_DONE 1 else s in
    if negb stop then (WORK_FINISHED_CONTINUE, otls_statem_set_in_init s true)
    else (WORK_FINISHED_STOP, s).

(** ** Reading a message *)

Definition tls3_MT_CCS : Z := 1.
Definition tls3_RANDOM_SIZE : Z := 32.
Definition SERVER_HELLO_RANDOM_OFFSET : Z := tls3_HM_HEADER_LENGTH + 2.
Definition tls2_VERSION : Z := 2.

Definition hrrrandom : list Z :=
  [0xcf; 0x21; 0xad; 0x74; 0xe5; 0x9a; 0x61; 0x11; 0xbe; 0x1d; 0x8c; 0x02;
   0x1e; 0x65; 0xb8; 0x91; 0xc2; 0xa2; 0x11; 0x16; 0x7a; 0xbb; 0x8c; 0x5e;
   0x07; 0x9e; 0x09; 0xe2; 0xc8; 0xa8; 0x33; 0x9c].

(** [s->init_buf->data] *)
Definition init_data (s : tls) : option (list Z) := m ← init_buf s; buf_data m.

Definition set_init_data (s : tls) (blk : list Z) : tls :=
  s <| init_buf ::= option_map (fun m => m <| buf_data := Some blk |>) |>.

(** [tls_read_bytes] into [s->init_buf->data + off]: the result, the record type
    and the number of bytes read. *)
Definition read_into (s : tls) (type off len : Z) : comp (Z * Z * Z * tls) :=
  let '(i, recvd_type, bytes, s) := tls_read_bytes type len s in
  if i <=? 0 then Ret (i, recvd_type, 0, s)
  else
    blk ← defined (init_data s);
    blk' ← defined (wrn blk off bytes);
    Ret (i, recvd_type, zlen bytes, set_init_data s blk').

(** The packet being written is a view of [s->init_buf]. *)
Definition write_back (s : tls) (pkt : WPACKET) : tls :=
  match wp_buf pkt with Some m => s <| init_buf := Some m |> | None => s end.

Definition set_message (s : tls) (mt size : Z) : tls :=
  s <| s3 ::= fun r => r <| tmp .: message_type := mt |> <| tmp .: message_size := size |> |>.

(** The inner loop: reads until the header is complete.  [inl (ret, mt)] is a
    return from the function, [inr tt] the end of the loop. *)
Fixpoint read_header_loop (fuel : nat) (s : tls) : comp ((bool * Z + unit) * tls) :=
  if init_num s <? tls3_HM_HEADER_LENGTH then
    match fuel with
    | O => NoFuel
    | S fuel =>
        '(i, recvd_type, readbytes, s) ←
          read_into s tls3_RT_HANDSHAKE (init_num s) (tls3_HM_HEADER_LENGTH - init_num s);
        if i <=? 0 then Ret (inl (false, 0), s <| rwstate := tls_READING |>)
        else if recvd_type =? tls3_RT_CHANGE_CIPHER_SPEC then
          blk ← defined (init_data s);
          p0 ← defined (rd blk 0);
          if negb (init_num s =? 0) || negb (readbytes =? 1) || negb (p0 =? tls3_MT_CCS)
          then Ret (inl (false, 0), tlsfatal s tls3_AD_UNEXPECTED_MESSAGE)
          else if (hand_state (statem s) == TLS_ST_BEFORE)
                  && has_bits (flags (s3 s)) TLS1_FLAGS_STATELESS
          then Ret (inl (false, 0), s)
          else
            let s := set_message s tls3_MT_CHANGE_CIPHER_SPEC readbytes in
            Ret (inl (true, tls3_MT_CHANGE_CIPHER_SPEC),
                 s <| init_num := sz (readbytes - 1) |> <| init_msg := 0 |>)
        else if negb (recvd_type =? tls3_RT_HANDSHAKE)
        then Ret (inl (false, 0), tlsfatal s tls3_AD_UNEXPECTED_MESSAGE)
        else read_header_loop fuel (s <| init_num ::= fun n => sz (n + readbytes) |>)
    end
  else Ret (inr tt, s).

(** The outer loop: a client in a handshake skips HelloRequest messages. *)
Fixpoint skip_message_loop (fuel : nat) (s : tls) : comp ((bool * Z + unit) * tls) :=
  match fuel with
  | O => NoFuel
  | S fuel' =>
      '(r, s) ← read_header_loop fuel s;
      match r with
      | inl ret => Ret (inl ret, s)
      | inr _ =>
          blk ← defined (init_data s);
          p ← defined (rdn blk 0 tls3_HM_HEADER_LENGTH);
          if negb (server s) && (hand_state (statem s) != TLS_ST_OK)
             && bool_decide (p = [tls3_MT_HELLO_REQUEST; 0; 0; 0])
          then
            let s := s <| init_num := 0 |> in
            skip_message_loop fuel'
              (if msg_callback s then log s (C_msg_callback 0 tls3_RT_HANDSHAKE p) else s)
          else Ret (inr tt, s)
      end
  end.

(** The truth value and [*mt]. *)
Definition tls_get_message_header (fuel : nat) (s : tls) : comp (bool * Z * tls) :=
  '(r, s) ← skip_message_loop fuel s;
  match r with
  | inl (ret, mt) => Ret (ret, mt, s)
  | inr _ =>
      blk ← defined (init_data s);
      mt ← defined (rd blk 0);
      if RECORD_LAYER_is_tlsv2_record s then
        let l := sz (RECORD_LAYER_get_rrec_length s + tls3_HM_HEADER_LENGTH) in
        Ret (true, mt, (set_message s mt l) <| init_msg := 0 |>
                                            <| init_num := tls3_HM_HEADER_LENGTH |>)
      else
        p ← defined (rdn blk 1 3);
        let l := be_val p in
        let s := s <| s3 ::= fun r => r <| tmp .: message_type := mt |> |> in
        if INT_MAX - tls3_HM_HEADER_LENGTH <? l
        then Ret (false, mt, tlsfatal s tls_AD_ILLEGAL_PARAMETER)
        else
          Ret (true, mt, (set_message s mt l) <| init_msg := tls3_HM_HEADER_LENGTH |>
                                              <| init_num := 0 |>)
  end.

(** The loop of [tls_get_message_body]: reads [n] more bytes. *)
Fixpoint read_body_loop (fuel : nat) (s : tls) (n : Z) : comp (bool * tls) :=
  if 0 <? n then
    match fuel with
    | O => NoFuel
    | S fuel =>
        '(i, _, readbytes, s) ← read_into s tls3_RT_HANDSHAKE (init_msg s + init_num s) n;
        if i <=? 0 then Ret (false, s <| rwstate := tls_READING |>)
        else read_body_loop fuel (s <| init_num ::= fun k => sz (k + readbytes) |>)
               (sz (n - readbytes))
    end
  else Ret (true, s).

(** Should a message read go into the handshake hash? *)
Definition hash_message (s : tls) (data : list Z) : bool :=
  let mt := message_type (tmp (s3 s)) in
  (negb (tls_IS_TLS13 s)
   || (negb (mt =? tls3_MT_NEWSESSION_TICKET) && negb (mt =? tls3_MT_KEY_UPDATE)))
  && (negb (mt =? tls3_MT_SERVER_HELLO)
      || (init_num s <? SERVER_HELLO_RANDOM_OFFSET + tls3_RANDOM_SIZE)
      || negb (bool_decide (rdn data SERVER_HELLO_RANDOM_OFFSET tls3_RANDOM_SIZE = Some hrrrandom))).

(** The truth value and [*len]. *)
Definition tls_get_message_body (fuel : nat) (s : tls) : comp (bool * Z * tls) :=
  if message_type (tmp (s3 s)) =? tls3_MT_CHANGE_CIPHER_SPEC then Ret (true, init_num s, s)
  else
    '(ok, s) ← read_body_loop fuel s (sz (message_size (tmp (s3 s)) - init_num s));
    if negb ok then Ret (false, 0, s)
    else
      data ← defined (init_data s);
      d0 ← defined (rd data 0);
      let '(ok, s) := if d0 =? tls3_MT_FINISHED then tls3_take_mac s else (true, s) in
      if negb ok then Ret (false, 0, s)
      else if RECORD_LAYER_is_tlsv2_record s then
        bytes ← defined (rdn data 0 (init_num s));
        let '(ok, s) := tls3_finish_mac bytes s in
        if negb ok then Ret (false, 0, s)
        else
          let s := if msg_callback s then log s (C_msg_callback 0 0 bytes) else s in
          Ret (true, init_num s, s)
      else
        bytes ← defined (rdn data 0 (init_num s + tls3_HM_HEADER_LENGTH));
        let '(ok, s) :=
          if hash_message s data then tls3_finish_mac bytes s else (true, s) in
        if negb ok then Ret (false, 0, s)
        else
          let s := if msg_callback s
                   then log s (C_msg_callback 0 tls3_RT_HANDSHAKE bytes) else s in
          Ret (true, init_num s, s).

(** ** Framing and sending a message *)

Section Framing.
Context `{Malloc}.
Variable secure : Z -> option (list Z).

Definition tls3_set_handshake_header (pkt : WPACKET) (htype : Z) : option (bool * WPACKET) :=
  if htype =? tls3_MT_CHANGE_CIPHER_SPEC then Some (true, pkt)
  else
    '(ok, pkt) ← WPACKET_put_bytes__ secure pkt htype 1;
    if negb ok then Some (false, pkt) else WPACKET_start_sub_packet_len__ secure pkt 3.

Definition tls_close_construct_packet (s : tls) (pkt : WPACKET) (htype : Z)
  : option (bool * tls * WPACKET) :=
  '(ok, pkt) ← (if negb (htype =? tls3_MT_CHANGE_CIPHER_SPEC) then WPACKET_close pkt
                else Some (true, pkt));
  if negb ok then Some (false, s, pkt)
  else
    let '(ok, msglen) := WPACKET_get_length pkt 0 in
    if negb ok || (INT_MAX <? msglen) then Some (false, s, pkt)
    else Some (true, s <| init_num := msglen |> <| init_off := 0 |>, pkt).

End Framing.

(** 1, 0 (try again) or -1. *)
Definition tls3_do_write (s : tls) (type : Z) : comp (Z * tls) :=
  data ← defined (init_data s);
  bytes ← defined (rdn data (init_off s) (init_num s));
  let '(ret, written, s) := tls3_write_bytes type bytes s in
  if ret <? 0 then Ret (-1, s)
  else
    sent ← defined (rdn data (init_off s) written);
    let '(ok, s) :=
      if (type =? tls3_RT_HANDSHAKE)
         && (negb (tls_IS_TLS13 s)
             || ((hand_state (statem s) != TLS_ST_SW_SESSION_TICKET)
                 && (hand_state (statem s) != TLS_ST_CW_KEY_UPDATE)
                 && (hand_state (statem s) != TLS_ST_SW_KEY_UPDATE)))
      then tls3_finish_mac sent s else (true, s) in
    if negb ok then Ret (-1, s)
    else if written =? init_num s then
      all ← defined (rdn data 0 (init_off s + init_num s));
      Ret (1, if msg_callback s then log s (C_msg_callback 1 type all) else s)
    else
      Ret (0, s <| init_off ::= fun o => sz (o + written) |>
                <| init_num ::= fun n => sz (n - written) |>).

Definition tls3_handshake_write (s : tls) : comp (Z * tls) := tls3_do_write s tls3_RT_HANDSHAKE.

End Lib.
