(* ===== verification/Dtls.v ===== *)
(** * Reading the messages of a DTLS handshake

    The reading half of [src/ssl/statem/statem_dtls.c]: handshake messages arrive in
    fragments, out of order and more than once; [dtls1_reassemble_fragment] puts
    the fragments of a message together, with a bit for every byte received,
    [dtls1_process_out_of_seq_message] keeps messages that come early, and
    [dtls_get_message] returns the next message in sequence.  A fragment that is kept
    in the queue [s->d1->buffered_messages] is updated in its place there. *)

From S2P Require Import Prelude Mem PQueue Packet Buffer TlsState Protocol StatemLib.

(** ** Constants *)

Definition DTLS1_HM_HEADER_LENGTH : Z := 12.
Definition DTLS1_HM_BAD_FRAGMENT : Z := -2.
Definition DTLS1_HM_FRAGMENT_RETRY : Z := -3.
Definition tls3_RT_MAX_MD_SIZE : Z := 64.
Definition tls3_RT_MAX_COMPRESSED_OVERHEAD : Z := 1024.
Definition tls3_RT_MAX_ENCRYPTED_OVERHEAD : Z := 256 + tls3_RT_MAX_MD_SIZE.
(** With compression. *)
Definition tls3_RT_MAX_COMPRESSED_LENGTH : Z :=
  tls3_RT_MAX_PLAIN_LENGTH + tls3_RT_MAX_COMPRESSED_OVERHEAD.
Definition tls3_RT_MAX_ENCRYPTED_LENGTH : Z :=
  tls3_RT_MAX_ENCRYPTED_OVERHEAD + tls3_RT_MAX_COMPRESSED_LENGTH.
Definition sizeof_hm_fragment : Z := 104.

(** ** The bit mask of the bytes received *)

Definition bitmask_start_values : list Z := [0xff; 0xfe; 0xfc; 0xf8; 0xf0; 0xe0; 0xc0; 0x80].
Definition bitmask_end_values : list Z := [0xff; 0x01; 0x03; 0x07; 0x0f; 0x1f; 0x3f; 0x7f].

Definition RSMBLY_BITMASK_SIZE (msg_len : Z) : Z := sz (msg_len + 7) / 8.

(** [bitmask[i] |= v] *)
Definition or_byte (bitmask : list Z) (i v : Z) : option (list Z) :=
  b ← rd bitmask i; wr bitmask i (Z.lor b v).

(** The loop that marks single bits: [n] are left, [ii] is the next. *)
Fixpoint mark_bits (n : nat) (ii : Z) (bitmask : list Z) : option (list Z) :=
  match n with
  | O => Some bitmask
  | S n =>
      bitmask ← or_byte bitmask (Z.shiftr ii 3) (u8 (Z.shiftl 1 (Z.land ii 7)));
      mark_bits n (ii + 1) bitmask
  end.

(** The loop that fills whole bytes. *)
Fixpoint mark_bytes (n : nat) (ii : Z) (bitmask : list Z) : option (list Z) :=
  match n with
  | O => Some bitmask
  | S n => bitmask ← wr bitmask ii 0xff; mark_bytes n (ii + 1) bitmask
  end.

Definition RSMBLY_BITMASK_MARK (bitmask : list Z) (start end_ : Z) : option (list Z) :=
  if end_ - start <=? 8 then mark_bits (Z.to_nat (end_ - start)) start bitmask
  else
    v ← rd bitmask_start_values (Z.land start 7);
    bitmask ← or_byte bitmask (Z.shiftr start 3) v;
    bitmask ← mark_bytes (Z.to_nat (Z.shiftr (end_ - 1) 3 - (Z.shiftr start 3 + 1)))
                (Z.shiftr start 3 + 1) bitmask;
    v ← rd bitmask_end_values (Z.land end_ 7);
    or_byte bitmask (Z.shiftr (end_ - 1) 3) v.

(** The loop down over the full bytes: [n] are left, the next is the one at [n - 1]. *)
Fixpoint all_full (n : nat) (bitmask : list Z) : option bool :=
  match n with
  | O => Some true
  | S n => b ← rd bitmask (Z.of_nat n); if b =? 0xff then all_full n bitmask else Some false
  end.

Definition RSMBLY_BITMASK_IS_COMPLETE (bitmask : list Z) (msg_len : Z) : option bool :=
  b ← rd bitmask (Z.shiftr (msg_len - 1) 3);
  v ← rd bitmask_end_values (Z.land msg_len 7);
  if negb (b =? v) then Some false
  else all_full (Z.to_nat (Z.shiftr (msg_len - 1) 3)) bitmask.

(** ** Fragments *)

(** The header is set by the callers. *)
Definition dtls1_hm_fragment_new `{Malloc} (frag_len : Z) (reassembly : bool) : option hm_fragment :=
  match CRYPTO_malloc sizeof_hm_fragment with
  | None => None
  | Some _ =>
      buf ← (if frag_len =? 0 then Some None
             else match CRYPTO_malloc frag_len with Some b => Some (Some b) | None => None end);
      bitmask ← (if reassembly
                 then match CRYPTO_zalloc (RSMBLY_BITMASK_SIZE frag_len) with
                      | Some b => Some (Some b) | None => None end
                 else Some None);
      Some (mk_hm_fragment zero_header buf bitmask)
  end.

(** The fields of a header on the wire, big-endian. *)
Definition dtls1_get_message_header (data : list Z) : option hm_header :=
  type ← rd data 0; msg_len ← rdn data 1 3; seq ← rdn data 4 2;
  frag_off ← rdn data 6 3; frag_len ← rdn data 9 3;
  Some (mk_hm_header type (be_val msg_len) (be_val seq) (be_val frag_off) (be_val frag_len)
          false no_state).

Definition dtls1_get_queue_priority (seq : Z) (is_ccs : Z) : Z := seq * 2 - is_ccs.

Definition dtls1_max_handshake_message_len (s : tls) : Z :=
  let max_len := DTLS1_HM_HEADER_LENGTH + tls3_RT_MAX_ENCRYPTED_LENGTH in
  if max_len <? max_cert_list s then max_cert_list s else max_len.

(** The key of a message in the queue. *)
Definition seq64be (seq : Z) : list Z :=
  [0; 0; 0; 0; 0; 0; u8 (Z.shiftr seq 8); u8 seq].

(** Writing through the pointer to a fragment that the queue holds. *)
Definition set_fragment (prio : list Z) (frag : hm_fragment) : tls -> tls :=
  upd_d1 (fun d => d <| buffered_messages ::= fun q =>
    mk_pqueue (map (fun it => if bool_decide (priority it = prio) then mk_pitem prio frag else it) (items q))
      (count q) |>).

Definition insert_fragment (q : pqueue) : tls -> tls :=
  upd_d1 (fun d => d <| buffered_messages := q |>).

Section Reading.
Context `{Callouts} `{Malloc}.
Context (secure : Z -> option (list Z)).

(** The loop that reads [frag_len] bytes and throws them away.  The fuel is
    enough when every successful read yields something. *)
Fixpoint skip_loop (fuel : nat) (frag_len : Z) (s : tls) : comp (bool * tls) :=
  if frag_len =? 0 then Ret (true, s)
  else match fuel with
       | O => NoFuel
       | S fuel =>
           let '(i, _, bytes, s) :=
             tls_read_bytes tls3_RT_HANDSHAKE (if 256 <? frag_len then 256 else frag_len) s in
           if i <=? 0 then Ret (false, s) else skip_loop fuel (sz (frag_len - zlen bytes)) s
       end.

Definition dtls1_preprocess_fragment (s : tls) (msg_hdr : hm_header) : option (bool * tls) :=
  let msg_len := hm_msg_len msg_hdr in
  if (msg_len <? sz (hm_frag_off msg_hdr + hm_frag_len msg_hdr))
     || (dtls1_max_handshake_message_len s <? msg_len)
  then Some (false, tlsfatal s tls_AD_ILLEGAL_PARAMETER)
  else if hm_frag_off (r_msg_hdr (d1 (conf s))) =? 0 then
    m ← init_buf s;
    '(r, m) ← BUF_MEM_grow_clean secure m (sz (msg_len + DTLS1_HM_HEADER_LENGTH));
    let s := s <| init_buf := Some m |> in
    if r =? 0 then Some (false, tlsfatal s tls_AD_INTERNAL_ERROR)
    else
      let s := set_message s (hm_type msg_hdr) msg_len in
      Some (true, upd_d1 (fun d => d <| r_msg_hdr ::= fun r =>
        r <| hm_msg_len := msg_len |> <| hm_type := hm_type msg_hdr |> <| hm_seq := hm_seq msg_hdr |> |>) s)
  else if negb (msg_len =? hm_msg_len (r_msg_hdr (d1 (conf s))))
  then Some (false, tlsfatal s tls_AD_ILLEGAL_PARAMETER)
  else Some (true, s).

(** The loop that drops stale messages from the head of the queue. *)
Fixpoint drop_stale (l : list (@pitem hm_fragment)) (read_seq : Z) : list (@pitem hm_fragment) :=
  match l with
  | [] => []
  | it :: rest => if hm_seq (msg_header (data it)) <? read_seq then drop_stale rest read_seq else l
  end.

(** 1, 0 or -1, the length if it is 1, and the connection. *)
Definition dtls1_retrieve_buffered_fragment (s : tls) : option (Z * Z * tls) :=
  let read_seq := handshake_read_seq (d1 (conf s)) in
  let q := buffered_messages (d1 (conf s)) in
  let l := drop_stale (items q) read_seq in
  let s := insert_fragment (mk_pqueue l (count q)) s in
  match l with
  | [] => Some (0, 0, s)
  | item :: rest =>
      let frag := data item in
      let hdr := msg_header frag in
      match reassembly frag with
      | Some _ => Some (0, 0, s)
      | None =>
          if read_seq =? hm_seq hdr then
            let s := insert_fragment (mk_pqueue rest (count q)) s in
            '(ret, s) ← dtls1_preprocess_fragment s hdr;
            s ← (if (ret : bool) && (0 <? hm_frag_len hdr) then
                   src ← fragment frag; bytes ← rdn src 0 (hm_frag_len hdr);
                   blk ← init_data s;
                   blk ← wrn blk (DTLS1_HM_HEADER_LENGTH + hm_frag_off hdr) bytes;
                   Some (set_init_data s blk)
                 else Some s);
            if (ret : bool) then Some (1, hm_frag_len hdr, s) else Some (-1, 0, s <| init_num := 0 |>)
          else Some (0, 0, s)
      end
  end.

(** The fragment that [msg_hdr] belongs to, new ones with its header. *)
Definition fragment_for (msg_hdr : hm_header) : option hm_fragment :=
  frag ← dtls1_hm_fragment_new (hm_msg_len msg_hdr) true;
  Some (frag <| msg_header := msg_hdr <| hm_frag_len := hm_msg_len msg_hdr |> <| hm_frag_off := 0 |> |>).

(** The result is [DTLS1_HM_FRAGMENT_RETRY] or -1. *)
Definition dtls1_reassemble_fragment (s : tls) (msg_hdr : hm_header) : comp (Z * tls) :=
  let frag_len := hm_frag_len msg_hdr in
  if (hm_msg_len msg_hdr <? sz (hm_frag_off msg_hdr + frag_len))
     || (dtls1_max_handshake_message_len s <? hm_msg_len msg_hdr) then Ret (-1, s)
  else if frag_len =? 0 then Ret (DTLS1_HM_FRAGMENT_RETRY, s)
  else
    let prio := seq64be (hm_seq msg_hdr) in
    item ← defined (pqueue_find (buffered_messages (d1 (conf s))) prio);
    match (match item with
           | None => fragment_for msg_hdr
           | Some it => if hm_msg_len (msg_header (data it)) =? hm_msg_len msg_hdr
                        then Some (data it) else None
           end) with
    | None => Ret (-1, s)
    | Some frag =>
        match reassembly frag with
        | None =>
            '(ok, s) ← skip_loop (Z.to_nat frag_len) frag_len s;
            Ret (if (ok : bool) then DTLS1_HM_FRAGMENT_RETRY else -1, s)
        | Some bitmask =>
            let '(i, _, bytes, s) := tls_read_bytes tls3_RT_HANDSHAKE frag_len s in
            if i <=? 0 then Ret (-1, s)
            else
              blk ← defined (fragment frag);
              blk ← defined (wrn blk (hm_frag_off msg_hdr) bytes);
              let frag := frag <| fragment := Some blk |> in
              let stored f s := match item with Some _ => set_fragment prio f s | None => s end in
              if negb (zlen bytes =? frag_len) then Ret (-1, stored frag s)
              else
                bitmask ← defined (RSMBLY_BITMASK_MARK bitmask (hm_frag_off msg_hdr)
                                     (hm_frag_off msg_hdr + frag_len));
                let frag := frag <| reassembly := Some bitmask |> in
                if negb (0 <? hm_msg_len msg_hdr) then Ret (-1, stored frag s)
                else
                  is_complete ← defined (RSMBLY_BITMASK_IS_COMPLETE bitmask (hm_msg_len msg_hdr));
                  let frag := if (is_complete : bool) then frag <| reassembly := None |> else frag in
                  match item with
                  | Some _ => Ret (DTLS1_HM_FRAGMENT_RETRY, set_fragment prio frag s)
                  | None =>
                      it ← defined (pitem_new prio frag);
                      match it with
                      | None => Ret (-1, s)
                      | Some it =>
                          '(r, q) ← defined (pqueue_insert (buffered_messages (d1 (conf s))) it);
                          let s := insert_fragment q s in
                          Ret (match r with Some _ => DTLS1_HM_FRAGMENT_RETRY | None => -1 end, s)
                      end
                  end
        end
    end.

(** The result is [DTLS1_HM_FRAGMENT_RETRY], 0 or that of [dtls1_reassemble_fragment]. *)
Definition dtls1_process_out_of_seq_message (s : tls) (msg_hdr : hm_header) : comp (Z * tls) :=
  let frag_len := hm_frag_len msg_hdr in
  let read_seq := handshake_read_seq (d1 (conf s)) in
  if hm_msg_len msg_hdr <? sz (hm_frag_off msg_hdr + frag_len) then Ret (0, s)
  else
    let prio := seq64be (hm_seq msg_hdr) in
    item ← defined (pqueue_find (buffered_messages (d1 (conf s))) prio);
    let item := if negb (frag_len =? hm_msg_len msg_hdr) then None else item in
    if (hm_seq msg_hdr <=? read_seq) || (read_seq + 10 <? hm_seq msg_hdr)
       || (match item with Some _ => true | None => false end)
       || ((read_seq =? 0) && (hm_type msg_hdr =? tls3_MT_FINISHED))
    then
      '(ok, s) ← skip_loop (Z.to_nat frag_len) frag_len s;
      Ret (if (ok : bool) then DTLS1_HM_FRAGMENT_RETRY else 0, s)
    else if negb (frag_len =? hm_msg_len msg_hdr) then dtls1_reassemble_fragment s msg_hdr
    else if dtls1_max_handshake_message_len s <? frag_len then Ret (0, s)
    else
      match dtls1_hm_fragment_new frag_len false with
      | None => Ret (0, s)
      | Some frag =>
          let frag := frag <| msg_header := msg_hdr |> in
          '(ok, frag, s) ←
            (if frag_len =? 0 then Ret (true, frag, s)
             else
               let '(i, _, bytes, s) := tls_read_bytes tls3_RT_HANDSHAKE frag_len s in
               if i <=? 0 then Ret (false, frag, s)
               else
                 blk ← defined (fragment frag);
                 blk ← defined (wrn blk 0 bytes);
                 Ret (zlen bytes =? frag_len, frag <| fragment := Some blk |>, s));
          if negb ok then Ret (0, s)
          else
            it ← defined (pitem_new prio frag);
            match it with
            | None => Ret (0, s)
            | Some it =>
                '(r, q) ← defined (pqueue_insert (buffered_messages (d1 (conf s))) it);
                let s := insert_fragment q s in
                Ret (match r with Some _ => DTLS1_HM_FRAGMENT_RETRY | None => 0 end, s)
            end
      end.

(** The truth value, [*errtype], [*len] and the connection; [*len] is 0 where the C
    function does not set it and its caller does not look at it. *)
Fixpoint dtls_get_reassembled_message (fuel : nat) (s : tls) : comp (bool * Z * Z * tls) :=
  match fuel with
  | O => NoFuel
  | S fuel =>
      let f_err s := Ret (false, 0, 0, s <| init_num := 0 |>) in
      '(ret, frag_len, s) ← defined (dtls1_retrieve_buffered_fragment s);
      if ret <? 0 then Ret (false, 0, 0, s)
      else if 0 <? ret then Ret (true, 0, frag_len, s <| init_num := frag_len |>)
      else
        let '(i, recvd_type, wire, s) := tls_read_bytes tls3_RT_HANDSHAKE DTLS1_HM_HEADER_LENGTH s in
        if i <=? 0 then Ret (false, 0, 0, s <| rwstate := tls_READING |>)
        else if recvd_type =? tls3_RT_CHANGE_CIPHER_SPEC then
          b ← defined (rd wire 0);
          if negb (b =? tls3_MT_CCS) then f_err (tlsfatal s tls3_AD_UNEXPECTED_MESSAGE)
          else
            blk ← defined (init_data s);
            blk ← defined (wrn blk 0 wire);
            let n := zlen wire - 1 in
            let s := (set_init_data s blk) <| init_num := n |> <| init_msg := 1 |> in
            Ret (true, 0, n, set_message s tls3_MT_CHANGE_CIPHER_SPEC n)
        else if negb (zlen wire =? DTLS1_HM_HEADER_LENGTH)
        then f_err (tlsfatal s tls3_AD_UNEXPECTED_MESSAGE)
        else
          msg_hdr ← defined (dtls1_get_message_header wire);
          let frag_len := hm_frag_len msg_hdr in
          if RECORD_LAYER_get_rrec_length s <? frag_len then f_err (tlsfatal s tls_AD_ILLEGAL_PARAMETER)
          else if negb (hm_seq msg_hdr =? handshake_read_seq (d1 (conf s))) then
            '(errtype, s) ← dtls1_process_out_of_seq_message s msg_hdr;
            Ret (false, errtype, 0, s)
          else if negb (frag_len =? 0) && (frag_len <? hm_msg_len msg_hdr) then
            '(errtype, s) ← dtls1_reassemble_fragment s msg_hdr;
            Ret (false, errtype, 0, s)
          else
            b0 ← defined (rd wire 0);
            if negb (server s) && (hm_frag_off (r_msg_hdr (d1 (conf s))) =? 0)
               && (hand_state (statem s) != TLS_ST_OK) && (b0 =? tls3_MT_HELLO_REQUEST)
            then
              body ← defined (rdn wire 1 3);
              if bool_decide (body = [0; 0; 0]) then
                let s := if msg_callback s
                         then log s (C_msg_callback 0 tls3_RT_HANDSHAKE wire) else s in
                dtls_get_reassembled_message fuel (s <| init_num := 0 |>)
              else f_err (tlsfatal s tls3_AD_UNEXPECTED_MESSAGE)
            else
              '(ok, s) ← defined (dtls1_preprocess_fragment s msg_hdr);
              if negb ok then f_err s
              else
                '(i, readbytes, s) ←
                  (if 0 <? frag_len then
                     let '(i, _, bytes, s) := tls_read_bytes tls3_RT_HANDSHAKE frag_len s in
                     if i <=? 0 then Ret (i, 0, s)
                     else
                       blk ← defined (init_data s);
                       blk ← defined (wrn blk (DTLS1_HM_HEADER_LENGTH + hm_frag_off msg_hdr) bytes);
                       Ret (i, zlen bytes, set_init_data s blk)
                   else Ret (1, 0, s));
                if i <=? 0 then Ret (false, 0, 0, s <| rwstate := tls_READING |>)
                else if negb (readbytes =? frag_len) then f_err (tlsfatal s tls_AD_ILLEGAL_PARAMETER)
                else Ret (true, 0, frag_len, s <| init_num := frag_len |>)
  end.

(** The message header, reconstructed. *)
Definition header_bytes (hdr : hm_header) (frag_off frag_len : Z) : list Z :=
  u8 (hm_type hdr) :: be_bytes 3 (hm_msg_len hdr) ++ be_bytes 2 (hm_seq hdr)
  ++ be_bytes 3 frag_off ++ be_bytes 3 frag_len.

(** What is done with a message that is complete. *)
Definition dtls_message_complete (s : tls) : comp (bool * Z * Z * tls) :=
  let len := init_num s in
  let mt := message_type (tmp (s3 s)) in
  if mt =? tls3_MT_CHANGE_CIPHER_SPEC then
    blk ← defined (init_data s);
    b ← defined (rdn blk 0 1);
    let s := if msg_callback s then log s (C_msg_callback 0 tls3_RT_CHANGE_CIPHER_SPEC b) else s in
    Ret (true, mt, len, s)
  else
    let hdr := r_msg_hdr (d1 (conf s)) in
    let msg_len := hm_msg_len hdr in
    blk ← defined (init_data s);
    blk ← defined (wrn blk 0 (header_bytes hdr 0 msg_len));
    let s := set_init_data s blk in
    let '(p, msg_len) := if negb (version s =? DTLS1_BAD_VER)
                         then (0, msg_len + DTLS1_HM_HEADER_LENGTH)
                         else (DTLS1_HM_HEADER_LENGTH, msg_len) in
    let '(ok, s) := if mt =? tls3_MT_FINISHED then tls3_take_mac s else (true, s) in
    if negb ok then Ret (false, mt, len, s)
    else
      blk ← defined (init_data s);
      bytes ← defined (rdn blk p msg_len);
      let '(ok, s) := tls3_finish_mac bytes s in
      if negb ok then Ret (false, mt, len, s)
      else
        let s := if msg_callback s then log s (C_msg_callback 0 tls3_RT_HANDSHAKE bytes) else s in
        let s := upd_d1 (fun d => d <| r_msg_hdr := zero_header |>
                                    <| handshake_read_seq ::= fun n => u16 (n + 1) |>) s in
        Ret (true, mt, len, s <| init_msg := DTLS1_HM_HEADER_LENGTH |>).

(** The truth value, [*mt], [*len] and the connection.  Fuel for as many fragments
    and hello requests. *)
Fixpoint again_loop (fuel : nat) (s : tls) : comp (bool * Z * Z * tls) :=
  match fuel with
  | O => NoFuel
  | S n =>
      '(ok, errtype, _, s) ← dtls_get_reassembled_message fuel s;
      if negb ok then
        if (errtype =? DTLS1_HM_BAD_FRAGMENT) || (errtype =? DTLS1_HM_FRAGMENT_RETRY)
        then again_loop n s
        else Ret (false, 0, 0, s)
      else dtls_message_complete s
  end.

Definition dtls_get_message (fuel : nat) (s : tls) : comp (bool * Z * Z * tls) :=
  again_loop fuel (upd_d1 (fun d => d <| r_msg_hdr := zero_header |>) s).

End Reading.
