(* ===== verification/DtlsWrite.v ===== *)
(** * Writing the messages of a DTLS handshake, and the retransmission timer

    The writing half of [src/ssl/statem/statem_dtls.c] and the timer of
    [src/ssl/d1_lib.c]: [dtls1_do_write] sends the message in [s->init_buf] in
    fragments that fit into a datagram; a message that is constructed is kept in
    [s->d1->sent_messages] and sent again by [dtls1_handle_timeout] until the
    timer is stopped. *)

From S2P Require Import Prelude Mem PQueue Packet Buffer WPacket Wire TlsState Protocol StatemLib Dtls.

Definition DTLS1_RT_HEADER_LENGTH : Z := 13.
Definition DTLS1_CCS_HEADER_LENGTH : Z := 1.
Definition DTLS1_TMO_READ_COUNT : Z := 2.
Definition DTLS1_TMO_ALERT_COUNT : Z := 12.
Definition tls_OP_NO_QUERY_MTU : Z := 0x00001000.
Definition g_probable_mtu : list Z := [1500; 512; 256].

(** ** Message headers *)

Definition dtls1_set_message_header_int (s : tls) (mt len seq_num frag_off frag_len : Z) : tls :=
  upd_d1 (fun d => d <| w_msg_hdr ::= fun h =>
    h <| hm_type := mt |> <| hm_msg_len := len |> <| hm_seq := seq_num |>
      <| hm_frag_off := frag_off |> <| hm_frag_len := frag_len |> |>) s.

Definition dtls1_set_message_header (s : tls) (mt len frag_off frag_len : Z) : tls :=
  let s := if frag_off =? 0
           then upd_d1 (fun d => d <| handshake_write_seq := next_handshake_write_seq d |>
                                   <| next_handshake_write_seq ::= fun n => u16 (n + 1) |>) s
           else s in
  dtls1_set_message_header_int s mt len (handshake_write_seq (d1 (conf s))) frag_off frag_len.

Definition dtls1_fix_message_header (s : tls) (frag_off frag_len : Z) : tls :=
  upd_d1 (fun d => d <| w_msg_hdr ::= fun h =>
    h <| hm_frag_off := frag_off |> <| hm_frag_len := frag_len |> |>) s.

(** At offset [p] of [s->init_buf->data]. *)
Definition dtls1_write_message_header (s : tls) (p : Z) : option tls :=
  let h := w_msg_hdr (d1 (conf s)) in
  blk ← init_data s;
  blk ← wrn blk p (header_bytes h (hm_frag_off h) (hm_frag_len h));
  Some (set_init_data s blk).

Definition dtls1_clear_sent_buffer (s : tls) : tls :=
  upd_d1 (fun d => d <| sent_messages ::= fun q => mk_pqueue [] (count q) |>) s.

Section Writing.
Context `{Callouts} `{Malloc}.

(** ** The size of a datagram *)

Definition dtls1_link_min_mtu : Z := nth (length g_probable_mtu - 1) g_probable_mtu 0.

Definition dtls1_min_mtu (s : tls) : Z := sz (dtls1_link_min_mtu - BIO_dgram_get_mtu_overhead s).

Definition dtls1_query_mtu (s : tls) : bool * tls :=
  let s := if truth (link_mtu (d1 (conf s)))
           then upd_d1 (fun d => d <| mtu := sz (link_mtu d - BIO_dgram_get_mtu_overhead s) |>
                                   <| link_mtu := 0 |>) s
           else s in
  if mtu (d1 (conf s)) <? dtls1_min_mtu s then
    if negb (has_bits (options s) tls_OP_NO_QUERY_MTU) then
      let s := upd_d1 (fun d => d <| mtu := sz (BIO_dgram_query_mtu s) |>) s in
      if mtu (d1 (conf s)) <? dtls1_min_mtu s then
        let s := upd_d1 (fun d => d <| mtu := dtls1_min_mtu s |>) s in
        (true, log s (C_BIO_set_mtu (mtu (d1 (conf s)))))
      else (true, s)
    else (false, s)
  else (true, s).

(** ** Writing a message *)

Definition mac_size (s : tls) : Z :=
  if truth (write_hash (conf s)) then
    if truth (enc_write_ctx (conf s)) && EVP_CIPHER_is_aead (enc_write_ctx (conf s)) then 0
    else EVP_MD_CTX_size (write_hash (conf s))
  else 0.

Definition blocksize (s : tls) : Z :=
  if truth (enc_write_ctx (conf s)) && EVP_CIPHER_is_cbc (enc_write_ctx (conf s))
  then 2 * EVP_CIPHER_CTX_block_size (enc_write_ctx (conf s)) else 0.

(** Making room for the header of a fragment other than the first: whether that is
    possible, and the fragment's offset. *)
Definition next_fragment (type frag_off : Z) (s : tls) : bool * Z * tls :=
  if (type =? tls3_RT_HANDSHAKE) && negb (init_off s =? 0) then
    if 0 <? frag_off then
      if init_off s <=? DTLS1_HM_HEADER_LENGTH then (false, frag_off, s)
      else (true, frag_off, s <| init_off ::= fun n => sz (n - DTLS1_HM_HEADER_LENGTH) |>
                              <| init_num ::= fun n => sz (n + DTLS1_HM_HEADER_LENGTH) |>)
    else (true, hm_frag_off (w_msg_hdr (d1 (conf s))), s)
  else (true, frag_off, s).

(** The room left in the datagram, after flushing it if need be, or what to return. *)
Definition room_for (overhead : Z) (s : tls) : (Z * tls) + Z :=
  let used_len := sz (BIO_wpending s + DTLS1_RT_HEADER_LENGTH + overhead) in
  let m := mtu (d1 (conf s)) in
  let curr_mtu := if used_len <? m then m - used_len else 0 in
  if curr_mtu <=? DTLS1_HM_HEADER_LENGTH then
    let ret := BIO_flush s in
    if ret <=? 0 then inl (ret, s <| rwstate := tls_WRITING |>)
    else
      let used_len := sz (DTLS1_RT_HEADER_LENGTH + overhead) in
      if sz (used_len + DTLS1_HM_HEADER_LENGTH) <? m then inr (m - used_len) else inl (-1, s)
  else inr curr_mtu.

(** A fragment that was written is hashed, the first one with the header of a
    message that is not fragmented. *)
Definition hash_fragment (frag_off written : Z) (s : tls) : comp (bool * tls) :=
  let h := w_msg_hdr (d1 (conf s)) in
  let p := init_off s in
  '(s, p, xlen) ←
    (if (frag_off =? 0) && negb (version s =? DTLS1_BAD_VER) then
       blk ← defined (init_data s);
       blk ← defined (wrn blk p (header_bytes h 0 (hm_msg_len h)));
       Ret (set_init_data s blk, p, written)
     else Ret (s, p + DTLS1_HM_HEADER_LENGTH, sz (written - DTLS1_HM_HEADER_LENGTH)));
  blk ← defined (init_data s);
  bytes ← defined (rdn blk p xlen);
  Ret (tls3_finish_mac bytes s).

(** What is done after a fragment of [written] bytes; true when it was the last one. *)
Definition fragment_written (type frag_off written : Z) (s : tls) : comp (option (Z * tls) * Z * tls) :=
  '(ok, s) ← (if (type =? tls3_RT_HANDSHAKE) && negb (retransmitting (d1 (conf s)))
              then hash_fragment frag_off written s else Ret (true, s));
  if negb ok then Ret (Some (-1, s), frag_off, s)
  else if written =? init_num s then
    s ← (if msg_callback s then
           blk ← defined (init_data s);
           bytes ← defined (rdn blk 0 (sz (init_off s + init_num s)));
           Ret (log s (C_msg_callback 1 type bytes))
         else Ret s);
    let s := s <| init_off := 0 |> <| init_num := 0 |> in
    Ret (Some (1, s), frag_off, s)
  else
    let s := s <| init_off ::= fun n => sz (n + written) |>
               <| init_num ::= fun n => sz (n - written) |> in
    let frag_off := sz (frag_off + sz (written - DTLS1_HM_HEADER_LENGTH)) in
    Ret (None, frag_off, dtls1_fix_message_header s frag_off 0).

(** The loop of [dtls1_do_write]; every round but one writes something. *)
Fixpoint write_loop (fuel : nat) (type overhead : Z) (retry : bool) (frag_off : Z) (s : tls)
  : comp (Z * tls) :=
  if init_num s <=? 0 then Ret (0, s)
  else match fuel with
  | O => NoFuel
  | S fuel =>
      let '(ok, frag_off, s) := next_fragment type frag_off s in
      if negb ok then Ret (-1, s)
      else match room_for overhead s with
      | inl r => Ret r
      | inr curr_mtu =>
          let len := if curr_mtu <? u32 (init_num s) then curr_mtu else init_num s in
          let len := if max_send_fragment (conf s) <? len then max_send_fragment (conf s) else len in
          if (type =? tls3_RT_HANDSHAKE) && (len <? DTLS1_HM_HEADER_LENGTH) then Ret (-1, s)
          else
            s ← (if type =? tls3_RT_HANDSHAKE
                 then defined (dtls1_write_message_header
                        (dtls1_fix_message_header s frag_off (len - DTLS1_HM_HEADER_LENGTH)) (init_off s))
                 else Ret s);
            blk ← defined (init_data s);
            bytes ← defined (rdn blk (init_off s) len);
            let '(ret, written, s) := dtls1_write_bytes type bytes s in
            if ret <? 0 then
              if retry && BIO_dgram_mtu_exceeded s
                 && negb (has_bits (options s) tls_OP_NO_QUERY_MTU)
              then
                let '(ok, s) := dtls1_query_mtu s in
                if negb ok then Ret (-1, s) else write_loop fuel type overhead false frag_off s
              else Ret (-1, s)
            else if negb (len =? written) then Ret (-1, s)
            else
              '(fin, frag_off, s) ← fragment_written type frag_off written s;
              match fin with
              | Some r => Ret r
              | None => write_loop fuel type overhead retry frag_off s
              end
      end
  end.

(** Fuel for a fragment for every byte. *)
Definition dtls1_do_write (type : Z) (s : tls) : comp (Z * tls) :=
  let '(ok, s) := dtls1_query_mtu s in
  if negb ok then Ret (-1, s)
  else if mtu (d1 (conf s)) <? dtls1_min_mtu s then Ret (-1, s)
  else if (init_off s =? 0) && (type =? tls3_RT_HANDSHAKE)
          && negb (init_num s =? sz (hm_msg_len (w_msg_hdr (d1 (conf s))) + DTLS1_HM_HEADER_LENGTH))
  then Ret (-1, s)
  else write_loop (Z.to_nat (init_num s) + 32) type (mac_size s + blocksize s) true 0
         (s <| rwstate := tls_NOTHING |>).

(** ** Messages kept for retransmission *)

Definition dtls1_buffer_message (s : tls) (is_ccs : bool) : option (bool * tls) :=
  if negb (init_off s =? 0) then Some (false, s)
  else
    match dtls1_hm_fragment_new (init_num s) false with
    | None => Some (false, s)
    | Some frag =>
        blk ← init_data s;
        bytes ← rdn blk 0 (init_num s);
        fragment' ← (match fragment frag with
                     | None => if init_num s =? 0 then Some None else None
                     | Some b => b ← wrn b 0 bytes; Some (Some b)
                     end);
        let h := w_msg_hdr (d1 (conf s)) in
        let header_len := if is_ccs then (if version s =? DTLS1_BAD_VER then 3 else DTLS1_CCS_HEADER_LENGTH)
                          else DTLS1_HM_HEADER_LENGTH in
        if negb (sz (hm_msg_len h + header_len) =? u32 (init_num s)) then Some (false, s)
        else
          let state := mk_retransmit_state (enc_write_ctx (conf s)) (write_hash (conf s)) (compress (conf s))
                         (Some (session s)) (DTLS_RECORD_LAYER_get_w_epoch s) in
          let hdr := mk_hm_header (hm_type h) (hm_msg_len h) (hm_seq h) 0 (hm_msg_len h) is_ccs state in
          let frag := mk_hm_fragment hdr fragment' (reassembly frag) in
          item ← pitem_new (seq64be (dtls1_get_queue_priority (hm_seq h) (Z.b2z is_ccs))) frag;
          match item with
          | None => Some (false, s)
          | Some item =>
              '(_, q) ← pqueue_insert (sent_messages (d1 (conf s))) item;
              Some (true, upd_d1 (fun d => d <| sent_messages := q |>) s)
          end
    end.

(** The state for writing: to put it back, and to save it. *)
Definition set_write_state (st : retransmit_state) (s : tls) : option tls :=
  sess ← saved_session st;
  let s := s <| conf ::= fun c => c <| enc_write_ctx := saved_enc_write_ctx st |>
                                    <| write_hash := saved_write_hash st |>
                                    <| compress := saved_compress st |> |>
             <| session := sess |> in
  Some (DTLS_RECORD_LAYER_set_saved_w_epoch (saved_epoch st) s).

Definition saved_write_state (s : tls) : retransmit_state :=
  mk_retransmit_state (enc_write_ctx (conf s)) (write_hash (conf s)) (compress (conf s))
    (Some (session s)) (DTLS_RECORD_LAYER_get_w_epoch s).

(** [seq] is an [unsigned short]; the result, [*found] and the connection. *)
Definition dtls1_retransmit_message (s : tls) (seq : Z) : comp (Z * bool * tls) :=
  item ← defined (pqueue_find (sent_messages (d1 (conf s))) (seq64be seq));
  match item with
  | None => Ret (0, false, tlsfatal s tls_AD_INTERNAL_ERROR)
  | Some item =>
      let frag := data item in
      let h := msg_header frag in
      let header_length := if hm_is_ccs h then DTLS1_CCS_HEADER_LENGTH else DTLS1_HM_HEADER_LENGTH in
      let n := sz (hm_msg_len h + header_length) in
      src ← defined (fragment frag);
      bytes ← defined (rdn src 0 n);
      blk ← defined (init_data s);
      blk ← defined (wrn blk 0 bytes);
      let s := (set_init_data s blk) <| init_num := n |> in
      let s := dtls1_set_message_header_int s (hm_type h) (hm_msg_len h) (hm_seq h) 0 (hm_frag_len h) in
      let saved := saved_write_state s in
      let s := upd_d1 (fun d => d <| retransmitting := true |>) s in
      s ← defined (set_write_state (saved_retransmit_state h) s);
      '(ret, s) ← dtls1_do_write (if hm_is_ccs h then tls3_RT_CHANGE_CIPHER_SPEC else tls3_RT_HANDSHAKE) s;
      s ← defined (set_write_state saved s);
      Ret (ret, true, upd_d1 (fun d => d <| retransmitting := false |>) s)
  end.

Fixpoint retransmit_loop (iter : list (@pitem hm_fragment)) (s : tls) : comp (Z * tls) :=
  match iter with
  | [] => Ret (1, s)
  | item :: iter =>
      let h := msg_header (data item) in
      '(ret, _, s) ← dtls1_retransmit_message s (u16 (dtls1_get_queue_priority (hm_seq h) (Z.b2z (hm_is_ccs h))));
      if ret <=? 0 then Ret (-1, s) else retransmit_loop iter s
  end.

Definition dtls1_retransmit_buffered_messages (s : tls) : comp (Z * tls) :=
  retransmit_loop (pqueue_iterator (sent_messages (d1 (conf s)))) s.

(** ** Framing *)

Section Framing.
Variable secure : Z -> option (list Z).

Definition dtls1_set_handshake_header (s : tls) (pkt : WPACKET) (htype : Z)
  : option (bool * tls * WPACKET) :=
  if htype =? tls3_MT_CHANGE_CIPHER_SPEC then
    let s := upd_d1 (fun d => d <| handshake_write_seq := next_handshake_write_seq d |>) s in
    let s := dtls1_set_message_header_int s tls3_MT_CCS 0 (handshake_write_seq (d1 (conf s))) 0 0 in
    '(ok, pkt) ← WPACKET_put_bytes__ secure pkt tls3_MT_CCS 1;
    Some (ok, s, pkt)
  else
    let s := dtls1_set_message_header s htype 0 0 0 in
    '(ok, pkt, _) ← WPACKET_allocate_bytes secure pkt DTLS1_HM_HEADER_LENGTH;
    if negb ok then Some (false, s, pkt)
    else '(ok, pkt) ← WPACKET_start_sub_packet secure pkt; Some (ok, s, pkt).

(** The packet writes into [s->init_buf], which [dtls1_buffer_message] reads. *)
Definition dtls1_close_construct_packet (s : tls) (pkt : WPACKET) (htype : Z)
  : option (bool * tls * WPACKET) :=
  '(ok, pkt) ← (if negb (htype =? tls3_MT_CHANGE_CIPHER_SPEC) then WPACKET_close pkt else Some (true, pkt));
  if negb ok then Some (false, s, pkt)
  else
    let '(ok, msglen) := WPACKET_get_length pkt 0 in
    if negb ok || (INT_MAX <? msglen) then Some (false, s, pkt)
    else
      let s := if negb (htype =? tls3_MT_CHANGE_CIPHER_SPEC)
               then upd_d1 (fun d => d <| w_msg_hdr ::= fun h =>
                      h <| hm_msg_len := sz (msglen - DTLS1_HM_HEADER_LENGTH) |>
                        <| hm_frag_len := sz (msglen - DTLS1_HM_HEADER_LENGTH) |> |>) s
               else s in
      let s := s <| init_num := msglen |> <| init_off := 0 |> in
      if negb (htype =? DTLS1_MT_HELLO_VERIFY_REQUEST) then
        '(ok, s) ← dtls1_buffer_message (write_back s pkt) (htype =? tls3_MT_CHANGE_CIPHER_SPEC);
        Some (ok, s, pkt)
      else Some (true, s, pkt).

End Framing.

(** ** The retransmission timer *)

Definition timer_unset (s : tls) : bool :=
  (tv_sec (next_timeout (d1 (conf s))) =? 0) && (tv_usec (next_timeout (d1 (conf s))) =? 0).

Definition dtls1_start_timer (s : tls) : tls :=
  let s := if timer_unset s
           then upd_d1 (fun d => d <| timeout_duration_us :=
                  if timer_cb d then u32 (call_timer_cb s 0) else 1000000 |>) s
           else s in
  let '(now, s) := get_current_time s in
  let duration := timeout_duration_us (d1 (conf s)) in
  let sec := duration / 1000000 in
  let usec := u32 (duration - sec * 1000000) in
  let t := mk_timeval (tv_sec now + sec) (tv_usec now + usec) in
  let t := if 1000000 <=? tv_usec t then mk_timeval (tv_sec t + 1) (tv_usec t - 1000000) else t in
  log (upd_d1 (fun d => d <| next_timeout := t |>) s) (C_BIO_set_next_timeout t).

(** [None] is the null pointer. *)
Definition dtls1_get_timeout (s : tls) : option timeval * tls :=
  if timer_unset s then (None, s)
  else
    let '(now, s) := get_current_time s in
    let next := next_timeout (d1 (conf s)) in
    if (tv_sec next <? tv_sec now) || ((tv_sec next =? tv_sec now) && (tv_usec next <=? tv_usec now))
    then (Some (mk_timeval 0 0), s)
    else
      let timeleft := mk_timeval (tv_sec next - tv_sec now) (tv_usec next - tv_usec now) in
      let timeleft := if tv_usec timeleft <? 0 then mk_timeval (tv_sec timeleft - 1) (tv_usec timeleft + 1000000) else timeleft in
      let timeleft := if (tv_sec timeleft =? 0) && (tv_usec timeleft <? 15000) then mk_timeval 0 0 else timeleft in
      (Some timeleft, s).

Definition dtls1_is_timer_expired (s : tls) : bool * tls :=
  let '(timeleft, s) := dtls1_get_timeout s in
  match timeleft with
  | None => (false, s)
  | Some timeleft => (negb ((0 <? tv_sec timeleft) || (0 <? tv_usec timeleft)), s)
  end.

Definition dtls1_double_timeout (s : tls) : tls :=
  let d := u32 (timeout_duration_us (d1 (conf s)) * 2) in
  let d := if 60000000 <? d then 60000000 else d in
  dtls1_start_timer (upd_d1 (fun r => r <| timeout_duration_us := d |>) s).

Definition dtls1_stop_timer (s : tls) : tls :=
  let s := upd_d1 (fun d => d <| timeout := mk_dtls1_timeout 0 0 0 |> <| next_timeout := mk_timeval 0 0 |>
                              <| timeout_duration_us := 1000000 |>) s in
  dtls1_clear_sent_buffer (log s (C_BIO_set_next_timeout (mk_timeval 0 0))).

Definition dtls1_check_timeout_num (s : tls) : Z * tls :=
  let s := upd_d1 (fun d => d <| timeout ::= fun t => t <| num_alerts ::= fun n => u32 (n + 1) |> |>) s in
  let n := num_alerts (timeout (d1 (conf s))) in
  let s := if (2 <? n) && negb (has_bits (options s) tls_OP_NO_QUERY_MTU) then
             let m := sz (BIO_dgram_get_fallback_mtu s) in
             if m <? mtu (d1 (conf s)) then upd_d1 (fun d => d <| mtu := m |>) s else s
           else s in
  if DTLS1_TMO_ALERT_COUNT <? n then (-1, tlsfatal s tls_AD_NO_ALERT) else (0, s).

Definition dtls1_handle_timeout (s : tls) : comp (Z * tls) :=
  let '(expired, s) := dtls1_is_timer_expired s in
  if negb expired then Ret (0, s)
  else
    let s := if timer_cb (d1 (conf s))
             then upd_d1 (fun d => d <| timeout_duration_us := u32 (call_timer_cb s (timeout_duration_us d)) |>) s
             else dtls1_double_timeout s in
    let '(r, s) := dtls1_check_timeout_num s in
    if r <? 0 then Ret (-1, s)
    else
      let s := upd_d1 (fun d => d <| timeout ::= fun t => t <| read_timeouts ::= fun n => u32 (n + 1) |> |>) s in
      let s := if DTLS1_TMO_READ_COUNT <? read_timeouts (timeout (d1 (conf s)))
               then upd_d1 (fun d => d <| timeout ::= fun t => t <| read_timeouts := 1 |> |>) s else s in
      dtls1_retransmit_buffered_messages (dtls1_start_timer s).

Definition dtls1_read_failed (s : tls) (code : Z) : comp (Z * tls) :=
  if 0 <? code then Ret (0, tlsfatal s tls_AD_INTERNAL_ERROR)
  else
    let '(expired, s) := dtls1_is_timer_expired s in
    if negb expired || otls_statem_in_error s then Ret (code, s)
    else if negb (tls_in_init s) then Ret (code, log s C_BIO_set_flags_read)
    else dtls1_handle_timeout s.

End Writing.
