(* ===== verification/StatemClnt.v ===== *)
(** * The client's handshake state machine, [src/ssl/statem/statem_clnt.c]

    What the client may read in which handshake state, what it writes next, the
    work before and after a message is sent, and which function constructs or
    processes the message of a state.  A [goto err] is the local [err]; a case
    that falls through names the code it falls into. *)

From S2P Require Import Prelude Mem Packet Buffer TlsState StatemLib.

Definition cert_req_allowed (s : tls) : bool :=
  let auth := algorithm_auth (new_cipher (tmp (s3 s))) in
  if ((tls3_VERSION <? version s) && has_bits auth tls_aNULL)
     || has_bits auth (Z.lor tls_aSRP tls_aPSK)
  then false else true.

Definition key_exchange_expected (s : tls) : bool :=
  has_bits (algorithm_mkey (new_cipher (tmp (s3 s))))
    (Z.lor (Z.lor (Z.lor (Z.lor tls_kDHE tls_kECDHE) tls_kDHEPSK) tls_kECDHEPSK) tls_kSRP).

Section Client.
Context `{Callouts}.

Definition otls_statem_client13_read_transition (s : tls) (mt : Z) : bool * tls :=
  let go h := (true, set_hand_state s h) in
  let no := (false, s) in
  match hand_state (statem s) with
  | TLS_ST_CW_CLNT_HELLO =>
      if mt =? tls3_MT_SERVER_HELLO then go TLS_ST_CR_SRVR_HELLO else no
  | TLS_ST_CR_SRVR_HELLO =>
      if mt =? tls3_MT_ENCRYPTED_EXTENSIONS then go TLS_ST_CR_ENCRYPTED_EXTENSIONS else no
  | TLS_ST_CR_ENCRYPTED_EXTENSIONS =>
      if hit s then
        if mt =? tls3_MT_FINISHED then go TLS_ST_CR_FINISHED else no
      else if mt =? tls3_MT_CERTIFICATE_REQUEST then go TLS_ST_CR_CERT_REQ
      else if mt =? tls3_MT_CERTIFICATE then go TLS_ST_CR_CERT
      else no
  | TLS_ST_CR_CERT_REQ =>
      if mt =? tls3_MT_CERTIFICATE then go TLS_ST_CR_CERT else no
  | TLS_ST_CR_CERT =>
      if mt =? tls3_MT_CERTIFICATE_VERIFY then go TLS_ST_CR_CERT_VRFY else no
  | TLS_ST_CR_CERT_VRFY =>
      if mt =? tls3_MT_FINISHED then go TLS_ST_CR_FINISHED else no
  | TLS_ST_OK =>
      if mt =? tls3_MT_NEWSESSION_TICKET then go TLS_ST_CR_SESSION_TICKET
      else if mt =? tls3_MT_KEY_UPDATE then go TLS_ST_CR_KEY_UPDATE
      else if (mt =? tls3_MT_CERTIFICATE_REQUEST) && negb (tls_IS_DTLS s)
              && (post_handshake_auth s == tls_PHA_EXT_SENT)
      then
        let s := s <| post_handshake_auth := tls_PHA_REQUESTED |> in
        let '(ok, s) := tls13_restore_handshake_digest_for_pha s in
        if negb ok then (false, s) else (true, set_hand_state s TLS_ST_CR_CERT_REQ)
      else no
  | _ => no
  end.

(** The common end of both read transitions: an out-of-order CCS is dropped by
    DTLS, any other message that is not expected is fatal. *)
Definition read_transition_err (s : tls) (mt : Z) : bool * tls :=
  if tls_IS_DTLS s && (mt =? tls3_MT_CHANGE_CIPHER_SPEC)
  then (false, log (s <| init_num := 0 |> <| rwstate := tls_READING |>) C_BIO_set_retry_read)
  else (false, tlsfatal s tls3_AD_UNEXPECTED_MESSAGE).

Definition otls_statem_client_read_transition (s : tls) (mt : Z) : bool * tls :=
  let go h := (true, set_hand_state s h) in
  let auth := algorithm_auth (new_cipher (tmp (s3 s))) in
  let mkey := algorithm_mkey (new_cipher (tmp (s3 s))) in
  let err := read_transition_err s mt in
  let ske_expected := key_exchange_expected s in
  let ske := ske_expected
             || (has_bits mkey tls_PSK && (mt =? tls3_MT_SERVER_KEY_EXCHANGE)) in
  let in_cert_req :=
    if mt =? tls3_MT_SERVER_DONE then go TLS_ST_CR_SRVR_DONE else err in
  let in_key_exch :=
    if mt =? tls3_MT_CERTIFICATE_REQUEST then
      if cert_req_allowed s then go TLS_ST_CR_CERT_REQ else err
    else in_cert_req in
  let in_cert_status :=
    if ske then
      if mt =? tls3_MT_SERVER_KEY_EXCHANGE then go TLS_ST_CR_KEY_EXCH else err
    else in_key_exch in
  if tls_IS_TLS13 s then
    let '(ok, s') := otls_statem_client13_read_transition s mt in
    if negb ok then read_transition_err s' mt else (true, s')
  else
    match hand_state (statem s) with
    | TLS_ST_CW_CLNT_HELLO =>
        if mt =? tls3_MT_SERVER_HELLO then go TLS_ST_CR_SRVR_HELLO
        else if tls_IS_DTLS s && (mt =? DTLS1_MT_HELLO_VERIFY_REQUEST)
        then go DTLS_ST_CR_HELLO_VERIFY_REQUEST
        else err
    | TLS_ST_EARLY_DATA =>
        if mt =? tls3_MT_SERVER_HELLO then go TLS_ST_CR_SRVR_HELLO else err
    | TLS_ST_CR_SRVR_HELLO =>
        if hit s then
          if ticket_expected (ext s) then
            if mt =? tls3_MT_NEWSESSION_TICKET then go TLS_ST_CR_SESSION_TICKET else err
          else if mt =? tls3_MT_CHANGE_CIPHER_SPEC then go TLS_ST_CR_CHANGE else err
        else if tls_IS_DTLS s && (mt =? DTLS1_MT_HELLO_VERIFY_REQUEST)
        then go DTLS_ST_CR_HELLO_VERIFY_REQUEST
        else if (TLS1_VERSION <=? version s) && session_secret_cb (ext s)
                && ext_tick (session s) && (mt =? tls3_MT_CHANGE_CIPHER_SPEC)
        then (true, set_hand_state (s <| hit := true |>) TLS_ST_CR_CHANGE)
        else if negb (has_bits auth (Z.lor (Z.lor tls_aNULL tls_aSRP) tls_aPSK)) then
          if mt =? tls3_MT_CERTIFICATE then go TLS_ST_CR_CERT else err
        else if ske then
          if mt =? tls3_MT_SERVER_KEY_EXCHANGE then go TLS_ST_CR_KEY_EXCH else err
        else if (mt =? tls3_MT_CERTIFICATE_REQUEST) && cert_req_allowed s
        then go TLS_ST_CR_CERT_REQ
        else if mt =? tls3_MT_SERVER_DONE then go TLS_ST_CR_SRVR_DONE
        else err
    | TLS_ST_CR_CERT =>
        if status_expected (ext s) && (mt =? tls3_MT_CERTIFICATE_STATUS)
        then go TLS_ST_CR_CERT_STATUS
        else in_cert_status
    | TLS_ST_CR_CERT_STATUS => in_cert_status
    | TLS_ST_CR_KEY_EXCH => in_key_exch
    | TLS_ST_CR_CERT_REQ => in_cert_req
    | TLS_ST_CW_FINISHED =>
        if ticket_expected (ext s) then
          if mt =? tls3_MT_NEWSESSION_TICKET then go TLS_ST_CR_SESSION_TICKET else err
        else if mt =? tls3_MT_CHANGE_CIPHER_SPEC then go TLS_ST_CR_CHANGE else err
    | TLS_ST_CR_SESSION_TICKET =>
        if mt =? tls3_MT_CHANGE_CIPHER_SPEC then go TLS_ST_CR_CHANGE else err
    | TLS_ST_CR_CHANGE =>
        if mt =? tls3_MT_FINISHED then go TLS_ST_CR_FINISHED else err
    | TLS_ST_OK =>
        if mt =? tls3_MT_HELLO_REQUEST then go TLS_ST_CR_HELLO_REQ else err
    | _ => err
    end.

Definition otls_statem_client13_write_transition (s : tls) : WRITE_TRAN * tls :=
  let go h := (WRITE_TRAN_CONTINUE, set_hand_state s h) in
  let should_not_happen := (WRITE_TRAN_ERROR, tlsfatal s tls_AD_INTERNAL_ERROR) in
  let cert_or_finished :=
    go (if negb (cert_req (tmp (s3 s)) =? 0) then TLS_ST_CW_CERT else TLS_ST_CW_FINISHED) in
  match hand_state (statem s) with
  | TLS_ST_CR_CERT_REQ =>
      if post_handshake_auth s == tls_PHA_REQUESTED then go TLS_ST_CW_CERT
      else if negb (has_bits (shutdown s) tls_SENT_SHUTDOWN) then should_not_happen
      else go TLS_ST_OK
  | TLS_ST_CR_FINISHED =>
      if (early_data_state s == tls_EARLY_DATA_WRITE_RETRY)
         || (early_data_state s == tls_EARLY_DATA_FINISHED_WRITING)
      then go TLS_ST_PENDING_EARLY_DATA_END
      else if has_bits (options s) tls_OP_ENABLE_MIDDLEBOX_COMPAT
              && (hello_retry_request s == tls_HRR_NONE)
      then go TLS_ST_CW_CHANGE
      else cert_or_finished
  | TLS_ST_PENDING_EARLY_DATA_END =>
      if early_data (ext s) =? tls_EARLY_DATA_ACCEPTED then go TLS_ST_CW_END_OF_EARLY_DATA
      else cert_or_finished
  | TLS_ST_CW_END_OF_EARLY_DATA | TLS_ST_CW_CHANGE => cert_or_finished
  | TLS_ST_CW_CERT =>
      go (if cert_req (tmp (s3 s)) =? 1 then TLS_ST_CW_CERT_VRFY else TLS_ST_CW_FINISHED)
  | TLS_ST_CW_CERT_VRFY => go TLS_ST_CW_FINISHED
  | TLS_ST_CR_KEY_UPDATE | TLS_ST_CW_KEY_UPDATE | TLS_ST_CR_SESSION_TICKET
  | TLS_ST_CW_FINISHED => go TLS_ST_OK
  | TLS_ST_OK =>
      if negb (key_update s =? tls_KEY_UPDATE_NONE) then go TLS_ST_CW_KEY_UPDATE
      else (WRITE_TRAN_FINISHED, s)
  | _ => should_not_happen
  end.

Definition otls_statem_client_write_transition (s : tls) : WRITE_TRAN * tls :=
  let go h := (WRITE_TRAN_CONTINUE, set_hand_state s h) in
  if tls_IS_TLS13 s then otls_statem_client13_write_transition s
  else
    match hand_state (statem s) with
    | TLS_ST_OK =>
        if negb (renegotiate s) then (WRITE_TRAN_FINISHED, s) else go TLS_ST_CW_CLNT_HELLO
    | TLS_ST_BEFORE => go TLS_ST_CW_CLNT_HELLO
    | TLS_ST_CW_CLNT_HELLO =>
        if early_data_state s == tls_EARLY_DATA_CONNECTING then
          if has_bits (options s) tls_OP_ENABLE_MIDDLEBOX_COMPAT
          then go TLS_ST_CW_CHANGE else go TLS_ST_EARLY_DATA
        else (WRITE_TRAN_FINISHED, s)
    | TLS_ST_CR_SRVR_HELLO =>
        if has_bits (options s) tls_OP_ENABLE_MIDDLEBOX_COMPAT
           && (early_data_state s != tls_EARLY_DATA_FINISHED_WRITING)
        then go TLS_ST_CW_CHANGE else go TLS_ST_CW_CLNT_HELLO
    | TLS_ST_EARLY_DATA => (WRITE_TRAN_FINISHED, s)
    | DTLS_ST_CR_HELLO_VERIFY_REQUEST => go TLS_ST_CW_CLNT_HELLO
    | TLS_ST_CR_SRVR_DONE =>
        if negb (cert_req (tmp (s3 s)) =? 0) then go TLS_ST_CW_CERT else go TLS_ST_CW_KEY_EXCH
    | TLS_ST_CW_CERT => go TLS_ST_CW_KEY_EXCH
    | TLS_ST_CW_KEY_EXCH =>
        if has_bits (flags (s3 s)) TLS1_FLAGS_SKIP_CERT_VERIFY then go TLS_ST_CW_CHANGE
        else if cert_req (tmp (s3 s)) =? 1 then go TLS_ST_CW_CERT_VRFY
        else go TLS_ST_CW_CHANGE
    | TLS_ST_CW_CERT_VRFY => go TLS_ST_CW_CHANGE
    | TLS_ST_CW_CHANGE =>
        if hello_retry_request s == tls_HRR_PENDING then go TLS_ST_CW_CLNT_HELLO
        else if early_data_state s == tls_EARLY_DATA_CONNECTING then go TLS_ST_EARLY_DATA
        else if negb (tls_IS_DTLS s) && npn_seen (s3 s) then go TLS_ST_CW_NEXT_PROTO
        else go TLS_ST_CW_FINISHED
    | TLS_ST_CW_NEXT_PROTO => go TLS_ST_CW_FINISHED
    | TLS_ST_CW_FINISHED =>
        if hit s then go TLS_ST_OK else (WRITE_TRAN_FINISHED, s)
    | TLS_ST_CR_FINISHED =>
        if hit s then go TLS_ST_CW_CHANGE else go TLS_ST_OK
    | TLS_ST_CR_HELLO_REQ =>
        let '(now, s) := tls3_renegotiate_check s true in
        if now then
          let '(ok, s) := tls_setup_handshake s in
          if negb ok then (WRITE_TRAN_ERROR, s)
          else (WRITE_TRAN_CONTINUE, set_hand_state s TLS_ST_CW_CLNT_HELLO)
        else (WRITE_TRAN_CONTINUE, set_hand_state s TLS_ST_OK)
    | _ => (WRITE_TRAN_ERROR, tlsfatal s tls_AD_INTERNAL_ERROR)
    end.

Definition otls_statem_client_pre_work (s : tls) (wst : WORK_STATE) : WORK_STATE * tls :=
  match hand_state (statem s) with
  | TLS_ST_CW_CLNT_HELLO =>
      let s := s <| shutdown := 0 |> in
      if tls_IS_DTLS s then
        let '(ok, s) := tls3_init_finished_mac s in
        if negb ok then (WORK_ERROR, s) else (WORK_FINISHED_CONTINUE, s)
      else (WORK_FINISHED_CONTINUE, s)
  | TLS_ST_CW_CHANGE =>
      (WORK_FINISHED_CONTINUE,
       if tls_IS_DTLS s && hit s then s <| statem .: use_timer := false |> else s)
  | TLS_ST_PENDING_EARLY_DATA_END =>
      if (early_data_state s == tls_EARLY_DATA_FINISHED_WRITING)
         || (early_data_state s == tls_EARLY_DATA_NONE)
      then (WORK_FINISHED_CONTINUE, s)
      else tls_finish_handshake s wst false true
  | TLS_ST_EARLY_DATA => tls_finish_handshake s wst false true
  | TLS_ST_OK => tls_finish_handshake s wst true true
  | _ => (WORK_FINISHED_CONTINUE, s)
  end.

Definition otls_statem_client_post_work (s : tls) (wst : WORK_STATE) : WORK_STATE * tls :=
  let s := s <| init_num := 0 |> in
  let done s := (WORK_FINISHED_CONTINUE, s) in
  match hand_state (statem s) with
  | TLS_ST_CW_CLNT_HELLO =>
      let '(r, s) :=
        if (early_data_state s == tls_EARLY_DATA_CONNECTING) && (0 <? max_early_data s) then
          if negb (has_bits (options s) tls_OP_ENABLE_MIDDLEBOX_COMPAT) then
            let '(ok, s) := tls13_change_cipher_state
                              (Z.lor tls3_CC_EARLY tls3_CHANGE_CIPHER_CLIENT_WRITE) s in
            (if ok then None else Some WORK_ERROR, s)
          else (None, s)
        else
          let '(ok, s) := statem_flush s in (if ok then None else Some WORK_MORE_A, s) in
      match r with
      | Some wst => (wst, s)
      | None => done (if tls_IS_DTLS s then s <| first_packet := true |> else s)
      end
  | TLS_ST_CW_END_OF_EARLY_DATA => done ((log s C_free_enc_write_ctx) <| conf .: enc_write_ctx := 0 |>)
  | TLS_ST_CW_KEY_EXCH =>
      let '(ok, s) := tls_client_key_exchange_post_work s in
      if negb ok then (WORK_ERROR, s) else done s
  | TLS_ST_CW_CHANGE =>
      if tls_IS_TLS13 s || (hello_retry_request s == tls_HRR_PENDING) then done s
      else if (early_data_state s == tls_EARLY_DATA_CONNECTING) && (0 <? max_early_data s) then
        let '(ok, s) := tls13_change_cipher_state
                          (Z.lor tls3_CC_EARLY tls3_CHANGE_CIPHER_CLIENT_WRITE) s in
        if negb ok then (WORK_ERROR, s) else done s
      else
        let s := s <| session .: cipher := Some (new_cipher (tmp (s3 s))) |>
                   <| session .: compress_meth :=
                        match new_compression (tmp (s3 s)) with None => 0 | Some id => id end |> in
        let '(ok, s) := setup_key_block s in
        if negb ok then (WORK_ERROR, s)
        else
          let '(ok, s) := change_cipher_state tls3_CHANGE_CIPHER_CLIENT_WRITE s in
          if negb ok then (WORK_ERROR, s)
          else done (if tls_IS_DTLS s then log s (C_dtls1_reset_seq_numbers tls3_CC_WRITE) else s)
  | TLS_ST_CW_FINISHED =>
      let '(ok, s) := statem_flush s in
      if negb ok then (WORK_MORE_B, s)
      else if tls_IS_TLS13 s then
        let '(ok, s) := tls13_save_handshake_digest_for_pha s in
        if negb ok then (WORK_ERROR, s)
        else if post_handshake_auth s != tls_PHA_REQUESTED then
          let '(ok, s) := change_cipher_state
                            (Z.lor tls3_CC_APPLICATION tls3_CHANGE_CIPHER_CLIENT_WRITE) s in
          if negb ok then (WORK_ERROR, s) else done s
        else done s
      else done s
  | TLS_ST_CW_KEY_UPDATE =>
      let '(ok, s) := statem_flush s in
      if negb ok then (WORK_MORE_A, s)
      else
        let '(ok, s) := tls13_update_key s in
        if negb ok then (WORK_ERROR, s) else done s
  | _ => done s
  end.

(** The truth value, and the construction function and message type. *)
Definition otls_statem_client_construct_message (s : tls)
  : bool * tls * option (option confunc_f * Z) :=
  let msg f mt := (true, s, Some (Some f, mt)) in
  match hand_state (statem s) with
  | TLS_ST_CW_CHANGE =>
      msg (if tls_IS_DTLS s then dtls_construct_change_cipher_spec
           else tls_construct_change_cipher_spec) tls3_MT_CHANGE_CIPHER_SPEC
  | TLS_ST_CW_CLNT_HELLO => msg tls_construct_client_hello tls3_MT_CLIENT_HELLO
  | TLS_ST_CW_END_OF_EARLY_DATA =>
      msg tls_construct_end_of_early_data tls3_MT_END_OF_EARLY_DATA
  | TLS_ST_PENDING_EARLY_DATA_END => (true, s, Some (None, tls3_MT_DUMMY))
  | TLS_ST_CW_CERT => msg tls_construct_client_certificate tls3_MT_CERTIFICATE
  | TLS_ST_CW_KEY_EXCH => msg tls_construct_client_key_exchange tls3_MT_CLIENT_KEY_EXCHANGE
  | TLS_ST_CW_CERT_VRFY => msg tls_construct_cert_verify tls3_MT_CERTIFICATE_VERIFY
  | TLS_ST_CW_NEXT_PROTO => msg tls_construct_next_proto tls3_MT_NEXT_PROTO
  | TLS_ST_CW_FINISHED => msg tls_construct_finished tls3_MT_FINISHED
  | TLS_ST_CW_KEY_UPDATE => msg tls_construct_key_update tls3_MT_KEY_UPDATE
  | _ => (false, tlsfatal s tls_AD_INTERNAL_ERROR, None)
  end.

Definition otls_statem_client_max_message_size (s : tls) : Z :=
  match hand_state (statem s) with
  | TLS_ST_CR_SRVR_HELLO => SERVER_HELLO_MAX_LENGTH
  | DTLS_ST_CR_HELLO_VERIFY_REQUEST => HELLO_VERIFY_REQUEST_MAX_LENGTH
  | TLS_ST_CR_CERT => max_cert_list s
  | TLS_ST_CR_CERT_VRFY => tls3_RT_MAX_PLAIN_LENGTH
  | TLS_ST_CR_CERT_STATUS => tls3_RT_MAX_PLAIN_LENGTH
  | TLS_ST_CR_KEY_EXCH => SERVER_KEY_EXCH_MAX_LENGTH
  | TLS_ST_CR_CERT_REQ => max_cert_list s
  | TLS_ST_CR_SRVR_DONE => SERVER_HELLO_DONE_MAX_LENGTH
  | TLS_ST_CR_CHANGE => if version s =? DTLS1_BAD_VER then 3 else CCS_MAX_LENGTH
  | TLS_ST_CR_SESSION_TICKET => tls3_RT_MAX_PLAIN_LENGTH
  | TLS_ST_CR_FINISHED => FINISHED_MAX_LENGTH
  | TLS_ST_CR_ENCRYPTED_EXTENSIONS => ENCRYPTED_EXTENSIONS_MAX_LENGTH
  | TLS_ST_CR_KEY_UPDATE => KEY_UPDATE_MAX_LENGTH
  | _ => 0
  end.

(** The processing function of a state. *)
Definition client_process (h : Otls_HANDSHAKE_STATE) : option process_f :=
  match h with
  | TLS_ST_CR_SRVR_HELLO => Some tls_process_server_hello
  | DTLS_ST_CR_HELLO_VERIFY_REQUEST => Some dtls_process_hello_verify
  | TLS_ST_CR_CERT => Some tls_process_server_certificate
  | TLS_ST_CR_CERT_VRFY => Some tls_process_cert_verify
  | TLS_ST_CR_CERT_STATUS => Some tls_process_cert_status
  | TLS_ST_CR_KEY_EXCH => Some tls_process_key_exchange
  | TLS_ST_CR_CERT_REQ => Some tls_process_certificate_request
  | TLS_ST_CR_SRVR_DONE => Some tls_process_server_done
  | TLS_ST_CR_CHANGE => Some tls_process_change_cipher_spec
  | TLS_ST_CR_SESSION_TICKET => Some tls_process_new_session_ticket
  | TLS_ST_CR_FINISHED => Some tls_process_finished
  | TLS_ST_CR_HELLO_REQ => Some tls_process_hello_req
  | TLS_ST_CR_ENCRYPTED_EXTENSIONS => Some tls_process_encrypted_extensions
  | TLS_ST_CR_KEY_UPDATE => Some tls_process_key_update
  | _ => None
  end.

Definition otls_statem_client_process_message (s : tls) (pkt : PACKET) : MSG_PROCESS_RETURN * tls :=
  match client_process (hand_state (statem s)) with
  | None => (MSG_PROCESS_ERROR, tlsfatal s tls_AD_INTERNAL_ERROR)
  | Some f => run_process f pkt s
  end.

Definition otls_statem_client_post_process_message (s : tls) (wst : WORK_STATE)
  : WORK_STATE * tls :=
  match hand_state (statem s) with
  | TLS_ST_CR_CERT_VRFY | TLS_ST_CR_CERT_REQ =>
      run_post_process tls_prepare_client_certificate wst s
  | _ => (WORK_ERROR, tlsfatal s tls_AD_INTERNAL_ERROR)
  end.

End Client.
