(* ===== verification/StatemSrvr.v ===== *)
(** * The server's handshake state machine, [src/ssl/statem/statem_srvr.c]

    What the server may read in which handshake state, what it writes next, the
    work before and after a message is sent, and which function constructs or
    processes the message of a state. *)

From S2P Require Import Prelude Mem Packet Buffer TlsState StatemLib Dtls DtlsWrite StatemClnt.

Definition CLIENT_HELLO_MAX_LENGTH : Z := 131396.
Definition CLIENT_KEY_EXCH_MAX_LENGTH : Z := 2048.
Definition NEXT_PROTO_MAX_LENGTH : Z := 514.

Definition send_server_key_exchange (s : tls) : bool :=
  let alg_k := algorithm_mkey (new_cipher (tmp (s3 s))) in
  has_bits alg_k (Z.lor tls_kDHE tls_kECDHE)
  || (has_bits alg_k (Z.lor tls_kPSK tls_kRSAPSK) && psk_identity_hint s)
  || has_bits alg_k (Z.land tls_PSK (Z.lor tls_kDHEPSK tls_kECDHEPSK))
  || has_bits alg_k tls_kSRP.

Definition send_certificate_request (s : tls) : bool :=
  let auth := algorithm_auth (new_cipher (tmp (s3 s))) in
  has_bits (verify_mode s) tls_VERIFY_PEER
  && (negb (tls_IS_TLS13 s) || negb (has_bits (verify_mode s) tls_VERIFY_POST_HANDSHAKE)
      || (post_handshake_auth s == tls_PHA_REQUEST_PENDING))
  && ((certreqs_sent s <? 1) || negb (has_bits (verify_mode s) tls_VERIFY_CLIENT_ONCE))
  && (negb (has_bits auth tls_aNULL)
      || has_bits (verify_mode s) tls_VERIFY_FAIL_IF_NO_PEER_CERT)
  && negb (has_bits auth tls_aSRP)
  && negb (has_bits auth tls_aPSK).

(** Linux error numbers *)
Definition EPIPE : Z := 32.
Definition ECONNRESET : Z := 104.

Definition conn_is_closed (errno : Z) : bool := (errno =? EPIPE) || (errno =? ECONNRESET).

Section Server.
Context `{Callouts}.

Definition otls_statem_server13_read_transition (s : tls) (mt : Z) : bool * tls :=
  let go h := (true, set_hand_state s h) in
  let no := (false, s) in
  let after_finished :=
    if cert_request (tmp (s3 s)) then
      if mt =? tls3_MT_CERTIFICATE then go TLS_ST_SR_CERT else no
    else if mt =? tls3_MT_FINISHED then go TLS_ST_SR_FINISHED else no in
  match hand_state (statem s) with
  | TLS_ST_EARLY_DATA =>
      if hello_retry_request s == tls_HRR_PENDING then
        if mt =? tls3_MT_CLIENT_HELLO then go TLS_ST_SR_CLNT_HELLO else no
      else if early_data (ext s) =? tls_EARLY_DATA_ACCEPTED then
        if mt =? tls3_MT_END_OF_EARLY_DATA then go TLS_ST_SR_END_OF_EARLY_DATA else no
      else after_finished
  | TLS_ST_SR_END_OF_EARLY_DATA | TLS_ST_SW_FINISHED => after_finished
  | TLS_ST_SR_CERT =>
      if negb (peer (session s)) then
        if mt =? tls3_MT_FINISHED then go TLS_ST_SR_FINISHED else no
      else if mt =? tls3_MT_CERTIFICATE_VERIFY then go TLS_ST_SR_CERT_VRFY else no
  | TLS_ST_SR_CERT_VRFY =>
      if mt =? tls3_MT_FINISHED then go TLS_ST_SR_FINISHED else no
  | TLS_ST_OK =>
      if early_data_state s == tls_EARLY_DATA_READING then no
      else if (mt =? tls3_MT_CERTIFICATE) && (post_handshake_auth s == tls_PHA_REQUESTED)
      then go TLS_ST_SR_CERT
      else if mt =? tls3_MT_KEY_UPDATE then go TLS_ST_SR_KEY_UPDATE
      else no
  | _ => no
  end.

Definition otls_statem_server_read_transition (s : tls) (mt : Z) : bool * tls :=
  let go h := (true, set_hand_state s h) in
  let err := read_transition_err s mt in
  if tls_IS_TLS13 s then
    let '(ok, s') := otls_statem_server13_read_transition s mt in
    if negb ok then read_transition_err s' mt else (true, s')
  else
    match hand_state (statem s) with
    | TLS_ST_BEFORE | TLS_ST_OK | DTLS_ST_SW_HELLO_VERIFY_REQUEST =>
        if mt =? tls3_MT_CLIENT_HELLO then go TLS_ST_SR_CLNT_HELLO else err
    | TLS_ST_SW_SRVR_DONE =>
        if mt =? tls3_MT_CLIENT_KEY_EXCHANGE then
          if cert_request (tmp (s3 s)) then
            if version s =? tls3_VERSION then
              if has_bits (verify_mode s) tls_VERIFY_PEER
                 && has_bits (verify_mode s) tls_VERIFY_FAIL_IF_NO_PEER_CERT
              then (false, tlsfatal s tls_AD_HANDSHAKE_FAILURE)
              else go TLS_ST_SR_KEY_EXCH
            else err
          else go TLS_ST_SR_KEY_EXCH
        else if cert_request (tmp (s3 s)) then
          if mt =? tls3_MT_CERTIFICATE then go TLS_ST_SR_CERT else err
        else err
    | TLS_ST_SR_CERT =>
        if mt =? tls3_MT_CLIENT_KEY_EXCHANGE then go TLS_ST_SR_KEY_EXCH else err
    | TLS_ST_SR_KEY_EXCH =>
        if negb (peer (session s)) || no_cert_verify (statem s) then
          if mt =? tls3_MT_CHANGE_CIPHER_SPEC then go TLS_ST_SR_CHANGE else err
        else if mt =? tls3_MT_CERTIFICATE_VERIFY then go TLS_ST_SR_CERT_VRFY else err
    | TLS_ST_SR_CERT_VRFY =>
        if mt =? tls3_MT_CHANGE_CIPHER_SPEC then go TLS_ST_SR_CHANGE else err
    | TLS_ST_SR_CHANGE =>
        if npn_seen (s3 s) then
          if mt =? tls3_MT_NEXT_PROTO then go TLS_ST_SR_NEXT_PROTO else err
        else if mt =? tls3_MT_FINISHED then go TLS_ST_SR_FINISHED else err
    | TLS_ST_SR_NEXT_PROTO =>
        if mt =? tls3_MT_FINISHED then go TLS_ST_SR_FINISHED else err
    | TLS_ST_SW_FINISHED =>
        if mt =? tls3_MT_CHANGE_CIPHER_SPEC then go TLS_ST_SR_CHANGE else err
    | _ => err
    end.

Definition otls_statem_server13_write_transition (s : tls) : WRITE_TRAN * tls :=
  let go h := (WRITE_TRAN_CONTINUE, set_hand_state s h) in
  match hand_state (statem s) with
  | TLS_ST_OK =>
      if negb (key_update s =? tls_KEY_UPDATE_NONE) then go TLS_ST_SW_KEY_UPDATE
      else if post_handshake_auth s == tls_PHA_REQUEST_PENDING then go TLS_ST_SW_CERT_REQ
      else (WRITE_TRAN_FINISHED, s)
  | TLS_ST_SR_CLNT_HELLO => go TLS_ST_SW_SRVR_HELLO
  | TLS_ST_SW_SRVR_HELLO =>
      if has_bits (options s) tls_OP_ENABLE_MIDDLEBOX_COMPAT
         && (hello_retry_request s != tls_HRR_COMPLETE)
      then go TLS_ST_SW_CHANGE
      else if hello_retry_request s == tls_HRR_PENDING then go TLS_ST_EARLY_DATA
      else go TLS_ST_SW_ENCRYPTED_EXTENSIONS
  | TLS_ST_SW_CHANGE =>
      if hello_retry_request s == tls_HRR_PENDING then go TLS_ST_EARLY_DATA
      else go TLS_ST_SW_ENCRYPTED_EXTENSIONS
  | TLS_ST_SW_ENCRYPTED_EXTENSIONS =>
      if hit s then go TLS_ST_SW_FINISHED
      else if send_certificate_request s then go TLS_ST_SW_CERT_REQ
      else go TLS_ST_SW_CERT
  | TLS_ST_SW_CERT_REQ =>
      if post_handshake_auth s == tls_PHA_REQUEST_PENDING
      then (WRITE_TRAN_CONTINUE,
            set_hand_state (s <| post_handshake_auth := tls_PHA_REQUESTED |>) TLS_ST_OK)
      else go TLS_ST_SW_CERT
  | TLS_ST_SW_CERT => go TLS_ST_SW_CERT_VRFY
  | TLS_ST_SW_CERT_VRFY => go TLS_ST_SW_FINISHED
  | TLS_ST_SW_FINISHED => go TLS_ST_EARLY_DATA
  | TLS_ST_EARLY_DATA => (WRITE_TRAN_FINISHED, s)
  | TLS_ST_SR_FINISHED =>
      let tickets s :=
        (WRITE_TRAN_CONTINUE,
         set_hand_state s (if sent_tickets s <? num_tickets s
                           then TLS_ST_SW_SESSION_TICKET else TLS_ST_OK)) in
      if post_handshake_auth s == tls_PHA_REQUESTED
      then tickets (s <| post_handshake_auth := tls_PHA_EXT_RECEIVED |>)
      else if negb (ticket_expected (ext s)) then go TLS_ST_OK
      else tickets s
  | TLS_ST_SR_KEY_UPDATE | TLS_ST_SW_KEY_UPDATE => go TLS_ST_OK
  | TLS_ST_SW_SESSION_TICKET =>
      if hit s || (num_tickets s <=? sent_tickets s) then go TLS_ST_OK
      else (WRITE_TRAN_CONTINUE, s)
  | _ => (WRITE_TRAN_ERROR, tlsfatal s tls_AD_INTERNAL_ERROR)
  end.

Definition otls_statem_server_write_transition (s : tls) : WRITE_TRAN * tls :=
  let go h := (WRITE_TRAN_CONTINUE, set_hand_state s h) in
  let in_key_exch :=
    if send_certificate_request s then go TLS_ST_SW_CERT_REQ else go TLS_ST_SW_SRVR_DONE in
  let in_cert_status :=
    if send_server_key_exchange s then go TLS_ST_SW_KEY_EXCH else in_key_exch in
  if tls_IS_TLS13 s then otls_statem_server13_write_transition s
  else
    match hand_state (statem s) with
    | TLS_ST_OK =>
        if request_state (statem s) == TLS_ST_SW_HELLO_REQ
        then (WRITE_TRAN_CONTINUE,
              (set_hand_state s TLS_ST_SW_HELLO_REQ)
                <| statem .: request_state := TLS_ST_BEFORE |>)
        else
          let '(ok, s) := tls_setup_handshake s in
          if negb ok then (WRITE_TRAN_ERROR, s) else (WRITE_TRAN_FINISHED, s)
    | TLS_ST_BEFORE => (WRITE_TRAN_FINISHED, s)
    | TLS_ST_SW_HELLO_REQ => go TLS_ST_OK
    | TLS_ST_SR_CLNT_HELLO =>
        if tls_IS_DTLS s && negb (cookie_verified s)
           && has_bits (options s) tls_OP_COOKIE_EXCHANGE
        then go DTLS_ST_SW_HELLO_VERIFY_REQUEST
        else if negb (renegotiate s) && negb (tls_IS_FIRST_HANDSHAKE s) then go TLS_ST_OK
        else go TLS_ST_SW_SRVR_HELLO
    | DTLS_ST_SW_HELLO_VERIFY_REQUEST => (WRITE_TRAN_FINISHED, s)
    | TLS_ST_SW_SRVR_HELLO =>
        if hit s then
          if ticket_expected (ext s) then go TLS_ST_SW_SESSION_TICKET else go TLS_ST_SW_CHANGE
        else if negb (has_bits (algorithm_auth (new_cipher (tmp (s3 s))))
                        (Z.lor (Z.lor tls_aNULL tls_aSRP) tls_aPSK))
        then go TLS_ST_SW_CERT
        else if send_server_key_exchange s then go TLS_ST_SW_KEY_EXCH
        else if send_certificate_request s then go TLS_ST_SW_CERT_REQ
        else go TLS_ST_SW_SRVR_DONE
    | TLS_ST_SW_CERT =>
        if status_expected (ext s) then go TLS_ST_SW_CERT_STATUS else in_cert_status
    | TLS_ST_SW_CERT_STATUS => in_cert_status
    | TLS_ST_SW_KEY_EXCH => in_key_exch
    | TLS_ST_SW_CERT_REQ => go TLS_ST_SW_SRVR_DONE
    | TLS_ST_SW_SRVR_DONE => (WRITE_TRAN_FINISHED, s)
    | TLS_ST_SR_FINISHED =>
        if hit s then go TLS_ST_OK
        else if ticket_expected (ext s) then go TLS_ST_SW_SESSION_TICKET
        else go TLS_ST_SW_CHANGE
    | TLS_ST_SW_SESSION_TICKET => go TLS_ST_SW_CHANGE
    | TLS_ST_SW_CHANGE => go TLS_ST_SW_FINISHED
    | TLS_ST_SW_FINISHED =>
        if hit s then (WRITE_TRAN_FINISHED, s) else go TLS_ST_OK
    | _ => (WRITE_TRAN_ERROR, tlsfatal s tls_AD_INTERNAL_ERROR)
    end.

Definition otls_statem_server_pre_work (s : tls) (wst : WORK_STATE) : WORK_STATE * tls :=
  let done s := (WORK_FINISHED_CONTINUE, s) in
  match hand_state (statem s) with
  | TLS_ST_SW_HELLO_REQ =>
      let s := s <| shutdown := 0 |> in
      done (if tls_IS_DTLS s then dtls1_clear_sent_buffer s else s)
  | DTLS_ST_SW_HELLO_VERIFY_REQUEST =>
      let s := s <| shutdown := 0 |> in
      done (if tls_IS_DTLS s
            then (dtls1_clear_sent_buffer s) <| statem .: use_timer := false |> else s)
  | TLS_ST_SW_SRVR_HELLO =>
      done (if tls_IS_DTLS s then s <| statem .: use_timer := true |> else s)
  | TLS_ST_SW_SRVR_DONE => done s
  | TLS_ST_SW_SESSION_TICKET =>
      if tls_IS_TLS13 s && (sent_tickets s =? 0)
      then tls_finish_handshake s wst false false
      else done (if tls_IS_DTLS s then s <| statem .: use_timer := false |> else s)
  | TLS_ST_SW_CHANGE =>
      if tls_IS_TLS13 s then done s
      else
        let s := s <| session .: cipher := Some (new_cipher (tmp (s3 s))) |> in
        let '(ok, s) := setup_key_block s in
        if negb ok then (WORK_ERROR, s)
        else done (if tls_IS_DTLS s then s <| statem .: use_timer := false |> else s)
  | TLS_ST_EARLY_DATA =>
      if (early_data_state s != tls_EARLY_DATA_ACCEPTING)
         && negb (has_bits (flags (s3 s)) TLS1_FLAGS_STATELESS)
      then done s
      else tls_finish_handshake s wst true true
  | TLS_ST_OK => tls_finish_handshake s wst true true
  | _ => done s
  end.

(** The case of [otls_statem_server_post_work] for a sent ChangeCipherSpec, which
    the one for the ServerHello falls into. *)
Definition server_post_work_change (s : tls) : WORK_STATE * tls :=
  let done s := (WORK_FINISHED_CONTINUE, s) in
  if hello_retry_request s == tls_HRR_PENDING then
    let '(ok, s) := statem_flush s in
    if negb ok then (WORK_MORE_A, s) else done s
  else if tls_IS_TLS13 s then
    let '(ok, s) := setup_key_block s in
    if negb ok then (WORK_ERROR, s)
    else
      let '(ok, s) := change_cipher_state
                        (Z.lor tls3_CC_HANDSHAKE tls3_CHANGE_CIPHER_SERVER_WRITE) s in
      if negb ok then (WORK_ERROR, s)
      else
        let '(ok, s) :=
          if negb (early_data (ext s) =? tls_EARLY_DATA_ACCEPTED)
          then change_cipher_state (Z.lor tls3_CC_HANDSHAKE tls3_CHANGE_CIPHER_SERVER_READ) s
          else (true, s) in
        if negb ok then (WORK_ERROR, s)
        else done (s <| statem .: enc_read_state := ENC_READ_STATE_ALLOW_PLAIN_ALERTS |>)
  else
    let '(ok, s) := change_cipher_state tls3_CHANGE_CIPHER_SERVER_WRITE s in
    if negb ok then (WORK_ERROR, s)
    else done (if tls_IS_DTLS s then log s (C_dtls1_reset_seq_numbers tls3_CC_WRITE) else s).

Definition otls_statem_server_post_work (s : tls) (wst : WORK_STATE) : WORK_STATE * tls :=
  let s := s <| init_num := 0 |> in
  let done s := (WORK_FINISHED_CONTINUE, s) in
  match hand_state (statem s) with
  | TLS_ST_SW_HELLO_REQ =>
      let '(ok, s) := statem_flush s in
      if negb ok then (WORK_MORE_A, s)
      else
        let '(ok, s) := tls3_init_finished_mac s in
        if negb ok then (WORK_ERROR, s) else done s
  | DTLS_ST_SW_HELLO_VERIFY_REQUEST =>
      let '(ok, s) := statem_flush s in
      if negb ok then (WORK_MORE_A, s)
      else
        let '(ok, s) := if negb (version s =? DTLS1_BAD_VER)
                        then tls3_init_finished_mac s else (true, s) in
        if negb ok then (WORK_ERROR, s) else done (s <| first_packet := true |>)
  | TLS_ST_SW_SRVR_HELLO =>
      if tls_IS_TLS13 s && (hello_retry_request s == tls_HRR_PENDING) then
        if negb (has_bits (options s) tls_OP_ENABLE_MIDDLEBOX_COMPAT) then
          let '(ok, s) := statem_flush s in
          if negb ok then (WORK_MORE_A, s) else done s
        else done s
      else if negb (tls_IS_TLS13 s)
              || (has_bits (options s) tls_OP_ENABLE_MIDDLEBOX_COMPAT
                  && (hello_retry_request s != tls_HRR_COMPLETE))
      then done s
      else server_post_work_change s
  | TLS_ST_SW_CHANGE => server_post_work_change s
  | TLS_ST_SW_SRVR_DONE =>
      let '(ok, s) := statem_flush s in
      if negb ok then (WORK_MORE_A, s) else done s
  | TLS_ST_SW_FINISHED =>
      let '(ok, s) := statem_flush s in
      if negb ok then (WORK_MORE_A, s)
      else if tls_IS_TLS13 s then
        let '(ok, s) := generate_master_secret s in
        if negb ok then (WORK_ERROR, s)
        else
          let '(ok, s) := change_cipher_state
                            (Z.lor tls3_CC_APPLICATION tls3_CHANGE_CIPHER_SERVER_WRITE) s in
          if negb ok then (WORK_ERROR, s) else done s
      else done s
  | TLS_ST_SW_CERT_REQ =>
      if post_handshake_auth s == tls_PHA_REQUEST_PENDING then
        let '(ok, s) := statem_flush s in
        if negb ok then (WORK_MORE_A, s) else done s
      else done s
  | TLS_ST_SW_KEY_UPDATE =>
      let '(ok, s) := statem_flush s in
      if negb ok then (WORK_MORE_A, s)
      else
        let '(ok, s) := tls13_update_key s in
        if negb ok then (WORK_ERROR, s) else done s
  | TLS_ST_SW_SESSION_TICKET =>
      if tls_IS_TLS13 s then
        let '(ok, s) := statem_flush s in
        if negb ok then
          if tls_error_is_syscall s && conn_is_closed (get_last_sys_error s)
          then done (s <| rwstate := tls_NOTHING |>)
          else (WORK_MORE_A, s)
        else done s
      else done s
  | _ => done s
  end.

(** The truth value, and the construction function and message type. *)
Definition otls_statem_server_construct_message (s : tls)
  : bool * tls * option (option confunc_f * Z) :=
  let msg f mt := (true, s, Some (Some f, mt)) in
  match hand_state (statem s) with
  | TLS_ST_SW_CHANGE =>
      msg (if tls_IS_DTLS s then dtls_construct_change_cipher_spec
           else tls_construct_change_cipher_spec) tls3_MT_CHANGE_CIPHER_SPEC
  | DTLS_ST_SW_HELLO_VERIFY_REQUEST =>
      msg dtls_construct_hello_verify_request DTLS1_MT_HELLO_VERIFY_REQUEST
  | TLS_ST_SW_HELLO_REQ => (true, s, Some (None, tls3_MT_HELLO_REQUEST))
  | TLS_ST_SW_SRVR_HELLO => msg tls_construct_server_hello tls3_MT_SERVER_HELLO
  | TLS_ST_SW_CERT => msg tls_construct_server_certificate tls3_MT_CERTIFICATE
  | TLS_ST_SW_CERT_VRFY => msg tls_construct_cert_verify tls3_MT_CERTIFICATE_VERIFY
  | TLS_ST_SW_KEY_EXCH => msg tls_construct_server_key_exchange tls3_MT_SERVER_KEY_EXCHANGE
  | TLS_ST_SW_CERT_REQ => msg tls_construct_certificate_request tls3_MT_CERTIFICATE_REQUEST
  | TLS_ST_SW_SRVR_DONE => msg tls_construct_server_done tls3_MT_SERVER_DONE
  | TLS_ST_SW_SESSION_TICKET => msg tls_construct_new_session_ticket tls3_MT_NEWSESSION_TICKET
  | TLS_ST_SW_CERT_STATUS => msg tls_construct_cert_status tls3_MT_CERTIFICATE_STATUS
  | TLS_ST_SW_FINISHED => msg tls_construct_finished tls3_MT_FINISHED
  | TLS_ST_EARLY_DATA => (true, s, Some (None, tls3_MT_DUMMY))
  | TLS_ST_SW_ENCRYPTED_EXTENSIONS =>
      msg tls_construct_encrypted_extensions tls3_MT_ENCRYPTED_EXTENSIONS
  | TLS_ST_SW_KEY_UPDATE => msg tls_construct_key_update tls3_MT_KEY_UPDATE
  | _ => (false, tlsfatal s tls_AD_INTERNAL_ERROR, None)
  end.

Definition otls_statem_server_max_message_size (s : tls) : Z :=
  match hand_state (statem s) with
  | TLS_ST_SR_CLNT_HELLO => CLIENT_HELLO_MAX_LENGTH
  | TLS_ST_SR_END_OF_EARLY_DATA => END_OF_EARLY_DATA_MAX_LENGTH
  | TLS_ST_SR_CERT => max_cert_list s
  | TLS_ST_SR_KEY_EXCH => CLIENT_KEY_EXCH_MAX_LENGTH
  | TLS_ST_SR_CERT_VRFY => tls3_RT_MAX_PLAIN_LENGTH
  | TLS_ST_SR_NEXT_PROTO => NEXT_PROTO_MAX_LENGTH
  | TLS_ST_SR_CHANGE => CCS_MAX_LENGTH
  | TLS_ST_SR_FINISHED => FINISHED_MAX_LENGTH
  | TLS_ST_SR_KEY_UPDATE => KEY_UPDATE_MAX_LENGTH
  | _ => 0
  end.

(** The processing function of a state. *)
Definition server_process (h : Otls_HANDSHAKE_STATE) : option process_f :=
  match h with
  | TLS_ST_SR_CLNT_HELLO => Some tls_process_client_hello
  | TLS_ST_SR_END_OF_EARLY_DATA => Some tls_process_end_of_early_data
  | TLS_ST_SR_CERT => Some tls_process_client_certificate
  | TLS_ST_SR_KEY_EXCH => Some tls_process_client_key_exchange
  | TLS_ST_SR_CERT_VRFY => Some tls_process_cert_verify
  | TLS_ST_SR_NEXT_PROTO => Some tls_process_next_proto
  | TLS_ST_SR_CHANGE => Some tls_process_change_cipher_spec
  | TLS_ST_SR_FINISHED => Some tls_process_finished
  | TLS_ST_SR_KEY_UPDATE => Some tls_process_key_update
  | _ => None
  end.

Definition otls_statem_server_process_message (s : tls) (pkt : PACKET)
  : MSG_PROCESS_RETURN * tls :=
  match server_process (hand_state (statem s)) with
  | None => (MSG_PROCESS_ERROR, tlsfatal s tls_AD_INTERNAL_ERROR)
  | Some f => run_process f pkt s
  end.

Definition otls_statem_server_post_process_message (s : tls) (wst : WORK_STATE)
  : WORK_STATE * tls :=
  match hand_state (statem s) with
  | TLS_ST_SR_CLNT_HELLO => run_post_process tls_post_process_client_hello wst s
  | TLS_ST_SR_KEY_EXCH => run_post_process tls_post_process_client_key_exchange wst s
  | _ => (WORK_ERROR, tlsfatal s tls_AD_INTERNAL_ERROR)
  end.

End Server.
