(* ===== verification/Statem.v ===== *)
(** * The message flow state machine, [src/ssl/statem/statem.c]

    [state_machine] alternates between the reading and the writing sub-state
    machine until the handshake is finished, an error occurs or the transport
    would block.  The loops carry fuel: one unit per iteration. *)

From S2P Require Import Prelude Mem Packet Buffer WPacket Wire TlsState StatemLib Dtls DtlsWrite StatemClnt StatemSrvr.

(** ** Queries and requests *)

Definition tls_get_state (s : tls) : Otls_HANDSHAKE_STATE := hand_state (statem s).

Definition tls_is_init_finished (s : tls) : bool :=
  negb (in_init (statem s)) && (hand_state (statem s) == TLS_ST_OK).

Definition tls_in_before (s : tls) : bool :=
  (hand_state (statem s) == TLS_ST_BEFORE) && (state (statem s) == MSG_FLOW_UNINITED).

Definition otls_statem_clear (s : tls) : tls :=
  s <| statem .: state := MSG_FLOW_UNINITED |> <| statem .: hand_state := TLS_ST_BEFORE |>
    <| statem .: in_init := true |> <| statem .: no_cert_verify := false |>.

Definition otls_statem_get_in_handshake (s : tls) : Z := in_handshake (statem s).

Definition otls_statem_set_in_handshake (s : tls) (inhand : bool) : tls :=
  s <| statem ::= fun st =>
         st <| in_handshake ::= fun n => if inhand then n + 1 else n - 1 |> |>.

Definition otls_statem_skip_early_data (s : tls) : bool :=
  if negb (early_data (ext s) =? tls_EARLY_DATA_REJECTED) then false
  else if negb (server s) || (hand_state (statem s) != TLS_ST_EARLY_DATA)
          || (hello_retry_request s == tls_HRR_COMPLETE)
  then false
  else true.

(** [sending] is 1, 0 or -1. *)
Definition otls_statem_check_finish_init (s : tls) (sending : Z) : tls :=
  let hs := hand_state (statem s) in
  let stop_writing s :=
    if early_data_state s == tls_EARLY_DATA_WRITE_RETRY
    then s <| early_data_state := tls_EARLY_DATA_FINISHED_WRITING |> else s in
  if sending =? -1 then
    if (hs == TLS_ST_PENDING_EARLY_DATA_END) || (hs == TLS_ST_EARLY_DATA)
    then stop_writing (otls_statem_set_in_init s true) else s
  else if negb (server s) then
    if (truth sending
        && ((hs == TLS_ST_PENDING_EARLY_DATA_END) || (hs == TLS_ST_EARLY_DATA))
        && (early_data_state s != tls_EARLY_DATA_WRITING))
       || (negb (truth sending) && (hs == TLS_ST_EARLY_DATA))
    then
      let s := otls_statem_set_in_init s true in
      if truth sending then stop_writing s else s
    else s
  else
    if (early_data_state s == tls_EARLY_DATA_FINISHED_READING) && (hs == TLS_ST_EARLY_DATA)
    then otls_statem_set_in_init s true else s.

Definition otls_statem_set_hello_verify_done (s : tls) : tls :=
  s <| statem .: state := MSG_FLOW_UNINITED |> <| statem .: in_init := true |>
    <| statem .: hand_state := TLS_ST_SR_CLNT_HELLO |>.

Definition otls_statem_app_data_allowed (s : tls) : bool :=
  if state (statem s) == MSG_FLOW_UNINITED then false
  else if (in_read_app_data (s3 s) =? 0) || (total_renegotiations (s3 s) =? 0) then false
  else if server s then
    (hand_state (statem s) == TLS_ST_BEFORE) || (hand_state (statem s) == TLS_ST_SR_CLNT_HELLO)
  else hand_state (statem s) == TLS_ST_CW_CLNT_HELLO.

Definition otls_statem_export_allowed (s : tls) : bool :=
  negb (previous_server_finished_len (s3 s) =? 0)
  && (hand_state (statem s) != TLS_ST_SW_FINISHED).

Definition otls_statem_export_early_allowed (s : tls) : bool :=
  (early_data (ext s) =? tls_EARLY_DATA_ACCEPTED)
  || (negb (server s) && negb (early_data (ext s) =? tls_EARLY_DATA_NOT_SENT)).

(** ** The sub-state machines *)

(** The message constructors. *)
Class Constructors : Type := {
  run_construct : confunc_f -> tls -> WPACKET -> bool * tls * WPACKET;
}.

Section Flow.
Context `{Malloc} `{Callouts} `{Constructors}.
Variable secure : Z -> option (list Z).

Definition init_read_state_machine (s : tls) : tls :=
  s <| statem .: read_state := READ_STATE_HEADER |>.

Definition init_write_state_machine (s : tls) : tls :=
  s <| statem .: write_state := WRITE_STATE_TRANSITION |>.

(** [init_msg] is an offset, so moving the block needs no adjustment of it. *)
Definition grow_init_buf (s : tls) (size : Z) : option (bool * tls) :=
  match init_buf s with
  | None => None
  | Some m =>
      let msg_offset := init_msg s in
      '(r, m') ← BUF_MEM_grow_clean secure m (sz (s32 size));
      let s := s <| init_buf := Some m' |> in
      if r =? 0 then Some (false, s)
      else if size <? msg_offset then Some (false, s)
      else Some (true, s <| init_msg := msg_offset |>)
  end.

(** The functions of the side we are on. *)
Definition read_transition (s : tls) (mt : Z) : bool * tls :=
  if server s then otls_statem_server_read_transition s mt
  else otls_statem_client_read_transition s mt.

Definition max_message_size (s : tls) : Z :=
  if server s then otls_statem_server_max_message_size s
  else otls_statem_client_max_message_size s.

Definition process_message (s : tls) (pkt : PACKET) : MSG_PROCESS_RETURN * tls :=
  if server s then otls_statem_server_process_message s pkt
  else otls_statem_client_process_message s pkt.

Definition post_process_message (s : tls) (wst : WORK_STATE) : WORK_STATE * tls :=
  if server s then otls_statem_server_post_process_message s wst
  else otls_statem_client_post_process_message s wst.

Definition write_transition (s : tls) : WRITE_TRAN * tls :=
  if server s then otls_statem_server_write_transition s
  else otls_statem_client_write_transition s.

Definition pre_work (s : tls) (wst : WORK_STATE) : WORK_STATE * tls :=
  if server s then otls_statem_server_pre_work s wst else otls_statem_client_pre_work s wst.

Definition post_work (s : tls) (wst : WORK_STATE) : WORK_STATE * tls :=
  if server s then otls_statem_server_post_work s wst else otls_statem_client_post_work s wst.

Definition get_construct_message_f (s : tls) : bool * tls * option (option confunc_f * Z) :=
  if server s then otls_statem_server_construct_message s
  else otls_statem_client_construct_message s.

Definition loop_info (s : tls) : tls :=
  call_info s (if server s then tls_CB_ACCEPT_LOOP else tls_CB_CONNECT_LOOP) 1.

(** The result of one turn of a sub-state machine's loop: it returns or goes on. *)
Definition turn : Type := option SUB_STATE_RETURN * tls.

Definition sub_error (s : tls) : comp turn := Ret (Some SUB_STATE_ERROR, s).

Definition stop_timer (s : tls) : tls :=
  if tls_IS_DTLS s then dtls1_stop_timer s else s.

(** [case READ_STATE_BODY]; [len] was set by [dtls_get_message]. *)
Definition read_body (fuel : nat) (s : tls) (len : Z) : comp turn :=
  '(ok, len, s) ←
    (if negb (tls_IS_DTLS s) then tls_get_message_body fuel s else Ret (true, len, s));
  if negb ok then sub_error s
  else
    let s := s <| first_packet := false |> in
    let '(ok, pkt) := PACKET_buf_init (mk_PACKET None 0) (Some (init_msg s)) len in
    if negb ok then sub_error (tlsfatal s tls_AD_INTERNAL_ERROR)
    else
      let '(ret, s) := process_message s pkt in
      let s := s <| init_num := 0 |> in
      match ret with
      | MSG_PROCESS_ERROR => sub_error (check_fatal s)
      | MSG_PROCESS_FINISHED_READING => Ret (Some SUB_STATE_FINISHED, stop_timer s)
      | MSG_PROCESS_CONTINUE_PROCESSING =>
          Ret (None, s <| statem .: read_state := READ_STATE_POST_PROCESS |>
                       <| statem .: read_state_work := WORK_MORE_A |>)
      | MSG_PROCESS_CONTINUE_READING =>
          Ret (None, s <| statem .: read_state := READ_STATE_HEADER |>)
      end.

(** [case READ_STATE_HEADER], which falls into the next one. *)
Definition read_header (fuel : nat) (s : tls) : comp turn :=
  '(ok, mt, len, s) ←
    (if tls_IS_DTLS s then dtls_get_message secure fuel s
     else '(ok, mt, s) ← tls_get_message_header fuel s; Ret (ok, mt, 0, s));
  if negb ok then sub_error s
  else
    let s := loop_info s in
    let '(ok, s) := read_transition s mt in
    if negb ok then sub_error s
    else if max_message_size s <? message_size (tmp (s3 s))
    then sub_error (tlsfatal s tls_AD_ILLEGAL_PARAMETER)
    else
      '(ok, s) ←
        (if negb (tls_IS_DTLS s) && (0 <? message_size (tmp (s3 s)))
         then defined (grow_init_buf s (message_size (tmp (s3 s)) + tls3_HM_HEADER_LENGTH))
         else Ret (true, s));
      if negb ok then sub_error (tlsfatal s tls_AD_INTERNAL_ERROR)
      else read_body fuel (s <| statem .: read_state := READ_STATE_BODY |>) len.

(** [case READ_STATE_POST_PROCESS] *)
Definition read_post_process (s : tls) : comp turn :=
  let '(wst, s) := post_process_message s (read_state_work (statem s)) in
  let s := s <| statem .: read_state_work := wst |> in
  match wst with
  | WORK_ERROR => sub_error (check_fatal s)
  | WORK_MORE_A | WORK_MORE_B | WORK_MORE_C => sub_error s
  | WORK_FINISHED_CONTINUE => Ret (None, s <| statem .: read_state := READ_STATE_HEADER |>)
  | WORK_FINISHED_STOP => Ret (Some SUB_STATE_FINISHED, stop_timer s)
  end.

Definition read_turn (fuel : nat) (s : tls) : comp turn :=
  match read_state (statem s) with
  | READ_STATE_HEADER => read_header fuel s
  | READ_STATE_BODY => read_body fuel s 0
  | READ_STATE_POST_PROCESS => read_post_process s
  end.

Fixpoint sub_loop (turn_of : tls -> comp turn) (fuel : nat) (s : tls)
  : comp (SUB_STATE_RETURN * tls) :=
  match fuel with
  | O => NoFuel
  | S fuel =>
      '(r, s) ← turn_of s;
      match r with
      | Some ret => Ret (ret, s)
      | None => sub_loop turn_of fuel s
      end
  end.

Definition read_state_machine (fuel : nat) (s : tls) : comp (SUB_STATE_RETURN * tls) :=
  let s :=
    if read_state_first_init (statem s)
    then s <| first_packet := true |> <| statem .: read_state_first_init := false |> else s in
  sub_loop (read_turn fuel) fuel s.

Definition statem_do_write (s : tls) : comp (Z * tls) :=
  if (hand_state (statem s) == TLS_ST_CW_CHANGE) || (hand_state (statem s) == TLS_ST_SW_CHANGE)
  then if tls_IS_DTLS s then dtls1_do_write tls3_RT_CHANGE_CIPHER_SPEC s
       else tls3_do_write s tls3_RT_CHANGE_CIPHER_SPEC
  else if tls_IS_DTLS s then dtls1_do_write tls3_RT_HANDSHAKE s
  else tls3_handshake_write s.

(** [case WRITE_STATE_TRANSITION] *)
Definition write_trans (s : tls) : comp turn :=
  let '(r, s) := write_transition (loop_info s) in
  match r with
  | WRITE_TRAN_CONTINUE =>
      Ret (None, s <| statem .: write_state := WRITE_STATE_PRE_WORK |>
                   <| statem .: write_state_work := WORK_MORE_A |>)
  | WRITE_TRAN_FINISHED => Ret (Some SUB_STATE_FINISHED, s)
  | WRITE_TRAN_ERROR => sub_error (check_fatal s)
  end.

(** [case WRITE_STATE_POST_WORK] *)
Definition write_post_work (s : tls) : comp turn :=
  let '(wst, s) := post_work s (write_state_work (statem s)) in
  let s := s <| statem .: write_state_work := wst |> in
  match wst with
  | WORK_ERROR => sub_error (check_fatal s)
  | WORK_MORE_A | WORK_MORE_B | WORK_MORE_C => sub_error s
  | WORK_FINISHED_CONTINUE =>
      Ret (None, s <| statem .: write_state := WRITE_STATE_TRANSITION |>)
  | WORK_FINISHED_STOP => Ret (Some SUB_STATE_END_HANDSHAKE, s)
  end.

Definition to_post_work (s : tls) : tls :=
  s <| statem .: write_state := WRITE_STATE_POST_WORK |>
    <| statem .: write_state_work := WORK_MORE_A |>.

(** [case WRITE_STATE_SEND], which falls into the next one. *)
Definition write_send (s : tls) : comp turn :=
  let s := if tls_IS_DTLS s && use_timer (statem s) then dtls1_start_timer s else s in
  '(ret, s) ← statem_do_write s;
  if ret <=? 0 then sub_error s else write_post_work (to_post_work s).

Definition set_handshake_header (s : tls) (pkt : WPACKET) (mt : Z)
  : option (bool * tls * WPACKET) :=
  if tls_IS_DTLS s then dtls1_set_handshake_header secure s pkt mt
  else '(ok, pkt) ← tls3_set_handshake_header secure pkt mt; Some (ok, s, pkt).

Definition close_construct_packet (s : tls) (pkt : WPACKET) (mt : Z)
  : option (bool * tls * WPACKET) :=
  if tls_IS_DTLS s then dtls1_close_construct_packet s pkt mt
  else tls_close_construct_packet s pkt mt.

(** Constructing a message in [s->init_buf]. *)
Definition construct (s : tls) (confunc : option confunc_f) (mt : Z) : comp (bool * tls) :=
  '(ok, pkt) ← defined (WPACKET_init secure blank_wpacket (init_buf s));
  '(ok, s, pkt) ←
    (if negb ok then Ret (false, s, pkt) else defined (set_handshake_header s pkt mt));
  if negb ok then Ret (false, tlsfatal (write_back s pkt) tls_AD_INTERNAL_ERROR)
  else
    let '(ok, s, pkt) :=
      match confunc with None => (true, s, pkt) | Some f => run_construct f s pkt end in
    if negb ok then Ret (false, check_fatal (write_back s pkt))
    else
      '(ok, s, pkt) ← defined (close_construct_packet s pkt mt);
      '(ok, pkt) ← (if negb ok then Ret (false, pkt) else defined (WPACKET_finish pkt));
      if negb ok then Ret (false, tlsfatal (write_back s pkt) tls_AD_INTERNAL_ERROR)
      else Ret (true, write_back s pkt).

(** [case WRITE_STATE_PRE_WORK], which falls into the next one. *)
Definition write_pre_work (s : tls) : comp turn :=
  let '(wst, s) := pre_work s (write_state_work (statem s)) in
  let s := s <| statem .: write_state_work := wst |> in
  match wst with
  | WORK_ERROR => sub_error (check_fatal s)
  | WORK_MORE_A | WORK_MORE_B | WORK_MORE_C => sub_error s
  | WORK_FINISHED_STOP => Ret (Some SUB_STATE_END_HANDSHAKE, s)
  | WORK_FINISHED_CONTINUE =>
      let s := s <| statem .: write_state := WRITE_STATE_SEND |> in
      let '(ok, s, msg) := get_construct_message_f s in
      match msg with
      | Some (confunc, mt) =>
          if negb ok then sub_error s
          else if mt =? tls3_MT_DUMMY then Ret (None, to_post_work s)
          else
            '(ok, s) ← construct s confunc mt;
            if negb ok then sub_error s else write_send s
      | None => sub_error s
      end
  end.

Definition write_turn (s : tls) : comp turn :=
  match write_state (statem s) with
  | WRITE_STATE_TRANSITION => write_trans s
  | WRITE_STATE_PRE_WORK => write_pre_work s
  | WRITE_STATE_SEND => write_send s
  | WRITE_STATE_POST_WORK => write_post_work s
  end.

Definition write_state_machine (fuel : nat) (s : tls) : comp (SUB_STATE_RETURN * tls) :=
  sub_loop write_turn fuel s.

(** ** The message flow *)

Definition set_state (s : tls) (m : MSG_FLOW_STATE) : tls := s <| statem .: state := m |>.

(** The [while] loop of [state_machine]; false is [goto end]. *)
Fixpoint flow_loop (fuel : nat) (s : tls) : comp (bool * tls) :=
  match state (statem s) with
  | MSG_FLOW_FINISHED => Ret (true, s)
  | m =>
      match fuel with
      | O => NoFuel
      | S fuel' =>
          match m with
          | MSG_FLOW_READING =>
              '(r, s) ← read_state_machine fuel s;
              match r with
              | SUB_STATE_FINISHED =>
                  flow_loop fuel' (init_write_state_machine (set_state s MSG_FLOW_WRITING))
              | _ => Ret (false, s)
              end
          | MSG_FLOW_WRITING =>
              '(r, s) ← write_state_machine fuel s;
              match r with
              | SUB_STATE_FINISHED =>
                  flow_loop fuel' (init_read_state_machine (set_state s MSG_FLOW_READING))
              | SUB_STATE_END_HANDSHAKE => flow_loop fuel' (set_state s MSG_FLOW_FINISHED)
              | SUB_STATE_ERROR => Ret (false, s)
              end
          | _ => Ret (false, check_fatal s)
          end
      end
  end.

(** Is the protocol version one of the method's family? *)
Definition version_ok (s : tls) (server' : bool) : bool :=
  if tls_IS_DTLS s then
    negb (negb (Z.land (version s) 0xff00 =? Z.land DTLS1_VERSION 0xff00)
          && (server' || negb (Z.land (version s) 0xff00 =? Z.land DTLS1_BAD_VER 0xff00)))
  else Z.shiftr (version s) 8 =? tls3_VERSION_MAJOR.

(** Allocating [s->init_buf] if there is none. *)
Definition ensure_init_buf (s : tls) : option (bool * tls) :=
  match init_buf s with
  | Some _ => Some (true, s)
  | None =>
      match BUF_MEM_new with
      | None => Some (false, s)
      | Some buf =>
          '(r, buf) ← BUF_MEM_grow secure buf tls3_RT_MAX_PLAIN_LENGTH;
          if r =? 0 then Some (false, s) else Some (true, s <| init_buf := Some buf |>)
      end
  end.

(** The block that starts a handshake; false is [goto end]. *)
Definition start_handshake (s : tls) (server' : bool) : comp (bool * tls) :=
  let fail s := Ret (false, tlsfatal s tls_AD_NO_ALERT) in
  let s :=
    if state (statem s) == MSG_FLOW_UNINITED
    then s <| statem .: hand_state := TLS_ST_BEFORE |>
           <| statem .: request_state := TLS_ST_BEFORE |> else s in
  let s := s <| server := server' |> in
  let s := if tls_IS_FIRST_HANDSHAKE s || negb (tls_IS_TLS13 s)
           then call_info s tls_CB_HANDSHAKE_START 1 else s in
  if negb (version_ok s server') then fail s
  else if negb (tls_security_version s (version s)) then fail s
  else
    '(ok, s) ← defined (ensure_init_buf s);
    if negb ok then fail s
    else
      let '(ok, s) := tls3_setup_buffers s in
      if negb ok then fail s
      else
        let s := s <| init_num := 0 |> <| s3 .: change_cipher_spec := false |> in
        let '(ok, s) := tls_init_wbio_buffer s in
        if negb ok then fail s
        else
          let '(ok, s) :=
            if tls_in_before s || renegotiate s then
              let '(ok, s) := tls_setup_handshake s in
              (ok, if ok && tls_IS_FIRST_HANDSHAKE s
                   then s <| statem .: read_state_first_init := true |> else s)
            else (true, s) in
          if negb ok then Ret (false, s)
          else Ret (true, init_write_state_machine (set_state s MSG_FLOW_WRITING)).

Definition state_machine (fuel : nat) (s : tls) (server' : bool) : comp (Z * tls) :=
  if state (statem s) == MSG_FLOW_ERROR then Ret (-1, s)
  else
    let s := otls_statem_set_in_handshake s true in
    let '(cleared, s) :=
      if (negb (tls_in_init s) || tls_in_before s)
         && negb (has_bits (flags (s3 s)) TLS1_FLAGS_STATELESS)
      then tls_clear s else (true, s) in
    if negb cleared then Ret (-1, s)
    else
      '(ok, s) ←
        (if (state (statem s) == MSG_FLOW_UNINITED) || (state (statem s) == MSG_FLOW_FINISHED)
         then start_handshake s server' else Ret (true, s));
      '(ok, s) ← (if negb ok then Ret (false, s) else flow_loop fuel s);
      let ret := if (ok : bool) then 1 else -1 in
      let s := otls_statem_set_in_handshake s false in
      Ret (ret, call_info s (if server' then tls_CB_ACCEPT_EXIT else tls_CB_CONNECT_EXIT) ret).

Definition otls_statem_connect (fuel : nat) (s : tls) : comp (Z * tls) :=
  state_machine fuel s false.

Definition otls_statem_accept (fuel : nat) (s : tls) : comp (Z * tls) :=
  state_machine fuel s true.

End Flow.
