(* ===== verification/Sample.v ===== *)
(** * Concrete connections

    A cooperative environment and connection objects on which the theorems of the
    following files are instantiated. *)

From S2P Require Import Prelude Mem PQueue Packet Buffer WPacket Wire TlsState Protocol StatemLib Dtls DtlsWrite StatemClnt StatemSrvr Statem.

(** The default build: everything but SSL 3. *)
Definition default_build : Build := {|
  no_tls1_3 := false; no_tls1_2 := false; no_tls1_1 := false; no_tls1 := false; no_tls3 := true;
  no_dtls1_2 := false; no_dtls1 := false
|}.

Definition yes : action := fun s => (true, s).
Definition no_record (s : tls) : Z := 0.
Definition no_hash (bytes : list Z) : action := yes.
Definition no_write (bytes : list Z) (s : tls) : Z * Z * tls := (1, zlen bytes, s).

(** An environment in which every call succeeds, but for what [clear] says of
    [tls_clear]; [read] says what arrives, [left] how much of the record is left,
    [hash] how messages are hashed, [write] what happens to datagrams and [process] what
    a message leads to; [epoch] and [set_epoch] are of the epoch that is written in. *)

Definition epoch_environment (epoch : tls -> Z) (set_epoch : Z -> tls -> tls)
  (clear : action) (read : Z -> tls -> Z * Z * list Z * tls) (left : tls -> Z)
  (hash : list Z -> action) (write : list Z -> tls -> Z * Z * tls)
  (process : process_f -> PACKET -> tls -> MSG_PROCESS_RETURN * tls) : Callouts := {|
  callouts_build := default_build;
  BIO_flush _ := 1;
  tls_clear := clear;
  tls_security_version _ _ := true;
  tls3_setup_buffers := yes;
  tls_init_wbio_buffer := yes;
  tls_free_wbio_buffer := yes;
  tls3_init_finished_mac := yes;
  tls3_finish_mac := hash;
  tls3_take_mac := yes;
  tls_get_ciphers _ := [mk_tls_CIPHER 0 0 TLS1_VERSION TLS1_3_VERSION DTLS1_VERSION DTLS1_2_VERSION];
  setup_key_block := yes;
  change_cipher_state _ := yes;
  tls13_change_cipher_state _ := yes;
  generate_master_secret := yes;
  tls13_update_key := yes;
  tls13_save_handshake_digest_for_pha := yes;
  tls13_restore_handshake_digest_for_pha := yes;
  tls_client_key_exchange_post_work := yes;
  RECORD_LAYER_read_pending _ := false;
  RECORD_LAYER_write_pending _ := false;
  RECORD_LAYER_is_tlsv2_record _ := false;
  RECORD_LAYER_get_rrec_length := left;
  tls_error_is_syscall _ := false;
  get_last_sys_error _ := 0;
  tls_read_bytes _ := read;
  tls3_write_bytes _ bytes s := (1, zlen bytes, s);
  dtls1_write_bytes _ := write;
  DTLS_RECORD_LAYER_get_w_epoch := epoch;
  DTLS_RECORD_LAYER_set_saved_w_epoch := set_epoch;
  BIO_wpending _ := 0;
  BIO_dgram_get_mtu_overhead _ := 28;
  BIO_dgram_query_mtu _ := 1472;
  BIO_dgram_get_fallback_mtu _ := 508;
  BIO_dgram_mtu_exceeded _ := false;
  EVP_CIPHER_is_aead _ := false;
  EVP_CIPHER_is_cbc _ := false;
  EVP_CIPHER_CTX_block_size _ := 16;
  EVP_MD_CTX_size _ := 20;
  get_current_time s := (mk_timeval 1000 0, s);
  call_timer_cb _ n := n;
  run_process := process;
  run_post_process _ _ s := (WORK_FINISHED_CONTINUE, s);
|}.

(** There is one epoch only. *)
Notation environment := (epoch_environment (fun _ => 0) (fun _ s => s)).

(** Nothing arrives. *)
Definition quiet : Callouts :=
  environment yes (fun _ s => (-1, 0, [], s)) no_record no_hash no_write (fun _ _ s => (MSG_PROCESS_CONTINUE_READING, s)).

Definition sample_statem (h : Otls_HANDSHAKE_STATE) : Otls_STATEM :=
  mk_Otls_STATEM MSG_FLOW_READING WRITE_STATE_TRANSITION WORK_MORE_A READ_STATE_HEADER
    WORK_MORE_A h TLS_ST_BEFORE true false 1 true false false
    ENC_WRITE_STATE_VALID ENC_READ_STATE_VALID.

(** A cipher suite with ephemeral key exchange and RSA authentication. *)
Definition ecdhe_rsa : tls_CIPHER :=
  mk_tls_CIPHER tls_kECDHE tls_aRSA TLS1_VERSION TLS1_2_VERSION DTLS1_VERSION DTLS1_2_VERSION.

(** Any version, no certificates, no callbacks. *)
Definition sample_conf : tls_CONF :=
  mk_tls_CONF TLS_ANY_VERSION 0 0 0 0 (replicate 32 0) (mk_CERT 0 [] None false [])
    false false false false 0 false 0 false false None None 0 false 0 16384
    16384 0 0 None 0 0 0 zero_d1.

(** A connection with method version [v], on side [srv], in handshake state [h]. *)
Definition sample_tls (v : Z) (srv : bool) (h : Otls_HANDSHAKE_STATE) : tls :=
  mk_tls 0x0303 v 0 tls_NOTHING (Some srv) srv false 0 (sample_statem h)
    tls_EARLY_DATA_NONE (Some (mk_BUF_MEM 0 None 0 0)) 0 0 0
    (mk_tls_S3 0 [] false false 0 0 0
       (mk_tls_S3_TMP 0 0 0 0 ecdhe_rsa 0 None false) 0 false)
    false false false false tls_HRR_NONE (mk_tls_SESSION false false None 0)
    false 0 0 102400 false (mk_tls_EXT [] 0 false false false) 0 2 true
    tls_KEY_UPDATE_NONE tls_PHA_NONE 0 0 false sample_conf [] [].

Definition sample13 := sample_tls TLS1_3_VERSION.
Definition sample12 := sample_tls TLS1_2_VERSION.

(** Connections that resume a session. *)
Definition resumed12 (srv : bool) (h : Otls_HANDSHAKE_STATE) : tls :=
  (sample12 srv h) <| hit := true |>.

(** Anonymous ephemeral Diffie-Hellman, and a server that insists on a certificate. *)
Definition anon12 (srv : bool) (h : Otls_HANDSHAKE_STATE) : tls :=
  (sample12 srv h)
    <| s3 ::= fun r => r <| tmp .: new_cipher :=
         mk_tls_CIPHER tls_kDHE tls_aNULL TLS1_VERSION TLS1_2_VERSION DTLS1_VERSION DTLS1_2_VERSION |> |>
    <| verify_mode := Z.lor tls_VERIFY_PEER tls_VERIFY_FAIL_IF_NO_PEER_CERT |>.

(** ** A scripted peer

    An environment whose record layer delivers the records that [rest] holds, each
    as its type, its length and its bytes, in the pieces that are asked for; what is
    written goes out.  Processing a message goes on reading, except for the last
    message of a flight. *)
Definition script_read (len : Z) (s : tls) : Z * Z * list Z * tls :=
  match rest s with
  | type :: size :: bytes =>
      let n := Z.min len size in
      let body := take (Z.to_nat n) bytes in
      let left := drop (Z.to_nat n) bytes in
      (n, type, body, s <| rest := if n =? size then left else type :: size - n :: left |>)
  | _ => (-1, 0, [], s)
  end.

Definition script_process (f : process_f) (pkt : PACKET) (s : tls) : MSG_PROCESS_RETURN * tls :=
  (match f with
   | tls_process_server_done | tls_process_finished | tls_process_client_hello =>
       MSG_PROCESS_FINISHED_READING
   | _ => MSG_PROCESS_CONTINUE_READING
   end, s).

Definition scripted : Callouts := environment yes script_read no_record no_hash no_write script_process.

(** The same, but clearing the connection fails. *)
Definition unclear : Callouts := environment (fun s => (false, s)) script_read no_record no_hash no_write script_process.

(** Every message has a body of two bytes, a ChangeCipherSpec its one. *)
Definition script_construct `{Malloc} (f : confunc_f) (s : tls) (pkt : WPACKET)
  : bool * tls * WPACKET :=
  let body := match f with tls_construct_change_cipher_spec => [1] | _ => [7; 7] end in
  match WPACKET_memcpy no_secure pkt body (zlen body) with
  | Some (ok, pkt') => (ok, s, pkt')
  | None => (false, s, pkt)
  end.

Definition scripted_constructors `{Malloc} : Constructors := {|
  run_construct := script_construct;
|}.

(** A client before its first handshake, that reports the messages it handles, and
    the records of its server. *)
Definition fresh_client (records : list Z) : tls :=
  (sample12 false TLS_ST_BEFORE)
    <| statem .: state := MSG_FLOW_UNINITED |> <| statem .: in_handshake := 0 |>
    <| init_buf := None |> <| msg_callback := true |> <| rest := records |>.

Definition server_records : list Z :=
  [22; 6; 2; 0; 0; 2; 3; 3] ++ [22; 8; 11; 0; 0; 0; 12; 0; 0; 1] ++ [22; 1; 9]
  ++ [22; 4; 14; 0; 0; 0] ++ [20; 1; 1] ++ [22; 5; 20; 0; 0; 1; 5].

(** A record layer that delivers the bytes of [rest] three at a time. *)
Definition drip_read (len : Z) (s : tls) : Z * Z * list Z * tls :=
  let n := Z.to_nat (Z.min len 3) in
  let bytes := take n (rest s) in
  (zlen bytes, tls3_RT_HANDSHAKE, bytes, s <| rest := drop n (rest s) |>).

Definition dripping : Callouts := environment yes (fun len => drip_read len) no_record no_hash no_write script_process.

(** Datagrams: [rest] holds what has been hashed, after its length, and the records,
    each as its length and its bytes; the first is the one that is being read. *)
Definition hashed_part (l : list Z) : list Z := take (Z.to_nat (hd 0 l)) (tail l).
Definition records_part (l : list Z) : list Z := drop (Z.to_nat (hd 0 l)) (tail l).
Definition datagram_rest (hashed records : list Z) : list Z := zlen hashed :: hashed ++ records.

Fixpoint skip_empty (l : list Z) : list Z :=
  match l with 0 :: l => skip_empty l | _ => l end.

Definition datagram_bytes (len : Z) (s : tls) : Z * Z * list Z * tls :=
  match skip_empty (records_part (rest s)) with
  | size :: bytes =>
      let n := Z.min len size in
      (n, tls3_RT_HANDSHAKE, take (Z.to_nat n) bytes,
       s <| rest := datagram_rest (hashed_part (rest s)) (size - n :: drop (Z.to_nat n) bytes) |>)
  | [] => (-1, 0, [], s)
  end.

Definition datagram_hash (bytes : list Z) (s : tls) : bool * tls :=
  (true, s <| rest := datagram_rest (hashed_part (rest s) ++ bytes) (records_part (rest s)) |>).

Definition datagrams : Callouts :=
  environment yes datagram_bytes (fun s => hd 0 (records_part (rest s))) datagram_hash no_write script_process.

(** The same record of what was hashed, with the datagrams sent, the last one first. *)
Definition datagram_write (bytes : list Z) (s : tls) : Z * Z * tls :=
  (1, zlen bytes,
   s <| rest := datagram_rest (hashed_part (rest s)) (zlen bytes :: bytes ++ records_part (rest s)) |>).

Definition postman : Callouts :=
  environment yes datagram_bytes no_record datagram_hash datagram_write script_process.

(** A whole TLS 1.2 handshake of a client, its server's messages cut and joined
    into records. *)
Definition handshake_end : comp (Z * tls) :=
  @state_machine generous_malloc scripted (@scripted_constructors generous_malloc) no_secure 40
    (fresh_client server_records) false.
