(* ===== verification/Extensions.v ===== *)
(** * TLS extensions

    The framework of [src/ssl/statem/extensions.c] and
    [src/ssl/statem/extensions_cust.c]: the table [ext_defs] of built-in extensions,
    collecting the extensions of a received message, parsing them, constructing
    those of a message to be sent, and the initialisers and finalisers whose
    effect is on modelled state.  The bodies of the other initialisers, parsers,
    constructors and finalisers and the application's callbacks are members of
    [ExtCallouts]. *)

From S2P Require Import Prelude Mem Packet Buffer WPacket TlsState Protocol StatemLib.

(** ** Constants *)

Definition tls_EXT_TLS_ONLY : Z := 0x0001.
Definition tls_EXT_DTLS_ONLY : Z := 0x0002.
Definition tls_EXT_TLS_IMPLEMENTATION_ONLY : Z := 0x0004.
Definition tls_EXT_tls3_ALLOWED : Z := 0x0008.
Definition tls_EXT_TLS1_2_AND_BELOW_ONLY : Z := 0x0010.
Definition tls_EXT_TLS1_3_ONLY : Z := 0x0020.
Definition tls_EXT_IGNORE_ON_RESUMPTION : Z := 0x0040.
Definition tls_EXT_CLIENT_HELLO : Z := 0x0080.
Definition tls_EXT_TLS1_2_SERVER_HELLO : Z := 0x0100.
Definition tls_EXT_TLS1_3_SERVER_HELLO : Z := 0x0200.
Definition tls_EXT_TLS1_3_ENCRYPTED_EXTENSIONS : Z := 0x0400.
Definition tls_EXT_TLS1_3_HELLO_RETRY_REQUEST : Z := 0x0800.
Definition tls_EXT_TLS1_3_CERTIFICATE : Z := 0x1000.
Definition tls_EXT_TLS1_3_NEW_SESSION_TICKET : Z := 0x2000.
Definition tls_EXT_TLS1_3_CERTIFICATE_REQUEST : Z := 0x4000.
Definition tls_EXT_FLAG_RECEIVED : Z := 0x1.
Definition tls_EXT_FLAG_SENT : Z := 0x2.

Definition TLSEXT_TYPE_server_name : Z := 0.
Definition TLSEXT_TYPE_max_fragment_length : Z := 1.
Definition TLSEXT_TYPE_status_request : Z := 5.
Definition TLSEXT_TYPE_supported_groups : Z := 10.
Definition TLSEXT_TYPE_ec_point_formats : Z := 11.
Definition TLSEXT_TYPE_srp : Z := 12.
Definition TLSEXT_TYPE_signature_algorithms : Z := 13.
Definition TLSEXT_TYPE_use_srtp : Z := 14.
Definition TLSEXT_TYPE_application_layer_protocol_negotiation : Z := 16.
Definition TLSEXT_TYPE_signed_certificate_timestamp : Z := 18.
Definition TLSEXT_TYPE_padding : Z := 21.
Definition TLSEXT_TYPE_encrypt_then_mac : Z := 22.
Definition TLSEXT_TYPE_extended_master_secret : Z := 23.
Definition TLSEXT_TYPE_session_ticket : Z := 35.
Definition TLSEXT_TYPE_psk : Z := 41.
Definition TLSEXT_TYPE_early_data : Z := 42.
Definition TLSEXT_TYPE_supported_versions : Z := 43.
Definition TLSEXT_TYPE_cookie : Z := 44.
Definition TLSEXT_TYPE_psk_kex_modes : Z := 45.
Definition TLSEXT_TYPE_certificate_authorities : Z := 47.
Definition TLSEXT_TYPE_post_handshake_auth : Z := 49.
Definition TLSEXT_TYPE_signature_algorithms_cert : Z := 50.
Definition TLSEXT_TYPE_key_share : Z := 51.
Definition TLSEXT_TYPE_renegotiate : Z := 0xff01.
Definition TLSEXT_TYPE_next_proto_neg : Z := 13172.
Definition TLSEXT_TYPE_cryptopro_bug : Z := 0xfde8.

Definition tls_AD_DECODE_ERROR : Z := 50.
Definition tls_AD_MISSING_EXTENSION : Z := 109.
Definition tls_AD_UNSUPPORTED_EXTENSION : Z := 110.

Definition tls_OP_LEGACY_SERVER_CONNECT : Z := 0x4.
Definition tls_OP_ALLOW_UNSAFE_LEGACY_RENEGOTIATION : Z := 0x40000.
Definition TLS1_FLAGS_RECEIVED_EXTMS : Z := 0x200.
Definition tls_SESS_FLAG_EXTMS : Z := 0x1.
Definition TLSEXT_KEX_MODE_FLAG_NONE : Z := 0.
Definition TLSEXT_KEX_MODE_FLAG_KE : Z := 1.
Definition TLSEXT_KEX_MODE_FLAG_KE_DHE : Z := 2.
Definition TLSEXT_ECPOINTFORMAT_uncompressed : Z := 0.
Definition TLSEXT_max_fragment_length_512 : Z := 1.
Definition TLSEXT_max_fragment_length_4096 : Z := 4.

(** ** The functions of the table, by the names of the C functions *)

Inductive ext_init_f : Type :=
| init_server_name | init_srp | init_session_ticket | init_status_request | init_npn
| init_alpn | init_srtp | init_etm | init_ems | init_sig_algs_cert
| init_post_handshake_auth | init_sig_algs | init_psk_kex_modes
| init_certificate_authorities.

Inductive ext_parse_f : Type :=
| tls_parse_ctos_renegotiate | tls_parse_stoc_renegotiate
| tls_parse_ctos_server_name | tls_parse_stoc_server_name
| tls_parse_ctos_maxfragmentlen | tls_parse_stoc_maxfragmentlen
| tls_parse_ctos_srp
| tls_parse_ctos_ec_pt_formats | tls_parse_stoc_ec_pt_formats
| tls_parse_ctos_supported_groups
| tls_parse_ctos_session_ticket | tls_parse_stoc_session_ticket
| tls_parse_ctos_status_request | tls_parse_stoc_status_request
| tls_parse_ctos_npn | tls_parse_stoc_npn
| tls_parse_ctos_alpn | tls_parse_stoc_alpn
| tls_parse_ctos_use_srtp | tls_parse_stoc_use_srtp
| tls_parse_ctos_etm | tls_parse_stoc_etm
| tls_parse_stoc_sct
| tls_parse_ctos_ems | tls_parse_stoc_ems
| tls_parse_ctos_sig_algs_cert
| tls_parse_ctos_post_handshake_auth
| tls_parse_ctos_sig_algs
| tls_parse_stoc_supported_versions
| tls_parse_ctos_psk_kex_modes
| tls_parse_ctos_key_share | tls_parse_stoc_key_share
| tls_parse_ctos_cookie | tls_parse_stoc_cookie
| tls_parse_ctos_early_data | tls_parse_stoc_early_data
| tls_parse_certificate_authorities
| tls_parse_ctos_psk | tls_parse_stoc_psk.

Inductive ext_construct_f : Type :=
| tls_construct_stoc_renegotiate | tls_construct_ctos_renegotiate
| tls_construct_stoc_server_name | tls_construct_ctos_server_name
| tls_construct_stoc_maxfragmentlen | tls_construct_ctos_maxfragmentlen
| tls_construct_ctos_srp
| tls_construct_stoc_ec_pt_formats | tls_construct_ctos_ec_pt_formats
| tls_construct_stoc_supported_groups | tls_construct_ctos_supported_groups
| tls_construct_stoc_session_ticket | tls_construct_ctos_session_ticket
| tls_construct_stoc_status_request | tls_construct_ctos_status_request
| tls_construct_stoc_next_proto_neg | tls_construct_ctos_npn
| tls_construct_stoc_alpn | tls_construct_ctos_alpn
| tls_construct_stoc_use_srtp | tls_construct_ctos_use_srtp
| tls_construct_stoc_etm | tls_construct_ctos_etm
| tls_construct_ctos_sct
| tls_construct_stoc_ems | tls_construct_ctos_ems
| tls_construct_ctos_post_handshake_auth
| tls_construct_ctos_sig_algs
| tls_construct_stoc_supported_versions | tls_construct_ctos_supported_versions
| tls_construct_ctos_psk_kex_modes
| tls_construct_stoc_key_share | tls_construct_ctos_key_share
| tls_construct_stoc_cookie | tls_construct_ctos_cookie
| tls_construct_stoc_cryptopro_bug
| tls_construct_stoc_early_data | tls_construct_ctos_early_data
| tls_construct_certificate_authorities
| tls_construct_ctos_padding
| tls_construct_stoc_psk | tls_construct_ctos_psk.

Inductive ext_final_f : Type :=
| final_renegotiate | final_server_name | final_maxfragmentlen | final_ec_pt_formats
| final_alpn | final_ems | final_sig_algs | final_key_share | final_early_data.

Inductive EXT_RETURN : Type := EXT_RETURN_FAIL | EXT_RETURN_SENT | EXT_RETURN_NOT_SENT.

(** ** The built-in extensions *)

(** [EXTENSION_DEFINITION]; a NULL function is [None]. *)
Record EXTENSION_DEFINITION := mk_EXTENSION_DEFINITION {
  xd_type : Z;
  xd_context : Z;
  xd_init : option ext_init_f;
  parse_ctos : option ext_parse_f;
  parse_stoc : option ext_parse_f;
  construct_stoc : option ext_construct_f;
  construct_ctos : option ext_construct_f;
  xd_final : option ext_final_f
}.

Local Infix "|||" := Z.lor (at level 50, left associativity).

Definition def_renegotiate : EXTENSION_DEFINITION :=
  mk_EXTENSION_DEFINITION TLSEXT_TYPE_renegotiate
    (tls_EXT_CLIENT_HELLO ||| tls_EXT_TLS1_2_SERVER_HELLO
     ||| tls_EXT_tls3_ALLOWED ||| tls_EXT_TLS1_2_AND_BELOW_ONLY)
    None (Some tls_parse_ctos_renegotiate) (Some tls_parse_stoc_renegotiate)
    (Some tls_construct_stoc_renegotiate) (Some tls_construct_ctos_renegotiate)
    (Some final_renegotiate).

Definition def_server_name : EXTENSION_DEFINITION :=
  mk_EXTENSION_DEFINITION TLSEXT_TYPE_server_name
    (tls_EXT_CLIENT_HELLO ||| tls_EXT_TLS1_2_SERVER_HELLO
     ||| tls_EXT_TLS1_3_ENCRYPTED_EXTENSIONS)
    (Some init_server_name)
    (Some tls_parse_ctos_server_name) (Some tls_parse_stoc_server_name)
    (Some tls_construct_stoc_server_name) (Some tls_construct_ctos_server_name)
    (Some final_server_name).

Definition def_max_fragment_length : EXTENSION_DEFINITION :=
  mk_EXTENSION_DEFINITION TLSEXT_TYPE_max_fragment_length
    (tls_EXT_CLIENT_HELLO ||| tls_EXT_TLS1_2_SERVER_HELLO
     ||| tls_EXT_TLS1_3_ENCRYPTED_EXTENSIONS)
    None (Some tls_parse_ctos_maxfragmentlen) (Some tls_parse_stoc_maxfragmentlen)
    (Some tls_construct_stoc_maxfragmentlen) (Some tls_construct_ctos_maxfragmentlen)
    (Some final_maxfragmentlen).

Definition def_srp : EXTENSION_DEFINITION :=
  mk_EXTENSION_DEFINITION TLSEXT_TYPE_srp
    (tls_EXT_CLIENT_HELLO ||| tls_EXT_TLS1_2_AND_BELOW_ONLY)
    (Some init_srp) (Some tls_parse_ctos_srp) None None (Some tls_construct_ctos_srp) None.

Definition def_ec_point_formats : EXTENSION_DEFINITION :=
  mk_EXTENSION_DEFINITION TLSEXT_TYPE_ec_point_formats
    (tls_EXT_CLIENT_HELLO ||| tls_EXT_TLS1_2_SERVER_HELLO
     ||| tls_EXT_TLS1_2_AND_BELOW_ONLY)
    None (Some tls_parse_ctos_ec_pt_formats) (Some tls_parse_stoc_ec_pt_formats)
    (Some tls_construct_stoc_ec_pt_formats) (Some tls_construct_ctos_ec_pt_formats)
    (Some final_ec_pt_formats).

Definition def_supported_groups : EXTENSION_DEFINITION :=
  mk_EXTENSION_DEFINITION TLSEXT_TYPE_supported_groups
    (tls_EXT_CLIENT_HELLO ||| tls_EXT_TLS1_3_ENCRYPTED_EXTENSIONS
     ||| tls_EXT_TLS1_2_SERVER_HELLO)
    None (Some tls_parse_ctos_supported_groups) None
    (Some tls_construct_stoc_supported_groups) (Some tls_construct_ctos_supported_groups) None.

Definition def_session_ticket : EXTENSION_DEFINITION :=
  mk_EXTENSION_DEFINITION TLSEXT_TYPE_session_ticket
    (tls_EXT_CLIENT_HELLO ||| tls_EXT_TLS1_2_SERVER_HELLO
     ||| tls_EXT_TLS1_2_AND_BELOW_ONLY)
    (Some init_session_ticket) (Some tls_parse_ctos_session_ticket)
    (Some tls_parse_stoc_session_ticket) (Some tls_construct_stoc_session_ticket)
    (Some tls_construct_ctos_session_ticket) None.

Definition def_status_request : EXTENSION_DEFINITION :=
  mk_EXTENSION_DEFINITION TLSEXT_TYPE_status_request
    (tls_EXT_CLIENT_HELLO ||| tls_EXT_TLS1_2_SERVER_HELLO
     ||| tls_EXT_TLS1_3_CERTIFICATE ||| tls_EXT_TLS1_3_CERTIFICATE_REQUEST)
    (Some init_status_request) (Some tls_parse_ctos_status_request)
    (Some tls_parse_stoc_status_request) (Some tls_construct_stoc_status_request)
    (Some tls_construct_ctos_status_request) None.

Definition def_next_proto_neg : EXTENSION_DEFINITION :=
  mk_EXTENSION_DEFINITION TLSEXT_TYPE_next_proto_neg
    (tls_EXT_CLIENT_HELLO ||| tls_EXT_TLS1_2_SERVER_HELLO
     ||| tls_EXT_TLS1_2_AND_BELOW_ONLY)
    (Some init_npn) (Some tls_parse_ctos_npn) (Some tls_parse_stoc_npn)
    (Some tls_construct_stoc_next_proto_neg) (Some tls_construct_ctos_npn) None.

Definition def_alpn : EXTENSION_DEFINITION :=
  mk_EXTENSION_DEFINITION TLSEXT_TYPE_application_layer_protocol_negotiation
    (tls_EXT_CLIENT_HELLO ||| tls_EXT_TLS1_2_SERVER_HELLO
     ||| tls_EXT_TLS1_3_ENCRYPTED_EXTENSIONS)
    (Some init_alpn) (Some tls_parse_ctos_alpn) (Some tls_parse_stoc_alpn)
    (Some tls_construct_stoc_alpn) (Some tls_construct_ctos_alpn) (Some final_alpn).

Definition def_use_srtp : EXTENSION_DEFINITION :=
  mk_EXTENSION_DEFINITION TLSEXT_TYPE_use_srtp
    (tls_EXT_CLIENT_HELLO ||| tls_EXT_TLS1_2_SERVER_HELLO
     ||| tls_EXT_TLS1_3_ENCRYPTED_EXTENSIONS ||| tls_EXT_DTLS_ONLY)
    (Some init_srtp) (Some tls_parse_ctos_use_srtp) (Some tls_parse_stoc_use_srtp)
    (Some tls_construct_stoc_use_srtp) (Some tls_construct_ctos_use_srtp) None.

Definition def_encrypt_then_mac : EXTENSION_DEFINITION :=
  mk_EXTENSION_DEFINITION TLSEXT_TYPE_encrypt_then_mac
    (tls_EXT_CLIENT_HELLO ||| tls_EXT_TLS1_2_SERVER_HELLO
     ||| tls_EXT_TLS1_2_AND_BELOW_ONLY)
    (Some init_etm) (Some tls_parse_ctos_etm) (Some tls_parse_stoc_etm)
    (Some tls_construct_stoc_etm) (Some tls_construct_ctos_etm) None.

Definition def_signed_certificate_timestamp : EXTENSION_DEFINITION :=
  mk_EXTENSION_DEFINITION TLSEXT_TYPE_signed_certificate_timestamp
    (tls_EXT_CLIENT_HELLO ||| tls_EXT_TLS1_2_SERVER_HELLO
     ||| tls_EXT_TLS1_3_CERTIFICATE ||| tls_EXT_TLS1_3_CERTIFICATE_REQUEST)
    None None (Some tls_parse_stoc_sct) None (Some tls_construct_ctos_sct) None.

Definition def_extended_master_secret : EXTENSION_DEFINITION :=
  mk_EXTENSION_DEFINITION TLSEXT_TYPE_extended_master_secret
    (tls_EXT_CLIENT_HELLO ||| tls_EXT_TLS1_2_SERVER_HELLO
     ||| tls_EXT_TLS1_2_AND_BELOW_ONLY)
    (Some init_ems) (Some tls_parse_ctos_ems) (Some tls_parse_stoc_ems)
    (Some tls_construct_stoc_ems) (Some tls_construct_ctos_ems) (Some final_ems).

Definition def_signature_algorithms_cert : EXTENSION_DEFINITION :=
  mk_EXTENSION_DEFINITION TLSEXT_TYPE_signature_algorithms_cert
    (tls_EXT_CLIENT_HELLO ||| tls_EXT_TLS1_3_CERTIFICATE_REQUEST)
    (Some init_sig_algs_cert) (Some tls_parse_ctos_sig_algs_cert)
    (Some tls_parse_ctos_sig_algs_cert) None None None.

Definition def_post_handshake_auth : EXTENSION_DEFINITION :=
  mk_EXTENSION_DEFINITION TLSEXT_TYPE_post_handshake_auth
    (tls_EXT_CLIENT_HELLO ||| tls_EXT_TLS1_3_ONLY)
    (Some init_post_handshake_auth) (Some tls_parse_ctos_post_handshake_auth) None
    None (Some tls_construct_ctos_post_handshake_auth) None.

Definition def_signature_algorithms : EXTENSION_DEFINITION :=
  mk_EXTENSION_DEFINITION TLSEXT_TYPE_signature_algorithms
    (tls_EXT_CLIENT_HELLO ||| tls_EXT_TLS1_3_CERTIFICATE_REQUEST)
    (Some init_sig_algs) (Some tls_parse_ctos_sig_algs) (Some tls_parse_ctos_sig_algs)
    (Some tls_construct_ctos_sig_algs) (Some tls_construct_ctos_sig_algs) (Some final_sig_algs).

Definition def_supported_versions : EXTENSION_DEFINITION :=
  mk_EXTENSION_DEFINITION TLSEXT_TYPE_supported_versions
    (tls_EXT_CLIENT_HELLO ||| tls_EXT_TLS1_3_SERVER_HELLO
     ||| tls_EXT_TLS1_3_HELLO_RETRY_REQUEST ||| tls_EXT_TLS_IMPLEMENTATION_ONLY)
    None None (Some tls_parse_stoc_supported_versions)
    (Some tls_construct_stoc_supported_versions) (Some tls_construct_ctos_supported_versions) None.

Definition def_psk_kex_modes : EXTENSION_DEFINITION :=
  mk_EXTENSION_DEFINITION TLSEXT_TYPE_psk_kex_modes
    (tls_EXT_CLIENT_HELLO ||| tls_EXT_TLS_IMPLEMENTATION_ONLY ||| tls_EXT_TLS1_3_ONLY)
    (Some init_psk_kex_modes) (Some tls_parse_ctos_psk_kex_modes) None None
    (Some tls_construct_ctos_psk_kex_modes) None.

Definition def_key_share : EXTENSION_DEFINITION :=
  mk_EXTENSION_DEFINITION TLSEXT_TYPE_key_share
    (tls_EXT_CLIENT_HELLO ||| tls_EXT_TLS1_3_SERVER_HELLO
     ||| tls_EXT_TLS1_3_HELLO_RETRY_REQUEST ||| tls_EXT_TLS_IMPLEMENTATION_ONLY
     ||| tls_EXT_TLS1_3_ONLY)
    None (Some tls_parse_ctos_key_share) (Some tls_parse_stoc_key_share)
    (Some tls_construct_stoc_key_share) (Some tls_construct_ctos_key_share)
    (Some final_key_share).

Definition def_cookie : EXTENSION_DEFINITION :=
  mk_EXTENSION_DEFINITION TLSEXT_TYPE_cookie
    (tls_EXT_CLIENT_HELLO ||| tls_EXT_TLS1_3_HELLO_RETRY_REQUEST
     ||| tls_EXT_TLS_IMPLEMENTATION_ONLY ||| tls_EXT_TLS1_3_ONLY)
    None (Some tls_parse_ctos_cookie) (Some tls_parse_stoc_cookie)
    (Some tls_construct_stoc_cookie) (Some tls_construct_ctos_cookie) None.

Definition def_cryptopro_bug : EXTENSION_DEFINITION :=
  mk_EXTENSION_DEFINITION TLSEXT_TYPE_cryptopro_bug
    (tls_EXT_CLIENT_HELLO ||| tls_EXT_TLS1_2_SERVER_HELLO
     ||| tls_EXT_TLS1_2_AND_BELOW_ONLY)
    None None None (Some tls_construct_stoc_cryptopro_bug) None None.

Definition def_early_data : EXTENSION_DEFINITION :=
  mk_EXTENSION_DEFINITION TLSEXT_TYPE_early_data
    (tls_EXT_CLIENT_HELLO ||| tls_EXT_TLS1_3_ENCRYPTED_EXTENSIONS
     ||| tls_EXT_TLS1_3_NEW_SESSION_TICKET ||| tls_EXT_TLS1_3_ONLY)
    None (Some tls_parse_ctos_early_data) (Some tls_parse_stoc_early_data)
    (Some tls_construct_stoc_early_data) (Some tls_construct_ctos_early_data)
    (Some final_early_data).

Definition def_certificate_authorities : EXTENSION_DEFINITION :=
  mk_EXTENSION_DEFINITION TLSEXT_TYPE_certificate_authorities
    (tls_EXT_CLIENT_HELLO ||| tls_EXT_TLS1_3_CERTIFICATE_REQUEST ||| tls_EXT_TLS1_3_ONLY)
    (Some init_certificate_authorities)
    (Some tls_parse_certificate_authorities) (Some tls_parse_certificate_authorities)
    (Some tls_construct_certificate_authorities) (Some tls_construct_certificate_authorities)
    None.

Definition def_padding : EXTENSION_DEFINITION :=
  mk_EXTENSION_DEFINITION TLSEXT_TYPE_padding tls_EXT_CLIENT_HELLO
    None None None None (Some tls_construct_ctos_padding) None.

Definition def_psk : EXTENSION_DEFINITION :=
  mk_EXTENSION_DEFINITION TLSEXT_TYPE_psk
    (tls_EXT_CLIENT_HELLO ||| tls_EXT_TLS1_3_SERVER_HELLO
     ||| tls_EXT_TLS_IMPLEMENTATION_ONLY ||| tls_EXT_TLS1_3_ONLY)
    None (Some tls_parse_ctos_psk) (Some tls_parse_stoc_psk) (Some tls_construct_stoc_psk)
    (Some tls_construct_ctos_psk) None.

Definition ext_defs : list EXTENSION_DEFINITION :=
  [def_renegotiate; def_server_name; def_max_fragment_length; def_srp; def_ec_point_formats;
   def_supported_groups; def_session_ticket; def_status_request; def_next_proto_neg; def_alpn;
   def_use_srtp; def_encrypt_then_mac; def_signed_certificate_timestamp;
   def_extended_master_secret; def_signature_algorithms_cert; def_post_handshake_auth;
   def_signature_algorithms; def_supported_versions; def_psk_kex_modes; def_key_share;
   def_cookie; def_cryptopro_bug; def_early_data; def_certificate_authorities; def_padding;
   def_psk].

(** [TLSEXT_INDEX]: the places of the extensions in the table. *)
Definition TLSEXT_IDX_supported_versions : nat := 17.
Definition TLSEXT_IDX_num_builtins : nat := 26.

(** ** Interface to the code that is not modelled *)

(** The argument [X509 *x] of the C functions only travels along with
    [chainidx]. *)
Class ExtCallouts : Type := {
  run_ext_init : ext_init_f -> Z -> action;
  (** parser, packet, context, chain index *)
  run_ext_parse : ext_parse_f -> PACKET -> Z -> Z -> action;
  run_ext_construct : ext_construct_f -> tls -> WPACKET -> Z -> Z -> EXT_RETURN * tls * WPACKET;
  run_ext_final : ext_final_f -> Z -> bool -> action;
  tls_handle_alpn : action;
  tls_group_allowed : tls -> Z -> bool;
  tls1_get_peer_groups : tls -> list Z;
  tls1_get_supported_groups : tls -> list Z;
  tls13_generate_handshake_secret : action;
  run_allow_early_data_cb : tls -> bool;
  (** the application's callbacks: the result, the alert and what they leave *)
  run_parse_cb : custom_ext_method -> list Z -> Z -> Z -> tls -> Z * Z * tls;
  run_add_cb : custom_ext_method -> Z -> Z -> tls -> Z * list Z * Z * tls;
  (** what [thisex - raw_extensions] is for a null [thisex], as [unsigned int] *)
  null_minus_raw : Z
}.

(** [RAW_EXTENSION] *)
Record RAW_EXTENSION := mk_RAW_EXTENSION {
  data : PACKET;
  present : bool;
  parsed : bool;
  rx_type : Z;
  received_order : Z
}.
#[export] Instance eta_RAW_EXTENSION : Eta RAW_EXTENSION := fun r =>
  mk_RAW_EXTENSION (data r) (present r) (parsed r) (rx_type r) (received_order r).

(** What [OPENtls_zalloc] leaves in an entry. *)
Definition blank_extension : RAW_EXTENSION :=
  mk_RAW_EXTENSION (mk_PACKET None 0) false false 0 0.
Definition sizeof_RAW_EXTENSION : Z := 40.

#[export] Instance ENDPOINT_eq_dec : EqDecision ENDPOINT.
Proof. solve_decision. Defined.

(** ** Contexts *)

Definition validate_context (s : tls) (extctx thisctx : Z) : bool :=
  if Z.land thisctx extctx =? 0 then false
  else if tls_IS_DTLS s then negb (has_bits extctx tls_EXT_TLS_ONLY)
  else negb (has_bits extctx tls_EXT_DTLS_ONLY).

Definition extension_is_relevant (s : tls) (extctx thisctx : Z) : bool :=
  let is_tls13 := if has_bits thisctx tls_EXT_TLS1_3_HELLO_RETRY_REQUEST then true
                  else tls_IS_TLS13 s in
  negb ((tls_IS_DTLS s && has_bits extctx tls_EXT_TLS_IMPLEMENTATION_ONLY)
        || ((version s =? tls3_VERSION) && (Z.land extctx tls_EXT_tls3_ALLOWED =? 0))
        || (is_tls13 && has_bits extctx tls_EXT_TLS1_2_AND_BELOW_ONLY)
        || (negb is_tls13 && has_bits extctx tls_EXT_TLS1_3_ONLY
            && (Z.land thisctx tls_EXT_CLIENT_HELLO =? 0))
        || (server s && negb is_tls13 && has_bits extctx tls_EXT_TLS1_3_ONLY)
        || (hit s && has_bits extctx tls_EXT_IGNORE_ON_RESUMPTION)).

Definition should_add_extension (s : tls) (extctx thisctx max_version : Z) : bool :=
  if Z.land extctx thisctx =? 0 then false
  else negb (negb (extension_is_relevant s extctx thisctx)
             || (has_bits extctx tls_EXT_TLS1_3_ONLY
                 && has_bits thisctx tls_EXT_CLIENT_HELLO
                 && (tls_IS_DTLS s || (max_version <? TLS1_3_VERSION)))).

(** ** Custom extensions *)

(** A pointer to a method is its index. *)
Definition custom_ext_find (exts : list custom_ext_method) (rl : ENDPOINT) (type : Z)
  : option (nat * custom_ext_method) :=
  list_find (fun meth =>
    type = ext_type meth /\
    (rl = ENDPOINT_BOTH \/ rl = role meth \/ role meth = ENDPOINT_BOTH)) exts.

Definition custom_ext_init (exts : list custom_ext_method) : list custom_ext_method :=
  map (fun meth => meth <| ext_flags := 0 |>) exts.

(** [s->cert->custext] *)
Definition get_custext (s : tls) : list custom_ext_method := custext (cert (conf s)).
Definition upd_custext (f : list custom_ext_method -> list custom_ext_method) (s : tls) : tls :=
  s <| conf ::= fun c => c <| cert ::= fun r => r <| custext ::= f |> |> |>.

(** [meth->ext_flags |= flag], for the method at [i]. *)
Definition or_ext_flags (flag : Z) (i : nat) : tls -> tls :=
  upd_custext (alter (fun meth => meth <| ext_flags ::= fun f => Z.lor f flag |>) i).

(** The role of the peer's view of a hello message. *)
Definition hello_role (context : Z) : ENDPOINT :=
  if has_bits context tls_EXT_CLIENT_HELLO then ENDPOINT_SERVER
  else if has_bits context tls_EXT_TLS1_2_SERVER_HELLO then ENDPOINT_CLIENT
  else ENDPOINT_BOTH.

Section Framework.
Context `{Callouts} `{ExtCallouts} `{Malloc}.
Context (secure : Z -> option (list Z)).
(** The block that holds the message. *)
Context (mem : list Z).

Definition custom_ext_parse (s : tls) (context type : Z) (bytes : list Z) (chainidx : Z)
  : bool * tls :=
  let rl :=
    if has_bits context (Z.lor tls_EXT_CLIENT_HELLO tls_EXT_TLS1_2_SERVER_HELLO)
    then (if server s then ENDPOINT_SERVER else ENDPOINT_CLIENT) else ENDPOINT_BOTH in
  match custom_ext_find (get_custext s) rl type with
  | None => (true, s)
  | Some (i, meth) =>
      if negb (extension_is_relevant s (ext_context meth) context) then (true, s)
      else if has_bits context
                (Z.lor (Z.lor tls_EXT_TLS1_2_SERVER_HELLO tls_EXT_TLS1_3_SERVER_HELLO)
                   tls_EXT_TLS1_3_ENCRYPTED_EXTENSIONS)
              && (Z.land (ext_flags meth) tls_EXT_FLAG_SENT =? 0)
      then (false, tlsfatal s tls_AD_UNSUPPORTED_EXTENSION)
      else
        let s := if has_bits context tls_EXT_CLIENT_HELLO
                 then or_ext_flags tls_EXT_FLAG_RECEIVED i s else s in
        if negb (parse_cb meth) then (true, s)
        else
          let '(ret, al, s) := run_parse_cb meth bytes context chainidx s in
          if ret <=? 0 then (false, tlsfatal s al) else (true, s)
  end.

(** Writing one custom extension: type, length and bytes. *)
Definition put_custom_ext (pkt : WPACKET) (type : Z) (out : list Z) : option (bool * WPACKET) :=
  '(ok, pkt) ← WPACKET_put_bytes__ secure pkt type 2;
  if negb ok then Some (false, pkt)
  else '(ok, pkt) ← WPACKET_start_sub_packet_len__ secure pkt 2;
  if negb ok then Some (false, pkt)
  else '(ok, pkt) ← (if 0 <? zlen out then WPACKET_memcpy secure pkt out (zlen out)
                     else Some (true, pkt));
  if negb ok then Some (false, pkt) else WPACKET_close pkt.

(** The body of the loop of [custom_ext_add] for the method at [i]. *)
Definition custom_ext_add_one (context : Z) (chainidx maxversion : Z) (i : nat)
  (meth : custom_ext_method) (s : tls) (pkt : WPACKET) : comp (bool * tls * WPACKET) :=
  if negb (should_add_extension s (ext_context meth) context maxversion) then Ret (true, s, pkt)
  else if has_bits context
            (Z.lor (Z.lor (Z.lor (Z.lor tls_EXT_TLS1_2_SERVER_HELLO tls_EXT_TLS1_3_SERVER_HELLO)
                             tls_EXT_TLS1_3_ENCRYPTED_EXTENSIONS) tls_EXT_TLS1_3_CERTIFICATE)
               tls_EXT_TLS1_3_HELLO_RETRY_REQUEST)
          && negb (has_bits (ext_flags meth) tls_EXT_FLAG_RECEIVED)
  then Ret (true, s, pkt)
  else if (Z.land context tls_EXT_CLIENT_HELLO =? 0) && negb (add_cb meth) then Ret (true, s, pkt)
  else
    let '(ret, out, al, s) :=
      if add_cb meth then run_add_cb meth context chainidx s else (1, [], 0, s) in
    if ret <? 0 then Ret (false, tlsfatal s al, pkt)
    else if ret =? 0 then Ret (true, s, pkt)
    else
      let meth := default meth (get_custext s !! i) in
      '(ok, pkt) ← defined (put_custom_ext pkt (ext_type meth) out);
      if negb ok then Ret (false, tlsfatal s tls_AD_INTERNAL_ERROR, pkt)
      else if has_bits context tls_EXT_CLIENT_HELLO then
        if has_bits (ext_flags meth) tls_EXT_FLAG_SENT
        then Ret (false, tlsfatal s tls_AD_INTERNAL_ERROR, pkt)
        else Ret (true, or_ext_flags tls_EXT_FLAG_SENT i s, pkt)
      else Ret (true, s, pkt).

(** [n] methods are left, the next one is the one at [i]. *)
Fixpoint custom_ext_add_loop (n i : nat) (context chainidx maxversion : Z) (s : tls)
  (pkt : WPACKET) : comp (bool * tls * WPACKET) :=
  match n with
  | O => Ret (true, s, pkt)
  | S n =>
      match get_custext s !! i with
      | None => Ret (true, s, pkt)
      | Some meth =>
          '(ok, s, pkt) ← custom_ext_add_one context chainidx maxversion i meth s pkt;
          if negb ok then Ret (false, s, pkt)
          else custom_ext_add_loop n (S i) context chainidx maxversion s pkt
      end
  end.

Definition custom_ext_add (s : tls) (context : Z) (pkt : WPACKET) (chainidx maxversion : Z)
  : comp (bool * tls * WPACKET) :=
  custom_ext_add_loop (length (get_custext s)) 0 context chainidx maxversion s pkt.

(** ** Collecting the extensions of a message *)

(** [None]: not allowed here.  [Some None]: unknown.  Otherwise the place of the
    extension in the list of raw extensions. *)
Definition verify_extension (s : tls) (context type : Z) : option (option nat) :=
  match list_find (fun d => type = xd_type d) ext_defs with
  | Some (i, d) => if validate_context s (xd_context d) context then Some (Some i) else None
  | None =>
      match custom_ext_find (get_custext s) (hello_role context) type with
      | Some (offset, meth) =>
          if validate_context s (ext_context meth) context
          then Some (Some (offset + length ext_defs)%nat) else None
      | None => Some None
      end
  end.

(** The contexts of extensions that nobody asked for. *)
Definition unsolicited_ok (context : Z) : bool :=
  has_bits context (Z.lor (Z.lor tls_EXT_CLIENT_HELLO tls_EXT_TLS1_3_CERTIFICATE_REQUEST)
                      tls_EXT_TLS1_3_NEW_SESSION_TICKET).

(** The extensions that are exempt from the check that they were requested. *)
Definition exempt (context type : Z) : bool :=
  (type =? TLSEXT_TYPE_cookie) || (type =? TLSEXT_TYPE_renegotiate)
  || (type =? TLSEXT_TYPE_signed_certificate_timestamp)
  || (has_bits context tls_EXT_TLS1_2_SERVER_HELLO && (type =? TLSEXT_TYPE_cryptopro_bug)).

(** Is the built-in extension at [idx] one that was not asked for? *)
Definition unsolicited (s : tls) (context type idx : Z) : option bool :=
  if (idx <? zlen ext_defs) && negb (unsolicited_ok context) && negb (exempt context type)
  then f ← rd (extflags (ext s)) idx; Some (Z.land f tls_EXT_FLAG_SENT =? 0)
  else Some false.

Definition ext_index (thisex : option nat) : Z :=
  match thisex with Some i => Z.of_nat i | None => null_minus_raw end.

(** Is there an extension at the place already? *)
Definition duplicate (raw : list RAW_EXTENSION) (thisex : option nat) : bool :=
  match thisex ≫= (raw !!.) with Some x => present x | None => false end.

Definition report_ext (s : tls) (type : Z) (extension : PACKET) : tls :=
  if debug_cb (conf s)
  then log s (C_debug_cb type (default [] (deref_n mem (PACKET_data extension)
                                             (PACKET_remaining extension))))
  else s.

Fixpoint collect_loop (fuel : nat) (context : Z) (s : tls) (extensions : PACKET)
  (raw : list RAW_EXTENSION) (i : Z) : comp (bool * tls * list RAW_EXTENSION) :=
  match fuel with
  | O => NoFuel
  | S fuel =>
      if negb (0 <? PACKET_remaining extensions) then Ret (true, s, raw)
      else
        '(ok, extensions, type) ← defined (PACKET_get_net_2 mem extensions 0);
        if negb ok then Ret (false, tlsfatal s tls_AD_DECODE_ERROR, raw)
        else
          '(ok, extensions, extension) ←
            defined (PACKET_get_length_prefixed_2 mem extensions (mk_PACKET None 0));
          if negb ok then Ret (false, tlsfatal s tls_AD_DECODE_ERROR, raw)
          else
            match verify_extension s context type with
            | None => Ret (false, tlsfatal s tls_AD_ILLEGAL_PARAMETER, raw)
            | Some thisex =>
                if duplicate raw thisex
                   || ((type =? TLSEXT_TYPE_psk) && has_bits context tls_EXT_CLIENT_HELLO
                       && negb (PACKET_remaining extensions =? 0))
                then Ret (false, tlsfatal s tls_AD_ILLEGAL_PARAMETER, raw)
                else
                  uns ← defined (unsolicited s context type (ext_index thisex));
                  if (uns : bool) then Ret (false, tlsfatal s tls_AD_UNSUPPORTED_EXTENSION, raw)
                  else
                    match thisex with
                    | None => collect_loop fuel context s extensions raw i
                    | Some k =>
                        let raw := <[k := mk_RAW_EXTENSION extension true false type i]> raw in
                        collect_loop fuel context (report_ext s type extension) extensions raw
                          (i + 1)
                    end
            end
  end.

(** *** The initialisers *)

Definition do_init_session_ticket (s : tls) : tls :=
  if negb (server s) then s <| ext .: ticket_expected := false |> else s.

Definition do_init_npn (s : tls) : tls := s <| s3 .: npn_seen := false |>.

Definition do_init_ems (s : tls) : tls :=
  s <| s3 ::= fun r => r <| flags ::= fun f => Z.land f (Z.lnot TLS1_FLAGS_RECEIVED_EXTMS) |> |>.

Definition do_init_psk_kex_modes (s : tls) : tls :=
  s <| conf .: psk_kex_mode := TLSEXT_KEX_MODE_FLAG_NONE |>.

Definition do_init_post_handshake_auth (s : tls) : tls :=
  s <| post_handshake_auth := tls_PHA_NONE |>.

(** [thisexd->init(s, context)] *)
Definition ext_init (f : ext_init_f) (context : Z) (s : tls) : bool * tls :=
  match f with
  | init_session_ticket => (true, do_init_session_ticket s)
  | init_npn => (true, do_init_npn s)
  | init_ems => (true, do_init_ems s)
  | init_psk_kex_modes => (true, do_init_psk_kex_modes s)
  | init_post_handshake_auth => (true, do_init_post_handshake_auth s)
  | f => run_ext_init f context s
  end.

Fixpoint init_loop (context : Z) (defs : list EXTENSION_DEFINITION) (s : tls) : bool * tls :=
  match defs with
  | [] => (true, s)
  | d :: defs =>
      match xd_init d with
      | Some f =>
          if has_bits (xd_context d) context && extension_is_relevant s (xd_context d) context then
            let '(ok, s) := ext_init f context s in
            if negb ok then (false, s) else init_loop context defs s
          else init_loop context defs s
      | None => init_loop context defs s
      end
  end.

(** The truth value, the connection, and [*res] with its length, if any.  Every
    extension takes at least four bytes: the fuel is enough. *)
Definition tls_collect_extensions (s : tls) (packet : PACKET) (context : Z) (init : bool)
  : comp (bool * tls * option (list RAW_EXTENSION)) :=
  let s := if has_bits context tls_EXT_CLIENT_HELLO then upd_custext custom_ext_init s else s in
  let num_exts := (length ext_defs + length (get_custext s))%nat in
  match CRYPTO_zalloc (Z.of_nat num_exts * sizeof_RAW_EXTENSION) with
  | None => Ret (false, tlsfatal s tls_AD_INTERNAL_ERROR, None)
  | Some _ =>
      '(ok, s, raw) ← collect_loop (S (Z.to_nat (PACKET_remaining packet))) context s packet
                        (replicate num_exts blank_extension) 0;
      if negb ok then Ret (false, s, None)
      else
        let '(ok, s) := if (init : bool) then init_loop context ext_defs s else (true, s) in
        if negb ok then Ret (false, s, None) else Ret (true, s, Some raw)
  end.

(** The extensions a message may carry, once collected: [n] entries are left. *)
Fixpoint validate_loop (n i : nat) (s : tls) (thisctx : Z) (exts : list RAW_EXTENSION)
  : option bool :=
  match n with
  | O => Some true
  | S n =>
      x ← exts !! i;
      let ok :=
        if negb (present x) then true
        else match ext_defs !! i with
             | Some d => validate_context s (xd_context d) thisctx
             | None =>
                 match custom_ext_find (get_custext s) (hello_role thisctx) (rx_type x) with
                 | None => false
                 | Some (_, meth) => validate_context s (ext_context meth) thisctx
                 end
             end in
      if negb ok then Some false else validate_loop n (S i) s thisctx exts
  end.

Definition tls_validate_all_contexts (s : tls) (thisctx : Z) (exts : list RAW_EXTENSION)
  : option bool :=
  validate_loop (length ext_defs + length (get_custext s)) 0 s thisctx exts.

(** ** Parsing *)

(** The version a TLS 1.3 server has chosen. *)
Definition do_parse_stoc_supported_versions (pkt : PACKET) (context : Z) (s : tls)
  : comp (bool * tls) :=
  '(ok, pkt, v) ← defined (PACKET_get_net_2 mem pkt 0);
  if negb ok || negb (PACKET_remaining pkt =? 0) then Ret (false, tlsfatal s tls_AD_DECODE_ERROR)
  else if negb (v =? TLS1_3_VERSION) then Ret (false, tlsfatal s tls_AD_ILLEGAL_PARAMETER)
  else if context =? tls_EXT_TLS1_3_HELLO_RETRY_REQUEST then Ret (true, s)
  else Ret (true, s <| version := v |>).

(** [parser(s, &currext->data, context, x, chainidx)] *)
Definition ext_parse (f : ext_parse_f) (pkt : PACKET) (context chainidx : Z) (s : tls)
  : comp (bool * tls) :=
  match f with
  | tls_parse_stoc_supported_versions => do_parse_stoc_supported_versions pkt context s
  | f => Ret (run_ext_parse f pkt context chainidx s)
  end.

(** The truth value, the connection and the extensions, one of them marked. *)
Definition tls_parse_extension (s : tls) (idx : nat) (context : Z) (exts : list RAW_EXTENSION)
  (chainidx : Z) : comp (bool * tls * list RAW_EXTENSION) :=
  currext ← defined (exts !! idx);
  if negb (present currext) then Ret (true, s, exts)
  else if parsed currext then Ret (true, s, exts)
  else
    let exts := <[idx := currext <| parsed := true |>]> exts in
    let custom :=
      bytes ← defined (deref_n mem (PACKET_data (data currext)) (PACKET_remaining (data currext)));
      let '(ok, s) := custom_ext_parse s context (rx_type currext) bytes chainidx in
      Ret (ok, s, exts) in
    match ext_defs !! idx with
    | Some extdef =>
        if negb (extension_is_relevant s (xd_context extdef) context) then Ret (true, s, exts)
        else
          match (if server s then parse_ctos extdef else parse_stoc extdef) with
          | Some parser =>
              '(ok, s) ← ext_parse parser (data currext) context chainidx s;
              Ret (ok, s, exts)
          | None => custom
          end
    | None => custom
    end.

(** ** The finalisers *)

Definition do_final_renegotiate (sent : bool) (s : tls) : bool * tls :=
  if negb (server s) then
    if negb (has_bits (options s) tls_OP_LEGACY_SERVER_CONNECT)
       && negb (has_bits (options s) tls_OP_ALLOW_UNSAFE_LEGACY_RENEGOTIATION) && negb sent
    then (false, tlsfatal s tls_AD_HANDSHAKE_FAILURE)
    else (true, s)
  else if renegotiate s
          && negb (has_bits (options s) tls_OP_ALLOW_UNSAFE_LEGACY_RENEGOTIATION) && negb sent
  then (false, tlsfatal s tls_AD_HANDSHAKE_FAILURE)
  else (true, s).

Definition do_final_ec_pt_formats (s : tls) : bool * tls :=
  if server s then (true, s)
  else
    let alg_k := algorithm_mkey (new_cipher (tmp (s3 s))) in
    let alg_a := algorithm_auth (new_cipher (tmp (s3 s))) in
    match ecpointformats (conf s), peer_ecpointformats (conf s) with
    | Some own, Some formats =>
        if (0 <? zlen own) && (0 <? zlen formats)
           && (has_bits alg_k tls_kECDHE || has_bits alg_a tls_aECDSA)
           && negb (existsb (fun f => f =? TLSEXT_ECPOINTFORMAT_uncompressed) formats)
        then (false, tlsfatal s tls_AD_ILLEGAL_PARAMETER)
        else (true, s)
    | _, _ => (true, s)
    end.

Definition do_final_alpn (sent : bool) (s : tls) : bool * tls :=
  let s := if negb (server s) && negb sent && session_alpn_selected (conf s)
           then s <| conf .: early_data_ok := false |> else s in
  if negb (server s) || negb (tls_IS_TLS13 s) then (true, s) else tls_handle_alpn s.

Definition do_final_ems (s : tls) : bool * tls :=
  if negb (server s) && hit s
     && negb (Bool.eqb (has_bits (flags (s3 s)) TLS1_FLAGS_RECEIVED_EXTMS)
                (has_bits (session_flags (conf s)) tls_SESS_FLAG_EXTMS))
  then (false, tlsfatal s tls_AD_HANDSHAKE_FAILURE)
  else (true, s).

Definition do_final_sig_algs (sent : bool) (s : tls) : bool * tls :=
  if negb sent && tls_IS_TLS13 s && negb (hit s)
  then (false, tlsfatal s tls_AD_MISSING_EXTENSION)
  else (true, s).

(** [check_in_list], for a list that is not NULL. *)
Definition check_in_list (s : tls) (gid : Z) (groups : list Z) (checkallow : bool) : bool :=
  existsb (fun group => (gid =? group) && (negb checkallow || tls_group_allowed s group)) groups.

(** A stateless server that has seen no cookie asks for one. *)
Definition stateless_retry (s : tls) : option (bool * tls) :=
  if has_bits (flags (s3 s)) TLS1_FLAGS_STATELESS && negb (cookieok (conf s)) then
    Some (if hello_retry_request s != tls_HRR_NONE then (false, tlsfatal s tls_AD_INTERNAL_ERROR)
          else (true, s <| hello_retry_request := tls_HRR_PENDING |>))
  else None.

Definition do_final_key_share (context : Z) (sent : bool) (s : tls) : bool * tls :=
  let no_ke := Z.land (psk_kex_mode (conf s)) TLSEXT_KEX_MODE_FLAG_KE =? 0 in
  let done s :=
    (true, if hello_retry_request s == tls_HRR_PENDING
           then s <| hello_retry_request := tls_HRR_COMPLETE |> else s) in
  if negb (tls_IS_TLS13 s) then (true, s)
  else if has_bits context tls_EXT_TLS1_3_HELLO_RETRY_REQUEST then (true, s)
  else if negb (server s) && negb sent && (negb (hit s) || no_ke)
  then (false, tlsfatal s tls_AD_MISSING_EXTENSION)
  else if server s then
    if peer_tmp (conf s) then default (done s) (stateless_retry s)
    else
      let shared :=
        if (hello_retry_request s == tls_HRR_NONE) && sent
           && (negb (hit s) || has_bits (psk_kex_mode (conf s)) TLSEXT_KEX_MODE_FLAG_KE_DHE)
        then List.find (fun g => check_in_list s g (tls1_get_peer_groups s) true)
               (tls1_get_supported_groups s)
        else None in
      match shared with
      | Some g => (true, s <| conf .: group_id := g |> <| hello_retry_request := tls_HRR_PENDING |>)
      | None =>
          if negb (hit s) || no_ke
          then (false, tlsfatal s (if sent then tls_AD_HANDSHAKE_FAILURE
                                   else tls_AD_MISSING_EXTENSION))
          else default (done s) (stateless_retry s)
      end
  else if negb sent then
    let '(ok, s) := tls13_generate_handshake_secret s in
    if negb ok then (false, tlsfatal s tls_AD_INTERNAL_ERROR) else (true, s)
  else (true, s).

Definition do_final_early_data (context : Z) (sent : bool) (s : tls) : bool * tls :=
  if negb sent then (true, s)
  else if negb (server s) then
    if (context =? tls_EXT_TLS1_3_ENCRYPTED_EXTENSIONS) && sent && negb (early_data_ok (conf s))
    then (false, tlsfatal s tls_AD_ILLEGAL_PARAMETER)
    else (true, s)
  else if (max_early_data s =? 0) || negb (hit s)
          || (early_data_state s != tls_EARLY_DATA_ACCEPTING)
          || negb (early_data_ok (conf s)) || (hello_retry_request s != tls_HRR_NONE)
          || (allow_early_data_cb (conf s) && negb (run_allow_early_data_cb s))
  then (true, s <| ext .: early_data := tls_EARLY_DATA_REJECTED |>)
  else tls13_change_cipher_state (Z.lor tls3_CC_EARLY tls3_CHANGE_CIPHER_SERVER_READ)
         (s <| ext .: early_data := tls_EARLY_DATA_ACCEPTED |>).

Definition USE_MAX_FRAGMENT_LENGTH_EXT (s : tls) : bool :=
  (TLSEXT_max_fragment_length_512 <=? max_fragment_len_mode (conf s))
  && (max_fragment_len_mode (conf s) <=? TLSEXT_max_fragment_length_4096).

Definition GET_MAX_FRAGMENT_LENGTH (s : tls) : Z :=
  u32 (Z.shiftl 512 (max_fragment_len_mode (conf s) - 1)).

Definition do_final_maxfragmentlen (sent : bool) (s : tls) : bool * tls :=
  if server s && hit s && USE_MAX_FRAGMENT_LENGTH_EXT s && negb sent
  then (false, tlsfatal s tls_AD_MISSING_EXTENSION)
  else if USE_MAX_FRAGMENT_LENGTH_EXT s && (max_send_fragment (conf s) <? GET_MAX_FRAGMENT_LENGTH s)
  then let '(ok, s) := tls3_setup_buffers s in if negb ok then (false, s) else (true, s)
  else (true, s).

(** [thisexd->final(s, context, sent)] *)
Definition ext_final (f : ext_final_f) (context : Z) (sent : bool) (s : tls) : bool * tls :=
  match f with
  | final_renegotiate => do_final_renegotiate sent s
  | final_ec_pt_formats => do_final_ec_pt_formats s
  | final_alpn => do_final_alpn sent s
  | final_ems => do_final_ems s
  | final_sig_algs => do_final_sig_algs sent s
  | final_key_share => do_final_key_share context sent s
  | final_early_data => do_final_early_data context sent s
  | final_maxfragmentlen => do_final_maxfragmentlen sent s
  | f => run_ext_final f context sent s
  end.

(** The first loop of [tls_parse_all_extensions]: [n] entries are left. *)
Fixpoint parse_loop (n i : nat) (context chainidx : Z) (s : tls) (exts : list RAW_EXTENSION)
  : comp (bool * tls * list RAW_EXTENSION) :=
  match n with
  | O => Ret (true, s, exts)
  | S n =>
      '(ok, s, exts) ← tls_parse_extension s i context exts chainidx;
      if negb ok then Ret (false, s, exts) else parse_loop n (S i) context chainidx s exts
  end.

Fixpoint final_loop (context : Z) (defs : list EXTENSION_DEFINITION) (exts : list RAW_EXTENSION)
  (s : tls) : comp (bool * tls) :=
  match defs, exts with
  | [], _ => Ret (true, s)
  | _ :: _, [] => UB
  | d :: defs, x :: exts =>
      match xd_final d with
      | Some f =>
          if has_bits (xd_context d) context then
            let '(ok, s) := ext_final f context (present x) s in
            if negb ok then Ret (false, s) else final_loop context defs exts s
          else final_loop context defs exts s
      | None => final_loop context defs exts s
      end
  end.

Definition tls_parse_all_extensions (s : tls) (context : Z) (exts : list RAW_EXTENSION)
  (chainidx : Z) (fin : bool) : comp (bool * tls * list RAW_EXTENSION) :=
  let numexts := (length ext_defs + length (get_custext s))%nat in
  '(ok, s, exts) ← parse_loop numexts 0 context chainidx s exts;
  if negb ok then Ret (false, s, exts)
  else if fin then
    '(ok, s) ← final_loop context ext_defs exts s;
    Ret (ok, s, exts)
  else Ret (true, s, exts).

(** ** Construction *)

(** The loop over the versions from [currv] down: [n] are left. *)
Fixpoint put_versions (n : nat) (currv : Z) (pkt : WPACKET) : option (bool * WPACKET) :=
  match n with
  | O => Some (true, pkt)
  | S n =>
      '(ok, pkt) ← WPACKET_put_bytes__ secure pkt currv 2;
      if negb ok then Some (false, pkt) else put_versions n (currv - 1) pkt
  end.

Definition do_construct_ctos_supported_versions (s : tls) (pkt : WPACKET)
  : comp (EXT_RETURN * tls * WPACKET) :=
  let fail pkt := Ret (EXT_RETURN_FAIL, tlsfatal s tls_AD_INTERNAL_ERROR, pkt) in
  let '(reason, min_version, max_version, _) := tls_get_min_max_version s false in
  if negb (reason =? 0) then fail pkt
  else if max_version <? TLS1_3_VERSION then Ret (EXT_RETURN_NOT_SENT, s, pkt)
  else
    '(ok, pkt) ← defined (WPACKET_put_bytes__ secure pkt TLSEXT_TYPE_supported_versions 2);
    if negb ok then fail pkt else
    '(ok, pkt) ← defined (WPACKET_start_sub_packet_len__ secure pkt 2);
    if negb ok then fail pkt else
    '(ok, pkt) ← defined (WPACKET_start_sub_packet_len__ secure pkt 1);
    if negb ok then fail pkt else
    '(ok, pkt) ← defined (put_versions (Z.to_nat (max_version - min_version + 1)) max_version pkt);
    if negb ok then fail pkt else
    '(ok, pkt) ← defined (WPACKET_close pkt);
    if negb ok then fail pkt else
    '(ok, pkt) ← defined (WPACKET_close pkt);
    if negb ok then fail pkt else Ret (EXT_RETURN_SENT, s, pkt).

Definition do_construct_stoc_supported_versions (s : tls) (pkt : WPACKET)
  : comp (EXT_RETURN * tls * WPACKET) :=
  let fail pkt := Ret (EXT_RETURN_FAIL, tlsfatal s tls_AD_INTERNAL_ERROR, pkt) in
  if negb (tls_IS_TLS13 s) then fail pkt else
  '(ok, pkt) ← defined (WPACKET_put_bytes__ secure pkt TLSEXT_TYPE_supported_versions 2);
  if negb ok then fail pkt else
  '(ok, pkt) ← defined (WPACKET_start_sub_packet_len__ secure pkt 2);
  if negb ok then fail pkt else
  '(ok, pkt) ← defined (WPACKET_put_bytes__ secure pkt (version s) 2);
  if negb ok then fail pkt else
  '(ok, pkt) ← defined (WPACKET_close pkt);
  if negb ok then fail pkt else Ret (EXT_RETURN_SENT, s, pkt).

(** [construct(s, pkt, context, x, chainidx)] *)
Definition ext_construct (f : ext_construct_f) (s : tls) (pkt : WPACKET) (context chainidx : Z)
  : comp (EXT_RETURN * tls * WPACKET) :=
  match f with
  | tls_construct_ctos_supported_versions => do_construct_ctos_supported_versions s pkt
  | tls_construct_stoc_supported_versions => do_construct_stoc_supported_versions s pkt
  | f => Ret (run_ext_construct f s pkt context chainidx)
  end.

(** [s->ext.extflags[i] |= tls_EXT_FLAG_SENT] *)
Definition mark_sent (i : nat) (s : tls) : tls :=
  s <| ext ::= fun e => e <| extflags ::= alter (fun f => Z.lor f tls_EXT_FLAG_SENT) i |> |>.

(** The loop over the built-in extensions; the first of [defs] is the one at [i]. *)
Fixpoint construct_loop (context chainidx max_version : Z) (i : nat)
  (defs : list EXTENSION_DEFINITION) (s : tls) (pkt : WPACKET) : comp (bool * tls * WPACKET) :=
  match defs with
  | [] => Ret (true, s, pkt)
  | d :: defs =>
      match (if should_add_extension s (xd_context d) context max_version
             then (if server s then construct_stoc d else construct_ctos d) else None) with
      | None => construct_loop context chainidx max_version (S i) defs s pkt
      | Some construct =>
          '(ret, s, pkt) ← ext_construct construct s pkt context chainidx;
          match ret with
          | EXT_RETURN_FAIL => Ret (false, s, pkt)
          | EXT_RETURN_SENT =>
              let s := if unsolicited_ok context then mark_sent i s else s in
              construct_loop context chainidx max_version (S i) defs s pkt
          | EXT_RETURN_NOT_SENT =>
              construct_loop context chainidx max_version (S i) defs s pkt
          end
      end
  end.

Definition tls_construct_extensions (s : tls) (pkt : WPACKET) (context chainidx : Z)
  : comp (bool * tls * WPACKET) :=
  let fail pkt := Ret (false, tlsfatal s tls_AD_INTERNAL_ERROR, pkt) in
  '(ok, pkt) ← defined (WPACKET_start_sub_packet_len__ secure pkt 2);
  if negb ok then fail pkt else
  let '(ok, pkt) :=
    if has_bits context (Z.lor tls_EXT_CLIENT_HELLO tls_EXT_TLS1_2_SERVER_HELLO)
    then WPACKET_set_flags pkt WPACKET_FLAGS_ABANDON_ON_ZERO_LENGTH else (true, pkt) in
  if negb ok then fail pkt else
  let '(reason, _, max_version, _) :=
    if has_bits context tls_EXT_CLIENT_HELLO then tls_get_min_max_version s false
    else (0, 0, 0, 0) in
  if negb (reason =? 0) then fail pkt else
  let s := if has_bits context tls_EXT_CLIENT_HELLO then upd_custext custom_ext_init s else s in
  '(ok, s, pkt) ← custom_ext_add s context pkt chainidx max_version;
  if negb ok then Ret (false, s, pkt) else
  '(ok, s, pkt) ← construct_loop context chainidx max_version 0 ext_defs s pkt;
  if negb ok then Ret (false, s, pkt) else
  '(ok, pkt) ← defined (WPACKET_close pkt);
  if negb ok then Ret (false, tlsfatal s tls_AD_INTERNAL_ERROR, pkt) else Ret (true, s, pkt).

End Framework.
