(* ===== verification/Version.v ===== *)
(** * Version negotiation

    The choice of the protocol version when a hello message arrives:
    [tls_choose_server_version], [tls_choose_client_version] and what they use from
    [src/ssl/statem/statem_lib.c], and [tls_fill_hello_random] of
    [src/ssl/s3_lib.c], which puts the downgrade sentinels into a hello random. *)

From S2P Require Import Prelude Mem Packet Buffer WPacket TlsState Protocol StatemLib Extensions.

(** ** Constants and data *)

Definition tls_R_WRONG_tls_VERSION : Z := 266.
Definition tls_R_LENGTH_MISMATCH : Z := 159.
Definition tls_R_BAD_LEGACY_VERSION : Z := 292.
Definition tls_AD_PROTOCOL_VERSION : Z := 70.
Definition tls_MODE_SEND_CLIENTHELLO_TIME : Z := 0x20.
Definition tls_MODE_SEND_SERVERHELLO_TIME : Z := 0x40.
Definition tls_MODE_SEND_FALLBACK_SCSV : Z := 0x80.
Definition tls3_RANDOM_SIZE : Z := 32.

Inductive DOWNGRADE : Type := DOWNGRADE_NONE | DOWNGRADE_TO_1_2 | DOWNGRADE_TO_1_1.

Definition tls11downgrade : list Z := [0x44; 0x4f; 0x57; 0x4e; 0x47; 0x52; 0x44; 0x00].
Definition tls12downgrade : list Z := [0x44; 0x4f; 0x57; 0x4e; 0x47; 0x52; 0x44; 0x01].

(** [CLIENTHELLO_MSG], the fields used *)
Record CLIENTHELLO_MSG := mk_CLIENTHELLO_MSG {
  legacy_version : Z;
  pre_proc_exts : list RAW_EXTENSION
}.

Section Negotiation.
Context `{Callouts} `{ExtCallouts} `{Malloc}.
(** The block that holds the message received. *)
Context (mem : list Z).

(** ** The server's choice *)

Definition check_for_downgrade (s : tls) (vers : Z) : DOWNGRADE :=
  if (vers =? TLS1_2_VERSION) && fst (tls_version_supported s TLS1_3_VERSION)
  then DOWNGRADE_TO_1_2
  else if negb (tls_IS_DTLS s) && (vers <? TLS1_2_VERSION)
          && fst (tls_version_supported s TLS1_2_VERSION)
  then DOWNGRADE_TO_1_1
  else DOWNGRADE_NONE.

(** The loop over the versions the client offers, two bytes each; [best] is
    [best_vers] and [best_method]. *)
Fixpoint best_version_loop (fuel : nat) (s : tls) (versionslist : PACKET)
  (best : Z * option tls_METHOD) : comp (PACKET * (Z * option tls_METHOD)) :=
  match fuel with
  | O => NoFuel
  | S fuel =>
      '(ok, versionslist, candidate_vers) ← defined (PACKET_get_net_2 mem versionslist 0);
      if negb ok then Ret (versionslist, best)
      else if version_cmp s candidate_vers (fst best) <=? 0
      then best_version_loop fuel s versionslist best
      else
        let '(supported, meth) := tls_version_supported s candidate_vers in
        best_version_loop fuel s versionslist
          (if supported then (candidate_vers, match meth with Some m => Some m | None => snd best end)
           else best)
  end.

(** The loop over the table for a client without the extension: the entry chosen,
    or whether one was disabled. *)
Fixpoint server_version_loop (s : tls) (client_version : Z) (disabled : bool)
  (table : list version_info) : (Z * tls_METHOD) + bool :=
  match table with
  | [] => inr disabled
  | vent :: rest =>
      match smeth vent with
      | None => server_version_loop s client_version disabled rest
      | Some method =>
          if version_cmp s client_version (v_version vent) <? 0
          then server_version_loop s client_version disabled rest
          else if tls_method_error s method =? 0 then inl (v_version vent, method)
          else server_version_loop s client_version true rest
      end
  end.

(** What a server makes of the supported_versions extension [ext] of a client;
    the extension is marked as parsed and its data are consumed. *)
Definition choose_supported_version (s : tls) (ext : RAW_EXTENSION) (dgrd : DOWNGRADE)
  : comp (Z * DOWNGRADE * tls * RAW_EXTENSION) :=
  let ext := ext <| parsed := true |> in
  '(ok, after, versionslist) ←
    defined (PACKET_as_length_prefixed_1 mem (data ext) (mk_PACKET None 0));
  let ext := ext <| data := after |> in
  if negb ok then Ret (tls_R_LENGTH_MISMATCH, dgrd, s, ext)
  else if client_version (conf s) <=? tls3_VERSION then Ret (tls_R_BAD_LEGACY_VERSION, dgrd, s, ext)
  else
    '(versionslist, (best_vers, best_method)) ←
      best_version_loop (S (Z.to_nat (PACKET_remaining versionslist))) s versionslist (0, None);
    if negb (PACKET_remaining versionslist =? 0) then Ret (tls_R_LENGTH_MISMATCH, dgrd, s, ext)
    else if 0 <? best_vers then
      if hello_retry_request s != tls_HRR_NONE then
        Ret (if negb (best_vers =? TLS1_3_VERSION) then tls_R_UNSUPPORTED_PROTOCOL else 0, dgrd, s, ext)
      else
        (** a NULL method would be dereferenced by everything that follows *)
        method ← defined best_method;
        Ret (0, check_for_downgrade s best_vers, set_method (s <| version := best_vers |>) method, ext)
    else Ret (tls_R_UNSUPPORTED_PROTOCOL, dgrd, s, ext).

(** What a server makes of the version a client names in its hello. *)
Definition choose_legacy_version (s : tls) (table : list version_info) (dgrd : DOWNGRADE)
  : Z * DOWNGRADE * tls :=
  let client_version := client_version (conf s) in
  let client_version := if 0 <=? version_cmp s client_version TLS1_3_VERSION
                        then TLS1_2_VERSION else client_version in
  match server_version_loop s client_version false table with
  | inl (v, method) => (0, check_for_downgrade s v, set_method (s <| version := v |>) method)
  | inr disabled =>
      (if (disabled : bool) then tls_R_UNSUPPORTED_PROTOCOL else tls_R_VERSION_TOO_LOW, dgrd, s)
  end.

(** 0 or the reason of the failure, [*dgrd], the connection and the hello. *)
Definition tls_choose_server_version (s : tls) (hello : CLIENTHELLO_MSG) (dgrd : DOWNGRADE)
  : comp (Z * DOWNGRADE * tls * CLIENTHELLO_MSG) :=
  let s := s <| conf .: client_version := legacy_version hello |> in
  let choose table :=
    suppversions ← defined (pre_proc_exts hello !! TLSEXT_IDX_supported_versions);
    if negb (present suppversions) && (hello_retry_request s != tls_HRR_NONE)
    then Ret (tls_R_UNSUPPORTED_PROTOCOL, dgrd, s, hello)
    else if present suppversions && negb (tls_IS_DTLS s) then
      '(ret, dgrd, s, suppversions) ← choose_supported_version s suppversions dgrd;
      Ret (ret, dgrd, s,
           mk_CLIENTHELLO_MSG (legacy_version hello)
             (<[TLSEXT_IDX_supported_versions := suppversions]> (pre_proc_exts hello)))
    else
      let '(ret, dgrd, s) := choose_legacy_version s table dgrd in
      Ret (ret, dgrd, s, hello) in
  match table_of (method_version s) with
  | Some table => choose table
  | None =>
      if negb (tls_IS_TLS13 s) then
        if version_cmp s (legacy_version hello) (version s) <? 0
        then Ret (tls_R_WRONG_tls_VERSION, dgrd, s, hello)
        else Ret (0, DOWNGRADE_NONE, s, hello)
      else choose tls_version_table
  end.

(** ** The client's choice *)

(** The loop over the table. *)
Fixpoint client_method (v : Z) (table : list version_info) : option tls_METHOD :=
  match table with
  | [] => None
  | vent :: rest =>
      match cmeth vent with
      | Some cm => if v =? v_version vent then Some cm else client_method v rest
      | None => client_method v rest
      end
  end.

(** The end of the server's random, where a sentinel is, is compared with [sentinel]. *)
Definition random_ends (s : tls) (sentinel : list Z) : option bool :=
  tail ← rdn (server_random (conf s)) (tls3_RANDOM_SIZE - zlen sentinel) (zlen sentinel);
  Some (bool_decide (sentinel = tail)).

(** The check for a version that a third party made us agree to. *)
Definition downgraded (s : tls) (real_max : Z) : option bool :=
  if (version s =? TLS1_2_VERSION) && (version s <? real_max) then random_ends s tls12downgrade
  else if negb (tls_IS_DTLS s) && (version s <? TLS1_2_VERSION) && (version s <? real_max)
  then random_ends s tls11downgrade
  else Some false.

(** The part for version-flexible methods; [fail] restores the version. *)
Definition choose_from_table (s : tls) (table : list version_info) (fail : tls -> Z -> bool * tls)
  : option (bool * tls) :=
  let '(ret, ver_min, ver_max, real_max) := tls_get_min_max_version s true in
  if negb (ret =? 0) then Some (fail s tls_AD_PROTOCOL_VERSION)
  else if (if tls_IS_DTLS s then DTLS_VERSION_LT (version s) ver_min else version s <? ver_min)
  then Some (fail s tls_AD_PROTOCOL_VERSION)
  else if (if tls_IS_DTLS s then DTLS_VERSION_GT (version s) ver_max else ver_max <? version s)
  then Some (fail s tls_AD_PROTOCOL_VERSION)
  else
    let real_max := if negb (has_bits (mode (conf s)) tls_MODE_SEND_FALLBACK_SCSV)
                    then ver_max else real_max in
    d ← downgraded s real_max;
    if (d : bool) then Some (fail s tls_AD_ILLEGAL_PARAMETER)
    else match client_method (version s) table with
         | Some cm => Some (true, set_method s cm)
         | None => Some (fail s tls_AD_PROTOCOL_VERSION)
         end.

Definition tls_choose_client_version (s : tls) (version' : Z) (extensions : list RAW_EXTENSION)
  : comp (bool * tls * list RAW_EXTENSION) :=
  let origv := version s in
  let s := s <| version := version' |> in
  let fail s al := (false, tlsfatal (s <| version := origv |>) al) in
  '(ok, s, extensions) ←
    tls_parse_extension mem s TLSEXT_IDX_supported_versions
      (Z.lor tls_EXT_TLS1_2_SERVER_HELLO tls_EXT_TLS1_3_SERVER_HELLO) extensions 0;
  if negb ok then Ret (false, s <| version := origv |>, extensions)
  else if (hello_retry_request s != tls_HRR_NONE) && negb (version s =? TLS1_3_VERSION)
  then let '(ok, s) := fail s tls_AD_PROTOCOL_VERSION in Ret (ok, s, extensions)
  else
    match table_of (method_version s) with
    | None =>
        if negb (version s =? method_version s)
        then let '(ok, s) := fail s tls_AD_PROTOCOL_VERSION in Ret (ok, s, extensions)
        else Ret (true, s, extensions)
    | Some table =>
        '(ok, s) ← defined (choose_from_table s table fail);
        Ret (ok, s, extensions)
    end.

(** 0 or the reason of the failure. *)
Definition tls_set_client_hello_version (s : tls) : Z * tls :=
  if negb (tls_IS_FIRST_HANDSHAKE s) then (0, s)
  else
    let '(ret, ver_min, ver_max, _) := tls_get_min_max_version s false in
    if negb (ret =? 0) then (ret, s)
    else
      let s := s <| version := ver_max |> in
      let ver_max := if negb (tls_IS_DTLS s) && (TLS1_2_VERSION <? ver_max)
                     then TLS1_2_VERSION else ver_max in
      (0, s <| conf .: client_version := ver_max |>).

End Negotiation.

(** ** Hello randoms *)

(** [RAND_bytes n]: its result and the bytes it leaves; [time(NULL)]. *)
Class Entropy : Type := {
  RAND_bytes : Z -> Z * list Z;
  time : Z
}.

(** The result, and the block [result] of at least [len] bytes. *)
Definition tls_fill_hello_random `{Entropy} (s : tls) (server : bool) (result : list Z) (len : Z)
  (dgrd : DOWNGRADE) : option (Z * list Z) :=
  if len <? 4 then Some (0, result)
  else
    let send_time := if server then has_bits (mode (conf s)) tls_MODE_SEND_SERVERHELLO_TIME
                     else has_bits (mode (conf s)) tls_MODE_SEND_CLIENTHELLO_TIME in
    '(ret, result) ←
      (if send_time then
         result ← wrn result 0 (be_bytes 4 time);
         let '(ret, bytes) := RAND_bytes (len - 4) in
         result ← wrn result 4 bytes; Some (ret, result)
       else
         let '(ret, bytes) := RAND_bytes len in
         result ← wrn result 0 bytes; Some (ret, result));
    if 0 <? ret then
      if negb (zlen tls11downgrade <? len) || negb (zlen tls12downgrade <? len)
      then Some (0, result)
      else
        match dgrd with
        | DOWNGRADE_TO_1_2 =>
            result ← wrn result (len - zlen tls12downgrade) tls12downgrade; Some (ret, result)
        | DOWNGRADE_TO_1_1 =>
            result ← wrn result (len - zlen tls11downgrade) tls11downgrade; Some (ret, result)
        | DOWNGRADE_NONE => Some (ret, result)
        end
    else Some (ret, result).
