(* ===== verification/Handshake.v ===== *)
(** * What the handshake state machines accept and send

    Properties of the transition functions of [StatemClnt.v] and [StatemSrvr.v]:
    the languages of messages each side accepts, the flights each side sends,
    their agreement, and what happens to an unexpected message. *)

From S2P Require Import Prelude Mem Packet Buffer WPacket TlsState StatemLib StatemClnt StatemSrvr Statem Sample.

(** ** Runs

    A side reads a sequence of messages: each is accepted by its read transition
    and then processed, which may change the connection as [processed] allows. *)

Inductive reads (read : tls -> Z -> bool * tls) (processed : tls -> tls -> Prop)
  : tls -> list Z -> tls -> Prop :=
| reads_nil s : reads read processed s [] s
| reads_cons s mt s1 s2 l s3 :
    read s mt = (true, s1) -> processed s1 s2 -> reads read processed s2 l s3 ->
    reads read processed s (mt :: l) s3.

(** The fields that decide what a client accepts; processing a message after the
    ServerHello leaves them alone. *)
Definition client_view (s : tls) :=
  (tls_IS_TLS13 s, tls_IS_DTLS s, hit s, version s, new_cipher (tmp (s3 s)),
   (ticket_expected (ext s), status_expected (ext s), session_secret_cb (ext s),
    ext_tick (session s))).

Definition client_processed (s s' : tls) : Prop :=
  hand_state (statem s') = hand_state (statem s) /\ client_view s' = client_view s.

Section Languages.
Context `{Callouts}.

Definition client_reads := reads otls_statem_client_read_transition client_processed.

End Languages.

(** ** Automation *)

(** The error exit of the read transitions is not a success. *)
Lemma read_transition_err_false s mt s' : read_transition_err s mt <> (true, s').
Proof. unfold read_transition_err. by case_if. Qed.

(** Case analysis of a successful read transition from a known state. *)
Ltac read_cases H :=
  repeat (first
    [ discriminate H
    | exfalso; exact (read_transition_err_false _ _ _ H)
    | case_if_in H ]);
  zify_bools; subst; try discriminate.

(** ** TLS 1.3: what the client accepts after the ServerHello *)

Lemma client13_step `{Callouts} s mt s' :
  tls_IS_TLS13 s = true ->
  otls_statem_client_read_transition s mt = (true, s') ->
  otls_statem_client13_read_transition s mt = (true, s').
Proof.
  intros H13. unfold otls_statem_client_read_transition. rewrite H13.
  destruct (otls_statem_client13_read_transition s mt) as [[] s1]; simpl; [by intros [= <-]|].
  intros Hr. by apply read_transition_err_false in Hr.
Qed.

Lemma client13_reads_from `{Callouts} s l s' :
  client_reads s l s' -> tls_IS_TLS13 s = true -> hand_state (statem s) <> TLS_ST_OK ->
  l = [] /\ s' = s \/
  exists mt l1 s1 s2, l = mt :: l1 /\ client_processed s1 s2 /\ client_reads s2 l1 s' /\
    s1 = set_hand_state s (hand_state (statem s1)) /\
    match hand_state (statem s), hand_state (statem s1) with
    | TLS_ST_CW_CLNT_HELLO, TLS_ST_CR_SRVR_HELLO => mt = tls3_MT_SERVER_HELLO
    | TLS_ST_CR_SRVR_HELLO, TLS_ST_CR_ENCRYPTED_EXTENSIONS => mt = tls3_MT_ENCRYPTED_EXTENSIONS
    | TLS_ST_CR_ENCRYPTED_EXTENSIONS, TLS_ST_CR_FINISHED => hit s = true /\ mt = tls3_MT_FINISHED
    | TLS_ST_CR_ENCRYPTED_EXTENSIONS, TLS_ST_CR_CERT_REQ =>
        hit s = false /\ mt = tls3_MT_CERTIFICATE_REQUEST
    | TLS_ST_CR_ENCRYPTED_EXTENSIONS, TLS_ST_CR_CERT => hit s = false /\ mt = tls3_MT_CERTIFICATE
    | TLS_ST_CR_CERT_REQ, TLS_ST_CR_CERT => mt = tls3_MT_CERTIFICATE
    | TLS_ST_CR_CERT, TLS_ST_CR_CERT_VRFY => mt = tls3_MT_CERTIFICATE_VERIFY
    | TLS_ST_CR_CERT_VRFY, TLS_ST_CR_FINISHED => mt = tls3_MT_FINISHED
    | _, _ => False
    end.
Proof.
  intros Hr H13 Hok. destruct Hr as [s|s mt s1 s2 l s3 Hread Hp Hrest]; [by left|right].
  apply client13_step in Hread; [|done].
  exists mt, l, s1, s2. split; [done|]. split; [done|]. split; [done|].
  unfold otls_statem_client13_read_transition in Hread.
  destruct (hand_state (statem s)) eqn:Eh; try done; read_cases Hread; injection Hread as <-; done.
Qed.

Lemma client_view_eqs s s' :
  client_view s' = client_view s ->
  tls_IS_TLS13 s' = tls_IS_TLS13 s /\ tls_IS_DTLS s' = tls_IS_DTLS s /\ hit s' = hit s /\
  version s' = version s /\ new_cipher (tmp (s3 s')) = new_cipher (tmp (s3 s)) /\
  ticket_expected (ext s') = ticket_expected (ext s) /\
  status_expected (ext s') = status_expected (ext s) /\
  session_secret_cb (ext s') = session_secret_cb (ext s) /\
  ext_tick (session s') = ext_tick (session s).
Proof. unfold client_view. intros H. injection H as -> -> -> -> -> -> -> -> ->. tauto. Qed.

(** One step of a TLS 1.3 client's run from a known state: nothing more is read,
    or the next message is read and the run goes on from a known state. *)
Ltac client13_next :=
  match goal with
  | Hr : client_reads ?s ?l ?e, H13 : tls_IS_TLS13 ?s = true,
    Hh : hand_state (statem ?s) = ?h |- _ =>
      let E := fresh "E" in let Hs := fresh "Hs" in let Hm := fresh "Hm" in
      let Hh' := fresh "Hh" in let Hv := fresh "Hv" in let s1 := fresh "s" in
      let H1 := fresh "H13" in let H2 := fresh "Hhit" in
      apply client13_reads_from in Hr; [|exact H13|by rewrite Hh];
      destruct Hr as [[-> ->] | (? & ? & s1 & ? & -> & [Hh' Hv] & Hr & Hs & Hm)];
      [try congruence
      |rewrite Hh in Hm; destruct (hand_state (statem s1)) eqn:E; try done;
       rewrite Hs in Hv;
       change (client_view (set_hand_state s ?b)) with (client_view s) in Hv;
       apply client_view_eqs in Hv as (H1 & _ & H2 & _);
       rewrite H13 in H1; clear Hs E]
  end.

(** The messages of a TLS 1.3 server's flight, [cr] telling whether a client
    certificate is requested. *)
Definition server_flight13 (hit cr : bool) : list Z :=
  if hit then [tls3_MT_ENCRYPTED_EXTENSIONS; tls3_MT_FINISHED]
  else tls3_MT_ENCRYPTED_EXTENSIONS :: (if cr then [tls3_MT_CERTIFICATE_REQUEST] else [])
       ++ [tls3_MT_CERTIFICATE; tls3_MT_CERTIFICATE_VERIFY; tls3_MT_FINISHED].

Lemma client13_language_sound `{Callouts} s l s' :
  tls_IS_TLS13 s = true -> hand_state (statem s) = TLS_ST_CR_SRVR_HELLO ->
  client_reads s l s' -> hand_state (statem s') = TLS_ST_CR_FINISHED ->
  exists cr, l = server_flight13 (hit s) cr.
Proof.
  intros H13 Hh Hr Hend.
  do 6 (try client13_next); destruct_and?; subst;
    repeat match goal with H : hit ?a = _, H' : hit ?a = hit ?b |- _ => rewrite H' in H end;
    unfold server_flight13;
    match goal with H : hit _ = ?b |- context [if ?b' then _ else _] => rewrite H end.
  - by exists false.
  - by exists true.
  - by exists false.
Qed.

Lemma client_processed_refl s : client_processed s s.
Proof. by split. Qed.

Lemma client13_read_ok `{Callouts} s mt s' :
  tls_IS_TLS13 s = true -> otls_statem_client13_read_transition s mt = (true, s') ->
  otls_statem_client_read_transition s mt = (true, s').
Proof. intros H13 Hr. unfold otls_statem_client_read_transition. by rewrite H13, Hr. Qed.

(** The run that reads one more message, in the state [Hh] says, and leaves it
    unprocessed. *)
Ltac client13_go H13 Hh Hhit :=
  eapply reads_cons;
  [apply client13_read_ok;
   [exact H13
   |unfold otls_statem_client13_read_transition;
    first [rewrite Hh|cbn [statem hand_state set_hand_state update]];
    cbn [hit set_hand_state update]; rewrite ?Hhit; reflexivity]
  |apply client_processed_refl|].

Lemma client13_language_complete `{Callouts} s cr :
  tls_IS_TLS13 s = true -> hand_state (statem s) = TLS_ST_CR_SRVR_HELLO ->
  exists s', client_reads s (server_flight13 (hit s) cr) s' /\
             hand_state (statem s') = TLS_ST_CR_FINISHED.
Proof.
  intros H13 Hh. destruct (hit s) eqn:Ehit; [|destruct cr]; cbn [server_flight13 app].
  - eexists. split; [do 2 client13_go H13 Hh Ehit; apply reads_nil|done].
  - eexists. split; [do 5 client13_go H13 Hh Ehit; apply reads_nil|done].
  - eexists. split; [do 4 client13_go H13 Hh Ehit; apply reads_nil|done].
Qed.

(** ** Up to TLS 1.2: what the client accepts after the ServerHello *)

Lemma client_view_all x s :
  client_view x = client_view s ->
  tls_IS_TLS13 x = tls_IS_TLS13 s /\ tls_IS_DTLS x = tls_IS_DTLS s /\ hit x = hit s /\
  version x = version s /\ new_cipher (tmp (s3 x)) = new_cipher (tmp (s3 s)) /\
  ticket_expected (ext x) = ticket_expected (ext s) /\
  status_expected (ext x) = status_expected (ext s) /\
  session_secret_cb (ext x) = session_secret_cb (ext s) /\
  ext_tick (session x) = ext_tick (session s) /\
  key_exchange_expected x = key_exchange_expected s /\ cert_req_allowed x = cert_req_allowed s.
Proof.
  unfold client_view, key_exchange_expected, cert_req_allowed.
  intros E. injection E as -> -> -> -> -> -> -> -> ->. tauto.
Qed.

(** Rewriting what a view determines of a state into what it is of [s]. *)
Ltac client_view_rewrite Hv s Hread :=
  let V := fresh "V" in
  pose proof (client_view_all _ _ Hv) as V;
  repeat match type of V with
         | _ /\ _ => let A := fresh in destruct V as [A V]; try rewrite A in Hread; clear A
         | _ => try rewrite V in Hread; clear V
         end;
  repeat match goal with
         | H : tls_IS_TLS13 s = _ |- _ => rewrite H in Hread
         | H : tls_IS_DTLS s = _ |- _ => rewrite H in Hread
         | H : hit s = _ |- _ => rewrite H in Hread
         | H : session_secret_cb (ext s) = _ |- _ => rewrite H in Hread
         end.

(** One step of a client's run before TLS 1.3, from a known state. *)
Ltac client12_next :=
  match goal with
  | Hr : client_reads ?x ?l ?e, Hh : hand_state (statem ?x) = ?h,
    Hv : client_view ?x = client_view ?s |- _ =>
      let mt := fresh "mt" in let x1 := fresh "x" in let x2 := fresh "x" in
      let l' := fresh "l" in let Hread := fresh "Hread" in let Hp := fresh "Hp" in
      let Hh2 := fresh "Hh" in let Hv2 := fresh "Hv" in let Hr2 := fresh "Hr" in
      inversion Hr as [|? mt x1 x2 l' ? Hread Hp Hr2]; subst; clear Hr;
      [try congruence
      |change (client_reads x2 l' e) in Hr2;
       unfold otls_statem_client_read_transition in Hread; rewrite Hh in Hread;
       client_view_rewrite Hv s Hread;
       read_cases Hread; injection Hread as <-; destruct Hp as [Hh2 Hv2];
       cbn [statem hand_state set_hand_state update] in Hh2;
       try (change (client_view x2 = client_view x) in Hv2; try rewrite Hv in Hv2; clear Hv Hh)]
  end.

(** The server's first flight: the optional messages that are in it. *)
Definition server_flight12 (cert status ske req : bool) : list Z :=
  (if cert then [tls3_MT_CERTIFICATE] else [])
  ++ (if status then [tls3_MT_CERTIFICATE_STATUS] else [])
  ++ (if ske then [tls3_MT_SERVER_KEY_EXCHANGE] else [])
  ++ (if req then [tls3_MT_CERTIFICATE_REQUEST] else []) ++ [tls3_MT_SERVER_DONE].

(** Is the server authenticated by a certificate? *)
Definition cert_auth (s : tls) : bool :=
  negb (has_bits (algorithm_auth (new_cipher (tmp (s3 s))))
          (Z.lor (Z.lor tls_aNULL tls_aSRP) tls_aPSK)).

(** Which optional messages the client takes. *)
Definition flight12_ok (s : tls) (cert status ske req : bool) : Prop :=
  cert = cert_auth s /\
  (status = true -> cert = true /\ status_expected (ext s) = true) /\
  (key_exchange_expected s = true -> ske = true) /\
  (ske = true -> key_exchange_expected s = true \/
                 has_bits (algorithm_mkey (new_cipher (tmp (s3 s)))) tls_PSK = true) /\
  (req = true -> cert_req_allowed s = true).

Lemma client12_language_sound `{Callouts} s l s' :
  tls_IS_TLS13 s = false -> tls_IS_DTLS s = false -> hit s = false ->
  session_secret_cb (ext s) = false -> hand_state (statem s) = TLS_ST_CR_SRVR_HELLO ->
  client_reads s l s' -> hand_state (statem s') = TLS_ST_CR_SRVR_DONE ->
  exists cert status ske req,
    l = server_flight12 cert status ske req /\ flight12_ok s cert status ske req.
Proof.
  intros H13 Hd Hhit Hcb Hh Hr Hend. assert (Hv : client_view s = client_view s) by done.
  do 6 (try client12_next);
    match goal with
    | |- exists c t k r, ?l = server_flight12 _ _ _ _ /\ _ =>
        exists (existsb (Z.eqb tls3_MT_CERTIFICATE) l),
               (existsb (Z.eqb tls3_MT_CERTIFICATE_STATUS) l),
               (existsb (Z.eqb tls3_MT_SERVER_KEY_EXCHANGE) l),
               (existsb (Z.eqb tls3_MT_CERTIFICATE_REQUEST) l)
    end; (split; [reflexivity|]);
    unfold flight12_ok, cert_auth;
    match goal with E : has_bits (algorithm_auth _) _ = _ |- _ => rewrite E end;
    destruct (key_exchange_expected s), (has_bits (algorithm_mkey _) tls_PSK);
    simpl in *; try discriminate; split_and!; try done; intros; try discriminate;
    first [by split|by left|by right].
Qed.

Lemma set_hand_state_twice s h h' :
  set_hand_state (set_hand_state s h) h' = set_hand_state s h'.
Proof. reflexivity. Qed.

(** The run that reads one more message, under the hypotheses [Hs] on the state. *)
Ltac client12_go :=
  eapply reads_cons;
  [unfold otls_statem_client_read_transition;
   change (tls_IS_TLS13 (set_hand_state ?a ?b)) with (tls_IS_TLS13 a);
   change (tls_IS_DTLS (set_hand_state ?a ?b)) with (tls_IS_DTLS a);
   change (key_exchange_expected (set_hand_state ?a ?b)) with (key_exchange_expected a);
   change (cert_req_allowed (set_hand_state ?a ?b)) with (cert_req_allowed a);
   cbn [hand_state statem set_hand_state update hit ext ticket_expected status_expected
        session_secret_cb session s3 tmp new_cipher version];
   repeat match goal with H : _ = _ |- _ => rewrite H end;
   rewrite ?andb_false_r; cbn [andb negb orb];
   first [reflexivity|destruct (status_expected (ext _)); reflexivity]
  |apply client_processed_refl|rewrite ?set_hand_state_twice].

Lemma client12_language_complete `{Callouts} s cert status ske req :
  tls_IS_TLS13 s = false -> tls_IS_DTLS s = false -> hit s = false ->
  session_secret_cb (ext s) = false -> hand_state (statem s) = TLS_ST_CR_SRVR_HELLO ->
  flight12_ok s cert status ske req ->
  exists s', client_reads s (server_flight12 cert status ske req) s' /\
             hand_state (statem s') = TLS_ST_CR_SRVR_DONE.
Proof.
  intros H13 Hd Hhit Hcb Hh (Hc & Hst & Hk & Hk' & Hr).
  unfold cert_auth in Hc.
  assert (H0 : status = true -> cert = true) by tauto.
  assert (H1 : status = true -> status_expected (ext s) = true) by tauto. clear Hst.
  destruct (has_bits (algorithm_auth _) _) eqn:Ea; destruct cert; try discriminate;
  destruct (key_exchange_expected s) eqn:Eke, (has_bits (algorithm_mkey _) _) eqn:Epsk;
  destruct status, ske, req; try (exfalso; clear Hr; intuition discriminate);
  try specialize (H1 eq_refl); try specialize (Hr eq_refl); clear Hc Hk Hk' H0;
  (eexists; split; [unfold server_flight12; cbn [app]|]).
  all: first [repeat client12_go; apply reads_nil|done].
Qed.

(** The end of the server's last flight: a ticket if one was promised. *)
Definition server_end12 (ticket : bool) : list Z :=
  (if ticket then [tls3_MT_NEWSESSION_TICKET] else [])
  ++ [tls3_MT_CHANGE_CIPHER_SPEC; tls3_MT_FINISHED].

(** Where the client waits for it. *)
Definition awaits_end12 (s : tls) : Prop :=
  (hand_state (statem s) = TLS_ST_CR_SRVR_HELLO /\ hit s = true) \/
  hand_state (statem s) = TLS_ST_CW_FINISHED.

Lemma client12_end_sound `{Callouts} s l s' :
  tls_IS_TLS13 s = false -> tls_IS_DTLS s = false -> awaits_end12 s ->
  client_reads s l s' -> hand_state (statem s') = TLS_ST_CR_FINISHED ->
  l = server_end12 (ticket_expected (ext s)).
Proof.
  intros H13 Hd Hw Hr Hend. assert (Hv : client_view s = client_view s) by done.
  destruct Hw as [[Hh Hhit]|Hh]; do 4 (try client12_next); reflexivity.
Qed.

Lemma client12_end_complete `{Callouts} s :
  tls_IS_TLS13 s = false -> tls_IS_DTLS s = false -> awaits_end12 s ->
  exists s', client_reads s (server_end12 (ticket_expected (ext s))) s' /\
             hand_state (statem s') = TLS_ST_CR_FINISHED.
Proof.
  intros H13 Hd Hw. unfold server_end12.
  destruct (ticket_expected (ext s)) eqn:Et; destruct Hw as [[Hh Hhit]|Hh];
    (eexists; split; [cbn [app]; repeat client12_go; apply reads_nil|done]).
Qed.

(** ** What the server accepts *)

(** The fields that decide what a server accepts.  Whether the client has a
    certificate is known once its Certificate is processed, and whether it must
    prove possession of the key once its ClientKeyExchange is. *)
Definition server_view (s : tls) :=
  (tls_IS_TLS13 s, tls_IS_DTLS s, version s, verify_mode s, cert_request (tmp (s3 s)),
   (npn_seen (s3 s), hello_retry_request s, early_data (ext s))).

Definition server_processed (s s' : tls) : Prop :=
  hand_state (statem s') = hand_state (statem s) /\ server_view s' = server_view s /\
  (hand_state (statem s) <> TLS_ST_SR_CERT -> peer (session s') = peer (session s)) /\
  (hand_state (statem s) <> TLS_ST_SR_KEY_EXCH ->
   no_cert_verify (statem s') = no_cert_verify (statem s)).

Definition server_reads `{Callouts} := reads otls_statem_server_read_transition server_processed.

Lemma server_view_all x s :
  server_view x = server_view s ->
  tls_IS_TLS13 x = tls_IS_TLS13 s /\ tls_IS_DTLS x = tls_IS_DTLS s /\ version x = version s /\
  verify_mode x = verify_mode s /\ cert_request (tmp (s3 x)) = cert_request (tmp (s3 s)) /\
  npn_seen (s3 x) = npn_seen (s3 s) /\ hello_retry_request x = hello_retry_request s /\
  early_data (ext x) = early_data (ext s).
Proof. unfold server_view. intros E. injection E as -> -> -> -> -> -> -> ->. tauto. Qed.

Ltac server_view_rewrite Hv s Hread :=
  let V := fresh "V" in
  pose proof (server_view_all _ _ Hv) as V;
  repeat match type of V with
         | _ /\ _ => let A := fresh in destruct V as [A V]; try rewrite A in Hread; clear A
         | _ => try rewrite V in Hread; clear V
         end;
  repeat match goal with
         | H : tls_IS_TLS13 s = _ |- _ => rewrite H in Hread
         | H : tls_IS_DTLS s = _ |- _ => rewrite H in Hread
         end.

(** One step of a server's run from a known state. *)
Ltac server_next :=
  match goal with
  | Hr : server_reads ?x ?l ?e, Hh : hand_state (statem ?x) = ?h,
    Hv : server_view ?x = server_view ?s |- _ =>
      let mt := fresh "mt" in let x1 := fresh "x" in let x2 := fresh "x" in
      let l' := fresh "l" in let Hread := fresh "Hread" in let Hp := fresh "Hp" in
      let Hh2 := fresh "Hh" in let Hv2 := fresh "Hv" in let Hr2 := fresh "Hr" in
      let Hpe := fresh "Hpeer" in let Hno := fresh "Hnov" in
      inversion Hr as [|? mt x1 x2 l' ? Hread Hp Hr2]; subst; clear Hr;
      [try congruence
      |change (server_reads x2 l' e) in Hr2;
       unfold otls_statem_server_read_transition, otls_statem_server13_read_transition in Hread;
       rewrite Hh in Hread; server_view_rewrite Hv s Hread;
       read_cases Hread; injection Hread as <-; destruct Hp as (Hh2 & Hv2 & Hpe & Hno);
       cbn [statem hand_state set_hand_state update] in Hh2;
       change (server_view x2 = server_view x) in Hv2; try rewrite Hv in Hv2;
       cbn [statem hand_state set_hand_state update session no_cert_verify] in Hpe, Hno;
       try specialize (Hpe ltac:(done)); try specialize (Hno ltac:(done)); clear Hv Hh]
  end.

(** The client's flight after the ServerHelloDone. *)
Definition client_flight12 (cert verify npn : bool) : list Z :=
  (if cert then [tls3_MT_CERTIFICATE] else []) ++ [tls3_MT_CLIENT_KEY_EXCHANGE]
  ++ (if verify then [tls3_MT_CERTIFICATE_VERIFY] else []) ++ [tls3_MT_CHANGE_CIPHER_SPEC]
  ++ (if npn then [tls3_MT_NEXT_PROTO] else []) ++ [tls3_MT_FINISHED].

(** When may the client leave its Certificate out? *)
Definition cert_optional (s : tls) : Prop :=
  cert_request (tmp (s3 s)) = false \/
  version s = tls3_VERSION /\
  ~ (has_bits (verify_mode s) tls_VERIFY_PEER = true /\
     has_bits (verify_mode s) tls_VERIFY_FAIL_IF_NO_PEER_CERT = true).

Lemma server12_language_sound `{Callouts} s l s' :
  tls_IS_TLS13 s = false -> tls_IS_DTLS s = false ->
  hand_state (statem s) = TLS_ST_SW_SRVR_DONE ->
  server_reads s l s' -> hand_state (statem s') = TLS_ST_SR_FINISHED ->
  exists cert,
    l = client_flight12 cert (peer (session s') && negb (no_cert_verify (statem s')))
          (npn_seen (s3 s)) /\
    (if cert then cert_request (tmp (s3 s)) = true
     else cert_optional s /\ peer (session s') = peer (session s)).
Proof.
  intros H13 Hd Hh Hr Hend. assert (Hv : server_view s = server_view s) by done.
  do 7 (try server_next);
    repeat match goal with
           | H : peer (session ?a) = peer (session ?b) |- _ => rewrite H in *; clear H
           | H : no_cert_verify (statem ?a) = no_cert_verify (statem ?b) |- _ =>
               rewrite H in *; clear H
           end;
    match goal with
    | |- exists c, ?l = client_flight12 _ (peer (session ?a) && negb (no_cert_verify ?b)) _ /\ _ =>
        exists (existsb (Z.eqb tls3_MT_CERTIFICATE) l);
        destruct (peer (session a)), (no_cert_verify b)
    end; try discriminate; (split; [reflexivity|]); try done; (split; [|done]);
    first [by left|right; (split; [done|]); intros [HA HB]; by rewrite HA, HB in *].
Qed.

(** *** Completeness *)

Lemma server_processed_refl s : server_processed s s.
Proof. by repeat split. Qed.

(** A run of the server that reads one more message, leaving it unprocessed. *)
Ltac server_go :=
  eapply reads_cons;
  [unfold otls_statem_server_read_transition, otls_statem_server13_read_transition;
   change (tls_IS_TLS13 (set_hand_state ?a ?b)) with (tls_IS_TLS13 a);
   cbn [hand_state statem set_hand_state update session peer no_cert_verify s3 tmp
        cert_request npn_seen version ext early_data hello_retry_request];
   repeat match goal with H : _ = _ |- _ => rewrite H end;
   cbn [andb negb orb]; reflexivity
  |apply server_processed_refl|rewrite ?set_hand_state_twice].

Lemma server12_tail `{Callouts} s :
  tls_IS_TLS13 s = false -> hand_state (statem s) = TLS_ST_SR_KEY_EXCH ->
  exists s', server_reads s
    ((if peer (session s) && negb (no_cert_verify (statem s)) then [tls3_MT_CERTIFICATE_VERIFY] else [])
     ++ [tls3_MT_CHANGE_CIPHER_SPEC]
     ++ (if npn_seen (s3 s) then [tls3_MT_NEXT_PROTO] else []) ++ [tls3_MT_FINISHED]) s' /\
    hand_state (statem s') = TLS_ST_SR_FINISHED.
Proof.
  intros H13 Hh.
  destruct (peer (session s)) eqn:Ep, (no_cert_verify (statem s)) eqn:En, (npn_seen (s3 s)) eqn:Enp;
    (eexists; split; [cbn [app andb negb]; repeat server_go; apply reads_nil|done]).
Qed.

(** A ClientKeyExchange read and processed, then the rest of the flight. *)
Lemma server12_from_cke `{Callouts} s n :
  tls_IS_TLS13 s = false ->
  otls_statem_server_read_transition s tls3_MT_CLIENT_KEY_EXCHANGE =
    (true, set_hand_state s TLS_ST_SR_KEY_EXCH) ->
  exists s', server_reads s (client_flight12 false (peer (session s) && negb n) (npn_seen (s3 s))) s' /\
    hand_state (statem s') = TLS_ST_SR_FINISHED.
Proof.
  intros H13 Hread.
  destruct (server12_tail ((set_hand_state s TLS_ST_SR_KEY_EXCH) <| statem .: no_cert_verify := n |>))
    as (s' & Hr & Hh'); [done|done|].
  exists s'. split; [|done]. eapply reads_cons; [exact Hread| |exact Hr]. by repeat split.
Qed.

Lemma server12_language_complete `{Callouts} s cert p n :
  tls_IS_TLS13 s = false -> hand_state (statem s) = TLS_ST_SW_SRVR_DONE ->
  (if cert : bool then cert_request (tmp (s3 s)) = true
   else cert_optional s /\ p = peer (session s)) ->
  exists s', server_reads s (client_flight12 cert (p && negb n) (npn_seen (s3 s))) s' /\
             hand_state (statem s') = TLS_ST_SR_FINISHED.
Proof.
  intros H13 Hh Hc. destruct cert.
  - destruct (server12_from_cke ((set_hand_state s TLS_ST_SR_CERT) <| session .: peer := p |>) n)
      as (s' & Hr & Hh').
    + done.
    + unfold otls_statem_server_read_transition.
      change (tls_IS_TLS13 ((set_hand_state s ?h) <| session .: peer := p |>)) with (tls_IS_TLS13 s).
      rewrite H13. reflexivity.
    + exists s'. split; [|done].
      eapply (reads_cons _ _ s _ (set_hand_state s TLS_ST_SR_CERT)); [| |exact Hr]; [|by repeat split].
      unfold otls_statem_server_read_transition. by rewrite H13, Hh, Hc.
  - destruct Hc as [Ho ->]. apply server12_from_cke; [done|].
    unfold otls_statem_server_read_transition. rewrite H13, Hh.
    destruct Ho as [-> | [Hv Hn]]; [done|]. rewrite Hv. cbn [Z.eqb].
    destruct (cert_request _); [|done].
    destruct (has_bits (verify_mode s) tls_VERIFY_PEER),
      (has_bits (verify_mode s) tls_VERIFY_FAIL_IF_NO_PEER_CERT); simpl; try done.
    exfalso. by apply Hn.
Qed.

(** *** TLS 1.3 *)

(** The client's flight after the server's Finished. *)
Definition client_flight13 (early cert verify : bool) : list Z :=
  (if early then [tls3_MT_END_OF_EARLY_DATA] else [])
  ++ (if cert then [tls3_MT_CERTIFICATE] else [])
  ++ (if verify then [tls3_MT_CERTIFICATE_VERIFY] else []) ++ [tls3_MT_FINISHED].

Lemma server13_language_sound `{Callouts} s l s' :
  tls_IS_TLS13 s = true -> hand_state (statem s) = TLS_ST_EARLY_DATA ->
  server_reads s l s' -> hand_state (statem s') = TLS_ST_SR_FINISHED ->
  (hello_retry_request s == tls_HRR_PENDING) = false /\
  l = client_flight13 (early_data (ext s) =? tls_EARLY_DATA_ACCEPTED)
        (cert_request (tmp (s3 s))) (cert_request (tmp (s3 s)) && peer (session s')).
Proof.
  intros H13 Hh Hr Hend. assert (Hv : server_view s = server_view s) by done.
  do 5 (try server_next); (split; [done|]);
    repeat match goal with
           | H : peer (session ?a) = peer (session ?b) |- _ => rewrite H; clear H
           end;
    try match goal with E : peer (session ?b) = _ |- context [peer (session ?b)] => rewrite E end;
    reflexivity.
Qed.

Lemma server13_language_complete `{Callouts} s p :
  tls_IS_TLS13 s = true -> hand_state (statem s) = TLS_ST_EARLY_DATA ->
  (hello_retry_request s == tls_HRR_PENDING) = false ->
  exists s',
    server_reads s
      (client_flight13 (early_data (ext s) =? tls_EARLY_DATA_ACCEPTED)
         (cert_request (tmp (s3 s))) (cert_request (tmp (s3 s)) && p)) s' /\
    hand_state (statem s') = TLS_ST_SR_FINISHED.
Proof.
  intros H13 Hh Hhrr.
  assert (Htail : forall t, tls_IS_TLS13 t = true -> hand_state (statem t) = TLS_ST_SR_CERT ->
    exists s', server_reads t ((if peer (session t) then [tls3_MT_CERTIFICATE_VERIFY] else [])
                               ++ [tls3_MT_FINISHED]) s' /\
               hand_state (statem s') = TLS_ST_SR_FINISHED).
  { clear. intros s H13 Hh. destruct (peer (session s)) eqn:Ep;
      (eexists; split; [cbn [app]; repeat server_go; apply reads_nil|done]). }
  destruct (Htail ((set_hand_state s TLS_ST_SR_CERT) <| session .: peer := p |>)) as (s' & Hr & Hh');
    [done|done|]. clear Htail.
  unfold client_flight13.
  destruct (early_data (ext s) =? tls_EARLY_DATA_ACCEPTED) eqn:Ee, (cert_request (tmp (s3 s))) eqn:Ec;
    cbn [app andb].
  - exists s'. split; [|done]. server_go.
    eapply (reads_cons _ _ _ _ (set_hand_state s TLS_ST_SR_CERT)); [| |exact Hr]; [|by repeat split].
    unfold otls_statem_server_read_transition, otls_statem_server13_read_transition.
    change (tls_IS_TLS13 (set_hand_state ?a ?b)) with (tls_IS_TLS13 a). rewrite H13.
    cbn [hand_state statem set_hand_state update s3 tmp]. by rewrite Ec.
  - eexists. split; [repeat server_go; apply reads_nil|done].
  - exists s'. split; [|done].
    eapply (reads_cons _ _ _ _ (set_hand_state s TLS_ST_SR_CERT)); [| |exact Hr]; [|by repeat split].
    unfold otls_statem_server_read_transition, otls_statem_server13_read_transition.
    by rewrite H13, Hh, Hhrr, Ee, Ec.
  - eexists. split; [repeat server_go; apply reads_nil|done].
Qed.

(** ** Properties *)

(** C1: a TLS 1.3 client that has processed the ServerHello reaches the server's
    Finished exactly by reading EncryptedExtensions, possibly a
    CertificateRequest, Certificate, CertificateVerify and Finished, or, when the
    session is resumed, EncryptedExtensions and Finished: no Finished is accepted
    from a server that did not prove its identity or resume a session. *)
Theorem tls13_client_language `{Callouts} s l :
  tls_IS_TLS13 s = true -> hand_state (statem s) = TLS_ST_CR_SRVR_HELLO ->
  (exists s', client_reads s l s' /\ hand_state (statem s') = TLS_ST_CR_FINISHED) <->
  exists cr, l = server_flight13 (hit s) cr.
Proof.
  intros H13 Hh. split.
  - intros (s' & Hr & He). by eapply client13_language_sound.
  - intros [cr ->]. by apply client13_language_complete.
Qed.

(** C2: before TLS 1.3, a client that has processed the ServerHello of a full
    handshake reaches the ServerHelloDone exactly by reading: a Certificate if the
    cipher suite authenticates the server with one, then possibly a
    CertificateStatus if one was promised, a ServerKeyExchange if the key exchange
    is ephemeral or SRP (optional for other PSK suites, refused otherwise), possibly a
    CertificateRequest where client certificates are allowed, and the
    ServerHelloDone. *)
Theorem tls12_client_language `{Callouts} s l :
  tls_IS_TLS13 s = false -> tls_IS_DTLS s = false -> hit s = false ->
  session_secret_cb (ext s) = false -> hand_state (statem s) = TLS_ST_CR_SRVR_HELLO ->
  (exists s', client_reads s l s' /\ hand_state (statem s') = TLS_ST_CR_SRVR_DONE) <->
  exists cert status ske req,
    l = server_flight12 cert status ske req /\ flight12_ok s cert status ske req.
Proof.
  intros H13 Hd Hhit Hcb Hh. split.
  - intros (s' & Hr & He). by eapply client12_language_sound.
  - intros (cert & status & ske & req & -> & Hok). by apply client12_language_complete.
Qed.

(** Before TLS 1.3, a client that resumes a session or has sent its own
    Finished reaches the server's Finished exactly by reading the promised
    NewSessionTicket, if any, a ChangeCipherSpec and a Finished: neither an early
    ChangeCipherSpec nor a Finished without one is accepted. *)
Theorem tls12_client_end_language `{Callouts} s l :
  tls_IS_TLS13 s = false -> tls_IS_DTLS s = false -> awaits_end12 s ->
  (exists s', client_reads s l s' /\ hand_state (statem s') = TLS_ST_CR_FINISHED) <->
  l = server_end12 (ticket_expected (ext s)).
Proof.
  intros H13 Hd Hw. split.
  - intros (s' & Hr & He). by eapply client12_end_sound.
  - intros ->. by apply client12_end_complete.
Qed.

(** C3: before TLS 1.3, a server that has sent its ServerHelloDone reaches the
    client's Finished exactly by reading: a Certificate if it asked for one (a
    client of SSL 3 may leave it out unless the server insists), the
    ClientKeyExchange, a CertificateVerify if and only if the client has a certificate
    (and its key was not used for the key exchange), a ChangeCipherSpec, a
    NextProto if and only if it was negotiated, and the Finished. *)
Theorem tls12_server_language `{Callouts} s l :
  tls_IS_TLS13 s = false -> tls_IS_DTLS s = false ->
  hand_state (statem s) = TLS_ST_SW_SRVR_DONE ->
  (forall s', server_reads s l s' -> hand_state (statem s') = TLS_ST_SR_FINISHED ->
     exists cert,
       l = client_flight12 cert (peer (session s') && negb (no_cert_verify (statem s')))
             (npn_seen (s3 s)) /\
       (if cert then cert_request (tmp (s3 s)) = true
        else cert_optional s /\ peer (session s') = peer (session s))) /\
  (forall cert p n,
     (if cert : bool then cert_request (tmp (s3 s)) = true
      else cert_optional s /\ p = peer (session s)) ->
     exists s', server_reads s (client_flight12 cert (p && negb n) (npn_seen (s3 s))) s' /\
                hand_state (statem s') = TLS_ST_SR_FINISHED).
Proof.
  intros H13 Hd Hh. split.
  - intros s' Hr He. by apply server12_language_sound.
  - intros cert p n Hc. by apply server12_language_complete.
Qed.

(** C4: a TLS 1.3 server that waits for the client's flight reaches its Finished
    exactly by reading an EndOfEarlyData if it accepted early data, a Certificate if it
    asked for one, a CertificateVerify if and only if that Certificate was not empty,
    and the Finished; while a HelloRetryRequest is pending it never does. *)
Theorem tls13_server_language `{Callouts} s l :
  tls_IS_TLS13 s = true -> hand_state (statem s) = TLS_ST_EARLY_DATA ->
  (forall s', server_reads s l s' -> hand_state (statem s') = TLS_ST_SR_FINISHED ->
     hello_retry_request s <> tls_HRR_PENDING /\
     l = client_flight13 (early_data (ext s) =? tls_EARLY_DATA_ACCEPTED)
           (cert_request (tmp (s3 s))) (cert_request (tmp (s3 s)) && peer (session s'))) /\
  (forall p, hello_retry_request s <> tls_HRR_PENDING ->
     exists s',
       server_reads s
         (client_flight13 (early_data (ext s) =? tls_EARLY_DATA_ACCEPTED)
            (cert_request (tmp (s3 s))) (cert_request (tmp (s3 s)) && p)) s' /\
       hand_state (statem s') = TLS_ST_SR_FINISHED).
Proof.
  intros H13 Hh. split.
  - intros s' Hr He. destruct (server13_language_sound s l s' H13 Hh Hr He) as [Hn ->].
    apply bool_decide_eq_false in Hn. done.
  - intros p Hn. apply server13_language_complete; [done|done|by apply bool_decide_eq_false].
Qed.

(** ** Witnesses *)

#[local] Existing Instance quiet.

Lemma tls13_client_language_witness :
  exists s', client_reads (sample13 false TLS_ST_CR_SRVR_HELLO) (server_flight13 false true) s' /\
             hand_state (statem s') = TLS_ST_CR_FINISHED.
Proof.
  apply (tls13_client_language (sample13 false TLS_ST_CR_SRVR_HELLO)); [reflexivity|reflexivity|].
  by exists true.
Defined.

Lemma tls12_client_language_witness :
  exists s', client_reads (sample12 false TLS_ST_CR_SRVR_HELLO)
               [tls3_MT_CERTIFICATE; tls3_MT_SERVER_KEY_EXCHANGE; tls3_MT_SERVER_DONE] s' /\
             hand_state (statem s') = TLS_ST_CR_SRVR_DONE.
Proof.
  apply (tls12_client_language (sample12 false TLS_ST_CR_SRVR_HELLO)); try reflexivity.
  exists true, false, true, false. split; [reflexivity|].
  repeat split; try done. by left.
Defined.

Lemma tls12_client_end_language_witness :
  ~ exists s', client_reads (sample12 false TLS_ST_CW_FINISHED) [tls3_MT_FINISHED] s' /\
               hand_state (statem s') = TLS_ST_CR_FINISHED.
Proof.
  intros Hr. apply (tls12_client_end_language (sample12 false TLS_ST_CW_FINISHED)) in Hr;
    [done|reflexivity|reflexivity|by right].
Defined.

Lemma tls12_server_language_witness :
  exists s', server_reads (sample12 true TLS_ST_SW_SRVR_DONE) (client_flight12 false false false) s' /\
             hand_state (statem s') = TLS_ST_SR_FINISHED.
Proof.
  destruct (tls12_server_language (sample12 true TLS_ST_SW_SRVR_DONE) []) as [_ Hc]; try reflexivity.
  apply (Hc false false false). split; [by left|reflexivity].
Defined.

Lemma tls13_server_language_witness :
  exists s', server_reads (sample13 true TLS_ST_EARLY_DATA) [tls3_MT_FINISHED] s' /\
             hand_state (statem s') = TLS_ST_SR_FINISHED.
Proof.
  destruct (tls13_server_language (sample13 true TLS_ST_EARLY_DATA) []) as [_ Hc]; try reflexivity.
  by apply (Hc false).
Defined.
