(* ===== verification/Flights.v ===== *)
(** * The flights each side sends, and that the other side takes them

    A flight is what a side writes between two reads: the write transitions from
    one handshake state to the next, and the message of each state. *)

From S2P Require Import Prelude Mem Packet Buffer WPacket TlsState StatemLib StatemClnt StatemSrvr Statem Sample Handshake.

(** ** Flights

    [flight s l s']: from [s], the write transitions go on, [sent] saying how
    sending a message may change the connection, until there is nothing more to
    write or the handshake is over; the messages sent are [l]. *)

Inductive flight (next : tls -> WRITE_TRAN * tls)
  (message : tls -> bool * tls * option (option confunc_f * Z)) (sent : tls -> tls -> Prop)
  : tls -> list Z -> tls -> Prop :=
| flight_read s s' :
    next s = (WRITE_TRAN_FINISHED, s') -> flight next message sent s [] s'
| flight_over s s' :
    next s = (WRITE_TRAN_CONTINUE, s') -> hand_state (statem s') = TLS_ST_OK ->
    flight next message sent s [] s'
| flight_send s s1 f mt s2 l s3 :
    next s = (WRITE_TRAN_CONTINUE, s1) -> message s1 = (true, s1, Some (f, mt)) ->
    sent s1 s2 -> flight next message sent s2 l s3 ->
    flight next message sent s (if mt =? tls3_MT_DUMMY then l else mt :: l) s3.

(** The fields that decide what a server sends: sending leaves them alone, except
    that sending a CertificateRequest counts it. *)
Definition server_write_view (s : tls) :=
  (tls_IS_TLS13 s, tls_IS_DTLS s, hit s, new_cipher (tmp (s3 s)),
   (ticket_expected (ext s), status_expected (ext s), psk_identity_hint s, verify_mode s),
   (post_handshake_auth s, options s, hello_retry_request s)).

Definition server_sent (s s' : tls) : Prop :=
  hand_state (statem s') = hand_state (statem s) /\ server_write_view s' = server_write_view s /\
  (hand_state (statem s) <> TLS_ST_SW_CERT_REQ -> certreqs_sent s' = certreqs_sent s).

Definition client_write_view (s : tls) :=
  (tls_IS_TLS13 s, tls_IS_DTLS s, hit s, cert_req (tmp (s3 s)), npn_seen (s3 s), flags (s3 s),
   (hello_retry_request s, early_data_state s == tls_EARLY_DATA_CONNECTING,
    early_data (ext s), options s)).

Definition client_sent (s s' : tls) : Prop :=
  hand_state (statem s') = hand_state (statem s) /\ client_write_view s' = client_write_view s.

Section Sides.
Context `{Callouts}.

Definition server_flight :=
  flight otls_statem_server_write_transition otls_statem_server_construct_message server_sent.

Definition client_flight :=
  flight otls_statem_client_write_transition otls_statem_client_construct_message client_sent.

End Sides.

(** ** Automation *)

Lemma send_certificate_request_view x s :
  server_write_view x = server_write_view s -> certreqs_sent x = certreqs_sent s ->
  send_certificate_request x = send_certificate_request s.
Proof.
  unfold server_write_view, send_certificate_request. intros E ->. injection E. intros.
  repeat match goal with H : _ = _ |- _ => rewrite H; clear H end. done.
Qed.

Lemma server_write_view_all x s :
  server_write_view x = server_write_view s ->
  tls_IS_TLS13 x = tls_IS_TLS13 s /\ tls_IS_DTLS x = tls_IS_DTLS s /\ hit x = hit s /\
  new_cipher (tmp (s3 x)) = new_cipher (tmp (s3 s)) /\
  ticket_expected (ext x) = ticket_expected (ext s) /\
  status_expected (ext x) = status_expected (ext s) /\
  hello_retry_request x = hello_retry_request s /\ options x = options s /\
  post_handshake_auth x = post_handshake_auth s /\
  send_server_key_exchange x = send_server_key_exchange s.
Proof.
  unfold server_write_view, send_server_key_exchange.
  intros E. injection E. intros.
  repeat match goal with H : _ = _ |- _ => rewrite H; clear H end. tauto.
Qed.

Lemma client_write_view_all x s :
  client_write_view x = client_write_view s ->
  tls_IS_TLS13 x = tls_IS_TLS13 s /\ tls_IS_DTLS x = tls_IS_DTLS s /\ hit x = hit s /\
  cert_req (tmp (s3 x)) = cert_req (tmp (s3 s)) /\ npn_seen (s3 x) = npn_seen (s3 s) /\
  flags (s3 x) = flags (s3 s) /\ hello_retry_request x = hello_retry_request s /\
  (early_data_state x == tls_EARLY_DATA_CONNECTING)
    = (early_data_state s == tls_EARLY_DATA_CONNECTING) /\
  early_data (ext x) = early_data (ext s) /\
  options x = options s.
Proof.
  unfold client_write_view. intros E. injection E as -> -> -> -> -> -> -> -> -> ->. tauto.
Qed.

(** Rewriting with all the equations of a conjunction. *)
Ltac rewrite_view V H :=
  repeat match type of V with
         | _ /\ _ => let A := fresh in destruct V as [A V]; try rewrite A in H; clear A
         | _ => try rewrite V in H; clear V
         end.

Ltac split_cases H :=
  repeat (first [discriminate H | case_if_in H]); zify_bools; try discriminate.

(** One step of a server's flight from a known state. *)
Ltac server_write_next :=
  match goal with
  | Hr : server_flight ?x ?l ?e, Hh : hand_state (statem ?x) = ?h,
    Hv : server_write_view ?x = server_write_view ?s |- _ =>
      let x1 := fresh "x" in let x2 := fresh "x" in let l' := fresh "l" in
      let N := fresh "Hnext" in let M := fresh "Hmsg" in let P := fresh "Hp" in
      let R := fresh "Hr" in let V := fresh "V" in let W := fresh "W" in
      let Hh2 := fresh "Hh" in let Hv2 := fresh "Hv" in let Hc2 := fresh "Hc" in
      let mt := fresh "mt" in let O := fresh "O" in
      pose proof (server_write_view_all _ _ Hv) as V;
      inversion Hr as [? ? N|? ? N O|? x1 f mt x2 l' ? N M P R]; subst; clear Hr;
      unfold otls_statem_server_write_transition, otls_statem_server13_write_transition in N;
      rewrite Hh in N; rewrite_view V N;
      try match goal with
          | Hc : certreqs_sent x = certreqs_sent s |- _ =>
              rewrite (send_certificate_request_view _ _ Hv Hc) in N
          end;
      repeat match goal with
             | H : tls_IS_TLS13 s = _ |- _ => rewrite H in N
             | H : tls_IS_DTLS s = _ |- _ => rewrite H in N
             | H : hit s = _ |- _ => rewrite H in N
             end;
      split_cases N; injection N as <-; try discriminate;
      try (change (server_flight x2 l' e) in R;
           unfold otls_statem_server_construct_message in M;
           cbn [statem hand_state set_hand_state update] in M;
           change (tls_IS_DTLS (set_hand_state x ?h)) with (tls_IS_DTLS x) in M;
           injection M as <- <-; destruct P as (Hh2 & Hv2 & Hc2);
           cbn [statem hand_state set_hand_state update] in Hh2, Hc2;
           change (server_write_view x2 = server_write_view x) in Hv2; try rewrite Hv in Hv2;
           change (certreqs_sent (set_hand_state x ?h)) with (certreqs_sent x) in Hc2;
           try match goal with
               | Hc : certreqs_sent x = certreqs_sent s |- _ =>
                   specialize (Hc2 ltac:(done)); try rewrite Hc in Hc2; clear Hc
               end;
           clear Hv Hh)
  end.

Lemma server12_full_flight `{Callouts} s l s' :
  tls_IS_TLS13 s = false -> tls_IS_DTLS s = false -> hit s = false ->
  hand_state (statem s) = TLS_ST_SW_SRVR_HELLO -> server_flight s l s' ->
  hand_state (statem s') = TLS_ST_SW_SRVR_DONE /\
  l = server_flight12 (cert_auth s) (cert_auth s && status_expected (ext s))
        (send_server_key_exchange s) (send_certificate_request s).
Proof.
  intros H13 Hd Hhit Hh Hr.
  assert (Hv : server_write_view s = server_write_view s) by done.
  assert (Hc : certreqs_sent s = certreqs_sent s) by done.
  unfold cert_auth. do 6 (try server_write_next); (split; [done|]);
    unfold server_flight12;
    try match goal with E : has_bits (algorithm_auth _) _ = _ |- _ => rewrite E end;
    reflexivity.
Qed.

(** A resumed session, or the last flight of a full handshake. *)
Lemma server12_end_flight `{Callouts} s l s' :
  tls_IS_TLS13 s = false -> tls_IS_DTLS s = false ->
  (hand_state (statem s) = TLS_ST_SW_SRVR_HELLO /\ hit s = true) \/
  (hand_state (statem s) = TLS_ST_SR_FINISHED /\ hit s = false) ->
  server_flight s l s' ->
  hand_state (statem s') = (if hit s then TLS_ST_SW_FINISHED else TLS_ST_OK) /\
  l = server_end12 (ticket_expected (ext s)).
Proof.
  intros H13 Hd Hh Hr.
  assert (Hv : server_write_view s = server_write_view s) by done.
  destruct Hh as [[Hh Hhit]|[Hh Hhit]]; rewrite Hhit;
    do 5 (try server_write_next); (split; [done|reflexivity]).
Qed.

(** TLS 1.3: the flight that starts with the ServerHello, which is already sent;
    in compatibility mode there is a ChangeCipherSpec after the first hello. *)
Lemma server13_full_flight `{Callouts} s l s' :
  tls_IS_TLS13 s = true -> hello_retry_request s <> tls_HRR_PENDING ->
  post_handshake_auth s <> tls_PHA_REQUEST_PENDING ->
  hand_state (statem s) = TLS_ST_SW_SRVR_HELLO -> server_flight s l s' ->
  hand_state (statem s') = TLS_ST_EARLY_DATA /\
  l = (if has_bits (options s) tls_OP_ENABLE_MIDDLEBOX_COMPAT
          && (hello_retry_request s != tls_HRR_COMPLETE)
       then [tls3_MT_CHANGE_CIPHER_SPEC] else [])
      ++ server_flight13 (hit s) (negb (hit s) && send_certificate_request s).
Proof.
  intros H13 Hhrr Hpha Hh Hr.
  assert (Hv : server_write_view s = server_write_view s) by done.
  assert (Hc : certreqs_sent s = certreqs_sent s) by done.
  do 8 (try server_write_next; try congruence); (split; [done|]);
    repeat match goal with
           | H : has_bits (options s) _ = _ |- context [has_bits (options s) _] => rewrite H
           | H : send_certificate_request s = _ |- context [send_certificate_request s] => rewrite H
           | H : hello_retry_request s = _ |- context [hello_retry_request s] => rewrite H
           end;
    try reflexivity.
  all: repeat match goal with H : _ \/ _ |- _ => destruct H as [H|H] end.
  all: try (rewrite H0; reflexivity).
Qed.

(** ** The client's flights *)

(** One step of a client's flight from a known state. *)
Ltac client_write_next :=
  match goal with
  | Hr : client_flight ?x ?l ?e, Hh : hand_state (statem ?x) = ?h,
    Hv : client_write_view ?x = client_write_view ?s |- _ =>
      let x1 := fresh "x" in let x2 := fresh "x" in let l' := fresh "l" in
      let N := fresh "Hnext" in let M := fresh "Hmsg" in let P := fresh "Hp" in
      let R := fresh "Hr" in let V := fresh "V" in let W := fresh "W" in
      let Hh2 := fresh "Hh" in let Hv2 := fresh "Hv" in
      let mt := fresh "mt" in let O := fresh "O" in
      pose proof (client_write_view_all _ _ Hv) as V;
      inversion Hr as [? ? N|? ? N O|? x1 f mt x2 l' ? N M P R]; subst; clear Hr;
      unfold otls_statem_client_write_transition, otls_statem_client13_write_transition in N;
      rewrite Hh in N; rewrite_view V N;
      repeat match goal with
             | H : tls_IS_TLS13 s = _ |- _ => rewrite H in N
             | H : tls_IS_DTLS s = _ |- _ => rewrite H in N
             | H : hit s = _ |- _ => rewrite H in N
             end;
      split_cases N; injection N as <-; try discriminate;
      try (change (client_flight x2 l' e) in R;
           unfold otls_statem_client_construct_message in M;
           cbn [statem hand_state set_hand_state update] in M;
           change (tls_IS_DTLS (set_hand_state x ?h)) with (tls_IS_DTLS x) in M;
           injection M as <- <-; destruct P as (Hh2 & Hv2);
           cbn [statem hand_state set_hand_state update] in Hh2;
           change (client_write_view x2 = client_write_view x) in Hv2; try rewrite Hv in Hv2;
           clear Hv Hh)
  end.

(** Settling the booleans of [s] that the goal is about. *)
Ltac flight_bools s :=
  cbn [negb andb] in *;
  repeat match goal with
         | H : has_bits ?a ?b = _ |- context [has_bits ?a ?b] => rewrite H
         | H : npn_seen (s3 s) = _ |- context [npn_seen (s3 s)] => rewrite H
         | |- context [?a =? ?b] =>
             match a with context [s] => destruct (Z.eqb_spec a b); try congruence; try lia end
         | |- context [?a == ?b] =>
             destruct (decide (a = b)) as [?Eq|?Eq];
             [rewrite (bool_decide_eq_true_2 _ Eq)|rewrite (bool_decide_eq_false_2 _ Eq)];
             try congruence; try (exfalso; intuition congruence)
         end.

Lemma client12_full_flight `{Callouts} s l s' :
  tls_IS_TLS13 s = false -> tls_IS_DTLS s = false -> hit s = false ->
  hello_retry_request s <> tls_HRR_PENDING ->
  early_data_state s <> tls_EARLY_DATA_CONNECTING ->
  hand_state (statem s) = TLS_ST_CR_SRVR_DONE -> client_flight s l s' ->
  hand_state (statem s') = TLS_ST_CW_FINISHED /\
  l = client_flight12 (negb (cert_req (tmp (s3 s)) =? 0))
        ((cert_req (tmp (s3 s)) =? 1) && negb (has_bits (flags (s3 s)) TLS1_FLAGS_SKIP_CERT_VERIFY))
        (npn_seen (s3 s)).
Proof.
  intros H13 Hd Hhit Hhrr Hearly Hh Hr.
  assert (Hv : client_write_view s = client_write_view s) by done.
  do 7 (try client_write_next; try congruence); (split; [done|]); flight_bools s; reflexivity.
Qed.

(** A resumed session: the client's flight is the last one. *)
Lemma client12_resumed_flight `{Callouts} s l s' :
  tls_IS_TLS13 s = false -> tls_IS_DTLS s = false -> hit s = true ->
  hello_retry_request s <> tls_HRR_PENDING ->
  early_data_state s <> tls_EARLY_DATA_CONNECTING ->
  hand_state (statem s) = TLS_ST_CR_FINISHED -> client_flight s l s' ->
  hand_state (statem s') = TLS_ST_OK /\
  l = tls3_MT_CHANGE_CIPHER_SPEC ::
      (if npn_seen (s3 s) then [tls3_MT_NEXT_PROTO] else []) ++ [tls3_MT_FINISHED].
Proof.
  intros H13 Hd Hhit Hhrr Hearly Hh Hr.
  assert (Hv : client_write_view s = client_write_view s) by done.
  do 7 (try client_write_next; try congruence); (split; [done|]); flight_bools s; reflexivity.
Qed.

(** TLS 1.3: after the server's Finished. *)
Definition early_data_written (s : tls) : bool :=
  (early_data_state s == tls_EARLY_DATA_WRITE_RETRY)
  || (early_data_state s == tls_EARLY_DATA_FINISHED_WRITING).

Lemma client13_flight `{Callouts} s l s' :
  tls_IS_TLS13 s = true -> hand_state (statem s) = TLS_ST_CR_FINISHED -> client_flight s l s' ->
  hand_state (statem s') = TLS_ST_OK /\
  l = (if negb (early_data_written s) && has_bits (options s) tls_OP_ENABLE_MIDDLEBOX_COMPAT
          && (hello_retry_request s == tls_HRR_NONE)
       then [tls3_MT_CHANGE_CIPHER_SPEC] else [])
      ++ client_flight13 (early_data_written s && (early_data (ext s) =? tls_EARLY_DATA_ACCEPTED))
           (negb (cert_req (tmp (s3 s)) =? 0)) (cert_req (tmp (s3 s)) =? 1).
Proof.
  intros H13 Hh Hr.
  assert (Hv : client_write_view s = client_write_view s) by done.
  unfold early_data_written.
  do 7 (try client_write_next; try congruence); (split; [done|]); flight_bools s; try reflexivity;
    destruct (has_bits (options s) _); try reflexivity;
    match goal with
    | H : hello_retry_request s = _, H' : _ && _ = _ |- _ =>
        rewrite (bool_decide_eq_true_2 _ H) in H'; discriminate H'
    end.
Qed.

(** ** Every flight can be sent *)

Lemma flight_send_message next message sent s s1 f mt s2 l s3 :
  next s = (WRITE_TRAN_CONTINUE, s1) -> message s1 = (true, s1, Some (f, mt)) ->
  (mt =? tls3_MT_DUMMY) = false -> sent s1 s2 -> flight next message sent s2 l s3 ->
  flight next message sent s (mt :: l) s3.
Proof.
  intros Hn Hm Hd Hs Hf. pose proof (flight_send next message sent _ _ _ _ _ _ _ Hn Hm Hs Hf) as F.
  by rewrite Hd in F.
Qed.

Lemma flight_send_dummy next message sent s s1 f s2 l s3 :
  next s = (WRITE_TRAN_CONTINUE, s1) -> message s1 = (true, s1, Some (f, tls3_MT_DUMMY)) ->
  sent s1 s2 -> flight next message sent s2 l s3 -> flight next message sent s l s3.
Proof.
  intros Hn Hm Hs Hf. exact (flight_send next message sent _ _ _ _ _ _ _ Hn Hm Hs Hf).
Qed.

Lemma server_sent_refl s : server_sent s s.
Proof. by repeat split. Qed.

Lemma client_sent_refl s : client_sent s s.
Proof. by split. Qed.

Lemma neq_test `{EqDecision A} (a b : A) : a <> b -> (a == b) = false.
Proof. apply bool_decide_eq_false_2. Qed.

(** Evaluating a write transition from a state built with [set_hand_state]. *)
Ltac write_eval :=
  unfold otls_statem_server_write_transition, otls_statem_server13_write_transition,
    otls_statem_client_write_transition, otls_statem_client13_write_transition;
  change (tls_IS_TLS13 (set_hand_state ?a ?b)) with (tls_IS_TLS13 a);
  change (tls_IS_DTLS (set_hand_state ?a ?b)) with (tls_IS_DTLS a);
  change (send_server_key_exchange (set_hand_state ?a ?b)) with (send_server_key_exchange a);
  change (send_certificate_request (set_hand_state ?a ?b)) with (send_certificate_request a);
  cbn [hand_state statem set_hand_state update hit ext ticket_expected status_expected
       session s3 tmp new_cipher version hello_retry_request options early_data_state
       post_handshake_auth cert_req flags npn_seen early_data];
  repeat match goal with H : _ = _ |- _ => rewrite H end;
  cbn [andb negb orb]; reflexivity.

Ltac sent_refl := first [apply server_sent_refl|apply client_sent_refl].

(** A flight that writes everything there is to write. *)
Ltac write_go :=
  first
  [eapply flight_read; write_eval
  |eapply flight_over; [write_eval|reflexivity]
  |eapply flight_send_message;
   [write_eval|reflexivity|reflexivity|sent_refl|rewrite ?set_hand_state_twice]
  |eapply flight_send_dummy; [write_eval|reflexivity|sent_refl|rewrite ?set_hand_state_twice]].

Lemma server12_flight_exists `{Callouts} s :
  tls_IS_TLS13 s = false -> tls_IS_DTLS s = false -> hit s = false ->
  hand_state (statem s) = TLS_ST_SW_SRVR_HELLO ->
  exists l s', server_flight s l s'.
Proof.
  intros H13 Hd Hhit Hh.
  destruct (has_bits (algorithm_auth (new_cipher (tmp (s3 s))))
              (Z.lor (Z.lor tls_aNULL tls_aSRP) tls_aPSK)) eqn:Ea,
    (status_expected (ext s)) eqn:Es, (send_server_key_exchange s) eqn:Ek,
    (send_certificate_request s) eqn:Ec;
    eexists _, _; unfold server_flight; repeat write_go.
Qed.

Lemma client12_flight_exists `{Callouts} c :
  tls_IS_TLS13 c = false -> tls_IS_DTLS c = false -> hit c = false ->
  hello_retry_request c <> tls_HRR_PENDING -> early_data_state c <> tls_EARLY_DATA_CONNECTING ->
  hand_state (statem c) = TLS_ST_CR_SRVR_DONE ->
  exists l c', client_flight c l c'.
Proof.
  intros H13 Hd Hhit Hhrr%neq_test Hed%neq_test Hh.
  destruct (cert_req (tmp (s3 c)) =? 0) eqn:E0, (cert_req (tmp (s3 c)) =? 1) eqn:E1,
    (has_bits (flags (s3 c)) TLS1_FLAGS_SKIP_CERT_VERIFY) eqn:Es, (npn_seen (s3 c)) eqn:En;
    eexists _, _; unfold client_flight; repeat write_go.
Qed.

Lemma server12_end_exists `{Callouts} s :
  tls_IS_TLS13 s = false -> tls_IS_DTLS s = false ->
  (hand_state (statem s) = TLS_ST_SW_SRVR_HELLO /\ hit s = true) \/
  (hand_state (statem s) = TLS_ST_SR_FINISHED /\ hit s = false) ->
  exists l s', server_flight s l s'.
Proof.
  intros H13 Hd [[Hh Hhit]|[Hh Hhit]]; destruct (ticket_expected (ext s)) eqn:Et;
    eexists _, _; unfold server_flight; repeat write_go.
Qed.

Lemma client12_resumed_exists `{Callouts} c :
  tls_IS_TLS13 c = false -> tls_IS_DTLS c = false -> hit c = true ->
  hello_retry_request c <> tls_HRR_PENDING -> early_data_state c <> tls_EARLY_DATA_CONNECTING ->
  hand_state (statem c) = TLS_ST_CR_FINISHED ->
  exists l c', client_flight c l c'.
Proof.
  intros H13 Hd Hhit Hhrr%neq_test Hed%neq_test Hh.
  destruct (npn_seen (s3 c)) eqn:En; eexists _, _; unfold client_flight; repeat write_go.
Qed.

Lemma server13_flight_exists `{Callouts} s :
  tls_IS_TLS13 s = true -> hello_retry_request s <> tls_HRR_PENDING ->
  post_handshake_auth s <> tls_PHA_REQUEST_PENDING ->
  hand_state (statem s) = TLS_ST_SW_SRVR_HELLO ->
  exists l s', server_flight s l s'.
Proof.
  intros H13 Hhrr%neq_test Hpha%neq_test Hh.
  destruct (has_bits (options s) tls_OP_ENABLE_MIDDLEBOX_COMPAT) eqn:Eo,
    (hello_retry_request s == tls_HRR_COMPLETE) eqn:Er, (hit s) eqn:Ei,
    (send_certificate_request s) eqn:Ec;
    eexists _, _; unfold server_flight; repeat write_go.
Qed.

Lemma client13_flight_exists `{Callouts} c :
  tls_IS_TLS13 c = true -> hand_state (statem c) = TLS_ST_CR_FINISHED ->
  exists l c', client_flight c l c'.
Proof.
  intros H13 Hh.
  destruct (has_bits (options c) tls_OP_ENABLE_MIDDLEBOX_COMPAT) eqn:Eo,
    (hello_retry_request c == tls_HRR_NONE) eqn:Er,
    (early_data_state c == tls_EARLY_DATA_WRITE_RETRY) eqn:Ew,
    (early_data_state c == tls_EARLY_DATA_FINISHED_WRITING) eqn:Ef,
    (early_data (ext c) =? tls_EARLY_DATA_ACCEPTED) eqn:Ee,
    (cert_req (tmp (s3 c)) =? 0) eqn:E0, (cert_req (tmp (s3 c)) =? 1) eqn:E1;
    eexists _, _; unfold client_flight; repeat write_go.
Qed.
