(* ===== verification/Agreement.v ===== *)
(** * The two sides of a handshake agree

    The flights that one side's write transitions produce are flights that the
    other side's read transitions accept, when the two sides agree on what was
    negotiated: the handshake cannot stop because the two state machines of the
    same library disagree on the next message. *)

From S2P Require Import Prelude Mem Packet Buffer WPacket TlsState StatemLib StatemClnt StatemSrvr Statem Sample Handshake Flights.

(** ** What two sides agree on *)

(** After the ServerHello of a full handshake before TLS 1.3. *)
Record negotiated12 (c s : tls) : Prop := {
  neg_cipher : new_cipher (tmp (s3 c)) = new_cipher (tmp (s3 s));
  neg_hit : hit c = hit s;
  neg_status : status_expected (ext c) = status_expected (ext s);
  neg_ticket : ticket_expected (ext c) = ticket_expected (ext s);
  neg_npn : npn_seen (s3 c) = npn_seen (s3 s);
}.

(** After the messages by which a server asks for a certificate. *)
Definition certificate_agreed (c s : tls) : Prop :=
  cert_request (tmp (s3 s)) = negb (cert_req (tmp (s3 c)) =? 0).

(** Does the client prove possession of the key of its certificate? *)
Definition client_proves (c : tls) : bool :=
  (cert_req (tmp (s3 c)) =? 1) && negb (has_bits (flags (s3 c)) TLS1_FLAGS_SKIP_CERT_VERIFY).

(** In TLS 1.3 a ChangeCipherSpec only imitates an older handshake; the record
    layer of the receiver drops it and the state machine does not see it. *)
Definition without_ccs (l : list Z) : list Z :=
  List.filter (fun mt => negb (mt =? tls3_MT_CHANGE_CIPHER_SPEC)) l.

(** ** What one side sends, the other accepts *)

(** A server sends a ServerKeyExchange whenever its client insists on one, and
    only when the client puts up with one. *)
Lemma key_exchange_agreed c s :
  new_cipher (tmp (s3 c)) = new_cipher (tmp (s3 s)) ->
  (key_exchange_expected c = true -> send_server_key_exchange s = true) /\
  (send_server_key_exchange s = true ->
   key_exchange_expected c = true \/
   has_bits (algorithm_mkey (new_cipher (tmp (s3 c)))) tls_PSK = true).
Proof.
  unfold key_exchange_expected, send_server_key_exchange. intros ->.
  set (k := algorithm_mkey _). change (Z.land tls_PSK (Z.lor tls_kDHEPSK tls_kECDHEPSK))
    with (Z.lor tls_kDHEPSK tls_kECDHEPSK).
  unfold tls_PSK. rewrite !has_bits_lor.
  destruct (has_bits k tls_kDHE), (has_bits k tls_kECDHE), (has_bits k tls_kDHEPSK),
    (has_bits k tls_kECDHEPSK), (has_bits k tls_kSRP), (has_bits k tls_kPSK),
    (has_bits k tls_kRSAPSK), (psk_identity_hint s); simpl; split; intros; try done; tauto.
Qed.

(** A server asks for a certificate only where its client allows it, unless the
    server is anonymous and insists on one. *)
Lemma certificate_request_agreed c s :
  new_cipher (tmp (s3 c)) = new_cipher (tmp (s3 s)) ->
  version c <= tls3_VERSION \/ has_bits (algorithm_auth (new_cipher (tmp (s3 s)))) tls_aNULL = false
  \/ has_bits (verify_mode s) tls_VERIFY_FAIL_IF_NO_PEER_CERT = false ->
  send_certificate_request s = true -> cert_req_allowed c = true.
Proof.
  unfold cert_req_allowed, send_certificate_request. intros ->.
  set (a := algorithm_auth _). intros Hn Hs. rewrite has_bits_lor.
  destruct (has_bits a tls_aSRP); [by rewrite andb_false_r in Hs|].
  destruct (has_bits a tls_aPSK); [by rewrite !andb_false_r in Hs|].
  destruct (has_bits a tls_aNULL); [|by rewrite andb_false_r].
  destruct (Z.ltb_spec tls3_VERSION (version c)); [|done].
  destruct Hn as [?|[?|E]]; [lia|done|].
  by rewrite E, !andb_false_r in Hs.
Qed.

(** The server's flight of a full handshake, read by the client. *)
Lemma server12_full_accepted `{Callouts} c s l s' :
  negotiated12 c s -> tls_IS_TLS13 c = false -> tls_IS_DTLS c = false ->
  tls_IS_TLS13 s = false -> tls_IS_DTLS s = false -> hit s = false ->
  session_secret_cb (ext c) = false ->
  version c <= tls3_VERSION \/ has_bits (algorithm_auth (new_cipher (tmp (s3 s)))) tls_aNULL = false
  \/ has_bits (verify_mode s) tls_VERIFY_FAIL_IF_NO_PEER_CERT = false ->
  hand_state (statem c) = TLS_ST_CR_SRVR_HELLO -> hand_state (statem s) = TLS_ST_SW_SRVR_HELLO ->
  server_flight s l s' ->
  hand_state (statem s') = TLS_ST_SW_SRVR_DONE /\
  exists c', client_reads c l c' /\ hand_state (statem c') = TLS_ST_CR_SRVR_DONE.
Proof.
  intros [Hc Hh Hs _ _] H13c Hdc H13s Hds Hhit Hcb Hanon Hhc Hhs Hf.
  destruct (server12_full_flight s l s') as [Hend ->]; try done. split; [done|].
  destruct (key_exchange_agreed c s Hc) as [Hk1 Hk2].
  apply client12_language_complete; try done; [by rewrite Hh|].
  unfold flight12_ok, cert_auth. rewrite Hc, Hs in *. split_and!; try done.
  - intros Hst. by apply andb_true_iff in Hst.
  - intros Hr. by apply (certificate_request_agreed c s).
Qed.

(** The client's answer, read by the server. *)
Lemma client12_full_accepted `{Callouts} c s l c' :
  negotiated12 c s -> certificate_agreed c s -> tls_IS_TLS13 c = false -> tls_IS_DTLS c = false ->
  tls_IS_TLS13 s = false -> tls_IS_DTLS s = false -> hit c = false ->
  hello_retry_request c <> tls_HRR_PENDING -> early_data_state c <> tls_EARLY_DATA_CONNECTING ->
  hand_state (statem c) = TLS_ST_CR_SRVR_DONE -> hand_state (statem s) = TLS_ST_SW_SRVR_DONE ->
  client_flight c l c' ->
  hand_state (statem c') = TLS_ST_CW_FINISHED /\
  exists s', server_reads s l s' /\ hand_state (statem s') = TLS_ST_SR_FINISHED.
Proof.
  intros [_ _ _ _ Hn] Hcert H13c Hdc H13s Hds Hhit Hhrr Hed Hhc Hhs Hf.
  destruct (client12_full_flight c l c') as [Hend ->]; try done. split; [done|].
  change ((cert_req (tmp (s3 c)) =? 1) && _) with (client_proves c). rewrite Hn.
  unfold certificate_agreed in Hcert.
  destruct (negb (cert_req (tmp (s3 c)) =? 0)) eqn:E0.
  - destruct (server12_language_complete s true (client_proves c) false) as (s' & Hr & He);
      try done. exists s'. by rewrite andb_true_r in Hr.
  - destruct (server12_language_complete s false (peer (session s)) true) as (s' & Hr & He);
      try done; [by split; [left|]|].
    exists s'. rewrite andb_false_r in Hr.
    assert (client_proves c = false) as ->; [|done].
    unfold client_proves. apply negb_false_iff, Z.eqb_eq in E0. by rewrite E0.
Qed.

(** The server's last flight, or its only one in a resumed session. *)
Lemma server12_end_accepted `{Callouts} c s l s' :
  negotiated12 c s -> tls_IS_TLS13 c = false -> tls_IS_DTLS c = false ->
  tls_IS_TLS13 s = false -> tls_IS_DTLS s = false ->
  (if hit s then hand_state (statem s) = TLS_ST_SW_SRVR_HELLO /\
                 hand_state (statem c) = TLS_ST_CR_SRVR_HELLO
   else hand_state (statem s) = TLS_ST_SR_FINISHED /\
        hand_state (statem c) = TLS_ST_CW_FINISHED) ->
  server_flight s l s' ->
  exists c', client_reads c l c' /\ hand_state (statem c') = TLS_ST_CR_FINISHED.
Proof.
  intros [_ Hh _ Ht _] H13c Hdc H13s Hds Hst Hf.
  destruct (server12_end_flight s l s') as [_ ->]; try done.
  - destruct (hit s); [left|right]; tauto.
  - rewrite <- Ht. apply client12_end_complete; [done|done|]. unfold awaits_end12.
    rewrite Hh. destruct (hit s); [left|right]; tauto.
Qed.

(** The client's last flight of a resumed session. *)
Lemma client12_resumed_accepted `{Callouts} c s l c' :
  negotiated12 c s -> tls_IS_TLS13 c = false -> tls_IS_DTLS c = false ->
  tls_IS_TLS13 s = false -> tls_IS_DTLS s = false -> hit c = true ->
  hello_retry_request c <> tls_HRR_PENDING -> early_data_state c <> tls_EARLY_DATA_CONNECTING ->
  hand_state (statem c) = TLS_ST_CR_FINISHED -> hand_state (statem s) = TLS_ST_SW_FINISHED ->
  client_flight c l c' ->
  hand_state (statem c') = TLS_ST_OK /\
  exists s', server_reads s l s' /\ hand_state (statem s') = TLS_ST_SR_FINISHED.
Proof.
  intros [_ _ _ _ Hn] H13c Hdc H13s Hds Hhit Hhrr Hed Hhc Hhs Hf.
  destruct (client12_resumed_flight c l c') as [Hend ->]; try done. split; [done|]. rewrite Hn.
  destruct (npn_seen (s3 s)) eqn:En; (eexists; split; [cbn [app]; repeat server_go; apply reads_nil|done]).
Qed.

(** *** TLS 1.3 *)

Lemma without_ccs_server_flight13 hit cr :
  without_ccs (server_flight13 hit cr) = server_flight13 hit cr.
Proof. by destruct hit, cr. Qed.

Lemma without_ccs_client_flight13 e c v :
  without_ccs (client_flight13 e c v) = client_flight13 e c v.
Proof. by destruct e, c, v. Qed.

Lemma without_ccs_optional (b : bool) l :
  without_ccs ((if b then [tls3_MT_CHANGE_CIPHER_SPEC] else []) ++ l) = without_ccs l.
Proof. by destruct b. Qed.

Lemma server13_accepted `{Callouts} c s l s' :
  hit c = hit s -> tls_IS_TLS13 c = true -> tls_IS_TLS13 s = true ->
  hello_retry_request s <> tls_HRR_PENDING -> post_handshake_auth s <> tls_PHA_REQUEST_PENDING ->
  hand_state (statem c) = TLS_ST_CR_SRVR_HELLO -> hand_state (statem s) = TLS_ST_SW_SRVR_HELLO ->
  server_flight s l s' ->
  hand_state (statem s') = TLS_ST_EARLY_DATA /\
  exists c', client_reads c (without_ccs l) c' /\ hand_state (statem c') = TLS_ST_CR_FINISHED.
Proof.
  intros Hh H13c H13s Hhrr Hpha Hhc Hhs Hf.
  destruct (server13_full_flight s l s') as [Hend ->]; try done. split; [done|].
  rewrite without_ccs_optional, without_ccs_server_flight13, <- Hh.
  by apply client13_language_complete.
Qed.

Lemma client13_accepted `{Callouts} c s l c' :
  certificate_agreed c s ->
  early_data_written c && (early_data (ext c) =? tls_EARLY_DATA_ACCEPTED)
    = (early_data (ext s) =? tls_EARLY_DATA_ACCEPTED) ->
  tls_IS_TLS13 c = true -> tls_IS_TLS13 s = true -> hello_retry_request s <> tls_HRR_PENDING ->
  hand_state (statem c) = TLS_ST_CR_FINISHED -> hand_state (statem s) = TLS_ST_EARLY_DATA ->
  client_flight c l c' ->
  hand_state (statem c') = TLS_ST_OK /\
  exists s', server_reads s (without_ccs l) s' /\ hand_state (statem s') = TLS_ST_SR_FINISHED.
Proof.
  intros Hcert He H13c H13s Hhrr%neq_test Hhc Hhs Hf.
  destruct (client13_flight c l c') as [Hend ->]; try done. split; [done|].
  rewrite without_ccs_optional, without_ccs_client_flight13, He, <- Hcert.
  destruct (server13_language_complete s (cert_req (tmp (s3 c)) =? 1)) as (s' & Hr & He'); try done.
  exists s'. split; [|done].
  replace (cert_req (tmp (s3 c)) =? 1)
    with (cert_request (tmp (s3 s)) && (cert_req (tmp (s3 c)) =? 1)); [done|].
  rewrite Hcert.
  by destruct (Z.eqb_spec (cert_req (tmp (s3 c))) 0) as [->|].
Qed.

(** ** Properties *)

(** C5: before TLS 1.3, the flight a server sends in a full handshake after its
    ServerHello ends with the ServerHelloDone, exists, and is accepted as a whole by a
    client that agrees on the cipher suite, on resumption and on the certificate
    status and that has set no callback for the session's secret; excepted is, above
    SSL 3, an anonymous server that insists on a client certificate. *)
Theorem tls12_server_flight_agreement `{Callouts} c s :
  negotiated12 c s -> tls_IS_TLS13 c = false -> tls_IS_DTLS c = false ->
  tls_IS_TLS13 s = false -> tls_IS_DTLS s = false -> hit s = false ->
  session_secret_cb (ext c) = false ->
  version c <= tls3_VERSION \/ has_bits (algorithm_auth (new_cipher (tmp (s3 s)))) tls_aNULL = false
  \/ has_bits (verify_mode s) tls_VERIFY_FAIL_IF_NO_PEER_CERT = false ->
  hand_state (statem c) = TLS_ST_CR_SRVR_HELLO -> hand_state (statem s) = TLS_ST_SW_SRVR_HELLO ->
  (exists l s', server_flight s l s') /\
  forall l s', server_flight s l s' ->
    hand_state (statem s') = TLS_ST_SW_SRVR_DONE /\
    exists c', client_reads c l c' /\ hand_state (statem c') = TLS_ST_CR_SRVR_DONE.
Proof.
  intros. split; [by apply server12_flight_exists|]. intros l s' Hf. by eapply server12_full_accepted.
Qed.

(** C6: before TLS 1.3, the flight a client sends after the ServerHelloDone ends with
    its Finished, exists, and is accepted as a whole by a server that asked for a
    certificate exactly when the client thinks it did and that agrees on NPN. *)
Theorem tls12_client_flight_agreement `{Callouts} c s :
  negotiated12 c s -> certificate_agreed c s -> tls_IS_TLS13 c = false -> tls_IS_DTLS c = false ->
  tls_IS_TLS13 s = false -> tls_IS_DTLS s = false -> hit c = false ->
  hello_retry_request c <> tls_HRR_PENDING -> early_data_state c <> tls_EARLY_DATA_CONNECTING ->
  hand_state (statem c) = TLS_ST_CR_SRVR_DONE -> hand_state (statem s) = TLS_ST_SW_SRVR_DONE ->
  (exists l c', client_flight c l c') /\
  forall l c', client_flight c l c' ->
    hand_state (statem c') = TLS_ST_CW_FINISHED /\
    exists s', server_reads s l s' /\ hand_state (statem s') = TLS_ST_SR_FINISHED.
Proof.
  intros. split; [by apply client12_flight_exists|]. intros l c' Hf. by eapply client12_full_accepted.
Qed.

(** Before TLS 1.3, the flight that ends the server's part (after the client's
    Finished, or after the ServerHello that resumes a session) is accepted by the client
    that waits for it, when the two agree on whether a ticket is sent. *)
Theorem tls12_server_end_agreement `{Callouts} c s :
  negotiated12 c s -> tls_IS_TLS13 c = false -> tls_IS_DTLS c = false ->
  tls_IS_TLS13 s = false -> tls_IS_DTLS s = false ->
  (if hit s then hand_state (statem s) = TLS_ST_SW_SRVR_HELLO /\
                 hand_state (statem c) = TLS_ST_CR_SRVR_HELLO
   else hand_state (statem s) = TLS_ST_SR_FINISHED /\
        hand_state (statem c) = TLS_ST_CW_FINISHED) ->
  (exists l s', server_flight s l s') /\
  forall l s', server_flight s l s' ->
    exists c', client_reads c l c' /\ hand_state (statem c') = TLS_ST_CR_FINISHED.
Proof.
  intros Hn H13c Hdc H13s Hds Hst. split; [|intros l s' Hf; by eapply server12_end_accepted].
  apply server12_end_exists; [done|done|]. destruct (hit s); [left|right]; tauto.
Qed.

(** Before TLS 1.3, the client's flight that ends a resumed handshake leaves the
    client in its final state and is accepted by the server up to the Finished. *)
Theorem tls12_resumed_agreement `{Callouts} c s :
  negotiated12 c s -> tls_IS_TLS13 c = false -> tls_IS_DTLS c = false ->
  tls_IS_TLS13 s = false -> tls_IS_DTLS s = false -> hit c = true ->
  hello_retry_request c <> tls_HRR_PENDING -> early_data_state c <> tls_EARLY_DATA_CONNECTING ->
  hand_state (statem c) = TLS_ST_CR_FINISHED -> hand_state (statem s) = TLS_ST_SW_FINISHED ->
  (exists l c', client_flight c l c') /\
  forall l c', client_flight c l c' ->
    hand_state (statem c') = TLS_ST_OK /\
    exists s', server_reads s l s' /\ hand_state (statem s') = TLS_ST_SR_FINISHED.
Proof.
  intros. split; [by apply client12_resumed_exists|].
  intros l c' Hf. by eapply client12_resumed_accepted.
Qed.

(** C7: in TLS 1.3, what a server sends after its ServerHello, less the
    ChangeCipherSpec of compatibility mode, is accepted by a client that agrees on
    resumption, up to the server's Finished. *)
Theorem tls13_server_flight_agreement `{Callouts} c s :
  hit c = hit s -> tls_IS_TLS13 c = true -> tls_IS_TLS13 s = true ->
  hello_retry_request s <> tls_HRR_PENDING -> post_handshake_auth s <> tls_PHA_REQUEST_PENDING ->
  hand_state (statem c) = TLS_ST_CR_SRVR_HELLO -> hand_state (statem s) = TLS_ST_SW_SRVR_HELLO ->
  (exists l s', server_flight s l s') /\
  forall l s', server_flight s l s' ->
    hand_state (statem s') = TLS_ST_EARLY_DATA /\
    exists c', client_reads c (without_ccs l) c' /\ hand_state (statem c') = TLS_ST_CR_FINISHED.
Proof.
  intros. split; [by apply server13_flight_exists|]. intros l s' Hf. by eapply server13_accepted.
Qed.

(** In TLS 1.3, what a client sends after the server's Finished, less the
    ChangeCipherSpec of compatibility mode, leaves the client in its final state and is
    accepted up to its Finished by a server that agrees on whether a certificate was
    asked for and on whether early data was accepted. *)
Theorem tls13_client_flight_agreement `{Callouts} c s :
  certificate_agreed c s ->
  early_data_written c && (early_data (ext c) =? tls_EARLY_DATA_ACCEPTED)
    = (early_data (ext s) =? tls_EARLY_DATA_ACCEPTED) ->
  tls_IS_TLS13 c = true -> tls_IS_TLS13 s = true -> hello_retry_request s <> tls_HRR_PENDING ->
  hand_state (statem c) = TLS_ST_CR_FINISHED -> hand_state (statem s) = TLS_ST_EARLY_DATA ->
  (exists l c', client_flight c l c') /\
  forall l c', client_flight c l c' ->
    hand_state (statem c') = TLS_ST_OK /\
    exists s', server_reads s (without_ccs l) s' /\ hand_state (statem s') = TLS_ST_SR_FINISHED.
Proof.
  intros. split; [by apply client13_flight_exists|]. intros l c' Hf. by eapply client13_accepted.
Qed.

(** The exception made for the server's flight is real: from TLS 1.0 to 1.2, an
    anonymous server that insists on a client certificate sends a flight that no client of this
    library accepts, whatever they agree on. *)
Theorem anon_certificate_request_rejected `{Callouts} c s l s' :
  negotiated12 c s -> tls_IS_TLS13 c = false -> tls_IS_DTLS c = false ->
  tls_IS_TLS13 s = false -> tls_IS_DTLS s = false -> hit s = false ->
  session_secret_cb (ext c) = false -> tls3_VERSION < version c ->
  has_bits (algorithm_auth (new_cipher (tmp (s3 s)))) tls_aNULL = true ->
  send_certificate_request s = true ->
  hand_state (statem c) = TLS_ST_CR_SRVR_HELLO -> hand_state (statem s) = TLS_ST_SW_SRVR_HELLO ->
  server_flight s l s' ->
  ~ exists c', client_reads c l c' /\ hand_state (statem c') = TLS_ST_CR_SRVR_DONE.
Proof.
  intros [Hc Hh _ _ _] H13c Hdc H13s Hds Hhit Hcb Hv Ha Hreq Hhc Hhs Hf (c' & Hr & He).
  destruct (server12_full_flight s l s') as [_ ->]; try done.
  apply client12_language_sound in Hr as (ce & st & ke & rq & El & _ & _ & _ & _ & Hrq); try done;
    [|congruence].
  assert (rq = true) as ->.
  { apply (f_equal (existsb (Z.eqb tls3_MT_CERTIFICATE_REQUEST))) in El. rewrite Hreq in El.
    by destruct ce, st, ke, rq, (cert_auth s), (status_expected (ext s)),
      (send_server_key_exchange s). }
  specialize (Hrq eq_refl). unfold cert_req_allowed in Hrq. rewrite Hc, Ha in Hrq.
  by rewrite (proj2 (Z.ltb_lt _ _) Hv) in Hrq.
Qed.

(** ** Witnesses *)

#[local] Existing Instance quiet.

Lemma tls12_server_flight_agreement_witness :
  exists l s', server_flight (sample12 true TLS_ST_SW_SRVR_HELLO) l s'.
Proof.
  apply (tls12_server_flight_agreement (sample12 false TLS_ST_CR_SRVR_HELLO)
           (sample12 true TLS_ST_SW_SRVR_HELLO)); try reflexivity.
  - by split.
  - right. by left.
Defined.

Lemma tls12_client_flight_agreement_witness :
  exists l c', client_flight (sample12 false TLS_ST_CR_SRVR_DONE) l c'.
Proof.
  apply (tls12_client_flight_agreement (sample12 false TLS_ST_CR_SRVR_DONE)
           (sample12 true TLS_ST_SW_SRVR_DONE)); try reflexivity; try discriminate.
  by split.
Defined.

Lemma tls12_server_end_agreement_witness :
  exists l s', server_flight (sample12 true TLS_ST_SR_FINISHED) l s'.
Proof.
  apply (tls12_server_end_agreement (sample12 false TLS_ST_CW_FINISHED)
           (sample12 true TLS_ST_SR_FINISHED)); try reflexivity; by split.
Defined.

Lemma tls12_resumed_agreement_witness :
  exists l c', client_flight (resumed12 false TLS_ST_CR_FINISHED) l c'.
Proof.
  apply (tls12_resumed_agreement (resumed12 false TLS_ST_CR_FINISHED)
           (resumed12 true TLS_ST_SW_FINISHED)); try reflexivity; try discriminate.
  by split.
Defined.

Lemma tls13_server_flight_agreement_witness :
  exists l s', server_flight (sample13 true TLS_ST_SW_SRVR_HELLO) l s'.
Proof.
  apply (tls13_server_flight_agreement (sample13 false TLS_ST_CR_SRVR_HELLO)
           (sample13 true TLS_ST_SW_SRVR_HELLO)); try reflexivity; discriminate.
Defined.

Lemma tls13_client_flight_agreement_witness :
  exists l c', client_flight (sample13 false TLS_ST_CR_FINISHED) l c'.
Proof.
  apply (tls13_client_flight_agreement (sample13 false TLS_ST_CR_FINISHED)
           (sample13 true TLS_ST_EARLY_DATA)); try reflexivity; discriminate.
Defined.

Lemma anon_certificate_request_rejected_witness :
  exists s', server_flight (anon12 true TLS_ST_SW_SRVR_HELLO)
               [tls3_MT_SERVER_KEY_EXCHANGE; tls3_MT_CERTIFICATE_REQUEST; tls3_MT_SERVER_DONE] s' /\
  ~ exists c', client_reads (anon12 false TLS_ST_CR_SRVR_HELLO)
                 [tls3_MT_SERVER_KEY_EXCHANGE; tls3_MT_CERTIFICATE_REQUEST; tls3_MT_SERVER_DONE] c' /\
               hand_state (statem c') = TLS_ST_CR_SRVR_DONE.
Proof.
  assert (Hf : exists s', server_flight (anon12 true TLS_ST_SW_SRVR_HELLO)
    [tls3_MT_SERVER_KEY_EXCHANGE; tls3_MT_CERTIFICATE_REQUEST; tls3_MT_SERVER_DONE] s').
  { eexists. unfold server_flight. repeat write_go. }
  destruct Hf as [s' Hf]. exists s'. split; [exact Hf|].
  apply (anon_certificate_request_rejected (anon12 false TLS_ST_CR_SRVR_HELLO)
           (anon12 true TLS_ST_SW_SRVR_HELLO) _ s'); try reflexivity; [by split|exact Hf].
Defined.
