(* ===== verification/Machine.v ===== *)
(** * The message flow: errors, progress and results

    Properties of [Statem.v]: fatal errors are final, a message that is not
    expected is one, a message that is accepted has a function that processes
    it, a side that has nothing more to write can read something, a flight is
    finite, and what the result of [state_machine] says. *)

From S2P Require Import Prelude Mem Packet Buffer WPacket Wire TlsState StatemLib StatemClnt StatemSrvr Statem Sample Handshake Flights.

(** ** Definitions *)

(** The alert a fatal error sends. *)
Definition alert_calls (s : tls) (al : Z) : list call :=
  if negb (al =? tls_AD_NO_ALERT) && (enc_write_state (statem s) != ENC_WRITE_STATE_INVALID)
  then [C_tls3_send_alert tls3_AL_FATAL al] else [].

(** Where a fatal error puts the connection. *)
Definition in_fatal_error (s : tls) : Prop :=
  otls_statem_in_error s = true /\ in_init (statem s) = true.

Section Sides.
Context `{Callouts}.

(** The function that processes the message of a state, on the side [srv]. *)
Definition process_of (srv : bool) (h : Otls_HANDSHAKE_STATE) : option process_f :=
  if srv then server_process h else client_process h.

End Sides.

(** ** Fatal errors *)

Lemma otls_statem_fatal_in_error s al : in_fatal_error (otls_statem_fatal s al).
Proof.
  unfold otls_statem_fatal, in_fatal_error, otls_statem_in_error.
  destruct (in_init (statem s) && (state (statem s) == MSG_FLOW_ERROR)) eqn:E.
  - apply andb_true_iff in E. tauto.
  - by case_if.
Qed.

Lemma in_fatal_error_final s al : in_fatal_error s -> otls_statem_fatal s al = s.
Proof.
  unfold otls_statem_fatal, in_fatal_error, otls_statem_in_error. intros [E1 E2].
  by rewrite E1, E2.
Qed.

Lemma read_transition_err_cases s mt s' :
  read_transition_err s mt = (false, s') ->
  in_fatal_error s' \/
  tls_IS_DTLS s = true /\ mt = tls3_MT_CHANGE_CIPHER_SPEC /\
  s' = log (s <| init_num := 0 |> <| rwstate := tls_READING |>) C_BIO_set_retry_read.
Proof.
  unfold read_transition_err.
  destruct (tls_IS_DTLS s), (Z.eqb_spec mt tls3_MT_CHANGE_CIPHER_SPEC); simpl; intros [= <-];
    first [by right|left; apply otls_statem_fatal_in_error].
Qed.

(** ** Reading *)

(** Case analysis of a read transition that fails. *)
Ltac refuse_cases H :=
  repeat (first [discriminate H | case_if_in H]);
  try (apply read_transition_err_cases in H).

Lemma client_refuses `{Callouts} s mt s' :
  otls_statem_client_read_transition s mt = (false, s') ->
  in_fatal_error s' \/
  tls_IS_DTLS s = true /\ mt = tls3_MT_CHANGE_CIPHER_SPEC /\
  s' = log (s <| init_num := 0 |> <| rwstate := tls_READING |>) C_BIO_set_retry_read.
Proof.
  unfold otls_statem_client_read_transition. destruct (tls_IS_TLS13 s) eqn:H13.
  - assert (Hd : tls_IS_DTLS s = false).
    { unfold tls_IS_TLS13 in H13. by destruct (tls_IS_DTLS s). }
    destruct (otls_statem_client13_read_transition s mt) as [[] s1] eqn:E; [done|].
    simpl. intros Hr.
    assert (Hs : s1 = s \/ mt = tls3_MT_CERTIFICATE_REQUEST).
    { unfold otls_statem_client13_read_transition in E.
      destruct (hand_state (statem s)); repeat (first [discriminate E|case_if_in E]); zify_bools;
        (try by injection E as <-; left); try (by right); destruct_and?;
        destruct (tls13_restore_handshake_digest_for_pha _); by right. }
    apply read_transition_err_cases in Hr as [Hr|(Hd' & -> & ->)]; [by left|].
    destruct Hs as [->|]; [congruence|done].
  - destruct (hand_state (statem s)); intros Hr; refuse_cases Hr; done.
Qed.

Lemma server_refuses `{Callouts} s mt s' :
  otls_statem_server_read_transition s mt = (false, s') ->
  in_fatal_error s' \/
  tls_IS_DTLS s = true /\ mt = tls3_MT_CHANGE_CIPHER_SPEC /\
  s' = log (s <| init_num := 0 |> <| rwstate := tls_READING |>) C_BIO_set_retry_read.
Proof.
  unfold otls_statem_server_read_transition. destruct (tls_IS_TLS13 s) eqn:H13.
  - destruct (otls_statem_server13_read_transition s mt) as [[] s1] eqn:E; [done|].
    simpl. intros Hr. apply read_transition_err_cases in Hr.
    assert (s1 = s) as ->; [|done]. unfold otls_statem_server13_read_transition in E.
    destruct (hand_state (statem s)); repeat (first [discriminate E|case_if_in E]); congruence.
  - destruct (hand_state (statem s)); intros Hr;
      repeat (first [discriminate Hr | case_if_in Hr]);
      try (by apply read_transition_err_cases in Hr).
    injection Hr as <-. left. apply otls_statem_fatal_in_error.
Qed.

(** A transition that accepts leads to a state with a processing function. *)
Lemma client_accepts `{Callouts} s mt s' :
  otls_statem_client_read_transition s mt = (true, s') ->
  is_Some (client_process (hand_state (statem s'))).
Proof.
  unfold otls_statem_client_read_transition, otls_statem_client13_read_transition.
  assert (Herr : forall s mt s', read_transition_err s mt = (true, s') -> False).
  { intros ??? Hr. by apply read_transition_err_false in Hr. }
  destruct (tls_IS_TLS13 s).
  - destruct (hand_state (statem s)); intros Hr;
      repeat (first [discriminate Hr|exfalso; exact (Herr _ _ _ Hr)
                    |case_if_in Hr; cbn [negb] in Hr]);
      try (injection Hr as <-; by eexists).
    all: destruct (tls13_restore_handshake_digest_for_pha _) as [[] s1]; cbn [negb] in Hr;
      first [exfalso; exact (Herr _ _ _ Hr)|injection Hr as <-; by eexists].
  - destruct (hand_state (statem s)); intros Hr;
      repeat (first [discriminate Hr|exfalso; exact (Herr _ _ _ Hr)|case_if_in Hr]);
      injection Hr as <-; by eexists.
Qed.

Lemma server_accepts `{Callouts} s mt s' :
  otls_statem_server_read_transition s mt = (true, s') ->
  is_Some (server_process (hand_state (statem s'))).
Proof.
  unfold otls_statem_server_read_transition, otls_statem_server13_read_transition.
  assert (Herr : forall s mt s', read_transition_err s mt = (true, s') -> False).
  { intros ??? Hr. by apply read_transition_err_false in Hr. }
  destruct (tls_IS_TLS13 s); destruct (hand_state (statem s)); intros Hr;
    repeat (first [discriminate Hr|exfalso; exact (Herr _ _ _ Hr)
                  |case_if_in Hr; cbn [negb] in Hr]);
    injection Hr as <-; by eexists.
Qed.

(** ** Writing *)

Lemma finish_handshake_stops `{Callouts} s wst clearbufs :
  (tls_finish_handshake s wst clearbufs true).1 <> WORK_FINISHED_CONTINUE.
Proof.
  unfold tls_finish_handshake. destruct clearbufs.
  - by destruct (tls_free_wbio_buffer _) as [[] ?].
  - done.
Qed.

(** A state to go on with has a message, or ends the handshake before it would
    need one. *)
Lemma client_writes `{Callouts} s s1 :
  otls_statem_client_write_transition s = (WRITE_TRAN_CONTINUE, s1) ->
  (exists f mt, otls_statem_client_construct_message s1 = (true, s1, Some (f, mt))) \/
  forall wst, (otls_statem_client_pre_work s1 wst).1 <> WORK_FINISHED_CONTINUE.
Proof.
  assert (Hok : forall x h, h = TLS_ST_OK \/ h = TLS_ST_EARLY_DATA ->
    forall wst, (otls_statem_client_pre_work (set_hand_state x h) wst).1 <> WORK_FINISHED_CONTINUE).
  { intros x h [-> | ->] wst; apply finish_handshake_stops. }
  unfold otls_statem_client_write_transition, otls_statem_client13_write_transition.
  destruct (tls_IS_TLS13 s); destruct (hand_state (statem s)) eqn:Eh; intros Hr;
    repeat (first [discriminate Hr|case_if_in Hr]);
    try (injection Hr as <-; first [right; apply Hok; tauto|left; eexists _, _; reflexivity]).
  destruct (tls3_renegotiate_check s true) as [now x].
  repeat case_if_in Hr; try (injection Hr as <-; right; apply Hok; tauto).
  destruct (tls_setup_handshake x) as [[] y]; [|done].
  injection Hr as <-. left. eexists _, _. reflexivity.
Qed.

Lemma server_writes `{Callouts} s s1 :
  otls_statem_server_write_transition s = (WRITE_TRAN_CONTINUE, s1) ->
  (exists f mt, otls_statem_server_construct_message s1 = (true, s1, Some (f, mt))) \/
  forall wst, (otls_statem_server_pre_work s1 wst).1 <> WORK_FINISHED_CONTINUE.
Proof.
  assert (Hok : forall x,
    forall wst, (otls_statem_server_pre_work (set_hand_state x TLS_ST_OK) wst).1
                <> WORK_FINISHED_CONTINUE).
  { intros x wst. apply finish_handshake_stops. }
  unfold otls_statem_server_write_transition, otls_statem_server13_write_transition.
  destruct (tls_IS_TLS13 s); destruct (hand_state (statem s)) eqn:Eh; intros Hr;
    repeat (first [discriminate Hr|case_if_in Hr]);
    try (injection Hr as <-; first [right; apply Hok|left; eexists _, _; reflexivity]).
  all: try (injection Hr as <-; repeat case_if; first [right; apply Hok|left; eexists _, _; reflexivity]).
  - injection Hr as <-. left. eexists _, _.
    unfold otls_statem_server_construct_message. by rewrite Eh.
  - by destruct (tls_setup_handshake s) as [[] y].
Qed.

(** When there is nothing more to write, a message can be read.  Setting up a
    handshake must leave the state alone; and a server that reads early data at
    the end of a handshake reads no message. *)
Definition stays (s s' : tls) : Prop :=
  hand_state (statem s') = hand_state (statem s) /\ tls_IS_TLS13 s' = tls_IS_TLS13 s.

Lemma client_can_read `{Callouts} s s' :
  otls_statem_client_write_transition s = (WRITE_TRAN_FINISHED, s') ->
  exists mt, (otls_statem_client_read_transition s' mt).1 = true.
Proof.
  unfold otls_statem_client_write_transition, otls_statem_client13_write_transition.
  destruct (tls_IS_TLS13 s) eqn:H13; destruct (hand_state (statem s)) eqn:Eh; intros Hr;
    repeat (first [discriminate Hr|case_if_in Hr]); try (injection Hr as <-);
    unfold otls_statem_client_read_transition, otls_statem_client13_read_transition;
    rewrite ?H13, ?Eh.
  - by exists tls3_MT_KEY_UPDATE.
  - by exists tls3_MT_HELLO_REQUEST.
  - by exists tls3_MT_SERVER_HELLO.
  - destruct (ticket_expected (ext s));
      [by exists tls3_MT_NEWSESSION_TICKET|by exists tls3_MT_CHANGE_CIPHER_SPEC].
  - destruct (tls3_renegotiate_check s true) as [now x].
    case_if_in Hr; [|done]. by destruct (tls_setup_handshake x) as [[] y].
  - by exists tls3_MT_SERVER_HELLO.
Qed.

Lemma server_can_read `{Callouts} s s' :
  otls_statem_server_write_transition s = (WRITE_TRAN_FINISHED, s') -> stays s s' ->
  (tls_IS_TLS13 s = true -> early_data_state s <> tls_EARLY_DATA_READING) ->
  exists mt, (otls_statem_server_read_transition s' mt).1 = true.
Proof.
  intros Hr [Hh H13'] Hearly. revert Hr.
  unfold otls_statem_server_read_transition, otls_statem_server13_read_transition.
  rewrite Hh, H13'. clear Hh H13'.
  unfold otls_statem_server_write_transition, otls_statem_server13_write_transition.
  destruct (tls_IS_TLS13 s) eqn:H13; destruct (hand_state (statem s)) eqn:Eh; intros Hr;
    repeat (first [discriminate Hr|case_if_in Hr]); try (injection Hr as <-).
  - exists tls3_MT_KEY_UPDATE. by rewrite (bool_decide_eq_false_2 _ (Hearly eq_refl)).
  - destruct (hello_retry_request s == tls_HRR_PENDING); [by exists tls3_MT_CLIENT_HELLO|].
    destruct (early_data (ext s) =? tls_EARLY_DATA_ACCEPTED);
      [by exists tls3_MT_END_OF_EARLY_DATA|].
    destruct (cert_request (tmp (s3 s))); [by exists tls3_MT_CERTIFICATE|by exists tls3_MT_FINISHED].
  - by exists tls3_MT_CLIENT_HELLO.
  - by exists tls3_MT_CLIENT_HELLO.
  - by exists tls3_MT_CLIENT_HELLO.
  - destruct (cert_request (tmp (s3 s))) eqn:Ec; [exists tls3_MT_CERTIFICATE|exists tls3_MT_CLIENT_KEY_EXCHANGE];
      done.
  - by exists tls3_MT_CHANGE_CIPHER_SPEC.
Qed.

(** ** Flights are finite *)

(** How many messages a side can still write before it reads. *)
Definition client_rank (s : tls) : nat :=
  match hand_state (statem s) with
  | TLS_ST_CW_CLNT_HELLO => if hello_retry_request s == tls_HRR_PENDING then 1 else 10
  | TLS_ST_PENDING_EARLY_DATA_END => 10
  | TLS_ST_CR_SRVR_DONE | TLS_ST_CW_END_OF_EARLY_DATA => 9
  | TLS_ST_CW_CERT => 7
  | TLS_ST_CW_KEY_EXCH => 6
  | TLS_ST_CW_CERT_VRFY => 5
  | TLS_ST_CW_CHANGE => if tls_IS_TLS13 s then 9 else 4
  | TLS_ST_CW_NEXT_PROTO => 3
  | TLS_ST_CW_FINISHED => 2
  | TLS_ST_CW_KEY_UPDATE | TLS_ST_CR_KEY_UPDATE | TLS_ST_CR_SESSION_TICKET => 1
  | TLS_ST_OK | TLS_ST_EARLY_DATA => 0
  | _ => 11
  end.

Definition server_rank (s : tls) : nat :=
  let tickets := if tls_IS_TLS13 s then Z.to_nat (num_tickets s - sent_tickets s) else 0%nat in
  match hand_state (statem s) with
  | TLS_ST_SR_FINISHED => 6 + tickets
  | TLS_ST_SW_SESSION_TICKET => 4 + tickets
  | TLS_ST_SW_SRVR_HELLO => 10
  | TLS_ST_SW_CHANGE => if tls_IS_TLS13 s then 9 else 3
  | TLS_ST_SW_ENCRYPTED_EXTENSIONS | TLS_ST_SW_CERT_STATUS => 8
  | TLS_ST_SW_CERT => if tls_IS_TLS13 s then 6 else 9
  | TLS_ST_SW_KEY_EXCH => 7
  | TLS_ST_SW_CERT_REQ => if tls_IS_TLS13 s then 7 else 6
  | TLS_ST_SW_SRVR_DONE | TLS_ST_EARLY_DATA | TLS_ST_OK
  | DTLS_ST_SW_HELLO_VERIFY_REQUEST => 0
  | TLS_ST_SW_CERT_VRFY => 5
  | TLS_ST_SW_FINISHED => 2
  | _ => 11
  end.

Lemma flight_bounded next message sent (inv : tls -> Prop) (rank : tls -> nat) s l s' :
  (forall s s1 s2 f mt, inv s -> next s = (WRITE_TRAN_CONTINUE, s1) ->
     message s1 = (true, s1, Some (f, mt)) -> sent s1 s2 -> inv s2 /\ (rank s2 < rank s)%nat) ->
  flight next message sent s l s' -> inv s -> (length l <= rank s)%nat.
Proof.
  intros Hstep Hf. induction Hf as [| |s s1 f mt s2 l s3 Hn Hm Hs _ IH]; intros Hi; simpl; [lia|lia|].
  destruct (Hstep _ _ _ _ _ Hi Hn Hm Hs) as [Hi2 Hr]. specialize (IH Hi2).
  case_if; simpl; lia.
Qed.

Lemma client_message_not_ok `{Callouts} s f mt :
  otls_statem_client_construct_message s = (true, s, Some (f, mt)) ->
  hand_state (statem s) <> TLS_ST_OK.
Proof. unfold otls_statem_client_construct_message. intros Hm E. by rewrite E in Hm. Qed.

(** What a client's flight keeps; one that answers a HelloRequest starts with
    setting up a handshake. *)
Definition client_may_write (s : tls) : Prop :=
  hand_state (statem s) <> TLS_ST_OK /\ hand_state (statem s) <> TLS_ST_CR_HELLO_REQ /\
  ~ (hello_retry_request s = tls_HRR_PENDING /\ early_data_state s = tls_EARLY_DATA_CONNECTING).

Lemma client_write_rank `{Callouts} s s1 s2 f mt :
  client_may_write s -> otls_statem_client_write_transition s = (WRITE_TRAN_CONTINUE, s1) ->
  otls_statem_client_construct_message s1 = (true, s1, Some (f, mt)) -> client_sent s1 s2 ->
  client_may_write s2 /\ (client_rank s2 < client_rank s)%nat.
Proof.
  intros (Hok & Hreq & Hhrr) Hn Hm%client_message_not_ok [Hh Hv].
  apply client_write_view_all in Hv as (V1 & _ & _ & _ & _ & _ & V2 & V3 & _).
  assert (V3' : early_data_state s2 = tls_EARLY_DATA_CONNECTING <->
                early_data_state s1 = tls_EARLY_DATA_CONNECTING).
  { split; intros E; apply (bool_decide_eq_true_2 _) in E; apply (bool_decide_eq_true_1 _);
      [by rewrite <- V3|by rewrite V3]. }
  unfold client_may_write, client_rank. rewrite Hh, V1, V2, V3'. clear Hh V1 V2 V3 V3'.
  unfold otls_statem_client_write_transition, otls_statem_client13_write_transition in Hn.
  destruct (tls_IS_TLS13 s) eqn:H13; destruct (hand_state (statem s)) eqn:Eh; try done;
    repeat (first [discriminate Hn|case_if_in Hn]); injection Hn as <-; try (by destruct (Hm eq_refl));
    change (tls_IS_TLS13 (set_hand_state ?a ?b)) with (tls_IS_TLS13 a);
    cbn [statem hand_state set_hand_state update hello_retry_request early_data_state];
    (split; [split; [done|split; [done|exact Hhrr]]|]); rewrite ?H13;
    repeat case_if; try lia; zify_bools; tauto.
Qed.

(** Sending also counts the tickets of TLS 1.3. *)
Definition server_sent_tickets (s s' : tls) : Prop :=
  server_sent s s' /\ num_tickets s' = num_tickets s /\
  sent_tickets s' = sent_tickets s +
    (if tls_IS_TLS13 s && (hand_state (statem s) == TLS_ST_SW_SESSION_TICKET) then 1 else 0).

Lemma server_message_not_ok `{Callouts} s f mt :
  otls_statem_server_construct_message s = (true, s, Some (f, mt)) ->
  hand_state (statem s) <> TLS_ST_OK.
Proof. unfold otls_statem_server_construct_message. intros Hm E. by rewrite E in Hm. Qed.

Lemma server_write_rank `{Callouts} s s1 s2 f mt :
  hand_state (statem s) <> TLS_ST_OK ->
  otls_statem_server_write_transition s = (WRITE_TRAN_CONTINUE, s1) ->
  otls_statem_server_construct_message s1 = (true, s1, Some (f, mt)) -> server_sent_tickets s1 s2 ->
  hand_state (statem s2) <> TLS_ST_OK /\ (server_rank s2 < server_rank s)%nat.
Proof.
  intros Hok Hn Hm%server_message_not_ok ([Hh [Hv _]] & Hnum & Hsent).
  apply server_write_view_all in Hv as (V & _).
  unfold server_rank. rewrite Hh, V, Hnum, Hsent. clear Hh V Hnum Hsent.
  unfold otls_statem_server_write_transition, otls_statem_server13_write_transition in Hn.
  destruct (tls_IS_TLS13 s) eqn:H13; destruct (hand_state (statem s)) eqn:Eh; try done;
    repeat (first [discriminate Hn|case_if_in Hn]);
    try (injection Hn as <-; try (by destruct (Hm eq_refl)));
    change (tls_IS_TLS13 (set_hand_state ?a ?b)) with (tls_IS_TLS13 a);
    cbn [statem hand_state set_hand_state update num_tickets sent_tickets];
    change (tls_IS_TLS13 (s <| post_handshake_auth := ?a |>)) with (tls_IS_TLS13 s);
    rewrite ?Eh, ?H13; (split; [done|]); 
    rewrite ?(bool_decide_eq_true_2 (TLS_ST_SW_SESSION_TICKET = TLS_ST_SW_SESSION_TICKET)) by done;
    cbn [andb]; zify_bools; try lia;
    repeat match goal with |- context [if ?b then _ else _] => destruct b end; lia.
Qed.

(** ** Results *)

Section Results.
Context `{Malloc} `{Callouts} `{Constructors}.
Variable secure : Z -> option (list Z).

Lemma flow_loop_finished fuel s ok s' :
  flow_loop secure fuel s = Ret (ok, s') -> ok = true -> state (statem s') = MSG_FLOW_FINISHED.
Proof.
  revert s. induction fuel as [|fuel IH]; intros s; simpl;
    destruct (state (statem s)) eqn:Es; intros Hr Hok; try congruence.
  - destruct (read_state_machine secure (S fuel) s) as [[[] s1]| |]; simpl in Hr; try congruence.
    by eapply IH.
  - destruct (write_state_machine secure (S fuel) s) as [[[] s1]| |]; simpl in Hr; try congruence;
      by eapply IH.
Qed.

Lemma call_info_statem s a b : statem (call_info s a b) = statem s.
Proof. unfold call_info. by destruct (info_callback s). Qed.

End Results.

(** ** Properties *)

(** C29: a fatal error is final and sends at most one alert: it leaves the handshake
    in its error state, with the alert recorded if there is one and alerts can be
    written; a second one changes nothing, [check_fatal] finds it, and the state machine
    refuses to go on, returning -1 and changing nothing. *)
Theorem fatal_error_final `{Malloc} `{Callouts} `{Constructors} secure s al al' fuel srv :
  let e := tlsfatal s al in
  in_fatal_error e /\
  calls e = calls s ++ (if otls_statem_in_error s && in_init (statem s) then [] else alert_calls s al) /\
  hand_state (statem e) = hand_state (statem s) /\
  tlsfatal e al' = e /\ check_fatal e = e /\
  state_machine secure fuel e srv = Ret (-1, e).
Proof.
  intros e. pose proof (otls_statem_fatal_in_error s al) as He. change (in_fatal_error e) in He.
  split; [done|]. split; [|split; [|split; [|split]]].
  - unfold e, tlsfatal, otls_statem_fatal, otls_statem_in_error, alert_calls.
    rewrite (andb_comm (state _ == _)).
    destruct (in_init _ && _); [by rewrite app_nil_r|].
    change (enc_write_state (statem (s <| statem .: in_init := true |>
              <| statem .: state := MSG_FLOW_ERROR |>))) with (enc_write_state (statem s)).
    destruct (negb _ && _); [reflexivity|by rewrite app_nil_r].
  - unfold e, tlsfatal, otls_statem_fatal. destruct (in_init _ && _); [reflexivity|].
    destruct (negb _ && _); reflexivity.
  - by apply in_fatal_error_final.
  - unfold check_fatal. destruct He as [E1 E2]. unfold otls_statem_in_error in E1. by rewrite E1, E2.
  - unfold state_machine. destruct He as [E1 _]. unfold otls_statem_in_error in E1. by rewrite E1.
Qed.

(** C28: a message that the handshake state does not call for is never passed over
    silently: the connection is in its final error state, or it is an out-of-order
    ChangeCipherSpec over DTLS, which is dropped. *)
Theorem unexpected_message_fatal `{Callouts} s mt s' :
  read_transition s mt = (false, s') ->
  in_fatal_error s' \/
  tls_IS_DTLS s = true /\ mt = tls3_MT_CHANGE_CIPHER_SPEC /\
  s' = log (s <| init_num := 0 |> <| rwstate := tls_READING |>) C_BIO_set_retry_read.
Proof.
  unfold read_transition. destruct (server s); [apply server_refuses|apply client_refuses].
Qed.

(** The tables of [statem_clnt.c] and [statem_srvr.c] fit together: the state that
    an accepted message leads to has a processing function, and the state to write
    next has a message or ends the handshake before one is asked for; the
    internal errors of the [default] cases are unreachable through transitions. *)
Theorem transitions_have_handlers `{Callouts} s s' :
  (forall mt, read_transition s mt = (true, s') ->
     is_Some (process_of (server s) (hand_state (statem s')))) /\
  (write_transition s = (WRITE_TRAN_CONTINUE, s') -> server s' = server s ->
     (exists f mt, get_construct_message_f s' = (true, s', Some (f, mt))) \/
     forall wst, (pre_work s' wst).1 <> WORK_FINISHED_CONTINUE).
Proof.
  unfold read_transition, write_transition, get_construct_message_f, pre_work, process_of. split.
  - intros mt. destruct (server s); [apply server_accepts|apply client_accepts].
  - intros Hw ->. destruct (server s); [by eapply server_writes|by eapply client_writes].
Qed.

(** C26: no deadlock: a side whose write transition finds nothing to write is in a state
    in which some message is accepted.  (A server that reads early data after its
    part of a TLS 1.3 handshake is over takes application data, not messages.) *)
Theorem no_deadlock `{Callouts} s s' :
  write_transition s = (WRITE_TRAN_FINISHED, s') -> server s' = server s -> stays s s' ->
  (server s = true -> tls_IS_TLS13 s = true -> early_data_state s <> tls_EARLY_DATA_READING) ->
  exists mt, (read_transition s' mt).1 = true.
Proof.
  unfold write_transition, read_transition. intros Hw -> Hst He.
  destruct (server s); [apply (server_can_read s); auto|by apply (client_can_read s)].
Qed.

(** C27: flights are finite: once a handshake is going on, a client writes at most 11
    messages before it reads again, a server at most 11 or, after the client's
    Finished in TLS 1.3, 6 more than the tickets it still has to send. *)
Theorem flights_finite `{Callouts} s l s' :
  hand_state (statem s) <> TLS_ST_OK ->
  (client_may_write s -> client_flight s l s' -> (length l <= client_rank s <= 11)%nat) /\
  (flight otls_statem_server_write_transition otls_statem_server_construct_message
     server_sent_tickets s l s' ->
   (length l <= server_rank s <= 11 + Z.to_nat (num_tickets s - sent_tickets s))%nat).
Proof.
  intros Hok. split.
  - intros Hw Hf. split.
    + eapply (flight_bounded _ _ _ client_may_write); [|exact Hf|done].
      intros. by eapply client_write_rank.
    + unfold client_rank. destruct (hand_state (statem s)); repeat case_if; lia.
  - intros Hf. split.
    + eapply (flight_bounded _ _ _ (fun s => hand_state (statem s) <> TLS_ST_OK)); [|exact Hf|done].
      intros. by eapply server_write_rank.
    + unfold server_rank. destruct (hand_state (statem s)); repeat case_if; lia.
Qed.

(** What [state_machine] returns: 1 only when the message flow is finished, so
    never after an error or when the transport would block, and -1 otherwise. *)
Theorem state_machine_result `{Malloc} `{Callouts} `{Constructors} secure fuel s srv r s' :
  state_machine secure fuel s srv = Ret (r, s') ->
  r = 1 /\ state (statem s') = MSG_FLOW_FINISHED \/ r = -1.
Proof.
  unfold state_machine. destruct (state (statem s) == MSG_FLOW_ERROR); [intros [= <- <-]; by right|].
  destruct (if _ : bool then tls_clear _ else _) as [[] s1]; simpl; [|intros [= <- <-]; by right].
  destruct (if _ : bool then start_handshake _ _ _ else _) as [[[] s2]| |]; simpl; try done;
    [|intros [= <- <-]; by right].
  destruct (flow_loop secure fuel s2) as [[[] s3]| |] eqn:Ef; simpl; try done;
    intros [= <- <-]; [left|by right].
  split; [done|]. rewrite call_info_statem. simpl. by eapply flow_loop_finished.
Qed.

(** The nesting counter leaks: when [tls_clear] fails, [state_machine] returns -1
    without counting [in_handshake] down again, whatever [fuel]. *)
Theorem clear_failure_leaks `{Malloc} `{Callouts} `{Constructors} secure fuel s srv s1 :
  state (statem s) <> MSG_FLOW_ERROR ->
  (negb (tls_in_init s) || tls_in_before s) = true ->
  has_bits (flags (s3 s)) TLS1_FLAGS_STATELESS = false ->
  tls_clear (otls_statem_set_in_handshake s true) = (false, s1) ->
  in_handshake (statem s1) = in_handshake (statem (otls_statem_set_in_handshake s true)) ->
  state_machine secure fuel s srv = Ret (-1, s1) /\
  otls_statem_get_in_handshake s1 = otls_statem_get_in_handshake s + 1.
Proof.
  intros Hst Hinit Hfl Hc Hin. unfold state_machine. rewrite (bool_decide_eq_false_2 _ Hst).
  change (negb (tls_in_init (otls_statem_set_in_handshake s true))
          || tls_in_before (otls_statem_set_in_handshake s true))
    with (negb (tls_in_init s) || tls_in_before s).
  change (flags (s3 (otls_statem_set_in_handshake s true))) with (flags (s3 s)).
  rewrite Hinit, Hfl. cbn [negb andb]. rewrite Hc. split; [done|]. exact Hin.
Qed.

(** ** Witnesses *)

#[local] Existing Instance quiet.

(** A TLS 1.3 client that is sent a Finished instead of the CertificateVerify. *)
Lemma unexpected_message_fatal_witness :
  in_fatal_error
    (read_transition (sample13 false TLS_ST_CR_CERT) tls3_MT_FINISHED).2.
Proof.
  destruct (unexpected_message_fatal (sample13 false TLS_ST_CR_CERT) tls3_MT_FINISHED
    (read_transition (sample13 false TLS_ST_CR_CERT) tls3_MT_FINISHED).2)
    as [He|(Hd & _)]; [vm_compute; reflexivity|exact He|discriminate Hd].
Defined.

Lemma transitions_have_handlers_witness :
  is_Some (process_of (server (sample12 true TLS_ST_SR_CHANGE)) TLS_ST_SR_FINISHED).
Proof.
  apply (transitions_have_handlers (sample12 true TLS_ST_SR_CHANGE)
           (set_hand_state (sample12 true TLS_ST_SR_CHANGE) TLS_ST_SR_FINISHED))
    with (mt := tls3_MT_FINISHED).
  reflexivity.
Defined.

Lemma no_deadlock_witness :
  exists mt, (read_transition (sample12 true TLS_ST_SW_SRVR_DONE) mt).1 = true.
Proof.
  apply (no_deadlock (sample12 true TLS_ST_SW_SRVR_DONE)); try reflexivity;
    [by split|discriminate].
Defined.

Lemma flights_finite_witness :
  exists l s', client_flight (sample12 false TLS_ST_CR_SRVR_DONE) l s' /\
    (length l <= 9)%nat.
Proof.
  destruct (client12_flight_exists (sample12 false TLS_ST_CR_SRVR_DONE))
    as (l & s' & Hf); try reflexivity; try discriminate.
  exists l, s'. split; [exact Hf|].
  destruct (flights_finite (sample12 false TLS_ST_CR_SRVR_DONE) l s') as [Hc _];
    [discriminate|].
  apply Hc; [|exact Hf]. split; [discriminate|split; [discriminate|intros [He _]; discriminate He]].
Defined.

(** Eight messages, and the state machine is finished. *)
Lemma state_machine_result_witness :
  match handshake_end with
  | Ret (r, s) =>
      r = 1 /\ state (statem s) = MSG_FLOW_FINISHED /\ hand_state (statem s) = TLS_ST_OK /\
      in_init (statem s) = false /\ in_handshake (statem s) = 0 /\ rest s = []
  | _ => False
  end.
Proof.
  assert (Hres : forall r s, handshake_end = Ret (r, s) -> r = 1 /\ state (statem s) = MSG_FLOW_FINISHED \/ r = -1).
  { intros r s. apply state_machine_result. }
  assert (Hrun : match handshake_end with
                 | Ret (r, s) => r = 1 /\ hand_state (statem s) = TLS_ST_OK /\
                     in_init (statem s) = false /\ in_handshake (statem s) = 0 /\ rest s = []
                 | _ => False
                 end) by (vm_compute; tauto).
  destruct handshake_end as [[r s]| |]; [|exact Hrun|exact Hrun].
  destruct Hrun as (-> & Hh & Hi & Hn & Hr). destruct (Hres 1 s eq_refl) as [[_ Hs]|[=]]. tauto.
Defined.

Lemma clear_failure_leaks_witness :
  exists s1, @state_machine generous_malloc unclear (@scripted_constructors generous_malloc)
      no_secure 40 (fresh_client []) false = Ret (-1, s1) /\
    otls_statem_get_in_handshake s1 = 1.
Proof.
  eexists.
  apply (@clear_failure_leaks generous_malloc unclear (@scripted_constructors generous_malloc)
    no_secure 40 (fresh_client []) false); try reflexivity. discriminate.
Defined.
