(* ===== verification/ConstantTime.v ===== *)
(** * Constant-time selection

    [src/include/internal/constant_time.h]: comparisons whose result is a mask of all
    ones or all zeros, selection with such a mask, conditional swaps and table
    lookup, without branches on the values.  The barriers that keep a compiler
    from introducing branches are the identity. *)

From S2P Require Import Prelude.

(** ** Definitions *)

(** *** [unsigned int] *)

Definition constant_time_msb (a : Z) : Z := u32 (0 - Z.shiftr a (4 * 8 - 1)).
Definition constant_time_lt (a b : Z) : Z :=
  constant_time_msb (Z.lxor a (Z.lor (Z.lxor a b) (Z.lxor (u32 (a - b)) b))).
Definition constant_time_ge (a b : Z) : Z := u32 (Z.lnot (constant_time_lt a b)).
Definition constant_time_is_zero (a : Z) : Z :=
  constant_time_msb (Z.land (u32 (Z.lnot a)) (u32 (a - 1))).
Definition constant_time_eq (a b : Z) : Z := constant_time_is_zero (Z.lxor a b).
Definition value_barrier (a : Z) : Z := a.
Definition constant_time_select (mask a b : Z) : Z :=
  Z.lor (Z.land (value_barrier mask) a) (Z.land (value_barrier (u32 (Z.lnot mask))) b).

(** *** [unsigned char] results *)

Definition constant_time_lt_8 (a b : Z) : Z := u8 (constant_time_lt a b).
Definition constant_time_ge_8 (a b : Z) : Z := u8 (constant_time_ge a b).
Definition constant_time_is_zero_8 (a : Z) : Z := u8 (constant_time_is_zero a).
Definition constant_time_eq_8 (a b : Z) : Z := u8 (constant_time_eq a b).
Definition constant_time_select_8 (mask a b : Z) : Z := u8 (constant_time_select mask a b).

(** *** [int] *)

(** Conversion of an [unsigned int] to [int]. *)
Definition to_int (x : Z) : Z := if x <? 2 ^ 31 then x else x - 2 ^ 32.
Definition constant_time_eq_int (a b : Z) : Z := constant_time_eq (u32 a) (u32 b).
Definition constant_time_eq_int_8 (a b : Z) : Z := constant_time_eq_8 (u32 a) (u32 b).
Definition constant_time_select_int (mask a b : Z) : Z :=
  to_int (constant_time_select mask (u32 a) (u32 b)).

(** *** [uint32_t] *)

Definition constant_time_msb_32 (a : Z) : Z := u32 (0 - Z.shiftr a 31).
Definition constant_time_is_zero_32 (a : Z) : Z :=
  constant_time_msb_32 (Z.land (u32 (Z.lnot a)) (u32 (a - 1))).
Definition value_barrier_32 (a : Z) : Z := a.
Definition constant_time_select_32 (mask a b : Z) : Z :=
  Z.lor (Z.land (value_barrier_32 mask) a) (Z.land (value_barrier_32 (u32 (Z.lnot mask))) b).

(** *** [uint64_t] *)

Definition constant_time_msb_64 (a : Z) : Z := u64 (0 - Z.shiftr a 63).
Definition constant_time_lt_64 (a b : Z) : Z :=
  constant_time_msb_64 (Z.lxor a (Z.lor (Z.lxor a b) (Z.lxor (u64 (a - b)) b))).
Definition value_barrier_64 (a : Z) : Z := a.
Definition constant_time_select_64 (mask a b : Z) : Z :=
  Z.lor (Z.land (value_barrier_64 mask) a) (Z.land (value_barrier_64 (u64 (Z.lnot mask))) b).

(** *** [size_t] *)

Definition constant_time_msb_s (a : Z) : Z := sz (0 - Z.shiftr a (8 * 8 - 1)).
Definition constant_time_lt_s (a b : Z) : Z :=
  constant_time_msb_s (Z.lxor a (Z.lor (Z.lxor a b) (Z.lxor (sz (a - b)) b))).
Definition constant_time_ge_s (a b : Z) : Z := sz (Z.lnot (constant_time_lt_s a b)).
Definition constant_time_ge_8_s (a b : Z) : Z := u8 (constant_time_ge_s a b).
Definition constant_time_is_zero_s (a : Z) : Z :=
  constant_time_msb_s (Z.land (sz (Z.lnot a)) (sz (a - 1))).
Definition constant_time_eq_s (a b : Z) : Z := constant_time_is_zero_s (Z.lxor a b).
Definition constant_time_eq_8_s (a b : Z) : Z := u8 (constant_time_eq_s a b).
Definition value_barrier_s (a : Z) : Z := a.
Definition constant_time_select_s (mask a b : Z) : Z :=
  Z.lor (Z.land (value_barrier_s mask) a) (Z.land (value_barrier_s (sz (Z.lnot mask))) b).
Definition constant_time_select_int_s (mask a b : Z) : Z :=
  to_int (constant_time_select (u32 mask) (u32 a) (u32 b)).

(** *** Swaps and lookup *)

(** What is left in [*a] and [*b]. *)
Definition constant_time_cond_swap_32 (mask a b : Z) : Z * Z :=
  let xor := Z.land (Z.lxor a b) mask in (Z.lxor a xor, Z.lxor b xor).
Definition constant_time_cond_swap_64 (mask a b : Z) : Z * Z :=
  let xor := Z.land (Z.lxor a b) mask in (Z.lxor a xor, Z.lxor b xor).

(** The loop of [constant_time_cond_swap_buff]: [n] bytes are left from [i] on. *)
Fixpoint swap_loop (n : nat) (i mask : Z) (a b : list Z) : option (list Z * list Z) :=
  match n with
  | O => Some (a, b)
  | S n =>
      x ← rd a i; y ← rd b i;
      let tmp := Z.land (Z.lxor x y) mask in
      a ← wr a i (Z.lxor x tmp); b ← wr b i (Z.lxor y tmp);
      swap_loop n (i + 1) mask a b
  end.

Definition constant_time_cond_swap_buff (mask : Z) (a b : list Z) (len : Z)
  : option (list Z * list Z) := swap_loop (Z.to_nat len) 0 mask a b.

(** The inner loop of [constant_time_lookup]: [n] bytes of the row are left, the next
    one is at [tablec]. *)
Fixpoint lookup_row (n : nat) (j mask : Z) (table : list Z) (tablec : Z) (out : list Z)
  : option (list Z) :=
  match n with
  | O => Some out
  | S n =>
      b ← rd table tablec; o ← rd out j;
      out ← wr out j (Z.lor o (constant_time_select_8 mask b 0));
      lookup_row n (j + 1) mask table (tablec + 1) out
  end.

(** The outer loop: [n] rows are left, and [idx] has been counted down. *)
Fixpoint lookup_rows (n : nat) (rowsize : Z) (table : list Z) (tablec idx : Z) (out : list Z)
  : option (list Z) :=
  match n with
  | O => Some out
  | S n =>
      out ← lookup_row (Z.to_nat rowsize) 0 (u8 (constant_time_is_zero_s idx)) table tablec out;
      lookup_rows n rowsize table (tablec + rowsize) (sz (idx - 1)) out
  end.

Definition constant_time_lookup (out table : list Z) (rowsize numrows idx : Z) : option (list Z) :=
  out ← wrn out 0 (replicate (Z.to_nat rowsize) 0);
  lookup_rows (Z.to_nat numrows) rowsize table 0 idx out.

(** ** Masks *)

(** The mask of [w] bits for a truth value. *)
Definition mask (w : Z) (b : bool) : Z := if b then 2 ^ w - 1 else 0.

Lemma top_bit w a : 0 < w -> 0 <= a < 2 ^ w -> Z.testbit a (w - 1) = (2 ^ (w - 1) <=? a).
Proof.
  intros Hw Ha. assert (Hp : 2 ^ w = 2 * 2 ^ (w - 1)).
  { replace w with (Z.succ (w - 1)) at 1 by lia. apply Z.pow_succ_r. lia. }
  apply eq_true_iff_eq. rewrite Z.testbit_true, Z.leb_le by lia.
  assert (0 < 2 ^ (w - 1)) by (apply Z.pow_pos_nonneg; lia).
  destruct (Z.le_gt_cases (2 ^ (w - 1)) a).
  - rewrite <- (Z.div_unique a (2 ^ (w - 1)) 1 (a - 2 ^ (w - 1))) by lia. by split.
  - rewrite Z.div_small by lia. split; [done|lia].
Qed.

Lemma msb_mask w a : 0 < w -> 0 <= a < 2 ^ w ->
  (0 - Z.shiftr a (w - 1)) mod 2 ^ w = mask w (Z.testbit a (w - 1)).
Proof.
  intros Hw Ha. rewrite (top_bit w a Hw Ha). rewrite Z.shiftr_div_pow2 by lia.
  assert (Hp : 2 ^ w = 2 * 2 ^ (w - 1)).
  { replace w with (Z.succ (w - 1)) at 1 by lia. apply Z.pow_succ_r. lia. }
  assert (0 < 2 ^ (w - 1)) by (apply Z.pow_pos_nonneg; lia). unfold mask.
  destruct (Z.leb_spec (2 ^ (w - 1)) a).
  - rewrite <- (Z.div_unique a (2 ^ (w - 1)) 1 (a - 2 ^ (w - 1))) by lia.
    symmetry. apply (Z.mod_unique _ _ (-1)); lia.
  - rewrite Z.div_small by lia. done.
Qed.

Lemma mask_range w b : 0 < w -> 0 <= mask w b < 2 ^ w.
Proof. intros Hw. pose proof (Z.pow_pos_nonneg 2 w). unfold mask. destruct b; lia. Qed.

Lemma word_bits w a : 0 <= w -> (0 <= a < 2 ^ w <-> a `mod` 2 ^ w = a).
Proof.
  intros Hw. split; [by apply Z.mod_small|]. intros <-. apply Z.mod_pos_bound.
  by apply Z.pow_pos_nonneg.
Qed.

(** The bitwise operations stay within the width. *)
Lemma bits_range w x : 0 < w -> (forall n, w <= n -> Z.testbit x n = false) -> 0 <= x < 2 ^ w.
Proof.
  intros Hw Hx. apply word_bits; [lia|]. apply Z.bits_inj'. intros n Hn.
  rewrite Z.testbit_mod_pow2 by lia. destruct (Z.ltb_spec n w); [done|]. by rewrite Hx.
Qed.

Lemma word_high w a n : 0 < w -> 0 <= a < 2 ^ w -> w <= n -> Z.testbit a n = false.
Proof.
  intros Hw Ha Hn. apply word_bits in Ha; [|lia]. rewrite <- Ha.
  rewrite Z.testbit_mod_pow2 by lia. by rewrite (proj2 (Z.ltb_ge n w)).
Qed.

Section Width.
Context (w : Z) (w_pos : 1 < w).

Lemma sub_range a b : 0 <= (a - b) `mod` 2 ^ w < 2 ^ w.
Proof using w_pos. apply Z.mod_pos_bound. apply Z.pow_pos_nonneg; lia. Qed.

Lemma lxor_range a b : 0 <= a < 2 ^ w -> 0 <= b < 2 ^ w -> 0 <= Z.lxor a b < 2 ^ w.
Proof using w_pos.
  intros Ha Hb. apply bits_range; [lia|]. intros n Hn. rewrite Z.lxor_spec.
  by rewrite !(word_high w) by (done || lia).
Qed.

Lemma lor_range a b : 0 <= a < 2 ^ w -> 0 <= b < 2 ^ w -> 0 <= Z.lor a b < 2 ^ w.
Proof using w_pos.
  intros Ha Hb. apply bits_range; [lia|]. intros n Hn. rewrite Z.lor_spec.
  by rewrite !(word_high w) by (done || lia).
Qed.

Lemma land_range a b : 0 <= a < 2 ^ w -> 0 <= Z.land a b < 2 ^ w.
Proof using w_pos.
  intros Ha. apply bits_range; [lia|]. intros n Hn. rewrite Z.land_spec.
  by rewrite (word_high w a) by (done || lia).
Qed.

Lemma half : 2 ^ w = 2 * 2 ^ (w - 1) /\ 0 < 2 ^ (w - 1).
Proof using w_pos.
  split; [|apply Z.pow_pos_nonneg; lia].
  replace w with (Z.succ (w - 1)) at 1 by lia. apply Z.pow_succ_r. lia.
Qed.

Lemma sub_top a b : 0 <= a < 2 ^ w -> 0 <= b < 2 ^ w ->
  Z.testbit ((a - b) `mod` 2 ^ w) (w - 1) =
  if b <=? a then 2 ^ (w - 1) <=? a - b else 2 ^ (w - 1) <=? a - b + 2 ^ w.
Proof using w_pos.
  intros Ha Hb. rewrite top_bit by (lia || apply sub_range).
  destruct (Z.leb_spec b a).
  - by rewrite Z.mod_small by lia.
  - by rewrite <- (Z.mod_unique (a - b) (2 ^ w) (-1) (a - b + 2 ^ w)) by lia.
Qed.

(** The comparison by borrow. *)
Lemma lt_mask a b : 0 <= a < 2 ^ w -> 0 <= b < 2 ^ w ->
  let x := Z.lxor a (Z.lor (Z.lxor a b) (Z.lxor ((a - b) `mod` 2 ^ w) b)) in
  (0 - Z.shiftr x (w - 1)) `mod` 2 ^ w = mask w (a <? b).
Proof using w_pos.
  intros Ha Hb x. pose proof (sub_range a b) as Hs. pose proof half as [Hh Hp].
  rewrite msb_mask by (lia || (unfold x; auto using lxor_range, lor_range)).
  f_equal. unfold x. rewrite !Z.lxor_spec, Z.lor_spec, !Z.lxor_spec, sub_top by done.
  rewrite !top_bit by (done || lia).
  destruct (Z.leb_spec b a), (Z.leb_spec (2 ^ (w - 1)) a), (Z.leb_spec (2 ^ (w - 1)) b),
    (Z.leb_spec (2 ^ (w - 1)) (a - b)), (Z.leb_spec (2 ^ (w - 1)) (a - b + 2 ^ w)),
    (Z.ltb_spec a b); try done; lia.
Qed.

Lemma not_mask b : (Z.lnot (mask w b)) `mod` 2 ^ w = mask w (negb b).
Proof using w_pos.
  pose proof half as [Hh Hp]. unfold mask, Z.lnot. destruct b; cbn [negb].
  - symmetry. apply (Z.mod_unique _ _ (-1)); lia.
  - symmetry. apply (Z.mod_unique _ _ (-1)); lia.
Qed.

Lemma lnot_word a : 0 <= a < 2 ^ w -> (Z.lnot a) `mod` 2 ^ w = 2 ^ w - 1 - a.
Proof using w_pos. intros Ha. unfold Z.lnot. symmetry. apply (Z.mod_unique _ _ (-1)); lia. Qed.

Lemma is_zero_mask a : 0 <= a < 2 ^ w ->
  let x := Z.land ((Z.lnot a) `mod` 2 ^ w) ((a - 1) `mod` 2 ^ w) in
  (0 - Z.shiftr x (w - 1)) `mod` 2 ^ w = mask w (a =? 0).
Proof using w_pos.
  intros Ha x. pose proof half as [Hh Hp]. assert (H1 : 1 < 2 ^ w) by lia.
  assert (Hn : 0 <= (Z.lnot a) `mod` 2 ^ w < 2 ^ w) by (apply Z.mod_pos_bound; lia).
  rewrite msb_mask by (lia || by apply land_range). f_equal. unfold x.
  rewrite Z.land_spec, sub_top by lia. rewrite top_bit, lnot_word by (done || lia).
  destruct (Z.leb_spec (2 ^ (w - 1)) (2 ^ w - 1 - a)), (Z.leb_spec 1 a),
    (Z.leb_spec (2 ^ (w - 1)) (a - 1)), (Z.leb_spec (2 ^ (w - 1)) (a - 1 + 2 ^ w)),
    (Z.eqb_spec a 0); try done; lia.
Qed.

Lemma eq_mask a b : 0 <= a < 2 ^ w -> 0 <= b < 2 ^ w -> (Z.lxor a b =? 0) = (a =? b).
Proof using.
  intros Ha Hb. apply eq_true_iff_eq. rewrite !Z.eqb_eq. apply Z.lxor_eq_0_iff.
Qed.

Lemma land_mask b a : 0 <= a < 2 ^ w -> Z.land (mask w b) a = if b then a else 0.
Proof using w_pos.
  intros Ha. unfold mask. destruct b; [|apply Z.land_0_l].
  rewrite Z.land_comm. replace (2 ^ w - 1) with (Z.ones w) by (rewrite Z.ones_equiv; lia).
  rewrite Z.land_ones by lia. by apply Z.mod_small.
Qed.

Lemma select_mask m a b : 0 <= a < 2 ^ w -> 0 <= b < 2 ^ w ->
  Z.lor (Z.land (mask w m) a) (Z.land ((Z.lnot (mask w m)) `mod` 2 ^ w) b) = if m then a else b.
Proof using w_pos.
  intros Ha Hb. rewrite not_mask, !land_mask by done. destruct m; simpl; [|done]. apply Z.lor_0_r.
Qed.

Lemma swap_mask m a b : 0 <= a < 2 ^ w -> 0 <= b < 2 ^ w ->
  let x := Z.land (Z.lxor a b) (mask w m) in
  Z.lxor a x = (if m then b else a) /\ Z.lxor b x = (if m then a else b).
Proof using w_pos.
  intros Ha Hb x. unfold x. rewrite Z.land_comm, land_mask by (by apply lxor_range).
  destruct m; [|by rewrite !Z.lxor_0_r].
  split.
  - by rewrite <- Z.lxor_assoc, Z.lxor_nilpotent, Z.lxor_0_l.
  - by rewrite (Z.lxor_comm a b), <- Z.lxor_assoc, Z.lxor_nilpotent, Z.lxor_0_l.
Qed.

End Width.

Lemma u8_mask w b : 8 <= w -> u8 (mask w b) = mask 8 b.
Proof.
  intros Hw. unfold u8, mask. destruct b; [|done].
  replace (2 ^ w) with (2 ^ 8 * 2 ^ (w - 8)) by (rewrite <- Z.pow_add_r by lia; f_equal; lia).
  pose proof (Z.pow_pos_nonneg 2 (w - 8)).
  symmetry. apply (Z.mod_unique _ _ (2 ^ (w - 8) - 1)); lia.
Qed.

(** ** The meaning of the functions *)

Definition uint_ok (x : Z) : Prop := 0 <= x < 2 ^ 32.
Definition word_ok (x : Z) : Prop := 0 <= x < 2 ^ 64.

Section Words.
Implicit Types a b : Z.

Lemma lt_s_spec a b : word_ok a -> word_ok b -> constant_time_lt_s a b = mask 64 (a <? b).
Proof. apply (lt_mask 64 eq_refl). Qed.
Lemma ge_s_spec a b : word_ok a -> word_ok b -> constant_time_ge_s a b = mask 64 (b <=? a).
Proof.
  intros. unfold constant_time_ge_s. rewrite lt_s_spec by done.
  etransitivity; [exact (not_mask 64 eq_refl _)|]. by rewrite Z.ltb_antisym, negb_involutive.
Qed.
Lemma is_zero_s_spec a : word_ok a -> constant_time_is_zero_s a = mask 64 (a =? 0).
Proof. apply (is_zero_mask 64 eq_refl). Qed.
Lemma eq_s_spec a b : word_ok a -> word_ok b -> constant_time_eq_s a b = mask 64 (a =? b).
Proof.
  intros. unfold constant_time_eq_s. rewrite is_zero_s_spec by by apply (lxor_range 64).
  by rewrite (eq_mask 64).
Qed.
Lemma select_s_spec m a b : word_ok a -> word_ok b ->
  constant_time_select_s (mask 64 m) a b = if m then a else b.
Proof. apply (select_mask 64 eq_refl). Qed.

Lemma lt_spec a b : uint_ok a -> uint_ok b -> constant_time_lt a b = mask 32 (a <? b).
Proof. apply (lt_mask 32 eq_refl). Qed.
Lemma ge_spec a b : uint_ok a -> uint_ok b -> constant_time_ge a b = mask 32 (b <=? a).
Proof.
  intros. unfold constant_time_ge. rewrite lt_spec by done.
  etransitivity; [exact (not_mask 32 eq_refl _)|]. by rewrite Z.ltb_antisym, negb_involutive.
Qed.
Lemma is_zero_spec a : uint_ok a -> constant_time_is_zero a = mask 32 (a =? 0).
Proof. apply (is_zero_mask 32 eq_refl). Qed.
Lemma eq_spec a b : uint_ok a -> uint_ok b -> constant_time_eq a b = mask 32 (a =? b).
Proof.
  intros. unfold constant_time_eq. rewrite is_zero_spec by by apply (lxor_range 32).
  by rewrite (eq_mask 32).
Qed.
Lemma select_spec m a b : uint_ok a -> uint_ok b ->
  constant_time_select (mask 32 m) a b = if m then a else b.
Proof. apply (select_mask 32 eq_refl). Qed.

Lemma uint_of_byte b : byte_ok b -> uint_ok b.
Proof. unfold byte_ok, uint_ok. lia. Qed.

(** An 8-bit mask is promoted to [unsigned int]; the low byte is kept. *)
Lemma select_8_spec m a b : byte_ok a -> byte_ok b ->
  constant_time_select_8 (mask 8 m) a b = if m then a else b.
Proof.
  intros Ha Hb. unfold constant_time_select_8, constant_time_select, value_barrier.
  assert (H255 : forall x, byte_ok x -> Z.land 255 x = x).
  { intros x Hx. rewrite Z.land_comm, land_255. by apply Z.mod_small. }
  destruct m; cbn [mask].
  - change (2 ^ 8 - 1) with 255. rewrite H255 by done.
    assert (Hn : Z.land (u32 (Z.lnot 255)) b = 0).
    { rewrite <- (H255 b Hb), Z.land_assoc. reflexivity. }
    rewrite Hn, Z.lor_0_r. by apply Z.mod_small.
  - rewrite Z.land_0_l, Z.lor_0_l. change (u32 (Z.lnot 0)) with (2 ^ 32 - 1).
    rewrite (land_mask 32 eq_refl true) by (by apply uint_of_byte). by apply Z.mod_small.
Qed.

(** Signed selection with a mask of any width that was cut to [unsigned int]. *)
Lemma to_int_u32 x : - 2 ^ 31 <= x < 2 ^ 31 -> to_int (u32 x) = x.
Proof. intros Hx. unfold to_int, u32. destruct (Z.ltb_spec (x `mod` 2 ^ 32) (2 ^ 31)); lia_div. Qed.

Lemma u32_range x : uint_ok (u32 x).
Proof. apply Z.mod_pos_bound. lia. Qed.

Lemma u32_mask m : u32 (mask 64 m) = mask 32 m.
Proof. by destruct m. Qed.

Lemma select_int_s_spec m a b : - 2 ^ 31 <= a < 2 ^ 31 -> - 2 ^ 31 <= b < 2 ^ 31 ->
  constant_time_select_int_s (mask 64 m) a b = if m then a else b.
Proof.
  intros. unfold constant_time_select_int_s. rewrite u32_mask, select_spec by apply u32_range.
  destruct m; by apply to_int_u32.
Qed.

Lemma u32_inj_int a b : - 2 ^ 31 <= a < 2 ^ 31 -> - 2 ^ 31 <= b < 2 ^ 31 ->
  (u32 a =? u32 b) = (a =? b).
Proof. intros. unfold u32. apply eq_true_iff_eq. rewrite !Z.eqb_eq. lia_div. Qed.

End Words.

(** *** Buffers *)

Lemma swap_loop_spec n : forall m p q a b,
  length p = length q -> (n <= length a)%nat -> (n <= length b)%nat -> bytes_ok a -> bytes_ok b ->
  swap_loop n (zlen p) (mask 8 m) (p ++ a) (q ++ b) =
  Some (if m then (p ++ take n b ++ drop n a, q ++ take n a ++ drop n b) else (p ++ a, q ++ b)).
Proof.
  induction n as [|n IH]; intros m p q a b Hpq Ha Hb Hba Hbb; cbn [swap_loop].
  { by destruct m. }
  destruct a as [|x a]; [simpl in Ha; lia|]. destruct b as [|y b]; [simpl in Hb; lia|].
  apply Forall_cons_1 in Hba as [Hx Hba]. apply Forall_cons_1 in Hbb as [Hy Hbb].
  assert (Eq : zlen p = zlen q) by (unfold zlen; by rewrite Hpq).
  rewrite rd_middle. replace (rd (q ++ y :: b) (zlen p)) with (Some y) by (by rewrite Eq, rd_middle).
  cbn [mbind option_bind].
  destruct (swap_mask 8 eq_refl m x y Hx Hy) as [-> ->].
  rewrite wr_middle. cbn [mbind option_bind].
  replace (wr (q ++ y :: b) (zlen p)) with (wr (q ++ y :: b) (zlen q)) by by rewrite Eq.
  rewrite wr_middle. cbn [mbind option_bind].
  replace (zlen p + 1) with (zlen (p ++ [if m then y else x])) by (rewrite zlen_app; done).
  rewrite (snoc_cons p _ a), (snoc_cons q _ b). simpl in Ha, Hb.
  rewrite IH by (rewrite ?length_app; simpl; lia || done).
  cbn [take drop]. destruct m; by rewrite <- ?app_assoc.
Qed.

Lemma lookup_row_spec n : forall m tbl1 row tbl2 out1 out2 out3,
  length row = n -> length out2 = n -> bytes_ok row ->
  lookup_row n (zlen out1) (mask 8 m) (tbl1 ++ row ++ tbl2) (zlen tbl1) (out1 ++ out2 ++ out3) =
  Some (out1 ++ (if m then zip_with Z.lor out2 row else out2) ++ out3).
Proof.
  induction n as [|n IH]; intros m tbl1 row tbl2 out1 out2 out3 Hr Ho Hbr; cbn [lookup_row].
  { destruct row, out2; try done. by destruct m. }
  destruct row as [|x row]; [done|]. destruct out2 as [|o out2]; [done|].
  apply Forall_cons_1 in Hbr as [Hx Hbr]. injection Hr as Hr. injection Ho as Ho.
  cbn [app]. rewrite !rd_middle. cbn [mbind option_bind].
  rewrite select_8_spec by (done || unfold byte_ok; lia).
  rewrite wr_middle. cbn [mbind option_bind].
  set (v := Z.lor o (if m then x else 0)).
  replace (zlen out1 + 1) with (zlen (out1 ++ [v])) by (rewrite zlen_app; done).
  replace (zlen tbl1 + 1) with (zlen (tbl1 ++ [x])) by (rewrite zlen_app; done).
  rewrite (snoc_cons tbl1 _ (row ++ tbl2)), (snoc_cons out1 _ (out2 ++ out3)).
  rewrite IH by done. rewrite <- app_assoc. unfold v. destruct m; [done|]. by rewrite Z.lor_0_r.
Qed.

Lemma lookup_rows_spec n rows : forall tbl idx out2 out3,
  Forall (fun row => length row = n /\ bytes_ok row) rows -> length out2 = n ->
  word_ok idx -> word_ok (zlen rows) ->
  lookup_rows (length rows) (Z.of_nat n) (tbl ++ concat rows) (zlen tbl) idx (out2 ++ out3) =
  Some (match rows !! Z.to_nat idx with Some row => zip_with Z.lor out2 row | None => out2 end ++ out3).
Proof.
  unfold word_ok. induction rows as [|row rows IH]; intros tbl idx out2 out3 Hrows Ho Hidx Hn;
    cbn [lookup_rows length concat]; [done|].
  apply Forall_cons_1 in Hrows as [[Hlen Hb] Hrows]. rewrite zlen_cons in Hn.
  pose proof (zlen_nonneg rows) as Hnn.
  rewrite is_zero_s_spec, u8_mask, Nat2Z.id by (done || lia).
  pose proof (lookup_row_spec n (idx =? 0) tbl row (concat rows) [] out2 out3 Hlen Ho Hb) as Hrow.
  cbn [app] in Hrow. change (zlen []) with 0 in Hrow. rewrite Hrow. cbn [mbind option_bind]. clear Hrow.
  replace (zlen tbl + Z.of_nat n) with (zlen (tbl ++ row)) by (rewrite zlen_app; unfold zlen; by rewrite Hlen).
  rewrite app_assoc.
  assert (Hsz : 0 <= sz (idx - 1) < 2 ^ 64) by (apply Z.mod_pos_bound; lia).
  rewrite IH; try done; [|destruct (idx =? 0); [rewrite length_zip_with; lia|done]|lia].
  destruct (Z.eqb_spec idx 0) as [->|Hne].
  - cbn [lookup list_lookup Z.to_nat]. rewrite lookup_ge_None_2; [done|].
    change (sz (0 - 1)) with (2 ^ 64 - 1). unfold zlen in *. lia.
  - replace (sz (idx - 1)) with (idx - 1) by (unfold sz; rewrite Z.mod_small; lia).
    replace (Z.to_nat idx) with (S (Z.to_nat (idx - 1))) by lia. done.
Qed.

Lemma zip_lor_zero n row : length row = n -> zip_with Z.lor (replicate n 0) row = row.
Proof. intros <-. induction row as [|x row IH]; [done|]. cbn. by rewrite IH. Qed.

(** ** Properties *)

(** C14: the functions of constant_time.h are the branching operations they stand for:
    every comparison gives the mask of all ones when it holds and of all zeros
    otherwise, for every width, and selecting with such a mask is a
    conditional expression, swapping a conditional swap. *)
Theorem constant_time_correct a b :
  uint_ok a -> uint_ok b ->
  constant_time_lt a b = mask 32 (a <? b) /\ constant_time_ge a b = mask 32 (b <=? a) /\
  constant_time_is_zero a = mask 32 (a =? 0) /\ constant_time_eq a b = mask 32 (a =? b) /\
  constant_time_lt_8 a b = mask 8 (a <? b) /\ constant_time_ge_8 a b = mask 8 (b <=? a) /\
  constant_time_is_zero_8 a = mask 8 (a =? 0) /\ constant_time_eq_8 a b = mask 8 (a =? b) /\
  constant_time_is_zero_32 a = mask 32 (a =? 0) /\
  forall m, constant_time_select (mask 32 m) a b = (if m then a else b) /\
    constant_time_select_32 (mask 32 m) a b = (if m then a else b) /\
    constant_time_select_int (mask 32 m) (to_int a) (to_int b) = (if m then to_int a else to_int b) /\
    constant_time_cond_swap_32 (mask 32 m) a b = (if m then (b, a) else (a, b)).
Proof.
  intros Ha Hb. unfold constant_time_lt_8, constant_time_ge_8, constant_time_is_zero_8, constant_time_eq_8.
  rewrite lt_spec, ge_spec, is_zero_spec, eq_spec, !u8_mask by (done || lia).
  do 8 (split; [done|]). split; [exact (is_zero_mask 32 eq_refl a Ha)|]. intros m.
  split; [by apply select_spec|]. split; [exact (select_mask 32 eq_refl m a b Ha Hb)|]. split.
  - assert (Hi : forall x, uint_ok x -> - 2 ^ 31 <= to_int x < 2 ^ 31).
    { unfold uint_ok, to_int. intros x Hx. destruct (Z.ltb_spec x (2 ^ 31)); lia. }
    unfold constant_time_select_int. rewrite select_spec by apply u32_range.
    destruct m; by apply to_int_u32, Hi.
  - unfold constant_time_cond_swap_32. destruct (swap_mask 32 eq_refl m a b Ha Hb) as [-> ->].
    by destruct m.
Qed.

(** The same for [size_t] and [uint64_t] operands. *)
Theorem constant_time_s_correct a b :
  word_ok a -> word_ok b ->
  constant_time_lt_s a b = mask 64 (a <? b) /\ constant_time_ge_s a b = mask 64 (b <=? a) /\
  constant_time_ge_8_s a b = mask 8 (b <=? a) /\ constant_time_is_zero_s a = mask 64 (a =? 0) /\
  constant_time_eq_s a b = mask 64 (a =? b) /\ constant_time_eq_8_s a b = mask 8 (a =? b) /\
  constant_time_lt_64 a b = mask 64 (a <? b) /\
  forall m, constant_time_select_s (mask 64 m) a b = (if m then a else b) /\
    constant_time_select_64 (mask 64 m) a b = (if m then a else b) /\
    constant_time_cond_swap_64 (mask 64 m) a b = (if m then (b, a) else (a, b)).
Proof.
  intros Ha Hb. unfold constant_time_ge_8_s, constant_time_eq_8_s.
  rewrite lt_s_spec, ge_s_spec, is_zero_s_spec, eq_s_spec, !u8_mask by (done || lia).
  do 6 (split; [done|]). split; [exact (lt_mask 64 eq_refl a b Ha Hb)|]. intros m.
  split; [by apply select_s_spec|]. split; [exact (select_mask 64 eq_refl m a b Ha Hb)|].
  unfold constant_time_cond_swap_64. destruct (swap_mask 64 eq_refl m a b Ha Hb) as [-> ->].
  by destruct m.
Qed.

(** On buffers: a conditional swap swaps the first [len] bytes of both or leaves
    them alone, and [constant_time_lookup] copies row [idx] of the table into
    the output, or zeros when there is no such row, whatever [idx] is. *)
Theorem constant_time_buffers_correct rows idx out a b len m :
  bytes_ok a -> bytes_ok b -> 0 <= len <= zlen a -> len <= zlen b ->
  Forall (fun row => zlen row <= zlen out /\ bytes_ok row /\ length row = length (default [] (head rows))) rows ->
  word_ok idx -> word_ok (zlen rows) ->
  constant_time_cond_swap_buff (mask 8 m) a b len =
    Some (if m then (take (Z.to_nat len) b ++ drop (Z.to_nat len) a,
                     take (Z.to_nat len) a ++ drop (Z.to_nat len) b) else (a, b)) /\
  let rowsize := zlen (default [] (head rows)) in
  constant_time_lookup out (concat rows) rowsize (zlen rows) idx =
    Some (default (replicate (Z.to_nat rowsize) 0) (rows !! Z.to_nat idx) ++ drop (Z.to_nat rowsize) out).
Proof.
  intros Hba Hbb Hla Hlb Hrows Hidx Hn. split.
  - unfold constant_time_cond_swap_buff.
    exact (swap_loop_spec (Z.to_nat len) m [] [] a b eq_refl ltac:(unfold zlen in *; lia)
             ltac:(unfold zlen in *; lia) Hba Hbb).
  - intros rowsize. unfold constant_time_lookup. set (n := length (default [] (head rows))) in *.
    assert (Hr : Z.to_nat rowsize = n) by (unfold rowsize, zlen; apply Nat2Z.id).
    assert (Hout : rowsize <= zlen out).
    { unfold rowsize, n in *. destruct rows as [|row rows]; [apply (zlen_nonneg out)|].
      by apply Forall_cons_1 in Hrows as [[? _] _]. }
    rewrite Hr. unfold wrn. rewrite bool_decide_eq_true_2.
    2:{ rewrite zlen_replicate. split; [done|]. unfold rowsize, zlen in *. fold n in Hout. lia. }
    cbn [mbind option_bind]. change (Z.to_nat 0) with 0%nat.
    rewrite take_0, app_nil_l, Nat.add_0_l, length_replicate.
    unfold zlen at 1. rewrite Nat2Z.id. change rowsize with (Z.of_nat n).
    pose proof (lookup_rows_spec n rows [] idx (replicate n 0) (drop n out)) as H.
    cbn [app] in H. change (zlen []) with 0 in H. rewrite H; try done.
    + destruct (rows !! Z.to_nat idx) as [row|] eqn:E; [|done]. cbn [default].
      rewrite zip_lor_zero; [done|]. by apply (Forall_lookup_1 _ _ _ _ Hrows) in E as (_ & _ & ?).
    + eapply Forall_impl; [|exact Hrows]. by intros row (_ & ? & ?).
    + apply length_replicate.
Qed.

(** ** Witnesses *)

Lemma constant_time_correct_witness :
  constant_time_lt 3 0x80000005 = 0xffffffff /\ constant_time_select (mask 32 true) 3 5 = 3.
Proof.
  destruct (constant_time_correct 3 0x80000005 ltac:(split; reflexivity || lia) ltac:(split; reflexivity || lia))
    as [H1 _].
  destruct (constant_time_correct 3 5 ltac:(split; reflexivity || lia) ltac:(split; reflexivity || lia))
    as (_ & _ & _ & _ & _ & _ & _ & _ & _ & H2).
  split; [exact H1|apply (H2 true)].
Defined.

Lemma constant_time_s_correct_witness :
  constant_time_eq_s 0x8000000000000000 0x8000000000000000 = 2 ^ 64 - 1.
Proof.
  destruct (constant_time_s_correct 0x8000000000000000 0x8000000000000000
              ltac:(split; reflexivity || lia) ltac:(split; reflexivity || lia))
    as (_ & _ & _ & _ & H & _). exact H.
Defined.

Lemma constant_time_buffers_correct_witness :
  constant_time_cond_swap_buff 255 [1; 2; 3] [7; 8; 9] 2 = Some ([7; 8; 3], [1; 2; 9]) /\
  constant_time_lookup [0; 0; 5] [1; 2; 3; 4; 5; 6] 2 3 1 = Some [3; 4; 5].
Proof.
  apply (constant_time_buffers_correct [[1; 2]; [3; 4]; [5; 6]] 1 [0; 0; 5] [1; 2; 3] [7; 8; 9] 2 true);
    try (split; reflexivity || lia); try done; repeat constructor; done || lia.
Defined.
