(* ===== verification/Words.v ===== *)
(** * Multi-precision arithmetic on words

    The word loops of [src/crypto/bn/bn_asm.c] and the macros of
    [src/crypto/bn/bn_local.h] under them, for 64-bit words without assembly: the
    64 by 64 bit product from four 32 by 32 bit ones, and the carries and borrows
    found by comparing.  A big number owns a block of words; a pointer is the name of
    the number and an offset into its block, so that results may overwrite operands as
    they do in the code. *)

From S2P Require Import Prelude ConstantTime.
From stdpp Require Import gmap.
#[local] Open Scope Z_scope.
#[local] Open Scope tls_scope.

(** ** Words *)

Definition BN_BITS2 : Z := 64.
Definition BN_BITS4 : Z := 32.
Definition BN_MASK2 : Z := 0xffffffffffffffff.
Definition BN_MASK2l : Z := 0xffffffff.
Definition BN_MASK2h : Z := 0xffffffff00000000.
Definition BN_MASK2h1 : Z := 0xffffffff80000000.

Definition LBITS (a : Z) : Z := Z.land a BN_MASK2l.
Definition HBITS (a : Z) : Z := Z.land (Z.shiftr a BN_BITS4) BN_MASK2l.
Definition L2HBITS (a : Z) : Z := Z.land (Z.shiftl a BN_BITS4) BN_MASK2.

(** The macros assign to their arguments; here they return the new values. *)
Definition mul64 (l h bl bh : Z) : Z * Z :=
  let m := u64 (bh * l) in
  let lt := u64 (bl * l) in
  let m1 := u64 (bl * h) in
  let ht := u64 (bh * h) in
  let m := Z.land (m + m1) BN_MASK2 in
  let ht := if m <? m1 then u64 (ht + L2HBITS 1) else ht in
  let ht := u64 (ht + HBITS m) in
  let m1 := L2HBITS m in
  let lt := Z.land (lt + m1) BN_MASK2 in
  let ht := if lt <? m1 then u64 (ht + 1) else ht in
  (lt, ht).

Definition sqr64 (in_ : Z) : Z * Z :=
  let l := LBITS in_ in
  let h := HBITS in_ in
  let m := u64 (l * h) in
  let l := u64 (l * l) in
  let h := u64 (h * h) in
  let h := u64 (h + Z.shiftr (Z.land m BN_MASK2h1) (BN_BITS4 - 1)) in
  let m := u64 (Z.shiftl (Z.land m BN_MASK2l) (BN_BITS4 + 1)) in
  let l := Z.land (l + m) BN_MASK2 in
  let h := if l <? m then u64 (h + 1) else h in
  (l, h).

(** The new [r] and [c]. *)
Definition mul_add (bl bh r a c : Z) : Z * Z :=
  let '(l, h) := mul64 (LBITS a) (HBITS a) bl bh in
  let l := Z.land (l + c) BN_MASK2 in
  let h := if l <? c then u64 (h + 1) else h in
  let l := Z.land (l + r) BN_MASK2 in
  let h := if l <? r then u64 (h + 1) else h in
  (l, Z.land h BN_MASK2).

Definition mul (bl bh a c : Z) : Z * Z :=
  let '(l, h) := mul64 (LBITS a) (HBITS a) bl bh in
  let l := u64 (l + c) in
  let h := if Z.land l BN_MASK2 <? c then u64 (h + 1) else h in
  (Z.land l BN_MASK2, Z.land h BN_MASK2).

(** Where the compiler has an integer type of 128 bits. *)
Definition BN_UMULT_LOHI (a b : Z) : Z * Z :=
  let ret := (a * b) `mod` 2 ^ 128 in (u64 ret, u64 (Z.shiftr ret 64)).

Definition mul_add_lohi (w r a c : Z) : Z * Z :=
  let '(low, high) := BN_UMULT_LOHI w a in
  let ret := u64 (r + c) in
  let c := if ret <? c then 1 else 0 in
  let c := u64 (c + high) in
  let ret := u64 (ret + low) in
  let c := u64 (c + (if ret <? low then 1 else 0)) in
  (ret, c).

Definition mul_lohi (w a c : Z) : Z * Z :=
  let '(low, high) := BN_UMULT_LOHI w a in
  let ret := u64 (low + c) in
  (ret, u64 (high + (if ret <? low then 1 else 0))).

(** ** Big numbers and their words *)

(** [d] is the block, empty for NULL. *)
Record BIGNUM := mk_BIGNUM {
  bn_d : list Z;
  bn_top : Z;
  bn_dmax : Z;
  bn_neg : Z;
  bn_flags : Z
}.
#[export] Instance eta_BIGNUM : Eta BIGNUM := fun b =>
  mk_BIGNUM (bn_d b) (bn_top b) (bn_dmax b) (bn_neg b) (bn_flags b).

Abbreviation heap := (gmap nat BIGNUM).

(** A pointer to a word. *)
Definition ptr : Type := nat * Z.
Definition padd (p : ptr) (i : Z) : ptr := (p.1, p.2 + i).

Definition ldw (m : heap) (p : ptr) (i : Z) : option Z :=
  b ← m !! p.1; rd (bn_d b) (p.2 + i).

Definition stw (m : heap) (p : ptr) (i v : Z) : option heap :=
  b ← m !! p.1; d' ← wr (bn_d b) (p.2 + i) v; Some (<[p.1 := b <| bn_d := d' |>]> m).

(** A loop over [n] words from offset [i]: [while (n & ~3)] four words at a time, then
    [while (n)] one. *)
Fixpoint for_words {A} (body : Z -> A -> option A) (n : nat) (i : Z) (s : A) : option A :=
  match n with
  | S (S (S (S k))) =>
      s ← body i s; s ← body (i + 1) s; s ← body (i + 2) s; s ← body (i + 3) s;
      for_words body k (i + 4) s
  | S k => s ← body i s; for_words body k (i + 1) s
  | O => Some s
  end.

(** A loop that is not unrolled. *)
Fixpoint iterate {A} (body : Z -> A -> option A) (n : nat) (i : Z) (s : A) : option A :=
  match n with O => Some s | S k => s ← body i s; iterate body k (i + 1) s end.

(** ** The loops of [bn_asm.c]

    The results are the returned word and the heap. *)

Definition add_step (rp ap bp : ptr) (i : Z) (s : Z * heap) : option (Z * heap) :=
  let '(c, m) := s in
  t ← ldw m ap i;
  let t := Z.land (t + c) BN_MASK2 in
  let c := Z.b2z (t <? c) in
  b ← ldw m bp i;
  let l := Z.land (t + b) BN_MASK2 in
  let c := u64 (c + Z.b2z (l <? t)) in
  m ← stw m rp i l;
  Some (c, m).

Definition bn_add_words (m : heap) (r a b : ptr) (n : Z) : option (Z * heap) :=
  if n <=? 0 then Some (0, m) else for_words (add_step r a b) (Z.to_nat n) 0 (0, m).

Definition sub_step (rp ap bp : ptr) (i : Z) (s : Z * heap) : option (Z * heap) :=
  let '(c, m) := s in
  t1 ← ldw m ap i;
  t2 ← ldw m bp i;
  m ← stw m rp i (Z.land (t1 - t2 - c) BN_MASK2);
  Some (if negb (t1 =? t2) then Z.b2z (t1 <? t2) else c, m).

Definition bn_sub_words (m : heap) (r a b : ptr) (n : Z) : option (Z * heap) :=
  if n <=? 0 then Some (0, m) else for_words (sub_step r a b) (Z.to_nat n) 0 (0, m).

Definition mul_add_step (bl bh : Z) (rp ap : ptr) (i : Z) (s : Z * heap) : option (Z * heap) :=
  let '(c, m) := s in
  a ← ldw m ap i;
  r ← ldw m rp i;
  let '(r, c) := mul_add bl bh r a c in
  m ← stw m rp i r;
  Some (c, m).

Definition bn_mul_add_words (m : heap) (rp ap : ptr) (num w : Z) : option (Z * heap) :=
  if num <=? 0 then Some (0, m)
  else for_words (mul_add_step (LBITS w) (HBITS w) rp ap) (Z.to_nat num) 0 (0, m).

Definition mul_step (bl bh : Z) (rp ap : ptr) (i : Z) (s : Z * heap) : option (Z * heap) :=
  let '(c, m) := s in
  a ← ldw m ap i;
  let '(r, c) := mul bl bh a c in
  m ← stw m rp i r;
  Some (c, m).

Definition bn_mul_words (m : heap) (rp ap : ptr) (num w : Z) : option (Z * heap) :=
  if num <=? 0 then Some (0, m)
  else for_words (mul_step (LBITS w) (HBITS w) rp ap) (Z.to_nat num) 0 (0, m).

Definition sqr_step (r a : ptr) (i : Z) (m : heap) : option heap :=
  x ← ldw m a i;
  let '(lo, ho) := sqr64 x in
  m ← stw m r (2 * i) lo;
  stw m r (2 * i + 1) ho.

Definition bn_sqr_words (m : heap) (r a : ptr) (n : Z) : option heap :=
  if n <=? 0 then Some m else for_words (sqr_step r a) (Z.to_nat n) 0 m.

(** ** The value of a string of words *)

Definition B : Z := 2 ^ 64.
Definition words_ok (l : list Z) : Prop := Forall word_ok l.

Fixpoint eval (l : list Z) : Z := match l with [] => 0 | w :: l => w + B * eval l end.

(** *** The macros *)

Lemma mask2 x : Z.land x BN_MASK2 = u64 x.
Proof. apply (Z.land_ones x 64). lia. Qed.

Lemma lbits_spec x : LBITS x = x mod 2 ^ 32.
Proof. apply (Z.land_ones x 32). lia. Qed.

Lemma hbits_spec x : word_ok x -> HBITS x = x / 2 ^ 32.
Proof.
  intros [Hx Hx']. unfold HBITS. etransitivity; [apply (Z.land_ones _ 32); lia|].
  rewrite Z.shiftr_div_pow2 by (unfold BN_BITS4; lia). apply Z.mod_small.
  split; [apply Z.div_pos; lia|apply Z.div_lt_upper_bound; unfold BN_BITS4; lia].
Qed.

Lemma l2hbits_spec x : L2HBITS x = (x mod 2 ^ 32) * 2 ^ 32.
Proof.
  unfold L2HBITS. rewrite mask2, Z.shiftl_mul_pow2 by (unfold BN_BITS4; lia).
  unfold u64, BN_BITS4. change (2 ^ 64) with (2 ^ 32 * 2 ^ 32). by rewrite Z.mul_mod_distr_r by lia.
Qed.

(** A 64-bit addition and its carry. *)
Lemma add_carry a b : word_ok a -> word_ok b ->
  u64 (a + b) + B * Z.b2z (u64 (a + b) <? b) = a + b.
Proof.
  unfold word_ok, u64, B. intros. destruct (Z.ltb_spec ((a + b) mod 2 ^ 64) b); simpl; lia_div.
Qed.

Lemma u64_range x : word_ok (u64 x).
Proof. unfold word_ok, u64. apply Z.mod_pos_bound. lia. Qed.

Lemma product_small a b k : 0 <= a < 2 ^ k -> 0 <= b < 2 ^ k -> 0 <= k -> 0 <= a * b <= (2 ^ k - 1) * (2 ^ k - 1).
Proof. intros. nia. Qed.

Lemma mul64_spec l h bl bh :
  0 <= l < 2 ^ 32 -> 0 <= h < 2 ^ 32 -> 0 <= bl < 2 ^ 32 -> 0 <= bh < 2 ^ 32 ->
  let '(lo, hi) := mul64 l h bl bh in
  word_ok lo /\ word_ok hi /\ lo + B * hi = (l + 2 ^ 32 * h) * (bl + 2 ^ 32 * bh).
Proof.
  intros Hl Hh Hbl Hbh.
  pose proof (product_small bh l 32 Hbh Hl ltac:(lia)).
  pose proof (product_small bl l 32 Hbl Hl ltac:(lia)).
  pose proof (product_small bl h 32 Hbl Hh ltac:(lia)).
  pose proof (product_small bh h 32 Hbh Hh ltac:(lia)).
  replace ((l + 2 ^ 32 * h) * (bl + 2 ^ 32 * bh))
    with (bl * l + 2 ^ 32 * (bh * l + bl * h) + 2 ^ 64 * (bh * h)) by ring.
  unfold mul64. rewrite l2hbits_spec, !mask2.
  generalize dependent (bh * l). generalize dependent (bl * l). generalize dependent (bl * h).
  generalize dependent (bh * h). intros x3 H3 x2 H2 x1 H1 x0 H0.
  rewrite !(u64_small x0), !(u64_small x1), !(u64_small x2), !(u64_small x3) by lia.
  pose proof (add_carry x0 x2 ltac:(unfold word_ok; lia) ltac:(unfold word_ok; lia)) as E.
  rewrite hbits_spec by apply u64_range. rewrite l2hbits_spec.
  pose proof (u64_range (x0 + x2)) as Hm. revert E Hm.
  generalize (u64 (x0 + x2)) as m. intros m E Hm. unfold word_ok in Hm.
  assert (Hd : m = 2 ^ 32 * (m / 2 ^ 32) + m mod 2 ^ 32) by (apply Z.div_mod; lia).
  pose proof (Z.mod_pos_bound m (2 ^ 32) ltac:(lia)).
  assert (0 <= m / 2 ^ 32) by (apply Z.div_pos; lia).
  revert Hd H. generalize (m / 2 ^ 32) (m mod 2 ^ 32). intros mh ml Hd Hml.
  pose proof (add_carry x1 (ml * 2 ^ 32) ltac:(unfold word_ok; lia) ltac:(unfold word_ok; lia)) as E'.
  pose proof (u64_range (x1 + ml * 2 ^ 32)) as Hlo. revert E' Hlo.
  generalize (u64 (x1 + ml * 2 ^ 32)) as lo. intros lo E' Hlo. unfold word_ok in *.
  unfold B in *. change (1 mod 2 ^ 32) with 1.
  destruct (m <? x2), (lo <? ml * 2 ^ 32); simpl Z.b2z in *;
    rewrite ?(u64_small (x3 + _)), ?(u64_small (x3 + _ + _)), ?(u64_small (x3 + _ + _ + _)) by lia; lia.
Qed.

Lemma halves x : word_ok x ->
  0 <= LBITS x < 2 ^ 32 /\ 0 <= HBITS x < 2 ^ 32 /\ LBITS x + 2 ^ 32 * HBITS x = x.
Proof.
  intros Hx. rewrite hbits_spec, lbits_spec by done. unfold word_ok in Hx.
  change (2 ^ 64) with (2 ^ 32 * 2 ^ 32) in Hx. lia_div.
Qed.

Lemma word_product a b : word_ok a -> word_ok b -> 0 <= a * b <= (B - 1) * (B - 1).
Proof. intros. apply (product_small _ _ 64); [done|done|lia]. Qed.

(** The product of two words. *)
Lemma mul64_words a w : word_ok a -> word_ok w ->
  let '(lo, hi) := mul64 (LBITS a) (HBITS a) (LBITS w) (HBITS w) in
  word_ok lo /\ word_ok hi /\ lo + B * hi = a * w.
Proof.
  intros Ha Hw. destruct (halves a Ha) as (? & ? & Ea), (halves w Hw) as (? & ? & Ew).
  pose proof (mul64_spec (LBITS a) (HBITS a) (LBITS w) (HBITS w) ltac:(done) ltac:(done) ltac:(done) ltac:(done)) as H'.
  rewrite Ea, Ew in H'. exact H'.
Qed.

Lemma sqr64_spec a : word_ok a ->
  let '(lo, hi) := sqr64 a in word_ok lo /\ word_ok hi /\ lo + B * hi = a * a.
Proof.
  intros Ha. destruct (halves a Ha) as (Hl & Hh & Ea).
  pose proof (product_small _ _ 32 Hl Hl ltac:(lia)).
  pose proof (product_small _ _ 32 Hl Hh ltac:(lia)).
  pose proof (product_small _ _ 32 Hh Hh ltac:(lia)).
  replace (a * a) with (LBITS a * LBITS a + 2 ^ 33 * (LBITS a * HBITS a) + 2 ^ 64 * (HBITS a * HBITS a))
    by (rewrite <- Ea at 7; rewrite <- Ea at 9; ring).
  unfold sqr64. rewrite !mask2. clear Hl Hh Ea.
  generalize dependent (LBITS a * LBITS a). generalize dependent (LBITS a * HBITS a).
  generalize dependent (HBITS a * HBITS a). intros x2 H2 x1 H1 x0 H0.
  rewrite !(u64_small x0), !(u64_small x1), !(u64_small x2) by lia.
  assert (Eh : Z.shiftr (Z.land x1 BN_MASK2h1) (BN_BITS4 - 1) = x1 / 2 ^ 31).
  { change (BN_BITS4 - 1) with 31. rewrite Z.shiftr_land.
    change (Z.shiftr BN_MASK2h1 31) with (Z.ones 33).
    rewrite Z.land_ones, Z.shiftr_div_pow2 by lia. apply Z.mod_small. lia_div. }
  assert (El : u64 (Z.shiftl (Z.land x1 BN_MASK2l) (BN_BITS4 + 1)) = (x1 mod 2 ^ 31) * 2 ^ 33).
  { change (BN_BITS4 + 1) with 33. change BN_MASK2l with (Z.ones 32).
    rewrite Z.land_ones, Z.shiftl_mul_pow2 by lia. unfold u64.
    change (2 ^ 64) with (2 ^ 31 * 2 ^ 33). rewrite Z.mul_mod_distr_r by lia. f_equal.
    change (2 ^ 32) with (2 * 2 ^ 31). lia_div. }
  rewrite Eh, El.
  assert (Hd : x1 = 2 ^ 31 * (x1 / 2 ^ 31) + x1 mod 2 ^ 31) by (apply Z.div_mod; lia).
  pose proof (Z.mod_pos_bound x1 (2 ^ 31) ltac:(lia)).
  assert (0 <= x1 / 2 ^ 31) by (apply Z.div_pos; lia). clear Eh El.
  revert Hd H. generalize (x1 / 2 ^ 31) (x1 mod 2 ^ 31). intros mh ml Hd Hml.
  pose proof (add_carry x0 (ml * 2 ^ 33) ltac:(unfold word_ok; lia) ltac:(unfold word_ok; lia)) as E'.
  pose proof (u64_range (x0 + ml * 2 ^ 33)) as Hlo. revert E' Hlo.
  generalize (u64 (x0 + ml * 2 ^ 33)) as lo. intros lo E' Hlo. unfold word_ok, B in *.
  destruct (lo <? ml * 2 ^ 33); simpl Z.b2z in *;
    rewrite ?(u64_small (x2 + _)), ?(u64_small (x2 + _ + _)) by lia; lia.
Qed.

(** The new word and the new carry of a multiplication step. *)
Definition word_carry (rc : Z * Z) (v : Z) : Prop :=
  word_ok rc.1 /\ word_ok rc.2 /\ rc.1 + B * rc.2 = v.

Lemma mul_add_spec w r a c : word_ok w -> word_ok r -> word_ok a -> word_ok c ->
  word_carry (mul_add (LBITS w) (HBITS w) r a c) (a * w + r + c).
Proof.
  intros Hw Hr Ha Hc. unfold mul_add. pose proof (mul64_words a w Ha Hw) as Hm.
  pose proof (word_product a w Ha Hw).
  destruct (mul64 _ _ _ _) as [l h]. destruct Hm as (Hl & Hh & E). rewrite !mask2.
  pose proof (add_carry l c Hl Hc) as E1. pose proof (u64_range (l + c)) as H1.
  pose proof (add_carry _ r H1 Hr) as E2. pose proof (u64_range (u64 (l + c) + r)) as H2.
  unfold word_carry, word_ok, B in *. simpl fst. simpl snd.
  destruct (u64 (l + c) <? c), (u64 (u64 (l + c) + r) <? r); simpl Z.b2z in *;
    rewrite ?(u64_small (h + 1)), ?(u64_small (h + 1 + 1)), ?(u64_small h) by lia; lia.
Qed.

Lemma mul_spec w a c : word_ok w -> word_ok a -> word_ok c ->
  word_carry (mul (LBITS w) (HBITS w) a c) (a * w + c).
Proof.
  intros Hw Ha Hc. unfold mul. pose proof (mul64_words a w Ha Hw) as Hm.
  pose proof (word_product a w Ha Hw).
  destruct (mul64 _ _ _ _) as [l h]. destruct Hm as (Hl & Hh & E). rewrite !mask2.
  pose proof (add_carry l c Hl Hc) as E1. pose proof (u64_range (l + c)) as H1.
  rewrite !(u64_small (u64 (l + c))) by apply H1.
  unfold word_carry, word_ok, B in *. simpl fst. simpl snd.
  destruct (u64 (l + c) <? c); simpl Z.b2z in *; rewrite ?(u64_small (h + 1)), ?(u64_small h) by lia; lia.
Qed.

(** A word and a carry are determined by their value. *)
Lemma word_carry_inj p q v : word_carry p v -> word_carry q v -> p = q.
Proof.
  destruct p as [r c], q as [r' c']. unfold word_carry, word_ok, B. simpl.
  intros (? & ? & ?) (? & ? & ?). f_equal; lia.
Qed.

Lemma lohi_spec w a : word_ok w -> word_ok a ->
  word_carry (BN_UMULT_LOHI w a) (a * w).
Proof.
  intros Hw Ha. pose proof (word_product w a Hw Ha) as P. rewrite (Z.mul_comm a w).
  unfold BN_UMULT_LOHI. revert P. generalize (w * a). intros x P. unfold B in P.
  rewrite (Z.mod_small x), Z.shiftr_div_pow2 by lia.
  unfold word_carry. simpl. split; [apply u64_range|]. split; [apply u64_range|].
  unfold u64, B. rewrite (Z.mod_small (x / _)); lia_div.
Qed.

Lemma mul_add_lohi_spec w r a c : word_ok w -> word_ok r -> word_ok a -> word_ok c ->
  word_carry (mul_add_lohi w r a c) (a * w + r + c).
Proof.
  intros Hw Hr Ha Hc. unfold mul_add_lohi. pose proof (lohi_spec w a Hw Ha) as Hm.
  pose proof (word_product a w Ha Hw).
  destruct (BN_UMULT_LOHI w a) as [l h]. destruct Hm as (Hl & Hh & E). simpl in *.
  pose proof (add_carry r c Hr Hc) as E1. pose proof (u64_range (r + c)) as H1.
  pose proof (add_carry _ l H1 Hl) as E2. pose proof (u64_range (u64 (r + c) + l)) as H2.
  unfold word_carry, word_ok, B in *. simpl fst. simpl snd.
  destruct (u64 (r + c) <? c), (u64 (u64 (r + c) + l) <? l); simpl Z.b2z in *;
    rewrite ?(u64_small (1 + h)), ?(u64_small (0 + h)), ?(u64_small (1 + h + _)), ?(u64_small (0 + h + _)) by lia; lia.
Qed.

Lemma mul_lohi_spec w a c : word_ok w -> word_ok a -> word_ok c ->
  word_carry (mul_lohi w a c) (a * w + c).
Proof.
  intros Hw Ha Hc. unfold mul_lohi. pose proof (lohi_spec w a Hw Ha) as Hm.
  pose proof (word_product a w Ha Hw).
  destruct (BN_UMULT_LOHI w a) as [l h]. destruct Hm as (Hl & Hh & E). simpl in *.
  pose proof (add_carry c l Hc Hl) as E1. rewrite (Z.add_comm c l) in E1.
  pose proof (u64_range (l + c)) as H1. unfold word_carry, word_ok, B in *. simpl fst. simpl snd.
  destruct (u64 (l + c) <? l); simpl Z.b2z in *; rewrite (u64_small (h + _)) by lia; lia.
Qed.

(** *** The heap *)

(** The [n] words at [p], and storing words there. *)
Definition words (m : heap) (p : ptr) (n : Z) : option (list Z) :=
  b ← m !! p.1; rdn (bn_d b) p.2 n.

Definition set_words (m : heap) (p : ptr) (l : list Z) : option heap :=
  b ← m !! p.1; d' ← wrn (bn_d b) p.2 l; Some (<[p.1 := b <| bn_d := d' |>]> m).

Lemma words_zlen m p n l : words m p n = Some l -> zlen l = n.
Proof. unfold words. destruct (m !! p.1); [|done]. apply rdn_zlen. Qed.

Lemma words_cons m p n x l : words m p (1 + n) = Some (x :: l) -> 0 <= n ->
  ldw m p 0 = Some x /\ words m (padd p 1) n = Some l.
Proof.
  unfold words, ldw, padd. simpl. destruct (m !! p.1) as [b|]; [|done]. simpl.
  rewrite Z.add_0_r. apply rdn_cons.
Qed.

Lemma words_split m p l n : 0 <= n -> words m p (1 + n) = Some l ->
  exists x l', l = x :: l' /\ ldw m p 0 = Some x /\ words m (padd p 1) n = Some l'.
Proof.
  intros Hn H. pose proof (words_zlen _ _ _ _ H) as E. destruct l as [|x l]; [rewrite zlen_nil in E; lia|].
  exists x, l. split; [done|]. by apply words_cons.
Qed.

Lemma rdn_insert_other d k v off n : 0 <= k < off -> rdn (<[Z.to_nat k := v]> d) off n = rdn d off n.
Proof.
  intros. unfold rdn, zlen. rewrite length_insert. case_bool_decide; [|done]. do 2 f_equal.
  rewrite drop_insert_lt; [done|lia].
Qed.

Lemma words_stw m p i v m1 q n : stw m p i v = Some m1 -> (q.1 <> p.1 \/ p.2 + i < q.2) ->
  words m1 q n = words m q n.
Proof.
  unfold stw, words. destruct (m !! p.1) as [b|] eqn:E; [|done]. simpl. unfold wr.
  case_bool_decide as Hin; [|done]. simpl. intros [= <-] Hq.
  destruct (decide (q.1 = p.1)) as [Eq|Ne].
  - rewrite Eq, lookup_insert_eq, E. simpl. destruct Hq as [?|Hq]; [done|].
    apply rdn_insert_other. lia.
  - by rewrite lookup_insert_ne by done.
Qed.

Lemma ldw_padd m p i : ldw m p i = ldw m (padd p i) 0.
Proof. unfold ldw, padd. simpl. by rewrite Z.add_0_r. Qed.

Lemma stw_some m p n l i v : words m p n = Some l -> 0 <= i < n -> exists m1, stw m p i v = Some m1.
Proof.
  unfold words, stw. destruct (m !! p.1) as [b|]; [|done]. simpl.
  intros (? & ? & ? & _)%rdn_Some ?. rewrite wr_spec by lia. by eexists.
Qed.

Lemma wrn_cons d k v d1 l : wr d k v = Some d1 -> wrn d1 (k + 1) l = wrn d k (v :: l).
Proof.
  unfold wr. case_bool_decide as Hk; [|done]. intros [= <-]. unfold wrn.
  rewrite zlen_cons. unfold zlen. rewrite length_insert.
  case_bool_decide as H1; case_bool_decide as H2; unfold zlen in *; try lia; [|done]. f_equal.
  replace (Z.to_nat (k + 1)) with (S (Z.to_nat k)) by lia.
  erewrite take_S_r by (apply list_lookup_insert_eq; unfold zlen in Hk; lia).
  rewrite take_insert_ge, drop_insert_lt by lia. rewrite <- app_assoc. simpl.
  do 4 f_equal. lia.
Qed.

Lemma set_words_stw m p i v m1 l : stw m p i v = Some m1 ->
  set_words m1 (padd p (i + 1)) l = set_words m (padd p i) (v :: l).
Proof.
  unfold stw, set_words, padd. simpl. destruct (m !! p.1) as [b|] eqn:E; [|done]. simpl.
  destruct (wr (bn_d b) (p.2 + i) v) as [d1|] eqn:Hw; [|done]. simpl. intros [= <-].
  rewrite lookup_insert_eq. simpl. rewrite Z.add_assoc, (wrn_cons _ _ _ _ _ Hw).
  destruct (wrn _ _ _); simpl; [|done]. by rewrite insert_insert_eq.
Qed.

Lemma set_words_nil m p n l : words m p n = Some l -> set_words m p [] = Some m.
Proof.
  unfold words, set_words. destruct (m !! p.1) as [b|] eqn:E; [|done]. simpl.
  intros (? & ? & ? & _)%rdn_Some. rewrite wrn_spec by (rewrite ?zlen_nil; lia). simpl.
  rewrite Nat.add_0_r, take_drop. f_equal. rewrite insert_id; [done|]. rewrite E. by destruct b.
Qed.

(** *** The loops *)

(** Unrolling changes nothing. *)
Lemma for_words_iterate {A} (body : Z -> A -> option A) n : forall i s,
  for_words body n i s = iterate body n i s.
Proof.
  induction n as [n IH] using (well_founded_induction lt_wf). intros i s.
  destruct n as [|[|[|[|k]]]]; simpl; try done.
  replace (i + 4) with (i + 1 + 1 + 1 + 1) by lia. replace (i + 2) with (i + 1 + 1) by lia.
  replace (i + 3) with (i + 1 + 1 + 1) by lia.
  do 4 (destruct (body _ _) as [?|]; simpl; [|done]). apply IH. lia.
Qed.

(** One word of each operand and the carry give a word of the result and the carry. *)
Definition word_step (f : Z -> Z -> Z -> Z * Z) (rp ap bp : ptr) (i : Z) (s : Z * heap) : option (Z * heap) :=
  let '(c, m) := s in
  a ← ldw m ap i;
  b ← ldw m bp i;
  m ← stw m rp i (f a b c).1;
  Some ((f a b c).2, m).

Fixpoint carry_zip (f : Z -> Z -> Z -> Z * Z) (l k : list Z) (c : Z) : list Z * Z :=
  match l, k with
  | a :: l, b :: k =>
      let '(r, c) := f a b c in let '(rs, c) := carry_zip f l k c in (r :: rs, c)
  | _, _ => ([], c)
  end.

(** The result does not overtake an operand. *)
Definition follows (rp ap : ptr) : Prop := ap.1 <> rp.1 \/ rp.2 <= ap.2.

Lemma words_skip m p i n : words m (padd (padd p i) 1) n = words m (padd p (i + 1)) n.
Proof. unfold words, padd. simpl. by rewrite Z.add_assoc. Qed.

Lemma follows_padd rp ap i : follows rp ap -> (padd ap (i + 1)).1 <> rp.1 \/ rp.2 + i < (padd ap (i + 1)).2.
Proof. unfold follows, padd. simpl. lia. Qed.

Lemma follows_refl p : follows p p.
Proof. right. lia. Qed.

Lemma word_loop f rp ap bp n : follows rp ap -> follows rp bp -> forall i m c l k old,
  words m (padd ap i) (Z.of_nat n) = Some l -> words m (padd bp i) (Z.of_nat n) = Some k ->
  words m (padd rp i) (Z.of_nat n) = Some old ->
  exists m', iterate (word_step f rp ap bp) n i (c, m) = Some ((carry_zip f l k c).2, m') /\
    set_words m (padd rp i) (carry_zip f l k c).1 = Some m'.
Proof.
  intros Fa Fb. induction n as [|n IH]; intros i m c l k old Hl Hk Ho.
  - pose proof (words_zlen _ _ _ _ Hl). pose proof (words_zlen _ _ _ _ Hk).
    destruct l; [|len_lia]. destruct k; [|len_lia]. simpl. exists m. split; [done|].
    by eapply set_words_nil.
  - rewrite Nat2Z.inj_succ, <- Z.add_1_l in Hl, Hk, Ho.
    destruct (words_split _ _ _ (Z.of_nat n) ltac:(lia) Hl) as (a & l' & -> & Ha & Hl').
    destruct (words_split _ _ _ (Z.of_nat n) ltac:(lia) Hk) as (b & k' & -> & Hb & Hk').
    destruct (words_split _ _ _ (Z.of_nat n) ltac:(lia) Ho) as (o & o' & -> & _ & Ho').
    rewrite words_skip in Hl', Hk', Ho'. rewrite <- ldw_padd in Ha, Hb.
    simpl. rewrite Ha, Hb. simpl.
    destruct (f a b c) as [r c1]. simpl.
    assert (exists m1, stw m rp i r = Some m1) as (m1 & Hs).
    { unfold stw, words in *. destruct (m !! rp.1) as [x|] eqn:E; [|simpl in Ho; by rewrite E in Ho].
      simpl in Ho. rewrite E in Ho. simpl in *. apply rdn_Some in Ho as (? & ? & ? & _).
      rewrite wr_spec by lia. by eexists. }
    rewrite Hs. simpl.
    rewrite <- (words_stw _ _ _ _ _ (padd ap (i + 1)) _ Hs) in Hl' by (by apply follows_padd).
    rewrite <- (words_stw _ _ _ _ _ (padd bp (i + 1)) _ Hs) in Hk' by (by apply follows_padd).
    rewrite <- (words_stw _ _ _ _ _ (padd rp (i + 1)) _ Hs) in Ho' by (apply follows_padd, follows_refl).
    destruct (IH (i + 1) m1 c1 l' k' o' Hl' Hk' Ho') as (m' & Hit & Hw).
    destruct (carry_zip f l' k' c1) as [rs c2]. simpl in *. exists m'. split; [done|].
    by rewrite <- (set_words_stw _ _ _ _ _ _ Hs).
Qed.

Lemma iterate_ext {A} (b1 b2 : Z -> A -> option A) : (forall i s, b1 i s = b2 i s) ->
  forall n i s, iterate b1 n i s = iterate b2 n i s.
Proof. intros E. induction n as [|n IH]; intros i s; simpl; [done|]. rewrite E. by destruct (b2 i s); simpl. Qed.

(** *** Values *)

Lemma B_pos n : 0 <= n -> 0 < B ^ n.
Proof. intros. apply Z.pow_pos_nonneg; unfold B; lia. Qed.

Lemma B_succ n : 0 <= n -> B ^ (1 + n) = B * B ^ n.
Proof. intros. rewrite Z.pow_add_r, Z.pow_1_r by lia. done. Qed.

Lemma eval_app l k : eval (l ++ k) = eval l + B ^ zlen l * eval k.
Proof.
  induction l as [|x l IH]; [change (zlen (@nil Z)) with 0; simpl; lia|].
  simpl. rewrite IH, zlen_cons, B_succ by apply zlen_nonneg. ring.
Qed.

Lemma eval_range l : words_ok l -> 0 <= eval l < B ^ zlen l.
Proof.
  induction 1 as [|x l Hx _ IH]; [change (zlen (@nil Z)) with 0; simpl; lia|].
  simpl. rewrite zlen_cons, B_succ by apply zlen_nonneg. unfold word_ok in Hx. unfold B in *. nia.
Qed.

Lemma eval_replicate n : eval (replicate n 0) = 0.
Proof. induction n as [|n IH]; simpl; [done|]. rewrite IH. lia. Qed.

(** Each step is linear, so the loop is. *)
Lemma zip_linear f (carry : Z -> Prop) s u v :
  (forall a b c, word_ok a -> word_ok b -> carry c ->
     word_ok (f a b c).1 /\ carry (f a b c).2 /\ (f a b c).1 + s * B * (f a b c).2 = u * a + v * b + s * c) ->
  forall l k c, zlen l = zlen k -> words_ok l -> words_ok k -> carry c ->
    zlen (carry_zip f l k c).1 = zlen l /\ words_ok (carry_zip f l k c).1 /\ carry (carry_zip f l k c).2 /\
    eval (carry_zip f l k c).1 + s * B ^ zlen l * (carry_zip f l k c).2 = u * eval l + v * eval k + s * c.
Proof.
  intros Hf l. induction l as [|a l IH]; intros k c Hz Hl Hk Hc.
  { destruct k; [|len_lia]. simpl. rewrite zlen_nil. split; [done|]. split; [constructor|]. split; [done|lia]. }
  destruct k as [|b k]; [len_lia|]. rewrite !zlen_cons in *.
  apply Forall_cons in Hl as [Ha Hl]. apply Forall_cons in Hk as [Hb Hk]. simpl.
  destruct (Hf a b c Ha Hb Hc) as (Hr & Hc1 & E). destruct (f a b c) as [r c1].
  destruct (IH k c1 ltac:(lia) Hl Hk Hc1) as (Hzl & Hok & Hc2 & E2).
  destruct (carry_zip f l k c1) as [rs c2]. simpl in *. rewrite zlen_cons.
  split; [lia|]. split; [by constructor|]. split; [done|].
  rewrite B_succ by apply zlen_nonneg.
  transitivity ((r + s * B * c1) + B * (eval rs + s * B ^ zlen l * c2 - s * c1)); [ring|].
  rewrite E, E2. ring.
Qed.

Definition bit_ok (c : Z) : Prop := 0 <= c <= 1.

Definition add_word (a b c : Z) : Z * Z :=
  let t := Z.land (a + c) BN_MASK2 in
  let l := Z.land (t + b) BN_MASK2 in (l, u64 (Z.b2z (t <? c) + Z.b2z (l <? t))).

Definition sub_word (a b c : Z) : Z * Z :=
  (Z.land (a - b - c) BN_MASK2, if negb (a =? b) then Z.b2z (a <? b) else c).

Lemma add_word_spec a b c : word_ok a -> word_ok b -> bit_ok c ->
  word_ok (add_word a b c).1 /\ bit_ok (add_word a b c).2 /\
  (add_word a b c).1 + 1 * B * (add_word a b c).2 = 1 * a + 1 * b + 1 * c.
Proof.
  unfold add_word, bit_ok. intros Ha Hb Hc. rewrite !mask2. cbv zeta. simpl fst. simpl snd.
  assert (word_ok c) as Hc' by (unfold word_ok; lia).
  pose proof (add_carry a c Ha Hc') as E1. pose proof (u64_range (a + c)) as H1.
  pose proof (add_carry b _ Hb H1) as E2. rewrite (Z.add_comm b) in E2.
  pose proof (u64_range (u64 (a + c) + b)) as H2. revert E2 H2.
  generalize (u64 (u64 (a + c) + b)). revert E1 H1. generalize (u64 (a + c)). intros t E1 H1 l E2 H2.
  unfold word_ok, B in *.
  destruct (t <? c), (l <? t); simpl Z.b2z in *; rewrite u64_small by lia; lia.
Qed.

Lemma sub_word_spec a b c : word_ok a -> word_ok b -> bit_ok c ->
  word_ok (sub_word a b c).1 /\ bit_ok (sub_word a b c).2 /\
  (sub_word a b c).1 + -1 * B * (sub_word a b c).2 = 1 * a + -1 * b + -1 * c.
Proof.
  unfold sub_word, bit_ok. intros Ha Hb Hc. rewrite !mask2. simpl fst. simpl snd.
  split; [apply u64_range|]. unfold word_ok, B, u64 in *.
  destruct (Z.eqb_spec a b); simpl; [lia_div|]. destruct (Z.ltb_spec a b); simpl; lia_div.
Qed.

(** What a loop over words does. *)
Section Linear.
Context (step : Z -> Z * heap -> option (Z * heap)) (f : Z -> Z -> Z -> Z * Z).
Context (rp ap bp : ptr) (carry : Z -> Prop) (s u v : Z).
Context (Hstep : forall i st, step i st = word_step f rp ap bp i st).
Context (Hf : forall a b c, word_ok a -> word_ok b -> carry c ->
  word_ok (f a b c).1 /\ carry (f a b c).2 /\ (f a b c).1 + s * B * (f a b c).2 = u * a + v * b + s * c).
Context (Fa : follows rp ap) (Fb : follows rp bp).
Context (m : heap) (num : Z) (l k old : list Z).
Context (Hl : words m ap num = Some l) (Hk : words m bp num = Some k) (Ho : words m rp num = Some old).
Context (Hlo : words_ok l) (Hko : words_ok k).

Lemma padd_0 p : padd p 0 = p.
Proof. destruct p as [? z]. unfold padd. simpl. f_equal. lia. Qed.

Lemma linear_iterate c0 : carry c0 ->
  exists R c m', iterate step (Z.to_nat num) 0 (c0, m) = Some (c, m') /\
    set_words m rp R = Some m' /\ zlen R = num /\ words_ok R /\ carry c /\
    eval R + s * B ^ num * c = u * eval l + v * eval k + s * c0.
Proof using Hstep Hf Fa Fb Hl Hk Ho Hlo Hko.
  intros H0.
  pose proof (words_zlen _ _ _ _ Hl) as Zl. pose proof (words_zlen _ _ _ _ Hk) as Zk.
  pose proof (zlen_nonneg l).
  destruct (zip_linear f carry s u v Hf l k c0 ltac:(lia) Hlo Hko H0) as (Hz & Hok & Hc & Heq).
  destruct (word_loop f rp ap bp (Z.to_nat num) Fa Fb 0 m c0 l k old) as (m' & Hit & Hw);
    [rewrite padd_0, Z2Nat.id by lia; done..|].
  rewrite padd_0 in Hw. exists (carry_zip f l k c0).1, (carry_zip f l k c0).2, m'.
  split_and!; [|done|lia|done|done|rewrite <- Zl; lia].
  rewrite <- Hit. by apply iterate_ext.
Qed.

Lemma linear_loop : carry 0 ->
  exists R c m', (if num <=? 0 then Some (0, m) else for_words step (Z.to_nat num) 0 (0, m)) = Some (c, m') /\
    set_words m rp R = Some m' /\ zlen R = num /\ words_ok R /\ carry c /\
    eval R + s * B ^ num * c = u * eval l + v * eval k.
Proof using Hstep Hf Fa Fb Hl Hk Ho Hlo Hko.
  intros H0. destruct (linear_iterate 0 H0) as (R & c & m' & Hit & ? & ? & ? & ? & ?).
  exists R, c, m'. split_and!; try done; [|lia]. rewrite <- Hit. destruct (Z.leb_spec num 0).
  - by replace (Z.to_nat num) with 0%nat in * by lia.
  - apply for_words_iterate.
Qed.
End Linear.

#[local] Opaque mul mul_add.

Section Loops.
Context (m : heap) (rp ap bp : ptr) (num : Z) (l k old : list Z).
Context (Fa : follows rp ap) (Fb : follows rp bp).
Context (Hl : words m ap num = Some l) (Hk : words m bp num = Some k) (Ho : words m rp num = Some old).
Context (Hlo : words_ok l) (Hko : words_ok k) (Hoo : words_ok old).

Lemma add_words_spec : exists R c m', bn_add_words m rp ap bp num = Some (c, m') /\
  set_words m rp R = Some m' /\ zlen R = num /\ words_ok R /\ bit_ok c /\
  eval R + B ^ num * c = eval l + eval k.
Proof using Fa Fb Hl Hk Ho Hlo Hko.
  destruct (linear_loop (add_step rp ap bp) add_word rp ap bp bit_ok 1 1 1 ltac:(done) add_word_spec
              Fa Fb m num l k old Hl Hk Ho Hlo Hko ltac:(done)) as (R & c & m' & ? & ? & ? & ? & ? & ?).
  exists R, c, m'. split_and!; try done; lia.
Qed.

Lemma sub_words_spec : exists R c m', bn_sub_words m rp ap bp num = Some (c, m') /\
  set_words m rp R = Some m' /\ zlen R = num /\ words_ok R /\ bit_ok c /\
  eval R - B ^ num * c = eval l - eval k.
Proof using Fa Fb Hl Hk Ho Hlo Hko.
  destruct (linear_loop (sub_step rp ap bp) sub_word rp ap bp bit_ok (-1) 1 (-1) ltac:(done) sub_word_spec
              Fa Fb m num l k old Hl Hk Ho Hlo Hko ltac:(done)) as (R & c & m' & ? & ? & ? & ? & ? & ?).
  exists R, c, m'. split_and!; try done; lia.
Qed.

Lemma mul_step_linear bl bh i st :
  mul_step bl bh rp ap i st = word_step (fun a _ c => mul bl bh a c) rp ap ap i st.
Proof.
  destruct st as [c m0]. unfold mul_step, word_step.
  destruct (ldw m0 ap i); simpl; [|done]. by destruct (mul _ _ _ _).
Qed.

Lemma mul_words_spec w : word_ok w -> exists R c m', bn_mul_words m rp ap num w = Some (c, m') /\
  set_words m rp R = Some m' /\ zlen R = num /\ words_ok R /\ word_ok c /\
  eval R + B ^ num * c = eval l * w.
Proof using Fa Hl Ho Hlo.
  intros Hw.
  destruct (linear_loop _ _ rp ap ap word_ok 1 w 0 (mul_step_linear (LBITS w) (HBITS w))
              ltac:(intros a b c Ha _ Hc; destruct (mul_spec w a c Hw Ha Hc) as (? & ? & ?); split_and!; [done..|lia])
              Fa Fa m num l l old Hl Hl Ho Hlo Hlo ltac:(done)) as (R & c & m' & ? & ? & ? & ? & ? & ?).
  exists R, c, m'. split_and!; try done; lia.
Qed.

Lemma mul_add_step_linear bl bh i st :
  mul_add_step bl bh rp ap i st = word_step (fun a r c => mul_add bl bh r a c) rp ap rp i st.
Proof.
  destruct st as [c m0]. unfold mul_add_step, word_step.
  destruct (ldw m0 ap i); simpl; [|done]. destruct (ldw m0 rp i); simpl; [|done]. by destruct (mul_add _ _ _ _ _).
Qed.

Lemma mul_add_words_spec w : word_ok w -> exists R c m', bn_mul_add_words m rp ap num w = Some (c, m') /\
  set_words m rp R = Some m' /\ zlen R = num /\ words_ok R /\ word_ok c /\
  eval R + B ^ num * c = eval l * w + eval old.
Proof using Fa Hl Ho Hlo Hoo.
  intros Hw.
  destruct (linear_loop _ _ rp ap rp word_ok 1 w 1 (mul_add_step_linear (LBITS w) (HBITS w))
              ltac:(intros a b c Ha Hb Hc; destruct (mul_add_spec w b a c Hw Hb Ha Hc) as (? & ? & ?); split_and!; [done..|lia])
              Fa (follows_refl rp) m num l old old Hl Ho Ho Hlo Hoo ltac:(done)) as (R & c & m' & ? & ? & ? & ? & ? & ?).
  exists R, c, m'. split_and!; try done; lia.
Qed.
End Loops.

(** *** Strings of words stored one after the other *)

Lemma words_set_words m p R m' q n : set_words m p R = Some m' ->
  (q.1 <> p.1 \/ p.2 + zlen R <= q.2) -> words m' q n = words m q n.
Proof.
  unfold set_words, words. destruct (m !! p.1) as [b|] eqn:E; [|done]. simpl. unfold wrn.
  case_bool_decide as Hin; [|done]. simpl. intros [= <-] Hq.
  destruct (decide (q.1 = p.1)) as [Eq|Ne]; [|by rewrite lookup_insert_ne by done].
  destruct Hq as [?|Hq]; [done|]. rewrite Eq, lookup_insert_eq, E. simpl. unfold rdn.
  assert (Ez : zlen (take (Z.to_nat p.2) (bn_d b) ++ R ++ drop (Z.to_nat p.2 + length R) (bn_d b)) = zlen (bn_d b))
    by (unfold zlen in *; rewrite !length_app, length_take, length_drop; lia).
  rewrite Ez. case_bool_decide; [|done]. do 2 f_equal. unfold zlen in *.
  rewrite app_assoc, drop_app_ge by (rewrite length_app, length_take; lia).
  rewrite drop_drop. f_equal. rewrite length_app, length_take. lia.
Qed.

Lemma set_words_lookup m p R m' : set_words m p R = Some m' ->
  exists b d', m !! p.1 = Some b /\ wrn (bn_d b) p.2 R = Some d' /\ m' = <[p.1 := b <| bn_d := d' |>]> m.
Proof.
  unfold set_words. destruct (m !! p.1) as [b|]; [|done]. simpl.
  destruct (wrn (bn_d b) p.2 R) as [d'|] eqn:E; [|done]. simpl. intros [= <-]. by exists b, d'.
Qed.

Lemma wrn_app d k v d1 l : wrn d k v = Some d1 -> wrn d1 (k + zlen v) l = wrn d k (v ++ l).
Proof.
  intros Hw. pose proof (wrn_length _ _ _ _ Hw) as Hz. unfold wrn in Hw. case_bool_decide as Hk; [|done].
  injection Hw as <-. unfold wrn. rewrite Hz, zlen_app.
  case_bool_decide as H1; case_bool_decide as H2; pose proof (zlen_nonneg l); pose proof (zlen_nonneg v); try lia; [|done]. f_equal.
  assert (Hn : Z.to_nat (k + zlen v) = length (take (Z.to_nat k) d ++ v))
    by (unfold zlen in *; rewrite length_app, length_take; lia).
  rewrite (app_assoc (take (Z.to_nat k) d) v), Hn, take_app_length, <- !app_assoc. do 3 f_equal.
  rewrite app_assoc, drop_app_ge by lia. rewrite drop_drop, !length_app, length_take. f_equal.
  unfold zlen in *. lia.
Qed.

Lemma set_words_app m p l k m1 : set_words m p l = Some m1 ->
  set_words m1 (padd p (zlen l)) k = set_words m p (l ++ k).
Proof.
  intros (b & d' & E & Hw & ->)%set_words_lookup. unfold set_words, padd. simpl.
  rewrite lookup_insert_eq, E. simpl. rewrite (wrn_app _ _ _ _ _ Hw).
  destruct (wrn (bn_d b) p.2 (l ++ k)); simpl; [|done]. by rewrite insert_insert_eq.
Qed.

Lemma stw_set_words m p i v : stw m p i v = set_words m (padd p i) [v].
Proof.
  unfold stw, set_words, padd. simpl. destruct (m !! p.1) as [b|]; simpl; [|done].
  unfold wr, wrn. change (zlen [v]) with 1.
  case_bool_decide as H1; case_bool_decide as H2; try lia; simpl; [|done]. do 4 f_equal.
  rewrite insert_take_drop by (unfold zlen in *; lia). do 2 f_equal. f_equal. lia.
Qed.

(** Reading back what was stored. *)
Lemma words_stored m p R m' : set_words m p R = Some m' -> words m' p (zlen R) = Some R.
Proof.
  intros (b & d' & E & Hw & ->)%set_words_lookup. unfold words. rewrite lookup_insert_eq. simpl.
  unfold wrn in Hw. case_bool_decide as Hk; [|done]. injection Hw as <-.
  rewrite rdn_spec.
  - unfold zlen in *. rewrite drop_app_ge by (rewrite length_take; lia).
    rewrite length_take, Nat.min_l, Nat.sub_diag, drop_0, Nat2Z.id by lia. by rewrite take_app_length.
  - lia.
  - apply zlen_nonneg.
  - unfold zlen in *. rewrite !length_app, length_take, length_drop. lia.
Qed.

Lemma words_lookup m p n l : words m p n = Some l -> exists b, m !! p.1 = Some b /\ rdn (bn_d b) p.2 n = Some l.
Proof. unfold words. destruct (m !! p.1) as [b|]; [|done]. by exists b. Qed.

Lemma set_words_some m p n l R : words m p n = Some l -> zlen R = n -> exists m', set_words m p R = Some m'.
Proof.
  intros (b & E & (? & ? & ? & _)%rdn_Some)%words_lookup HR. unfold set_words. rewrite E. simpl.
  rewrite wrn_spec by lia. by eexists.
Qed.

(** *** Parts of a string of words *)

Lemma rdn_sub mem i n l k j : rdn mem i n = Some l -> 0 <= k -> 0 <= j -> k + j <= n ->
  rdn mem (i + k) j = Some (take (Z.to_nat j) (drop (Z.to_nat k) l)).
Proof.
  intros (Hi & Hn & Hb & ->)%rdn_Some Hk Hj Hkj. rewrite rdn_spec by lia. f_equal.
  rewrite skipn_firstn_comm, take_take, Nat.min_l, drop_drop by lia. do 2 f_equal. lia.
Qed.

Lemma words_sub m p n l k j : words m p n = Some l -> 0 <= k -> 0 <= j -> k + j <= n ->
  words m (padd p k) j = Some (take (Z.to_nat j) (drop (Z.to_nat k) l)).
Proof.
  intros (b & E & Hr)%words_lookup Hk Hj Hkj. unfold words, padd. simpl. rewrite E. simpl. by eapply rdn_sub.
Qed.

Lemma ldw_sub m p n l k w : words m p n = Some l -> 0 <= k -> l !! Z.to_nat k = Some w -> ldw m p k = Some w.
Proof.
  intros (b & E & (Hi & Hn & Hb & ->)%rdn_Some)%words_lookup Hk Hw. unfold ldw. rewrite E. simpl.
  rewrite rd_drop by lia. by apply lookup_take_Some in Hw as [? _].
Qed.

Lemma wrn_over d i L d1 k R : wrn d i L = Some d1 -> 0 <= k -> k + zlen R <= zlen L ->
  wrn d1 (i + k) R = wrn d i (take (Z.to_nat k) L ++ R ++ drop (Z.to_nat k + length R) L).
Proof.
  intros Hw Hk Hkj. pose proof (wrn_length _ _ _ _ Hw) as Hz. unfold wrn in Hw. case_bool_decide as Hb; [|done].
  injection Hw as <-. pose proof (zlen_nonneg R).
  assert (EZ : zlen (take (Z.to_nat k) L ++ R ++ drop (Z.to_nat k + length R) L) = zlen L)
    by (unfold zlen in *; rewrite !length_app, length_take, length_drop; lia).
  unfold wrn. rewrite Hz, EZ. rewrite !bool_decide_eq_true_2 by lia. f_equal. unfold zlen in *.
  rewrite <- (take_drop (Z.to_nat k) L) at 1. rewrite <- !app_assoc.
  assert (Hn : Z.to_nat (i + k) = length (take (Z.to_nat i) d ++ take (Z.to_nat k) L))
    by (rewrite length_app, !length_take; lia).
  rewrite (app_assoc (take _ d) (take _ L)), Hn, take_app_length, <- !app_assoc. do 3 f_equal.
  rewrite drop_app_ge by (rewrite length_app, !length_take; lia).
  replace (length (take (Z.to_nat i) d ++ take (Z.to_nat k) L) + length R - length (take (Z.to_nat i) d))%nat
    with (Z.to_nat k + length R)%nat by (rewrite !length_app, !length_take; lia).
  rewrite drop_app_le by lia. f_equal. f_equal. lia.
Qed.

Lemma set_words_over m p L m1 k R : set_words m p L = Some m1 -> 0 <= k -> k + zlen R <= zlen L ->
  set_words m1 (padd p k) R = set_words m p (take (Z.to_nat k) L ++ R ++ drop (Z.to_nat k + length R) L).
Proof.
  intros (b & d' & E & Hw & ->)%set_words_lookup Hk Hkj. unfold set_words, padd. simpl.
  rewrite lookup_insert_eq, E. simpl. rewrite (wrn_over _ _ _ _ _ _ Hw Hk Hkj).
  destruct (wrn (bn_d b) p.2 (take _ _ ++ _)); simpl; [|done]. by rewrite insert_insert_eq.
Qed.

(** The same for a string of which the parts are named. *)
Lemma set_words_mid m p L X R m1 k X' : set_words m p (L ++ X ++ R) = Some m1 -> zlen L = k -> zlen X' = zlen X ->
  set_words m1 (padd p k) X' = set_words m p (L ++ X' ++ R).
Proof.
  intros HL <- HX. pose proof (zlen_nonneg L). pose proof (zlen_nonneg R).
  rewrite (set_words_over _ _ _ _ _ _ HL) by (rewrite ?zlen_app; lia). unfold zlen in *.
  rewrite Nat2Z.id, take_app_length. do 3 f_equal.
  rewrite app_assoc, drop_app_ge by (rewrite length_app; lia).
  replace (_ - _)%nat with 0%nat by (rewrite length_app; lia). apply drop_0.
Qed.

Lemma words_mid m p L X R m1 k n : set_words m p (L ++ X ++ R) = Some m1 -> zlen L = k -> zlen X = n ->
  words m1 (padd p k) n = Some X.
Proof.
  intros HL <- <-. pose proof (zlen_nonneg L). pose proof (zlen_nonneg X). pose proof (zlen_nonneg R).
  rewrite (words_sub _ _ _ _ _ _ (words_stored _ _ _ _ HL)) by (rewrite ?zlen_app; lia).
  unfold zlen. rewrite !Nat2Z.id, drop_app_length, take_app_length. done.
Qed.

Lemma ldw_mid m p L w R m1 k : set_words m p (L ++ w :: R) = Some m1 -> zlen L = k -> ldw m1 p k = Some w.
Proof.
  intros HL <-. pose proof (words_mid m p L [w] R m1 _ 1 HL eq_refl eq_refl) as W.
  rewrite ldw_padd. apply (words_cons _ _ 0 w []); [exact W|lia].
Qed.

Lemma set_words_same m p n l : words m p n = Some l -> set_words m p l = Some m.
Proof.
  intros (b & E & (Hi & Hn & Hb & ->)%rdn_Some)%words_lookup. unfold set_words. rewrite E. simpl.
  assert (Hz : zlen (take (Z.to_nat n) (drop (Z.to_nat p.2) (bn_d b))) = n) by (rewrite zlen_take; rewrite ?zlen_drop; lia).
  rewrite wrn_spec by lia. simpl. unfold zlen in Hz.
  rewrite <- drop_drop. replace (length _) with (Z.to_nat n) by lia. rewrite !take_drop.
  f_equal. rewrite insert_id; [done|]. rewrite E. by destruct b.
Qed.

Lemma words_insert_ne m i b q n : q.1 <> i -> words (<[i := b]> m) q n = words m q n.
Proof. intros. unfold words. by rewrite lookup_insert_ne by done. Qed.
