(* ===== verification/Bignum.v ===== *)
(** * Big numbers

    From [src/crypto/bn/bn_lib.c] and [src/crypto/bn/bn_add.c]: growing, comparing and
    copying big numbers, adding and subtracting them.  The operands and the result
    are names of numbers of a heap and may be the same number.  A result is
    [None] for an access outside of a number's words, and the returned [int] with the
    heap otherwise. *)

From S2P Require Import Prelude Mem Words.
From stdpp Require Import gmap.
#[local] Open Scope Z_scope.
#[local] Open Scope tls_scope.

Definition BN_FLG_MALLOCED : Z := 0x01.
Definition BN_FLG_STATIC_DATA : Z := 0x02.
Definition BN_FLG_CONSTTIME : Z := 0x04.
Definition BN_FLG_SECURE : Z := 0x08.
(** Without [BN_DEBUG]; [bn_check_top] and [bn_pollute] do nothing then. *)
Definition BN_FLG_FIXED_TOP : Z := 0.
Definition sizeof_BN_ULONG : Z := 8.

Section Numbers.
Context `{Malloc}.
(** The allocator of secure memory: whether a zeroed block is to be had. *)
Context (OPENtls_secure_zalloc : Z -> option (list Z)).

(** ** Size, [bn_lib.c] *)

(** The zeroed bytes of the block are zero words. *)
Definition bn_expand_internal (b : BIGNUM) (words : Z) : option (list Z) :=
  if INT_MAX / (4 * BN_BITS2) <? words then None
  else if has_bits (bn_flags b) BN_FLG_STATIC_DATA then None
  else match (if has_bits (bn_flags b) BN_FLG_SECURE
              then OPENtls_secure_zalloc (words * sizeof_BN_ULONG)
              else CRYPTO_zalloc (words * sizeof_BN_ULONG)) with
  | None => None
  | Some _ =>
      let a := replicate (Z.to_nat words) 0 in
      if 0 <? bn_top b
      then Some (take (Z.to_nat (bn_top b)) (bn_d b) ++ drop (Z.to_nat (bn_top b)) a) else Some a
  end.

(** The [bool] says that the result is not NULL. *)
Definition bn_expand2 (m : heap) (b : nat) (words : Z) : option (bool * heap) :=
  x ← m !! b;
  if bn_dmax x <? words then
    match bn_expand_internal x words with
    | None => Some (false, m)
    | Some a => Some (true, <[b := x <| bn_d := a |> <| bn_dmax := words |>]> m)
    end
  else Some (true, m).

Definition bn_wexpand (m : heap) (a : nat) (words : Z) : option (bool * heap) :=
  x ← m !! a;
  if words <=? bn_dmax x then Some (true, m) else bn_expand2 m a words.

Definition bn_expand (m : heap) (a : nat) (bits : Z) : option (bool * heap) :=
  if INT_MAX - BN_BITS2 + 1 <? bits then Some (false, m)
  else
    x ← m !! a;
    if (bits + BN_BITS2 - 1) / BN_BITS2 <=? bn_dmax x then Some (true, m)
    else bn_expand2 m a ((bits + BN_BITS2 - 1) / BN_BITS2).

(** Changing fields of a number. *)
Definition bn_set (m : heap) (a : nat) (f : BIGNUM -> BIGNUM) : option heap :=
  x ← m !! a; Some (<[a := f x]> m).

Definition BN_zero (m : heap) (a : nat) : option heap :=
  bn_set m a (fun x => x <| bn_neg := 0 |> <| bn_top := 0 |>
                         <| bn_flags := Z.land (bn_flags x) (Z.lnot BN_FLG_FIXED_TOP) |>).

Definition BN_is_zero (a : BIGNUM) : bool := bn_top a =? 0.

(** The largest [tmp_top] with a word that is not zero below it. *)
Fixpoint top_loop (d : list Z) (tmp_top : nat) : option Z :=
  match tmp_top with
  | O => Some 0
  | S n => w ← rd d (Z.of_nat n); if negb (w =? 0) then Some (Z.of_nat (S n)) else top_loop d n
  end.

Definition bn_correct_top (m : heap) (a : nat) : option heap :=
  x ← m !! a;
  top ← (if 0 <? bn_top x then top_loop (bn_d x) (Z.to_nat (bn_top x)) else Some (bn_top x));
  bn_set m a (fun x => x <| bn_top := top |> <| bn_neg := if top =? 0 then 0 else bn_neg x |>
                         <| bn_flags := Z.land (bn_flags x) (Z.lnot BN_FLG_FIXED_TOP) |>).

Fixpoint ucmp_loop (ap bp : list Z) (n : nat) : option Z :=
  match n with
  | O => Some 0
  | S n =>
      t1 ← rd ap (Z.of_nat n);
      t2 ← rd bp (Z.of_nat n);
      if negb (t1 =? t2) then Some (if t2 <? t1 then 1 else -1) else ucmp_loop ap bp n
  end.

Definition BN_ucmp (m : heap) (a b : nat) : option Z :=
  x ← m !! a;
  y ← m !! b;
  let i := bn_top x - bn_top y in
  if negb (i =? 0) then Some i else ucmp_loop (bn_d x) (bn_d y) (Z.to_nat (bn_top x)).

Fixpoint cmp_loop (gt lt : Z) (ap bp : list Z) (n : nat) : option Z :=
  match n with
  | O => Some 0
  | S n =>
      t1 ← rd ap (Z.of_nat n);
      t2 ← rd bp (Z.of_nat n);
      if t2 <? t1 then Some gt else if t1 <? t2 then Some lt else cmp_loop gt lt ap bp n
  end.

(** The arguments may be NULL. *)
Definition BN_cmp (m : heap) (a b : option nat) : option Z :=
  match a, b with
  | Some _, None => Some (-1)
  | None, Some _ => Some 1
  | None, None => Some 0
  | Some a, Some b =>
      x ← m !! a;
      y ← m !! b;
      if negb (bn_neg x =? bn_neg y) then Some (if truth (bn_neg x) then -1 else 1)
      else
        let '(gt, lt) := if bn_neg x =? 0 then (1, -1) else (-1, 1) in
        if bn_top y <? bn_top x then Some gt
        else if bn_top x <? bn_top y then Some lt
        else cmp_loop gt lt (bn_d x) (bn_d y) (Z.to_nat (bn_top x))
  end.

Definition BN_copy (m : heap) (a b : nat) : option (bool * heap) :=
  if decide (a = b) then Some (true, m)
  else
    y ← m !! b;
    '(ok, m) ← bn_wexpand m a (bn_top y);
    if negb ok then Some (false, m)
    else
      m ← (if 0 <? bn_top y
           then src ← words m (b, 0) (bn_top y); set_words m (a, 0) src else Some m);
      m ← bn_set m a (fun x => x <| bn_neg := bn_neg y |> <| bn_top := bn_top y |>
                               <| bn_flags := Z.lor (bn_flags x) (Z.land (bn_flags y) BN_FLG_FIXED_TOP) |>);
      Some (true, m).

Definition BN_set_word (m : heap) (a : nat) (w : Z) : option (Z * heap) :=
  '(ok, m) ← bn_expand m a (sizeof_BN_ULONG * 8);
  if negb ok then Some (0, m)
  else
    m ← bn_set m a (fun x => x <| bn_neg := 0 |>);
    m ← stw m (a, 0) 0 w;
    m ← bn_set m a (fun x => x <| bn_top := if truth w then 1 else 0 |>
                             <| bn_flags := Z.land (bn_flags x) (Z.lnot BN_FLG_FIXED_TOP) |>);
    Some (1, m).

Definition BN_set_negative (m : heap) (a : nat) (b : Z) : option heap :=
  bn_set m a (fun x => x <| bn_neg := if truth b && negb (BN_is_zero x) then 1 else 0 |>).

(** ** Addition and subtraction, [bn_add.c] *)

(** One word of the longer operand and the carry. *)
Definition carry_step (rp ap : ptr) (i : Z) (s : Z * heap) : option (Z * heap) :=
  let '(carry, m) := s in
  t1 ← ldw m ap i;
  let t2 := Z.land (t1 + carry) BN_MASK2 in
  m ← stw m rp i t2;
  Some (Z.land carry (Z.b2z (t2 =? 0)), m).

Definition BN_uadd (m : heap) (r a b : nat) : option (Z * heap) :=
  x ← m !! a;
  y ← m !! b;
  let '(a, b) := if bn_top x <? bn_top y then (b, a) else (a, b) in
  x ← m !! a;
  y ← m !! b;
  let max := bn_top x in
  let min := bn_top y in
  let dif := max - min in
  '(ok, m) ← bn_wexpand m r (max + 1);
  if negb ok then Some (0, m)
  else
    m ← bn_set m r (fun z => z <| bn_top := max |>);
    '(carry, m) ← bn_add_words m (r, 0) (a, 0) (b, 0) min;
    '(carry, m) ← iterate (carry_step (r, min) (a, min)) (Z.to_nat dif) 0 (carry, m);
    m ← stw m (r, min) dif carry;
    m ← bn_set m r (fun z => z <| bn_top := bn_top z + carry |> <| bn_neg := 0 |>);
    Some (1, m).

Definition borrow_step (rp ap : ptr) (i : Z) (s : Z * heap) : option (Z * heap) :=
  let '(borrow, m) := s in
  t1 ← ldw m ap i;
  let t2 := Z.land (t1 - borrow) BN_MASK2 in
  m ← stw m rp i t2;
  Some (Z.land borrow (Z.b2z (t1 =? 0)), m).

Definition BN_usub (m : heap) (r a b : nat) : option (Z * heap) :=
  x ← m !! a;
  y ← m !! b;
  let max := bn_top x in
  let min := bn_top y in
  let dif := max - min in
  if dif <? 0 then Some (0, m)
  else
    '(ok, m) ← bn_wexpand m r max;
    if negb ok then Some (0, m)
    else
      '(borrow, m) ← bn_sub_words m (r, 0) (a, 0) (b, 0) min;
      '(borrow, m) ← iterate (borrow_step (r, min) (a, min)) (Z.to_nat dif) 0 (borrow, m);
      z ← m !! r;
      max ← top_loop (bn_d z) (Z.to_nat max);
      m ← bn_set m r (fun z => z <| bn_top := max |> <| bn_neg := 0 |>);
      Some (1, m).

(** Set the sign of the result at the end. *)
Definition with_neg (res : option (Z * heap)) (r : nat) (r_neg : Z) : option (Z * heap) :=
  '(ret, m) ← res; m ← bn_set m r (fun z => z <| bn_neg := r_neg |>); Some (ret, m).

Definition BN_add (m : heap) (r a b : nat) : option (Z * heap) :=
  x ← m !! a;
  y ← m !! b;
  if bn_neg x =? bn_neg y then with_neg (BN_uadd m r a b) r (bn_neg x)
  else
    cmp_res ← BN_ucmp m a b;
    if 0 <? cmp_res then with_neg (BN_usub m r a b) r (bn_neg x)
    else if cmp_res <? 0 then with_neg (BN_usub m r b a) r (bn_neg y)
    else with_neg (m ← BN_zero m r; Some (1, m)) r 0.

Definition BN_sub (m : heap) (r a b : nat) : option (Z * heap) :=
  x ← m !! a;
  y ← m !! b;
  if negb (bn_neg x =? bn_neg y) then with_neg (BN_uadd m r a b) r (bn_neg x)
  else
    cmp_res ← BN_ucmp m a b;
    if 0 <? cmp_res then with_neg (BN_usub m r a b) r (bn_neg x)
    else if cmp_res <? 0 then with_neg (BN_usub m r b a) r (if truth (bn_neg y) then 0 else 1)
    else with_neg (m ← BN_zero m r; Some (1, m)) r 0.
End Numbers.

(** ** Values *)

(** The words in use, their value, and the value with its sign. *)
Definition limbs (x : BIGNUM) : list Z := take (Z.to_nat (bn_top x)) (bn_d x).
Definition mag (x : BIGNUM) : Z := eval (limbs x).
Definition value (x : BIGNUM) : Z := if bn_neg x =? 0 then mag x else - mag x.

(** The block has the size the number says, and [top] is within it. *)
Definition bn_fits (x : BIGNUM) : Prop :=
  zlen (bn_d x) = bn_dmax x /\ 0 <= bn_top x <= bn_dmax x /\ words_ok (bn_d x) /\
  (bn_neg x = 0 \/ bn_neg x = 1).

(** No leading zeros, and no negative zero. *)
Definition normal (x : BIGNUM) : Prop :=
  (0 < bn_top x -> B ^ (bn_top x - 1) <= mag x) /\ (bn_top x = 0 -> bn_neg x = 0).

Definition bn_ok (x : BIGNUM) : Prop := bn_fits x /\ normal x.

Lemma zlen_limbs x : bn_fits x -> zlen (limbs x) = bn_top x.
Proof. intros (Hz & Ht & _). unfold limbs. apply zlen_take. lia. Qed.

Lemma limbs_ok x : bn_fits x -> words_ok (limbs x).
Proof. intros (_ & _ & Hw & _). by apply Forall_take. Qed.

Lemma mag_range x : bn_fits x -> 0 <= mag x < B ^ bn_top x.
Proof. intros Hx. rewrite <- (zlen_limbs x Hx). apply eval_range, limbs_ok, Hx. Qed.

Lemma words_limbs m a x : m !! a = Some x -> bn_fits x -> words m (a, 0) (bn_top x) = Some (limbs x).
Proof.
  intros E (Hz & Ht & _). unfold words. simpl. rewrite E. simpl. rewrite rdn_spec by lia. done.
Qed.

Lemma rdn_limbs x k n : bn_fits x -> 0 <= k -> 0 <= n -> k + n <= bn_top x ->
  rdn (bn_d x) k n = Some (take (Z.to_nat n) (drop (Z.to_nat k) (limbs x))).
Proof.
  intros (Hz & Ht & _) Hk Hn Hkn. rewrite rdn_spec by lia.
  unfold limbs. rewrite skipn_firstn_comm, take_take, Nat.min_l by lia. done.
Qed.

Lemma eval_split l n : 0 <= n <= zlen l ->
  eval l = eval (take (Z.to_nat n) l) + B ^ n * eval (drop (Z.to_nat n) l).
Proof.
  intros Hn. rewrite <- (take_drop (Z.to_nat n) l) at 1. rewrite eval_app.
  by rewrite zlen_take by lia.
Qed.

Lemma eval_drop l n : 0 <= n <= zlen l -> words_ok l -> eval l / B ^ n = eval (drop (Z.to_nat n) l).
Proof.
  intros Hn Hl. rewrite (eval_split l n Hn).
  pose proof (eval_range (take (Z.to_nat n) l) ltac:(by apply Forall_take)) as Hr. rewrite zlen_take in Hr by lia.
  rewrite (Z.mul_comm (B ^ n)), Z.div_add by (unfold B; lia). rewrite Z.div_small by done. lia.
Qed.

(** The value decides the magnitude and the sign. *)
Lemma mag_abs x : bn_fits x -> mag x = Z.abs (value x).
Proof. intros Fx. pose proof (mag_range x Fx). unfold value. case_match; lia. Qed.

Lemma neg_value x : bn_ok x -> bn_neg x = Z.b2z (value x <? 0).
Proof.
  intros [Fx [Nx N0]]. pose proof (mag_range x Fx) as Hm. pose proof Fx as (_ & Tx & _ & [E|E]); unfold value; rewrite E; simpl.
  - by rewrite (proj2 (Z.ltb_ge _ _)) by lia.
  - assert (bn_top x <> 0) by (intros E0; rewrite N0 in E by done; done). specialize (Nx ltac:(lia)).
    pose proof (B_pos (bn_top x - 1) ltac:(lia)). by rewrite (proj2 (Z.ltb_lt _ _)) by lia.
Qed.

(** *** Growing *)

Section Spec.
Context `{Malloc} (sec : Z -> option (list Z)).

(** [z1] is [z] with more room. *)
Definition roomier (z z1 : BIGNUM) : Prop :=
  bn_fits z1 /\ limbs z1 = limbs z /\ bn_top z1 = bn_top z /\ bn_neg z1 = bn_neg z /\ bn_flags z1 = bn_flags z.

Lemma words_ok_zeros n : words_ok (replicate n 0).
Proof. apply Forall_replicate. unfold ConstantTime.word_ok. lia. Qed.

Lemma bn_expand_spec z n a : bn_fits z -> bn_dmax z < n -> bn_expand_internal sec z n = Some a ->
  roomier z (z <| bn_d := a |> <| bn_dmax := n |>).
Proof.
  intros (Hz & Ht & Hw & Hn) Hd. unfold bn_expand_internal. destruct (_ <? n); [done|].
  destruct (has_bits _ BN_FLG_STATIC_DATA); [done|]. destruct (if has_bits _ _ then _ else _) as [blk|]; [|done].
  destruct (0 <? bn_top z) eqn:Et; intros [= <-]; unfold roomier, bn_fits, limbs; simpl.
  - zify_bools. rewrite zlen_app, zlen_take, zlen_drop by (rewrite ?zlen_replicate; lia).
    rewrite zlen_replicate, take_app_le by (rewrite length_take; unfold zlen in *; lia).
    rewrite take_take, Nat.min_id. split_and!; try done; try lia.
    apply Forall_app. split; [by apply Forall_take|apply Forall_drop, words_ok_zeros].
  - zify_bools. replace (bn_top z) with 0 by lia. simpl. rewrite zlen_replicate.
    split_and!; try done; try lia. apply words_ok_zeros.
Qed.

Lemma wexpand_spec m r z n : m !! r = Some z -> bn_fits z ->
  bn_wexpand sec m r n = Some (false, m) \/
  exists z1, bn_wexpand sec m r n = Some (true, <[r := z1]> m) /\ roomier z z1 /\ n <= bn_dmax z1.
Proof.
  intros E Hz. unfold bn_wexpand, bn_expand2. rewrite E. simpl.
  destruct (Z.leb_spec n (bn_dmax z)).
  - right. exists z. rewrite insert_id by done. split; [done|]. by split.
  - rewrite (proj2 (Z.ltb_lt _ _)) by lia. destruct (bn_expand_internal sec z n) as [a|] eqn:Ea; [right|by left].
    eexists. split; [reflexivity|]. split; [by apply bn_expand_spec|simpl; lia].
Qed.

(** The words of an operand after the result has been given more room. *)
Lemma words_grown m r z z2 q w k n : m !! r = Some z -> roomier z (z2 <| bn_top := bn_top z |>) ->
  m !! q = Some w -> bn_fits w -> 0 <= k -> 0 <= n -> k + n <= bn_top w ->
  words (<[r := z2]> m) (q, k) n = Some (take (Z.to_nat n) (drop (Z.to_nat k) (limbs w))).
Proof.
  intros Er (Hf & Hl & _) Eq Hw Hk Hn Hkn. destruct (decide (q = r)) as [->|Ne].
  - assert (w = z) as -> by congruence. unfold words. simpl. rewrite lookup_insert_eq. simpl. rewrite <- Hl.
    exact (rdn_limbs _ k n Hf Hk Hn Hkn).
  - unfold words. simpl. rewrite lookup_insert_ne, Eq by done. exact (rdn_limbs _ k n Hw Hk Hn Hkn).
Qed.

Lemma words_room m r z2 k n : zlen (bn_d z2) = bn_dmax z2 -> 0 <= k -> 0 <= n -> k + n <= bn_dmax z2 ->
  exists old, words (<[r := z2]> m) (r, k) n = Some old.
Proof.
  intros. unfold words. simpl. rewrite lookup_insert_eq. simpl. rewrite rdn_spec by lia. by eexists.
Qed.

(** The number whose first words have been stored. *)
Lemma stored_number m r z2 L m5 t neg : set_words (<[r := z2]> m) (r, 0) L = Some m5 ->
  zlen (bn_d z2) = bn_dmax z2 -> words_ok (bn_d z2) -> words_ok L -> 0 <= t <= zlen L -> neg = 0 \/ neg = 1 ->
  exists d', m5 = <[r := z2 <| bn_d := d' |>]> m /\ zlen L <= bn_dmax z2 /\
    bn_fits (z2 <| bn_d := d' |> <| bn_top := t |> <| bn_neg := neg |>) /\
    limbs (z2 <| bn_d := d' |> <| bn_top := t |> <| bn_neg := neg |>) = take (Z.to_nat t) L.
Proof.
  intros (b & d' & E & Hw & ->)%set_words_lookup Hz Hok HL Ht Hn. simpl in *.
  rewrite lookup_insert_eq in E. injection E as <-. rewrite insert_insert_eq.
  pose proof (wrn_length _ _ _ _ Hw) as Hz'. unfold wrn in Hw. case_bool_decide as Hk; [|done].
  injection Hw as <-. exists (L ++ drop (length L) (bn_d z2)). simpl in *. split; [done|]. split; [lia|].
  unfold bn_fits, limbs. simpl. unfold zlen in *. split_and!; try done; try lia.
  - apply Forall_app. split; [done|by apply Forall_drop].
  - rewrite take_app_le by lia. done.
Qed.

Definition carry_word (a c : Z) : Z * Z :=
  let t2 := Z.land (a + c) BN_MASK2 in (t2, Z.land c (Z.b2z (t2 =? 0))).

Lemma carry_word_spec a b c : ConstantTime.word_ok a -> ConstantTime.word_ok b -> bit_ok c ->
  ConstantTime.word_ok (carry_word a c).1 /\ bit_ok (carry_word a c).2 /\
  (carry_word a c).1 + 1 * B * (carry_word a c).2 = 1 * a + 0 * b + 1 * c.
Proof.
  unfold carry_word, bit_ok, ConstantTime.word_ok. intros Ha _ Hc. rewrite mask2. unfold u64, B. cbv zeta. simpl fst. simpl snd.
  assert (c = 0 \/ c = 1) as [-> | ->] by lia.
  - rewrite Z.land_0_l. lia_div.
  - destruct (Z.eqb_spec ((a + 1) mod 2 ^ 64) 0) as [E|E]; [change (Z.land 1 _) with 1|change (Z.land 1 _) with 0]; lia_div.
Qed.

(** Strings of words stored one after the other at the start of a number. *)
Lemma stored_next m r L k K m1 m2 : set_words m (r, 0) L = Some m1 -> zlen L = k ->
  set_words m1 (r, k) K = Some m2 -> set_words m (r, 0) (L ++ K) = Some m2.
Proof. intros HL <- HK. rewrite <- (set_words_app _ _ _ _ _ HL). exact HK. Qed.

Lemma words_later m r L m1 q k n : set_words m (r, 0) L = Some m1 -> zlen L <= k ->
  words m1 (q, k) n = words m (q, k) n.
Proof. intros HL Hk. apply (words_set_words _ _ _ _ (q, k) n HL). right. simpl. lia. Qed.

Lemma same_follows r q k : follows (r, k) (q, k).
Proof. right. simpl. lia. Qed.

Lemma take_all {A} (l : list A) n : zlen l = n -> take (Z.to_nat n) l = l.
Proof. intros <-. unfold zlen. by rewrite Nat2Z.id, firstn_all. Qed.

(** [z'] in the place of [z] has at least its room. *)
Definition grown (z z' : BIGNUM) : Prop := bn_flags z' = bn_flags z /\ bn_dmax z <= bn_dmax z'.

Lemma wexpand_grows m r z n z1 : m !! r = Some z -> bn_wexpand sec m r n = Some (true, <[r := z1]> m) ->
  bn_dmax z <= bn_dmax z1.
Proof.
  intros E. unfold bn_wexpand, bn_expand2. rewrite E. cbn [mbind option_bind].
  destruct (Z.leb_spec n (bn_dmax z)); [|destruct (Z.ltb_spec (bn_dmax z) n); [|lia];
    destruct (bn_expand_internal sec z n); [|done]].
  all: intros [= Em]; apply (f_equal (lookup r)) in Em; rewrite lookup_insert_eq in Em.
  - rewrite E in Em. by injection Em as <-.
  - rewrite lookup_insert_eq in Em. injection Em as <-. simpl. lia.
Qed.

(** The number that an addition leaves in the place of [z]. *)
Definition sum_in (z : BIGNUM) (n : Z) (t : Z) (z' : BIGNUM) : Prop :=
  bn_fits z' /\ bn_neg z' = 0 /\ grown z z' /\ mag z' = t /\
  (bn_top z' = n \/ bn_top z' = n + 1 /\ B ^ n <= t).

(** The words of both operands first, then the remaining words of the longer one:
    addition with [s = 1] and subtraction with [s = -1]. *)
Section Phases.
Context (low : heap -> ptr -> ptr -> ptr -> Z -> option (Z * heap)) (step : ptr -> ptr -> Z -> Z * heap -> option (Z * heap)).
Context (f : Z -> Z -> Z * Z) (s : Z).
Context (Hlow : forall m rp ap bp num l k old, follows rp ap -> follows rp bp ->
  words m ap num = Some l -> words m bp num = Some k -> words m rp num = Some old -> words_ok l -> words_ok k ->
  exists R c m', low m rp ap bp num = Some (c, m') /\ set_words m rp R = Some m' /\ zlen R = num /\
    words_ok R /\ bit_ok c /\ eval R + s * B ^ num * c = eval l + s * eval k).
Context (Hstep : forall rp ap i st, step rp ap i st = word_step (fun a _ c => f a c) rp ap ap i st).
Context (Hf : forall a b c, ConstantTime.word_ok a -> ConstantTime.word_ok b -> bit_ok c ->
  ConstantTime.word_ok (f a c).1 /\ bit_ok (f a c).2 /\ (f a c).1 + s * B * (f a c).2 = 1 * a + 0 * b + s * c).

Lemma phases_spec m r a b z z2 x y : m !! a = Some x -> m !! b = Some y -> m !! r = Some z ->
  bn_fits x -> bn_fits y -> bn_top y <= bn_top x ->
  roomier z (z2 <| bn_top := bn_top z |>) -> bn_top x <= bn_dmax z2 ->
  exists L c m', (low (<[r := z2]> m) (r, 0) (a, 0) (b, 0) (bn_top y) ≫= fun '(c, m) =>
      iterate (step (r, bn_top y) (a, bn_top y)) (Z.to_nat (bn_top x - bn_top y)) 0 (c, m)) = Some (c, m') /\
    set_words (<[r := z2]> m) (r, 0) L = Some m' /\ zlen L = bn_top x /\ words_ok L /\ bit_ok c /\
    eval L + s * B ^ bn_top x * c = mag x + s * mag y.
Proof using Hlow Hstep Hf.
  intros Ea Eb Er Hx Hy Hge Hr Hdr.
  pose proof (zlen_limbs x Hx) as Zx. pose proof (zlen_limbs y Hy) as Zy. pose proof (zlen_nonneg (limbs y)) as Py.
  assert (Hd : zlen (bn_d z2) = bn_dmax z2) by (destruct Hr as ((? & _) & _); done).
  pose proof (words_grown m r z z2 a x 0 (bn_top y) Er Hr Ea Hx ltac:(lia) ltac:(lia) ltac:(lia)) as W1.
  pose proof (words_grown m r z z2 b y 0 (bn_top y) Er Hr Eb Hy ltac:(lia) ltac:(lia) ltac:(lia)) as W2.
  pose proof (words_grown m r z z2 a x (bn_top y) (bn_top x - bn_top y) Er Hr Ea Hx ltac:(lia) ltac:(lia) ltac:(lia)) as W3.
  change (drop (Z.to_nat 0)) with (@drop Z 0) in *. rewrite drop_0 in W1, W2.
  rewrite (take_all (limbs y)) in W2 by done.
  rewrite (take_all (drop _ _)) in W3 by (rewrite zlen_drop; lia).
  destruct (words_room m r z2 0 (bn_top y) Hd) as [o1 O1]; [lia..|].
  destruct (words_room m r z2 (bn_top y) (bn_top x - bn_top y) Hd) as [o2 O2]; [lia..|].
  destruct (Hlow _ (r, 0) (a, 0) (b, 0) (bn_top y) _ _ _ (same_follows _ _ _) (same_follows _ _ _) W1 W2 O1
              ltac:(apply Forall_take, limbs_ok, Hx) (limbs_ok y Hy))
    as (R & c & m3 & -> & HR & ZR & OR & Hc & ER). simpl.
  rewrite <- (words_later _ _ _ _ a (bn_top y) _ HR ltac:(lia)) in W3.
  rewrite <- (words_later _ _ _ _ r (bn_top y) _ HR ltac:(lia)) in O2.
  destruct (linear_iterate (step (r, bn_top y) (a, bn_top y)) (fun a _ c => f a c)
              (r, bn_top y) (a, bn_top y) (a, bn_top y) bit_ok s 1 0 (Hstep _ _) Hf
              (same_follows _ _ _) (same_follows _ _ _) m3 (bn_top x - bn_top y) _ _ _ W3 W3 O2
              ltac:(apply Forall_drop, limbs_ok, Hx) ltac:(apply Forall_drop, limbs_ok, Hx) c Hc)
    as (T & c' & m4 & HT' & HT & ZT & OT & Hc' & ET).
  exists (R ++ T), c', m4. split; [done|]. split; [exact (stored_next _ _ _ _ _ _ _ HR ZR HT)|].
  split; [rewrite zlen_app; lia|]. split; [by apply Forall_app|]. split; [done|].
  rewrite eval_app, ZR. unfold mag. rewrite (eval_split (limbs x) (bn_top y)) by lia.
  replace (bn_top x) with (bn_top y + (bn_top x - bn_top y)) at 1 by lia. rewrite Z.pow_add_r by lia. nia.
Qed.
End Phases.

(** Storing the carry after the sum. *)
Lemma store_carry m r z2 L m4 c : set_words (<[r := z2]> m) (r, 0) L = Some m4 -> bit_ok c ->
  zlen (bn_d z2) = bn_dmax z2 -> zlen L + 1 <= bn_dmax z2 ->
  exists m5, set_words m4 (r, zlen L) [c] = Some m5 /\ set_words (<[r := z2]> m) (r, 0) (L ++ [c]) = Some m5.
Proof.
  intros HL Hc Hd Hdr. pose proof (zlen_nonneg L).
  destruct (words_room m r z2 (zlen L) 1 Hd) as [old O]; [lia..|].
  rewrite <- (words_later _ _ _ _ r (zlen L) _ HL ltac:(lia)) in O.
  destruct (set_words_some _ _ _ _ [c] O eq_refl) as (m5 & H5). exists m5. split; [done|].
  exact (stored_next _ _ _ _ _ _ _ HL eq_refl H5).
Qed.

Lemma sum_value L c n t : zlen L = n -> bit_ok c -> words_ok L -> eval L + B ^ n * c = t ->
  eval (take (Z.to_nat (n + c)) (L ++ [c])) = t /\ (n + c = n \/ n + c = n + 1 /\ B ^ n <= t).
Proof.
  intros <- Hc HL <-. pose proof (zlen_nonneg L). pose proof (eval_range L HL).
  assert (c = 0 \/ c = 1) as [-> | ->] by (unfold bit_ok in Hc; lia).
  - rewrite Z.add_0_r, take_app_le, take_all by len_lia. split; [lia|by left].
  - rewrite take_all, eval_app by len_lia. simpl. split; [lia|right]. split; [done|lia].
Qed.

Lemma uadd_ge m r a b x y z : m !! a = Some x -> m !! b = Some y -> m !! r = Some z ->
  bn_fits x -> bn_fits y -> bn_fits z -> bn_top y <= bn_top x ->
  (bn_wexpand sec m r (bn_top x + 1) = Some (false, m) /\ BN_uadd sec m r a b = Some (0, m)) \/
  exists z', BN_uadd sec m r a b = Some (1, <[r := z']> m) /\ sum_in z (bn_top x) (mag x + mag y) z'.
Proof.
  intros Ea Eb Er Hx Hy Hz Hge. unfold BN_uadd. rewrite Ea, Eb. simpl.
  rewrite (proj2 (Z.ltb_ge _ _)) by lia. rewrite Ea, Eb. simpl.
  destruct (wexpand_spec m r z (bn_top x + 1) Er Hz) as [->|(z1 & Ew & Hz1 & Hroom)]; [by left|right].
  pose proof (wexpand_grows _ _ _ _ _ Er Ew) as Hg. rewrite Ew. simpl.
  unfold bn_set. rewrite lookup_insert_eq. simpl. rewrite insert_insert_eq.
  match goal with |- context [<[r := ?zz]> m] => set (z2 := zz) end.
  assert (Hr : roomier z (z2 <| bn_top := bn_top z |>)).
  { destruct Hz1 as (? & ? & E & ?). rewrite <- E. unfold z2. by destruct z1. }
  destruct Hz1 as ((Hd & _ & Hdo & _) & _).
  destruct (phases_spec bn_add_words carry_step carry_word 1 ltac:(intros; setoid_rewrite Z.mul_1_l; by eapply add_words_spec)
              ltac:(intros ? ? i [c' m']; unfold carry_step, word_step; by destruct (ldw m' _ i)) carry_word_spec
              m r a b z z2 x y Ea Eb Er Hx Hy Hge Hr ltac:(simpl; lia)) as (L & c & m4 & Hrun & HL & ZL & OL & Hc & EL).
  destruct (bn_add_words _ _ _ _ _) as [[c0 m3]|]; [|done]. simpl in Hrun |- *. rewrite Hrun. simpl.
  rewrite stw_set_words. unfold padd. simpl. replace (bn_top y + (bn_top x - bn_top y)) with (zlen L) by lia.
  destruct (store_carry m r z2 L m4 c HL Hc Hd) as (m5 & -> & H5); [simpl; lia|]. simpl.
  destruct (stored_number m r z2 _ m5 (bn_top x + c) 0 H5 Hd Hdo) as (d' & -> & _ & Hf & Hlim);
    [apply Forall_app; split; [done|]; constructor; [unfold bit_ok in Hc; unfold ConstantTime.word_ok; lia|done]
    |unfold bit_ok in Hc; len_lia|by left|].
  set (z' := z2 <| bn_d := d' |> <| bn_top := bn_top x + c |> <| bn_neg := 0 |>) in *.
  exists z'. split; [rewrite lookup_insert_eq; simpl; by rewrite insert_insert_eq|].
  unfold sum_in. split; [exact Hf|]. split; [done|]. split; [split; [apply Hr|exact Hg]|]. unfold mag at 1. rewrite Hlim.
  apply sum_value; [done..|lia].
Qed.

Lemma uadd_spec m r a b x y z : m !! a = Some x -> m !! b = Some y -> m !! r = Some z ->
  bn_fits x -> bn_fits y -> bn_fits z ->
  (bn_wexpand sec m r (Z.max (bn_top x) (bn_top y) + 1) = Some (false, m) /\ BN_uadd sec m r a b = Some (0, m)) \/
  exists z', BN_uadd sec m r a b = Some (1, <[r := z']> m) /\
    sum_in z (Z.max (bn_top x) (bn_top y)) (mag x + mag y) z'.
Proof.
  intros Ea Eb Er Hx Hy Hz. destruct (Z.leb_spec (bn_top y) (bn_top x)) as [Hge|Hlt].
  - rewrite Z.max_l by lia. by apply uadd_ge.
  - rewrite Z.max_r by lia. rewrite (Z.add_comm (mag x)).
    assert (BN_uadd sec m r a b = BN_uadd sec m r b a) as ->; [|by apply uadd_ge; try done; lia].
    unfold BN_uadd. rewrite Ea, Eb. simpl.
    by rewrite (proj2 (Z.ltb_lt (bn_top x) (bn_top y))), (proj2 (Z.ltb_ge (bn_top y) (bn_top x))) by lia.
Qed.

Lemma top_loop_spec d : words_ok d -> forall n, (n <= length d)%nat ->
  exists t, top_loop d n = Some t /\ 0 <= t <= Z.of_nat n /\
    eval (take (Z.to_nat t) d) = eval (take n d) /\ (0 < t -> B ^ (t - 1) <= eval (take n d)).
Proof.
  intros Hd n. induction n as [|n IH]; intros Hn.
  { exists 0. split_and!; try done; lia. }
  destruct (rd_in d (Z.of_nat n)) as [w Hw]; [unfold zlen; lia|]. cbn [top_loop]. rewrite Hw. simpl.
  assert (Hl : d !! n = Some w).
  { unfold rd in Hw. case_match; [lia|]. by rewrite Nat2Z.id in Hw. }
  assert (Ht : take (S n) d = take n d ++ [w]) by (by apply take_S_r).
  assert (Hwo : ConstantTime.word_ok w) by (eapply Forall_lookup_1; eassumption).
  assert (He : eval (take (S n) d) = eval (take n d) + B ^ Z.of_nat n * w).
  { rewrite Ht, eval_app. unfold zlen. rewrite length_take, Nat.min_l by lia. simpl. lia. }
  destruct (Z.eqb_spec w 0) as [->|Hne]; simpl.
  - destruct (IH ltac:(lia)) as (t & -> & ? & E & ?). exists t. rewrite He, Z.mul_0_r, Z.add_0_r.
    split_and!; try done; lia.
  - exists (Z.of_nat (S n)). rewrite Nat2Z.id. split_and!; try done; try lia. intros _.
    rewrite He. replace (Z.of_nat (S n) - 1) with (Z.of_nat n) by lia.
    assert (0 <= eval (take n d)) by (apply eval_range; by apply Forall_take).
    pose proof (B_pos (Z.of_nat n) ltac:(lia)). unfold ConstantTime.word_ok in Hwo. nia.
Qed.

(** The number that a subtraction leaves in the place of [z]. *)
Definition difference_in (z : BIGNUM) (t : Z) (z' : BIGNUM) : Prop :=
  bn_fits z' /\ bn_neg z' = 0 /\ grown z z' /\ mag z' = t /\ normal z'.

Definition borrow_word (a c : Z) : Z * Z := (Z.land (a - c) BN_MASK2, Z.land c (Z.b2z (a =? 0))).

Lemma borrow_word_spec a b c : ConstantTime.word_ok a -> ConstantTime.word_ok b -> bit_ok c ->
  ConstantTime.word_ok (borrow_word a c).1 /\ bit_ok (borrow_word a c).2 /\
  (borrow_word a c).1 + -1 * B * (borrow_word a c).2 = 1 * a + 0 * b + -1 * c.
Proof.
  unfold borrow_word, bit_ok, ConstantTime.word_ok. intros Ha _ Hc. rewrite mask2. unfold u64, B. simpl fst. simpl snd.
  assert (c = 0 \/ c = 1) as [-> | ->] by lia.
  - rewrite Z.land_0_l. lia_div.
  - destruct (Z.eqb_spec a 0) as [E|E]; [change (Z.land 1 _) with 1|change (Z.land 1 _) with 0]; lia_div.
Qed.

Lemma sub_words_linear m rp ap bp num l k old : follows rp ap -> follows rp bp ->
  words m ap num = Some l -> words m bp num = Some k -> words m rp num = Some old -> words_ok l -> words_ok k ->
  exists R c m', bn_sub_words m rp ap bp num = Some (c, m') /\ set_words m rp R = Some m' /\ zlen R = num /\
    words_ok R /\ bit_ok c /\ eval R + -1 * B ^ num * c = eval l + -1 * eval k.
Proof.
  intros Fa Fb Hl Hk Ho Hlo Hko.
  destruct (sub_words_spec m rp ap bp num l k old Fa Fb Hl Hk Ho Hlo Hko) as (R & c & m' & ? & ? & ? & ? & ? & ?).
  exists R, c, m'. split_and!; try done. lia.
Qed.

Lemma usub_spec m r a b x y z : m !! a = Some x -> m !! b = Some y -> m !! r = Some z ->
  bn_fits x -> bn_fits y -> bn_fits z -> bn_top y <= bn_top x -> mag y <= mag x ->
  (bn_wexpand sec m r (bn_top x) = Some (false, m) /\ BN_usub sec m r a b = Some (0, m)) \/
  exists z', BN_usub sec m r a b = Some (1, <[r := z']> m) /\ difference_in z (mag x - mag y) z'.
Proof.
  intros Ea Eb Er Hx Hy Hz Hge Hle. unfold BN_usub. rewrite Ea, Eb. simpl.
  rewrite (proj2 (Z.ltb_ge _ _)) by lia.
  destruct (wexpand_spec m r z (bn_top x) Er Hz) as [->|(z2 & Ew & Hz1 & Hroom)]; [by left|right].
  pose proof (wexpand_grows _ _ _ _ _ Er Ew) as Hg. rewrite Ew. simpl.
  assert (Hr : roomier z (z2 <| bn_top := bn_top z |>)).
  { pose proof Hz1 as (? & ? & E & ?). rewrite <- E. by destruct z2. }
  destruct Hz1 as ((Hd & _ & Hdo & _) & _).
  destruct (phases_spec bn_sub_words borrow_step borrow_word (-1)
              sub_words_linear
              ltac:(intros ? ? i [c' m']; unfold borrow_step, word_step; by destruct (ldw m' _ i)) borrow_word_spec
              m r a b z z2 x y Ea Eb Er Hx Hy Hge Hr ltac:(lia)) as (L & c & m4 & Hrun & HL & ZL & OL & Hc & EL).
  destruct (bn_sub_words _ _ _ _ _) as [[c0 m3]|]; [|done]. simpl in Hrun |- *. rewrite Hrun. simpl.
  pose proof (zlen_nonneg L) as PL.
  assert (E : eval L = mag x - mag y).
  { pose proof (eval_range L OL) as Hv. rewrite ZL in Hv.
    unfold bit_ok in Hc. assert (c = 0 \/ c = 1) as [-> | ->] by lia; lia. }
  destruct (stored_number m r z2 L m4 (bn_top x) 0 HL Hd Hdo OL) as (d' & -> & _ & Hf & Hlim); [lia|by left|].
  rewrite lookup_insert_eq. simpl. destruct Hf as (Hz' & Ht' & Ho' & _). simpl in *.
  destruct (top_loop_spec d' Ho' (Z.to_nat (bn_top x))) as (t & -> & Ht & Hev & Hn); [unfold zlen in *; lia|].
  simpl. unfold bn_set. rewrite lookup_insert_eq. simpl. rewrite insert_insert_eq.
  eexists. split; [reflexivity|]. unfold limbs in Hlim. simpl in Hlim.
  rewrite (take_all L) in Hlim by done. rewrite Hlim, E in Hev, Hn.
  unfold difference_in, grown, bn_fits, normal, mag, limbs. simpl.
  split_and!; try done; try lia. apply Hr.
Qed.

(** *** Comparing *)

Lemma take_word d n w : rd d (Z.of_nat n) = Some w ->
  eval (take (S n) d) = eval (take n d) + B ^ Z.of_nat n * w.
Proof.
  unfold rd. case_match; [lia|]. rewrite Nat2Z.id. intros Hl.
  pose proof (lookup_lt_Some _ _ _ Hl). rewrite (take_S_r _ _ w) by done. rewrite eval_app. unfold zlen.
  rewrite length_take, Nat.min_l by lia. simpl. lia.
Qed.

Lemma ucmp_loop_spec d e : words_ok d -> words_ok e -> forall n, (n <= length d)%nat -> (n <= length e)%nat ->
  exists c, ucmp_loop d e n = Some c /\ Z.sgn c = Z.sgn (eval (take n d) - eval (take n e)).
Proof.
  intros Hd He n. induction n as [|n IH]; intros Hn Hn'; [by exists 0|].
  destruct (rd_in d (Z.of_nat n)) as [u Hu]; [unfold zlen; lia|].
  destruct (rd_in e (Z.of_nat n)) as [v Hv]; [unfold zlen; lia|].
  cbn [ucmp_loop]. rewrite Hu, Hv. simpl. rewrite (take_word _ _ _ Hu), (take_word _ _ _ Hv).
  pose proof (eval_range (take n d) ltac:(by apply Forall_take)) as Rd.
  pose proof (eval_range (take n e) ltac:(by apply Forall_take)) as Re.
  assert (Zt : forall l : list Z, (n <= length l)%nat -> zlen (take n l) = Z.of_nat n)
    by (intros; unfold zlen; rewrite length_take; lia).
  rewrite Zt in Rd, Re by lia. pose proof (B_pos (Z.of_nat n) ltac:(lia)).
  destruct (Z.eqb_spec u v) as [->|Hne]; simpl.
  - destruct (IH ltac:(lia) ltac:(lia)) as (c & -> & E). exists c. split; [done|]. rewrite E. f_equal. lia.
  - eexists. split; [reflexivity|]. destruct (Z.ltb_spec v u).
    + rewrite (Z.sgn_pos (_ - _)) by nia. done.
    + rewrite (Z.sgn_neg (_ - _)) by nia. done.
Qed.

Lemma normal_top x y : bn_ok x -> bn_ok y -> bn_top x < bn_top y -> mag x < mag y.
Proof.
  intros [Hx _] [Hy [Hn _]] Hlt. pose proof (mag_range x Hx). destruct Hx as (_ & Ht & _).
  specialize (Hn ltac:(lia)). assert (B ^ bn_top x <= B ^ (bn_top y - 1)); [|lia].
  apply Z.pow_le_mono_r; unfold B; lia.
Qed.

Lemma ucmp_spec m a b x y : m !! a = Some x -> m !! b = Some y -> bn_ok x -> bn_ok y ->
  exists c, BN_ucmp m a b = Some c /\ Z.sgn c = Z.sgn (mag x - mag y).
Proof.
  intros Ea Eb Hx Hy. unfold BN_ucmp. rewrite Ea, Eb. simpl.
  destruct (Z.eqb_spec (bn_top x - bn_top y) 0) as [E|E]; simpl.
  - destruct Hx as [(Zx & Tx & Ox & _) _], Hy as [(Zy & Ty & Oy & _) _].
    destruct (ucmp_loop_spec (bn_d x) (bn_d y) Ox Oy (Z.to_nat (bn_top x))) as (c & -> & Ec);
      [unfold zlen in *; lia..|]. exists c. split; [done|]. rewrite Ec. unfold mag, limbs. do 3 f_equal. f_equal. lia.
  - eexists. split; [reflexivity|]. destruct (Z.lt_total (bn_top x) (bn_top y)) as [L|[L|L]]; [|lia|].
    + pose proof (normal_top x y Hx Hy L). rewrite !Z.sgn_neg by lia. done.
    + pose proof (normal_top y x Hy Hx L). rewrite !Z.sgn_pos by lia. done.
Qed.

(** *** Signed addition and subtraction *)

(** A block of at most [size] words is not to be had for [r]. *)
Definition refused (m : heap) (r : nat) (size : Z) : Prop :=
  exists n, n <= size /\ bn_wexpand sec m r n = Some (false, m).

(** The result: [v] in the place of [z], or failure to get a block of [size] words; then
    nothing but the sign of the result has changed. *)
Definition outcome (m : heap) (r : nat) (z : BIGNUM) (size v : Z) (res : option (Z * heap)) : Prop :=
  exists ret z', res = Some (ret, <[r := z']> m) /\
    (ret = 1 /\ bn_ok z' /\ grown z z' /\ value z' = v \/
     ret = 0 /\ refused m r size /\ z' = z <| bn_neg := bn_neg z' |>).

Definition signed (neg v : Z) : Z := if neg =? 0 then v else - v.

Lemma with_neg_insert m r z ret neg :
  with_neg (Some (ret, <[r := z]> m)) r neg = Some (ret, <[r := z <| bn_neg := neg |>]> m).
Proof. unfold with_neg, bn_set. simpl. rewrite lookup_insert_eq. simpl. by rewrite insert_insert_eq. Qed.

Lemma fits_neg z neg : bn_fits z -> neg = 0 \/ neg = 1 -> bn_fits (z <| bn_neg := neg |>).
Proof. unfold bn_fits. simpl. tauto. Qed.

(** It depends on the room there is, and not on what the numbers hold. *)
Lemma refused_less m m' r x y size : m !! r = Some x -> m' !! r = Some y -> bn_dmax x <= bn_dmax y -> bn_flags y = bn_flags x ->
  refused m' r size -> refused m r size.
Proof.
  intros Er Er' Hd Hf (n & Hn & Hw). exists n. split; [exact Hn|]. revert Hw.
  unfold bn_wexpand, bn_expand2, bn_expand_internal. rewrite Er, Er'. cbn [mbind option_bind]. rewrite Hf.
  destruct (Z.leb_spec n (bn_dmax y)) as [|Hy]; [done|]. rewrite (proj2 (Z.leb_gt _ _)) by lia.
  rewrite (proj2 (Z.ltb_lt (bn_dmax y) n)), (proj2 (Z.ltb_lt (bn_dmax x) n)) by lia.
  destruct (INT_MAX / (4 * BN_BITS2) <? n); [done|]. destruct (has_bits (bn_flags x) BN_FLG_STATIC_DATA); [done|].
  destruct (if has_bits (bn_flags x) BN_FLG_SECURE then _ else _); [|done]. by destruct (0 <? bn_top y).
Qed.

Lemma refused_same m r x y size : m !! r = Some x -> bn_dmax y = bn_dmax x -> bn_flags y = bn_flags x ->
  refused (<[r := y]> m) r size -> refused m r size.
Proof.
  intros Er Hd Hf. apply (refused_less _ _ _ x y); [done|apply lookup_insert_eq|lia|done].
Qed.

Lemma refused_le m r n k : n <= k -> refused m r n -> refused m r k.
Proof. intros Hk (i & Hi & Hw). exists i. split; [lia|done]. Qed.

Lemma no_memory m r z v n size neg : m !! r = Some z -> bn_wexpand sec m r n = Some (false, m) -> n <= size ->
  outcome m r z size v (with_neg (Some (0, m)) r neg).
Proof.
  intros Er Hn Hs. rewrite <- (insert_id m r z Er) at 2. rewrite with_neg_insert.
  eexists _, _. split; [reflexivity|]. right. split; [done|]. split; [by exists n|]. done.
Qed.

Lemma add_magnitudes m r a b x y z neg : m !! a = Some x -> m !! b = Some y -> m !! r = Some z ->
  bn_ok x -> bn_ok y -> bn_fits z -> neg = 0 \/ neg = 1 -> (bn_top x = 0 -> bn_top y = 0 -> neg = 0) ->
  outcome m r z (Z.max (bn_top x) (bn_top y) + 1) (signed neg (mag x + mag y)) (with_neg (BN_uadd sec m r a b) r neg).
Proof.
  intros Ea Eb Er [Hx Nx] [Hy Ny] Hz Hneg H0.
  destruct (uadd_spec m r a b x y z Ea Eb Er Hx Hy Hz) as [[Hn ->]|(z' & -> & Hf & _ & Hfl & Hm & Ht)];
    [eapply no_memory; [done..|lia]|].
  rewrite with_neg_insert. eexists _, _. split; [reflexivity|]. left. split; [done|].
  destruct Nx as [Nx _], Ny as [Ny _]. pose proof Hx as (_ & Tx & _). pose proof Hy as (_ & Ty & _).
  pose proof (mag_range x Hx). pose proof (mag_range y Hy).
  split; [|split; [done|]; rewrite <- Hm; reflexivity].
  split; [by apply fits_neg|]. unfold normal. change (mag (z' <| bn_neg := neg |>)) with (mag z'). simpl.
  rewrite Hm. clear Hm. destruct (Z.max_spec (bn_top x) (bn_top y)) as [[Hmax E]|[Hmax E]]; rewrite E in Ht; clear E.
  all: split; [intros Hp|intros Hz0; apply H0; destruct Ht as [Ht|[Ht _]]; clear - Ht Hz0 Tx Ty Hmax; lia].
  all: destruct Ht as [E|[E Ht]]; rewrite E in *; [|by rewrite Z.add_simpl_r].
  - specialize (Ny Hp). lia.
  - specialize (Nx Hp). lia.
Qed.

Lemma sub_magnitudes m r a b x y z neg : m !! a = Some x -> m !! b = Some y -> m !! r = Some z ->
  bn_ok x -> bn_ok y -> bn_fits z -> neg = 0 \/ neg = 1 -> mag y < mag x ->
  outcome m r z (Z.max (bn_top x) (bn_top y) + 1) (signed neg (mag x - mag y)) (with_neg (BN_usub sec m r a b) r neg).
Proof.
  intros Ea Eb Er Hx Hy Hz Hneg Hlt.
  assert (bn_top y <= bn_top x).
  { destruct (Z.leb_spec (bn_top y) (bn_top x)); [done|]. pose proof (normal_top x y Hx Hy ltac:(lia)). lia. }
  destruct Hx as [Hx _], Hy as [Hy _].
  destruct (usub_spec m r a b x y z Ea Eb Er Hx Hy Hz) as [[Hn ->]|(z' & -> & Hf & _ & Hfl & Hm & [Hn _])];
    [done|lia|eapply no_memory; [done..|lia]|].
  rewrite with_neg_insert. eexists _, _. split; [reflexivity|]. left. split; [done|].
  split; [|split; [done|]; rewrite <- Hm; reflexivity].
  split; [by apply fits_neg|]. unfold normal. change (mag (z' <| bn_neg := neg |>)) with (mag z'). simpl.
  split; [done|]. intros Ht. pose proof (mag_range z' Hf) as Hr. rewrite Ht in Hr. change (B ^ 0) with 1 in Hr. lia.
Qed.

Lemma zero_outcome m r z size : m !! r = Some z -> bn_fits z ->
  outcome m r z size 0 (with_neg (m ← BN_zero m r; Some (1, m)) r 0).
Proof.
  intros Er (Hz & Ht & Ho & _). unfold BN_zero, bn_set. rewrite Er. cbn -[with_neg]. rewrite with_neg_insert.
  eexists _, _. split; [reflexivity|]. left. split; [done|]. unfold bn_ok, bn_fits, normal, grown. simpl.
  rewrite Z.land_m1_r. split_and!; try done; lia.
Qed.

Lemma outcome_value m r z size v w res : v = w -> outcome m r z size v res -> outcome m r z size w res.
Proof. by intros ->. Qed.

(** The three cases of a comparison. *)
Lemma ucmp_cases m r a b x y z v sx sy : m !! a = Some x -> m !! b = Some y -> m !! r = Some z ->
  bn_ok x -> bn_ok y -> bn_fits z -> sx = 0 \/ sx = 1 -> sy = 0 \/ sy = 1 ->
  (mag y < mag x -> v = signed sx (mag x - mag y)) -> (mag x < mag y -> v = signed sy (mag y - mag x)) ->
  (mag x = mag y -> v = 0) ->
  outcome m r z (Z.max (bn_top x) (bn_top y) + 1) v
    (cmp_res ← BN_ucmp m a b;
     if 0 <? cmp_res then with_neg (BN_usub sec m r a b) r sx
     else if cmp_res <? 0 then with_neg (BN_usub sec m r b a) r sy
     else with_neg (m ← BN_zero m r; Some (1, m)) r 0).
Proof.
  intros Ea Eb Er Hx Hy Hz Hsx Hsy V1 V2 V3.
  destruct (ucmp_spec m a b x y Ea Eb Hx Hy) as (c & -> & Hc). cbn [mbind option_bind].
  destruct (Z.ltb_spec 0 c); [|destruct (Z.ltb_spec c 0)].
  - rewrite Z.sgn_pos in Hc by done. assert (mag y < mag x) by lia.
    eapply outcome_value; [symmetry; by apply V1|]. by apply (sub_magnitudes m r a b x y z).
  - rewrite Z.sgn_neg in Hc by done. assert (mag x < mag y) by lia.
    eapply outcome_value; [symmetry; by apply V2|]. rewrite Z.max_comm. by apply (sub_magnitudes m r b a y x z).
  - replace c with 0 in Hc by lia. assert (mag x = mag y) by (simpl in Hc; lia).
    rewrite V3 by done. by apply zero_outcome.
Qed.

Lemma signs x : bn_ok x -> bn_neg x = 0 \/ bn_neg x = 1.
Proof. intros [(_ & _ & _ & Hn) _]. done. Qed.

Lemma add_sub_spec m r a b x y z : m !! a = Some x -> m !! b = Some y -> m !! r = Some z ->
  bn_ok x -> bn_ok y -> bn_ok z ->
  outcome m r z (Z.max (bn_top x) (bn_top y) + 1) (value x + value y) (BN_add sec m r a b) /\
  outcome m r z (Z.max (bn_top x) (bn_top y) + 1) (value x - value y) (BN_sub sec m r a b).
Proof.
  intros Ea Eb Er Hx Hy [Hz _]. pose proof (signs x Hx) as Sx. pose proof (signs y Hy) as Sy.
  unfold BN_add, BN_sub, value. rewrite Ea, Eb. cbn [mbind option_bind].
  pose proof Hx as [_ [_ Nx]]. pose proof Hy as [_ [_ Ny]].
  split; destruct (Z.eqb_spec (bn_neg x) (bn_neg y)) as [E|E]; cbn [negb].
  - rewrite <- E. eapply outcome_value; [|apply (add_magnitudes m r a b x y z); try done; tauto].
    unfold signed. destruct (bn_neg x =? 0); lia.
  - apply (ucmp_cases m r a b x y z); try done; unfold signed; intros; repeat case_match; lia.
  - apply (ucmp_cases m r a b x y z); try done; [destruct Sy as [-> | ->]; simpl; tauto|..].
    all: rewrite <- E in *; unfold signed; intros; destruct Sx as [-> | ->]; simpl; lia.
  - eapply outcome_value; [|apply (add_magnitudes m r a b x y z); try done; tauto].
    unfold signed. destruct Sx as [S|S], Sy as [S'|S']; rewrite S, S' in *; simpl; lia.
Qed.

(** C33: [BN_add] and [BN_sub] add and subtract signed numbers, whichever of their three
    arguments are the same number: they return 1 and leave the exact sum or difference,
    normalised, or the result cannot get the memory it needs (at most one word more than
    the longer operand), and they return 0 and keep its magnitude. *)
Theorem BN_add_sub_correct m r a b x y z : m !! a = Some x -> m !! b = Some y -> m !! r = Some z ->
  bn_ok x -> bn_ok y -> bn_ok z ->
  outcome m r z (Z.max (bn_top x) (bn_top y) + 1) (value x + value y) (BN_add sec m r a b) /\
  outcome m r z (Z.max (bn_top x) (bn_top y) + 1) (value x - value y) (BN_sub sec m r a b).
Proof. intros. by apply add_sub_spec. Qed.

(** *** Copying and normalising *)

Lemma correct_top_spec m a x : m !! a = Some x -> bn_fits x ->
  exists x', bn_correct_top m a = Some (<[a := x']> m) /\ bn_ok x' /\ mag x' = mag x /\ bn_dmax x' = bn_dmax x /\
    bn_flags x' = bn_flags x /\ bn_neg x' = (if mag x =? 0 then 0 else bn_neg x).
Proof.
  intros E (Hz & Ht & Ho & Hn). unfold bn_correct_top, bn_set. rewrite E. simpl.
  assert (exists t, (if 0 <? bn_top x then top_loop (bn_d x) (Z.to_nat (bn_top x)) else Some (bn_top x)) = Some t /\
    0 <= t <= bn_top x /\ eval (take (Z.to_nat t) (bn_d x)) = mag x /\ (0 < t -> B ^ (t - 1) <= mag x))
    as (t & -> & Ht' & Hev & Hnorm).
  { destruct (Z.ltb_spec 0 (bn_top x)); [|exists (bn_top x); split_and!; try done; lia].
    destruct (top_loop_spec (bn_d x) Ho (Z.to_nat (bn_top x))) as (t & Hr & ? & He & Hp); [unfold zlen in *; lia|].
    exists t. split; [done|]. split; [lia|]. by split. }
  set (x' := x <| bn_top := t |> <| bn_neg := if t =? 0 then 0 else bn_neg x |>
               <| bn_flags := Z.land (bn_flags x) (Z.lnot BN_FLG_FIXED_TOP) |>).
  exists x'. split; [done|]. assert (Em : mag x' = mag x) by (rewrite <- Hev; done).
  split; [|split; [exact Em|]].
  - unfold bn_ok, bn_fits, normal. rewrite Em. simpl. split_and!; try done; try lia; [by case_match; [left|]|].
    intros ->. done.
  - split; [done|]. split; [apply Z.land_m1_r|]. simpl. destruct (Z.eqb_spec t 0) as [->|Hne].
    + simpl in Hev. by rewrite <- Hev.
    + pose proof (B_pos (t - 1) ltac:(lia)). specialize (Hnorm ltac:(lia)).
      by rewrite (proj2 (Z.eqb_neq _ _)) by lia.
Qed.

(** Dropping leading zeros and the sign of zero does not change the value. *)
Lemma value_corrected x x' : mag x' = mag x -> bn_neg x' = (if mag x =? 0 then 0 else bn_neg x) -> value x' = value x.
Proof. intros Hm Hn. unfold value. rewrite Hm, Hn. destruct (Z.eqb_spec (mag x) 0) as [->|]; [by destruct (bn_neg x =? 0)|done]. Qed.

(** [z'] is a copy of [x] in the place of [z]. *)
Definition copied (x z' : BIGNUM) : Prop :=
  bn_fits z' /\ limbs z' = limbs x /\ bn_top z' = bn_top x /\ bn_neg z' = bn_neg x.

Lemma copy_spec m t a z x : t <> a -> m !! t = Some z -> m !! a = Some x -> bn_fits z -> bn_fits x ->
  BN_copy sec m t a = Some (false, m) /\ bn_dmax z < bn_top x /\ refused m t (bn_top x) \/
  exists z', BN_copy sec m t a = Some (true, <[t := z']> m) /\ copied x z' /\ bn_dmax z <= bn_dmax z' /\ bn_flags z' = bn_flags z.
Proof.
  intros Hne Ez Ex Fz Fx. unfold BN_copy. rewrite decide_False, Ex by done. simpl.
  destruct (wexpand_spec m t z (bn_top x) Ez Fz) as [E|(z1 & E & R1 & D1)].
  - rewrite E. left. split; [done|]. split; [|by exists (bn_top x)]. unfold bn_wexpand in E. rewrite Ez in E. simpl in E.
    destruct (Z.leb_spec (bn_top x) (bn_dmax z)); [done|lia].
  - right. assert (Hd : bn_dmax z <= bn_dmax z1).
    { unfold bn_wexpand in E. rewrite Ez in E. simpl in E.
      destruct (Z.leb_spec (bn_top x) (bn_dmax z)) as [|Hlt]; [|lia].
      injection E as E. apply (f_equal (fun m => m !! t)) in E. rewrite lookup_insert_eq, Ez in E. by injection E as <-. }
    rewrite E. simpl. destruct R1 as ((Zz & Tz & Oz & _) & _ & _ & _ & Fl).
    pose proof (words_limbs (<[t := z1]> m) a x ltac:(by rewrite lookup_insert_ne) Fx) as Wx.
    pose proof (zlen_limbs x Fx) as Zx. pose proof Fx as (_ & Tx & _ & Nx).
    assert (exists d', (if 0 <? bn_top x then src ← words (<[t := z1]> m) (a, 0) (bn_top x); set_words (<[t := z1]> m) (t, 0) src
                        else Some (<[t := z1]> m)) = Some (<[t := z1 <| bn_d := d' |>]> m) /\
      zlen d' = bn_dmax z1 /\ words_ok d' /\ take (Z.to_nat (bn_top x)) d' = limbs x) as (d' & -> & Zd & Od & Hd').
    { destruct (Z.ltb_spec 0 (bn_top x)).
      - rewrite Wx. simpl. destruct (words_room m t z1 0 (bn_top x) Zz) as (old & Ho); [lia..|].
        destruct (set_words_some _ _ _ _ (limbs x) Ho Zx) as (m1 & Hs). rewrite Hs.
        destruct (stored_number m t z1 (limbs x) m1 (bn_top x) 0 Hs Zz Oz (limbs_ok x Fx)) as (d' & -> & _ & Hf & Hl);
          [lia|by left|]. exists d'. destruct Hf as (Hz' & _ & Ho' & _). split; [done|]. split; [exact Hz'|].
        split; [exact Ho'|]. rewrite take_all in Hl by done. exact Hl.
      - exists (bn_d z1). replace (bn_top x) with 0 by lia. split; [by destruct z1|]. split; [done|]. split; [done|].
        unfold limbs. by replace (bn_top x) with 0 by lia. }
    simpl. unfold bn_set. rewrite lookup_insert_eq. simpl. rewrite insert_insert_eq. eexists. split; [reflexivity|].
    unfold copied, bn_fits, BN_FLG_FIXED_TOP. simpl. rewrite Z.land_0_r, Z.lor_0_r.
    split; [split; [|done]; split_and!; try done; lia|done].
Qed.

End Spec.

(** ** Witnesses *)

#[local] Existing Instance generous_malloc.

Definition no_secure : Z -> option (list Z) := fun _ => None.
Definition number (l : list Z) (neg : Z) : BIGNUM := mk_BIGNUM l (zlen l) (zlen l) neg 0.

Lemma number_ok l neg : words_ok l -> (neg = 0 \/ neg = 1) -> (l <> [] -> B ^ (zlen l - 1) <= eval l) ->
  (l = [] -> neg = 0) -> bn_ok (number l neg).
Proof.
  intros Hl Hn Ht H0. pose proof (zlen_nonneg l). unfold bn_ok, bn_fits, normal, mag, limbs. simpl.
  rewrite take_all by done. split_and!; try done; try lia.
  - intros Hp. apply Ht. intros ->. done.
  - intros Hz. apply H0. destruct l; [done|len_lia].
Qed.

(** 2^128 - 1 and 3; the result takes the place of the first operand. *)
Definition two_numbers : heap := {[ 0%nat := number [BN_MASK2; BN_MASK2] 0; 1%nat := number [3] 0 ]}.

Lemma BN_add_sub_correct_witness :
  outcome no_secure two_numbers 0 (number [BN_MASK2; BN_MASK2] 0) 3 (2 ^ 128 + 2) (BN_add no_secure two_numbers 0 0 1) /\
  match BN_add no_secure two_numbers 0 0 1 with
  | Some (ret, m) => ret = 1 /\ value <$> m !! 0%nat = Some (2 ^ 128 + 2)
  | None => False
  end.
Proof.
  assert (bn_ok (number [BN_MASK2; BN_MASK2] 0)).
  { apply number_ok; [repeat constructor; done|by left|done|done]. }
  assert (bn_ok (number [3] 0)) by (apply number_ok; [repeat constructor; done|by left|done|done]).
  split; [|vm_compute; by split].
  exact (proj1 (BN_add_sub_correct no_secure two_numbers 0 0 1 _ _ _ eq_refl eq_refl eq_refl ltac:(done) ltac:(done) ltac:(done))).
Defined.
