(* ===== verification/Montgomery.v ===== *)
(** * Multiplication and Montgomery reduction

    [bn_mul_normal] of [src/crypto/bn/bn_mul.c] and the reduction of
    [src/crypto/bn/bn_mont.c]: [bn_from_montgomery_word] divides by [R] modulo [N]
    without branching on the numbers. *)

From S2P Require Import Prelude Mem ConstantTime Words Bignum.
From stdpp Require Import gmap.
#[local] Open Scope Z_scope.
#[local] Open Scope tls_scope.

(** ** Multiplication row by row, [bn_mul.c] *)

(** The rows from number [i] on; the body of the code's loop is four of these, with
    the offsets written out. *)
Definition mul_row (r a b : ptr) (na : Z) (i : Z) (m : heap) : option heap :=
  bi ← ldw m b i;
  '(c, m) ← bn_mul_add_words m (padd r i) a na bi;
  stw m (padd r na) i c.

Definition bn_mul_normal (m : heap) (r a : ptr) (na : Z) (b : ptr) (nb : Z) : option heap :=
  let '(a, na, b, nb) := if na <? nb then (b, nb, a, na) else (a, na, b, nb) in
  if nb <=? 0 then '(_, m) ← bn_mul_words m r a na 0; Some m
  else
    b0 ← ldw m b 0;
    '(c, m) ← bn_mul_words m r a na b0;
    m ← stw m (padd r na) 0 c;
    iterate (mul_row r a b na) (Z.to_nat (nb - 1)) 1 m.

(** ** Montgomery reduction, [bn_mont.c] *)

(** The numbers of a context are numbers of the heap. *)
Record BN_MONT_CTX := mk_BN_MONT_CTX {
  mont_ri : Z;
  mont_RR : nat;
  mont_N : nat;
  mont_Ni : nat;
  mont_n0 : Z * Z;
  mont_flags : Z
}.

Section Mont.
Context `{Malloc} (OPENtls_secure_zalloc : Z -> option (list Z)).

(** Words from [rtop] on are cleared: [i - rtop] is unsigned and has its top bit set
    exactly when it is negative. *)
Definition clear_step (rp : ptr) (rtop : Z) (i : Z) (m : heap) : option heap :=
  let v := u64 (0 - Z.shiftr (u32 (i - rtop)) (8 * 4 - 1)) in
  w ← ldw m rp i; stw m rp i (Z.land w v).

(** Adding the multiple of the modulus that clears word [i]. *)
Definition mont_step (r np : ptr) (nl n0 : Z) (i : Z) (s : Z * heap) : option (Z * heap) :=
  let '(carry, m) := s in
  let rp := padd r i in
  r0 ← ldw m rp 0;
  '(v, m) ← bn_mul_add_words m rp np nl (Z.land (r0 * n0) BN_MASK2);
  rn ← ldw m rp nl;
  let v := Z.land (v + carry + rn) BN_MASK2 in
  let carry := Z.lor carry (Z.b2z (negb (v =? rn))) in
  let carry := Z.land carry (Z.b2z (v <=? rn)) in
  m ← stw m rp nl v;
  Some (carry, m).

(** Keep the difference or what it was taken from, and wipe the latter. *)
Definition keep_step (rp ap : ptr) (carry : Z) (i : Z) (m : heap) : option heap :=
  a ← ldw m ap i;
  r ← ldw m rp i;
  m ← stw m rp i (Z.lor (Z.land carry a) (Z.land (u64 (Z.lnot carry)) r));
  stw m ap i 0.

Definition bn_from_montgomery_word (m : heap) (ret r : nat) (mont : BN_MONT_CTX) : option (Z * heap) :=
  n ← m !! mont_N mont;
  let nl := bn_top n in
  if nl =? 0 then m ← bn_set m ret (fun x => x <| bn_top := 0 |>); Some (1, m)
  else
    let max := 2 * nl in
    '(ok, m) ← bn_wexpand OPENtls_secure_zalloc m r max;
    if negb ok then Some (0, m)
    else
      m ← bn_set m r (fun x => x <| bn_neg := Z.lxor (bn_neg x) (bn_neg n) |>);
      let np := (mont_N mont, 0) in
      x ← m !! r;
      m ← iterate (clear_step (r, 0) (bn_top x)) (Z.to_nat max) 0 m;
      m ← bn_set m r (fun x => x <| bn_top := max |> <| bn_flags := Z.lor (bn_flags x) BN_FLG_FIXED_TOP |>);
      let n0 := (mont_n0 mont).1 in
      '(carry, m) ← iterate (mont_step (r, 0) np nl n0) (Z.to_nat nl) 0 (0, m);
      '(ok, m) ← bn_wexpand OPENtls_secure_zalloc m ret nl;
      if negb ok then Some (0, m)
      else
        x ← m !! r;
        m ← bn_set m ret (fun y => y <| bn_top := nl |> <| bn_flags := Z.lor (bn_flags y) BN_FLG_FIXED_TOP |>
                                     <| bn_neg := bn_neg x |>);
        '(b, m) ← bn_sub_words m (ret, 0) (r, nl) np nl;
        let carry := u64 (carry - b) in
        m ← iterate (keep_step (ret, 0) (r, nl) carry) (Z.to_nat nl) 0 m;
        Some (1, m).

(** [BN_CTX_get] gives a temporary number, or none. *)
Definition bn_from_mont_fixed_top (m : heap) (ret a : nat) (mont : BN_MONT_CTX) (t : option nat) : option (Z * heap) :=
  match t with
  | None => Some (0, m)
  | Some t =>
      '(ok, m) ← BN_copy OPENtls_secure_zalloc m t a;
      if negb ok then Some (0, m) else bn_from_montgomery_word m ret t mont
  end.

Definition BN_from_montgomery (m : heap) (ret a : nat) (mont : BN_MONT_CTX) (t : option nat) : option (Z * heap) :=
  '(retn, m) ← bn_from_mont_fixed_top m ret a mont t;
  m ← bn_correct_top m ret;
  Some (retn, m).

End Mont.

(** ** Properties *)

(** *** Rows *)

Section Rows.
Context (r a b : ptr) (na nb : Z) (l k : list Z).
Context (Hl : words_ok l) (Hk : words_ok k) (Zl : zlen l = na) (Zk : zlen k = nb).

(** After the rows before [i]: the product of [a] with the first [i] words of [b]. *)
Definition rows_done (m0 : heap) (i : Z) (m : heap) : Prop :=
  exists P, set_words m0 r P = Some m /\ zlen P = na + i /\ words_ok P /\
    eval P = eval l * eval (take (Z.to_nat i) k).

Context (m0 : heap) (old : list Z).
Context (Ha : words m0 a na = Some l) (Hb : words m0 b nb = Some k) (Ho : words m0 r (na + nb) = Some old).

Lemma other_block m P q n : set_words m0 r P = Some m -> q.1 <> r.1 -> words m q n = words m0 q n.
Proof. intros HP Hq. apply (words_set_words _ _ _ _ _ _ HP). by left. Qed.

Lemma word_at i : 0 <= i < nb -> exists w, k !! Z.to_nat i = Some w /\ word_ok w.
Proof using Hk Zk.
  intros. destruct (lookup_lt_is_Some_2 k (Z.to_nat i)) as [w Hw]; [unfold zlen in Zk; lia|].
  exists w. split; [done|]. by eapply Forall_lookup_1.
Qed.

Lemma eval_take_S i w : k !! Z.to_nat i = Some w -> 0 <= i ->
  eval (take (Z.to_nat (i + 1)) k) = eval (take (Z.to_nat i) k) + B ^ i * w.
Proof.
  intros Hw Hi. replace (Z.to_nat (i + 1)) with (S (Z.to_nat i)) by lia.
  pose proof (lookup_lt_Some _ _ _ Hw). rewrite (take_S_r _ _ w) by done. rewrite eval_app.
  unfold zlen. rewrite length_take, Nat.min_l, Z2Nat.id by lia. simpl. lia.
Qed.

(** Storing one more word after those that are there. *)
Lemma store_word m P i c : set_words m0 r P = Some m -> zlen P = na + i -> 0 <= i < nb ->
  exists m', stw m (padd r na) i c = Some m' /\ set_words m0 r (P ++ [c]) = Some m'.
Proof using Ho.
  intros HP ZP Hi.
  pose proof (zlen_nonneg P).
  assert (W : words m (padd r (na + i)) 1 = Some (take (Z.to_nat 1) (drop (Z.to_nat (na + i)) old))).
  { rewrite (words_set_words _ _ _ _ _ _ HP) by (right; unfold padd; simpl; lia).
    apply (words_sub _ _ _ _ _ _ Ho); lia. }
  rewrite stw_set_words. unfold padd in *. simpl in *. rewrite <- Z.add_assoc.
  destruct (set_words_some _ _ _ _ [c] W eq_refl) as (m' & Hm). exists m'. split; [done|].
  rewrite <- (set_words_app _ _ _ _ _ HP). unfold padd. by rewrite ZP.
Qed.

Context (Ra : a.1 <> r.1) (Rb : b.1 <> r.1).

Lemma row_spec m i : rows_done m0 i m -> 0 <= i < nb ->
  exists m', mul_row r a b na i m = Some m' /\ rows_done m0 (i + 1) m'.
Proof using Ra Rb Hl Hk Zl Zk Ha Hb Ho.
  intros (P & HP & ZP & OP & EP) Hi. destruct (word_at i Hi) as (w & Hw & Ow).
  pose proof (zlen_nonneg l). unfold mul_row.
  rewrite (ldw_sub m b nb k i w) by (first [lia|done|by rewrite (other_block _ _ _ _ HP Rb)]). simpl.
  pose proof (words_stored _ _ _ _ HP) as WP. rewrite ZP in WP.
  pose proof (words_sub _ _ _ _ i na WP ltac:(lia) ltac:(lia) ltac:(lia)) as Wo.
  rewrite (take_all (drop _ P)) in Wo by (rewrite zlen_drop; lia).
  destruct (mul_add_words_spec m (padd r i) a na l (drop (Z.to_nat i) P)
              ltac:(by left) ltac:(by rewrite (other_block _ _ _ _ HP Ra)) Wo Hl ltac:(by apply Forall_drop) w Ow)
    as (R & c & m1 & -> & HR & ZR & OR & Oc & ER). simpl.
  rewrite (set_words_over _ _ _ _ _ _ HP) in HR by lia.
  rewrite (drop_ge P) in HR by (unfold zlen in *; lia). rewrite app_nil_r in HR.
  destruct (store_word m1 _ i c HR) as (m2 & -> & HQ); [rewrite zlen_app, zlen_take; lia|lia|].
  exists m2. split; [done|]. exists ((take (Z.to_nat i) P ++ R) ++ [c]). split; [done|].
  split; [rewrite !zlen_app, zlen_take, zlen_cons, zlen_nil by lia; lia|].
  split; [repeat (apply Forall_app; split); [by apply Forall_take|done|by constructor]|].
  rewrite (eval_take_S i w) by (done || lia). rewrite !eval_app, zlen_app, zlen_take, ZR by lia.
  rewrite (eval_split P i) in EP by lia. rewrite Z.pow_add_r by lia. simpl. nia.
Qed.

Lemma rows_spec n : forall i m, rows_done m0 i m -> 0 <= i -> i + Z.of_nat n <= nb ->
  exists m', iterate (mul_row r a b na) n i m = Some m' /\ rows_done m0 (i + Z.of_nat n) m'.
Proof using Ra Rb Hl Hk Zl Zk Ha Hb Ho.
  induction n as [|n IH]; intros i m Hm Hi Hn.
  - exists m. split; [done|]. by rewrite Z.add_0_r.
  - destruct (row_spec m i Hm) as (m1 & E1 & H1); [lia|]. cbn [iterate]. rewrite E1. simpl.
    destruct (IH (i + 1) m1 H1) as (m2 & -> & H2); [lia..|]. exists m2. split; [done|].
    by replace (i + Z.of_nat (S n)) with (i + 1 + Z.of_nat n) by lia.
Qed.
End Rows.

(** The longer operand gives the rows. *)
Lemma mul_normal_ge m r a b na nb l k old : a.1 <> r.1 -> b.1 <> r.1 -> nb <= na ->
  words m a na = Some l -> words m b nb = Some k -> words m r (na + nb) = Some old ->
  words_ok l -> words_ok k ->
  exists m' P, bn_mul_normal m r a na b nb = Some m' /\ set_words m r P = Some m' /\
    zlen P = na + nb /\ words_ok P /\ eval P = eval l * eval k.
Proof.
  intros Ra Rb Hge Ha Hb Ho Hl Hk.
  pose proof (words_zlen _ _ _ _ Ha) as Zl. pose proof (words_zlen _ _ _ _ Hb) as Zk.
  pose proof (zlen_nonneg k). pose proof (words_sub _ _ _ _ 0 na Ho ltac:(lia) ltac:(lia) ltac:(lia)) as O1.
  rewrite padd_0 in O1. unfold bn_mul_normal. rewrite (proj2 (Z.ltb_ge _ _)) by lia.
  assert (Fa : follows r a) by by left. destruct (Z.leb_spec nb 0) as [Hn|Hn].
  - destruct (mul_words_spec m r a na l _ Fa Ha O1 Hl 0) as (R & c & m1 & -> & HR & ZR & OR & Oc & ER);
      [unfold word_ok; lia|]. simpl. exists m1, R. split_and!; try done; [lia|].
    assert (k = []) as -> by (destruct k; [done|len_lia]).
    pose proof (eval_range R OR). unfold word_ok in Oc. pose proof (B_pos na ltac:(lia)). simpl. nia.
  - destruct (word_at nb k Hk Zk 0) as (w & Hw & Ow); [lia|].
    rewrite (ldw_sub m b nb k 0 w Hb ltac:(lia) Hw). simpl.
    destruct (mul_words_spec m r a na l _ Fa Ha O1 Hl w Ow) as (R & c & m1 & -> & HR & ZR & OR & Oc & ER). simpl.
    destruct (store_word r na nb m old Ho m1 R 0 c HR) as (m2 & -> & HQ); [lia..|]. simpl.
    destruct (rows_spec r a b na nb l k Hl Hk Zl Zk m old Ha Hb Ho Ra Rb (Z.to_nat (nb - 1)) 1 m2)
      as (m3 & -> & P & HP & ZP & OP & EP); [|lia..|].
    + exists (R ++ [c]). split; [done|]. split; [len_lia|]. split; [apply Forall_app; by split; [|constructor]|].
      pose proof (eval_take_S k 0 w Hw ltac:(lia)) as E. change (Z.to_nat (0 + 1)) with 1%nat in E.
      change (Z.to_nat 1) with 1%nat. rewrite E, eval_app, ZR. simpl. lia.
    + replace (1 + Z.of_nat (Z.to_nat (nb - 1))) with nb in * by lia.
      exists m3, P. rewrite take_all in EP by done. split_and!; done || lia.
Qed.

(** C34: [bn_mul_normal] stores the product of two strings of words of any lengths, in as
    many words as both together, and changes nothing else. *)
Theorem bn_mul_normal_correct m r a b na nb l k old : a.1 <> r.1 -> b.1 <> r.1 ->
  words m a na = Some l -> words m b nb = Some k -> words m r (na + nb) = Some old ->
  words_ok l -> words_ok k ->
  exists m' P, bn_mul_normal m r a na b nb = Some m' /\ set_words m r P = Some m' /\
    zlen P = na + nb /\ words_ok P /\ eval P = eval l * eval k.
Proof.
  intros Ra Rb Ha Hb Ho Hl Hk. destruct (Z.ltb_spec na nb) as [Hlt|Hge].
  - rewrite Z.add_comm in Ho |- *. rewrite (Z.mul_comm (eval l)).
    destruct (mul_normal_ge m r b a nb na k l old Rb Ra ltac:(lia) Hb Ha Ho Hk Hl) as (m' & P & E & HP).
    exists m', P. split; [|done]. revert E. unfold bn_mul_normal.
    by rewrite (proj2 (Z.ltb_lt na nb)), (proj2 (Z.ltb_ge nb na)) by lia.
  - by apply mul_normal_ge with old; try lia.
Qed.

(** *** Clearing, and adding multiples of the modulus *)

Fixpoint mapi (g : Z -> Z -> Z) (i : Z) (l : list Z) : list Z :=
  match l with [] => [] | w :: l => g i w :: mapi g (i + 1) l end.

Lemma map_loop g rp n : forall i m l, words m (padd rp i) (Z.of_nat n) = Some l ->
  exists m', iterate (fun i m => w ← ldw m rp i; stw m rp i (g i w)) n i m = Some m' /\
    set_words m (padd rp i) (mapi g i l) = Some m'.
Proof.
  induction n as [|n IH]; intros i m l Hl.
  - pose proof (words_zlen _ _ _ _ Hl). destruct l; [|len_lia]. exists m. split; [done|]. by eapply set_words_nil.
  - rewrite Nat2Z.inj_succ, <- Z.add_1_l in Hl.
    pose proof (words_sub _ _ _ _ 0 1 Hl ltac:(lia) ltac:(lia) ltac:(lia)) as W. rewrite padd_0 in W.
    destruct (words_split _ _ _ (Z.of_nat n) ltac:(lia) Hl) as (w & l' & -> & Hw & Hl').
    rewrite words_skip in Hl'. rewrite <- ldw_padd in Hw. cbn [iterate]. rewrite Hw. simpl.
    destruct (set_words_some m (padd rp i) 1 _ [g i w] W eq_refl) as (m1 & Hs). rewrite <- stw_set_words in Hs.
    rewrite Hs. simpl.
    rewrite <- (words_stw _ _ _ _ _ (padd rp (i + 1)) _ Hs) in Hl' by (apply follows_padd, follows_refl).
    destruct (IH (i + 1) m1 l' Hl') as (m' & Hit & Hm). exists m'. split; [done|].
    by rewrite <- (set_words_stw _ _ _ _ _ _ Hs).
Qed.

Definition clear_word (rtop i w : Z) : Z := Z.land w (u64 (0 - Z.shiftr (u32 (i - rtop)) (8 * 4 - 1))).

Lemma clear_word_spec rtop i w : word_ok w -> 0 <= i < 2 ^ 31 -> 0 <= rtop < 2 ^ 31 ->
  clear_word rtop i w = if i <? rtop then w else 0.
Proof.
  intros Hw Hi Ht. unfold clear_word. rewrite Z.shiftr_div_pow2 by lia. change (8 * 4 - 1) with 31.
  destruct (Z.ltb_spec i rtop).
  - assert (u32 (i - rtop) / 2 ^ 31 = 1) as -> by (unfold u32; lia_div).
    change (u64 (0 - 1)) with (Z.ones 64). rewrite Z.land_ones by lia. by apply Z.mod_small.
  - assert (u32 (i - rtop) / 2 ^ 31 = 0) as -> by (unfold u32; lia_div).
    change (u64 (0 - 0)) with 0. apply Z.land_0_r.
Qed.

Lemma clear_spec rtop : 0 <= rtop < 2 ^ 31 -> forall l i, words_ok l -> 0 <= i -> i + zlen l <= 2 ^ 31 ->
  zlen (mapi (clear_word rtop) i l) = zlen l /\ words_ok (mapi (clear_word rtop) i l) /\
  eval (mapi (clear_word rtop) i l) = eval (take (Z.to_nat (rtop - i)) l).
Proof.
  intros Ht. induction l as [|w l IH]; intros i Hl Hi Hz.
  - rewrite take_nil. done.
  - apply Forall_cons in Hl as [Hw Hl]. rewrite zlen_cons in Hz. pose proof (zlen_nonneg l).
    destruct (IH (i + 1) Hl) as (IZ & IO & IE); [lia..|]. cbn [mapi eval].
    rewrite clear_word_spec by (done || lia). rewrite IE, !zlen_cons, IZ.
    split; [done|]. destruct (Z.ltb_spec i rtop).
    + split; [by constructor|]. replace (Z.to_nat (rtop - i)) with (S (Z.to_nat (rtop - (i + 1)))) by lia. done.
    + split; [constructor; [unfold word_ok; lia|done]|].
      by replace (Z.to_nat (rtop - i)) with 0%nat by lia; replace (Z.to_nat (rtop - (i + 1))) with 0%nat by lia.
Qed.

(** The carry into the word above. *)
Lemma mont_carry v carry rn : word_ok v -> bit_ok carry -> word_ok rn ->
  let v' := Z.land (v + carry + rn) BN_MASK2 in
  let carry' := Z.land (Z.lor carry (Z.b2z (negb (v' =? rn)))) (Z.b2z (v' <=? rn)) in
  word_ok v' /\ bit_ok carry' /\ v' + B * carry' = v + carry + rn.
Proof.
  intros Hv Hc Hr. cbv zeta. rewrite mask2. pose proof (u64_range (v + carry + rn)) as Hu.
  assert (E : u64 (v + carry + rn) = v + carry + rn \/ u64 (v + carry + rn) = v + carry + rn - B).
  { unfold u64, word_ok, bit_ok, B in *. lia_div. }
  revert E Hu. generalize (u64 (v + carry + rn)). intros u E Hu. split; [done|].
  unfold word_ok, bit_ok, B in *. assert (carry = 0 \/ carry = 1) as [-> | ->] by lia;
    destruct (Z.eqb_spec u rn), (Z.leb_spec u rn); simpl Z.b2z;
    match goal with |- context [Z.land ?a ?b] => let c := eval vm_compute in (Z.land a b) in change (Z.land a b) with c end;
    lia.
Qed.

(** *** The reduction *)

(** The words that step [i] deals with. *)
Lemma step_words (D : list Z) nl i : 0 < nl -> zlen D = 2 * nl -> 0 <= i < nl -> exists L d0 X dn R,
  D = L ++ (d0 :: X) ++ dn :: R /\ zlen L = i /\ zlen (d0 :: X) = nl.
Proof.
  intros Pn ZD Hi. exists (take (Z.to_nat i) D). unfold zlen in *.
  destruct (drop (Z.to_nat i) D) as [|d0 X] eqn:E.
  { apply (f_equal length) in E. rewrite length_drop in E. simpl in E. lia. }
  assert (EX : length X = (length D - Z.to_nat i - 1)%nat)
    by (apply (f_equal length) in E; rewrite length_drop in E; simpl in E; lia).
  exists d0, (take (Z.to_nat (nl - 1)) X).
  destruct (drop (Z.to_nat (nl - 1)) X) as [|dn R] eqn:E'.
  { apply (f_equal length) in E'. rewrite length_drop in E'. simpl in E'. lia. }
  exists dn, R. rewrite length_take. simpl length. rewrite length_take. split; [|lia].
  rewrite <- E'. rewrite <- app_comm_cons, take_drop, <- E. by rewrite take_drop.
Qed.

Section Reduce.
Context (rp np : ptr) (nl n0 T : Z) (ns : list Z).
Context (Hns : words_ok ns) (Zn : zlen ns = nl) (Pn : 0 < nl).
Context (Hn0 : (eval ns * n0 + 1) mod B = 0).
Context (m0 : heap).

(** After [i] steps a multiple of the modulus has been added, and the lowest [i] words
    are zero. *)
Definition reduced (i carry : Z) (m : heap) : Prop :=
  exists D Q, set_words m0 rp D = Some m /\ zlen D = 2 * nl /\ words_ok D /\ bit_ok carry /\
    0 <= Q < B ^ i /\ eval (take (Z.to_nat i) D) = 0 /\
    eval D + B ^ (nl + i) * carry = T + eval ns * Q.

Lemma eval_cons_mod w l : word_ok w -> eval (w :: l) mod B = w.
Proof. intros Hw. cbn [eval]. rewrite (Z.mul_comm B), Z.mod_add by (unfold B; lia). by apply Z.mod_small. Qed.

(** The multiple chosen clears the lowest word. *)
Lemma lowest_word d0 l R c : word_ok d0 -> words_ok R -> 0 < zlen R ->
  eval R + B ^ zlen R * c = eval ns * Z.land (d0 * n0) BN_MASK2 + eval (d0 :: l) ->
  exists R', R = 0 :: R'.
Proof using Hn0.
  intros Hd HR ZR E. destruct R as [|r0 R]; [len_lia|]. exists R. f_equal.
  apply Forall_cons in HR as [Hr0 HR]. rewrite <- (eval_cons_mod r0 R Hr0).
  rewrite mask2 in E. unfold u64 in E. change (2 ^ 64) with B in E.
  rewrite zlen_cons, B_succ in E by apply zlen_nonneg.
  assert (M : eval (r0 :: R) mod B = (eval ns * ((d0 * n0) mod B) + d0) mod B).
  { transitivity ((eval (r0 :: R) + B * B ^ zlen R * c) mod B).
    - rewrite <- Z.mul_assoc, (Z.mul_comm B), Z.mod_add by (unfold B; lia). done.
    - rewrite E. cbn [eval]. rewrite Z.add_assoc, (Z.mul_comm B (eval l)), Z.mod_add by (unfold B; lia). done. }
  rewrite M, Z.add_mod, Z.mul_mod_idemp_r, <- Z.add_mod by (unfold B; lia).
  replace (eval ns * (d0 * n0) + d0) with (d0 * (eval ns * n0 + 1)) by ring.
  rewrite Z.mul_mod, Hn0, Z.mul_0_r by (unfold B; lia). done.
Qed.



(** What is left after all steps: the upper half and the carry are the sum divided by
    [R], less than twice the modulus. *)
Lemma reduced_value carry m : reduced nl carry m -> 0 <= T < eval ns * B ^ nl ->
  exists A L, set_words m0 rp (L ++ A) = Some m /\ zlen L = nl /\ zlen A = nl /\ words_ok A /\ bit_ok carry /\
    0 <= eval A + B ^ nl * carry < 2 * eval ns /\
    ((eval A + B ^ nl * carry) * B ^ nl) mod eval ns = T mod eval ns.
Proof using Zn Pn.
  intros (D & Q & HD & ZD & OD & Hc & HQ & Hlow & E) HT.
  exists (drop (Z.to_nat nl) D), (take (Z.to_nat nl) D). rewrite take_drop.
  rewrite zlen_take, zlen_drop by lia. rewrite (eval_split D nl), Hlow, Z.pow_add_r in E by lia.
  pose proof (B_pos nl ltac:(lia)) as PB. pose proof (eval_range _ (Forall_drop _ (Z.to_nat nl) _ OD)) as HA.
  revert E HA. generalize (eval (drop (Z.to_nat nl) D)). intros A E HA. unfold bit_ok in Hc.
  assert (EU : (A + B ^ nl * carry) * B ^ nl = T + eval ns * Q) by (rewrite <- E; ring).
  split_and!; try done; [lia|by apply Forall_drop|nia|nia|].
  rewrite EU, Z.mul_comm. apply Z.mod_add. intros E0. rewrite E0 in HT. lia.
Qed.

Context (Hnp : np.1 <> rp.1) (Hn : words m0 np nl = Some ns).

Lemma mont_step_spec i carry m : reduced i carry m -> 0 <= i < nl ->
  exists carry' m', mont_step rp np nl n0 i (carry, m) = Some (carry', m') /\ reduced (i + 1) carry' m'.
Proof using Hns Zn Pn Hn0 Hnp Hn.
  intros (D & Q & HD & ZD & OD & Hc & HQ & Hlow & E) Hi.
  destruct (step_words D nl i Pn ZD Hi) as (L & d0 & X & dn & R & -> & ZL & ZX).
  apply Forall_app in OD as [OL OD]. apply Forall_app in OD as [OX OR]. apply Forall_cons in OR as [Odn OR].
  pose proof OX as OX'. apply Forall_cons in OX' as [Od0 _].
  unfold mont_step. rewrite <- ldw_padd, (ldw_mid _ _ _ _ _ _ i HD ZL). simpl.
  destruct (mul_add_words_spec m (padd rp i) np nl ns (d0 :: X) ltac:(by left)
              ltac:(rewrite (words_set_words _ _ _ _ _ _ HD) by (by left); exact Hn) (words_mid _ _ _ _ _ _ _ _ HD ZL ZX) Hns
              OX (Z.land (d0 * n0) BN_MASK2) ltac:(rewrite mask2; apply u64_range))
    as (S & c & m1 & -> & HS & ZS & OS & Oc & ES). simpl.
  rewrite (set_words_mid _ _ _ _ _ _ _ _ HD ZL) in HS by lia.
  destruct (lowest_word d0 X S c Od0 OS) as (S' & ->); [lia|rewrite ZS; lia|].
  assert (Ep : forall m q k, ldw m (padd q i) k = ldw m q (i + k)) by (intros; unfold ldw, padd; simpl; by rewrite Z.add_assoc).
  rewrite Ep. rewrite app_assoc in HS. rewrite (ldw_mid _ _ _ _ _ _ (i + nl) HS) by (rewrite zlen_app; lia). simpl.
  destruct (mont_carry c carry dn Oc Hc Odn) as (Ov & Hc' & Ev).
  set (v' := Z.land (c + carry + dn) BN_MASK2) in *.
  set (carry' := Z.land (Z.lor carry (Z.b2z (negb (v' =? dn)))) (Z.b2z (v' <=? dn))) in *.
  rewrite stw_set_words. replace (padd (padd rp i) nl) with (padd rp (i + nl)) by (unfold padd; simpl; by rewrite Z.add_assoc).
  destruct (set_words_some _ _ _ _ [v'] (words_mid _ _ _ [dn] _ _ (i + nl) 1 HS ltac:(rewrite zlen_app; lia) eq_refl) eq_refl)
    as (m2 & H2). rewrite H2. simpl. eexists _, _. split; [reflexivity|].
  rewrite (set_words_mid _ _ _ [dn] _ _ _ [v'] HS) in H2 by (rewrite ?zlen_app; done || lia).
  exists ((L ++ 0 :: S') ++ [v'] ++ R), (Q + B ^ i * Z.land (d0 * n0) BN_MASK2).
  rewrite mask2 in *. pose proof (u64_range (d0 * n0)) as Hq. revert Hq ES. generalize (u64 (d0 * n0)). intros q Hq ES.
  pose proof (B_pos i ltac:(lia)) as PB. unfold word_ok in Hq. fold B in Hq.
  split; [done|]. split; [rewrite !zlen_app in *; rewrite !zlen_cons in *; rewrite ?zlen_nil; lia|].
  split; [repeat (apply Forall_app; split); try done; by constructor|]. split; [done|].
  split; [rewrite Z.pow_add_r, Z.pow_1_r by lia; nia|].
  rewrite <- app_assoc, take_app_ge by (unfold zlen in ZL; lia).
  rewrite take_app_length' in Hlow by (unfold zlen in ZL; lia).
  split.
  - replace (Z.to_nat (i + 1) - length L)%nat with 1%nat by (unfold zlen in ZL; lia).
    rewrite eval_app, Hlow. simpl. lia.
  - rewrite !eval_app in *. rewrite ZL, Hlow in *. rewrite ZX in E. rewrite ZS.
    change (eval (dn :: R)) with (dn + B * eval R) in E. change (eval [v']) with (v' + B * 0).
    change (zlen [v']) with 1. rewrite Z.pow_1_r, !Z.pow_add_r, ?Z.pow_1_r in * by lia.
    transitivity (B ^ i * (eval (0 :: S') + B ^ nl * (v' + B * carry') + B ^ nl * (B * eval R))); [ring|].
    rewrite Ev.
    transitivity (B ^ i * (eval (0 :: S') + B ^ nl * c) + B ^ i * (B ^ nl * (carry + dn + B * eval R))); [ring|].
    rewrite ES, Z.mul_add_distr_l.
    transitivity ((0 + B ^ i * (eval (d0 :: X) + B ^ nl * (dn + B * eval R)) + B ^ nl * B ^ i * carry)
                  + eval ns * (B ^ i * q)); [ring|]. rewrite E. ring.
Qed.

Lemma mont_loop_spec k : forall i carry m, reduced i carry m -> 0 <= i -> i + Z.of_nat k <= nl ->
  exists carry' m', iterate (mont_step rp np nl n0) k i (carry, m) = Some (carry', m') /\
    reduced (i + Z.of_nat k) carry' m'.
Proof using Hns Zn Pn Hn0 Hnp Hn.
  induction k as [|k IH]; intros i carry m Hm Hi Hk.
  - exists carry, m. split; [done|]. by rewrite Z.add_0_r.
  - destruct (mont_step_spec i carry m Hm) as (c1 & m1 & E1 & H1); [lia|]. cbn [iterate]. rewrite E1. simpl.
    destruct (IH (i + 1) c1 m1 H1) as (c2 & m2 & -> & H2); [lia..|]. exists c2, m2. split; [done|].
    by replace (i + Z.of_nat (S k)) with (i + 1 + Z.of_nat k) by lia.
Qed.

End Reduce.

(** *** The last subtraction *)

Lemma set_words_comm m p L m1 q K m2 : p.1 <> q.1 -> set_words m p L = Some m1 -> set_words m1 q K = Some m2 ->
  exists m1', set_words m q K = Some m1' /\ set_words m1' p L = Some m2.
Proof.
  intros Hne (b & d & Eb & Hd & ->)%set_words_lookup (b' & d' & Eb' & Hd' & ->)%set_words_lookup.
  rewrite lookup_insert_ne in Eb' by done. unfold set_words. rewrite Eb'. simpl. rewrite Hd'. simpl.
  eexists. split; [reflexivity|]. rewrite lookup_insert_ne, Eb by done. simpl. rewrite Hd. simpl.
  by rewrite insert_insert_ne.
Qed.

Definition keep_word (carry a r : Z) : Z := Z.lor (Z.land carry a) (Z.land (u64 (Z.lnot carry)) r).

Lemma keep_loop carry rp ap n : rp.1 <> ap.1 -> forall i m S A,
  words m (padd rp i) (Z.of_nat n) = Some S -> words m (padd ap i) (Z.of_nat n) = Some A ->
  exists m1 m', iterate (keep_step rp ap carry) n i m = Some m' /\
    set_words m (padd rp i) (zip_with (keep_word carry) A S) = Some m1 /\
    set_words m1 (padd ap i) (replicate n 0) = Some m'.
Proof.
  intros Hne. induction n as [|n IH]; intros i m S A HS HA.
  - pose proof (words_zlen _ _ _ _ HA). destruct A; [|len_lia]. exists m, m. split; [done|].
    split; by eapply set_words_nil.
  - rewrite Nat2Z.inj_succ, <- Z.add_1_l in HS, HA.
    pose proof (words_sub _ _ _ _ 0 1 HS ltac:(lia) ltac:(lia) ltac:(lia)) as WS.
    pose proof (words_sub _ _ _ _ 0 1 HA ltac:(lia) ltac:(lia) ltac:(lia)) as WA. rewrite padd_0 in WS, WA.
    destruct (words_split _ _ _ (Z.of_nat n) ltac:(lia) HS) as (s & S' & -> & Hs & HS').
    destruct (words_split _ _ _ (Z.of_nat n) ltac:(lia) HA) as (a & A' & -> & Ha & HA').
    rewrite words_skip in HS', HA'. rewrite <- ldw_padd in Hs, Ha.
    destruct (set_words_some m (padd rp i) 1 _ [keep_word carry a s] WS eq_refl) as (m1 & H1).
    rewrite <- (words_set_words _ _ _ _ (padd ap i) _ H1) in WA by (left; simpl; congruence).
    destruct (set_words_some m1 (padd ap i) 1 _ [0] WA eq_refl) as (m2 & H2).
    pose proof H1 as H1'. pose proof H2 as H2'. rewrite <- stw_set_words in H1', H2'.
    assert (Hstep : keep_step rp ap carry i m = Some m2).
    { unfold keep_step. rewrite Ha. simpl. rewrite Hs. simpl. fold (keep_word carry a s). by rewrite H1'. }
    cbn [iterate]. rewrite Hstep. simpl.
    rewrite <- (words_stw _ _ _ _ _ (padd rp (i + 1)) _ H1'), <- (words_stw _ _ _ _ _ (padd rp (i + 1)) _ H2') in HS'
      by (first [apply follows_padd, follows_refl | left; simpl; congruence]).
    rewrite <- (words_stw _ _ _ _ _ (padd ap (i + 1)) _ H1'), <- (words_stw _ _ _ _ _ (padd ap (i + 1)) _ H2') in HA'
      by (first [apply follows_padd, follows_refl | left; simpl; congruence]).
    destruct (IH (i + 1) m2 S' A' HS' HA') as (m3 & m' & -> & H3 & H4).
    destruct (set_words_comm m1 (padd ap i) [0] m2 (padd rp (i + 1)) _ m3 (not_eq_sym Hne) H2 H3) as (m3' & H3' & H4').
    exists m3', m'. split; [done|].
    rewrite (set_words_stw _ _ _ _ _ _ H1') in H3'. split; [exact H3'|].
    rewrite <- stw_set_words in H4'. by rewrite (set_words_stw _ _ _ _ _ _ H4') in H4.
Qed.

Lemma keep_list b S : words_ok S -> forall A, words_ok A -> zlen A = zlen S ->
  zip_with (keep_word (ConstantTime.mask 64 b)) A S = if b then A else S.
Proof.
  induction 1 as [|s S Hs _ IH]; intros A HA HZ.
  - destruct A; [by destruct b|len_lia].
  - destruct A as [|a A]; [len_lia|]. apply Forall_cons in HA as [Ha HA]. rewrite !zlen_cons in HZ.
    cbn [zip_with]. rewrite IH by (done || lia).
    assert (keep_word (ConstantTime.mask 64 b) a s = if b then a else s) as ->; [|by destruct b].
    by apply select_mask.
Qed.

(** The difference of the sum and the modulus, or the sum where that is smaller. *)
Lemma last_subtraction m ret r np nl A ns old carry : ret <> r ->
  words m (r, nl) nl = Some A -> words m np nl = Some ns -> words m (ret, 0) nl = Some old -> np.1 <> ret ->
  words_ok A -> words_ok ns -> bit_ok carry -> eval A + B ^ nl * carry < 2 * eval ns ->
  exists X m1 m2,
    ('(b, m) ← bn_sub_words m (ret, 0) (r, nl) np nl;
     let carry := u64 (carry - b) in
     m ← iterate (keep_step (ret, 0) (r, nl) carry) (Z.to_nat nl) 0 m;
     Some (1, m)) = Some (1, m2) /\
    set_words m (ret, 0) X = Some m1 /\ set_words m1 (r, nl) (replicate (Z.to_nat nl) 0) = Some m2 /\
    zlen X = nl /\ words_ok X /\
    eval X = let U := eval A + B ^ nl * carry in if U <? eval ns then U else U - eval ns.
Proof.
  intros Hne HA Hn Ho Hnp OA On Hc HU.
  pose proof (words_zlen _ _ _ _ HA) as ZA. pose proof (words_zlen _ _ _ _ Hn) as Zn.
  pose proof (zlen_nonneg A) as PA. pose proof (eval_range A OA) as RA. pose proof (eval_range ns On) as Rn.
  rewrite ZA in RA. rewrite Zn in Rn.
  destruct (sub_words_spec m (ret, 0) (r, nl) np nl A ns old ltac:(left; simpl; congruence) ltac:(by left) HA Hn Ho OA On)
    as (S & b & m1 & -> & HS & ZS & OS & Hb & ES). simpl.
  pose proof (eval_range S OS) as RS. rewrite ZS in RS.
  assert (Em : u64 (carry - b) = ConstantTime.mask 64 (eval A + B ^ nl * carry <? eval ns) /\
    (eval A + B ^ nl * carry < eval ns \/ eval S = eval A + B ^ nl * carry - eval ns)).
  { unfold bit_ok in *. assert (carry = 0 \/ carry = 1) as [-> | ->] by lia; assert (b = 0 \/ b = 1) as [-> | ->] by lia;
      match goal with |- context [?x <? eval ns] => destruct (Z.ltb_spec x (eval ns)) end;
      try lia; split; first [reflexivity | lia]. }
  destruct Em as [-> Hd]. set (low := eval A + B ^ nl * carry <? eval ns) in *.
  pose proof (words_stored _ _ _ _ HS) as WS. rewrite ZS in WS.
  rewrite <- (words_set_words _ _ _ _ (r, nl) _ HS) in HA by (left; simpl; congruence).
  destruct (keep_loop (ConstantTime.mask 64 low) (ret, 0) (r, nl) (Z.to_nat nl) ltac:(done) 0 m1 S A)
    as (m2 & m3 & -> & H2 & H3); [rewrite padd_0, Z2Nat.id by lia; done..|]. rewrite padd_0 in H2, H3. simpl.
  rewrite keep_list in H2 by (done || lia).
  exists (if low then A else S), m2, m3. split; [done|].
  assert (EX : eval (if low then A else S) = if low then eval A + B ^ nl * carry else eval A + B ^ nl * carry - eval ns).
  { unfold low in *. destruct (Z.ltb_spec (eval A + B ^ nl * carry) (eval ns)) as [Hlt|Hge]; [|lia].
    unfold bit_ok in Hc. assert (carry = 0 \/ carry = 1) as [-> | ->] by lia; lia. }
  split; [|split; [done|]; split; [by destruct low|]; split; [by destruct low|exact EX]].
  rewrite <- H2. pose proof (set_words_over m (ret, 0) S m1 0 (if low then A else S) HS ltac:(lia)) as E.
  rewrite padd_0 in E. rewrite E by (destruct low; lia). simpl.
  rewrite drop_ge by (destruct low; unfold zlen in *; lia). by rewrite app_nil_r.
Qed.

(** *** [bn_from_montgomery_word] *)

Section Word.
Context `{Malloc} (sec : Z -> option (list Z)).
Context (m : heap) (ret r : nat) (mont : BN_MONT_CTX) (n x y : BIGNUM).
Context (En : m !! mont_N mont = Some n) (Ex : m !! r = Some x) (Ey : m !! ret = Some y).
Context (Fn : bn_fits n) (Fx : bn_fits x) (Fy : bn_fits y).
Context (Pn : 0 < bn_top n) (Hint : 2 * bn_top n <= INT_MAX).

Lemma neg_xor a b : (a = 0 \/ a = 1) -> (b = 0 \/ b = 1) -> Z.lxor a b = 0 \/ Z.lxor a b = 1.
Proof. intros [-> | ->] [-> | ->]; [left|right|right|left]; reflexivity. Qed.

(** The number to be reduced, in as many words as twice the modulus. *)
Lemma cleared_spec x1 x2 : roomier x x1 -> 2 * bn_top n <= bn_dmax x1 -> bn_top x <= 2 * bn_top n ->
  x2 = x1 <| bn_neg := Z.lxor (bn_neg x1) (bn_neg n) |> ->
  exists d, iterate (clear_step (r, 0) (bn_top x)) (Z.to_nat (2 * bn_top n)) 0 (<[r := x2]> m)
      = Some (<[r := x2 <| bn_d := d |>]> m) /\
    zlen d = bn_dmax x1 /\ words_ok d /\ eval (take (Z.to_nat (2 * bn_top n)) d) = mag x.
Proof using Fx Pn Hint.
  intros (F1 & Hl & Ht & _) Hd Htop ->. set (x2 := x1 <| bn_neg := _ |>). destruct F1 as (Z1 & T1 & O1 & _).
  destruct (rdn_spec (bn_d x1) 0 (2 * bn_top n)) as []; [lia..|].
  set (D := take (Z.to_nat (2 * bn_top n)) (drop (Z.to_nat 0) (bn_d x1))).
  assert (WD : words (<[r := x2]> m) (padd (r, 0) 0) (Z.of_nat (Z.to_nat (2 * bn_top n))) = Some D).
  { unfold words. simpl. rewrite lookup_insert_eq. simpl. rewrite Z2Nat.id, rdn_spec by lia. done. }
  destruct (map_loop (clear_word (bn_top x)) (r, 0) _ 0 _ D WD) as (m' & Hit & Hs). rewrite padd_0 in Hs.
  assert (OD : words_ok D) by (by apply Forall_take).
  assert (ZD : zlen D = 2 * bn_top n) by (unfold D; rewrite drop_0, zlen_take; lia).
  destruct (clear_spec (bn_top x) ltac:(unfold INT_MAX in Hint; destruct Fx as (_ & ? & _); lia) D 0 OD ltac:(lia)
              ltac:(unfold INT_MAX in Hint; lia)) as (ZC & OC & EC).
  apply set_words_lookup in Hs as (b & d & Eb & Hw & ->). simpl in *. rewrite lookup_insert_eq in Eb.
  injection Eb as <-. rewrite insert_insert_eq in Hit. exists d. split; [exact Hit|].
  pose proof (wrn_length _ _ _ _ Hw) as Zd. unfold wrn in Hw. case_bool_decide; [|done]. injection Hw as <-.
  simpl in *. split; [unfold x2 in Zd; simpl in Zd; lia|].
  split; [apply Forall_app; split; [done|by apply Forall_drop]|].
  rewrite take_app_length' by (unfold zlen in *; lia). rewrite EC, Z.sub_0_r. unfold D. rewrite drop_0, take_take.
  rewrite Nat.min_l by lia. unfold mag. rewrite <- Hl. unfold limbs. by rewrite Ht.
Qed.
Context (Nrr : ret <> r) (Nnr : mont_N mont <> r) (Nnret : mont_N mont <> ret).
Context (Hn0 : (mag n * (mont_n0 mont).1 + 1) mod B = 0) (Htop : bn_top x <= 2 * bn_top n).
Context (Hx : mag x < mag n * B ^ bn_top n).

(** The reduced number in the place of [y]. *)
Definition reduction (y' : BIGNUM) : Prop :=
  bn_fits y' /\ bn_top y' = bn_top n /\ bn_neg y' = Z.lxor (bn_neg x) (bn_neg n) /\ bn_flags y' = bn_flags y /\
  mag y' < mag n /\ (mag y' * B ^ bn_top n) mod mag n = mag x mod mag n.

(** From the end of the clearing to the end: the loop and the subtraction. *)
Lemma reduce_cleared x4 d : zlen d = bn_dmax x4 -> words_ok d -> bn_d x4 = d -> 2 * bn_top n <= bn_dmax x4 ->
  eval (take (Z.to_nat (2 * bn_top n)) d) = mag x -> bn_neg x4 = Z.lxor (bn_neg x) (bn_neg n) ->
  exists rv x' y',
    ('(carry, m) ← iterate (mont_step (r, 0) (mont_N mont, 0) (bn_top n) (mont_n0 mont).1) (Z.to_nat (bn_top n)) 0
                     (0, <[r := x4]> m);
     '(ok, m) ← bn_wexpand sec m ret (bn_top n);
     if negb ok then Some (0, m)
     else
       x ← m !! r;
       m ← bn_set m ret (fun y => y <| bn_top := bn_top n |> <| bn_flags := Z.lor (bn_flags y) BN_FLG_FIXED_TOP |>
                                    <| bn_neg := bn_neg x |>);
       '(b, m) ← bn_sub_words m (ret, 0) (r, bn_top n) (mont_N mont, 0) (bn_top n);
       let carry := u64 (carry - b) in
       m ← iterate (keep_step (ret, 0) (r, bn_top n) carry) (Z.to_nat (bn_top n)) 0 m;
       Some (1, m)) = Some (rv, <[ret := y']> (<[r := x']> m)) /\
    (rv = 1 /\ reduction y' \/ rv = 0 /\ y' = y) /\ (bn_top n <= bn_dmax y -> rv = 1).
Proof using All.
  intros Zd Od Ed Hd Hv Hneg. pose proof (zlen_limbs n Fn) as Zn. pose proof (limbs_ok n Fn) as On.
  assert (Wn : words (<[r := x4]> m) (mont_N mont, 0) (bn_top n) = Some (limbs n))
    by (rewrite words_insert_ne by done; by apply words_limbs).
  assert (Wx : words (<[r := x4]> m) (r, 0) (2 * bn_top n) = Some (take (Z.to_nat (2 * bn_top n)) d)).
  { unfold words. simpl. rewrite lookup_insert_eq. simpl. rewrite Ed, rdn_spec by lia. done. }
  assert (H0 : reduced (r, 0) (bn_top n) (mag x) (limbs n) (<[r := x4]> m) 0 0 (<[r := x4]> m)).
  { exists (take (Z.to_nat (2 * bn_top n)) d), 0. split; [by eapply set_words_same|].
    split; [apply zlen_take; lia|]. split; [by apply Forall_take|]. rewrite Hv.
    unfold bit_ok. split_and!; try done; lia. }
  destruct (mont_loop_spec (r, 0) (mont_N mont, 0) (bn_top n) (mont_n0 mont).1 (mag x) (limbs n) On Zn Pn Hn0
              _ Nnr Wn (Z.to_nat (bn_top n)) 0 0 _ H0) as (carry & m5 & -> & H5); [lia..|].
  rewrite Z2Nat.id, Z.add_0_l in H5 by lia. simpl.
  destruct (reduced_value _ _ _ _ Zn Pn _ _ _ H5) as (A & L & HLA & ZL & ZA & OA & Hc & HU & HM);
    [split; [apply mag_range, Fx|exact Hx]|]. clear H5 H0 Wx.
  apply set_words_lookup in HLA as HL'. destruct HL' as (b & d5 & Eb & _ & ->). simpl in Eb.
  rewrite lookup_insert_eq in Eb. injection Eb as <-. simpl fst in *. rewrite insert_insert_eq in *.
  set (x5 := x4 <| bn_d := d5 |>) in *.
  assert (Ey5 : <[r := x5]> m !! ret = Some y) by (by rewrite lookup_insert_ne).
  destruct (wexpand_spec sec _ ret y (bn_top n) Ey5 Fy) as [E|(y1 & E & R1 & D1)]; rewrite E; simpl.
  { exists 0, x5, y. rewrite (insert_id _ ret y Ey5). split; [done|]. split; [by right|].
    intros Hdy. unfold bn_wexpand in E. rewrite Ey5 in E. simpl in E. by rewrite (proj2 (Z.leb_le _ _) Hdy) in E. }
  rewrite (lookup_insert_ne _ ret r y1 Nrr), lookup_insert_eq. simpl.
  unfold bn_set. rewrite lookup_insert_eq. simpl. rewrite insert_insert_eq.
  match goal with |- context [<[ret := ?yy]> (<[r := x5]> m)] => set (y2 := yy) end.
  destruct R1 as ((Zy & Ty & Oy & _) & _ & _ & _ & Fl).
  assert (HA : words (<[ret := y2]> (<[r := x5]> m)) (r, bn_top n) (bn_top n) = Some A).
  { rewrite words_insert_ne by done. rewrite <- (app_nil_r A) in HLA.
    exact (words_mid _ (r, 0) L A [] _ _ _ HLA ZL ZA). }
  assert (Hn : words (<[ret := y2]> (<[r := x5]> m)) (mont_N mont, 0) (bn_top n) = Some (limbs n))
    by (rewrite !words_insert_ne by done; by apply words_limbs).
  destruct (words_room (<[r := x5]> m) ret y2 0 (bn_top n) ltac:(done)) as (old & Ho); [lia|lia|unfold y2; simpl; lia|].
  destruct (last_subtraction _ ret r (mont_N mont, 0) (bn_top n) A (limbs n) old carry Nrr HA Hn Ho Nnret OA On Hc
              ltac:(apply HU)) as (X & m1 & m2 & Hrun & HX & HR & ZX & OX & EX).
  setoid_rewrite Hrun. clear Hrun.
  destruct (stored_number (<[r := x5]> m) ret y2 X m1 (bn_top n) (bn_neg x5) HX) as (dy & -> & _ & Fy' & Ly);
    [done|done|done|lia|change (bn_neg x5) with (bn_neg x4); rewrite Hneg; apply neg_xor; [apply Fx|apply Fn]|].
  apply set_words_lookup in HR as (b & d9 & Eb & _ & ->). simpl in Eb.
  rewrite lookup_insert_ne, lookup_insert_eq in Eb by done. injection Eb as <-.
  set (y' := y2 <| bn_d := dy |>) in *. simpl fst.
  exists 1, (x5 <| bn_d := d9 |>), y'. split; [|split; [left; split; [done|]|done]].
  { do 2 f_equal. rewrite insert_insert_ne by done. by rewrite insert_insert_eq. }
  change (bn_fits y') in Fy'. change (limbs y' = take (Z.to_nat (bn_top n)) X) in Ly.
  assert (EM : mag y' = eval X) by (unfold mag; rewrite Ly, take_all by done; done).
  unfold reduction. rewrite EM, EX. cbv zeta. fold (mag n) in HU, HM |- *.
  split; [exact Fy'|]. split; [done|]. split; [exact Hneg|]. split; [rewrite <- Fl; apply Z.lor_0_r|].
  rewrite <- HM. destruct (Z.ltb_spec (eval A + B ^ bn_top n * carry) (mag n)); split; try lia.
  rewrite Z.mul_sub_distr_r, Zminus_mod, (Z.mul_comm (mag n)), Z_mod_mult, Z.sub_0_r. by rewrite Zmod_mod.
Qed.

Lemma from_montgomery_word_spec : exists rv x' y',
  bn_from_montgomery_word sec m ret r mont = Some (rv, <[ret := y']> (<[r := x']> m)) /\
  (rv = 1 /\ reduction y' \/ rv = 0 /\ y' = y) /\
  (2 * bn_top n <= bn_dmax x -> bn_top n <= bn_dmax y -> rv = 1).
Proof using All.
  unfold bn_from_montgomery_word. rewrite En. simpl. rewrite (proj2 (Z.eqb_neq _ _)) by lia.
  destruct (wexpand_spec sec m r x (2 * bn_top n) Ex Fx) as [E|(x1 & E & R1 & D1)]; rewrite E; simpl.
  { exists 0, x, y. rewrite (insert_id m r x Ex), (insert_id m ret y Ey). split; [done|]. split; [by right|].
    intros Hd _. unfold bn_wexpand in E. rewrite Ex in E. simpl in E. by rewrite (proj2 (Z.leb_le _ _) Hd) in E. }
  unfold bn_set. rewrite lookup_insert_eq. simpl. rewrite insert_insert_eq, lookup_insert_eq. simpl.
  pose proof R1 as (_ & _ & Ht & Hneg & _).
  destruct (cleared_spec x1 _ R1 D1 Htop eq_refl) as (d & Hit & Zd & Od & Hv).
  rewrite <- Ht in Hit.
  match goal with |- context [iterate ?f ?k 0 (<[r := ?xx]> m)] =>
    replace (iterate f k 0 (<[r := xx]> m)) with (Some (<[r := xx <| bn_d := d |>]> m)) by (symmetry; exact Hit) end.
  simpl. rewrite lookup_insert_eq. simpl. rewrite insert_insert_eq.
  match goal with |- context [iterate _ _ _ (0, <[r := ?xx]> m)] => set (x4 := xx) end.
  destruct (reduce_cleared x4 d Zd Od eq_refl D1 Hv) as (rv & x' & y' & Hrun & Hr & Hroom);
    [unfold x4; simpl; by rewrite Hneg|].
  exists rv, x', y'. split; [exact Hrun|]. split; [exact Hr|]. by intros _.
Qed.
End Word.

(** What [BN_from_montgomery] leaves in the place of the result. *)
Definition reduced_normal (n x y' : BIGNUM) : Prop :=
  bn_ok y' /\ 0 <= mag y' < mag n /\ (mag y' * B ^ bn_top n) mod mag n = mag x mod mag n /\
  bn_neg y' = if mag y' =? 0 then 0 else Z.lxor (bn_neg x) (bn_neg n).

(** C35: [BN_from_montgomery] with a temporary number: the result is normalised, less than the
    modulus, and the number divided by [R] modulo it; the number itself is not changed,
    unless it is the result.  Without memory the value of the result, its sign included, is unchanged;
    with room in the result and in the temporary number there is no failure. *)
Theorem BN_from_montgomery_correct `{Malloc} (sec : Z -> option (list Z)) m ret a mont t n x y z :
  m !! mont_N mont = Some n -> m !! a = Some x -> m !! ret = Some y -> m !! t = Some z ->
  bn_fits n -> bn_fits x -> bn_fits y -> bn_fits z ->
  t <> a -> t <> ret -> t <> mont_N mont -> mont_N mont <> ret -> 0 < bn_top n -> 2 * bn_top n <= INT_MAX ->
  (mag n * (mont_n0 mont).1 + 1) mod B = 0 -> bn_top x <= 2 * bn_top n -> mag x < mag n * B ^ bn_top n ->
  exists rv z' y',
    BN_from_montgomery sec m ret a mont (Some t) = Some (rv, <[ret := y']> (<[t := z']> m)) /\
    (rv = 1 /\ reduced_normal n x y' \/ rv = 0 /\ bn_ok y' /\ value y' = value y) /\
    (2 * bn_top n <= bn_dmax z -> bn_top n <= bn_dmax y -> rv = 1).
Proof.
  intros En Ex Ey Ez Fn Fx Fy Fz Nta Ntr Ntn Nnr Pn Hint Hn0 Htop Hx.
  unfold BN_from_montgomery, bn_from_mont_fixed_top.
  destruct (copy_spec sec m t a z x Nta Ez Ex Fz Fx) as [(E & Hd & _)|(z1 & E & (Fz1 & Ll & Lt & Ln) & Hd & _)]; rewrite E; simpl.
  - destruct (correct_top_spec m ret y Ey Fy) as (y' & -> & Hok & Hm & _ & _ & Hneg). simpl.
    exists 0, z, y'. rewrite (insert_id m t z Ez). split; [done|]. pose proof (value_corrected y y' Hm Hneg).
    split; [by right|lia].
  - assert (Em : mag z1 = mag x) by (unfold mag; by rewrite Ll).
    destruct (from_montgomery_word_spec sec (<[t := z1]> m) ret t mont n z1 y) as (rv & x' & y1 & -> & Hr & Hroom);
      try done; try (by rewrite lookup_insert_ne); try (by rewrite lookup_insert_eq); [lia|by rewrite Em|].
    simpl. rewrite insert_insert_eq. set (m1 := <[ret := y1]> (<[t := x']> m)).
    assert (Fy1 : bn_fits y1) by (destruct Hr as [[_ Hr]|[_ ->]]; [apply Hr|done]).
    destruct (correct_top_spec m1 ret y1 (lookup_insert_eq _ _ _) Fy1) as (y' & -> & Hok & Hm & _ & _ & Hneg). simpl.
    exists rv, x', y'. unfold m1. rewrite insert_insert_eq. split; [done|].
    split; [|intros; apply Hroom; lia].
    destruct Hr as [[-> (_ & _ & Hs & _ & Hlt & Hmod)]|[-> ->]]; [left|right; split; [done|]; split; [done|]; by apply value_corrected]. split; [done|].
    unfold reduced_normal. rewrite Hm, Hneg, Hs, <- Em, Ln. pose proof (mag_range y1 Fy1). split_and!; done || lia.
Qed.

(** ** Witnesses *)

#[local] Existing Instance generous_malloc.

(** A modulus of two words and a number of four words just below the modulus times [R];
    the result and the temporary number have room. *)
Definition modulus : BIGNUM := number [0xfffffffffffffff1; 0x3] 0.
Definition to_reduce : BIGNUM := number [0xffffffffffffcfc7; 0xffffffffffffffff; 0xfffffffffffffff0; 0x3] 1.
Definition mont_heap : heap :=
  {[ 0%nat := modulus; 1%nat := to_reduce; 2%nat := number [0;0] 0; 3%nat := number [0;0;0;0] 0 ]}.
Definition mont_ctx : BN_MONT_CTX := mk_BN_MONT_CTX 128 4 0 5 (0xeeeeeeeeeeeeeeef, 0) 0.

Lemma number_fits l neg : words_ok l -> (neg = 0 \/ neg = 1) -> bn_fits (number l neg).
Proof. intros. pose proof (zlen_nonneg l). unfold bn_fits. simpl. split_and!; done || lia. Qed.

Ltac concrete_number := apply number_fits; [repeat constructor; done|first [by left|by right]].

Lemma bn_mul_normal_correct_witness :
  exists m' P, bn_mul_normal mont_heap (3%nat, 0) (0%nat, 0) 2 (1%nat, 2) 2 = Some m' /\
    words m' (3%nat, 0) 4 = Some P /\ eval P = mag modulus * eval (drop 2 (bn_d to_reduce)).
Proof.
  destruct (bn_mul_normal_correct mont_heap (3%nat, 0) (0%nat, 0) (1%nat, 2) 2 2 (bn_d modulus) (drop 2 (bn_d to_reduce)) [0;0;0;0])
    as (m' & P & Hrun & HP & ZP & _ & E); try done; try (repeat constructor; done).
  exists m', P. split; [exact Hrun|]. split; [|exact E]. change 4 with (2 + 2). rewrite <- ZP. by apply words_stored with mont_heap.
Defined.

Lemma BN_from_montgomery_correct_witness :
  exists m' y', BN_from_montgomery no_secure mont_heap 2 1 mont_ctx (Some 3%nat) = Some (1, m') /\
    m' !! 2%nat = Some y' /\ (mag y' * B ^ 2) mod mag modulus = mag to_reduce mod mag modulus.
Proof.
  destruct (BN_from_montgomery_correct no_secure mont_heap 2 1 mont_ctx 3 modulus to_reduce (number [0;0] 0) (number [0;0;0;0] 0)
              eq_refl eq_refl eq_refl eq_refl ltac:(concrete_number) ltac:(concrete_number) ltac:(concrete_number) ltac:(concrete_number)
              ltac:(done) ltac:(done) ltac:(done) ltac:(done) ltac:(by vm_compute) ltac:(by vm_compute) ltac:(by vm_compute)
              ltac:(by vm_compute) ltac:(by vm_compute)) as (rv & z' & y' & Hrun & Hr & Hroom).
  assert (Hrv : rv = 1) by (apply Hroom; by vm_compute). destruct Hr as [(_ & _ & _ & Hmod & _)|[Hrv' _]]; [|lia].
  eexists _, y'. split; [rewrite <- Hrv; exact Hrun|]. split; [apply lookup_insert_eq|exact Hmod].
Defined.
