(* ===== verification/BnCodec.v ===== *)
(** * Big numbers as bytes

    From [src/crypto/bn/bn_lib.c]: the number of bits of a word and of a number,
    [BN_bin2bn] and [BN_lebin2bn], which read a number from big-endian or
    little-endian bytes, and [bn2binpad], which writes one, padded to a given length,
    without a branch on its words. *)

From S2P Require Import Prelude Mem ConstantTime Words Bignum.
From stdpp Require Import gmap.
#[local] Open Scope Z_scope.
#[local] Open Scope tls_scope.

(** ** The number of bits *)

(** Half of the bits that are left: [bits] grows when the upper half is not zero, and the
    search goes on in the half that counts. *)
Definition bits_step (k : Z) (s : Z * Z) : Z * Z :=
  let '(bits, l) := s in
  let x := Z.shiftr l k in
  let mask := Z.land (0 - x) BN_MASK2 in
  let mask := u64 (0 - Z.shiftr mask (BN_BITS2 - 1)) in
  (bits + Z.land k mask, Z.lxor l (Z.land (Z.lxor x l) mask)).

(** The last step does not need the word any more. *)
Definition BN_num_bits_word (l : Z) : Z :=
  let bits := Z.b2z (negb (l =? 0)) in
  (bits_step 1 (bits_step 2 (bits_step 4 (bits_step 8 (bits_step 16 (bits_step 32 (bits, l))))))).1.

(** A block holds at most [bn_words_limit] words ([bn_expand_internal]), so that no number
    of bits leaves the range of an [int]. *)
Definition bn_words_limit : Z := INT_MAX / (4 * BN_BITS2).

Fixpoint num_bits_loop (d : list Z) (n : nat) (j i past_i ret : Z) : option Z :=
  match n with
  | O => Some ret
  | S n =>
      let mask := constant_time_eq_int i j in
      let ret := ret + Z.land BN_BITS2 (Z.land (u32 (Z.lnot mask)) (u32 (Z.lnot past_i))) in
      w ← rd d j;
      let ret := ret + Z.land (BN_num_bits_word w) mask in
      num_bits_loop d n (j + 1) i (Z.lor past_i mask) ret
  end.

Definition bn_num_bits_consttime (a : BIGNUM) : option Z :=
  let i := bn_top a - 1 in
  ret ← num_bits_loop (bn_d a) (Z.to_nat (bn_dmax a)) 0 i 0 0;
  let mask := u32 (Z.lnot (constant_time_eq_int i (-1))) in
  Some (Z.land ret mask).

Definition BN_num_bits (a : BIGNUM) : option Z :=
  let i := bn_top a - 1 in
  if has_bits (bn_flags a) BN_FLG_CONSTTIME then bn_num_bits_consttime a
  else if BN_is_zero a then Some 0
  else w ← rd (bn_d a) i; Some (i * BN_BITS2 + BN_num_bits_word w).

Definition BN_num_bytes (a : BIGNUM) : option Z := bits ← BN_num_bits a; Some ((bits + 7) / 8).

(** ** Reading *)

Section Read.
Context `{Malloc} (OPENtls_secure_zalloc : Z -> option (list Z)).

Definition sizeof_BIGNUM : Z := 24.

(** A number that no other pointer refers to. *)
Definition BN_new (m : heap) : option (nat * heap) :=
  match CRYPTO_zalloc sizeof_BIGNUM with
  | None => None
  | Some _ => let i := fresh (dom m) in Some (i, <[i := mk_BIGNUM [] 0 0 0 BN_FLG_MALLOCED]> m)
  end.

(** [s] is what the pointer still points to, from either end; so is [k], the number of
    bytes passed over. *)
Fixpoint skip_zeros (next : Z -> option Z) (len : nat) (k : Z) : option Z :=
  match len with
  | O => Some k
  | S len => b ← next k; if b =? 0 then skip_zeros next len (k + 1) else Some k
  end.

Fixpoint bin_loop (next : Z -> option Z) (n : nat) (k l m i : Z) (d : list Z) : option (list Z) :=
  match n with
  | O => Some d
  | S n =>
      b ← next k;
      let l := Z.lor (u64 (Z.shiftl l 8)) b in
      if m =? 0 then
        d ← wr d (i - 1) l;
        bin_loop next n (k + 1) 0 (sizeof_BN_ULONG - 1) (i - 1) d
      else bin_loop next n (k + 1) l (m - 1) i d
  end.

(** [next k] is the byte after [k] others; the result is NULL or the number.  A number
    that was made for the purpose is freed when it cannot be given room. *)
Definition read_into (m : heap) (next : Z -> option Z) (len : Z) (ret : nat) (bn : bool) : option (option nat * heap) :=
  k ← skip_zeros next (Z.to_nat len) 0;
  let n := u32 (len - k) in
  if n =? 0 then m ← bn_set m ret (fun x => x <| bn_top := 0 |>); Some (Some ret, m)
  else
    let i := (n - 1) / sizeof_BN_ULONG + 1 in
    let mm := (n - 1) `mod` sizeof_BN_ULONG in
    '(ok, m) ← bn_wexpand OPENtls_secure_zalloc m ret i;
    if negb ok then Some (None, if bn then delete ret m else m)
    else
      m ← bn_set m ret (fun x => x <| bn_top := i |> <| bn_neg := 0 |>);
      x ← m !! ret;
      d ← bin_loop next (Z.to_nat n) k 0 mm i (bn_d x);
      m ← bn_set m ret (fun x => x <| bn_d := d |>);
      m ← bn_correct_top m ret;
      Some (Some ret, m).

Definition read_bytes (m : heap) (next : Z -> option Z) (len : Z) (ret : option nat) : option (option nat * heap) :=
  match ret with
  | Some ret => read_into m next len ret false
  | None => match BN_new m with None => Some (None, m) | Some (ret, m) => read_into m next len ret true end
  end.

Definition BN_bin2bn (m : heap) (s : list Z) (len : Z) (ret : option nat) : option (option nat * heap) :=
  read_bytes m (fun k => rd s k) len ret.

Definition BN_lebin2bn (m : heap) (s : list Z) (len : Z) (ret : option nat) : option (option nat * heap) :=
  read_bytes m (fun k => rd s (len - 1 - k)) len ret.
End Read.

(** ** Writing *)

Inductive endianess_t := big | little.

Fixpoint bn2bin_loop (d : list Z) (atop lasti tolen : Z) (e : endianess_t) (n : nat) (i j : Z) (to : list Z)
  : option (list Z) :=
  match n with
  | O => Some to
  | S n =>
      l ← rd d (i / sizeof_BN_ULONG);
      let mask := sz (0 - Z.shiftr (sz (j - atop)) (8 * 8 - 1)) in
      let val := u8 (Z.land (Z.shiftr l (8 * (i `mod` sizeof_BN_ULONG))) mask) in
      to ← wr to (match e with big => tolen - 1 - j | little => j end) val;
      bn2bin_loop d atop lasti tolen e n (sz (i + Z.shiftr (sz (i - lasti)) (8 * 8 - 1))) (j + 1) to
  end.

(** [to] is the block the bytes are written to; [temp] is an object of its own, whose
    words are only read. *)
Definition bn2binpad (a : BIGNUM) (to : list Z) (tolen : Z) (e : endianess_t) : option (Z * list Z) :=
  n ← BN_num_bytes a;
  let tolen' := if tolen =? -1 then n else tolen in
  too_short ← (if negb (tolen =? -1) && (tolen <? n) then
                 m ← bn_correct_top {[0%nat := a]} 0%nat;
                 temp ← m !! 0%nat;
                 n ← BN_num_bytes temp;
                 Some (tolen <? n)
               else Some false);
  if (too_short : bool) then Some (-1, to)
  else
    let tolen := tolen' in
    let atop := bn_dmax a * sizeof_BN_ULONG in
    if atop =? 0 then to ← wrn to 0 (replicate (Z.to_nat tolen) 0); Some (tolen, to)
    else
      let lasti := atop - 1 in
      let atop := bn_top a * sizeof_BN_ULONG in
      to ← bn2bin_loop (bn_d a) atop lasti tolen e (Z.to_nat tolen) 0 0 to;
      Some (tolen, to).

Definition BN_bn2binpad (a : BIGNUM) (to : list Z) (tolen : Z) : option (Z * list Z) :=
  if tolen <? 0 then Some (-1, to) else bn2binpad a to tolen big.
Definition BN_bn2bin (a : BIGNUM) (to : list Z) : option (Z * list Z) := bn2binpad a to (-1) big.
Definition BN_bn2lebinpad (a : BIGNUM) (to : list Z) (tolen : Z) : option (Z * list Z) :=
  if tolen <? 0 then Some (-1, to) else bn2binpad a to tolen little.

(** ** Properties *)

(** *** Bits *)

Lemma bits_step_spec k bits l : 0 < k <= 32 -> 0 <= l < 2 ^ (2 * k) ->
  let '(bits', l') := bits_step k (bits, l) in bits' + Z.log2 l' = bits + Z.log2 l /\ 0 <= l' < 2 ^ k.
Proof.
  intros Hk Hl. unfold bits_step. rewrite mask2, (Z.shiftr_div_pow2 l k) by lia.
  pose proof (Z.pow_pos_nonneg 2 k ltac:(lia) ltac:(lia)) as Pk.
  assert (Hx : 0 <= l / 2 ^ k < 2 ^ k).
  { split; [apply Z.div_pos; lia|]. apply Z.div_lt_upper_bound; [lia|]. rewrite <- Z.pow_add_r by lia.
    replace (k + k) with (2 * k) by lia. lia. }
  assert (H32 : 2 ^ k <= 2 ^ 32) by (apply Z.pow_le_mono_r; lia).
  destruct (Z.eq_dec (l / 2 ^ k) 0) as [E|E].
  - rewrite E. change (u64 (0 - Z.shiftr (u64 (0 - 0)) (BN_BITS2 - 1))) with 0.
    rewrite !Z.land_0_r, Z.lxor_0_r. apply Z.div_small_iff in E; [|lia]. lia.
  - assert (u64 (0 - Z.shiftr (u64 (0 - l / 2 ^ k)) (BN_BITS2 - 1)) = Z.ones 64) as ->.
    { rewrite Z.shiftr_div_pow2 by (unfold BN_BITS2; lia). change (BN_BITS2 - 1) with 63.
      assert (u64 (0 - l / 2 ^ k) / 2 ^ 63 = 1) as ->; [|done]. unfold u64. revert Hx E H32.
      generalize (l / 2 ^ k). intros x Hx E H32. lia_div. }
    rewrite !Z.land_ones by lia. rewrite (Z.mod_small k) by lia.
    assert (Hlx : Z.lxor (l / 2 ^ k) l mod 2 ^ 64 = Z.lxor (l / 2 ^ k) l).
    { apply Z.mod_small. apply (lxor_range 64); [done|revert Hx H32; generalize (l / 2 ^ k); lia|].
      split; [lia|]. eapply Z.lt_le_trans; [apply Hl|]. apply Z.pow_le_mono_r; lia. }
    rewrite Hlx, (Z.lxor_comm (l / 2 ^ k)), <- Z.lxor_assoc, Z.lxor_nilpotent, Z.lxor_0_l.
    split; [|done].
    assert (Hlk : 2 ^ k <= l) by (destruct (Z.ltb_spec l (2 ^ k)); [rewrite Z.div_small in E by lia; done|lia]).
    rewrite <- Z.shiftr_div_pow2, Z.log2_shiftr by lia.
    pose proof (Z.log2_le_mono _ _ Hlk) as Hlog. rewrite Z.log2_pow2 in Hlog by lia. lia.
Qed.

(** The length of the binary notation of a number. *)
Definition bit_length (v : Z) : Z := if v =? 0 then 0 else Z.log2 v + 1.

Lemma num_bits_word_spec l : word_ok l -> BN_num_bits_word l = bit_length l.
Proof.
  intros Hl. unfold BN_num_bits_word.
  pose proof (bits_step_spec 32 (Z.b2z (negb (l =? 0))) l ltac:(lia) Hl) as H1. destruct (bits_step 32 _) as [b1 l1].
  pose proof (bits_step_spec 16 b1 l1 ltac:(lia) ltac:(apply H1)) as H2. destruct (bits_step 16 _) as [b2 l2].
  pose proof (bits_step_spec 8 b2 l2 ltac:(lia) ltac:(apply H2)) as H3. destruct (bits_step 8 _) as [b3 l3].
  pose proof (bits_step_spec 4 b3 l3 ltac:(lia) ltac:(apply H3)) as H4. destruct (bits_step 4 _) as [b4 l4].
  pose proof (bits_step_spec 2 b4 l4 ltac:(lia) ltac:(apply H4)) as H5. destruct (bits_step 2 _) as [b5 l5].
  pose proof (bits_step_spec 1 b5 l5 ltac:(lia) ltac:(apply H5)) as H6. destruct (bits_step 1 _) as [b6 l6].
  destruct H1 as [E1 _], H2 as [E2 _], H3 as [E3 _], H4 as [E4 _], H5 as [E5 _], H6 as [E6 H6]. simpl fst.
  assert (Z.log2 l6 = 0) by (assert (l6 = 0 \/ l6 = 1) as [-> | ->] by lia; done).
  unfold bit_length. destruct (Z.eqb_spec l 0) as [->|]; simpl in *; lia.
Qed.

Lemma bit_length_lt v n : 0 <= v -> 0 <= n -> bit_length v <= n <-> v < 2 ^ n.
Proof.
  intros Hv Hn. unfold bit_length. destruct (Z.eqb_spec v 0) as [->|].
  - pose proof (Z.pow_pos_nonneg 2 n). lia.
  - rewrite Z.log2_lt_pow2 by lia. lia.
Qed.

Lemma eq_int_spec i j : - 2 ^ 31 <= i < 2 ^ 31 -> - 2 ^ 31 <= j < 2 ^ 31 ->
  constant_time_eq_int i j = ConstantTime.mask 32 (i =? j).
Proof. intros. unfold constant_time_eq_int. by rewrite eq_spec, u32_inj_int by (apply u32_range || done). Qed.

Lemma bit_length_app low w k : 0 <= k -> 0 <= low < 2 ^ k -> 0 < w ->
  bit_length (low + 2 ^ k * w) = k + bit_length w.
Proof.
  intros Hk Hl Hw. pose proof (Z.pow_pos_nonneg 2 k ltac:(lia) Hk). unfold bit_length.
  rewrite !(proj2 (Z.eqb_neq _ _)) by nia. rewrite Z.add_assoc. f_equal.
  apply Z.log2_unique; [pose proof (Z.log2_nonneg w); lia|].
  destruct (Z.log2_spec w Hw) as [H1 H2]. pose proof (Z.log2_nonneg w).
  rewrite Z.pow_succ_r in * by lia. rewrite Z.pow_add_r by lia. nia.
Qed.

Lemma bit_length_word w : word_ok w -> 0 <= bit_length w <= 64.
Proof.
  intros Hw. split; [unfold bit_length; case_match; [done|]; pose proof (Z.log2_nonneg w); lia|].
  apply bit_length_lt; [apply Hw|lia|apply Hw].
Qed.

Lemma land_mask32 w b : 0 <= w < 2 ^ 32 -> Z.land w (ConstantTime.mask 32 b) = if b then w else 0.
Proof. intros. rewrite Z.land_comm. by apply land_mask. Qed.

Lemma rd_word_ok d j w : words_ok d -> rd d j = Some w -> word_ok w.
Proof.
  intros Hd. unfold rd. case_match; [done|]. intros Hw. by eapply Forall_lookup_1.
Qed.

(** After the top word nothing is added any more. *)
Lemma num_bits_past d n : words_ok d -> forall j i ret, (Z.to_nat j + n <= length d)%nat -> 0 <= i < j ->
  j + Z.of_nat n <= 2 ^ 31 ->
  num_bits_loop d n j i (ConstantTime.mask 32 true) ret = Some ret.
Proof.
  intros Hd. induction n as [|n IH]; intros j i ret Hn Hij Hb; [done|]. cbn [num_bits_loop].
  rewrite eq_int_spec, (proj2 (Z.eqb_neq _ _)) by lia.
  destruct (rd_in d j) as [w Hw]; [unfold zlen; lia|]. rewrite Hw. cbn [mbind option_bind].
  change (Z.lor (ConstantTime.mask 32 true) (ConstantTime.mask 32 false)) with (ConstantTime.mask 32 true).
  rewrite IH by lia. f_equal. change (ConstantTime.mask 32 false) with 0.
  change (Z.land BN_BITS2 _) with 0. rewrite Z.land_0_r. lia.
Qed.

Lemma num_bits_before d n : words_ok d -> forall j i ret w, (Z.to_nat j + n <= length d)%nat -> 0 <= j <= i ->
  i < j + Z.of_nat n -> j + Z.of_nat n <= 2 ^ 31 -> rd d i = Some w ->
  num_bits_loop d n j i 0 ret = Some (ret + 64 * (i - j) + bit_length w).
Proof.
  intros Hd. induction n as [|n IH]; intros j i ret w Hn Hij Hi Hb Hw; [lia|]. cbn [num_bits_loop].
  rewrite eq_int_spec by lia. destruct (rd_in d j) as [v Hv]; [unfold zlen; lia|]. rewrite Hv. cbn [mbind option_bind].
  pose proof (rd_word_ok _ _ _ Hd Hv) as Hvo. pose proof (bit_length_word v Hvo).
  rewrite num_bits_word_spec, land_mask32 by (done || lia).
  destruct (Z.eqb_spec i j) as [->|Hne].
  - change (Z.lor 0 (ConstantTime.mask 32 true)) with (ConstantTime.mask 32 true).
    rewrite num_bits_past by (done || lia). rewrite Hw in Hv. injection Hv as ->.
    change (Z.land BN_BITS2 _) with 0. f_equal. lia.
  - change (Z.lor 0 (ConstantTime.mask 32 false)) with 0. rewrite (IH (j + 1) i _ w) by (done || lia).
    change (Z.land BN_BITS2 _) with 64. f_equal. lia.
Qed.

Lemma num_bits_total d n : forall j i past ret, (Z.to_nat j + n <= length d)%nat -> 0 <= j ->
  exists r, num_bits_loop d n j i past ret = Some r.
Proof.
  induction n as [|n IH]; intros j i past ret Hn Hj; [by eexists|]. cbn [num_bits_loop].
  destruct (rd_in d j) as [v ->]; [unfold zlen; lia|]. cbn [mbind option_bind]. apply IH; lia.
Qed.

(** The top word of a number; with leading zeros it may be zero. *)
Lemma mag_top_word x : bn_fits x -> 0 < bn_top x -> exists w low, rd (bn_d x) (bn_top x - 1) = Some w /\
  word_ok w /\ 0 <= low < 2 ^ (64 * (bn_top x - 1)) /\ mag x = low + 2 ^ (64 * (bn_top x - 1)) * w /\
  (normal x -> 0 < w).
Proof.
  intros (Hz & Ht & Ho & _) Hp.
  destruct (rd_in (bn_d x) (bn_top x - 1)) as [w Hw]; [lia|].
  exists w, (eval (take (Z.to_nat (bn_top x - 1)) (bn_d x))). split; [done|].
  pose proof (rd_word_ok _ _ _ Ho Hw) as Hwo. split; [done|].
  pose proof (take_word (bn_d x) (Z.to_nat (bn_top x - 1)) w ltac:(by rewrite Z2Nat.id by lia)) as E.
  replace (S (Z.to_nat (bn_top x - 1))) with (Z.to_nat (bn_top x)) in E by lia. rewrite Z2Nat.id in E by lia.
  fold (limbs x) in E. fold (mag x) in E.
  pose proof (eval_range (take (Z.to_nat (bn_top x - 1)) (bn_d x)) ltac:(by apply Forall_take)) as Hr.
  rewrite zlen_take in Hr by lia. unfold word_ok in Hwo.
  assert (EB : B ^ (bn_top x - 1) = 2 ^ (64 * (bn_top x - 1))) by (unfold B; rewrite <- Z.pow_mul_r by lia; done).
  rewrite EB in Hr, E. split; [done|]. split; [exact E|]. intros [Hn _]. specialize (Hn Hp). rewrite EB in Hn.
  destruct (Z.eq_dec w 0) as [->|]; lia.
Qed.

Lemma num_bits_spec x : bn_fits x -> bn_dmax x <= bn_words_limit -> exists n,
  BN_num_bits x = Some n /\ 0 <= n <= 64 * bn_top x /\ mag x < 2 ^ n /\ (normal x -> n = bit_length (mag x)).
Proof.
  intros Hx Hm. change bn_words_limit with 8388607 in Hm. pose proof Hx as (Hz & Ht & Ho & _).
  unfold BN_num_bits, BN_is_zero, bn_num_bits_consttime. unfold zlen in Hz.
  destruct (Z.eq_dec (bn_top x) 0) as [E|E].
  - assert (mag x = 0) as -> by (unfold mag, limbs; by rewrite E). rewrite E. change (0 - 1) with (-1).
    destruct (num_bits_total (bn_d x) (Z.to_nat (bn_dmax x)) 0 (-1) 0 0) as [r ->]; [lia..|].
    exists 0. split; [|done]. destruct (has_bits _ _); [|done]. cbn [mbind option_bind]. f_equal. apply Z.land_0_r.
  - destruct (mag_top_word x Hx ltac:(lia)) as (w & low & Hw & Hwo & Hl & -> & Pw).
    pose proof (bit_length_word w Hwo) as Hb. exists (64 * (bn_top x - 1) + bit_length w).
    rewrite (proj2 (Z.eqb_neq _ _)) by lia. rewrite Hw.
    rewrite (num_bits_before _ _ Ho 0 _ 0 w) by (done || lia). rewrite eq_int_spec by lia. rewrite (proj2 (Z.eqb_neq _ _)) by lia.
    split_and!; [|lia|lia| |].
    + destruct (has_bits _ _); cbn [mbind option_bind]; f_equal.
      * change (u32 (Z.lnot (ConstantTime.mask 32 false))) with (ConstantTime.mask 32 true).
        rewrite land_mask32; lia.
      * rewrite num_bits_word_spec by done. unfold BN_BITS2. lia.
    + pose proof (proj1 (bit_length_lt w (bit_length w) ltac:(apply Hwo) ltac:(lia)) ltac:(lia)).
      rewrite Z.pow_add_r by lia. revert Hl. generalize (2 ^ (64 * (bn_top x - 1))). nia.
    + intros Hn. rewrite bit_length_app by (done || lia || auto). done.
Qed.

(** *** Writing *)

(** A byte of a number is a byte of one of its words. *)
Lemma byte_of_word l i r w : words_ok l -> rd l i = Some w -> 0 <= r < 8 ->
  eval l / 256 ^ (8 * i + r) mod 256 = Z.shiftr w (8 * r) mod 256.
Proof.
  intros Hl Hw Hr. assert (Hi : 0 <= i < zlen l).
  { unfold rd in Hw. destruct (Z.ltb_spec i 0); [done|]. apply lookup_lt_Some in Hw. unfold zlen. lia. }
  rewrite Z.pow_add_r, <- Z.div_div by lia.
  replace (256 ^ (8 * i)) with (B ^ i) by (unfold B; rewrite Z.pow_mul_r by lia; done).
  rewrite eval_drop by (done || lia). unfold rd in Hw. rewrite (proj2 (Z.ltb_ge _ _)) in Hw by lia.
  rewrite (drop_S l w) by done. simpl eval. rewrite Z.shiftr_div_pow2 by lia.
  rewrite (Z.pow_mul_r 2 8 r) by lia. change (2 ^ 8) with 256.
  assert (B = 256 ^ r * (256 * 256 ^ (7 - r))) as ->.
  { unfold B. change (2 ^ 64) with (256 ^ 8). replace 8 with (r + (1 + (7 - r))) by lia.
    rewrite !Z.pow_add_r by lia. done. }
  rewrite <- (Z.mul_assoc (256 ^ r)), (Z.mul_comm (256 ^ r)), Z.div_add by lia.
  rewrite <- Z.mul_assoc, (Z.mul_comm 256), Z.mod_add by lia. done.
Qed.

Lemma below_mask a b : 0 <= a < 2 ^ 62 -> 0 <= b < 2 ^ 62 ->
  Z.shiftr (sz (a - b)) (8 * 8 - 1) = Z.b2z (a <? b).
Proof.
  intros. change (8 * 8 - 1) with 63. rewrite Z.shiftr_div_pow2 by lia. unfold sz, u64.
  destruct (Z.ltb_spec a b); simpl Z.b2z; lia_div.
Qed.

Lemma drop_insert_cons {A} (l : list A) n v : (n < length l)%nat -> drop n (<[n := v]> l) = v :: drop (S n) l.
Proof.
  intros Hn. rewrite (drop_S _ v) by (apply list_lookup_insert_eq; done). by rewrite drop_insert_lt by lia.
Qed.

Lemma take_insert_snoc {A} (l : list A) n v : (n < length l)%nat -> take (S n) (<[n := v]> l) = take n l ++ [v].
Proof.
  intros Hn. rewrite (take_S_r _ _ v) by (apply list_lookup_insert_eq; done). by rewrite take_insert_ge by lia.
Qed.

Section Swipe.
Context (x : BIGNUM) (Hx : bn_fits x) (Hd : 0 < bn_dmax x <= bn_words_limit).

Lemma limbs_word i : 0 <= i < bn_top x -> rd (limbs x) i = rd (bn_d x) i.
Proof using.
  intros Hi. unfold rd, limbs. rewrite !(proj2 (Z.ltb_ge i 0)) by lia. by rewrite lookup_take_lt by lia.
Qed.

(** The byte at [j], read from the last word where the block has no byte [j]. *)
Lemma digit_spec j : 0 <= j < 2 ^ 62 -> let i := Z.min j (bn_dmax x * 8 - 1) in
  exists l, rd (bn_d x) (i / 8) = Some l /\
    u8 (Z.land (Z.shiftr l (8 * (i mod 8))) (sz (0 - Z.shiftr (sz (j - bn_top x * 8)) (8 * 8 - 1)))) =
    mag x / 256 ^ j mod 256.
Proof using Hx Hd.
  intros Hj i. change bn_words_limit with 8388607 in Hd. pose proof Hx as (Hz & Ht & Ho & _).
  assert (Hi : 0 <= i / 8 < bn_dmax x) by (unfold i; lia_div).
  destruct (rd_in (bn_d x) (i / 8)) as [l Hl]; [lia|]. exists l. split; [done|].
  rewrite below_mask by lia. pose proof (rd_word_ok _ _ _ Ho Hl) as Hlo. destruct (Z.ltb_spec j (bn_top x * 8)).
  - change (sz (0 - Z.b2z true)) with (Z.ones 64). rewrite Z.land_ones by lia.
    assert (i = j) as Ei by lia. rewrite Ei in *.
    replace (mag x / 256 ^ j) with (mag x / 256 ^ (8 * (j / 8) + j mod 8)) by (do 2 f_equal; lia_div).
    assert (j / 8 < bn_top x) by lia_div.
    unfold mag. rewrite (byte_of_word _ (j / 8) _ l) by
      (apply limbs_ok, Hx || (rewrite limbs_word by lia; done) || (apply Z.mod_pos_bound; lia)).
    unfold u8. apply Z.mod_mod_divide. by exists (2 ^ 56).
  - change (sz (0 - Z.b2z false)) with 0. rewrite Z.land_0_r. change (u8 0) with 0.
    pose proof (mag_range x Hx) as Hm. rewrite Z.div_small; [done|]. split; [lia|].
    eapply Z.lt_le_trans; [apply Hm|]. unfold B. change (2 ^ 64) with (256 ^ 8). rewrite <- Z.pow_mul_r by lia.
    apply Z.pow_le_mono_r; lia.
Qed.

Definition written (e : endianess_t) (n : nat) (v j : Z) (to : list Z) : list Z :=
  match e with
  | big => be_bytes n v ++ drop n to
  | little => take (Z.to_nat j) to ++ reverse (be_bytes n v) ++ drop (Z.to_nat j + n) to
  end.

Lemma bn2bin_loop_spec e n : forall j to, 0 <= j -> j + Z.of_nat n < 2 ^ 62 -> j + Z.of_nat n <= zlen to ->
  bn2bin_loop (bn_d x) (bn_top x * 8) (bn_dmax x * 8 - 1) (j + Z.of_nat n) e n (Z.min j (bn_dmax x * 8 - 1)) j to =
  Some (written e n (mag x / 256 ^ j) j to).
Proof using Hx Hd.
  change bn_words_limit with 8388607 in Hd.
  induction n as [|n IH]; intros j to Hj Hb Hto.
  - destruct e; simpl; [by rewrite drop_0|]. by rewrite Nat.add_0_r, take_drop.
  - cbn [bn2bin_loop]. change sizeof_BN_ULONG with 8.
    destruct (digit_spec j ltac:(lia)) as (l & -> & Hu). cbn [mbind option_bind]. rewrite Hu.
    rewrite wr_spec by (destruct e; lia). cbn [mbind option_bind].
    rewrite below_mask by lia.
    replace (sz (Z.min j (bn_dmax x * 8 - 1) + Z.b2z (Z.min j (bn_dmax x * 8 - 1) <? bn_dmax x * 8 - 1)))
      with (Z.min (j + 1) (bn_dmax x * 8 - 1)).
    2: { unfold sz, u64. rewrite Z.mod_small; destruct (Z.ltb_spec (Z.min j (bn_dmax x * 8 - 1)) (bn_dmax x * 8 - 1));
           simpl Z.b2z; lia. }
    replace (j + Z.of_nat (S n)) with (j + 1 + Z.of_nat n) by lia.
    rewrite IH by (unfold zlen in *; rewrite ?length_insert; lia). f_equal.
    replace (mag x / 256 ^ (j + 1)) with (mag x / 256 ^ j / 256)
      by (rewrite Z.div_div by lia; rewrite Z.pow_add_r by lia; done).
    destruct e; unfold written; cbn [be_bytes].
    + rewrite <- app_assoc. f_equal. replace (Z.to_nat (j + 1 + Z.of_nat n - 1 - j)) with n by lia.
      by apply drop_insert_cons; unfold zlen in Hto; lia.
    + rewrite reverse_app. replace (Z.to_nat (j + 1)) with (S (Z.to_nat j)) by lia.
      rewrite take_insert_snoc by (unfold zlen in Hto; lia). rewrite <- !app_assoc. f_equal. simpl.
      rewrite drop_insert_lt by lia. do 3 f_equal. lia.
Qed.
End Swipe.

Lemma be_bytes_zero n : be_bytes n 0 = replicate n 0.
Proof. induction n as [|n IH]; [done|]. cbn [be_bytes]. change (0 / 256) with 0. rewrite IH. symmetry. apply replicate_cons_app. Qed.

Lemma written_all e n v to : (n <= length to)%nat ->
  written e n v 0 to = (match e with big => be_bytes n v | little => reverse (be_bytes n v) end) ++ drop n to.
Proof. by destruct e. Qed.

Lemma num_bytes_spec x : bn_fits x -> bn_dmax x <= bn_words_limit -> exists n,
  BN_num_bytes x = Some n /\ 0 <= n /\ mag x < 256 ^ n /\ (normal x -> forall k, 0 <= k -> mag x < 256 ^ k -> n <= k).
Proof.
  intros Hx Hd. destruct (num_bits_spec x Hx Hd) as (n & En & Hn & Hm & Hl).
  unfold BN_num_bytes. rewrite En. cbn [mbind option_bind]. exists ((n + 7) / 8). split; [done|]. split; [lia_div|].
  assert (E256 : forall k, 0 <= k -> 256 ^ k = 2 ^ (8 * k)) by (intros k Hk; rewrite Z.pow_mul_r by lia; done).
  rewrite E256 by lia_div. split.
  - eapply Z.lt_le_trans; [exact Hm|]. apply Z.pow_le_mono_r; [lia|]. lia_div.
  - intros Hnx k Hk. rewrite E256 by done. pose proof (mag_range x Hx). rewrite <- bit_length_lt by lia.
    rewrite <- (Hl Hnx). lia_div.
Qed.

Definition digits (e : endianess_t) (n : Z) (v : Z) : list Z :=
  match e with big => be_bytes (Z.to_nat n) v | little => reverse (be_bytes (Z.to_nat n) v) end.

Lemma swipe_spec x e to n : bn_fits x -> bn_dmax x <= bn_words_limit -> 0 <= n <= INT_MAX -> n <= zlen to ->
  mag x < 256 ^ n ->
  (let atop := bn_dmax x * sizeof_BN_ULONG in
   if atop =? 0 then to ← wrn to 0 (replicate (Z.to_nat n) 0); Some (n, to)
   else
     let lasti := atop - 1 in
     let atop := bn_top x * sizeof_BN_ULONG in
     to ← bn2bin_loop (bn_d x) atop lasti n e (Z.to_nat n) 0 0 to;
     Some (n, to)) = Some (n, digits e n (mag x) ++ drop (Z.to_nat n) to).
Proof.
  intros Hx Hd Hn Hto Hm. change INT_MAX with 2147483647 in Hn. change sizeof_BN_ULONG with 8. cbv zeta.
  pose proof Hx as (Hz & Ht & _). destruct (Z.eqb_spec (bn_dmax x * 8) 0).
  - assert (mag x = 0) as ->. { unfold mag, limbs. by replace (bn_top x) with 0 by lia. }
    unfold digits. rewrite be_bytes_zero, wrn_spec by (rewrite ?zlen_replicate; lia). simpl. rewrite length_replicate.
    destruct e; [done|]. by rewrite reverse_replicate.
  - pose proof (bn2bin_loop_spec x Hx ltac:(lia) e (Z.to_nat n) 0 to) as L.
    rewrite Z.min_l, Z.add_0_l, Z2Nat.id, Z.div_1_r in L by lia. rewrite L by lia. cbn [mbind option_bind].
    rewrite written_all by (unfold zlen in *; lia). done.
Qed.

(** Whether the bytes fit is decided exactly, also when the number has leading zeros. *)
Lemma binpad_spec x e to n : bn_fits x -> bn_dmax x <= bn_words_limit -> 0 <= n <= INT_MAX -> n <= zlen to ->
  bn2binpad x to n e = Some (if mag x <? 256 ^ n then (n, digits e n (mag x) ++ drop (Z.to_nat n) to) else (-1, to)).
Proof.
  intros Hx Hd Hn Hto. destruct (num_bytes_spec x Hx Hd) as (k & Ek & Hk & Hm & _).
  unfold bn2binpad. rewrite Ek. cbn [mbind option_bind]. rewrite (proj2 (Z.eqb_neq n (-1))) by lia. cbn [negb andb].
  destruct (Z.ltb_spec n k) as [Hlt|Hge].
  - destruct (correct_top_spec {[0%nat := x]} 0%nat x (lookup_singleton_eq _ _) Hx) as (x' & -> & Hok & Em & Ed & _).
    cbn [mbind option_bind]. rewrite lookup_insert_eq. cbn [mbind option_bind].
    destruct (num_bytes_spec x' (proj1 Hok) ltac:(lia)) as (k' & -> & Hk' & Hm' & Hleast). cbn [mbind option_bind].
    rewrite Em in *. specialize (Hleast (proj2 Hok) n ltac:(lia)). destruct (Z.ltb_spec n k') as [H1|H1].
    + destruct (Z.ltb_spec (mag x) (256 ^ n)); [lia|done].
    + assert (mag x < 256 ^ n) as H2 by (eapply Z.lt_le_trans; [exact Hm'|apply Z.pow_le_mono_r; lia]).
      rewrite (proj2 (Z.ltb_lt _ _) H2). by apply swipe_spec.
  - assert (mag x < 256 ^ n) as H2 by (eapply Z.lt_le_trans; [exact Hm|apply Z.pow_le_mono_r; lia]).
    rewrite (proj2 (Z.ltb_lt _ _) H2). by apply swipe_spec.
Qed.

Lemma bn2bin_spec x to : bn_ok x -> bn_dmax x <= bn_words_limit -> exists n, BN_num_bytes x = Some n /\ 0 <= n /\
  mag x < 256 ^ n /\ (forall k, 0 <= k -> mag x < 256 ^ k -> n <= k) /\
  (n <= zlen to -> BN_bn2bin x to = Some (n, digits big n (mag x) ++ drop (Z.to_nat n) to)).
Proof.
  intros [Hx Hn] Hd. destruct (num_bits_spec x Hx Hd) as (b & Eb & Hb & _).
  destruct (num_bytes_spec x Hx Hd) as (k & Ek & Hk & Hm & Hl). exists k. split_and!; auto.
  intros Hto. unfold BN_bn2bin, bn2binpad. rewrite Ek. cbn [mbind option_bind]. change (-1 =? -1) with true.
  cbn [negb andb]. apply swipe_spec; try done. split; [done|]. unfold BN_num_bytes in Ek. rewrite Eb in Ek.
  cbn [mbind option_bind] in Ek. injection Ek as <-. change bn_words_limit with 8388607 in Hd.
  change INT_MAX with 2147483647. destruct Hx as (_ & ? & _). lia_div.
Qed.

(** *** Reading *)

Section Bytes.
(** [next] yields the bytes [l]. *)
Context (next : Z -> option Z) (l : list Z) (Hl : bytes_ok l).
Context (Hnext : forall k, 0 <= k < zlen l -> next k = rd l k).

Lemma next_byte k n : zlen l = k + Z.of_nat (S n) -> 0 <= k -> exists b, next k = Some b /\ byte_ok b /\
  drop (Z.to_nat k) l = b :: drop (Z.to_nat (k + 1)) l.
Proof using Hl Hnext.
  intros Hn Hk. rewrite Hnext by lia. destruct (rd_in l k) as [b Hb]; [lia|]. exists b. split; [done|].
  unfold rd in Hb. rewrite (proj2 (Z.ltb_ge _ _)) in Hb by lia. split; [by eapply Forall_lookup_1|].
  replace (Z.to_nat (k + 1)) with (S (Z.to_nat k)) by lia. by apply drop_S.
Qed.

Lemma be_val_cons b t : be_val (b :: t) = b * 256 ^ zlen t + be_val t.
Proof using. apply (be_val_app [b] t). Qed.

Lemma skip_zeros_spec n : forall k, zlen l = k + Z.of_nat n -> 0 <= k ->
  exists k', skip_zeros next n k = Some k' /\ k <= k' <= zlen l /\
    be_val (drop (Z.to_nat k') l) = be_val (drop (Z.to_nat k) l) /\
    (k' < zlen l -> 0 < be_val (drop (Z.to_nat k') l)).
Proof using Hl Hnext.
  induction n as [|n IH]; intros k Hn Hk.
  - exists k. split_and!; [done|lia..].
  - cbn [skip_zeros]. destruct (next_byte k n Hn Hk) as (b & -> & Hb & E). cbn [mbind option_bind].
    destruct (Z.eqb_spec b 0) as [->|Hne].
    + destruct (IH (k + 1)) as (k' & -> & Hk' & Ev & Hp); [lia..|]. exists k'. split_and!; try done; try lia.
      rewrite Ev, E, be_val_cons. lia.
    + exists k. split_and!; [done|lia..|]. intros _. rewrite E, be_val_cons.
      pose proof (be_val_bound (drop (Z.to_nat (k + 1)) l) ltac:(by apply Forall_drop)) as Hv. unfold byte_ok in Hb.
      nia.
Qed.

Lemma bin_loop_spec n : forall k w mm i d, zlen l = k + Z.of_nat n -> 0 <= k -> 0 <= mm < 8 ->
  Z.of_nat n = 8 * (i - 1) + mm + 1 -> 0 <= w < 256 ^ (7 - mm) -> i <= zlen d -> words_ok d ->
  exists d', bin_loop next n k w mm i d = Some d' /\ zlen d' = zlen d /\ words_ok d' /\
    eval (take (Z.to_nat i) d') = w * 256 ^ Z.of_nat n + be_val (drop (Z.to_nat k) l) /\
    drop (Z.to_nat i) d' = drop (Z.to_nat i) d.
Proof using Hl Hnext.
  induction n as [|n IH]; intros k w mm i d Hn Hk Hm Hi Hw Hd Ho.
  - exists d. assert (i = 0) as -> by lia. assert (mm = 7) as -> by lia.
    rewrite (drop_ge l) by (unfold zlen in Hn; lia). assert (w = 0) as -> by lia. done.
  - cbn [bin_loop]. destruct (next_byte k n Hn Hk) as (b & -> & Hb & E). cbn [mbind option_bind].
    unfold byte_ok in Hb.
    assert (Hw' : w < 256 ^ 7) by (eapply Z.lt_le_trans; [apply Hw|apply Z.pow_le_mono_r; lia]).
    assert (Z.lor (u64 (Z.shiftl w 8)) b = w * 256 + b) as ->.
    { rewrite Z.shiftl_mul_pow2 by lia. unfold u64. rewrite Z.mod_small by lia.
      rewrite <- Z.shiftl_mul_pow2, lor_shiftl_add by lia. done. }
    assert (Hv : be_val (drop (Z.to_nat k) l) = b * 256 ^ Z.of_nat n + be_val (drop (Z.to_nat (k + 1)) l)).
    { rewrite E, be_val_cons, zlen_drop by lia. do 3 f_equal. lia. }
    assert (Hpow : 256 ^ Z.of_nat (S n) = 256 * 256 ^ Z.of_nat n) by (rewrite Nat2Z.inj_succ, Z.pow_succ_r by lia; done).
    destruct (Z.eqb_spec mm 0) as [->|Hm0].
    + rewrite wr_spec by lia. cbn [mbind option_bind].
      destruct (IH (k + 1) 0 (sizeof_BN_ULONG - 1) (i - 1) (<[Z.to_nat (i - 1) := w * 256 + b]> d))
        as (d' & -> & Zd & Od & Ev & Dr); try (unfold sizeof_BN_ULONG; simpl Z.pow; lia).
      * unfold zlen in *. rewrite length_insert. lia.
      * apply Forall_insert; [done|]. unfold word_ok. simpl (256 ^ (7 - 0)) in Hw. lia.
      * exists d'. split; [done|]. rewrite Zd. unfold zlen in *. rewrite length_insert in *. split; [done|]. split; [done|].
        assert (Hi1 : Z.to_nat i = S (Z.to_nat (i - 1))) by lia. rewrite Hi1.
        rewrite drop_insert_cons in Dr by lia.
        assert (Hd' : d' !! Z.to_nat (i - 1) = Some (w * 256 + b)).
        { rewrite <- (Nat.add_0_r (Z.to_nat (i - 1))), <- lookup_drop, Dr. done. }
        split.
        -- rewrite (take_word _ _ (w * 256 + b)) by (rewrite Z2Nat.id by lia; unfold rd; case_match; [lia|done]).
           rewrite Ev, Z2Nat.id, Hv, Hpow by lia.
           replace (B ^ (i - 1)) with (256 ^ Z.of_nat n); [lia|].
           unfold B. change (2 ^ 64) with (256 ^ 8). rewrite <- Z.pow_mul_r by lia. f_equal. lia.
        -- rewrite (drop_S d' _ _ Hd') in Dr. injection Dr as Dr. done.
    + destruct (IH (k + 1) (w * 256 + b) (mm - 1) i d) as (d' & -> & Zd & Od & Ev & Dr); try done; try lia.
      * replace (7 - (mm - 1)) with (Z.succ (7 - mm)) by lia. rewrite Z.pow_succ_r by lia. lia.
      * exists d'. split_and!; try done. rewrite Ev, Hv, Hpow. lia.
Qed.
End Bytes.

Section Reading.
Context `{Malloc} (sec : Z -> option (list Z)).

Lemma wexpand_limit m r z n z1 : m !! r = Some z -> bn_dmax z <= bn_words_limit ->
  bn_wexpand sec m r n = Some (true, <[r := z1]> m) -> bn_dmax z1 <= bn_words_limit.
Proof.
  intros E Hz. unfold bn_wexpand, bn_expand2. rewrite E. cbn [mbind option_bind].
  assert (Hsame : Some (true, m) = Some (true, <[r := z1]> m) -> bn_dmax z1 <= bn_words_limit).
  { intros [= Em]. rewrite Em, lookup_insert_eq in E. by injection E as ->. }
  destruct (n <=? bn_dmax z); [done|]. destruct (bn_dmax z <? n); [|done].
  destruct (bn_expand_internal sec z n) as [a|] eqn:Ea; [|done]. intros [= Em].
  apply (f_equal (lookup r)) in Em. rewrite !lookup_insert_eq in Em. injection Em as <-. simpl.
  unfold bn_expand_internal in Ea. destruct (Z.ltb_spec (INT_MAX / (4 * BN_BITS2)) n) as [|Hle]; [done|]. exact Hle.
Qed.

(** The number [x] that reading the bytes [l] leaves in the place of [z].  Reading zero
    leaves the sign alone. *)
Definition read_in (z : BIGNUM) (l : list Z) (x : BIGNUM) : Prop :=
  bn_fits x /\ mag x = be_val l /\ bn_neg x = (if be_val l =? 0 then bn_neg z else 0) /\
  (bn_neg x = 0 -> normal x) /\ bn_flags x = bn_flags z /\
  (bn_dmax z <= bn_words_limit -> bn_dmax x <= bn_words_limit).

Lemma read_into_spec m next l r z bn : m !! r = Some z -> bn_fits z -> bytes_ok l -> zlen l <= INT_MAX ->
  (forall k, 0 <= k < zlen l -> next k = rd l k) ->
  read_into sec m next (zlen l) r bn = Some (None, if bn then delete r m else m) /\ refused sec m r ((zlen l + 7) / 8) \/
  exists x, read_into sec m next (zlen l) r bn = Some (Some r, <[r := x]> m) /\ read_in z l x.
Proof.
  intros Er Hz Hl Hlen Hnext. unfold read_into, bn_set. change INT_MAX with 2147483647 in Hlen.
  destruct (skip_zeros_spec next l Hl Hnext (Z.to_nat (zlen l)) 0) as (k & -> & Hk & Ev & Hp);
    [pose proof (zlen_nonneg l); lia|lia|]. cbn [mbind option_bind]. rewrite drop_0 in Ev.
  assert (u32 (zlen l - k) = zlen l - k) as -> by (apply Z.mod_small; lia).
  destruct (Z.eqb_spec (zlen l - k) 0) as [E0|Hne].
  - rewrite Er. cbn [mbind option_bind]. right. eexists. split; [done|].
    rewrite drop_ge in Ev by (unfold zlen in *; lia). change (be_val []) with 0 in Ev.
    unfold read_in. rewrite <- Ev. change (0 =? 0) with true. destruct Hz as (? & ? & ? & ?).
    unfold bn_fits, normal, mag, limbs. simpl. split_and!; try done; try lia.
  - set (n := zlen l - k) in *. set (i := (n - 1) / sizeof_BN_ULONG + 1).
    assert (Hi : 0 < i /\ n = 8 * (i - 1) + (n - 1) mod 8 + 1) by (unfold i, sizeof_BN_ULONG; lia_div).
    destruct (wexpand_spec sec m r z i Er Hz) as [E | (z1 & Ew & Hr & Hi1)].
    { rewrite E. left. split; [done|]. exists i. split; [|done]. unfold i, sizeof_BN_ULONG in *. clear - Hk Hi. lia_div. }
    rewrite Ew. cbn [mbind option_bind negb]. rewrite lookup_insert_eq. cbn [mbind option_bind].
    rewrite insert_insert_eq, lookup_insert_eq. cbn [mbind option_bind].
    pose proof Hr as ((Zd & Td & Od & Nd) & _ & _ & _ & Fl).
    destruct (bin_loop_spec next l Hl Hnext (Z.to_nat n) k 0 ((n - 1) mod sizeof_BN_ULONG) i (bn_d z1))
      as (d' & Ed & Zd' & Od' & Ev' & _); try (unfold sizeof_BN_ULONG; lia); try done; [apply Z.mod_pos_bound; done| |].
    { split; [lia|]. apply Z.pow_pos_nonneg; [lia|]. pose proof (Z.mod_pos_bound (n - 1) sizeof_BN_ULONG eq_refl).
      change sizeof_BN_ULONG with 8 in *. lia. }
    change (bn_d (_ <| bn_neg := 0 |>)) with (bn_d z1). rewrite Ed. cbn [mbind option_bind]. rewrite insert_insert_eq.
    match goal with |- context [bn_correct_top (<[r := ?y]> m) r] => set (y' := y) end.
    assert (Hy : bn_fits y'). { unfold bn_fits. simpl. split_and!; try done; try lia; by left. }
    destruct (correct_top_spec _ r y' (lookup_insert_eq m r y') Hy) as (x & -> & [Hx Hn] & Hm & Hd & Hf & Hneg).
    cbn [mbind option_bind]. rewrite insert_insert_eq. right. exists x. split; [done|].
    assert (Hmv : mag x = be_val l). { rewrite Hm. unfold mag, limbs. simpl. rewrite Ev'. lia. }
    split_and!; try done.
    + rewrite Hneg. simpl. specialize (Hp ltac:(lia)). rewrite (proj2 (Z.eqb_neq (be_val l) 0)) by lia. by case_match.
    + rewrite Hf. exact Fl.
    + rewrite Hd. simpl. intros Hz1. eapply wexpand_limit; [apply Er|done|exact Ew].
Qed.
Lemma BN_new_spec m : BN_new m = None \/
  exists i, BN_new m = Some (i, <[i := mk_BIGNUM [] 0 0 0 BN_FLG_MALLOCED]> m) /\ m !! i = None.
Proof.
  unfold BN_new. destruct (CRYPTO_zalloc sizeof_BIGNUM); [right|by left]. eexists. split; [reflexivity|].
  apply not_elem_of_dom, is_fresh.
Qed.

(** Where the number that was read is: in the place of [ret], or in a new place. *)
Definition place (m : heap) (ret : option nat) (r : nat) : Prop :=
  match ret with Some r' => r' = r | None => m !! r = None end.

Definition usable (m : heap) (ret : option nat) : Prop :=
  match ret with
  | Some r => exists z, m !! r = Some z /\ bn_fits z /\ bn_dmax z <= bn_words_limit
  | None => True
  end.

(** There is no memory for a new number, or for so many words. *)
Definition no_room (m : heap) (ret : option nat) (size : Z) : Prop :=
  match ret with
  | Some r => refused sec m r size
  | None => BN_new m = None \/ exists i, m !! i = None /\
              refused sec (<[i := mk_BIGNUM [] 0 0 0 BN_FLG_MALLOCED]> m) i size
  end.

Lemma read_value z l x : bytes_ok l -> read_in z l x -> value x = be_val l /\ (be_val l <> 0 -> bn_ok x).
Proof.
  intros Hl (Hf & Hm & Hn & Hx & _). unfold value. rewrite Hm. destruct (Z.eqb_spec (be_val l) 0) as [->|Hne].
  - split; [by destruct (bn_neg x =? 0)|done].
  - rewrite Hn. split; [done|]. intros _. split; [exact Hf|by apply Hx].
Qed.

Lemma read_spec m next l ret : usable m ret -> bytes_ok l -> zlen l <= INT_MAX ->
  (forall k, 0 <= k < zlen l -> next k = rd l k) ->
  read_bytes sec m next (zlen l) ret = Some (None, m) /\ no_room m ret ((zlen l + 7) / 8) \/
  exists r x, read_bytes sec m next (zlen l) ret = Some (Some r, <[r := x]> m) /\ place m ret r /\
    bn_fits x /\ value x = be_val l /\ bn_dmax x <= bn_words_limit /\ (ret = None \/ be_val l <> 0 -> bn_ok x).
Proof.
  intros Hu Hl Hlen Hnext. destruct ret as [r|].
  - destruct Hu as (z & Er & Hz & Hd). unfold read_bytes.
    destruct (read_into_spec m next l r z false Er Hz Hl Hlen Hnext) as [[-> Hn] | (x & -> & Hin)]; [by left|].
    destruct (read_value z l x Hl Hin) as [Hv Hok]. destruct Hin as (Hf & _ & _ & _ & _ & Hx).
    right. exists r, x. split_and!; try done; [by apply Hx|]. intros [?|?]; [done|by apply Hok].
  - unfold read_bytes. destruct (BN_new_spec m) as [E | (i & -> & Hi)]; [rewrite E; left; split; [done|by left]|].
    set (z := mk_BIGNUM [] 0 0 0 BN_FLG_MALLOCED).
    assert (Hz : bn_fits z) by (unfold bn_fits, z; simpl; split_and!; try done; by left).
    destruct (read_into_spec _ next l i z true (lookup_insert_eq m i z) Hz Hl Hlen Hnext)
      as [[-> Hr] | (x & -> & Hin)].
    + left. rewrite delete_insert_id by done. split; [done|]. right. by exists i.
    + destruct (read_value z l x Hl Hin) as [Hv _]. destruct Hin as (Hf & _ & Hn & Hx & _ & Hd).
      right. exists i, x. rewrite insert_insert_eq. split_and!; try done; [by apply Hd|]. intros _. split; [done|].
      apply Hx. rewrite Hn. by case_match.
Qed.
End Reading.

(** *** The codec *)

(** What writing [n] bytes of [v] over the block [to] gives. *)
Definition padded (e : endianess_t) (n v : Z) (to : list Z) : Z * list Z :=
  if v <? 256 ^ n then (n, digits e n v ++ drop (Z.to_nat n) to) else (-1, to).

(** C36: Writing a number as bytes, which reads all its words and does not branch on them,
    stores exactly the digits of the number in the order asked for, padded with zeros to
    the length asked for, and returns that length; or it returns -1 and stores
    nothing, when the number needs more bytes, however many leading zeros it has.  The
    constant-time count of the bits gives the length of a normalised number. *)
Theorem BN_bn2binpad_correct x to n : bn_fits x -> bn_dmax x <= bn_words_limit -> 0 <= n <= INT_MAX -> n <= zlen to ->
  BN_bn2binpad x to n = Some (padded big n (mag x) to) /\
  BN_bn2lebinpad x to n = Some (padded little n (mag x) to) /\
  (normal x -> BN_num_bits x = Some (bit_length (mag x))).
Proof.
  intros Hx Hd Hn Hto. unfold BN_bn2binpad, BN_bn2lebinpad. rewrite (proj2 (Z.ltb_ge n 0)) by lia.
  split_and!; [by apply binpad_spec..|]. intros Hnx.
  destruct (num_bits_spec x Hx Hd) as (b & -> & _ & _ & Hb). by rewrite Hb.
Qed.

Lemma be_val_zeros k s : be_val (replicate k 0 ++ s) = be_val s.
Proof.
  rewrite be_val_app. replace (be_val (replicate k 0)) with 0; [lia|]. rewrite <- be_bytes_zero.
  by rewrite be_val_be_bytes, Z.mod_0_l by (apply Z.pow_nonzero; lia).
Qed.

Lemma digits_be_val n s : bytes_ok s -> zlen s <= n ->
  digits big n (be_val s) = replicate (Z.to_nat n - length s) 0 ++ s.
Proof.
  intros Hs Hn. unfold digits. rewrite <- (be_val_zeros (Z.to_nat n - length s) s).
  replace (Z.to_nat n) with (length (replicate (Z.to_nat n - length s) 0 ++ s)) at 1
    by (rewrite length_app, length_replicate; unfold zlen in Hn; lia).
  apply be_bytes_be_val, bytes_ok_app. split; [|done]. apply Forall_replicate. unfold byte_ok. lia.
Qed.

Lemma bytes_ok_rev s : bytes_ok s -> bytes_ok (reverse s).
Proof. apply Forall_reverse. Qed.

Lemma rd_rev s k : 0 <= k < zlen s -> rd s (zlen s - 1 - k) = rd (reverse s) k.
Proof.
  unfold zlen. intros Hk. unfold rd. rewrite !(proj2 (Z.ltb_ge _ 0)) by lia.
  rewrite reverse_lookup by lia. f_equal. lia.
Qed.

Section Codec.
Context `{Malloc} (sec : Z -> option (list Z)).

Definition read_as (e : endianess_t) : heap -> list Z -> Z -> option nat -> option (option nat * heap) :=
  match e with big => BN_bin2bn sec | little => BN_lebin2bn sec end.
Definition write_as (e : endianess_t) : BIGNUM -> list Z -> Z -> option (Z * list Z) :=
  match e with big => BN_bn2binpad | little => BN_bn2lebinpad end.

(** The bytes [s], padded with zeros to [n] of them. *)
Definition pad (e : endianess_t) (n : Z) (s : list Z) : list Z :=
  let zeros := replicate (Z.to_nat n - length s) 0 in
  match e with big => zeros ++ s | little => s ++ zeros end.

(** C37: Reading bytes, in either order, gives the number they stand for, in the given place
    or in a new one, with a sign that is never negative whatever the place held, and
    normalised, but for a zero read into a given place, which keeps the sign that was
    there; or NULL without a change when there is no memory for the number or for a word for
    each eight bytes.  Whatever its number of leading zeros, writing that number in the same order gives
    the bytes back, with zeros on the side of the most significant one. *)
Theorem BN_bin2bn_roundtrip e m s ret : usable m ret -> bytes_ok s -> zlen s <= INT_MAX ->
  read_as e m s (zlen s) ret = Some (None, m) /\ no_room sec m ret ((zlen s + 7) / 8) \/
  exists r x, read_as e m s (zlen s) ret = Some (Some r, <[r := x]> m) /\ place m ret r /\
    bn_fits x /\ value x = be_val (match e with big => s | little => reverse s end) /\
    (ret = None \/ value x <> 0 -> bn_ok x) /\
    forall to n, zlen s <= n <= INT_MAX -> n <= zlen to ->
      write_as e x to n = Some (n, pad e n s ++ drop (Z.to_nat n) to).
Proof.
  intros Hu Hs Hlen. set (l := match e with big => s | little => reverse s end).
  assert (Hl : bytes_ok l) by (destruct e; [done|by apply bytes_ok_rev]).
  assert (Zl : zlen l = zlen s) by (destruct e; unfold zlen, l; by rewrite ?length_reverse).
  assert (exists next, read_as e m s (zlen s) ret = read_bytes sec m next (zlen l) ret /\
    forall k, 0 <= k < zlen l -> next k = rd l k) as (next & -> & Hnext).
  { rewrite Zl. destruct e; (eexists; split; [reflexivity|]); [done|]. intros k Hk. by apply rd_rev. }
  destruct (read_spec sec m next l ret Hu Hl ltac:(lia) Hnext) as [[-> Hn] | (r & x & -> & Hp & Hf & Hm & Hd & Hx)]; [left; by rewrite <- Zl|].
  right. exists r, x. split_and!; try done; [by rewrite Hm|]. intros to n Hn Hto. pose proof (zlen_nonneg s).
  assert (Hma : mag x = be_val l) by (rewrite (mag_abs x Hf), Hm; apply Z.abs_eq, be_val_bound, Hl). clear Hm. rename Hma into Hm.
  assert (mag x < 256 ^ n).
  { rewrite Hm. eapply Z.lt_le_trans; [apply be_val_bound, Hl|]. apply Z.pow_le_mono_r; lia. }
  assert (Hpad : digits e n (mag x) = pad e n s).
  { rewrite Hm. pose proof (digits_be_val n l Hl ltac:(lia)) as D. unfold digits, pad in *. destruct e; [done|].
    rewrite D. unfold l. by rewrite reverse_app, reverse_involutive, reverse_replicate, length_reverse. }
  rewrite <- Hpad. pose proof (binpad_spec x e to n Hf Hd ltac:(lia) Hto) as W.
  rewrite (proj2 (Z.ltb_lt _ _)) in W by done.
  destruct e; unfold write_as, BN_bn2binpad, BN_bn2lebinpad; rewrite (proj2 (Z.ltb_ge n 0)) by lia; exact W.
Qed.
End Codec.

(** ** Witnesses *)

#[local] Existing Instance generous_malloc.

(** 2^64 + 2, flagged to be handled in constant time, in a block with room for three words. *)
Definition secret_number : BIGNUM := mk_BIGNUM [2; 1; 7] 2 3 0 BN_FLG_CONSTTIME.

Lemma BN_bn2binpad_correct_witness :
  (bn_fits secret_number /\ normal secret_number) /\
  BN_bn2binpad secret_number (replicate 10 9) 10 = Some (10, [0; 1; 0; 0; 0; 0; 0; 0; 0; 2]) /\
  BN_bn2binpad secret_number (replicate 10 9) 8 = Some (-1, replicate 10 9) /\
  BN_num_bits secret_number = Some 65.
Proof.
  assert (Hf : bn_fits secret_number).
  { unfold bn_fits. split_and!; [done|done|done| |by left]. repeat constructor; done. }
  assert (Hn : normal secret_number) by (split; done).
  assert (Hd : bn_dmax secret_number <= bn_words_limit) by done.
  assert (H10 : 0 <= 10 <= INT_MAX /\ 10 <= zlen (replicate 10 9)) by done.
  assert (H8 : 0 <= 8 <= INT_MAX /\ 8 <= zlen (replicate 10 9)) by done.
  split; [by split|].
  destruct (BN_bn2binpad_correct secret_number _ 10 Hf Hd (proj1 H10) (proj2 H10)) as (E10 & _ & Eb).
  destruct (BN_bn2binpad_correct secret_number _ 8 Hf Hd (proj1 H8) (proj2 H8)) as (E8 & _).
  rewrite E10, E8, (Eb Hn). vm_compute. tauto.
Defined.

Lemma BN_bin2bn_roundtrip_witness :
  usable {[ 0%nat := secret_number ]} (Some 0%nat) /\
  match BN_lebin2bn no_secure {[ 0%nat := secret_number ]} [0x39; 0x30; 0] 3 (Some 0%nat) with
  | Some (Some r, m) => r = 0%nat /\ mag <$> m !! 0%nat = Some 12345
  | _ => False
  end /\
  exists o, read_as no_secure little {[ 0%nat := secret_number ]} [0x39; 0x30; 0] 3 (Some 0%nat) = Some o.
Proof.
  assert (Hu : usable {[ 0%nat := secret_number ]} (Some 0%nat)).
  { exists secret_number. split; [done|]. split; [|done]. unfold bn_fits. split_and!; [done|done|done| |by left].
    repeat constructor; done. }
  split; [done|]. split; [vm_compute; by split|].
  destruct (BN_bin2bn_roundtrip no_secure little _ [0x39; 0x30; 0] _ Hu ltac:(repeat constructor; done) ltac:(done))
    as [E | (r & x & E & _)]; by eexists.
Defined.

(** Reading zero into a negative number leaves a negative zero, which is not equal to
    zero. *)
Definition minus_one_and_zero : heap := {[ 0%nat := number [1] 1; 1%nat := number [] 0 ]}.

Lemma negative_zero_read :
  match BN_bin2bn no_secure minus_one_and_zero [0] 1 (Some 0%nat) with
  | Some (Some r, m) => r = 0%nat /\ (bn_top <$> m !! 0%nat) = Some 0 /\ (bn_neg <$> m !! 0%nat) = Some 1 /\
      BN_cmp m (Some 0%nat) (Some 1%nat) = Some (-1)
  | _ => False
  end.
Proof. vm_compute. done. Qed.
