(* ===== verification/BnShift.v ===== *)
(** * Shifting big numbers

    [src/crypto/bn/bn_shift.c]: shifts by one bit and by any number of bits.  The loops run
    towards the words that the result does not need any more, so the result may be
    the operand; the masks stand for the branch on a shift by whole words. *)

From S2P Require Import Prelude Mem ConstantTime Words Bignum.
From stdpp Require Import gmap.
#[local] Open Scope Z_scope.
#[local] Open Scope tls_scope.

(** [for (i = n; i > 0; i--)] *)
Fixpoint downto {A} (body : Z -> A -> option A) (n : nat) (s : A) : option A :=
  match n with O => Some s | S k => s ← body (Z.of_nat n) s; downto body k s end.

(** All ones unless there is nothing to shift. *)
Definition shift_mask (b : Z) : Z :=
  let mask := u64 (0 - b) in Z.lor mask (Z.shiftr mask 8).

Section Shifts.
Context `{Malloc} (OPENtls_secure_zalloc : Z -> option (list Z)).

(** ** One bit *)

Definition lshift1_step (rp ap : ptr) (i : Z) (s : Z * heap) : option (Z * heap) :=
  let '(c, m) := s in
  t ← ldw m ap i;
  m ← stw m rp i (Z.land (Z.lor (u64 (Z.shiftl t 1)) c) BN_MASK2);
  Some (Z.shiftr t (BN_BITS2 - 1), m).

Definition BN_lshift1 (m : heap) (r a : nat) : option (Z * heap) :=
  x ← m !! a;
  m ← (if decide (r = a) then Some m else bn_set m r (fun z => z <| bn_neg := bn_neg x |>));
  '(ok, m) ← bn_wexpand OPENtls_secure_zalloc m r (bn_top x + 1);
  if negb ok then Some (0, m)
  else
    m ← (if decide (r = a) then Some m else bn_set m r (fun z => z <| bn_top := bn_top x |>));
    '(c, m) ← iterate (lshift1_step (r, 0) (a, 0)) (Z.to_nat (bn_top x)) 0 (0, m);
    m ← stw m (r, 0) (bn_top x) c;
    m ← bn_set m r (fun z => z <| bn_top := bn_top z + c |>);
    Some (1, m).

Definition rshift1_step (rp ap : ptr) (i : Z) (s : Z * heap) : option (Z * heap) :=
  let '(c, m) := s in
  t ← ldw m ap (i - 1);
  m ← stw m rp (i - 1) (Z.lor (Z.land (Z.shiftr t 1) BN_MASK2) c);
  Some (u64 (Z.shiftl t (BN_BITS2 - 1)), m).

Definition BN_rshift1 (m : heap) (r a : nat) : option (Z * heap) :=
  x ← m !! a;
  if BN_is_zero x then m ← BN_zero m r; Some (1, m)
  else
    let i := bn_top x in
    '(ok, m) ← (if decide (a = r) then Some (true, m)
                else
                  '(ok, m) ← bn_wexpand OPENtls_secure_zalloc m r i;
                  if negb ok then Some (false, m)
                  else m ← bn_set m r (fun z => z <| bn_neg := bn_neg x |>); Some (true, m));
    if negb ok then Some (0, m)
    else
      m ← bn_set m r (fun z => z <| bn_top := i |>);
      t ← ldw m (a, 0) (i - 1);
      m ← stw m (r, 0) (i - 1) (Z.shiftr t 1);
      let c := u64 (Z.shiftl t (BN_BITS2 - 1)) in
      m ← bn_set m r (fun z => z <| bn_top := bn_top z - Z.b2z (t =? 1) |>);
      '(_, m) ← downto (rshift1_step (r, 0) (a, 0)) (Z.to_nat (i - 1)) (c, m);
      m ← bn_set m r (fun z => if bn_top z =? 0 then z <| bn_neg := 0 |> else z);
      Some (1, m).

(** ** Any number of bits *)

Definition lshift_step (t f : ptr) (lb rb rmask : Z) (i : Z) (s : Z * heap) : option (Z * heap) :=
  let '(l, m) := s in
  let mw := u64 (Z.shiftl l lb) in
  l ← ldw m f (i - 1);
  m ← stw m t i (Z.land (Z.lor mw (Z.land (Z.shiftr l rb) rmask)) BN_MASK2);
  Some (l, m).

Definition bn_lshift_fixed_top (m : heap) (r a : nat) (n : Z) : option (Z * heap) :=
  x ← m !! a;
  let nw := n / BN_BITS2 in
  '(ok, m) ← bn_wexpand OPENtls_secure_zalloc m r (bn_top x + nw + 1);
  if negb ok then Some (0, m)
  else
    m ← (if negb (bn_top x =? 0) then
           let lb := n `mod` BN_BITS2 in
           let rb := (BN_BITS2 - lb) `mod` BN_BITS2 in
           let rmask := shift_mask rb in
           let f := (a, 0) in
           let t := (r, nw) in
           l ← ldw m f (bn_top x - 1);
           m ← stw m t (bn_top x) (Z.land (Z.shiftr l rb) rmask);
           '(l, m) ← downto (lshift_step t f lb rb rmask) (Z.to_nat (bn_top x - 1)) (l, m);
           stw m t 0 (Z.land (u64 (Z.shiftl l lb)) BN_MASK2)
         else stw m (r, 0) nw 0);
    m ← (if negb (nw =? 0) then set_words m (r, 0) (replicate (Z.to_nat nw) 0) else Some m);
    m ← bn_set m r (fun z => z <| bn_neg := bn_neg x |> <| bn_top := bn_top x + nw + 1 |>
                             <| bn_flags := Z.lor (bn_flags z) BN_FLG_FIXED_TOP |>);
    Some (1, m).

Definition BN_lshift (m : heap) (r a : nat) (n : Z) : option (Z * heap) :=
  if n <? 0 then Some (0, m)
  else
    '(ret, m) ← bn_lshift_fixed_top m r a n;
    m ← bn_correct_top m r;
    Some (ret, m).

Definition rshift_step (t f : ptr) (lb rb mask : Z) (i : Z) (s : Z * heap) : option (Z * heap) :=
  let '(l, m) := s in
  mw ← ldw m f (i + 1);
  m ← stw m t i (Z.lor (Z.shiftr l rb) (Z.land (u64 (Z.shiftl mw lb)) mask));
  Some (mw, m).

Definition bn_rshift_fixed_top (m : heap) (r a : nat) (n : Z) : option (Z * heap) :=
  x ← m !! a;
  let nw := n / BN_BITS2 in
  if bn_top x <=? nw then m ← BN_zero m r; Some (1, m)
  else
    let rb := n `mod` BN_BITS2 in
    let lb := (BN_BITS2 - rb) `mod` BN_BITS2 in
    let mask := shift_mask lb in
    let top := bn_top x - nw in
    '(ok, m) ← (if decide (r = a) then Some (true, m) else bn_wexpand OPENtls_secure_zalloc m r top);
    if negb ok then Some (0, m)
    else
      let t := (r, 0) in
      let f := (a, nw) in
      l ← ldw m f 0;
      '(l, m) ← iterate (rshift_step t f lb rb mask) (Z.to_nat (top - 1)) 0 (l, m);
      m ← stw m t (top - 1) (Z.shiftr l rb);
      m ← bn_set m r (fun z => z <| bn_neg := bn_neg x |> <| bn_top := top |>
                               <| bn_flags := Z.lor (bn_flags z) BN_FLG_FIXED_TOP |>);
      Some (1, m).

Definition BN_rshift (m : heap) (r a : nat) (n : Z) : option (Z * heap) :=
  if n <? 0 then Some (0, m)
  else
    '(ret, m) ← bn_rshift_fixed_top m r a n;
    m ← bn_correct_top m r;
    Some (ret, m).
End Shifts.

(** ** Properties *)

(** *** One word *)

Lemma shift_mask_spec b : 0 <= b < 64 -> shift_mask b = if b =? 0 then 0 else Z.ones 64.
Proof.
  intros Hb. assert (Hall : Forall (fun b => shift_mask b = if b =? 0 then 0 else Z.ones 64) (seqZ 0 64))
    by (apply (bool_decide_unpack _); vm_compute; exact I).
  rewrite Forall_forall in Hall. apply Hall, elem_of_seqZ. lia.
Qed.

(** What is shifted out of a word on the left and on the right, and what stays. *)
Definition lo_part (lb l : Z) : Z := (l mod 2 ^ (64 - lb)) * 2 ^ lb.
Definition hi_part (lb l : Z) : Z := l / 2 ^ (64 - lb).

Lemma shl_word lb l : 0 <= lb < 64 -> u64 (Z.shiftl l lb) = lo_part lb l.
Proof.
  intros Hb. unfold u64, lo_part. rewrite Z.shiftl_mul_pow2 by lia.
  replace (2 ^ 64) with (2 ^ (64 - lb) * 2 ^ lb) by (rewrite <- Z.pow_add_r by lia; f_equal; lia).
  by rewrite Z.mul_mod_distr_r by (apply Z.pow_nonzero; lia).
Qed.

Lemma hi_word lb l : 0 <= lb < 64 -> word_ok l ->
  Z.land (Z.shiftr l ((BN_BITS2 - lb) mod BN_BITS2)) (shift_mask ((BN_BITS2 - lb) mod BN_BITS2)) = hi_part lb l.
Proof.
  intros Hb Hl. unfold BN_BITS2, hi_part. rewrite shift_mask_spec by (apply Z.mod_pos_bound; lia).
  unfold word_ok in Hl. destruct (Z.eq_dec lb 0) as [->|Hne].
  - change ((64 - 0) mod 64) with 0. simpl (0 =? 0). cbv iota. rewrite Z.land_0_r. symmetry. by apply Z.div_small.
  - rewrite (Z.mod_small (64 - lb)), (proj2 (Z.eqb_neq _ _)) by lia.
    rewrite Z.land_ones, Z.shiftr_div_pow2 by lia. apply Z.mod_small.
    split; [apply Z.div_pos; lia|]. apply Z.div_lt_upper_bound; [lia|].
    pose proof (Z.pow_pos_nonneg 2 (64 - lb)). nia.
Qed.

Lemma hi_part_range lb l : 0 <= lb < 64 -> word_ok l -> 0 <= hi_part lb l < 2 ^ lb.
Proof.
  intros Hb Hl. unfold hi_part, word_ok in *. split; [apply Z.div_pos; lia|]. apply Z.div_lt_upper_bound; [lia|].
  rewrite <- Z.pow_add_r by lia. replace (64 - lb + lb) with 64 by lia. lia.
Qed.

Lemma lo_part_range lb l : 0 <= lb < 64 -> 0 <= lo_part lb l <= 2 ^ 64 - 2 ^ lb.
Proof.
  intros Hb. unfold lo_part. pose proof (Z.mod_pos_bound l (2 ^ (64 - lb)) ltac:(lia)).
  replace (2 ^ 64) with (2 ^ (64 - lb) * 2 ^ lb) by (rewrite <- Z.pow_add_r by lia; f_equal; lia).
  pose proof (Z.pow_pos_nonneg 2 lb ltac:(lia) ltac:(lia)). nia.
Qed.

Lemma parts lb l : 0 <= lb < 64 -> lo_part lb l + B * hi_part lb l = l * 2 ^ lb.
Proof.
  intros Hb. unfold lo_part, hi_part, B.
  replace (2 ^ 64) with (2 ^ (64 - lb) * 2 ^ lb) by (rewrite <- Z.pow_add_r by lia; f_equal; lia).
  rewrite (Z.div_mod l (2 ^ (64 - lb))) at 3 by (apply Z.pow_nonzero; lia). ring.
Qed.

(** A word of the result, from what stays of one word and what comes from the other. *)
Lemma joined lb l c : 0 <= lb < 64 -> 0 <= c < 2 ^ lb ->
  Z.lor (lo_part lb l) c = lo_part lb l + c /\ word_ok (lo_part lb l + c).
Proof.
  intros Hb Hc. split; [by apply (lor_add _ (l mod 2 ^ (64 - lb)) c lb); try done; lia|].
  pose proof (lo_part_range lb l Hb). unfold word_ok. lia.
Qed.

(** *** Strings of words *)

(** [l] shifted to the left, [c] coming in from below, and to the right. *)
Fixpoint shl (lb c : Z) (l : list Z) : list Z :=
  match l with [] => [c] | a :: t => (lo_part lb a + c) :: shl lb (hi_part lb a) t end.

Fixpoint shr (rb : Z) (l : list Z) : list Z :=
  match l with
  | [] => []
  | a :: t => (a / 2 ^ rb + match t with [] => 0 | b :: _ => (b mod 2 ^ rb) * 2 ^ (64 - rb) end) :: shr rb t
  end.

Lemma shl_spec lb l : 0 <= lb < 64 -> words_ok l -> forall c, 0 <= c < 2 ^ lb ->
  zlen (shl lb c l) = zlen l + 1 /\ words_ok (shl lb c l) /\ eval (shl lb c l) = eval l * 2 ^ lb + c.
Proof.
  intros Hb Hl. assert (Hp : 2 ^ lb < 2 ^ 64) by (apply Z.pow_lt_mono_r; lia).
  induction Hl as [|a l Ha Hl IH]; intros c Hc; simpl shl.
  - split; [done|]. split; [repeat constructor; unfold word_ok; lia|]. simpl. lia.
  - destruct (IH (hi_part lb a) (hi_part_range lb a Hb Ha)) as (Z1 & O1 & E1). rewrite !zlen_cons, Z1.
    destruct (joined lb a c Hb Hc) as [_ Hw]. split; [lia|]. split; [by constructor|].
    simpl eval. rewrite E1. pose proof (parts lb a Hb). lia.
Qed.

Lemma div_words a et rb : 0 <= rb < 64 -> word_ok a ->
  (a + B * et) / 2 ^ rb = a / 2 ^ rb + (et mod 2 ^ rb) * 2 ^ (64 - rb) + B * (et / 2 ^ rb).
Proof.
  intros Hr Ha. pose proof (Z.pow_pos_nonneg 2 rb ltac:(lia) ltac:(lia)) as P.
  assert (EB : B = 2 ^ (64 - rb) * 2 ^ rb) by (unfold B; rewrite <- Z.pow_add_r by lia; f_equal; lia).
  replace (B * et) with (et * 2 ^ (64 - rb) * 2 ^ rb) by (rewrite EB; ring). rewrite Z.div_add by lia.
  rewrite (Z.div_mod et (2 ^ rb)) at 1 by lia. rewrite EB. ring.
Qed.

Lemma mod_words b t rb : 0 <= rb < 64 -> (b + B * t) mod 2 ^ rb = b mod 2 ^ rb.
Proof.
  intros Hr. replace (B * t) with (t * 2 ^ (64 - rb) * 2 ^ rb); [apply Z.mod_add, Z.pow_nonzero; lia|].
  unfold B. rewrite <- Z.mul_assoc, <- Z.pow_add_r by lia. replace (64 - rb + rb) with 64 by lia. lia.
Qed.

Lemma shr_spec rb l : 0 <= rb < 64 -> words_ok l ->
  zlen (shr rb l) = zlen l /\ words_ok (shr rb l) /\ eval (shr rb l) = eval l / 2 ^ rb.
Proof.
  intros Hb. pose proof (Z.pow_pos_nonneg 2 rb ltac:(lia) ltac:(lia)) as P.
  pose proof (Z.pow_pos_nonneg 2 (64 - rb) ltac:(lia) ltac:(lia)) as P'.
  assert (EB : 2 ^ 64 = 2 ^ (64 - rb) * 2 ^ rb) by (rewrite <- Z.pow_add_r by lia; f_equal; lia).
  induction 1 as [|a l Ha Hl IH]; [split; [done|]; split; [by apply Forall_nil|]; simpl; by rewrite Z.div_0_l by lia|].
  destruct IH as (Z1 & O1 & E1). cbn [shr eval]. rewrite !zlen_cons, Z1, E1, div_words by done.
  assert (E : match l with [] => 0 | b :: _ => b mod 2 ^ rb * 2 ^ (64 - rb) end = eval l mod 2 ^ rb * 2 ^ (64 - rb)).
  { destruct l as [|b l]; simpl eval; [by rewrite Z.mod_0_l by lia|]. by rewrite mod_words. }
  rewrite E. split; [done|]. split; [|lia]. constructor; [|done].
  pose proof (Z.mod_pos_bound (eval l) (2 ^ rb) ltac:(lia)). unfold word_ok in *.
  assert (0 <= a / 2 ^ rb < 2 ^ (64 - rb)).
  { split; [apply Z.div_pos; lia|]. apply Z.div_lt_upper_bound; lia. }
  nia.
Qed.

(** *** Loops *)

(** Reading below what was stored. *)
Lemma ldw_below m p T m1 q j : set_words m p T = Some m1 -> (q.1 <> p.1 \/ q.2 + j < p.2) -> ldw m1 q j = ldw m q j.
Proof.
  intros (b & d' & E & Hw & ->)%set_words_lookup Hq. unfold ldw. destruct (decide (q.1 = p.1)) as [Eq|Ne];
    [|by rewrite lookup_insert_ne by done].
  rewrite Eq, lookup_insert_eq, E. simpl. destruct Hq as [?|Hq]; [done|].
  unfold wrn in Hw. case_bool_decide as Hk; [|done]. injection Hw as <-. unfold rd.
  destruct (Z.ltb_spec (q.2 + j) 0); [done|]. unfold zlen in Hk. rewrite lookup_app_l by (rewrite length_take; lia).
  by rewrite lookup_take_lt by lia.
Qed.

(** Storing words before a string that was stored. *)
Lemma set_words_before m p K T m1 old : set_words m (padd p (zlen K)) T = Some m1 ->
  words m p (zlen K + zlen T) = Some old ->
  exists m2, set_words m1 p K = Some m2 /\ set_words m p (K ++ T) = Some m2.
Proof.
  intros (b & d' & E & Hw & ->)%set_words_lookup (b' & E' & (H1 & H2 & H3 & _)%rdn_Some)%words_lookup.
  unfold padd in *. simpl in *. rewrite E in E'. injection E' as <-.
  unfold set_words. simpl. rewrite lookup_insert_eq, E. simpl.
  pose proof (wrn_length _ _ _ _ Hw) as Hz. pose proof (zlen_nonneg K). pose proof (zlen_nonneg T).
  rewrite wrn_spec in Hw by lia. injection Hw as <-.
  rewrite (wrn_spec _ _ K) by (rewrite ?Hz; lia). rewrite (wrn_spec _ _ (K ++ T)) by (rewrite ?zlen_app; lia).
  simpl. eexists. split; [reflexivity|]. rewrite insert_insert_eq. do 3 f_equal.
  unfold zlen in *. rewrite length_app. replace (Z.to_nat (p.2 + Z.of_nat (length K))) with (Z.to_nat p.2 + length K)%nat by lia.
  set (n := Z.to_nat p.2) in *.
  rewrite take_app_le, take_take, Nat.min_l by (rewrite ?length_take; lia). rewrite <- (app_assoc K). do 2 f_equal.
  rewrite drop_app_ge by (rewrite length_take; lia). rewrite length_take, Nat.min_l, Nat.sub_diag, drop_0 by lia.
  f_equal. f_equal. lia.
Qed.

Lemma stw_before m p i T m1 v old : set_words m (padd p i) T = Some m1 ->
  words m (padd p (i - 1)) (1 + zlen T) = Some old ->
  exists m2, stw m1 p (i - 1) v = Some m2 /\ set_words m (padd p (i - 1)) (v :: T) = Some m2.
Proof.
  intros Hs Hw. rewrite stw_set_words. apply (set_words_before m _ [v] T m1 old); [|done].
  rewrite <- Hs. unfold padd. simpl. do 2 f_equal. change (zlen [v]) with 1. lia.
Qed.

Lemma ldw_words m p f i w : words m p (zlen f) = Some f -> f !! i = Some w -> ldw m p (Z.of_nat i) = Some w.
Proof.
  intros (b & E & (? & ? & ? & Ef)%rdn_Some)%words_lookup Hi. pose proof (lookup_lt_Some _ _ _ Hi).
  unfold ldw. rewrite E. simpl. unfold rd. rewrite (proj2 (Z.ltb_ge _ 0)) by lia.
  rewrite Ef, lookup_take_lt, lookup_drop in Hi by (unfold zlen; lia). rewrite <- Hi. f_equal. lia.
Qed.

Lemma words_within m p n old k j : words m p n = Some old -> 0 <= k -> 0 <= j -> k + j <= n ->
  exists o, words m (padd p k) j = Some o.
Proof.
  intros (b & E & (? & ? & ? & _)%rdn_Some)%words_lookup Hk Hj Hkj. unfold words, padd. simpl. rewrite E. simpl.
  rewrite rdn_spec by lia. by eexists.
Qed.

Section Left.
Context (m0 : heap) (tp fp : ptr) (lb : Z) (f old : list Z).
Context (Hb : 0 <= lb < 64) (Hf : words_ok f).
Context (Hal : fp.1 <> tp.1 \/ fp.2 <= tp.2).
Context (Wf : words m0 fp (zlen f) = Some f) (Wt : words m0 tp (zlen f + 1) = Some old).

(** The words from [i] on are done; [l] is the word before. *)
Definition shifted_from (i : nat) (l : Z) (m : heap) : Prop :=
  f !! i = Some l /\ set_words m0 (padd tp (Z.of_nat i + 1)) (shl lb (hi_part lb l) (drop (S i) f)) = Some m.

Lemma zlen_shl l i : f !! i = Some l -> zlen (shl lb (hi_part lb l) (drop (S i) f)) = zlen f - Z.of_nat i.
Proof using Hb Hf.
  clear - Hb Hf. intros Hi. pose proof (lookup_lt_Some _ _ _ Hi). assert (Hl : word_ok l) by (by eapply Forall_lookup_1).
  destruct (shl_spec lb (drop (S i) f) Hb ltac:(by apply Forall_drop) _ (hi_part_range lb l Hb Hl)) as [-> _].
  unfold zlen. rewrite length_drop. lia.
Qed.

Lemma lshift_step_spec i l m : shifted_from (S i) l m ->
  exists l' m', lshift_step tp fp lb ((BN_BITS2 - lb) mod BN_BITS2) (shift_mask ((BN_BITS2 - lb) mod BN_BITS2))
    (Z.of_nat (S i)) (l, m) = Some (l', m') /\ shifted_from i l' m'.
Proof using Hb Hf Hal Wf Wt.
  intros [Hl Hm]. pose proof (lookup_lt_Some _ _ _ Hl) as Hlt.
  destruct (lookup_lt_is_Some_2 f i) as [l' Hl']; [lia|].
  assert (Hl'o : word_ok l') by (by eapply Forall_lookup_1). pose proof (hi_part_range lb l' Hb Hl'o) as Hh.
  unfold lshift_step. replace (Z.of_nat (S i) - 1) with (Z.of_nat i) by lia.
  rewrite (ldw_below _ _ _ _ fp _ Hm) by (unfold padd; simpl; lia). rewrite (ldw_words _ _ _ _ _ Wf Hl').
  cbn [mbind option_bind]. rewrite shl_word, hi_word by done.
  destruct (joined lb l (hi_part lb l') Hb Hh) as [-> Hw]. rewrite mask2, u64_small by apply Hw.
  destruct (words_within _ _ _ _ (Z.of_nat (S i) + 1 - 1) (1 + zlen (shl lb (hi_part lb l) (drop (S (S i)) f))) Wt) as [o Ho];
    [lia|pose proof (zlen_nonneg (shl lb (hi_part lb l) (drop (S (S i)) f))); lia|rewrite zlen_shl by done; lia|].
  destruct (stw_before _ _ _ _ _ (lo_part lb l + hi_part lb l') _ Hm Ho) as (m2 & Hs & Hset).
  replace (Z.of_nat (S i) + 1 - 1) with (Z.of_nat (S i)) in * by lia. rewrite Hs. cbn [mbind option_bind].
  exists l', m2. split; [done|]. split; [done|]. rewrite (drop_S f l (S i)) by done. simpl.
  replace (Z.of_nat i + 1) with (Z.of_nat (S i)) by lia. exact Hset.
Qed.

Lemma lshift_loop n : forall l m, shifted_from n l m ->
  exists l' m', downto (lshift_step tp fp lb ((BN_BITS2 - lb) mod BN_BITS2) (shift_mask ((BN_BITS2 - lb) mod BN_BITS2)))
    n (l, m) = Some (l', m') /\ shifted_from 0 l' m'.
Proof using Hb Hf Hal Wf Wt.
  induction n as [|n IH]; intros l m Hs; [by exists l, m|]. cbn [downto].
  destruct (lshift_step_spec n l m Hs) as (l1 & m1 & -> & H1). cbn [mbind option_bind]. by apply IH.
Qed.

(** The part of the function that moves words. *)
Lemma lshift_words n : zlen f = n -> 0 < n ->
  exists m', (l ← ldw m0 fp (n - 1);
    m ← stw m0 tp n (Z.land (Z.shiftr l ((BN_BITS2 - lb) mod BN_BITS2)) (shift_mask ((BN_BITS2 - lb) mod BN_BITS2)));
    '(l, m) ← downto (lshift_step tp fp lb ((BN_BITS2 - lb) mod BN_BITS2) (shift_mask ((BN_BITS2 - lb) mod BN_BITS2)))
                (Z.to_nat (n - 1)) (l, m);
    stw m tp 0 (Z.land (u64 (Z.shiftl l lb)) BN_MASK2)) = Some m' /\ set_words m0 tp (shl lb 0 f) = Some m'.
Proof using Hb Hf Hal Wf Wt.
  intros Hn Pn. destruct (lookup_lt_is_Some_2 f (Z.to_nat (n - 1))) as [l Hl]; [unfold zlen in Hn; lia|].
  assert (Hlo : word_ok l) by (by eapply Forall_lookup_1).
  pose proof (ldw_words _ _ _ _ _ Wf Hl) as Hld. rewrite Z2Nat.id in Hld by lia. rewrite Hld. cbn [mbind option_bind].
  rewrite hi_word by done.
  destruct (stw_some m0 tp (n + 1) old n (hi_part lb l)) as (m1 & H1); [by rewrite <- Hn|lia|].
  rewrite H1. cbn [mbind option_bind].
  destruct (lshift_loop (Z.to_nat (n - 1)) l m1) as (l0 & m2 & -> & [H0 H2]).
  { split; [done|]. rewrite drop_ge by (unfold zlen in Hn; lia). simpl.
    replace (Z.of_nat (Z.to_nat (n - 1)) + 1) with n by lia. by rewrite <- stw_set_words. }
  cbn [mbind option_bind]. simpl (Z.of_nat 0 + 1) in H2.
  rewrite mask2, shl_word by done. assert (Hl0 : word_ok l0) by (by eapply Forall_lookup_1).
  pose proof (lo_part_range lb l0 Hb). pose proof (Z.pow_pos_nonneg 2 lb ltac:(lia) ltac:(lia)).
  rewrite u64_small by lia.
  destruct (stw_before _ _ _ _ _ (lo_part lb l0) old H2) as (m3 & Hs3 & Hset).
  { rewrite zlen_shl by done. simpl (1 - 1). rewrite padd_0. rewrite <- Wt. f_equal. lia. }
  simpl (1 - 1) in *. exists m3. split; [done|]. rewrite padd_0 in Hset. rewrite <- Hset.
  assert (f = l0 :: drop 1 f) as E by (rewrite <- (drop_0 f) at 1; by apply drop_S). rewrite E at 1.
  simpl. by rewrite Z.add_0_r.
Qed.
End Left.

Lemma rshift_word rb l b : 0 <= rb < 64 -> word_ok l ->
  Z.lor (Z.shiftr l rb) (Z.land (u64 (Z.shiftl b ((BN_BITS2 - rb) mod BN_BITS2))) (shift_mask ((BN_BITS2 - rb) mod BN_BITS2))) =
  l / 2 ^ rb + (b mod 2 ^ rb) * 2 ^ (64 - rb).
Proof.
  intros Hb Hl. unfold BN_BITS2. rewrite shift_mask_spec by (apply Z.mod_pos_bound; lia).
  rewrite Z.shiftr_div_pow2 by lia. unfold word_ok in Hl. destruct (Z.eq_dec rb 0) as [->|Hne].
  - change ((64 - 0) mod 64) with 0. simpl (0 =? 0). cbv iota. rewrite Z.land_0_r, Z.lor_0_r.
    change (2 ^ 0) with 1. rewrite Z.mod_1_r. lia.
  - rewrite (Z.mod_small (64 - rb)), (proj2 (Z.eqb_neq _ _)) by lia. rewrite shl_word by lia.
    pose proof (lo_part_range (64 - rb) b ltac:(lia)). pose proof (Z.pow_pos_nonneg 2 (64 - rb) ltac:(lia) ltac:(lia)).
    rewrite Z.land_ones, Z.mod_small by lia. unfold lo_part. replace (64 - (64 - rb)) with rb by lia.
    rewrite Z.lor_comm, (lor_add _ (b mod 2 ^ rb) _ (64 - rb)); [lia|lia| |lia].
    split; [apply Z.div_pos; lia|]. apply Z.div_lt_upper_bound; [lia|]. rewrite <- Z.pow_add_r by lia.
    replace (rb + (64 - rb)) with 64 by lia. lia.
Qed.

(** The part of the function that moves words. *)
Lemma rshift_words rb tp fp : 0 <= rb < 64 -> follows tp fp -> forall rest i m l old, word_ok l -> words_ok rest ->
  words m (padd fp (i + 1)) (zlen rest) = Some rest -> words m (padd tp i) (1 + zlen rest) = Some old ->
  exists m', ('(l, m) ← iterate (rshift_step tp fp ((BN_BITS2 - rb) mod BN_BITS2) rb (shift_mask ((BN_BITS2 - rb) mod BN_BITS2)))
                          (length rest) i (l, m);
              stw m tp (i + zlen rest) (Z.shiftr l rb)) = Some m' /\
    set_words m (padd tp i) (shr rb (l :: rest)) = Some m'.
Proof.
  intros Hb Hal. induction rest as [|b rest IH]; intros i m l old Hl Hr Wf Wt.
  - simpl. rewrite zlen_nil, !Z.add_0_r, Z.shiftr_div_pow2, stw_set_words by lia.
    destruct (set_words_some _ _ _ _ [l / 2 ^ rb] Wt eq_refl) as [m' Hm]. by exists m'.
  - apply Forall_cons in Hr as [Hbo Hr]. rewrite zlen_cons in *.
    pose proof (zlen_nonneg rest). destruct (words_cons _ _ _ _ _ Wf ltac:(lia)) as [Hld Wf']. rewrite <- ldw_padd in Hld.
    destruct (words_split _ _ _ (1 + zlen rest) ltac:(lia) Wt) as (o & old' & -> & _ & Wt').
    cbn [length iterate rshift_step]. rewrite Hld. cbn [mbind option_bind]. rewrite rshift_word by done.
    destruct (stw_some _ _ _ _ 0 (l / 2 ^ rb + b mod 2 ^ rb * 2 ^ (64 - rb)) Wt ltac:(lia)) as [m1 Hs].
    assert (Hs' : stw m tp i (l / 2 ^ rb + b mod 2 ^ rb * 2 ^ (64 - rb)) = Some m1).
    { rewrite <- Hs. unfold stw, padd. simpl. by rewrite Z.add_0_r. }
    rewrite Hs'. cbn [mbind option_bind]. rewrite words_skip in Wf', Wt'.
    destruct (IH (i + 1) m1 b old') as (m' & Hrun & Hset); [done|done| | |].
    + rewrite (words_stw _ _ _ _ _ _ _ Hs'); [done|]. unfold follows, padd in *. simpl. lia.
    + rewrite (words_stw _ _ _ _ _ _ _ Hs'); [done|]. unfold padd. simpl. lia.
    + exists m'. rewrite Z.add_assoc. split; [exact Hrun|]. rewrite (set_words_stw _ _ _ _ _ _ Hs') in Hset.
      exact Hset.
Qed.

(** By one bit, from the last word on. *)
Section Half.
Context (m0 : heap) (tp fp : ptr) (f old : list Z).
Context (Hf : words_ok f) (Hal : fp.1 <> tp.1 \/ fp.2 <= tp.2).
Context (Wf : words m0 fp (zlen f) = Some f) (Wt : words m0 tp (zlen f) = Some old).

Definition halved_from (i : nat) (c : Z) (m : heap) : Prop :=
  (i < length f)%nat /\ set_words m0 (padd tp (Z.of_nat i)) (shr 1 (drop i f)) = Some m /\
  exists b t, drop i f = b :: t /\ c = (b mod 2) * 2 ^ 63.

Lemma rshift1_step_spec i c m : halved_from (S i) c m ->
  exists c' m', rshift1_step tp fp (Z.of_nat (S i)) (c, m) = Some (c', m') /\ halved_from i c' m'.
Proof using Hf Hal Wf Wt.
  intros (Hlt & Hm & b & t & Hd & ->). destruct (lookup_lt_is_Some_2 f i) as [a Ha]; [lia|].
  assert (Hao : word_ok a) by (by eapply Forall_lookup_1).
  unfold rshift1_step. replace (Z.of_nat (S i) - 1) with (Z.of_nat i) by lia.
  rewrite (ldw_below _ _ _ _ fp _ Hm) by (unfold padd; simpl; lia). rewrite (ldw_words _ _ _ _ _ Wf Ha).
  cbn [mbind option_bind]. pose proof (rshift_word 1 a b ltac:(lia) Hao) as Hw.
  destruct (shr_spec 1 (drop (S i) f) ltac:(lia) ltac:(by apply Forall_drop)) as (Zs & _).
  assert (E : Z.lor (Z.land (Z.shiftr a 1) BN_MASK2) (b mod 2 * 2 ^ 63) = a / 2 ^ 1 + b mod 2 ^ 1 * 2 ^ (64 - 1)).
  { rewrite mask2, Z.shiftr_div_pow2, u64_small, Z.lor_comm by (lia || (unfold word_ok in Hao; lia_div)).
    change (2 ^ 1) with 2. rewrite (lor_add _ (b mod 2) _ 63); [simpl (64 - 1); lia|lia| |done].
    unfold word_ok in Hao. lia_div. }
  rewrite E. destruct (words_within _ _ _ _ (Z.of_nat (S i) - 1) (1 + zlen (shr 1 (drop (S i) f))) Wt) as [o Ho];
    [lia|pose proof (zlen_nonneg (shr 1 (drop (S i) f))); lia|rewrite Zs; unfold zlen; rewrite length_drop; lia|].
  destruct (stw_before _ _ _ _ _ (a / 2 ^ 1 + b mod 2 ^ 1 * 2 ^ (64 - 1)) _ Hm Ho) as (m2 & Hs & Hset).
  replace (Z.of_nat (S i) - 1) with (Z.of_nat i) in * by lia. rewrite Hs. cbn [mbind option_bind].
  eexists _, m2. split; [reflexivity|]. split; [lia|]. rewrite (drop_S f a i) by done. cbn [shr]. rewrite Hd in *.
  split; [exact Hset|]. exists a, (b :: t). split; [done|]. change (BN_BITS2 - 1) with 63. rewrite shl_word by lia. done.
Qed.

Lemma rshift1_loop n : forall c m, halved_from n c m ->
  exists c' m', downto (rshift1_step tp fp) n (c, m) = Some (c', m') /\ halved_from 0 c' m'.
Proof using Hf Hal Wf Wt.
  induction n as [|n IH]; intros c m Hs; [by exists c, m|]. cbn [downto].
  destruct (rshift1_step_spec n c m Hs) as (l1 & m1 & -> & H1). cbn [mbind option_bind]. by apply IH.
Qed.
End Half.

(** *** Numbers *)

Section Spec.
Context `{Malloc} (sec : Z -> option (list Z)).

(** [z'] is the number that a shift has left in the place of [z]: not normalised. *)
Definition shifted_in (z : BIGNUM) (neg t v : Z) (z' : BIGNUM) : Prop :=
  bn_fits z' /\ bn_neg z' = neg /\ bn_flags z' = bn_flags z /\ bn_top z' = t /\ mag z' = v /\ bn_dmax z <= bn_dmax z'.

(** An operand after the result has been given more room, its other fields changed. *)
Lemma words_operand m r z z1 z2 a x : m !! r = Some z -> bn_fits z1 -> limbs z1 = limbs z -> bn_top z1 = bn_top z ->
  bn_d z2 = bn_d z1 -> m !! a = Some x -> bn_fits x -> words (<[r := z2]> m) (a, 0) (bn_top x) = Some (limbs x).
Proof.
  intros Er Hf Hl Ht Hd Ea Fx. destruct (decide (a = r)) as [->|Hne].
  - assert (x = z) as -> by congruence. rewrite <- Hl, <- Ht. unfold words. simpl. rewrite lookup_insert_eq. simpl.
    rewrite Hd. destruct Hf as (? & ? & _). by rewrite rdn_spec by lia.
  - unfold words. simpl. rewrite lookup_insert_ne, Ea by done. simpl. pose proof Fx as (? & ? & _).
    by rewrite rdn_spec by lia.
Qed.

Lemma bn_set_insert m r z f : bn_set (<[r := z]> m) r f = Some (<[r := f z]> m).
Proof. unfold bn_set. rewrite lookup_insert_eq. simpl. by rewrite insert_insert_eq. Qed.

Lemma roomier_same z z1 : roomier z z1 -> roomier z (z1 <| bn_top := bn_top z |>).
Proof. intros Hr. pose proof Hr as (_ & _ & <- & _). by replace (z1 <| bn_top := bn_top z1 |>) with z1 by (by destruct z1). Qed.

Lemma eval_zeros n l : eval (replicate n 0 ++ l) = B ^ Z.of_nat n * eval l.
Proof. by rewrite eval_app, eval_replicate, zlen_replicate. Qed.

Lemma lshift_fixed_spec m r a z x n : m !! r = Some z -> m !! a = Some x -> bn_fits z -> bn_fits x -> 0 <= n ->
  bn_wexpand sec m r (bn_top x + n / BN_BITS2 + 1) = Some (false, m) /\ bn_lshift_fixed_top sec m r a n = Some (0, m) \/
  exists z', bn_lshift_fixed_top sec m r a n = Some (1, <[r := z']> m) /\
    shifted_in z (bn_neg x) (bn_top x + n / BN_BITS2 + 1) (mag x * 2 ^ n) z'.
Proof.
  intros Er Ea Fz Fx Hn. unfold bn_lshift_fixed_top. rewrite Ea. cbn [mbind option_bind].
  set (nw := n / BN_BITS2). assert (Hnw : 0 <= nw) by (apply Z.div_pos; unfold BN_BITS2; lia).
  set (lb := n mod BN_BITS2). assert (Hlb : 0 <= lb < 64) by (apply Z.mod_pos_bound; unfold BN_BITS2; lia).
  assert (En : n = 64 * nw + lb) by (apply Z.div_mod; done).
  destruct (wexpand_spec sec m r z (bn_top x + nw + 1) Er Fz) as [->|(z1 & Ew & Hr & Hd)]; [by left|right].
  pose proof (wexpand_grows sec _ _ _ _ _ Er Ew) as Hg. rewrite Ew. cbn [mbind option_bind negb].
  pose proof Hr as (Fz1 & _ & _ & _ & Fl). pose proof Fz1 as (Zz & Tz & Oz & _). pose proof Fx as (_ & Tx & _ & Nx).
  pose proof (zlen_limbs x Fx) as Zx. pose proof (limbs_ok x Fx) as Ox.
  destruct (shl_spec lb (limbs x) Hlb Ox 0 ltac:(split; [lia|apply Z.pow_pos_nonneg; lia])) as (Zs & Os & Es).
  assert (Wt : exists old, words (<[r := z1]> m) (r, nw) (bn_top x + 1) = Some old) by (apply words_room; lia).
  destruct Wt as [old Wt].
  assert (Wx : words (<[r := z1]> m) (a, 0) (bn_top x) = Some (limbs x))
    by (apply (words_operand m r z z1 z1 a x); done || apply Hr).
  match goal with |- context [if negb (bn_top x =? 0) then ?A else ?C] =>
    assert (exists m1, (if negb (bn_top x =? 0) then A else C) = Some m1 /\
      set_words (<[r := z1]> m) (r, nw) (shl lb 0 (limbs x)) = Some m1) as (m1 & E1 & H1)
  end.
  { destruct (Z.eqb_spec (bn_top x) 0) as [E0|Hne]; cbn [negb].
    - assert (limbs x = []) as -> by (unfold limbs; by rewrite E0). simpl shl. rewrite stw_set_words.
      unfold padd. simpl fst. simpl snd. rewrite Z.add_0_l. rewrite E0 in Wt.
      destruct (set_words_some _ _ _ _ [0] Wt eq_refl) as [m1 ->]. by exists m1.
    - cbv zeta. apply (lshift_words _ _ _ lb (limbs x) old); try done; [|by rewrite Zx|by rewrite Zx|lia].
      destruct (decide (a = r)); [right; simpl; lia|by left]. }
  rewrite E1. cbn [mbind option_bind].
  assert (exists m2, (if negb (nw =? 0) then set_words m1 (r, 0) (replicate (Z.to_nat nw) 0) else Some m1) = Some m2 /\
    set_words (<[r := z1]> m) (r, 0) (replicate (Z.to_nat nw) 0 ++ shl lb 0 (limbs x)) = Some m2) as (m2 & E2 & H2).
  { assert (exists o, words (<[r := z1]> m) (r, 0) (nw + (bn_top x + 1)) = Some o) as [o Ho] by (apply words_room; lia).
    destruct (set_words_before (<[r := z1]> m) (r, 0) (replicate (Z.to_nat nw) 0) (shl lb 0 (limbs x)) m1 o)
      as (m2 & E2 & H2); rewrite ?zlen_replicate, ?Z2Nat.id, ?Zs, ?Zx by lia; [exact H1|exact Ho|].
    exists m2. destruct (Z.eqb_spec nw 0) as [E0|]; cbn [negb]; [|done]. rewrite E0 in *. simpl in *. by rewrite <- H1. }
  rewrite E2. cbn [mbind option_bind]. unfold bn_set.
  destruct (stored_number m r z1 _ m2 (bn_top x + nw + 1) (bn_neg x) H2 Zz Oz) as (d' & -> & _ & Hf & Hlim);
    [apply Forall_app; split; [apply words_ok_zeros|done]
    |rewrite zlen_app, zlen_replicate; lia|done|].
  rewrite lookup_insert_eq. cbn [mbind option_bind]. rewrite insert_insert_eq. eexists. split; [reflexivity|].
  unfold shifted_in. split; [exact Hf|]. split; [done|]. split; [simpl; rewrite Fl; apply Z.lor_0_r|].
  split; [done|]. split; [|simpl; lia].
  unfold mag at 1. etransitivity; [exact (f_equal eval Hlim)|].
  rewrite take_all by (rewrite zlen_app, zlen_replicate; lia). rewrite eval_zeros, Es, Z2Nat.id by lia.
  rewrite En, Z.pow_add_r, Z.pow_mul_r by lia. unfold mag, B. lia.
Qed.

Lemma div_pow2_split v n : 0 <= n -> v / 2 ^ n = v / B ^ (n / BN_BITS2) / 2 ^ (n mod BN_BITS2).
Proof.
  intros Hn. unfold B, BN_BITS2. rewrite <- Z.pow_mul_r by (lia || (apply Z.div_pos; lia)).
  pose proof (Z.mod_pos_bound n 64 ltac:(lia)). assert (0 <= n / 64) by (apply Z.div_pos; lia).
  rewrite Z.div_div by (try (apply Z.pow_pos_nonneg); try apply Z.pow_nonzero; lia).
  rewrite <- Z.pow_add_r by lia. do 2 f_equal. apply Z.div_mod. lia.
Qed.

(** The same for a shift to the right, which may leave zero in another way. *)
Definition shifted_right (z x : BIGNUM) (v : Z) (z' : BIGNUM) : Prop :=
  bn_fits z' /\ (bn_neg z' = bn_neg x \/ bn_neg z' = 0 /\ v = 0) /\ bn_flags z' = bn_flags z /\ mag z' = v /\
  bn_dmax z <= bn_dmax z'.

Lemma zero_fits z : bn_fits z ->
  bn_fits (z <| bn_neg := 0 |> <| bn_top := 0 |> <| bn_flags := Z.land (bn_flags z) (Z.lnot BN_FLG_FIXED_TOP) |>).
Proof. intros (Hz & Ht & Ho & Hn). unfold bn_fits. simpl. split_and!; try done; lia. Qed.

Lemma rshift_fixed_spec m r a z x n : m !! r = Some z -> m !! a = Some x -> bn_fits z -> bn_fits x -> 0 <= n ->
  refused sec m r (bn_top x) /\ bn_rshift_fixed_top sec m r a n = Some (0, m) \/
  exists z', bn_rshift_fixed_top sec m r a n = Some (1, <[r := z']> m) /\ shifted_right z x (mag x / 2 ^ n) z'.
Proof.
  intros Er Ea Fz Fx Hn. unfold bn_rshift_fixed_top. rewrite Ea. cbn [mbind option_bind].
  assert (Hnw : 0 <= n / BN_BITS2) by (apply Z.div_pos; unfold BN_BITS2; lia).
  assert (Hrb : 0 <= n mod BN_BITS2 < 64) by (apply Z.mod_pos_bound; unfold BN_BITS2; lia).
  pose proof (div_pow2_split (mag x) n Hn) as Ed. set (nw := n / BN_BITS2) in *. set (rb := n mod BN_BITS2) in *.
  pose proof (mag_range x Fx) as Hm. pose proof Fx as (_ & Tx & _ & Nx).
  destruct (Z.leb_spec (bn_top x) nw) as [Hle|Hlt].
  - right. unfold BN_zero, bn_set. rewrite Er. cbn [mbind option_bind]. eexists. split; [reflexivity|].
    rewrite Ed, (Z.div_small (mag x)), Z.div_0_l.
    + unfold shifted_right. split; [by apply zero_fits|]. split; [by right|]. split; [apply Z.land_m1_r|]. simpl.
      split; [done|lia].
    + apply Z.pow_nonzero; lia.
    + split; [lia|]. eapply Z.lt_le_trans; [apply Hm|]. apply Z.pow_le_mono_r; [done|lia].
  - assert (exists z1, (if decide (r = a) then Some (true, m) else bn_wexpand sec m r (bn_top x - nw)) = Some (true, <[r := z1]> m) /\
      roomier z z1 /\ bn_dmax z <= bn_dmax z1 /\ bn_top x - nw <= bn_dmax z1 \/
      refused sec m r (bn_top x) /\
      (if decide (r = a) then Some (true, m) else bn_wexpand sec m r (bn_top x - nw)) = Some (false, m))
      as (z1 & [(-> & Hr & Hg & Hd)|[Hk ->]]).
    { destruct (decide (r = a)) as [->|Hne].
      - exists x. left. rewrite insert_id by done. assert (z = x) as -> by congruence. split_and!; try done; lia.
      - destruct (wexpand_spec sec m r z (bn_top x - nw) Er Fz) as [E|(z1 & E & Hr & Hd)].
        + exists z. right. rewrite E. split; [by exists (bn_top x - nw); split; [lia|]|done].
        + exists z1. left. rewrite E. split_and!; try done. by apply (wexpand_grows sec _ _ _ _ _ Er E). }
    2: { left. by split. }
    right. cbn [mbind option_bind negb].
    pose proof Hr as (Fz1 & _ & _ & _ & Fl). pose proof Fz1 as (Zz & Tz & Oz & _).
    pose proof (zlen_limbs x Fx) as Zx. pose proof (limbs_ok x Fx) as Ox.
    pose proof (words_grown m r z z1 a x nw (bn_top x - nw) Er (roomier_same z z1 Hr) Ea Fx ltac:(lia) ltac:(lia) ltac:(lia)) as Wx.
    rewrite take_all in Wx by (rewrite zlen_drop; lia).
    assert (Zd : zlen (drop (Z.to_nat nw) (limbs x)) = bn_top x - nw) by (rewrite zlen_drop; lia).
    pose proof (eval_drop (limbs x) nw ltac:(lia) Ox) as Ev. fold (mag x) in Ev. rewrite Ev in Ed. clear Ev.
    pose proof (Forall_drop _ (Z.to_nat nw) _ Ox) as Od.
    destruct (drop (Z.to_nat nw) (limbs x)) as [|l rest]; [change (zlen (@nil Z)) with 0 in Zd; lia|].
    rewrite zlen_cons in Zd. apply Forall_cons in Od as [Hl Hrest].
    replace (bn_top x - nw) with (1 + zlen rest) in * by lia. pose proof (zlen_nonneg rest).
    destruct (words_cons _ _ _ _ _ Wx ltac:(lia)) as [Hld Wr]. rewrite Hld. cbn [mbind option_bind].
    destruct (words_room m r z1 0 (1 + zlen rest) Zz) as [old Wt]; [lia..|].
    destruct (rshift_words rb (r, 0) (a, nw) Hrb ltac:(right; simpl; lia) rest 0 _ l old Hl Hrest Wr
                ltac:(by rewrite padd_0)) as (m' & Hrun & Hset).
    replace (1 + zlen rest - 1) with (0 + zlen rest) by lia.
    replace (Z.to_nat (0 + zlen rest)) with (length rest) by (unfold zlen; lia).
    destruct (iterate _ _ _ _) as [[l' m1]|]; [|done]. cbn [mbind option_bind] in *. rewrite Hrun. cbn [mbind option_bind].
    destruct (shr_spec rb (l :: rest) Hrb ltac:(by constructor)) as (Zs & Os & Es).
    rewrite padd_0 in Hset. unfold bn_set.
    destruct (stored_number m r z1 _ m' (1 + zlen rest) (bn_neg x) Hset Zz Oz Os) as (d' & -> & _ & Hf & Hlim);
      [rewrite Zs, zlen_cons; lia|done|].
    rewrite lookup_insert_eq. cbn [mbind option_bind]. rewrite insert_insert_eq. eexists. split; [reflexivity|].
    unfold shifted_right. split; [exact Hf|]. split; [by left|]. split; [simpl; rewrite Fl; apply Z.lor_0_r|].
    split; [|simpl; lia]. unfold mag at 1. etransitivity; [exact (f_equal eval Hlim)|].
    rewrite take_all by (rewrite Zs; apply zlen_cons). by rewrite Es, Ed.
Qed.

Definition double_word (a c : Z) : Z * Z :=
  (Z.land (Z.lor (u64 (Z.shiftl a 1)) c) BN_MASK2, Z.shiftr a (BN_BITS2 - 1)).

Lemma double_word_spec a b c : word_ok a -> word_ok b -> bit_ok c ->
  word_ok (double_word a c).1 /\ bit_ok (double_word a c).2 /\
  (double_word a c).1 + 1 * B * (double_word a c).2 = 2 * a + 0 * b + 1 * c.
Proof.
  unfold double_word. intros Ha _ Hc. rewrite mask2, shl_word by lia. simpl fst. simpl snd.
  destruct (joined 1 a c ltac:(lia) ltac:(unfold bit_ok in Hc; lia)) as [-> Hw].
  rewrite u64_small by apply Hw. rewrite Z.shiftr_div_pow2 by (unfold BN_BITS2; lia).
  change (a / 2 ^ (BN_BITS2 - 1)) with (hi_part 1 a). pose proof (parts 1 a ltac:(lia)).
  pose proof (hi_part_range 1 a ltac:(lia) Ha). split; [done|]. unfold bit_ok. split; lia.
Qed.

Lemma wexpand_sign m r z neg n : m !! r = Some z ->
  bn_wexpand sec (<[r := z <| bn_neg := neg |>]> m) r n = Some (false, <[r := z <| bn_neg := neg |>]> m) ->
  bn_wexpand sec m r n = Some (false, m).
Proof.
  intros E. unfold bn_wexpand, bn_expand2. rewrite lookup_insert_eq, E. cbn [mbind option_bind].
  change (bn_dmax (z <| bn_neg := neg |>)) with (bn_dmax z).
  change (bn_expand_internal sec (z <| bn_neg := neg |>) n) with (bn_expand_internal sec z n).
  destruct (n <=? bn_dmax z); [done|]. destruct (bn_dmax z <? n); [|done]. by destruct (bn_expand_internal sec z n).
Qed.

Lemma value_signed x : value x = signed (bn_neg x) (mag x).
Proof. done. Qed.

Lemma lshift1_spec m r a z x : m !! r = Some z -> m !! a = Some x -> bn_fits z -> bn_ok x ->
  outcome sec m r z (bn_top x + 1) (value x * 2) (BN_lshift1 sec m r a).
Proof.
  intros Er Ea Fz [Fx [Nx N0]]. unfold BN_lshift1. rewrite Ea. cbn [mbind option_bind].
  pose proof Fx as (_ & Tx & _ & Sx). set (y := z <| bn_neg := bn_neg x |>).
  assert ((if decide (r = a) then Some m else bn_set m r (fun z => z <| bn_neg := bn_neg x |>)) = Some (<[r := y]> m)) as ->.
  { unfold bn_set. rewrite Er. destruct (decide (r = a)) as [->|]; [|done]. assert (z = x) as <- by congruence.
    f_equal. symmetry. apply insert_id. rewrite Er. by destruct z. }
  cbn [mbind option_bind]. assert (Fy : bn_fits y) by (by apply fits_neg).
  assert (Er' : <[r := y]> m !! r = Some y) by apply lookup_insert_eq.
  destruct (wexpand_spec sec _ r y (bn_top x + 1) Er' Fy) as [E|(z1 & Ew & Hr & Hd)].
  { rewrite E. cbn [mbind option_bind negb]. eexists _, _. split; [reflexivity|]. right. split; [done|]. split; [|done].
    exists (bn_top x + 1). split; [lia|]. by eapply wexpand_sign. }
  pose proof (wexpand_grows sec _ _ _ _ _ Er' Ew) as Hg. rewrite Ew.
  cbn [mbind option_bind negb]. rewrite insert_insert_eq.
  set (z2 := z1 <| bn_top := bn_top x |>).
  assert ((if decide (r = a) then Some (<[r := z1]> m)
           else bn_set (<[r := z1]> m) r (fun z => z <| bn_top := bn_top x |>)) = Some (<[r := z2]> m)) as ->.
  { unfold bn_set. rewrite lookup_insert_eq. cbn [mbind option_bind]. rewrite insert_insert_eq.
    destruct (decide (r = a)) as [->|]; [|done]. assert (z = x) as -> by congruence. do 2 f_equal.
    unfold z2. assert (bn_top z1 = bn_top x) as <- by apply Hr. by destruct z1. }
  cbn [mbind option_bind]. pose proof Hr as ((Zz & _ & Oz & _) & _ & _ & Hn & Hfl).
  assert (Wx : words (<[r := z2]> m) (a, 0) (bn_top x) = Some (limbs x))
    by (apply (words_operand m r z z1 z2 a x); done || apply Hr).
  destruct (words_room m r z2 0 (bn_top x) Zz) as [old Wt]; [simpl; lia..|].
  destruct (linear_iterate (lshift1_step (r, 0) (a, 0)) (fun a _ c => double_word a c) (r, 0) (a, 0) (a, 0) bit_ok 1 2 0
              ltac:(intros i [c' m']; unfold lshift1_step, word_step; by destruct (ldw m' _ i)) double_word_spec
              (same_follows _ _ _) (same_follows _ _ _) _ (bn_top x) _ _ _ Wx Wx Wt (limbs_ok x Fx) (limbs_ok x Fx) 0
              ltac:(done)) as (L & c & m4 & -> & HL & ZL & OL & Hc & EL).
  cbn [mbind option_bind]. rewrite stw_set_words. unfold padd. simpl fst. simpl snd. rewrite Z.add_0_l, <- ZL.
  destruct (store_carry m r z2 L m4 c HL Hc Zz) as (m5 & -> & H5); [simpl; lia|]. cbn [mbind option_bind].
  destruct (stored_number m r z2 _ m5 (bn_top x + c) (bn_neg x) H5 Zz Oz) as (d' & -> & _ & Hf & Hlim);
    [apply Forall_app; split; [done|]; constructor; [unfold bit_ok in Hc; unfold ConstantTime.word_ok; lia|done]
    |unfold bit_ok in Hc; len_lia|done|].
  unfold bn_set. rewrite lookup_insert_eq. cbn [mbind option_bind]. rewrite insert_insert_eq.
  set (z' := z2 <| bn_d := d' |> <| bn_top := bn_top x + c |>).
  assert (Ez : z' = z2 <| bn_d := d' |> <| bn_top := bn_top x + c |> <| bn_neg := bn_neg x |>).
  { unfold z', z2. destruct z1. simpl in *. by rewrite Hn. }
  rewrite <- Ez in Hf, Hlim.
  destruct (sum_value L c (bn_top x) (2 * mag x) ZL Hc OL) as [Hv Ht]; [unfold mag; lia|].
  rewrite <- Hlim in Hv. fold (mag z') in Hv.
  eexists _, z'. split; [reflexivity|]. left. split; [done|]. split; [|split; [split; [exact Hfl|exact Hg]|]].
  - split; [done|]. unfold normal. rewrite Hv. change (bn_top z') with (bn_top x + c).
    assert (Hneg : bn_neg z' = bn_neg x) by (by rewrite Ez). rewrite Hneg. unfold bit_ok in Hc. split; [intros Hp|intros H0; apply N0; lia].
    pose proof (mag_range x Fx).
    destruct Ht as [Ht|[Ht Hb]]; rewrite Ht in *; [specialize (Nx Hp); lia|by rewrite Z.add_simpl_r].
  - rewrite !value_signed, Hv, Ez. unfold signed. simpl. case_match; lia.
Qed.

Lemma quot_signed neg v d : 0 <= v -> 0 < d -> Z.quot (signed neg v) d = signed neg (v / d).
Proof.
  intros Hv Hd. unfold signed. case_match; [by apply Z.quot_div_nonneg|].
  rewrite Z.quot_opp_l by lia. f_equal. by apply Z.quot_div_nonneg.
Qed.

Lemma mag_top_bounds x t : bn_fits x -> 0 < bn_top x -> limbs x !! Z.to_nat (bn_top x - 1) = Some t ->
  B ^ (bn_top x - 1) * t <= mag x < B ^ (bn_top x - 1) * (t + 1).
Proof.
  intros Fx Hp Ht. pose proof (zlen_limbs x Fx) as Zx. pose proof (limbs_ok x Fx) as Ox. unfold mag.
  rewrite (eval_split (limbs x) (bn_top x - 1)) by lia.
  pose proof (eval_range (take (Z.to_nat (bn_top x - 1)) (limbs x)) ltac:(by apply Forall_take)) as Hr.
  rewrite zlen_take in Hr by lia. rewrite (drop_S _ t) by done. rewrite drop_ge by (unfold zlen in Zx; lia). simpl. lia.
Qed.

(** Half of a number that is not zero: its length shrinks when its top word was 1. *)
Lemma half_normal R v top t : zlen R = top -> 0 < top -> words_ok R -> eval R = v / 2 -> 0 <= v < B ^ top ->
  B ^ (top - 1) * t <= v < B ^ (top - 1) * (t + 1) -> 0 < t ->
  let top' := top - Z.b2z (t =? 1) in
  eval (take (Z.to_nat top') R) = v / 2 /\ (0 < top' -> B ^ (top' - 1) <= v / 2).
Proof.
  intros Hz Hp Ho Ev Hv Ht Pt. pose proof (B_pos (top - 1) ltac:(lia)) as PB. destruct (Z.eqb_spec t 1) as [->|Hne]; simpl Z.b2z; cbv zeta.
  - pose proof (eval_split R (top - 1) ltac:(lia)) as Es.
    pose proof (eval_range (take (Z.to_nat (top - 1)) R) ltac:(by apply Forall_take)) as H1.
    pose proof (eval_range (drop (Z.to_nat (top - 1)) R) ltac:(by apply Forall_drop)) as H2.
    assert (Hlt : v / 2 < B ^ (top - 1)) by (apply Z.div_lt_upper_bound; lia).
    assert (eval (drop (Z.to_nat (top - 1)) R) = 0) as E0 by (rewrite Ev in Es; nia).
    rewrite E0, Ev in Es. split; [lia|]. intros Hp'.
    replace (top - 1) with (1 + (top - 1 - 1)) in Ht by lia. rewrite B_succ in Ht by lia.
    pose proof (B_pos (top - 1 - 1) ltac:(lia)). apply Z.div_le_lower_bound; [lia|]. unfold B at 1 in Ht. lia.
  - rewrite Z.sub_0_r, take_all by done. split; [done|]. intros _. apply Z.div_le_lower_bound; [lia|]. nia.
Qed.

Lemma rshift1_spec m r a z x : m !! r = Some z -> m !! a = Some x -> bn_fits z -> bn_ok x ->
  outcome sec m r z (bn_top x) (Z.quot (value x) 2) (BN_rshift1 sec m r a).
Proof.
  intros Er Ea Fz [Fx Nx]. unfold BN_rshift1. rewrite Ea. cbn [mbind option_bind]. unfold BN_is_zero.
  pose proof Fx as (_ & Tx & _ & Sx). pose proof (mag_range x Fx) as Hm.
  destruct (Z.eqb_spec (bn_top x) 0) as [E0|Hne].
  { assert (value x = 0) as ->. { unfold value. rewrite (proj2 Nx E0). unfold mag, limbs. by rewrite E0. }
    unfold BN_zero, bn_set. rewrite Er. cbn [mbind option_bind]. eexists _, _. split; [reflexivity|]. left.
    split; [done|]. split; [|split; [split; [apply Z.land_m1_r|simpl; lia]|done]]. split; [by apply zero_fits|]. split; [simpl; lia|done]. }
  assert (exists z1, (if decide (a = r) then Some (true, m) else
      '(ok, m) ← bn_wexpand sec m r (bn_top x);
      if negb ok then Some (false, m) else m ← bn_set m r (fun z => z <| bn_neg := bn_neg x |>); Some (true, m)) =
      Some (true, <[r := z1 <| bn_neg := bn_neg x |>]> m) /\ (roomier z z1 /\ bn_dmax z <= bn_dmax z1) /\ bn_top x <= bn_dmax z1 \/
      bn_wexpand sec m r (bn_top x) = Some (false, m) /\
      (if decide (a = r) then Some (true, m) else
      '(ok, m) ← bn_wexpand sec m r (bn_top x);
      if negb ok then Some (false, m) else m ← bn_set m r (fun z => z <| bn_neg := bn_neg x |>); Some (true, m)) = Some (false, m))
    as (z1 & [(-> & [Hr Hg] & Hd)|[Hk ->]]).
  { destruct (decide (a = r)) as [->|Hne'].
    - exists x. left. assert (z = x) as -> by congruence. split; [|split; [split; [by split|lia]|lia]].
      do 2 f_equal. symmetry. apply insert_id. rewrite Er. by destruct x.
    - destruct (wexpand_spec sec m r z (bn_top x) Er Fz) as [E|(z1 & E & Hr & Hd)]; rewrite E; cbn [mbind option_bind negb].
      + exists z. right. done.
      + exists z1. left. pose proof (wexpand_grows sec _ _ _ _ _ Er E). unfold bn_set. rewrite lookup_insert_eq.
        cbn [mbind option_bind]. by rewrite insert_insert_eq. }
  2: { cbn [mbind option_bind negb]. exists 0, z. rewrite insert_id by done. split; [done|]. right. split; [done|].
       split; [by eexists; split|by destruct z]. }
  cbn [mbind option_bind negb]. rewrite bn_set_insert. cbn [mbind option_bind].
  set (z2 := z1 <| bn_neg := bn_neg x |> <| bn_top := bn_top x |>).
  pose proof Hr as (Fz1 & Lz1 & Tz1 & _ & Fl). pose proof Fz1 as (Zz & Tz & Oz & _).
  assert (Wx : forall z3, bn_d z3 = bn_d z1 -> words (<[r := z3]> m) (a, 0) (bn_top x) = Some (limbs x))
    by (intros; by apply (words_operand m r z z1 _ a x)).
  pose proof (limbs_ok x Fx) as Ox. pose proof (zlen_limbs x Fx) as Zx.
  set (n := Z.to_nat (bn_top x - 1)). assert (En : Z.of_nat n = bn_top x - 1) by lia.
  destruct (lookup_lt_is_Some_2 (limbs x) n) as [t Ht]; [unfold zlen in Zx; lia|].
  assert (Hto : word_ok t) by (by eapply Forall_lookup_1).
  pose proof (ldw_words _ _ _ _ _ ltac:(rewrite Zx; by apply (Wx z2)) Ht) as Hld. rewrite En in Hld. rewrite Hld. cbn [mbind option_bind].
  rewrite stw_set_words. destruct (words_room m r z2 (bn_top x - 1) 1 Zz) as [o1 O1]; [simpl; lia..|].
  destruct (set_words_some _ _ _ _ [Z.shiftr t 1] O1 eq_refl) as [m1 H1]. unfold padd. simpl fst. simpl snd.
  rewrite Z.add_0_l, H1. apply set_words_lookup in H1 as (b & d1 & Eb & Hw & ->). cbn [fst snd mbind option_bind] in Eb, Hw |- *.
  rewrite lookup_insert_eq in Eb. injection Eb as <-. rewrite insert_insert_eq, bn_set_insert. cbn [mbind option_bind].
  set (top' := bn_top x - Z.b2z (t =? 1)). set (z3 := z2 <| bn_top := top' |>).
  destruct (words_room m r z3 0 (bn_top x) Zz) as [old Wt]; [simpl; lia..|].
  destruct (rshift1_loop (<[r := z3]> m) (r, 0) (a, 0) (limbs x) old Ox ltac:(right; simpl; lia)
              ltac:(rewrite Zx; by apply Wx) ltac:(by rewrite Zx) n (u64 (Z.shiftl t (BN_BITS2 - 1)))
              (<[r := z3 <| bn_d := d1 |>]> m)) as (c' & m' & Hrun & (_ & Hset & _)).
  { split; [unfold zlen in Zx; lia|]. rewrite (drop_S _ t n) by done. rewrite drop_ge by (unfold zlen in Zx; lia).
    split; [|exists t, []; split; [done|]; unfold BN_BITS2; by rewrite shl_word by lia].
    simpl shr. rewrite Z.add_0_r, <- (Z.shiftr_div_pow2 t 1) by lia. unfold set_words, padd. cbn [fst snd].
    rewrite lookup_insert_eq, En, Z.add_0_l. cbn [mbind option_bind]. change (bn_d z3) with (bn_d z2). rewrite Hw.
    cbn [mbind option_bind]. by rewrite insert_insert_eq. }
  change (z2 <| bn_d := d1 |> <| bn_top := bn_top (z2 <| bn_d := d1 |>) - Z.b2z (t =? 1) |>) with (z3 <| bn_d := d1 |>).
  cbv beta in Hrun |- *. rewrite Hrun. cbn [mbind option_bind]. rewrite drop_0 in Hset. change (padd (r, 0) (Z.of_nat 0)) with ((r, 0) : ptr) in Hset.
  destruct (shr_spec 1 (limbs x) ltac:(lia) Ox) as (Zs & Os & Es). fold (mag x) in Es. change (2 ^ 1) with 2 in Es.
  destruct (stored_number m r z3 _ m' top' (bn_neg x) Hset Zz Oz Os) as (d' & -> & _ & Hf & Hlim);
    [rewrite Zs, Zx; unfold top'; destruct (t =? 1); simpl; lia|done|].
  rewrite bn_set_insert. cbn [mbind option_bind].
  destruct (mag_top_bounds x t Fx ltac:(lia) Ht) as [Hb1 Hb2].
  assert (Pt : 0 < t).
  { destruct Nx as [Nx _]. specialize (Nx ltac:(lia)). pose proof (B_pos (bn_top x - 1) ltac:(lia)).
    unfold word_ok in Hto. nia. }
  destruct (half_normal _ (mag x) (bn_top x) t ltac:(rewrite Zs; exact Zx) ltac:(lia) Os Es Hm ltac:(lia) Pt) as [Hv Hn].
  fold top' in Hv, Hn. rewrite <- Hlim in Hv.
  set (z4 := z3 <| bn_d := d' |> <| bn_top := top' |> <| bn_neg := bn_neg x |>) in *. fold (mag z4) in Hv.
  assert (Ez : z3 <| bn_d := d' |> = z4) by done. rewrite Ez.
  assert (Hvx : Z.quot (value x) 2 = signed (bn_neg x) (mag x / 2)) by (apply quot_signed; lia).
  assert (Hn4 : bn_neg z4 = bn_neg x) by done. assert (Ht4 : bn_top z4 = top') by done.
  assert (Hf4 : grown z z4) by (split; [exact Fl|exact Hg]). clearbody z4.
  eexists _, _. split; [reflexivity|]. left. split; [done|]. rewrite Hvx, Ht4.
  destruct (Z.eqb_spec top' 0) as [E0|Hne0].
  - assert (mag x / 2 = 0) as E2 by (rewrite <- Hv; unfold mag, limbs; by rewrite Ht4, E0).
    split; [|split; [done|]; unfold value, mag, limbs, signed in *; simpl; rewrite E2; rewrite Ht4, E0; simpl; by case_match].
    split; [apply (fits_neg sec); [done|by left]|]. split; [simpl; lia|done].
  - split; [|split; [done|]; by rewrite value_signed, Hn4, Hv]. split; [done|]. unfold normal. rewrite Hv, Ht4. by split.
Qed.

(** The result of a shift that normalises: without a block of [size] words the value is
    the old one. *)
Definition normalised (m : heap) (r : nat) (z : BIGNUM) (size v : Z) (res : option (Z * heap)) : Prop :=
  exists ret z', res = Some (ret, <[r := z']> m) /\ bn_ok z' /\ bn_flags z' = bn_flags z /\
    (ret = 1 /\ value z' = v \/
     ret = 0 /\ refused sec m r size /\ value z' = value z).

Lemma corrected m r y z size v ret : bn_fits y -> bn_flags y = bn_flags z ->
  (ret = 1 /\ value y = v \/ ret = 0 /\ refused sec m r size /\ value y = value z) ->
  normalised m r z size v (m ← bn_correct_top (<[r := y]> m) r; Some (ret, m)).
Proof.
  intros Fy Hfl Hv. destruct (correct_top_spec _ r y (lookup_insert_eq m r y) Fy) as (y' & -> & Hok & Hm & _ & Hf & Hn).
  cbn [mbind option_bind]. rewrite insert_insert_eq. eexists ret, y'. split; [done|]. split; [done|]. split; [congruence|].
  by rewrite (value_corrected y y' Hm Hn).
Qed.

Lemma lshift_spec m r a z x n : m !! r = Some z -> m !! a = Some x -> bn_ok z -> bn_ok x -> 0 <= n ->
  normalised m r z (bn_top x + n / BN_BITS2 + 1) (value x * 2 ^ n) (BN_lshift sec m r a n).
Proof.
  intros Er Ea [Fz Nz] [Fx Nx] Hn. pose proof (mag_range x Fx). pose proof (Z.pow_pos_nonneg 2 n ltac:(lia) Hn).
  unfold BN_lshift. rewrite (proj2 (Z.ltb_ge n 0)) by lia.
  destruct (lshift_fixed_spec m r a z x n Er Ea Fz Fx Hn) as [[Hw ->]|(z' & -> & Hf & Hneg & Hfl & _ & Hm & _)];
    cbn [mbind option_bind].
  - rewrite <- (insert_id m r z Er) at 2. apply corrected; [done..|]. right. split; [done|]. split; [by eexists; split|done].
  - apply corrected; [done..|]. left. split; [done|]. unfold value. rewrite Hneg, Hm. case_match; lia.
Qed.

Lemma rshift_spec m r a z x n : m !! r = Some z -> m !! a = Some x -> bn_ok z -> bn_ok x -> 0 <= n ->
  normalised m r z (bn_top x) (Z.quot (value x) (2 ^ n)) (BN_rshift sec m r a n).
Proof.
  intros Er Ea [Fz Nz] [Fx Nx] Hn. pose proof (mag_range x Fx). pose proof (Z.pow_pos_nonneg 2 n ltac:(lia) Hn).
  unfold BN_rshift. rewrite (proj2 (Z.ltb_ge n 0)) by lia.
  destruct (rshift_fixed_spec m r a z x n Er Ea Fz Fx Hn) as [[Hw ->]|(z' & -> & Hf & Hneg & Hfl & Hm & _)];
    cbn [mbind option_bind].
  - rewrite <- (insert_id m r z Er) at 2. apply corrected; [done..|]. right. by split.
  - apply corrected; [done..|]. left. split; [done|]. rewrite (value_signed x), quot_signed by lia. unfold value, signed.
    rewrite Hm. destruct Hneg as [->|[-> ->]]; [done|]. simpl. by case_match.
Qed.

(** C38: Shifting by any number of bits multiplies by a power of two, or divides by it and
    rounds towards zero; the result is exact and normalised whether or not it takes the place of the
    operand.  When there is no memory for it, 0 is returned and the value is the old one, but
    [BN_lshift1] may have changed the sign. *)
Theorem BN_shift_correct m r a z x n : m !! r = Some z -> m !! a = Some x -> bn_ok z -> bn_ok x -> 0 <= n ->
  normalised m r z (bn_top x + n / BN_BITS2 + 1) (value x * 2 ^ n) (BN_lshift sec m r a n) /\
  normalised m r z (bn_top x) (Z.quot (value x) (2 ^ n)) (BN_rshift sec m r a n) /\
  outcome sec m r z (bn_top x + 1) (value x * 2) (BN_lshift1 sec m r a) /\
  outcome sec m r z (bn_top x) (Z.quot (value x) 2) (BN_rshift1 sec m r a).
Proof.
  intros Er Ea Hz Hx Hn. split_and!; [by apply lshift_spec|by apply rshift_spec|..].
  - apply (lshift1_spec m r a z x); [done|done|apply Hz|done].
  - apply (rshift1_spec m r a z x); [done|done|apply Hz|done].
Qed.
End Spec.

(** ** Witnesses *)

#[local] Existing Instance generous_malloc.

Definition shift_heap : heap := {[ 0%nat := number [0x8000000000000001; 5] 1; 1%nat := number [9] 0 ]}.

Lemma BN_shift_correct_witness :
  normalised no_secure shift_heap 1 (number [9] 0) 4 (value (number [0x8000000000000001; 5] 1) * 2 ^ 67)
    (BN_lshift no_secure shift_heap 1 0 67) /\
  match BN_rshift no_secure shift_heap 0 0 66 with
  | Some (ret, m) => ret = 1 /\ value <$> m !! 0%nat = Some (-1)
  | None => False
  end.
Proof.
  split; [|vm_compute; by split].
  assert (bn_ok (number [0x8000000000000001; 5] 1)) by (apply number_ok; [repeat constructor; done|by right|done|done]).
  assert (bn_ok (number [9] 0)) by (apply number_ok; [repeat constructor; done|by left|done|done]).
  exact (proj1 (BN_shift_correct no_secure shift_heap 1 0 _ _ 67 eq_refl eq_refl ltac:(done) ltac:(done) ltac:(done))).
Defined.

(** Without memory [BN_lshift1] makes zero negative. *)
Lemma lshift1_negative_zero :
  match @BN_lshift1 exhausted_malloc no_secure {[ 0%nat := number [3] 1; 1%nat := number [] 0 ]} 1 0 with
  | Some (ret, m) => ret = 0 /\ bn_top <$> m !! 1%nat = Some 0 /\ bn_neg <$> m !! 1%nat = Some 1
  | None => False
  end.
Proof. vm_compute. done. Qed.
