(* ===== verification/BnWord.v ===== *)
(** * Arithmetic with one word

    [src/crypto/bn/bn_word.c]: adding, subtracting, multiplying, dividing and reducing with
    one word, and [bn_div_words] of [src/crypto/bn/bn_asm.c], the quotient of two words
    by one, found half a word at a time. *)

From S2P Require Import Prelude Mem ConstantTime Words Bignum BnCodec BnShift.
From stdpp Require Import gmap.
#[local] Open Scope Z_scope.
#[local] Open Scope tls_scope.

(** ** Two words by one, [bn_asm.c] *)

(** [for (;;)]: take one off the quotient while it is too large. *)
Fixpoint correct_loop (fuel : nat) (h l dh dl q th tl : Z) : option (Z * Z * Z) :=
  match fuel with
  | O => None
  | S fuel =>
      let t := u64 (h - th) in
      if truth (Z.land t BN_MASK2h)
         || (tl <=? Z.lor (u64 (Z.shiftl t BN_BITS4)) (Z.shiftr (Z.land l BN_MASK2h) BN_BITS4))
      then Some (q, th, tl)
      else correct_loop fuel h l dh dl (u64 (q - 1)) (u64 (th - dh)) (u64 (tl - dl))
  end.

(** Half a word of the quotient, and what is left of the dividend. *)
Definition half_step (h l d dh dl : Z) : option (Z * Z * Z) :=
  let q := if Z.shiftr h BN_BITS4 =? dh then BN_MASK2l else h / dh in
  let th := u64 (q * dh) in
  let tl := u64 (dl * q) in
  '(q, th, tl) ← correct_loop 3 h l dh dl q th tl;
  let t := Z.shiftr tl BN_BITS4 in
  let tl := Z.land (u64 (Z.shiftl tl BN_BITS4)) BN_MASK2h in
  let th := u64 (th + t) in
  let th := if l <? tl then u64 (th + 1) else th in
  let l := u64 (l - tl) in
  let '(h, q) := if h <? th then (u64 (h + d), u64 (q - 1)) else (h, q) in
  Some (q, u64 (h - th), l).

(** [None] where [assert] fails. *)
Definition bn_div_words (h l d : Z) : option Z :=
  if d =? 0 then Some BN_MASK2
  else
    let i := BN_num_bits_word d in
    if negb ((i =? BN_BITS2) || (h <=? u64 (Z.shiftl 1 i))) then None
    else
      let i := BN_BITS2 - i in
      let h := if d <=? h then u64 (h - d) else h in
      let '(d, h, l) :=
        if truth i then (u64 (Z.shiftl d i), Z.lor (u64 (Z.shiftl h i)) (Z.shiftr l (BN_BITS2 - i)), u64 (Z.shiftl l i))
        else (d, h, l) in
      let dh := Z.shiftr (Z.land d BN_MASK2h) BN_BITS4 in
      let dl := Z.land d BN_MASK2l in
      '(q, h, l) ← half_step h l d dh dl;
      let ret := u64 (Z.shiftl q BN_BITS4) in
      let h := Z.land (Z.lor (u64 (Z.shiftl h BN_BITS4)) (Z.shiftr l BN_BITS4)) BN_MASK2 in
      let l := u64 (Z.shiftl (Z.land l BN_MASK2l) BN_BITS4) in
      '(q, _, _) ← half_step h l d dh dl;
      Some (Z.lor ret q).

Section WordOps.
Context `{Malloc} (OPENtls_secure_zalloc : Z -> option (list Z)).

(** ** Adding, subtracting and multiplying *)

Fixpoint add_word_loop (a : ptr) (n : nat) (i w : Z) (m : heap) : option (Z * Z * heap) :=
  match n with
  | O => Some (i, w, m)
  | S k =>
      if truth w then
        d ← ldw m a i;
        let l := Z.land (d + w) BN_MASK2 in
        m ← stw m a i l;
        add_word_loop a k (i + 1) (if l <? w then 1 else 0) m
      else Some (i, w, m)
  end.

(** [for (;;)] goes on while words are smaller than [w]. *)
Fixpoint sub_word_loop (a : ptr) (fuel : nat) (i w : Z) (m : heap) : option (Z * heap) :=
  match fuel with
  | O => None
  | S k =>
      d ← ldw m a i;
      if w <=? d then m ← stw m a i (d - w); Some (i, m)
      else m ← stw m a i (Z.land (d - w) BN_MASK2); sub_word_loop a k (i + 1) 1 m
  end.

(** [BN_add_word] and [BN_sub_word] call each other on a number that is no longer
    negative, so that the second call is the last. *)
Fixpoint add_sub_word (calls : nat) (sub : bool) (m : heap) (a : nat) (w : Z) : option (Z * heap) :=
  match calls with
  | O => None
  | S calls =>
    x ← m !! a;
    let w := Z.land w BN_MASK2 in
    if negb (truth w) then Some (1, m)
    else if sub then
      if BN_is_zero x then
        '(i, m) ← BN_set_word OPENtls_secure_zalloc m a w;
        if truth i then m ← BN_set_negative m a 1; Some (i, m) else Some (i, m)
      else if truth (bn_neg x) then
        m ← bn_set m a (fun x => x <| bn_neg := 0 |>);
        '(i, m) ← add_sub_word calls false m a w;
        m ← bn_set m a (fun x => x <| bn_neg := 1 |>);
        Some (i, m)
      else
        d0 ← ldw m (a, 0) 0;
        if (bn_top x =? 1) && (d0 <? w) then
          m ← stw m (a, 0) 0 (u64 (w - d0));
          m ← bn_set m a (fun x => x <| bn_neg := 1 |>);
          Some (1, m)
        else
          '(i, m) ← sub_word_loop (a, 0) (S (length (bn_d x))) 0 w m;
          di ← ldw m (a, 0) i;
          m ← (if (di =? 0) && (i =? bn_top x - 1)
               then bn_set m a (fun x => x <| bn_top := bn_top x - 1 |>) else Some m);
          Some (1, m)
    else
      if BN_is_zero x then BN_set_word OPENtls_secure_zalloc m a w
      else if truth (bn_neg x) then
        m ← bn_set m a (fun x => x <| bn_neg := 0 |>);
        '(i, m) ← add_sub_word calls true m a w;
        m ← bn_set m a (fun x => if BN_is_zero x then x
                                 else x <| bn_neg := if truth (bn_neg x) then 0 else 1 |>);
        Some (i, m)
      else
        '(i, w, m) ← add_word_loop (a, 0) (Z.to_nat (bn_top x)) 0 w m;
        if truth w && (i =? bn_top x) then
          '(ok, m) ← bn_wexpand OPENtls_secure_zalloc m a (bn_top x + 1);
          if negb ok then Some (0, m)
          else
            m ← bn_set m a (fun x => x <| bn_top := bn_top x + 1 |>);
            m ← stw m (a, 0) i w;
            Some (1, m)
        else Some (1, m)
  end.

Definition BN_add_word : heap -> nat -> Z -> option (Z * heap) := add_sub_word 2 false.
Definition BN_sub_word : heap -> nat -> Z -> option (Z * heap) := add_sub_word 2 true.

Definition BN_mul_word (m : heap) (a : nat) (w : Z) : option (Z * heap) :=
  x ← m !! a;
  let w := Z.land w BN_MASK2 in
  if truth (bn_top x) then
    if w =? 0 then m ← BN_zero m a; Some (1, m)
    else
      '(ll, m) ← bn_mul_words m (a, 0) (a, 0) (bn_top x) w;
      if truth ll then
        '(ok, m) ← bn_wexpand OPENtls_secure_zalloc m a (bn_top x + 1);
        if negb ok then Some (0, m)
        else
          m ← stw m (a, 0) (bn_top x) ll;
          m ← bn_set m a (fun x => x <| bn_top := bn_top x + 1 |>);
          Some (1, m)
      else Some (1, m)
  else Some (1, m).

(** ** Dividing *)

(** From the last word on, the remainder in front of the next word. *)
Fixpoint div_loop (a : ptr) (w : Z) (n : nat) (ret : Z) (m : heap) : option (Z * heap) :=
  match n with
  | O => Some (ret, m)
  | S n =>
      l ← ldw m a (Z.of_nat n);
      d ← bn_div_words ret l w;
      let ret := Z.land (l - Z.land (d * w) BN_MASK2) BN_MASK2 in
      m ← stw m a (Z.of_nat n) d;
      div_loop a w n ret m
  end.

Definition BN_div_word (m : heap) (a : nat) (w : Z) : option (Z * heap) :=
  x ← m !! a;
  let w := Z.land w BN_MASK2 in
  if w =? 0 then Some (u64 (-1), m)
  else if bn_top x =? 0 then Some (0, m)
  else
    let j := BN_BITS2 - BN_num_bits_word w in
    let w := u64 (Z.shiftl w j) in
    '(ok, m) ← BN_lshift OPENtls_secure_zalloc m a a j;
    if negb (truth ok) then Some (u64 (-1), m)
    else
      x ← m !! a;
      '(ret, m) ← div_loop (a, 0) w (Z.to_nat (bn_top x)) 0 m;
      x ← m !! a;
      last ← (if 0 <? bn_top x then ldw m (a, 0) (bn_top x - 1) else Some 1);
      m ← bn_set m a (fun x => if last =? 0 then x <| bn_top := bn_top x - 1 |> else x);
      m ← bn_set m a (fun x => if bn_top x =? 0 then x <| bn_neg := 0 |> else x);
      Some (Z.shiftr ret j, m).

(** [None] is NULL. *)
Definition BN_dup (m : heap) (a : nat) : option (option nat * heap) :=
  x ← m !! a;
  match BN_new m with
  | None => Some (None, m)
  | Some (t, m1) =>
      m1 ← bn_set m1 t (fun z => if has_bits (bn_flags x) BN_FLG_SECURE
                                 then z <| bn_flags := Z.lor (bn_flags z) BN_FLG_SECURE |> else z);
      '(ok, m1) ← BN_copy OPENtls_secure_zalloc m1 t a;
      if (ok : bool) then Some (Some t, m1) else Some (None, delete t m1)
  end.

(** Half a word at a time. *)
Fixpoint mod_loop (d : list Z) (w : Z) (n : nat) (ret : Z) : option Z :=
  match n with
  | O => Some ret
  | S n =>
      x ← rd d (Z.of_nat n);
      let ret := Z.lor (u64 (Z.shiftl ret BN_BITS4)) (Z.land (Z.shiftr x BN_BITS4) BN_MASK2l) `mod` w in
      let ret := Z.lor (u64 (Z.shiftl ret BN_BITS4)) (Z.land x BN_MASK2l) `mod` w in
      mod_loop d w n ret
  end.

Definition BN_mod_word (m : heap) (a : nat) (w : Z) : option (Z * heap) :=
  x ← m !! a;
  if w =? 0 then Some (u64 (-1), m)
  else if Z.shiftl 1 BN_BITS4 <? w then
    '(tmp, m) ← BN_dup m a;
    match tmp with
    | None => Some (u64 (-1), m)
    | Some tmp =>
        '(ret, m) ← BN_div_word m tmp w;
        Some (ret, delete tmp m)
    end
  else
    let w := Z.land w BN_MASK2 in
    ret ← mod_loop (bn_d x) w (Z.to_nat (bn_top x)) 0;
    Some (ret, m).
End WordOps.

(** ** Properties *)

(** *** The quotient of two words by one *)

Lemma mask2l x : Z.land x BN_MASK2l = x mod 2 ^ 32.
Proof. apply (Z.land_ones x 32). lia. Qed.

Lemma mask2h x : word_ok x -> Z.land x BN_MASK2h = 2 ^ 32 * (x / 2 ^ 32).
Proof.
  intros Hx. unfold word_ok in Hx. assert (Hh : 0 <= x / 2 ^ 32 < 2 ^ 32) by lia_div.
  change BN_MASK2h with (Z.shiftl (Z.ones 32) 32). apply Z.bits_inj'. intros i Hi.
  rewrite Z.land_spec, Z.shiftl_spec, Z.mul_comm, <- Z.shiftl_mul_pow2, Z.shiftl_spec, <- Z.shiftr_div_pow2 by lia.
  destruct (Z.lt_ge_cases i 32).
  - rewrite (Z.testbit_neg_r (Z.ones 32)), (Z.testbit_neg_r (Z.shiftr x 32)) by lia. apply andb_false_r.
  - rewrite Z.testbit_ones, Z.shiftr_spec by lia. replace (i - 32 + 32) with i by lia.
    destruct (Z.lt_ge_cases i 64).
    + replace ((0 <=? i - 32) && (i - 32 <? 32)) with true; [apply andb_true_r|].
      symmetry. apply andb_true_iff. split; [by apply Z.leb_le; lia|by apply Z.ltb_lt; lia].
    + rewrite <- (Z.mod_small x (2 ^ 64)) by lia. rewrite Z.mod_pow2_bits_high by lia. apply andb_false_l.
Qed.

Lemma shr32 x : Z.shiftr x BN_BITS4 = x / 2 ^ 32.
Proof. by apply Z.shiftr_div_pow2. Qed.

Lemma shl32 x : 0 <= x < 2 ^ 32 -> u64 (Z.shiftl x BN_BITS4) = x * 2 ^ 32.
Proof. intros. unfold BN_BITS4. rewrite Z.shiftl_mul_pow2 by lia. apply u64_small. lia. Qed.

Section Half.
Context (h l d : Z) (Hd : 2 ^ 63 <= d < 2 ^ 64) (Hh : 0 <= h < d) (Hl : word_ok l).

Definition upper : Z := h * 2 ^ 32 + l / 2 ^ 32.

Lemma divisor_halves : 2 ^ 31 <= d / 2 ^ 32 < 2 ^ 32 /\ 0 <= d mod 2 ^ 32 < 2 ^ 32 /\ d = d / 2 ^ 32 * 2 ^ 32 + d mod 2 ^ 32.
Proof using Hd. clear - Hd. lia_div. Qed.

(** The loop stops at the quotient: the test is exact. *)
Lemma correct_loop_spec fuel q : q * (d / 2 ^ 32) <= h -> upper / d <= q < 2 ^ 32 -> q - upper / d < Z.of_nat fuel ->
  correct_loop fuel h l (d / 2 ^ 32) (d mod 2 ^ 32) q (q * (d / 2 ^ 32)) (d mod 2 ^ 32 * q) =
  Some (upper / d, upper / d * (d / 2 ^ 32), d mod 2 ^ 32 * (upper / d)).
Proof using Hd Hh Hl.
  pose proof divisor_halves as (H1 & H2 & H3). unfold word_ok in Hl.
  assert (Hu : 0 <= upper) by (unfold upper; lia_div).
  assert (HQ : 0 <= upper / d) by (apply Z.div_pos; lia).
  assert (Hex : forall q, q * d <= upper <-> q <= upper / d).
  { intros k. split; [intros; apply Z.div_le_lower_bound; lia|]. intros Hk.
    pose proof (Z.mul_div_le upper d ltac:(lia)). nia. }
  set (Q := upper / d) in *. clearbody Q. set (dh := d / 2 ^ 32) in *. set (dl := d mod 2 ^ 32) in *. clearbody dh dl.
  revert q. induction fuel as [|fuel IH]; intros q Hth Hq Hf; [lia|]. cbn [correct_loop].
  assert (Ht : u64 (h - q * dh) = h - q * dh) by (apply u64_small; nia). rewrite Ht.
  rewrite mask2h by (unfold word_ok; nia). rewrite mask2h by done.
  replace (Z.shiftr (2 ^ 32 * (l / 2 ^ 32)) BN_BITS4) with (l / 2 ^ 32)
    by (rewrite shr32, Z.mul_comm, Z.div_mul by lia; done).
  assert (Hlh : 0 <= l / 2 ^ 32 < 2 ^ 32) by lia_div.
  specialize (Hex q). unfold upper in Hex. set (lh := l / 2 ^ 32) in *. clearbody lh.
  destruct (truth (2 ^ 32 * ((h - q * dh) / 2 ^ 32))) eqn:Et; cbn [orb].
  - unfold truth in Et. apply negb_true_iff, Z.eqb_neq in Et.
    assert (2 ^ 32 <= h - q * dh) by (destruct (Z.lt_ge_cases (h - q * dh) (2 ^ 32)); [rewrite Z.div_small in Et by nia; lia|lia]).
    assert (q = Q) as -> by nia. done.
  - unfold truth in Et. apply negb_false_iff, Z.eqb_eq in Et.
    assert (Hs : 0 <= h - q * dh < 2 ^ 32).
    { split; [lia|]. destruct (Z.lt_ge_cases (h - q * dh) (2 ^ 32)); [done|].
      pose proof (Z.div_le_lower_bound (h - q * dh) (2 ^ 32) 1 ltac:(lia) ltac:(lia)). lia. }
    rewrite shl32 by done. rewrite (lor_add _ (h - q * dh) lh 32) by lia.
    destruct (Z.leb_spec (dl * q) ((h - q * dh) * 2 ^ 32 + lh)).
    + assert (q = Q) as -> by nia. done.
    + assert (Q < q) by nia. rewrite (u64_small (q - 1)), (u64_small (q * dh - dh)), (u64_small (dl * q - dl)) by nia.
      replace (q * dh - dh) with ((q - 1) * dh) by lia. replace (dl * q - dl) with (dl * (q - 1)) by lia.
      apply IH; nia.
Qed.

(** The first guess is at most two too large. *)
Lemma first_guess q : q = (if h / 2 ^ 32 =? d / 2 ^ 32 then BN_MASK2l else h / (d / 2 ^ 32)) ->
  q * (d / 2 ^ 32) <= h /\ upper / d <= q < 2 ^ 32 /\ q - upper / d < 3.
Proof using Hd Hh Hl.
  pose proof divisor_halves as (H1 & H2 & H3). intros Hq. unfold word_ok in Hl.
  assert (Hlh : 0 <= l / 2 ^ 32 < 2 ^ 32) by lia_div.
  assert (HQ : upper / d * d <= upper < (upper / d + 1) * d) by (pose proof (Z.div_mod upper d); pose proof (Z.mod_pos_bound upper d); lia).
  unfold upper in *. set (Q := (h * 2 ^ 32 + l / 2 ^ 32) / d) in *. clearbody Q.
  set (lh := l / 2 ^ 32) in *. clearbody lh.
  assert (HQ0 : 0 <= Q) by nia. assert (HQ1 : Q < 2 ^ 32) by nia.
  assert (Hhd : h / 2 ^ 32 <= d / 2 ^ 32) by (apply Z.div_le_mono; lia).
  assert (Hq' : q * (d / 2 ^ 32) <= h /\ Q <= q < 2 ^ 32).
  { destruct (Z.eqb_spec (h / 2 ^ 32) (d / 2 ^ 32)) as [E|E].
    - change BN_MASK2l with (2 ^ 32 - 1) in Hq. assert (h / 2 ^ 32 * 2 ^ 32 <= h) by lia_div. nia.
    - assert (Hlt : h / 2 ^ 32 + 1 <= d / 2 ^ 32) by lia. assert (Hh' : h < (h / 2 ^ 32 + 1) * 2 ^ 32) by lia_div.
      set (dh := d / 2 ^ 32) in *. pose proof (Z.div_mod h dh ltac:(lia)) as Em. pose proof (Z.mod_pos_bound h dh ltac:(lia)).
      rewrite <- Hq in Em. split; [nia|]. split; [|nia].
      assert (Q * dh <= h) by nia. nia. }
  split_and!; try lia. assert (q * d < (Q + 3) * d); [|nia].
  assert (q * d <= h * 2 ^ 32 + q * (d mod 2 ^ 32)) by nia. nia.
Qed.

Lemma half_step_spec : exists h' l', half_step h l d (d / 2 ^ 32) (d mod 2 ^ 32) = Some (upper / d, h', l') /\
  0 <= h' < 2 ^ 64 /\ word_ok l' /\ h' * 2 ^ 64 + l' = upper mod d * 2 ^ 32 + l mod 2 ^ 32.
Proof using Hd Hh Hl.
  pose proof divisor_halves as (H1 & H2 & H3). unfold half_step. rewrite shr32.
  destruct (first_guess _ eq_refl) as (G1 & G2 & G3). set (q := if h / 2 ^ 32 =? _ then _ else _) in *. clearbody q.
  assert (Hq0 : 0 <= upper / d) by (apply Z.div_pos; [unfold upper, word_ok in *; lia_div|lia]).
  rewrite (u64_small (q * _)), (u64_small (_ * q)) by nia.
  rewrite (correct_loop_spec 3 q G1 G2 ltac:(lia)). cbn [mbind option_bind].
  assert (Hu : upper = upper / d * d + upper mod d) by (pose proof (Z.div_mod upper d); lia).
  pose proof (Z.mod_pos_bound upper d ltac:(lia)) as HR. assert (HQ : upper / d < 2 ^ 32) by lia.
  unfold upper in Hu at 1.
  set (Q := upper / d) in *. clearbody Q. set (R := upper mod d) in *. clearbody R. clear q G1 G2 G3.
  set (dh := d / 2 ^ 32) in *. set (dl := d mod 2 ^ 32) in *. clearbody dh dl.
  unfold word_ok in Hl. assert (Hll : l = l / 2 ^ 32 * 2 ^ 32 + l mod 2 ^ 32) by lia_div.
  assert (Hlr : 0 <= l / 2 ^ 32 < 2 ^ 32 /\ 0 <= l mod 2 ^ 32 < 2 ^ 32) by lia_div.
  set (lh := l / 2 ^ 32) in *. set (ll := l mod 2 ^ 32) in *. clearbody lh ll. subst l d.
  assert (Htl : 0 <= dl * Q < 2 ^ 64) by nia. rewrite shr32.
  assert (Etl : Z.land (u64 (Z.shiftl (dl * Q) BN_BITS4)) BN_MASK2h = (dl * Q) mod 2 ^ 32 * 2 ^ 32).
  { unfold u64, BN_BITS4. rewrite Z.shiftl_mul_pow2 by lia. change (2 ^ 64) with (2 ^ 32 * 2 ^ 32).
    rewrite Z.mul_mod_distr_r by lia. pose proof (Z.mod_pos_bound (dl * Q) (2 ^ 32) ltac:(lia)).
    rewrite mask2h by (unfold word_ok; lia). rewrite Z.div_mul by lia. lia. }
  rewrite Etl. assert (Esp : dl * Q = (dl * Q) / 2 ^ 32 * 2 ^ 32 + (dl * Q) mod 2 ^ 32) by lia_div.
  assert (Hx : 0 <= (dl * Q) / 2 ^ 32 < 2 ^ 32 /\ 0 <= (dl * Q) mod 2 ^ 32 < 2 ^ 32) by lia_div.
  set (th := dl * Q / 2 ^ 32) in *. set (tl := (dl * Q) mod 2 ^ 32) in *. clearbody th tl.
  assert (Hmain : (h - Q * dh - th) * 2 ^ 32 + (lh - tl) = R) by nia.
  rewrite (u64_small (Q * dh + th)) by nia.
  destruct (Z.ltb_spec (lh * 2 ^ 32 + ll) (tl * 2 ^ 32)) as [Hb|Hb].
  - assert (h - Q * dh - th >= 1) by nia. rewrite (u64_small (Q * dh + th + 1)) by nia.
    rewrite (proj2 (Z.ltb_ge h _)) by lia. rewrite (u64_small (h - _)) by nia.
    eexists _, _. split; [reflexivity|]. unfold word_ok, u64.
    assert (Em : (lh * 2 ^ 32 + ll - tl * 2 ^ 32) mod 2 ^ 64 = lh * 2 ^ 32 + ll - tl * 2 ^ 32 + 2 ^ 64) by lia_div.
    rewrite Em. split; [nia|]. split; lia.
  - assert (h - Q * dh - th >= 0) by nia.
    rewrite (proj2 (Z.ltb_ge h _)) by lia. rewrite (u64_small (h - _)) by nia.
    eexists _, _. split; [reflexivity|]. rewrite (u64_small (lh * 2 ^ 32 + ll - _)) by lia. unfold word_ok.
    split; [nia|]. split; lia.
Qed.
End Half.

Lemma two_halves h l d : 2 ^ 63 <= d < 2 ^ 64 -> 0 <= h < d -> word_ok l ->
  (let dh := Z.shiftr (Z.land d BN_MASK2h) BN_BITS4 in
   let dl := Z.land d BN_MASK2l in
   '(q, h, l) ← half_step h l d dh dl;
   let ret := u64 (Z.shiftl q BN_BITS4) in
   let h := Z.land (Z.lor (u64 (Z.shiftl h BN_BITS4)) (Z.shiftr l BN_BITS4)) BN_MASK2 in
   let l := u64 (Z.shiftl (Z.land l BN_MASK2l) BN_BITS4) in
   '(q, _, _) ← half_step h l d dh dl;
   Some (Z.lor ret q)) = Some ((h * B + l) / d).
Proof.
  intros Hd Hh Hl. pose proof Hl as Hl'. unfold word_ok in Hl'. cbv zeta. rewrite mask2h, mask2l, shr32 by (unfold word_ok; lia).
  rewrite (Z.mul_comm (2 ^ 32)), Z.div_mul by lia.
  destruct (half_step_spec h l d Hd Hh Hl) as (h1 & l1 & -> & Hh1 & Hl1 & E1). cbn [mbind option_bind].
  assert (Hu : 0 <= upper h l) by (unfold upper; lia_div).
  pose proof (Z.mod_pos_bound (upper h l) d ltac:(lia)) as HR.
  pose proof (Z.div_mod (upper h l) d ltac:(lia)) as Eu. unfold word_ok in Hl1.
  assert (HQ : 0 <= upper h l / d < 2 ^ 32).
  { split; [apply Z.div_pos; lia|]. apply Z.div_lt_upper_bound; [lia|]. unfold upper. assert (l / 2 ^ 32 < 2 ^ 32) by lia_div. nia. }
  assert (Hll : 0 <= l mod 2 ^ 32 < 2 ^ 32) by lia_div.
  assert (Hh32 : 0 <= h1 < 2 ^ 32) by nia.
  rewrite (shl32 (upper h l / d)), shl32, mask2l, mask2 by done.
  assert (l1 / 2 ^ 32 = upper h l mod d - h1 * 2 ^ 32 /\ l1 mod 2 ^ 32 = l mod 2 ^ 32) as [El1 El2].
  { revert E1 Hll. clear. generalize (upper h l mod d) (l mod 2 ^ 32). intros R ll E1 Hll. lia_div. }
  assert (Hlr : 0 <= l1 / 2 ^ 32 < 2 ^ 32) by (clear - Hl1; lia_div). rewrite El1 in Hlr.
  rewrite shr32, El1, El2. rewrite shl32 by done. rewrite (lor_add _ h1 _ 32) by lia.
  replace (h1 * 2 ^ 32 + (upper h l mod d - h1 * 2 ^ 32)) with (upper h l mod d) by lia. rewrite u64_small by lia.
  destruct (half_step_spec (upper h l mod d) (l mod 2 ^ 32 * 2 ^ 32) d Hd HR ltac:(unfold word_ok; lia)) as (h2 & l2 & -> & _).
  cbn [mbind option_bind]. f_equal.
  set (R1 := upper h l mod d) in *. set (Q1 := upper h l / d) in *.
  assert (E2 : upper R1 (l mod 2 ^ 32 * 2 ^ 32) = R1 * 2 ^ 32 + l mod 2 ^ 32) by (unfold upper; rewrite Z.div_mul; lia).
  rewrite E2. assert (HQ2 : 0 <= (R1 * 2 ^ 32 + l mod 2 ^ 32) / d < 2 ^ 32).
  { split; [apply Z.div_pos; lia|]. apply Z.div_lt_upper_bound; nia. }
  rewrite (lor_add _ Q1 _ 32) by lia.
  apply (Z.div_unique _ _ _ ((R1 * 2 ^ 32 + l mod 2 ^ 32) mod d)).
  - left. apply Z.mod_pos_bound. lia.
  - pose proof (Z.div_mod (R1 * 2 ^ 32 + l mod 2 ^ 32) d ltac:(lia)) as E3. unfold upper in Eu. unfold B.
    assert (El : l = l / 2 ^ 32 * 2 ^ 32 + l mod 2 ^ 32) by lia_div. nia.
Qed.

Lemma bit_length_bounds d : 0 < d -> 0 < bit_length d /\ 2 ^ (bit_length d - 1) <= d < 2 ^ bit_length d.
Proof.
  intros Hd. unfold bit_length. rewrite (proj2 (Z.eqb_neq _ _)) by lia. pose proof (Z.log2_nonneg d).
  replace (Z.log2 d + 1 - 1) with (Z.log2 d) by lia. pose proof (Z.log2_spec d Hd). unfold Z.succ in *. lia.
Qed.

(** The divisor with its most significant bit set. *)
Lemma aligned d : 0 < d < 2 ^ 64 -> 0 <= 64 - bit_length d < 64 /\ 2 ^ 63 <= d * 2 ^ (64 - bit_length d) < 2 ^ 64.
Proof.
  intros Hd. destruct (bit_length_bounds d ltac:(lia)) as (Hp & H1 & H2).
  pose proof (bit_length_word d ltac:(unfold word_ok; lia)). split; [lia|].
  pose proof (Z.pow_pos_nonneg 2 (64 - bit_length d) ltac:(lia) ltac:(lia)).
  replace (2 ^ 63) with (2 ^ (bit_length d - 1) * 2 ^ (64 - bit_length d)) by (rewrite <- Z.pow_add_r by lia; f_equal; lia).
  replace (2 ^ 64) with (2 ^ bit_length d * 2 ^ (64 - bit_length d)) by (rewrite <- Z.pow_add_r by lia; f_equal; lia). nia.
Qed.

Lemma div_words_spec h l d : 0 < d < 2 ^ 64 -> 0 <= h < d -> word_ok l ->
  bn_div_words h l d = Some ((h * B + l) / d).
Proof.
  intros Hd Hh Hl. unfold bn_div_words. rewrite (proj2 (Z.eqb_neq d 0)) by lia.
  rewrite num_bits_word_spec by (unfold word_ok; lia). change BN_BITS2 with 64.
  destruct (bit_length_bounds d ltac:(lia)) as (Hp & Hb1 & Hb2). destruct (aligned d Hd) as [Hi Ha].
  assert ((bit_length d =? 64) || (h <=? u64 (Z.shiftl 1 (bit_length d))) = true) as ->.
  { destruct (Z.eqb_spec (bit_length d) 64) as [|Hne]; [done|]. simpl. apply Z.leb_le.
    rewrite Z.shiftl_mul_pow2, u64_small; [lia| |lia]. split; [lia|].
    rewrite Z.mul_1_l. apply Z.pow_lt_mono_r; lia. }
  cbn [negb]. rewrite (proj2 (Z.leb_gt d h)) by lia. set (i := 64 - bit_length d) in *. clearbody i.
  pose proof (parts i l Hi) as Ep. pose proof (hi_part_range i l Hi Hl) as Hhi. pose proof (lo_part_range i l Hi) as Hlo.
  pose proof (Z.pow_pos_nonneg 2 i ltac:(lia) ltac:(lia)) as Pi.
  match goal with |- context [if truth i then ?X else ?Y] =>
    assert ((if truth i then X else Y) = (d * 2 ^ i, h * 2 ^ i + hi_part i l, lo_part i l)) as ->
  end.
  { unfold truth. destruct (Z.eqb_spec i 0) as [->|Hne]; cbn [negb].
    - unfold hi_part, lo_part. change (64 - 0) with 64. change (2 ^ 0) with 1. unfold word_ok in Hl.
      rewrite Z.div_small, Z.mod_small, !Z.mul_1_r, Z.add_0_r by lia. done.
    - rewrite !Z.shiftl_mul_pow2, Z.shiftr_div_pow2 by lia. rewrite (u64_small (d * _)), (u64_small (h * _)) by nia.
      change (l / 2 ^ (64 - i)) with (hi_part i l). rewrite (lor_add _ h _ i) by lia.
      rewrite <- (Z.shiftl_mul_pow2 l) by lia. by rewrite shl_word. }
  assert (Hh' : 0 <= h * 2 ^ i + hi_part i l < d * 2 ^ i) by nia.
  etransitivity; [apply (two_halves (h * 2 ^ i + hi_part i l) (lo_part i l) (d * 2 ^ i)); done || (unfold word_ok; lia)|].
  f_equal. replace ((h * 2 ^ i + hi_part i l) * B + lo_part i l) with ((h * B + l) * 2 ^ i) by lia.
  apply Z.div_mul_cancel_r; lia.
Qed.

(** *** Division by a word *)

Lemma words_snoc m p n L : words m p (n + 1) = Some L -> 0 <= n ->
  exists K w, L = K ++ [w] /\ words m p n = Some K /\ ldw m p n = Some w.
Proof.
  intros (b & E & (? & ? & ? & EL)%rdn_Some)%words_lookup Hn. unfold words, ldw. rewrite E. simpl.
  destruct (lookup_lt_is_Some_2 (bn_d b) (Z.to_nat (p.2 + n))) as [w Hw]; [unfold zlen in *; lia|].
  exists (take (Z.to_nat n) (drop (Z.to_nat p.2) (bn_d b))), w. split.
  - rewrite EL. replace (Z.to_nat (n + 1)) with (S (Z.to_nat n)) by lia. apply take_S_r.
    rewrite lookup_drop, <- Hw. f_equal. lia.
  - rewrite rdn_spec by lia. split; [done|]. unfold rd. by rewrite (proj2 (Z.ltb_ge _ _)) by lia.
Qed.

(** Reading words below what was stored. *)
Lemma words_below m p T m1 q n : set_words m p T = Some m1 -> q.1 <> p.1 \/ q.2 + n <= p.2 ->
  words m1 q n = words m q n.
Proof.
  intros (b & d' & E & Hw & ->)%set_words_lookup Hq. unfold words. destruct (decide (q.1 = p.1)) as [Eq|Ne];
    [|by rewrite lookup_insert_ne by done].
  rewrite Eq, lookup_insert_eq, E. simpl. destruct Hq as [?|Hq]; [done|].
  pose proof (wrn_length _ _ _ _ Hw) as Hz. unfold wrn in Hw. case_bool_decide as Hk; [|done]. injection Hw as <-.
  unfold rdn. rewrite Hz. case_bool_decide as Hi; [|done]. f_equal. unfold zlen in Hk.
  rewrite !take_drop_commute. rewrite take_app_le by (rewrite length_take; lia).
  rewrite take_take. do 2 f_equal. lia.
Qed.

Section Divide.
Context (p : ptr) (w : Z) (Hw : 2 ^ 63 <= w < 2 ^ 64).

Lemma div_loop_spec n : forall ret m L, words m p (Z.of_nat n) = Some L -> words_ok L -> 0 <= ret < w ->
  exists ret' m' Q, div_loop p w n ret m = Some (ret', m') /\ set_words m p Q = Some m' /\ zlen Q = Z.of_nat n /\
    words_ok Q /\ eval Q * w + ret' = ret * B ^ Z.of_nat n + eval L /\ 0 <= ret' < w.
Proof using Hw.
  induction n as [|n IH]; intros ret m L HL Ho Hr.
  - pose proof (words_zlen _ _ _ _ HL) as Z0. destruct L; [|rewrite zlen_cons in Z0; pose proof (zlen_nonneg L); lia].
    exists ret, m, []. split; [done|]. split; [by eapply set_words_nil|]. split; [done|]. split; [constructor|]. simpl. lia.
  - cbn [div_loop]. replace (Z.of_nat (S n)) with (Z.of_nat n + 1) in * by lia.
    destruct (words_snoc _ _ _ _ HL ltac:(lia)) as (K & l & -> & HK & Hl). rewrite Hl. cbn [mbind option_bind].
    apply Forall_app in Ho as [HoK Hol]. apply Forall_inv in Hol.
    rewrite div_words_spec by (done || lia). cbn [mbind option_bind]. rewrite !mask2.
    unfold word_ok in Hol. set (d := (ret * B + l) / w).
    assert (Hd : 0 <= d < 2 ^ 64).
    { split; [apply Z.div_pos; unfold B; lia|]. apply Z.div_lt_upper_bound; unfold B; nia. }
    pose proof (Z.div_mod (ret * B + l) w ltac:(lia)) as Em. pose proof (Z.mod_pos_bound (ret * B + l) w ltac:(lia)) as Hm.
    fold d in Em. set (r1 := (ret * B + l) mod w) in *.
    assert (Er : u64 (l - u64 (d * w)) = r1).
    { unfold u64. rewrite Zminus_mod_idemp_r. replace (l - d * w) with (r1 + - ret * 2 ^ 64) by (unfold B in Em; lia).
      rewrite Z.mod_add by lia. apply Z.mod_small. lia. }
    rewrite Er. destruct (stw_some _ _ _ _ (Z.of_nat n) d HL ltac:(lia)) as [m1 Hs]. rewrite Hs. cbn [mbind option_bind].
    rewrite stw_set_words in Hs.
    rewrite <- (words_below _ _ _ _ p (Z.of_nat n) Hs) in HK by (unfold padd; simpl; lia).
    destruct (IH r1 m1 K HK HoK Hm) as (ret' & m' & Q & Hrun & HQ & ZQ & OQ & EQ & Hr').
    exists ret', m', (Q ++ [d]). split; [exact Hrun|].
    split.
    { destruct (set_words_before m p Q [d] m1 (K ++ [l])) as (m2 & H2 & H3);
        [by rewrite ZQ|rewrite ZQ; exact HL|]. congruence. }
    rewrite zlen_app. split; [rewrite ZQ; done|]. split; [apply Forall_app; split; [done|repeat constructor; unfold word_ok; lia]|].
    split; [|done]. pose proof (words_zlen _ _ _ _ HK) as ZK. rewrite !eval_app, ZQ, ZK. simpl.
    rewrite Z.pow_add_r, Z.pow_1_r by lia. pose proof (B_pos (Z.of_nat n) ltac:(lia)). nia.
Qed.
End Divide.

(** Storing what is there already. *)
Lemma set_same m p L m' : words m p (zlen L) = Some L -> set_words m p L = Some m' -> m = m'.
Proof.
  intros (b & E & (H1 & H2 & H3 & HL)%rdn_Some)%words_lookup (b' & d' & E' & Hw & ->)%set_words_lookup.
  rewrite E in E'. injection E' as <-. rewrite wrn_spec in Hw by lia. injection Hw as <-.
  symmetry. apply insert_id. rewrite E. f_equal. destruct b as [d t x n f]. simpl in *. f_equal.
  unfold zlen in *. rewrite Nat2Z.id in HL. set (k := Z.to_nat p.2) in *.
  transitivity (take k d ++ take (length L) (drop k d) ++ drop (length L) (drop k d)); [by rewrite !take_drop|].
  by rewrite drop_drop, <- HL.
Qed.

Section Spec.
Context `{Malloc} (sec : Z -> option (list Z)).

(** The words of a number, in place. *)
Lemma words_of m a x : m !! a = Some x -> bn_fits x -> words m (a, 0) (bn_top x) = Some (limbs x).
Proof. intros. by apply words_limbs. Qed.

(** Storing as many words as are in use. *)
Lemma stored_limbs m a x Q m' : m !! a = Some x -> bn_fits x -> words_ok Q -> zlen Q = bn_top x ->
  set_words m (a, 0) Q = Some m' -> exists d', m' = <[a := x <| bn_d := d' |>]> m /\
    bn_fits (x <| bn_d := d' |>) /\ limbs (x <| bn_d := d' |>) = Q.
Proof.
  intros Ea Fx OQ ZQ HQ. pose proof Fx as (Zx & Tx & Ox & Nx).
  destruct (stored_number m a x Q m' (bn_top x) (bn_neg x)) as (d' & -> & _ & Hf & Hl);
    [by rewrite insert_id|done|done|done|lia|done|].
  exists d'. split; [done|]. rewrite take_all in Hl by done. by destruct x.
Qed.

(** The outcome of dividing by [w] with remainder [r]. *)
Definition divided (m : heap) (a : nat) (x : BIGNUM) (w : Z) (res : option (Z * heap)) : Prop :=
  exists r x', res = Some (r, <[a := x']> m) /\ bn_ok x' /\
    (w <> 0 /\ r = mag x mod w /\ value x' = Z.quot (value x) w \/
     (w = 0 \/ refused sec m a (bn_top x + 1)) /\ r = 2 ^ 64 - 1 /\ value x' = value x).

Lemma top_dropped R top q : zlen R = top -> 0 < top -> words_ok R -> eval R = q -> (0 < top - 1 -> B ^ (top - 2) <= q) ->
  forall last, R !! Z.to_nat (top - 1) = Some last ->
  let top' := if last =? 0 then top - 1 else top in
  eval (take (Z.to_nat top') R) = q /\ (0 < top' -> B ^ (top' - 1) <= q).
Proof.
  intros Hz Hp Ho Ev Hq last Hl. pose proof (eval_split R (top - 1) ltac:(lia)) as Es.
  rewrite (drop_S _ last) in Es by done. rewrite drop_ge in Es by (unfold zlen in Hz; lia). simpl in Es.
  pose proof (eval_range (take (Z.to_nat (top - 1)) R) ltac:(by apply Forall_take)) as Hr.
  assert (Hlo : word_ok last) by (by eapply Forall_lookup_1). unfold word_ok in Hlo.
  pose proof (B_pos (top - 1) ltac:(lia)). destruct (Z.eqb_spec last 0) as [->|Hne]; cbv zeta.
  - split; [lia|]. intros. replace (top - 1 - 1) with (top - 2) by lia. by apply Hq.
  - rewrite take_all by done. split; [done|]. intros _. nia.
Qed.

Lemma sign_scaled v k : 0 < k -> (v * k <? 0) = (v <? 0).
Proof. intros. apply eq_true_iff_eq. rewrite !Z.ltb_lt. nia. Qed.

Lemma quotient_of v w k q r : 0 < w -> 0 < k -> q * (w * k) + r = v * k -> 0 <= r < w * k ->
  q = v / w /\ r = v mod w * k.
Proof.
  intros Hw Hk E Hr. assert (q = v / w) as -> by (apply (Z.div_unique_pos _ _ _ (v - q * w)); nia).
  split; [done|]. rewrite Z.mod_eq by lia. nia.
Qed.

Lemma long_enough b q w r : 0 <= b -> w < 2 ^ 64 -> 0 <= r < w -> b * B <= q * w + r -> b <= q.
Proof. unfold B. intros. destruct (Z.lt_ge_cases q b); [nia|lia]. Qed.

(** The end of a division: a leading zero goes, and so does the sign of zero. *)
Lemma div_tail m a x2 ret : bn_fits x2 -> 0 < bn_top x2 -> (0 < bn_top x2 - 1 -> B ^ (bn_top x2 - 2) <= mag x2) ->
  exists x', (x ← (<[a := x2]> m : heap) !! a;
    last ← (if 0 <? bn_top x then ldw (<[a := x2]> m) (a, 0) (bn_top x - 1) else Some 1);
    m ← bn_set (<[a := x2]> m) a (fun x => if last =? 0 then x <| bn_top := bn_top x - 1 |> else x);
    m ← bn_set m a (fun x => if bn_top x =? 0 then x <| bn_neg := 0 |> else x);
    Some (ret, m)) = Some (ret : Z, <[a := x']> m) /\ bn_ok x' /\ value x' = value x2.
Proof.
  intros Hf Pt Hn. pose proof (zlen_limbs x2 Hf) as Zl. pose proof (limbs_ok x2 Hf) as Ol.
  rewrite lookup_insert_eq. cbn [mbind option_bind]. rewrite (proj2 (Z.ltb_lt _ _) Pt).
  destruct (lookup_lt_is_Some_2 (limbs x2) (Z.to_nat (bn_top x2 - 1))) as [last Hlast]; [unfold zlen in Zl; lia|].
  assert (W2 : words (<[a := x2]> m) (a, 0) (zlen (limbs x2)) = Some (limbs x2))
    by (rewrite Zl; apply words_of; [apply lookup_insert_eq|done]).
  pose proof (ldw_words _ _ _ _ _ W2 Hlast) as Hld. rewrite Z2Nat.id in Hld by lia. rewrite Hld. cbn [mbind option_bind].
  destruct (top_dropped (limbs x2) (bn_top x2) (mag x2) Zl Pt Ol eq_refl Hn last Hlast) as [Hv' Hn'].
  rewrite bn_set_insert. cbn [mbind option_bind]. set (top' := if last =? 0 then bn_top x2 - 1 else bn_top x2) in *.
  assert (E3 : (if last =? 0 then x2 <| bn_top := bn_top x2 - 1 |> else x2) = x2 <| bn_top := top' |>)
    by (unfold top'; destruct (last =? 0); [done|by destruct x2]).
  rewrite E3, bn_set_insert. cbn [mbind option_bind]. clear E3.
  assert (Ht' : 0 <= top' <= bn_top x2) by (unfold top'; destruct (last =? 0); lia). clearbody top'.
  set (x3 := x2 <| bn_top := top' |>).
  assert (Hm3 : mag x3 = mag x2).
  { rewrite <- Hv'. change (mag x3) with (eval (take (Z.to_nat top') (bn_d x2))). unfold limbs. rewrite take_take. do 2 f_equal. lia. }
  assert (Hf3 : bn_fits x3) by (destruct Hf as (? & ? & ? & ?); split; [done|split; [change (bn_top x3) with top'; change (bn_dmax x3) with (bn_dmax x2); lia|by split]]).
  assert (Ht3 : bn_top x3 = top') by done. assert (Hn3 : bn_neg x3 = bn_neg x2) by done. clearbody x3.
  eexists. split; [reflexivity|]. rewrite Ht3. destruct (Z.eqb_spec top' 0) as [E0|Hne0].
  - assert (mag x3 = 0) as E by (unfold mag, limbs; by rewrite Ht3, E0).
    split.
    + split; [apply (fits_neg sec); [exact Hf3|by left]|]. split; [|reflexivity].
      change (bn_top (x3 <| bn_neg := 0 |>)) with (bn_top x3). lia.
    + transitivity (mag x3); [reflexivity|]. unfold value. rewrite <- Hm3, E. by destruct (bn_neg x2 =? 0).
  - split.
    + split; [exact Hf3|]. unfold normal. rewrite Hm3, Ht3. by split.
    + unfold value. by rewrite Hm3, Hn3.
Qed.

Lemma div_word_spec m a x w : m !! a = Some x -> bn_ok x -> word_ok w -> divided m a x w (BN_div_word sec m a w).
Proof.
  intros Ea Hx Hw. unfold BN_div_word. rewrite Ea. cbn [mbind option_bind]. rewrite mask2, u64_small by apply Hw.
  unfold word_ok in Hw. destruct (Z.eqb_spec w 0) as [->|Hw0].
  { exists (u64 (-1)), x. rewrite insert_id by done. split; [done|]. split; [done|]. right. split_and!; [by left|done|done]. }
  destruct (Z.eqb_spec (bn_top x) 0) as [E0|Ht0].
  { exists 0, x. rewrite insert_id by done. split; [done|]. split; [done|]. left. split; [done|].
    assert (mag x = 0) as E by (unfold mag, limbs; by rewrite E0). assert (value x = 0) as -> by (unfold value; rewrite E; by case_match).
    by rewrite E. }
  rewrite num_bits_word_spec by (unfold word_ok; lia). change BN_BITS2 with 64.
  destruct (aligned w ltac:(lia)) as [Hj Ha]. set (j := 64 - bit_length w) in *. clearbody j.
  rewrite Z.shiftl_mul_pow2, (u64_small (w * 2 ^ j)) by lia. pose proof (Z.pow_pos_nonneg 2 j ltac:(lia) ltac:(lia)) as Pj.
  destruct (lshift_spec sec m a a x x j Ea Ea Hx Hx ltac:(lia)) as (ret & x1 & -> & Hx1 & _ & [[-> Hv]|(-> & Hn & Hv)]);
    cbn [mbind option_bind].
  2: { exists (u64 (-1)), x1. split; [done|]. split; [done|]. right. rewrite Z.div_small in Hn by (unfold BN_BITS2; lia).
       split_and!; [right; by rewrite Z.add_0_r in Hn|done|done]. }
  change (negb (truth 1)) with false. cbv iota. rewrite lookup_insert_eq. cbn [mbind option_bind].
  pose proof Hx1 as [Fx1 [Nx1 _]]. pose proof Fx1 as (_ & Tx1 & _ & Sx1).
  pose proof (mag_abs x (proj1 Hx)) as Mx. pose proof (mag_abs x1 Fx1) as Mx1.
  rewrite Hv, Z.abs_mul, <- Mx, (Z.abs_eq (2 ^ j)) in Mx1 by lia.
  assert (Pm : 0 < mag x).
  { destruct Hx as [Fx [Nx _]]. pose proof Fx as (_ & ? & _). specialize (Nx ltac:(lia)). pose proof (B_pos (bn_top x - 1) ltac:(lia)). lia. }
  assert (Pt : 0 < bn_top x1).
  { destruct (Z.eq_dec (bn_top x1) 0) as [E0|]; [|lia].
    assert (mag x1 = 0) by (unfold mag, limbs; by rewrite E0). nia. }
  specialize (Nx1 Pt). pose proof (mag_range x1 Fx1) as Rx1.
  assert (W1 : words (<[a := x1]> m) (a, 0) (Z.of_nat (Z.to_nat (bn_top x1))) = Some (limbs x1)).
  { rewrite Z2Nat.id by lia. apply words_of; [apply lookup_insert_eq|done]. }
  destruct (div_loop_spec (a, 0) (w * 2 ^ j) ltac:(lia) _ 0 _ _ W1 (limbs_ok x1 Fx1) ltac:(lia))
    as (r & m' & Q & -> & HQ & ZQ & OQ & EQ & Hr). cbn [mbind option_bind]. rewrite Z2Nat.id in ZQ by lia.
  destruct (stored_limbs _ a x1 Q m' (lookup_insert_eq _ _ _) Fx1 OQ ZQ HQ) as (d' & -> & Hf2 & Hl2).
  rewrite insert_insert_eq. set (x2 := x1 <| bn_d := d' |>) in *. assert (Ht2 : bn_top x2 = bn_top x1) by done.
  assert (Hn2 : bn_neg x2 = bn_neg x1) by done. assert (Hm2 : mag x2 = eval Q) by (unfold mag; by rewrite Hl2). clearbody x2.
  fold (mag x1) in EQ. rewrite Mx1, Z.mul_0_l, Z.add_0_l in EQ. rewrite Mx1 in Rx1, Nx1.
  destruct (quotient_of (mag x) w (2 ^ j) (eval Q) r ltac:(clear - Hw Hw0; lia) Pj EQ Hr) as [Hq Hrem].
  destruct (div_tail m a x2 (Z.shiftr r j) Hf2 ltac:(lia)) as (x' & -> & Hx' & Hv').
  { rewrite Ht2, Hm2. intros Hp. apply (long_enough _ (eval Q) (w * 2 ^ j) r); [apply Z.pow_nonneg; done|apply Ha|exact Hr|].
    rewrite EQ, Z.mul_comm, <- B_succ by (clear - Hp; lia). replace (1 + (bn_top x1 - 2)) with (bn_top x1 - 1) by (clear; lia). exact Nx1. }
  eexists _, x'. split; [reflexivity|]. split; [exact Hx'|]. left. split; [exact Hw0|].
  split; [rewrite Z.shiftr_div_pow2, Hrem by lia; apply Z.div_mul; lia|].
  rewrite Hv', (value_signed x), quot_signed, value_signed, Hm2, Hq, Hn2 by lia. f_equal.
  rewrite (neg_value x1 Hx1), (neg_value x Hx), Hv. f_equal. by apply sign_scaled.
Qed.

(** *** Remainders *)

Lemma mod_step w ret x : 0 < w <= 2 ^ 32 -> 0 <= ret < w -> word_ok x ->
  Z.lor (u64 (Z.shiftl (Z.lor (u64 (Z.shiftl ret BN_BITS4)) (Z.land (Z.shiftr x BN_BITS4) BN_MASK2l) `mod` w) BN_BITS4))
        (Z.land x BN_MASK2l) `mod` w = (ret * B + x) `mod` w.
Proof.
  intros Hw Hr Hx. unfold word_ok in Hx. rewrite !mask2l, shr32.
  assert (Hxr : 0 <= x / 2 ^ 32 < 2 ^ 32 /\ 0 <= x mod 2 ^ 32 < 2 ^ 32 /\ x = x / 2 ^ 32 * 2 ^ 32 + x mod 2 ^ 32) by lia_div.
  rewrite (Z.mod_small (x / 2 ^ 32)) by lia. rewrite (shl32 ret), (lor_add (ret * 2 ^ 32) ret (x / 2 ^ 32) 32) by lia.
  pose proof (Z.mod_pos_bound (ret * 2 ^ 32 + x / 2 ^ 32) w ltac:(lia)) as Hm.
  set (r1 := (ret * 2 ^ 32 + x / 2 ^ 32) mod w) in *. rewrite (shl32 r1), (lor_add (r1 * 2 ^ 32) r1 (x mod 2 ^ 32) 32) by lia.
  unfold r1.
  rewrite <- Z.add_mod_idemp_l, Z.mul_mod_idemp_l, Z.add_mod_idemp_l by lia.
  f_equal. unfold B. change (2 ^ 64) with (2 ^ 32 * 2 ^ 32). lia.
Qed.

Lemma mod_loop_spec d w : 0 < w <= 2 ^ 32 -> words_ok d -> forall n ret, (n <= length d)%nat -> 0 <= ret < w ->
  mod_loop d w n ret = Some ((ret * B ^ Z.of_nat n + eval (take n d)) mod w).
Proof.
  intros Hw Ho. induction n as [|n IH]; intros ret Hn Hr.
  - simpl. rewrite Z.mul_1_r, Z.add_0_r, Z.mod_small by done. done.
  - cbn [mod_loop]. destruct (rd_in d (Z.of_nat n)) as [x Hx]; [unfold zlen; lia|]. rewrite Hx. cbn [mbind option_bind].
    pose proof (rd_word_ok _ _ _ Ho Hx) as Hxo. rewrite mod_step by done.
    rewrite IH by (lia || (apply Z.mod_pos_bound; lia)). f_equal. rewrite (take_word d n x Hx).
    rewrite <- Z.add_mod_idemp_l, Z.mul_mod_idemp_l, Z.add_mod_idemp_l by lia. f_equal.
    rewrite Nat2Z.inj_succ, Z.pow_succ_r by lia. ring.
Qed.

(** There is no memory for a number, or for the words of a copy of [x] that is shifted. *)
Definition starved (m : heap) (x : BIGNUM) : Prop :=
  BN_new m = None \/ exists t z, m !! t = None /\ has_bits (bn_flags z) BN_FLG_STATIC_DATA = false /\
    refused sec (<[t := z]> m) t (bn_top x + 1).

Lemma dup_spec m a x : m !! a = Some x -> bn_ok x ->
  BN_dup sec m a = Some (None, m) /\ starved m x \/
  exists t z, BN_dup sec m a = Some (Some t, <[t := z]> m) /\ m !! t = None /\ bn_ok z /\ value z = value x /\
    bn_top z = bn_top x /\ has_bits (bn_flags z) BN_FLG_STATIC_DATA = false.
Proof.
  intros Ea [Fx Nx]. unfold BN_dup. rewrite Ea. cbn [mbind option_bind].
  destruct (BN_new_spec m) as [E | (t & -> & Ht)]; [rewrite E; left; split; [done|by left]|]. rewrite bn_set_insert. cbn [mbind option_bind].
  match goal with |- context [BN_copy sec (<[t := ?y]> m) t a] => set (z := y) end.
  assert (Hne : t <> a) by congruence.
  assert (Hst : has_bits (bn_flags z) BN_FLG_STATIC_DATA = false) by (unfold z; by destruct (has_bits (bn_flags x) _)).
  assert (Fz : bn_fits z) by (unfold z, bn_fits; destruct (has_bits _ _); simpl; split_and!; try done; by left).
  destruct (copy_spec sec (<[t := z]> m) t a z x Hne (lookup_insert_eq _ _ _) ltac:(by rewrite lookup_insert_ne) Fz Fx)
    as [(E & _ & Hr)|(z' & -> & (Ff & Fl & Ft & Fn) & _ & Fg)]; cbn [mbind option_bind].
  - left. rewrite E. cbn [mbind option_bind]. split; [by rewrite delete_insert_id|].
    right. exists t, z. split; [done|]. split; [done|]. apply (refused_le sec _ _ (bn_top x)); [lia|done].
  - right. rewrite insert_insert_eq. exists t, z'. split; [done|]. split; [done|]. split.
    + split; [done|]. unfold normal, mag. rewrite Fl, Ft, Fn. exact Nx.
    + split; [unfold value, mag; by rewrite Fl, Fn|]. by rewrite Ft, Fg.
Qed.

(** The outcome of a remainder: the heap is left as it was. *)
Definition remainder (m : heap) (x : BIGNUM) (w : Z) (res : option (Z * heap)) : Prop :=
  exists r, res = Some (r, m) /\ (w <> 0 /\ r = mag x mod w \/ (w = 0 \/ 2 ^ 32 < w /\ starved m x) /\ r = 2 ^ 64 - 1).

Lemma mod_word_spec m a x w : m !! a = Some x -> bn_ok x -> word_ok w -> remainder m x w (BN_mod_word sec m a w).
Proof.
  intros Ea Hx Hw. unfold BN_mod_word. rewrite Ea. cbn [mbind option_bind].
  destruct (Z.eqb_spec w 0) as [->|Hw0]; [exists (u64 (-1)); split; [done|]; right; split; [by left|done]|].
  change (Z.shiftl 1 BN_BITS4) with (2 ^ 32). destruct (Z.ltb_spec (2 ^ 32) w) as [Hlt|Hge].
  - destruct (dup_spec m a x Ea Hx) as [[-> Hst] | (t & z & -> & Ht & Hz & Hv & Htop & Hst)]; cbn [mbind option_bind].
    { exists (u64 (-1)). split; [done|]. right. split; [by right|done]. }
    destruct (div_word_spec _ t z w (lookup_insert_eq m t z) Hz Hw) as (r & z' & -> & _ & Hr). cbn [mbind option_bind].
    rewrite insert_insert_eq, delete_insert_id by done. exists r. split; [done|].
    rewrite (mag_abs z (proj1 Hz)), Hv, <- (mag_abs x (proj1 Hx)) in Hr. destruct Hr as [(? & ? & _)|([?|Hn] & ? & _)]; [by left|done|].
    right. split; [|done]. right. split; [done|]. right. exists t, z. by rewrite <- Htop.
  - destruct Hx as [(Zx & Tx & Ox & _) _]. unfold word_ok in Hw. rewrite mask2, u64_small by done.
    rewrite mod_loop_spec by (done || lia || (unfold zlen in Zx; lia)). cbn [mbind option_bind].
    eexists. split; [reflexivity|]. left. split; [done|]. rewrite Z.mul_0_l, Z.add_0_l. done.
Qed.

(** *** Sums, differences and products *)

(** [v] in the place of the operand [x], or no memory for one word more; the operand has been
    changed then. *)
Definition word_outcome (m : heap) (a : nat) (x : BIGNUM) (v : Z) (res : option (Z * heap)) : Prop :=
  exists ret x', res = Some (ret, <[a := x']> m) /\
    (ret = 1 /\ bn_ok x' /\ value x' = v \/
     ret = 0 /\ bn_fits x' /\ refused sec m a (bn_top x + 1)).

Lemma set_word_spec m a z w : m !! a = Some z -> bn_fits z -> word_ok w -> word_outcome m a z w (BN_set_word sec m a w).
Proof.
  intros Ea Fz Hw. unfold BN_set_word.
  assert (bn_expand sec m a (sizeof_BN_ULONG * 8) = bn_wexpand sec m a 1) as -> by done.
  destruct (wexpand_spec sec m a z 1 Ea Fz) as [E|(z1 & -> & Hr & Hd)].
  { rewrite E. cbn [mbind option_bind negb]. exists 0, z. rewrite insert_id by done. split; [done|]. right. split; [done|].
    split; [exact Fz|]. exists 1. split; [destruct Fz as (_ & ? & _); lia|done]. }
  cbn [mbind option_bind negb]. rewrite bn_set_insert. cbn [mbind option_bind].
  match goal with |- context [<[a := ?y]> m] => set (y1 := y) end.
  destruct Hr as ((Zz & Tz & Oz & _) & _).
  destruct (words_room m a y1 0 1) as [o Ho]; [exact Zz|done|done|change (bn_dmax y1) with (bn_dmax z1); lia|].
  destruct (set_words_some _ _ _ _ [w] Ho eq_refl) as [m' Hs]. rewrite stw_set_words, padd_0, Hs. cbn [mbind option_bind].
  set (top := if truth w then 1 else 0). assert (Ht : 0 <= top <= 1) by (unfold top; case_match; lia).
  destruct (stored_number m a y1 [w] m' top 0 Hs Zz Oz) as (d' & -> & _ & Hf & Hl); [by apply Forall_singleton|exact Ht|by left|].
  rewrite bn_set_insert. cbn [mbind option_bind]. eexists _, _. split; [reflexivity|]. left. split; [done|].
  match goal with |- bn_ok ?g /\ _ => match type of Hf with bn_fits ?y =>
    assert (g = y) as -> by (unfold y1; destruct z1; simpl; by rewrite Z.land_m1_r); set (x' := y) in * end end.
  assert (Hm : mag x' = w).
  { unfold mag. rewrite Hl. unfold top, truth. destruct (Z.eqb_spec w 0) as [->|]; simpl; [done|]. lia. }
  unfold word_ok in Hw. split; [|exact Hm]. split; [exact Hf|]. unfold normal. rewrite Hm. split; [|done].
  change (bn_top x') with top. unfold top, truth. destruct (Z.eqb_spec w 0); simpl; lia.
Qed.

Lemma add_word_loop_spec p : forall L i w m, words m (padd p i) (zlen L) = Some L -> words_ok L -> word_ok w ->
  exists i' w' m' Q, add_word_loop p (length L) i w m = Some (i', w', m') /\ set_words m (padd p i) Q = Some m' /\
    zlen Q = zlen L /\ words_ok Q /\ word_ok w' /\ (w' = 0 \/ i' = i + zlen L) /\
    eval Q + B ^ zlen L * w' = eval L + w.
Proof.
  induction L as [|d L IH]; intros i w m HL Ho Hw.
  - exists i, w, m, []. split_and!; try done; [by eapply set_words_nil|right; rewrite zlen_nil; lia|change (zlen (@nil Z)) with 0; rewrite Z.pow_0_r; lia].
  - rewrite zlen_cons in *. apply Forall_cons in Ho as [Hd Ho]. pose proof (zlen_nonneg L).
    destruct (words_cons _ _ _ _ _ HL ltac:(lia)) as [Hl HL']. cbn [length add_word_loop]. unfold truth.
    destruct (Z.eqb_spec w 0) as [->|Hw0]; cbn [negb].
    + exists i, 0, m, (d :: L). split; [done|]. split.
      { destruct (set_words_some _ _ _ _ (d :: L) HL (zlen_cons _ _)) as [m' Hm]. rewrite Hm. f_equal.
        symmetry. eapply set_same; [|exact Hm]. by rewrite zlen_cons. }
      rewrite zlen_cons. split_and!; try done; [by constructor|by left|lia].
    + rewrite <- ldw_padd in Hl. rewrite Hl. cbn [mbind option_bind].
      destruct (stw_some _ _ _ _ 0 (Z.land (d + w) BN_MASK2) HL ltac:(lia)) as [m1 Hs].
      assert (Hs' : stw m p i (Z.land (d + w) BN_MASK2) = Some m1).
      { rewrite <- Hs. unfold stw, padd. simpl. by rewrite Z.add_0_r. }
      rewrite Hs'. cbn [mbind option_bind]. rewrite words_skip in HL'.
      pose proof (add_carry d w Hd Hw) as Ec. rewrite <- mask2 in Ec.
      assert (Hlo : word_ok (Z.land (d + w) BN_MASK2)) by (rewrite mask2; apply u64_range).
      set (l := Z.land (d + w) BN_MASK2) in *. clearbody l.
      rewrite <- (words_stw _ _ _ _ _ (padd p (i + 1)) _ Hs') in HL' by (unfold padd; simpl; lia).
      destruct (IH (i + 1) (if l <? w then 1 else 0) m1 HL' Ho ltac:(unfold word_ok; case_match; lia))
        as (i' & w' & m' & Q & -> & HQ & ZQ & OQ & Hw' & Hi & EQ).
      exists i', w', m', (l :: Q). split; [done|].
      split; [by rewrite <- (set_words_stw _ _ _ _ _ _ Hs')|].
      rewrite zlen_cons. split_and!; try done; [lia|by constructor|destruct Hi; [by left|right; lia]|].
      rewrite B_succ by lia. simpl eval. assert (Z.b2z (l <? w) = if l <? w then 1 else 0) as E by (by case_match).
      rewrite E in Ec. nia.
Qed.

Lemma sub_word_loop_spec p fuel : forall L i w m, words m (padd p i) (zlen L) = Some L -> words_ok L -> word_ok w ->
  0 < w <= eval L -> zlen L < Z.of_nat fuel ->
  exists i' m' Q, sub_word_loop p fuel i w m = Some (i', m') /\ set_words m (padd p i) Q = Some m' /\
    zlen Q = zlen L /\ words_ok Q /\ i <= i' < i + zlen L /\ eval Q = eval L - w /\
    drop (Z.to_nat (i' - i + 1)) Q = drop (Z.to_nat (i' - i + 1)) L.
Proof.
  induction fuel as [|fuel IH]; intros L i w m HL Ho Hw Hv Hf; [pose proof (zlen_nonneg L); lia|].
  destruct L as [|d L]; [simpl in Hv; lia|]. rewrite zlen_cons in *. apply Forall_cons in Ho as [Hd Ho]. pose proof (zlen_nonneg L).
  destruct (words_cons _ _ _ _ _ HL ltac:(lia)) as [Hl HL']. rewrite <- ldw_padd in Hl. cbn [sub_word_loop]. rewrite Hl.
  cbn [mbind option_bind].
  assert (Hstore : forall v, exists m1, stw m p i v = Some m1).
  { intros v. destruct (stw_some _ _ _ _ 0 v HL ltac:(lia)) as [m1 Hs]. exists m1. rewrite <- Hs. unfold stw, padd. simpl.
    by rewrite Z.add_0_r. }
  unfold word_ok in Hw, Hd. simpl eval in *. destruct (Z.leb_spec w d) as [Hle|Hlt].
  - destruct (Hstore (d - w)) as [m1 Hs]. rewrite Hs. cbn [mbind option_bind]. exists i, m1, ((d - w) :: L). split; [done|].
    split.
    { rewrite <- (set_words_stw _ _ _ _ _ _ Hs). rewrite words_skip in HL'.
      rewrite <- (words_stw _ _ _ _ _ (padd p (i + 1)) _ Hs) in HL' by (unfold padd; simpl; lia).
      destruct (set_words_some _ _ _ _ L HL' eq_refl) as [m2 H2]. rewrite H2. f_equal. symmetry. by eapply set_same. }
    rewrite zlen_cons. split; [done|]. split; [constructor; [unfold word_ok; lia|done]|]. split; [lia|].
    split; [simpl; lia|]. by replace (i - i + 1) with 1 by lia.
  - rewrite mask2. replace (u64 (d - w)) with (d - w + 2 ^ 64) by (unfold u64; lia_div).
    destruct (Hstore (d - w + 2 ^ 64)) as [m1 Hs]. rewrite Hs. cbn [mbind option_bind]. rewrite words_skip in HL'.
    rewrite <- (words_stw _ _ _ _ _ (padd p (i + 1)) _ Hs) in HL' by (unfold padd; simpl; lia).
    destruct (IH L (i + 1) 1 m1 HL' Ho ltac:(done) ltac:(unfold B in Hv; lia) ltac:(lia))
      as (i' & m' & Q & -> & HQ & ZQ & OQ & Hi & EQ & HD).
    exists i', m', ((d - w + 2 ^ 64) :: Q). split; [done|]. split; [by rewrite <- (set_words_stw _ _ _ _ _ _ Hs)|].
    rewrite zlen_cons. split; [lia|]. split; [constructor; [unfold word_ok; lia|done]|]. split; [lia|].
    split; [simpl; rewrite EQ; unfold B; lia|].
    replace (Z.to_nat (i' - i + 1)) with (S (Z.to_nat (i' - (i + 1) + 1))) by lia. exact HD.
Qed.

(** A word more. *)
Lemma appended m a x2 z1 c : roomier x2 z1 -> bn_top x2 + 1 <= bn_dmax z1 -> word_ok c -> c <> 0 -> exists x5,
  (m1 ← bn_set (<[a := z1]> m) a (fun x => x <| bn_top := bn_top x + 1 |>); stw m1 (a, 0) (bn_top x2) c) = Some (<[a := x5]> m) /\
  (m1 ← stw (<[a := z1]> m) (a, 0) (bn_top x2) c; bn_set m1 a (fun x => x <| bn_top := bn_top x + 1 |>)) = Some (<[a := x5]> m) /\
  bn_ok x5 /\ mag x5 = mag x2 + B ^ bn_top x2 * c /\ bn_neg x5 = bn_neg x2.
Proof.
  intros ((Zz & Tz & Oz & Nz) & Hl & Ht & Hn & _) Hd Hc Hc0. rewrite <- Ht in *.
  exists (z1 <| bn_d := <[Z.to_nat (bn_top z1) := c]> (bn_d z1) |> <| bn_top := bn_top z1 + 1 |>).
  rewrite bn_set_insert. unfold stw. cbn [mbind option_bind fst snd]. rewrite !lookup_insert_eq. cbn [mbind option_bind].
  change (bn_d (z1 <| bn_top := bn_top z1 + 1 |>)) with (bn_d z1). rewrite Z.add_0_l, wr_spec by lia.
  cbn [mbind option_bind]. rewrite !insert_insert_eq, bn_set_insert. split; [done|]. split; [done|].
  match goal with |- bn_ok ?y /\ _ => set (x5 := y) end. unfold word_ok in Hc.
  assert (El : limbs x5 = limbs x2 ++ [c]).
  { rewrite <- Hl. change (limbs x5) with (take (Z.to_nat (bn_top z1 + 1)) (<[Z.to_nat (bn_top z1) := c]> (bn_d z1))).
    replace (Z.to_nat (bn_top z1 + 1)) with (S (Z.to_nat (bn_top z1))) by lia.
    by rewrite take_insert_snoc by (unfold zlen in Zz; lia). }
  assert (Zl : zlen (limbs x2) = bn_top z1) by (rewrite <- Hl; unfold limbs; apply zlen_take; lia).
  assert (Ol : words_ok (limbs x2)) by (rewrite <- Hl; by apply Forall_take).
  assert (Em : mag x5 = mag x2 + B ^ bn_top z1 * c) by (unfold mag; rewrite El, eval_app, Zl; simpl; lia).
  split; [|by split]. split.
  - unfold bn_fits, x5. simpl. split; [unfold zlen in *; rewrite length_insert; exact Zz|]. split; [lia|]. split; [|done].
    by apply Forall_insert.
  - unfold normal. rewrite Em. change (bn_top x5) with (bn_top z1 + 1). split; [|lia]. intros _. rewrite Z.add_simpl_r.
    pose proof (eval_range _ Ol). pose proof (B_pos (bn_top z1) ltac:(lia)). unfold mag. nia.
Qed.

(** *** Numbers that are not negative *)

Lemma positive_mag x : bn_ok x -> 0 < bn_top x -> B ^ (bn_top x - 1) <= mag x.
Proof. intros [_ [Hn _]]. exact Hn. Qed.

Lemma add_positive calls m a x w : m !! a = Some x -> bn_ok x -> bn_neg x = 0 -> 0 < bn_top x -> word_ok w -> w <> 0 ->
  word_outcome m a x (value x + w) (add_sub_word sec (S calls) false m a w).
Proof.
  intros Ea Hx Hn Ht Hw Hw0. pose proof Hx as [Fx _]. pose proof (positive_mag x Hx Ht) as Hm. cbn [add_sub_word].
  rewrite Ea. cbn [mbind option_bind]. rewrite mask2, (u64_small w) by exact Hw.
  assert (truth w = true) as -> by (unfold truth; by rewrite (proj2 (Z.eqb_neq _ _) Hw0)). cbn [negb].
  unfold BN_is_zero. rewrite (proj2 (Z.eqb_neq (bn_top x) 0)) by lia. rewrite Hn. change (truth 0) with false. cbv iota.
  pose proof (zlen_limbs x Fx) as Zx. pose proof (limbs_ok x Fx) as Ox.
  replace (Z.to_nat (bn_top x)) with (length (limbs x)) by (rewrite <- Zx; unfold zlen; lia).
  destruct (add_word_loop_spec (a, 0) (limbs x) 0 w m) as (i' & w' & m' & Q & -> & HQ & ZQ & OQ & Hw' & Hi & EQ);
    [rewrite padd_0, Zx; by apply words_of|done|done|].
  cbn [mbind option_bind]. rewrite padd_0 in HQ. fold (mag x) in EQ. rewrite Zx in *.
  destruct (stored_limbs m a x Q m' Ea Fx OQ ZQ HQ) as (d' & -> & Hf2 & Hl2).
  set (x2 := x <| bn_d := d' |>) in *. assert (Ht2 : bn_top x2 = bn_top x) by done. assert (Hn2 : bn_neg x2 = 0) by exact Hn.
  assert (Hm2 : mag x2 = eval Q) by (unfold mag; by rewrite Hl2).
  assert (Hdf2 : bn_dmax x2 = bn_dmax x /\ bn_flags x2 = bn_flags x) by done. destruct Hdf2 as [Hd2 Hg2]. clearbody x2.
  assert (Hv : value x + w = mag x + w) by (unfold value; by rewrite Hn).
  unfold word_ok in Hw'. unfold truth. destruct (Z.eqb_spec w' 0) as [->|Hw1]; cbn [negb andb].
  - exists 1, x2. split; [done|]. left. split; [done|]. split; [split; [done|]|].
    + split; [|intros; done]. rewrite Ht2, Hm2. intros _. unfold word_ok in Hw. lia.
    + unfold value at 1. rewrite Hn2, Hm2, Hv. simpl. lia.
  - destruct Hi as [?|Hi]; [done|]. rewrite Hi, Z.add_0_l, Z.eqb_refl.
    destruct (wexpand_spec sec _ a x2 (bn_top x + 1) (lookup_insert_eq m a x2) Hf2) as [E|(z1 & -> & Hr & Hd)].
    { rewrite E. cbn [mbind option_bind negb]. exists 0, x2. split; [done|]. right. split; [done|]. split; [done|].
      apply (refused_same sec m a x x2); [done..|]. exists (bn_top x + 1). split; [lia|done]. }
    cbn [mbind option_bind negb]. rewrite insert_insert_eq.
    destruct (appended m a x2 z1 w' Hr ltac:(lia) Hw' Hw1) as (x5 & H5 & _ & Hok & Hmag & Hneg). rewrite Ht2 in H5.
    destruct (bn_set _ _ _) as [m6|]; [|done]. cbn [mbind option_bind] in *. rewrite H5. cbn [mbind option_bind].
    exists 1, x5. split; [done|]. left. split; [done|]. split; [done|].
    unfold value at 1. rewrite Hneg, Hn2, Hmag, Hm2, Ht2, Hv. simpl. lia.
Qed.

Lemma many_words x d0 L : 1 < bn_top x -> mag x = d0 + B * eval L -> B ^ (bn_top x - 1) <= mag x -> word_ok d0 -> 1 <= eval L.
Proof.
  intros Ht Em Hm Hd. replace (bn_top x - 1) with (1 + (bn_top x - 2)) in Hm by lia. rewrite B_succ in Hm by lia.
  pose proof (B_pos (bn_top x - 2) ltac:(lia)). unfold word_ok, B in *. nia.
Qed.

Lemma sub_larger m a x w : m !! a = Some x -> bn_ok x -> bn_neg x = 0 -> 0 < bn_top x -> word_ok w -> 0 < w <= mag x ->
  exists x', ('(i, m) ← sub_word_loop (a, 0) (S (length (bn_d x))) 0 w m;
    di ← ldw m (a, 0) i;
    m ← (if (di =? 0) && (i =? bn_top x - 1) then bn_set m a (fun x => x <| bn_top := bn_top x - 1 |>) else Some m);
    Some (1, m)) = Some (1, <[a := x']> m) /\ bn_ok x' /\ value x' = mag x - w.
Proof.
  intros Ea Hx Hn Ht Hw Hwm. pose proof Hx as [Fx _]. pose proof (positive_mag x Hx Ht) as Hm.
  pose proof (zlen_limbs x Fx) as Zx. pose proof (limbs_ok x Fx) as Ox. pose proof Fx as (Zd & Td & _ & _).
  destruct (sub_word_loop_spec (a, 0) (S (length (bn_d x))) (limbs x) 0 w m) as (i & m' & Q & -> & HQ & ZQ & OQ & Hi & EQ & HD);
    [rewrite padd_0, Zx; by apply words_of|done|done|exact Hwm|rewrite Zx; unfold zlen in Zd; lia|].
  rewrite padd_0 in HQ. fold (mag x) in EQ. rewrite Zx, Z.add_0_l in *. rewrite Z.sub_0_r in HD. cbn [mbind option_bind].
  destruct (stored_limbs m a x Q m' Ea Fx OQ ZQ HQ) as (d' & -> & Hf2 & Hl2).
  set (x2 := x <| bn_d := d' |>) in *. assert (Ht2 : bn_top x2 = bn_top x) by done. assert (Hn2 : bn_neg x2 = 0) by exact Hn.
  clearbody x2. destruct (lookup_lt_is_Some_2 Q (Z.to_nat i)) as [di Hdi]; [unfold zlen in ZQ; lia|].
  destruct (lookup_lt_is_Some_2 Q (Z.to_nat (bn_top x - 1))) as [last Hlast]; [unfold zlen in ZQ; lia|].
  assert (W2 : words (<[a := x2]> m) (a, 0) (zlen Q) = Some Q).
  { rewrite ZQ, <- Ht2, words_of with (x := x2) by (done || apply lookup_insert_eq). by rewrite Hl2. }
  pose proof (ldw_words _ _ _ _ _ W2 Hdi) as Hld. rewrite Z2Nat.id in Hld by lia. rewrite Hld. cbn [mbind option_bind].
  assert ((di =? 0) && (i =? bn_top x - 1) = (last =? 0)) as ->.
  { destruct (Z.eqb_spec i (bn_top x - 1)) as [->|Hne]; [replace last with di by congruence; apply andb_true_r|].
    rewrite andb_false_r. symmetry. apply Z.eqb_neq. intros ->.
    assert (limbs x !! Z.to_nat (bn_top x - 1) = Some 0) as H0.
    { apply (f_equal (lookup (Z.to_nat (bn_top x - 1) - Z.to_nat (i + 1))%nat)) in HD. rewrite !lookup_drop in HD.
      replace (Z.to_nat (i + 1) + (Z.to_nat (bn_top x - 1) - Z.to_nat (i + 1)))%nat with (Z.to_nat (bn_top x - 1)) in HD by lia.
      by rewrite <- HD. }
    pose proof (mag_top_bounds x 0 Fx Ht H0). lia. }
  assert (Hq : 0 < bn_top x - 1 -> B ^ (bn_top x - 2) <= mag x - w).
  { intros Hp. replace (bn_top x - 1) with (1 + (bn_top x - 2)) in Hm by lia. rewrite B_succ in Hm by lia.
    pose proof (B_pos (bn_top x - 2) ltac:(lia)). unfold word_ok in Hw. unfold B at 1 in Hm. nia. }
  destruct (top_dropped Q (bn_top x) (mag x - w) ZQ Ht OQ EQ Hq last Hlast) as [Hv' Hn'].
  set (top' := if last =? 0 then bn_top x - 1 else bn_top x) in *.
  assert ((if last =? 0 then bn_set (<[a := x2]> m) a (fun x => x <| bn_top := bn_top x - 1 |>) else Some (<[a := x2]> m)) =
    Some (<[a := x2 <| bn_top := top' |>]> m)) as ->.
  { unfold top'. rewrite <- Ht2. rewrite bn_set_insert. destruct (last =? 0); [done|]. by destruct x2. }
  cbn [mbind option_bind]. eexists. split; [reflexivity|].
  match goal with |- bn_ok ?y /\ _ => set (x3 := y) end.
  assert (Ht' : 0 <= top' <= bn_top x) by (unfold top'; destruct (last =? 0); lia). clearbody top'.
  assert (Hm3 : mag x3 = mag x - w).
  { rewrite <- Hv', <- Hl2. change (mag x3) with (eval (take (Z.to_nat top') (bn_d x2))). unfold limbs. rewrite Ht2, take_take. do 2 f_equal. lia. }
  assert (Hf3 : bn_fits x3) by (destruct Hf2 as (? & ? & ? & ?); split; [done|split; [change (bn_top x3) with top'; change (bn_dmax x3) with (bn_dmax x2); lia|by split]]).
  assert (Hn3 : bn_neg x3 = 0) by exact Hn2. split; [|unfold value; by rewrite Hn3, Hm3].
  split; [exact Hf3|]. unfold normal. rewrite Hm3. change (bn_top x3) with top'. by split.
Qed.

Lemma sub_positive calls m a x w : m !! a = Some x -> bn_ok x -> bn_neg x = 0 -> 0 < bn_top x -> word_ok w -> w <> 0 ->
  exists x', add_sub_word sec (S calls) true m a w = Some (1, <[a := x']> m) /\ bn_ok x' /\ value x' = value x - w.
Proof.
  intros Ea Hx Hn Ht Hw Hw0. pose proof Hx as [Fx _]. pose proof (positive_mag x Hx Ht) as Hm. cbn [add_sub_word].
  rewrite Ea. cbn [mbind option_bind]. rewrite mask2, (u64_small w) by exact Hw.
  assert (truth w = true) as -> by (unfold truth; by rewrite (proj2 (Z.eqb_neq _ _) Hw0)). cbn [negb].
  unfold BN_is_zero. rewrite (proj2 (Z.eqb_neq (bn_top x) 0)) by lia. rewrite Hn. change (truth 0) with false. cbv iota.
  pose proof (zlen_limbs x Fx) as Zx. pose proof (limbs_ok x Fx) as Ox. pose proof Fx as (Zd & Td & _ & _).
  replace (value x) with (mag x) by (unfold value; by rewrite Hn).
  destruct (limbs x) as [|d0 L] eqn:El; [change (zlen (@nil Z)) with 0 in Zx; lia|].
  assert (Wx : words m (a, 0) (zlen (limbs x)) = Some (limbs x)) by (rewrite zlen_limbs by done; by apply words_of).
  assert (Hld : ldw m (a, 0) 0 = Some d0) by (apply (ldw_words m (a, 0) (limbs x) 0 d0 Wx); by rewrite El).
  rewrite Hld. cbn [mbind option_bind]. apply Forall_cons in Ox as [Od0 OL]. unfold word_ok in Hw, Od0.
  assert (Em : mag x = d0 + B * eval L) by (unfold mag; by rewrite El).
  pose proof (eval_range L OL) as HL. rewrite zlen_cons in Zx. pose proof (zlen_nonneg L).
  destruct (Z.eqb_spec (bn_top x) 1) as [E1|E1]; cbn [andb]; [destruct (Z.ltb_spec d0 w) as [Hlt|Hge]|].
  { (* the word is larger *)
    assert (L = []) as -> by (destruct L; [done|rewrite zlen_cons in Zx; pose proof (zlen_nonneg L); lia]).
    destruct (set_words_some m (a, 0) 1 [d0] [u64 (w - d0)]) as [m1 H1]; [rewrite <- El, <- E1; by apply words_of|done|].
    rewrite stw_set_words, padd_0, H1. cbn [mbind option_bind]. rewrite u64_small in H1 by lia.
    destruct (stored_limbs m a x [w - d0] m1 Ea Fx) as (d' & -> & Hf2 & Hl2);
      [apply Forall_singleton; unfold word_ok; lia|by rewrite E1|done|].
    rewrite bn_set_insert. cbn [mbind option_bind]. eexists. split; [reflexivity|].
    match goal with |- bn_ok ?y /\ _ => set (x' := y) end.
    assert (Em' : mag x' = w - d0). { transitivity (eval [w - d0]); [by rewrite <- Hl2|simpl; lia]. }
    split; [|unfold value; change (bn_neg x' =? 0) with false; cbv iota; simpl in Em; lia].
    split; [apply (fits_neg sec); [exact Hf2|by right]|]. unfold normal. rewrite Em'. change (bn_top x') with (bn_top x).
    rewrite E1. split; [intros _; change (B ^ (1 - 1)) with 1; lia|lia]. }
  1: assert (Hle : w <= mag x) by (rewrite Em; unfold B; lia).
  2: assert (Hle : w <= mag x) by (rewrite Em; pose proof (many_words x d0 L ltac:(lia) Em Hm Od0) as H2; unfold B in *; lia).
  all: by apply sub_larger; try done; unfold word_ok; lia.
Qed.

(** *** Any numbers *)

Lemma bn_set_of m a x f : m !! a = Some x -> bn_set m a f = Some (<[a := f x]> m).
Proof. intros E. unfold bn_set. by rewrite E. Qed.

Lemma unsigned x : bn_ok x -> 0 < bn_top x -> bn_ok (x <| bn_neg := 0 |>).
Proof. intros [Fx [Nx _]] Ht. split; [apply (fits_neg sec); [exact Fx|by left]|]. by split. Qed.

Lemma value_top x : bn_ok x -> value x <> 0 <-> 0 < bn_top x.
Proof.
  intros Hx. pose proof Hx as [Fx _]. pose proof Fx as (_ & Tx & _). pose proof (mag_abs x Fx). split; intros Hv.
  - destruct (Z.eq_dec (bn_top x) 0) as [E|]; [|lia]. assert (mag x = 0) by (unfold mag, limbs; by rewrite E). lia.
  - pose proof (positive_mag x Hx Hv). pose proof (B_pos (bn_top x - 1) ltac:(lia)). lia.
Qed.

Lemma negated x neg : bn_ok x -> neg = 0 \/ neg = 1 -> (bn_top x = 0 -> neg = 0) ->
  bn_ok (x <| bn_neg := neg |>) /\ value (x <| bn_neg := neg |>) = signed neg (mag x).
Proof. intros [Fx [Nx _]] Hn H0. split; [|done]. split; [by apply (fits_neg sec)|]. by split. Qed.

Lemma add_sub_word_spec calls c1 sub m a x w : c1 = S calls -> m !! a = Some x -> bn_ok x -> word_ok w ->
  word_outcome m a x (if (sub : bool) then value x - w else value x + w) (add_sub_word sec (S c1) sub m a w).
Proof.
  intros Hc Ea Hx Hw. destruct (Z.eq_dec w 0) as [->|Hw0].
  { cbn [add_sub_word]. rewrite Ea. cbn [mbind option_bind]. exists 1, x. rewrite insert_id by done. split; [done|]. left.
    split; [done|]. split; [done|]. destruct sub; lia. }
  destruct (Z.eq_dec (bn_neg x) 0) as [Hn|Hn]; [destruct (Z.eq_dec (bn_top x) 0) as [Ht|Ht]|].
  - (* zero *)
    assert (value x = 0) as Hv.
    { destruct (Z.eq_dec (value x) 0) as [|Hne]; [done|]. apply (value_top x Hx) in Hne. lia. }
    cbn [add_sub_word]. rewrite Ea. cbn [mbind option_bind]. rewrite mask2, (u64_small w) by exact Hw.
    assert (truth w = true) as -> by (unfold truth; by rewrite (proj2 (Z.eqb_neq _ _) Hw0)). cbn [negb].
    unfold BN_is_zero. rewrite Ht, Hv. change (0 =? 0) with true. cbv iota.
    pose proof (set_word_spec m a x w Ea (proj1 Hx) Hw) as (ret & x' & -> & Ho). destruct sub; cbn [mbind option_bind].
    + destruct Ho as [(-> & Hok & Hv')|(-> & Hf & He)].
      * change (truth 1) with true. cbv iota. unfold BN_set_negative. rewrite bn_set_insert. cbn [mbind option_bind].
        unfold word_ok in Hw. assert (Ht' : 0 < bn_top x') by (apply value_top; [done|lia]).
        unfold BN_is_zero. rewrite (proj2 (Z.eqb_neq (bn_top x') 0)) by lia.
        change (if truth 1 && negb false then 1 else 0) with 1.
        destruct (negated x' 1 Hok ltac:(by right) ltac:(lia)) as [Hok' Hv1].
        eexists _, _. split; [reflexivity|]. left. split; [done|]. split; [exact Hok'|]. rewrite Hv1.
        unfold signed. change (1 =? 0) with false. cbv iota. rewrite (mag_abs x' (proj1 Hok)). lia.
      * eexists _, _. split; [reflexivity|]. right. by split.
    + rewrite Z.add_0_l. exists ret, x'. split; [done|]. exact Ho.
  - (* positive *)
    assert (Hp : 0 < bn_top x) by (destruct Hx as [(_ & ? & _) _]; lia). destruct sub.
    + destruct (sub_positive c1 m a x w Ea Hx Hn Hp Hw Hw0) as (x' & -> & Hok & Hv). exists 1, x'. split; [done|]. left. by split.
    + by apply add_positive.
  - (* negative *)
    assert (Hn1 : bn_neg x = 1) by (destruct Hx as [(_ & _ & _ & [?|?]) _]; lia).
    assert (Hp : 0 < bn_top x) by (destruct Hx as [(_ & ? & _) [_ H0]]; destruct (Z.eq_dec (bn_top x) 0); [rewrite H0 in Hn1; lia|lia]).
    assert (Hvx : value x = - mag x) by (unfold value; by rewrite Hn1).
    cbn [add_sub_word]. rewrite Ea. cbn [mbind option_bind]. rewrite mask2, (u64_small w) by exact Hw.
    assert (truth w = true) as -> by (unfold truth; by rewrite (proj2 (Z.eqb_neq _ _) Hw0)). cbn [negb].
    unfold BN_is_zero at 1 2. rewrite (proj2 (Z.eqb_neq (bn_top x) 0)) by lia. rewrite Hn1. change (truth 1) with true. cbv iota.
    rewrite !(bn_set_of m a x _ Ea). cbn [mbind option_bind].
    match goal with |- context [add_sub_word sec c1 _ (<[a := ?y]> m) a w] => set (x0 := y) end.
    assert (Hx0 : bn_ok x0) by (by apply unsigned). assert (Hm0 : value x0 = mag x) by done.
    assert (Hp0 : 0 < bn_top x0) by exact Hp. assert (Hn0 : bn_neg x0 = 0) by done.
    assert (Hs0 : forall n, refused sec (<[a := x0]> m) a n -> refused sec m a n) by (intros n; by apply (refused_same sec m a x x0)).
    assert (Ht0 : bn_top x0 = bn_top x) by done. clearbody x0. subst c1. destruct sub.
    + destruct (add_positive calls (<[a := x0]> m) a x0 w (lookup_insert_eq _ _ _) Hx0 Hn0 Hp0 Hw Hw0) as (ret & x' & -> & Ho).
      cbn [mbind option_bind]. rewrite insert_insert_eq, bn_set_insert. cbn [mbind option_bind]. eexists _, _. split; [reflexivity|].
      destruct Ho as [(-> & Hok & Hv)|(-> & Hf & He)].
      * left. split; [done|]. unfold word_ok in Hw. pose proof (mag_range x (proj1 Hx)).
        assert (Ht' : 0 < bn_top x') by (apply value_top; [done|lia]).
        destruct (negated x' 1 Hok ltac:(by right) ltac:(lia)) as [Hok' Hv1]. split; [exact Hok'|].
        etransitivity; [exact Hv1|]. unfold signed. change (1 =? 0) with false. cbv iota. rewrite (mag_abs x' (proj1 Hok)). lia.
      * right. split; [done|]. split; [apply (fits_neg sec); [exact Hf|by right]|]. rewrite Ht0 in He. by apply Hs0.
    + destruct (sub_positive calls (<[a := x0]> m) a x0 w (lookup_insert_eq _ _ _) Hx0 Hn0 Hp0 Hw Hw0) as (x' & -> & Hok & Hv).
      cbn [mbind option_bind]. rewrite insert_insert_eq, bn_set_insert. cbn [mbind option_bind]. eexists _, _. split; [reflexivity|].
      left. split; [done|]. unfold BN_is_zero. destruct (Z.eqb_spec (bn_top x') 0) as [E0|Hne].
      * split; [exact Hok|]. assert (value x' = 0) by (destruct (Z.eq_dec (value x') 0) as [|H1]; [done|]; apply (value_top x' Hok) in H1; lia). lia.
      * pose proof (neg_value x' Hok) as Hs. pose proof (mag_abs x' (proj1 Hok)) as Hma.
        destruct (negated x' (if truth (bn_neg x') then 0 else 1) Hok ltac:(case_match; tauto) ltac:(lia)) as [Hok' Hv1].
        split; [exact Hok'|]. etransitivity; [exact Hv1|]. rewrite Hs. unfold truth, signed.
        destruct (Z.ltb_spec (value x') 0); cbn [Z.b2z]; cbn [Z.eqb negb]; lia.
Qed.

Lemma zero_spec m a x : m !! a = Some x -> bn_fits x -> exists x', BN_zero m a = Some (<[a := x']> m) /\ bn_ok x' /\ value x' = 0.
Proof.
  intros Ea Fx. unfold BN_zero. rewrite (bn_set_of m a x _ Ea). eexists. split; [reflexivity|]. split; [|done].
  split; [by apply zero_fits|]. split; [simpl; lia|done].
Qed.

Lemma mul_word_spec m a x w : m !! a = Some x -> bn_ok x -> word_ok w -> word_outcome m a x (value x * w) (BN_mul_word sec m a w).
Proof.
  intros Ea Hx Hw. pose proof Hx as [Fx [Nx N0]]. unfold BN_mul_word. rewrite Ea. cbn [mbind option_bind].
  rewrite mask2, (u64_small w) by exact Hw. unfold truth at 1. unfold word_ok in Hw.
  destruct (Z.eqb_spec (bn_top x) 0) as [Ht|Ht]; cbn [negb].
  { assert (value x = 0) as -> by (destruct (Z.eq_dec (value x) 0) as [|Hne]; [done|]; apply (value_top x Hx) in Hne; lia).
    exists 1, x. rewrite insert_id by done. split; [done|]. left. split; [done|]. split; [done|].
    destruct (Z.eq_dec (value x) 0) as [|Hne]; [done|]. apply (value_top x Hx) in Hne. lia. }
  destruct (Z.eqb_spec w 0) as [->|Hw0].
  { destruct (zero_spec m a x Ea Fx) as (x' & -> & Hok & Hv). cbn [mbind option_bind]. exists 1, x'. split; [done|]. left.
    split; [done|]. split; [done|]. lia. }
  pose proof (zlen_limbs x Fx) as Zx. pose proof (limbs_ok x Fx) as Ox. pose proof Fx as (Zd & Td & _ & Sx).
  specialize (Nx ltac:(lia)). pose proof (B_pos (bn_top x - 1) ltac:(lia)).
  pose proof (words_of m a x Ea Fx) as Wx.
  destruct (mul_words_spec m (a, 0) (a, 0) (bn_top x) (limbs x) (limbs x) (follows_refl _) Wx Wx Ox w Hw)
    as (R & c & m' & -> & HR & ZR & OR & Hc & ER). cbn [mbind option_bind]. fold (mag x) in ER.
  destruct (stored_limbs m a x R m' Ea Fx OR ZR HR) as (d' & -> & Hf2 & Hl2).
  set (x2 := x <| bn_d := d' |>) in *. assert (Ht2 : bn_top x2 = bn_top x) by done. assert (Hn2 : bn_neg x2 = bn_neg x) by done.
  assert (Hm2 : mag x2 = eval R) by (unfold mag; by rewrite Hl2).
  assert (Hdf2 : bn_dmax x2 = bn_dmax x /\ bn_flags x2 = bn_flags x) by done. destruct Hdf2 as [Hd2 Hg2]. clearbody x2.
  assert (Hv : value x * w = signed (bn_neg x) (mag x * w)) by (unfold value, signed; destruct (bn_neg x =? 0); lia). rewrite Hv.
  unfold truth. destruct (Z.eqb_spec c 0) as [->|Hc0]; cbn [negb].
  - exists 1, x2. split; [done|]. left. split; [done|]. split; [|rewrite value_signed, Hn2, Hm2; f_equal; lia].
    split; [exact Hf2|]. unfold normal. rewrite Ht2, Hn2, Hm2. split; [intros _; nia|lia].
  - destruct (wexpand_spec sec _ a x2 (bn_top x + 1) (lookup_insert_eq m a x2) Hf2) as [E|(z1 & -> & Hr & Hd)].
    { rewrite E. cbn [mbind option_bind negb]. exists 0, x2. split; [done|]. right. split; [done|]. split; [done|].
      apply (refused_same sec m a x x2); [done..|]. exists (bn_top x + 1). split; [lia|done]. }
    cbn [mbind option_bind negb]. rewrite insert_insert_eq.
    destruct (appended m a x2 z1 c Hr ltac:(lia) Hc Hc0) as (x5 & _ & H5 & Hok & Hmag & Hneg). rewrite Ht2 in H5.
    destruct (stw _ _ _ _) as [m6|]; [|done]. cbn [mbind option_bind] in *. rewrite H5. cbn [mbind option_bind].
    exists 1, x5. split; [done|]. left. split; [done|]. split; [done|].
    rewrite value_signed, Hneg, Hn2, Hmag, Hm2, Ht2. f_equal. lia.
Qed.

(** C39: [BN_add_word], [BN_sub_word] and [BN_mul_word] leave the exact sum, difference or
    product of a signed number and a word in its place, normalised: they return 1.  They
    return 0 only when the number cannot be given another word. *)
Theorem BN_word_correct m a x w : m !! a = Some x -> bn_ok x -> word_ok w ->
  word_outcome m a x (value x + w) (BN_add_word sec m a w) /\
  word_outcome m a x (value x - w) (BN_sub_word sec m a w) /\
  word_outcome m a x (value x * w) (BN_mul_word sec m a w).
Proof.
  intros Ea Hx Hw. split_and!; [| |by apply mul_word_spec].
  - by apply (add_sub_word_spec 0 1 false).
  - by apply (add_sub_word_spec 0 1 true).
Qed.

(** C40: Dividing by a word: [bn_div_words] finds the exact quotient of two words by one; with it
    [BN_div_word] replaces a number by its quotient, rounded towards zero and normalised, and returns the
    remainder of the magnitude; [BN_mod_word] returns the same remainder and leaves all
    numbers alone.  Both return the largest word when the divisor is zero or memory
    is missing. *)
Theorem BN_div_mod_word_correct m a x w h l : m !! a = Some x -> bn_ok x -> word_ok w ->
  (0 <= h < w -> word_ok l -> bn_div_words h l w = Some ((h * B + l) / w)) /\
  divided m a x w (BN_div_word sec m a w) /\
  remainder m x w (BN_mod_word sec m a w).
Proof.
  intros Ea Hx Hw. split_and!; [|by apply div_word_spec|by apply mod_word_spec].
  intros Hh Hl. unfold word_ok in Hw. apply div_words_spec; [lia|done|done].
Qed.
End Spec.

(** ** Witnesses *)

#[local] Existing Instance generous_malloc.

(** - (2^128 - 1), and divisors of one, of half a word, and of a whole word. *)
Definition word_heap : heap := {[ 0%nat := number [BN_MASK2; BN_MASK2] 1 ]}.

Lemma word_heap_ok : bn_ok (number [BN_MASK2; BN_MASK2] 1).
Proof. apply number_ok; [repeat constructor; done|by right|done|done]. Qed.

Lemma BN_word_correct_witness :
  word_outcome no_secure word_heap 0 (number [BN_MASK2; BN_MASK2] 1) (value (number [BN_MASK2; BN_MASK2] 1) - 7) (BN_sub_word no_secure word_heap 0 7) /\
  match BN_sub_word no_secure word_heap 0 7 with
  | Some (ret, m) => ret = 1 /\ value <$> m !! 0%nat = Some (- (2 ^ 128 + 6))
  | None => False
  end.
Proof.
  split; [|vm_compute; by split].
  exact (proj1 (proj2 (BN_word_correct no_secure word_heap 0 _ 7 eq_refl word_heap_ok ltac:(done)))).
Defined.

Lemma BN_div_mod_word_correct_witness :
  divided no_secure word_heap 0 (number [BN_MASK2; BN_MASK2] 1) 0xfffffffffffffff1 (BN_div_word no_secure word_heap 0 0xfffffffffffffff1) /\
  match BN_div_word no_secure word_heap 0 0xfffffffffffffff1 with
  | Some (ret, m) => ret = (2 ^ 128 - 1) mod 0xfffffffffffffff1 /\
                     value <$> m !! 0%nat = Some (- ((2 ^ 128 - 1) / 0xfffffffffffffff1))
  | None => False
  end.
Proof.
  split; [|vm_compute; by split].
  exact (proj1 (proj2 (BN_div_mod_word_correct no_secure word_heap 0 _ 0xfffffffffffffff1 0 0 eq_refl word_heap_ok ltac:(done)))).
Defined.

(** Without memory [BN_add_word] has already changed the number: what was 2^64 - 1 has become a
    zero with a leading zero. *)
Lemma add_word_spoils :
  match @BN_add_word exhausted_malloc no_secure {[ 0%nat := number [BN_MASK2] 0 ]} 0 1 with
  | Some (ret, m) => ret = 0 /\ bn_top <$> m !! 0%nat = Some 1 /\ value <$> m !! 0%nat = Some 0
  | None => False
  end.
Proof. vm_compute. done. Qed.
