(* ===== verification/Reassembly.v ===== *)
(** * Properties of the reassembly of DTLS messages

    The bit mask of a message that arrives in fragments is the set of the positions
    received, and complete when that is all of them, whatever the order of the fragments
    and however often they arrive. *)

From S2P Require Import Prelude Mem PQueue Packet Buffer WPacket Wire TlsState Protocol StatemLib Dtls ConstantTime.

(** ** The bit mask as a set *)

(** Position [i] is marked. *)
Definition bit (bitmask : list Z) (i : Z) : bool :=
  match bitmask !! Z.to_nat (i / 8) with Some b => Z.testbit b (i mod 8) | None => false end.

Lemma shiftr_3 x : Z.shiftr x 3 = x / 8.
Proof. by rewrite Z.shiftr_div_pow2. Qed.

Lemma land_7 x : Z.land x 7 = x mod 8.
Proof. change 7 with (Z.ones 3). by rewrite Z.land_ones. Qed.

Lemma byte_bits_ext a b : byte_ok a -> byte_ok b ->
  (forall j, 0 <= j < 8 -> Z.testbit a j = Z.testbit b j) -> a = b.
Proof.
  intros Ha Hb H. apply Z.bits_inj'. intros j Hj.
  destruct (Z.lt_ge_cases j 8); [by apply H|].
  assert (Hhigh : forall x, byte_ok x -> Z.testbit x j = false).
  { intros x Hx. unfold byte_ok in Hx. replace x with (x mod 2 ^ 8) by (apply Z.mod_small; lia).
    rewrite Z.mod_pow2_bits_high; [done|lia]. }
  by rewrite !Hhigh.
Qed.

Lemma lor_byte a b : byte_ok a -> byte_ok b -> byte_ok (Z.lor a b).
Proof. apply (lor_range 8 eq_refl). Qed.

(** Storing a byte changes the bits of that byte. *)
Lemma wr_bits bm k v : 0 <= k < zlen bm -> bytes_ok bm -> byte_ok v ->
  exists bm', wr bm k v = Some bm' /\ zlen bm' = zlen bm /\ bytes_ok bm' /\
    forall i, 0 <= i -> bit bm' i = if i / 8 =? k then Z.testbit v (i mod 8) else bit bm i.
Proof.
  intros Hk Hok Hv. rewrite wr_spec by done. eexists. split; [done|].
  split; [unfold zlen; by rewrite length_insert|]. split; [by apply Forall_insert|].
  intros i Hi. unfold bit. assert (0 <= i / 8) by (apply Z.div_pos; lia).
  destruct (Z.eqb_spec (i / 8) k) as [->|Hne].
  - by rewrite list_lookup_insert_eq by (unfold zlen in *; lia).
  - by rewrite list_lookup_insert_ne by lia.
Qed.

Lemma or_byte_spec bm k v : 0 <= k < zlen bm -> bytes_ok bm -> byte_ok v ->
  exists bm', or_byte bm k v = Some bm' /\ zlen bm' = zlen bm /\ bytes_ok bm' /\
    forall i, 0 <= i -> bit bm' i = bit bm i || ((i / 8 =? k) && Z.testbit v (i mod 8)).
Proof.
  intros Hk Hok Hv. unfold or_byte. destruct (rd_in bm k Hk) as [b Hb]. rewrite Hb.
  cbn [mbind option_bind]. unfold rd in Hb. rewrite (proj2 (Z.ltb_ge _ _)) in Hb by lia.
  assert (Hbok : byte_ok b) by by eapply Forall_lookup_1.
  destruct (wr_bits bm k (Z.lor b v) Hk Hok) as (bm' & E & Hz & Hok' & Hbits); [by apply lor_byte|].
  exists bm'. do 3 (split; [done|]). intros i Hi. rewrite Hbits by done.
  destruct (Z.eqb_spec (i / 8) k) as [E'|]; cbn [andb]; [|by rewrite orb_false_r].
  unfold bit. by rewrite E', Hb, Z.lor_spec.
Qed.

Lemma one_bit x i : 0 <= x -> 0 <= i ->
  (i / 8 =? x / 8) && Z.testbit (u8 (Z.shiftl 1 (x mod 8))) (i mod 8) = (i =? x).
Proof.
  intros Hx Hi. unfold u8. pose proof (Z.mod_pos_bound x 8 ltac:(lia)). pose proof (Z.mod_pos_bound i 8 ltac:(lia)).
  rewrite Z.mod_pow2_bits_low by lia. rewrite Z.shiftl_1_l, Z.pow2_bits_eqb by lia.
  destruct (Z.eqb_spec (i / 8) (x / 8)), (Z.eqb_spec (x mod 8) (i mod 8)), (Z.eqb_spec i x); try done;
    cbn [andb]; lia_div.
Qed.

Lemma mark_bits_spec n : forall ii bm, 0 <= ii -> ii + Z.of_nat n <= 8 * zlen bm -> bytes_ok bm ->
  exists bm', mark_bits n ii bm = Some bm' /\ zlen bm' = zlen bm /\ bytes_ok bm' /\
    forall i, 0 <= i -> bit bm' i = bit bm i || ((ii <=? i) && (i <? ii + Z.of_nat n)).
Proof.
  induction n as [|n IH]; intros ii bm Hii Hn Hok; cbn [mark_bits].
  { exists bm. do 3 (split; [done|]). intros i Hi.
    destruct (Z.leb_spec ii i), (Z.ltb_spec i (ii + Z.of_nat 0)); cbn [andb]; rewrite ?orb_false_r; done || lia. }
  rewrite shiftr_3, land_7.
  destruct (or_byte_spec bm (ii / 8) (u8 (Z.shiftl 1 (ii mod 8)))) as (bm1 & -> & Hz1 & Hok1 & Hb1).
  { lia_div. }
  { done. }
  { apply Z.mod_pos_bound. lia. }
  cbn [mbind option_bind].
  destruct (IH (ii + 1) bm1 ltac:(lia) ltac:(lia) Hok1) as (bm2 & -> & Hz2 & Hok2 & Hb2).
  exists bm2. split; [done|]. split; [congruence|]. split; [done|]. intros i Hi.
  rewrite Hb2, Hb1, one_bit by done. rewrite <- orb_assoc. f_equal.
  destruct (Z.eqb_spec i ii), (Z.leb_spec (ii + 1) i), (Z.ltb_spec i (ii + 1 + Z.of_nat n)),
    (Z.leb_spec ii i), (Z.ltb_spec i (ii + Z.of_nat (S n))); done || lia.
Qed.

Lemma testbit_255 j : 0 <= j < 8 -> Z.testbit 255 j = true.
Proof. intros Hj. change 255 with (Z.ones 8). by apply Z.ones_spec_low. Qed.

Lemma mark_bytes_spec n : forall k bm, 0 <= k -> k + Z.of_nat n <= zlen bm -> bytes_ok bm ->
  exists bm', mark_bytes n k bm = Some bm' /\ zlen bm' = zlen bm /\ bytes_ok bm' /\
    forall i, 0 <= i -> bit bm' i = bit bm i || ((k <=? i / 8) && (i / 8 <? k + Z.of_nat n)).
Proof.
  induction n as [|n IH]; intros k bm Hk Hn Hok; cbn [mark_bytes].
  { exists bm. do 3 (split; [done|]). intros i Hi.
    destruct (Z.leb_spec k (i / 8)), (Z.ltb_spec (i / 8) (k + Z.of_nat 0)); cbn [andb];
      rewrite ?orb_false_r; done || lia. }
  destruct (wr_bits bm k 255) as (bm1 & -> & Hz1 & Hok1 & Hb1); [lia|done|done|]. cbn [mbind option_bind].
  destruct (IH (k + 1) bm1 ltac:(lia) ltac:(lia) Hok1) as (bm2 & -> & Hz2 & Hok2 & Hb2).
  exists bm2. split; [done|]. split; [congruence|]. split; [done|]. intros i Hi.
  rewrite Hb2, Hb1 by done. rewrite testbit_255 by (apply Z.mod_pos_bound; lia).
  destruct (Z.eqb_spec (i / 8) k), (Z.leb_spec (k + 1) (i / 8)), (Z.ltb_spec (i / 8) (k + 1 + Z.of_nat n)),
    (Z.leb_spec k (i / 8)), (Z.ltb_spec (i / 8) (k + Z.of_nat (S n))); cbn [andb orb];
    rewrite ?orb_true_r, ?orb_false_r; done || lia.
Qed.

(** The tables of partial bytes. *)
Lemma start_value r : 0 <= r < 8 -> exists v, rd bitmask_start_values r = Some v /\ byte_ok v /\
  forall j, 0 <= j < 8 -> Z.testbit v j = (r <=? j).
Proof.
  intros Hr. assert (Hall : forall n, (n < 8)%nat -> exists v, rd bitmask_start_values (Z.of_nat n) = Some v /\
    byte_ok v /\ forallb (fun j => Bool.eqb (Z.testbit v (Z.of_nat j)) (Z.of_nat n <=? Z.of_nat j)) (seq 0 8) = true).
  { intros n Hn. do 8 (destruct n as [|n]; [eexists; split; [reflexivity|split; [split; done|reflexivity]]|]). lia. }
  destruct (Hall (Z.to_nat r) ltac:(lia)) as (v & Hv & Hok & Hbits). rewrite Z2Nat.id in * by lia.
  exists v. do 2 (split; [done|]). intros j Hj. rewrite forallb_forall in Hbits.
  specialize (Hbits (Z.to_nat j)). rewrite Z2Nat.id in Hbits by lia. apply eqb_prop, Hbits, in_seq. lia.
Qed.

Lemma end_value r : 0 <= r < 8 -> exists v, rd bitmask_end_values r = Some v /\ byte_ok v /\
  forall j, 0 <= j < 8 -> Z.testbit v j = (r =? 0) || (j <? r).
Proof.
  intros Hr. assert (Hall : forall n, (n < 8)%nat -> exists v, rd bitmask_end_values (Z.of_nat n) = Some v /\
    byte_ok v /\ forallb (fun j => Bool.eqb (Z.testbit v (Z.of_nat j))
                                     ((Z.of_nat n =? 0) || (Z.of_nat j <? Z.of_nat n))) (seq 0 8) = true).
  { intros n Hn. do 8 (destruct n as [|n]; [eexists; split; [reflexivity|split; [split; done|reflexivity]]|]). lia. }
  destruct (Hall (Z.to_nat r) ltac:(lia)) as (v & Hv & Hok & Hbits). rewrite Z2Nat.id in * by lia.
  exists v. do 2 (split; [done|]). intros j Hj. rewrite forallb_forall in Hbits.
  specialize (Hbits (Z.to_nat j)). rewrite Z2Nat.id in Hbits by lia. apply eqb_prop, Hbits, in_seq. lia.
Qed.

(** Marking a range adds it to the set. *)
Lemma mark_spec bm start end_ : 0 <= start -> start < end_ -> end_ <= 8 * zlen bm -> bytes_ok bm ->
  exists bm', RSMBLY_BITMASK_MARK bm start end_ = Some bm' /\ zlen bm' = zlen bm /\ bytes_ok bm' /\
    forall i, 0 <= i -> bit bm' i = bit bm i || ((start <=? i) && (i <? end_)).
Proof.
  intros Hs Hse He Hok. unfold RSMBLY_BITMASK_MARK.
  destruct (Z.leb_spec (end_ - start) 8) as [Hsmall|Hbig].
  { destruct (mark_bits_spec (Z.to_nat (end_ - start)) start bm ltac:(lia) ltac:(lia) Hok)
      as (bm' & -> & Hz & Hok' & Hb). exists bm'. do 3 (split; [done|]). intros i Hi.
    rewrite Hb by done. do 3 f_equal. lia. }
  rewrite !shiftr_3, !land_7.
  destruct (start_value (start mod 8)) as (v & -> & Hv & Hvb); [apply Z.mod_pos_bound; lia|].
  cbn [mbind option_bind].
  destruct (or_byte_spec bm (start / 8) v) as (bm1 & -> & Hz1 & Hok1 & Hb1); [lia_div|done|done|].
  cbn [mbind option_bind].
  destruct (mark_bytes_spec (Z.to_nat ((end_ - 1) / 8 - (start / 8 + 1))) (start / 8 + 1) bm1)
    as (bm2 & -> & Hz2 & Hok2 & Hb2); [lia_div|lia_div|done|]. cbn [mbind option_bind].
  destruct (end_value (end_ mod 8)) as (v' & -> & Hv' & Hvb'); [apply Z.mod_pos_bound; lia|].
  cbn [mbind option_bind].
  destruct (or_byte_spec bm2 ((end_ - 1) / 8) v') as (bm3 & -> & Hz3 & Hok3 & Hb3); [lia_div|done|done|].
  exists bm3. split; [done|]. split; [congruence|]. split; [done|]. intros i Hi.
  pose proof (Z.mod_pos_bound i 8 ltac:(lia)) as Hm.
  rewrite Hb3, Hb2, Hb1, Hvb, Hvb' by done. rewrite <- !orb_assoc. f_equal.
  apply eq_true_iff_eq. rewrite !orb_true_iff, !andb_true_iff, !orb_true_iff, !Z.eqb_eq, !Z.leb_le, !Z.ltb_lt.
  lia_div.
Qed.

(** A mask for [len] positions. *)
Definition bitmask_ok (bm : list Z) (len : Z) : Prop :=
  zlen bm = (len + 7) / 8 /\ bytes_ok bm /\ forall i, len <= i -> bit bm i = false.

Lemma byte_of_bits bm k b v : 0 <= k -> bytes_ok bm -> rd bm k = Some b -> byte_ok v ->
  b = v <-> forall j, 0 <= j < 8 -> bit bm (8 * k + j) = Z.testbit v j.
Proof.
  intros Hk Hok Hb Hv. unfold rd in Hb. rewrite (proj2 (Z.ltb_ge _ _)) in Hb by lia.
  assert (Hbok : byte_ok b) by by eapply Forall_lookup_1.
  assert (Hbit : forall j, 0 <= j < 8 -> bit bm (8 * k + j) = Z.testbit b j).
  { intros j Hj. unfold bit. replace ((8 * k + j) / 8) with k by lia_div.
    replace ((8 * k + j) mod 8) with j by lia_div. by rewrite Hb. }
  split; [by intros ->|]. intros H. apply byte_bits_ext; [done|done|]. intros j Hj.
  by rewrite <- Hbit, H.
Qed.

Lemma all_full_spec n bm : Z.of_nat n <= zlen bm -> bytes_ok bm ->
  exists b, all_full n bm = Some b /\
    (b = true <-> forall i, 0 <= i < 8 * Z.of_nat n -> bit bm i = true).
Proof.
  intros Hn Hok. induction n as [|n IH]; cbn [all_full].
  { exists true. split; [done|]. split; [lia|done]. }
  destruct (rd_in bm (Z.of_nat n) ltac:(lia)) as [x Hx]. rewrite Hx. cbn [mbind option_bind].
  pose proof (byte_of_bits bm (Z.of_nat n) x 255 ltac:(lia) Hok Hx ltac:(done)) as Hbyte.
  destruct (IH ltac:(lia)) as (b & Hb & Hiff). destruct (Z.eqb_spec x 0xff) as [->|Hne].
  - exists b. split; [done|]. rewrite Hiff. split; intros Hall i Hi; [|apply Hall; lia].
    destruct (Z.lt_ge_cases i (8 * Z.of_nat n)); [apply Hall; lia|].
    pose proof (proj1 Hbyte eq_refl (i - 8 * Z.of_nat n) ltac:(lia)) as Hthis.
    replace (8 * Z.of_nat n + (i - 8 * Z.of_nat n)) with i in Hthis by lia.
    rewrite Hthis. apply testbit_255. lia.
  - exists false. split; [done|]. split; [done|]. intros Hall. exfalso. apply Hne, Hbyte.
    intros j Hj. rewrite testbit_255 by done. apply Hall. lia.
Qed.

Lemma complete_spec bm len : 0 < len -> bitmask_ok bm len ->
  exists b, RSMBLY_BITMASK_IS_COMPLETE bm len = Some b /\
    (b = true <-> forall i, 0 <= i < len -> bit bm i = true).
Proof.
  intros Hlen (Hz & Hok & Hhigh). unfold RSMBLY_BITMASK_IS_COMPLETE. rewrite shiftr_3, land_7.
  set (k := (len - 1) / 8). assert (Hk : 0 <= k < zlen bm) by (unfold k; lia_div).
  destruct (rd_in bm k Hk) as [x Hx]. rewrite Hx. cbn [mbind option_bind].
  destruct (end_value (len mod 8)) as (v & -> & Hv & Hvb); [apply Z.mod_pos_bound; lia|].
  cbn [mbind option_bind].
  pose proof (byte_of_bits bm k x v ltac:(lia) Hok Hx Hv) as Hbyte.
  destruct (all_full_spec (Z.to_nat k) bm ltac:(lia) Hok) as (b & Hb & Hiff).
  rewrite Z2Nat.id in Hiff by lia.
  assert (Hlast : x = v <-> forall i, 8 * k <= i < len -> bit bm i = true).
  { rewrite Hbyte. split.
    - intros Hall i Hi. specialize (Hall (i - 8 * k) ltac:(unfold k in *; lia_div)).
      replace (8 * k + (i - 8 * k)) with i in Hall by lia. rewrite Hall, Hvb by (unfold k in *; lia_div).
      apply orb_true_iff. rewrite Z.eqb_eq, Z.ltb_lt. unfold k in *. lia_div.
    - intros Hall j Hj. rewrite Hvb by done.
      destruct (Z.lt_ge_cases (8 * k + j) len).
      + rewrite Hall by lia. symmetry. apply orb_true_iff. rewrite Z.eqb_eq, Z.ltb_lt. unfold k in *. lia_div.
      + rewrite Hhigh by lia. symmetry. apply orb_false_iff. rewrite Z.eqb_neq, Z.ltb_ge. unfold k in *. lia_div. }
  destruct (Z.eqb_spec x v) as [E|Hne]; cbn [negb].
  - exists b. split; [done|]. rewrite Hiff. split; intros Hall i Hi.
    + destruct (Z.lt_ge_cases i (8 * k)); [apply Hall; lia|]. apply (proj1 Hlast E). lia.
    + apply Hall. unfold k in *. lia_div.
  - exists false. split; [done|]. split; [done|]. intros Hall. exfalso. apply Hne, Hlast.
    intros i Hi. apply Hall. lia.
Qed.

(** An empty mask. *)
Lemma bit_zero n i : bit (replicate n 0) i = false.
Proof.
  unfold bit. destruct (replicate n 0 !! _) as [b|] eqn:E; [|done].
  apply lookup_replicate in E as [-> _]. apply Z.testbit_0_l.
Qed.

Lemma bitmask_ok_zero len : 0 <= len -> bitmask_ok (replicate (Z.to_nat ((len + 7) / 8)) 0) len.
Proof.
  intros Hl. split; [rewrite zlen_replicate, Z2Nat.id; [done|apply Z.div_pos; lia]|].
  split; [by apply Forall_replicate; split|]. intros. apply bit_zero.
Qed.

(** ** Property *)

(** Marking the fragments that have arrived, as [start] and [end_]. *)
Fixpoint mark_all (ranges : list (Z * Z)) (bitmask : list Z) : option (list Z) :=
  match ranges with
  | [] => Some bitmask
  | (start, end_) :: ranges =>
      bitmask ← RSMBLY_BITMASK_MARK bitmask start end_; mark_all ranges bitmask
  end.

Definition in_range (i : Z) (r : Z * Z) : bool := (r.1 <=? i) && (i <? r.2).

Lemma mark_all_spec len ranges : forall bm, 0 < len -> bitmask_ok bm len ->
  Forall (fun r => 0 <= r.1 /\ r.1 < r.2 <= len) ranges ->
  exists bm', mark_all ranges bm = Some bm' /\ bitmask_ok bm' len /\
    forall i, 0 <= i -> bit bm' i = bit bm i || existsb (in_range i) ranges.
Proof.
  induction ranges as [|[a b] ranges IH]; intros bm Hlen Hbm Hr; cbn [mark_all].
  { exists bm. do 2 (split; [done|]). intros i _. by rewrite orb_false_r. }
  apply Forall_cons_1 in Hr as [Hab Hr]. simpl in Hab. pose proof Hbm as (Hz & Hok & Hhigh).
  destruct (mark_spec bm a b) as (bm1 & -> & Hz1 & Hok1 & Hb1); [lia|lia|lia_div|done|].
  cbn [mbind option_bind].
  assert (Hbm1 : bitmask_ok bm1 len).
  { split; [lia|]. split; [done|]. intros i Hi. rewrite Hb1, Hhigh by lia.
    destruct (Z.ltb_spec i b); [lia|]. by rewrite andb_false_r. }
  destruct (IH bm1 Hlen Hbm1 Hr) as (bm2 & -> & Hbm2 & Hb2). exists bm2. do 2 (split; [done|]).
  intros i Hi. rewrite Hb2, Hb1 by done. by rewrite <- orb_assoc.
Qed.

(** C23: the bit mask of a message implements the set of the positions received:
    whatever fragments are marked, in whatever order, within or across bytes, no
    access leaves the mask, and it is found complete exactly if every position of
    the message is in one of them. *)
Theorem bitmask_correct len ranges :
  0 < len < 2 ^ 24 -> Forall (fun r => 0 <= r.1 /\ r.1 < r.2 <= len) ranges ->
  exists bm b, mark_all ranges (replicate (Z.to_nat (RSMBLY_BITMASK_SIZE len)) 0) = Some bm /\
    RSMBLY_BITMASK_IS_COMPLETE bm len = Some b /\
    (b = true <-> forall i, 0 <= i < len -> existsb (in_range i) ranges = true).
Proof.
  intros Hlen Hr. unfold RSMBLY_BITMASK_SIZE. rewrite sz_small by (unfold SIZE_MAX; lia).
  destruct (mark_all_spec len ranges (replicate (Z.to_nat ((len + 7) / 8)) 0)) as (bm & Hbm & Hok & Hb);
    [lia|apply bitmask_ok_zero; lia|done|].
  destruct (complete_spec bm len) as (b & Hc & Hiff); [lia|done|].
  exists bm, b. do 2 (split; [done|]). rewrite Hiff.
  split; intros H i Hi; specialize (H i Hi); rewrite Hb, bit_zero in * by lia; exact H.
Qed.

Lemma bitmask_correct_witness :
  exists bm, mark_all [(13, 30); (0, 3); (2, 14)] (replicate 4 0) = Some bm /\
    RSMBLY_BITMASK_IS_COMPLETE bm 30 = Some true.
Proof.
  destruct (bitmask_correct 30 [(13, 30); (0, 3); (2, 14)]) as (bm & b & Hm & Hc & Hiff);
    [lia|repeat constructor; simpl; lia|].
  exists bm. split; [exact Hm|]. rewrite Hc. f_equal. apply Hiff. intros i Hi. cbn [existsb in_range fst snd].
  unfold in_range. cbn [fst snd]. lia.
Defined.
