(* ===== verification/Record.v ===== *)
(** * Removing the padding and the MAC of a CBC record

    [tls3_cbc_remove_padding], [tls1_cbc_remove_padding] and [tls3_cbc_copy_mac] of
    [src/ssl/record/ssl3_record.c], which must not branch on what was decrypted,
    and the count of early data of the same file. *)

From S2P Require Import Prelude Mem Packet Buffer WPacket Wire TlsState Protocol StatemLib StatemClnt StatemSrvr Statem Sample ConstantTime.

(** ** Data *)

(** [tls3_RECORD], the fields used; [data] and [input] are offsets in the block that
    holds the record. *)
Record tls3_RECORD := mk_tls3_RECORD {
  rec_length : Z;
  orig_len : Z;
  rec_data : Z;
  input : Z
}.
#[export] Instance eta_tls3_RECORD : Eta tls3_RECORD := fun r =>
  mk_tls3_RECORD (rec_length r) (orig_len r) (rec_data r) (input r).

Definition EVP_MAX_MD_SIZE : Z := 64.
Definition EVP_CIPH_FLAG_AEAD_CIPHER : Z := 0x200000.
Definition EARLY_DATA_CIPHERTEXT_OVERHEAD : Z := (6 * (16 + 1)) + 2.

Definition tls_USE_EXPLICIT_IV (s : tls) : bool := has_bits (enc_flags s) tls_ENC_FLAG_EXPLICIT_IV.

(** ** Padding *)

Section Padding.
(** The block that holds the record. *)
Context (mem : list Z).

(** 0, 1 or -1, and the record. *)
Definition tls3_cbc_remove_padding (rec : tls3_RECORD) (block_size mac_size : Z)
  : option (Z * tls3_RECORD) :=
  let overhead := sz (1 + mac_size) in
  if rec_length rec <? overhead then Some (0, rec)
  else
    padding_length ← rd mem (rec_data rec + rec_length rec - 1);
    let good := constant_time_ge_s (rec_length rec) (sz (padding_length + overhead)) in
    let good := Z.land good (constant_time_ge_s block_size (sz (padding_length + 1))) in
    let rec := rec <| rec_length ::= fun l => sz (l - Z.land good (sz (padding_length + 1))) |> in
    Some (constant_time_select_int_s good 1 (-1), rec).

(** The loop over the last bytes: [n] are left, [i] is the next. *)
Fixpoint check_loop (n : nat) (i : Z) (rec : tls3_RECORD) (padding_length good : Z) : option Z :=
  match n with
  | O => Some good
  | S n =>
      let mask := constant_time_ge_8_s padding_length i in
      b ← rd mem (rec_data rec + rec_length rec - 1 - i);
      check_loop n (i + 1) rec padding_length
        (Z.land good (sz (Z.lnot (Z.land mask (Z.lxor padding_length b)))))
  end.

(** [cipher_flags] is [EVP_CIPHER_flags] of the cipher that is read with. *)
Definition tls1_cbc_remove_padding (cipher_flags : Z) (s : tls) (rec : tls3_RECORD)
  (block_size mac_size : Z) : option (Z * tls3_RECORD) :=
  let overhead := sz (1 + mac_size) in
  let short := if tls_USE_EXPLICIT_IV s then rec_length rec <? sz (overhead + block_size)
               else rec_length rec <? overhead in
  if short then Some (0, rec)
  else
    let rec := if tls_USE_EXPLICIT_IV s
               then rec <| rec_data ::= fun d => d + block_size |>
                        <| input ::= fun d => d + block_size |>
                        <| rec_length ::= fun l => sz (l - block_size) |>
                        <| orig_len ::= fun l => sz (l - block_size) |>
               else rec in
    padding_length ← rd mem (rec_data rec + rec_length rec - 1);
    if has_bits cipher_flags EVP_CIPH_FLAG_AEAD_CIPHER
    then Some (1, rec <| rec_length ::= fun l => sz (l - sz (padding_length + 1)) |>)
    else
      let good := constant_time_ge_s (rec_length rec) (sz (overhead + padding_length)) in
      let to_check := if rec_length rec <? 256 then rec_length rec else 256 in
      good ← check_loop (Z.to_nat to_check) 0 rec padding_length good;
      let good := constant_time_eq_s 0xff (Z.land good 0xff) in
      let rec := rec <| rec_length ::= fun l => sz (l - Z.land good (sz (padding_length + 1))) |> in
      Some (constant_time_select_int_s good 1 (-1), rec).

(** ** The MAC *)

(** The variables of the loop that copies the MAC. *)
Record mac_scan := mk_mac_scan {
  in_mac : Z;
  rotate_offset : Z;
  ms_j : Z;
  rotated_mac_buf : list Z
}.

(** The loop: [n] bytes are left, [i] is the next; [rotated_mac] is the offset of the
    aligned part of the buffer. *)
Fixpoint scan_loop (n : nat) (i : Z) (rec : tls3_RECORD) (md_size mac_start mac_end rotated_mac : Z)
  (a : mac_scan) : option mac_scan :=
  match n with
  | O => Some a
  | S n =>
      let mac_started := constant_time_eq_s i mac_start in
      let mac_ended := constant_time_lt_s i mac_end in
      b ← rd mem (rec_data rec + i);
      let in_mac := Z.land (Z.lor (in_mac a) mac_started) mac_ended in
      let rotate_offset := Z.lor (rotate_offset a) (Z.land (ms_j a) mac_started) in
      o ← rd (rotated_mac_buf a) (rotated_mac + ms_j a);
      buf ← wr (rotated_mac_buf a) (rotated_mac + ms_j a) (u8 (Z.lor o (Z.land b in_mac)));
      let j := sz (ms_j a + 1) in
      let j := Z.land j (constant_time_lt_s j md_size) in
      scan_loop n (i + 1) rec md_size mac_start mac_end rotated_mac
        (mk_mac_scan in_mac rotate_offset j buf)
  end.

(** The rotation in place, which also touches the other half of the line: [n] bytes
    are left, [j] is the next. *)
Fixpoint rotate_loop (n : nat) (j md_size rotated_mac rotate_offset : Z) (buf out : list Z)
  : option (list Z) :=
  match n with
  | O => Some out
  | S n =>
      _ ← rd buf (rotated_mac + Z.lxor rotate_offset 32);
      b ← rd buf (rotated_mac + rotate_offset);
      out ← wr out j b;
      let rotate_offset := sz (rotate_offset + 1) in
      let rotate_offset := Z.land rotate_offset (constant_time_lt_s rotate_offset md_size) in
      rotate_loop n (j + 1) md_size rotated_mac rotate_offset buf out
  end.

(** The truth value and [out]; [addr] is the address of [rotated_mac_buf] and
    [buf] what it holds at first. *)
Definition tls3_cbc_copy_mac (addr : Z) (buf out : list Z) (rec : tls3_RECORD) (md_size : Z)
  : option (bool * list Z) :=
  let mac_end := rec_length rec in
  let mac_start := sz (mac_end - md_size) in
  if negb ((md_size <=? orig_len rec) && (md_size <=? EVP_MAX_MD_SIZE)) then Some (false, out)
  else
    let rotated_mac := Z.land (sz (0 - addr)) 63 in
    let scan_start := if sz (sz (md_size + 255) + 1) <? orig_len rec
                      then sz (orig_len rec - sz (sz (md_size + 255) + 1)) else 0 in
    buf ← wrn buf rotated_mac (replicate (Z.to_nat md_size) 0);
    a ← scan_loop (Z.to_nat (orig_len rec - scan_start)) scan_start rec md_size mac_start mac_end
          rotated_mac (mk_mac_scan 0 0 0 buf);
    out ← rotate_loop (Z.to_nat md_size) 0 md_size rotated_mac (rotate_offset a)
            (rotated_mac_buf a) out;
    Some (true, out).

End Padding.

(** ** Early data *)

(** The limit before the overhead is added, when there is one. *)
Definition early_data_limit (s : tls) : option Z :=
  if negb (server s) then
    if session_max_early_data (conf s) =? 0 then
      match psksession_max_early_data (conf s) with
      | Some m => if 0 <? m then Some m else None
      | None => None
      end
    else Some (session_max_early_data (conf s))
  else if negb (early_data (ext s) =? tls_EARLY_DATA_ACCEPTED) then Some (recv_max_early_data (conf s))
  else Some (if recv_max_early_data (conf s) <? session_max_early_data (conf s)
             then recv_max_early_data (conf s) else session_max_early_data (conf s)).

Definition early_data_count_ok (s : tls) (length overhead : Z) (send : bool) : bool * tls :=
  let al := if send then tls_AD_INTERNAL_ERROR else tls3_AD_UNEXPECTED_MESSAGE in
  match early_data_limit s with
  | None => (false, tlsfatal s tls_AD_INTERNAL_ERROR)
  | Some max_early_data =>
      if max_early_data =? 0 then (false, tlsfatal s al)
      else
        let max_early_data := u32 (max_early_data + overhead) in
        if max_early_data <? sz (early_data_count (conf s) + length) then (false, tlsfatal s al)
        else (true, s <| conf .: early_data_count := u32 (early_data_count (conf s) + length) |>)
  end.

(** ** Padding, with branches

    [unpad valid rec body mac]: what a record whose bytes (after the explicit
    IV, if any) are [body] becomes. [valid] says whether the padding of [p]
    bytes and the length byte is well formed. *)

Definition shorten (rec : tls3_RECORD) (n : Z) : tls3_RECORD :=
  rec <| rec_length := rec_length rec - n |>.

Definition unpad (valid : list Z -> Z -> bool) (rec : tls3_RECORD) (body : list Z) (mac_size : Z)
  : Z * tls3_RECORD :=
  let p := List.last body 0 in
  if (p + 1 + mac_size <=? zlen body) && valid body p then (1, shorten rec (p + 1)) else (-1, rec).

(** SSL 3: the padding is minimal, its bytes are arbitrary. *)
Definition padding_minimal (block_size : Z) (body : list Z) (p : Z) : bool := p + 1 <=? block_size.

(** TLS: the padding bytes are all equal to the length byte. *)
Definition padding_equal (body : list Z) (p : Z) : bool :=
  forallb (Z.eqb p) (drop (Z.to_nat (zlen body - (p + 1))) body).

(** *** Lemmas *)

Lemma land_full g y m : Z.land (Z.land g y) m = m <-> Z.land g m = m /\ Z.land y m = m.
Proof.
  split.
  - intros E. split; apply Z.bits_inj'; intros n Hn; apply (f_equal (fun x => Z.testbit x n)) in E;
      rewrite !Z.land_spec in *; destruct (Z.testbit m n), (Z.testbit g n), (Z.testbit y n); done.
  - intros [Eg Ey]. by rewrite <- Z.land_assoc, Ey.
Qed.

Lemma rdn_lookup mem o n body k : rdn mem o n = Some body -> 0 <= k < n ->
  rd mem (o + k) = body !! Z.to_nat k.
Proof.
  intros (Ho & Hn & _ & ->)%rdn_Some Hk. rewrite rd_drop, lookup_take_lt by lia. done.
Qed.

Lemma last_lookup (body : list Z) : body <> [] -> body !! Z.to_nat (zlen body - 1) = Some (List.last body 0).
Proof.
  intros Hne. destruct (exists_last Hne) as (l & x & ->). rewrite last_last.
  apply list_lookup_middle. rewrite zlen_app. unfold zlen. simpl. lia.
Qed.

Lemma rd_last mem o body : rdn mem o (zlen body) = Some body -> 0 < zlen body ->
  rd mem (o + zlen body - 1) = Some (List.last body 0).
Proof.
  intros Hr Hz. replace (o + zlen body - 1) with (o + (zlen body - 1)) by lia.
  rewrite (rdn_lookup _ _ _ body) by (done || lia). apply last_lookup. by intros ->.
Qed.

Lemma bytes_ok_last body : bytes_ok body -> byte_ok (List.last body 0).
Proof.
  intros Hb. destruct body as [|x body]; [done|].
  destruct (exists_last (l := x :: body)) as (l & y & E); [done|]. rewrite E, last_last.
  rewrite E in Hb. apply bytes_ok_app in Hb as [_ Hb]. by inversion Hb.
Qed.

Lemma select_1 g : constant_time_select_int_s (mask 64 g) 1 (-1) = if g then 1 else -1.
Proof. by apply select_int_s_spec. Qed.

Lemma land_mask_64 g x : word_ok x -> Z.land (mask 64 g) x = if g then x else 0.
Proof. apply (land_mask 64 eq_refl). Qed.

Section Unpad.
Context {mem : list Z}.
Context (rec : tls3_RECORD) (body : list Z) (mac_size : Z).
Hypothesis body_at : rdn mem (rec_data rec) (rec_length rec) = Some body.
Hypothesis body_ok : bytes_ok body.
Hypothesis body_small : zlen body < 2 ^ 63.
Hypothesis mac_small : 0 <= mac_size <= EVP_MAX_MD_SIZE.

Lemma body_length : rec_length rec = zlen body.
Proof using body_at. symmetry. by eapply rdn_zlen. Qed.

Lemma body_nonempty : 1 + mac_size <= zlen body -> byte_ok (List.last body 0) /\
  rd mem (rec_data rec + rec_length rec - 1) = Some (List.last body 0).
Proof using body_at body_ok mac_small.
  intros Hz. split; [by apply bytes_ok_last|]. rewrite body_length. apply rd_last; [|lia].
  by rewrite <- body_length.
Qed.

(** Shortening the record by what a mask selects. *)
Lemma masked_shorten (g : bool) p : 0 <= p < 256 -> (g = true -> p + 1 <= zlen body) ->
  rec <| rec_length ::= fun l => sz (l - Z.land (mask 64 g) (sz (p + 1))) |> =
  if g then shorten rec (p + 1) else rec.
Proof using body_at body_small.
  intros Hp Hg. rewrite (sz_small (p + 1)) by (unfold SIZE_MAX; lia).
  rewrite land_mask_64 by (unfold word_ok; lia).
  pose proof (zlen_nonneg body) as Hnn. pose proof body_length as Hl.
  unfold shorten. destruct g.
  - cbn. rewrite sz_small by (unfold SIZE_MAX; specialize (Hg eq_refl); lia). done.
  - cbn. rewrite Z.sub_0_r, sz_small by (unfold SIZE_MAX; lia). by destruct rec.
Qed.

Lemma tls3_unpad_correct block_size : 0 <= block_size < 2 ^ 32 ->
  tls3_cbc_remove_padding mem rec block_size mac_size =
  Some (if zlen body <? 1 + mac_size then (0, rec)
        else unpad (padding_minimal block_size) rec body mac_size).
Proof using body_at body_ok body_small mac_small.
  intros Hbs. unfold tls3_cbc_remove_padding, EVP_MAX_MD_SIZE in *. pose proof (zlen_nonneg body) as Hnn.
  rewrite (sz_small (1 + mac_size)), body_length by (unfold SIZE_MAX; lia).
  destruct (Z.ltb_spec (zlen body) (1 + mac_size)) as [|Hz]; [done|].
  destruct (body_nonempty Hz) as [Hp Hrd]. rewrite body_length in Hrd. rewrite Hrd.
  cbn [mbind option_bind]. unfold unpad. set (p := List.last body 0) in *.
  unfold byte_ok in Hp. rewrite (sz_small (p + (1 + mac_size))), (sz_small (p + 1)) by (unfold SIZE_MAX; lia).
  rewrite !ge_s_spec, land_mask_64 by (unfold word_ok; lia || apply (mask_range 64); lia).
  unfold padding_minimal. replace (p + (1 + mac_size)) with (p + 1 + mac_size) by lia.
  set (g := (p + 1 + mac_size <=? zlen body) && (p + 1 <=? block_size)).
  assert (Hg : (if p + 1 + mac_size <=? zlen body then mask 64 (p + 1 <=? block_size) else 0) = mask 64 g).
  { unfold g. by destruct (p + 1 + mac_size <=? zlen body). }
  rewrite Hg, select_1.
  pose proof (masked_shorten g p Hp) as Hs. rewrite (sz_small (p + 1)) in Hs by (unfold SIZE_MAX; lia).
  rewrite Hs; [by destruct g|]. intros Eg. unfold g in Eg. zify_bools. lia.
Qed.

(** The loop keeps the low byte of [good] as long as the bytes it should match do. *)
Lemma check_step p b i g : byte_ok p -> byte_ok b -> word_ok i ->
  Z.land (Z.land g (sz (Z.lnot (Z.land (constant_time_ge_8_s p i) (Z.lxor p b))))) 255 = 255 <->
  Z.land g 255 = 255 /\ (i <= p -> b = p).
Proof using.
  intros Hp Hb Hi. rewrite land_full. apply and_iff_compat_l.
  unfold constant_time_ge_8_s. rewrite ge_s_spec, u8_mask by (unfold byte_ok, word_ok in *; lia).
  assert (Hx : byte_ok (Z.lxor p b)) by by apply (lxor_range 8).
  rewrite (land_mask 8 eq_refl) by exact Hx.
  set (x := if i <=? p then Z.lxor p b else 0).
  assert (Hx' : byte_ok x) by (unfold x; destruct (i <=? p); [done|unfold byte_ok; lia]).
  unfold byte_ok in Hx'. rewrite land_255. unfold sz. rewrite lnot_word by lia.
  replace ((2 ^ 64 - 1 - x) `mod` 256) with (255 - x) by lia_div.
  unfold x. destruct (Z.leb_spec i p).
  - split.
    + intros E _. assert (Z.lxor p b = 0) as E0 by lia. symmetry. by apply Z.lxor_eq_0_iff.
    + intros E. rewrite E by lia. rewrite Z.lxor_nilpotent. lia.
  - split; lia.
Qed.

Lemma check_loop_spec n : forall p i g, byte_ok p -> 0 <= i -> i + Z.of_nat n <= zlen body ->
  exists g', check_loop mem n i rec p g = Some g' /\
    (Z.land g' 255 = 255 <-> Z.land g 255 = 255 /\
      forall k, i <= k < i + Z.of_nat n -> k <= p -> body !! Z.to_nat (zlen body - 1 - k) = Some p).
Proof using body_at body_ok body_small mac_small.
  induction n as [|n IH]; intros p i g Hp Hi Hn; cbn [check_loop].
  { exists g. split; [done|]. split; [|tauto]. intros E. split; [done|]. lia. }
  destruct (lookup_lt_is_Some_2 body (Z.to_nat (zlen body - 1 - i))) as [b Hb]; [unfold zlen in *; lia|].
  replace (rec_data rec + rec_length rec - 1 - i) with (rec_data rec + (zlen body - 1 - i))
    by (rewrite body_length; lia).
  rewrite (rdn_lookup _ _ _ _ _ body_at), Hb by (rewrite body_length; lia). cbn [mbind option_bind].
  destruct (IH p (i + 1) (Z.land g (sz (Z.lnot (Z.land (constant_time_ge_8_s p i) (Z.lxor p b)))))
              Hp ltac:(lia) ltac:(lia)) as (g' & -> & Hg).
  exists g'. split; [done|]. rewrite Hg, check_step; [|done|by eapply Forall_lookup_1|unfold word_ok; lia].
  split.
  - intros [[Hlow Hthis] Hrest]. split; [done|]. intros k Hk Hkp.
    destruct (Z.eq_dec k i) as [->|]; [rewrite Hb; f_equal; auto|]. apply Hrest; lia.
  - intros [Hlow Hall]. split; [split; [done|]|].
    + intros Hip. specialize (Hall i ltac:(lia) Hip). congruence.
    + intros k Hk Hkp. apply Hall; lia.
Qed.

Lemma padding_equal_spec p : 0 <= p -> p + 1 <= zlen body ->
  padding_equal body p = true <->
  forall k, 0 <= k <= p -> body !! Z.to_nat (zlen body - 1 - k) = Some p.
Proof using.
  intros Hp Hz. unfold padding_equal. rewrite forallb_forall. split.
  - intros Hall k Hk.
    destruct (lookup_lt_is_Some_2 body (Z.to_nat (zlen body - 1 - k))) as [b Hb]; [unfold zlen in *; lia|].
    rewrite Hb. f_equal. symmetry. apply Z.eqb_eq, Hall, list_elem_of_In, list_elem_of_lookup.
    exists (Z.to_nat (p - k)). rewrite lookup_drop, <- Hb. f_equal. lia.
  - intros Hall x Hx%list_elem_of_In%list_elem_of_lookup. destruct Hx as [j Hj].
    rewrite lookup_drop in Hj. pose proof (lookup_lt_Some _ _ _ Hj) as Hlt. apply Z.eqb_eq.
    specialize (Hall (p - Z.of_nat j) ltac:(unfold zlen in *; lia)).
    replace (Z.to_nat (zlen body - 1 - (p - Z.of_nat j))) with (Z.to_nat (zlen body - (p + 1)) + j)%nat in Hall
      by (unfold zlen in *; lia). congruence.
Qed.

Lemma tls1_unpad_correct cipher_flags s block_size :
  tls_USE_EXPLICIT_IV s = false -> has_bits cipher_flags EVP_CIPH_FLAG_AEAD_CIPHER = false ->
  tls1_cbc_remove_padding mem cipher_flags s rec block_size mac_size =
  Some (if zlen body <? 1 + mac_size then (0, rec) else unpad padding_equal rec body mac_size).
Proof using body_at body_ok body_small mac_small.
  intros Hiv Haead. unfold tls1_cbc_remove_padding, EVP_MAX_MD_SIZE in *. rewrite Hiv, Haead. cbv zeta.
  pose proof (zlen_nonneg body) as Hnn.
  rewrite (sz_small (1 + mac_size)), body_length by (unfold SIZE_MAX; lia).
  destruct (Z.ltb_spec (zlen body) (1 + mac_size)) as [|Hz]; [done|].
  destruct (body_nonempty Hz) as [Hp Hrd]. rewrite body_length in Hrd. rewrite Hrd.
  cbn [mbind option_bind]. unfold unpad. set (p := List.last body 0) in *. pose proof Hp as Hp'.
  unfold byte_ok in Hp. rewrite (sz_small (1 + mac_size + p)) by (unfold SIZE_MAX; lia).
  rewrite ge_s_spec by (unfold word_ok; lia).
  set (room := 1 + mac_size + p <=? zlen body).
  destruct (check_loop_spec (Z.to_nat (if zlen body <? 256 then zlen body else 256)) p 0 (mask 64 room)
              Hp' ltac:(lia)) as (g' & -> & Hg).
  { destruct (Z.ltb_spec (zlen body) 256); lia. }
  cbn [mbind option_bind]. rewrite eq_s_spec.
  2:{ unfold word_ok. lia. }
  2:{ rewrite land_255. unfold word_ok. lia_div. }
  assert (E : (255 =? Z.land g' 255) = (p + 1 + mac_size <=? zlen body) && padding_equal body p).
  { apply eq_true_iff_eq. rewrite Z.eqb_eq, andb_true_iff, Z.leb_le.
    transitivity (Z.land g' 255 = 255); [split; congruence|]. rewrite Hg.
    assert (Hroom : Z.land (mask 64 room) 255 = 255 <-> p + 1 + mac_size <= zlen body).
    { unfold room. destruct (Z.leb_spec (1 + mac_size + p) (zlen body)); cbn [mask].
      - rewrite land_255. split; [lia|done].
      - rewrite Z.land_0_l. lia. }
    rewrite Hroom. split; intros [Hr Hall]; (split; [done|]).
    - apply padding_equal_spec; [lia|lia|]. intros k Hk. apply Hall; [|lia].
      destruct (Z.ltb_spec (zlen body) 256); lia.
    - intros k Hk Hkp. apply (proj1 (padding_equal_spec p ltac:(lia) ltac:(lia)) Hall). lia. }
  rewrite E. set (g := (p + 1 + mac_size <=? zlen body) && padding_equal body p).
  rewrite select_1, masked_shorten; [by destruct g|lia|].
  intros Eg. unfold g in Eg. zify_bools. lia.
Qed.

End Unpad.

(** ** The MAC *)

Section CopyMac.
Context {mem : list Z}.
Context (rec : tls3_RECORD) (full : list Z) (md scan : Z) (rotated_mac : Z).
Hypothesis full_at : rdn mem (rec_data rec) (orig_len rec) = Some full.
Hypothesis full_ok : bytes_ok full.
Hypothesis full_small : zlen full < 2 ^ 63.
Hypothesis md_small : 1 <= md <= EVP_MAX_MD_SIZE.
Hypothesis mac_inside : md <= rec_length rec <= zlen full.

Hypothesis scan_first : 0 <= scan <= (rec_length rec - md).
Hypothesis aligned : 0 <= rotated_mac < 64.

(** The position whose byte is gathered at [p], and what is there before position [i]. *)
Definition source (p : Z) : Z := (rec_length rec - md) + (p - ((rec_length rec - md) - scan)) `mod` md.
Definition gathered (i p : Z) : Z :=
  if source p <? i then default 0 (full !! Z.to_nat (source p)) else 0.

Lemma source_range p : (rec_length rec - md) <= source p < rec_length rec.
Proof using md_small. unfold source. pose proof (Z.mod_pos_bound (p - ((rec_length rec - md) - scan)) md). lia. Qed.

Lemma source_at i p : (rec_length rec - md) <= i < rec_length rec -> 0 <= p < md ->
  source p = i <-> p = (i - scan) `mod` md.
Proof using md_small.
  intros Hi Hp. unfold source. split.
  - intros <-. replace ((rec_length rec - md) + (p - ((rec_length rec - md) - scan)) `mod` md - scan)
      with ((p - ((rec_length rec - md) - scan)) `mod` md + ((rec_length rec - md) - scan)) by lia.
    rewrite Zplus_mod_idemp_l. replace (p - ((rec_length rec - md) - scan) + ((rec_length rec - md) - scan)) with p by lia.
    symmetry. by apply Z.mod_small.
  - intros ->. rewrite Zminus_mod_idemp_l.
    replace (i - scan - ((rec_length rec - md) - scan)) with (i - (rec_length rec - md)) by lia.
    rewrite Z.mod_small by lia. lia.
Qed.

(** The state of the loop before position [i]. *)
Definition scanned (i : Z) (a : mac_scan) : Prop :=
  in_mac a = mask 64 (((rec_length rec - md) <? i) && (i <=? rec_length rec)) /\
  rotate_offset a = (if (rec_length rec - md) <? i then ((rec_length rec - md) - scan) `mod` md else 0) /\
  ms_j a = (i - scan) `mod` md /\ zlen (rotated_mac_buf a) = 128 /\
  forall p, 0 <= p < md -> rd (rotated_mac_buf a) (rotated_mac + p) = Some (gathered i p).

Lemma next_j i : scan <= i ->
  Z.land (sz ((i - scan) `mod` md + 1)) (constant_time_lt_s (sz ((i - scan) `mod` md + 1)) md) =
  (i + 1 - scan) `mod` md.
Proof using md_small.
  intros Hi. unfold EVP_MAX_MD_SIZE in *. set (j := (i - scan) `mod` md).
  assert (Hj : 0 <= j < md) by (apply Z.mod_pos_bound; lia).
  rewrite sz_small by (unfold SIZE_MAX; lia).
  rewrite lt_s_spec, Z.land_comm, land_mask_64 by (unfold word_ok; lia).
  replace (i + 1 - scan) with ((i - scan) + 1) by lia.
  rewrite <- Zplus_mod_idemp_l. fold j. destruct (Z.ltb_spec (j + 1) md).
  - symmetry. apply Z.mod_small. lia.
  - replace (j + 1) with md by lia. by rewrite Z.mod_same by lia.
Qed.

Lemma lor_masks m m1 : Z.lor (mask 64 m) (mask 64 m1) = mask 64 (m || m1).
Proof using. by destruct m, m1. Qed.

Lemma land_masks m m1 : Z.land (mask 64 m) (mask 64 m1) = mask 64 (m && m1).
Proof using. by destruct m, m1. Qed.

Lemma gathered_other i p : source p <> i -> gathered (i + 1) p = gathered i p.
Proof using.
  intros Hne. unfold gathered. destruct (Z.ltb_spec (source p) (i + 1)), (Z.ltb_spec (source p) i); done || lia.
Qed.

Lemma gathered_byte i p : byte_ok (gathered i p).
Proof using full_ok.
  unfold gathered. destruct (source p <? i); [|unfold byte_ok; lia].
  destruct (full !! Z.to_nat (source p)) as [b|] eqn:E; [by eapply Forall_lookup_1|unfold byte_ok; simpl; lia].
Qed.

Lemma u8_byte b : byte_ok b -> u8 b = b.
Proof using. apply Z.mod_small. Qed.

(** What one iteration adds to the byte at its place. *)
Lemma gathered_step i b : 0 <= scan <= i -> full !! Z.to_nat i = Some b ->
  let j := (i - scan) `mod` md in
  u8 (Z.lor (gathered i j) (Z.land b (mask 64 (((rec_length rec - md) <=? i) && (i <? rec_length rec))))) =
  gathered (i + 1) j.
Proof using full_ok md_small.
  intros Hi Hb j. unfold EVP_MAX_MD_SIZE in *.
  assert (Hj : 0 <= j < md) by (apply Z.mod_pos_bound; lia).
  assert (Hbyte : byte_ok b) by by eapply Forall_lookup_1.
  rewrite (Z.land_comm b), land_mask_64 by (unfold byte_ok, word_ok in *; lia).
  pose proof (source_range j) as Hsrc.
  destruct (Z.leb_spec (rec_length rec - md) i), (Z.ltb_spec i (rec_length rec)); cbn [andb];
    rewrite ?Z.lor_0_r, ?(u8_byte (gathered _ _)) by apply gathered_byte.
  - assert (Hs : source j = i) by (apply source_at; [lia|done|done]).
    unfold gathered. rewrite Hs, Z.ltb_irrefl, (proj2 (Z.ltb_lt i (i + 1))), Hb by lia.
    by apply u8_byte.
  - symmetry. apply gathered_other. lia.
  - symmetry. apply gathered_other. lia.
  - lia.
Qed.

Lemma scan_step i a b : scan <= i -> full !! Z.to_nat i = Some b -> scanned i a ->
  exists o buf,
    rd (rotated_mac_buf a) (rotated_mac + ms_j a) = Some o /\
    let in_mac' := Z.land (Z.lor (in_mac a) (constant_time_eq_s i (rec_length rec - md)))
                     (constant_time_lt_s i (rec_length rec)) in
    wr (rotated_mac_buf a) (rotated_mac + ms_j a) (u8 (Z.lor o (Z.land b in_mac'))) = Some buf /\
    scanned (i + 1)
      (mk_mac_scan in_mac' (Z.lor (rotate_offset a) (Z.land (ms_j a) (constant_time_eq_s i (rec_length rec - md))))
         (Z.land (sz (ms_j a + 1)) (constant_time_lt_s (sz (ms_j a + 1)) md)) buf).
Proof using full_ok full_small md_small mac_inside scan_first aligned.
  intros Hi Hb (Hin & Hrot & Hj & Hz & Hbuf). unfold EVP_MAX_MD_SIZE in *.
  pose proof (lookup_lt_Some _ _ _ Hb) as Hlt.
  assert (Hi63 : i < 2 ^ 63) by (unfold zlen in *; lia).
  assert (Hj' : 0 <= ms_j a < md) by (rewrite Hj; apply Z.mod_pos_bound; lia).
  rewrite eq_s_spec, lt_s_spec by (unfold word_ok; lia).
  rewrite Hin, lor_masks, land_masks.
  assert (Em : (((rec_length rec - md) <? i) && (i <=? rec_length rec) || (i =? (rec_length rec - md))) && (i <? rec_length rec)
               = ((rec_length rec - md) <=? i) && (i <? rec_length rec)).
  { destruct (Z.ltb_spec (rec_length rec - md) i), (Z.leb_spec i (rec_length rec)), (Z.eqb_spec i (rec_length rec - md)),
      (Z.ltb_spec i (rec_length rec)), (Z.leb_spec (rec_length rec - md) i); done || lia. }
  rewrite Em.
  exists (gathered i (ms_j a)), (<[Z.to_nat (rotated_mac + ms_j a) := gathered (i + 1) (ms_j a)]> (rotated_mac_buf a)).
  split; [by apply Hbuf|]. cbv zeta. rewrite Hj at 2. rewrite gathered_step, <- Hj by (done || lia).
  split; [by rewrite wr_spec by lia|]. split; [|split; [|split; [|split]]]; cbn.
  - f_equal. destruct (Z.leb_spec (rec_length rec - md) i), (Z.ltb_spec i (rec_length rec)),
      (Z.ltb_spec (rec_length rec - md) (i + 1)), (Z.leb_spec (i + 1) (rec_length rec)); done || lia.
  - rewrite Hrot, Z.land_comm, land_mask_64 by (unfold word_ok; lia).
    destruct (Z.eqb_spec i (rec_length rec - md)) as [E|E].
    + rewrite E in *. rewrite Z.ltb_irrefl, (proj2 (Z.ltb_lt _ ((rec_length rec - md) + 1))), Z.lor_0_l by lia. done.
    + rewrite Z.lor_0_r. destruct (Z.ltb_spec (rec_length rec - md) i), (Z.ltb_spec (rec_length rec - md) (i + 1)); done || lia.
  - rewrite Hj. by apply next_j.
  - unfold zlen in *. by rewrite length_insert.
  - intros p Hp. unfold rd. rewrite (proj2 (Z.ltb_ge _ _)) by lia.
    destruct (Z.eq_dec p (ms_j a)) as [->|Hne].
    + rewrite list_lookup_insert_eq by (unfold zlen in *; lia). done.
    + rewrite list_lookup_insert_ne by lia. specialize (Hbuf p Hp). unfold rd in Hbuf.
      rewrite (proj2 (Z.ltb_ge _ _)) in Hbuf by lia. rewrite Hbuf. f_equal. symmetry.
      apply gathered_other. intros Hs. destruct (source_range p) as [Hlo Hhi].
      apply source_at in Hs; [|lia|done]. apply Hne. congruence.
Qed.

Lemma scan_loop_spec n : forall i a, scan <= i -> i + Z.of_nat n = zlen full -> scanned i a ->
  exists a', scan_loop mem n i rec md (rec_length rec - md) (rec_length rec) rotated_mac a = Some a' /\
    scanned (zlen full) a'.
Proof using full_at full_ok full_small md_small mac_inside scan_first aligned.
  induction n as [|n IH]; intros i a Hi Hn Ha; cbn [scan_loop].
  { exists a. split; [done|]. by replace (zlen full) with i by lia. }
  destruct (lookup_lt_is_Some_2 full (Z.to_nat i)) as [b Hb]; [unfold zlen in *; lia|].
  rewrite (rdn_lookup _ _ _ _ _ full_at), Hb by (pose proof (rdn_zlen _ _ _ _ full_at); lia).
  cbn [mbind option_bind]. destruct (scan_step i a b Hi Hb Ha) as (o & buf & -> & Hw & Hnext).
  cbn [mbind option_bind]. cbv zeta in Hw. rewrite Hw. cbn [mbind option_bind].
  apply IH; [lia|lia|done].
Qed.

(** The bytes of the MAC. *)
Definition mac_bytes : list Z := take (Z.to_nat md) (drop (Z.to_nat (rec_length rec - md)) full).

Lemma xor_32 r : 0 <= r < 64 -> 0 <= Z.lxor r 32 < 64.
Proof using. intros Hr. by apply (lxor_range 6). Qed.

Lemma rotate_loop_spec n : forall t buf done_ out,
  zlen buf = 128 ->
  (forall p, 0 <= p < md -> rd buf (rotated_mac + p) = Some (gathered (zlen full) p)) ->
  0 <= t -> t + Z.of_nat n = md -> (n <= length out)%nat -> zlen done_ = t ->
  rotate_loop n t md rotated_mac (((rec_length rec - md) - scan + t) `mod` md) buf (done_ ++ out) =
  Some (done_ ++ drop (Z.to_nat t) mac_bytes ++ drop n out).
Proof using full_small md_small mac_inside scan_first aligned.
  unfold EVP_MAX_MD_SIZE in *.
  induction n as [|n IH]; intros t buf done_ out Hz Hall Ht Hn Hout Hdone; cbn [rotate_loop].
  { rewrite (drop_ge mac_bytes); [done|]. unfold mac_bytes. rewrite length_take. lia. }
  set (r := ((rec_length rec - md) - scan + t) `mod` md).
  assert (Hr : 0 <= r < md) by (apply Z.mod_pos_bound; lia).
  pose proof (xor_32 r ltac:(lia)) as Hx.
  destruct (rd_in buf (rotated_mac + Z.lxor r 32) ltac:(lia)) as [v ->]. cbn [mbind option_bind].
  rewrite Hall by done. cbn [mbind option_bind].
  assert (Hsrc : source r = (rec_length rec - md) + t).
  { apply source_at; [lia|done|]. unfold r. f_equal. lia. }
  assert (Hg : exists b, full !! Z.to_nat ((rec_length rec - md) + t) = Some b).
  { apply lookup_lt_is_Some_2. unfold zlen in *. lia. }
  destruct Hg as [b Hb]. unfold gathered. rewrite Hsrc, (proj2 (Z.ltb_lt _ _)), Hb by lia. cbn [default].
  destruct out as [|o out]; [simpl in Hout; lia|].
  rewrite <- Hdone, wr_middle. cbn [mbind option_bind]. rewrite Hdone, snoc_cons.
  pose proof (next_j ((rec_length rec - md) + t) ltac:(lia)) as Hnj.
  replace ((rec_length rec - md) + t - scan) with ((rec_length rec - md) - scan + t) in Hnj by lia. fold r in Hnj.
  replace ((rec_length rec - md) + t + 1 - scan) with ((rec_length rec - md) - scan + (t + 1)) in Hnj by lia. rewrite Hnj.
  rewrite IH; try (rewrite ?zlen_app; unfold zlen in *; simpl in *; lia || done).
  rewrite <- app_assoc. f_equal. cbn [app drop].
  replace (Z.to_nat (t + 1)) with (S (Z.to_nat t)) by lia.
  rewrite (drop_S mac_bytes b (Z.to_nat t)); [done|].
  unfold mac_bytes. rewrite lookup_take_lt, lookup_drop by lia. rewrite <- Hb. f_equal. lia.
Qed.

End CopyMac.

Lemma align_range x : 0 <= Z.land x 63 < 64.
Proof.
  change 63 with (Z.ones 6). rewrite Z.land_ones by lia. apply Z.mod_pos_bound. lia.
Qed.

Lemma copy_mac_spec mem addr buf out rec md full :
  rdn mem (rec_data rec) (orig_len rec) = Some full -> bytes_ok full -> zlen full < 2 ^ 63 ->
  zlen buf = 128 -> 1 <= md <= EVP_MAX_MD_SIZE ->
  md <= rec_length rec <= zlen full -> zlen full - rec_length rec <= 256 -> md <= zlen out ->
  tls3_cbc_copy_mac mem addr buf out rec md =
  Some (true, mac_bytes rec full md ++ drop (Z.to_nat md) out).
Proof.
  intros Hfull Hok Hsmall Hbuf Hmd Hin Hfar Hout. unfold tls3_cbc_copy_mac, EVP_MAX_MD_SIZE in *.
  rewrite <- (rdn_zlen _ _ _ _ Hfull).
  rewrite (proj2 (Z.leb_le md (zlen full))), (proj2 (Z.leb_le md 64)) by lia. cbn [negb andb].
  rewrite !(sz_small (md + 255)), !(sz_small (md + 255 + 1)), (sz_small (rec_length rec - md))
    by (unfold SIZE_MAX; lia).
  set (scan := if md + 255 + 1 <? zlen full then _ else 0).
  assert (Hscan : 0 <= scan <= rec_length rec - md /\ (scan = 0 \/ scan = zlen full - (md + 256))).
  { unfold scan. destruct (Z.ltb_spec (md + 255 + 1) (zlen full)); [|lia].
    rewrite sz_small by (unfold SIZE_MAX; lia). lia. }
  destruct Hscan as [Hscan _]. clearbody scan.
  set (rotated_mac := Z.land (sz (0 - addr)) 63).
  assert (Hal : 0 <= rotated_mac < 64) by apply align_range. clearbody rotated_mac.
  unfold wrn. rewrite zlen_replicate, bool_decide_true by lia. cbn [mbind option_bind].
  rewrite length_replicate. set (buf' := take _ _ ++ _).
  assert (Hbuf' : zlen buf' = 128).
  { unfold buf'. rewrite !zlen_app, zlen_replicate. unfold zlen in *. rewrite length_take, length_drop. lia. }
  assert (Hzero : forall p, 0 <= p < md -> rd buf' (rotated_mac + p) = Some 0).
  { intros p Hp. unfold rd, buf'. rewrite (proj2 (Z.ltb_ge _ _)) by lia.
    assert (Hl : length (take (Z.to_nat rotated_mac) buf) = Z.to_nat rotated_mac)
      by (rewrite length_take; unfold zlen in *; lia).
    rewrite lookup_app_r, Hl by lia. rewrite lookup_app_l by (rewrite length_replicate; lia).
    rewrite lookup_replicate_2 by lia. done. }
  destruct (scan_loop_spec rec full md scan rotated_mac Hfull Hok Hsmall Hmd Hin Hscan Hal
              (Z.to_nat (zlen full - scan)) scan (mk_mac_scan 0 0 0 buf')) as (a & -> & Ha).
  { lia. }
  { lia. }
  { split; cbn; [|split; [|split; [|split]]].
    - by rewrite (proj2 (Z.ltb_ge _ _)) by lia.
    - by rewrite (proj2 (Z.ltb_ge _ _)) by lia.
    - by rewrite Z.sub_diag, Z.mod_0_l by lia.
    - done.
    - intros p Hp. rewrite Hzero by done. unfold gathered.
      pose proof (source_range rec md scan Hmd p). by rewrite (proj2 (Z.ltb_ge _ _)) by lia. }
  cbn [mbind option_bind]. destruct Ha as (_ & Hrot & _ & Hz & Hall).
  rewrite Hrot, (proj2 (Z.ltb_lt _ _)) by lia.
  pose proof (rotate_loop_spec rec full md scan rotated_mac Hsmall Hmd Hin Hscan Hal (Z.to_nat md) 0
                (rotated_mac_buf a) [] out Hz Hall) as Hloop.
  rewrite Z.add_0_r in Hloop. cbn [app] in Hloop. rewrite Hloop; [|lia|lia|unfold zlen in *; lia|done].
  done.
Qed.

(** ** Properties *)

(** The explicit IV that precedes the content, from TLS 1.1 on. *)
Definition iv_length (s : tls) (block_size : Z) : Z := if tls_USE_EXPLICIT_IV s then block_size else 0.

Definition skip_iv (rec : tls3_RECORD) (iv : Z) : tls3_RECORD :=
  mk_tls3_RECORD (rec_length rec - iv) (orig_len rec - iv) (rec_data rec + iv) (input rec + iv).

Lemma rdn_skip mem o n full iv : rdn mem o n = Some full -> 0 <= iv <= n ->
  rdn mem (o + iv) (n - iv) = Some (drop (Z.to_nat iv) full).
Proof.
  intros (Ho & Hn & Hend & ->)%rdn_Some Hiv. rewrite rdn_spec by lia. f_equal.
  rewrite skipn_firstn_comm, drop_drop. f_equal; [lia|]. f_equal. lia.
Qed.

(** The explicit IV is skipped, then all goes as without one. *)
Lemma tls1_skip_iv mem cipher_flags s s0 rec block_size mac_size :
  tls_USE_EXPLICIT_IV s0 = false -> 0 <= mac_size <= EVP_MAX_MD_SIZE -> 0 <= block_size < 2 ^ 32 ->
  let iv := iv_length s block_size in
  1 + mac_size + iv <= rec_length rec < 2 ^ 63 -> rec_length rec <= orig_len rec < 2 ^ 63 ->
  tls1_cbc_remove_padding mem cipher_flags s rec block_size mac_size =
  tls1_cbc_remove_padding mem cipher_flags s0 (skip_iv rec iv) block_size mac_size.
Proof.
  intros Hs0 Hmac Hbs iv Hlen Horig. unfold tls1_cbc_remove_padding, EVP_MAX_MD_SIZE in *.
  rewrite Hs0. cbv zeta. unfold iv, iv_length in *. rewrite (sz_small (1 + mac_size)) by (unfold SIZE_MAX; lia).
  assert (Hlow : (rec_length (skip_iv rec (if tls_USE_EXPLICIT_IV s then block_size else 0)) <? 1 + mac_size) = false).
  { apply Z.ltb_ge. unfold skip_iv. cbn [rec_length]. lia. }
  rewrite Hlow. destruct (tls_USE_EXPLICIT_IV s).
  - rewrite (sz_small (1 + mac_size + block_size)), (proj2 (Z.ltb_ge _ _)) by (unfold SIZE_MAX; lia).
    match goal with |- context [rec <| rec_data ::= ?f |> <| input ::= ?g |> <| rec_length ::= ?h |> <| orig_len ::= ?k |>] =>
      replace (rec <| rec_data ::= f |> <| input ::= g |> <| rec_length ::= h |> <| orig_len ::= k |>)
        with (skip_iv rec block_size) end; [done|].
    unfold skip_iv. cbn. by rewrite !sz_small by (unfold SIZE_MAX; lia).
  - rewrite (proj2 (Z.ltb_ge _ _)) by lia. unfold skip_iv. rewrite !Z.sub_0_r, !Z.add_0_r. by destruct rec.
Qed.

(** C13: the padding of a CBC record is removed as by code that branches: a record
    too short for an explicit IV, a MAC and a length byte is refused with 0; otherwise
    the IV is skipped, the result is 1 and the record loses padding and length byte
    when there is room for them and the MAC and they are well formed (TLS: all
    bytes equal; SSL 3, which has no IV: at most a block), and it is -1 and the
    length is unchanged when not. *)
Theorem cbc_padding_equivalent mem rec full mac_size block_size cipher_flags s :
  rdn mem (rec_data rec) (rec_length rec) = Some full -> bytes_ok full -> zlen full < 2 ^ 63 ->
  rec_length rec <= orig_len rec < 2 ^ 63 ->
  0 <= mac_size <= EVP_MAX_MD_SIZE -> 0 <= block_size < 2 ^ 32 ->
  has_bits cipher_flags EVP_CIPH_FLAG_AEAD_CIPHER = false ->
  let iv := iv_length s block_size in
  tls3_cbc_remove_padding mem rec block_size mac_size =
    Some (if zlen full <? 1 + mac_size then (0, rec)
          else unpad (padding_minimal block_size) rec full mac_size) /\
  tls1_cbc_remove_padding mem cipher_flags s rec block_size mac_size =
    Some (if zlen full <? 1 + mac_size + iv then (0, rec)
          else unpad padding_equal (skip_iv rec iv) (drop (Z.to_nat iv) full) mac_size).
Proof.
  intros Hfull Hok Hsmall Horig Hmac Hbs Haead iv. split; [by apply tls3_unpad_correct|].
  pose proof (rdn_zlen _ _ _ _ Hfull) as Hz. unfold EVP_MAX_MD_SIZE in *.
  assert (Hiv : 0 <= iv <= block_size) by (unfold iv, iv_length; case_if; lia).
  destruct (Z.ltb_spec (zlen full) (1 + mac_size + iv)) as [Hshort|Hlong].
  - unfold tls1_cbc_remove_padding, iv, iv_length in *.
    destruct (tls_USE_EXPLICIT_IV s); rewrite !sz_small by (unfold SIZE_MAX; rewrite ?sz_small; unfold SIZE_MAX; lia);
      by rewrite (proj2 (Z.ltb_lt _ _)) by lia.
  - set (s0 := s <| enc_flags := 0 |>).
    rewrite (tls1_skip_iv mem cipher_flags s s0) by (done || unfold EVP_MAX_MD_SIZE; fold iv; lia). fold iv.
    assert (Hbody : rdn mem (rec_data (skip_iv rec iv)) (rec_length (skip_iv rec iv)) = Some (drop (Z.to_nat iv) full)).
    { apply rdn_skip; [done|lia]. }
    assert (Hzb : zlen (drop (Z.to_nat iv) full) = zlen full - iv) by (apply zlen_drop; lia).
    rewrite (tls1_unpad_correct (skip_iv rec iv) _ mac_size Hbody) by (done || (by apply Forall_drop) || unfold EVP_MAX_MD_SIZE; lia).
    by rewrite (proj2 (Z.ltb_ge _ _)) by lia.
Qed.

(** The MAC of a CBC record is copied out as by code that knows where it is: the
    last [md_size] bytes of the record, wherever in the last 256 bytes the
    record's end is and wherever the scratch buffer lies. *)
Theorem cbc_mac_equivalent mem addr buf out rec md_size full :
  rdn mem (rec_data rec) (orig_len rec) = Some full -> bytes_ok full -> zlen full < 2 ^ 63 ->
  zlen buf = 64 + EVP_MAX_MD_SIZE -> 1 <= md_size <= EVP_MAX_MD_SIZE ->
  md_size <= rec_length rec <= zlen full -> zlen full - rec_length rec <= 256 -> md_size <= zlen out ->
  tls3_cbc_copy_mac mem addr buf out rec md_size =
    Some (true, take (Z.to_nat md_size) (drop (Z.to_nat (rec_length rec - md_size)) full)
                ++ drop (Z.to_nat md_size) out).
Proof. intros. by apply copy_mac_spec. Qed.

(** C12: a TLS record of a CBC cipher opens to what was put into it.  When the decrypted bytes
    are an explicit IV (from TLS 1.1 on), a content, its MAC and well-formed padding,
    removing the padding succeeds and leaves content and MAC, and copying the MAC out
    of what is left gives the MAC. *)
Theorem cbc_record_opens mem addr buf out rec iv content mac p cipher_flags s :
  let full := iv ++ content ++ mac ++ replicate (S p) (Z.of_nat p) in
  rdn mem (rec_data rec) (rec_length rec) = Some full -> orig_len rec = rec_length rec ->
  bytes_ok full -> zlen full < 2 ^ 63 -> (p < 256)%nat -> 1 <= zlen mac <= EVP_MAX_MD_SIZE ->
  zlen buf = 64 + EVP_MAX_MD_SIZE -> zlen out = zlen mac ->
  forall block_size, 0 <= block_size < 2 ^ 32 -> zlen iv = iv_length s block_size ->
  has_bits cipher_flags EVP_CIPH_FLAG_AEAD_CIPHER = false ->
  exists rec', tls1_cbc_remove_padding mem cipher_flags s rec block_size (zlen mac) = Some (1, rec') /\
    rdn mem (rec_data rec') (rec_length rec' - zlen mac) = Some content /\
    tls3_cbc_copy_mac mem addr buf out rec' (zlen mac) = Some (true, mac).
Proof.
  intros full Hfull Horig Hok Hsmall Hp Hmac Hbuf Hout block_size Hbs Hiv Haead.
  unfold EVP_MAX_MD_SIZE in *.
  assert (Hz : zlen full = zlen iv + zlen content + zlen mac + Z.of_nat p + 1).
  { unfold full. rewrite !zlen_app, zlen_replicate. lia. }
  pose proof (zlen_nonneg content) as Hc. pose proof (zlen_nonneg iv) as Hnn.
  pose proof (rdn_zlen _ _ _ _ Hfull) as Hl.
  set (s0 := s <| enc_flags := 0 |>).
  rewrite (tls1_skip_iv mem cipher_flags s s0) by (done || unfold EVP_MAX_MD_SIZE; lia).
  rewrite <- Hiv. set (rec1 := skip_iv rec (zlen iv)).
  set (body := content ++ mac ++ replicate (S p) (Z.of_nat p)).
  assert (Hbody : rdn mem (rec_data rec1) (rec_length rec1) = Some body).
  { replace body with (drop (Z.to_nat (zlen iv)) full); [apply rdn_skip; [done|lia]|].
    unfold full, zlen. by rewrite Nat2Z.id, drop_app_length. }
  assert (Hbok : bytes_ok body) by by apply bytes_ok_app in Hok as [_ ?].
  assert (Hzb : zlen body = zlen content + zlen mac + Z.of_nat p + 1).
  { unfold body. rewrite !zlen_app, zlen_replicate. lia. }
  assert (Hlast : List.last body 0 = Z.of_nat p).
  { unfold body. rewrite app_assoc, replicate_S_end, app_assoc. apply last_last. }
  assert (Hpad : padding_equal body (Z.of_nat p) = true).
  { unfold padding_equal. rewrite Hzb.
    replace (Z.to_nat _) with (length (content ++ mac)) by (rewrite length_app; unfold zlen in *; lia).
    unfold body. rewrite app_assoc, drop_app_length. apply forallb_forall. intros x Hx.
    apply list_elem_of_In, elem_of_replicate in Hx as [-> _]. apply Z.eqb_refl. }
  rewrite (tls1_unpad_correct rec1 body (zlen mac) Hbody Hbok) by (done || unfold EVP_MAX_MD_SIZE; lia).
  rewrite (proj2 (Z.ltb_ge _ _)) by lia. unfold unpad.
  rewrite Hlast, Hpad, (proj2 (Z.leb_le _ _)) by lia. cbn [andb].
  pose proof (rdn_zlen _ _ _ _ Hbody) as Hl1.
  set (rec' := shorten rec1 (Z.of_nat p + 1)). exists rec'. split; [done|].
  assert (Hl' : rec_length rec' = zlen content + zlen mac) by (unfold rec', shorten; cbn [rec_length update]; lia).
  split.
  - rewrite Hl'. replace (zlen content + zlen mac - zlen mac) with (zlen content) by lia.
    apply rdn_Some in Hbody as (Ho & Hn & Hend & Ebody). change (rec_data rec') with (rec_data rec1).
    rewrite rdn_spec by lia. f_equal.
    replace (Z.to_nat (zlen content)) with (Nat.min (Z.to_nat (zlen content)) (Z.to_nat (rec_length rec1))) by lia.
    rewrite <- take_take, <- Ebody. unfold body, zlen. by rewrite Nat2Z.id, take_app_length.
  - rewrite (copy_mac_spec mem addr buf out rec' (zlen mac) body);
      try (rewrite ?Hl'; unfold EVP_MAX_MD_SIZE; done || lia).
    + rewrite (drop_ge out), app_nil_r by (unfold zlen in *; lia). f_equal. f_equal. unfold mac_bytes.
      rewrite Hl'. replace (zlen content + zlen mac - zlen mac) with (zlen content) by lia.
      unfold body, zlen. by rewrite !Nat2Z.id, drop_app_length, take_app_length.
    + change (orig_len rec') with (orig_len rec - zlen iv). rewrite Horig. exact Hbody.
Qed.

(** ** Early data *)

(** The records of lengths [ls] counted one after another, until one is refused. *)
Fixpoint count_records (s : tls) (ls : list Z) (overhead : Z) (send : bool) : bool * tls :=
  match ls with
  | [] => (true, s)
  | l :: ls =>
      let '(ok, s) := early_data_count_ok s l overhead send in
      if ok then count_records s ls overhead send else (false, s)
  end.

Lemma limit_of_count s c :
  early_data_limit (s <| conf .: early_data_count := c |>) = early_data_limit s.
Proof. done. Qed.

Lemma sum_nonneg ls : Forall (fun l => 0 <= l) ls -> 0 <= fold_right Z.add 0 ls.
Proof. induction 1; simpl; lia. Qed.

(** Early data are bounded.  With a limit of [max] bytes, and an overhead that does
    not make it wrap, a sequence of records is counted exactly when the limit is not
    0 and all of them together fit; the count is then their sum, without
    overflow, and nothing else has changed.  Otherwise some record is refused. *)
Theorem early_data_bounded s ls overhead send max :
  early_data_limit s = Some max -> 0 <= max -> 0 <= overhead -> max + overhead < 2 ^ 32 ->
  0 <= early_data_count (conf s) <= max + overhead -> Forall (fun l => 0 <= l < 2 ^ 32) ls ->
  let total := early_data_count (conf s) + fold_right Z.add 0 ls in
  if (ls == []) || (negb (max =? 0) && (total <=? max + overhead))
  then count_records s ls overhead send = (true, s <| conf .: early_data_count := total |>)
  else fst (count_records s ls overhead send) = false.
Proof.
  intros Hlim Hmax Ho Hw. revert s Hlim. induction ls as [|l ls IH]; intros s Hlim Hc Hls total.
  { cbn. unfold total. cbn. rewrite Z.add_0_r. destruct s as []. cbn. repeat f_equal. by destruct conf. }
  apply Forall_cons_1 in Hls as [Hl Hls].
  assert (Hnn : 0 <= fold_right Z.add 0 ls).
  { apply sum_nonneg. eapply Forall_impl; [|exact Hls]. intros; simpl in *; lia. }
  rewrite (bool_decide_false (l :: ls = [])) by done. cbn [orb].
  cbn [count_records]. unfold early_data_count_ok. rewrite Hlim.
  destruct (Z.eqb_spec max 0) as [->|Hne]; cbn [negb andb]; [done|].
  unfold u32, sz. rewrite (Z.mod_small (max + overhead)), (Z.mod_small (early_data_count (conf s) + l)) by lia.
  destruct (Z.ltb_spec (max + overhead) (early_data_count (conf s) + l)) as [Hbig|Hfit].
  { rewrite (proj2 (Z.leb_gt _ _)); [done|]. unfold total. simpl. lia. }
  rewrite (Z.mod_small (early_data_count (conf s) + l)) by lia.
  set (s1 := s <| conf .: early_data_count := early_data_count (conf s) + l |>).
  specialize (IH s1 Hlim ltac:(simpl; lia) Hls). cbv zeta in IH.
  replace (early_data_count (conf s1) + fold_right Z.add 0 ls) with total in IH by (unfold total; simpl; lia).
  destruct (Z.leb_spec total (max + overhead)) as [Ht|Ht].
  - rewrite orb_comm in IH. cbn [negb andb orb] in IH. by rewrite IH.
  - rewrite andb_false_r, orb_false_r in IH. destruct ls as [|l' ls]; [|by apply IH].
    unfold total in Ht. simpl in Ht. lia.
Qed.

(** The limit wraps.  When limit and overhead together do not fit into 32 bits, a record
    is refused as soon as the count passes what is left after the wrap-around,
    which is less than the overhead: a server that accepts any amount of early data
    refuses the first one of more than 103 bytes that it has to skip. *)
Theorem early_data_limit_wraps s l overhead send max :
  early_data_limit s = Some max -> 0 <= max < 2 ^ 32 -> 0 <= overhead < 2 ^ 32 ->
  2 ^ 32 <= max + overhead -> 0 <= early_data_count (conf s) < 2 ^ 32 -> 0 <= l < 2 ^ 32 ->
  max + overhead - 2 ^ 32 < early_data_count (conf s) + l ->
  fst (early_data_count_ok s l overhead send) = false.
Proof.
  intros Hlim Hm Ho Hw Hc Hl Hbig. unfold early_data_count_ok. rewrite Hlim.
  rewrite (proj2 (Z.eqb_neq _ _)) by lia.
  assert (E : u32 (max + overhead) = max + overhead - 2 ^ 32) by (unfold u32; lia_div).
  rewrite E, (proj2 (Z.ltb_lt _ _)); [done|]. unfold sz. rewrite Z.mod_small; lia.
Qed.

(** ** Witnesses *)

(** A record at offset 1 of a block: a content, a MAC of two bytes and two bytes of
    padding; and the scratch buffer. *)
Definition record_block : list Z := [9; 65; 66; 67; 40; 41; 1; 1; 9].
Definition sample_record : tls3_RECORD := mk_tls3_RECORD 7 7 1 1.
Definition scratch : list Z := replicate 128 0.

(** A connection without explicit IVs. *)
Definition tls10 : tls := sample12 true TLS_ST_OK.

Lemma cbc_padding_equivalent_witness :
  tls1_cbc_remove_padding record_block 0 tls10 sample_record 8 2 = Some (1, mk_tls3_RECORD 5 7 1 1).
Proof.
  refine (eq_trans (proj2 (cbc_padding_equivalent record_block sample_record [65; 66; 67; 40; 41; 1; 1] 2 8 0
            tls10 eq_refl _ eq_refl _ _ _ eq_refl)) eq_refl); try (split; reflexivity || done).
  repeat constructor; done.
Defined.

Lemma cbc_mac_equivalent_witness :
  tls3_cbc_copy_mac record_block 77 scratch [0; 0] (mk_tls3_RECORD 5 7 1 1) 2 = Some (true, [40; 41]).
Proof.
  apply (cbc_mac_equivalent record_block 77 scratch [0; 0] (mk_tls3_RECORD 5 7 1 1) 2
           [65; 66; 67; 40; 41; 1; 1]); try reflexivity; try (split; reflexivity || lia || done); try done.
  repeat constructor; done.
Defined.

Lemma cbc_record_opens_witness :
  exists rec', tls1_cbc_remove_padding record_block 0 tls10 sample_record 8 2 = Some (1, rec') /\
    tls3_cbc_copy_mac record_block 5 scratch [0; 0] rec' 2 = Some (true, [40; 41]).
Proof.
  destruct (cbc_record_opens record_block 5 scratch [0; 0] sample_record [] [65; 66; 67] [40; 41] 1 0 tls10)
    with (block_size := 8) as (rec' & H1 & _ & H2); try reflexivity; try (split; reflexivity || lia || done);
    try lia; [repeat constructor; done|].
  by exists rec'.
Defined.

Lemma early_data_bounded_witness :
  count_records tls10 [100; 16000; 284] 0 false =
  (true, tls10 <| conf .: early_data_count := 16384 |>).
Proof.
  apply (early_data_bounded tls10 [100; 16000; 284] 0 false 16384); try reflexivity; try (split; done); try done.
  repeat constructor; done.
Defined.

Lemma early_data_limit_wraps_witness :
  fst (early_data_count_ok (tls10 <| conf .: recv_max_early_data := 0xffffffff |>) 104
         EARLY_DATA_CIPHERTEXT_OVERHEAD false) = false.
Proof.
  apply (early_data_limit_wraps (tls10 <| conf .: recv_max_early_data := 0xffffffff |>) 104
           EARLY_DATA_CIPHERTEXT_OVERHEAD false 0xffffffff); reflexivity || (split; done) || done.
Defined.
