(* ===== verification/Negotiation.v ===== *)
(** * Properties of version negotiation

    The versions that [tls_get_min_max_version] finds are the lowest unbroken run
    of usable ones; a server chooses the highest version both sides may use; a client
    takes only a version of its run; and a client notices when somebody between
    the two talked them into a lower version than both support. *)

From S2P Require Import Prelude Mem Packet Buffer WPacket Wire TlsState Protocol StatemLib StatemClnt StatemSrvr Statem Sample Handshake Flights Machine Extensions Version.
From stdpp Require Import list sorting.
Local Open Scope Z_scope.
Local Open Scope tls_scope.

Lemma Forall_last_elem {A} (P : A -> Prop) l x : Forall P l -> last l = Some x -> P x.
Proof. intros H [l' ->]%last_Some. apply Forall_app in H as [_ H]. by inversion H. Qed.

(** ** Versions that may be used *)

Section Usable.
Context `{Callouts}.

(** The entry is part of the build and its client's method may be used. *)
Definition usable (s : tls) (vent : version_info) : Prop :=
  exists cm, cmeth vent = Some cm /\ tls_method_error s cm = 0.

(** The entry is part of the build. *)
Definition compiled (vent : version_info) : Prop := is_Some (cmeth vent).

#[export] Instance usable_dec s vent : Decision (usable s vent).
Proof.
  refine (match cmeth vent as o return cmeth vent = o -> _ with
          | Some cm => fun E => cast_if (decide (tls_method_error s cm = 0))
          | None => fun E => right _
          end eq_refl).
  - by exists cm.
  - intros (cm' & E' & Hn). congruence.
  - intros (cm & E' & _). congruence.
Defined.

#[export] Instance compiled_dec vent : Decision (compiled vent).
Proof. unfold compiled. apply _. Defined.

(** The methods of an entry have its version, which is not 0. *)
Definition entry_ok (vent : version_info) : Prop :=
  v_version vent <> 0 /\
  (forall m, cmeth vent = Some m \/ smeth vent = Some m -> m_version m = v_version vent).

Lemma table_entries mv table : table_of mv = Some table -> Forall entry_ok table.
Proof.
  unfold table_of, tls_version_table, dtls_version_table, version_entry, entry_ok. intros E.
  repeat case_if_in E; try done; injection E as <-;
    repeat constructor; repeat case_if; simpl; try done; intros m [[= <-]|[= <-]]; done.
Qed.

(** *** The lowest run of usable versions *)

(** [table] is [pre ++ top ++ run ++ post]: [run] are the lowest usable versions
    that follow one another, [post] those below, none of them usable; the version
    right above [run] is not usable; [top ++ run] starts after the last version
    above that is not part of the build. *)
Record lowest_run (s : tls) (table pre top run post : list version_info) : Prop := {
  run_split : table = pre ++ top ++ run ++ post;
  run_usable : Forall (usable s) run;
  run_below : Forall (fun v => ~ usable s v) post;
  run_above : forall v, last (pre ++ top) = Some v -> ~ usable s v;
  run_top : Forall compiled top;
  run_hole : forall v, last pre = Some v -> ~ compiled v
}.

(** What [tmp_real_max] is after the entries [seen]: the highest version of the
    unbroken run of compiled versions that [seen] ends with. *)
Definition compiled_top (seen : list version_info) (tmp : Z) : Prop :=
  exists u c, seen = u ++ c /\ Forall compiled c /\ (forall v, last u = Some v -> ~ compiled v) /\
    tmp = match c with [] => 0 | v :: _ => v_version v end.

(** What the variables of the loop mean after the entries [seen]. *)
Definition min_max_inv (s : tls) (seen : list version_info) (a : min_max) : Prop :=
  compiled_top seen (mm_tmp_real_max a) /\
  ((Forall (fun v => ~ usable s v) seen /\ mm_min a = 0 /\ mm_version a = 0 /\
    mm_real_max a = 0 /\ mm_hole a = true) \/
   exists pre top run post first_ last_,
     lowest_run s seen pre top run post /\
     head run = Some first_ /\ last run = Some last_ /\
     mm_min a = v_version last_ /\ mm_version a = v_version first_ /\
     (exists v, head (top ++ run) = Some v /\ mm_real_max a = v_version v) /\
     mm_hole a = bool_decide (post <> [])).

Lemma usable_compiled s v : usable s v -> compiled v.
Proof. intros (cm & E & _). by exists cm. Qed.

(** An entry that is not usable. *)
Lemma min_max_off s seen a vent tmp :
  ~ usable s vent -> min_max_inv s seen a ->
  compiled_top (seen ++ [vent]) tmp ->
  min_max_inv s (seen ++ [vent])
    (mk_min_max (mm_min a) (mm_version a) (mm_real_max a) true tmp).
Proof.
  intros Hoff [_ Hinv] Htmp. split; [exact Htmp|]. simpl.
  destruct Hinv as [(Hall & ? & ? & ? & ?)|(pre & top & run & post & f & l & Hr & Hrest)].
  - left. split; [|done]. apply Forall_app. by repeat constructor.
  - right. exists pre, top, run, (post ++ [vent]), f, l.
    destruct Hr as [-> ? ? ? ? ?]. split.
    + split; try done; [by rewrite !app_assoc|]. apply Forall_app. by repeat constructor.
    + destruct Hrest as (? & ? & ? & ? & ? & _). repeat (split; [done|]).
      by rewrite bool_decide_true by by destruct post.
Qed.

Lemma compiled_top_step s seen a vent :
  compiled vent -> Forall entry_ok seen -> min_max_inv s seen a ->
  compiled_top (seen ++ [vent])
    (if mm_hole a && (mm_tmp_real_max a =? 0) then v_version vent else mm_tmp_real_max a).
Proof.
  intros Hcomp Hseen [(u & c & Hs & Hc & Hu & Htmp) Hrun].
  exists u, (c ++ [vent]). rewrite Hs, app_assoc. split; [done|].
  split; [apply Forall_app; by repeat constructor|]. split; [done|].
  rewrite Htmp. destruct c as [|v c]; simpl.
  - assert (Hhole : mm_hole a = true); [|by rewrite Hhole].
    destruct Hrun as [(_ & _ & _ & _ & Hh)|(pre & top & run & post & f & l & Hr & _ & Hl & _ & _ & _ & ->)];
      [done|]. apply bool_decide_true. intros ->. destruct Hr as [Hspl Hus _ _ _ _].
    rewrite Hs in Hspl. rewrite !app_nil_r in Hspl.
    apply (Hu l); [by rewrite Hspl, app_assoc, last_app, Hl|].
    by eapply (usable_compiled s), Forall_last_elem.
  - rewrite Hs in Hseen. apply Forall_app in Hseen as [_ Hseen].
    inversion_clear Hseen as [|?? [Hv _]].
    rewrite (proj2 (Z.eqb_neq _ _)) by done. by rewrite andb_false_r.
Qed.

(** A usable entry below one that is not starts a run. *)
Lemma new_run s seen vent tmp rm :
  usable s vent -> entry_ok vent -> Forall entry_ok seen -> compiled_top (seen ++ [vent]) tmp ->
  (forall v, last seen = Some v -> ~ usable s v) ->
  min_max_inv s (seen ++ [vent])
    (mk_min_max (v_version vent) (v_version vent) (if negb (tmp =? 0) then tmp else rm) false tmp).
Proof.
  intros Huse [Hnz _] Hseen Ht Habove. pose proof (usable_compiled _ _ Huse) as Hcomp.
  split; [exact Ht|]. right. destruct Ht as (u & c & Hs & Hc & Hu & ->).
  destruct c as [|v c _] using rev_ind.
  { rewrite app_nil_r in Hs. subst u. destruct (Hu vent); [by rewrite last_snoc|done]. }
  rewrite app_assoc in Hs. apply app_inj_tail in Hs as [-> <-].
  apply Forall_app in Hc as [Hc _].
  exists u, c, [vent], [], vent, vent. split; [|repeat (split; [done|])].
  - split; try done; [by rewrite app_nil_r, app_assoc|by repeat constructor].
  - split; [|done]. simpl. destruct c as [|w c]; simpl; eexists; (split; [done|]).
    + by rewrite (proj2 (Z.eqb_neq _ _)).
    + apply Forall_app in Hseen as [_ Hw]. inversion_clear Hw as [|?? [Hw0 _]].
      by rewrite (proj2 (Z.eqb_neq _ _)).
Qed.

Lemma min_max_step_inv s seen a vent :
  entry_ok vent -> Forall entry_ok seen -> min_max_inv s seen a ->
  min_max_inv s (seen ++ [vent]) (min_max_step s a vent).
Proof.
  intros Hok Hseen Hinv. pose proof Hok as [Hnz Hver]. unfold min_max_step.
  destruct (cmeth vent) as [cm|] eqn:Ecm.
  2:{ apply min_max_off; [by intros (? & ? & _); congruence|done|].
      exists (seen ++ [vent]), []. rewrite app_nil_r. split; [done|]. split; [constructor|].
      split; [|done]. intros v. rewrite last_snoc. intros [= <-] [cm E]. congruence. }
  assert (Hcomp : compiled vent) by by exists cm.
  pose proof (compiled_top_step s seen a vent Hcomp Hseen Hinv) as Ht.
  set (tmp := if _ && _ then _ else _) in *.
  destruct (Z.eqb_spec (tls_method_error s cm) 0) as [Hon|Hoff]; cbn [negb].
  2:{ apply min_max_off; [|done|done]. intros (cm' & E & ?). congruence. }
  assert (Huse : usable s vent) by by exists cm.
  rewrite (Hver cm) by by left. destruct Hinv as [_ Hrun].
  destruct Hrun as [(Hall & _ & _ & _ & Hhole)|(pre & top & run & post & f & l & Hr & Hf & Hl & Hmin & Hmax & Hreal & Hhole)].
  { rewrite Hhole. cbn [negb]. apply new_run; try done.
    intros v Hv. by eapply (Forall_last_elem (fun v => ~ usable s v)). }
  rewrite Hhole. destruct Hr as [Hspl Hus Hbelow Habove Htop Hh].
  destruct post as [|p post _] using rev_ind.
  - rewrite bool_decide_false by auto. cbn [negb]. split; [exact Ht|]. right. simpl.
    exists pre, top, (run ++ [vent]), [], f, vent. rewrite app_nil_r in Hspl.
    destruct run as [|r0 run]; [done|]. split; [split; try done|].
    + rewrite Hspl, app_nil_r. by rewrite !app_assoc.
    + apply Forall_app. split; [done|by repeat constructor].
    + split; [done|]. split; [by rewrite last_snoc|]. split; [done|]. split; [done|].
      split; [|done]. destruct Hreal as (r & Hr1 & Hr2). exists r. by destruct top.
  - rewrite bool_decide_true by by destruct post. cbn [negb]. apply new_run; try done.
    intros v Hv. rewrite Hspl, !app_assoc, last_snoc in Hv. injection Hv as <-.
    apply Forall_app in Hbelow as [_ Hb]. by inversion Hb.
Qed.

Lemma min_max_fold s table : forall seen a,
  Forall entry_ok (seen ++ table) -> min_max_inv s seen a ->
  min_max_inv s (seen ++ table) (fold_left (min_max_step s) table a).
Proof.
  induction table as [|vent table IH]; intros seen a Hok Hinv; simpl.
  { by rewrite app_nil_r. }
  rewrite (cons_middle vent seen table), app_assoc in *. apply IH; [done|].
  apply Forall_app in Hok as [Hok _]. apply Forall_app in Hok as [Hseen Hv].
  inversion_clear Hv. by apply min_max_step_inv.
Qed.

Lemma min_max_spec s table want :
  table_of (method_version s) = Some table ->
  let '(ret, min, max, real_max) := tls_get_min_max_version s want in
  (ret = tls_R_NO_PROTOCOLS_AVAILABLE /\ min = 0 /\ max = 0 /\
   Forall (fun v => ~ usable s v) table) \/
  (ret = 0 /\ exists pre top run post first_ last_ real,
     lowest_run s table pre top run post /\
     head run = Some first_ /\ last run = Some last_ /\ head (top ++ run) = Some real /\
     min = v_version last_ /\ max = v_version first_ /\ real_max = v_version real).
Proof.
  intros Ht. unfold tls_get_min_max_version. rewrite Ht.
  pose proof (table_entries _ _ Ht) as Hok.
  destruct (min_max_fold s table [] (mk_min_max 0 0 0 true 0)) as [_ Hinv]; [done| |].
  { split; [by exists [], []|]. left. repeat (split; [constructor|]). done. }
  simpl in Hinv. destruct Hinv as [(? & -> & -> & -> & _)|(pre & top & run & post & f & l & Hr & Hf & Hl & -> & -> & (r & Hr1 & ->) & _)].
  - by left.
  - right. split; [|by exists pre, top, run, post, f, l, r].
    rewrite (proj2 (Z.eqb_neq _ _)); [done|]. destruct Hr as [-> _ _ _ _ _].
    apply Forall_app in Hok as [_ Hok]. apply Forall_app in Hok as [_ Hok].
    apply Forall_app in Hok as [Hok _]. destruct run as [|r0 run]; [done|].
    injection Hf as ->. by inversion_clear Hok as [|?? [? _]].
Qed.

(** *** Comparing versions *)

(** DTLS versions count down. *)
Definition rank (dtls : bool) (v : Z) : Z := if dtls then - dtls_ver_ordinal v else v.

Lemma version_cmp_lt s a b :
  (version_cmp s a b <? 0) = negb (a =? b) && (rank (tls_IS_DTLS s) a <? rank (tls_IS_DTLS s) b).
Proof.
  unfold version_cmp, rank, DTLS_VERSION_LT. destruct (a =? b) eqn:E; [done|].
  destruct (tls_IS_DTLS s); cbn [negb andb]; repeat case_if; zify_bools; lia.
Qed.

Lemma version_cmp_eq s a b : (version_cmp s a b =? 0) = (a =? b).
Proof. unfold version_cmp. repeat case_if; done. Qed.

Lemma version_cmp_le s a b :
  (version_cmp s a b <=? 0) = (a =? b) || (rank (tls_IS_DTLS s) a <? rank (tls_IS_DTLS s) b).
Proof.
  pose proof (version_cmp_lt s a b) as Hlt. pose proof (version_cmp_eq s a b) as Heq.
  destruct (a =? b) eqn:E; cbn [orb andb negb] in *; zify_bools; [lia|].
  rewrite <- Hlt. destruct (Z.leb_spec (version_cmp s a b) 0), (Z.ltb_spec (version_cmp s a b) 0); lia.
Qed.

(** The connection may use the versions of [table]. *)
Definition flexible (s : tls) (table : list version_info) : Prop :=
  table_of (method_version s) = Some table /\
  tls_IS_DTLS s = (method_version s =? DTLS_ANY_VERSION).

Definition descending (dtls : bool) : list version_info -> Prop :=
  StronglySorted (fun a b => rank dtls (v_version b) < rank dtls (v_version a)).

Lemma flexible_sorted s table : flexible s table -> descending (tls_IS_DTLS s) table.
Proof.
  unfold flexible, table_of, TLS_ANY_VERSION, DTLS_ANY_VERSION. intros [Ht ->].
  unfold tls_version_table, dtls_version_table, version_entry in Ht.
  destruct (Z.eqb_spec (method_version s) 0x10000) as [->|_].
  - injection Ht as <-. repeat constructor; repeat case_if; done.
  - case_if_in Ht; [|done]. injection Ht as <-. repeat constructor; repeat case_if; done.
Qed.

(** The versions of the table within the window of a run are those of the run. *)
Lemma run_window s table pre top run post f l vent :
  descending (tls_IS_DTLS s) table -> lowest_run s table pre top run post ->
  head run = Some f -> last run = Some l -> vent ∈ table ->
  rank (tls_IS_DTLS s) (v_version l) <= rank (tls_IS_DTLS s) (v_version vent)
    <= rank (tls_IS_DTLS s) (v_version f) ->
  usable s vent.
Proof.
  intros Hsort [-> Huse _ _ _ _] Hf Hl Hin Hwin. rewrite (app_assoc pre) in *.
  destruct run as [|f' run]; [done|]. injection Hf as ->.
  assert (Hlr : l ∈ f :: run).
  { apply last_Some in Hl as [w ->]. apply elem_of_app. right. by left. }
  apply elem_of_app in Hin as [Hin|Hin].
  { pose proof (StronglySorted_app_1_elem_of _ _ _ vent f Hsort Hin) as Hr.
    specialize (Hr ltac:(by left)). simpl in Hr. lia. }
  apply StronglySorted_app_1_r in Hsort. apply elem_of_app in Hin as [Hin|Hin].
  { by eapply Forall_forall in Huse. }
  pose proof (StronglySorted_app_1_elem_of _ _ _ l vent Hsort Hlr Hin) as Hr. simpl in Hr. lia.
Qed.

(** *** The versions a connection supports *)

Definition negotiable (s : tls) (table : list version_info) (v : Z) : Prop :=
  exists vent, vent ∈ table /\ v_version vent = v /\ usable s vent /\
    (server s = true -> v = TLS1_3_VERSION -> is_tls13_capable s = true).

Lemma version_supported_loop_spec s v table :
  descending (tls_IS_DTLS s) table ->
  match version_supported_loop s v table with
  | Some cm => negotiable s table v /\ (exists vent, vent ∈ table /\ cmeth vent = Some cm /\ v_version vent = v)
  | None => ~ negotiable s table v
  end.
Proof.
  induction 1 as [|vent table Hs IH Hall]; cbn [version_supported_loop].
  { intros (vent & Hin & _). by apply not_elem_of_nil in Hin. }
  rewrite version_cmp_le, version_cmp_eq.
  destruct ((v =? v_version vent) || _) eqn:Ele; cbn [negb].
  2:{ zify_bools. intros (w & Hin & Hw & _). apply elem_of_cons in Hin as [->|Hin]; [lia|].
      eapply Forall_forall in Hall; [|exact Hin]. simpl in Hall. rewrite Hw in Hall. lia. }
  assert (Htail : negotiable s table v -> negotiable s (vent :: table) v).
  { intros (w & Hin & H'). exists w. split; [by right|done]. }
  assert (Hhead : forall cm, cmeth vent = Some cm ->
    ((v =? v_version vent) && (tls_method_error s cm =? 0)
     && (negb (server s) || negb (v =? TLS1_3_VERSION) || is_tls13_capable s))%bool = false ->
    negotiable s (vent :: table) v -> negotiable s table v).
  { intros cm E Hf (w & Hin & Hw & (cm' & E' & Hon) & Hcap).
    apply elem_of_cons in Hin as [->|Hin].
    - rewrite Hw, Z.eqb_refl in Hf. assert (cm' = cm) as -> by congruence. rewrite Hon in Hf.
      destruct (server s), (Z.eqb_spec v TLS1_3_VERSION); try done.
      by rewrite Hcap in Hf.
    - exists w. split; [done|]. split; [done|]. split; [|done]. by exists cm'. }
  destruct (cmeth vent) as [cm|] eqn:E.
  - destruct (_ && _ && _)%bool eqn:Eb.
    + zify_bools. split.
      * exists vent. split; [by left|]. split; [done|]. split; [by exists cm|].
        intros Hsrv Hv. rewrite Hsrv, Hv in *. match goal with H : _ = true |- _ => by rewrite Z.eqb_refl in H end.
      * exists vent. split; [by left|done].
    + destruct (version_supported_loop s v table) as [m|].
      * destruct IH as (Hn & w & Hin & Hw). split; [auto|]. exists w. split; [by right|done].
      * intros Hn. apply IH. by eapply (Hhead cm).
  - destruct (version_supported_loop s v table) as [m|].
    + destruct IH as (Hn & w & Hin & Hw). split; [auto|]. exists w. split; [by right|done].
    + intros (w & Hin & Hw & Hu & Hcap). apply IH. apply elem_of_cons in Hin as [->|Hin].
      * destruct Hu as (? & ? & _). congruence.
      * by exists w.
Qed.

Lemma version_supported_spec s v table :
  flexible s table ->
  match tls_version_supported s v with
  | (true, Some m) => negotiable s table v /\ m_version m = v /\ exists vent, vent ∈ table /\ cmeth vent = Some m
  | (false, None) => ~ negotiable s table v
  | _ => False
  end.
Proof.
  intros Hf. pose proof (version_supported_loop_spec s v table (flexible_sorted _ _ Hf)) as H'.
  unfold tls_version_supported. destruct Hf as [Ht _]. rewrite Ht.
  destruct (version_supported_loop s v table) as [m|]; [|done].
  destruct H' as (Hn & vent & Hin & Hc & Hv). split; [done|]. split; [|by exists vent].
  pose proof (table_entries _ _ Ht) as Hok. rewrite Forall_forall in Hok.
  destruct (Hok vent Hin) as [_ Hm]. rewrite <- Hv. apply Hm. by left.
Qed.

End Usable.

(** ** The server *)

(** The 16-bit numbers of a string of bytes, and the odd byte left. *)
Fixpoint u16s (l : list Z) : list Z * list Z :=
  match l with
  | a :: b :: l => let '(vs, tail) := u16s l in (be_val [a; b] :: vs, tail)
  | _ => ([], l)
  end.

Section Server.
Context `{Callouts} `{ExtCallouts}.
Context {mem : list Z} (mem_ok : bytes_ok mem).

Lemma table_positive mv table v :
  table_of mv = Some table -> v ∈ table -> 0 < v_version v.
Proof.
  unfold table_of, tls_version_table, dtls_version_table, version_entry. intros E Hin.
  assert (Hall : Forall (fun v => 0 < v_version v) table); [|by eapply Forall_forall in Hall].
  repeat case_if_in E; try done; injection E as <-; repeat constructor; repeat case_if; done.
Qed.

Lemma negotiable_positive s table v : flexible s table -> negotiable s table v -> 0 < v.
Proof. intros [Ht _] (vent & Hin & <- & _). by eapply table_positive. Qed.

(** What the server knows once it has read the offers [vs], starting from [best]. *)
Definition best_of (s : tls) (table : list version_info) (vs : list Z) (best best' : Z)
  (m m' : option tls_METHOD) : Prop :=
  best <= best' /\ (forall v, v ∈ vs -> negotiable s table v -> v <= best') /\
  (best' = best /\ m' = m \/
   best' ∈ vs /\ best < best' /\ negotiable s table best' /\
   exists cm vent, m' = Some cm /\ m_version cm = best' /\ vent ∈ table /\ cmeth vent = Some cm).

Lemma best_version_loop_spec s table fuel :
  flexible s table -> tls_IS_DTLS s = false ->
  forall pkt l best m, packet_view mem pkt l -> (length l < fuel)%nat ->
  exists pkt' best' m',
    best_version_loop mem fuel s pkt (best, m) = Ret (pkt', (best', m')) /\
    packet_view mem pkt' (snd (u16s l)) /\ best_of s table (fst (u16s l)) best best' m m'.
Proof using mem_ok.
  intros Hflex Hd. induction fuel as [|fuel IH]; intros pkt l best m Hv Hlen; [lia|].
  cbn [best_version_loop]. pose proof (get_net_2_implements mem_ok pkt l 0 Hv) as Hget.
  destruct l as [|a [|b l]]; cbn in Hget.
  1,2: rewrite Hget; cbn; exists pkt, best, m; split; [done|]; split; [done|];
       (split; [lia|]); (split; [|by left]); by intros v ?%not_elem_of_nil.
  destruct Hget as (pkt' & -> & Hv'). cbn [mbind comp_bind defined negb fst snd].
  change (drop 2 (a :: b :: l)) with l in Hv'. change (take 2 (a :: b :: l)) with [a; b].
  simpl in Hlen. cbn [u16s]. destruct (u16s l) as [vs tail] eqn:El. cbn [fst snd].
  set (v := be_val [a; b]).
  rewrite version_cmp_le, Hd. unfold rank at 1. unfold rank at 1.
  destruct (Z.leb_spec v best) as [Hle|Hgt].
  { assert (Hb : ((v =? best) || (v <? best))%bool = true).
    { apply orb_true_iff. destruct (Z.eqb_spec v best); [by left|right]. apply Z.ltb_lt. lia. }
    rewrite Hb. destruct (IH pkt' l best m Hv' ltac:(lia)) as (p & b' & m' & -> & Hp & H1 & H2 & H3).
    rewrite El in *. cbn [fst snd] in *. exists p, b', m'. split; [done|]. split; [done|]. split; [done|]. split.
    - intros w [->|Hw]%elem_of_cons Hn; [lia|auto].
    - destruct H3 as [?|(? & H3)]; [by left|right]. split; [by right|done]. }
  assert (Hb : ((v =? best) || (v <? best))%bool = false).
  { apply orb_false_iff. split; [apply Z.eqb_neq; lia|apply Z.ltb_ge; lia]. }
  rewrite Hb. pose proof (version_supported_spec s v table Hflex) as Hs.
  destruct (tls_version_supported s v) as [[] [cm|]]; try done.
  - destruct Hs as (Hn & Hm & vent & Hin & Hc).
    destruct (IH pkt' l v (Some cm) Hv' ltac:(lia)) as (p & b' & m' & -> & Hp & H1 & H2 & H3).
    rewrite El in *. cbn [fst snd] in *. exists p, b', m'. split; [done|]. split; [done|]. split; [lia|]. split.
    + intros w [->|Hw]%elem_of_cons Hw'; [lia|auto].
    + right. destruct H3 as [[-> ->]|(? & ? & ? & ?)].
      * split; [by left|]. split; [lia|]. split; [done|]. by exists cm, vent.
      * split; [by right|]. split; [lia|]. done.
  - destruct (IH pkt' l best m Hv' ltac:(lia)) as (p & b' & m' & -> & Hp & H1 & H2 & H3).
    rewrite El in *. cbn [fst snd] in *. exists p, b', m'. split; [done|]. split; [done|]. split; [done|]. split.
    + intros w [->|Hw]%elem_of_cons Hw'; [done|auto].
    + destruct H3 as [?|(? & H3)]; [by left|right]. split; [by right|done].
Qed.

(** What [tls_choose_server_version] does with the list of versions a client sends. *)
Definition server_choice (s : tls) (table : list version_info) (vs : list Z)
  (ret : Z) (dgrd : DOWNGRADE) (s' : tls) : Prop :=
  (exists m, ret = 0 /\ dgrd = check_for_downgrade s (version s') /\
     s' = set_method (s <| version := version s' |>) m /\ m_version m = version s' /\
     version s' ∈ vs /\ negotiable s table (version s') /\
     forall v, v ∈ vs -> negotiable s table v -> v <= version s') \/
  (ret = tls_R_UNSUPPORTED_PROTOCOL /\ s' = s /\ forall v, v ∈ vs -> ~ negotiable s table v).

Lemma choose_supported_spec s table ext body dgrd :
  flexible s table -> tls_IS_DTLS s = false -> hello_retry_request s = tls_HRR_NONE ->
  packet_view mem (data ext) body ->
  exists ret dgrd' s' ext',
    choose_supported_version mem s ext dgrd = Ret (ret, dgrd', s', ext') /\
    match spec_prefixed_all 1 body with
    | None => ret = tls_R_LENGTH_MISMATCH /\ s' = s
    | Some (vs, _) =>
        if client_version (conf s) <=? tls3_VERSION then ret = tls_R_BAD_LEGACY_VERSION /\ s' = s
        else if bool_decide (snd (u16s vs) = []) then server_choice s table (fst (u16s vs)) ret dgrd' s'
        else ret = tls_R_LENGTH_MISMATCH /\ s' = s
    end.
Proof using mem_ok.
  intros Hflex Hd Hhrr Hv. unfold choose_supported_version.
  pose proof (prefixed_body_implements mem_ok _ 1%nat true ltac:(lia) (get_1_implements mem_ok)
                (data ext) (mk_PACKET None 0) body Hv) as Hp.
  change (prefixed_body (PACKET_get_1 mem) true) with (PACKET_as_length_prefixed_1 mem) in Hp.
  cbn [data]. change (data (ext <| parsed := true |>)) with (data ext).
  destruct (spec_prefixed_all 1 body) as [[vs rest]|].
  2:{ rewrite Hp. cbn. by do 4 eexists. }
  destruct Hp as (pkt' & lst & -> & _ & Hl). cbn [mbind comp_bind defined negb].
  case_if; [by do 4 eexists|].
  destruct (best_version_loop_spec s table (S (Z.to_nat (PACKET_remaining lst))) Hflex Hd lst vs 0 None Hl)
    as (p & best & m & -> & Hp & Hbest & Hmax & Hcase).
  { unfold PACKET_remaining. rewrite (view_remaining _ _ Hl). unfold zlen. lia. }
  cbn [mbind comp_bind]. unfold PACKET_remaining. rewrite (view_remaining _ _ Hp).
  destruct (snd (u16s vs)) as [|x tail].
  2:{ rewrite (bool_decide_false (x :: tail = [])) by done.
      rewrite (proj2 (Z.eqb_neq _ _)) by len_lia. cbn. by do 4 eexists. }
  rewrite (bool_decide_true (@nil Z = [])) by done. change (zlen (@nil Z) =? 0) with true.
  cbn [negb].
  destruct Hcase as [[-> ->]|(Hin & Hlt & Hn & cm & vent & -> & Hm & Hvent & Hc)].
  - do 4 eexists. split; [done|]. right. split; [done|]. split; [done|].
    intros v Hv' Hn. pose proof (negotiable_positive _ _ _ Hflex Hn).
    specialize (Hmax v Hv' Hn). lia.
  - rewrite (proj2 (Z.ltb_lt _ _)) by done.
    rewrite Hhrr, (bool_decide_true (tls_HRR_NONE = tls_HRR_NONE)) by done.
    cbn [negb mbind comp_bind defined]. do 4 eexists. split; [done|]. left. exists cm.
    change (version (set_method _ cm)) with best.
    split; [done|]. split; [done|]. split; [done|]. done.
Qed.

(** *** Clients that only name a version *)

(** The server may use the entry's version with a client that names [c]. *)
Definition serves (s : tls) (c : Z) (vent : version_info) (sm : tls_METHOD) : Prop :=
  smeth vent = Some sm /\ 0 <= version_cmp s c (v_version vent).

(** The highest version the server may use, or none and whether some was disabled. *)
Definition legacy_choice (s : tls) (c : Z) (disabled : bool) (table : list version_info)
  (r : (Z * tls_METHOD) + bool) : Prop :=
  match r with
  | inl (v, sm) =>
      exists vent, vent ∈ table /\ v_version vent = v /\ serves s c vent sm /\
        tls_method_error s sm = 0 /\
        forall w sm', w ∈ table -> serves s c w sm' -> tls_method_error s sm' = 0 ->
                      rank (tls_IS_DTLS s) (v_version w) <= rank (tls_IS_DTLS s) v
  | inr d =>
      (forall w sm, w ∈ table -> serves s c w sm -> tls_method_error s sm <> 0) /\
      (d = true <-> disabled = true \/ exists w sm, w ∈ table /\ serves s c w sm)
  end.

Lemma legacy_choice_skip s c d vent table r :
  (forall sm, ~ serves s c vent sm) -> legacy_choice s c d table r ->
  legacy_choice s c d (vent :: table) r.
Proof using.
  intros Hno IH. destruct r as [[v sm]|d'].
  - destruct IH as (w & Hin & ? & ? & ? & Hmax). exists w. split; [by right|].
    do 3 (split; [done|]). intros w' sm' [->|Hw]%elem_of_cons Hsv; [by destruct (Hno sm')|eauto].
  - destruct IH as [Hn Hd]. split.
    + intros w sm [->|Hw]%elem_of_cons Hsv; [by destruct (Hno sm)|eauto].
    + rewrite Hd. split; (intros [?|(w & sm & Hw & Hsv)]; [by left|right]); exists w, sm.
      * split; [by right|done].
      * apply elem_of_cons in Hw as [->|Hw]; [by destruct (Hno sm)|done].
Qed.

Lemma server_version_loop_spec s c disabled table :
  descending (tls_IS_DTLS s) table ->
  legacy_choice s c disabled table (server_version_loop s c disabled table).
Proof using.
  intros Hs. revert disabled. induction Hs as [|vent table Hs IH Hall]; intros disabled; cbn [server_version_loop].
  { split; [by intros w sm ?%not_elem_of_nil|]. split; [by left|].
    intros [?|(w & sm & ?%not_elem_of_nil & _)]; done. }
  destruct (smeth vent) as [sm|] eqn:Esm.
  2:{ apply legacy_choice_skip; [|done]. intros sm [E _]. congruence. }
  destruct (Z.ltb_spec (version_cmp s c (v_version vent)) 0) as [Hlt|Hge].
  { apply legacy_choice_skip; [|done]. intros sm' [_ ?]. lia. }
  assert (Hsv : serves s c vent sm) by done.
  destruct (Z.eqb_spec (tls_method_error s sm) 0) as [Hon|Hoff].
  - exists vent. split; [by left|]. do 3 (split; [done|]).
    intros w sm' [->|Hw]%elem_of_cons _ _; [lia|]. eapply Forall_forall in Hall; [|exact Hw]. simpl in Hall. lia.
  - specialize (IH true). destruct (server_version_loop s c true table) as [[v sm0]|d'].
    + destruct IH as (w & Hin & ? & ? & ? & Hmax). exists w. split; [by right|].
      do 3 (split; [done|]). intros w' sm' [->|Hw]%elem_of_cons [E ?] ?; [congruence|].
      by eapply Hmax.
    + destruct IH as [Hn Hd]. split.
      * intros w sm' [->|Hw]%elem_of_cons [E ?]; [congruence|]. by eapply Hn.
      * split; [|intros _; by apply Hd; left]. intros _. right. exists vent, sm. split; [by left|done].
Qed.

(** The version a client's hello counts for without the extension. *)
Definition legacy_cap (s : tls) (c : Z) : Z :=
  if 0 <=? version_cmp s c TLS1_3_VERSION then TLS1_2_VERSION else c.

Lemma choose_legacy_spec s table dgrd :
  flexible s table ->
  let c := legacy_cap s (client_version (conf s)) in
  let '(ret, dgrd', s') := choose_legacy_version s table dgrd in
  (exists vent sm, ret = 0 /\ dgrd' = check_for_downgrade s (v_version vent) /\
     s' = set_method (s <| version := v_version vent |>) sm /\
     vent ∈ table /\ serves s c vent sm /\ tls_method_error s sm = 0 /\
     forall w sm', w ∈ table -> serves s c w sm' -> tls_method_error s sm' = 0 ->
       rank (tls_IS_DTLS s) (v_version w) <= rank (tls_IS_DTLS s) (v_version vent)) \/
  (s' = s /\ dgrd' = dgrd /\
   (forall w sm, w ∈ table -> serves s c w sm -> tls_method_error s sm <> 0) /\
   (ret = tls_R_UNSUPPORTED_PROTOCOL /\ (exists w sm, w ∈ table /\ serves s c w sm) \/
    ret = tls_R_VERSION_TOO_LOW /\ forall w sm, w ∈ table -> ~ serves s c w sm)).
Proof using.
  intros Hflex c. pose proof (server_version_loop_spec s c false table (flexible_sorted _ _ Hflex)) as Hl.
  unfold choose_legacy_version. fold (legacy_cap s (client_version (conf s))). fold c.
  destruct (server_version_loop s c false table) as [[v sm]|d].
  - destruct Hl as (vent & Hin & <- & Hsv & Hon & Hmax). left. by exists vent, sm.
  - destruct Hl as [Hn Hd]. right. split; [done|]. split; [done|]. split; [done|]. destruct d.
    + left. split; [done|]. by destruct (proj1 Hd eq_refl).
    + right. split; [done|]. intros w sm Hw Hsv. cut (false = true); [done|]. apply Hd. right. by exists w, sm.
Qed.

End Server.

(** ** The client *)

Section Client.
Context `{Callouts} `{ExtCallouts}.
Context {mem : list Z} (mem_ok : bytes_ok mem).

Lemma client_method_spec v table cm :
  client_method v table = Some cm -> exists vent, vent ∈ table /\ cmeth vent = Some cm /\ v_version vent = v.
Proof using.
  induction table as [|w table IH]; cbn [client_method]; [done|].
  destruct (cmeth w) as [m|] eqn:E; [case_if|]; intros Hm.
  1:{ zify_bools. exists w. split; [by left|]. split; [congruence|done]. }
  all: destruct (IH Hm) as (vent & ? & ?); exists vent; (split; [by right|done]).
Qed.

(** The window of versions. *)
Lemma window_rank s v min max :
  (if tls_IS_DTLS s then DTLS_VERSION_LT v min else v <? min) = false ->
  (if tls_IS_DTLS s then DTLS_VERSION_GT v max else max <? v) = false ->
  rank (tls_IS_DTLS s) min <= rank (tls_IS_DTLS s) v <= rank (tls_IS_DTLS s) max.
Proof using.
  unfold rank, DTLS_VERSION_LT, DTLS_VERSION_GT. destruct (tls_IS_DTLS s); intros; zify_bools; lia.
Qed.

Lemma random_ends_defined s sentinel :
  zlen (server_random (conf s)) = 32 -> zlen sentinel <= 32 -> is_Some (random_ends s sentinel).
Proof using.
  intros Hz Hs. unfold random_ends. pose proof (zlen_nonneg sentinel).
  rewrite rdn_spec by (unfold tls3_RANDOM_SIZE; lia). by eexists.
Qed.

Lemma downgraded_defined s real_max :
  zlen (server_random (conf s)) = 32 -> is_Some (downgraded s real_max).
Proof using.
  intros Hz. unfold downgraded. repeat case_if; try by eexists.
  all: by apply random_ends_defined.
Qed.

(** What a client takes: a version of its table that it may use. *)
Definition client_takes (s : tls) (table : list version_info) (s' : tls) : Prop :=
  exists vent cm, vent ∈ table /\ cmeth vent = Some cm /\ v_version vent = version s /\
    tls_method_error s cm = 0 /\ s' = set_method s cm.

Lemma choose_from_table_spec s table fail :
  flexible s table -> zlen (server_random (conf s)) = 32 ->
  exists ok s', choose_from_table s table fail = Some (ok, s') /\
    ((exists al, (ok, s') = fail s al) \/ (ok = true /\ client_takes s table s')).
Proof using.
  intros Hflex Hz. unfold choose_from_table.
  pose proof (min_max_spec s table true (proj1 Hflex)) as Hmm.
  destruct (tls_get_min_max_version s true) as [[[ret min] max] real].
  assert (Hf : forall al, exists ok s', Some (fail s al) = Some (ok, s') /\
    ((exists al, (ok, s') = fail s al) \/ (ok = true /\ client_takes s table s'))).
  { intros al. destruct (fail s al) as [ok s'] eqn:E. exists ok, s'. split; [done|]. left. by exists al. }
  destruct Hmm as [(-> & _)|(-> & pre & top & run & post & f & l & r & Hr & Hfst & Hlst & _ & -> & -> & _)];
    [by apply Hf|]. cbn [negb Z.eqb].
  destruct (if tls_IS_DTLS s then _ else _) eqn:E1; [by apply Hf|].
  destruct (if tls_IS_DTLS s then DTLS_VERSION_GT _ _ else _) eqn:E2; [by apply Hf|].
  destruct (downgraded_defined s (if negb (has_bits (mode (conf s)) tls_MODE_SEND_FALLBACK_SCSV)
                                  then v_version f else real) Hz) as [d ->].
  cbn [mbind option_bind]. destruct d; [by apply Hf|].
  destruct (client_method (version s) table) as [cm|] eqn:Ec; [|by apply Hf].
  apply client_method_spec in Ec as (vent & Hin & Hc & Hv).
  do 2 eexists. split; [done|]. right. split; [done|]. exists vent, cm. do 3 (split; [done|]).
  split; [|done]. destruct (run_window s table pre top run post f l vent) as (cm' & E & Hon); try done.
  - by apply flexible_sorted.
  - rewrite Hv. by apply window_rank.
  - congruence.
Qed.

(** The extension a client looks at first. *)
Lemma parse_supported_versions_spec s exts ext body :
  server s = false -> exts !! TLSEXT_IDX_supported_versions = Some ext ->
  (present ext = true -> packet_view mem (data ext) body) ->
  exists ok s' exts',
    tls_parse_extension mem s TLSEXT_IDX_supported_versions
      (Z.lor tls_EXT_TLS1_2_SERVER_HELLO tls_EXT_TLS1_3_SERVER_HELLO) exts 0 = Ret (ok, s', exts') /\
    if (ok : bool) then s' = s \/ (present ext = true /\ body = be_bytes 2 TLS1_3_VERSION /\
                         s' = s <| version := TLS1_3_VERSION |>)
    else exists al, s' = tlsfatal s al.
Proof using mem_ok.
  intros Hsrv Hext Hv. unfold tls_parse_extension. rewrite Hext. cbn [mbind comp_bind defined].
  destruct (present ext); cbn [negb]; [|by do 3 eexists; split; [done|left]].
  destruct (parsed ext); [by do 3 eexists; split; [done|left]|].
  change (ext_defs !! TLSEXT_IDX_supported_versions) with (Some def_supported_versions).
  cbn iota beta. case_if; [by do 3 eexists; split; [done|left]|].
  rewrite Hsrv. cbn [parse_stoc def_supported_versions ext_parse].
  unfold do_parse_stoc_supported_versions. specialize (Hv eq_refl).
  pose proof (get_net_2_implements mem_ok (data ext) body 0 Hv) as Hget.
  destruct (spec_net 2 body) as [[v rest]|] eqn:En; cycle 1.
  { rewrite Hget. cbn. by do 3 eexists; split; [done|eexists]. }
  destruct Hget as (pkt' & -> & Hv'). cbn [mbind comp_bind defined negb orb].
  unfold PACKET_remaining. rewrite (view_remaining _ _ Hv').
  destruct rest as [|x rest].
  2:{ rewrite (proj2 (Z.eqb_neq _ _)) by len_lia. cbn. by do 3 eexists; split; [done|eexists]. }
  change (zlen (@nil Z) =? 0) with true. cbn [negb].
  destruct (Z.eqb_spec v TLS1_3_VERSION) as [->|]; cbn [negb]; [|by do 3 eexists; split; [done|eexists]].
  change (_ =? tls_EXT_TLS1_3_HELLO_RETRY_REQUEST) with false. cbn.
  do 3 eexists. split; [done|]. right. split; [done|]. split; [|done].
  unfold spec_net in En. case_bool_decide as Hl; [|done]. injection En as Ev Er.
  pose proof (view_bytes_ok mem_ok _ _ Hv) as Hb.
  destruct body as [|a [|b [|c body]]]; simpl in Hl, Er; try lia; try done.
  rewrite <- Ev. symmetry. exact (be_bytes_be_val [a; b] Hb).
Qed.

End Client.

(** ** The list of versions a client sends *)

Section Offer.
Context `{Callouts} `{Malloc}.
Context (secure : Z -> option (list Z)).
Hypothesis secure_zlen : forall n blk, 0 <= n -> secure n = Some blk -> zlen blk = n.

Fixpoint versions_down (n : nat) (v : Z) : list Z :=
  match n with O => [] | S n => v :: versions_down n (v - 1) end.

(** The extension as a program of the packet writer. *)
Definition supported_versions_items (vs : list Z) : list item :=
  [INum TLSEXT_TYPE_supported_versions 2;
   ISub 2 WPACKET_FLAGS_NONE [ISub 1 WPACKET_FLAGS_NONE (map (fun v => INum v 2) vs)]].

Lemma start_no_flags pkt n p :
  WPACKET_start_sub_packet_len__ secure pkt n = Some (true, p) ->
  WPACKET_set_flags p WPACKET_FLAGS_NONE = (true, p).
Proof.
  unfold WPACKET_start_sub_packet_len__. destruct (subs pkt) as [|s0 chain] eqn:Es; [done|].
  destruct (CRYPTO_zalloc _); [|done]. destruct (n =? 0).
  { intros [= <-]. done. }
  rewrite allocate_subs by by rewrite ?Es.
  destruct (WPACKET_allocate_bytes _ _ _) as [[[ok q] a]|]; [|done]. cbn [mbind option_bind].
  intros [= -> <-]. done.
Qed.

Lemma put_versions_items n : forall v pkt,
  put_versions secure n v pkt = run_items secure (map (fun v => INum v 2) (versions_down n v)) pkt.
Proof using.
  induction n as [|n IH]; intros v pkt; cbn [put_versions versions_down map run_items run_item]; [done|].
  destruct (WPACKET_put_bytes__ secure pkt v 2) as [[[] p]|]; cbn [mbind option_bind negb]; [apply IH|done|done].
Qed.

(** The client's constructor runs that program. *)
Lemma construct_ctos_items s pkt min max real :
  tls_get_min_max_version s false = (0, min, max, real) -> TLS1_3_VERSION <= max ->
  do_construct_ctos_supported_versions secure s pkt =
  match run_items secure (supported_versions_items (versions_down (Z.to_nat (max - min + 1)) max)) pkt with
  | Some (true, p) => Ret (EXT_RETURN_SENT, s, p)
  | Some (false, p) => Ret (EXT_RETURN_FAIL, tlsfatal s tls_AD_INTERNAL_ERROR, p)
  | None => UB
  end.
Proof using.
  intros Hmm Hmax. unfold do_construct_ctos_supported_versions. rewrite Hmm.
  rewrite (proj2 (Z.ltb_ge _ _)) by done. cbn [Z.eqb negb].
  unfold supported_versions_items. cbn [run_items].
  change (run_item secure (INum ?v ?n) pkt) with (WPACKET_put_bytes__ secure pkt v n).
  destruct (WPACKET_put_bytes__ secure pkt _ 2) as [[[] p1]|]; try done.
  cbn [mbind option_bind comp_bind defined negb]. rewrite run_item_sub.
  destruct (WPACKET_start_sub_packet_len__ secure p1 2) as [[[] p2]|] eqn:E2; try done.
  cbn [mbind option_bind comp_bind defined negb]. rewrite (start_no_flags _ _ _ E2).
  cbn [negb run_items]. rewrite run_item_sub.
  destruct (WPACKET_start_sub_packet_len__ secure p2 1) as [[[] p3]|] eqn:E3; try done.
  cbn [mbind option_bind comp_bind defined negb]. rewrite (start_no_flags _ _ _ E3). cbn [negb].
  rewrite put_versions_items.
  destruct (run_items secure _ p3) as [[[] p4]|]; try done.
  cbn [mbind option_bind comp_bind defined negb].
  destruct (WPACKET_close p4) as [[[] p5]|]; try done.
  cbn [mbind option_bind comp_bind defined negb].
  destruct (WPACKET_close p5) as [[[] p6]|]; done.
Qed.

Definition version_bytes (vs : list Z) : list Z := concat (map (be_bytes 2) vs).

Lemma encode_versions vs e :
  encode_all (supported_versions_items vs) = Some e ->
  e = be_bytes 2 TLSEXT_TYPE_supported_versions
      ++ be_bytes 2 (1 + zlen (version_bytes vs))
      ++ be_bytes 1 (zlen (version_bytes vs)) ++ version_bytes vs
  /\ zlen (version_bytes vs) < 256 /\ Forall (fun v => 0 <= v < 65536) vs.
Proof using.
  assert (Henc : forall b, encode_all (map (fun v => INum v 2) vs) = Some b ->
            b = version_bytes vs /\ Forall (fun v => 0 <= v < 65536) vs).
  { induction vs as [|v vs IH]; cbn [map encode_all]; intros b; [by intros [= <-]|].
    cbn [encode]. case_bool_decide as Hb; [|done]. cbn [mbind option_bind].
    destruct (encode_all (map _ vs)) as [r|]; [|done]. intros [= <-].
    destruct (IH r eq_refl) as [-> Hv]. split; [done|]. constructor; [lia|done]. }
  unfold supported_versions_items. cbn [encode_all]. rewrite !encode_sub. cbn [encode_all].
  rewrite encode_sub.
  destruct (encode_all (map _ vs)) as [b|]; [|done]. destruct (Henc b eq_refl) as [-> Hvs].
  assert (Hw : forall n c, wrap n WPACKET_FLAGS_NONE c =
    if bool_decide (n = 0 \/ zlen c < 256 ^ n) then Some (be_bytes (Z.to_nat n) (zlen c) ++ c) else None).
  { intros n c. unfold wrap, has_bits. cbn. by rewrite !andb_false_r. }
  cbn [mbind option_bind encode]. rewrite Hw. case_bool_decide as H1; [|done].
  cbn [mbind option_bind]. rewrite app_nil_r, Hw. case_bool_decide as H2; [|done].
  cbn [mbind option_bind]. intros [= <-]. split; [|split; [lia|done]].
  rewrite app_nil_r. change (Z.to_nat 2) with 2%nat. change (Z.to_nat 1) with 1%nat.
  rewrite !zlen_cons. reflexivity.
Qed.

Lemma u16s_version_bytes vs :
  Forall (fun v => 0 <= v < 65536) vs -> u16s (version_bytes vs) = (vs, []).
Proof using.
  induction 1 as [|v vs Hv _ IH]; [done|].
  unfold version_bytes in *. cbn [map concat]. change (be_bytes 2 v) with
    [(v `div` 256) `mod` 256; v `mod` 256]. cbn [app u16s]. rewrite IH.
  f_equal. f_equal. change [_; _] with (be_bytes 2 v). rewrite be_val_be_bytes.
  apply Z.mod_small. done.
Qed.

Lemma in_versions_down n v w : w ∈ versions_down n v <-> v - Z.of_nat n < w <= v.
Proof using.
  revert v. induction n as [|n IH]; intros v; cbn [versions_down].
  - rewrite elem_of_nil. lia.
  - rewrite elem_of_cons, IH. lia.
Qed.

Lemma versions_down_ok n v : 0 <= v - Z.of_nat n -> v < 2 ^ 32 ->
  items_ok (supported_versions_items (versions_down n v)).
Proof using.
  intros Hlo Hhi.
  assert (Hin : items_ok (map (fun v => INum v 2) (versions_down n v))).
  { revert v Hlo Hhi. induction n as [|n IH]; intros v Hlo Hhi; cbn; [done|].
    split; [lia|]. apply IH; lia. }
  split; [done|]. split; [|done]. rewrite item_ok_sub. split; [lia|].
  split; [|done]. rewrite item_ok_sub. split; [lia|done].
Qed.

End Offer.

(** ** Downgrades *)

Section Downgrade.
Context `{Callouts}.

Lemma negotiable_supported s table v :
  flexible s table -> negotiable s table v -> fst (tls_version_supported s v) = true.
Proof.
  intros Hf Hn. pose proof (version_supported_spec s v table Hf) as Hs.
  by destruct (tls_version_supported s v) as [[] [m|]].
Qed.

(** The server's choice of a sentinel goes with its choice of a version. *)
Lemma choose_server_sentinel mem s hello dgrd table d s' hello' :
  flexible s table -> hello_retry_request s = tls_HRR_NONE ->
  tls_choose_server_version mem s hello dgrd = Ret (0, d, s', hello') ->
  d = check_for_downgrade (s <| conf .: client_version := legacy_version hello |>) (version s').
Proof.
  intros [Ht _] Hhrr Hc. unfold tls_choose_server_version in Hc.
  set (s1 := s <| conf .: client_version := legacy_version hello |>) in *.
  change (method_version s1) with (method_version s) in Hc. rewrite Ht in Hc.
  assert (Hhrr1 : hello_retry_request s1 = tls_HRR_NONE) by done. clearbody s1. clear Hhrr.
  destruct (pre_proc_exts hello !! _) as [x|]; [|done]. cbn [mbind comp_bind defined] in Hc.
  rewrite Hhrr1, (bool_decide_true (tls_HRR_NONE = tls_HRR_NONE)) in Hc by done.
  rewrite andb_false_r in Hc. destruct (present x && negb (tls_IS_DTLS s1)).
  - destruct (choose_supported_version mem s1 x dgrd) as [[[[ret d'] s''] x']| |] eqn:E; try done.
    cbn [mbind comp_bind] in Hc. injection Hc as -> -> -> _.
    unfold choose_supported_version in E.
    destruct (PACKET_as_length_prefixed_1 _ _ _) as [[[[] p] l]|]; try done.
    cbn [mbind comp_bind defined negb] in E. case_if_in E; [done|].
    destruct (best_version_loop _ _ _ _ _) as [[p' [best m]]| |]; try done.
    cbn [mbind comp_bind] in E. case_if_in E; [done|]. case_if_in E; [|done].
    rewrite Hhrr1, (bool_decide_true (tls_HRR_NONE = tls_HRR_NONE)) in E by done.
    cbn [negb] in E. destruct m as [m|]; [|done]. cbn [mbind comp_bind defined] in E.
    by injection E as <- <- _.
  - destruct (choose_legacy_version s1 table dgrd) as [[ret d'] s''] eqn:E.
    injection Hc as -> -> -> _. unfold choose_legacy_version in E.
    destruct (server_version_loop _ _ _ _) as [[v m]|[]]; [|done|done].
    by injection E as <- <-.
Qed.

(** The random of a server that says it was talked down ends with the sentinel. *)
Lemma fill_random_sentinel `{Entropy} s server blk d ret random :
  zlen blk = tls3_RANDOM_SIZE ->
  tls_fill_hello_random s server blk tls3_RANDOM_SIZE d = Some (ret, random) -> 0 < ret ->
  zlen random = tls3_RANDOM_SIZE /\
  match d with
  | DOWNGRADE_NONE => True
  | DOWNGRADE_TO_1_2 => rdn random 24 8 = Some tls12downgrade
  | DOWNGRADE_TO_1_1 => rdn random 24 8 = Some tls11downgrade
  end.
Proof.
  unfold tls_fill_hello_random, tls3_RANDOM_SIZE. intros Hz Hf Hret. cbn [Z.ltb Z.compare Pos.compare Pos.compare_cont] in Hf.
  match type of Hf with (?c ≫= _) = _ => destruct c as [[r result]|] eqn:E end; [|done].
  assert (Hlen : zlen result = 32).
  { destruct (if server then _ else _).
    - destruct (wrn blk 0 _) as [b1|] eqn:E1; [|done]. cbn [mbind option_bind] in E.
      destruct (RAND_bytes _) as [r' bytes]. destruct (wrn b1 4 bytes) as [b2|] eqn:E2; [|done].
      injection E as -> ->. apply wrn_length in E1, E2. congruence.
    - destruct (RAND_bytes _) as [r' bytes]. destruct (wrn blk 0 bytes) as [b2|] eqn:E2; [|done].
      injection E as -> ->. apply wrn_length in E2. congruence. }
  cbn [mbind option_bind] in Hf.
  assert (Hend : forall sentinel, zlen sentinel = 8 ->
    exists tail, wrn result 24 sentinel = Some tail /\ zlen tail = 32 /\ rdn tail 24 8 = Some sentinel).
  { intros sentinel H8. rewrite wrn_spec by lia.
    rewrite drop_ge by len_lia. rewrite app_nil_r. eexists. split; [done|].
    assert (Hz24 : zlen (take (Z.to_nat 24) result ++ sentinel) = 32).
    { rewrite zlen_app, zlen_take; lia. }
    split; [done|]. rewrite rdn_spec by lia. f_equal.
    rewrite drop_app_le, drop_ge by len_lia. rewrite take_ge; len_lia || done. }
  destruct (0 <? r) eqn:Er; [|injection Hf as -> ->; zify_bools; lia].
  destruct d; cbn in Hf.
  - by injection Hf as -> ->.
  - destruct (Hend tls12downgrade) as (tail & Ew & Hz' & Hr); [done|].
    change (32 - zlen tls12downgrade) with 24 in Hf. rewrite Ew in Hf. by injection Hf as -> <-.
  - destruct (Hend tls11downgrade) as (tail & Ew & Hz' & Hr); [done|].
    change (32 - zlen tls11downgrade) with 24 in Hf. rewrite Ew in Hf. by injection Hf as -> <-.
Qed.

(** A client that sees a sentinel refuses. *)
Lemma downgraded_refused s table fail min max real :
  method_version s = TLS_ANY_VERSION -> tls_IS_DTLS s = false -> table_of TLS_ANY_VERSION = Some table ->
  has_bits (mode (conf s)) tls_MODE_SEND_FALLBACK_SCSV = false ->
  tls_get_min_max_version s true = (0, min, max, real) -> version s < max ->
  (version s = TLS1_2_VERSION /\ random_ends s tls12downgrade = Some true \/
   version s < TLS1_2_VERSION /\ random_ends s tls11downgrade = Some true) ->
  exists al, choose_from_table s table fail = Some (fail s al).
Proof.
  intros Hm Hd Ht Hmode Hmm Hlt Hend. unfold choose_from_table. rewrite Hmm, Hd, Hmode.
  cbn [negb Z.eqb]. case_if; [by eexists|]. case_if; [by eexists|].
  assert (downgraded s max = Some true) as ->; [|by eexists].
  unfold downgraded. rewrite Hd, (proj2 (Z.ltb_lt _ _)) by done. cbn [negb andb].
  destruct Hend as [[Hv ->]|[Hv ->]].
  - by rewrite (proj2 (Z.eqb_eq _ _)).
  - rewrite (proj2 (Z.eqb_neq _ _)) by lia. by rewrite (proj2 (Z.ltb_lt _ _)).
Qed.

End Downgrade.

(** ** Properties *)

(** A connection of a TLS method without a fixed version that has not asked the
    client for another hello. *)
Definition version_flexible (s : tls) : Prop :=
  method_version s = TLS_ANY_VERSION /\ tls_IS_DTLS s = false /\
  hello_retry_request s = tls_HRR_NONE.

Lemma version_flexible_table `{Callouts} s : version_flexible s -> flexible s tls_version_table.
Proof. intros (Hm & Hd & _). unfold flexible. by rewrite Hm, Hd. Qed.

(** The server once it has noted the version that the client names. *)
Definition noted (s : tls) (hello : CLIENTHELLO_MSG) : tls :=
  s <| conf .: client_version := legacy_version hello |>.

(** For a version-flexible method (TLS or DTLS) [tls_get_min_max_version] fails
    exactly when no version may be used; otherwise every version of the table
    between the minimum and the maximum may be used, none below the minimum
    may, the version right above the maximum may not, and [*real_max] is the highest
    version that no version left out of the build separates from the maximum. *)
Theorem min_max_correct `{Callouts} s table want :
  flexible s table ->
  let r := rank (tls_IS_DTLS s) in
  let '(ret, min, max, real_max) := tls_get_min_max_version s want in
  (ret = tls_R_NO_PROTOCOLS_AVAILABLE /\ min = 0 /\ max = 0 /\
   forall w, w ∈ table -> ~ usable s w) \/
  (ret = 0 /\
   (forall w, w ∈ table -> r min <= r (v_version w) <= r max -> usable s w) /\
   (forall w, w ∈ table -> usable s w -> r min <= r (v_version w)) /\
   exists pre top run post first_ last_ real,
     lowest_run s table pre top run post /\
     head run = Some first_ /\ last run = Some last_ /\ head (top ++ run) = Some real /\
     min = v_version last_ /\ max = v_version first_ /\ real_max = v_version real).
Proof.
  intros Hflex r. pose proof (min_max_spec s table want (proj1 Hflex)) as Hmm.
  pose proof (flexible_sorted _ _ Hflex) as Hsort.
  destruct (tls_get_min_max_version s want) as [[[ret min] max] real].
  destruct Hmm as [(? & ? & ? & Hn)|(-> & pre & top & run & post & f & l & rl & Hr & Hf & Hl & Hh & -> & -> & ->)].
  - left. do 3 (split; [done|]). by apply Forall_forall.
  - right. split; [done|]. split; [intros w Hw; by apply (run_window s table pre top run post f l)|].
    split; [|by exists pre, top, run, post, f, l, rl].
    intros w Hw Huse. destruct Hr as [-> _ Hpost _ _ _].
    rewrite (app_assoc pre), (app_assoc (pre ++ top)) in *. apply elem_of_app in Hw as [Hw|Hw].
    2:{ by eapply Forall_forall in Hpost. }
    apply StronglySorted_app_1_l in Hsort. apply last_Some in Hl as [run' ->].
    rewrite app_assoc in *. apply elem_of_app in Hw as [Hw| ->%list_elem_of_singleton]; [|done].
    pose proof (StronglySorted_app_1_elem_of _ _ _ w l Hsort Hw ltac:(by left)) as Hlt.
    simpl in Hlt. unfold r. lia.
Qed.

(** The branch for a client that sends the extension. *)
Lemma choose_server_present `{Callouts} mem s hello ext body dgrd :
  bytes_ok mem -> version_flexible s ->
  pre_proc_exts hello !! TLSEXT_IDX_supported_versions = Some ext -> present ext = true ->
  packet_view mem (data ext) body ->
  let s1 := noted s hello in
  exists ret dgrd' s' hello',
    tls_choose_server_version mem s hello dgrd = Ret (ret, dgrd', s', hello') /\
    match spec_prefixed_all 1 body with
    | None => ret = tls_R_LENGTH_MISMATCH /\ s' = s1
    | Some (vs, _) =>
        if legacy_version hello <=? tls3_VERSION then ret = tls_R_BAD_LEGACY_VERSION /\ s' = s1
        else if bool_decide (snd (u16s vs) = [])
        then server_choice s1 tls_version_table (fst (u16s vs)) ret dgrd' s'
        else ret = tls_R_LENGTH_MISMATCH /\ s' = s1
    end.
Proof.
  intros Hmem Hs Hext Hpres Hv s1. pose proof Hs as (Hm & Hd & Hhrr).
  pose proof (version_flexible_table s Hs) as Hflex.
  destruct (choose_supported_spec Hmem s1 tls_version_table ext body dgrd Hflex Hd Hhrr Hv)
    as (ret & d & s' & x & Hc & Hspec).
  unfold tls_choose_server_version. cbv zeta. fold (noted s hello). fold s1.
  change (method_version s1) with (method_version s). rewrite (proj1 Hflex), Hext.
  cbn [mbind comp_bind defined]. change (hello_retry_request s1) with (hello_retry_request s).
  change (tls_IS_DTLS s1) with (tls_IS_DTLS s). rewrite Hpres, Hd. cbn [andb negb].
  rewrite Hc. cbn [mbind comp_bind]. by do 4 eexists.
Qed.

(** C10: a server with a version-flexible method chooses, of the versions a client
    lists in its supported_versions extension, the highest it may use itself; it
    refuses exactly when there is none, when the list is malformed, or when the
    client's legacy version is SSL 3 or lower.  For a client without the extension it
    chooses the highest version it may use up to the one named, TLS 1.2 at
    most.  It never reads outside of the message. *)
Theorem server_version_choice `{Callouts} mem s hello ext body dgrd :
  bytes_ok mem -> version_flexible s ->
  pre_proc_exts hello !! TLSEXT_IDX_supported_versions = Some ext ->
  (present ext = true -> packet_view mem (data ext) body) ->
  let s1 := noted s hello in
  let c := legacy_cap s1 (legacy_version hello) in
  exists ret dgrd' s' hello',
    tls_choose_server_version mem s hello dgrd = Ret (ret, dgrd', s', hello') /\
    if present ext then
      match spec_prefixed_all 1 body with
      | None => ret = tls_R_LENGTH_MISMATCH /\ s' = s1
      | Some (vs, _) =>
          if legacy_version hello <=? tls3_VERSION then ret = tls_R_BAD_LEGACY_VERSION /\ s' = s1
          else if bool_decide (snd (u16s vs) = [])
          then server_choice s1 tls_version_table (fst (u16s vs)) ret dgrd' s'
          else ret = tls_R_LENGTH_MISMATCH /\ s' = s1
      end
    else
      (exists vent sm, ret = 0 /\ s' = set_method (s1 <| version := v_version vent |>) sm /\
         vent ∈ tls_version_table /\ serves s1 c vent sm /\ tls_method_error s1 sm = 0 /\
         forall w sm', w ∈ tls_version_table -> serves s1 c w sm' ->
           tls_method_error s1 sm' = 0 -> v_version w <= v_version vent) \/
      (s' = s1 /\ ret <> 0 /\
       forall w sm, w ∈ tls_version_table -> serves s1 c w sm -> tls_method_error s1 sm <> 0).
Proof.
  intros Hmem Hs Hext Hv s1 c. destruct (present ext) eqn:Hpres.
  - by apply (choose_server_present mem s hello ext body dgrd); auto.
  - pose proof Hs as (Hm & Hd & Hhrr). pose proof (version_flexible_table s Hs) as Hflex0.
    assert (Hflex : flexible s1 tls_version_table) by exact Hflex0.
    assert (Hd1 : tls_IS_DTLS s1 = false) by exact Hd.
    unfold tls_choose_server_version. cbv zeta. fold (noted s hello). fold s1.
    change (method_version s1) with (method_version s). rewrite (proj1 Hflex0), Hext.
    cbn [mbind comp_bind defined]. change (hello_retry_request s1) with (hello_retry_request s).
    rewrite Hhrr, (bool_decide_true (tls_HRR_NONE = tls_HRR_NONE)) by done.
    rewrite Hpres, Hd1. cbn [andb negb].
    pose proof (choose_legacy_spec s1 tls_version_table dgrd Hflex) as Hl.
    destruct (choose_legacy_version s1 tls_version_table dgrd) as [[ret d] s'].
    do 4 eexists. split; [done|].
    destruct Hl as [(vent & sm & -> & _ & -> & Hin & Hsv & Hon & Hmax)|(-> & _ & Hno & Hret)].
    + left. exists vent, sm. do 5 (split; [done|]). rewrite Hd1 in Hmax. exact Hmax.
    + right. split; [done|]. split; [|done]. by destruct Hret as [[-> _]|[-> _]].
Qed.

(** When a ServerHello arrives, a client with a version-flexible method either
    takes a version of its table that it may use itself (the one the server
    names, or TLS 1.3 from the supported_versions extension), or refuses: then
    the version is what it was before and the connection is in a fatal error.  After a
    HelloRetryRequest it takes nothing but TLS 1.3. *)
Theorem client_version_choice `{Callouts} `{ExtCallouts} mem s v exts ext body table :
  bytes_ok mem -> flexible s table -> server s = false ->
  zlen (server_random (conf s)) = tls3_RANDOM_SIZE ->
  exts !! TLSEXT_IDX_supported_versions = Some ext ->
  (present ext = true -> packet_view mem (data ext) body) ->
  exists ok s' exts', tls_choose_client_version mem s v exts = Ret (ok, s', exts') /\
    if (ok : bool) then
      (version s' = v \/
       present ext = true /\ body = be_bytes 2 TLS1_3_VERSION /\ version s' = TLS1_3_VERSION) /\
      (hello_retry_request s <> tls_HRR_NONE -> version s' = TLS1_3_VERSION) /\
      client_takes (s <| version := version s' |>) table s'
    else version s' = version s /\ in_fatal_error s'.
Proof.
  intros Hmem Hflex Hsrv Hz Hext Hv. unfold tls_choose_client_version. cbv zeta.
  pose proof (fun s0 => parse_supported_versions_spec Hmem s0 exts ext body) as Hparse.
  destruct (Hparse (s <| version := v |>)) as (ok & s1 & exts1 & -> & Hs1); try done. clear Hparse.
  cbn [mbind comp_bind].
  assert (Hfail : forall s0 al, version (tlsfatal (s0 <| version := version s |>) al) = version s /\
            in_fatal_error (tlsfatal (s0 <| version := version s |>) al)).
  { intros s0 al. split; [|apply otls_statem_fatal_in_error].
    unfold tlsfatal, otls_statem_fatal. by repeat case_if. }
  destruct ok; cbn [negb].
  2:{ destruct Hs1 as [al ->]. do 3 eexists. split; [done|]. split; [done|].
      pose proof (otls_statem_fatal_in_error (s <| version := v |>) al) as Hf. exact Hf. }
  assert (Hcur : s1 = s <| version := version s1 |> /\
    (version s1 = v \/ present ext = true /\ body = be_bytes 2 TLS1_3_VERSION /\ version s1 = TLS1_3_VERSION)).
  { destruct Hs1 as [->|(? & ? & ->)]; split; try done; [by left|by right]. }
  destruct Hcur as [Es1 Hver]. clear Hs1.
  assert (Hh : hello_retry_request s1 = hello_retry_request s) by by rewrite Es1.
  assert (Hf1 : flexible s1 table) by by rewrite Es1.
  assert (Hz1 : zlen (server_random (conf s1)) = 32) by by rewrite Es1.
  destruct ((hello_retry_request s1 != tls_HRR_NONE) && negb (version s1 =? TLS1_3_VERSION)) eqn:Eh.
  { do 3 eexists. split; [done|]. apply Hfail. }
  rewrite (proj1 Hf1).
  destruct (choose_from_table_spec s1 table
              (fun s0 al => (false, tlsfatal (s0 <| version := version s |>) al)) Hf1 Hz1)
    as (ok & s' & -> & Hcase). cbn [mbind comp_bind defined]. do 3 eexists. split; [done|].
  destruct Hcase as [[al [= -> ->]]|[-> Htake]]; [apply Hfail|].
  assert (Hvs : version s' = version s1) by by destruct Htake as (? & ? & _ & _ & _ & _ & ->).
  rewrite Hvs. split; [done|]. split; [|by rewrite <- Es1].
  intros Hne. rewrite Hh, (bool_decide_false (hello_retry_request s = tls_HRR_NONE)) in Eh by done.
  cbn [negb andb] in Eh. by zify_bools.
Qed.

(** C9: a downgrade from TLS 1.3 to TLS 1.2, or to a version below TLS 1.2, is
    detected.  When a version-flexible server that could have used TLS 1.3 ends up
    with TLS 1.2, or one that could have used TLS 1.2 with something lower, and fills
    its random, then a version-flexible client that could have used a higher version
    too, and is not in the mode [tls_MODE_SEND_FALLBACK_SCSV], refuses, whatever an
    attacker did to make the two believe in the lower version: its connection is in a
    fatal error and its version is what it was.  From TLS 1.1 to 1.0, or with a server
    that has TLS 1.2 disabled, there is no sentinel to be seen. *)
Theorem downgrade_detected (server_env client_env : Callouts) `{ExtCallouts} `{Entropy}
  mem ss hello dgrd d ss' hello' blk ret random
  mem' cs v exts ext min max real higher :
  version_flexible ss ->
  @tls_choose_server_version server_env mem ss hello dgrd = Ret (0, d, ss', hello') ->
  (v = TLS1_2_VERSION /\ higher = TLS1_3_VERSION \/ v < TLS1_2_VERSION /\ higher = TLS1_2_VERSION) ->
  version ss' = v -> @negotiable server_env (noted ss hello) (@tls_version_table (@callouts_build server_env)) higher ->
  zlen blk = tls3_RANDOM_SIZE ->
  tls_fill_hello_random ss' true blk tls3_RANDOM_SIZE d = Some (ret, random) -> 0 < ret ->
  version_flexible cs -> server cs = false -> server_random (conf cs) = random ->
  has_bits (mode (conf cs)) tls_MODE_SEND_FALLBACK_SCSV = false ->
  exts !! TLSEXT_IDX_supported_versions = Some ext -> present ext = false ->
  @tls_get_min_max_version client_env (cs <| version := v |>) true = (0, min, max, real) -> v < max ->
  exists cs', @tls_choose_client_version client_env _ mem' cs v exts = Ret (false, cs', exts) /\
    in_fatal_error cs' /\ version cs' = version cs.
Proof.
  intros Hss Hchoose Hcase Hv Hneg Hblk Hfill Hret Hcs Hsrv Hrand Hmode Hext Hpres Hmm Hmax.
  pose proof Hss as (_ & Hd & Hhrr).
  assert (Hflex : @flexible server_env (noted ss hello) (@tls_version_table (@callouts_build server_env)))
    by exact (@version_flexible_table server_env ss Hss).
  apply (@choose_server_sentinel server_env _ _ _ _ _ _ _ _ (@version_flexible_table server_env ss Hss) Hhrr) in Hchoose.
  fold (noted ss hello) in Hchoose. rewrite Hv in Hchoose.
  apply (@negotiable_supported server_env) in Hneg; [|done].
  unfold check_for_downgrade in Hchoose. change (tls_IS_DTLS (noted ss hello)) with (tls_IS_DTLS ss) in Hchoose.
  destruct (fill_random_sentinel ss' true blk d ret random Hblk Hfill Hret) as [Hz Hend].
  pose proof Hcs as (Hm' & Hd' & Hhrr').
  set (cs1 := cs <| version := v |>) in *.
  destruct (@downgraded_refused client_env cs1 _
              (fun s0 al => (false, tlsfatal (s0 <| version := version cs |>) al)) min max real Hm' Hd' eq_refl
              Hmode Hmm Hmax) as [al Hrefuse].
  { unfold random_ends. change (server_random (conf cs1)) with (server_random (conf cs)).
    change (version cs1) with v.
    rewrite Hrand. destruct Hcase as [[-> ->]|[Hlt ->]].
    - left. split; [done|]. rewrite Hneg in Hchoose. subst d.
      change (32 - zlen tls12downgrade) with 24. change (zlen tls12downgrade) with 8.
      unfold tls3_RANDOM_SIZE. change (32 - 8) with 24. by rewrite Hend.
    - right. split; [done|]. rewrite Hneg, Hd in Hchoose.
      rewrite (proj2 (Z.eqb_neq _ _)), (proj2 (Z.ltb_lt _ _)) in Hchoose by lia. subst d.
      unfold tls3_RANDOM_SIZE. change (zlen tls11downgrade) with 8. change (32 - 8) with 24. by rewrite Hend. }
  unfold tls_choose_client_version, tls_parse_extension. cbv zeta. rewrite Hext. cbn [mbind comp_bind defined].
  rewrite Hpres. cbn [negb mbind comp_bind].
  fold cs1. change (hello_retry_request cs1) with (hello_retry_request cs).
  rewrite Hhrr', (bool_decide_true (tls_HRR_NONE = tls_HRR_NONE)) by done. cbn [negb andb].
  change (method_version cs1) with (method_version cs). rewrite Hm'.
  change (@table_of ?b TLS_ANY_VERSION) with (Some (@tls_version_table b)). cbn iota beta.
  rewrite Hrefuse. cbn [mbind comp_bind defined]. eexists. split; [done|].
  split; [apply otls_statem_fatal_in_error|]. unfold tlsfatal, otls_statem_fatal. by repeat case_if.
Qed.

(** Every build's table has the same versions. *)
Lemma table_versions (b1 b2 : Build) w :
  w ∈ @tls_version_table b1 ->
  exists w', w' ∈ @tls_version_table b2 /\ v_version w' = v_version w /\
    tls3_VERSION <= v_version w <= TLS1_3_VERSION.
Proof.
  assert (Hv : map v_version (@tls_version_table b1) = map v_version (@tls_version_table b2)).
  { unfold tls_version_table, version_entry. simpl. by repeat case_if. }
  assert (Hr : Forall (fun v => tls3_VERSION <= v <= TLS1_3_VERSION) (map v_version (@tls_version_table b1))).
  { unfold tls_version_table, version_entry. simpl. repeat constructor; repeat case_if; done. }
  intros Hin. assert (Hin' : v_version w ∈ map v_version (@tls_version_table b1)).
  { apply list_elem_of_fmap. by exists w. }
  pose proof (proj1 (Forall_forall _ _) Hr _ Hin') as Hrange.
  rewrite Hv in Hin'. apply list_elem_of_fmap in Hin' as (w' & ? & ?). by exists w'.
Qed.

(** What a client that sends the extension offers. *)
Lemma construct_offer `{Callouts} `{Malloc} secure
  (secure_zlen : forall n blk, 0 <= n -> secure n = Some blk -> zlen blk = n) s s' pkt out pkt' :
  version_flexible s -> wp_view pkt out ->
  do_construct_ctos_supported_versions secure s pkt = Ret (EXT_RETURN_SENT, s', pkt') ->
  exists vs body, body = be_bytes 1 (zlen (version_bytes vs)) ++ version_bytes vs /\
    zlen (version_bytes vs) < 256 /\ u16s (version_bytes vs) = (vs, []) /\
    wp_view pkt' (out ++ be_bytes 2 TLSEXT_TYPE_supported_versions ++ be_bytes 2 (zlen body) ++ body) /\
    (forall w, w ∈ tls_version_table -> v_version w ∈ vs <-> usable s w).
Proof.
  intros Hs Hv Hc. pose proof (version_flexible_table s Hs) as Hflex. pose proof Hs as (_ & Hd & _).
  pose proof (min_max_spec s tls_version_table false (proj1 Hflex)) as Hmm.
  pose proof (flexible_sorted _ _ Hflex) as Hsort.
  destruct (tls_get_min_max_version s false) as [[[ret min] max] real] eqn:Emm.
  destruct (Z.eqb_spec ret 0) as [->|Hne].
  2:{ unfold do_construct_ctos_supported_versions in Hc. rewrite Emm in Hc.
      by rewrite (proj2 (Z.eqb_neq _ _)) in Hc. }
  destruct (Z.lt_ge_cases max TLS1_3_VERSION) as [Hlt|Hge].
  { unfold do_construct_ctos_supported_versions in Hc. rewrite Emm in Hc.
    cbn [Z.eqb negb] in Hc. by rewrite (proj2 (Z.ltb_lt _ _)) in Hc. }
  destruct Hmm as [[? _]|(_ & pre & top & run & post & f & l & rl & Hr & Hf & Hl & _ & -> & -> & _)]; [done|].
  rewrite (construct_ctos_items secure s pkt _ _ real Emm Hge) in Hc.
  set (vs := versions_down _ _) in Hc.
  assert (Hfin : f ∈ tls_version_table /\ l ∈ tls_version_table).
  { destruct Hr as [-> _ _ _ _ _]. destruct run as [|f' run]; [done|]. injection Hf as ->.
    apply last_Some in Hl as [run' Hl]. split.
    - rewrite !elem_of_app. right. right. left. by left.
    - rewrite !elem_of_app. right. right. left. rewrite Hl. apply elem_of_app. right. by left. }
  destruct Hfin as [Hfin Hlin].
  destruct (table_versions _ callouts_build f Hfin) as (_ & _ & _ & Hfr).
  destruct (table_versions _ callouts_build l Hlin) as (_ & _ & _ & Hlr).
  unfold tls3_VERSION, TLS1_3_VERSION in *.
  assert (Hin : forall v, v ∈ vs <-> v_version l <= v <= v_version f).
  { intros v. unfold vs. rewrite in_versions_down. lia. }
  assert (Hok : items_ok (supported_versions_items vs)) by (apply versions_down_ok; lia).
  destruct (run_items_spec secure secure_zlen _ Hok pkt out Hv) as (ok & p & Hrun & Hsucc & _).
  rewrite Hrun in Hc. destruct ok; [|done]. injection Hc as _ ->.
  destruct (Hsucc eq_refl) as (e & He & Hview & _).
  apply encode_versions in He as (-> & Hz & Hall).
  exists vs, (be_bytes 1 (zlen (version_bytes vs)) ++ version_bytes vs).
  split; [done|]. split; [done|]. split; [by apply u16s_version_bytes|].
  split; [by rewrite zlen_app, zlen_be_bytes|].
  intros w Hw. rewrite Hin. destruct (table_versions _ callouts_build w Hw) as (_ & _ & _ & Hwr).
  unfold tls3_VERSION, TLS1_3_VERSION in *. split.
  - intros Hwin. apply (run_window s tls_version_table pre top run post f l w); try done.
    rewrite Hd. exact Hwin.
  - intros Huse. split; [|lia].
    destruct (Z.le_gt_cases (v_version l) (v_version w)) as [|Hlow]; [done|exfalso].
    destruct Hr as [Hspl _ Hpost _ _ _]. rewrite Hspl, (app_assoc pre), (app_assoc (pre ++ top)) in Hw, Hsort.
    apply elem_of_app in Hw as [Hw|Hw]; [|by eapply Forall_forall in Hpost].
    apply StronglySorted_app_1_l in Hsort. apply last_Some in Hl as [run' ->].
    rewrite app_assoc in Hw, Hsort. apply elem_of_app in Hw as [Hw| ->%list_elem_of_singleton]; [|lia].
    pose proof (StronglySorted_app_1_elem_of _ _ _ w l Hsort Hw ltac:(by left)) as Hlt.
    simpl in Hlt. rewrite Hd in Hlt. simpl in Hlt. lia.
Qed.

(** The versions that both sides may use: a client by its own table, and a server
    that received the client's hello. *)
Definition common_version (client_env server_env : Callouts) (cs ss : tls) (v : Z) : Prop :=
  (exists vent, vent ∈ @tls_version_table (@callouts_build client_env) /\ v_version vent = v /\
     @usable client_env cs vent) /\
  @negotiable server_env ss (@tls_version_table (@callouts_build server_env)) v.

(** C8: client and server agree on the highest version both may use.  What a client
    writes as its supported_versions extension, delivered to a server in any
    message block, makes the server choose the highest version both may use, or
    refuse when there is none. *)
Theorem version_agreement (client_env server_env : Callouts) `{Malloc} secure
  (secure_zlen : forall n blk, 0 <= n -> secure n = Some blk -> zlen blk = n) cs cs' pkt out pkt' :
  version_flexible cs -> wp_view pkt out ->
  @do_construct_ctos_supported_versions client_env _ secure cs pkt = Ret (EXT_RETURN_SENT, cs', pkt') ->
  exists body,
    wp_view pkt' (out ++ be_bytes 2 TLSEXT_TYPE_supported_versions ++ be_bytes 2 (zlen body) ++ body) /\
    forall mem ss hello ext dgrd,
      bytes_ok mem -> version_flexible ss ->
      pre_proc_exts hello !! TLSEXT_IDX_supported_versions = Some ext -> present ext = true ->
      packet_view mem (data ext) body -> tls3_VERSION < legacy_version hello ->
      let common := common_version client_env server_env cs (noted ss hello) in
      exists ret dgrd' ss' hello',
        @tls_choose_server_version server_env mem ss hello dgrd = Ret (ret, dgrd', ss', hello') /\
        ((ret = 0 /\ common (version ss') /\ forall v, common v -> v <= version ss') \/
         (ret = tls_R_UNSUPPORTED_PROTOCOL /\ ss' = noted ss hello /\ forall v, ~ common v)).
Proof.
  intros Hcs Hv Hc.
  destruct (@construct_offer client_env _ secure secure_zlen _ _ _ _ _ Hcs Hv Hc)
    as (vs & body & Eb & Hz & Hu & Hview & Hoffer).
  exists body. split; [done|]. intros mem ss hello ext dgrd Hmem Hss Hext Hpres Hbody Hleg common.
  destruct (@choose_server_present server_env mem ss hello ext body dgrd Hmem Hss Hext Hpres Hbody)
    as (ret & d' & ss' & hello' & Hch & Hres).
  exists ret, d', ss', hello'. split; [done|].
  assert (Hbody' : spec_prefixed_all 1 body = Some (version_bytes vs, [])).
  { unfold spec_prefixed_all. rewrite Eb, <- (app_nil_r (_ ++ _)).
    rewrite spec_prefixed_vector by (change (256 ^ Z.of_nat 1) with 256; lia). done. }
  rewrite Hbody', (proj2 (Z.leb_gt _ _)), Hu in Hres by lia. cbn [fst snd] in Hres.
  rewrite (bool_decide_true (@nil Z = [])) in Hres by done.
  assert (Hcommon : forall v, common v <-> v ∈ vs /\
            @negotiable server_env (noted ss hello) (@tls_version_table (@callouts_build server_env)) v).
  { intros v. unfold common, common_version. split.
    - intros [(w & Hw & <- & Huse) Hneg]. split; [by apply (Hoffer w Hw)|done].
    - intros [Hin Hneg]. split; [|done]. destruct Hneg as (w & Hw & Ew & _).
      destruct (table_versions _ (@callouts_build client_env) w Hw) as (w' & Hw' & Ew' & _).
      exists w'. split; [done|]. split; [congruence|]. apply (Hoffer w' Hw'). congruence. }
  destruct Hres as [(m & -> & _ & _ & _ & Hin & Hneg & Hmax)|(-> & -> & Hno)].
  - left. split; [done|]. split; [by apply Hcommon|]. intros v [Hvs Hvn]%Hcommon. by apply Hmax.
  - right. split; [done|]. split; [done|]. intros v [Hvs Hvn]%Hcommon. by apply (Hno v).
Qed.

(** ** The properties on concrete connections *)

(** Extensions whose own functions do nothing; there are no custom ones. *)
Definition idle_extensions : ExtCallouts := {|
  run_ext_init _ _ := yes;
  run_ext_parse _ _ _ _ := yes;
  run_ext_construct _ s pkt _ _ := (EXT_RETURN_NOT_SENT, s, pkt);
  run_ext_final _ _ _ s := (true, s);
  tls_handle_alpn := yes;
  tls_group_allowed _ _ := true;
  tls1_get_peer_groups _ := [];
  tls1_get_supported_groups _ := [];
  tls13_generate_handshake_secret := yes;
  run_allow_early_data_cb _ := false;
  run_parse_cb _ _ _ _ s := (1, 0, s);
  run_add_cb _ _ _ s := (0, [], 0, s);
  null_minus_raw := 0x0ccccccc
|}.

(** A source of randomness. *)
Definition sevens : Entropy := {| RAND_bytes n := (1, replicate (Z.to_nat n) 7); time := 0x5e0be100 |}.

Definition flexible_client : tls := sample_tls TLS_ANY_VERSION false TLS_ST_OK.
(** A server with a session ticket key for pre-shared keys, so that it can speak TLS 1.3. *)
Definition flexible_server : tls :=
  (sample_tls TLS_ANY_VERSION true TLS_ST_OK) <| conf .: psk_server_callback := true |>.

(** The list of TLS 1.3 to TLS 1.0, as an extension of a hello and in its block. *)
Definition offered_block : list Z := [8; 3; 4; 3; 3; 3; 2; 3; 1].
Definition absent : RAW_EXTENSION := mk_RAW_EXTENSION (mk_PACKET None 0) false false 0 0.
Definition offer : RAW_EXTENSION := mk_RAW_EXTENSION (mk_PACKET (Some 0) 9) true false 43 0.
Definition hello_with (x : RAW_EXTENSION) (v : Z) : CLIENTHELLO_MSG :=
  mk_CLIENTHELLO_MSG v (<[TLSEXT_IDX_supported_versions := x]> (replicate 26 absent)).

Lemma offered_block_ok : bytes_ok offered_block /\ packet_view offered_block (data offer) offered_block.
Proof. split; [repeat constructor; lia|]. split; [by rewrite SIZE_MAX_half|done]. Qed.

Lemma sample_flexible srv : version_flexible (sample_tls TLS_ANY_VERSION srv TLS_ST_OK).
Proof. done. Qed.

Lemma flexible_server_ok : version_flexible flexible_server.
Proof. done. Qed.

Lemma min_max_correct_witness :
  @flexible quiet flexible_client (@tls_version_table default_build) /\
  exists first_, first_ ∈ @tls_version_table default_build /\ v_version first_ = TLS1_3_VERSION /\
    @usable quiet flexible_client first_.
Proof.
  assert (Hflex : @flexible quiet flexible_client (@tls_version_table default_build)).
  { exact (@version_flexible_table quiet _ (sample_flexible false)). }
  split; [exact Hflex|].
  pose proof (@min_max_correct quiet flexible_client _ true Hflex) as H. cbv zeta in H.
  assert (E : @tls_get_min_max_version quiet flexible_client true =
              (0, TLS1_VERSION, TLS1_3_VERSION, TLS1_3_VERSION)) by reflexivity.
  rewrite E in H. destruct H as [(H & _)|(_ & H & _)]; [discriminate|].
  eexists. split; [left|]. split; [reflexivity|]. apply H; [left|].
  split; vm_compute; discriminate.
Defined.

Lemma server_version_choice_witness :
  exists dgrd s' hello',
    @tls_choose_server_version quiet offered_block flexible_server (hello_with offer 0x0303)
      DOWNGRADE_NONE = Ret (0, dgrd, s', hello') /\ version s' = TLS1_3_VERSION.
Proof.
  destruct offered_block_ok as [Hb Hv].
  destruct (@server_version_choice quiet offered_block flexible_server (hello_with offer 0x0303) offer
              offered_block DOWNGRADE_NONE Hb flexible_server_ok eq_refl (fun _ => Hv))
    as (ret & d & s' & hello' & Hrun & Hres).
  rewrite Hrun. exists d, s', hello'.
  assert (ret = 0 /\ version s' = TLS1_3_VERSION) as [-> Hver].
  { vm_compute in Hrun. injection Hrun as <- <- <- <-. by split. }
  by split.
Defined.

(** The client has asked for any version and a ServerHello names TLS 1.2. *)
Lemma client_version_choice_witness :
  exists s' exts',
    @tls_choose_client_version quiet idle_extensions offered_block flexible_client TLS1_2_VERSION
      (replicate 26 absent) = Ret (true, s', exts') /\ version s' = TLS1_2_VERSION.
Proof.
  destruct (@client_version_choice quiet idle_extensions offered_block flexible_client TLS1_2_VERSION
              (replicate 26 absent) absent [] (@tls_version_table default_build)
              (proj1 offered_block_ok) (@version_flexible_table quiet _ (sample_flexible false))
              eq_refl eq_refl eq_refl)
    as (ok & s' & exts' & Hrun & Hres); [discriminate|].
  exists s', exts'. rewrite Hrun. vm_compute in Hrun. injection Hrun as <- <- <-. by split.
Defined.

(** A server that speaks TLS 1.3 is made to believe that the client does not. *)
Lemma downgrade_detected_witness :
  exists cs', @tls_choose_client_version quiet idle_extensions offered_block
      (flexible_client <| conf .: server_random := replicate 24 7 ++ tls12downgrade |>)
      TLS1_2_VERSION (replicate 26 absent) = Ret (false, cs', replicate 26 absent) /\
    in_fatal_error cs'.
Proof.
  assert (Hrun : exists ss' hello',
    @tls_choose_server_version quiet offered_block flexible_server (hello_with absent 0x0303)
      DOWNGRADE_NONE = Ret (0, DOWNGRADE_TO_1_2, ss', hello') /\ version ss' = TLS1_2_VERSION).
  { do 2 eexists. split; [vm_compute; reflexivity|reflexivity]. }
  destruct Hrun as (ss' & hello' & Hrun & Hver).
  destruct (@downgrade_detected quiet quiet idle_extensions sevens offered_block flexible_server
              (hello_with absent 0x0303) DOWNGRADE_NONE DOWNGRADE_TO_1_2 ss' hello'
              (replicate 32 0) 1 (replicate 24 7 ++ tls12downgrade) offered_block
              (flexible_client <| conf .: server_random := replicate 24 7 ++ tls12downgrade |>)
              TLS1_2_VERSION (replicate 26 absent) absent TLS1_VERSION TLS1_3_VERSION TLS1_3_VERSION
              TLS1_3_VERSION flexible_server_ok Hrun)
    as (cs' & Hcs & Hf & _); try reflexivity; try done.
  - by left.
  - eexists. split; [left|]. split; [reflexivity|]. split; [eexists; split; vm_compute; reflexivity|done].
  - vm_compute in Hrun. by injection Hrun as <- <-.
  - by exists cs'.
Defined.

Lemma version_agreement_witness :
  exists body : list Z,
    (exists cs' pkt', @do_construct_ctos_supported_versions quiet generous_malloc no_secure
       flexible_client sample_wpacket = Ret (EXT_RETURN_SENT, cs', pkt')) /\
    zlen body = 9 /\
    exists dgrd s' hello',
      @tls_choose_server_version quiet offered_block flexible_server (hello_with offer 0x0303)
        DOWNGRADE_NONE = Ret (0, dgrd, s', hello') /\
      common_version quiet quiet flexible_client (noted flexible_server (hello_with offer 0x0303))
        (version s').
Proof.
  assert (Hrun : exists cs' pkt' blk, @do_construct_ctos_supported_versions quiet generous_malloc no_secure
       flexible_client sample_wpacket = Ret (EXT_RETURN_SENT, cs', pkt') /\ written pkt' = 14 /\
       GETBUF pkt' = Some blk /\ take 14 blk = [9; 0; 43; 0; 9] ++ offered_block).
  { do 3 eexists. split; [vm_compute; reflexivity|]. by split; [|split]. }
  destruct Hrun as (cs' & pkt' & blk & Hrun & Hw & Hblk & Hout).
  destruct (@version_agreement quiet quiet generous_malloc no_secure no_secure_zlen flexible_client cs'
              sample_wpacket [9] pkt' (sample_flexible false)) as (body & Hview & Hserver).
  { split; [done|]. unfold block_ok. simpl. split_and!; try done; by left. }
  { exact Hrun. }
  assert (body = offered_block) as ->.
  { destruct Hview as (_ & Hz & _ & _ & _ & _ & Hb). rewrite Hblk in Hb. rewrite Hw in Hz.
    match type of Hb with take ?n _ = _ => assert (n = 14%nat) as Hn by exact (Nat2Z.inj _ 14 (eq_sym Hz)) end.
    rewrite Hn, Hout in Hb.
    cbn in Hb. by injection Hb. }
  exists offered_block. split; [by eexists _, _|]. split; [done|].
  destruct (Hserver offered_block flexible_server (hello_with offer 0x0303) offer DOWNGRADE_NONE)
    as (ret & d & s' & hello' & Hch & Hres); try reflexivity; try apply offered_block_ok; try exact flexible_server_ok.
  exists d, s', hello'. destruct Hres as [(-> & Hcommon & _)|(-> & _)]; [by split|exfalso].
  vm_compute in Hch. discriminate.
Defined.
