(* ===== verification/Collect.v ===== *)
(** * Properties of the extensions framework

    [tls_collect_extensions] accepts exactly the blocks of extensions that the protocol
    allows, and puts every known extension in its place; [tls_parse_all_extensions]
    hands each of them to its parser at most once. *)

From S2P Require Import Prelude Mem Packet Buffer WPacket Wire TlsState Protocol StatemLib StatemClnt StatemSrvr Statem Sample Handshake Flights Machine Extensions Version Negotiation.
From stdpp Require Import list.
Local Open Scope Z_scope.
Local Open Scope tls_scope.

(** ** Blocks of extensions *)

(** An extension as it is on the wire: type, length, data. *)
Definition ext_bytes (e : Z * list Z) : list Z :=
  be_bytes 2 (fst e) ++ be_bytes 2 (zlen (snd e)) ++ snd e.
Definition ext_ok (e : Z * list Z) : Prop :=
  0 <= fst e < 65536 /\ zlen (snd e) < 65536 /\ bytes_ok (snd e).

(** The bytes [l] are the extensions [exts]. *)
Definition extensions_of (exts : list (Z * list Z)) (l : list Z) : Prop :=
  Forall ext_ok exts /\ l = concat (map ext_bytes exts).

Lemma ext_bytes_length e : 4 <= zlen (ext_bytes e).
Proof. unfold ext_bytes. rewrite !zlen_app, !zlen_be_bytes. pose proof (zlen_nonneg (snd e)). lia. Qed.

Lemma extensions_of_nil exts : extensions_of exts [] -> exts = [].
Proof.
  by intros [_ H]; destruct exts.
Qed.

(** What the two readers of an iteration find. *)
Lemma read_ext_forward e exts l : extensions_of (e :: exts) l ->
  exists l1 l2, spec_net 2 l = Some (fst e, l1) /\ spec_prefixed 2 l1 = Some (snd e, l2) /\
    extensions_of exts l2.
Proof.
  intros [[(Ht & Hz & Hb) Hexts]%Forall_cons ->]. cbn [map concat]. unfold ext_bytes. rewrite <- !app_assoc.
  rewrite spec_net_be_bytes by exact Ht. eexists _, _. split; [done|].
  rewrite (app_assoc (be_bytes 2 (zlen _))), spec_prefixed_vector; [done|].
  exact Hz.
Qed.

Lemma spec_net_backward n l v rest : bytes_ok l -> spec_net n l = Some (v, rest) ->
  l = be_bytes n v ++ rest /\ 0 <= v < 256 ^ Z.of_nat n.
Proof.
  unfold spec_net. intros Hl. case_bool_decide as Hn; [|done]. intros [= <- <-].
  assert (Hlen : length (take n l) = n) by (rewrite length_take; lia).
  assert (Ht : bytes_ok (take n l)) by (by apply Forall_take).
  split.
  - rewrite <- Hlen at 1. by rewrite be_bytes_be_val, take_drop.
  - pose proof (be_val_bound _ Ht). unfold zlen in *. by rewrite Hlen in *.
Qed.

Lemma read_ext_backward t d l l1 l2 exts : bytes_ok l ->
  spec_net 2 l = Some (t, l1) -> spec_prefixed 2 l1 = Some (d, l2) ->
  extensions_of exts l2 -> extensions_of ((t, d) :: exts) l.
Proof.
  intros Hl Ht Hd [Hexts ->]. apply spec_net_backward in Ht as [-> Ht]; [|done].
  apply bytes_ok_app in Hl as [_ Hl]. unfold spec_prefixed in Hd.
  destruct (spec_net 2 l1) as [[n l1']|] eqn:En; [|done]. cbn [mbind option_bind] in Hd.
  apply spec_net_backward in En as [-> Hn]; [|done]. apply bytes_ok_app in Hl as [_ Hl].
  unfold spec_bytes in Hd. case_bool_decide as Hle; [|done]. injection Hd as <- Hrest.
  assert (Hz : zlen (take (Z.to_nat n) l1') = n) by (rewrite zlen_take; lia).
  split.
  - constructor; [|done]. split; [exact Ht|]. simpl. rewrite Hz. split; [exact (proj2 Hn)|].
    by apply Forall_take.
  - cbn [map concat]. rewrite <- Hrest. unfold ext_bytes. cbn [fst snd].
    by rewrite Hz, <- !app_assoc, take_drop.
Qed.

(** ** What is allowed in a block

    The rules of the protocol, written down without the code's table and masks. *)

(** The messages with extensions.  The client collects those of a ServerHello before it
    knows which version it is of ([M_server_hello]); an extension of either version passes
    then, and is looked at again when the version is known. *)
Inductive ext_message : Type :=
| M_client_hello | M_server_hello | M_server_hello_1_2 | M_server_hello_1_3
| M_hello_retry_request | M_encrypted_extensions
| M_certificate | M_certificate_request | M_new_session_ticket.

#[export] Instance ext_message_eq_dec : EqDecision ext_message.
Proof. solve_decision. Defined.

(** The argument [context] with which each of them is read. *)
Definition message_context (m : ext_message) : Z :=
  match m with
  | M_client_hello => tls_EXT_CLIENT_HELLO
  | M_server_hello => Z.lor tls_EXT_TLS1_2_SERVER_HELLO tls_EXT_TLS1_3_SERVER_HELLO
  | M_server_hello_1_2 => tls_EXT_TLS1_2_SERVER_HELLO
  | M_server_hello_1_3 => tls_EXT_TLS1_3_SERVER_HELLO
  | M_hello_retry_request => tls_EXT_TLS1_3_HELLO_RETRY_REQUEST
  | M_encrypted_extensions => tls_EXT_TLS1_3_ENCRYPTED_EXTENSIONS
  | M_certificate => tls_EXT_TLS1_3_CERTIFICATE
  | M_certificate_request => tls_EXT_TLS1_3_CERTIFICATE_REQUEST
  | M_new_session_ticket => tls_EXT_TLS1_3_NEW_SESSION_TICKET
  end.

Inductive transport : Type := any_transport | datagrams_only.

#[export] Instance transport_eq_dec : EqDecision transport.
Proof. solve_decision. Defined.

(** The extensions the library knows, in the order of their places: the number of
    the type as assigned, the messages that may carry it, the transport. *)
Definition builtin_extensions : list (Z * list ext_message * transport) :=
  let of_1_2 := [M_client_hello; M_server_hello_1_2] in
  let of_1_3 := [M_client_hello; M_server_hello_1_3] in
  let with_encrypted := [M_client_hello; M_server_hello_1_2; M_encrypted_extensions] in
  let of_certificates :=
    [M_client_hello; M_server_hello_1_2; M_certificate; M_certificate_request] in
  let of_requests := [M_client_hello; M_certificate_request] in
  let with_retry := [M_client_hello; M_server_hello_1_3; M_hello_retry_request] in
  [ (65281, of_1_2, any_transport);                     (* renegotiation_info *)
    (0, with_encrypted, any_transport);                 (* server_name *)
    (1, with_encrypted, any_transport);                 (* max_fragment_length *)
    (12, [M_client_hello], any_transport);              (* srp *)
    (11, of_1_2, any_transport);                        (* ec_point_formats *)
    (10, with_encrypted, any_transport);                (* supported_groups *)
    (35, of_1_2, any_transport);                        (* session_ticket *)
    (5, of_certificates, any_transport);                (* status_request *)
    (13172, of_1_2, any_transport);                     (* next_protocol_negotiation *)
    (16, with_encrypted, any_transport);                (* ALPN *)
    (14, with_encrypted, datagrams_only);               (* use_srtp *)
    (22, of_1_2, any_transport);                        (* encrypt_then_mac *)
    (18, of_certificates, any_transport);               (* signed_certificate_timestamp *)
    (23, of_1_2, any_transport);                        (* extended_master_secret *)
    (50, of_requests, any_transport);                   (* signature_algorithms_cert *)
    (49, [M_client_hello], any_transport);              (* post_handshake_auth *)
    (13, of_requests, any_transport);                   (* signature_algorithms *)
    (43, with_retry, any_transport);                    (* supported_versions *)
    (45, [M_client_hello], any_transport);              (* psk_key_exchange_modes *)
    (51, with_retry, any_transport);                    (* key_share *)
    (44, [M_client_hello; M_hello_retry_request], any_transport);   (* cookie *)
    (65000, of_1_2, any_transport);                     (* CryptoPro bug *)
    (42, [M_client_hello; M_encrypted_extensions; M_new_session_ticket], any_transport);
                                                        (* early_data *)
    (47, of_requests, any_transport);                   (* certificate_authorities *)
    (21, [M_client_hello], any_transport);              (* padding *)
    (41, of_1_3, any_transport) ].                      (* pre_shared_key *)

Definition listed (messages : list ext_message) (m : ext_message) : bool :=
  match m with
  | M_server_hello =>
      bool_decide (M_server_hello_1_2 ∈ messages) || bool_decide (M_server_hello_1_3 ∈ messages)
  | _ => bool_decide (m ∈ messages)
  end.

(** An extension of the application's names the messages and the transport in a
    word: bit 0 forbids datagrams, bit 1 requires them, and each message has its
    bit, a ServerHello two, one for each of the versions. *)
Definition message_bits (m : ext_message) : list Z :=
  match m with
  | M_client_hello => [7] | M_server_hello => [8; 9]
  | M_server_hello_1_2 => [8] | M_server_hello_1_3 => [9] | M_encrypted_extensions => [10]
  | M_hello_retry_request => [11] | M_certificate => [12] | M_new_session_ticket => [13]
  | M_certificate_request => [14]
  end.

Definition custom_allowed (dtls : bool) (meth : custom_ext_method) (m : ext_message) : bool :=
  existsb (Z.testbit (ext_context meth)) (message_bits m) &&
  negb (Z.testbit (ext_context meth) (if dtls then 0 else 1)).

(** It may be for one side only.  That matters in the two hellos, of which the server
    reads the one and the client the other. *)
Definition custom_concerns (m : ext_message) (type : Z) (meth : custom_ext_method) : Prop :=
  type = ext_type meth /\
  match m, role meth with
  | M_client_hello, ENDPOINT_CLIENT => False
  | (M_server_hello | M_server_hello_1_2), ENDPOINT_SERVER => False
  | _, _ => True
  end.

#[export] Instance custom_concerns_dec m type meth : Decision (custom_concerns m type meth).
Proof. unfold custom_concerns. destruct m, (role meth); apply _. Defined.

(** How an extension of type [type] stands in the message [m]: [None] when it is not
    allowed, [Some None] when nobody knows it (that is always allowed), otherwise its
    place, which for the application's extensions is after the built-in ones. *)
Definition standing (s : tls) (m : ext_message) (type : Z) : option (option nat) :=
  match list_find (fun d => type = d.1.1) builtin_extensions with
  | Some (k, (_, messages, over)) =>
      if listed messages m &&
         match over with any_transport => true | datagrams_only => tls_IS_DTLS s end
      then Some (Some k) else None
  | None =>
      match list_find (custom_concerns m type) (get_custext s) with
      | Some (j, meth) =>
          if custom_allowed (tls_IS_DTLS s) meth m then Some (Some (26 + j)%nat) else None
      | None => Some None
      end
  end.

(** Messages whose extensions are not answers to extensions of ours, and
    extensions that come without having been asked for: the cookie,
    renegotiation_info (asked for with a cipher suite), signed_certificate_timestamp
    (the parser looks after it) and, in a ServerHello before TLS 1.3, the CryptoPro
    extension. *)
Definition starts_exchange (m : ext_message) : Prop :=
  m = M_client_hello \/ m = M_certificate_request \/ m = M_new_session_ticket.
Definition volunteered (m : ext_message) (type : Z) : Prop :=
  type = 44 \/ type = 65281 \/ type = 18 \/ ((m = M_server_hello \/ m = M_server_hello_1_2) /\ type = 65000).

(** *** The code's tables and masks say the same *)

Lemma land_bits_0 x bits :
  Forall (fun b => 0 <= b) bits ->
  (Z.land (foldr (fun b => Z.lor (2 ^ b)) 0 bits) x =? 0) = negb (existsb (Z.testbit x) bits).
Proof.
  intros Hb. rewrite Z.land_comm.
  assert (E : has_bits x (foldr (fun b => Z.lor (2 ^ b)) 0 bits) = existsb (Z.testbit x) bits).
  { induction Hb as [|b bits Hb _ IH]; [unfold has_bits; by rewrite Z.land_0_r|].
    cbn [foldr existsb]. by rewrite has_bits_lor, has_bits_pow2, IH. }
  rewrite <- E. unfold has_bits, truth. by rewrite negb_involutive.
Qed.

Lemma message_context_bits m :
  message_context m = foldr (fun b => Z.lor (2 ^ b)) 0 (message_bits m).
Proof. by destruct m. Qed.

Lemma validate_custom s meth m :
  validate_context s (ext_context meth) (message_context m) = custom_allowed (tls_IS_DTLS s) meth m.
Proof.
  unfold validate_context, custom_allowed. rewrite message_context_bits, land_bits_0.
  2:{ destruct m; repeat constructor; lia. }
  change tls_EXT_TLS_ONLY with (2 ^ 0). change tls_EXT_DTLS_ONLY with (2 ^ 1).
  rewrite !has_bits_pow2 by done. destruct (existsb _ _); [|done]. by destruct (tls_IS_DTLS s).
Qed.

(** A definition of the code's table and a row of ours. *)
Definition same_row (d : EXTENSION_DEFINITION) (row : Z * list ext_message * transport) : Prop :=
  xd_type d = row.1.1 /\
  has_bits (xd_context d) tls_EXT_TLS_ONLY = false /\
  has_bits (xd_context d) tls_EXT_DTLS_ONLY = bool_decide (row.2 = datagrams_only) /\
  forall m, (Z.land (message_context m) (xd_context d) =? 0) = negb (listed row.1.2 m).

Lemma tables_agree : Forall2 same_row ext_defs builtin_extensions.
Proof.
  unfold ext_defs, builtin_extensions.
  repeat (apply List.Forall2_cons; [do 3 (split; [vm_compute; reflexivity|]); intros []; vm_compute; reflexivity|]).
  apply List.Forall2_nil.
Qed.

Lemma rows_found type defs rows : Forall2 same_row defs rows ->
  match list_find (fun d => type = xd_type d) defs, list_find (fun d => type = d.1.1) rows with
  | Some (i, d), Some (k, row) => i = k /\ same_row d row
  | None, None => True
  | _, _ => False
  end.
Proof.
  induction 1 as [|d row defs rows Hrow _ IH]; [done|]. cbn [list_find].
  destruct Hrow as [Ht Hrest] eqn:E. rewrite Ht. case_decide; [by split|].
  destruct (list_find (fun d => type = xd_type d) defs) as [[i d']|],
    (list_find (fun d => type = d.1.1) rows) as [[k row']|]; try done.
  cbn. destruct IH as [-> IH]. by split.
Qed.

Lemma custom_found s m type :
  custom_ext_find (get_custext s) (hello_role (message_context m)) type =
  list_find (custom_concerns m type) (get_custext s).
Proof.
  unfold custom_ext_find. apply list_find_ext. intros meth. unfold custom_concerns.
  destruct m;
    match goal with
    | |- context [hello_role ?x] => let v := eval vm_compute in (hello_role x) in change (hello_role x) with v
    end; destruct (role meth); intuition congruence.
Qed.

Lemma verify_standing s m type : verify_extension s (message_context m) type = standing s m type.
Proof.
  unfold verify_extension, standing. pose proof (rows_found type _ _ tables_agree) as Hrows.
  destruct (list_find (fun d => type = xd_type d) ext_defs) as [[i d]|],
    (list_find (fun d => type = d.1.1) builtin_extensions) as [[k [[t ms] over]]|]; try done.
  - destruct Hrows as [-> (_ & H1 & H2 & Hm)]. unfold validate_context. rewrite H1, H2, Hm. cbn [fst snd].
    destruct (listed ms m), over, (tls_IS_DTLS s); done.
  - rewrite custom_found. destruct (list_find (custom_concerns m type) _) as [[j meth]|]; [|done].
    rewrite validate_custom. by rewrite Nat.add_comm.
Qed.

Lemma hello_context m : has_bits (message_context m) tls_EXT_CLIENT_HELLO = true -> m = M_client_hello.
Proof. by destruct m. Qed.

Lemma unsolicited_fine m : unsolicited_ok (message_context m) = true <-> starts_exchange m.
Proof. unfold starts_exchange. destruct m; vm_compute; intuition congruence. Qed.

Lemma exempt_volunteered m type : exempt (message_context m) type = true <-> volunteered m type.
Proof.
  unfold exempt, volunteered. rewrite !orb_true_iff, andb_true_iff, !Z.eqb_eq.
  change TLSEXT_TYPE_cookie with 44. change TLSEXT_TYPE_renegotiate with 65281.
  change TLSEXT_TYPE_signed_certificate_timestamp with 18. change TLSEXT_TYPE_cryptopro_bug with 65000.
  assert (has_bits (message_context m) tls_EXT_TLS1_2_SERVER_HELLO = true <->
    m = M_server_hello \/ m = M_server_hello_1_2) as ->.
  { destruct m; vm_compute; intuition congruence. }
  tauto.
Qed.

Section Allowed.
Context `{Callouts} `{ExtCallouts}.

(** The place in the list of raw extensions, for a type that is known. *)
Definition place (s : tls) (m : ext_message) (e : Z * list Z) : option nat :=
  mjoin (standing s m (fst e)).

(** We have asked the peer for the built-in extension at [k]. *)
Definition asked_for (s : tls) (k : nat) : Prop :=
  exists f, extflags (ext s) !! k = Some f /\ Z.testbit f 1 = true.

(** The extension [e] may come after [before] and before [after]: it is allowed in
    this message, it is the first of its kind (if it is of a known kind), nothing
    follows a pre-shared key in a ClientHello, and nobody sends what was not
    asked for. *)
Definition fine_at (s : tls) (m : ext_message) (before : list (Z * list Z)) (e : Z * list Z)
  (after : list (Z * list Z)) : Prop :=
  standing s m (fst e) <> None /\
  (forall k e', place s m e = Some k -> e' ∈ before -> place s m e' <> Some k) /\
  (fst e = 41 -> m = M_client_hello -> after = []) /\
  (forall k, place s m e = Some k -> (k < 26)%nat ->
     starts_exchange m \/ volunteered m (fst e) \/ asked_for s k).

Definition admissible (s : tls) (m : ext_message) (exts : list (Z * list Z)) : Prop :=
  forall before e after, exts = before ++ e :: after -> fine_at s m before e after.

(** The list of raw extensions that holds [exts]: an entry is untouched, or it
    holds the one extension whose place it is. *)
Definition known (s : tls) (m : ext_message) (exts : list (Z * list Z)) : Z :=
  zlen (List.filter (fun e => bool_decide (is_Some (place s m e))) exts).

Definition holds_ext (s : tls) (m : ext_message) (mem : list Z) (exts : list (Z * list Z))
  (k : nat) (x : RAW_EXTENSION) : Prop :=
  (x = blank_extension /\ forall e, e ∈ exts -> place s m e <> Some k) \/
  (exists before e after, exts = before ++ e :: after /\ place s m e = Some k /\
     present x = true /\ parsed x = false /\ rx_type x = fst e /\
     packet_view mem (data x) (snd e) /\ received_order x = known s m before).

Definition collected (s : tls) (m : ext_message) (mem : list Z) (exts : list (Z * list Z))
  (raw : list RAW_EXTENSION) : Prop :=
  length raw = (length ext_defs + length (get_custext s))%nat /\
  forall k x, raw !! k = Some x -> holds_ext s m mem exts k x.

(** The calls of the application's debug callback. *)
Definition reported (m : ext_message) (exts : list (Z * list Z)) (s : tls) : tls :=
  if debug_cb (conf s)
  then s <| calls ::= fun l => l ++ map (fun e => C_debug_cb (fst e) (snd e))
              (List.filter (fun e => bool_decide (is_Some (place s m e))) exts) |>
  else s.

(** *** The bookkeeping of the loop *)

Lemma reported_fields m exts s :
  exists c, reported m exts s = s <| calls := c |>.
Proof using. unfold reported. case_if; [by eexists|]. exists (calls s). by destruct s. Qed.

Lemma verify_reported m exts s c t :
  verify_extension (reported m exts s) c t = verify_extension s c t.
Proof using. by destruct (reported_fields m exts s) as [? ->]. Qed.

Lemma report_known mem s m pre e pkt :
  is_Some (place s m e) -> packet_view mem pkt (snd e) ->
  report_ext mem (reported m pre s) (fst e) pkt = reported m (pre ++ [e]) s.
Proof using.
  intros Hk [_ Hv]. unfold report_ext, reported.
  destruct (debug_cb (conf s)) eqn:E; cbn [conf]; rewrite ?E; [|done].
  change (debug_cb (conf (s <| calls ::= ?f |>))) with (debug_cb (conf s)). rewrite E.
  unfold log, PACKET_data, PACKET_remaining. rewrite Hv. cbn [default].
  rewrite List.filter_app. cbn [List.filter]. rewrite (bool_decide_true (is_Some _)) by done.
  rewrite map_app. cbn [map]. destruct s; cbn. by rewrite <- app_assoc.
Qed.

Lemma report_unknown s m pre e :
  place s m e = None -> reported m (pre ++ [e]) s = reported m pre s.
Proof using.
  intros Hk. unfold reported. rewrite List.filter_app. cbn [List.filter].
  rewrite (bool_decide_false (is_Some _)) by (rewrite Hk; by intros []). by rewrite app_nil_r.
Qed.

Lemma known_snoc s m pre e :
  known s m (pre ++ [e]) =
  known s m pre + if bool_decide (is_Some (place s m e)) then 1 else 0.
Proof using.
  unfold known. rewrite List.filter_app, zlen_app. cbn [List.filter]. by case_bool_decide.
Qed.

Lemma place_verified s m e : mjoin (verify_extension s (message_context m) (fst e)) = place s m e.
Proof using. by rewrite verify_standing. Qed.

Lemma place_bound s m e k :
  place s m e = Some k -> (k < length ext_defs + length (get_custext s))%nat.
Proof using.
  change (length ext_defs) with (length builtin_extensions). unfold place, standing.
  destruct (list_find _ builtin_extensions) as [[i [[t ms] over]]|] eqn:E.
  - apply list_find_Some in E as [E%lookup_lt_Some _]. destruct (listed _ _ && _). { intros [= <-]. lia. } discriminate.
  - destruct (list_find (custom_concerns m (fst e)) _) as [[i meth]|] eqn:E2; [|discriminate].
    apply list_find_Some in E2 as [E2%lookup_lt_Some _]. cbn [mjoin option_join].
    destruct (custom_allowed _ _ _); [|done]. intros [= <-].
    change (length builtin_extensions) with 26%nat. lia.
Qed.

(** Adding an extension to the list. *)
Lemma collected_known s m mem pre raw e k pkt :
  collected s m mem pre raw -> place s m e = Some k ->
  (forall e', e' ∈ pre -> place s m e' <> Some k) -> packet_view mem pkt (snd e) ->
  collected s m mem (pre ++ [e])
    (<[k := mk_RAW_EXTENSION pkt true false (fst e) (known s m pre)]> raw).
Proof using.
  intros [Hlen Hraw] Hk Hnew Hv. split; [by rewrite length_insert|]. intros j x Hx.
  apply list_lookup_insert_Some in Hx as [(<- & <- & _)|[Hne Hx]].
  - right. by exists pre, e, [].
  - destruct (Hraw j x Hx) as [[-> Hno]|(b & e' & a & -> & Hp & Hrest)].
    + left. split; [done|]. intros e' [Hin| ->%list_elem_of_singleton]%elem_of_app; [by apply Hno|].
      rewrite Hk. congruence.
    + right. exists b, e', (a ++ [e]). by rewrite <- app_assoc.
Qed.

Lemma collected_unknown s m mem pre raw e :
  collected s m mem pre raw -> place s m e = None ->
  collected s m mem (pre ++ [e]) raw.
Proof using.
  intros [Hlen Hraw] Hk. split; [done|]. intros j x Hx.
  destruct (Hraw j x Hx) as [[-> Hno]|(b & e' & a & -> & Hp & Hrest)].
  - left. split; [done|]. intros e' [Hin| ->%list_elem_of_singleton]%elem_of_app; [by apply Hno|].
    congruence.
  - right. exists b, e', (a ++ [e]). by rewrite <- app_assoc.
Qed.

Lemma duplicate_spec s m mem pre raw e thisex :
  collected s m mem pre raw -> verify_extension s (message_context m) (fst e) = Some thisex ->
  duplicate raw thisex = false <->
  (forall k e', place s m e = Some k -> e' ∈ pre -> place s m e' <> Some k).
Proof using.
  intros [Hlen Hraw] Hver.
  assert (Hp : place s m e = thisex) by (unfold place; by rewrite <- verify_standing, Hver).
  rewrite Hp. unfold duplicate. destruct thisex as [k|]; cbn; [|by split].
  pose proof (place_bound s m e k Hp) as Hk. rewrite <- Hlen in Hk.
  apply lookup_lt_is_Some in Hk as [x Hx]. rewrite Hx.
  destruct (Hraw k x Hx) as [[-> Hno]|(b & e' & a & -> & Hp' & Hpres & _)]; simpl.
  - split; [intros _ k' e' [= <-]; apply Hno|done].
  - rewrite Hpres. split; [done|]. intros Hall. exfalso.
    apply (Hall k e' eq_refl); [|done]. apply elem_of_app. right. by left.
Qed.

Lemma unsolicited_spec s m e thisex :
  length (extflags (ext s)) = length ext_defs -> zlen ext_defs <= null_minus_raw ->
  verify_extension s (message_context m) (fst e) = Some thisex ->
  exists b, unsolicited s (message_context m) (fst e) (ext_index thisex) = Some b /\
    (b = false <-> forall k, place s m e = Some k -> (k < 26)%nat ->
       starts_exchange m \/ volunteered m (fst e) \/ asked_for s k).
Proof using.
  intros Hflags Hnull Hver. change 26%nat with (length ext_defs).
  assert (Hp : place s m e = thisex) by (unfold place; by rewrite <- verify_standing, Hver).
  rewrite Hp. unfold unsolicited. destruct thisex as [k|]; cbn [ext_index].
  2:{ rewrite (proj2 (Z.ltb_ge _ _)) by done. exists false. split; [done|]. by split. }
  destruct (Z.ltb_spec (Z.of_nat k) (zlen ext_defs)) as [Hk|Hk]; unfold zlen in Hk.
  2:{ exists false. split; [done|]. split; [|done]. intros _ k' [= <-]. lia. }
  setoid_rewrite <- unsolicited_fine; setoid_rewrite <- exempt_volunteered.
  destruct (unsolicited_ok (message_context m)); [by exists false; split; [|split; auto]|].
  destruct (exempt (message_context m) (fst e)); [by exists false; split; [|split; auto]|]. cbn [negb andb].
  assert (Hl : (k < length (extflags (ext s)))%nat) by lia.
  apply lookup_lt_is_Some in Hl as [f Hf]. unfold rd.
  rewrite (proj2 (Z.ltb_ge _ _)), Nat2Z.id, Hf by lia. cbn [mbind option_bind].
  eexists. split; [done|]. unfold asked_for.
  pose proof (has_bits_pow2 f 1 ltac:(lia)) as Eb. unfold has_bits, truth in Eb.
  change (2 ^ 1) with tls_EXT_FLAG_SENT in Eb. split.
  - intros Hb k' [= <-] _. right. right. exists f. split; [done|]. by rewrite <- Eb, Hb.
  - intros Hall. destruct (Hall k eq_refl ltac:(lia)) as [?|[?|(f' & Hf' & Hb)]]; [done|done|].
    rewrite Hf in Hf'. injection Hf' as <-. rewrite Hb in Eb. by apply negb_true_iff.
Qed.

End Allowed.

(** ** The loop *)

Section Loop.
Context `{Callouts} `{ExtCallouts}.
Context {mem : list Z} (mem_ok : bytes_ok mem).
Context (s : tls) (m : ext_message).
Hypothesis flags_len : length (extflags (ext s)) = length ext_defs.
Hypothesis null_far : zlen ext_defs <= null_minus_raw.

(** What the loop answers when [pre] has been collected and the bytes [l] are left. *)
Definition collects (pre : list (Z * list Z)) (l : list Z) (r : comp (bool * tls * list RAW_EXTENSION))
  : Prop :=
  (exists exts raw', r = Ret (true, reported m (pre ++ exts) s, raw') /\
     extensions_of exts l /\ collected s m mem (pre ++ exts) raw' /\
     forall b e a, exts = b ++ e :: a -> fine_at s m (pre ++ b) e a) \/
  (exists s' raw', r = Ret (false, s', raw') /\ in_fatal_error s' /\
     forall exts, extensions_of exts l -> exists b e a, exts = b ++ e :: a /\
       ~ fine_at s m (pre ++ b) e a).

(** A fatal error, when the first extension is not fine or there is none. *)
Lemma collects_fails pre l s1 al raw :
  (forall e exts, extensions_of (e :: exts) l -> ~ fine_at s m pre e exts) -> l <> [] ->
  collects pre l (Ret (false, tlsfatal s1 al, raw)).
Proof using.
  intros Hno Hl. right. do 2 eexists. split; [done|]. split; [apply otls_statem_fatal_in_error|].
  intros [|e exts] Hof; [by destruct Hof as [_ ->]|].
  exists [], e, exts. split; [done|]. rewrite app_nil_r. by apply Hno.
Qed.

Lemma extensions_cons e l1 l2 l :
  spec_net 2 l = Some (fst e, l1) -> spec_prefixed 2 l1 = Some (snd e, l2) ->
  forall e' exts', extensions_of (e' :: exts') l -> e' = e /\ extensions_of exts' l2.
Proof using.
  intros H1 H2 e' exts' Hof.
  destruct (read_ext_forward _ _ _ Hof) as (l1' & l2' & E1 & E2 & Hrest).
  rewrite E1 in H1. injection H1 as Ht <-. rewrite E2 in H2. injection H2 as Hd <-.
  split; [|done]. destruct e, e'. simpl in *. congruence.
Qed.

Lemma collect_step pre e l l1 l2 r : bytes_ok l -> l <> [] ->
  spec_net 2 l = Some (fst e, l1) -> spec_prefixed 2 l1 = Some (snd e, l2) ->
  (forall exts, extensions_of exts l2 -> (exts = [] <-> l2 = [])) ->
  (forall exts, (exts = [] <-> l2 = []) -> fine_at s m pre e exts) ->
  collects (pre ++ [e]) l2 r -> collects pre l r.
Proof using.
  intros Hl Hne H1 H2 Hnil Hfine [(exts & raw' & -> & Hof & Hc & Hall)|(s' & raw' & -> & Hf & Hno)].
  - left. exists (e :: exts), raw'. rewrite <- app_assoc in *. split; [done|].
    split; [destruct e; by eapply read_ext_backward|]. split; [done|].
    intros [|b0 b] e' a; intros [= <- ->].
    + rewrite app_nil_r. by apply Hfine, Hnil.
    + specialize (Hall b e' a eq_refl). by rewrite <- app_assoc in Hall.
  - right. do 2 eexists. split; [done|]. split; [done|].
    intros [|e' exts] Hof; [by destruct Hof as [_ ->]|].
    destruct (extensions_cons e l1 l2 l H1 H2 e' exts Hof) as [-> Hof'].
    destruct (Hno exts Hof') as (b & e' & a & -> & Hn). exists (e :: b), e', a.
    split; [done|]. by rewrite <- app_assoc in Hn.
Qed.

Lemma extensions_nil_iff exts l : extensions_of exts l -> exts = [] <-> l = [].
Proof using.
  intros Hof. split; [by intros ->; destruct Hof as [_ ->]|intros ->; by apply extensions_of_nil].
Qed.

Lemma collect_loop_spec fuel : forall pre pkt l raw,
  packet_view mem pkt l -> (length l < fuel)%nat -> collected s m mem pre raw ->
  collects pre l (collect_loop mem fuel (message_context m) (reported m pre s) pkt raw (known s m pre)).
Proof using mem_ok flags_len null_far.
  induction fuel as [|fuel IH]; intros pre pkt l raw Hv Hlen Hc; [lia|]. cbn [collect_loop].
  pose proof (view_bytes_ok mem_ok _ _ Hv) as Hl.
  pose proof (view_remaining _ _ Hv) as Hrem. unfold PACKET_remaining at 1. rewrite Hrem.
  destruct (Z.ltb_spec 0 (zlen l)) as [Hpos|Hpos]; cbn [negb].
  2:{ left. assert (l = []) as -> by (destruct l; [done|rewrite zlen_cons in Hpos; pose proof (zlen_nonneg l); lia]).
      exists [], raw. rewrite app_nil_r. split_and!; try done; by intros []. }
  assert (Hne : l <> []) by by intros ->.
  pose proof (get_net_2_implements mem_ok pkt l 0 Hv) as Hget.
  destruct (spec_net 2 l) as [[t l1]|] eqn:E1.
  2:{ rewrite Hget. cbn [mbind comp_bind defined negb]. apply collects_fails; [|done].
      intros e exts Hof. destruct (read_ext_forward _ _ _ Hof) as (? & ? & E & _). congruence. }
  destruct Hget as (pkt1 & -> & Hv1). cbn [mbind comp_bind defined negb].
  pose proof (get_prefixed_2_implements mem_ok pkt1 (mk_PACKET None 0) l1 Hv1) as Hget2.
  destruct (spec_prefixed 2 l1) as [[d l2]|] eqn:E2.
  2:{ rewrite Hget2. cbn [mbind comp_bind defined negb]. apply collects_fails; [|done].
      intros e exts Hof. destruct (read_ext_forward _ _ _ Hof) as (? & ? & E & ? & _). congruence. }
  destruct Hget2 as (pkt2 & sub & -> & Hv2 & Hsub). cbn [mbind comp_bind defined negb].
  set (e := (t, d)). pose proof (extensions_cons e l1 l2 l E1 E2) as Hcons.
  rewrite verify_reported.
  destruct (verify_extension s (message_context m) t) as [thisex|] eqn:Ever.
  2:{ apply collects_fails; [|done]. intros e' exts Hof (Hn & _). destruct (Hcons _ _ Hof) as [-> _].
      apply Hn. by rewrite <- verify_standing. }
  pose proof (duplicate_spec s m mem pre raw e thisex Hc Ever) as Hdup.
  unfold PACKET_remaining. rewrite (view_remaining _ _ Hv2).
  destruct (duplicate raw thisex).
  { apply collects_fails; [|done]. intros e' exts Hof (_ & Hn & _). destruct (Hcons _ _ Hof) as [-> _].
    by apply Hdup in Hn. }
  assert (Hz2 : (zlen l2 =? 0) = true <-> l2 = []).
  { rewrite Z.eqb_eq. destruct l2; [done|]. rewrite zlen_cons. pose proof (zlen_nonneg l2). split; [lia|done]. }
  cbn [orb]. destruct ((t =? TLSEXT_TYPE_psk) && _ && _) eqn:Epsk.
  { apply collects_fails; [|done]. intros e' exts Hof (_ & _ & Hn & _). destruct (Hcons _ _ Hof) as [-> Hof'].
    apply andb_prop in Epsk as [[Et Ech]%andb_prop Enz]. apply Z.eqb_eq in Et. apply negb_true_iff in Enz.
    specialize (Hn Et (hello_context _ Ech)). apply (extensions_nil_iff _ _ Hof') in Hn. apply Hz2 in Hn. congruence. }
  assert (Hunse : forall c, unsolicited (reported m pre s) (message_context m) t c = unsolicited s (message_context m) t c).
  { intros c. by destruct (reported_fields m pre s) as [? ->]. }
  rewrite Hunse.
  destruct (unsolicited_spec s m e thisex flags_len null_far Ever) as (b & Eb & Huns).
  change (fst e) with t in Eb. rewrite Eb. cbn [mbind comp_bind defined].
  destruct b.
  { apply collects_fails; [|done]. intros e' exts Hof (_ & _ & _ & Hn). destruct (Hcons _ _ Hof) as [-> _].
    by apply Huns in Hn. }
  assert (Hfine : forall exts, (exts = [] <-> l2 = []) -> fine_at s m pre e exts).
  { intros exts Hiff. split; [by (rewrite <- verify_standing; cbn [e fst]; rewrite Ever)|]. split; [by apply Hdup|]. split; [|by apply Huns].
    intros Et ->. simpl in Et. apply Hiff, Hz2. rewrite Et in Epsk. cbn in Epsk.
    by apply negb_false_iff. }
  assert (Hlen2 : (length l2 < fuel)%nat).
  { clear -E1 E2 Hlen Hl.
    apply spec_net_backward in E1 as [-> _]; [|done]. rewrite length_app, length_be_bytes in Hlen.
    unfold spec_prefixed in E2. destruct (spec_net 2 l1) as [[n l1']|] eqn:En; [|done].
    cbn [mbind option_bind] in E2. unfold spec_net in En. case_bool_decide; [|done]. injection En as _ <-.
    unfold spec_bytes in E2. case_bool_decide; [|done]. injection E2 as _ <-. rewrite !length_drop. lia. }
  assert (Hp : place s m e = thisex) by (rewrite <- place_verified; cbn [e fst]; by rewrite Ever).
  apply (collect_step pre e l l1 l2); [done|done|done|done|intros; by apply extensions_nil_iff|done|].
  destruct thisex as [k|].
  - pose proof (report_known mem s m pre e sub ltac:(by rewrite Hp) Hsub) as Er.
    change (fst e) with t in Er. rewrite Er.
    replace (known s m pre + 1) with (known s m (pre ++ [e])).
    2:{ by rewrite known_snoc, bool_decide_true by by rewrite Hp. }
    apply IH; [done|done|]. apply collected_known; try done.
    intros e'. by apply (proj1 Hdup eq_refl).
  - rewrite <- (report_unknown s m pre e) by done.
    replace (known s m pre) with (known s m (pre ++ [e])).
    2:{ rewrite known_snoc, bool_decide_false by (rewrite Hp; by intros []). apply Z.add_0_r. }
    apply IH; [done|done|]. by apply collected_unknown.
Qed.

End Loop.

(** ** Parsing *)

Section Parsing.
Context `{Callouts} `{ExtCallouts}.
Context {mem : list Z} (mem_ok : bytes_ok mem).

Definition mark_parsed (x : RAW_EXTENSION) : RAW_EXTENSION :=
  if present x then x <| parsed := true |> else x.

Definition readable (x : RAW_EXTENSION) : Prop :=
  present x = true -> exists l, packet_view mem (data x) l.

Lemma ext_parse_defined f pkt context chainidx s l : packet_view mem pkt l ->
  exists ok s', ext_parse mem f pkt context chainidx s = Ret (ok, s').
Proof using mem_ok.
  intros Hv. destruct f; cbn [ext_parse];
    try (destruct (run_ext_parse _ _ _ _ _) as [ok s']; by do 2 eexists).
  unfold do_parse_stoc_supported_versions.
  pose proof (get_net_2_implements mem_ok pkt l 0 Hv) as Hget.
  destruct (spec_net 2 l) as [[v rest]|]; [destruct Hget as (pkt' & -> & _)|rewrite Hget];
    cbn [mbind comp_bind defined]; repeat case_if; by do 2 eexists.
Qed.

Lemma parse_extension_marks s i context exts chainidx x :
  exts !! i = Some x -> readable x ->
  exists ok s', tls_parse_extension mem s i context exts chainidx =
    Ret (ok, s', <[i := mark_parsed x]> exts).
Proof using mem_ok.
  intros Hx Hv. unfold tls_parse_extension. rewrite Hx. cbn [mbind comp_bind defined].
  unfold mark_parsed. destruct (present x) eqn:Ep; cbn [negb].
  2:{ rewrite list_insert_id by done. by do 2 eexists. }
  destruct (parsed x) eqn:Eq.
  { replace (x <| parsed := true |>) with x by (destruct x; simpl in *; congruence).
    rewrite list_insert_id by done. by do 2 eexists. }
  destruct (Hv Ep) as [l Hl].
  assert (Hcustom : exists ok s',
    (bytes ← defined (deref_n mem (PACKET_data (data x)) (PACKET_remaining (data x)));
     let '(ok, s') := custom_ext_parse s context (rx_type x) bytes chainidx in
     Ret (ok, s', <[i := x <| parsed := true |>]> exts)) =
    Ret (ok, s', <[i := x <| parsed := true |>]> exts)).
  { destruct Hl as [_ Hl]. unfold PACKET_data, PACKET_remaining. rewrite Hl.
    cbn [mbind comp_bind defined]. destruct (custom_ext_parse _ _ _ _ _) as [ok s']. by do 2 eexists. }
  destruct (ext_defs !! i) as [d|]; [|exact Hcustom].
  case_if; [by do 2 eexists|].
  destruct (if server s then parse_ctos d else parse_stoc d) as [f|]; [|exact Hcustom].
  destruct (ext_parse_defined f _ context chainidx s l Hl) as (ok & s' & ->). by do 2 eexists.
Qed.

Lemma parse_loop_marks context chainidx n : forall i s exts,
  length exts = (i + n)%nat -> Forall readable exts ->
  exists ok s' exts', parse_loop mem n i context chainidx s exts = Ret (ok, s', exts') /\
    (ok = true -> exts' = take i exts ++ map mark_parsed (drop i exts)).
Proof using mem_ok.
  induction n as [|n IH]; intros i s exts Hlen Hv; cbn [parse_loop].
  { do 3 eexists. split; [done|]. intros _. by rewrite drop_ge, app_nil_r, take_ge by lia. }
  destruct (lookup_lt_is_Some_2 exts i ltac:(lia)) as [x Hx].
  assert (Hr : readable x) by (by eapply Forall_lookup_1).
  destruct (parse_extension_marks s i context exts chainidx x Hx Hr) as (ok & s1 & ->).
  cbn [mbind comp_bind]. destruct ok; cbn [negb]; [|by do 3 eexists].
  assert (Hr' : readable (mark_parsed x)).
  { intros Hp. unfold mark_parsed in *. destruct (present x) eqn:Ep; [exact (Hr Ep)|congruence]. }
  destruct (IH (S i) s1 (<[i := mark_parsed x]> exts)) as (ok & s' & exts' & -> & Hok).
  { rewrite length_insert. lia. }
  { by apply Forall_insert. }
  do 3 eexists. split; [done|]. intros E. rewrite (Hok E), (drop_S exts x i Hx). cbn [map].
  rewrite drop_insert_lt by lia.
  erewrite take_S_r by (apply list_lookup_insert_eq; lia).
  rewrite take_insert_ge by lia. by rewrite <- app_assoc.
Qed.

Lemma parse_marked s i context exts chainidx x :
  exts !! i = Some x -> (present x = true -> parsed x = true) ->
  tls_parse_extension mem s i context exts chainidx = Ret (true, s, exts).
Proof using.
  intros Hx Hp. unfold tls_parse_extension. rewrite Hx. cbn [mbind comp_bind defined].
  destruct (present x); [|done]. by rewrite Hp.
Qed.

End Parsing.

(** ** Properties *)

(** C11: [tls_collect_extensions] collects exactly the well-formed and admissible blocks
    of extensions, for every message that carries extensions.  It returns 1 only when the
    bytes are a sequence of extensions of which each is allowed in the message (a known
    type by the table [builtin_extensions] or by what the application said of it, any
    type that nobody knows), known ones come once, a pre-shared key comes last in a
    ClientHello, and nothing comes that was not asked for, but for [volunteered]
    extensions and messages that start an exchange; then every known
    extension is in its place, with its type, its bytes and its number, and every
    other place is untouched (but for what the initialisers do, which run then and
    may still fail).  It refuses every other block with a fatal alert.  It never
    reads outside of the message.  The list of extensions is assumed to be allocated,
    [s->ext.extflags] to have an entry per built-in extension, and the difference of a
    null pointer and the list (taken for an unknown type) to be no index of it. *)
Theorem collect_extensions `{Callouts} `{ExtCallouts} `{Malloc} mem s packet (m : ext_message) (init : bool) body :
  bytes_ok mem -> packet_view mem packet body ->
  length (extflags (ext s)) = length ext_defs -> zlen ext_defs <= null_minus_raw ->
  let s0 := if decide (m = M_client_hello) then upd_custext custom_ext_init s else s in
  CRYPTO_zalloc (Z.of_nat (length ext_defs + length (get_custext s)) * sizeof_RAW_EXTENSION) <> None ->
  (exists exts raw,
     extensions_of exts body /\ admissible s0 m exts /\ collected s0 m mem exts raw /\
     tls_collect_extensions mem s packet (message_context m) init =
       let '(ok, s') := if init then init_loop (message_context m) ext_defs (reported m exts s0)
                        else (true, reported m exts s0) in
       Ret (ok, s', if ok then Some raw else None)) \/
  (exists s', tls_collect_extensions mem s packet (message_context m) init = Ret (false, s', None) /\
     in_fatal_error s' /\
     forall exts, extensions_of exts body -> ~ admissible s0 m exts).
Proof.
  intros Hmem Hv Hflags Hnull s0 Hmalloc. unfold tls_collect_extensions. cbv zeta.
  replace (if has_bits (message_context m) tls_EXT_CLIENT_HELLO then _ else s) with s0 by by destruct m.
  assert (Hcust : length (get_custext s0) = length (get_custext s)).
  { unfold s0. case_decide; [|done]. unfold get_custext, upd_custext, custom_ext_init. cbn. apply length_map. }
  rewrite Hcust. destruct (CRYPTO_zalloc _) as [blk|]; [|done].
  assert (Hflags0 : length (extflags (ext s0)) = length ext_defs) by (unfold s0; by case_decide).
  pose proof (view_remaining _ _ Hv) as Hrem. unfold PACKET_remaining. rewrite Hrem.
  set (raw0 := replicate _ blank_extension).
  destruct (collect_loop_spec Hmem s0 m Hflags0 Hnull (S (Z.to_nat (zlen body))) [] packet body raw0
              Hv ltac:(unfold zlen; lia)) as [(exts & raw & Hrun & Hof & Hc & Hall)|(s' & raw & Hrun & Hf & Hno)].
  { split; [unfold raw0; rewrite length_replicate; by rewrite Hcust|].
    intros k x [-> _]%lookup_replicate. left. split; [done|]. by intros e ?%not_elem_of_nil. }
  - assert (E0 : reported m [] s0 = s0).
    { unfold reported. case_if; [|done]. cbn. destruct s0. cbn. by rewrite app_nil_r. }
    rewrite E0 in Hrun. change (known s0 m []) with 0 in Hrun. rewrite Hrun.
    left. exists exts, raw. do 3 (split; [done|]). cbn [mbind comp_bind negb app].
    destruct (if init then _ else _) as [[] s']; done.
  - assert (E0 : reported m [] s0 = s0).
    { unfold reported. case_if; [|done]. cbn. destruct s0. cbn. by rewrite app_nil_r. }
    rewrite E0 in Hrun. change (known s0 m []) with 0 in Hrun. rewrite Hrun.
    right. exists s'. split; [done|]. split; [done|]. intros exts Hof Hadm.
    destruct (Hno exts Hof) as (b & e & a & -> & Hn). apply Hn. by apply Hadm.
Qed.

(** [tls_parse_all_extensions] hands an extension to its parser at most once: when it
    succeeds every extension that is present is marked as parsed, nothing else has
    changed in the list, and another attempt to parse one of them does
    nothing.  It never reads outside of the message. *)
Theorem parse_all_once `{Callouts} `{ExtCallouts} mem s context exts chainidx :
  bytes_ok mem -> length exts = (length ext_defs + length (get_custext s))%nat ->
  Forall (@readable mem) exts ->
  exists ok s' exts',
    tls_parse_all_extensions mem s context exts chainidx false = Ret (ok, s', exts') /\
    (ok = true -> exts' = map mark_parsed exts /\
       forall i s2, (i < length exts)%nat ->
         tls_parse_extension mem s2 i context exts' chainidx = Ret (true, s2, exts')).
Proof.
  intros Hmem Hlen Hr. unfold tls_parse_all_extensions. cbv zeta. rewrite <- Hlen.
  destruct (parse_loop_marks Hmem context chainidx (length exts) 0 s exts eq_refl Hr)
    as (ok & s' & exts' & -> & Hok). cbn [mbind comp_bind].
  destruct ok; cbn [negb]; [|by do 3 eexists]. do 3 eexists. split; [done|]. intros _.
  rewrite Hok by done. rewrite take_0, drop_0, app_nil_l. split; [done|]. intros i s2 Hi.
  destruct (lookup_lt_is_Some_2 exts i Hi) as [x Hx].
  apply (parse_marked s2 i context _ chainidx (mark_parsed x)).
  - change (map mark_parsed exts) with (mark_parsed <$> exts). by rewrite list_lookup_fmap, Hx.
  - unfold mark_parsed. destruct (present x) eqn:E; [done|congruence].
Qed.

(** ** The properties on concrete connections *)

(** A server and a ClientHello with supported_versions and an unknown extension. *)
Definition extending_server : tls := flexible_server <| ext .: extflags := replicate 26 0 |>.
Definition two_extensions : list Z := [0; 43; 0; 3; 2; 3; 4; 18; 52; 0; 0].
Definition two_packet : PACKET := mk_PACKET (Some 0) 11.

Definition offered_list : list RAW_EXTENSION :=
  <[TLSEXT_IDX_supported_versions := offer]> (replicate 26 absent).

Lemma two_extensions_ok : bytes_ok two_extensions /\ packet_view two_extensions two_packet two_extensions.
Proof. split; [repeat constructor; lia|]. split; [by rewrite SIZE_MAX_half|done]. Qed.

Lemma collect_extensions_witness :
  exists exts s' raw,
    extensions_of exts two_extensions /\
    @tls_collect_extensions idle_extensions generous_malloc two_extensions extending_server two_packet
      (message_context M_client_hello) false = Ret (true, s', Some raw) /\
    option_map present (raw !! TLSEXT_IDX_supported_versions) = Some true.
Proof.
  assert (Hrun : exists s' raw,
    @tls_collect_extensions idle_extensions generous_malloc two_extensions extending_server two_packet
      (message_context M_client_hello) false = Ret (true, s', Some raw) /\
    option_map present (raw !! TLSEXT_IDX_supported_versions) = Some true).
  { do 2 eexists. split; [vm_compute; reflexivity|reflexivity]. }
  destruct Hrun as (s' & raw & Hrun & Hp).
  destruct (@collect_extensions quiet idle_extensions generous_malloc two_extensions extending_server
              two_packet M_client_hello false two_extensions (proj1 two_extensions_ok)
              (proj2 two_extensions_ok) eq_refl ltac:(vm_compute; discriminate)
              ltac:(vm_compute; discriminate))
    as [(exts & raw' & Hof & _ & _ & _)|(s'' & Hno & _)].
  - by exists exts, s', raw.
  - rewrite Hrun in Hno. discriminate Hno.
Defined.

Lemma parse_all_once_witness :
  exists s' exts', @tls_parse_all_extensions quiet idle_extensions two_extensions extending_server
    tls_EXT_CLIENT_HELLO offered_list 0 false =
      Ret (true, s', exts') /\
    @tls_parse_extension idle_extensions two_extensions s' TLSEXT_IDX_supported_versions
      tls_EXT_CLIENT_HELLO exts' 0 = Ret (true, s', exts').
Proof.
  destruct (@parse_all_once quiet idle_extensions two_extensions extending_server tls_EXT_CLIENT_HELLO
              offered_list 0
              (proj1 two_extensions_ok) ltac:(vm_compute; reflexivity)) as (ok & s' & exts' & Hrun & Hok).
  { apply Forall_insert; [|by eexists; split; [by rewrite SIZE_MAX_half|reflexivity]].
    apply Forall_replicate. discriminate. }
  assert (ok = true) as -> by (vm_compute in Hrun; congruence).
  exists s', exts'. split; [exact Hrun|]. apply Hok; [reflexivity|]. vm_compute. lia.
Defined.
