(* ===== verification/Message.v ===== *)
(** * Messages on the wire: framing, writing and reading them back

    How [statem.c] and [statem_lib.c] build a handshake message in
    [s->init_buf] (type, 24-bit length, body) and how the peer's
    [tls_get_message_header] and [tls_get_message_body] take it apart, whatever
    pieces the record layer delivers. *)

From S2P Require Import Prelude Mem Packet Buffer WPacket Wire TlsState StatemLib StatemClnt StatemSrvr Statem Sample Handshake Flights Machine.

(** ** What a message looks like *)

(** The program that writes message [mt] with the body [l]; a ChangeCipherSpec is
    not a handshake message and has no header. *)
Definition framed (mt : Z) (l : list item) : list item :=
  if mt =? tls3_MT_CHANGE_CIPHER_SPEC then l else [INum mt 1; ISub 3 WPACKET_FLAGS_NONE l].

(** The bytes of the message. *)
Definition message_bytes (mt : Z) (body : list Z) : list Z :=
  if mt =? tls3_MT_CHANGE_CIPHER_SPEC then body
  else mt :: be_bytes 3 (zlen body) ++ body.

Section Construct.
Context `{Malloc} `{Callouts} `{Constructors}.
Variable secure : Z -> option (list Z).

(** The constructor [f] writes the items [l], and changes the connection as [g] says. *)
Definition constructs (f : confunc_f) (s s' : tls) (l : list item) : Prop :=
  forall pkt ok pkt', run_items secure l pkt = Some (ok, pkt') ->
    run_construct f s pkt = (ok, s', pkt').

(** ** Writing a message *)

(** The header, the body and the end of a message as one program. *)
Definition write_message (mt : Z) (l : list item) (pkt : WPACKET) : option (bool * WPACKET) :=
  '(ok, pkt) ← tls3_set_handshake_header secure pkt mt;
  if negb ok then Some (false, pkt)
  else
    '(ok, pkt) ← run_items secure l pkt;
    if negb ok then Some (false, pkt)
    else if negb (mt =? tls3_MT_CHANGE_CIPHER_SPEC) then WPACKET_close pkt else Some (true, pkt).

Hypothesis secure_zlen : forall n blk, 0 <= n -> secure n = Some blk -> zlen blk = n.

Lemma set_no_flags pkt out p :
  wp_view pkt out -> WPACKET_start_sub_packet_len__ secure pkt 3 = Some (true, p) ->
  WPACKET_set_flags p WPACKET_FLAGS_NONE = (true, p).
Proof using secure_zlen.
  intros Hv Hs. destruct (start_spec secure secure_zlen pkt out 3 Hv) as (ok & p' & E & Hok & _);
    [lia|].
  rewrite Hs in E. injection E as <- <-. destruct (Hok eq_refl) as (field & _ & _ & Hsub & _).
  unfold WPACKET_set_flags. rewrite Hsub. destruct p as [? ? ? ? ? sb]. simpl in Hsub. by subst sb.
Qed.

Lemma write_message_program mt l pkt out :
  wp_view pkt out -> 0 <= mt -> write_message mt l pkt = run_items secure (framed mt l) pkt.
Proof using secure_zlen.
  intros Hv Hmt. unfold write_message, framed, tls3_set_handshake_header.
  destruct (mt =? tls3_MT_CHANGE_CIPHER_SPEC); cbn [negb].
  - cbn [mbind option_bind negb]. destruct (run_items secure l pkt) as [[[] q]|]; done.
  - cbn [run_items]. change (run_item secure (INum mt 1) pkt) with (WPACKET_put_bytes__ secure pkt mt 1).
    destruct (put_bytes_spec secure secure_zlen pkt out mt 1 Hv Hmt ltac:(lia))
      as (ok & p & -> & Hok & _).
    cbn [mbind option_bind]. destruct ok; [|done]. destruct (Hok eq_refl) as (e & _ & Hv1 & _).
    cbn [negb]. rewrite run_item_sub. cbn [run_items].
    destruct (WPACKET_start_sub_packet_len__ secure p 3) as [[[] q]|] eqn:Es; [|done|done].
    cbn [mbind option_bind negb]. rewrite (set_no_flags _ _ _ Hv1 Es). cbn [negb].
    destruct (run_items secure l q) as [[[] r]|]; [|done|done]. cbn [mbind option_bind negb].
    by destruct (WPACKET_close r) as [[[] t]|].
Qed.

(** [s->init_buf] as the packet being written. *)
Definition init_packet (m : BUF_MEM) : WPACKET :=
  blank_wpacket <| staticbuf := None |> <| wp_buf := Some m |> <| maxsize := maxmaxsize 0 |>.

(** The sub-packet that [WPACKET_init] opens. *)
Lemma message_length pkt out :
  wp_view pkt out -> subs pkt = [opened 0 0 []] -> WPACKET_get_length pkt 0 = (true, zlen out).
Proof.
  intros (_ & Hw & Hm & _) Hs. unfold WPACKET_get_length. rewrite Hs. simpl.
  rewrite (zlen_nil (A := Z)), sz_small, Hw, Z.sub_0_r; [done|]. pose proof (zlen_nonneg out). lia.
Qed.

Lemma finish_message pkt out m :
  wp_view pkt out -> subs pkt = [opened 0 0 []] -> wp_buf pkt = Some m ->
  exists p m', WPACKET_finish pkt = Some (true, p) /\ wp_buf p = Some m' /\ BUF_MEM_ok m' /\
    match buf_data m' with
    | Some blk => take (length out) blk = out
    | None => out = []
    end.
Proof.
  intros Hv Hs Hb. unfold WPACKET_finish. rewrite Hs.
  destruct (intern_close_spec pkt [] [] out 0 0 []) as (ok & p & -> & Hc); [done|done|lia|].
  unfold wrap in Hc. rewrite !andb_false_r, (bool_decide_eq_true_2 (0 = 0 \/ _)) in Hc by tauto.
  destruct Hc as (-> & _ & [_ Hroom] & Hview). cbn [mbind option_bind].
  rewrite Hb in Hroom. destruct (wp_buf p) as [m'|] eqn:Em; [|done].
  destruct (Hview [zero_sub]) as (_ & Hw & _ & Hblk & _ & _ & Hg).
  { simpl. split_and!; try done; by left. }
  { done. }
  exists (p <| subs := [] |>), m'. split; [done|]. split; [exact Em|].
  unfold block_ok in Hblk. unfold GETBUF in Hg. cbn [update staticbuf wp_buf] in Hblk, Hg.
  simpl in Hblk, Hg. rewrite Em in Hblk, Hg.
  destruct (staticbuf p); [by destruct Hblk|]. destruct Hblk as (? & _). split; [done|].
  exact Hg.
Qed.

Lemma check_fatal_in_error s : in_fatal_error (check_fatal s).
Proof.
  unfold check_fatal. destruct (in_init _ && _) eqn:E; [|apply otls_statem_fatal_in_error].
  apply andb_true_iff in E. unfold in_fatal_error, otls_statem_in_error. tauto.
Qed.

Lemma encode_all_peak l e : encode_all l = Some e -> zlen e <= peak_all l.
Proof.
  revert e. induction l as [|i l IH]; intros e; cbn [encode_all peak_all]; [by intros [= <-]|].
  unfold encoded_length. destruct (encode i) as [b|]; [|done].
  destruct (encode_all l) as [r|]; [|done]. intros [= <-]. specialize (IH r eq_refl).
  rewrite zlen_app. lia.
Qed.

(** What suffices for a message to be written. *)
Definition can_write (m : BUF_MEM) (mt : Z) (l : list item) : Prop :=
  (forall n, 0 < n < 2 ^ 31 -> is_Some (malloc n)) /\
  has_bits (buf_flags m) BUF_MEM_FLAG_SECURE = false /\
  2 * peak_all (framed mt l) <= LIMIT_BEFORE_EXPANSION /\ is_Some (encode_all (framed mt l)).

Lemma init_room m mt l n :
  can_write m mt l -> n <= peak_all (framed mt l) -> ample ((init_packet m) <| written := 0 |>) n.
Proof.
  intros (Hm & Hs & Hp & _) Hn. unfold LIMIT_BEFORE_EXPANSION in Hp.
  split; [|split; [done|split; [done|]]]; simpl; [|unfold LIMIT_BEFORE_EXPANSION; lia].
  unfold maxmaxsize, SIZE_MAX. simpl. lia.
Qed.

(** What [construct] guarantees, [s1] being the connection when the constructor is
    through. *)
Definition constructed (mt : Z) (l : list item) (m : BUF_MEM) (s1 : tls) (r : comp (bool * tls)) : Prop :=
  exists ok s', r = Ret (ok, s') /\
    (ok = true -> exists e m', encode_all (framed mt l) = Some e /\ zlen e <= INT_MAX /\
       init_buf s' = Some m' /\ BUF_MEM_ok m' /\
       match buf_data m' with Some blk => take (length e) blk = e | None => e = [] end /\
       init_num s' = zlen e /\ init_off s' = 0 /\ hand_state (statem s') = hand_state (statem s1)) /\
    (ok = false -> in_fatal_error s') /\
    (can_write m mt l -> ok = true).

Lemma constructed_error mt l m s1 s :
  in_fatal_error s -> (can_write m mt l -> False) -> constructed mt l m s1 (Ret (false, s)).
Proof. intros He Hn. do 2 eexists. split; [done|]. split; [done|]. split; [done|]. tauto. Qed.

(** The end of [construct], once the message is written and closed. *)
Lemma construct_end mt l m s1 q e b :
  wp_view q e -> subs q = [opened 0 0 []] -> wp_buf q = Some b -> encode_all (framed mt l) = Some e ->
  constructed mt l m s1
    ('(ok, s, pkt) ← defined
       (let '(ok, msglen) := WPACKET_get_length q 0 in
        if negb ok || (INT_MAX <? msglen) then Some (false, s1, q)
        else Some (true, s1 <| init_num := msglen |> <| init_off := 0 |>, q));
     '(ok, pkt) ← (if negb ok then Ret (false, pkt) else defined (WPACKET_finish pkt));
     if negb ok then Ret (false, tlsfatal (write_back s pkt) tls_AD_INTERNAL_ERROR)
     else Ret (true, write_back s pkt)).
Proof.
  intros Hv Hs Hb He. rewrite (message_length _ _ Hv Hs). cbn [negb orb].
  destruct (Z.ltb_spec INT_MAX (zlen e)) as [Hi|Hi].
  { apply constructed_error; [apply otls_statem_fatal_in_error|]. intros (_ & _ & Hp & _).
    apply encode_all_peak in He. unfold INT_MAX, LIMIT_BEFORE_EXPANSION in *. lia. }
  destruct (finish_message q e b Hv Hs Hb) as (p & m' & Hfin & Hm' & Hok & Hblk).
  cbn [defined mbind comp_bind negb]. rewrite Hfin. cbn [defined mbind comp_bind negb].
  do 2 eexists. split; [done|]. split; [|done]. intros _. exists e, m'.
  unfold write_back. rewrite Hm'. done.
Qed.

Lemma framed_ok mt l : 0 <= mt < 256 -> items_ok l -> items_ok (framed mt l).
Proof.
  intros Hmt Hl. unfold framed. case_if; [done|]. simpl.
  split; [lia|]. split; [|done]. split; [lia|exact Hl].
Qed.

Lemma message_room m p mt l :
  same_room (init_packet m) p -> wp_view p [] -> can_write m mt l ->
  ample p (peak_all (framed mt l)).
Proof.
  intros [Hmax Hb] (_ & Hw & _) Hc. destruct (init_room m mt l _ Hc (Z.le_refl _)) as [Ha Hb2].
  unfold ample. rewrite Hmax, Hw. simpl in *. destruct (wp_buf p) as [b|]; [|done]. by rewrite Hb.
Qed.

(** What [WPACKET_init] gives [construct]. *)
Lemma init_message m :
  BUF_MEM_ok m -> 0 <= buf_length m <= SIZE_MAX ->
  exists ok p, WPACKET_init secure blank_wpacket (Some m) = Some (ok, p) /\
    (ok = true -> wp_view p [] /\ subs p = [opened 0 0 []] /\ same_room (init_packet m) p) /\
    (forall mt l, can_write m mt l -> ok = true).
Proof using secure_zlen.
  intros Hmok Hlen.
  assert (Hready : init_ready (init_packet m)).
  { unfold init_ready, init_packet. simpl. split; [|done]. exact (maxmaxsize_bounds 0 ltac:(lia)). }
  change (WPACKET_init secure blank_wpacket (Some m))
    with (wpacket_intern_init_len secure (init_packet m) 0).
  destruct (init_spec secure secure_zlen (init_packet m) 0 Hready ltac:(lia))
    as (ok & p & -> & Hok & Hcomp).
  exists ok, p. split; [done|]. split.
  - intros ->. destruct (Hok eq_refl) as (fld & Hz & Hv & Hs & Hr).
    assert (fld = []) as ->; [|done].
    destruct fld; [done|]. rewrite zlen_cons in Hz. pose proof (zlen_nonneg fld). lia.
  - intros mt l Hc. apply Hcomp.
    + destruct Hc as [Hm _]. apply Hm. unfold sizeof_WPACKET_SUB. lia.
    + apply (init_room m mt l); [done|]. apply peak_all_nonneg.
Qed.

Lemma construct_spec s f mt l s1 m :
  tls_IS_DTLS s = false -> init_buf s = Some m -> BUF_MEM_ok m -> 0 <= buf_length m <= SIZE_MAX ->
  0 <= mt < 256 -> items_ok l -> constructs f s s1 l -> tls_IS_DTLS s1 = false ->
  constructed mt l m s1 (construct secure s (Some f) mt).
Proof using secure_zlen.
  intros Hd Hm Hmok Hlen Hmt Hl Hf Hd1. unfold construct. rewrite Hm.
  destruct (init_message m Hmok Hlen) as (ok & p & -> & Hok & Hcomp).
  cbn [defined mbind comp_bind]. destruct ok; cbn [negb].
  2:{ apply constructed_error; [apply otls_statem_fatal_in_error|]. intros Hc.
      by discriminate (Hcomp mt l Hc). }
  destruct (Hok eq_refl) as (Hv & Hs & Hr). clear Hok Hcomp.
  destruct (run_items_spec secure secure_zlen (framed mt l) (framed_ok mt l Hmt Hl) p [] Hv)
    as (ok & q & Hrun & Hsucc & Hcomp).
  assert (Hc : can_write m mt l -> ok = true).
  { intros Hc. pose proof Hc as (Hmal & _ & _ & He).
    apply Hcomp; [apply Hmal; unfold sizeof_WPACKET_SUB; lia|by eapply message_room|done]. }
  clear Hcomp. rewrite <- (write_message_program mt l p [] Hv ltac:(lia)) in Hrun.
  unfold write_message in Hrun. unfold set_handshake_header. rewrite Hd.
  destruct (tls3_set_handshake_header secure p mt) as [[[] ph]|]; [| |done];
    cbn [defined mbind comp_bind option_bind negb] in *.
  2:{ injection Hrun as <- <-. apply constructed_error; [apply otls_statem_fatal_in_error|].
      intros Hw. by discriminate (Hc Hw). }
  destruct (run_items secure l ph) as [[okb pb]|] eqn:Eb; [|done]. rewrite (Hf _ _ _ Eb).
  cbn [mbind option_bind] in Hrun. destruct okb; cbn [negb] in *.
  2:{ injection Hrun as <- <-. apply constructed_error; [apply check_fatal_in_error|].
      intros Hw. by discriminate (Hc Hw). }
  unfold close_construct_packet. rewrite Hd1. unfold tls_close_construct_packet. rewrite Hrun.
  cbn [mbind option_bind]. destruct ok; cbn [negb].
  2:{ apply constructed_error; [apply otls_statem_fatal_in_error|].
      intros Hw. by discriminate (Hc Hw). }
  destruct (Hsucc eq_refl) as (e & He & Hvq & Hsq & [_ Hroom]). rewrite app_nil_l in Hvq.
  destruct Hr as [_ Hrb]. simpl in Hrb. destruct (wp_buf p) as [bp|]; [|done].
  destruct (wp_buf q) as [b|] eqn:Eq; [|done].
  eapply construct_end; [exact Hvq|by rewrite Hsq|exact Eq|exact He].
Qed.

End Construct.

(** What a program framed as a message encodes to. *)
Lemma encode_framed mt l e :
  0 <= mt < 256 \/ mt = tls3_MT_CHANGE_CIPHER_SPEC -> encode_all (framed mt l) = Some e ->
  exists body, encode_all l = Some body /\ e = message_bytes mt body /\
    (mt <> tls3_MT_CHANGE_CIPHER_SPEC -> zlen body < 2 ^ 24).
Proof.
  intros Hmt. unfold framed, message_bytes.
  destruct (Z.eqb_spec mt tls3_MT_CHANGE_CIPHER_SPEC) as [->|Hn]; [intros He; by exists e|].
  assert (0 <= mt < 256) by tauto. clear Hmt. cbn [encode_all].
  change (encode (INum mt 1)) with (if bool_decide (0 < 1 <= sizeof_uint /\ 0 <= mt < 256 ^ 1)
                                    then Some (be_bytes 1 mt) else None).
  rewrite bool_decide_eq_true_2 by (unfold sizeof_uint; lia). rewrite encode_sub.
  destruct (encode_all l) as [body|]; [|done]. unfold wrap.
  cbn [mbind option_bind]. change (has_bits WPACKET_FLAGS_NONE ?b) with false.
  rewrite !andb_false_r.
  destruct (bool_decide (3 = 0 \/ zlen body < 256 ^ 3)) eqn:E; [|done].
  apply bool_decide_eq_true in E. intros [= <-]. exists body. split; [done|]. split.
  - simpl. by rewrite app_nil_r, Z.mod_small by lia.
  - intros _. destruct E; [done|]. lia.
Qed.

(** ** Properties *)

(** C16: constructing a message puts exactly its type, its length in 24 bits and its body
    at the start of [s->init_buf], and says how many bytes there are to send; it never
    leaves the buffer and never goes wrong silently: a failure is a fatal error, and
    a body that can be encoded is written when the allocator provides. *)
Theorem construct_message `{Malloc} `{Callouts} `{Constructors} secure
  (secure_zlen : forall n blk, 0 <= n -> secure n = Some blk -> zlen blk = n) s f mt l s1 m :
  tls_IS_DTLS s = false -> tls_IS_DTLS s1 = false ->
  init_buf s = Some m -> BUF_MEM_ok m -> 0 <= buf_length m <= SIZE_MAX ->
  0 <= mt < 256 -> items_ok l -> constructs secure f s s1 l ->
  exists ok s', construct secure s (Some f) mt = Ret (ok, s') /\
    (ok = true ->
     exists body m', encode_all l = Some body /\ zlen body < 2 ^ 24 /\ init_buf s' = Some m' /\
       BUF_MEM_ok m' /\ init_off s' = 0 /\ init_num s' = tls3_HM_HEADER_LENGTH + zlen body /\
       exists blk, init_data s' = Some blk /\
         rdn blk (init_off s') (init_num s') = Some (message_bytes mt body)) /\
    (ok = false -> in_fatal_error s') /\
    (can_write m mt l -> ok = true).
Proof.
  intros Hd Hd1 Hm Hmok Hlen Hmt Hl Hf.
  destruct (construct_spec secure secure_zlen s f mt l s1 m) as (ok & s' & Hc & Hok & Hrest); try done.
  exists ok, s'. split; [done|]. split; [|done]. intros ->.
  destruct (Hok eq_refl) as (e & m' & He & Hi & Hb & Hmok' & Hblk & Hnum & Hoff & _).
  assert (Hmt' : mt <> tls3_MT_CHANGE_CIPHER_SPEC) by (unfold tls3_MT_CHANGE_CIPHER_SPEC; lia).
  destruct (encode_framed mt l e ltac:(tauto) He) as (body & Hbody & -> & Hlen').
  exists body, m'. split; [done|]. split; [auto|]. split; [done|]. split; [done|]. split; [done|].
  unfold message_bytes in *. rewrite (proj2 (Z.eqb_neq _ _) Hmt') in *.
  assert (Hz : zlen (mt :: be_bytes 3 (zlen body) ++ body) = tls3_HM_HEADER_LENGTH + zlen body).
  { rewrite zlen_cons, zlen_app, zlen_be_bytes. unfold tls3_HM_HEADER_LENGTH. lia. }
  rewrite Hnum, Hoff, Hz. split; [done|]. unfold init_data. rewrite Hb. simpl.
  destruct (buf_data m') as [blk|] eqn:Eb; [|done]. exists blk. split; [done|].
  pose proof (zlen_nonneg body) as Hp.
  assert (Hroom : tls3_HM_HEADER_LENGTH + zlen body <= zlen blk).
  { rewrite <- Hz. rewrite <- Hblk. unfold zlen. rewrite length_take. lia. }
  rewrite rdn_spec by (unfold tls3_HM_HEADER_LENGTH in *; lia). rewrite drop_0, <- Hz.
  unfold zlen at 1. rewrite Nat2Z.id. by rewrite Hblk.
Qed.

(** ** Witness *)

#[local] Existing Instance generous_malloc.
#[local] Existing Instance scripted.
#[local] Existing Instance scripted_constructors.

Definition writing_client : tls :=
  (sample12 false TLS_ST_CW_KEY_EXCH) <| init_buf := Some (mk_BUF_MEM 0 None 0 0) |>.

Lemma construct_message_witness :
  exists s', construct no_secure writing_client (Some tls_construct_client_key_exchange)
               tls3_MT_CLIENT_KEY_EXCHANGE = Ret (true, s') /\
    exists blk, init_data s' = Some blk /\ rdn blk (init_off s') (init_num s') = Some [16; 0; 0; 2; 7; 7].
Proof.
  destruct (construct_message no_secure no_secure_zlen writing_client
    tls_construct_client_key_exchange tls3_MT_CLIENT_KEY_EXCHANGE [IBytes [7; 7]] writing_client
    (mk_BUF_MEM 0 None 0 0)) as (ok & s' & Hc & Hok & _ & Hcan).
  - reflexivity.
  - reflexivity.
  - reflexivity.
  - split; [done|reflexivity].
  - done.
  - done.
  - simpl. split; [done|exact I].
  - intros pkt ok pkt' Hr. cbn [run_items run_item] in Hr. unfold run_construct, scripted_constructors, script_construct.
    destruct (WPACKET_memcpy no_secure pkt [7; 7] (zlen [7; 7])) as [[[] q]|]; [| |done];
      injection Hr as <- <-; reflexivity.
  - assert (ok = true) as ->.
    { apply Hcan. split; [by eexists|]. split; [reflexivity|]. split; [done|]. by eexists. }
    exists s'. split; [exact Hc|].
    destruct (Hok eq_refl) as (body & m' & Hb & _ & _ & _ & _ & _ & blk & Hd & Hr).
    vm_compute in Hb. injection Hb as <-. exists blk. split; [exact Hd|exact Hr].
Defined.
