(* ===== verification/Receive.v ===== *)
(** * Reading messages from the record layer

    [tls_get_message_header] and [tls_get_message_body] collect a message in
    [s->init_buf] from whatever pieces the record layer delivers.  The record
    layer is an interface, [RecordLayer]: the handshake bytes still to come are a
    function of the part of the connection that is not modelled. *)

From S2P Require Import Prelude Mem Packet Buffer WPacket Wire TlsState StatemLib StatemClnt StatemSrvr Statem Sample Handshake Flights Machine Message.

(** ** The record layer and the handshake hash, as seen from above *)

Class RecordLayer `{Callouts} (incoming : list Z -> list Z) : Prop := {
  (** a read delivers some of the bytes to come and changes nothing else *)
  read_delivers s len :
    0 < len -> incoming (rest s) <> [] ->
    exists bytes r, tls_read_bytes tls3_RT_HANDSHAKE len s
                      = (zlen bytes, tls3_RT_HANDSHAKE, bytes, s <| rest := r |>) /\
      0 < zlen bytes <= len /\ incoming (rest s) = bytes ++ incoming r;
  (** messages are hashed without disturbing the handshake or what is to come *)
  take_mac_keeps s :
    exists r, tls3_take_mac s = (true, s <| rest := r |>) /\ incoming r = incoming (rest s);
  finish_mac_keeps bytes s :
    exists r, tls3_finish_mac bytes s = (true, s <| rest := r |>) /\ incoming r = incoming (rest s);
  (** no records of SSL 2 *)
  not_tlsv2 s : RECORD_LAYER_is_tlsv2_record s = false;
}.

(** Only reading happened between [s] and [s']. *)
Definition only_read (s s' : tls) : Prop :=
  s' = s <| init_buf := init_buf s' |> <| init_num := init_num s' |> <| rest := rest s' |>
         <| calls := calls s' |>.

Definition starts (blk pre : list Z) : Prop := take (length pre) blk = pre.

(** [blk] is the block of the message buffer. *)
Definition holds (s : tls) (blk pre : list Z) : Prop :=
  init_data s = Some blk /\ starts blk pre.

(** The message buffer of [s'] is that of [s] with other bytes in its block. *)
Definition refilled (s s' : tls) (blk : list Z) : Prop :=
  init_buf s' = option_map (fun m => m <| buf_data := Some blk |>) (init_buf s).

(** ** Lemmas *)

Lemma refilled_refl s blk : init_data s = Some blk -> refilled s s blk.
Proof.
  unfold init_data, refilled. destruct (init_buf s) as [[? ? ? ?]|]; [|done]. simpl. by intros ->.
Qed.

Lemma refilled_trans s1 s2 s3 b2 b3 : refilled s1 s2 b2 -> refilled s2 s3 b3 -> refilled s1 s3 b3.
Proof. unfold refilled. intros E1 ->. rewrite E1. by destruct (init_buf s1). Qed.

Lemma only_read_trans s1 s2 s3 : only_read s1 s2 -> only_read s2 s3 -> only_read s1 s3.
Proof. unfold only_read. intros E1 E2. rewrite E2, E1. reflexivity. Qed.

Lemma only_read_refl s : only_read s s.
Proof. by destruct s. Qed.

Lemma starts_length blk pre : starts blk pre -> zlen pre <= zlen blk.
Proof.
  unfold starts, zlen. intros E. apply (f_equal length) in E. rewrite length_take in E. lia.
Qed.

Lemma starts_write blk pre bytes :
  starts blk pre -> zlen pre + zlen bytes <= zlen blk ->
  wrn blk (zlen pre) bytes
    = Some (pre ++ bytes ++ drop (length pre + length bytes) blk).
Proof.
  intros Hs Hl. rewrite wrn_spec by (pose proof (zlen_nonneg pre); lia).
  unfold zlen at 1 2. rewrite Nat2Z.id. by rewrite Hs.
Qed.

Lemma starts_app l r : starts (l ++ r) l.
Proof. unfold starts. by rewrite take_app_length. Qed.

(** A prefix of known length. *)
Lemma prefix_split (bytes left more rest : list Z) :
  left ++ more = bytes ++ rest -> zlen bytes <= zlen left ->
  exists left', left = bytes ++ left' /\ rest = left' ++ more.
Proof.
  intros E Hl. exists (drop (length bytes) left). unfold zlen in Hl.
  assert (Eb : take (length bytes) (left ++ more) = bytes) by (by rewrite E, take_app_length).
  rewrite take_app_le in Eb by lia. split.
  - rewrite <- Eb at 1. by rewrite take_drop.
  - apply (f_equal (drop (length bytes))) in E. rewrite drop_app_length in E.
    by rewrite drop_app_le in E by lia.
Qed.

Section Reading.
Context `{Callouts} (incoming : list Z -> list Z) `{!RecordLayer incoming}.

Lemma read_into_stream s blk pre len :
  holds s blk pre -> 0 < len -> zlen pre + len <= zlen blk -> incoming (rest s) <> [] ->
  exists bytes s' blk',
    read_into s tls3_RT_HANDSHAKE (zlen pre) len
      = Ret (zlen bytes, tls3_RT_HANDSHAKE, zlen bytes, s') /\
    0 < zlen bytes <= len /\ incoming (rest s) = bytes ++ incoming (rest s') /\
    holds s' blk' (pre ++ bytes) /\ zlen blk' = zlen blk /\ only_read s s' /\
    init_num s' = init_num s /\ refilled s s' blk'.
Proof.
  intros [Hd Hs] Hl Hroom Hin. unfold read_into.
  destruct (read_delivers s len Hl Hin) as (bytes & r & -> & Hb & Hr).
  destruct (Z.leb_spec (zlen bytes) 0); [lia|].
  change (init_data (s <| rest := r |>)) with (init_data s). rewrite Hd.
  cbn [defined mbind comp_bind]. rewrite starts_write by (done || lia).
  cbn [defined mbind comp_bind]. do 3 eexists. split; [done|]. split; [done|]. split; [exact Hr|].
  unfold init_data in Hd. destruct (init_buf s) as [m|] eqn:Em; [|done].
  split; [|split; [|split; [|split]]].
  - split; [unfold init_data, set_init_data; cbn [update init_buf]; by rewrite Em|].
    rewrite app_assoc. apply starts_app.
  - rewrite !zlen_app. replace (length pre + length bytes)%nat
      with (Z.to_nat (zlen pre + zlen bytes)) by len_lia.
    pose proof (zlen_nonneg pre). rewrite zlen_drop by lia. lia.
  - reflexivity.
  - reflexivity.
  - reflexivity.
Qed.

(** What a loop that collects [left] after [pre] leaves. *)
Definition collected (s s' : tls) (blk : list Z) (all more : list Z) : Prop :=
  only_read s s' /\ incoming (rest s') = more /\
  exists blk', holds s' blk' all /\ zlen blk' = zlen blk /\ refilled s s' blk'.

Lemma header_loop fuel left pre s blk more :
  (length left <= fuel)%nat -> zlen pre + zlen left = tls3_HM_HEADER_LENGTH ->
  init_num s = zlen pre -> holds s blk pre -> tls3_HM_HEADER_LENGTH <= zlen blk ->
  incoming (rest s) = left ++ more ->
  exists s', read_header_loop fuel s = Ret (inr tt, s') /\
    init_num s' = tls3_HM_HEADER_LENGTH /\ collected s s' blk (pre ++ left) more.
Proof.
  revert left pre s blk. induction fuel as [|fuel IH]; intros left pre s blk Hf Hh Hn Hd Hb Hin.
  { destruct left; [|simpl in Hf; lia]. rewrite zlen_nil in Hh. cbn [read_header_loop].
    rewrite Hn. destruct (Z.ltb_spec (zlen pre) tls3_HM_HEADER_LENGTH); [lia|].
    exists s. split; [done|]. split; [lia|]. split; [apply only_read_refl|]. split; [done|].
    exists blk. rewrite app_nil_r. split; [done|]. split; [done|]. apply refilled_refl, Hd. }
  destruct left as [|c left].
  { rewrite zlen_nil in Hh. cbn [read_header_loop].
    rewrite Hn. destruct (Z.ltb_spec (zlen pre) tls3_HM_HEADER_LENGTH); [lia|].
    exists s. split; [done|]. split; [lia|]. split; [apply only_read_refl|]. split; [done|].
    exists blk. rewrite app_nil_r. split; [done|]. split; [done|]. apply refilled_refl, Hd. }
  pose proof (zlen_nonneg left) as Hl. pose proof (zlen_nonneg pre) as Hp.
  assert (Hleft : zlen (c :: left) = tls3_HM_HEADER_LENGTH - zlen pre) by lia.
  cbn [read_header_loop]. rewrite Hn.
  destruct (Z.ltb_spec (zlen pre) tls3_HM_HEADER_LENGTH) as [_|]; [|rewrite zlen_cons in Hh; lia].
  destruct (read_into_stream s blk pre (tls3_HM_HEADER_LENGTH - zlen pre) Hd)
    as (bytes & s1 & blk1 & -> & Hbz & Hstr & Hd1 & Hz1 & Ho1 & Hn1 & Hf1);
    [rewrite zlen_cons in Hh; lia|lia|by rewrite Hin|].
  cbn [mbind comp_bind]. destruct (Z.leb_spec (zlen bytes) 0); [lia|].
  change (tls3_RT_HANDSHAKE =? tls3_RT_CHANGE_CIPHER_SPEC) with false.
  change (negb (tls3_RT_HANDSHAKE =? tls3_RT_HANDSHAKE)) with false. cbn iota.
  rewrite Hin in Hstr. apply prefix_split in Hstr as (left' & Hsp & Hin1); [|lia].
  assert (Hsum : zlen (c :: left) = zlen bytes + zlen left') by (by rewrite Hsp, zlen_app).
  destruct (IH left' (pre ++ bytes) (s1 <| init_num ::= fun n => sz (n + zlen bytes) |>) blk1)
    as (s2 & Hrun & Hn2 & Ho2 & Hm2 & blk2 & Hd2 & Hz2 & Hf2).
  - apply (f_equal length) in Hsp. rewrite length_app in Hsp. unfold zlen in Hbz. simpl in Hsp, Hf. lia.
  - rewrite zlen_app. lia.
  - cbn [update init_num]. rewrite Hn1, Hn, zlen_app, sz_small; [done|].
    unfold tls3_HM_HEADER_LENGTH, SIZE_MAX in *. pose proof (zlen_nonneg left'). lia.
  - exact Hd1.
  - lia.
  - exact Hin1.
  - exists s2. split; [exact Hrun|]. split; [done|]. split.
    + eapply only_read_trans; [exact Ho1|]. eapply only_read_trans; [|exact Ho2]. reflexivity.
    + split; [done|]. exists blk2. split; [by rewrite Hsp, app_assoc|]. split; [lia|].
      by eapply refilled_trans.
Qed.

Lemma body_loop fuel left pre s blk more :
  (length left <= fuel)%nat -> init_msg s + init_num s = zlen pre -> 0 <= init_num s <= zlen pre ->
  holds s blk pre -> zlen pre + zlen left <= zlen blk -> zlen pre + zlen left <= SIZE_MAX ->
  incoming (rest s) = left ++ more ->
  exists s', read_body_loop fuel s (zlen left) = Ret (true, s') /\
    init_num s' = init_num s + zlen left /\ collected s s' blk (pre ++ left) more.
Proof.
  revert left pre s blk. induction fuel as [|fuel IH]; intros left pre s blk Hf Hn Hn0 Hd Hb Hmx Hin.
  { destruct left; [|simpl in Hf; lia]. cbn [read_body_loop]. rewrite (zlen_nil (A := Z)). cbn iota.
    exists s. split; [done|]. split; [lia|]. split; [apply only_read_refl|]. split; [done|].
    exists blk. rewrite app_nil_r. split; [done|]. split; [done|]. apply refilled_refl, Hd. }
  destruct left as [|c left].
  { cbn [read_body_loop]. change (zlen (@nil Z)) with 0. change (0 <? 0) with false. cbn iota.
    exists s. split; [done|]. split; [lia|]. split; [apply only_read_refl|]. split; [done|].
    exists blk. rewrite app_nil_r. split; [done|]. split; [done|]. apply refilled_refl, Hd. }
  pose proof (zlen_nonneg left) as Hl. pose proof (zlen_nonneg pre) as Hp.
  cbn [read_body_loop].
  destruct (Z.ltb_spec 0 (zlen (c :: left))) as [_|]; [|rewrite zlen_cons in *; lia].
  rewrite Hn.
  destruct (read_into_stream s blk pre (zlen (c :: left)) Hd)
    as (bytes & s1 & blk1 & -> & Hbz & Hstr & Hd1 & Hz1 & Ho1 & Hn1 & Hf1);
    [rewrite zlen_cons; lia|lia|by rewrite Hin|].
  cbn [mbind comp_bind]. destruct (Z.leb_spec (zlen bytes) 0); [lia|].
  rewrite Hin in Hstr. apply prefix_split in Hstr as (left' & Hsp & Hin1); [|lia].
  assert (Hsum : zlen (c :: left) = zlen bytes + zlen left') by (by rewrite Hsp, zlen_app).
  pose proof (zlen_nonneg left').
  replace (sz (zlen (c :: left) - zlen bytes)) with (zlen left')
    by (rewrite sz_small; unfold SIZE_MAX in *; lia).
  assert (Hmsg : init_msg s1 = init_msg s) by (unfold only_read in Ho1; by rewrite Ho1).
  assert (Hnum : sz (init_num s1 + zlen bytes) = init_num s + zlen bytes)
    by (rewrite Hn1, sz_small; [done|unfold SIZE_MAX in *; lia]).
  destruct (IH left' (pre ++ bytes) (s1 <| init_num ::= fun n => sz (n + zlen bytes) |>) blk1)
    as (s2 & Hrun & Hn2 & Ho2 & Hm2 & blk2 & Hd2 & Hz2 & Hf2).
  - apply (f_equal length) in Hsp. rewrite length_app in Hsp. unfold zlen in Hbz. simpl in Hsp, Hf. lia.
  - cbn [update init_num init_msg]. rewrite Hnum, Hmsg, zlen_app. lia.
  - cbn [update init_num]. rewrite Hnum, zlen_app. lia.
  - exact Hd1.
  - rewrite zlen_app. lia.
  - rewrite zlen_app. lia.
  - exact Hin1.
  - exists s2. split; [exact Hrun|]. split.
    { rewrite Hn2. cbn [update init_num]. rewrite Hnum. lia. }
    split.
    + eapply only_read_trans; [exact Ho1|]. eapply only_read_trans; [|exact Ho2]. reflexivity.
    + split; [done|]. exists blk2. split; [by rewrite Hsp, app_assoc|]. split; [lia|].
      by eapply refilled_trans.
Qed.

Lemma holds_rdn s blk pre n :
  holds s blk pre -> 0 <= n <= zlen pre -> rdn blk 0 n = Some (take (Z.to_nat n) pre).
Proof.
  intros [_ Hs] Hn. pose proof (starts_length _ _ Hs). rewrite rdn_spec by lia.
  f_equal. rewrite drop_0. unfold starts in Hs. rewrite <- Hs, take_take. f_equal.
  unfold zlen in Hn. lia.
Qed.

Lemma holds_rd0 s blk c pre : holds s blk (c :: pre) -> rd blk 0 = Some c.
Proof.
  intros [_ Hs]. unfold starts in Hs. destruct blk; [done|]. simpl in Hs. by injection Hs as ->.
Qed.

(** The header of message [mt], [len] bytes long. *)
Definition header (mt len : Z) : list Z := mt :: be_bytes 3 len.

Lemma zlen_header mt len : zlen (header mt len) = tls3_HM_HEADER_LENGTH.
Proof. unfold header. rewrite zlen_cons, zlen_be_bytes. reflexivity. Qed.

Lemma header_read fuel s blk mt len more :
  (5 <= fuel)%nat -> init_num s = 0 -> init_data s = Some blk -> tls3_HM_HEADER_LENGTH <= zlen blk ->
  0 < mt -> 0 <= len < 2 ^ 24 -> incoming (rest s) = header mt len ++ more ->
  exists s1, collected s s1 blk (header mt len) more /\
    tls_get_message_header fuel s =
      Ret (true, mt, (set_message s1 mt len) <| init_msg := tls3_HM_HEADER_LENGTH |> <| init_num := 0 |>).
Proof.
  intros Hf Hn Hd Hb Hmt Hlen Hin.
  destruct (header_loop fuel (header mt len) [] s blk more) as (s1 & Hrun & Hn1 & Hc); try done.
  { unfold header. simpl. lia. }
  exists s1. rewrite app_nil_l in Hc. split; [exact Hc|].
  destruct Hc as (Ho & _ & blk1 & Hd1 & Hz1 & _).
  unfold tls_get_message_header. destruct fuel as [|fuel]; [lia|]. cbn [skip_message_loop].
  rewrite Hrun. cbn [mbind comp_bind]. destruct Hd1 as [Hdat Hst]. rewrite Hdat.
  cbn [defined mbind comp_bind].
  assert (Hh : holds s1 blk1 (header mt len)) by done.
  rewrite (holds_rdn s1 _ _ _ Hh) by (rewrite zlen_header; unfold tls3_HM_HEADER_LENGTH; lia).
  cbn [defined mbind comp_bind].
  rewrite (bool_decide_eq_false_2 (take _ _ = _)).
  2:{ unfold header. change (Z.to_nat tls3_HM_HEADER_LENGTH) with 4%nat. intros E.
      apply (f_equal (hd 1)) in E. cbn [take hd] in E. unfold tls3_MT_HELLO_REQUEST in E. lia. }
  rewrite andb_false_r. cbn [mbind comp_bind]. rewrite Hdat. cbn [defined mbind comp_bind].
  rewrite (holds_rd0 s1 _ _ _ Hh). cbn [defined mbind comp_bind]. rewrite not_tlsv2.
  assert (Hp : rdn blk1 1 3 = Some (be_bytes 3 len)).
  { pose proof (starts_length _ _ Hst) as Hl. rewrite zlen_header in Hl.
    rewrite rdn_spec by (unfold tls3_HM_HEADER_LENGTH in Hl; lia).
    rewrite <- (take_drop 4 blk1) at 1.
    change (length (header mt len)) with 4%nat in Hst. unfold starts in Hst.
    change (length (header mt len)) with 4%nat in Hst. rewrite Hst. reflexivity. }
  rewrite Hp. cbn [defined mbind comp_bind]. rewrite be_val_be_bytes.
  change (256 ^ Z.of_nat 3) with (2 ^ 24). rewrite Z.mod_small by lia.
  unfold INT_MAX, tls3_HM_HEADER_LENGTH at 1.
  destruct (Z.ltb_spec (2 ^ 31 - 1 - 4) len); [lia|]. reflexivity.
Qed.

(** Waiting for the body: the header of message [mt] is in the buffer and has been
    taken note of. *)
Definition awaits_body (s : tls) (blk : list Z) (mt len : Z) : Prop :=
  holds s blk (header mt len) /\ message_type (tmp (s3 s)) = mt /\
  message_size (tmp (s3 s)) = len /\ init_msg s = tls3_HM_HEADER_LENGTH /\ init_num s = 0.

Lemma body_read fuel s blk mt body more :
  (length body <= fuel)%nat -> awaits_body s blk mt (zlen body) -> mt < 256 ->
  tls3_HM_HEADER_LENGTH + zlen body <= zlen blk -> zlen body < 2 ^ 24 ->
  incoming (rest s) = body ++ more ->
  exists s', tls_get_message_body fuel s = Ret (true, zlen body, s') /\
    incoming (rest s') = more /\ init_msg s' = tls3_HM_HEADER_LENGTH /\
    hand_state (statem s') = hand_state (statem s) /\ server s' = server s /\
    exists blk', holds s' blk' (header mt (zlen body) ++ body).
Proof.
  intros Hf (Hd & Hmt & Hsz & Hmsg & Hnum) Hb Hblk Hlen Hin. unfold tls_get_message_body.
  rewrite Hmt. destruct (Z.eqb_spec mt tls3_MT_CHANGE_CIPHER_SPEC) as [->|_]; [done|].
  pose proof (zlen_nonneg body) as Hz.
  rewrite Hsz, Hnum, Z.sub_0_r, sz_small by (unfold SIZE_MAX; lia).
  destruct (body_loop fuel body (header mt (zlen body)) s blk more) as (s1 & -> & Hn1 & Ho & Hm1 & blk1 & Hd1 & Hz1 & _);
    rewrite ?zlen_header; try done; [rewrite Hmsg, Hnum; done|rewrite Hnum; unfold tls3_HM_HEADER_LENGTH; lia
      |unfold tls3_HM_HEADER_LENGTH, SIZE_MAX; lia|].
  cbn [mbind comp_bind negb]. pose proof Hd1 as [Hdat Hst]. rewrite Hdat. cbn [defined mbind comp_bind].
  rewrite (holds_rd0 s1 blk1 mt (be_bytes 3 (zlen body) ++ body) Hd1). cbn [defined mbind comp_bind].
  assert (Hmac : exists r, (if mt =? tls3_MT_FINISHED then tls3_take_mac s1 else (true, s1))
                           = (true, s1 <| rest := r |>) /\ incoming r = more).
  { destruct (mt =? tls3_MT_FINISHED).
    - destruct (take_mac_keeps s1) as (r & -> & Hr). exists r. by rewrite Hr.
    - exists (rest s1). split; [by destruct s1|done]. }
  destruct Hmac as (r & -> & Hr). cbn [negb]. rewrite not_tlsv2.
  change (init_num (s1 <| rest := r |>)) with (init_num s1). rewrite Hn1, Hnum, Z.add_0_l.
  rewrite (holds_rdn s1 blk1 _ _ Hd1)
    by (rewrite zlen_app, zlen_header; unfold tls3_HM_HEADER_LENGTH; lia).
  cbn [defined mbind comp_bind]. set (bytes := take _ (header _ _ ++ _)). clearbody bytes.
  assert (Hhash : exists r', (if hash_message (s1 <| rest := r |>) blk1
                              then tls3_finish_mac bytes (s1 <| rest := r |>)
                              else (true, s1 <| rest := r |>))
                             = (true, s1 <| rest := r' |>) /\ incoming r' = more).
  { destruct (hash_message _ _).
    - destruct (finish_mac_keeps bytes (s1 <| rest := r |>)) as (r' & -> & Hr'). exists r'.
      split; [done|]. rewrite Hr'. exact Hr.
    - by exists r. }
  destruct Hhash as (r' & -> & Hr'). cbn [negb].
  assert (Hm1' : init_msg s1 = init_msg s) by (unfold only_read in Ho; by rewrite Ho).
  assert (Hst1 : statem s1 = statem s) by (unfold only_read in Ho; by rewrite Ho).
  assert (Hsv1 : server s1 = server s) by (unfold only_read in Ho; by rewrite Ho).
  rewrite Hnum, Z.add_0_l in Hn1.
  assert (Hlast : forall s', statem s' = statem s1 -> server s' = server s1 -> init_msg s' = init_msg s1 ->
    rest s' = r' -> init_data s' = init_data s1 -> init_num s' = init_num s1 ->
    exists s2, Ret (true, init_num s', s') = Ret (true, zlen body, s2) /\
    incoming (rest s2) = more /\ init_msg s2 = tls3_HM_HEADER_LENGTH /\
    hand_state (statem s2) = hand_state (statem s) /\ server s2 = server s /\
    exists blk', holds s2 blk' (header mt (zlen body) ++ body)).
  { intros s' E1 E2 E3 E4 E5 E6. exists s'. rewrite E6, Hn1, E1, E2, E3, E4, Hm1', Hst1, Hsv1.
    split; [done|]. split; [done|]. split; [done|]. split; [done|]. split; [done|].
    exists blk1. split; [by rewrite E5|done]. }
  destruct (msg_callback _); by apply Hlast.
Qed.
End Reading.

(** ** Growing the buffer for the body *)

Section Growing.
Context `{Malloc} (secure : Z -> option (list Z)).
Hypothesis secure_zlen : forall n blk, 0 <= n -> secure n = Some blk -> zlen blk = n.

Lemma starts_take blk pre n :
  starts blk pre -> (length pre <= n)%nat -> starts (take n blk) pre.
Proof. unfold starts. intros Hs Hn. by rewrite take_take, Nat.min_l. Qed.

Lemma starts_resize len l pre :
  starts l pre -> zlen pre <= len -> starts (resize len l) pre.
Proof.
  unfold resize. intros Hs Hl. pose proof (starts_length _ _ Hs) as Hn.
  unfold starts. rewrite take_app_le.
  - apply (starts_take l pre); [done|unfold zlen in Hl; lia].
  - rewrite length_take. unfold zlen in *. lia.
Qed.

Lemma grow_for_body s m blk pre size :
  init_buf s = Some m -> BUF_MEM_ok m -> holds s blk pre -> zlen pre <= buf_length m ->
  init_msg s <= size -> zlen pre <= size < 2 ^ 31 ->
  exists ok m', grow_init_buf secure s size = Some (ok, s <| init_buf := Some m' |>) /\
    BUF_MEM_ok m' /\
    (ok = true -> buf_length m' = size /\
       exists blk', buf_data m' = Some blk' /\ starts blk' pre /\ size <= zlen blk') /\
    ((forall n, 0 < n < 2 ^ 31 -> is_Some (malloc n)) ->
     has_bits (buf_flags m) BUF_MEM_FLAG_SECURE = false ->
     0 < size <= LIMIT_BEFORE_EXPANSION -> ok = true).
Proof using secure_zlen.
  intros Hm Hok [Hd Hs] Hlen Hmsg Hsz. unfold grow_init_buf. rewrite Hm.
  pose proof (zlen_nonneg pre) as Hp.
  rewrite s32_small, sz_small by (unfold SIZE_MAX; lia).
  destruct (grow_clean_spec secure secure_zlen m size Hok ltac:(lia))
    as ([r m'] & Er & Hok' & _ & Hg). pose proof Er as Es. rewrite Er.
  assert (Hsucc : (forall n, 0 < n < 2 ^ 31 -> is_Some (malloc n)) ->
     has_bits (buf_flags m) BUF_MEM_FLAG_SECURE = false ->
     0 < size <= LIMIT_BEFORE_EXPANSION -> r = size).
  { intros Hmal Hfl Hlim. exact (grow_clean_succeeds secure m size Hmal Hfl Hok Hlim _ Es). }
  clear Er Es. cbn [mbind option_bind].
  assert (Hdm : buf_data m = Some blk) by (unfold init_data in Hd; by rewrite Hm in Hd).
  simpl in Hok', Hg. pose proof Hok' as [Hl' Hb'].
  destruct Hg as [(-> & Hc & Hbl)|[= -> ->]].
  2:{ exists false, m. split; [done|]. split; [done|]. split; [done|].
      intros Hmal Hfl Hlim. specialize (Hsucc Hmal Hfl Hlim). lia. }
  destruct (Z.eqb_spec size 0) as [E|E].
  { exists false, m'. split; [done|]. split; [done|]. split; [done|]. lia. }
  cbn [update init_msg]. destruct (Z.ltb_spec size (init_msg s)); [lia|].
  exists true, m'. split; [|split; [done|]].
  { destruct s; reflexivity. }
  split; [|done]. intros _. split; [done|].
  unfold contents in Hc. rewrite Hdm in Hc. pose proof Hok as [Hml Hmb]. rewrite Hdm in Hmb.
  assert (Hst : starts (resize size (take (Z.to_nat (buf_length m)) blk)) pre).
  { apply starts_resize; [|exact (proj1 Hsz)]. apply starts_take; [done|unfold zlen in Hlen; lia]. }
  rewrite <- Hc in Hst. destruct (buf_data m') as [blk'|]; [|].
  - exists blk'. split; [done|]. split; [|lia]. unfold starts in *. rewrite take_take in Hst.
    rewrite Nat.min_l in Hst by (rewrite Hbl; unfold zlen in Hsz; lia). exact Hst.
  - exfalso. lia.
Qed.
End Growing.

(** ** Property *)

(** C15: a message arrives as it was sent, however the record layer cuts it up: when the
    bytes to come are those of message [mt] with [body], [tls_get_message_header]
    reports its type and size, the buffer grows without ever being overrun, and
    then [tls_get_message_body] yields a packet whose bytes are [body], leaving
    what follows for the next message. *)
Theorem message_received `{Malloc} `{Callouts} incoming `{!RecordLayer incoming} secure
  (secure_zlen : forall n blk, 0 <= n -> secure n = Some blk -> zlen blk = n)
  s m fuel mt body more :
  init_buf s = Some m -> BUF_MEM_ok m -> tls3_HM_HEADER_LENGTH <= buf_length m -> init_num s = 0 ->
  0 < mt < 256 -> zlen body < 2 ^ 24 -> (5 + length body <= fuel)%nat ->
  incoming (rest s) = message_bytes mt body ++ more ->
  exists s1 ok s2,
    tls_get_message_header fuel s = Ret (true, mt, s1) /\ message_size (tmp (s3 s1)) = zlen body /\
    grow_init_buf secure s1 (message_size (tmp (s3 s1)) + tls3_HM_HEADER_LENGTH) = Some (ok, s2) /\
    (ok = true -> exists s3 blk pkt,
       tls_get_message_body fuel s2 = Ret (true, zlen body, s3) /\ init_data s3 = Some blk /\
       PACKET_buf_init (mk_PACKET None 0) (Some (init_msg s3)) (zlen body) = (true, pkt) /\
       packet_view blk pkt body /\ incoming (rest s3) = more /\
       hand_state (statem s3) = hand_state (statem s)) /\
    ((forall n, 0 < n < 2 ^ 31 -> is_Some (malloc n)) ->
     has_bits (buf_flags m) BUF_MEM_FLAG_SECURE = false -> ok = true).
Proof.
  intros Hm Hok Hlen Hnum Hmt Hbody Hfuel Hin. pose proof (zlen_nonneg body) as Hz.
  assert (Hdat : exists blk, buf_data m = Some blk /\ tls3_HM_HEADER_LENGTH <= zlen blk).
  { pose proof Hok as [Hl Hb]. unfold tls3_HM_HEADER_LENGTH in *.
    destruct (buf_data m) as [blk|]; [exists blk; split; [done|lia]|lia]. }
  destruct Hdat as (blk & Hd & Hblk).
  unfold message_bytes in Hin. destruct (Z.eqb_spec mt tls3_MT_CHANGE_CIPHER_SPEC) as [E|_].
  { unfold tls3_MT_CHANGE_CIPHER_SPEC in E. lia. }
  destruct (header_read incoming fuel s blk mt (zlen body) (body ++ more))
    as (x & (Ho & Hmore & blk1 & Hd1 & Hz1 & Hf1) & Hrun); try done; try lia.
  { unfold init_data. by rewrite Hm. }
  set (s1 := (set_message x mt (zlen body)) <| init_msg := tls3_HM_HEADER_LENGTH |> <| init_num := 0 |>) in *.
  unfold refilled in Hf1. rewrite Hm in Hf1. simpl in Hf1.
  set (m1 := m <| buf_data := Some blk1 |>) in *.
  assert (Hm1 : init_buf s1 = Some m1) by exact Hf1.
  assert (Hok1 : BUF_MEM_ok m1).
  { destruct Hok as [Hl Hb]. rewrite Hd in Hb. unfold BUF_MEM_ok, m1. simpl. split; [done|lia]. }
  assert (Hd1' : holds s1 blk1 (header mt (zlen body))) by exact Hd1.
  destruct (grow_for_body secure secure_zlen s1 m1 blk1 (header mt (zlen body))
              (zlen body + tls3_HM_HEADER_LENGTH) Hm1 Hok1 Hd1')
    as (ok & m2 & Hgrow & Hok2 & Hg & Hsucc); [rewrite zlen_header; exact Hlen| | |].
  { change (init_msg s1) with tls3_HM_HEADER_LENGTH. lia. }
  { rewrite zlen_header. unfold tls3_HM_HEADER_LENGTH. lia. }
  exists s1, ok, (s1 <| init_buf := Some m2 |>). split; [exact Hrun|]. split; [done|].
  change (message_size (tmp (s3 s1))) with (zlen body). split; [exact Hgrow|]. split.
  2:{ intros Hmal Hfl. apply Hsucc; [done|done|].
      unfold LIMIT_BEFORE_EXPANSION, tls3_HM_HEADER_LENGTH. lia. }
  intros ->. clear Hsucc. destruct (Hg eq_refl) as (_ & blk2 & Hb2 & Hst2 & Hl2).
  destruct (body_read incoming fuel (s1 <| init_buf := Some m2 |>) blk2 mt body more)
    as (s3 & Hbody3 & Hmore3 & Hmsg3 & Hh3 & _ & blk3 & Hdat3 & Hst3); try done; try lia.
  exists s3, blk3, (mk_PACKET (Some tls3_HM_HEADER_LENGTH) (zlen body)). split; [exact Hbody3|].
  split; [done|]. rewrite Hmsg3. unfold PACKET_buf_init. rewrite SIZE_MAX_half.
  destruct (Z.ltb_spec (2 ^ 63 - 1) (zlen body)); [lia|]. split; [done|]. split; [|split; [done|]].
  - split; [simpl; rewrite SIZE_MAX_half; lia|]. simpl.
    pose proof (starts_length _ _ Hst3) as Hl3. rewrite zlen_app, zlen_header in Hl3.
    rewrite rdn_spec by (unfold tls3_HM_HEADER_LENGTH in *; lia).
    unfold starts in Hst3. rewrite <- (take_drop (length (header mt (zlen body) ++ body)) blk3), Hst3.
    rewrite <- app_assoc. change (Z.to_nat tls3_HM_HEADER_LENGTH) with (length (header mt (zlen body))).
    rewrite drop_app_length. unfold zlen. rewrite Nat2Z.id. by rewrite take_app_length.
  - rewrite Hh3. unfold only_read in Ho. change (hand_state (statem x) = hand_state (statem s)).
    by rewrite Ho.
Qed.

(** ** Witness *)

#[local] Existing Instance generous_malloc.
#[local] Existing Instance dripping.

#[local] Instance dripping_layer : RecordLayer id.
Proof.
  split.
  - intros s len Hl Hin. unfold id in *.
    exists (take (Z.to_nat (Z.min len 3)) (rest s)), (drop (Z.to_nat (Z.min len 3)) (rest s)).
    split; [reflexivity|]. split; [|by rewrite take_drop].
    unfold zlen. rewrite length_take. destruct (rest s); [done|]. simpl. lia.
  - intros s. exists (rest s). split; [by destruct s|done].
  - intros bytes s. exists (rest s). split; [by destruct s|done].
  - done.
Qed.

Definition reading_client : tls :=
  (sample12 false TLS_ST_CR_SRVR_HELLO)
    <| init_buf := Some (mk_BUF_MEM 8 (Some (replicate 8 0)) 8 0) |>
    <| rest := [11; 0; 0; 6; 1; 2; 3; 4; 5; 6; 12] |>.

Lemma message_received_witness :
  exists s1 s2 s3 blk pkt,
    tls_get_message_header 20 reading_client = Ret (true, tls3_MT_CERTIFICATE, s1) /\
    grow_init_buf no_secure s1 10 = Some (true, s2) /\
    tls_get_message_body 20 s2 = Ret (true, 6, s3) /\ init_data s3 = Some blk /\
    packet_view blk pkt [1; 2; 3; 4; 5; 6] /\ rest s3 = [12].
Proof.
  destruct (message_received id no_secure no_secure_zlen reading_client
    (mk_BUF_MEM 8 (Some (replicate 8 0)) 8 0) 20 tls3_MT_CERTIFICATE [1; 2; 3; 4; 5; 6] [12])
    as (s1 & ok & s2 & Hh & Hsz & Hg & Hok & Hsucc); try done; [simpl; lia|].
  assert (ok = true) as -> by (apply Hsucc; [by eexists|reflexivity]).
  destruct (Hok eq_refl) as (s3 & blk & pkt & Hb & Hd & _ & Hv & Hm & _).
  rewrite Hsz in Hg. by exists s1, s2, s3, blk, pkt.
Defined.
