(* ===== verification/Datagram.v ===== *)
(** * Receiving the messages of a DTLS handshake

    The fragments of the messages, in any order, repeated, overlapping, stale or
    early, are put together again: [dtls_get_message] returns the message whose turn
    it is as it was sent.  The record layer is an interface, [DatagramLayer]: what is
    still to come is a list of records, none of which is empty. *)

From S2P Require Import Prelude Mem PQueue Packet Buffer WPacket Wire TlsState Protocol StatemLib Dtls Statem Sample ConstantTime Reassembly.

From Stdlib Require Import Sorted Permutation.

(** ** The record layer and the handshake hash, as seen from above *)

(** What is left of a record, in front of the others. *)
Definition push (r : list Z) (rs : list (list Z)) : list (list Z) :=
  match r with [] => rs | _ => r :: rs end.

(** [hashed]: what has been hashed of the handshake so far. *)
Class DatagramLayer `{Callouts} (records : list Z -> list (list Z)) (hashed : list Z -> list Z) : Prop := {
  (** a read of bytes that the record has delivers them and changes nothing else;
      the record layer knows what is left of the record *)
  datagram_read s b1 b2 rs :
    b1 <> [] -> records (rest s) = (b1 ++ b2) :: rs ->
    exists r, tls_read_bytes tls3_RT_HANDSHAKE (zlen b1) s
                = (zlen b1, tls3_RT_HANDSHAKE, b1, s <| rest := r |>) /\
      (records r = push b2 rs /\ hashed r = hashed (rest s)) /\
      RECORD_LAYER_get_rrec_length (s <| rest := r |>) = zlen b2;
  (** messages are hashed without disturbing what is to come *)
  datagram_take_mac s :
    exists r, tls3_take_mac s = (true, s <| rest := r |>) /\ records r = records (rest s) /\
      hashed r = hashed (rest s);
  datagram_finish_mac bytes s :
    exists r, tls3_finish_mac bytes s = (true, s <| rest := r |>) /\ records r = records (rest s) /\
      hashed r = hashed (rest s) ++ bytes;
}.

(** ** Messages and their fragments *)

(** Bytes [f_off] to [f_off + f_len] of the message with number [f_seq]. *)
Record frag := mk_frag { f_seq : Z; f_off : Z; f_len : Z }.

Section Messages.
(** The type and the body of the message with each number. *)
Context (message : Z -> Z * list Z).

Definition mtype (k : Z) : Z := (message k).1.
Definition body (k : Z) : list Z := (message k).2.
Definition mlen (k : Z) : Z := zlen (body k).

Definition frag_header (f : frag) : hm_header :=
  mk_hm_header (mtype (f_seq f)) (mlen (f_seq f)) (f_seq f) (f_off f) (f_len f) false no_state.

Definition slice (f : frag) : list Z :=
  take (Z.to_nat (f_len f)) (drop (Z.to_nat (f_off f)) (body (f_seq f))).

(** The fragment on the wire. *)
Definition wire (f : frag) : list Z :=
  header_bytes (frag_header f) (f_off f) (f_len f) ++ slice f.

Definition seq_ok (k : Z) : Prop := 0 <= k < 2 ^ 16.

(** Only a message without a body has an empty fragment. *)
Definition frag_ok (f : frag) : Prop :=
  seq_ok (f_seq f) /\ 0 <= f_off f /\ 0 <= f_len f /\ f_off f + f_len f <= mlen (f_seq f) /\
  (f_len f = 0 -> mlen (f_seq f) = 0).

(** Handshake messages, but not hello requests, that are not too long. *)
Definition messages_ok (max : Z) : Prop :=
  forall k, seq_ok k -> 0 < mtype k < 256 /\ mlen k <= max /\ mlen k < 2 ^ 24.

(** The records hold the fragments [frs], one or more to a record, and [after]. *)
Inductive arriving : list frag -> list (list Z) -> list (list Z) -> Prop :=
| arriving_nil rs : arriving [] rs rs
| arriving_cons f frs tail rs after :
    arriving frs (push tail rs) after -> arriving (f :: frs) ((wire f ++ tail) :: rs) after.

Lemma arriving_record f frs rs after :
  arriving frs rs after -> arriving (f :: frs) (wire f :: rs) after.
Proof. intros Ha. rewrite <- (app_nil_r (wire f)). by constructor. Qed.

(** ** The invariant of the queue *)

(** Position [i] of the message is in the fragment buffer. *)
Definition received (fr : hm_fragment) (i : Z) : Prop :=
  match reassembly fr with Some bm => bit bm i = true | None => True end.

(** A fragment of message [k]: the bytes received are those of the message, and
    the message is complete once there is no bit mask. *)
Record frag_inv (k : Z) (fr : hm_fragment) : Prop := {
  inv_header : msg_header fr = frag_header (mk_frag k 0 (mlen k));
  inv_bytes : match fragment fr with
              | None => mlen k = 0
              | Some blk => zlen blk = mlen k /\
                  forall i, 0 <= i < mlen k -> received fr i ->
                    blk !! Z.to_nat i = body k !! Z.to_nat i
              end;
  inv_mask : match reassembly fr with
             | None => True
             | Some bm => 0 < mlen k /\ bitmask_ok bm (mlen k) /\
                 ~ forall i, 0 <= i < mlen k -> bit bm i = true
             end;
}.

Definition item_ok (it : @pitem hm_fragment) : Prop :=
  exists k, seq_ok k /\ priority it = seq64be k /\ frag_inv k (data it).

Definition queue_inv (q : @pqueue hm_fragment) : Prop :=
  queue_ok q /\ Forall item_ok (items q).

(** Position [i] of message [k] has been received. *)
Definition got (q : @pqueue hm_fragment) (k i : Z) : Prop :=
  exists it, In it (items q) /\ key it = k /\ received (data it) i.

(** A message without a body counts as one position. *)
Definition covers (f : frag) (k i : Z) : Prop :=
  f_seq f = k /\ f_off f <= i < f_off f + Z.max 1 (f_len f).

(** ** Lemmas on headers and slices *)

Lemma be_val_seq64be k : seq_ok k -> be_val (seq64be k) = k.
Proof.
  unfold seq_ok, seq64be. intros Hk. change (be_val _) with (((0 * 256 + u8 (Z.shiftr k 8)) * 256) + u8 k).
  unfold u8. rewrite Z.shiftr_div_pow2 by lia. change (2 ^ 8) with 256. lia_div.
Qed.

Lemma seq64be_ok k : prio_ok (seq64be k).
Proof.
  split; [|done]. unfold seq64be. repeat (constructor; [first [by split|apply Z.mod_pos_bound; lia]|]).
  constructor.
Qed.

Lemma zlen_slice f : frag_ok f -> zlen (slice f) = f_len f.
Proof.
  intros (_ & Ho & Hl & Hm & _). unfold slice, mlen in *. rewrite zlen_take; [done|].
  rewrite zlen_drop; lia.
Qed.

Lemma slice_whole f : frag_ok f -> f_len f = mlen (f_seq f) -> f_off f = 0 /\ slice f = body (f_seq f).
Proof.
  intros (_ & Ho & Hl & Hm & _) Hw. assert (f_off f = 0) as E by lia. split; [done|].
  unfold slice. rewrite E, Hw, drop_0. unfold mlen, zlen. rewrite Nat2Z.id. apply firstn_all.
Qed.

Lemma zlen_header_bytes hdr off len : zlen (header_bytes hdr off len) = DTLS1_HM_HEADER_LENGTH.
Proof. unfold header_bytes. by rewrite zlen_cons, !zlen_app, !zlen_be_bytes. Qed.

(** A header that is written is read. *)
Lemma header_roundtrip max f : messages_ok max -> frag_ok f ->
  dtls1_get_message_header (header_bytes (frag_header f) (f_off f) (f_len f)) = Some (frag_header f) /\
  rd (header_bytes (frag_header f) (f_off f) (f_len f)) 0 = Some (mtype (f_seq f)).
Proof.
  intros Hmax Hf. pose proof Hf as (Hk & Ho & Hl & Hm & _). destruct (Hmax _ Hk) as (Ht & _ & H24).
  unfold header_bytes, frag_header. cbn [hm_type hm_msg_len hm_seq].
  unfold u8. rewrite Z.mod_small by (change (2 ^ 8) with 256; lia). split; [|done].
  unfold dtls1_get_message_header.
  set (a := be_bytes 3 (mlen _)). set (b := be_bytes 2 _). set (c := be_bytes 3 (f_off f)).
  set (d := be_bytes 3 (f_len f)). set (w := _ :: _).
  assert (Ea : rdn w 1 3 = Some a /\ rdn w 4 2 = Some b /\ rdn w 6 3 = Some c /\ rdn w 9 3 = Some d)
    by (unfold w, a, b, c, d; split; [reflexivity|split; [reflexivity|split; reflexivity]]).
  destruct Ea as (-> & -> & -> & ->). unfold w. cbn -[a b c d be_val].
  unfold a, b, c, d. rewrite !be_val_be_bytes. unfold seq_ok in Hk.
  rewrite !Z.mod_small; [done|change (256 ^ Z.of_nat 3) with (2 ^ 24); lia..|
    change (256 ^ Z.of_nat 2) with (2 ^ 16); lia|change (256 ^ Z.of_nat 3) with (2 ^ 24)].
  all: unfold mlen in *; pose proof (zlen_nonneg (body (f_seq f))); lia.
Qed.

(** ** Lemmas on the queue *)

Lemma item_key it : item_ok it ->
  seq_ok (key it) /\ priority it = seq64be (key it) /\ frag_inv (key it) (data it).
Proof.
  intros (k & Hk & Hp & Hi). assert (key it = k) as -> by (unfold key; by rewrite Hp, be_val_seq64be).
  done.
Qed.

Lemma find_item q k : queue_inv q -> seq_ok k ->
  (exists it, pqueue_find q (seq64be k) = Some (Some it) /\ In it (items q) /\ key it = k /\
     frag_inv k (data it)) \/
  (pqueue_find q (seq64be k) = Some None /\ forall it, In it (items q) -> key it <> k).
Proof.
  intros [[Hp Hs] Hi] Hk. unfold pqueue_find. rewrite (find_loop_spec _ _ Hp (seq64be_ok k)).
  rewrite be_val_seq64be by done. destruct (List.find _ _) as [it|] eqn:E.
  - left. apply find_some in E as [Hin Hkey%Z.eqb_eq]. exists it. do 3 (split; [done|]).
    rewrite List.Forall_forall in Hi. specialize (Hi it Hin). apply item_key in Hi as (_ & _ & Hi).
    by rewrite Hkey in Hi.
  - right. split; [done|]. intros it Hin Hkey. eapply find_none in E; [|exact Hin]. simpl in E. lia.
Qed.

Lemma insert_item q it : queue_inv q -> item_ok it ->
  (forall it', In it' (items q) -> key it' <> key it) ->
  exists q', pqueue_insert q it = Some (Some it, q') /\ queue_inv q' /\
    (forall k i, got q k i -> got q' k i) /\ (forall i, received (data it) i -> got q' (key it) i).
Proof.
  intros [[Hp Hs] Hi] Hit Hnew. pose proof (item_key it Hit) as (Hk & Hpr & _). unfold pqueue_insert.
  assert (Hpok : prio_ok (priority it)) by (rewrite Hpr; apply seq64be_ok).
  destruct (insert_loop_spec (items q) it Hp Hs Hpok) as (ok & l' & -> & Hok).
  cbn [mbind option_bind]. destruct ok; [|destruct Hok as ((it' & Hin & Hk') & _); by destruct (Hnew it')].
  destruct Hok as (_ & Hperm & Hsort). eexists. split; [done|]. split; [split; [split|]|split].
  - cbn [items]. rewrite Hperm. by constructor.
  - exact Hsort.
  - cbn [items]. rewrite Hperm. by constructor.
  - intros k i (it' & Hin & ? & ?). exists it'. split; [|done]. cbn [items].
    eapply Permutation_in; [symmetry; exact Hperm|]. by right.
  - intros i Hr. exists it. split; [|done]. cbn [items].
    eapply Permutation_in; [symmetry; exact Hperm|]. by left.
Qed.

(** The queue with another fragment in the place of [prio]. *)
Definition replaced (prio : list Z) (fr : hm_fragment) (q : @pqueue hm_fragment) : pqueue :=
  mk_pqueue (map (fun it => if bool_decide (priority it = prio) then mk_pitem prio fr else it) (items q))
    (count q).

Lemma sorted_map_key (g : @pitem hm_fragment -> @pitem hm_fragment) (l : list (@pitem hm_fragment)) :
  (forall x, key (g x) = key x) -> StronglySorted (fun a b => key a < key b) l ->
  StronglySorted (fun a b => key a < key b) (map g l).
Proof.
  intros Hg Hs. induction Hs as [|x l Hs IH Hlt]; cbn [map]; constructor; [done|].
  rewrite List.Forall_forall in *. intros y (z & <- & Hz)%in_map_iff. rewrite !Hg. by apply Hlt.
Qed.

Lemma replace_item q it fr : queue_inv q -> In it (items q) -> frag_inv (key it) fr ->
  (forall i, 0 <= i -> received (data it) i -> received fr i) ->
  queue_inv (replaced (seq64be (key it)) fr q) /\
  (forall k i, 0 <= i -> got q k i -> got (replaced (seq64be (key it)) fr q) k i) /\
  (forall i, received fr i -> got (replaced (seq64be (key it)) fr q) (key it) i).
Proof.
  intros [[Hp Hs] Hi] Hin Hfr Hmono.
  assert (Hiok : forall x, In x (items q) -> item_ok x) by by apply List.Forall_forall.
  pose proof (item_key it (Hiok _ Hin)) as (Hk & Hpr & _).
  unfold replaced. set (g := fun x => if bool_decide (priority x = seq64be (key it)) then mk_pitem (seq64be (key it)) fr else x).
  assert (Hg : forall x, priority (g x) = priority x) by (intros x; unfold g; by case_bool_decide).
  assert (Hgk : forall x, key (g x) = key x) by (intros x; unfold key; by rewrite Hg).
  assert (Hsame : forall x, In x (items q) -> priority x = seq64be (key it) -> x = it).
  { intros x Hx E. assert (Ek : key x = key it) by (unfold key; congruence). clear - Hs Hx Hin Ek.
    induction Hs as [|y l Hs IH Hlt]; [done|]. rewrite List.Forall_forall in Hlt.
    destruct Hx as [<-|Hx], Hin as [<-|Hin]; [done| | |by apply IH].
    - specialize (Hlt _ Hin). lia.
    - specialize (Hlt _ Hx). lia. }
  assert (Hgit : g it = mk_pitem (seq64be (key it)) fr) by (unfold g; by rewrite bool_decide_true).
  split; [split; [split|]|split].
  - cbn [items]. rewrite List.Forall_forall in *. intros y (x & <- & Hx)%in_map_iff. rewrite Hg. by apply Hp.
  - by apply sorted_map_key.
  - cbn [items]. apply List.Forall_forall. intros y (x & <- & Hx)%in_map_iff. unfold g. case_bool_decide as E.
    + by exists (key it).
    + by apply Hiok.
  - intros k i Hi0 (x & Hx & Hkx & Hr). exists (g x). split; [cbn [items]; by apply in_map|].
    split; [by rewrite Hgk|]. unfold g. case_bool_decide as E; [|done].
    apply Hsame in E; [|done]. subst x. simpl. by apply Hmono.
  - intros i Hr. exists (g it). split; [cbn [items]; by apply in_map|]. rewrite Hgk, Hgit. done.
Qed.

(** ** Lemmas on a fragment *)

Lemma frag_receive fr blk bm f :
  frag_inv (f_seq f) fr -> fragment fr = Some blk -> reassembly fr = Some bm ->
  frag_ok f -> 0 < f_len f ->
  exists blk' bm' c, wrn blk (f_off f) (slice f) = Some blk' /\
    RSMBLY_BITMASK_MARK bm (f_off f) (f_off f + f_len f) = Some bm' /\
    RSMBLY_BITMASK_IS_COMPLETE bm' (mlen (f_seq f)) = Some c /\
    let fr' := mk_hm_fragment (msg_header fr) (Some blk') (if (c : bool) then None else Some bm') in
    frag_inv (f_seq f) fr' /\
    (forall i, 0 <= i -> received fr i \/ f_off f <= i < f_off f + f_len f -> received fr' i).
Proof.
  intros [Hh Hb Hm] Hblk Hbm Hf Hlen. pose proof (zlen_slice f Hf) as Hz.
  destruct Hf as (Hk & Ho & _ & Hle & _). rewrite Hblk in Hb. rewrite Hbm in Hm.
  destruct Hb as [Hzb Hb], Hm as (Hpos & Hmask & _). pose proof Hmask as (Hzm & Hokm & Hhigh).
  destruct (mark_spec bm (f_off f) (f_off f + f_len f)) as (bm' & Hmark & Hz' & Hok' & Hbits);
    [lia|lia|lia_div|done|].
  assert (Hmask' : bitmask_ok bm' (mlen (f_seq f))).
  { split; [lia|]. split; [done|]. intros i Hi. rewrite Hbits, Hhigh by lia. lia. }
  destruct (complete_spec bm' (mlen (f_seq f)) Hpos Hmask') as (c & Hc & Hiff).
  rewrite wrn_spec by lia. eexists _, bm', c. split; [done|]. do 2 (split; [done|]).
  set (blk' := take _ _ ++ _ ++ _).
  assert (Hzb' : zlen blk' = mlen (f_seq f)).
  { unfold blk'. rewrite !zlen_app, zlen_take by lia.
    replace (Z.to_nat (f_off f) + length (slice f))%nat with (Z.to_nat (f_off f + f_len f))
      by (unfold zlen in Hz; lia). rewrite zlen_drop; lia. }
  assert (Hbytes : forall i, 0 <= i < mlen (f_seq f) -> bit bm' i = true ->
            blk' !! Z.to_nat i = body (f_seq f) !! Z.to_nat i).
  { intros i Hi Hbit. rewrite Hbits in Hbit by lia. unfold blk', zlen, mlen in *.
    destruct (Z.lt_ge_cases i (f_off f)) as [H1|H1].
    - rewrite lookup_app_l, lookup_take_lt by (rewrite ?length_take; lia). apply Hb; [lia|].
      unfold received. rewrite Hbm. apply orb_prop in Hbit as [?|?]; [done|lia].
    - rewrite lookup_app_r by (rewrite length_take; lia). rewrite length_take, Nat.min_l by lia.
      destruct (Z.lt_ge_cases i (f_off f + f_len f)) as [H2|H2].
      + rewrite lookup_app_l by lia. unfold slice. rewrite lookup_take_lt, lookup_drop by lia. f_equal. lia.
      + rewrite lookup_app_r, lookup_drop by lia.
        replace (Z.to_nat (f_off f) + length (slice f) + _)%nat with (Z.to_nat i) by lia.
        apply Hb; [lia|]. unfold received. rewrite Hbm. apply orb_prop in Hbit as [?|?]; [done|lia]. }
  split; [constructor|]; cbn [msg_header fragment reassembly].
  - exact Hh.
  - split; [done|]. intros i Hi Hr. apply Hbytes; [done|]. destruct c; [by apply (proj1 Hiff)|exact Hr].
  - destruct c; [done|]. do 2 (split; [done|]). intros Hall. by apply (proj2 Hiff) in Hall.
  - intros i Hi Hr. unfold received at 1. cbn [reassembly]. destruct c; [done|]. rewrite Hbits by done.
    unfold received in Hr. rewrite Hbm in Hr. destruct Hr as [->|Hr]; [done|].
    apply orb_true_iff. right. lia.
Qed.

End Messages.

(** ** Lemmas on reading fragments *)

Lemma push_app b1 b2 rs : b1 <> [] -> push (b1 ++ b2) rs = (b1 ++ b2) :: rs.
Proof. by destruct b1. Qed.

(** The messages kept. *)
Definition buffered (s : tls) : @pqueue hm_fragment := buffered_messages (d1 (conf s)).

Lemma insert_same s : insert_fragment (buffered s) s = s.
Proof.
  destruct s. unfold insert_fragment, upd_d1, buffered. cbn. f_equal.
  match goal with c : tls_CONF |- _ => destruct c end. cbn. f_equal.
  match goal with d : DTLS1_STATE |- _ => by destruct d end.
Qed.

Lemma rest_same s : s <| rest := rest s |> = s.
Proof. by destruct s. Qed.

(** The state after a fragment: the queue and the records to come have changed. *)
Definition moved (q : @pqueue hm_fragment) (r : list Z) (s : tls) : tls :=
  insert_fragment q (s <| rest := r |>).

Section Reading.
Context `{Callouts} `{Malloc} (records : list Z -> list (list Z)) (hashed : list Z -> list Z).
Context `{!DatagramLayer records hashed}.
Context (message : Z -> Z * list Z).
Hypothesis malloc_ok : forall n, 0 < n < 2 ^ 31 -> is_Some (malloc n).

(** What reading leaves: the record goes on with [b2]. *)
Definition left_over (s : tls) (b2 : list Z) (rs : list (list Z)) (r : list Z) : Prop :=
  records r = push b2 rs /\ hashed r = hashed (rest s).

Lemma skip_spec fuel : forall b1 b2 rs s,
  (length b1 <= fuel)%nat -> zlen b1 <= SIZE_MAX -> records (rest s) = push (b1 ++ b2) rs ->
  exists r, skip_loop fuel (zlen b1) s = Ret (true, s <| rest := r |>) /\ left_over s b2 rs r.
Proof.
  induction fuel as [|fuel IH]; intros b1 b2 rs s Hf Hz Hr.
  { destruct b1; [|simpl in Hf; lia]. exists (rest s). by rewrite rest_same. }
  destruct (Z.eqb_spec (zlen b1) 0) as [E|Hne].
  { destruct b1; [|rewrite zlen_cons in E; pose proof (zlen_nonneg b1); lia].
    exists (rest s). by rewrite rest_same. }
  cbn [skip_loop]. rewrite (proj2 (Z.eqb_neq _ _) Hne).
  set (n := if 256 <? zlen b1 then 256 else zlen b1). pose proof (zlen_nonneg b1) as Hb.
  assert (Hn : 0 < n <= zlen b1) by (unfold n; destruct (Z.ltb_spec 256 (zlen b1)); lia).
  set (c1 := take (Z.to_nat n) b1). set (c2 := drop (Z.to_nat n) b1).
  assert (Hc : b1 = c1 ++ c2) by (symmetry; apply take_drop).
  assert (Hz1 : zlen c1 = n) by (apply zlen_take; lia).
  assert (Hz2 : zlen c2 = zlen b1 - n) by (apply zlen_drop; lia).
  assert (Hc1 : c1 <> []) by (intros E; rewrite E in Hz1; change (zlen (@nil Z)) with 0 in Hz1; lia).
  destruct (datagram_read s c1 (c2 ++ b2) rs Hc1) as (r & Hread & [Hr' Hh'] & _).
  { rewrite app_assoc, <- Hc, <- push_app; [done|]. intros E. rewrite E in Hne. by apply Hne. }
  rewrite Hz1 in Hread. rewrite Hread. destruct (Z.leb_spec n 0); [lia|].
  rewrite Hz1, sz_small by lia. rewrite <- Hz2.
  destruct (IH c2 b2 rs (s <| rest := r |>)) as (r' & -> & Hr'' & Hh''); [unfold zlen in *; lia|lia|done|].
  exists r'. split; [done|]. split; [done|]. by rewrite Hh''.
Qed.

Lemma malloc_some n : 0 < n < 2 ^ 31 -> exists blk, CRYPTO_malloc n = Some blk /\ zlen blk = n.
Proof using malloc_ok.
  intros Hn. unfold CRYPTO_malloc. rewrite (proj2 (Z.eqb_neq _ _)) by lia.
  destruct (malloc_ok n Hn) as [blk Hblk]. exists blk. split; [done|]. eapply malloc_zlen; [|done]. lia.
Qed.

Lemma fragment_for_spec f : frag_ok message f -> 0 < f_len f -> mlen message (f_seq f) < 2 ^ 24 ->
  exists fr blk bm, fragment_for (frag_header message f) = Some fr /\ fragment fr = Some blk /\
    reassembly fr = Some bm /\ frag_inv message (f_seq f) fr.
Proof using malloc_ok.
  intros (Hk & Ho & Hl & Hm & _) Hpos H24. set (L := mlen message (f_seq f)) in *.
  unfold fragment_for, dtls1_hm_fragment_new. cbn [frag_header hm_msg_len]. fold L.
  destruct (malloc_some sizeof_hm_fragment) as (? & -> & _); [done|].
  rewrite (proj2 (Z.eqb_neq L 0)) by lia.
  destruct (malloc_some L) as (blk & -> & Hblk); [lia|]. cbn [mbind option_bind].
  unfold RSMBLY_BITMASK_SIZE. rewrite sz_small by (unfold SIZE_MAX; lia). unfold CRYPTO_zalloc.
  destruct (malloc_some ((L + 7) / 8)) as (bm & -> & Hbm); [lia_div|]. cbn [mbind option_bind].
  eexists _, blk, _. split; [reflexivity|]. cbn [update fragment reassembly msg_header].
  do 2 (split; [done|]).
  assert (Hbits : length bm = Z.to_nat ((L + 7) / 8)) by (unfold zlen in Hbm; lia). rewrite Hbits.
  constructor; cbn [update fragment reassembly msg_header].
  - unfold frag_header. cbn. done.
  - split; [done|]. intros i Hi Hr. unfold received in Hr. cbn [reassembly] in Hr. by rewrite bit_zero in Hr.
  - split; [lia|]. split; [apply bitmask_ok_zero; lia|]. intros Hall. specialize (Hall 0).
    rewrite bit_zero in Hall. discriminate Hall. lia.
Qed.

(** What a fragment leaves: the record goes on with [b2], nothing in the queue is lost. *)
Definition absorbed (s : tls) (b2 : list Z) (rs : list (list Z)) (q : @pqueue hm_fragment) (r : list Z) : Prop :=
  left_over s b2 rs r /\ queue_inv message q /\
  forall k i, 0 <= i -> got (buffered s) k i -> got q k i.

Lemma reassemble_spec s f b2 rs :
  queue_inv message (buffered s) -> frag_ok message f -> 0 < f_len f ->
  mlen message (f_seq f) <= dtls1_max_handshake_message_len s -> mlen message (f_seq f) < 2 ^ 24 ->
  records (rest s) = (slice message f ++ b2) :: rs ->
  exists q r, dtls1_reassemble_fragment s (frag_header message f) = Ret (DTLS1_HM_FRAGMENT_RETRY, moved q r s) /\
    absorbed s b2 rs q r /\ forall i, f_off f <= i < f_off f + f_len f -> got q (f_seq f) i.
Proof using malloc_ok DatagramLayer0.
  intros Hq Hf Hpos Hmax H24 Hr. pose proof (zlen_slice message f Hf) as Hzs.
  pose proof Hf as (Hk & Ho & _ & Hm & _). unfold dtls1_reassemble_fragment.
  cbn [frag_header hm_frag_len hm_msg_len hm_frag_off hm_seq].
  rewrite sz_small by (unfold SIZE_MAX; lia).
  destruct (Z.ltb_spec (mlen message (f_seq f)) (f_off f + f_len f)) as [|_]; [lia|].
  destruct (Z.ltb_spec (dtls1_max_handshake_message_len s) (mlen message (f_seq f))) as [|_]; [lia|].
  cbn [orb]. destruct (Z.eqb_spec (f_len f) 0) as [|_]; [lia|].
  assert (Hne : slice message f <> []) by (intros E; rewrite E, zlen_nil in Hzs; lia).
  fold (buffered s).
  destruct (find_item message (buffered s) (f_seq f) Hq Hk) as [(it & -> & Hin & Hkey & Hinv)|[-> Hnone]];
    cbn [defined mbind comp_bind].
  - rewrite (inv_header _ _ _ Hinv). cbn [frag_header hm_msg_len f_seq]. rewrite Z.eqb_refl.
    destruct (reassembly (data it)) as [bm|] eqn:Ebm.
    + (* a message being reassembled *)
      destruct (fragment (data it)) as [blk|] eqn:Eblk.
      2:{ pose proof (inv_bytes _ _ _ Hinv) as Hb. rewrite Eblk in Hb. lia. }
      destruct (datagram_read s _ b2 rs Hne Hr) as (r & Hread & Hr' & _).
      rewrite Hzs in Hread. rewrite Hread. destruct (Z.leb_spec (f_len f) 0) as [|_]; [lia|].
      destruct (frag_receive message (data it) blk bm f Hinv Eblk Ebm Hf Hpos)
        as (blk' & bm' & c & Hw & Hmark & Hc & Hinv' & Hrec).
      cbn [defined mbind comp_bind]. rewrite Hw. cbn [defined mbind comp_bind]. rewrite Hzs, Z.eqb_refl. cbn [negb].
      rewrite Hmark. cbn [defined mbind comp_bind].
      destruct (Z.ltb_spec 0 (mlen message (f_seq f))) as [_|]; [|lia]. cbn [negb].
      rewrite Hc. cbn [defined mbind comp_bind]. rewrite <- Hkey in Hinv'.
      destruct (replace_item message (buffered s) it _ Hq Hin Hinv') as (Hq' & Hmono & Hnew); [by auto|].
      rewrite Hkey in *. eexists _, r. split; [|split; [split; [exact Hr'|split; [exact Hq'|exact Hmono]]|]].
      * unfold moved, set_fragment, insert_fragment, replaced. f_equal. f_equal. by destruct c.
      * intros i Hi. apply Hnew, Hrec; [lia|by right].
    + (* a message that is complete *)
      destruct (skip_spec (Z.to_nat (f_len f)) (slice message f) b2 rs s) as (r & Hskip & Hr');
        [unfold zlen in Hzs; lia|unfold SIZE_MAX; lia|by rewrite push_app|].
      rewrite Hzs in Hskip. rewrite Hskip. cbn [mbind comp_bind].
      exists (buffered s), r. split; [|split; [split; [done|split; [done|done]]|]].
      * unfold moved. by rewrite <- (insert_same (s <| rest := r |>)) at 1.
      * intros i Hi. exists it. do 2 (split; [done|]). unfold received. by rewrite Ebm.
  - (* the first fragment of a message *)
    destruct (fragment_for_spec f Hf Hpos H24) as (fr & blk & bm & -> & Eblk & Ebm & Hinv). rewrite Ebm.
    destruct (datagram_read s _ b2 rs Hne Hr) as (r & Hread & Hr' & _).
    rewrite Hzs in Hread. rewrite Hread. destruct (Z.leb_spec (f_len f) 0) as [|_]; [lia|].
    destruct (frag_receive message fr blk bm f Hinv Eblk Ebm Hf Hpos)
      as (blk' & bm' & c & Hw & Hmark & Hc & Hinv' & Hrec).
    rewrite Eblk. cbn [defined mbind comp_bind]. rewrite Hw. cbn [defined mbind comp_bind].
    rewrite Hzs, Z.eqb_refl. cbn [negb]. rewrite Hmark. cbn [defined mbind comp_bind].
    destruct (Z.ltb_spec 0 (mlen message (f_seq f))) as [_|]; [|lia]. cbn [negb].
    rewrite Hc. cbn [defined mbind comp_bind]. unfold pitem_new.
    destruct (malloc_some sizeof_pitem) as (? & -> & _); [done|].
    change (rdn (seq64be (f_seq f)) 0 8) with (Some (seq64be (f_seq f))). cbn [defined mbind comp_bind option_bind].
    set (it := mk_pitem (seq64be (f_seq f)) _).
    assert (Hkey : key it = f_seq f) by (apply be_val_seq64be; done).
    assert (Hdata : data it = mk_hm_fragment (msg_header fr) (Some blk') (if (c : bool) then None else Some bm'))
      by (unfold it; by destruct c).
    destruct (insert_item message (buffered s) it Hq) as (q & Hins & Hq' & Hmono & Hnew).
    { exists (f_seq f). do 2 (split; [done|]). by rewrite Hdata. }
    { rewrite Hkey. exact Hnone. }
    change (buffered_messages (d1 (conf (s <| rest := r |>)))) with (buffered s).
    rewrite Hins. cbn [defined mbind comp_bind].
    exists q, r. split; [done|]. split; [split; [done|split; [done|by auto]]|].
    intros i Hi. rewrite <- Hkey. apply Hnew. rewrite Hdata. apply Hrec; [lia|by right].
Qed.

(** A message that comes whole, before its turn. *)
Lemma whole_fragment f : frag_ok message f -> mlen message (f_seq f) < 2 ^ 24 ->
  f_len f = mlen message (f_seq f) ->
  exists fr, dtls1_hm_fragment_new (f_len f) false = Some fr /\ reassembly fr = None /\
    match fragment fr with None => f_len f = 0 | Some blk => zlen blk = f_len f /\ 0 < f_len f end.
Proof using malloc_ok.
  intros (Hk & Ho & Hl & Hm & _) H24 Hw. unfold dtls1_hm_fragment_new.
  destruct (malloc_some sizeof_hm_fragment) as (? & -> & _); [done|].
  destruct (Z.eqb_spec (f_len f) 0) as [E|Hne]; cbn [mbind option_bind]; [by eexists|].
  destruct (malloc_some (f_len f)) as (blk & -> & Hblk); [lia|]. cbn [mbind option_bind].
  eexists. split; [reflexivity|]. split; [done|]. cbn [fragment]. lia.
Qed.

Lemma whole_inv f fr blk : frag_ok message f -> f_len f = mlen message (f_seq f) ->
  msg_header fr = frag_header message f -> reassembly fr = None -> fragment fr = blk ->
  match blk with None => f_len f = 0 | Some b => b = slice message f end ->
  frag_inv message (f_seq f) fr.
Proof.
  intros Hf Hw Hh Hr Hb Hblk. destruct (slice_whole message f Hf Hw) as [Hzero Hs].
  constructor; rewrite ?Hr, ?Hb.
  - rewrite Hh. unfold frag_header. cbn [f_seq f_off f_len]. by rewrite Hzero, Hw.
  - destruct blk as [b|]; [|lia]. subst b. rewrite Hs. split; [done|]. done.
  - done.
Qed.

Lemma out_of_seq_spec s f b2 rs :
  queue_inv message (buffered s) -> frag_ok message f ->
  mlen message (f_seq f) <= dtls1_max_handshake_message_len s -> mlen message (f_seq f) < 2 ^ 24 ->
  records (rest s) = push (slice message f ++ b2) rs ->
  exists q r, dtls1_process_out_of_seq_message s (frag_header message f)
                = Ret (DTLS1_HM_FRAGMENT_RETRY, moved q r s) /\ absorbed s b2 rs q r.
Proof using malloc_ok DatagramLayer0.
  intros Hq Hf Hmax H24 Hr. pose proof (zlen_slice message f Hf) as Hzs.
  pose proof Hf as (Hk & Ho & Hl & Hm & Hzero). unfold dtls1_process_out_of_seq_message.
  cbn [frag_header hm_frag_len hm_msg_len hm_frag_off hm_seq hm_type].
  rewrite sz_small by (unfold SIZE_MAX; lia).
  destruct (Z.ltb_spec (mlen message (f_seq f)) (f_off f + f_len f)) as [|_]; [lia|].
  fold (buffered s). set (found := pqueue_find _ _).
  assert (Hfound : exists it, found = Some it /\
            (it = None -> forall it', In it' (items (buffered s)) -> key it' <> f_seq f)).
  { destruct (find_item message (buffered s) (f_seq f) Hq Hk) as [(it & E & _)|[E Hnone]]; by eexists. }
  destruct Hfound as (it & -> & Hnone). cbn [defined mbind comp_bind].
  set (it' := if negb _ then None else it). match goal with |- context [if ?b then _ else _] => set (drop := b) end.
  destruct drop eqn:Edrop.
  { destruct (skip_spec (Z.to_nat (f_len f)) (slice message f) b2 rs s) as (r & Hskip & Hr');
      [unfold zlen in Hzs; lia|unfold SIZE_MAX; lia|done|].
    rewrite Hzs in Hskip. rewrite Hskip. cbn [mbind comp_bind].
    exists (buffered s), r. split; [|by split; [|split; [|auto]]].
    unfold moved. by rewrite <- (insert_same (s <| rest := r |>)) at 1. }
  destruct (Z.eqb_spec (f_len f) (mlen message (f_seq f))) as [Hw|Hpart]; cbn [negb].
  2:{ assert (0 < f_len f) by (destruct (Z.eq_dec (f_len f) 0) as [E|]; [specialize (Hzero E)|]; lia).
      rewrite push_app in Hr by (intros E; rewrite E, zlen_nil in Hzs; lia).
      destruct (reassemble_spec s f b2 rs) as (q & r & Hrun & Habs & _); try done. by exists q, r. }
  destruct (Z.ltb_spec (dtls1_max_handshake_message_len s) (f_len f)) as [|_]; [lia|].
  assert (Hit : it = None).
  { unfold drop, it' in Edrop. cbn [negb] in Edrop. destruct it; [|done].
    by rewrite orb_true_r in Edrop. }
  specialize (Hnone Hit).
  destruct (whole_fragment f Hf H24 Hw) as (fr & -> & Hre & Hfr).
  (* the body is read *)
  assert (Hbody : exists fr' r,
    (if f_len f =? 0 then Ret (true, fr <| msg_header := frag_header message f |>, s)
     else let '(i, _, bytes, s) := tls_read_bytes tls3_RT_HANDSHAKE (f_len f) s in
          if i <=? 0 then Ret (false, fr <| msg_header := frag_header message f |>, s)
          else blk ← defined (fragment (fr <| msg_header := frag_header message f |>));
               blk ← defined (wrn blk 0 bytes);
               Ret (zlen bytes =? f_len f,
                    (fr <| msg_header := frag_header message f |>) <| fragment := Some blk |>, s))
      = Ret (true, fr', s <| rest := r |>) /\ left_over s b2 rs r /\ frag_inv message (f_seq f) fr').
  { destruct (Z.eqb_spec (f_len f) 0) as [E|Hne].
    - exists (fr <| msg_header := frag_header message f |>), (rest s). rewrite rest_same. split; [done|].
      assert (slice message f = []) as Hnil by (destruct (slice message f); [done|]; rewrite zlen_cons in Hzs;
        pose proof (zlen_nonneg l); lia).
      rewrite Hnil in Hr. split; [by split|]. eapply whole_inv; try done.
      cbn [update fragment]. destruct (fragment fr); [lia|done].
    - destruct (fragment fr) as [blk|] eqn:Efr; [|lia]. destruct Hfr as [Hblk _].
      assert (Hne' : slice message f <> []) by (intros E; rewrite E, zlen_nil in Hzs; lia).
      rewrite push_app in Hr by done. destruct (datagram_read s _ b2 rs Hne' Hr) as (r & Hread & Hr' & _).
      rewrite Hzs in Hread. rewrite Hread. destruct (Z.leb_spec (f_len f) 0) as [|_]; [lia|].
      cbn [update fragment]. rewrite Efr. cbn [defined mbind comp_bind]. rewrite wrn_spec by lia.
      cbn [defined mbind comp_bind]. rewrite Hzs, Z.eqb_refl. eexists _, r. split; [reflexivity|].
      split; [done|]. eapply whole_inv; try done. cbn [update fragment].
      rewrite take_0, drop_ge, app_nil_r; [done|]. unfold zlen in *. lia. }
  destruct Hbody as (fr' & r & -> & Hr' & Hinv). cbn [mbind comp_bind negb]. unfold pitem_new.
  destruct (malloc_some sizeof_pitem) as (? & -> & _); [done|].
  change (rdn (seq64be (f_seq f)) 0 8) with (Some (seq64be (f_seq f))). cbn [defined mbind comp_bind option_bind].
  set (item := mk_pitem _ _). assert (Hkey : key item = f_seq f) by (apply be_val_seq64be; done).
  destruct (insert_item message (buffered s) item Hq) as (q & Hins & Hq' & Hmono & _).
  { by exists (f_seq f). }
  { rewrite Hkey. exact Hnone. }
  change (buffered_messages (d1 (conf (s <| rest := r |>)))) with (buffered s).
  rewrite Hins. cbn [defined mbind comp_bind]. exists q, r. by split; [|split; [|split; [|auto]]].
Qed.

(** ** Lemmas on a message that is complete *)

Context (secure : Z -> option (list Z)).
Hypothesis secure_zlen : forall n blk, 0 <= n -> secure n = Some blk -> zlen blk = n.

(** [s] when message [k] is next and [m] is the buffer for it. *)
Definition prepared (s : tls) (m : BUF_MEM) (k : Z) : tls :=
  upd_d1 (fun d => d <| r_msg_hdr ::= fun r =>
    r <| hm_msg_len := mlen message k |> <| hm_type := mtype message k |> <| hm_seq := k |> |>)
  (set_message (s <| init_buf := Some m |>) (mtype message k) (mlen message k)).

(** A buffer that can grow. *)
Definition buffer_ok (m : BUF_MEM) : Prop :=
  BUF_MEM_ok m /\ has_bits (buf_flags m) BUF_MEM_FLAG_SECURE = false.

(** There is room for message [k], and the message is there. *)
Definition room (m : BUF_MEM) (k : Z) : Prop :=
  buffer_ok m /\ exists blk, buf_data m = Some blk /\ DTLS1_HM_HEADER_LENGTH + mlen message k <= zlen blk.

Definition holds (m : BUF_MEM) (k : Z) : Prop :=
  buffer_ok m /\ exists blk, buf_data m = Some blk /\ DTLS1_HM_HEADER_LENGTH + mlen message k <= zlen blk /\
    rdn blk DTLS1_HM_HEADER_LENGTH (mlen message k) = Some (body message k).

Lemma preprocess_spec s f m :
  init_buf s = Some m -> buffer_ok m -> hm_frag_off (r_msg_hdr (d1 (conf s))) = 0 -> frag_ok message f ->
  mlen message (f_seq f) <= dtls1_max_handshake_message_len s -> mlen message (f_seq f) < 2 ^ 24 ->
  exists m', dtls1_preprocess_fragment secure s (frag_header message f)
               = Some (true, prepared s m' (f_seq f)) /\ room m' (f_seq f).
Proof using malloc_ok secure_zlen.
  intros Hm [Hok Hfl] Hoff (Hk & Ho & Hl & Hle & _) Hmax H24. set (L := mlen message (f_seq f)) in *.
  unfold dtls1_preprocess_fragment. cbn [frag_header hm_frag_len hm_msg_len hm_frag_off hm_seq hm_type].
  fold L. rewrite sz_small by (unfold SIZE_MAX; lia).
  destruct (Z.ltb_spec L (f_off f + f_len f)) as [|_]; [lia|].
  destruct (Z.ltb_spec (dtls1_max_handshake_message_len s) L) as [|_]; [lia|]. cbn [orb].
  rewrite Hoff, Hm. cbn [Z.eqb mbind option_bind].
  rewrite sz_small by (unfold SIZE_MAX, DTLS1_HM_HEADER_LENGTH; lia).
  assert (Hsz : 0 < L + DTLS1_HM_HEADER_LENGTH <= LIMIT_BEFORE_EXPANSION)
    by (unfold LIMIT_BEFORE_EXPANSION, DTLS1_HM_HEADER_LENGTH; lia).
  destruct (grow_clean_spec secure secure_zlen m (L + DTLS1_HM_HEADER_LENGTH) Hok ltac:(lia))
    as ([r m'] & Er & Hok' & Hfl' & Hg).
  pose proof (grow_clean_succeeds secure m _ malloc_ok Hfl Hok Hsz _ Er) as Hr. simpl in Hr, Hok', Hfl', Hg.
  rewrite Er. cbn [mbind option_bind]. destruct (Z.eqb_spec r 0) as [|_]; [lia|].
  exists m'. split; [reflexivity|]. destruct Hg as [(_ & _ & Hlen)|[= -> ->]]; [|lia].
  split; [split; [done|by rewrite Hfl']|]. destruct Hok' as [Hb Hd].
  destruct (buf_data m') as [blk|]; [|lia]. exists blk. split; [done|]. fold L. lia.
Qed.

Lemma fill_room m k blk : room m k -> buf_data m = Some blk ->
  exists blk', wrn blk DTLS1_HM_HEADER_LENGTH (body message k) = Some blk' /\
    holds (m <| buf_data := Some blk' |>) k.
Proof.
  intros [[[Hlen Hd] Hfl] (b & Hb & Hz)] Hblk. rewrite Hblk in Hb. injection Hb as <-.
  rewrite Hblk in Hd. unfold mlen in *.
  assert (H12 : zlen (take (Z.to_nat DTLS1_HM_HEADER_LENGTH) blk) = DTLS1_HM_HEADER_LENGTH).
  { apply zlen_take. unfold DTLS1_HM_HEADER_LENGTH in *. pose proof (zlen_nonneg (body message k)). lia. }
  rewrite wrn_spec by (unfold DTLS1_HM_HEADER_LENGTH in *; lia). eexists. split; [done|].
  assert (Hz' : forall pre old, zlen pre = DTLS1_HM_HEADER_LENGTH -> old = blk ->
     zlen (pre ++ body message k ++ drop (Z.to_nat DTLS1_HM_HEADER_LENGTH + length (body message k)) old) = zlen blk).
  { intros pre old Hpre ->. rewrite !zlen_app, Hpre. unfold DTLS1_HM_HEADER_LENGTH in *.
    replace (Z.to_nat 12 + length (body message k))%nat with (Z.to_nat (12 + zlen (body message k))) by len_lia.
    pose proof (zlen_nonneg (body message k)). rewrite zlen_drop; lia. }
  split; [split; [|done]|].
  - split; [done|]. cbn [update buf_data buf_max]. by rewrite Hz'.
  - eexists. split; [done|]. unfold mlen. rewrite Hz' by done. split; [done|].
    pose proof (zlen_nonneg (body message k)). pose proof (Hz' _ blk H12 eq_refl) as Hz''.
    rewrite rdn_spec by (unfold DTLS1_HM_HEADER_LENGTH in *; lia).
    assert (E : Z.to_nat DTLS1_HM_HEADER_LENGTH = length (take (Z.to_nat DTLS1_HM_HEADER_LENGTH) blk))
      by (unfold zlen in H12; lia).
    rewrite E at 1. rewrite drop_app_length. f_equal. unfold zlen. rewrite Nat2Z.id. by rewrite take_app_length.
Qed.

Lemma room_holds m k : room m k -> mlen message k = 0 -> holds m k.
Proof.
  intros [Hok (blk & Hb & Hz)] Hl. split; [done|]. exists blk. do 2 (split; [done|]).
  rewrite rdn_spec by (unfold DTLS1_HM_HEADER_LENGTH in *; lia). rewrite Hl. unfold mlen in Hl.
  destruct (body message k); [done|]. rewrite zlen_cons in Hl. pose proof (zlen_nonneg l). lia.
Qed.

(** ** Lemmas on the queue's head *)

Lemma drop_stale_spec l c k : queue_inv message (mk_pqueue l c) ->
  queue_inv message (mk_pqueue (drop_stale l k) c) /\
  (forall it, In it l -> k <= key it -> In it (drop_stale l k)) /\
  (forall it, In it (drop_stale l k) -> k <= key it).
Proof.
  intros [[Hp Hs] Hi]. cbn [items] in *. induction Hs as [|it l Hs IH Hlt]; cbn [drop_stale].
  { repeat split; try done; constructor. }
  apply Forall_cons_1 in Hp as [Hp0 Hp]. apply Forall_cons_1 in Hi as [Hi0 Hi].
  pose proof (item_key _ _ Hi0) as (_ & _ & Hinv). rewrite (inv_header _ _ _ Hinv). cbn [frag_header hm_seq f_seq].
  rewrite List.Forall_forall in Hlt. destruct (Z.ltb_spec (key it) k) as [Hstale|Hfresh].
  - destruct (IH Hp Hi) as (Hq & Hin & Hge). split; [done|]. split; [|done].
    intros it' [<-|Hit'] Hk; [lia|by apply Hin].
  - split; [split; [split|]; cbn [items]|split; [done|]].
    + by constructor.
    + constructor; [done|by apply List.Forall_forall].
    + by constructor.
    + intros it' [<-|Hit']; [done|]. specialize (Hlt _ Hit'). lia.
Qed.

(** A message that is not the first of the queue is not there. *)
Lemma got_head it l c k i : StronglySorted (fun a b => key a < key b) (it :: l) -> k <= key it ->
  got (mk_pqueue (it :: l) c) k i -> key it = k /\ received (data it) i.
Proof.
  intros Hs Hk (it' & Hin & Hkey & Hr). cbn [items] in Hin. destruct Hin as [<-|Hin]; [done|].
  inversion Hs as [|? ? _ Hlt]; subst. rewrite List.Forall_forall in Hlt. specialize (Hlt _ Hin). lia.
Qed.

(** ** Lemmas on the next message *)

(** Ready for the messages: the buffer can grow, none of them is too long. *)
Definition ready (s : tls) (k : Z) : Prop :=
  handshake_read_seq (d1 (conf s)) = k /\ seq_ok k /\ r_msg_hdr (d1 (conf s)) = zero_header /\
  messages_ok message (dtls1_max_handshake_message_len s) /\
  exists m, init_buf s = Some m /\ buffer_ok m.

(** All of message [k] has been received. *)
Definition complete (q : @pqueue hm_fragment) (k : Z) : Prop :=
  forall i, 0 <= i < Z.max 1 (mlen message k) -> got q k i.

(** Nothing of message [k] or later is lost. *)
Definition keeps (k : Z) (q q' : @pqueue hm_fragment) : Prop :=
  forall k' i, k <= k' -> 0 <= i -> got q k' i -> got q' k' i.

Lemma ready_moved s k q r : ready s k -> ready (moved q r s) k.
Proof. done. Qed.

Lemma rdn_all k : rdn (body message k) 0 (mlen message k) = Some (body message k).
Proof. apply rdn_whole. Qed.

Lemma retrieve_spec s k : ready s k -> queue_inv message (buffered s) ->
  (exists m q, dtls1_retrieve_buffered_fragment secure s
                 = Some (1, mlen message k, prepared (insert_fragment q s) m k) /\
     holds m k /\ queue_inv message q /\ keeps (k + 1) (buffered s) q) \/
  (exists q, dtls1_retrieve_buffered_fragment secure s = Some (0, 0, insert_fragment q s) /\
     queue_inv message q /\ keeps k (buffered s) q /\ ~ complete q k).
Proof using malloc_ok secure_zlen.
  intros (Hseq & Hk & Hhdr & Hmsgs & m & Hm & Hbuf) Hq. destruct (Hmsgs k Hk) as (Hmt & Hmax & H24).
  unfold dtls1_retrieve_buffered_fragment. rewrite Hseq. fold (buffered s).
  destruct (buffered s) as [l c] eqn:El. cbn [items count].
  destruct (drop_stale_spec l c k Hq) as (Hq' & Hkeep & Hge). set (l' := drop_stale l k) in *. clearbody l'.
  assert (Hkeeps : keeps k (mk_pqueue l c) (mk_pqueue l' c)).
  { intros k' i Hk' _ (it & Hin & <- & Hr). exists it. split; [by apply Hkeep|done]. }
  assert (Hmiss : ~ complete (mk_pqueue l' c) k -> exists q,
            Some (0, 0, insert_fragment (mk_pqueue l' c) s) = Some (0, 0, insert_fragment q s) /\
            queue_inv message q /\ keeps k (mk_pqueue l c) q /\ ~ complete q k).
  { intros Hno. by exists (mk_pqueue l' c). }
  destruct l' as [|it l'].
  { right. apply Hmiss. intros Hc. destruct (Hc 0 ltac:(lia)) as (it & [] & _). }
  pose proof Hq' as [[_ Hs] Hi]. cbn [items] in Hs, Hi. apply Forall_cons_1 in Hi as [Hit _].
  destruct (item_key _ _ Hit) as (_ & _ & Hinv). specialize (Hge it (or_introl eq_refl)).
  pose proof (inv_header _ _ _ Hinv) as Hh.
  destruct (reassembly (data it)) as [bm|] eqn:Ebm.
  { right. apply Hmiss. intros Hc. pose proof (inv_mask _ _ _ Hinv) as Hmask. rewrite Ebm in Hmask.
    destruct Hmask as (Hpos & _ & Hnot). destruct (got_head it l' c k 0 Hs Hge) as [Hkey _]; [apply Hc; lia|].
    rewrite Hkey in Hpos, Hnot. apply Hnot. intros i Hi'.
    destruct (got_head it l' c k i Hs Hge) as [_ Hr]; [apply Hc; lia|]. unfold received in Hr. by rewrite Ebm in Hr. }
  rewrite Hh. cbn [frag_header hm_seq hm_frag_len hm_frag_off f_seq f_len f_off].
  destruct (Z.eqb_spec k (key it)) as [Hkey|Hne].
  2:{ right. apply Hmiss. intros Hc. destruct (got_head it l' c k 0 Hs Hge) as [Hkey _]; [apply Hc; lia|]. lia. }
  rewrite <- Hkey in *. left. set (s1 := insert_fragment (mk_pqueue l' c) _).
  destruct (preprocess_spec s1 (mk_frag k 0 (mlen message k)) m) as (m' & -> & Hroom); try done.
  { change (r_msg_hdr (d1 (conf s1))) with (r_msg_hdr (d1 (conf s))). by rewrite Hhdr. }
  { unfold frag_ok, mlen. cbn [f_seq f_off f_len]. pose proof (zlen_nonneg (body message k)).
    split; [done|]. lia. }
  cbn [mbind option_bind andb f_seq].
  assert (Hrest : queue_inv message (mk_pqueue l' c) /\ keeps (k + 1) (mk_pqueue l c) (mk_pqueue l' c)).
  { destruct Hq' as [[Hp _] Hi]. cbn [items] in Hp, Hi. split; [split; [split|]; cbn [items]|].
    - by apply Forall_cons_1 in Hp as [_ ?].
    - by inversion Hs.
    - by apply Forall_cons_1 in Hi as [_ ?].
    - intros k' i Hk' Hi0 Hg. destruct (Hkeeps k' i) as (x & [<-|Hin] & Hx & Hr); [lia|done|done|lia|].
      by exists x. }
  pose proof (inv_bytes _ _ _ Hinv) as Hbytes.
  destruct (Z.ltb_spec 0 (mlen message k)) as [Hpos|Hzero].
  - destruct (fragment (data it)) as [src|]; [|lia]. destruct Hbytes as [Hsz Hsrc].
    assert (src = body message k) as ->.
    { apply list_eq. intros i. destruct (decide (i < Z.to_nat (mlen message k))%nat) as [Hlt|Hge'].
      - rewrite <- (Nat2Z.id i). apply Hsrc; [lia|]. unfold received. by rewrite Ebm.
      - rewrite !lookup_ge_None_2; [done|unfold mlen, zlen in *; lia|unfold mlen, zlen in *; lia]. }
    cbn [mbind option_bind]. rewrite rdn_all. cbn [mbind option_bind].
    destruct Hroom as [Hok (blk & Hblk & Hz)].
    destruct (fill_room m' k blk) as (blk' & Hw & Hholds); [by split; [|exists blk]|done|].
    change (init_data (prepared s1 m' k)) with (buf_data m'). rewrite Hblk. cbn [mbind option_bind].
    change (wrn blk (DTLS1_HM_HEADER_LENGTH + 0)) with (wrn blk DTLS1_HM_HEADER_LENGTH). rewrite Hw.
    cbn [mbind option_bind]. exists (m' <| buf_data := Some blk' |>), (mk_pqueue l' c). split; [reflexivity|].
    by split.
  - cbn [mbind option_bind]. exists m', (mk_pqueue l' c). split; [reflexivity|]. split; [|done].
    apply room_holds; [done|]. unfold mlen in *. pose proof (zlen_nonneg (body message k)). lia.
Qed.

(** Message [k] in the buffer, to be handed over. *)
Definition delivered (s : tls) (m : BUF_MEM) (k : Z) : tls :=
  (prepared s m k) <| init_num := mlen message k |>.

(** The bytes of message [k] that are hashed: its header, as if it had come in one
    fragment, and its body. *)
Definition transcript (v k : Z) : list Z :=
  (if v =? DTLS1_BAD_VER then []
   else header_bytes (frag_header message (mk_frag k 0 0)) 0 (mlen message k)) ++ body message k.

(** What the caller gets: the message is in the buffer, the next one is expected. *)
Definition handed_over (s s' : tls) (k : Z) : Prop :=
  ready s' ((k + 1) mod 2 ^ 16) /\ init_msg s' = DTLS1_HM_HEADER_LENGTH /\
  (exists blk, init_data s' = Some blk /\
     rdn blk 0 DTLS1_HM_HEADER_LENGTH
       = Some (header_bytes (frag_header message (mk_frag k 0 0)) 0 (mlen message k)) /\
     rdn blk DTLS1_HM_HEADER_LENGTH (mlen message k) = Some (body message k)) /\
  buffered s' = buffered s /\ records (rest s') = records (rest s) /\
  hashed (rest s') = hashed (rest s) ++ transcript (version s) k.

Lemma rdn_wrn_start blk l : zlen l <= zlen blk ->
  exists blk', wrn blk 0 l = Some blk' /\ rdn blk' 0 (zlen l) = Some l /\ zlen blk' = zlen blk /\
    forall off n, zlen l <= off -> rdn blk' off n = rdn blk off n.
Proof.
  intros Hz. pose proof (zlen_nonneg l) as Hl. rewrite wrn_spec by lia. eexists. split; [done|].
  change (Z.to_nat 0) with 0%nat. rewrite take_0. cbn [app]. set (blk' := l ++ _).
  assert (Hz' : zlen blk' = zlen blk).
  { unfold blk'. rewrite zlen_app. unfold zlen in *. rewrite length_drop. lia. }
  split; [|split; [done|]].
  - rewrite rdn_spec by lia. rewrite drop_0. unfold blk', zlen. rewrite Nat2Z.id. by rewrite take_app_length.
  - intros off n Hoff. unfold rdn. rewrite Hz'. case_bool_decide; [|done]. f_equal. f_equal.
    unfold blk'. rewrite drop_app_ge by (unfold zlen in *; lia). rewrite drop_drop. f_equal.
    unfold zlen in *. lia.
Qed.

Lemma rdn_app mem i a b x y :
  rdn mem i a = Some x -> rdn mem (i + a) b = Some y -> rdn mem i (a + b) = Some (x ++ y).
Proof.
  unfold rdn. case_bool_decide as H1; [|done]. case_bool_decide as H2; [|done]. intros [= <-] [= <-].
  rewrite bool_decide_true by lia. f_equal. rewrite !Z2Nat.inj_add by lia.
  by rewrite <- take_take_drop, drop_drop.
Qed.

Lemma complete_message s m k : ready s k -> holds m k ->
  exists s', dtls_message_complete (delivered s m k) = Ret (true, mtype message k, mlen message k, s') /\
    handed_over s s' k.
Proof using DatagramLayer0.
  intros (Hseq & Hk & Hhdr & Hmsgs & _ & _) [[[Hlen Hd] Hfl] (blk & Hblk & Hz & Hbody)].
  destruct (Hmsgs k Hk) as (Hmt & _ & _). rewrite Hblk in Hd. unfold dtls_message_complete.
  assert (Hmt' : message_type (tmp (s3 (delivered s m k))) = mtype message k) by reflexivity. rewrite Hmt'.
  destruct (Z.eqb_spec (mtype message k) tls3_MT_CHANGE_CIPHER_SPEC) as [E|_].
  { unfold tls3_MT_CHANGE_CIPHER_SPEC in E. lia. }
  change (init_data (delivered s m k)) with (buf_data m). rewrite Hblk. cbn [defined mbind comp_bind].
  assert (Hr : r_msg_hdr (d1 (conf (delivered s m k)))
               = mk_hm_header (mtype message k) (mlen message k) k 0 0 false no_state).
  { change (r_msg_hdr (d1 (conf (delivered s m k)))) with
      (((r_msg_hdr (d1 (conf s))) <| hm_msg_len := mlen message k |> <| hm_type := mtype message k |>)
         <| hm_seq := k |>). by rewrite Hhdr. }
  rewrite Hr. cbn [hm_msg_len].
  assert (Hhb : header_bytes (mk_hm_header (mtype message k) (mlen message k) k 0 0 false no_state) 0 (mlen message k)
                = header_bytes (frag_header message (mk_frag k 0 0)) 0 (mlen message k)) by reflexivity.
  rewrite Hhb. set (hb := header_bytes _ _ _) in *.
  assert (Hzb : zlen hb = DTLS1_HM_HEADER_LENGTH) by apply zlen_header_bytes.
  assert (0 <= mlen message k) as Hl0 by apply zlen_nonneg.
  destruct (rdn_wrn_start blk hb) as (blk' & -> & Hhead & Hz' & Hsame); [lia|]. cbn [defined mbind comp_bind].
  set (s1 := set_init_data (delivered s m k) blk').
  assert (Hs1 : init_data s1 = Some blk') by reflexivity.
  set (pm := if negb _ then _ else _).
  assert (Hbody' : rdn blk' DTLS1_HM_HEADER_LENGTH (mlen message k) = Some (body message k))
    by (rewrite Hsame by lia; exact Hbody).
  set (bytes := transcript (version s) k).
  assert (Hbytes : rdn blk' pm.1 pm.2 = Some bytes).
  { unfold pm, bytes, transcript. change (version s1) with (version s).
    destruct (version s =? DTLS1_BAD_VER); cbn [negb fst snd app]; [exact Hbody'|].
    rewrite Z.add_comm. apply rdn_app; [|exact Hbody']. rewrite <- Hzb. exact Hhead. }
  destruct pm as [p n]. cbn [fst snd] in Hbytes.
  assert (Hmac : exists r, (if mtype message k =? tls3_MT_FINISHED then tls3_take_mac s1 else (true, s1))
                           = (true, s1 <| rest := r |>) /\ records r = records (rest s) /\
                             hashed r = hashed (rest s)).
  { destruct (mtype message k =? tls3_MT_FINISHED); [exact (datagram_take_mac s1)|].
    exists (rest s1). by rewrite rest_same. }
  destruct Hmac as (r & -> & Hr1 & Hh1). cbn [negb].
  change (init_data (s1 <| rest := r |>)) with (Some blk'). cbn [defined mbind comp_bind].
  rewrite Hbytes. cbn [defined mbind comp_bind].
  destruct (datagram_finish_mac bytes (s1 <| rest := r |>)) as (r' & -> & Hr2 & Hh2). cbn [negb].
  assert (Hok' : buffer_ok (m <| buf_data := Some blk' |>)).
  { split; [|done]. split; [done|]. cbn [update buf_data buf_max]. lia. }
  set (next := upd_d1 _). set (s2 := if msg_callback _ then _ else _).
  exists ((next s2) <| init_msg := DTLS1_HM_HEADER_LENGTH |>). split; [by destruct s2|].
  assert (Hs2 : s2 = s1 <| rest := r' |> <| calls := calls s2 |>)
    by (unfold s2; destruct (msg_callback _); reflexivity).
  clearbody s2. rewrite Hs2. split; [|split; [done|split; [|split; [reflexivity|split]]]].
  - split; [change (u16 (handshake_read_seq (d1 (conf s)) + 1) = (k + 1) mod 2 ^ 16); by rewrite Hseq|].
    split; [split; [apply Z.mod_pos_bound; lia|apply Z.mod_pos_bound; lia]|]. split; [reflexivity|].
    split; [exact Hmsgs|]. exists (m <| buf_data := Some blk' |>). by split.
  - exists blk'. split; [reflexivity|]. split; [by rewrite <- Hzb|exact Hbody'].
  - rewrite <- Hr1. exact Hr2.
  - rewrite <- Hh1. exact Hh2.
Qed.

(** One pass over the fragments: message [k] is complete, or a fragment was absorbed. *)
Definition pass_done (s : tls) (k : Z) (frs : list frag) (after : list (list Z)) (s1 : tls) (m : BUF_MEM) : Prop :=
  ready s1 k /\ holds m k /\ queue_inv message (buffered s1) /\ keeps (k + 1) (buffered s) (buffered s1) /\
  hashed (rest s1) = hashed (rest s) /\ version s1 = version s /\
  exists frs1 frs2, frs = frs1 ++ frs2 /\ arriving message frs2 (records (rest s1)) after.

Definition pass_again (s : tls) (k : Z) (f : frag) (frs : list frag) (after : list (list Z))
    (q : @pqueue hm_fragment) (r : list Z) : Prop :=
  queue_inv message q /\ keeps k (buffered s) q /\ arriving message frs (records r) after /\
  hashed r = hashed (rest s) /\ forall i, 0 <= i < Z.max 1 (mlen message k) -> covers f k i -> got q k i.

(** The fragment is the whole message that is next. *)
Lemma whole_spec s f k m r1 b2 rs : ready s k -> init_buf s = Some m -> buffer_ok m ->
  frag_ok message f -> f_seq f = k -> f_len f = mlen message k ->
  rest s = r1 -> records r1 = push (slice message f ++ b2) rs ->
  exists m1 i n s1, dtls1_preprocess_fragment secure s (frag_header message f) = Some (true, prepared s m1 k) /\
    (if 0 <? f_len f then
       let '(i, _, bytes, s) := tls_read_bytes tls3_RT_HANDSHAKE (f_len f) (prepared s m1 k) in
       if i <=? 0 then Ret (i, 0, s)
       else blk ← defined (init_data s);
            blk ← defined (wrn blk (DTLS1_HM_HEADER_LENGTH + f_off f) bytes);
            Ret (i, zlen bytes, set_init_data s blk)
     else Ret (1, 0, prepared s m1 k)) = Ret (i, n, s1) /\ 0 < i /\ n = f_len f /\
    exists m' r, s1 = prepared (s <| rest := r |>) m' k /\ holds m' k /\ left_over s b2 rs r.
Proof using malloc_ok secure_zlen DatagramLayer0.
  intros (Hseq & Hk & Hhdr & Hmsgs & _) Hm Hbuf Hf <- Hw Hrest Hr. destruct (Hmsgs _ Hk) as (_ & Hmax & H24).
  pose proof (zlen_slice message f Hf) as Hzs. destruct (slice_whole message f Hf Hw) as [Hoff Hslice].
  destruct (preprocess_spec s f m) as (m1 & Hpre & Hroom); [done|done|by rewrite Hhdr|done..|].
  destruct (Z.ltb_spec 0 (f_len f)) as [Hpos|Hzero].
  - assert (Hne : slice message f <> []) by (intros E; rewrite E, zlen_nil in Hzs; lia).
    rewrite push_app in Hr by done. rewrite <- Hrest in Hr.
    destruct (datagram_read (prepared s m1 (f_seq f)) _ b2 rs Hne Hr) as (r & Hread & Hr' & _).
    rewrite Hzs in Hread. exists m1. rewrite Hread. destruct (Z.leb_spec (f_len f) 0) as [|_]; [lia|].
    destruct Hroom as [Hok (blk & Hblk & Hz)].
    change (init_data ((prepared s m1 (f_seq f)) <| rest := r |>)) with (buf_data m1). rewrite Hblk.
    cbn [defined mbind comp_bind]. rewrite Hoff, Hslice, Z.add_0_r.
    destruct (fill_room m1 (f_seq f) blk) as (blk' & -> & Hh); [by split; [|exists blk]|done|].
    cbn [defined mbind comp_bind]. eexists _, _, _. split; [done|]. split; [reflexivity|]. split; [done|].
    split; [by rewrite <- Hslice|]. by exists (m1 <| buf_data := Some blk' |>), r.
  - exists m1, 1, 0, (prepared s m1 (f_seq f)). split; [done|]. split; [done|]. split; [done|].
    split; [pose proof (zlen_nonneg (slice message f)); lia|]. exists m1, r1. split; [by rewrite <- Hrest, rest_same|].
    split; [apply room_holds; [done|]; pose proof (zlen_nonneg (slice message f)); lia|].
    assert (slice message f = []) as Hnil; [|by rewrite Hnil in Hr; split; [|by rewrite Hrest]].
    destruct (slice message f) as [|x l]; [done|]. rewrite zlen_cons in Hzs. pose proof (zlen_nonneg l). lia.
Qed.

Lemma reassembled_spec n s k frs after :
  ready s k -> queue_inv message (buffered s) -> Forall (frag_ok message) frs ->
  arriving message frs (records (rest s)) after -> complete (buffered s) k \/ frs <> [] ->
  (exists s1 m, dtls_get_reassembled_message secure (S n) s = Ret (true, 0, mlen message k, delivered s1 m k) /\
     pass_done s k frs after s1 m) \/
  (exists f frs' q r, frs = f :: frs' /\
     dtls_get_reassembled_message secure (S n) s = Ret (false, DTLS1_HM_FRAGMENT_RETRY, 0, moved q r s) /\
     pass_again s k f frs' after q r).
Proof using malloc_ok secure_zlen DatagramLayer0.
  intros Hready Hq Hfrs Harr Hsome. cbn [dtls_get_reassembled_message].
  destruct (retrieve_spec s k Hready Hq) as [(m & q & -> & Hholds & Hq' & Hkeeps)|(q & -> & Hq' & Hkeeps & Hnot)];
    cbn [defined mbind comp_bind Z.ltb Z.compare].
  { left. exists (insert_fragment q s), m. split; [done|]. split; [done|]. do 5 (split; [done|]). by exists [], frs. }
  remember (records (rest s)) as rc eqn:Hrc. destruct Harr as [rs|f frs tail rs after Harr].
  { destruct Hsome as [Hc|]; [|done]. destruct Hnot. intros i Hi.
    apply (Hkeeps k i); [lia|lia|by apply Hc]. }
  apply Forall_cons_1 in Hfrs as [Hf Hfrs]. set (s1 := insert_fragment q s).
  pose proof (zlen_slice message f Hf) as Hzs. pose proof Hready as (Hseq & Hk & Hhdr & Hmsgs & m & Hm & Hbuf).
  pose proof Hf as (Hfk & Hoff & Hlen & Hle & Hzero). destruct (Hmsgs _ Hfk) as (Hmt & Hmax & H24).
  destruct (header_roundtrip message _ f Hmsgs Hf) as [Hget Hrd].
  set (hb := header_bytes _ _ _) in *. assert (Hzb : zlen hb = DTLS1_HM_HEADER_LENGTH) by apply zlen_header_bytes.
  destruct (datagram_read s1 hb (slice message f ++ tail) rs) as (r1 & Hread & [Hr1 Hh1] & Hrec); [done|
    |].
  { change (records (rest s1)) with (records (rest s)). rewrite <- Hrc. unfold wire. fold hb. by rewrite <- app_assoc. }
  rewrite Hzb in Hread. rewrite Hread. cbn [Z.leb Z.compare DTLS1_HM_HEADER_LENGTH].
  change (tls3_RT_HANDSHAKE =? tls3_RT_CHANGE_CIPHER_SPEC) with false. rewrite Hzb, Z.eqb_refl. cbn [negb].
  rewrite Hget. cbn [defined mbind comp_bind frag_header hm_frag_len hm_seq hm_msg_len]. rewrite Hrec, zlen_app, Hzs.
  pose proof (zlen_nonneg tail). destruct (Z.ltb_spec (f_len f + zlen tail) (f_len f)) as [|_]; [lia|].
  set (s2 := s1 <| rest := r1 |>). change (handshake_read_seq (d1 (conf s2))) with (handshake_read_seq (d1 (conf s))).
  rewrite Hseq. destruct (Z.eqb_spec (f_seq f) k) as [Hfseq|Hother]; cbn [negb].
  2:{ destruct (out_of_seq_spec s2 f tail rs) as (q' & r' & -> & [Hr' Hh'] & Hq'' & Hmono); try done.
      cbn [mbind comp_bind]. right. exists f, frs, q', r'. split; [done|]. split; [reflexivity|].
      split; [done|]. split; [|split; [by rewrite Hr'|split; [by rewrite Hh'|]]].
      - intros k' i Hk' Hi Hg. apply Hmono; [done|]. by apply Hkeeps.
      - intros i _ [E _]. by destruct Hother. }
  destruct (Z.ltb_spec (f_len f) (mlen message (f_seq f))) as [Hpart|Hw].
  - assert (0 < f_len f) by (destruct (Z.eq_dec (f_len f) 0) as [E|]; [specialize (Hzero E)|]; lia).
    rewrite (proj2 (Z.eqb_neq (f_len f) 0)) by lia. cbn [negb andb].
    rewrite push_app in Hr1 by (intros E; rewrite E, zlen_nil in Hzs; lia).
    destruct (reassemble_spec s2 f tail rs) as (q' & r' & -> & ([Hr' Hh'] & Hq'' & Hmono) & Hgot); try done.
    cbn [mbind comp_bind]. right. exists f, frs, q', r'. split; [done|]. split; [reflexivity|].
    split; [done|]. split; [|split; [by rewrite Hr'|split; [by rewrite Hh'|]]].
    + intros k' i Hk' Hi Hg. apply Hmono; [done|]. by apply Hkeeps.
    + intros i _ [_ Hi]. rewrite <- Hfseq. apply Hgot. lia.
  - rewrite andb_false_r. rewrite Hrd. cbn [defined mbind comp_bind].
    rewrite (proj2 (Z.eqb_neq (mtype message (f_seq f)) tls3_MT_HELLO_REQUEST))
      by (unfold tls3_MT_HELLO_REQUEST; lia). rewrite andb_false_r.
    destruct (whole_spec s2 f k m r1 tail rs) as (m1 & i & c & s3 & -> & Hrun & Hi & -> & m' & r & -> & Hh & Hr & Hh');
      try done; [by rewrite <- Hfseq; lia|].
    cbn [defined mbind comp_bind negb frag_header hm_frag_off]. rewrite Hrun. cbn [mbind comp_bind].
    destruct (Z.leb_spec i 0) as [|_]; [lia|]. rewrite Z.eqb_refl. cbn [negb].
    assert (f_len f = mlen message k) as Ew by (rewrite <- Hfseq; lia). rewrite Ew.
    left. exists (s2 <| rest := r |>), m'. split; [reflexivity|]. split; [done|]. split; [done|]. split; [done|].
    split; [intros k' i' Hk' Hi' Hg; apply (Hkeeps k' i'); [lia|done|done]|].
    split; [change (hashed r = hashed (rest s)); by rewrite Hh'|]. split; [done|].
    exists [f], frs. split; [done|]. change (rest (s2 <| rest := r |>)) with r. by rewrite Hr.
Qed.

(** [s'] after message [k] has been returned: it is in the buffer, the fragments [frs]
    and then [after] are to come, and the next message is expected. *)
Definition returned (s s' : tls) (k : Z) (frs : list frag) (after : list (list Z)) : Prop :=
  ready s' ((k + 1) mod 2 ^ 16) /\ queue_inv message (buffered s') /\
  keeps (k + 1) (buffered s) (buffered s') /\ arriving message frs (records (rest s')) after /\
  hashed (rest s') = hashed (rest s) ++ transcript (version s) k /\
  exists blk, init_data s' = Some blk /\
    rdn blk 0 DTLS1_HM_HEADER_LENGTH
      = Some (header_bytes (frag_header message (mk_frag k 0 0)) 0 (mlen message k)) /\
    rdn blk (init_msg s') (mlen message k) = Some (body message k).

Lemma again_loop_spec n : forall frs s k after,
  (length frs < n)%nat -> ready s k -> queue_inv message (buffered s) ->
  Forall (frag_ok message) frs -> arriving message frs (records (rest s)) after ->
  (forall i, 0 <= i < Z.max 1 (mlen message k) ->
     got (buffered s) k i \/ Exists (fun f => covers f k i) frs) ->
  exists s' frs1 frs2, again_loop secure n s = Ret (true, mtype message k, mlen message k, s') /\
    frs = frs1 ++ frs2 /\ returned s s' k frs2 after.
Proof using malloc_ok secure_zlen DatagramLayer0.
  induction n as [|n IH]; intros frs s k after Hn Hready Hq Hfrs Harr Hcov; [lia|].
  cbn [again_loop]. destruct (reassembled_spec n s k frs after Hready Hq Hfrs Harr)
    as [(s1 & m & -> & Hready1 & Hh & Hq1 & Hkeeps & Hh1 & Hv1 & frs1 & frs2 & -> & Harr1)
       |(f & frs' & q & r & -> & -> & Hq1 & Hkeeps & Harr1 & Hh1 & Hgot)].
  { destruct frs; [left|by right]. intros i Hi. destruct (Hcov i Hi) as [?|He]; [done|inversion He]. }
  - cbn [mbind comp_bind negb]. destruct (complete_message s1 m k Hready1 Hh) as (s' & Hrun & Hready' & Hmsg & Hblk & Hb & Hr & Hh2).
    exists s', frs1, frs2. split; [exact Hrun|]. split; [done|]. unfold returned.
    rewrite Hb, Hr, Hmsg, Hh2, Hh1, Hv1. auto 10.
  - cbn [mbind comp_bind negb].
    change ((DTLS1_HM_FRAGMENT_RETRY =? DTLS1_HM_BAD_FRAGMENT)
            || (DTLS1_HM_FRAGMENT_RETRY =? DTLS1_HM_FRAGMENT_RETRY)) with true. cbn iota.
    apply Forall_cons_1 in Hfrs as [Hf Hfrs]. simpl in Hn.
    destruct (IH frs' (moved q r s) k after) as (s' & frs1 & frs2 & Hrun & -> & Hret); try done; [lia| |].
    + intros i Hi. destruct (Hcov i Hi) as [Hg|He].
      * left. apply (Hkeeps k i); [lia|lia|done].
      * apply Exists_cons in He as [Hc|He]; [left; by apply Hgot|by right].
    + exists s', (f :: frs1), frs2. split; [exact Hrun|]. split; [done|].
      destruct Hret as (? & ? & Hk' & ? & Hh2 & ?). split; [done|]. split; [done|].
      split; [|split; [done|split; [by rewrite Hh2; change (hashed (rest (moved q r s))) with (hashed r); rewrite Hh1|done]]].
      intros k' i Hk Hi Hg. apply Hk'; [done|done|]. apply Hkeeps; [lia|done|done].
Qed.

End Reading.

(** ** Property *)

(** C20: a DTLS handshake message arrives as it was sent, however its fragments come:
    when message [k] is the next one and every byte of it has been received or is in
    one of the fragments to come - which may be out of order, overlapping or
    repeated, one or more to a record, and mixed with fragments of earlier and of
    later messages -, [dtls_get_message] returns its type and its length, with the
    header and the body in the buffer, hashes them as if the message had come in one
    fragment, and expects the next message; what has
    been received of later messages is kept, and is still what was sent. *)
Theorem dtls_message_received `{Callouts} `{Malloc} records hashed `{!DatagramLayer records hashed} message secure
  (malloc_ok : forall n, 0 < n < 2 ^ 31 -> is_Some (malloc n))
  (secure_zlen : forall n blk, 0 <= n -> secure n = Some blk -> zlen blk = n)
  s k frs after fuel :
  (length frs < fuel)%nat -> ready message s k -> queue_inv message (buffered s) ->
  Forall (frag_ok message) frs -> arriving message frs (records (rest s)) after ->
  (forall i, 0 <= i < Z.max 1 (mlen message k) ->
     got (buffered s) k i \/ Exists (fun f => covers f k i) frs) ->
  exists s' frs1 frs2, dtls_get_message secure fuel s = Ret (true, mtype message k, mlen message k, s') /\
    frs = frs1 ++ frs2 /\ returned records hashed message s s' k frs2 after.
Proof.
  intros Hfuel (Hseq & Hk & Hhdr & Hrest) Hq Hfrs Harr Hcov. unfold dtls_get_message.
  set (s0 := upd_d1 _ s). by apply (again_loop_spec records hashed message malloc_ok secure secure_zlen fuel frs s0).
Qed.

(** ** Witness *)

#[local] Existing Instance generous_malloc.
#[local] Existing Instance datagrams.

(** The records that [rest] holds for [datagrams]. *)
Fixpoint parse_records (n : nat) (l : list Z) : list (list Z) :=
  match n with
  | O => []
  | S n =>
      match skip_empty l with
      | size :: bytes =>
          if (0 <? size) && (size <=? zlen bytes)
          then take (Z.to_nat size) bytes :: parse_records n (drop (Z.to_nat size) bytes) else []
      | [] => []
      end
  end.

Definition datagram_records (l : list Z) : list (list Z) :=
  parse_records (length (records_part l)) (records_part l).

Lemma hashed_part_rest h l : hashed_part (datagram_rest h l) = h.
Proof. unfold hashed_part, datagram_rest, zlen. cbn [hd tail]. by rewrite Nat2Z.id, take_app_length. Qed.

Lemma records_part_rest h l : records_part (datagram_rest h l) = l.
Proof. unfold records_part, datagram_rest, zlen. cbn [hd tail]. by rewrite Nat2Z.id, drop_app_length. Qed.

Lemma skip_empty_length l : (length (skip_empty l) <= length l)%nat.
Proof. induction l as [|[| |] l IH]; simpl in *; lia. Qed.

Lemma parse_fuel n : forall m l, (length l <= n)%nat -> (length l <= m)%nat ->
  parse_records n l = parse_records m l.
Proof.
  induction n as [|n IH]; intros [|m] l Hn Hm; try (destruct l; [done|simpl in *; lia]).
  cbn [parse_records]. pose proof (skip_empty_length l). destruct (skip_empty l) as [|size bytes]; [done|].
  destruct (_ && _) eqn:E; [|done]. f_equal. simpl in *. apply IH; rewrite length_drop; lia.
Qed.

#[export] Instance datagram_layer : DatagramLayer datagram_records hashed_part.
Proof.
  split.
  - intros s b1 b2 rs Hb1 Hr. unfold datagram_records in Hr. set (l := records_part (rest s)) in *.
    destruct (length l) as [|n] eqn:En; [done|]. cbn [parse_records] in Hr.
    pose proof (skip_empty_length l) as Hlen. destruct (skip_empty l) as [|size bytes] eqn:El; [done|].
    destruct (_ && _) eqn:E; [|done]. apply andb_prop in E as [Hpos%Z.ltb_lt Hsz%Z.leb_le].
    assert (Htake : take (Z.to_nat size) bytes = b1 ++ b2) by congruence.
    assert (Hrs : parse_records n (drop (Z.to_nat size) bytes) = rs) by congruence. clear Hr.
    assert (Hsize : size = zlen b1 + zlen b2).
    { rewrite <- zlen_app, <- Htake, zlen_take; lia. }
    pose proof (zlen_nonneg b2) as Hb2.
    assert (Hbytes : bytes = b1 ++ b2 ++ drop (Z.to_nat size) bytes).
    { rewrite app_assoc, <- Htake. symmetry. apply take_drop. }
    set (tail := drop (Z.to_nat size) bytes) in *. exists (datagram_rest (hashed_part (rest s)) (zlen b2 :: b2 ++ tail)).
    split; [|split; [split; [|apply hashed_part_rest]|]].
    + cbn [tls_read_bytes datagrams environment]. unfold datagram_bytes. fold l. rewrite El.
      rewrite Z.min_l by lia. rewrite Hbytes.
      replace (Z.to_nat (zlen b1)) with (length b1) by (unfold zlen; lia).
      rewrite take_app_length, drop_app_length.
      by replace (size - zlen b1) with (zlen b2) by lia.
    + assert (Hn : (length tail <= n)%nat).
      { simpl in Hlen. unfold tail. rewrite length_drop. lia. }
      rewrite <- Hrs. unfold datagram_records. rewrite records_part_rest. cbn [length parse_records].
      destruct b2 as [|x b2].
      * change (zlen (@nil Z)) with 0. cbn [app length parse_records skip_empty push].
        apply (parse_fuel (S (length tail)) n tail); lia.
      * assert (0 < zlen (x :: b2)) by (rewrite zlen_cons; pose proof (zlen_nonneg b2); lia).
        cbn [skip_empty]. destruct (zlen (x :: b2)) eqn:Ez; try lia. rewrite <- Ez.
        rewrite (proj2 (Z.ltb_lt _ _)), (proj2 (Z.leb_le _ _)) by
          (rewrite ?zlen_app; pose proof (zlen_nonneg tail); lia).
        unfold zlen. rewrite Nat2Z.id. cbn [andb]. rewrite take_app_length, drop_app_length. cbn [push].
        f_equal. apply parse_fuel; [|lia]. rewrite length_app. lia.
    + cbn [RECORD_LAYER_get_rrec_length datagrams epoch_environment update rest].
      by rewrite records_part_rest.
  - intros s. exists (rest s). by rewrite rest_same.
  - intros bytes s. eexists. split; [reflexivity|]. unfold datagram_records.
    by rewrite hashed_part_rest, records_part_rest.
Qed.

(** Every message is a ClientHello of five bytes. *)
Definition hellos (k : Z) : Z * list Z := (1, [10; 11; 12; 13; 14]).

(** The end of message 0, a part of message 1, and the beginning of message 0, in
    two records; then another one. *)
Definition hello_fragments : list frag := [mk_frag 0 3 2; mk_frag 1 1 2; mk_frag 0 0 4].

Definition hello_records : list (list Z) :=
  [wire hellos (mk_frag 0 3 2) ++ wire hellos (mk_frag 1 1 2); wire hellos (mk_frag 0 0 4); [9]].

Definition receiving_server : tls :=
  (sample_tls DTLS1_2_VERSION true TLS_ST_BEFORE)
    <| rest := datagram_rest [] (concat (map (fun r => zlen r :: r) hello_records)) |>.

Lemma generous (n : Z) : 0 < n < 2 ^ 31 -> is_Some (malloc n).
Proof. by eexists. Qed.

Lemma dtls_message_received_witness :
  exists s' blk, dtls_get_message no_secure 4 receiving_server = Ret (true, 1, 5, s') /\
    init_data s' = Some blk /\ rdn blk (init_msg s') 5 = Some [10; 11; 12; 13; 14].
Proof.
  destruct (dtls_message_received datagram_records hashed_part hellos no_secure generous no_secure_zlen
    receiving_server 0 hello_fragments [[9]] 4) as (s' & frs1 & frs2 & Hrun & _ & Hret).
  - simpl. lia.
  - split; [reflexivity|]. split; [split; [done|reflexivity]|]. split; [reflexivity|]. split.
    + intros k _. unfold mlen. vm_compute. repeat split; discriminate.
    + eexists. split; [reflexivity|]. split; [vm_compute; repeat split; discriminate|reflexivity].
  - split; [split|]; constructor.
  - repeat constructor; vm_compute; discriminate.
  - assert (Hrec : datagram_records (rest receiving_server) = hello_records) by (vm_compute; reflexivity).
    rewrite Hrec. apply (arriving_cons _ (mk_frag 0 3 2) _ (wire hellos (mk_frag 1 1 2))).
    apply (arriving_record _ (mk_frag 1 1 2)). apply (arriving_record _ (mk_frag 0 0 4)). constructor.
  - intros i Hi. right. change (mlen hellos 0) with 5 in Hi. unfold hello_fragments.
    rewrite !Exists_cons. unfold covers. cbn [f_seq f_off f_len]. lia.
  - destruct Hret as (_ & _ & _ & _ & _ & blk & Hblk & _ & Hbody). exists s', blk.
    split; [exact Hrun|]. split; [exact Hblk|exact Hbody].
Defined.

(** ** An empty fragment

    A fragment of length 0 of a message with a body is taken for the whole message:
    the test in [dtls1_reassemble_fragment] is not reached. *)
Definition empty_fragment_client : tls :=
  (sample_tls DTLS1_2_VERSION false TLS_ST_CR_SRVR_HELLO)
    <| rest := datagram_rest [] [12; 14; 0; 0; 5; 0; 0; 0; 0; 0; 0; 0; 0] |>.

Example empty_fragment_taken :
  exists s', dtls_get_message no_secure 4 empty_fragment_client = Ret (true, 14, 0, s') /\
    handshake_read_seq (d1 (conf s')) = 1 /\
    hashed_part (rest s') = [14; 0; 0; 5; 0; 0; 0; 0; 0; 0; 0; 5; 0; 0; 0; 0; 0].
Proof. eexists. split; [vm_compute; reflexivity|]. split; reflexivity. Qed.
