(* ===== verification/Transfer.v ===== *)
(** * Sending the messages of a DTLS handshake

    [dtls1_do_write] sends a message as fragments that fit into a datagram and
    together are the message; whoever receives them, in any order, gets the message.
    The transport is an interface, [DatagramWriter]: the records written so far are
    a function of the part of the connection that is not modelled. *)

From S2P Require Import Prelude Mem PQueue Packet Buffer WPacket Wire TlsState Protocol StatemLib Dtls DtlsWrite Statem Sample ConstantTime Reassembly Datagram.

(** ** The transport and the handshake hash, as seen from above *)

Class DatagramWriter `{Callouts} (sent : list Z -> list (list Z)) (hashed : list Z -> list Z) : Prop := {
  writer_write type bytes s :
    exists i r, dtls1_write_bytes type bytes s = (i, zlen bytes, s <| rest := r |>) /\ 0 <= i /\
      sent r = sent (rest s) ++ [bytes] /\ hashed r = hashed (rest s);
  writer_finish_mac bytes s :
    exists r, tls3_finish_mac bytes s = (true, s <| rest := r |>) /\ sent r = sent (rest s) /\
      hashed r = hashed (rest s) ++ bytes;
  writer_flush s : 0 < BIO_flush s;
  writer_pending s : 0 <= BIO_wpending s <= INT_MAX;
  (** the overhead is that of the network protocol *)
  writer_overhead s s' : BIO_dgram_get_mtu_overhead s = BIO_dgram_get_mtu_overhead s';
  writer_epoch e s :
    exists r, DTLS_RECORD_LAYER_set_saved_w_epoch e s = (s <| rest := r |>) /\ sent r = sent (rest s) /\
      hashed r = hashed (rest s)
}.

(** ** A message in pieces *)

Section Sending.
Context (message : Z -> Z * list Z).

(** The fragments of message [k] from position [o] on. *)
Inductive pieces (k : Z) : Z -> list frag -> Prop :=
| pieces_last o n : o + n = mlen message k -> pieces k o [mk_frag k o n]
| pieces_more o n frs : 0 < n -> o + n < mlen message k -> pieces k (o + n) frs ->
    pieces k o (mk_frag k o n :: frs).

Lemma pieces_ok k o frs : seq_ok k -> pieces k o frs -> 0 <= o ->
  o < mlen message k \/ o = 0 /\ mlen message k = 0 ->
  Forall (frag_ok message) frs /\ Forall (fun f => f_seq f = k) frs /\
  forall i, o <= i < o + Z.max 1 (mlen message k - o) -> Exists (fun f => covers f k i) frs.
Proof.
  intros Hk Hp. induction Hp as [o n Hn|o n frs Hn Hlt Hp IH]; intros Ho Hor.
  - split; [|split].
    + constructor; [|constructor]. unfold frag_ok. cbn [f_seq f_off f_len]. split; [done|]. lia.
    + by constructor.
    + intros i Hi. constructor. split; [done|]. cbn [f_off f_len]. lia.
  - destruct IH as (Hok & Hseq & Hcov); [lia|lia|]. split; [|split].
    + constructor; [|done]. unfold frag_ok. cbn [f_seq f_off f_len]. split; [done|]. lia.
    + by constructor.
    + intros i Hi. destruct (Z.lt_ge_cases i (o + n)).
      * constructor 1. split; [done|]. cbn [f_off f_len]. lia.
      * constructor 2. apply Hcov. lia.
Qed.

Context `{Callouts} (sent : list Z -> list (list Z)) (hashed : list Z -> list Z).
Context `{!DatagramWriter sent hashed}.

(** What stays the same while message [k] is being sent. *)
Record sending (k : Z) (s : tls) : Prop := {
  sending_type : hm_type (w_msg_hdr (d1 (conf s))) = mtype message k;
  sending_len : hm_msg_len (w_msg_hdr (d1 (conf s))) = mlen message k;
  sending_seq : hm_seq (w_msg_hdr (d1 (conf s))) = k;
  sending_short : mlen message k < 2 ^ 24;
  sending_room : DTLS1_HM_HEADER_LENGTH < max_send_fragment (conf s);
}.

(** The rest of message [k] from position [o] on is in the buffer. *)
Definition to_send (k o : Z) (s : tls) : Prop :=
  exists blk, init_data s = Some blk /\ DTLS1_HM_HEADER_LENGTH + mlen message k <= zlen blk /\
    rdn blk (DTLS1_HM_HEADER_LENGTH + o) (mlen message k - o) = Some (drop (Z.to_nat o) (body message k)).

(** A datagram of [m] bytes has room for [overhead] and a fragment. *)
Definition fits (overhead m : Z) : Prop :=
  0 <= overhead <= INT_MAX /\ DTLS1_RT_HEADER_LENGTH + DTLS1_HM_HEADER_LENGTH + overhead < m <= INT_MAX.

Lemma room_for_spec overhead s : fits overhead (mtu (d1 (conf s))) ->
  exists c, room_for overhead s = inr c /\ DTLS1_HM_HEADER_LENGTH < c /\
    c + DTLS1_RT_HEADER_LENGTH + overhead <= mtu (d1 (conf s)).
Proof using DatagramWriter0.
  intros [Ho Hm]. pose proof (writer_pending s) as Hp. pose proof (writer_flush s) as Hfl.
  unfold room_for, DTLS1_RT_HEADER_LENGTH, DTLS1_HM_HEADER_LENGTH, INT_MAX in *.
  rewrite (sz_small (13 + overhead)), !sz_small by (unfold SIZE_MAX; lia). set (m := mtu _) in *.
  destruct (Z.ltb_spec (BIO_wpending s + 13 + overhead) m) as [Hlt|Hge].
  - destruct (Z.leb_spec (m - (BIO_wpending s + 13 + overhead)) 12).
    + destruct (Z.leb_spec (BIO_flush s) 0); [lia|]. destruct (Z.ltb_spec (13 + overhead + 12) m); [|lia].
      eexists. split; [done|]. lia.
    + eexists. split; [done|]. lia.
  - cbn [Z.leb Z.compare]. destruct (Z.leb_spec (BIO_flush s) 0); [lia|].
    destruct (Z.ltb_spec (13 + overhead + 12) m); [|lia]. eexists. split; [done|]. lia.
Qed.

(** Writing into a block leaves what comes after. *)
Lemma rdn_wrn_after blk p l : 0 <= p -> p + zlen l <= zlen blk ->
  exists blk', wrn blk p l = Some blk' /\ zlen blk' = zlen blk /\ rdn blk' p (zlen l) = Some l /\
    forall off n, p + zlen l <= off -> rdn blk' off n = rdn blk off n.
Proof.
  intros Hp Hl. pose proof (zlen_nonneg l) as Hz. rewrite wrn_spec by lia. eexists. split; [done|].
  set (blk' := take _ _ ++ _ ++ _).
  assert (Hpre : zlen (take (Z.to_nat p) blk) = p) by (apply zlen_take; lia).
  assert (Hz' : zlen blk' = zlen blk).
  { unfold blk'. rewrite !zlen_app, Hpre. unfold zlen in *. rewrite length_drop. lia. }
  split; [done|]. split.
  - rewrite rdn_spec by lia. f_equal. unfold blk'.
    rewrite drop_app_ge by (unfold zlen in Hpre; lia).
    replace (Z.to_nat p - length (take (Z.to_nat p) blk))%nat with 0%nat by (unfold zlen in Hpre; lia).
    rewrite drop_0. unfold zlen. rewrite Nat2Z.id. by rewrite take_app_length.
  - intros off n Hoff. unfold rdn. rewrite Hz'. case_bool_decide; [|done]. f_equal. f_equal.
    unfold blk'. rewrite !drop_app_ge by (unfold zlen in *; lia). rewrite drop_drop. f_equal.
    unfold zlen in *. lia.
Qed.

Lemma rdn_prefix blk i n m x : rdn blk i n = Some x -> 0 <= m <= n ->
  rdn blk i m = Some (take (Z.to_nat m) x).
Proof.
  unfold rdn. case_bool_decide; [|done]. intros [= <-] Hm. rewrite bool_decide_true by lia.
  rewrite take_take. do 2 f_equal. lia.
Qed.

Lemma rdn_suffix blk i n m x : rdn blk i n = Some x -> 0 <= m <= n ->
  rdn blk (i + m) (n - m) = Some (drop (Z.to_nat m) x).
Proof.
  unfold rdn. case_bool_decide; [|done]. intros [= <-] Hm. rewrite bool_decide_true by lia.
  rewrite skipn_firstn_comm, drop_drop. do 2 f_equal; [lia|]. f_equal. lia.
Qed.

(** [s] with the buffer's position at [o]. *)
Definition positioned (k o : Z) (s : tls) : tls :=
  s <| init_off := o |> <| init_num := DTLS1_HM_HEADER_LENGTH + mlen message k - o |>.

(** Before the fragment at [o]; after the first one the position is past the header. *)
Definition at_fragment (k o : Z) (s : tls) : Prop :=
  if o =? 0 then init_off s = 0 /\ init_num s = DTLS1_HM_HEADER_LENGTH + mlen message k
  else init_off s = DTLS1_HM_HEADER_LENGTH + o /\ init_num s = mlen message k - o.

(** Where a fragment can begin. *)
Definition within (k o : Z) : Prop := 0 <= o < mlen message k \/ o = 0 /\ mlen message k = 0.

Lemma next_fragment_spec k o s : at_fragment k o s -> within k o -> mlen message k < 2 ^ 24 ->
  0 < init_num s /\ next_fragment tls3_RT_HANDSHAKE o s = (true, o, positioned k o s).
Proof.
  unfold at_fragment, next_fragment, within, positioned. intros Ha Hw H24.
  change (tls3_RT_HANDSHAKE =? tls3_RT_HANDSHAKE) with true. cbn [andb].
  destruct (Z.eqb_spec o 0) as [->|Hne]; destruct Ha as [Hoff Hnum].
  - rewrite Hoff. cbn [Z.eqb negb]. split; [unfold DTLS1_HM_HEADER_LENGTH in *; lia|].
    rewrite Z.sub_0_r, <- Hnum, <- Hoff. by destruct s.
  - rewrite Hoff. rewrite (proj2 (Z.eqb_neq _ _)) by (unfold DTLS1_HM_HEADER_LENGTH; lia). cbn [negb].
    split; [lia|]. rewrite (proj2 (Z.ltb_lt 0 o)), (proj2 (Z.leb_gt _ _)) by lia.
    f_equal. cbn [update init_off init_num]. unfold update. cbn. rewrite Hoff, Hnum.
    rewrite !sz_small by (unfold SIZE_MAX, DTLS1_HM_HEADER_LENGTH; lia). f_equal; lia.
Qed.

Definition header_part (v k : Z) : list Z :=
  if v =? DTLS1_BAD_VER then []
  else header_bytes (frag_header message (mk_frag k 0 0)) 0 (mlen message k).

Lemma header_bytes_sending k s off n : sending k s ->
  header_bytes (w_msg_hdr (d1 (conf s))) off n = header_bytes (frag_header message (mk_frag k off n)) off n /\
  header_bytes (w_msg_hdr (d1 (conf s))) off n = header_bytes (frag_header message (mk_frag k 0 0)) off n.
Proof. intros [Ht Hl Hs _ _]. unfold header_bytes. by rewrite Ht, Hl, Hs. Qed.

Lemma zlen_body_from k o n x : within k o -> 0 <= n -> o + n <= mlen message k ->
  x = take (Z.to_nat n) (drop (Z.to_nat o) (body message k)) -> zlen x = n.
Proof.
  intros Hw Hn Hle ->. unfold within, mlen in *. rewrite zlen_take; [done|]. rewrite zlen_drop; lia.
Qed.

(** The header of a fragment is written in front of its bytes. *)
Lemma header_written k o n s : sending k s -> to_send k o s -> within k o -> 0 <= n -> o + n <= mlen message k ->
  exists blk, dtls1_write_message_header (dtls1_fix_message_header (positioned k o s) o n) o
      = Some (set_init_data (dtls1_fix_message_header (positioned k o s) o n) blk) /\
    rdn blk o (DTLS1_HM_HEADER_LENGTH + n) = Some (wire message (mk_frag k o n)) /\
    to_send k (o + n) (set_init_data (dtls1_fix_message_header (positioned k o s) o n) blk) /\
    (forall blk0, init_data s = Some blk0 -> zlen blk = zlen blk0).
Proof.
  intros Hs (blk & Hblk & Hz & Hrd) Hw Hn Hle. unfold dtls1_write_message_header.
  set (s1 := dtls1_fix_message_header _ _ _).
  change (init_data s1) with (init_data s). rewrite Hblk. cbn [mbind option_bind].
  assert (Hs1 : sending k s1) by (by destruct Hs).
  change (hm_frag_off (w_msg_hdr (d1 (conf s1)))) with o. change (hm_frag_len (w_msg_hdr (d1 (conf s1)))) with n.
  destruct (header_bytes_sending k s1 o n Hs1) as [-> _]. set (hb := header_bytes _ _ _).
  assert (Hzb : zlen hb = DTLS1_HM_HEADER_LENGTH) by apply zlen_header_bytes.
  assert (Hbounds : 0 <= o /\ 0 <= mlen message k) by (unfold within in Hw; lia).
  destruct (rdn_wrn_after blk o hb) as (blk' & -> & Hz' & Hhead & Hafter); [lia|lia|]. cbn [mbind option_bind].
  exists blk'. split; [done|]. split.
  - apply rdn_app; [by rewrite <- Hzb|]. rewrite Hafter by lia. rewrite Z.add_comm.
    apply rdn_prefix with (m := n) in Hrd; [|lia]. exact Hrd.
  - split; [|by intros blk0 [= <-]].
    exists blk'. split; [unfold init_data, set_init_data in *; cbn [update init_buf];
      unfold s1; cbn; destruct (init_buf s); [done|discriminate Hblk]|].
    split; [lia|]. rewrite Hafter by lia.
    apply rdn_suffix with (m := n) in Hrd; [|lia].
    rewrite drop_drop, <- Z2Nat.inj_add in Hrd by lia.
    rewrite <- Hrd. f_equal; lia.
Qed.

(** The size of the message buffer. *)
Definition buf_size (s : tls) : option Z := option_map zlen (init_data s).

(** Only the message buffer, and what is not modelled, have changed. *)
Definition same_but (s s' : tls) : Prop :=
  s' = s <| init_buf := init_buf s' |> <| rest := rest s' |> /\ buf_size s' = buf_size s.

(** What is hashed for the fragment of [n] bytes at [o]. *)
Definition hashed_piece (v k o n : Z) : list Z :=
  (if o =? 0 then header_part v k else []) ++ slice message (mk_frag k o n).

Lemma hash_fragment_spec k o n s blk : sending k s -> to_send k (o + n) s -> init_off s = o -> within k o ->
  0 <= n -> o + n <= mlen message k -> init_data s = Some blk ->
  rdn blk o (DTLS1_HM_HEADER_LENGTH + n) = Some (wire message (mk_frag k o n)) ->
  exists s', hash_fragment o (DTLS1_HM_HEADER_LENGTH + n) s = Ret (true, s') /\ same_but s s' /\
    to_send k (o + n) s' /\ sent (rest s') = sent (rest s) /\
    hashed (rest s') = hashed (rest s) ++ hashed_piece (version s) k o n.
Proof using DatagramWriter0.
  intros Hs Hto Hoff Hw Hn Hle Hblk Hrd. pose proof (sending_short _ _ Hs) as H24.
  assert (Hl : 0 <= mlen message k /\ 0 <= o) by (unfold within in Hw; lia).
  unfold hash_fragment. rewrite Hoff, (sending_len _ _ Hs).
  destruct (header_bytes_sending k s 0 (mlen message k) Hs) as [_ ->].
  assert (Hsl : rdn blk (o + DTLS1_HM_HEADER_LENGTH) n = Some (slice message (mk_frag k o n))).
  { apply rdn_suffix with (m := DTLS1_HM_HEADER_LENGTH) in Hrd; [|unfold DTLS1_HM_HEADER_LENGTH; lia].
    replace (DTLS1_HM_HEADER_LENGTH + n - DTLS1_HM_HEADER_LENGTH) with n in Hrd by lia.
    rewrite Hrd. reflexivity. }
  unfold hashed_piece, header_part. destruct (Z.eqb_spec o 0) as [->|Hne].
  - destruct (version s =? DTLS1_BAD_VER); cbn [andb negb].
    + cbn [mbind comp_bind]. rewrite Hblk. cbn [defined mbind comp_bind]. replace (sz _) with n
        by (rewrite sz_small; unfold SIZE_MAX, DTLS1_HM_HEADER_LENGTH; lia).
      rewrite Hsl. cbn [defined mbind comp_bind app].
      destruct (writer_finish_mac (slice message (mk_frag k 0 n)) s) as (r & -> & Hr & Hh).
      eexists. split; [reflexivity|]. by split; [split; [by destruct s|]|].
    + rewrite Hblk. cbn [defined mbind comp_bind]. set (hb := header_bytes _ _ _).
      assert (Hzb : zlen hb = DTLS1_HM_HEADER_LENGTH) by apply zlen_header_bytes.
      destruct Hto as (blk0 & Hblk0 & Hz & Hrd0). rewrite Hblk in Hblk0. injection Hblk0 as <-.
      destruct (rdn_wrn_after blk 0 hb) as (blk' & -> & Hz' & Hhead & Hafter); [lia|lia|].
      cbn [defined mbind comp_bind].
      assert (Hblk' : init_data (set_init_data s blk') = Some blk').
      { unfold init_data, set_init_data in *. cbn [update init_buf]. by destruct (init_buf s). }
      rewrite Hblk'. cbn [defined mbind comp_bind].
      assert (Hall : rdn blk' 0 (DTLS1_HM_HEADER_LENGTH + n) = Some (hb ++ slice message (mk_frag k 0 n))).
      { apply rdn_app; [by rewrite <- Hzb|]. rewrite Hafter by lia. exact Hsl. }
      rewrite Hall. cbn [defined mbind comp_bind].
      destruct (writer_finish_mac (hb ++ slice message (mk_frag k 0 n)) (set_init_data s blk')) as (r & -> & Hr & Hh).
      eexists. split; [reflexivity|]. split; [split; [by destruct s|]|].
      { change (buf_size ((set_init_data s blk') <| rest := r |>)) with (buf_size (set_init_data s blk')).
        unfold buf_size. rewrite Hblk, Hblk'. cbn. by rewrite Hz'. }
      split; [|done]. exists blk'. split; [exact Hblk'|]. split; [lia|]. by rewrite Hafter by lia.
  - cbn [andb mbind comp_bind]. rewrite Hblk. cbn [defined mbind comp_bind]. replace (sz _) with n
      by (rewrite sz_small; unfold SIZE_MAX, DTLS1_HM_HEADER_LENGTH; lia).
    rewrite Hsl. cbn [defined mbind comp_bind app].
    destruct (writer_finish_mac (slice message (mk_frag k o n)) s) as (r & -> & Hr & Hh).
    eexists. split; [reflexivity|]. by split; [split; [by destruct s|]|].
Qed.

(** Only what writing a message changes has changed. *)
Definition wrote (s s' : tls) : Prop :=
  s' = upd_d1 (fun d => d <| w_msg_hdr := w_msg_hdr (d1 (conf s')) |>)
         (s <| init_buf := init_buf s' |> <| init_off := init_off s' |> <| init_num := init_num s' |>
            <| calls := calls s' |> <| rest := rest s' |>) /\ buf_size s' = buf_size s.

Lemma d1_same s h : h = w_msg_hdr (d1 (conf s)) -> upd_d1 (fun d => d <| w_msg_hdr := h |>) s = s.
Proof.
  intros ->. destruct s. unfold upd_d1, update. cbn. f_equal.
  match goal with c : tls_CONF |- _ => destruct c end. cbn. f_equal.
  match goal with d : DTLS1_STATE |- _ => by destruct d end.
Qed.

Lemma wrote_plain s s' :
  s' = s <| init_buf := init_buf s' |> <| init_off := init_off s' |> <| init_num := init_num s' |>
         <| calls := calls s' |> <| rest := rest s' |> -> buf_size s' = buf_size s -> wrote s s'.
Proof.
  unfold wrote. intros E Hb. split; [|exact Hb]. rewrite d1_same; [exact E|]. rewrite E. reflexivity.
Qed.

Lemma wrote_trans s1 s2 s3 : wrote s1 s2 -> wrote s2 s3 -> wrote s1 s3.
Proof. intros [E1 B1] [E2 B2]. split; [|congruence]. rewrite E2, E1. reflexivity. Qed.

Lemma wrote_same s s' : wrote s s' ->
  mtu (d1 (conf s')) = mtu (d1 (conf s)) /\ version s' = version s /\
  retransmitting (d1 (conf s')) = retransmitting (d1 (conf s)) /\
  max_send_fragment (conf s') = max_send_fragment (conf s).
Proof. intros [E _]. by rewrite E. Qed.

(** What a fragment adds to the hash. *)
Definition added (s : tls) (k o n : Z) : list Z :=
  if retransmitting (d1 (conf s)) then [] else hashed_piece (version s) k o n.

Lemma fragment_written_spec k o n s blk : sending k s -> to_send k (o + n) s -> within k o ->
  init_off s = o -> init_num s = DTLS1_HM_HEADER_LENGTH + mlen message k - o ->
  0 <= n -> o + n <= mlen message k -> init_data s = Some blk ->
  rdn blk o (DTLS1_HM_HEADER_LENGTH + n) = Some (wire message (mk_frag k o n)) ->
  exists s', wrote s s' /\ sent (rest s') = sent (rest s) /\
    hashed (rest s') = hashed (rest s) ++ added s k o n /\
    let run := fragment_written tls3_RT_HANDSHAKE o (DTLS1_HM_HEADER_LENGTH + n) s in
    if o + n =? mlen message k
    then init_off s' = 0 /\ init_num s' = 0 /\ exists o' s'', run = Ret (Some (1, s'), o', s'')
    else run = Ret (None, o + n, s') /\ sending k s' /\ to_send k (o + n) s' /\
         init_off s' = DTLS1_HM_HEADER_LENGTH + (o + n) /\ init_num s' = mlen message k - (o + n).
Proof using DatagramWriter0.
  intros Hs Hto Hw Hoff Hnum Hn Hle Hblk Hrd. pose proof (sending_short _ _ Hs) as H24.
  assert (Hl : 0 <= mlen message k /\ 0 <= o) by (unfold within in Hw; lia).
  assert (Hhash : exists s1, (if (tls3_RT_HANDSHAKE =? tls3_RT_HANDSHAKE) && negb (retransmitting (d1 (conf s)))
                              then hash_fragment o (DTLS1_HM_HEADER_LENGTH + n) s else Ret (true, s)) = Ret (true, s1) /\
            same_but s s1 /\ to_send k (o + n) s1 /\ sent (rest s1) = sent (rest s) /\
            hashed (rest s1) = hashed (rest s) ++ added s k o n).
  { unfold added. change (tls3_RT_HANDSHAKE =? tls3_RT_HANDSHAKE) with true. cbn [andb].
    destruct (retransmitting _); cbn [negb].
    - exists s. split; [done|]. split; [split; [by destruct s|done]|]. by rewrite app_nil_r.
    - by apply (hash_fragment_spec k o n s blk). }
  destruct Hhash as (s1 & Hrun & Hsame & Hto1 & Hsent & Hhashed). unfold fragment_written. rewrite Hrun.
  cbn [mbind comp_bind negb]. destruct Hsame as [Hsame Hbuf].
  assert (Hoff1 : init_off s1 = o) by (rewrite Hsame; exact Hoff).
  assert (Hnum1 : init_num s1 = DTLS1_HM_HEADER_LENGTH + mlen message k - o) by (rewrite Hsame; exact Hnum).
  rewrite Hnum1. destruct (Z.eqb_spec (o + n) (mlen message k)) as [Hlast|Hmore].
  - destruct (Z.eqb_spec (DTLS1_HM_HEADER_LENGTH + n) (DTLS1_HM_HEADER_LENGTH + mlen message k - o)) as [_|]; [|lia].
    destruct Hto1 as (blk1 & Hblk1 & Hz1 & _).
    exists ((s1 <| calls := (if msg_callback s1 then calls s1 ++ [C_msg_callback 1 tls3_RT_HANDSHAKE
              (take (Z.to_nat (DTLS1_HM_HEADER_LENGTH + mlen message k)) blk1)] else calls s1) |>)
              <| init_off := 0 |> <| init_num := 0 |>).
    split; [apply wrote_plain; [rewrite Hsame; reflexivity|exact Hbuf]|]. split; [exact Hsent|]. split; [exact Hhashed|].
    split; [done|]. split; [done|]. destruct (msg_callback s1); do 2 eexists.
    + rewrite Hblk1, Hoff1. cbn [defined mbind comp_bind].
      rewrite sz_small by (unfold SIZE_MAX, DTLS1_HM_HEADER_LENGTH; lia).
      replace (o + (DTLS1_HM_HEADER_LENGTH + mlen message k - o)) with (DTLS1_HM_HEADER_LENGTH + mlen message k) by lia.
      rewrite rdn_spec by (unfold DTLS1_HM_HEADER_LENGTH in *; lia). cbn [defined mbind comp_bind].
      reflexivity.
    + cbn [mbind comp_bind]. replace (s1 <| calls := calls s1 |>) with s1 by (by destruct s1). reflexivity.
  - destruct (Z.eqb_spec (DTLS1_HM_HEADER_LENGTH + n) (DTLS1_HM_HEADER_LENGTH + mlen message k - o)) as [|_]; [lia|].
    eexists. split; [|split; [|split; [|split; [|split; [|split; [|split]]]]]].
    4:{ cbn [mbind comp_bind]. rewrite (sz_small (DTLS1_HM_HEADER_LENGTH + n - DTLS1_HM_HEADER_LENGTH))
          by (unfold SIZE_MAX, DTLS1_HM_HEADER_LENGTH; lia).
        replace (o + (DTLS1_HM_HEADER_LENGTH + n - DTLS1_HM_HEADER_LENGTH)) with (o + n) by lia.
        rewrite (sz_small (o + n)) by (unfold SIZE_MAX; lia). reflexivity. }
    + split; [rewrite Hsame; reflexivity|exact Hbuf].
    + exact Hsent.
    + exact Hhashed.
    + rewrite Hsame. by destruct Hs.
    + exact Hto1.
    + cbn. rewrite Hoff1, sz_small by (unfold SIZE_MAX, DTLS1_HM_HEADER_LENGTH; lia). lia.
    + cbn. rewrite Hnum1, sz_small by (unfold SIZE_MAX, DTLS1_HM_HEADER_LENGTH; lia). lia.
Qed.

Lemma added_same s s' k o n : wrote s s' -> added s' k o n = added s k o n.
Proof. intros Hw. unfold added. destruct (wrote_same _ _ Hw) as (_ & -> & -> & _). done. Qed.

(** One round: a fragment is written. *)
Lemma round_spec fuel retry overhead k o s : sending k s -> to_send k o s -> within k o -> at_fragment k o s ->
  fits overhead (mtu (d1 (conf s))) ->
  exists n s', 0 <= n /\ o + n <= mlen message k /\ (n = 0 -> mlen message k = 0) /\ wrote s s' /\
    DTLS1_RT_HEADER_LENGTH + overhead + zlen (wire message (mk_frag k o n)) <= mtu (d1 (conf s)) /\
    sent (rest s') = sent (rest s) ++ [wire message (mk_frag k o n)] /\
    hashed (rest s') = hashed (rest s) ++ added s k o n /\
    if o + n =? mlen message k
    then init_off s' = 0 /\ init_num s' = 0 /\
      write_loop (S fuel) tls3_RT_HANDSHAKE overhead retry o s = Ret (1, s')
    else write_loop (S fuel) tls3_RT_HANDSHAKE overhead retry o s
           = write_loop fuel tls3_RT_HANDSHAKE overhead retry (o + n) s' /\
         sending k s' /\ to_send k (o + n) s' /\ at_fragment k (o + n) s'.
Proof using DatagramWriter0.
  intros Hs Hto Hw Hat Hfits. pose proof (sending_short _ _ Hs) as H24. pose proof (sending_room _ _ Hs) as Hroom.
  assert (Hl : 0 <= mlen message k /\ 0 <= o /\ o <= mlen message k) by (unfold within in Hw; lia).
  destruct (next_fragment_spec k o s Hat Hw H24) as [Hnum Hnext].
  cbn [write_loop]. rewrite (proj2 (Z.leb_gt _ _)), Hnext by lia. cbn [negb].
  set (s1 := positioned k o s). destruct (room_for_spec overhead s1 Hfits) as (c & -> & Hc & Hcm).
  change (mtu (d1 (conf s1))) with (mtu (d1 (conf s))) in Hcm.
  change (init_num s1) with (DTLS1_HM_HEADER_LENGTH + mlen message k - o).
  change (max_send_fragment (conf s1)) with (max_send_fragment (conf s)). set (mx := max_send_fragment _) in *.
  unfold u32. rewrite Z.mod_small by (unfold DTLS1_HM_HEADER_LENGTH; lia).
  set (len := if mx <? _ then _ else _).
  assert (Hlen : DTLS1_HM_HEADER_LENGTH <= len <= DTLS1_HM_HEADER_LENGTH + mlen message k - o /\ len <= c /\
                 (len = DTLS1_HM_HEADER_LENGTH -> mlen message k = o)).
  { unfold len. set (a := if c <? _ then _ else _).
    assert (Ha : DTLS1_HM_HEADER_LENGTH <= a <= DTLS1_HM_HEADER_LENGTH + mlen message k - o /\ a <= c /\
                 (a = DTLS1_HM_HEADER_LENGTH -> mlen message k = o)).
    { unfold a. destruct (Z.ltb_spec c (DTLS1_HM_HEADER_LENGTH + mlen message k - o)); lia. }
    destruct (Z.ltb_spec mx a); lia. }
  clearbody len. change (tls3_RT_HANDSHAKE =? tls3_RT_HANDSHAKE) with true. cbn [andb].
  rewrite (proj2 (Z.ltb_ge _ _)) by lia. set (n := len - DTLS1_HM_HEADER_LENGTH).
  assert (Hn : 0 <= n /\ o + n <= mlen message k) by lia.
  destruct (header_written k o n s Hs Hto Hw) as (blk & Hhead & Hrd & Hto' & Hsize); [lia|lia|].
  change (init_off s1) with o. unfold s1. rewrite Hhead. cbn [defined mbind comp_bind].
  set (s2 := set_init_data _ _) in *.
  assert (Hblk : init_data s2 = Some blk).
  { destruct Hto as (blk0 & Hblk0 & _). unfold s2, init_data, set_init_data in *. cbn.
    by destruct (init_buf s). }
  rewrite Hblk. cbn [defined mbind comp_bind]. change (init_off s2) with o.
  replace (DTLS1_HM_HEADER_LENGTH + n) with len in Hrd by lia. rewrite Hrd. cbn [defined mbind comp_bind].
  assert (Hzw : zlen (wire message (mk_frag k o n)) = len) by exact (rdn_zlen _ _ _ _ Hrd).
  destruct (writer_write tls3_RT_HANDSHAKE (wire message (mk_frag k o n)) s2) as (i & r & -> & Hi & Hsent & Hh).
  rewrite Hzw. destruct (Z.ltb_spec i 0); [lia|]. rewrite Z.eqb_refl. cbn [negb].
  assert (Hs2 : sending k (s2 <| rest := r |>)) by (by destruct Hs).
  assert (Hrd' : rdn blk o (DTLS1_HM_HEADER_LENGTH + n) = Some (wire message (mk_frag k o n)))
    by (replace (DTLS1_HM_HEADER_LENGTH + n) with len by lia; exact Hrd).
  assert (Hw2 : wrote s (s2 <| rest := r |>)).
  { split; [reflexivity|]. change (buf_size (s2 <| rest := r |>)) with (buf_size s2).
    unfold buf_size. rewrite Hblk. destruct Hto as (blk0 & E0 & _). rewrite E0. cbn. by rewrite (Hsize blk0 E0). }
  destruct (fragment_written_spec k o n (s2 <| rest := r |>) blk Hs2 Hto' Hw) as (s' & Hw3 & Hsent3 & Hh3 & Hrun);
    [reflexivity|reflexivity|lia|lia|exact Hblk|exact Hrd'|].
  replace (DTLS1_HM_HEADER_LENGTH + n) with len in Hrun by lia.
  exists n, s'. split; [lia|]. split; [lia|]. split; [unfold within in Hw; lia|].
  split; [exact (wrote_trans _ _ _ Hw2 Hw3)|]. split; [rewrite Hzw; lia|].
  split; [rewrite Hsent3; exact Hsent|].
  split; [rewrite Hh3, (added_same s _ _ _ _ Hw2); f_equal; exact Hh|].
  destruct (Z.eqb_spec (o + n) (mlen message k)) as [_|Hmore].
  - destruct Hrun as (H1 & H2 & o' & s'' & ->). done.
  - destruct Hrun as (-> & H1 & H2 & H3 & H4). split; [done|]. split; [done|]. split; [done|].
    unfold at_fragment. destruct (Z.eqb_spec (o + n) 0) as [E|]; [|done].
    assert (n = 0) as En by lia. unfold within in Hw. lia.
Qed.

(** What is hashed of message [k] from [o] on. *)
Definition hashed_from (s : tls) (k o : Z) : list Z :=
  if retransmitting (d1 (conf s)) then []
  else (if o =? 0 then header_part (version s) k else []) ++ drop (Z.to_nat o) (body message k).

Lemma added_from s k o n : within k o -> 0 <= n -> o + n <= mlen message k -> (n = 0 -> mlen message k = 0) ->
  added s k o n ++ (if o + n =? mlen message k then [] else hashed_from s k (o + n)) = hashed_from s k o.
Proof.
  intros Hw Hn Hle Hz. unfold added, hashed_from, hashed_piece, slice. cbn [f_seq f_off f_len].
  assert (Hbody : zlen (body message k) = mlen message k) by reflexivity.
  destruct (retransmitting _); [by destruct (_ =? _)|]. rewrite <- app_assoc. f_equal.
  destruct (Z.eqb_spec (o + n) (mlen message k)) as [Hlast|Hmore].
  - rewrite app_nil_r, take_ge; [done|]. rewrite length_drop. unfold zlen in Hbody. unfold within in Hw. lia.
  - destruct (Z.eqb_spec (o + n) 0) as [E|]; [unfold within in Hw; lia|]. cbn [app].
    replace (Z.to_nat (o + n)) with (Z.to_nat o + Z.to_nat n)%nat by (unfold within in Hw; lia).
    rewrite <- drop_drop. by rewrite take_drop.
Qed.

Lemma write_loop_spec retry overhead k fuel : forall o s, sending k s -> to_send k o s -> within k o -> at_fragment k o s ->
  fits overhead (mtu (d1 (conf s))) -> (Z.to_nat (mlen message k - o) < fuel)%nat ->
  exists s' frs, write_loop fuel tls3_RT_HANDSHAKE overhead retry o s = Ret (1, s') /\ wrote s s' /\
    pieces k o frs /\ sent (rest s') = sent (rest s) ++ map (wire message) frs /\
    Forall (fun f => DTLS1_RT_HEADER_LENGTH + overhead + zlen (wire message f) <= mtu (d1 (conf s))) frs /\
    hashed (rest s') = hashed (rest s) ++ hashed_from s k o /\ init_off s' = 0 /\ init_num s' = 0.
Proof using DatagramWriter0.
  induction fuel as [|fuel IH]; intros o s Hs Hto Hw Hat Hfits Hfuel; [lia|].
  destruct (round_spec fuel retry overhead k o s Hs Hto Hw Hat Hfits)
    as (n & s1 & Hn & Hle & Hz & Hwr & Hsize & Hsent & Hh & Hrun).
  rewrite <- (added_from s k o n Hw Hn Hle Hz).
  destruct (Z.eqb_spec (o + n) (mlen message k)) as [Hlast|Hmore].
  - destruct Hrun as (H1 & H2 & ->). exists s1, [mk_frag k o n]. split; [done|]. split; [done|].
    split; [by constructor|]. split; [done|]. split; [by constructor|]. by rewrite app_nil_r.
  - destruct Hrun as (-> & Hs1 & Hto1 & Hat1). destruct (wrote_same _ _ Hwr) as (Hmtu & Hv & Hre & Hmax).
    assert (0 < n) by (unfold within in Hw; destruct (Z.eq_dec n 0) as [E|]; [specialize (Hz E)|]; lia).
    destruct (IH (o + n) s1 Hs1 Hto1) as (s' & frs & -> & Hwr' & Hp & Hsent' & Hsz & Hh' & H1 & H2).
    { left. unfold within in Hw. lia. }
    { exact Hat1. }
    { by rewrite Hmtu. }
    { unfold within in Hw. lia. }
    exists s', (mk_frag k o n :: frs). split; [done|]. split; [by eapply wrote_trans|].
    split; [constructor; [done|lia|done]|]. split; [by rewrite Hsent', Hsent, <- app_assoc|].
    split; [constructor; [done|by rewrite Hmtu in Hsz]|]. split; [|done].
    rewrite Hh', Hh, <- app_assoc. do 2 f_equal. unfold hashed_from. by rewrite Hre, Hv.
Qed.

End Sending.

(** ** Properties *)

(** Message [k] is in the buffer, to be written, and a datagram has room for it. *)
Definition ready_to_send `{Callouts} (message : Z -> Z * list Z) (s : tls) (k : Z) : Prop :=
  seq_ok k /\ sending message k s /\ to_send message k 0 s /\ at_fragment message k 0 s /\
  link_mtu (d1 (conf s)) = 0 /\ dtls1_min_mtu s <= mtu (d1 (conf s)) /\
  fits (mac_size s + blocksize s) (mtu (d1 (conf s))).

(** The record [r] of a fragment fits into a datagram. *)
Definition fits_datagram `{Callouts} (s : tls) (r : list Z) : Prop :=
  DTLS1_RT_HEADER_LENGTH + (mac_size s + blocksize s) + zlen r <= mtu (d1 (conf s)).

Lemma query_mtu_same `{Callouts} s : link_mtu (d1 (conf s)) = 0 -> dtls1_min_mtu s <= mtu (d1 (conf s)) ->
  dtls1_query_mtu s = (true, s) /\ (mtu (d1 (conf s)) <? dtls1_min_mtu s) = false.
Proof.
  intros Hl Hm. unfold dtls1_query_mtu. rewrite Hl. cbn [truth Z.eqb negb].
  destruct (Z.ltb_spec (mtu (d1 (conf s))) (dtls1_min_mtu s)); [lia|done].
Qed.

Lemma do_write_spec `{Callouts} sent hashed `{!DatagramWriter sent hashed} message s k :
  ready_to_send message s k ->
  exists s' frs, dtls1_do_write tls3_RT_HANDSHAKE s = Ret (1, s') /\
    wrote (s <| rwstate := tls_NOTHING |>) s' /\ pieces message k 0 frs /\
    sent (rest s') = sent (rest s) ++ map (wire message) frs /\
    Forall (fits_datagram s) (map (wire message) frs) /\
    hashed (rest s') = hashed (rest s) ++ hashed_from message s k 0 /\ init_off s' = 0 /\ init_num s' = 0.
Proof.
  intros (Hk & Hs & Hto & Hat & Hlink & Hmin & Hfits). unfold dtls1_do_write.
  destruct (query_mtu_same s Hlink Hmin) as [-> ->]. cbn [negb].
  assert (Hl : 0 <= mlen message k) by apply zlen_nonneg. pose proof (sending_short _ _ _ Hs) as H24.
  pose proof Hat as [Hoff Hnum]. rewrite Hoff, Hnum, (sending_len _ _ _ Hs).
  rewrite sz_small by (unfold SIZE_MAX, DTLS1_HM_HEADER_LENGTH; lia).
  replace (DTLS1_HM_HEADER_LENGTH + mlen message k =? mlen message k + DTLS1_HM_HEADER_LENGTH) with true by lia.
  cbn [negb]. rewrite andb_false_r.
  set (s0 := s <| rwstate := tls_NOTHING |>).
  destruct (write_loop_spec message sent hashed true (mac_size s + blocksize s) k
              (Z.to_nat (DTLS1_HM_HEADER_LENGTH + mlen message k) + 32) 0 s0)
    as (s' & frs & Hrun & Hwr & Hp & Hsent & Hsz & Hh & H1 & H2).
  - by destruct Hs.
  - exact Hto.
  - unfold within. lia.
  - exact Hat.
  - exact Hfits.
  - unfold DTLS1_HM_HEADER_LENGTH. lia.
  - exists s', frs. split; [exact Hrun|]. split; [exact Hwr|]. split; [exact Hp|]. split; [exact Hsent|].
    split; [by apply Forall_map|]. by split.
Qed.

(** A DTLS handshake message is sent whole: [dtls1_do_write] writes fragments that
    begin where the one before ends and together are the message, each with its
    header and each fitting into a datagram with all that the record layer adds;
    what is hashed is the message as if it was not fragmented, or nothing if it is
    being retransmitted. *)
Theorem dtls_message_sent `{Callouts} sent hashed `{!DatagramWriter sent hashed} message s k :
  ready_to_send message s k ->
  exists s' frs, dtls1_do_write tls3_RT_HANDSHAKE s = Ret (1, s') /\ pieces message k 0 frs /\
    sent (rest s') = sent (rest s) ++ map (wire message) frs /\
    Forall (fits_datagram s) (map (wire message) frs) /\
    hashed (rest s') = hashed (rest s) ++ (if retransmitting (d1 (conf s)) then [] else transcript message (version s) k) /\
    init_off s' = 0 /\ init_num s' = 0.
Proof.
  intros Hr. destruct (do_write_spec sent hashed message s k Hr)
    as (s' & frs & Hrun & _ & Hp & Hsent & Hsz & Hh & H1 & H2).
  exists s', frs. by do 4 (split; [done|]).
Qed.

(** C19: a DTLS handshake message gets across: [dtls1_do_write] sends message [k] in
    records that fit into datagrams, and when all of its records arrive, in whatever order and number, mixed with other
    fragments, then [dtls_get_message] on the other side returns the message, and
    both sides have hashed the same bytes for it. *)
Theorem dtls_message_transfer `{Malloc} {C1 C2 : Callouts} sent hashed1 records hashed2
  `{!@DatagramWriter C1 sent hashed1} `{!@DatagramLayer C2 records hashed2} message secure
  (malloc_ok : forall n, 0 < n < 2 ^ 31 -> is_Some (malloc n))
  (secure_zlen : forall n blk, 0 <= n -> secure n = Some blk -> zlen blk = n)
  k sender receiver :
  @ready_to_send C1 message sender k -> retransmitting (d1 (conf sender)) = false ->
  ready message receiver k -> queue_inv message (buffered receiver) -> version receiver = version sender ->
  exists sender' frs, @dtls1_do_write C1 tls3_RT_HANDSHAKE sender = Ret (1, sender') /\
    sent (rest sender') = sent (rest sender) ++ map (wire message) frs /\ Forall (frag_ok message) frs /\
    Forall (@fits_datagram C1 sender) (map (wire message) frs) /\
    forall frs' after fuel, incl frs frs' -> Forall (frag_ok message) frs' ->
      arriving message frs' (records (rest receiver)) after -> (length frs' < fuel)%nat ->
      exists receiver' blk, @dtls_get_message C2 _ secure fuel receiver
          = Ret (true, mtype message k, mlen message k, receiver') /\
        init_data receiver' = Some blk /\
        rdn blk (init_msg receiver') (mlen message k) = Some (body message k) /\
        exists l, hashed1 (rest sender') = hashed1 (rest sender) ++ l /\
                  hashed2 (rest receiver') = hashed2 (rest receiver) ++ l.
Proof.
  intros Hsend Hre Hready Hq Hv. pose proof Hsend as (Hk & Hs & _).
  destruct (@do_write_spec C1 sent hashed1 _ message sender k Hsend)
    as (sender' & frs & Hrun & _ & Hp & Hsent & Hsz & Hh & _).
  assert (Hl : 0 <= mlen message k) by apply zlen_nonneg.
  destruct (pieces_ok message k 0 frs Hk Hp) as (Hfrs & _ & Hcov); [lia|lia|].
  exists sender', frs. split; [exact Hrun|]. split; [exact Hsent|]. split; [exact Hfrs|].
  split; [exact Hsz|]. intros frs' after fuel Hincl Hok Harr Hfuel.
  destruct (again_loop_spec records hashed2 message malloc_ok secure secure_zlen fuel frs'
              (upd_d1 (fun d => d <| r_msg_hdr := zero_header |>) receiver) k after)
    as (receiver' & frs1 & frs2 & Hget & _ & Hret); [done| |done|done|done| |].
  { destruct Hready as (? & ? & _ & ?). by split; [|split; [|split]]. }
  { intros i Hi. right. specialize (Hcov i ltac:(lia)). rewrite List.Exists_exists in *.
    destruct Hcov as (f & Hin & Hc). exists f. auto. }
  destruct Hret as (_ & _ & _ & _ & Hh2 & blk & Hblk & _ & Hbody).
  exists receiver', blk. split; [exact Hget|]. split; [done|]. split; [done|].
  exists (transcript message (version sender) k). split.
  - rewrite Hh. unfold hashed_from. rewrite Hre. reflexivity.
  - rewrite Hh2. change (version (upd_d1 _ receiver)) with (version receiver). by rewrite Hv.
Qed.

(** ** Witnesses *)

#[local] Existing Instance generous_malloc.

(** The datagrams that [postman] has sent. *)
Fixpoint sent_records (n : nat) (l : list Z) : list (list Z) :=
  match n, l with
  | S n, size :: l => sent_records n (drop (Z.to_nat size) l) ++ [take (Z.to_nat size) l]
  | _, _ => []
  end.

Definition posted (l : list Z) : list (list Z) := sent_records (length (records_part l)) (records_part l).

Lemma sent_fuel n : forall m l, (length l <= n)%nat -> (length l <= m)%nat ->
  sent_records n l = sent_records m l.
Proof.
  induction n as [|n IH]; intros [|m] [|size l] Hn Hm; simpl in *; try done; try lia.
  f_equal. apply IH; rewrite length_drop; lia.
Qed.

#[local] Instance postman_writes : @DatagramWriter postman posted hashed_part.
Proof.
  split.
  - intros type bytes s. exists 1. eexists. split; [reflexivity|]. split; [done|].
    split; [|apply hashed_part_rest]. unfold posted. rewrite records_part_rest. cbn [length sent_records].
    unfold zlen. rewrite Nat2Z.id, take_app_length, drop_app_length. f_equal. apply sent_fuel; [|done].
    rewrite length_app. lia.
  - intros bytes s. eexists. split; [reflexivity|]. unfold posted. by rewrite hashed_part_rest, records_part_rest.
  - done.
  - done.
  - done.
  - intros e s. exists (rest s). by rewrite rest_same.
Qed.

(** Every message is a Certificate of 300 bytes, more than a datagram of 228 bytes. *)
Definition certificates (k : Z) : Z * list Z := (11, replicate 300 7).

Definition certificate_header : hm_header := mk_hm_header 11 300 4 0 300 false no_state.

Definition sending_server : tls :=
  upd_d1 (fun d => d <| w_msg_hdr := certificate_header |> <| mtu := 228 |>)
    ((sample_tls DTLS1_2_VERSION true TLS_ST_SW_CERT)
       <| init_buf := Some (mk_BUF_MEM 312 (Some (replicate 12 0 ++ replicate 300 7)) 312 0) |>
       <| init_num := 312 |> <| rest := datagram_rest [] [] |>).

Lemma sending_server_ready : @ready_to_send postman certificates sending_server 4.
Proof.
  split; [split; [done|reflexivity]|]. split; [split; reflexivity|]. split.
  - eexists. split; [reflexivity|]. split; [vm_compute; discriminate|vm_compute; reflexivity].
  - split; [split; reflexivity|]. split; [reflexivity|]. split; [vm_compute; discriminate|].
    vm_compute. repeat split; discriminate.
Qed.

Lemma dtls_message_sent_witness :
  exists s' frs, @dtls1_do_write postman tls3_RT_HANDSHAKE sending_server = Ret (1, s') /\
    posted (rest s') = map (wire certificates) frs /\ length frs = 2%nat /\
    hashed_part (rest s') = transcript certificates DTLS1_2_VERSION 4.
Proof.
  destruct (@dtls_message_sent postman posted hashed_part postman_writes certificates sending_server 4)
    as (s' & frs & Hrun & _ & Hsent & _ & Hh & _); [exact sending_server_ready|].
  exists s', frs. split; [exact Hrun|]. split; [exact Hsent|]. split; [|exact Hh].
  rewrite <- (length_map (wire certificates)). change (posted (rest sending_server)) with (@nil (list Z)) in Hsent.
  cbn [app] in Hsent. rewrite <- Hsent.
  assert (E : match @dtls1_do_write postman tls3_RT_HANDSHAKE sending_server with
              | Ret (_, s') => length (posted (rest s')) = 2%nat | _ => True end) by (vm_compute; reflexivity).
  rewrite Hrun in E. exact E.
Defined.

(** The records that arrive are those sent. *)
Definition posted_records : list (list Z) :=
  match @dtls1_do_write postman tls3_RT_HANDSHAKE sending_server with
  | Ret (_, s') => posted (rest s') | _ => []
  end.

Definition receiving_client : tls :=
  upd_d1 (fun d => d <| handshake_read_seq := 4 |>)
    ((sample_tls DTLS1_2_VERSION false TLS_ST_CR_SRVR_HELLO)
       <| rest := datagram_rest [] (concat (map (fun r => zlen r :: r) posted_records)) |>).

Lemma arriving_map message frs after :
  arriving message frs (map (wire message) frs ++ after) after.
Proof. induction frs as [|f frs IH]; [constructor|]. by apply arriving_record. Qed.

Lemma receiving_client_ready : ready certificates receiving_client 4.
Proof.
  split; [reflexivity|]. split; [split; [done|reflexivity]|]. split; [reflexivity|]. split.
  - intros k _. unfold mlen. vm_compute. repeat split; discriminate.
  - eexists. split; [reflexivity|]. split; [vm_compute; repeat split; discriminate|reflexivity].
Qed.

Lemma dtls_message_transfer_witness :
  exists sender' receiver' blk,
    @dtls1_do_write postman tls3_RT_HANDSHAKE sending_server = Ret (1, sender') /\
    @dtls_get_message datagrams _ no_secure 9 receiving_client = Ret (true, 11, 300, receiver') /\
    init_data receiver' = Some blk /\ rdn blk (init_msg receiver') 300 = Some (replicate 300 7).
Proof.
  destruct (@dtls_message_transfer _ postman datagrams posted hashed_part datagram_records hashed_part
              postman_writes datagram_layer certificates no_secure generous no_secure_zlen 4
              sending_server receiving_client sending_server_ready eq_refl receiving_client_ready)
    as (sender' & frs & Hrun & Hsent & Hok & _ & Hget).
  { split; [split|]; constructor. }
  { reflexivity. }
  assert (Hrec : posted_records = map (wire certificates) frs).
  { unfold posted_records. rewrite Hrun. exact Hsent. }
  assert (Hposted : datagram_records (rest receiving_client) = posted_records) by (vm_compute; reflexivity).
  assert (Hlen : length posted_records = 2%nat) by (vm_compute; reflexivity).
  destruct (Hget frs [] 9%nat) as (receiver' & blk & Hmsg & Hblk & Hbody & _).
  - exact (incl_refl frs).
  - exact Hok.
  - rewrite Hposted, Hrec, <- (app_nil_r (map _ _)) at 1. apply arriving_map.
  - rewrite Hrec, length_map in Hlen. lia.
  - exists sender', receiver', blk. split; [exact Hrun|]. split; [exact Hmsg|]. split; [exact Hblk|exact Hbody].
Defined.
