(* ===== verification/Retransmit.v ===== *)
(** * Retransmission of a DTLS flight

    A message that has been written is kept in [s->d1->sent_messages] with the keys
    it was written with; [dtls1_retransmit_buffered_messages] sends all of them again,
    in their order, and puts the keys back.  The timer doubles its period up to a
    minute and gives up in the end. *)

From S2P Require Import Prelude Mem PQueue Packet Buffer WPacket Wire TlsState Protocol StatemLib Dtls DtlsWrite Statem Sample ConstantTime Reassembly Datagram Transfer.

From Stdlib Require Import Sorted Permutation.

(** ** Lemmas on the queue of messages sent *)

(** An item of the queue is found by its own priority. *)
Lemma find_own (q : @pqueue hm_fragment) it : queue_ok q -> In it (items q) ->
  pqueue_find q (priority it) = Some (Some it).
Proof.
  intros [Hp Hs] Hin. assert (Hit : prio_ok (priority it)).
  { rewrite List.Forall_forall in Hp. by apply Hp. }
  unfold pqueue_find. rewrite (find_loop_spec _ _ Hp Hit). f_equal. clear Hit.
  induction Hs as [|x l Hs IH Hlt]; [done|]. rewrite List.Forall_forall in Hlt.
  apply Forall_cons_1 in Hp as [_ Hp]. cbn [List.find]. destruct Hin as [->|Hin].
  - change (be_val (priority it)) with (key it). by rewrite Z.eqb_refl.
  - specialize (Hlt _ Hin). change (be_val (priority it)) with (key it) in *.
    destruct (Z.eqb_spec (key x) (key it)); [lia|]. by apply IH.
Qed.

Lemma seq64be_u16 n : seq64be (u16 n) = seq64be n.
Proof.
  unfold seq64be, u16. do 7 f_equal; unfold u8; rewrite ?Z.shiftr_div_pow2 by lia.
  - change (2 ^ 16) with (2 ^ 8 * 2 ^ 8). rewrite Z.rem_mul_r by done.
    rewrite (Z.add_comm (n mod 2 ^ 8)), (Z.mul_comm (2 ^ 8)), Z.div_add_l by done.
    rewrite (Z.div_small (n mod 2 ^ 8)) by (apply Z.mod_pos_bound; lia). rewrite Z.add_0_r.
    apply Z.mod_mod. done.
  - f_equal. change (2 ^ 16) with (2 ^ 8 * 2 ^ 8). rewrite Z.rem_mul_r by done.
    by rewrite (Z.mul_comm (2 ^ 8)), Z.mod_add, Z.mod_mod by done.
Qed.

Section Sending.
Context (message : Z -> Z * list Z).
Context `{Callouts} (sent : list Z -> list (list Z)) (hashed : list Z -> list Z).
Context `{!DatagramWriter sent hashed}.

(** What the record layer adds with the keys of [st]. *)
Definition state_overhead (st : retransmit_state) : Z :=
  (if truth (saved_write_hash st) then
     if truth (saved_enc_write_ctx st) && EVP_CIPHER_is_aead (saved_enc_write_ctx st) then 0
     else EVP_MD_CTX_size (saved_write_hash st)
   else 0)
  + (if truth (saved_enc_write_ctx st) && EVP_CIPHER_is_cbc (saved_enc_write_ctx st)
     then 2 * EVP_CIPHER_CTX_block_size (saved_enc_write_ctx st) else 0).

(** Message [k], and a ChangeCipherSpec in front of message [k], as they are kept. *)
Definition kept_message (k : Z) (st : retransmit_state) (src : list Z) : @pitem hm_fragment :=
  mk_pitem (seq64be (dtls1_get_queue_priority k 0))
    (mk_hm_fragment (mk_hm_header (mtype message k) (mlen message k) k 0 (mlen message k) false st) (Some src) None).

Definition kept_ccs (k : Z) (st : retransmit_state) (src : list Z) : @pitem hm_fragment :=
  mk_pitem (seq64be (dtls1_get_queue_priority k 1))
    (mk_hm_fragment (mk_hm_header tls3_MT_CCS 0 k 0 0 true st) (Some src) None).

(** An item that can be sent with datagrams of [m] bytes and a buffer of [size] bytes. *)
Inductive sendable (m size : Z) : @pitem hm_fragment -> Prop :=
| sendable_message k st src sess : seq_ok k -> mlen message k < 2 ^ 24 -> saved_session st = Some sess ->
    fits (state_overhead st) m -> DTLS1_HM_HEADER_LENGTH + mlen message k <= size ->
    zlen src = DTLS1_HM_HEADER_LENGTH + mlen message k ->
    rdn src DTLS1_HM_HEADER_LENGTH (mlen message k) = Some (body message k) ->
    sendable m size (kept_message k st src)
| sendable_ccs k st c sess : saved_session st = Some sess -> fits (state_overhead st) m -> 1 <= size ->
    sendable m size (kept_ccs k st [c]).

(** The records of an item. *)
Inductive resent : @pitem hm_fragment -> list (list Z) -> Prop :=
| resent_message k st src frs : pieces message k 0 frs ->
    resent (kept_message k st src) (map (wire message) frs)
| resent_ccs k st c : resent (kept_ccs k st [c]) [[c]].

(** Nothing is being written. *)
Definition idle (s : tls) : Prop :=
  init_off s = 0 /\ link_mtu (d1 (conf s)) = 0 /\ dtls1_min_mtu s <= mtu (d1 (conf s)) /\
  DTLS1_HM_HEADER_LENGTH < max_send_fragment (conf s) /\ retransmitting (d1 (conf s)) = false.

(** Only what writing a message changes has changed: the keys are the same. *)
Definition rewrote (s s' : tls) : Prop :=
  s' = upd_d1 (fun d => d <| w_msg_hdr := w_msg_hdr (d1 (conf s')) |> <| retransmitting := false |>)
         (s <| init_buf := init_buf s' |> <| init_off := init_off s' |> <| init_num := init_num s' |>
            <| rwstate := rwstate s' |> <| calls := calls s' |> <| rest := rest s' |>) /\
  buf_size s' = buf_size s.

Lemma rewrote_trans s1 s2 s3 : rewrote s1 s2 -> rewrote s2 s3 -> rewrote s1 s3.
Proof. intros [E1 B1] [E2 B2]. split; [|congruence]. rewrite E2, E1. reflexivity. Qed.

Lemma rewrote_same s s' : rewrote s s' ->
  sent_messages (d1 (conf s')) = sent_messages (d1 (conf s)) /\ mtu (d1 (conf s')) = mtu (d1 (conf s)) /\
  buf_size s' = buf_size s /\ enc_write_ctx (conf s') = enc_write_ctx (conf s) /\
  write_hash (conf s') = write_hash (conf s) /\ compress (conf s') = compress (conf s) /\ session s' = session s.
Proof. intros [E B]. split; [by rewrite E|]. split; [by rewrite E|]. split; [exact B|]. by rewrite E. Qed.

Lemma min_mtu_same s s' : dtls1_min_mtu s = dtls1_min_mtu s'.
Proof using DatagramWriter0. unfold dtls1_min_mtu. by rewrite (writer_overhead s s'). Qed.

Lemma idle_rewrote s s' : idle s -> rewrote s s' -> init_off s' = 0 -> idle s'.
Proof using DatagramWriter0.
  intros (_ & Hlink & Hmin & Hmax & _) [E _] Hoff.
  assert (H1 : link_mtu (d1 (conf s')) = link_mtu (d1 (conf s))) by (rewrite E; reflexivity).
  assert (H2 : mtu (d1 (conf s')) = mtu (d1 (conf s))) by (rewrite E; reflexivity).
  assert (H3 : max_send_fragment (conf s') = max_send_fragment (conf s)) by (rewrite E; reflexivity).
  assert (H4 : retransmitting (d1 (conf s')) = false) by (rewrite E; reflexivity).
  unfold idle. rewrite H1, H2, H3, H4, (min_mtu_same s' s). auto.
Qed.

(** A ChangeCipherSpec is written. *)
Lemma ccs_write_spec s c blk : init_off s = 0 -> init_num s = 1 -> init_data s = Some blk ->
  rdn blk 0 1 = Some [c] -> link_mtu (d1 (conf s)) = 0 -> dtls1_min_mtu s <= mtu (d1 (conf s)) ->
  DTLS1_HM_HEADER_LENGTH < max_send_fragment (conf s) -> fits (mac_size s + blocksize s) (mtu (d1 (conf s))) ->
  exists s', dtls1_do_write tls3_RT_CHANGE_CIPHER_SPEC s = Ret (1, s') /\
    wrote (s <| rwstate := tls_NOTHING |>) s' /\ sent (rest s') = sent (rest s) ++ [[c]] /\
    hashed (rest s') = hashed (rest s) /\ init_off s' = 0 /\ init_num s' = 0.
Proof using DatagramWriter0.
  intros Hoff Hnum Hblk Hrd Hlink Hmin Hmax Hfits. unfold dtls1_do_write.
  destruct (query_mtu_same s Hlink Hmin) as [-> ->]. cbn [negb].
  change (tls3_RT_CHANGE_CIPHER_SPEC =? tls3_RT_HANDSHAKE) with false. rewrite andb_false_r. cbn [andb].
  rewrite Hnum. change (Z.to_nat 1 + 32)%nat with (S 32). generalize 32%nat as fuel. intros fuel. set (s0 := s <| rwstate := tls_NOTHING |>).
  cbn [write_loop]. change (init_num s0) with (init_num s). rewrite Hnum.
  cbn [Z.leb Z.compare]. unfold next_fragment.
  change (tls3_RT_CHANGE_CIPHER_SPEC =? tls3_RT_HANDSHAKE) with false. cbn [andb negb].
  destruct (room_for_spec sent hashed (mac_size s + blocksize s) s0 Hfits) as (cm & -> & Hc & _).
  change (init_num s0) with (init_num s). rewrite Hnum. unfold DTLS1_HM_HEADER_LENGTH in *. change (u32 1) with 1.
  destruct (Z.ltb_spec cm 1) as [|_]; [lia|]. change (max_send_fragment (conf s0)) with (max_send_fragment (conf s)).
  destruct (Z.ltb_spec (max_send_fragment (conf s)) 1) as [|_]; [lia|]. cbn [mbind comp_bind].
  change (init_data s0) with (init_data s). rewrite Hblk. cbn [defined mbind comp_bind].
  change (init_off s0) with (init_off s). rewrite Hoff, Hrd. cbn [defined mbind comp_bind].
  destruct (writer_write tls3_RT_CHANGE_CIPHER_SPEC [c] s0) as (i & r & -> & Hi & Hsent & Hh).
  destruct (Z.ltb_spec i 0) as [|_]; [lia|]. change (zlen [c]) with 1. rewrite Z.eqb_refl. cbn [negb].
  unfold fragment_written. change (tls3_RT_CHANGE_CIPHER_SPEC =? tls3_RT_HANDSHAKE) with false.
  cbn [andb mbind comp_bind negb]. change (init_num (s0 <| rest := r |>)) with (init_num s). rewrite Hnum, Z.eqb_refl.
  set (s2 := s0 <| rest := r |>).
  exists ((s2 <| calls := (if msg_callback s then calls s ++ [C_msg_callback 1 tls3_RT_CHANGE_CIPHER_SPEC [c]]
                           else calls s) |>) <| init_off := 0 |> <| init_num := 0 |>).
  split; [|split; [apply wrote_plain; reflexivity|by repeat split]].
  change (msg_callback s2) with (msg_callback s). destruct (msg_callback s).
  - change (init_data s2) with (init_data s). rewrite Hblk. cbn [defined mbind comp_bind].
    change (init_off s2) with (init_off s). rewrite Hoff. change (sz (0 + 1)) with 1. rewrite Hrd. reflexivity.
  - reflexivity.
Qed.

(** The keys of [st] in the place of those of [s]. *)
Definition with_keys (st : retransmit_state) (sess : tls_SESSION) (s : tls) : tls :=
  s <| conf ::= fun c => c <| enc_write_ctx := saved_enc_write_ctx st |>
                           <| write_hash := saved_write_hash st |> <| compress := saved_compress st |> |>
    <| session := sess |>.

Definition with_rest (r : list Z) (s : tls) : tls := s <| rest := r |>.

Lemma set_write_state_spec st sess s : saved_session st = Some sess ->
  exists r, set_write_state st s = Some (with_rest r (with_keys st sess s)) /\
    sent r = sent (rest s) /\ hashed r = hashed (rest s).
Proof using DatagramWriter0.
  intros Hs. unfold set_write_state. rewrite Hs. cbn [mbind option_bind].
  destruct (writer_epoch (saved_epoch st) (with_keys st sess s)) as (r & E & H1 & H2).
  exists r. split; [|by split]. unfold with_keys in E. rewrite E. reflexivity.
Qed.

(** An item is loaded into the buffer, with its header. *)
Definition loaded (h : hm_header) (m : option BUF_MEM) (n : Z) (s : tls) : tls :=
  upd_d1 (fun d => d <| w_msg_hdr := h |>) (s <| init_buf := m |> <| init_num := n |>).

Definition resending (b : bool) (s : tls) : tls := upd_d1 (fun d => d <| retransmitting := b |>) s.

(** An item is written between saving the keys and putting them back. *)
Definition send_item (type : Z) (st : retransmit_state) (s : tls) : comp (Z * bool * tls) :=
  s1 ← defined (set_write_state st (resending true s));
  '(ret, s2) ← dtls1_do_write type s1;
  s3 ← defined (set_write_state (saved_write_state s) s2);
  Ret (ret, true, resending false s3).

Lemma loaded_rest h m n s b : rest (resending b (loaded h m n s)) = rest s.
Proof. by destruct s. Qed.

Lemma loaded_session h m n s : saved_session (saved_write_state (loaded h m n s)) = Some (session s).
Proof. by destruct s. Qed.

(** What the writer is given for a loaded item. *)
Lemma loaded_keys st sess h m n s r : let s1 := with_rest r (with_keys st sess (resending true (loaded h m n s))) in
  init_off s1 = init_off s /\ init_num s1 = n /\ init_buf s1 = m /\ w_msg_hdr (d1 (conf s1)) = h /\
  retransmitting (d1 (conf s1)) = true /\ max_send_fragment (conf s1) = max_send_fragment (conf s) /\
  link_mtu (d1 (conf s1)) = link_mtu (d1 (conf s)) /\ mtu (d1 (conf s1)) = mtu (d1 (conf s)) /\
  mac_size s1 + blocksize s1 = state_overhead st /\ rest s1 = r.
Proof.
  destruct s. match goal with c : tls_CONF |- _ => destruct c end. cbn. by repeat split.
Qed.

(** The keys are put back after the writing. *)
Lemma keys_back st sess h m n s r s2 r2 : option_map zlen (m ≫= buf_data) = buf_size s ->
  let l := loaded h m n s in
  wrote ((with_rest r (with_keys st sess (resending true l))) <| rwstate := tls_NOTHING |>) s2 ->
  let s' := resending false (with_rest r2 (with_keys (saved_write_state l) (session s) s2)) in
  rewrote s s' /\ init_off s' = init_off s2 /\ rest s' = r2.
Proof.
  cbn zeta. intros Hsize [E B]. split; [split|by split].
  - revert E. clear. generalize (init_buf s2) (init_off s2) (init_num s2) (calls s2) (rest s2) (w_msg_hdr (d1 (conf s2))).
    intros b o i c e w ->. destruct s. match goal with c : tls_CONF |- _ => destruct c end.
    cbn. match goal with d : DTLS1_STATE |- _ => destruct d end. reflexivity.
  - transitivity (buf_size s2); [reflexivity|]. rewrite B, <- Hsize. clear. destruct s. reflexivity.
Qed.

(** What [dtls1_do_write] has to be shown to do. *)
Definition writes (type : Z) (recs : list (list Z)) (s : tls) : Prop :=
  exists s', dtls1_do_write type s = Ret (1, s') /\ wrote (s <| rwstate := tls_NOTHING |>) s' /\
    sent (rest s') = sent (rest s) ++ recs /\ hashed (rest s') = hashed (rest s) /\ init_off s' = 0.

Lemma send_item_spec (P : list (list Z) -> Prop) type st sess h m n s : saved_session st = Some sess -> idle s ->
  option_map zlen (m ≫= buf_data) = buf_size s ->
  (forall s1, init_off s1 = 0 -> init_num s1 = n -> init_buf s1 = m ->
     w_msg_hdr (d1 (conf s1)) = h -> retransmitting (d1 (conf s1)) = true ->
     max_send_fragment (conf s1) = max_send_fragment (conf s) ->
     link_mtu (d1 (conf s1)) = 0 -> dtls1_min_mtu s1 <= mtu (d1 (conf s1)) ->
     mtu (d1 (conf s1)) = mtu (d1 (conf s)) -> mac_size s1 + blocksize s1 = state_overhead st ->
     exists recs, P recs /\ writes type recs s1) ->
  exists s' recs, send_item type st (loaded h m n s) = Ret (1, true, s') /\ rewrote s s' /\ init_off s' = 0 /\ P recs /\
    sent (rest s') = sent (rest s) ++ recs /\ hashed (rest s') = hashed (rest s).
Proof using DatagramWriter0.
  intros Hst (Hoff & Hlink & Hmin & Hmax & _) Hsize Hwrite. unfold send_item.
  destruct (set_write_state_spec st sess (resending true (loaded h m n s)) Hst) as (r & -> & Hsent & Hhash).
  destruct (loaded_keys st sess h m n s r) as (E1 & E2 & E3 & E4 & E5 & E6 & E7 & E8 & E9 & E10).
  pose proof (fun s2 r2 => keys_back st sess h m n s r s2 r2 Hsize) as Hback. cbn zeta in Hback.
  rewrite loaded_rest in Hsent, Hhash.
  pose proof (loaded_session h m n s) as Hsess.
  revert E1 E2 E3 E4 E5 E6 E7 E8 E9 E10 Hback.
  generalize (with_rest r (with_keys st sess (resending true (loaded h m n s)))).
  intros s1 E1 E2 E3 E4 E5 E6 E7 E8 E9 E10 Hback. cbn [defined mbind comp_bind].
  destruct (Hwrite s1) as (recs & HP & s2 & -> & Hw & Hsent2 & Hhash2 & Hoff2); try congruence.
  { rewrite (min_mtu_same s1 s), E8. exact Hmin. }
  cbn [mbind comp_bind].
  destruct (set_write_state_spec _ _ s2 Hsess) as (r2 & -> & Hsent3 & Hhash3).
  destruct (Hback s2 r2 Hw) as (Hrw & Ho & Er). clear Hback. cbn [defined mbind comp_bind].
  revert Hrw Ho Er. generalize (resending false (with_rest r2 (with_keys (saved_write_state (loaded h m n s)) (session s) s2))).
  intros s3 Hrw Ho Er. exists s3, recs. rewrite Ho, Er, Hsent3, Hsent2, Hhash3, Hhash2, E10, Hsent, Hhash. by split.
Qed.

(** The writer is given a message, with [hdr], or a ChangeCipherSpec. *)
Lemma message_writes k m blk s1 : seq_ok k -> mlen message k < 2 ^ 24 ->
  init_off s1 = 0 -> init_num s1 = DTLS1_HM_HEADER_LENGTH + mlen message k ->
  init_buf s1 = Some m -> buf_data m = Some blk -> DTLS1_HM_HEADER_LENGTH + mlen message k <= zlen blk ->
  rdn blk DTLS1_HM_HEADER_LENGTH (mlen message k) = Some (body message k) ->
  hm_type (w_msg_hdr (d1 (conf s1))) = mtype message k ->
  hm_msg_len (w_msg_hdr (d1 (conf s1))) = mlen message k -> hm_seq (w_msg_hdr (d1 (conf s1))) = k ->
  DTLS1_HM_HEADER_LENGTH < max_send_fragment (conf s1) -> retransmitting (d1 (conf s1)) = true ->
  link_mtu (d1 (conf s1)) = 0 -> dtls1_min_mtu s1 <= mtu (d1 (conf s1)) ->
  fits (mac_size s1 + blocksize s1) (mtu (d1 (conf s1))) ->
  exists recs, (exists frs, pieces message k 0 frs /\ recs = map (wire message) frs) /\
    writes tls3_RT_HANDSHAKE recs s1.
Proof using DatagramWriter0.
  intros Hk H24 Hoff Hnum Hbuf Hblk Hroom Hrd Ht Hl Hs Hmax Hre Hlink Hmin Hfits.
  destruct (do_write_spec sent hashed message s1 k) as (s' & frs & Hrun & Hwr & Hp & Hsent & _ & Hh & Ho & _).
  { repeat (split; [done|]). split; [|repeat (split; [done|]); done]. exists blk.
    split; [unfold init_data; by rewrite Hbuf|]. split; [done|].
    rewrite Z.add_0_r, Z.sub_0_r. exact Hrd. }
  eexists. split; [by exists frs|]. exists s'. split; [exact Hrun|]. split; [exact Hwr|]. split; [exact Hsent|].
  split; [|exact Ho]. rewrite Hh. unfold hashed_from. rewrite Hre. by rewrite app_nil_r.
Qed.

Lemma ccs_writes c m blk s1 : init_off s1 = 0 -> init_num s1 = 1 -> init_buf s1 = Some m -> buf_data m = Some blk ->
  rdn blk 0 1 = Some [c] -> DTLS1_HM_HEADER_LENGTH < max_send_fragment (conf s1) ->
  link_mtu (d1 (conf s1)) = 0 -> dtls1_min_mtu s1 <= mtu (d1 (conf s1)) ->
  fits (mac_size s1 + blocksize s1) (mtu (d1 (conf s1))) ->
  exists recs, recs = [[c]] /\ writes tls3_RT_CHANGE_CIPHER_SPEC recs s1.
Proof using DatagramWriter0.
  intros Hoff Hnum Hbuf Hblk Hrd Hmax Hlink Hmin Hfits.
  destruct (ccs_write_spec s1 c blk) as (s' & Hrun & Hwr & Hsent & Hh & Ho & _); try done.
  { unfold init_data. by rewrite Hbuf. }
  exists [[c]]. split; [done|]. by exists s'.
Qed.

(** The header and the bytes of an item are put into the buffer. *)
Lemma load_spec s m blk h src n : init_buf s = Some m -> buf_data m = Some blk -> zlen src = n -> n <= zlen blk ->
  exists blk' hdr, rdn src 0 n = Some src /\ init_data s = Some blk /\ wrn blk 0 src = Some blk' /\
    rdn blk' 0 n = Some src /\ zlen blk' = zlen blk /\
    dtls1_set_message_header_int ((set_init_data s blk') <| init_num := n |>) (hm_type h) (hm_msg_len h) (hm_seq h) 0
      (hm_frag_len h) = loaded hdr (Some (m <| buf_data := Some blk' |>)) n s /\
    hm_type hdr = hm_type h /\ hm_msg_len hdr = hm_msg_len h /\ hm_seq hdr = hm_seq h.
Proof.
  intros Em Eblk Hz Hle. pose proof (zlen_nonneg src) as H0.
  destruct (rdn_wrn_start blk src) as (blk' & Hw & Hrd & Hz' & _); [lia|].
  exists blk', ((w_msg_hdr (d1 (conf s))) <| hm_type := hm_type h |> <| hm_msg_len := hm_msg_len h |> <| hm_seq := hm_seq h |>
    <| hm_frag_off := 0 |> <| hm_frag_len := hm_frag_len h |>).
  split; [rewrite <- Hz; apply rdn_whole|]. split; [unfold init_data; by rewrite Em|].
  split; [done|]. split; [by rewrite <- Hz|]. split; [done|]. split.
  - destruct s. cbn in Em. subst. reflexivity.
  - by repeat split.
Qed.

Lemma buffer_block s size : buf_size s = Some size ->
  exists m blk, init_buf s = Some m /\ buf_data m = Some blk /\ zlen blk = size.
Proof.
  unfold buf_size, init_data. destruct (init_buf s) as [m|]; [|discriminate].
  cbn [mbind option_bind option_map]. destruct (buf_data m) as [blk|] eqn:E; [|discriminate].
  intros [= <-]. by exists m, blk.
Qed.

(** What is shown of [dtls1_retransmit_message]: an item is written, which adds records
    with [P] to [log], and [K] is the same afterwards. *)
Definition resends {R A} (log : list Z -> list R) (P : @pitem hm_fragment -> list R -> Prop) (K : tls -> A) : Prop :=
  forall s it size, idle s -> queue_ok (sent_messages (d1 (conf s))) ->
  In it (items (sent_messages (d1 (conf s)))) -> buf_size s = Some size ->
  sendable (mtu (d1 (conf s))) size it ->
  let h := msg_header (data it) in
  exists s' recs, dtls1_retransmit_message s (u16 (dtls1_get_queue_priority (hm_seq h) (Z.b2z (hm_is_ccs h))))
      = Ret (1, true, s') /\ rewrote s s' /\ init_off s' = 0 /\ P it recs /\
    log (rest s') = log (rest s) ++ recs /\ hashed (rest s') = hashed (rest s) /\ K s' = K s.

(** An item is written as it was the first time. *)
Lemma retransmit_message_spec : resends sent resent (fun _ => tt).
Proof using DatagramWriter0.
  intros s it size Hidle Hq Hin Hsize Hit. cbn zeta. unfold dtls1_retransmit_message. rewrite seq64be_u16.
  assert (Hfind : pqueue_find (sent_messages (d1 (conf s)))
    (seq64be (dtls1_get_queue_priority (hm_seq (msg_header (data it))) (Z.b2z (hm_is_ccs (msg_header (data it))))))
    = Some (Some it)).
  { rewrite <- (find_own _ it Hq Hin). by destruct Hit. }
  rewrite Hfind. clear Hfind. cbn [defined mbind comp_bind].
  pose proof Hidle as (_ & _ & _ & Hmax & _). destruct (buffer_block s size Hsize) as (m & blk & Em & Eblk & Hzblk).
  destruct Hit as [k st src sess Hk H24 Hst Hfits Hroom Hz Hsrc|k st c sess Hst Hfits Hroom];
    cbn [kept_message kept_ccs data msg_header hm_is_ccs hm_msg_len fragment saved_retransmit_state].
  - assert (Hl : 0 <= mlen message k) by apply zlen_nonneg.
    rewrite sz_small by (unfold SIZE_MAX, DTLS1_HM_HEADER_LENGTH; lia). rewrite (Z.add_comm (mlen message k)).
    destruct (load_spec s m blk (msg_header (data (kept_message k st src))) src (DTLS1_HM_HEADER_LENGTH + mlen message k) Em Eblk Hz)
      as (blk' & hdr & E0 & Edata & Ew & Hrd & Hz' & Hload & E1 & E2 & E3); [lia|].
    cbn [defined mbind comp_bind]. rewrite E0. cbn [defined mbind comp_bind].
    rewrite Edata. cbn [defined mbind comp_bind]. rewrite Ew.
    cbn [defined mbind comp_bind kept_message data msg_header hm_msg_len] in *. rewrite Hload. 
    destruct (send_item_spec (fun recs => exists frs, pieces message k 0 frs /\ recs = map (wire message) frs)
                tls3_RT_HANDSHAKE st sess hdr (Some (m <| buf_data := Some blk' |>))
                (DTLS1_HM_HEADER_LENGTH + mlen message k) s Hst Hidle)
      as (s' & recs & Hrun & Hrw & Ho & (frs & Hp & ->) & Hsent).
    + rewrite Hsize, <- Hzblk, <- Hz'. reflexivity.
    + intros s1 F1 F2 F3 F4 F5 F6 F7 F8 F9 F10.
      apply (message_writes k (m <| buf_data := Some blk' |>) blk'); try done; try congruence.
      * rewrite <- Hsrc. symmetry. pose proof (rdn_suffix src 0 _ DTLS1_HM_HEADER_LENGTH _ (rdn_whole src)) as Es.
        pose proof (rdn_suffix blk' 0 _ DTLS1_HM_HEADER_LENGTH _ Hrd) as Eb.
        rewrite Hz, Z.add_0_l, Z.add_simpl_l in Es. rewrite Z.add_0_l, Z.add_simpl_l in Eb.
        by rewrite Es, Eb by (unfold DTLS1_HM_HEADER_LENGTH; lia).
      * by rewrite F4, E1.
      * by rewrite F4, E3.
    + exists s', (map (wire message) frs). split; [exact Hrun|]. split; [exact Hrw|]. split; [exact Ho|].
      split; [by constructor|]. destruct Hsent as [Hsent Hh]. by repeat (split; [done|]).
  - destruct (load_spec s m blk (msg_header (data (kept_ccs k st [c]))) [c] 1 Em Eblk eq_refl)
      as (blk' & hdr & E0 & Edata & Ew & Hrd & Hz' & Hload & E1 & E2 & E3); [lia|].
    change (sz (0 + DTLS1_CCS_HEADER_LENGTH)) with 1. cbn [defined mbind comp_bind]. rewrite E0. cbn [defined mbind comp_bind].
    rewrite Edata. cbn [defined mbind comp_bind]. rewrite Ew.
    cbn [defined mbind comp_bind kept_ccs data msg_header hm_msg_len] in *. rewrite Hload. 
    destruct (send_item_spec (fun recs => recs = [[c]])
                tls3_RT_CHANGE_CIPHER_SPEC st sess hdr (Some (m <| buf_data := Some blk' |>)) 1 s Hst Hidle)
      as (s' & recs & Hrun & Hrw & Ho & -> & Hsent).
    + rewrite Hsize, <- Hzblk, <- Hz'. reflexivity.
    + intros s1 F1 F2 F3 F4 F5 F6 F7 F8 F9 F10.
      apply (ccs_writes c (m <| buf_data := Some blk' |>) blk'); try done; try congruence.
    + exists s', [[c]]. split; [exact Hrun|]. split; [exact Hrw|]. split; [exact Ho|].
      split; [by constructor|]. destruct Hsent as [Hsent Hh]. by repeat (split; [done|]).
Qed.

(** The whole flight is written, in the queue's order. *)
Lemma retransmit_loop_spec {R A} (log : list Z -> list R) P (K : tls -> A) s0 size iter : resends log P K ->
  buf_size s0 = Some size -> queue_ok (sent_messages (d1 (conf s0))) ->
  incl iter (items (sent_messages (d1 (conf s0)))) -> Forall (sendable (mtu (d1 (conf s0))) size) iter ->
  forall s, rewrote s0 s -> idle s ->
  exists s' recss, retransmit_loop iter s = Ret (1, s') /\ rewrote s0 s' /\ idle s' /\ Forall2 P iter recss /\
    log (rest s') = log (rest s) ++ concat recss /\ hashed (rest s') = hashed (rest s) /\ K s' = K s.
Proof using DatagramWriter0.
  intros Hstep Hsize Hq. induction iter as [|it iter IH]; intros Hincl Hall s Hrw Hidle.
  - exists s, []. cbn [concat]. rewrite app_nil_r. by repeat (split; [done|]).
  - apply Forall_cons_1 in Hall as [Hit Hall]. destruct (rewrote_same _ _ Hrw) as (Eq & Em & Es & _).
    destruct (Hstep s it size) as (s1 & recs & Hrun & Hrw1 & Ho & Hres & Hsent & Hh & HK).
    { done. } { by rewrite Eq. } { rewrite Eq. apply Hincl. by left. } { by rewrite Es. } { by rewrite Em. }
    destruct (IH ltac:(intros x Hx; apply Hincl; by right) Hall s1)
      as (s2 & recss & Hrun2 & Hrw2 & Hidle2 & Hres2 & Hsent2 & Hh2 & HK2).
    { by eapply rewrote_trans. } { by eapply idle_rewrote. }
    exists s2, (recs :: recss). split; [cbn [retransmit_loop]; rewrite Hrun; exact Hrun2|].
    split; [done|]. split; [done|]. split; [by constructor|].
    cbn [concat]. by rewrite Hsent2, Hsent, <- app_assoc, Hh2, Hh, HK2, HK.
Qed.

(** Nothing is being written, and all that is kept can be sent with a buffer of [size]
    bytes. *)
Definition flight_ready (size : Z) (s : tls) : Prop :=
  idle s /\ buf_size s = Some size /\ queue_ok (sent_messages (d1 (conf s))) /\
  Forall (sendable (mtu (d1 (conf s))) size) (items (sent_messages (d1 (conf s)))).

Lemma flight_spec {R A} (log : list Z -> list R) P (K : tls -> A) size s : resends log P K -> flight_ready size s ->
  exists s' recss, dtls1_retransmit_buffered_messages s = Ret (1, s') /\ rewrote s s' /\
    Forall2 P (items (sent_messages (d1 (conf s)))) recss /\
    log (rest s') = log (rest s) ++ concat recss /\ hashed (rest s') = hashed (rest s) /\ K s' = K s /\
    flight_ready size s'.
Proof using DatagramWriter0.
  intros Hstep (Hidle & Hsize & Hq & Hall).
  assert (Hrw : rewrote s s).
  { split; [|done]. clear -Hidle. destruct Hidle as (_ & _ & _ & _ & Hre). destruct s.
    match goal with c : tls_CONF |- _ => destruct c end.
    match goal with d : DTLS1_STATE |- _ => destruct d end. cbn in Hre. subst. reflexivity. }
  destruct (retransmit_loop_spec log P K s size _ Hstep Hsize Hq (incl_refl _) Hall s Hrw Hidle)
    as (s' & recss & Hrun & Hrw' & Hidle' & Hres & Hsent & Hh & HK).
  exists s', recss. do 6 (split; [done|]).
  destruct (rewrote_same _ _ Hrw') as (Eq & Em & Es & _). split; [done|]. by rewrite Es, Eq, Em.
Qed.

End Sending.

(** ** What the records are written with *)

(** The contexts of the cipher, of the MAC and of the compression, and the epoch, an
    [unsigned short]. *)
Definition record_keys : Type := Z * Z * Z * Z.

Definition keys_of (st : retransmit_state) : record_keys :=
  (saved_enc_write_ctx st, saved_write_hash st, saved_compress st, u16 (saved_epoch st)).

(** A record layer that writes a record with the keys that the connection has, and in
    the epoch that was set last; [sealed] is what it has written. *)
Class KeyedWriter `{Callouts} (sealed : list Z -> list (record_keys * list Z)) (hashed : list Z -> list Z) : Prop := {
  keyed_writer :: DatagramWriter (fun r => map snd (sealed r)) hashed;
  keyed_write type bytes s : let s' := (dtls1_write_bytes type bytes s).2 in
    sealed (rest s') = sealed (rest s) ++ [(keys_of (saved_write_state s), bytes)] /\
    DTLS_RECORD_LAYER_get_w_epoch s' = DTLS_RECORD_LAYER_get_w_epoch s;
  keyed_finish_mac bytes s : let s' := (tls3_finish_mac bytes s).2 in
    sealed (rest s') = sealed (rest s) /\ DTLS_RECORD_LAYER_get_w_epoch s' = DTLS_RECORD_LAYER_get_w_epoch s;
  keyed_epoch e s : let s' := DTLS_RECORD_LAYER_set_saved_w_epoch e s in
    sealed (rest s') = sealed (rest s) /\ DTLS_RECORD_LAYER_get_w_epoch s' = u16 e;
  (** the epoch is in the record layer *)
  keyed_rest s s' : rest s = rest s' -> DTLS_RECORD_LAYER_get_w_epoch s = DTLS_RECORD_LAYER_get_w_epoch s'
}.

Section Keys.
Context (message : Z -> Z * list Z).
Context `{Callouts} (sealed : list Z -> list (record_keys * list Z)) (hashed : list Z -> list Z).
Context `{!KeyedWriter sealed hashed}.

Definition keys (s : tls) : record_keys := keys_of (saved_write_state s).

(** Only records with the keys of [s] have been written since. *)
Definition keyed (s s' : tls) : Prop :=
  keys s' = keys s /\
  exists n, map fst (sealed (rest s')) = map fst (sealed (rest s)) ++ replicate n (keys s).

(** Nothing has been written, and the contexts are the same. *)
Definition silent (s s' : tls) : Prop :=
  enc_write_ctx (conf s') = enc_write_ctx (conf s) /\ write_hash (conf s') = write_hash (conf s) /\
  compress (conf s') = compress (conf s) /\ sealed (rest s') = sealed (rest s) /\
  DTLS_RECORD_LAYER_get_w_epoch s' = DTLS_RECORD_LAYER_get_w_epoch s.

Lemma silent_keys s s' : silent s s' -> keys s' = keys s.
Proof. intros (E1 & E2 & E3 & _ & E5). unfold keys, keys_of, saved_write_state. cbn. by rewrite E1, E2, E3, E5. Qed.

Lemma silent_keyed s s' : silent s s' -> keyed s s'.
Proof. intros Hs. split; [by apply silent_keys|]. exists 0%nat. destruct Hs as (_ & _ & _ & -> & _). cbn. by rewrite app_nil_r. Qed.

Lemma same_silent s s' : enc_write_ctx (conf s') = enc_write_ctx (conf s) ->
  write_hash (conf s') = write_hash (conf s) -> compress (conf s') = compress (conf s) -> rest s' = rest s -> silent s s'.
Proof using KeyedWriter0. intros E1 E2 E3 E4. repeat (split; [done|]). split; [by rewrite E4|by apply keyed_rest]. Qed.

Lemma silent_trans s1 s2 s3 : silent s1 s2 -> silent s2 s3 -> silent s1 s3.
Proof. unfold silent. intuition congruence. Qed.

Lemma keyed_trans s1 s2 s3 : keyed s1 s2 -> keyed s2 s3 -> keyed s1 s3.
Proof.
  intros [E1 [n1 H1]] [E2 [n2 H2]]. split; [congruence|]. exists (n1 + n2)%nat.
  by rewrite H2, H1, E1, replicate_add, app_assoc.
Qed.

Lemma query_mtu_silent s : silent s (dtls1_query_mtu s).2.
Proof using KeyedWriter0. unfold dtls1_query_mtu. destruct (truth _); repeat case_match; by apply same_silent. Qed.

Lemma next_fragment_silent type off s : silent s (next_fragment type off s).2.
Proof using KeyedWriter0. unfold next_fragment. repeat case_match; by apply same_silent. Qed.

Lemma room_for_silent overhead s r : room_for overhead s = inl r -> silent s r.2.
Proof using KeyedWriter0. unfold room_for. repeat case_match; intros [= <-]; by apply same_silent. Qed.

Lemma header_silent s p s' : dtls1_write_message_header s p = Some s' -> silent s s'.
Proof using KeyedWriter0.
  unfold dtls1_write_message_header. destruct (init_data s) as [blk|]; [|discriminate]. cbn [mbind option_bind].
  destruct (wrn _ _ _); [|discriminate]. intros [= <-]. by apply same_silent.
Qed.

Lemma finish_mac_silent bytes s : silent s (tls3_finish_mac bytes s).2.
Proof using KeyedWriter0.
  destruct (keyed_finish_mac bytes s) as [H1 H2]. destruct (writer_finish_mac bytes s) as (r & E & _).
  rewrite E in *. by repeat (split; [done|]).
Qed.

Lemma defined_ret {A} (o : option A) x : defined o = Ret x -> o = Some x.
Proof. destruct o; [by intros [= ->]|discriminate]. Qed.

Lemma bind_ret {A B} (m : comp A) (f : A -> comp B) y : (x ← m; f x) = Ret y -> exists x, m = Ret x /\ f x = Ret y.
Proof. destruct m; cbn; try discriminate. by eauto. Qed.

Lemma hash_fragment_silent off n s ok s' : hash_fragment off n s = Ret (ok, s') -> silent s s'.
Proof using KeyedWriter0.
  unfold hash_fragment. intros Hrun. apply bind_ret in Hrun as ([[s1 p] xlen] & Hstart & Hrun).
  apply bind_ret in Hrun as (blk & _ & Hrun). apply bind_ret in Hrun as (bytes & _ & [= Hrun]).
  assert (Hs : silent s s1).
  { destruct (_ && _); [|injection Hstart as <- _ _; by apply same_silent].
    apply bind_ret in Hstart as (blk1 & _ & Hstart). apply bind_ret in Hstart as (blk2 & _ & [= <- _ _]).
    by apply same_silent. }
  apply (silent_trans _ _ _ Hs). change s' with (ok, s').2. rewrite <- Hrun. apply finish_mac_silent.
Qed.

Lemma fragment_written_silent type off n s fin off' s' : fragment_written type off n s = Ret (fin, off', s') ->
  match fin with Some r => silent s r.2 | None => silent s s' end.
Proof using KeyedWriter0.
  unfold fragment_written. intros Hrun. apply bind_ret in Hrun as ([ok s1] & Hhash & Hrun).
  assert (Hs : silent s s1).
  { destruct (_ && _); [by eapply hash_fragment_silent|]. injection Hhash as _ <-. by apply same_silent. }
  destruct ok; cbn [negb] in Hrun; [|by injection Hrun as <- _ _]. destruct (n =? init_num s1).
  - apply bind_ret in Hrun as (s2 & Hcall & [= <- _ _]). apply (silent_trans _ _ _ Hs). destruct (msg_callback s1).
    + apply bind_ret in Hcall as (blk & _ & Hcall). apply bind_ret in Hcall as (bytes & _ & [= <-]).
      by apply same_silent.
    + injection Hcall as <-. by apply same_silent.
  - injection Hrun as <- _ <-. apply (silent_trans _ _ _ Hs). by apply same_silent.
Qed.

(** A record is written with the keys there are. *)
Lemma write_bytes_keyed type bytes s : keyed s (dtls1_write_bytes type bytes s).2.
Proof using KeyedWriter0.
  destruct (keyed_write type bytes s) as [H1 H2].
  destruct (writer_write (sent := fun r => map snd (sealed r)) type bytes s) as (i & r & E & _). rewrite E in *. cbn [snd] in *.
  split.
  - unfold keys, keys_of, saved_write_state. cbn [saved_enc_write_ctx saved_write_hash saved_compress saved_epoch].
    rewrite H2. reflexivity.
  - exists 1%nat. rewrite H1, map_app. reflexivity.
Qed.

Lemma write_loop_keyed fuel type overhead : forall retry off s r s',
  write_loop fuel type overhead retry off s = Ret (r, s') -> keyed s s'.
Proof using KeyedWriter0.
  induction fuel as [|fuel IH]; intros retry off s r s'; cbn [write_loop];
    (destruct (_ <=? _); [intros [= _ <-]; by apply silent_keyed, same_silent|]); [discriminate|].
  pose proof (next_fragment_silent type off s) as H1. destruct (next_fragment type off s) as [[ok off1] s1]. cbn [snd] in H1.
  destruct ok; cbn [negb]; [|intros [= _ <-]; by apply silent_keyed].
  pose proof (fun r => room_for_silent overhead s1 r) as H2. destruct (room_for overhead s1) as [[x y]|curr].
  { intros [= _ <-]. apply silent_keyed. apply (silent_trans _ _ _ H1). exact (H2 _ eq_refl). }
  clear H2. set (len := if max_send_fragment _ <? _ then _ else _). clearbody len.
  destruct (_ && _); [intros [= _ <-]; by apply silent_keyed|]. intros Hrun.
  apply bind_ret in Hrun as (s2 & Hhead & Hrun). apply bind_ret in Hrun as (blk & _ & Hrun).
  apply bind_ret in Hrun as (bytes & _ & Hrun).
  assert (H2 : silent s1 s2).
  { destruct (type =? _); [|injection Hhead as <-; by apply same_silent].
    apply defined_ret in Hhead. apply header_silent in Hhead. eapply silent_trans; [|exact Hhead]. by apply same_silent. }
  pose proof (write_bytes_keyed type bytes s2) as H3. destruct (dtls1_write_bytes type bytes s2) as [[ret n] s3]. cbn [snd] in H3.
  assert (Hk : keyed s s3) by (eapply keyed_trans; [apply silent_keyed; by eapply silent_trans|exact H3]).
  clear H1 H2 H3. destruct (ret <? 0).
  - destruct (_ && _); [|by injection Hrun as _ <-]. pose proof (query_mtu_silent s3) as H4.
    destruct (dtls1_query_mtu s3) as [ok2 s4]. cbn [snd] in H4. apply silent_keyed in H4.
    apply (keyed_trans _ _ _ Hk) in H4. destruct ok2; cbn [negb] in Hrun; [|by injection Hrun as _ <-].
    apply (keyed_trans _ _ _ H4). by eapply IH.
  - destruct (negb _); [by injection Hrun as _ <-|].
    apply bind_ret in Hrun as ([[fin off2] s4] & Hfrag & Hrun). apply fragment_written_silent in Hfrag.
    apply (keyed_trans _ _ _ Hk). destruct fin as [[x y]|].
    + injection Hrun as _ <-. by apply silent_keyed.
    + eapply keyed_trans; [by apply silent_keyed|]. by eapply IH.
Qed.

Lemma do_write_keyed type s r s' : dtls1_do_write type s = Ret (r, s') -> keyed s s'.
Proof using KeyedWriter0.
  unfold dtls1_do_write. pose proof (query_mtu_silent s) as H1. destruct (dtls1_query_mtu s) as [ok s1]. cbn [snd] in H1.
  apply silent_keyed in H1. destruct ok; cbn [negb]; [|by intros [= _ <-]]. destruct (_ <? _); [by intros [= _ <-]|].
  destruct (_ && _); [by intros [= _ <-]|]. intros Hrun. apply write_loop_keyed in Hrun.
  apply (keyed_trans _ _ _ H1). eapply keyed_trans; [|exact Hrun]. by apply silent_keyed, same_silent.
Qed.

(** The keys of [st] are put in place. *)
Lemma set_write_state_keys st s s' : set_write_state st s = Some s' ->
  keys s' = keys_of st /\ sealed (rest s') = sealed (rest s).
Proof using KeyedWriter0.
  unfold set_write_state. destruct (saved_session st) as [sess|]; [|discriminate]. cbn [mbind option_bind].
  change (Some (DTLS_RECORD_LAYER_set_saved_w_epoch (saved_epoch st) (with_keys st sess s)) = Some s' ->
    keys s' = keys_of st /\ sealed (rest s') = sealed (rest s)).
  intros E0. apply Some_inj in E0. subst s'. destruct (writer_epoch (saved_epoch st) (with_keys st sess s)) as (r & E & _).
  destruct (keyed_epoch (saved_epoch st) (with_keys st sess s)) as [H1 H2].
  rewrite E in *. split; [|exact H1].
  unfold keys, keys_of, saved_write_state. cbn [saved_enc_write_ctx saved_write_hash saved_compress saved_epoch].
  rewrite H2. unfold u16. rewrite !Z.mod_mod by done. reflexivity.
Qed.

(** The keys of an item; its records are written with them, and then the keys are back. *)
Definition item_keys (it : @pitem hm_fragment) : record_keys :=
  keys_of (saved_retransmit_state (msg_header (data it))).

Lemma retransmit_keyed s seq r found s' it :
  pqueue_find (sent_messages (d1 (conf s))) (seq64be seq) = Some (Some it) ->
  dtls1_retransmit_message s seq = Ret (r, found, s') ->
  keys s' = keys s /\
  exists n, map fst (sealed (rest s')) = map fst (sealed (rest s)) ++ replicate n (item_keys it).
Proof using KeyedWriter0.
  intros Hfind. unfold dtls1_retransmit_message. rewrite Hfind. cbn [defined mbind comp_bind]. intros Hrun.
  apply bind_ret in Hrun as (src & _ & Hrun). apply bind_ret in Hrun as (bytes & _ & Hrun).
  apply bind_ret in Hrun as (blk & _ & Hrun). apply bind_ret in Hrun as (blk' & _ & Hrun).
  set (s1 := dtls1_set_message_header_int _ _ _ _ _ _) in Hrun.
  assert (H1 : silent s s1) by (by apply same_silent). clearbody s1.
  apply bind_ret in Hrun as (s2 & Hset & Hrun). apply bind_ret in Hrun as ([ret s3] & Hwrite & Hrun).
  apply bind_ret in Hrun as (s4 & Hback & Hrun).
  apply (f_equal (fun c => match c with Ret x => x.2 | _ => s4 end)) in Hrun. change (resending false s4 = s') in Hrun. subst s'.
  apply defined_ret, set_write_state_keys in Hset as [K2 E2]. apply defined_ret, set_write_state_keys in Hback as [K4 E4].
  apply do_write_keyed in Hwrite as [_ (n & E3)].
  assert (H5 : silent s4 (resending false s4)) by (by apply same_silent).
  split; [rewrite (silent_keys _ _ H5), K4; exact (silent_keys _ _ H1)|].
  exists n. change (rest (resending false s4)) with (rest s4). rewrite E4, E3, E2, K2.
  change (rest (upd_d1 _ s1)) with (rest s1). destruct H1 as (_ & _ & _ & -> & _). reflexivity.
Qed.

(** What is written is known when the bytes and the keys are. *)
Lemma sealed_with (l l' : list (record_keys * list Z)) recs n k :
  map snd l' = map snd l ++ recs -> map fst l' = map fst l ++ replicate n k -> l' = l ++ map (pair k) recs.
Proof.
  intros Hs Hf. assert (Hn : n = length recs).
  { apply (f_equal length) in Hs, Hf. rewrite !length_app, !length_map in *. rewrite length_replicate in Hf. lia. }
  transitivity (zip (map fst l') (map snd l')); [symmetry; apply zip_fst_snd|].
  rewrite Hs, Hf, zip_with_app by (by rewrite !length_map). f_equal; [apply zip_fst_snd|].
  rewrite Hn. by apply zip_with_replicate_l.
Qed.

(** The records of an item, each with the keys it is written with. *)
Definition resealed (it : @pitem hm_fragment) (recs : list (record_keys * list Z)) : Prop :=
  exists bytes, resent message it bytes /\ recs = map (pair (item_keys it)) bytes.

Lemma retransmit_message_sealed : resends message hashed sealed resealed keys.
Proof using KeyedWriter0.
  intros s it size Hidle Hq Hin Hsize Hit. cbn zeta.
  destruct (retransmit_message_spec message _ hashed s it size Hidle Hq Hin Hsize Hit)
    as (s' & recs & Hrun & Hrw & Ho & Hres & Hsent & Hh & _).
  assert (Hfind : pqueue_find (sent_messages (d1 (conf s)))
    (seq64be (u16 (dtls1_get_queue_priority (hm_seq (msg_header (data it))) (Z.b2z (hm_is_ccs (msg_header (data it)))))))
    = Some (Some it)).
  { rewrite seq64be_u16, <- (find_own _ it Hq Hin). by destruct Hit. }
  destruct (retransmit_keyed _ _ _ _ _ it Hfind Hrun) as (HK & n & Hn).
  exists s', (map (pair (item_keys it)) recs). split; [exact Hrun|]. split; [exact Hrw|]. split; [exact Ho|].
  split; [by exists recs|]. split; [by eapply sealed_with|by split].
Qed.

End Keys.

(** ** Keeping a message *)

Section Keeping.
Context (message : Z -> Z * list Z).
Context `{Malloc} `{Callouts}.
Context (malloc_ok : forall n, 0 < n < 2 ^ 31 -> is_Some (malloc n)).

Lemma rdn_whole_of (l : list Z) n : 0 <= n <= zlen l -> exists x, rdn l 0 n = Some x /\ zlen x = n.
Proof. intros Hn. eexists. split; [by apply rdn_spec; lia|]. eapply rdn_zlen. apply rdn_spec; lia. Qed.

(** The state that is kept with a message. *)
Lemma saved_overhead s : state_overhead (saved_write_state s) = mac_size s + blocksize s.
Proof. reflexivity. Qed.

Lemma kept_spec s k : ready_to_send message s k -> queue_ok (sent_messages (d1 (conf s))) ->
  (forall it, In it (items (sent_messages (d1 (conf s)))) ->
     key it <> be_val (seq64be (dtls1_get_queue_priority k 0))) ->
  exists q src size, let it := kept_message message k (saved_write_state s) src in
    dtls1_buffer_message s false = Some (true, upd_d1 (fun d => d <| sent_messages := q |>) s) /\
    queue_ok q /\ Permutation (items q) (it :: items (sent_messages (d1 (conf s)))) /\
    buf_size s = Some size /\ sendable message (mtu (d1 (conf s))) size it.
Proof using malloc_ok.
  intros (Hk & Hs & (blk & Hblk & Hroom & Hbody) & [Hoff Hnum] & Hlink & Hmin & Hfits) [Hp Hsort] Hnew.
  rewrite Z.add_0_r, Z.sub_0_r in Hbody. change (drop (Z.to_nat 0) (body message k)) with (body message k) in Hbody.
  assert (Hl : 0 <= mlen message k) by apply zlen_nonneg. pose proof (sending_short _ _ _ Hs) as H24.
  unfold dtls1_buffer_message. rewrite Hoff, Hnum. cbn [Z.eqb negb]. set (n := DTLS1_HM_HEADER_LENGTH + mlen message k) in *.
  assert (Hn : 12 <= n < 2 ^ 24 + 12) by (unfold n, DTLS1_HM_HEADER_LENGTH; lia).
  unfold dtls1_hm_fragment_new. destruct (malloc_some malloc_ok sizeof_hm_fragment) as (b0 & -> & _); [done|].
  destruct (malloc_some malloc_ok n) as (b1 & -> & Hb1); [lia|].
  destruct (Z.eqb_spec n 0) as [|_]; [lia|]. rewrite Hblk.
  destruct (rdn_whole_of blk n) as (src & Hsrc & Hz); [lia|].
  cbn [mbind option_bind fragment reassembly msg_header]. rewrite Hsrc.
  cbn [mbind option_bind fragment reassembly msg_header].
  destruct (rdn_wrn_start b1 src) as (b2 & -> & Hb2 & Hz2 & _); [lia|]. cbn [mbind option_bind].
  rewrite (sending_len _ _ _ Hs), (sending_type _ _ _ Hs), (sending_seq _ _ _ Hs).
  rewrite sz_small by (unfold SIZE_MAX, DTLS1_HM_HEADER_LENGTH; lia).
  rewrite (proj2 (Z.eqb_eq _ _)) by (unfold u32, n; rewrite Z.mod_small; lia). cbn [negb].
  destruct (malloc_some malloc_ok sizeof_pitem) as (b3 & E3 & _); [done|].
  unfold pitem_new. rewrite E3. cbn [mbind option_bind Z.b2z].
  change (rdn (seq64be _) 0 8) with (Some (seq64be (dtls1_get_queue_priority k 0))). cbn [mbind option_bind].
  assert (Hb : b2 = src) by (rewrite Hz, <- Hb1, <- Hz2, rdn_whole in Hb2; congruence). rewrite Hb. clear Hb.
  destruct (insert_loop_spec (items (sent_messages (d1 (conf s)))) (kept_message message k (saved_write_state s) src)
              Hp Hsort (seq64be_ok _)) as (ok & l & Hins & Hok).
  destruct ok; [|destruct Hok as ((it & Hin & Hkey) & _); by destruct (Hnew it Hin)].
  destruct Hok as (_ & Hperm & Hsort'). unfold pqueue_insert. cbn zeta.
  eexists _, src, (zlen blk). split; [unfold kept_message in Hins; unfold saved_write_state in Hins; rewrite Hins; reflexivity|].
  split; [split; [|exact Hsort']|split; [exact Hperm|split; [unfold buf_size; by rewrite Hblk|]]].
  - cbn [items]. rewrite Hperm. constructor; [apply seq64be_ok|exact Hp].
  - econstructor; [done|done|reflexivity|by rewrite saved_overhead|done|done|].
    pose proof (rdn_suffix blk 0 _ DTLS1_HM_HEADER_LENGTH _ Hsrc) as Es.
    pose proof (rdn_suffix src 0 _ DTLS1_HM_HEADER_LENGTH _ (rdn_whole src)) as Eb.
    unfold n in *. rewrite Z.add_0_l, Z.add_simpl_l in Es. rewrite Hz, Z.add_0_l, Z.add_simpl_l in Eb.
    rewrite Eb, <- Es by (unfold DTLS1_HM_HEADER_LENGTH; lia). exact Hbody.
Qed.

End Keeping.

(** ** Properties *)

(** The keys and the session that are written with. *)
Definition write_keys (s : tls) : Z * Z * Z * tls_SESSION :=
  (enc_write_ctx (conf s), write_hash (conf s), compress (conf s), session s).

Lemma flight_resent `{Callouts} sent hashed `{!DatagramWriter sent hashed} message size s :
  flight_ready message size s ->
  exists s' recss, dtls1_retransmit_buffered_messages s = Ret (1, s') /\ rewrote s s' /\
    Forall2 (resent message) (items (sent_messages (d1 (conf s)))) recss /\
    sent (rest s') = sent (rest s) ++ concat recss /\ hashed (rest s') = hashed (rest s) /\
    flight_ready message size s'.
Proof.
  intros Hf. destruct (flight_spec message sent hashed sent _ _ size s (retransmit_message_spec message sent hashed) Hf)
    as (s' & recss & Hrun & Hrw & Hres & Hsent & Hh & _ & Hf').
  exists s', recss. by repeat (split; [done|]).
Qed.

(** C22: a flight is sent again as it was: [dtls1_retransmit_buffered_messages] sends,
    for every message and ChangeCipherSpec that is kept, in the order in which they
    were sent first, records that are the whole of it, each with the contexts of the
    cipher, the MAC and the compression, and in the epoch, that were kept with it;
    nothing of it is hashed again; what is written with now, the epoch included, and
    all that is kept are the same afterwards, and it can be done again. *)
Theorem dtls_flight_retransmitted `{Callouts} sealed hashed `{!KeyedWriter sealed hashed} message size s :
  flight_ready message size s ->
  exists s' recss, dtls1_retransmit_buffered_messages s = Ret (1, s') /\
    Forall2 (resealed message) (items (sent_messages (d1 (conf s)))) recss /\
    sealed (rest s') = sealed (rest s) ++ concat recss /\ hashed (rest s') = hashed (rest s) /\
    write_keys s' = write_keys s /\ keys s' = keys s /\
    sent_messages (d1 (conf s')) = sent_messages (d1 (conf s)) /\
    flight_ready message size s'.
Proof.
  intros Hf.
  destruct (flight_spec message _ hashed sealed _ _ size s (retransmit_message_sealed message sealed hashed) Hf)
    as (s' & recss & Hrun & Hrw & Hres & Hsent & Hh & HK & Hf').
  destruct (rewrote_same _ _ Hrw) as (Eq & _ & _ & E1 & E2 & E3 & E4). exists s', recss.
  do 4 (split; [done|]). unfold write_keys. by rewrite E1, E2, E3, E4.
Qed.

(** A message that is kept can be sent again: [dtls1_buffer_message] keeps a message
    that is ready to be sent, in its place among those kept before, and then the
    flight with it is ready to be retransmitted. *)
Theorem dtls_message_kept `{Malloc} `{Callouts} sent hashed `{!DatagramWriter sent hashed} message size s k
  (malloc_ok : forall n, 0 < n < 2 ^ 31 -> is_Some (malloc n)) :
  ready_to_send message s k -> flight_ready message size s ->
  (forall it, In it (items (sent_messages (d1 (conf s)))) ->
     key it <> be_val (seq64be (dtls1_get_queue_priority k 0))) ->
  exists s' src, dtls1_buffer_message s false = Some (true, s') /\
    Permutation (items (sent_messages (d1 (conf s'))))
      (kept_message message k (saved_write_state s) src :: items (sent_messages (d1 (conf s)))) /\
    flight_ready message size s'.
Proof.
  intros Hr (Hidle & Hsize & Hq & Hall) Hnew.
  destruct (kept_spec message malloc_ok s k Hr Hq Hnew) as (q & src & size' & Hrun & Hq' & Hperm & Hsize' & Hit).
  rewrite Hsize in Hsize'. injection Hsize' as <-. eexists _, src. split; [exact Hrun|].
  split; [exact Hperm|]. split.
  { destruct Hidle as (H1 & H2 & H3 & H4 & H5). split; [done|]. split; [done|].
    split; [|by split]. rewrite (min_mtu_same sent hashed _ s). exact H3. }
  split; [exact Hsize|]. split; [exact Hq'|].
  change (sent_messages (d1 (conf (upd_d1 _ s)))) with q. rewrite Hperm. by constructor.
Qed.

(** ** Witnesses *)

#[local] Existing Instance generous_malloc.
#[local] Existing Instance postman.
#[local] Existing Instance postman_writes.

Lemma sending_server_flight : flight_ready certificates 312 sending_server.
Proof.
  split; [vm_compute; repeat split; discriminate|]. split; [reflexivity|]. split; [|by constructor].
  split; constructor.
Qed.

Lemma dtls_message_kept_witness :
  exists s' src, dtls1_buffer_message sending_server false = Some (true, s') /\
    items (sent_messages (d1 (conf s'))) = [kept_message certificates 4 (saved_write_state sending_server) src] /\
    flight_ready certificates 312 s'.
Proof.
  destruct (dtls_message_kept posted hashed_part certificates 312 sending_server 4 generous sending_server_ready
              sending_server_flight) as (s' & src & Hrun & Hperm & Hf).
  { intros it []. }
  exists s', src. split; [exact Hrun|]. split; [|exact Hf].
  apply Permutation_length_1_inv. symmetry. exact Hperm.
Defined.

(** A Certificate and a ChangeCipherSpec have been sent, without encryption, and now
    the keys are others. *)
Definition sent_flight : list (@pitem hm_fragment) :=
  let st := saved_write_state sending_server in
  [kept_message certificates 4 st (replicate 12 0 ++ replicate 300 7); kept_ccs 5 st [1]].

Definition waiting_server : tls :=
  upd_d1 (fun d => d <| sent_messages := mk_pqueue sent_flight 2 |>)
    (sending_server <| conf ::= fun c => c <| enc_write_ctx := 1 |> |>).

(** A Certificate and a ChangeCipherSpec are kept. *)
Ltac flight_of_two :=
  split; [vm_compute; repeat split; discriminate|]; split; [reflexivity|]; split;
  [split; [constructor; [|constructor; [|constructor]]; apply seq64be_ok|
           constructor; [constructor; constructor|constructor; [|constructor]]; vm_compute; reflexivity]|
   constructor; [|constructor; [|constructor]];
   [apply (sendable_message _ _ _ 4 _ _ (session sending_server))
   |apply (sendable_ccs _ _ _ 5 _ 1 (session sending_server))];
   try reflexivity; vm_compute; repeat split; discriminate].

Lemma waiting_server_flight : flight_ready certificates 312 waiting_server.
Proof. flight_of_two. Qed.

Lemma inv_resealed2 message k1 st1 src k2 st2 c recss :
  Forall2 (resealed message) [kept_message message k1 st1 src; kept_ccs k2 st2 [c]] recss ->
  exists frs, pieces message k1 0 frs /\
    recss = [map (pair (keys_of st1)) (map (wire message) frs); [(keys_of st2, [c])]].
Proof.
  intros Hres. inversion Hres as [|? r1 ? l1 H1 Hres1]; subst. inversion Hres1 as [|? r2 ? l2 H2 Hres2]; subst.
  inversion Hres2; subst. destruct H1 as (b1 & H1 & ->), H2 as (b2 & H2 & ->).
  inversion H1 as [? ? ? frs Hp|]; subst. inversion H2; subst. by exists frs.
Qed.

(** A record layer whose part of [rest] is the epoch, and then what was hashed and the
    records as [postman] has them, each with its keys in front. *)
Definition set_epoch (e : Z) (s : tls) : tls := s <| rest := u16 e :: tail (rest s) |>.

Definition sealing_hash (bytes : list Z) (s : tls) : bool * tls :=
  let l := tail (rest s) in
  (true, s <| rest := hd 0 (rest s) :: datagram_rest (hashed_part l ++ bytes) (records_part l) |>).

Definition sealing_write (bytes : list Z) (s : tls) : Z * Z * tls :=
  let l := tail (rest s) in
  (1, zlen bytes,
   s <| rest := hd 0 (rest s) :: datagram_rest (hashed_part l)
     ([enc_write_ctx (conf s); write_hash (conf s); compress (conf s); u16 (hd 0 (rest s)); zlen bytes]
      ++ bytes ++ records_part l) |>).

Definition sealing_postman : Callouts :=
  epoch_environment (fun s => hd 0 (rest s)) set_epoch yes datagram_bytes no_record sealing_hash sealing_write
    script_process.

Fixpoint sealed_records (n : nat) (l : list Z) : list (record_keys * list Z) :=
  match n, l with
  | S n, enc :: hash :: comp :: epoch :: size :: l =>
      sealed_records n (drop (Z.to_nat size) l) ++ [((enc, hash, comp, epoch), take (Z.to_nat size) l)]
  | _, _ => []
  end.

Definition sealed_part (r : list Z) : list (record_keys * list Z) :=
  sealed_records (length (records_part (tail r))) (records_part (tail r)).

Lemma sealed_fuel n : forall m l, (length l <= n)%nat -> (length l <= m)%nat ->
  sealed_records n l = sealed_records m l.
Proof.
  induction n as [|n IH]; intros [|m] [|? [|? [|? [|? [|size l]]]]] Hn Hm; simpl in *; try done; try lia.
  f_equal. apply IH; rewrite length_drop; lia.
Qed.

Lemma sealed_part_record e h a b c d bytes l :
  sealed_part (e :: datagram_rest h ([a; b; c; d; zlen bytes] ++ bytes ++ l))
  = sealed_records (length l) l ++ [((a, b, c, d), bytes)].
Proof.
  unfold sealed_part. cbn [tail]. rewrite records_part_rest.
  change (length ([a; b; c; d; zlen bytes] ++ bytes ++ l)) with (S (4 + length (bytes ++ l))).
  generalize (eq_refl (4 + length (bytes ++ l))%nat). generalize (4 + length (bytes ++ l))%nat at 1 3 as n.
  intros n En. cbn [app sealed_records].
  unfold zlen. rewrite Nat2Z.id, take_app_length, drop_app_length. f_equal. apply sealed_fuel; [|done].
  rewrite En, length_app. lia.
Qed.

#[local] Instance sealing_postman_writes :
  @KeyedWriter sealing_postman sealed_part (fun r => hashed_part (tail r)).
Proof.
  split; [split| | | |].
  - intros type bytes s. exists 1. eexists. split; [reflexivity|]. split; [done|].
    rewrite sealed_part_record, map_app. split; [reflexivity|]. apply hashed_part_rest.
  - intros bytes s. eexists. split; [reflexivity|]. unfold sealed_part. cbn [tail].
    by rewrite hashed_part_rest, records_part_rest.
  - done.
  - done.
  - done.
  - intros e s. eexists. by split; [reflexivity|].
  - intros type bytes s. cbn zeta. split; [|done]. exact (sealed_part_record _ _ _ _ _ _ bytes _).
  - intros bytes s. cbn zeta. split; [|done]. unfold sealed_part. cbn -[hashed_part records_part datagram_rest].
    by rewrite records_part_rest.
  - by intros e s.
  - intros s s'. cbn. by intros ->.
Qed.

(** The flight was sent in epoch 0, without encryption; now the epoch is 1. *)
Definition rekeyed_server : tls := waiting_server <| rest := [1; 0] |>.

Lemma rekeyed_server_flight : @flight_ready certificates sealing_postman 312 rekeyed_server.
Proof. flight_of_two. Qed.

Lemma dtls_flight_retransmitted_witness :
  exists s' frs, @dtls1_retransmit_buffered_messages sealing_postman rekeyed_server = Ret (1, s') /\
    pieces certificates 4 0 frs /\
    sealed_part (rest s') = map (pair (0, 0, 0, 0)) (map (wire certificates) frs) ++ [((0, 0, 0, 0), [1])] /\
    @keys sealing_postman s' = (1, 0, 0, 1).
Proof.
  destruct (@dtls_flight_retransmitted sealing_postman sealed_part _ sealing_postman_writes certificates 312
              rekeyed_server rekeyed_server_flight)
    as (s' & recss & Hrun & Hres & Hsent & _ & _ & Hkeys & _).
  change (items _) with sent_flight in Hres. unfold sent_flight in Hres. cbn zeta in Hres.
  destruct (inv_resealed2 _ _ _ _ _ _ _ _ Hres) as (frs & Hp & ->).
  exists s', frs. split; [exact Hrun|]. split; [exact Hp|]. split; [exact Hsent|exact Hkeys].
Defined.
