(* ===== verification/Timer.v ===== *)
(** * The retransmission timer of DTLS

    [dtls1_start_timer], [dtls1_get_timeout], [dtls1_double_timeout] and
    [dtls1_handle_timeout] in microseconds: when the timer has run out, how long it
    runs the next time, and that the flight is then sent again, or, after twelve
    times, the connection given up. *)

From S2P Require Import Prelude Mem PQueue Packet Buffer TlsState StatemLib Dtls DtlsWrite Sample Reassembly Datagram Transfer Retransmit.

(** ** Time *)

(** In microseconds. *)
Definition us (t : timeval) : Z := tv_sec t * 1000000 + tv_usec t.

Definition tv_ok (t : timeval) : Prop := 0 <= tv_sec t /\ 0 <= tv_usec t < 1000000.

(** Reading the clock gives a time after the epoch, and disturbs nothing; the MTU to
    fall back to is that of the network protocol. *)
Class Clock `{Callouts} (sent : list Z -> list (list Z)) (hashed : list Z -> list Z)
    (clock : list Z -> timeval * list Z) : Prop := {
  clock_read s : get_current_time s = ((clock (rest s)).1, s <| rest := (clock (rest s)).2 |>);
  clock_ok r : tv_ok (clock r).1 /\ 0 < us (clock r).1;
  clock_keeps r : sent (clock r).2 = sent r /\ hashed (clock r).2 = hashed r;
  clock_fallback s s' : BIO_dgram_get_fallback_mtu s = BIO_dgram_get_fallback_mtu s'
}.

Section Timing.
Context `{Callouts} (sent : list Z -> list (list Z)) (hashed : list Z -> list Z).
Context (clock : list Z -> timeval * list Z) `{!Clock sent hashed clock}.

(** The timer of [s], and how long it runs when it is started. *)
Definition timer (s : tls) : timeval := next_timeout (d1 (conf s)).
Definition period (s : tls) : Z := timeout_duration_us (d1 (conf s)).
Definition next_period (s : tls) : Z :=
  if timer_unset s then if timer_cb (d1 (conf s)) then u32 (call_timer_cb s 0) else 1000000 else period s.

(** Only the timer has changed. *)
Definition timed (s s' : tls) : Prop :=
  s' = upd_d1 (fun d => d <| next_timeout := timer s' |> <| timeout_duration_us := period s' |>)
         (s <| calls := calls s' |> <| rest := rest s' |>).

Lemma timed_trans s1 s2 s3 : timed s1 s2 -> timed s2 s3 -> timed s1 s3.
Proof. unfold timed. intros E1 E2. rewrite E2, E1. reflexivity. Qed.

Lemma unset_us s : tv_ok (timer s) -> timer_unset s = (us (timer s) =? 0).
Proof.
  intros [H1 H2]. unfold timer_unset, us. fold (timer s).
  destruct (Z.eqb_spec (tv_sec (timer s)) 0), (Z.eqb_spec (tv_usec (timer s)) 0), (Z.eqb_spec (tv_sec (timer s) * 1000000 + tv_usec (timer s)) 0); cbn; lia.
Qed.

(** The time [d] microseconds after [t]. *)
Definition after (t : timeval) (d : Z) : timeval :=
  let t := mk_timeval (tv_sec t + d / 1000000) (tv_usec t + u32 (d - d / 1000000 * 1000000)) in
  if 1000000 <=? tv_usec t then mk_timeval (tv_sec t + 1) (tv_usec t - 1000000) else t.

Lemma after_spec t d : tv_ok t -> 0 <= d < 2 ^ 32 -> tv_ok (after t d) /\ us (after t d) = us t + d.
Proof.
  intros [H1 H2] Hd. assert (Hm := Z.mod_pos_bound d 1000000 ltac:(lia)). assert (Hq := Z.div_pos d 1000000 ltac:(lia) ltac:(lia)).
  assert (E : d - d / 1000000 * 1000000 = d mod 1000000) by (rewrite Z.mod_eq; lia).
  assert (Hu : u32 (d - d / 1000000 * 1000000) = d mod 1000000).
  { unfold u32. rewrite E. apply Z.mod_small. lia. }
  unfold after. cbn zeta. rewrite Hu. cbn [tv_usec tv_sec].
  destruct (Z.leb_spec 1000000 (tv_usec t + d mod 1000000)); unfold tv_ok, us; cbn [tv_usec tv_sec]; lia.
Qed.

(** What starting the timer does. *)
Lemma start_timer_eq s : exists c, let s' := dtls1_start_timer s in
  s' = upd_d1 (fun d => d <| next_timeout := after (clock (rest s)).1 (next_period s) |>
                          <| timeout_duration_us := next_period s |>)
         (s <| calls := c |> <| rest := (clock (rest s)).2 |>).
Proof using Clock0.
  unfold dtls1_start_timer, next_period. destruct (timer_unset s).
  - rewrite clock_read. eexists. cbn zeta. destruct s. match goal with c : tls_CONF |- _ => destruct c end.
    match goal with d : DTLS1_STATE |- _ => destruct d end. reflexivity.
  - rewrite clock_read. eexists. cbn zeta. destruct s. match goal with c : tls_CONF |- _ => destruct c end.
    match goal with d : DTLS1_STATE |- _ => destruct d end. reflexivity.
Qed.

Lemma start_timer_spec s : 0 <= next_period s < 2 ^ 32 -> let s' := dtls1_start_timer s in
  timed s s' /\ rest s' = (clock (rest s)).2 /\ period s' = next_period s /\ tv_ok (timer s') /\
  us (timer s') = us (clock (rest s)).1 + next_period s /\ timer_unset s' = false.
Proof using Clock0.
  intros Hp. cbn zeta. destruct (clock_ok (rest s)) as [Hok Hpos].
  destruct (after_spec _ _ Hok Hp) as [Hok' Hus].
  destruct (start_timer_eq s) as (c & E). generalize dependent (dtls1_start_timer s). intros s' E.
  assert (Et : timer s' = after (clock (rest s)).1 (next_period s)) by (rewrite E; reflexivity).
  assert (Ep : period s' = next_period s) by (rewrite E; reflexivity).
  assert (Er : rest s' = (clock (rest s)).2) by (rewrite E; reflexivity).
  assert (Ec : calls s' = c) by (rewrite E; reflexivity).
  split; [unfold timed; rewrite Et, Ep, Er, Ec; exact E|].
  split; [exact Er|]. split; [exact Ep|]. split; [by rewrite Et|]. split; [by rewrite Et|].
  rewrite unset_us by (by rewrite Et). rewrite Et, Hus. apply Z.eqb_neq. lia.
Qed.

(** The time that is left, none if it is less than 15 ms. *)
Lemma get_timeout_spec s : timer_unset s = false -> tv_ok (timer s) ->
  exists left', dtls1_get_timeout s = (Some left', s <| rest := (clock (rest s)).2 |>) /\ tv_ok left' /\
    us left' = let n := us (timer s) - us (clock (rest s)).1 in if n <? 15000 then 0 else n.
Proof using Clock0.
  intros Hset [Hn1 Hn2]. unfold dtls1_get_timeout. rewrite Hset, clock_read. cbn zeta.
  destruct (clock_ok (rest s)) as [[H1 H2] _]. set (now := (clock (rest s)).1) in *.
  change (next_timeout (d1 (conf (s <| rest := (clock (rest s)).2 |>)))) with (timer s).
  set (t := timer s) in *. clearbody t now. clear Hset. unfold us, tv_ok.
  destruct (Z.ltb_spec (tv_sec t) (tv_sec now)) as [Hlt|Hge]; cbn [orb].
  { eexists. split; [reflexivity|]. cbn. destruct (Z.ltb_spec (tv_sec t * 1000000 + tv_usec t - (tv_sec now * 1000000 + tv_usec now)) 15000); lia. }
  destruct (Z.eqb_spec (tv_sec t) (tv_sec now)) as [Heq|Hne]; cbn [andb].
  - destruct (Z.leb_spec (tv_usec t) (tv_usec now)).
    + eexists. split; [reflexivity|]. cbn. destruct (Z.ltb_spec (tv_sec t * 1000000 + tv_usec t - (tv_sec now * 1000000 + tv_usec now)) 15000); lia.
    + eexists. split; [reflexivity|]. cbn.
      repeat match goal with |- context [?a <? ?b] => destruct (Z.ltb_spec a b); cbn end;
        repeat match goal with |- context [?a =? ?b] => destruct (Z.eqb_spec a b); cbn end; try lia.
  - eexists. split; [reflexivity|]. cbn. 
      repeat match goal with |- context [?a <? ?b] => destruct (Z.ltb_spec a b); cbn end;
        repeat match goal with |- context [?a =? ?b] => destruct (Z.eqb_spec a b); cbn end; try lia.
Qed.

Lemma is_timer_expired_spec s : timer_unset s = false -> tv_ok (timer s) ->
  dtls1_is_timer_expired s
  = (us (timer s) <? us (clock (rest s)).1 + 15000, s <| rest := (clock (rest s)).2 |>).
Proof using Clock0.
  intros Hset Hok. destruct (get_timeout_spec s Hset Hok) as (l & E & [H1 H2] & Hus).
  unfold dtls1_is_timer_expired. rewrite E. f_equal. unfold us in *.
  destruct (Z.ltb_spec (tv_sec (timer s) * 1000000 + tv_usec (timer s) - (tv_sec (clock (rest s)).1 * 1000000 + tv_usec (clock (rest s)).1)) 15000);
    destruct (Z.ltb_spec 0 (tv_sec l)), (Z.ltb_spec 0 (tv_usec l)); cbn [orb negb]; symmetry;
    first [apply Z.ltb_lt; lia|apply Z.ltb_ge; lia].
Qed.

(** The period is doubled, up to a minute. *)
Lemma double_timeout_spec s : timer_unset s = false -> 0 <= period s <= 60000000 ->
  let s' := dtls1_double_timeout s in
  timed s s' /\ rest s' = (clock (rest s)).2 /\ period s' = Z.min 60000000 (2 * period s) /\
  tv_ok (timer s') /\ us (timer s') = us (clock (rest s)).1 + Z.min 60000000 (2 * period s) /\
  timer_unset s' = false.
Proof using Clock0.
  intros Hset Hd. cbn zeta. unfold dtls1_double_timeout. fold (period s).
  assert (E : (let d := u32 (period s * 2) in if 60000000 <? d then 60000000 else d) = Z.min 60000000 (2 * period s)).
  { cbn zeta. unfold u32. rewrite Z.mod_small by lia. destruct (Z.ltb_spec 60000000 (period s * 2)); lia. }
  cbn zeta in E. rewrite E. clear E. set (d' := Z.min 60000000 (2 * period s)). set (x := upd_d1 _ s).
  assert (Ex : next_period x = d') by (unfold next_period; change (timer_unset x) with (timer_unset s); by rewrite Hset).
  assert (Hx : timed s x).
  { unfold timed, x. clear. generalize d'. intros d. destruct s. match goal with c : tls_CONF |- _ => destruct c end.
    match goal with d : DTLS1_STATE |- _ => destruct d end. reflexivity. }
  destruct (start_timer_spec x) as (Ht & Hr & Hp & Hok & Hus & Hset'); [rewrite Ex; unfold d'; lia|].
  rewrite Ex in Hp, Hus. change (rest x) with (rest s) in Hr, Hus.
  split; [by eapply timed_trans|]. by repeat (split; [done|]).
Qed.

(** ** Counting the timeouts *)

(** The MTU after another timeout. *)
Definition reduced_mtu (s : tls) : Z :=
  if (2 <? num_alerts (timeout (d1 (conf s))) + 1) && negb (has_bits (options s) tls_OP_NO_QUERY_MTU)
  then Z.min (mtu (d1 (conf s))) (sz (BIO_dgram_get_fallback_mtu s)) else mtu (d1 (conf s)).

Definition counted (s : tls) : tls :=
  upd_d1 (fun d => d <| timeout ::= fun t => t <| num_alerts ::= fun n => n + 1 |> |> <| mtu := reduced_mtu s |>) s.

Lemma check_timeout_spec s : 0 <= num_alerts (timeout (d1 (conf s))) < 2 ^ 32 - 1 ->
  dtls1_check_timeout_num s
  = if DTLS1_TMO_ALERT_COUNT <? num_alerts (timeout (d1 (conf s))) + 1
    then (-1, tlsfatal (counted s) tls_AD_NO_ALERT) else (0, counted s).
Proof using Clock0.
  intros Hn. unfold dtls1_check_timeout_num, counted, reduced_mtu.
  match goal with |- context [BIO_dgram_get_fallback_mtu (upd_d1 ?f s)] =>
    rewrite (clock_fallback (upd_d1 f s) s) end.
  destruct s. match goal with c : tls_CONF |- _ => destruct c end.
  match goal with d : DTLS1_STATE |- _ => destruct d end. match goal with d : dtls1_timeout |- _ => destruct d end.
  unfold upd_d1, update. cbn in *. unfold u32. rewrite Z.mod_small by lia.
  set (f := sz _). set (b := (2 <? _) && _). destruct b; [|reflexivity].
  match goal with |- context [f <? ?m] => destruct (Z.ltb_spec f m) end; cbn.
  - rewrite Z.min_r by lia. reflexivity.
  - rewrite Z.min_l by lia. reflexivity.
Qed.

(** What a timeout changes before the flight is sent again. *)
Definition ticked (s s' : tls) : Prop :=
  s' = upd_d1 (fun d => d <| next_timeout := timer s' |> <| timeout_duration_us := period s' |>
                          <| timeout := timeout (d1 (conf s')) |> <| mtu := mtu (d1 (conf s')) |>)
         (s <| calls := calls s' |> <| rest := rest s' |>).

Lemma ticked_flight `{!DatagramWriter sent hashed} message size s s' : ticked s s' ->
  flight_ready message size (upd_d1 (fun d => d <| mtu := mtu (d1 (conf s')) |>) s) -> flight_ready message size s'.
Proof.
  intros E ((H1 & H2 & H3 & H4 & H5) & Hsize & Hq & Hall).
  set (x := upd_d1 _ s) in *.
  assert (E1 : init_off s' = init_off x) by (rewrite E; reflexivity).
  assert (E2 : link_mtu (d1 (conf s')) = link_mtu (d1 (conf x))) by (rewrite E; reflexivity).
  assert (E3 : max_send_fragment (conf s') = max_send_fragment (conf x)) by (rewrite E; reflexivity).
  assert (E4 : retransmitting (d1 (conf s')) = retransmitting (d1 (conf x))) by (rewrite E; reflexivity).
  assert (E5 : sent_messages (d1 (conf s')) = sent_messages (d1 (conf x))) by (rewrite E; reflexivity).
  assert (E6 : buf_size s' = buf_size x) by (rewrite E; reflexivity).
  assert (E7 : mtu (d1 (conf x)) = mtu (d1 (conf s'))) by reflexivity.
  unfold flight_ready, idle. rewrite E1, E2, E3, E4, E5, E6, <- E7, (min_mtu_same sent hashed s' x).
  exact (conj (conj H1 (conj H2 (conj H3 (conj H4 H5)))) (conj Hsize (conj Hq Hall))).
Qed.

(** The steps of [dtls1_handle_timeout] before the retransmission. *)
Definition timeouts_counted (s : tls) : tls :=
  let s := upd_d1 (fun d => d <| timeout ::= fun t => t <| read_timeouts ::= fun n => u32 (n + 1) |> |>) s in
  if DTLS1_TMO_READ_COUNT <? read_timeouts (timeout (d1 (conf s)))
  then upd_d1 (fun d => d <| timeout ::= fun t => t <| read_timeouts := 1 |> |>) s else s.

Lemma handle_timeout_eq s : timer_unset s = false -> tv_ok (timer s) -> timer_cb (d1 (conf s)) = false ->
  0 <= num_alerts (timeout (d1 (conf s))) < 2 ^ 32 - 1 -> 0 <= period s <= 60000000 ->
  let s0 := s <| rest := (clock (rest s)).2 |> in let s1 := dtls1_double_timeout s0 in
  dtls1_handle_timeout s
  = if us (timer s) <? us (clock (rest s)).1 + 15000 then
      if DTLS1_TMO_ALERT_COUNT <? num_alerts (timeout (d1 (conf s))) + 1
      then Ret (-1, tlsfatal (counted s1) tls_AD_NO_ALERT)
      else dtls1_retransmit_buffered_messages (dtls1_start_timer (timeouts_counted (counted s1)))
    else Ret (0, s0).
Proof using Clock0.
  intros Hset Hok Hcb Hn Hp. cbn zeta. unfold dtls1_handle_timeout. rewrite is_timer_expired_spec by done.
  destruct (_ <? _); [|reflexivity]. cbn [negb].
  set (s0 := s <| rest := (clock (rest s)).2 |>). change (timer_cb (d1 (conf s0))) with (timer_cb (d1 (conf s))).
  rewrite Hcb. destruct (double_timeout_spec s0) as (Ht & _); [exact Hset|exact Hp|].
  generalize dependent (dtls1_double_timeout s0). intros s1 Ht.
  assert (En : num_alerts (timeout (d1 (conf s1))) = num_alerts (timeout (d1 (conf s)))) by (rewrite Ht; reflexivity).
  rewrite check_timeout_spec by (by rewrite En). rewrite En. by destruct (_ <? _).
Qed.

Lemma counted_ticked s s1 : timed s s1 -> ticked s (dtls1_start_timer (timeouts_counted (counted s1))).
Proof using Clock0.
  intros Ht. destruct (start_timer_eq (timeouts_counted (counted s1))) as (c & ->).
  assert (Hc : exists t, timeouts_counted (counted s1) = upd_d1 (fun d => d <| timeout := t |> <| mtu := reduced_mtu s1 |>) s1).
  { unfold timeouts_counted. destruct (_ <? _); eexists; reflexivity. }
  destruct Hc as (tm & ->). unfold ticked. set (p := next_period _). set (k := clock _). clearbody p k.
  rewrite Ht. clear. generalize (timer s1) (period s1) (calls s1) (rest s1) (reduced_mtu s1). intros.
  destruct s. match goal with c : tls_CONF |- _ => destruct c end.
  match goal with d : DTLS1_STATE |- _ => destruct d end. reflexivity.
Qed.

(** How it is after the timeout, before the retransmission. *)
Lemma after_timeout s : timer_unset s = false -> 0 <= period s <= 60000000 ->
  let s0 := s <| rest := (clock (rest s)).2 |> in
  let s' := dtls1_start_timer (timeouts_counted (counted (dtls1_double_timeout s0))) in
  ticked s s' /\ mtu (d1 (conf s')) = reduced_mtu s /\
  num_alerts (timeout (d1 (conf s'))) = num_alerts (timeout (d1 (conf s))) + 1 /\
  period s' = Z.min 60000000 (2 * period s) /\ tv_ok (timer s') /\
  (exists r, us (timer s') = us (clock r).1 + period s' /\ rest s' = (clock r).2) /\
  sent (rest s') = sent (rest s) /\ hashed (rest s') = hashed (rest s).
Proof using Clock0.
  intros Hset Hp. cbn zeta. set (s0 := s <| rest := (clock (rest s)).2 |>).
  destruct (double_timeout_spec s0 Hset Hp) as (Ht & Hr & Hp1 & _ & _ & Hset1).
  assert (Hticked : ticked s (dtls1_start_timer (timeouts_counted (counted (dtls1_double_timeout s0))))).
  { pose proof (counted_ticked s0 _ Ht) as Hc. unfold ticked in *. etransitivity; [exact Hc|]. reflexivity. }
  generalize dependent (dtls1_double_timeout s0). intros s1 Ht Hr Hp1 Hset1 Hticked.
  assert (En : num_alerts (timeout (d1 (conf s1))) = num_alerts (timeout (d1 (conf s)))) by (rewrite Ht; reflexivity).
  assert (Em : reduced_mtu s1 = reduced_mtu s).
  { unfold reduced_mtu. rewrite En, (clock_fallback s1 s). assert (Eo : options s1 = options s) by (rewrite Ht; reflexivity).
    assert (Em : mtu (d1 (conf s1)) = mtu (d1 (conf s))) by (rewrite Ht; reflexivity). by rewrite Eo, Em. }
  assert (Hc : exists t, timeouts_counted (counted s1) = upd_d1 (fun d => d <| timeout := t |> <| mtu := reduced_mtu s1 |>) s1
                 /\ num_alerts t = num_alerts (timeout (d1 (conf s1))) + 1).
  { unfold timeouts_counted. destruct (_ <? _); eexists; split; reflexivity. }
  destruct Hc as (tm & Hc & Etm). set (s2 := timeouts_counted (counted s1)) in *.
  assert (Ep : next_period s2 = period s1).
  { unfold next_period. rewrite Hc. change (timer_unset (upd_d1 _ s1)) with (timer_unset s1). by rewrite Hset1. }
  destruct (start_timer_eq s2) as (c & E).
  destruct (start_timer_spec s2) as (_ & Hr3 & Hp3 & Hok3 & Hus3 & _).
  { rewrite Ep, Hp1. change (period s0) with (period s). lia. }
  generalize dependent (dtls1_start_timer s2). intros s3 Hticked E Hr3 Hp3 Hok3 Hus3.
  assert (E2 : rest s2 = rest s1) by (rewrite Hc; reflexivity).
  split; [exact Hticked|]. split; [rewrite E, Hc; exact Em|]. split; [rewrite E, Hc; cbn; by rewrite Etm, En|].
  split; [by rewrite Hp3, Ep, Hp1|]. split; [exact Hok3|]. split; [exists (rest s2); by rewrite Hus3, Hp3, Hr3|].
  rewrite Hr3, E2, Hr. destruct (clock_keeps (clock (rest s0)).2) as [-> ->].
  destruct (clock_keeps (rest s0)) as [-> ->]. change (rest s0) with (clock (rest s)).2. apply clock_keeps.
Qed.

(** The thirteenth timeout. *)
Lemma counted_out s : timer_unset s = false -> 0 <= period s <= 60000000 ->
  let s' := tlsfatal (counted (dtls1_double_timeout s)) tls_AD_NO_ALERT in
  sent (rest s') = sent (rest s) /\ hashed (rest s') = hashed (rest s) /\ otls_statem_in_error s' = true.
Proof using Clock0.
  intros Hset Hp. destruct (double_timeout_spec s Hset Hp) as (_ & Hr & _). cbn zeta.
  generalize dependent (dtls1_double_timeout s). intros s1 Hr.
  assert (E : rest (tlsfatal (counted s1) tls_AD_NO_ALERT) = rest s1 /\ otls_statem_in_error (tlsfatal (counted s1) tls_AD_NO_ALERT) = true).
  { unfold tlsfatal, otls_statem_fatal. destruct (_ && _) eqn:Eb; [|by split].
    apply andb_prop in Eb as [_ Eb]. by split. }
  destruct E as [-> ->]. rewrite Hr. destruct (clock_keeps (rest s)) as [-> ->]. done.
Qed.

Lemma rewrote_timer s s' : rewrote s s' -> timer s' = timer s /\ period s' = period s /\
  timeout (d1 (conf s')) = timeout (d1 (conf s)).
Proof. intros [E _]. unfold timer, period. by rewrite E. Qed.

End Timing.

(** ** Properties *)

(** The timer runs for its period: when it is started it is set to the time of the
    start and the period, [dtls1_get_timeout] gives what is left of that when it is
    asked, or nothing if that is less than 15 ms, and only then has it expired; and
    doubling the period again and again takes it to a minute. *)
Theorem dtls_timer_correct `{Callouts} sent hashed clock `{!Clock sent hashed clock} s :
  0 <= next_period s < 2 ^ 32 ->
  let s1 := dtls1_start_timer s in
  let left := us (clock (rest s)).1 + next_period s - us (clock (rest s1)).1 in
  (exists t s2, dtls1_get_timeout s1 = (Some t, s2) /\ us t = if left <? 15000 then 0 else left) /\
  (dtls1_is_timer_expired s1).1 = (left <? 15000) /\
  (next_period s <= 60000000 ->
   forall n, period (Nat.iter n dtls1_double_timeout s1) = Z.min 60000000 (2 ^ Z.of_nat n * next_period s)).
Proof.
  intros Hp. cbn zeta. destruct (start_timer_spec sent hashed clock s Hp) as (_ & _ & Hp1 & Hok & Hus & Hset).
  split; [|split].
  - destruct (get_timeout_spec sent hashed clock _ Hset Hok) as (t & E & _ & Ht). rewrite Hus in Ht.
    exists t. eexists. split; [exact E|exact Ht].
  - rewrite (is_timer_expired_spec sent hashed clock _ Hset Hok), Hus. cbn [fst].
    destruct (Z.ltb_spec (us (clock (rest s)).1 + next_period s - us (clock (rest (dtls1_start_timer s))).1) 15000);
      [apply Z.ltb_lt|apply Z.ltb_ge]; lia.
  - intros Hle n. rewrite <- Hp1 in *. clear Hp1 Hus Hok. generalize dependent (dtls1_start_timer s). intros s1 Hset Hp1 Hle.
    assert (Hn : timer_unset (Nat.iter n dtls1_double_timeout s1) = false /\
              period (Nat.iter n dtls1_double_timeout s1) = Z.min 60000000 (2 ^ Z.of_nat n * period s1)); [|by destruct Hn].
    induction n as [|n [IHs IHp]]; [split; [done|]; cbn [Nat.iter nat_rect Z.of_nat]; lia|].
    cbn [Nat.iter nat_rect]. assert (Hpow : 0 < 2 ^ Z.of_nat n) by lia.
    destruct (double_timeout_spec sent hashed clock _ IHs) as (_ & _ & Hp' & _ & _ & Hset'); [rewrite IHp; nia|].
    split; [exact Hset'|]. rewrite Nat2Z.inj_succ, Z.pow_succ_r by lia.
    etransitivity; [exact Hp'|]. rewrite IHp. lia.
Qed.

(** C21: a timeout sends the flight again: when the timer has not run out,
    [dtls1_handle_timeout] does nothing; when it has, and the application has set no
    callback for the timer, the whole flight is sent again,
    with the timer restarted for twice the period, but a minute at most; after the
    twelfth time nothing is sent and the connection is in error. *)
Theorem dtls_timeout_handled `{Callouts} sent hashed `{!DatagramWriter sent hashed} clock `{!Clock sent hashed clock}
    message size s :
  timer_unset s = false -> tv_ok (timer s) -> 0 <= period s <= 60000000 -> timer_cb (d1 (conf s)) = false ->
  0 <= num_alerts (timeout (d1 (conf s))) <= 12 ->
  flight_ready message size (upd_d1 (fun d => d <| mtu := reduced_mtu s |>) s) ->
  exists r s', dtls1_handle_timeout s = Ret (r, s') /\ hashed (rest s') = hashed (rest s) /\
    if us (timer s) <? us (clock (rest s)).1 + 15000 then
      if num_alerts (timeout (d1 (conf s))) =? 12
      then r = -1 /\ sent (rest s') = sent (rest s) /\ otls_statem_in_error s' = true
      else r = 1 /\ num_alerts (timeout (d1 (conf s'))) = num_alerts (timeout (d1 (conf s))) + 1 /\
        period s' = Z.min 60000000 (2 * period s) /\ (exists rd, us (timer s') = us (clock rd).1 + period s') /\
        (exists recss, Forall2 (resent message) (items (sent_messages (d1 (conf s)))) recss /\
           sent (rest s') = sent (rest s) ++ concat recss) /\
        flight_ready message size s'
    else r = 0 /\ sent (rest s') = sent (rest s) /\ timer s' = timer s.
Proof.
  intros Hset Hok Hp Hcb Hn Hf.
  rewrite (handle_timeout_eq sent hashed clock s Hset Hok Hcb) by lia.
  destruct (clock_keeps (rest s)) as [Ks Kh].
  destruct (_ <? _ + 15000); [|by eexists 0, _].
  destruct (Z.eqb_spec (num_alerts (timeout (d1 (conf s)))) 12) as [E|E].
  - rewrite E. change (DTLS1_TMO_ALERT_COUNT <? 12 + 1) with true. cbv iota.
    set (s0 := s <| rest := (clock (rest s)).2 |>).
    destruct (counted_out sent hashed clock s0 Hset Hp) as (H1 & H2 & H3).
    change (rest s0) with (clock (rest s)).2 in H1, H2. rewrite Ks in H1. rewrite Kh in H2.
    eexists (-1), _. split; [reflexivity|]. split; [exact H2|]. split; [done|]. split; [exact H1|exact H3].
  - unfold DTLS1_TMO_ALERT_COUNT. destruct (Z.ltb_spec 12 (num_alerts (timeout (d1 (conf s))) + 1)) as [|_]; [lia|].
    destruct (after_timeout sent hashed clock s Hset Hp) as (Ht & Hm & Hn' & Hp' & _ & (rd & Hus & _) & Hsent & Hh).
    set (s1 := dtls1_start_timer _) in *. clearbody s1. rewrite <- Hm in Hf.
    assert (Hf1 : flight_ready message size s1) by (eapply ticked_flight; done).
    destruct (flight_resent sent hashed message size s1 Hf1) as (s2 & recss & Hrun & Hrw & Hres & Hsent2 & Hh2 & Hf2).
    destruct (rewrote_timer _ _ Hrw) as (E1 & E2 & E3).
    assert (Eq : sent_messages (d1 (conf s1)) = sent_messages (d1 (conf s))) by (rewrite Ht; reflexivity).
    exists 1, s2. split; [exact Hrun|]. split; [congruence|]. split; [done|]. rewrite E1, E2, E3.
    split; [exact Hn'|]. split; [exact Hp'|]. split; [by exists rd|]. split; [|exact Hf2].
    exists recss. rewrite <- Eq. split; [exact Hres|congruence].
Qed.

(** ** Witnesses *)

#[local] Existing Instance postman.
#[local] Existing Instance postman_writes.

(** [postman]'s clock stands at 1000 seconds. *)
Definition noon (r : list Z) : timeval * list Z := (mk_timeval 1000 0, r).

#[local] Instance noon_clock : Clock posted hashed_part noon.
Proof.
  split; [|done|done|done]. intros s. change (get_current_time s) with (mk_timeval 1000 0, s). cbn [noon fst snd]. by rewrite rest_same.
Qed.

Lemma dtls_timer_correct_witness :
  let s1 := dtls1_start_timer waiting_server in
  us (timer s1) = 1001000000 /\ (dtls1_is_timer_expired s1).1 = false /\
  period (Nat.iter 7 dtls1_double_timeout s1) = 60000000.
Proof.
  assert (Hp : 0 <= next_period waiting_server < 2 ^ 32) by (vm_compute; split; [discriminate|reflexivity]).
  destruct (dtls_timer_correct posted hashed_part noon waiting_server Hp) as (_ & He & Hn).
  split; [vm_compute; reflexivity|]. split; [exact He|]. apply (Hn ltac:(vm_compute; discriminate) 7%nat).
Defined.

(** A server whose flight was not answered for a second, four times. *)
Definition timed_out_server : tls :=
  upd_d1 (fun d => d <| next_timeout := mk_timeval 999 500000 |> <| timeout_duration_us := 1000000 |>
                     <| mtu := 508 |> <| timeout := mk_dtls1_timeout 1 0 4 |>) waiting_server.

Lemma timed_out_server_flight :
  flight_ready certificates 312 (upd_d1 (fun d => d <| mtu := reduced_mtu timed_out_server |>) timed_out_server).
Proof.
  destruct waiting_server_flight as (_ & Hsize & Hq & _).
  split; [vm_compute; repeat split; discriminate|]. split; [exact Hsize|]. split; [exact Hq|].
  constructor; [|constructor; [|constructor]].
  - apply (sendable_message _ _ _ 4 _ _ (session sending_server)); try reflexivity;
      vm_compute; repeat split; discriminate.
  - apply (sendable_ccs _ _ _ 5 _ 1 (session sending_server)); try reflexivity;
      vm_compute; repeat split; discriminate.
Qed.

Lemma dtls_timeout_handled_witness :
  exists s', dtls1_handle_timeout timed_out_server = Ret (1, s') /\ period s' = 2000000 /\
    us (timer s') = 1002000000 /\ num_alerts (timeout (d1 (conf s'))) = 5.
Proof.
  destruct (dtls_timeout_handled posted hashed_part noon certificates 312 timed_out_server)
    as (r & s' & Hrun & _ & Hout).
  - reflexivity.
  - vm_compute. repeat split; discriminate.
  - vm_compute. split; discriminate.
  - reflexivity.
  - vm_compute. split; discriminate.
  - exact timed_out_server_flight.
  - change (_ <? _) with true in Hout. change (_ =? 12) with false in Hout. cbv iota in Hout.
    destruct Hout as (-> & Hn & Hp & (rd & Hus) & _). exists s'. split; [exact Hrun|].
    split; [exact Hp|]. rewrite Hp in Hus. split; [exact Hus|exact Hn].
Defined.
