(* ===== verification/Bitmap.v ===== *)
(** * DTLS replay protection, [src/ssl/record/dtls1_bitmap.c]

    A window of the sequence numbers received lately: a bit map whose bit [i]
    stands for the [i]-th number below the highest one.  The abstract state is the
    set of all sequence numbers received. *)

From stdpp Require Import gmap.

From S2P Require Import Prelude.

(** ** Data *)

Definition SEQ_NUM_SIZE : Z := 8.

(** [map] is [bm_map]. *)
Record DTLS1_BITMAP : Type := mk_DTLS1_BITMAP {
  bm_map : Z;
  max_seq_num : list Z;
}.

(** What the functions use of the record layer: the sequence number of the record
    being read, and that stored in the record. *)
Record RECORD_LAYER_seq : Type := mk_RECORD_LAYER_seq {
  read_sequence : list Z;
  rrec_seq_num : list Z;
}.

(** ** Operations *)

(** The macro [n2l8]; undefined behaviour on less than 8 bytes. *)
Definition n2l8 (c : list Z) : option Z :=
  match c with
  | a :: b :: d :: e :: f :: g :: h :: i :: _ =>
      Some (Z.lor (Z.lor (Z.lor (Z.lor (Z.lor (Z.lor (Z.lor
              (u64 (Z.shiftl a 56)) (u64 (Z.shiftl b 48))) (u64 (Z.shiftl d 40)))
              (u64 (Z.shiftl e 32))) (u64 (Z.shiftl f 24))) (u64 (Z.shiftl g 16)))
              (u64 (Z.shiftl h 8))) i)
  | _ => None
  end.

Definition satsub64be (v1 v2 : list Z) : option Z :=
  l1 ← n2l8 v1;
  l2 ← n2l8 v2;
  let ret := s64 (u64 (l1 - l2)) in
  Some (if (l2 <? l1) && (ret <? 0) then 128
        else if (l1 <? l2) && (0 <? ret) then -128
        else if 128 <? ret then 128
        else if ret <? -128 then -128
        else ret).

Definition tls3_RECORD_set_seq_num (r : RECORD_LAYER_seq) (seq_num : list Z) : RECORD_LAYER_seq :=
  mk_RECORD_LAYER_seq (read_sequence r) (take (Z.to_nat SEQ_NUM_SIZE) seq_num).

Section Window.

(** [sizeof(bitmap->map) * 8]: 64, or 32 where [long] is that wide. *)
Variable map_bits : Z.

Definition ulong (x : Z) : Z := x `mod` 2 ^ map_bits.

Definition dtls1_record_replay_check (s : RECORD_LAYER_seq) (bitmap : DTLS1_BITMAP)
  : option (Z * RECORD_LAYER_seq) :=
  let seq := read_sequence s in
  cmp ← satsub64be seq (max_seq_num bitmap);
  if 0 <? cmp then Some (1, tls3_RECORD_set_seq_num s seq)
  else
    let shift := u32 (- cmp) in
    if map_bits <=? shift then Some (0, s)
    else if truth (Z.land (bm_map bitmap) (ulong (Z.shiftl 1 shift))) then Some (0, s)
    else Some (1, tls3_RECORD_set_seq_num s seq).

Definition dtls1_record_bitmap_update (s : RECORD_LAYER_seq) (bitmap : DTLS1_BITMAP)
  : option DTLS1_BITMAP :=
  let seq := read_sequence s in
  cmp ← satsub64be seq (max_seq_num bitmap);
  if 0 <? cmp then
    let shift := u32 cmp in
    Some (mk_DTLS1_BITMAP
            (if shift <? map_bits then Z.lor (ulong (Z.shiftl (bm_map bitmap) shift)) 1 else 1)
            (take (Z.to_nat SEQ_NUM_SIZE) seq))
  else
    let shift := u32 (- cmp) in
    Some (if shift <? map_bits
          then mk_DTLS1_BITMAP (Z.lor (bm_map bitmap) (ulong (Z.shiftl 1 shift)))
                 (max_seq_num bitmap)
          else bitmap).

(** ** Specification *)

Definition seq_ok (l : list Z) : Prop := bytes_ok l /\ zlen l = SEQ_NUM_SIZE.

(** The bitmap represents the set [seen] of sequence numbers. *)
Definition represents (b : DTLS1_BITMAP) (seen : gset Z) : Prop :=
  let top := be_val (max_seq_num b) in
  seq_ok (max_seq_num b) /\ 0 <= bm_map b < 2 ^ map_bits /\
  (forall i, 0 <= i < map_bits -> Z.testbit (bm_map b) i = bool_decide (top - i ∈ seen)) /\
  (forall v, v ∈ seen -> 0 <= v <= top).

Definition empty_bitmap : DTLS1_BITMAP := mk_DTLS1_BITMAP 0 (replicate 8 0).

(** Is number [v] to be delivered?  It is new, and not below the window. *)
Definition fresh (b : DTLS1_BITMAP) (seen : gset Z) (v : Z) : bool :=
  bool_decide ((v ∉ seen) /\ be_val (max_seq_num b) - v < map_bits).

(** ** Lemmas *)

Lemma n2l8_be_val l : seq_ok l -> n2l8 l = Some (be_val l) /\ 0 <= be_val l < 2 ^ 64.
Proof.
  intros [Hb Hz]. pose proof (be_val_bound l Hb) as Hv. rewrite Hz in Hv. split; [|exact Hv].
  unfold zlen, SEQ_NUM_SIZE in Hz.
  do 8 (destruct l as [|? l]; [done|]). destruct l; [|simpl in Hz; lia].
  repeat (apply Forall_cons_1 in Hb as [? Hb]). unfold n2l8. f_equal.
  rewrite !u64_shl_byte by (done || lia). unfold byte_ok in *.
  rewrite (lor_add (z * 2 ^ 56) (z) (z0 * 2 ^ 48) 56) by lia.
  rewrite (lor_add _ (z * 2 ^ 8 + z0) (z1 * 2 ^ 40) 48) by lia.
  rewrite (lor_add _ (z * 2 ^ 16 + z0 * 2 ^ 8 + z1) (z2 * 2 ^ 32) 40) by lia.
  rewrite (lor_add _ (z * 2 ^ 24 + z0 * 2 ^ 16 + z1 * 2 ^ 8 + z2) (z3 * 2 ^ 24) 32) by lia.
  rewrite (lor_add _ (z * 2 ^ 32 + z0 * 2 ^ 24 + z1 * 2 ^ 16 + z2 * 2 ^ 8 + z3) (z4 * 2 ^ 16) 24) by lia.
  rewrite (lor_add _ (z * 2 ^ 40 + z0 * 2 ^ 32 + z1 * 2 ^ 24 + z2 * 2 ^ 16 + z3 * 2 ^ 8 + z4) (z5 * 2 ^ 8) 16) by lia.
  rewrite (lor_add _ (z * 2 ^ 48 + z0 * 2 ^ 40 + z1 * 2 ^ 32 + z2 * 2 ^ 24 + z3 * 2 ^ 16 + z4 * 2 ^ 8 + z5) z6 8) by lia.
  unfold be_val. simpl. lia.
Qed.

(** The subtraction saturates. *)
Lemma satsub64be_spec v1 v2 :
  seq_ok v1 -> seq_ok v2 ->
  satsub64be v1 v2 = Some (Z.max (-128) (Z.min 128 (be_val v1 - be_val v2))).
Proof.
  intros H1 H2. unfold satsub64be. destruct (n2l8_be_val v1 H1) as [-> B1].
  destruct (n2l8_be_val v2 H2) as [-> B2]. cbn [mbind option_bind]. f_equal.
  set (a := be_val v1) in *. set (b := be_val v2) in *. clearbody a b.
  unfold s64.
  assert (Hu : u64 (u64 (a - b)) = if a <? b then a - b + 2 ^ 64 else a - b).
  { unfold u64. rewrite Z.mod_mod by lia. destruct (Z.ltb_spec a b).
    - rewrite <- (Z.mod_add _ 1) by lia. rewrite Z.mod_small by lia. lia.
    - rewrite Z.mod_small by lia. lia. }
  rewrite Hu. clear Hu. destruct (Z.ltb_spec a b), (Z.ltb_spec b a); try lia; cbn [andb].
  all: repeat match goal with
         | |- context [?x <? ?y] =>
             lazymatch constr:((x, y)) with
             | context [_ <? _] => fail
             | _ => destruct (Z.ltb_spec x y)
             end
         end; cbn [andb]; lia.
Qed.

Hypothesis map_bits_ok : 0 < map_bits <= 128.

Lemma testbit_one_shifted d i :
  0 <= d < map_bits -> 0 <= i -> Z.testbit (ulong (Z.shiftl 1 d)) i = (i =? d).
Proof using map_bits_ok.
  intros Hd Hi. unfold ulong. rewrite Z.shiftl_1_l, Z.mod_small.
  - rewrite Z.pow2_bits_eqb by lia. apply Z.eqb_sym.
  - split; [lia|]. apply Z.pow_lt_mono_r; lia.
Qed.

Lemma land_bit m d :
  0 <= d < map_bits -> truth (Z.land m (ulong (Z.shiftl 1 d))) = Z.testbit m d.
Proof using map_bits_ok.
  intros Hd. unfold ulong. rewrite Z.shiftl_1_l, Z.mod_small
    by (split; [lia|apply Z.pow_lt_mono_r; lia]).
  apply has_bits_pow2. lia.
Qed.

Lemma represents_empty : represents empty_bitmap ∅.
Proof using map_bits_ok.
  unfold represents. cbn [empty_bitmap max_seq_num bm_map].
  split; [split; [repeat constructor; done|done]|]. split; [split; [lia|apply Z.pow_pos_nonneg; lia]|].
  split; [|set_solver]. intros i Hi. rewrite Z.bits_0. symmetry. apply bool_decide_eq_false. set_solver.
Qed.

Lemma u32_of_cmp c : 0 <= c <= 128 -> u32 c = c.
Proof. intros. apply u32_small. lia. Qed.

Lemma replay_check_spec b seen s :
  represents b seen -> seq_ok (read_sequence s) ->
  dtls1_record_replay_check s b =
    Some (if fresh b seen (be_val (read_sequence s))
          then (1, mk_RECORD_LAYER_seq (read_sequence s) (read_sequence s)) else (0, s)).
Proof using map_bits_ok.
  intros (Hm & Hmap & Hbits & Hle) Hs. unfold dtls1_record_replay_check, fresh.
  rewrite satsub64be_spec by done. cbn [mbind option_bind].
  assert (Hset : tls3_RECORD_set_seq_num s (read_sequence s)
                 = mk_RECORD_LAYER_seq (read_sequence s) (read_sequence s)).
  { unfold tls3_RECORD_set_seq_num. f_equal. apply take_ge.
    destruct Hs as [_ Hz]. unfold zlen in Hz. lia. }
  rewrite Hset. set (v := be_val (read_sequence s)). set (top := be_val (max_seq_num b)) in *.
  set (c := Z.max (-128) (Z.min 128 (v - top))).
  destruct (Z.ltb_spec 0 c) as [Hc|Hc].
  { rewrite bool_decide_eq_true_2; [done|]. split; [|lia]. intros Hin%Hle. lia. }
  rewrite u32_of_cmp by lia. destruct (Z.leb_spec map_bits (- c)).
  { rewrite bool_decide_eq_false_2; [done|]. lia. }
  assert (- c = top - v) as -> by lia. rewrite land_bit by lia. rewrite Hbits by lia.
  replace (top - (top - v)) with v by lia.
  destruct (bool_decide (v ∈ seen)) eqn:E.
  - apply bool_decide_eq_true in E. rewrite bool_decide_eq_false_2 by tauto. done.
  - apply bool_decide_eq_false in E. rewrite bool_decide_eq_true_2 by (split; [done|lia]). done.
Qed.

Lemma ulong_bound x : 0 <= ulong x < 2 ^ map_bits.
Proof using map_bits_ok. apply Z.mod_pos_bound. lia. Qed.

Lemma lor_bound x y : 0 <= x < 2 ^ map_bits -> 0 <= y < 2 ^ map_bits -> 0 <= Z.lor x y < 2 ^ map_bits.
Proof using map_bits_ok.
  intros Hx Hy. assert (0 <= Z.lor x y) by (apply Z.lor_nonneg; lia). split; [done|].
  destruct (Z.eq_dec (Z.lor x y) 0) as [->|]; [lia|].
  apply Z.log2_lt_pow2; [lia|]. rewrite Z.log2_lor by lia.
  destruct (Z.eq_dec x 0) as [->|], (Z.eq_dec y 0) as [->|]; try lia;
    rewrite ?(Z.log2_nonpos 0) by lia; apply Z.max_lub_lt; try lia; apply Z.log2_lt_pow2; lia.
Qed.

(** Membership once a number is added, and above the highest number. *)
Lemma seen_added (seen : gset Z) v x :
  bool_decide (x ∈ ({[v]} ∪ seen : gset Z)) = (x =? v) || bool_decide (x ∈ seen).
Proof.
  apply eq_true_iff_eq. rewrite orb_true_iff, !bool_decide_eq_true, Z.eqb_eq.
  by rewrite elem_of_union, elem_of_singleton.
Qed.

Lemma seen_above (seen : gset Z) top x :
  (forall v, v ∈ seen -> 0 <= v <= top) -> top < x -> bool_decide (x ∈ seen) = false.
Proof. intros Hle Hx. apply bool_decide_eq_false. intros Hin%Hle. lia. Qed.

Lemma represents_added b seen m maxs v :
  (forall x, x ∈ seen -> 0 <= x <= be_val (max_seq_num b)) -> 0 <= v ->
  seq_ok maxs -> be_val maxs = Z.max v (be_val (max_seq_num b)) -> 0 <= m < 2 ^ map_bits ->
  (forall i, 0 <= i < map_bits ->
     Z.testbit m i = (be_val maxs - i =? v) || bool_decide (be_val maxs - i ∈ seen)) ->
  represents (mk_DTLS1_BITMAP m maxs) ({[v]} ∪ seen).
Proof.
  intros Hle Hv Hs Hmax Hm Hbits. unfold represents. cbn [max_seq_num bm_map].
  split; [done|]. split; [done|]. split.
  - intros i Hi. by rewrite seen_added, Hbits.
  - intros x [->%elem_of_singleton|Hx%Hle]%elem_of_union; lia.
Qed.

(** Bit [i] of the map after a shift by [d], for a number [d] above the highest. *)
Lemma shifted_bit b seen d i :
  represents b seen -> 0 < d -> 0 <= i < map_bits ->
  Z.testbit (Z.lor (ulong (Z.shiftl (bm_map b) d)) 1) i =
    (i =? 0) || bool_decide (be_val (max_seq_num b) + d - i ∈ seen).
Proof using map_bits_ok.
  intros (_ & _ & Hbits & Hle) Hd Hi. rewrite Z.lor_spec. unfold ulong.
  rewrite Z.mod_pow2_bits_low, Z.shiftl_spec by lia.
  change 1 with (2 ^ 0) at 1. rewrite Z.pow2_bits_eqb, (Z.eqb_sym 0 i), orb_comm by lia.
  destruct (i =? 0); [done|]. cbn [orb]. destruct (Z.lt_ge_cases i d).
  - rewrite Z.testbit_neg_r by lia. symmetry. eapply seen_above; [exact Hle|lia].
  - rewrite Hbits by lia.
    by replace (be_val (max_seq_num b) + d - i) with (be_val (max_seq_num b) - (i - d)) by lia.
Qed.

Lemma update_spec b seen s :
  represents b seen -> seq_ok (read_sequence s) ->
  exists b', dtls1_record_bitmap_update s b = Some b' /\
    represents b' ({[be_val (read_sequence s)]} ∪ seen).
Proof using map_bits_ok.
  intros Hr Hs. pose proof Hr as (Hm & Hmap & Hbits & Hle). unfold dtls1_record_bitmap_update.
  rewrite satsub64be_spec by done. cbn [mbind option_bind].
  rewrite (take_ge (read_sequence s)) by (destruct Hs as [_ Hz]; unfold zlen in Hz; lia).
  destruct (n2l8_be_val _ Hs) as [_ Hv].
  set (v := be_val (read_sequence s)) in *. set (top := be_val (max_seq_num b)) in *.
  assert (H1 : 0 <= 1 < 2 ^ map_bits) by (split; [lia|apply Z.pow_gt_1; lia]).
  set (c := Z.max (-128) (Z.min 128 (v - top))).
  destruct (Z.ltb_spec 0 c) as [Hc|Hc]; rewrite u32_of_cmp by lia.
  - eexists. split; [done|]. apply (represents_added b); [done|lia|done|fold top v; lia| |]; fold v.
    + destruct (Z.ltb_spec c map_bits); [apply lor_bound; [apply ulong_bound|done]|done].
    + intros i Hi. replace (v - i =? v) with (i =? 0) by (destruct (Z.eqb_spec i 0), (Z.eqb_spec (v - i) v); lia).
      destruct (Z.ltb_spec c map_bits) as [Hw|Hw].
      * replace c with (v - top) by lia. rewrite (shifted_bit b seen) by (done || lia).
        fold top. by replace (top + (v - top) - i) with (v - i) by lia.
      * change 1 with (2 ^ 0). rewrite Z.pow2_bits_eqb, (Z.eqb_sym 0 i) by lia.
        destruct (Z.eqb_spec i 0); [done|]. symmetry. eapply seen_above; [exact Hle|lia].
  - eexists. split; [done|]. destruct b as [m maxs]. cbn [bm_map max_seq_num] in *. fold top in Hle.
    destruct (Z.ltb_spec (- c) map_bits) as [Hw|Hw];
      (apply (represents_added (mk_DTLS1_BITMAP m maxs)); cbn [max_seq_num]; fold top;
        [done|lia|done|lia| |]).
    + by apply lor_bound; [|apply ulong_bound].
    + intros i Hi. rewrite Z.lor_spec, testbit_one_shifted, Hbits, orb_comm by lia. f_equal.
      destruct (Z.eqb_spec i (- c)), (Z.eqb_spec (top - i) v); lia.
    + done.
    + intros i Hi. rewrite Hbits by lia. destruct (Z.eqb_spec (top - i) v); [lia|done].
Qed.

End Window.

(** ** Properties *)

(** C24: the replay window implements the set of sequence numbers received: from a
    bitmap that represents [seen], the check passes exactly for a number that was not
    received and is not below the window, whatever its distance (the subtraction
    saturates instead of wrapping around), and the update represents [seen] with the
    number added; both only read the eight bytes of the number. *)
Theorem dtls1_bitmap_refines map_bits b seen s :
  0 < map_bits <= 128 -> represents map_bits b seen -> seq_ok (read_sequence s) ->
  let v := be_val (read_sequence s) in
  (exists s', dtls1_record_replay_check map_bits s b = Some (if fresh map_bits b seen v then 1 else 0, s') /\
     rrec_seq_num s' = if fresh map_bits b seen v then read_sequence s else rrec_seq_num s) /\
  exists b', dtls1_record_bitmap_update map_bits s b = Some b' /\
    represents map_bits b' ({[v]} ∪ seen).
Proof.
  intros Hw Hr Hs v. split; [|by apply update_spec].
  rewrite (replay_check_spec map_bits Hw b seen) by done. fold v.
  destruct (fresh map_bits b seen v); eexists; split; reflexivity.
Qed.

(** ** Witnesses *)

(** A window whose highest number is 5, in which 3 is missing. *)
Definition window5 : DTLS1_BITMAP := mk_DTLS1_BITMAP 59 [0; 0; 0; 0; 0; 0; 0; 5].
Definition seq_of (n : Z) : list Z := be_bytes 8 n.

Lemma dtls1_bitmap_refines_witness :
  exists s', dtls1_record_replay_check 64 (mk_RECORD_LAYER_seq (seq_of 3) []) window5 = Some (1, s').
Proof.
  destruct (dtls1_bitmap_refines 64 window5 (list_to_set [0; 1; 2; 4; 5])
    (mk_RECORD_LAYER_seq (seq_of 3) [])) as [(s' & Hc & _) _].
  - lia.
  - unfold represents. split; [split; [repeat constructor; done|done]|]. split; [done|]. split.
    + intros i Hi. change (be_val (max_seq_num window5)) with 5.
      destruct (Z.ltb_spec i 6) as [Hl|Hl].
      * assert (i = 0 \/ i = 1 \/ i = 2 \/ i = 3 \/ i = 4 \/ i = 5)
          as [-> | [-> | [-> | [-> | [-> | ->]]]]] by lia; reflexivity.
      * rewrite Z.bits_above_log2 by (simpl; lia). symmetry. apply bool_decide_eq_false.
        rewrite elem_of_list_to_set. rewrite list_elem_of_In. simpl. lia.
    + intros v. rewrite elem_of_list_to_set. change (be_val (max_seq_num window5)) with 5.
      rewrite list_elem_of_In. simpl. lia.
  - split; [repeat constructor; done|done].
  - exists s'. exact Hc.
Defined.
