(* ===== verification/DtlsRecord.v ===== *)
(** * Reading DTLS records

    [dtls1_get_record] and [dtls1_process_record] of [src/ssl/record/ssl3_record.c], the
    queues of buffered records and the epochs of [src/ssl/record/rec_layer_d1.c],
    [tls3_read_n] of [src/ssl/record/rec_layer_s3.c] as DTLS uses it.  What a
    cipher and a MAC do is an interface. *)

From stdpp Require Import gmap.

From S2P Require Import Prelude Mem PQueue TlsState StatemLib Dtls DtlsWrite Extensions Record Bitmap.

Local Open Scope Z_scope.
Local Open Scope tls_scope.

(** ** Data *)

Definition tls_ST_READ_HEADER : Z := 0xF0.
Definition tls_ST_READ_BODY : Z := 0xF1.
Definition tls3_RT_HEADER_LENGTH : Z := 5.
Definition tls3_RT_ALERT : Z := 21.
Definition tls3_RT_HEADER : Z := 0x100.
Definition tls_AD_BAD_RECORD_MAC : Z := 20.
Definition tls_AD_RECORD_OVERFLOW : Z := 22.
Definition tls_AD_DECOMPRESSION_FAILURE : Z := 30.
Definition TLS1_FLAGS_ENCRYPT_THEN_MAC_READ : Z := 0x0100.
Definition MAX_BUFFERED_RECORDS : Z := 100.
Definition sizeof_DTLS1_RECORD_DATA : Z := 176.

(** [tls3_BUFFER] for reading: whether there is a block, and the bytes that are left
    unread. *)
Record tls3_BUFFER := mk_tls3_BUFFER {
  rb_buf : bool;
  rb_default_len : Z;
  rb_len : Z;
  rb_offset : Z;
  rb_left : list Z
}.
#[export] Instance eta_tls3_BUFFER : Eta tls3_BUFFER := fun r =>
  mk_tls3_BUFFER (rb_buf r) (rb_default_len r) (rb_len r) (rb_offset r) (rb_left r).

(** [tls3_RECORD]: [rr_body] holds [length], [orig_len], [data] and [input], the latter
    offsets in the block [rr_block].  A packet is decrypted in place, but its bytes
    after the header are not looked at through [packet] again, so the block
    is a copy of it. *)
Record DTLS_RECORD := mk_DTLS_RECORD {
  rr_type : Z;
  rr_epoch : Z;
  rr_read : bool;
  rr_off : Z;
  rr_seq_num : list Z;
  rr_block : list Z;
  rr_body : tls3_RECORD
}.
#[export] Instance eta_DTLS_RECORD : Eta DTLS_RECORD := fun r =>
  mk_DTLS_RECORD (rr_type r) (rr_epoch r) (rr_read r) (rr_off r) (rr_seq_num r) (rr_block r)
    (rr_body r).

Definition set_length (n : Z) (rr : DTLS_RECORD) : DTLS_RECORD :=
  rr <| rr_body .: rec_length := n |>.

(** [DTLS1_RECORD_DATA] *)
Record DTLS1_RECORD_DATA := mk_DTLS1_RECORD_DATA {
  rd_packet : list Z;
  rd_packet_length : Z;
  rd_rbuf : tls3_BUFFER;
  rd_rrec : DTLS_RECORD
}.

(** [record_pqueue] *)
Record record_pqueue := mk_record_pqueue {
  q_epoch : Z;
  q : @pqueue DTLS1_RECORD_DATA
}.
#[export] Instance eta_record_pqueue : Eta record_pqueue := fun r =>
  mk_record_pqueue (q_epoch r) (q r).

(** [RECORD_LAYER] and the [DTLS_RECORD_LAYER] it points to, the reading half.  [packet] is
    what the pointer points to: the last packet read. *)
Record RECORD_LAYER := mk_RECORD_LAYER {
  rstate : Z;
  rbuf : tls3_BUFFER;
  rrec : DTLS_RECORD;
  packet : list Z;
  packet_length : Z;
  rl_read_sequence : list Z;
  r_epoch : Z;
  bitmap : DTLS1_BITMAP;
  next_bitmap : DTLS1_BITMAP;
  unprocessed_rcds : record_pqueue;
  processed_rcds : record_pqueue
}.
#[export] Instance eta_RECORD_LAYER : Eta RECORD_LAYER := fun r =>
  mk_RECORD_LAYER (rstate r) (rbuf r) (rrec r) (packet r) (packet_length r) (rl_read_sequence r)
    (r_epoch r) (bitmap r) (next_bitmap r) (unprocessed_rcds r) (processed_rcds r).

(** A connection with its record layer.  [rbio] is what successive calls of [BIO_read]
    will find: a datagram each, or nothing (yet) when there are none; [None] is
    the null pointer. *)
Record reader := mk_reader {
  conn : tls;
  rlayer : RECORD_LAYER;
  rbio : option (list (list Z))
}.
#[export] Instance eta_reader : Eta reader := fun r => mk_reader (conn r) (rlayer r) (rbio r).

Definition blank_body : tls3_RECORD := mk_tls3_RECORD 0 0 0 0.
Definition blank_record : DTLS_RECORD :=
  mk_DTLS_RECORD 0 0 false 0 (replicate 8 0) [] blank_body.
Definition blank_buffer : tls3_BUFFER := mk_tls3_BUFFER false 0 0 0 [].

Definition upd_rl (f : RECORD_LAYER -> RECORD_LAYER) (s : reader) : reader := s <| rlayer ::= f |>.
Definition upd_rrec (f : DTLS_RECORD -> DTLS_RECORD) : reader -> reader :=
  upd_rl (fun l => l <| rrec ::= f |>).

Definition reset_packet_length : reader -> reader := upd_rl (fun l => l <| packet_length := 0 |>).

(** [rr->length = 0; rr->read = 1; RECORD_LAYER_reset_packet_length(&s->rlayer)]: a
    record is silently dropped. *)
Definition discard (s : reader) : reader :=
  reset_packet_length (upd_rrec (fun r => (set_length 0 r) <| rr_read := true |>) s).

Definition fatal (s : reader) (al : Z) : reader := s <| conn ::= fun c => tlsfatal c al |>.
Definition in_error (s : reader) : bool := otls_statem_in_error (conn s).

(** ** Interface to the ciphers and to the rest of the connection *)

Class RecordProtection : Type := {
  (** [s->session] is not NULL *)
  has_session : tls -> bool;
  (** [EVP_MD_CTX_size(s->read_hash)], where [s->read_hash] is not NULL, and whether
      it has a digest *)
  read_hash_size : tls -> option Z;
  read_hash_md : tls -> bool;
  (** whether [s->enc_read_ctx] has a CBC cipher, where it is not NULL *)
  enc_read_ctx_cbc : tls -> option bool;
  (** [s->method->tls3_enc->enc(s, rr, 1, 0)], with what it leaves in the block and in
      the record, and [->mac(s, rr, md, 0)] *)
  enc : tls -> RECORD_LAYER -> Z * (list Z * tls3_RECORD) * tls;
  mac : tls -> RECORD_LAYER -> option (list Z);
  (** [s->expand] is not NULL, and [tls3_do_uncompress] *)
  expands : tls -> bool;
  tls3_do_uncompress : tls -> DTLS_RECORD -> option (list Z * tls3_RECORD);
  (** [tls_allow_compression], [tls3_setup_write_buffer(s, 1, 0)] *)
  tls_allow_compression : tls -> bool;
  tls3_setup_write_buffer : tls -> bool * tls;
  (** [BIO_dgram_is_sctp(tls_get_rbio(s))] *)
  BIO_dgram_is_sctp : tls -> bool;
  (** the address and the contents of [rotated_mac_buf], those of [mac_tmp] *)
  rotated_mac_addr : Z;
  rotated_mac_garbage : list Z;
  mac_tmp_garbage : list Z
}.

Section Reading.
Context `{Malloc} `{RecordProtection}.
(** The number of bits of [unsigned long]. *)
Variable map_bits : Z.
(** The offset in the buffer that puts a payload at an aligned address. *)
Variable align : Z.

(** ** The buffer *)

Definition tls3_setup_read_buffer (s : reader) : bool * reader :=
  let b := rbuf (rlayer s) in
  if rb_buf b then (true, s <| rlayer .: packet := [] |>)
  else
    let len := tls3_RT_MAX_PLAIN_LENGTH + tls3_RT_MAX_ENCRYPTED_OVERHEAD + DTLS1_RT_HEADER_LENGTH + 3 in
    let len := if tls_allow_compression (conn s) then len + tls3_RT_MAX_COMPRESSED_OVERHEAD else len in
    let len := if len <? rb_default_len b then rb_default_len b else len in
    match CRYPTO_malloc len with
    | None => (false, fatal s tls_AD_NO_ALERT)
    | Some _ =>
        (true, s <| rlayer .: rbuf := b <| rb_buf := true |> <| rb_len := len |> |>
                 <| rlayer .: packet := [] |>)
    end.

Definition tls3_setup_buffers (s : reader) : bool * reader :=
  let '(ok, s) := tls3_setup_read_buffer s in
  if negb ok then (false, s)
  else let '(ok, c) := tls3_setup_write_buffer (conn s) in (ok, s <| conn := c |>).

(** [tls3_read_n] for DTLS: the result and [*readbytes], which was [n0].  Both calls set
    [clearold]: wherever the first part has left the packet, it and the bytes that are
    left are then moved to the aligned start of the buffer.  A loop that reads
    would end after one datagram. *)
Definition tls3_read_n (s : reader) (n max : Z) (extend : bool) (n0 : Z) : Z * Z * reader :=
  if n =? 0 then (0, n0, s)
  else
    let '(ok, s) := if rb_buf (rbuf (rlayer s)) then (true, s) else tls3_setup_read_buffer s in
    if negb ok then (-1, n0, s)
    else
      let s := if extend then s
               else upd_rl (fun l => l <| packet := [] |> <| packet_length := 0 |>) s in
      let pkt := take (Z.to_nat (packet_length (rlayer s))) (packet (rlayer s)) in
      let len := packet_length (rlayer s) in
      let left := rb_left (rbuf (rlayer s)) in
      let s := upd_rl (fun l => l <| rbuf .: rb_offset := len + align |>) s in
      (** the packet has [k] more bytes, the first ones of [bytes] *)
      let take_from bytes k :=
        upd_rl (fun l => l <| packet := pkt ++ take (Z.to_nat k) bytes |>
                           <| packet_length := len + k |>
                           <| rbuf .: rb_left := drop (Z.to_nat k) bytes |>
                           <| rbuf .: rb_offset := len + align + k |>) in
      if (zlen left =? 0) && extend then (0, n0, s)
      else
        let n := if (0 <? zlen left) && (zlen left <? n) then zlen left else n in
        if n <=? zlen left then (1, n, take_from left n s)
        else if sz (rb_len (rbuf (rlayer s)) - rb_offset (rbuf (rlayer s))) <? n
        then (-1, n0, fatal s tls_AD_INTERNAL_ERROR)
        else
          let room := sz (rb_len (rbuf (rlayer s)) - rb_offset (rbuf (rlayer s))) in
          let max := if max <? n then n else max in
          let max := if room <? max then room else max in
          match rbio s with
          | None => (-1, n0, fatal s tls_AD_INTERNAL_ERROR)
          | Some [] => (-1, n0, s <| conn .: rwstate := tls_READING |>)
          | Some (datagram :: others) =>
              let bytes := take (Z.to_nat max) datagram in
              let s := s <| conn .: rwstate := tls_READING |> <| rbio := Some others |> in
              if zlen bytes =? 0 then (0, n0, s)
              else
                let n := if zlen bytes <? n then zlen bytes else n in
                (1, n, (take_from bytes n s) <| conn .: rwstate := tls_NOTHING |>)
          end.

(** ** The queues of buffered records *)

Definition dtls1_copy_record (s : reader) (rdata : DTLS1_RECORD_DATA) : option reader :=
  number ← rdn (rd_packet rdata) 5 6;
  seq ← wrn (rl_read_sequence (rlayer s)) 2 number;
  Some (upd_rl (fun l => l <| packet := rd_packet rdata |>
                           <| packet_length := rd_packet_length rdata |>
                           <| rbuf := rd_rbuf rdata |> <| rrec := rd_rrec rdata |>
                           <| rl_read_sequence := seq |>) s).

Definition dtls1_buffer_record (s : reader) (queue : record_pqueue) (priority : list Z)
  : comp (Z * record_pqueue * reader) :=
  if MAX_BUFFERED_RECORDS <=? pqueue_size (q queue) then Ret (0, queue, s)
  else
    let l := rlayer s in
    let rdata := mk_DTLS1_RECORD_DATA (packet l) (packet_length l) (rbuf l) (rrec l) in
    item ← defined (pitem_new priority rdata);
    match CRYPTO_malloc sizeof_DTLS1_RECORD_DATA, item with
    | Some _, Some item =>
        let s := upd_rl (fun l => l <| packet := [] |> <| packet_length := 0 |>
                                    <| rbuf := blank_buffer |> <| rrec := blank_record |>) s in
        let '(ok, s) := tls3_setup_buffers s in
        if negb ok then Ret (-1, queue, s)
        else
          '(_, q') ← defined (pqueue_insert (q queue) item);
          Ret (1, queue <| q := q' |>, s)
    | _, _ => Ret (-1, queue, fatal s tls_AD_INTERNAL_ERROR)
    end.

Definition dtls1_retrieve_buffered_record (s : reader) (queue : record_pqueue)
  : comp (bool * record_pqueue * reader) :=
  match pqueue_pop (q queue) with
  | (Some item, q') => s ← defined (dtls1_copy_record s (PQueue.data item)); Ret (true, queue <| q := q' |>, s)
  | (None, _) => Ret (false, queue, s)
  end.

(** ** Epochs and windows *)

(** The window for the epoch of the record: the current one, the next one ([true]),
    or none. *)
Definition dtls1_get_bitmap (l : RECORD_LAYER) (rr : DTLS_RECORD) : option bool :=
  if rr_epoch rr =? r_epoch l then Some false
  else if (rr_epoch rr =? r_epoch l + 1) && negb (q_epoch (unprocessed_rcds l) =? r_epoch l)
          && ((rr_type rr =? tls3_RT_HANDSHAKE) || (rr_type rr =? tls3_RT_ALERT))
  then Some true
  else None.

Definition bitmap_of (l : RECORD_LAYER) (is_next_epoch : bool) : DTLS1_BITMAP :=
  if is_next_epoch then next_bitmap l else bitmap l.

Definition set_bitmap (is_next_epoch : bool) (b : DTLS1_BITMAP) (l : RECORD_LAYER) : RECORD_LAYER :=
  if is_next_epoch then l <| next_bitmap := b |> else l <| bitmap := b |>.

(** What [dtls1_bitmap.c] sees of the record layer. *)
Definition seq_view (l : RECORD_LAYER) : RECORD_LAYER_seq :=
  mk_RECORD_LAYER_seq (rl_read_sequence l) (rr_seq_num (rrec l)).

Definition replay_check (s : reader) (is_next_epoch : bool) : option (bool * reader) :=
  '(ok, v) ← dtls1_record_replay_check map_bits (seq_view (rlayer s))
               (bitmap_of (rlayer s) is_next_epoch);
  Some (truth ok, upd_rrec (fun r => r <| rr_seq_num := rrec_seq_num v |>) s).

Definition bitmap_update (s : reader) (is_next_epoch : bool) : option reader :=
  b ← dtls1_record_bitmap_update map_bits (seq_view (rlayer s)) (bitmap_of (rlayer s) is_next_epoch);
  Some (upd_rl (set_bitmap is_next_epoch b) s).

(** [dtls1_reset_seq_numbers(s, tls3_CC_READ)]: the peer's keys have changed. *)
Definition dtls1_reset_seq_numbers_read (s : reader) : reader :=
  (upd_rl (fun l => l <| r_epoch := u16 (r_epoch l + 1) |> <| bitmap := next_bitmap l |>
                      <| next_bitmap := mk_DTLS1_BITMAP 0 (replicate 8 0) |>
                      <| rl_read_sequence := replicate 8 0 |>) s)
    <| conn ::= dtls1_clear_received_buffer |>.

(** ** Opening a record *)

(** [i == 0 || CRYPTO_memcmp(md, mac, mac_size) != 0], negated; the MAC that was
    received is at [off] of [block]. *)
Definition mac_matches (s : reader) (block : list Z) (off mac_size : Z) : option bool :=
  match mac (conn s) (rlayer s) with
  | None => Some false
  | Some md => c ← CRYPTO_memcmp md 0 block off mac_size; Some (c =? 0)
  end.

(** The bad MAC of a record whose MAC covers the ciphertext is fatal: false. *)
Definition check_outer_mac (s : reader) : comp (bool * reader) :=
  match read_hash_size (conn s) with
  | Some size =>
      if negb (has_bits (flags (s3 (conn s))) TLS1_FLAGS_ENCRYPT_THEN_MAC_READ) then Ret (true, s)
      else
        let mac_size := sz size in
        let rec := rr_body (rrec (rlayer s)) in
        if EVP_MAX_MD_SIZE <? mac_size then Ret (false, fatal s tls_AD_INTERNAL_ERROR)
        else if orig_len rec <? mac_size then Ret (false, fatal s tls_AD_DECODE_ERROR)
        else
          let s := upd_rrec (set_length (sz (rec_length rec - mac_size))) s in
          let rr := rrec (rlayer s) in
          ok ← defined (mac_matches s (rr_block rr) (rec_data (rr_body rr) + rec_length (rr_body rr)) mac_size);
          if negb ok then Ret (false, fatal s tls_AD_BAD_RECORD_MAC) else Ret (true, s)
  | None => Ret (true, s)
  end.

(** Is there a MAC inside of what is encrypted? *)
Definition has_inner_mac (c : tls) : bool :=
  has_session c && negb (has_bits (flags (s3 c)) TLS1_FLAGS_ENCRYPT_THEN_MAC_READ)
  && bool_decide (is_Some (enc_read_ctx_cbc c)) && read_hash_md c.

(** [None] after a fatal error; otherwise [enc_err], which a bad MAC makes -1. *)
Definition check_inner_mac (s : reader) (enc_err : Z) : comp (option Z * reader) :=
  if negb (has_inner_mac (conn s)) then Ret (Some enc_err, s)
  else
    let imac_size := default (-1) (read_hash_size (conn s)) in
    let cbc := default false (enc_read_ctx_cbc (conn s)) in
    let rec := rr_body (rrec (rlayer s)) in
    let block := rr_block (rrec (rlayer s)) in
    if imac_size <? 0 then Ret (None, fatal s tls_AD_INTERNAL_ERROR)
    else if EVP_MAX_MD_SIZE <? imac_size then Ret (None, fatal s tls_AD_INTERNAL_ERROR)
    else if (orig_len rec <? imac_size) || (cbc && (orig_len rec <? imac_size + 1))
    then Ret (None, fatal s tls_AD_DECODE_ERROR)
    else
      '(ok, received, off) ←
        (if cbc then
           '(ok, out) ← defined (tls3_cbc_copy_mac block rotated_mac_addr rotated_mac_garbage
                                   mac_tmp_garbage rec imac_size);
           Ret (ok, out, 0)
         else Ret (true, block, rec_data rec + sz (rec_length rec - imac_size)));
      if negb ok then Ret (None, fatal s tls_AD_INTERNAL_ERROR)
      else
        let s := upd_rrec (set_length (sz (rec_length rec - imac_size))) s in
        ok ← defined (mac_matches s received off imac_size);
        let enc_err := if negb (ok : bool) then -1 else enc_err in
        let enc_err := if tls3_RT_MAX_COMPRESSED_LENGTH + imac_size <? rec_length (rr_body (rrec (rlayer s)))
                       then -1 else enc_err in
        Ret (Some enc_err, s).

(** Decompression; false after a fatal error. *)
Definition decompress (s : reader) : bool * reader :=
  if negb (expands (conn s)) then (true, s)
  else if tls3_RT_MAX_COMPRESSED_LENGTH <? rec_length (rr_body (rrec (rlayer s)))
  then (false, fatal s tls_AD_RECORD_OVERFLOW)
  else
    match tls3_do_uncompress (conn s) (rrec (rlayer s)) with
    | None => (false, fatal s tls_AD_DECOMPRESSION_FAILURE)
    | Some (block, rec) =>
        (true, upd_rrec (fun r => r <| rr_block := block |> <| rr_body := rec |>) s)
    end.

(** The record, which is in [s->packet], is where decryption starts from. *)
Definition point_at_packet (s : reader) : reader :=
  upd_rl (fun l => l <| rrec ::= fun r =>
    r <| rr_block := packet l |>
      <| rr_body := mk_tls3_RECORD (rec_length (rr_body r)) (rec_length (rr_body r))
                      DTLS1_RT_HEADER_LENGTH DTLS1_RT_HEADER_LENGTH |> |>) s.

(** [rr->length = 0; RECORD_LAYER_reset_packet_length(&s->rlayer)] *)
Definition ignore (s : reader) : reader := reset_packet_length (upd_rrec (set_length 0) s).

Definition dtls1_process_record (s : reader) (is_next_epoch : bool) : comp (bool * reader) :=
  if tls3_RT_MAX_ENCRYPTED_LENGTH <? rec_length (rr_body (rrec (rlayer s)))
  then Ret (false, fatal s tls_AD_RECORD_OVERFLOW)
  else
    let s := point_at_packet s in
    '(ok, s) ← check_outer_mac s;
    if negb ok then Ret (false, s)
    else
      let '(enc_err, (block, rec), c) := enc (conn s) (rlayer s) in
      let s := (upd_rrec (fun r => r <| rr_block := block |> <| rr_body := rec |>) s) <| conn := c |> in
      if enc_err =? 0 then Ret (false, if in_error s then s else ignore s)
      else
        '(enc_err, s) ← check_inner_mac s enc_err;
        match enc_err with
        | None => Ret (false, s)
        | Some enc_err =>
            if enc_err <? 0 then Ret (false, ignore s)
            else
              let '(ok, s) := decompress s in
              if negb ok then Ret (false, s)
              else if tls3_RT_MAX_PLAIN_LENGTH <? rec_length (rr_body (rrec (rlayer s)))
              then Ret (false, fatal s tls_AD_RECORD_OVERFLOW)
              else
                let s := reset_packet_length (upd_rrec (fun r => r <| rr_off := 0 |>) s) in
                s ← defined (bitmap_update s is_next_epoch);
                Ret (true, s)
        end.

(** ** The records of the last flight that came too early *)

(** The loop of [dtls1_process_buffered_records], over [n] records: [Some] is a
    [return] in it. *)
Fixpoint process_buffered_loop (n : nat) (s : reader) : comp (option Z * reader) :=
  match pqueue_peek (q (unprocessed_rcds (rlayer s))), n with
  | None, _ => Ret (None, s)
  | Some _, O => NoFuel
  | Some _, S n =>
      '(_, queue, s) ← dtls1_retrieve_buffered_record s (unprocessed_rcds (rlayer s));
      let s := s <| rlayer .: unprocessed_rcds := queue |> in
      match dtls1_get_bitmap (rlayer s) (rrec (rlayer s)) with
      | None => Ret (Some 0, fatal s tls_AD_INTERNAL_ERROR)
      | Some is_next_epoch =>
          '(replayok, s) ← (if BIO_dgram_is_sctp (conn s) then Ret (true, s)
                            else defined (replay_check s is_next_epoch));
          '(ok, s) ← (if (replayok : bool) then dtls1_process_record s is_next_epoch
                      else Ret (false, s));
          if negb ok then
            if in_error s then Ret (Some (-1), s) else process_buffered_loop n (ignore s)
          else
            '(ret, queue, s) ← dtls1_buffer_record s (processed_rcds (rlayer s))
                                 (rr_seq_num (rrec (rlayer s)));
            let s := s <| rlayer .: processed_rcds := queue |> in
            if ret <? 0 then Ret (Some 0, s) else process_buffered_loop n s
      end
  end.

Definition dtls1_process_buffered_records (s : reader) : comp (Z * reader) :=
  let d := rlayer s in
  let sync s := upd_rl (fun l => l <| processed_rcds .: q_epoch := r_epoch l |>
                                   <| unprocessed_rcds .: q_epoch := u16 (r_epoch l + 1) |>) s in
  match pqueue_peek (q (unprocessed_rcds d)) with
  | None => Ret (1, sync s)
  | Some _ =>
      if negb (q_epoch (unprocessed_rcds d) =? r_epoch d) then Ret (1, s)
      else if 0 <? zlen (rb_left (rbuf d)) then Ret (1, s)
      else
        '(ret, s) ← process_buffered_loop (length (items (q (unprocessed_rcds d)))) s;
        match ret with Some r => Ret (r, s) | None => Ret (1, sync s) end
  end.

(** ** Getting a record *)

(** How a part of [dtls1_get_record] ends: it returns, starts [again], or goes on. *)
Inductive next_step : Type := Return (ret : Z) | Again | GoOn.

(** The fields of the header that is in [s->packet]. *)
Definition parse_header (s : reader) : option (Z * reader) :=
  let p := packet (rlayer s) in
  type ← rd p 0;
  version ← rdn p 1 2;
  epoch ← rdn p 3 2;
  number ← rdn p 5 6;
  len ← rdn p 11 2;
  seq ← wrn (rl_read_sequence (rlayer s)) 2 number;
  Some (be_val version,
        upd_rrec (fun r => (set_length (be_val len) r) <| rr_type := type |>
                             <| rr_epoch := be_val epoch |> <| rr_read := false |>)
          (s <| rlayer .: rl_read_sequence := seq |>)).

(** The checks of the header. *)
Definition acceptable_header (s : reader) (vers : Z) : bool :=
  let rr := rrec (rlayer s) in
  (first_packet (conn s) || (rr_type rr =? tls3_RT_ALERT) || (vers =? version (conn s)))
  && (Z.land vers 0xff00 =? Z.land (version (conn s)) 0xff00)
  && (rec_length (rr_body rr) <=? tls3_RT_MAX_ENCRYPTED_LENGTH)
  && negb (has_session (conn s) && USE_MAX_FRAGMENT_LENGTH_EXT (conn s)
           && (GET_MAX_FRAGMENT_LENGTH (conn s) <? rec_length (rr_body rr))).

Definition get_header (s : reader) : comp (next_step * reader) :=
  if (rstate (rlayer s) =? tls_ST_READ_BODY)
     && (DTLS1_RT_HEADER_LENGTH <=? packet_length (rlayer s))
  then Ret (GoOn, s)
  else
    let '(rret, _, s) := tls3_read_n s DTLS1_RT_HEADER_LENGTH (rb_len (rbuf (rlayer s))) false 0 in
    if rret <=? 0 then Ret (Return rret, s)
    else if negb (packet_length (rlayer s) =? DTLS1_RT_HEADER_LENGTH)
    then Ret (Again, reset_packet_length s)
    else
      let s := s <| rlayer .: rstate := tls_ST_READ_BODY |> in
      let s := if msg_callback (conn s)
               then s <| conn ::= fun c => log c (C_msg_callback 0 tls3_RT_HEADER (packet (rlayer s))) |>
               else s in
      '(vers, s) ← defined (parse_header s);
      if negb (acceptable_header s vers) then Ret (Again, discard s) else Ret (GoOn, s).

Definition get_body (s : reader) : comp (next_step * reader) :=
  let more := rec_length (rr_body (rrec (rlayer s))) in
  if sz (packet_length (rlayer s) - DTLS1_RT_HEADER_LENGTH) <? more then
    let '(rret, n, s) := tls3_read_n s more more true 0 in
    if (rret <=? 0) || negb (n =? more) then
      if in_error s then Ret (Return (-1), s) else Ret (Again, discard s)
    else Ret (GoOn, s)
  else Ret (GoOn, s).

(** What is done with a record that has been read. *)
Definition take_record (s : reader) : comp (next_step * reader) :=
  let s := s <| rlayer .: rstate := tls_ST_READ_HEADER |> in
  match dtls1_get_bitmap (rlayer s) (rrec (rlayer s)) with
  | None => Ret (Again, ignore s)
  | Some is_next_epoch =>
      '(replayok, s) ← (if BIO_dgram_is_sctp (conn s) then Ret (true, s)
                        else defined (replay_check s is_next_epoch));
      if negb replayok then Ret (Again, discard s)
      else if rec_length (rr_body (rrec (rlayer s))) =? 0
      then Ret (Again, upd_rrec (fun r => r <| rr_read := true |>) s)
      else if is_next_epoch then
        if tls_in_init (conn s) || truth (in_handshake (statem (conn s))) then
          '(ret, queue, s) ← dtls1_buffer_record s (unprocessed_rcds (rlayer s))
                               (rr_seq_num (rrec (rlayer s)));
          let s := s <| rlayer .: unprocessed_rcds := queue |> in
          if ret <? 0 then Ret (Return (-1), s) else Ret (Again, discard s)
        else Ret (Again, discard s)
      else
        '(ok, s) ← dtls1_process_record s is_next_epoch;
        if negb ok then if in_error s then Ret (Return (-1), s) else Ret (Again, discard s)
        else Ret (Return 1, s)
  end.

(** From the label [again] on, once. *)
Definition get_record_once (s : reader) : comp (next_step * reader) :=
  '(ret, s) ← dtls1_process_buffered_records s;
  if ret =? 0 then Ret (Return (-1), s)
  else
    '(found, queue, s) ← dtls1_retrieve_buffered_record s (processed_rcds (rlayer s));
    let s := s <| rlayer .: processed_rcds := queue |> in
    if (found : bool) then Ret (Return 1, s)
    else
      '(next, s) ← get_header s;
      match next with
      | GoOn =>
          '(next, s) ← get_body s;
          match next with GoOn => take_record s | _ => Ret (next, s) end
      | _ => Ret (next, s)
      end.

Fixpoint dtls1_get_record (fuel : nat) (s : reader) : comp (Z * reader) :=
  match fuel with
  | O => NoFuel
  | S fuel =>
      '(next, s) ← get_record_once s;
      match next with
      | Return ret => Ret (ret, s)
      | _ => dtls1_get_record fuel s
      end
  end.

End Reading.
