(* ===== verification/Replay.v ===== *)
(** * Replay protection of a DTLS connection

    What [dtls1_get_record] delivers, over the whole life of a connection: no record twice,
    and none that the cipher or the MAC does not accept. *)

From stdpp Require Import gmap.

From S2P Require Import Prelude Mem PQueue TlsState Protocol StatemLib Dtls DtlsWrite StatemClnt StatemSrvr Statem Sample Extensions Record Bitmap DtlsRecord.

Local Open Scope Z_scope.
Local Open Scope tls_scope.

(** ** What is assumed of ciphers, and what it means to open a record *)

(** The record is in its block. *)
Definition fits (block : list Z) (rec : tls3_RECORD) : Prop :=
  bytes_ok block /\ 0 <= rec_data rec /\ 0 <= rec_length rec <= orig_len rec /\
  orig_len rec < 2 ^ 63 /\ rec_data rec + orig_len rec <= zlen block.

Class ProtectionLaws `{RecordProtection} : Prop := {
  read_hash_size_positive c n : read_hash_size c = Some n -> 1 <= n < 2 ^ 31;
  read_hash_has_size c : read_hash_md c = true -> is_Some (read_hash_size c);
  mac_fills_md c l md : mac c l = Some md -> bytes_ok md /\ zlen md = EVP_MAX_MD_SIZE;
  enc_stays c l e block rec c' :
    fits (rr_block (rrec l)) (rr_body (rrec l)) -> enc c l = (e, (block, rec), c') -> fits block rec;
  (** padding is removed only when that leaves room for the MAC *)
  enc_padding c l e block rec c' n :
    fits (rr_block (rrec l)) (rr_body (rrec l)) -> enc c l = (e, (block, rec), c') -> e <> 0 ->
    has_inner_mac c' = true -> read_hash_size c' = Some n ->
    match enc_read_ctx_cbc c' with
    | Some true => n + 1 <= orig_len rec -> n <= rec_length rec /\ orig_len rec - rec_length rec <= 256
    | _ => rec_length rec = orig_len rec
    end;
  uncompress_stays c rr block rec :
    fits (rr_block rr) (rr_body rr) -> tls3_do_uncompress c rr = Some (block, rec) -> fits block rec;
  scratch_sizes : zlen rotated_mac_garbage = 64 + EVP_MAX_MD_SIZE /\ zlen mac_tmp_garbage = EVP_MAX_MD_SIZE
}.

Section Opening.
Context `{RecordProtection}.

Definition with_body (block : list Z) (rec : tls3_RECORD) (l : RECORD_LAYER) : RECORD_LAYER :=
  l <| rrec ::= fun r => r <| rr_block := block |> <| rr_body := rec |> |>.
Definition shortened (n : Z) (rec : tls3_RECORD) : tls3_RECORD :=
  rec <| rec_length := rec_length rec - n |>.

(** The [n] bytes at [off] are the MAC of the record. *)
Definition mac_right (c : tls) (l : RECORD_LAYER) (block : list Z) (off n : Z) : Prop :=
  exists md m, mac c l = Some md /\ rdn md 0 n = Some m /\ rdn block off n = Some m.

(** What a MAC over the ciphertext leaves of the record, and what one over the plaintext does. *)
Definition outer_mac_right (c : tls) (l : RECORD_LAYER) (rec : tls3_RECORD) : Prop :=
  let block := rr_block (rrec l) in
  match read_hash_size c with
  | Some n =>
      if has_bits (flags (s3 c)) TLS1_FLAGS_ENCRYPT_THEN_MAC_READ then
        rec = shortened n (rr_body (rrec l)) /\
        mac_right c (with_body block rec l) block (rec_data rec + rec_length rec) n
      else rec = rr_body (rrec l)
  | None => rec = rr_body (rrec l)
  end.

Definition inner_mac_right (c : tls) (l : RECORD_LAYER) (rec : tls3_RECORD) : Prop :=
  let block := rr_block (rrec l) in
  if has_inner_mac c then
    exists n, read_hash_size c = Some n /\ rec = shortened n (rr_body (rrec l)) /\
      mac_right c (with_body block rec l) block (rec_data rec + rec_length rec) n
  else rec = rr_body (rrec l).

(** The record of [l] opens to the record [rec] in [block]: the cipher accepts it, the MAC, if
    there is one, is the one of the record, and decompression succeeds. *)
Definition opens (c : tls) (l : RECORD_LAYER) (block : list Z) (rec : tls3_RECORD) : Prop :=
  exists rec0 e block1 rec1 c1 rec2,
    outer_mac_right c l rec0 /\
    enc c (with_body (rr_block (rrec l)) rec0 l) = (e, (block1, rec1), c1) /\ 0 < e /\
    inner_mac_right c1 (with_body block1 rec1 l) rec2 /\
    (if expands c1
     then tls3_do_uncompress c1 (rrec (with_body block1 rec2 l)) = Some (block, rec)
     else block = block1 /\ rec = rec2).

Lemma with_body_id l : with_body (rr_block (rrec l)) (rr_body (rrec l)) l = l.
Proof using. by destruct l as [? ? []]. Qed.

Context {laws : ProtectionLaws}.

Lemma fits_rdn block rec o n : fits block rec -> 0 <= o -> 0 <= n -> o + n <= orig_len rec ->
  exists l, rdn block (rec_data rec + o) n = Some l /\ bytes_ok l /\ zlen l = n.
Proof using.
  intros (Hb & Hd & Hl & _ & Hz) Ho Hn Hle. rewrite rdn_spec by lia.
  eexists. split; [done|]. split; [by apply Forall_take, Forall_drop|].
  rewrite zlen_take; [done|]. rewrite zlen_drop by lia. lia.
Qed.

Lemma shortened_fits block rec n : fits block rec -> 0 <= n <= rec_length rec -> fits block (shortened n rec).
Proof using. intros (Hb & Hd & Hl & Hbig & Hz) Hn. split; [done|]. cbn. lia. Qed.

Lemma mac_matches_spec s block off n k :
  rdn block off n = Some k -> bytes_ok k -> n <= EVP_MAX_MD_SIZE ->
  exists ok, mac_matches s block off n = Some ok /\
    (ok = true -> mac_right (conn s) (rlayer s) block off n).
Proof using laws.
  intros Hk Hok Hn. unfold mac_matches. destruct (mac (conn s) (rlayer s)) as [md|] eqn:Em; [|by exists false].
  destruct (mac_fills_md _ _ _ Em) as [Hmd Hz]. pose proof (rdn_zlen _ _ _ _ Hk) as Hl.
  pose proof (zlen_nonneg k) as Hk0.
  assert (Hm : exists m, rdn md 0 n = Some m /\ bytes_ok m /\ zlen m = n).
  { rewrite rdn_spec by lia. eexists. split; [done|]. split; [by apply Forall_take, Forall_drop|].
    rewrite zlen_take; [done|]. rewrite zlen_drop by lia. lia. }
  destruct Hm as (m & Hm & Hmok & Hmz).
  destruct (CRYPTO_memcmp_spec md block 0 off m k) as (r & Hr & Hiff); try congruence; try done.
  rewrite Hmz in Hr. rewrite Hr. cbn [mbind option_bind]. eexists. split; [done|].
  intros E%Z.eqb_eq. exists md, m. split; [done|]. split; [done|]. rewrite Hk. f_equal. symmetry. by apply Hiff.
Qed.

(** A reader whose record and connection have changed. *)
Definition reopened (s : reader) (c : tls) (block : list Z) (rec : tls3_RECORD) : reader :=
  mk_reader c (with_body block rec (rlayer s)) (rbio s).

Lemma reopened_id s : reopened s (conn s) (rr_block (rrec (rlayer s))) (rr_body (rrec (rlayer s))) = s.
Proof using. unfold reopened. rewrite with_body_id. by destruct s. Qed.

Lemma sz_sub a b : 0 <= b <= a -> a < 2 ^ 63 -> sz (a - b) = a - b.
Proof using. intros. apply sz_small. unfold SIZE_MAX. lia. Qed.

Lemma check_outer_mac_spec s :
  let block := rr_block (rrec (rlayer s)) in
  fits block (rr_body (rrec (rlayer s))) ->
  rec_length (rr_body (rrec (rlayer s))) = orig_len (rr_body (rrec (rlayer s))) ->
  exists ok c rec, check_outer_mac s = Ret (ok, reopened s c block rec) /\ fits block rec /\
    (ok = true -> c = conn s /\ outer_mac_right (conn s) (rlayer s) rec).
Proof using laws.
  intros block Hfit Horig. unfold check_outer_mac, outer_mac_right. fold block.
  assert (Hfatal : forall al (P : tls3_RECORD -> Prop), exists ok c rec,
    Ret (false, fatal s al) = Ret (ok, reopened s c block rec) /\ fits block rec /\
    (ok = true -> c = conn s /\ P rec)).
  { intros al P. exists false, (tlsfatal (conn s) al), (rr_body (rrec (rlayer s))).
    split; [|split; [done|done]]. unfold reopened, fatal. unfold block. rewrite with_body_id. done. }
  assert (Hsame : exists ok c rec, Ret (true, s) = Ret (ok, reopened s c block rec) /\ fits block rec /\
    (ok = true -> c = conn s /\ rec = rr_body (rrec (rlayer s)))).
  { exists true, (conn s), (rr_body (rrec (rlayer s))). unfold block. rewrite reopened_id. by split. }
  destruct (read_hash_size (conn s)) as [n|] eqn:En; [|exact Hsame].
  destruct (has_bits _ _); cbn [negb]; [|exact Hsame]. clear Hsame.
  pose proof (read_hash_size_positive _ _ En) as Hn.
  rewrite (sz_small n) by (unfold SIZE_MAX; lia).
  destruct (Z.ltb_spec EVP_MAX_MD_SIZE n) as [|Hmax]; [apply Hfatal|].
  destruct (Z.ltb_spec (orig_len (rr_body (rrec (rlayer s)))) n) as [|Hlong]; [apply Hfatal|].
  pose proof Hfit as (Hb & Hd & Hl & Hbig & Hz). rewrite sz_sub by lia.
  set (rec := shortened n (rr_body (rrec (rlayer s)))).
  assert (Hfit' : fits block rec) by (apply shortened_fits; [done|lia]).
  change (upd_rrec _ s) with (reopened s (conn s) block rec).
  change (rr_block (rrec (rlayer (reopened s (conn s) block rec)))) with block.
  change (rr_body (rrec (rlayer (reopened s (conn s) block rec)))) with rec.
  destruct (fits_rdn block rec (rec_length rec) n Hfit') as (k & Hk & Hkok & _); [cbn; lia..|].
  destruct (mac_matches_spec (reopened s (conn s) block rec) block _ n k Hk Hkok Hmax) as (ok & -> & Hright).
  cbn [mbind comp_bind defined]. destruct ok; cbn [negb].
  - exists true, (conn s), rec. split; [done|]. split; [done|]. intros _. split; [done|].
    split; [done|]. by apply Hright.
  - exists false, (tlsfatal (conn s) tls_AD_BAD_RECORD_MAC), rec. by split.
Qed.

Lemma check_inner_mac_spec s e :
  let block := rr_block (rrec (rlayer s)) in
  let rec1 := rr_body (rrec (rlayer s)) in
  fits block rec1 ->
  (forall n, has_inner_mac (conn s) = true -> read_hash_size (conn s) = Some n ->
    match enc_read_ctx_cbc (conn s) with
    | Some true => n + 1 <= orig_len rec1 -> n <= rec_length rec1 /\ orig_len rec1 - rec_length rec1 <= 256
    | _ => rec_length rec1 = orig_len rec1
    end) ->
  exists r c rec, check_inner_mac s e = Ret (r, reopened s c block rec) /\ fits block rec /\
    match r with
    | Some e' => c = conn s /\ (0 <= e' -> e' = e /\ inner_mac_right (conn s) (rlayer s) rec)
    | None => True
    end.
Proof using laws.
  intros block rec1 Hfit Hpad. unfold check_inner_mac, inner_mac_right. fold block rec1.
  destruct (has_inner_mac (conn s)) eqn:Eh; cbn [negb].
  2:{ exists (Some e), (conn s), rec1. unfold block, rec1. rewrite reopened_id. split; [done|]. split; [done|]. by split. }
  assert (Hfatal : forall al, exists r c rec,
    Ret (None, fatal s al) = Ret (r, reopened s c block rec) /\ fits block rec /\
    match r : option Z with Some e' => c = conn s /\ (0 <= e' -> e' = e /\ exists n, read_hash_size (conn s) = Some n /\
      rec = shortened n rec1 /\ mac_right (conn s) (with_body block rec (rlayer s)) block (rec_data rec + rec_length rec) n)
    | None => True end).
  { intros al. exists None, (tlsfatal (conn s) al), rec1. split; [|done].
    unfold reopened, fatal, block, rec1. by rewrite with_body_id. }
  assert (Hmd : exists n, read_hash_size (conn s) = Some n).
  { apply read_hash_has_size. unfold has_inner_mac in Eh. by apply andb_prop in Eh as [_ Eh]. }
  destruct Hmd as [n En]. rewrite En in *. cbn [default from_option id]. specialize (Hpad n eq_refl eq_refl).
  pose proof (read_hash_size_positive _ _ En) as Hn.
  destruct (Z.ltb_spec n 0) as [|_]; [lia|].
  destruct (Z.ltb_spec EVP_MAX_MD_SIZE n) as [|Hmax]; [by apply Hfatal|].
  destruct ((orig_len rec1 <? n) || _) eqn:Eshort; [by apply Hfatal|].
  apply orb_false_iff in Eshort as [Hshort%Z.ltb_ge Hcbc].
  pose proof Hfit as (Hb & Hd & Hl & Hbig & Hz).
  assert (Hroom : n <= rec_length rec1).
  { destruct (enc_read_ctx_cbc (conn s)) as [[]|]; [|lia..]. cbn in Hcbc. apply Z.ltb_ge in Hcbc. lia. }
  rewrite sz_sub by lia.
  set (rec := shortened n rec1).
  assert (Hfit' : fits block rec) by (apply shortened_fits; [done|lia]).
  destruct (fits_rdn block rec (rec_length rec) n Hfit') as (k & Hk & Hkok & Hkz); [cbn; lia..|].
  (** wherever the MAC is taken from, it is the [n] bytes after the content *)
  assert (Hmac : exists received off,
    (if default false (enc_read_ctx_cbc (conn s)) then
       '(ok, out) ← defined (tls3_cbc_copy_mac block rotated_mac_addr rotated_mac_garbage mac_tmp_garbage rec1 n);
       Ret (ok, out, 0)
     else Ret (true, block, rec_data rec1 + (rec_length rec1 - n))) = Ret (true, received, off) /\
    rdn received off n = Some k).
  { destruct (default false (enc_read_ctx_cbc (conn s))) eqn:Ec; [|by exists block, (rec_data rec1 + (rec_length rec1 - n))].
    destruct (enc_read_ctx_cbc (conn s)) as [[]|]; try done. cbn in Hcbc. apply Z.ltb_ge in Hcbc.
    destruct scratch_sizes as [Hs1 Hs2].
    destruct (fits_rdn block rec1 0 (orig_len rec1) Hfit) as (full & Hfull & Hfok & Hfz); [lia..|].
    rewrite Z.add_0_r in Hfull.
    exists (mac_bytes rec1 full n ++ drop (Z.to_nat n) mac_tmp_garbage), 0.
    rewrite (copy_mac_spec _ _ _ _ _ _ full) by (done || lia). cbn [mbind comp_bind defined]. split; [done|].
    assert (Ek : k = mac_bytes rec1 full n).
    { apply rdn_Some in Hk as (_ & _ & _ & ->). apply rdn_Some in Hfull as (_ & _ & _ & ->).
      unfold mac_bytes. cbn [rec shortened rec_data rec_length update]. 
      rewrite skipn_firstn_comm, take_take, drop_drop. f_equal; [lia|]. f_equal. lia. }
    rewrite <- Ek. rewrite rdn_spec by (rewrite ?zlen_app; pose proof (zlen_nonneg (drop (Z.to_nat n) mac_tmp_garbage)); lia).
    change (Z.to_nat 0) with 0%nat. rewrite drop_0, take_app_le by (unfold zlen in Hkz; lia).
    by rewrite take_ge by (unfold zlen in Hkz; lia). }
  destruct Hmac as (received & off & -> & Hrec). cbn [mbind comp_bind negb].
  change (upd_rrec _ s) with (reopened s (conn s) block rec).
  destruct (mac_matches_spec (reopened s (conn s) block rec) received off n k Hrec Hkok Hmax) as (ok & -> & Hright).
  cbn [mbind comp_bind defined]. eexists (Some _), (conn s), rec. split; [done|]. split; [done|]. split; [done|].
  change (rec_length (rr_body (rrec (rlayer (reopened s (conn s) block rec))))) with (rec_length rec).
  destruct (_ <? rec_length rec); [lia|]. destruct ok; cbn [negb]; [|lia]. intros _. split; [done|].
  exists n. split; [done|]. split; [done|]. destruct (Hright eq_refl) as (md & m & Hm & Hm1 & Hm2).
  exists md, m. split; [done|]. split; [done|]. congruence.
Qed.

(** What [dtls1_process_record] leaves, but for the window. *)
Definition processed (s : reader) (c : tls) (block : list Z) (rec : tls3_RECORD) (off len : Z) : reader :=
  mk_reader c
    ((rlayer s) <| rrec ::= fun r => r <| rr_off := off |> <| rr_block := block |> <| rr_body := rec |> |>
                <| packet_length := len |>) (rbio s).

Lemma processed_id s : processed s (conn s) (rr_block (rrec (rlayer s))) (rr_body (rrec (rlayer s)))
  (rr_off (rrec (rlayer s))) (packet_length (rlayer s)) = s.
Proof using. by destruct s as [? [? ? [] ? ? ? ? ? ? ? ?] ?]. Qed.

Lemma processed_fatal s al : fatal s al =
  processed s (tlsfatal (conn s) al) (rr_block (rrec (rlayer s))) (rr_body (rrec (rlayer s)))
    (rr_off (rrec (rlayer s))) (packet_length (rlayer s)).
Proof using. by destruct s as [? [? ? [] ? ? ? ? ? ? ? ?] ?]. Qed.

(** The record is at the end of the packet. *)
Definition packet_holds (packet : list Z) (len : Z) : Prop :=
  bytes_ok packet /\ 0 <= len /\ DTLS1_RT_HEADER_LENGTH + len <= zlen packet.

Lemma point_at_packet_fits s :
  let len := rec_length (rr_body (rrec (rlayer s))) in
  packet_holds (packet (rlayer s)) len -> len <= tls3_RT_MAX_ENCRYPTED_LENGTH ->
  fits (rr_block (rrec (rlayer (point_at_packet s)))) (rr_body (rrec (rlayer (point_at_packet s)))).
Proof using.
  intros len (Hb & Hl & Hz) Hmax. unfold fits. cbn. fold len.
  unfold tls3_RT_MAX_ENCRYPTED_LENGTH, tls3_RT_MAX_ENCRYPTED_OVERHEAD, tls3_RT_MAX_COMPRESSED_LENGTH,
    tls3_RT_MAX_PLAIN_LENGTH, tls3_RT_MAX_COMPRESSED_OVERHEAD, DTLS1_RT_HEADER_LENGTH, tls3_RT_MAX_MD_SIZE in *.
  split; [done|]. lia.
Qed.

Lemma decompress_spec s : fits (rr_block (rrec (rlayer s))) (rr_body (rrec (rlayer s))) ->
  exists ok c block rec, decompress s = (ok, reopened s c block rec) /\ fits block rec /\
    (ok = true -> c = conn s /\
       if expands (conn s) then tls3_do_uncompress (conn s) (rrec (rlayer s)) = Some (block, rec)
       else block = rr_block (rrec (rlayer s)) /\ rec = rr_body (rrec (rlayer s))).
Proof using laws.
  intros Hfit. unfold decompress.
  assert (Hsame : forall c, s <| conn := c |> = reopened s c (rr_block (rrec (rlayer s))) (rr_body (rrec (rlayer s)))).
  { intros c. unfold reopened. by rewrite with_body_id. }
  destruct (expands (conn s)) eqn:Ee; cbn [negb].
  2:{ exists true, (conn s), (rr_block (rrec (rlayer s))), (rr_body (rrec (rlayer s))). by rewrite reopened_id. }
  destruct (_ <? _).
  { exists false, (tlsfatal (conn s) tls_AD_RECORD_OVERFLOW). do 2 eexists. split; [f_equal; apply Hsame|done]. }
  destruct (tls3_do_uncompress _ _) as [[block rec]|] eqn:Eu.
  - exists true, (conn s), block, rec. split; [done|]. split; [by eapply uncompress_stays|]. done.
  - exists false, (tlsfatal (conn s) tls_AD_DECOMPRESSION_FAILURE). do 2 eexists. split; [f_equal; apply Hsame|done].
Qed.

Lemma processed_reopened s c b r o l c' b' r' :
  reopened (processed s c b r o l) c' b' r' = processed s c' b' r' o l.
Proof using. done. Qed.

Lemma processed_point s : point_at_packet s =
  processed s (conn s) (packet (rlayer s))
    (mk_tls3_RECORD (rec_length (rr_body (rrec (rlayer s)))) (rec_length (rr_body (rrec (rlayer s))))
       DTLS1_RT_HEADER_LENGTH DTLS1_RT_HEADER_LENGTH)
    (rr_off (rrec (rlayer s))) (packet_length (rlayer s)).
Proof using. by destruct s as [? [? ? [] ? ? ? ? ? ? ? ?] ?]. Qed.

Lemma processed_ignore s c b r o l :
  ignore (processed s c b r o l) = processed s c b (r <| rec_length := 0 |>) o 0.
Proof using. done. Qed.

Lemma processed_overflow s c b r o l al :
  fatal (processed s c b r o l) al = processed s (tlsfatal c al) b r o l.
Proof using. done. Qed.

(** Both ways out of [dtls1_process_record]. *)
Definition process_result (map_bits : Z) (s : reader) (next : bool) (x : comp (bool * reader)) : Prop :=
  exists ok c block rec off len,
    x = (if (ok : bool) then
           b ← defined (dtls1_record_bitmap_update map_bits (seq_view (rlayer s)) (bitmap_of (rlayer s) next));
           Ret (true, upd_rl (set_bitmap next b) (processed s c block rec off len))
         else Ret (false, processed s c block rec off len)) /\
    0 <= rec_length rec /\ (len = 0 \/ len = packet_length (rlayer s)) /\
    (ok = true -> len = 0 /\ off = 0 /\ opens (conn s) (rlayer (point_at_packet s)) block rec).

Lemma process_stops map_bits s next c block rec off len :
  0 <= rec_length rec -> len = 0 \/ len = packet_length (rlayer s) ->
  process_result map_bits s next (Ret (false, processed s c block rec off len)).
Proof using. intros Hr Hl. exists false, c, block, rec, off, len. by split. Qed.

Lemma process_marks map_bits s next c block rec :
  0 <= rec_length rec -> opens (conn s) (rlayer (point_at_packet s)) block rec -> forall off len,
  process_result map_bits s next
    (s' ← defined (bitmap_update map_bits
                     (reset_packet_length (upd_rrec (fun r => r <| rr_off := 0 |>) (processed s c block rec off len))) next);
     Ret (true, s')).
Proof using.
  intros Hr Ho off len. exists true, c, block, rec, 0, 0. split; [|by split_and!; [|left|]].
  unfold bitmap_update. destruct next.
  - change (bitmap_of _ true) with (next_bitmap (rlayer s)). change (seq_view _) with (seq_view (rlayer s)).
    by destruct (dtls1_record_bitmap_update _ _ _).
  - change (bitmap_of _ false) with (bitmap (rlayer s)). change (seq_view _) with (seq_view (rlayer s)).
    by destruct (dtls1_record_bitmap_update _ _ _).
Qed.

(** After the cipher. *)
Lemma process_tail map_bits s next c1 block1 rec1 off len e :
  fits block1 rec1 -> len = 0 \/ len = packet_length (rlayer s) -> e <> 0 ->
  (forall n, has_inner_mac c1 = true -> read_hash_size c1 = Some n ->
    match enc_read_ctx_cbc c1 with
    | Some true => n + 1 <= orig_len rec1 -> n <= rec_length rec1 /\ orig_len rec1 - rec_length rec1 <= 256
    | _ => rec_length rec1 = orig_len rec1
    end) ->
  let s1 := processed s c1 block1 rec1 off len in
  (forall rec2 block rec, 0 < e -> inner_mac_right c1 (rlayer s1) rec2 ->
     (if expands c1 then tls3_do_uncompress c1 (rrec (with_body block1 rec2 (rlayer s1))) = Some (block, rec)
      else block = block1 /\ rec = rec2) ->
     opens (conn s) (rlayer (point_at_packet s)) block rec) ->
  process_result map_bits s next
    ('(enc_err, s) ← check_inner_mac s1 e;
     match enc_err with
     | None => Ret (false, s)
     | Some enc_err =>
         if enc_err <? 0 then Ret (false, ignore s)
         else
           let '(ok, s) := decompress s in
           if negb ok then Ret (false, s)
           else if tls3_RT_MAX_PLAIN_LENGTH <? rec_length (rr_body (rrec (rlayer s)))
           then Ret (false, fatal s tls_AD_RECORD_OVERFLOW)
           else
             let s := reset_packet_length (upd_rrec (fun r => r <| rr_off := 0 |>) s) in
             s ← defined (bitmap_update map_bits s next);
             Ret (true, s)
     end).
Proof using laws.
  intros Hfit Hlen He Hpad s1 Hopens.
  assert (Hnn : forall block rec, fits block rec -> 0 <= rec_length rec) by (intros ? ? (_ & _ & ? & _); lia).
  destruct (check_inner_mac_spec s1 e Hfit Hpad) as (r & c2 & rec2 & -> & Hfit2 & Hr).
  assert (Es : forall c b r, reopened s1 c b r = processed s c b r off len) by (intros; apply processed_reopened).
  cbn [mbind comp_bind]. rewrite Es.
  destruct r as [e'|]; [|by apply process_stops; [by eapply Hnn|]]. destruct Hr as [-> Hr].
  change (conn s1) with c1 in *. change (rr_block (rrec (rlayer s1))) with block1 in *.
  destruct (Z.ltb_spec e' 0) as [Hneg|Hpos].
  { rewrite processed_ignore. by apply process_stops; [|left]. }
  destruct (Hr Hpos) as [-> Hinner].
  destruct (decompress_spec (processed s c1 block1 rec2 off len) Hfit2) as (ok & c3 & block3 & rec3 & -> & Hfit3 & Hdec).
  rewrite processed_reopened. destruct ok; cbn [negb]; [|by apply process_stops; [by eapply Hnn|]].
  destruct (Hdec eq_refl) as [-> Hd]. destruct (_ <? rec_length _).
  { rewrite processed_overflow. by apply process_stops; [by eapply Hnn|]. }
  apply process_marks; [by eapply Hnn|]. by eapply Hopens; [lia|exact Hinner|exact Hd].
Qed.

Lemma process_record_spec map_bits s next :
  packet_holds (packet (rlayer s)) (rec_length (rr_body (rrec (rlayer s)))) ->
  process_result map_bits s next (dtls1_process_record map_bits s next).
Proof using laws.
  intros Hp. unfold dtls1_process_record.
  destruct (Z.ltb_spec tls3_RT_MAX_ENCRYPTED_LENGTH (rec_length (rr_body (rrec (rlayer s))))) as [Hbig|Hsmall].
  { rewrite processed_fatal. apply process_stops; [exact (proj1 (proj2 Hp))|by right]. }
  pose proof (point_at_packet_fits s Hp Hsmall) as Hfit0.
  assert (Hnn : forall block rec, fits block rec -> 0 <= rec_length rec) by (intros ? ? (_ & _ & ? & _); lia).
  destruct (check_outer_mac_spec (point_at_packet s) Hfit0 eq_refl) as (ok & c0 & rec0 & Erun & Hfit1 & Hok).
  cbv zeta. rewrite Erun. cbn [mbind comp_bind]. clear Erun.
  set (block0 := rr_block (rrec (rlayer (point_at_packet s)))) in *.
  assert (Ere : reopened (point_at_packet s) c0 block0 rec0 =
    processed s c0 block0 rec0 (rr_off (rrec (rlayer s))) (packet_length (rlayer s))).
  { rewrite processed_point. apply processed_reopened. }
  destruct ok; cbn [negb].
  2:{ rewrite Ere. apply process_stops; [by eapply Hnn|by right]. }
  destruct (Hok eq_refl) as [-> Houter]. clear Hok.
  set (l0 := rlayer (reopened _ _ _ rec0)).
  assert (Hfit1' : fits (rr_block (rrec l0)) (rr_body (rrec l0))) by exact Hfit1.
  change (conn (reopened _ _ _ _)) with (conn s).
  destruct (enc (conn s) l0) as [[e [block1 rec1]] c1] eqn:Eenc.
  pose proof (enc_stays _ _ _ _ _ _ Hfit1' Eenc) as Hfit2.
  set (s1 := (upd_rrec _ _) <| conn := c1 |>).
  assert (Es1 : s1 = processed s c1 block1 rec1 (rr_off (rrec (rlayer s))) (packet_length (rlayer s))).
  { unfold s1. rewrite Ere. reflexivity. }
  rewrite Es1. clear s1 Es1.
  destruct (Z.eqb_spec e 0) as [->|He].
  { destruct (in_error _); [|rewrite processed_ignore]; (apply process_stops; [done || by eapply Hnn|auto]). }
  apply process_tail; [done|by right|done|..].
  { intros n Hh Hn. exact (enc_padding _ _ _ _ _ _ n Hfit1' Eenc He Hh Hn). }
  intros rec2 block rec Hpos Hinner Hdec. exists rec0, e, block1, rec1, c1, rec2.
  split; [exact Houter|]. split; [exact Eenc|]. split; [done|]. rewrite processed_point. split; [exact Hinner|exact Hdec].
Qed.
End Opening.

(** ** The state of a reader between two records *)

Definition packet_ok (l : RECORD_LAYER) : Prop :=
  bytes_ok (packet l) /\ 0 <= packet_length l <= zlen (packet l) /\
  (rb_buf (rbuf l) = false -> packet_length l = 0).

(** Records in the queues: one that was not processed is complete, in its packet. *)
Definition waiting_ok (i : @pitem DTLS1_RECORD_DATA) : Prop :=
  let d := PQueue.data i in
  packet_holds (rd_packet d) (rec_length (rr_body (rd_rrec d))) /\
  0 <= rd_packet_length d <= zlen (rd_packet d) /\
  (rb_buf (rd_rbuf d) = false -> rd_packet_length d = 0) /\ bytes_ok (rb_left (rd_rbuf d)).

Definition ready_ok (i : @pitem DTLS1_RECORD_DATA) : Prop :=
  let d := PQueue.data i in
  bytes_ok (rd_packet d) /\ DTLS1_RT_HEADER_LENGTH <= zlen (rd_packet d) /\
  0 <= rec_length (rr_body (rd_rrec d)) /\ rd_packet_length d = 0 /\ bytes_ok (rb_left (rd_rbuf d)).

Definition waiting (l : RECORD_LAYER) : list (@pitem DTLS1_RECORD_DATA) := items (q (unprocessed_rcds l)).
Definition ready (l : RECORD_LAYER) : list (@pitem DTLS1_RECORD_DATA) := items (q (processed_rcds l)).

Definition layer_ok (l : RECORD_LAYER) : Prop :=
  seq_ok (rl_read_sequence l) /\ packet_ok l /\ 0 <= rec_length (rr_body (rrec l)) /\
  bytes_ok (rb_left (rbuf l)) /\
  queue_ok (q (unprocessed_rcds l)) /\ Forall waiting_ok (waiting l) /\
  queue_ok (q (processed_rcds l)) /\ Forall ready_ok (ready l).

Definition bio_ok (bio : option (list (list Z))) : Prop :=
  match bio with Some datagrams => Forall bytes_ok datagrams | None => True end.

Definition reader_ok (s : reader) : Prop := layer_ok (rlayer s) /\ bio_ok (rbio s).

(** The bytes that are still to be looked at, those of waiting records included; each counts
    twice, for a byte that is read may make a record wait. *)
Definition bio_weight (bio : option (list (list Z))) : nat :=
  match bio with Some datagrams => sum_list_with (fun d => S (length d)) datagrams | None => 0 end.
Definition item_weight (i : @pitem DTLS1_RECORD_DATA) : nat :=
  S (2 * length (rb_left (rd_rbuf (PQueue.data i)))).
Definition weight (s : reader) : nat :=
  2 * bio_weight (rbio s) + 2 * length (rb_left (rbuf (rlayer s)))
  + sum_list_with item_weight (waiting (rlayer s)).

(** ** Reading bytes *)

(** What [tls3_read_n] changes. *)
Definition refilled (s : reader) (c : tls) (b : tls3_BUFFER) (pkt : list Z) (len : Z)
  (bio : option (list (list Z))) : reader :=
  mk_reader c ((rlayer s) <| rbuf := b |> <| packet := pkt |> <| packet_length := len |>) bio.

Lemma refilled_ok s c b pkt len bio : reader_ok s ->
  bytes_ok pkt -> 0 <= len <= zlen pkt -> (rb_buf b = false -> len = 0) -> bytes_ok (rb_left b) -> bio_ok bio ->
  reader_ok (refilled s c b pkt len bio).
Proof. intros [(H1 & _ & H3 & _ & H5) _] Hp Hl Hb Hleft Hbio. by split_and!. Qed.

Section Bytes.
Context `{Malloc} `{RecordProtection}.
Variable align : Z.

Definition read_spec (s : reader) (n : Z) (extend : bool) (x : Z * Z * reader) : Prop :=
  let before := if extend then packet_length (rlayer s) else 0 in
  exists ret k c b pkt len bio,
    x = (ret, k, refilled s c b pkt len bio) /\ reader_ok (refilled s c b pkt len bio) /\
    (weight (refilled s c b pkt len bio) <= weight s)%nat /\
    (0 < ret -> 0 < k <= n /\ len = before + k /\ zlen pkt = len /\
       (S (weight (refilled s c b pkt len bio)) < weight s)%nat).

Lemma read_nothing s n extend ret k c b pkt len bio : reader_ok s ->
  ret <= 0 -> bytes_ok pkt -> 0 <= len <= zlen pkt -> (rb_buf b = false -> len = 0) ->
  rb_left b = rb_left (rbuf (rlayer s)) -> bio_ok bio -> (bio_weight bio <= bio_weight (rbio s))%nat ->
  read_spec s n extend (ret, k, refilled s c b pkt len bio).
Proof using.
  intros Hs Hr Hp Hl Hb Hleft Hbio Hw. exists ret, k, c, b, pkt, len, bio. split; [done|].
  split; [apply refilled_ok; try done; rewrite Hleft; apply Hs|].
  split; [|lia]. unfold weight. cbn. rewrite Hleft. unfold waiting. cbn. lia.
Qed.

Lemma refilled_id s : refilled s (conn s) (rbuf (rlayer s)) (packet (rlayer s)) (packet_length (rlayer s)) (rbio s) = s.
Proof using. by destruct s as [? [] ?]. Qed.

Lemma refilled_refilled s c b pkt len bio c' b' pkt' len' bio' :
  refilled (refilled s c b pkt len bio) c' b' pkt' len' bio' = refilled s c' b' pkt' len' bio'.
Proof using. done. Qed.

Lemma setup_read_buffer_spec s : packet_length (rlayer s) = 0 -> bytes_ok (packet (rlayer s)) ->
  exists ok c b pkt, tls3_setup_read_buffer s = (ok, refilled s c b pkt 0 (rbio s)) /\
    bytes_ok pkt /\ rb_left b = rb_left (rbuf (rlayer s)) /\ (ok = true -> rb_buf b = true).
Proof using.
  intros Hl Hp. unfold tls3_setup_read_buffer. destruct (rb_buf (rbuf (rlayer s))) eqn:Eb.
  - exists true, (conn s), (rbuf (rlayer s)), []. split; [|by split; [constructor|]].
    f_equal. unfold refilled. rewrite <- Hl. by destruct s as [? [] ?].
  - destruct (CRYPTO_malloc _) as [blk|].
    + eexists true, (conn s), _, []. split; [unfold refilled; rewrite <- Hl; reflexivity|].
      by split; [constructor|].
    + exists false, (tlsfatal (conn s) tls_AD_NO_ALERT), (rbuf (rlayer s)), (packet (rlayer s)).
      split; [|by split_and!]. f_equal. unfold refilled, fatal. rewrite <- Hl. by destruct s as [? [] ?].
Qed.

(** The first steps: a buffer, and where the packet starts. *)
Lemma read_n_starts s (extend : bool) : reader_ok s ->
  exists ok c b pkt len,
    (let '(ok, s) := if rb_buf (rbuf (rlayer s)) then (true, s) else tls3_setup_read_buffer s in
     (ok, if ok then if extend then s else upd_rl (fun l => l <| packet := [] |> <| packet_length := 0 |>) s
          else s)) = (ok, refilled s c b pkt len (rbio s)) /\
    bytes_ok pkt /\ 0 <= len <= zlen pkt /\ rb_left b = rb_left (rbuf (rlayer s)) /\
    (rb_buf b = false -> len = 0) /\
    (ok = true -> rb_buf b = true /\ len = if extend then packet_length (rlayer s) else 0).
Proof using.
  intros Hs. pose proof Hs as [(_ & (Hpb & Hpl & Hpbuf) & _) _].
  destruct (rb_buf (rbuf (rlayer s))) eqn:Eb.
  - exists true, (conn s), (rbuf (rlayer s)).
    destruct extend.
    + exists (packet (rlayer s)), (packet_length (rlayer s)). rewrite refilled_id. split; [done|].
      split; [done|]. split; [lia|]. split; [done|]. split; [congruence|by rewrite Eb].
    + exists [], 0. split; [by destruct s as [? [] ?]|]. split; [constructor|].
      split; [done|]. split; [done|]. split; [done|by rewrite Eb].
  - specialize (Hpbuf eq_refl).
    destruct (setup_read_buffer_spec s Hpbuf Hpb) as (ok & c & b & pkt & -> & Hp & Hl & Hb).
    pose proof (zlen_nonneg pkt) as Hz.
    destruct ok; [|exists false, c, b, pkt, 0; split; [done|]; split; [done|]; split; [lia|]; by split_and!].
    destruct extend.
    + exists true, c, b, pkt, 0. rewrite Hpbuf. split; [done|]. split; [done|]. split; [lia|]. split; [done|]. split; [done|by auto].
    + exists true, c, b, [], 0. split; [done|]. split; [constructor|]. split; [done|]. split; [done|]. split; [done|by auto].
Qed.

(** Taking the first [k] of [bytes]. *)
Lemma take_spec s n (extend : bool) c b pkt len bio bytes k bio' c' o : reader_ok s ->
  bytes_ok pkt -> 0 <= len <= zlen pkt -> rb_buf b = true -> bytes_ok bytes ->
  len = (if extend then packet_length (rlayer s) else 0) ->
  0 < k <= n -> k <= zlen bytes -> bio_ok bio' ->
  (bio_weight bio' + length bytes <= bio_weight (rbio s) + length (rb_left (rbuf (rlayer s))))%nat ->
  read_spec s n extend
    (1, k, refilled (refilled s c b pkt len bio) c'
             (mk_tls3_BUFFER (rb_buf b) (rb_default_len b) (rb_len b) o (drop (Z.to_nat k) bytes))
             (take (Z.to_nat len) pkt ++ take (Z.to_nat k) bytes) (len + k) bio').
Proof using.
  intros Hs Hp Hl Hb Hbytes Hlen Hk Hkb Hbio Hw. rewrite refilled_refilled.
  eexists 1, k, _, _, _, _, _. split; [reflexivity|].
  assert (Hz : zlen (take (Z.to_nat len) pkt ++ take (Z.to_nat k) bytes) = len + k).
  { rewrite zlen_app, !zlen_take by lia. done. }
  assert (Hd : (length (drop (Z.to_nat k) bytes) < length bytes)%nat) by (rewrite length_drop; unfold zlen in *; lia).
  assert (Hlt : (S (weight (refilled s c' (mk_tls3_BUFFER (rb_buf b) (rb_default_len b) (rb_len b) o (drop (Z.to_nat k) bytes))
             (take (Z.to_nat len) pkt ++ take (Z.to_nat k) bytes) (len + k) bio')) < weight s)%nat).
  { unfold weight, waiting. cbn [refilled rlayer rbuf rb_left rbio update unprocessed_rcds]. lia. }
  split; [|split; [lia|]].
  - apply refilled_ok; try done.
    + apply bytes_ok_app. split; by apply Forall_take.
    + lia.
    + cbn [rb_buf]. congruence.
    + by apply Forall_drop.
  - intros _. split; [done|]. split; [by rewrite Hlen|]. split; [done|exact Hlt].
Qed.

Lemma tls3_read_n_spec s n max extend n0 :
  reader_ok s -> 0 < n -> read_spec s n extend (tls3_read_n align s n max extend n0).
Proof using.
  intros Hs Hn. pose proof Hs as [_ Hbio]. pose proof Hs as [(_ & _ & _ & Hleft & _) _].
  unfold tls3_read_n. destruct (Z.eqb_spec n 0) as [|_]; [lia|].
  destruct (read_n_starts s extend Hs) as (ok & c & b & pkt & len & Hrun & Hp & Hl & Hleq & Hb & Hok).
  destruct (if rb_buf (rbuf (rlayer s)) then _ else _) as [ok' s'].
  apply pair_equal_spec in Hrun as [-> Hs']. destruct ok; cbn [negb].
  2:{ rewrite Hs'. by apply read_nothing. }
  destruct (Hok eq_refl) as [Hbt Hlen]. clear Hok. cbv zeta. rewrite Hs'. clear Hs' s'.
  change (packet_length (rlayer (refilled s c b pkt len (rbio s)))) with len.
  change (packet (rlayer (refilled s c b pkt len (rbio s)))) with pkt.
  change (rb_left (rbuf (rlayer (refilled s c b pkt len (rbio s))))) with (rb_left b).
  rewrite Hleq. set (left := rb_left (rbuf (rlayer s))) in *.
  set (b1 := b <| rb_offset := len + align |>).
  change (upd_rl (fun l => l <| rbuf .: rb_offset := len + align |>) (refilled s c b pkt len (rbio s)))
    with (refilled s c b1 pkt len (rbio s)).
  assert (Hstay : forall ret c', ret <= 0 -> read_spec s n extend (ret, n0, refilled s c' b1 pkt len (rbio s))).
  { intros ret c' Hret. by apply read_nothing. }
  destruct ((zlen left =? 0) && extend); [by apply Hstay|].
  set (n' := if (0 <? zlen left) && (zlen left <? n) then zlen left else n).
  pose proof (zlen_nonneg left) as Hz.
  assert (Hn' : 0 < n' <= n).
  { unfold n'. destruct (Z.ltb_spec 0 (zlen left)), (Z.ltb_spec (zlen left) n); cbn; lia. }
  destruct (Z.leb_spec n' (zlen left)) as [Henough|Hmore].
  { apply (take_spec s n extend c b pkt len (rbio s) left n' (rbio s) c); done || lia. }
  cbv zeta. set (room := sz _). destruct (room <? n'); [by apply (Hstay (-1))|].
  set (most := if room <? _ then _ else _).
  change (rbio (refilled s c b1 pkt len (rbio s))) with (rbio s).
  destruct (rbio s) as [[|datagram others]|] eqn:Ebio.
  - by apply (Hstay (-1)).
  - apply Forall_cons_1 in Hbio as [Hd Hbio].
    set (bytes := take (Z.to_nat most) datagram).
    assert (Hbz : (length bytes <= length datagram)%nat) by (unfold bytes; rewrite length_take; lia).
    destruct (Z.eqb_spec (zlen bytes) 0) as [E|E].
    + apply read_nothing; try done. rewrite Ebio. cbn [bio_weight sum_list_with]. lia.
    + pose proof (zlen_nonneg bytes) as Hbn.
      apply (take_spec s n extend c b pkt len (rbio s) bytes _ (Some others)); try done.
      * by apply Forall_take.
      * destruct (Z.ltb_spec (zlen bytes) n'); lia.
      * destruct (Z.ltb_spec (zlen bytes) n'); lia.
      * rewrite Ebio. cbn [bio_weight sum_list_with]. fold left. lia.
  - by apply (Hstay (-1)).
Qed.
End Bytes.

(** ** What has been delivered *)

(** A record as it is handed to the layer above. *)
Record delivery := mk_delivery {
  d_epoch : Z;
  d_number : Z;
  d_type : Z;
  d_content : list Z
}.

Definition content (block : list Z) (rec : tls3_RECORD) (off : Z) : list Z :=
  take (Z.to_nat (rec_length rec)) (drop (Z.to_nat (rec_data rec + off)) block).

Definition delivery_of (rr : DTLS_RECORD) : delivery :=
  mk_delivery (rr_epoch rr) (be_val (rr_seq_num rr)) (rr_type rr)
    (content (rr_block rr) (rr_body rr) (rr_off rr)).

Definition id_of (d : delivery) : Z * Z := (d_epoch d, d_number d).

(** The records that were opened in advance. *)
Definition ready_records (l : RECORD_LAYER) : list delivery :=
  map (fun i => delivery_of (rd_rrec (PQueue.data i))) (ready l).

Section Safety.
Context `{RecordProtection}.
Variable map_bits : Z.

(** A delivery is genuine: a record of this epoch, with this number, opened to it. *)
Definition genuine (d : delivery) : Prop :=
  exists c l block rec, opens c l block rec /\
    r_epoch l = d_epoch d /\ rr_epoch (rrec l) = d_epoch d /\ rr_type (rrec l) = d_type d /\
    be_val (rl_read_sequence l) = d_number d /\ content block rec 0 = d_content d.

(** After the records [T] were delivered, and with [seen] marked in the window. *)
Definition safe_with (seen : gset Z) (T : list delivery) (l : RECORD_LAYER) : Prop :=
  let all := T ++ ready_records l in
  NoDup (map id_of all) /\ Forall genuine all /\ Forall (fun d => d_epoch d <= r_epoch l) all /\
  Forall (fun d => d_epoch d = r_epoch l -> d_number d ∈ seen) all /\
  represents map_bits (bitmap l) seen /\ represents map_bits (next_bitmap l) ∅.

Definition safe (T : list delivery) (l : RECORD_LAYER) : Prop := exists seen, safe_with seen T l.

(** Another record, of the current epoch and not seen before. *)
Lemma safe_adds seen T l d b :
  safe_with seen T l -> d_epoch d = r_epoch l -> d_number d ∉ seen -> genuine d ->
  represents map_bits b ({[d_number d]} ∪ seen) ->
  safe_with ({[d_number d]} ∪ seen) (T ++ [d]) (l <| bitmap := b |>).
Proof using.
  intros (Hnd & Hg & He & Hs & Hr & Hn) Hd Hnew Hgen Hb. unfold safe_with.
  change (ready_records (l <| bitmap := b |>)) with (ready_records l).
  assert (Hp : (T ++ [d]) ++ ready_records l ≡ₚ d :: T ++ ready_records l).
  { rewrite <- app_assoc. cbn. by rewrite <- Permutation_middle. }
  split; [|split; [|split; [|split; [|by split]]]].
  - rewrite Hp. cbn [map]. constructor; [|done]. intros (d' & Eid & Hin)%list_elem_of_fmap.
    apply list_elem_of_In in Hin. rewrite List.Forall_forall in Hs. specialize (Hs d' Hin). unfold id_of in Eid. injection Eid as E1 E2.
    rewrite E2 in Hnew. apply Hnew, Hs. congruence.
  - rewrite Hp. by constructor.
  - rewrite Hp. constructor; [cbn; lia|done].
  - rewrite Hp. constructor; [intros _; set_solver|].
    eapply Forall_impl; [|exact Hs]. intros x Hx Ex. apply elem_of_union_r, Hx, Ex.
Qed.

(** The order of what was delivered and what is ready does not matter, and some of it may
    be forgotten. *)
Lemma safe_perm seen T T' l l' :
  safe_with seen T l -> T' ++ ready_records l' ⊆+ T ++ ready_records l ->
  r_epoch l' = r_epoch l -> bitmap l' = bitmap l -> next_bitmap l' = next_bitmap l ->
  safe_with seen T' l'.
Proof using.
  intros (Hnd & Hg & He & Hs & Hr & Hn) [k Hk]%submseteq_Permutation Ee Eb En. unfold safe_with.
  rewrite Ee, Eb, En. rewrite Hk in Hnd, Hg, He, Hs. rewrite map_app in Hnd. rewrite Forall_app in Hg, He, Hs.
  split; [by apply list.NoDup_app in Hnd as [? _]|]. by destruct Hg, He, Hs.
Qed.

(** A new epoch begins with an empty window. *)
Lemma safe_new_epoch seen T l l' :
  safe_with seen T l -> r_epoch l' = r_epoch l + 1 -> ready_records l' = ready_records l ->
  bitmap l' = next_bitmap l -> next_bitmap l' = empty_bitmap -> 0 < map_bits <= 128 -> safe T l'.
Proof using.
  intros (Hnd & Hg & He & Hs & Hr & Hn) Ee Er Eb En Hm. exists ∅. unfold safe_with. rewrite Ee, Er, Eb, En.
  split; [done|]. split; [done|]. split; [|split; [|split; [done|by apply represents_empty]]];
    (eapply Forall_impl; [|exact He]); cbn; intros d Hd; lia.
Qed.
End Safety.

(** ** The steps of reading a record *)

(** A reader of which only the buffer, the packet and the record have changed. *)
Definition rebuffered (s : reader) (c : tls) (b : tls3_BUFFER) (rr : DTLS_RECORD) (pkt : list Z) (len : Z)
  (bio : option (list (list Z))) : reader :=
  mk_reader c ((rlayer s) <| rbuf := b |> <| rrec := rr |> <| packet := pkt |> <| packet_length := len |>) bio.

Lemma rebuffered_ok s c b rr pkt len bio : reader_ok s ->
  bytes_ok pkt -> 0 <= len <= zlen pkt -> (rb_buf b = false -> len = 0) -> bytes_ok (rb_left b) ->
  0 <= rec_length (rr_body rr) -> bio_ok bio -> reader_ok (rebuffered s c b rr pkt len bio).
Proof. intros [(H1 & _ & H3 & _ & H5) _] Hp Hl Hb Hleft Hr Hbio. by split_and!. Qed.

Lemma rebuffered_id s : rebuffered s (conn s) (rbuf (rlayer s)) (rrec (rlayer s)) (packet (rlayer s))
  (packet_length (rlayer s)) (rbio s) = s.
Proof. by destruct s as [? [] ?]. Qed.

Section Steps.
Context `{Malloc} `{RecordProtection} {laws : ProtectionLaws}.
Variable map_bits : Z.
Variable align : Z.
Hypothesis map_bits_ok : 0 < map_bits <= 128.

Definition numbered (s : reader) (seq : list Z) : reader :=
  upd_rrec (fun r => r <| rr_seq_num := seq |>) s.

Lemma numbered_same s : numbered s (rr_seq_num (rrec (rlayer s))) = s.
Proof using. by destruct s as [? [? ? [] ? ? ? ? ? ? ? ?] ?]. Qed.

Lemma replay_checked s next seen :
  seq_ok (rl_read_sequence (rlayer s)) -> represents map_bits (bitmap_of (rlayer s) next) seen ->
  (replay_check map_bits s next = Some (true, numbered s (rl_read_sequence (rlayer s))) /\
   be_val (rl_read_sequence (rlayer s)) ∉ seen) \/
  replay_check map_bits s next = Some (false, s).
Proof using map_bits_ok.
  intros Hs Hr. unfold replay_check. rewrite (replay_check_spec map_bits map_bits_ok _ seen) by done.
  change (read_sequence (seq_view (rlayer s))) with (rl_read_sequence (rlayer s)).
  destruct (fresh _ _ _ _) eqn:Ef.
  - left. split; [done|]. unfold fresh in Ef. by apply bool_decide_eq_true in Ef as [Ef _].
  - right. cbn [mbind option_bind]. unfold seq_view at 1. cbn [rrec_seq_num]. do 2 f_equal. apply numbered_same.
Qed.

Lemma seq_prio l : seq_ok l -> prio_ok l.
Proof using. intros [Hb Hz]. split; [done|]. unfold zlen, SEQ_NUM_SIZE in Hz. lia. Qed.

(** What [dtls1_buffer_record] does: nothing to the queue when it is full, out of memory or
    has a record of this number, otherwise it adds the record; the buffer goes with it. *)
Definition buffer_result (s : reader) (queue : record_pqueue) (prio : list Z)
  (x : comp (Z * record_pqueue * reader)) : Prop :=
  let l := rlayer s in
  let rdata := mk_DTLS1_RECORD_DATA (packet l) (packet_length l) (rbuf l) (rrec l) in
  exists ret queue' c b rr pkt len,
    x = Ret (ret, queue', rebuffered s c b rr pkt len (rbio s)) /\
    reader_ok (rebuffered s c b rr pkt len (rbio s)) /\ queue_ok (q queue') /\
    q_epoch queue' = q_epoch queue /\ ret <= 1 /\ (len = packet_length l \/ len = 0) /\
    ((rb_left b = rb_left (rbuf l) /\ items (q queue') = items (q queue)) \/
     (rb_left b = [] /\ items (q queue') = items (q queue)) \/
     (rb_left b = [] /\ Permutation (items (q queue')) (mk_pitem prio rdata :: items (q queue)))).

Lemma not_buffered s queue prio ret c : reader_ok s -> queue_ok (q queue) -> ret <= 1 ->
  buffer_result s queue prio (Ret (ret, queue, mk_reader c (rlayer s) (rbio s))).
Proof using.
  intros Hs Hq Hret. set (l := rlayer s).
  exists ret, queue, c, (rbuf l), (rrec l), (packet l), (packet_length l).
  assert (E : rebuffered s c (rbuf l) (rrec l) (packet l) (packet_length l) (rbio s) = mk_reader c l (rbio s)).
  { unfold rebuffered, l. by destruct s as [? [] ?]. }
  rewrite E. split; [done|]. split; [exact Hs|]. do 2 (split; [done|]). split; [lia|].
  split; [by left|by left].
Qed.

Lemma buffer_record_spec s queue prio :
  reader_ok s -> queue_ok (q queue) -> prio_ok prio ->
  buffer_result s queue prio (dtls1_buffer_record s queue prio).
Proof using.
  intros Hs Hq Hp. unfold dtls1_buffer_record.
  destruct (_ <=? _).
  { replace (Ret (0, queue, s)) with (Ret (0, queue, mk_reader (conn s) (rlayer s) (rbio s))) by by destruct s.
    by apply not_buffered. }
  cbv zeta. set (rdata := mk_DTLS1_RECORD_DATA _ _ _ _). unfold pitem_new.
  assert (Hnone : buffer_result s queue prio (Ret (-1, queue, fatal s tls_AD_INTERNAL_ERROR))).
  { by apply (not_buffered s queue prio (-1) (tlsfatal (conn s) tls_AD_INTERNAL_ERROR)). }
  destruct (CRYPTO_malloc sizeof_pitem) as [blk|]; cbn [mbind option_bind comp_bind defined].
  2:{ by destruct (CRYPTO_malloc sizeof_DTLS1_RECORD_DATA). }
  destruct Hp as [Hpb Hpl]. rewrite rdn_spec by (unfold zlen; lia).
  rewrite drop_0, take_ge by lia. cbn [mbind option_bind comp_bind defined].
  destruct (CRYPTO_malloc sizeof_DTLS1_RECORD_DATA) as [blk'|]; [|done].
  set (s0 := upd_rl _ s).
  destruct (setup_read_buffer_spec s0 eq_refl) as (ok & c & b & pkt & Hrun & Hpk & Hleft & Hb); [constructor|].
  unfold tls3_setup_buffers. rewrite Hrun.
  assert (Hok : forall c, reader_ok (refilled s0 c b pkt 0 (rbio s0))).
  { intros c'. pose proof (zlen_nonneg pkt).
    apply (rebuffered_ok s c' b blank_record pkt 0 (rbio s)); try done; try lia; [|apply Hs].
    rewrite Hleft. constructor. }
  assert (Hend : forall ret queue' c, ret <= 1 -> queue_ok (q queue') -> q_epoch queue' = q_epoch queue ->
    items (q queue') = items (q queue) \/ items (q queue') ≡ₚ mk_pitem prio rdata :: items (q queue) ->
    buffer_result s queue prio (Ret (ret, queue', refilled s0 c b pkt 0 (rbio s0)))).
  { intros ret queue' c' Hret Hq' He Hi. exists ret, queue', c', b, blank_record, pkt, 0. split; [done|].
    split; [apply Hok|]. do 3 (split; [done|]). split; [by right|]. right. destruct Hi; [left|right]; by split. }
  assert (Hadd : forall c, buffer_result s queue prio
    ('(_, q') ← defined (pqueue_insert (q queue) (mk_pitem prio rdata));
     Ret (1, queue <| q := q' |>, refilled s0 c b pkt 0 (rbio s0)))).
  { intros c'. destruct (pqueue_insert_correct (q queue) (mk_pitem prio rdata) Hq (conj Hpb Hpl))
      as (r & pq' & -> & Hpq & Hr). cbn [mbind comp_bind defined].
    apply Hend; [done|done|done|]. destruct (existsb _ _); destruct Hr as [_ Hr]; [left|right]; [by subst|done]. }
  destruct ok; cbn [negb]; [|by apply Hend; auto].
  change (conn (refilled s0 c b pkt 0 (rbio s0))) with c.
  destruct (tls3_setup_write_buffer c) as [ok c']. change ((refilled s0 c b pkt 0 (rbio s0)) <| conn := c' |>)
    with (refilled s0 c' b pkt 0 (rbio s0)).
  destruct ok; cbn [negb]; [apply Hadd|by apply Hend; auto].
Qed.

(** Retrieving a record. *)
Lemma copy_record_spec s rdata :
  reader_ok s -> DTLS1_RT_HEADER_LENGTH <= zlen (rd_packet rdata) -> bytes_ok (rd_packet rdata) ->
  exists seq, dtls1_copy_record s rdata =
    Some (upd_rl (fun l => l <| rl_read_sequence := seq |>)
      (rebuffered s (conn s) (rd_rbuf rdata) (rd_rrec rdata) (rd_packet rdata) (rd_packet_length rdata) (rbio s))) /\
    seq_ok seq.
Proof using.
  intros [(Hseq & _) _] Hz Hb. unfold dtls1_copy_record, DTLS1_RT_HEADER_LENGTH in *.
  rewrite rdn_spec by lia. cbn [mbind option_bind]. destruct Hseq as [Hsb Hsz]. unfold SEQ_NUM_SIZE in Hsz.
  set (number := take _ _).
  assert (Hn : zlen number = 6) by (unfold number; rewrite zlen_take; [done|rewrite zlen_drop by lia; lia]).
  rewrite wrn_spec by lia. cbn [mbind option_bind]. eexists. split; [done|]. split.
  - apply bytes_ok_app. split; [by apply Forall_take|]. apply bytes_ok_app.
    split; [by apply Forall_take, Forall_drop|by apply Forall_drop].
  - unfold zlen, SEQ_NUM_SIZE in *. rewrite !length_app, length_take, length_drop. lia.
Qed.

(** The part of the state on which replay protection rests. *)
Definition same_replay (l l' : RECORD_LAYER) : Prop :=
  r_epoch l' = r_epoch l /\ bitmap l' = bitmap l /\ next_bitmap l' = next_bitmap l /\
  unprocessed_rcds l' = unprocessed_rcds l /\ processed_rcds l' = processed_rcds l.

(** A header has been read, the body is next. *)
Definition busy (s : reader) : bool :=
  (rstate (rlayer s) =? tls_ST_READ_BODY) && (DTLS1_RT_HEADER_LENGTH <=? packet_length (rlayer s)).

Lemma discard_ok s : reader_ok s -> reader_ok (discard s) /\ busy (discard s) = false.
Proof using.
  intros Hs. pose proof Hs as [(K1 & (K2 & K3 & K4) & K5 & H6) Hb]. pose proof (zlen_nonneg (packet (rlayer s))).
  split; [|unfold busy; cbn; by rewrite andb_false_r].
  split; [|done]. split; [done|]. split; [split; [done|split; [cbn; lia|done]]|]. by split.
Qed.

Lemma ignore_ok s : reader_ok s -> reader_ok (ignore s) /\ busy (ignore s) = false.
Proof using.
  intros Hs. pose proof Hs as [(K1 & (K2 & K3 & K4) & K5 & H6) Hb]. pose proof (zlen_nonneg (packet (rlayer s))).
  split; [|unfold busy; cbn; by rewrite andb_false_r].
  split; [|done]. split; [done|]. split; [split; [done|split; [cbn; lia|done]]|]. by split.
Qed.

Definition header_result (s : reader) (x : comp (next_step * reader)) : Prop :=
  exists next s', x = Ret (next, s') /\ reader_ok s' /\ (weight s' <= weight s)%nat /\
    same_replay (rlayer s) (rlayer s') /\
    match next with
    | Return r => r <= 0
    | Again => busy s' = false /\ (weight s' < weight s)%nat
    | GoOn => busy s' = true /\ ((busy s = true /\ s' = s) \/ (S (weight s') < weight s)%nat)
    end.

Lemma parse_header_spec s : reader_ok s -> zlen (packet (rlayer s)) = DTLS1_RT_HEADER_LENGTH ->
  exists vers seq type epoch len,
    parse_header s = Some (vers,
      upd_rrec (fun r => (set_length len r) <| rr_type := type |> <| rr_epoch := epoch |> <| rr_read := false |>)
        (s <| rlayer .: rl_read_sequence := seq |>)) /\ seq_ok seq /\ 0 <= len.
Proof using.
  intros [((Hsb & Hsz) & (Hpb & _) & _) _] Hz. unfold parse_header, DTLS1_RT_HEADER_LENGTH, SEQ_NUM_SIZE in *.
  destruct (rd_in (packet (rlayer s)) 0 ltac:(lia)) as [type ->]. cbn [mbind option_bind].
  rewrite !rdn_spec by lia. cbn [mbind option_bind]. set (number := take (Z.to_nat 6) _). set (len := take _ (drop (Z.to_nat 11) _)).
  assert (Hn : zlen number = 6) by (unfold number; rewrite zlen_take; [done|rewrite zlen_drop by lia; lia]).
  rewrite wrn_spec by lia. cbn [mbind option_bind]. do 5 eexists. split; [reflexivity|]. split; [split|].
  - apply bytes_ok_app. split; [by apply Forall_take|]. apply bytes_ok_app.
    split; [by apply Forall_take, Forall_drop|by apply Forall_drop].
  - unfold zlen, SEQ_NUM_SIZE in *. rewrite !length_app, length_take, length_drop. lia.
  - apply be_val_bound. by apply Forall_take, Forall_drop.
Qed.

Lemma get_header_spec s : reader_ok s -> header_result s (get_header align s).
Proof using.
  intros Hs. unfold get_header.
  destruct ((rstate (rlayer s) =? tls_ST_READ_BODY) && _) eqn:Eb.
  { exists GoOn, s. split; [done|]. split; [done|]. split; [done|]. split; [by split_and!|]. split; [done|]. left. by split. }
  destruct (tls3_read_n_spec align s DTLS1_RT_HEADER_LENGTH (rb_len (rbuf (rlayer s))) false 0 Hs ltac:(done))
    as (ret & k & c & b & pkt & len & bio & -> & Hok & Hw & Hread).
  set (s1 := refilled s c b pkt len bio) in *.
  destruct (Z.leb_spec ret 0) as [Hret|Hret].
  { exists (Return ret), s1. split; [done|]. split; [done|]. split; [done|]. split; [by split_and!|done]. }
  destruct (Hread Hret) as (Hk & Hlen & Hpk & Hlt). rewrite Z.add_0_l in Hlen.
  change (packet_length (rlayer s1)) with len.
  destruct (Z.eqb_spec len DTLS1_RT_HEADER_LENGTH) as [Elen|Elen]; cbn [negb].
  2:{ exists Again, (reset_packet_length s1). split; [done|].
      destruct Hok as [(K1 & (K2 & K3 & K4) & K5) Hb]. split.
      { split; [|done]. split; [done|]. split; [split; [done|split; [cbn; lia|done]]|done]. }
      split; [done|]. split; [by split_and!|]. split; [unfold busy; cbn; by rewrite andb_false_r|].
      change (weight (reset_packet_length s1)) with (weight s1). lia. }
  set (s2 := s1 <| rlayer .: rstate := tls_ST_READ_BODY |>).
  set (s3 := if msg_callback (conn s2) then _ else s2).
  assert (K3 : exists c', s3 = mk_reader c' (rlayer s2) bio) by (unfold s3; case_if; by eexists).
  destruct K3 as [c' ->]. assert (Hok2 : reader_ok (mk_reader c' (rlayer s2) bio)) by exact Hok.
  destruct (parse_header_spec _ Hok2) as (vers & seq & type & epoch & n & -> & Hseq & Hn).
  { change (zlen pkt = DTLS1_RT_HEADER_LENGTH). congruence. }
  cbn [mbind comp_bind defined]. set (s4 := upd_rrec _ _).
  assert (Hok4 : reader_ok s4).
  { destruct Hok as [(K1 & K2 & _ & K5) Hb]. split; [|done]. split; [done|]. split; [exact K2|]. split; [done|exact K5]. }
  destruct (acceptable_header s4 vers); cbn [negb].
  - exists GoOn, s4. split; [done|]. split; [done|]. split; [exact Hw|]. split; [by split_and!|].
    split; [|right; exact Hlt]. unfold busy. change (packet_length (rlayer s4)) with len. by rewrite Elen.
  - destruct (discard_ok s4 Hok4) as [Hd1 Hd2].
    exists Again, (discard s4). split; [done|]. split; [done|]. split; [exact Hw|]. split; [by split_and!|].
    split; [done|]. change (weight (discard s4)) with (weight s1). lia.
Qed.

Definition body_result (s : reader) (x : comp (next_step * reader)) : Prop :=
  exists next s', x = Ret (next, s') /\ reader_ok s' /\ (weight s' <= weight s)%nat /\
    same_replay (rlayer s) (rlayer s') /\
    match next with
    | Return r => r <= 0
    | Again => busy s' = false
    | GoOn => rr_epoch (rrec (rlayer s')) = rr_epoch (rrec (rlayer s)) /\
              packet_holds (packet (rlayer s')) (rec_length (rr_body (rrec (rlayer s'))))
    end.

Lemma get_body_spec s : reader_ok s -> busy s = true -> body_result s (get_body align s).
Proof using.
  intros Hs [_ Hbusy%Z.leb_le]%andb_prop. unfold get_body.
  pose proof Hs as [(_ & (Hpb & Hpl & _) & Hlen & _) _].
  set (more := rec_length (rr_body (rrec (rlayer s)))) in *.
  destruct (Z.ltb_spec (sz (packet_length (rlayer s) - DTLS1_RT_HEADER_LENGTH)) more) as [Hmore|Henough].
  2:{ exists GoOn, s. split; [done|]. split; [done|]. split; [done|]. split; [by split_and!|].
      split; [done|]. split; [done|]. split; [done|]. unfold sz in Henough.
      pose proof (Z.mod_le (packet_length (rlayer s) - DTLS1_RT_HEADER_LENGTH) (2 ^ 64)). fold more. lia. }
  pose proof (sz_range (packet_length (rlayer s) - DTLS1_RT_HEADER_LENGTH)) as Hsz.
  destruct (tls3_read_n_spec align s more more true 0 Hs ltac:(lia))
    as (ret & k & c & b & pkt & len & bio & -> & Hok & Hw & Hread).
  set (s1 := refilled s c b pkt len bio) in *.
  destruct ((ret <=? 0) || _) eqn:Eret.
  { destruct (in_error s1).
    - exists (Return (-1)), s1. split; [done|]. split; [done|]. split; [done|]. by split; [split_and!|].
    - destruct (discard_ok s1 Hok) as [Hd1 Hd2]. exists Again, (discard s1). split; [done|]. split; [done|].
      split; [exact Hw|]. by split; [split_and!|]. }
  apply orb_false_iff in Eret as [Eret%Z.leb_gt Ek%negb_false_iff%Z.eqb_eq].
  destruct (Hread Eret) as (_ & Hl & Hpk & _).
  exists GoOn, s1. split; [done|]. split; [done|]. split; [done|]. split; [by split_and!|].
  split; [done|]. split; [apply Hok|]. split; [done|]. change (rec_length _) with more. change (packet (rlayer s1)) with pkt. lia.
Qed.

(** *** Opening a record keeps the connection safe *)

Hypothesis no_sctp : forall c, BIO_dgram_is_sctp c = false.

(** Neither [dtls1_process_record] nor the check before it touch the queues. *)
Definition same_queues (s s' : reader) : Prop :=
  unprocessed_rcds (rlayer s') = unprocessed_rcds (rlayer s) /\
  processed_rcds (rlayer s') = processed_rcds (rlayer s) /\ r_epoch (rlayer s') = r_epoch (rlayer s) /\
  packet (rlayer s') = packet (rlayer s) /\ rbuf (rlayer s') = rbuf (rlayer s) /\ rbio s' = rbio s /\
  rstate (rlayer s') = rstate (rlayer s) /\ rr_epoch (rrec (rlayer s')) = rr_epoch (rrec (rlayer s)) /\
  (packet_length (rlayer s') = 0 \/ packet_length (rlayer s') = packet_length (rlayer s)).

Lemma processed_queues s c b r o l : l = 0 \/ l = packet_length (rlayer s) -> same_queues s (processed s c b r o l).
Proof using. intros Hl. by split_and!. Qed.

Lemma processed_ok s c b r o l : reader_ok s -> 0 <= rec_length r -> l = 0 \/ l = packet_length (rlayer s) ->
  reader_ok (processed s c b r o l).
Proof using.
  intros [(K1 & (K2 & K3 & K4) & _ & K5) Hb] Hr Hl. pose proof (zlen_nonneg (packet (rlayer s))).
  split; [|done]. split; [done|]. split; [|by split]. split; [done|].
  split; [cbn; destruct Hl; lia|]. cbn. intros Hbuf. destruct Hl as [->| ->]; auto.
Qed.

Definition opening_result (seen : gset Z) (T : list delivery) (s : reader) (x : comp (bool * reader)) : Prop :=
  exists ok s', x = Ret (ok, s') /\ reader_ok s' /\ same_queues s s' /\
    rr_seq_num (rrec (rlayer s')) = rr_seq_num (rrec (rlayer s)) /\
    if (ok : bool) then
      packet_length (rlayer s') = 0 /\
      exists seen', safe_with map_bits seen' (T ++ [delivery_of (rrec (rlayer s'))]) (rlayer s')
    else safe_with map_bits seen T (rlayer s').

Lemma process_safe seen T s :
  reader_ok s -> safe_with map_bits seen T (rlayer s) ->
  packet_holds (packet (rlayer s)) (rec_length (rr_body (rrec (rlayer s)))) ->
  rr_epoch (rrec (rlayer s)) = r_epoch (rlayer s) ->
  rr_seq_num (rrec (rlayer s)) = rl_read_sequence (rlayer s) ->
  be_val (rl_read_sequence (rlayer s)) ∉ seen ->
  opening_result seen T s (dtls1_process_record map_bits s false).
Proof using laws map_bits_ok.
  intros Hs Hsafe Hp He Hseq Hnew.
  destruct (process_record_spec map_bits s false Hp) as (ok & c & block & rec & off & len & -> & Hr & Hl & Hok).
  pose proof (processed_ok s c block rec off len Hs Hr Hl) as Hs'.
  pose proof (processed_queues s c block rec off len Hl) as Hq.
  destruct ok; [|by exists false, (processed s c block rec off len)].
  destruct (Hok eq_refl) as (-> & -> & Hopen). clear Hok.
  pose proof Hsafe as (_ & _ & _ & _ & Hrep & _).
  change (bitmap_of (rlayer s) false) with (bitmap (rlayer s)).
  destruct (update_spec map_bits map_bits_ok (bitmap (rlayer s)) seen (seq_view (rlayer s)) Hrep (proj1 (proj1 Hs)))
    as (b & -> & Hb).
  change (read_sequence (seq_view (rlayer s))) with (rl_read_sequence (rlayer s)) in Hb.
  cbn [mbind comp_bind defined]. set (s1 := processed s c block rec 0 0) in *.
  exists true, (upd_rl (set_bitmap false b) s1). split; [done|]. split; [exact Hs'|]. split; [exact Hq|].
  split; [done|]. split; [done|]. exists ({[be_val (rl_read_sequence (rlayer s))]} ∪ seen).
  set (d := delivery_of (rrec (rlayer s1))).
  assert (Hd : d_number d = be_val (rl_read_sequence (rlayer s))).
  { change (be_val (rr_seq_num (rrec (rlayer s))) = be_val (rl_read_sequence (rlayer s))). by rewrite Hseq. }
  rewrite <- Hd in Hb, Hnew |- *. apply (safe_adds map_bits seen T (rlayer s1) d b); try done.
  exists (conn s), (rlayer (point_at_packet s)), block, rec. split; [done|]. by split_and!.
Qed.

(** The replay check and what follows it, in both places. *)
Lemma checked_safe T s :
  reader_ok s -> safe map_bits T (rlayer s) ->
  packet_holds (packet (rlayer s)) (rec_length (rr_body (rrec (rlayer s)))) ->
  rr_epoch (rrec (rlayer s)) = r_epoch (rlayer s) ->
  exists ok s', replay_check map_bits s false = Some (ok, s') /\ reader_ok s' /\ same_queues s s' /\
    weight s' = weight s /\ safe map_bits T (rlayer s') /\ prio_ok (rl_read_sequence (rlayer s)) /\
    if (ok : bool) then
      rr_seq_num (rrec (rlayer s')) = rl_read_sequence (rlayer s) /\
      rr_body (rrec (rlayer s')) = rr_body (rrec (rlayer s)) /\
      exists seen, opening_result seen T s' (dtls1_process_record map_bits s' false)
    else s' = s.
Proof using laws map_bits_ok.
  intros Hs [seen Hsafe] Hp He. pose proof Hs as [(Hseq & _) _].
  pose proof (seq_prio _ Hseq) as Hprio. pose proof Hsafe as (_ & _ & _ & _ & Hrep & _).
  destruct (replay_checked s false seen Hseq Hrep) as [[Hrun Hnew]|Hrun].
  - set (s1 := numbered s (rl_read_sequence (rlayer s))) in *.
    assert (Hs1 : reader_ok s1) by exact Hs.
    assert (Hsafe1 : safe_with map_bits seen T (rlayer s1)) by exact Hsafe.
    exists true, s1. split; [done|]. split; [done|]. split; [split_and!; try done; by right|]. split; [done|].
    split; [by exists seen|]. split; [done|]. split; [done|]. split; [done|]. exists seen.
    by apply process_safe.
  - exists false, s. split; [done|]. split; [done|]. split; [split_and!; try done; by right|]. split; [done|].
    split; [by exists seen|]. by split.
Qed.

(** *** One record *)

Definition step_result (T : list delivery) (s : reader) (x : comp (next_step * reader)) : Prop :=
  exists next s', x = Ret (next, s') /\ reader_ok s' /\
    r_epoch (rlayer s') = r_epoch (rlayer s) /\
    match next with
    | Return r => if r =? 1 then safe map_bits (T ++ [delivery_of (rrec (rlayer s'))]) (rlayer s')
                  else safe map_bits T (rlayer s')
    | Again => safe map_bits T (rlayer s') /\ busy s' = false /\ (weight s' <= S (weight s))%nat /\
               ((weight s' <= weight s)%nat \/ rr_epoch (rrec (rlayer s)) <> r_epoch (rlayer s))
    | GoOn => False
    end.

Lemma get_bitmap_epoch l rr : match dtls1_get_bitmap l rr with
  | Some false => rr_epoch rr = r_epoch l
  | Some true => rr_epoch rr <> r_epoch l /\ q_epoch (unprocessed_rcds l) <> r_epoch l
  | None => rr_epoch rr <> r_epoch l
  end.
Proof using.
  unfold dtls1_get_bitmap. destruct (Z.eqb_spec (rr_epoch rr) (r_epoch l)) as [|Hne]; [done|].
  destruct (_ && _) eqn:E; [|done]. apply andb_prop in E as [E _]. apply andb_prop in E as [_ E].
  split; [done|]. by apply negb_true_iff, Z.eqb_neq in E.
Qed.

Lemma queue_added P l l' item : l' ≡ₚ item :: l -> Forall P l -> P item ->
  Forall P l' /\ sum_list_with item_weight l' = (item_weight item + sum_list_with item_weight l)%nat.
Proof using. intros Hperm Hl Hi. by rewrite Hperm; split; [constructor|]. Qed.

(** Putting a record of the next epoch into the queue. *)
Lemma wait_spec T s :
  reader_ok s -> safe map_bits T (rlayer s) -> prio_ok (rr_seq_num (rrec (rlayer s))) ->
  packet_holds (packet (rlayer s)) (rec_length (rr_body (rrec (rlayer s)))) ->
  exists ret queue s', dtls1_buffer_record s (unprocessed_rcds (rlayer s)) (rr_seq_num (rrec (rlayer s))) =
      Ret (ret, queue, s') /\
    let s'' := s' <| rlayer .: unprocessed_rcds := queue |> in
    reader_ok s'' /\ safe map_bits T (rlayer s'') /\ (weight s'' <= S (weight s))%nat /\
    r_epoch (rlayer s'') = r_epoch (rlayer s).
Proof using.
  intros Hs Hsafe Hp Hpk. pose proof Hs as [(K1 & (Kp & Kl & Kb) & K3 & K4 & Kq & Kw & Kr) Hb].
  destruct (buffer_record_spec s _ _ Hs Kq Hp)
    as (ret & queue & c & b & rr & pkt & len & -> & Hok & Hq & He & Hret & Hlen & Hcase).
  exists ret, queue. eexists. split; [reflexivity|].
  set (s' := rebuffered s c b rr pkt len (rbio s)) in *. cbv zeta.
  set (s'' := s' <| rlayer .: unprocessed_rcds := queue |>).
  set (item := mk_pitem _ _) in Hcase.
  assert (Hitem : waiting_ok item) by (split; [exact Hpk|]; split; [exact Kl|]; by split).
  assert (Hadd : forall l, items (q queue) ≡ₚ item :: l -> Forall waiting_ok l ->
    Forall waiting_ok (items (q queue)) /\
    sum_list_with item_weight (items (q queue)) = (item_weight item + sum_list_with item_weight l)%nat).
  { intros l Hperm Hl. by apply queue_added. }
  assert (Hin : Forall waiting_ok (items (q queue)) /\
    (2 * length (rb_left b) + sum_list_with item_weight (items (q queue)) <=
     S (2 * length (rb_left (rbuf (rlayer s))) + sum_list_with item_weight (waiting (rlayer s))))%nat).
  { change (items (q (unprocessed_rcds (rlayer s)))) with (waiting (rlayer s)) in Hcase.
    destruct Hcase as [[-> ->]|[[-> ->]|[-> Hperm]]]; [split; [done|cbn [length]; lia]..|]. 
    destruct (Hadd _ Hperm Kw) as [Hall ->]. split; [done|]. cbn [length].
    unfold item_weight at 1. cbn [PQueue.data item rd_rbuf]. lia. }
  destruct Hin as [Hin Hw]. split; [|split; [|split; [|done]]].
  - destruct Hok as [(J1 & J2 & J3 & J4 & _ & _ & J5) Jb]. split; [|exact Jb].
    split; [exact J1|]. split; [exact J2|]. split; [exact J3|]. split; [exact J4|].
    split; [exact Hq|]. split; [exact Hin|exact J5].
  - destruct Hsafe as [seen Hsafe]. exists seen. exact Hsafe.
  - unfold weight. change (waiting (rlayer s'')) with (items (q queue)).
    change (rb_left (rbuf (rlayer s''))) with (rb_left b). change (rbio s'') with (rbio s). lia.
Qed.

Lemma take_record_spec T s :
  reader_ok s -> safe map_bits T (rlayer s) ->
  packet_holds (packet (rlayer s)) (rec_length (rr_body (rrec (rlayer s)))) ->
  step_result T s (take_record map_bits s).
Proof using laws map_bits_ok no_sctp.
  intros Hs Hsafe Hp. unfold take_record. set (s0 := s <| rlayer .: rstate := tls_ST_READ_HEADER |>).
  assert (Hs0 : reader_ok s0) by exact Hs. assert (Hsafe0 : safe map_bits T (rlayer s0)) by exact Hsafe.
  cbv zeta. pose proof (get_bitmap_epoch (rlayer s0) (rrec (rlayer s0))) as Hepoch.
  destruct (dtls1_get_bitmap _ _) as [next|].
  2:{ destruct (ignore_ok s0 Hs0) as [Hi1 Hi2]. exists Again, (ignore s0). split; [done|]. split; [done|]. split; [done|].
      split; [exact Hsafe|]. split; [done|]. change (weight (ignore s0)) with (weight s). split; [lia|by left]. }
  rewrite no_sctp. destruct next.
  - (* the next epoch *)
    pose proof Hsafe0 as (seen & _ & _ & _ & _ & _ & Hnext).
    assert (Hdiscard : forall s1, reader_ok s1 -> safe map_bits T (rlayer s1) -> (weight s1 <= S (weight s))%nat ->
      r_epoch (rlayer s1) = r_epoch (rlayer s) -> step_result T s (Ret (Again, discard s1))).
    { intros s1 Hs1 Hsafe1 Hw Er. destruct (discard_ok s1 Hs1) as [Hd1 Hd2]. exists Again, (discard s1).
      split; [done|]. split; [done|]. split; [exact Er|]. split; [exact Hsafe1|]. split; [done|]. split; [exact Hw|].
      right. exact (proj1 Hepoch). }
    destruct (replay_checked s0 true ∅ (proj1 (proj1 Hs0)) Hnext) as [[Hrun _]|Hrun]; rewrite Hrun;
      cbn [mbind comp_bind defined negb]; [|apply Hdiscard; [done|done|change (weight s0) with (weight s); lia|done]].
    set (s1 := numbered s0 _). assert (Hs1 : reader_ok s1) by exact Hs.
    assert (Hsafe1 : safe map_bits T (rlayer s1)) by exact Hsafe.
    destruct (_ =? 0).
    { exists Again, (upd_rrec (fun r => r <| rr_read := true |>) s1). split; [done|]. split; [exact Hs|].
      split; [done|]. split; [exact Hsafe|]. split; [done|]. split; [by right; auto|]. by left. }
    destruct (_ || _); [|apply Hdiscard; [done|done| |done]; change (weight s1) with (weight s); lia].
    destruct (wait_spec T s1 Hs1 Hsafe1 (seq_prio _ (proj1 (proj1 Hs0))) Hp) as (ret & queue & s' & -> & Hok & Hsafe' & Hw & Er).
    cbn [mbind comp_bind]. destruct (Z.ltb_spec ret 0); [|by apply Hdiscard].
    exists (Return (-1)), (s' <| rlayer .: unprocessed_rcds := queue |>). by split.
  - (* the current epoch *)
    destruct (checked_safe T s0 Hs0 Hsafe0 Hp Hepoch) as (ok & s1 & -> & Hs1 & Hq1 & Hw1 & Hsafe1 & _ & Hcase).
    cbn [mbind comp_bind defined]. change (weight s0) with (weight s) in Hw1.
    assert (Hdiscard : forall s1, reader_ok s1 -> safe map_bits T (rlayer s1) -> (weight s1 <= weight s)%nat ->
      r_epoch (rlayer s1) = r_epoch (rlayer s) -> step_result T s (Ret (Again, discard s1))).
    { intros s2 Hs2 Hsafe2 Hw Er. destruct (discard_ok s2 Hs2) as [Hd1 Hd2]. exists Again, (discard s2).
      split; [done|]. split; [done|]. split; [exact Er|]. split; [exact Hsafe2|]. split; [done|].
      change (weight (discard s2)) with (weight s2). split; [lia|by left]. }
    pose proof Hq1 as (_ & _ & Er1 & _). change (r_epoch (rlayer s0)) with (r_epoch (rlayer s)) in Er1.
    destruct ok; cbn [negb]; [|apply Hdiscard; [done|done|by rewrite Hw1|exact Er1]].
    destruct Hcase as (_ & _ & seen & ok & s2 & Erun & Hs2 & Hq2 & _ & Hres).
    assert (Er2 : r_epoch (rlayer s2) = r_epoch (rlayer s)) by (rewrite <- Er1; apply Hq2).
    assert (Hw2 : weight s2 = weight s).
    { destruct Hq2 as (E1 & _ & _ & _ & E2 & E3 & _). rewrite <- Hw1. unfold weight, waiting. by rewrite E1, E2, E3. }
    destruct (_ =? 0).
    { exists Again, (upd_rrec (fun r => r <| rr_read := true |>) s1). split; [done|]. split; [exact Hs1|]. split; [exact Er1|].
      split; [exact Hsafe1|]. destruct Hq1 as (_ & _ & _ & _ & _ & _ & Est & _). split; [unfold busy; cbn; by rewrite Est|].
      change (weight (upd_rrec _ s1)) with (weight s1). split; [lia|left; lia]. }
    rewrite Erun. cbn [mbind comp_bind]. destruct ok; cbn [negb].
    + exists (Return 1), s2. split; [done|]. split; [done|]. split; [done|]. destruct Hres as [_ [seen' Hres]]. by exists seen'.
    + destruct (in_error s2).
      * exists (Return (-1)), s2. split; [done|]. split; [done|]. split; [done|]. by exists seen.
      * apply Hdiscard; [done|by exists seen|lia|done].
Qed.

(** *** The records that waited for their keys *)

(** Opening one of them puts it into the other queue. *)
Lemma ready_spec T s :
  reader_ok s -> prio_ok (rr_seq_num (rrec (rlayer s))) ->
  DTLS1_RT_HEADER_LENGTH <= zlen (packet (rlayer s)) -> packet_length (rlayer s) = 0 ->
  (exists seen, safe_with map_bits seen (T ++ [delivery_of (rrec (rlayer s))]) (rlayer s)) ->
  exists ret queue s', dtls1_buffer_record s (processed_rcds (rlayer s)) (rr_seq_num (rrec (rlayer s))) =
      Ret (ret, queue, s') /\
    let s'' := s' <| rlayer .: processed_rcds := queue |> in
    reader_ok s'' /\ safe map_bits T (rlayer s'') /\ (weight s'' <= weight s)%nat /\ busy s'' = false /\
    r_epoch (rlayer s'') = r_epoch (rlayer s) /\ unprocessed_rcds (rlayer s'') = unprocessed_rcds (rlayer s).
Proof using.
  intros Hs Hp Hpk Hzero [seen Hsafe]. pose proof Hs as [(K1 & (Kp & Kl & Kb) & K3 & K4 & Kq & Kw & Kr & Kready) Hb].
  destruct (buffer_record_spec s _ _ Hs Kr Hp)
    as (ret & queue & c & b & rr & pkt & len & -> & Hok & Hq & He & Hret & Hlen & Hcase).
  exists ret, queue. eexists. split; [reflexivity|].
  set (s' := rebuffered s c b rr pkt len (rbio s)) in *. cbv zeta.
  set (s'' := s' <| rlayer .: processed_rcds := queue |>).
  set (item := mk_pitem _ _) in Hcase.
  assert (Hitem : ready_ok item) by (split; [exact Kp|]; split; [exact Hpk|]; by split).
  change (items (q (processed_rcds (rlayer s)))) with (ready (rlayer s)) in Hcase.
  assert (Hin : Forall ready_ok (items (q queue)) /\
    T ++ ready_records (rlayer s'') ⊆+ (T ++ [delivery_of (rrec (rlayer s))]) ++ ready_records (rlayer s) /\
    (length (rb_left b) <= length (rb_left (rbuf (rlayer s))))%nat).
  { unfold ready_records, ready. change (items (q (processed_rcds (rlayer s'')))) with (items (q queue)).
    rewrite <- app_assoc. destruct Hcase as [[-> ->]|[[-> ->]|[-> Hperm]]].
    - split; [done|]. split; [|lia]. apply submseteq_skips_l. by apply submseteq_cons.
    - split; [done|]. split; [|cbn; lia]. apply submseteq_skips_l. by apply submseteq_cons.
    - split; [exact (proj1 (queue_added ready_ok _ _ item Hperm Kready Hitem))|]. split; [|cbn; lia].
      apply submseteq_skips_l, Permutation_submseteq.
      exact (Permutation_map (fun i => delivery_of (rd_rrec (PQueue.data i))) Hperm). }
  destruct Hin as (Hin & Hsub & Hw). split; [|split; [|split; [|split; [|by split]]]].
  - destruct Hok as [(J1 & J2 & J3 & J4 & J5 & J6 & _) Jb]. split; [|exact Jb].
    split; [exact J1|]. split; [exact J2|]. split; [exact J3|]. split; [exact J4|].
    split; [exact J5|]. split; [exact J6|]. split; [exact Hq|exact Hin].
  - exists seen. by eapply safe_perm.
  - unfold weight. change (waiting (rlayer s'')) with (waiting (rlayer s)).
    change (rb_left (rbuf (rlayer s''))) with (rb_left b). change (rbio s'') with (rbio s). lia.
  - unfold busy. change (packet_length (rlayer s'')) with len.
    assert (len = 0) as -> by (destruct Hlen; congruence). by rewrite andb_false_r.
Qed.

Definition loop_result (T : list delivery) (s : reader) (x : comp (option Z * reader)) : Prop :=
  exists ret s', x = Ret (ret, s') /\ reader_ok s' /\ safe map_bits T (rlayer s') /\
    r_epoch (rlayer s') = r_epoch (rlayer s) /\
    match ret with
    | None => (weight s' <= weight s)%nat /\ (busy s' = true -> busy s = true)
    | Some r => r = 0 \/ (r = -1 /\ (weight s' < weight s)%nat /\ rr_epoch (rrec (rlayer s')) = r_epoch (rlayer s'))
    end.

(** Taking the first record out of a queue. *)
Lemma pop_waiting T s i rest :
  reader_ok s -> safe map_bits T (rlayer s) -> waiting (rlayer s) = i :: rest ->
  exists queue s', dtls1_retrieve_buffered_record s (unprocessed_rcds (rlayer s)) = Ret (true, queue, s') /\
    let s'' := s' <| rlayer .: unprocessed_rcds := queue |> in
    reader_ok s'' /\ safe map_bits T (rlayer s'') /\ (weight s'' < weight s)%nat /\
    packet_holds (packet (rlayer s'')) (rec_length (rr_body (rrec (rlayer s'')))) /\
    waiting (rlayer s'') = rest /\ q_epoch (unprocessed_rcds (rlayer s'')) = q_epoch (unprocessed_rcds (rlayer s)) /\
    r_epoch (rlayer s'') = r_epoch (rlayer s).
Proof using.
  intros Hs [seen Hsafe] Hw. pose proof Hs as [(K1 & (Kp & Kl & Kb) & K3 & K4 & Kq & Kw & Kr & Kready) Hb].
  unfold waiting in Hw. unfold dtls1_retrieve_buffered_record, pqueue_pop. rewrite Hw.
  unfold waiting in Kw. rewrite Hw in Kw. apply Forall_cons_1 in Kw as [(Wp & Wl & Wb & Wleft) Kw].
  pose proof Wp as (Wbytes & Wlen & Wz).
  destruct (copy_record_spec s (PQueue.data i) Hs ltac:(lia) Wbytes) as (seq & -> & Hseq).
  cbn [mbind comp_bind defined]. do 2 eexists. split; [reflexivity|]. cbv zeta.
  set (s'' := _ <| rlayer .: unprocessed_rcds := _ |>).
  split; [|split; [by exists seen|split; [|by split_and!]]].
  - split; [|exact Hb]. split; [exact Hseq|]. split; [by split; [|split]|]. split; [exact Wlen|]. split; [exact Wleft|].
    split; [|by split]. destruct Kq as [Kq1 Kq2]. rewrite Hw in Kq1, Kq2.
    split; [by apply Forall_cons_1 in Kq1 as [_ ?]|by inversion Kq2].
  - unfold weight, waiting. rewrite Hw. change (items _) with rest at 1. cbn [sum_list_with].
    change (rbio s'') with (rbio s). change (rb_left (rbuf (rlayer s''))) with (rb_left (rd_rbuf (PQueue.data i))).
    unfold item_weight at 2. lia.
Qed.

Lemma process_buffered_loop_spec T n : forall s,
  reader_ok s -> safe map_bits T (rlayer s) -> (length (waiting (rlayer s)) <= n)%nat ->
  q_epoch (unprocessed_rcds (rlayer s)) = r_epoch (rlayer s) ->
  loop_result T s (process_buffered_loop map_bits n s).
Proof using laws map_bits_ok no_sctp.
  induction n as [|n IH]; intros s Hs Hsafe Hn He; cbn [process_buffered_loop]; unfold pqueue_peek;
    change (items (q (unprocessed_rcds (rlayer s)))) with (waiting (rlayer s)).
  { destruct (waiting (rlayer s)) as [|i rest] eqn:Ew; [|cbn in Hn; lia].
    exists None, s. by split_and!. }
  destruct (waiting (rlayer s)) as [|i rest] eqn:Ew.
  { exists None, s. by split_and!. }
  destruct (pop_waiting T s i rest Hs Hsafe Ew) as (queue & s0 & -> & Hpop). cbn [mbind comp_bind head].
  cbv zeta in Hpop |- *. set (s1 := s0 <| rlayer .: unprocessed_rcds := queue |>) in *.
  destruct Hpop as (Hs1 & Hsafe1 & Hw1 & Hp1 & Hwait1 & Hq1 & He1). cbn in Hn.
  pose proof (get_bitmap_epoch (rlayer s1) (rrec (rlayer s1))) as Hepoch.
  destruct (dtls1_get_bitmap _ _) as [[]|]; [destruct Hepoch as [_ []]; congruence| |].
  2:{ exists (Some 0), (fatal s1 tls_AD_INTERNAL_ERROR). split; [done|]. split; [exact Hs1|].
      split; [exact Hsafe1|]. split; [exact He1|by left]. }
  rewrite no_sctp.
  destruct (checked_safe T s1 Hs1 Hsafe1 Hp1 Hepoch) as (ok & s2 & -> & Hs2 & Hq2 & Hw2 & Hsafe2 & Hprio & Hcase).
  cbn [mbind comp_bind defined].
  (** a record that is dropped *)
  assert (Hdrop : forall s3, reader_ok s3 -> safe map_bits T (rlayer s3) -> same_queues s1 s3 ->
    loop_result T s (if in_error s3 then Ret (Some (-1), s3) else process_buffered_loop map_bits n (ignore s3))).
  { intros s3 Hs3 Hsafe3 (E1 & E2 & E3 & E4 & E5 & E6 & E7 & E8 & E9).
    assert (Hw3 : weight s3 = weight s1) by (unfold weight, waiting; by rewrite E1, E5, E6).
    destruct (in_error s3).
    - exists (Some (-1)), s3. split; [done|]. split; [done|]. split; [done|]. split; [congruence|]. right.
      split; [done|]. split; [lia|congruence].
    - destruct (ignore_ok s3 Hs3) as [Hi1 Hi2].
      destruct (IH (ignore s3) Hi1 Hsafe3) as (ret & s' & -> & Hs' & Hsafe' & He' & Hr).
      { change (waiting (rlayer (ignore s3))) with (items (q (unprocessed_rcds (rlayer s3)))). rewrite E1.
        change (items (q (unprocessed_rcds (rlayer s1)))) with (waiting (rlayer s1)). rewrite Hwait1. lia. }
      { change (unprocessed_rcds (rlayer (ignore s3))) with (unprocessed_rcds (rlayer s3)).
        change (r_epoch (rlayer (ignore s3))) with (r_epoch (rlayer s3)). congruence. }
      change (weight (ignore s3)) with (weight s3) in Hr. change (r_epoch (rlayer (ignore s3))) with (r_epoch (rlayer s3)) in He'.
      exists ret, s'. split; [done|]. split; [done|]. split; [done|]. split; [congruence|].
      destruct ret as [r|]; [destruct Hr as [Hr|(Hr & Hl & Hrest)]; [by left|right; by split; [|split; [lia|]]]|].
      destruct Hr as [Hr1 Hr2]. split; [lia|]. intros Hbusy%Hr2. congruence. }
  destruct ok; [|by subst s2; apply Hdrop; [| |split_and!; try done; right]].
  destruct Hcase as (Eseq & Ebody & seen & ok & s3 & -> & Hs3 & Hq3 & Eseq3 & Hres). cbn [mbind comp_bind].
  assert (Hq13 : same_queues s1 s3).
  { destruct Hq2 as (A1 & A2 & A3 & A4 & A5 & A6 & A7 & A8 & A9), Hq3 as (B1 & B2 & B3 & B4 & B5 & B6 & B7 & B8 & B9).
    split_and!; try congruence. destruct B9 as [->| ->]; auto. }
  destruct ok; cbn [negb]; [|by apply Hdrop; [|by exists seen|]].
  destruct Hres as [Hzero Hres]. pose proof Hq13 as (E1 & E2 & E3 & E4 & E5 & E6 & E7 & E8 & E9).
  destruct (ready_spec T s3 Hs3) as (ret & queue' & s4 & -> & Hready); [|..|done|done|].
  { rewrite Eseq3, Eseq. exact Hprio. }
  { rewrite E4. destruct Hp1 as (_ & ? & ?). lia. }
  cbn [mbind comp_bind]. cbv zeta in Hready |- *. set (s5 := s4 <| rlayer .: processed_rcds := queue' |>) in *.
  destruct Hready as (Hs5 & Hsafe5 & Hw5 & Hb5 & Ee5 & Eu5).
  assert (Hw3 : weight s3 = weight s1) by (unfold weight, waiting; by rewrite E1, E5, E6).
  destruct (Z.ltb_spec ret 0).
  { exists (Some 0), s5. split; [done|]. split; [done|]. split; [done|]. split; [congruence|by left]. }
  destruct (IH s5 Hs5 Hsafe5) as (r & s' & -> & Hs' & Hsafe' & He' & Hr).
  { unfold waiting. rewrite Eu5, E1. change (items _) with (waiting (rlayer s1)). rewrite Hwait1. lia. }
  { rewrite Eu5, E1. congruence. }
  exists r, s'. split; [done|]. split; [done|]. split; [done|]. split; [congruence|].
  destruct r as [r|]; [destruct Hr as [Hr|(Hr & Hl & Hrest)]; [by left|right; by split; [|split; [lia|]]]|].
  destruct Hr as [Hr1 Hr2]. split; [lia|]. intros Hbusy%Hr2. congruence.
Qed.

(** *** [dtls1_get_record] *)

Lemma process_buffered_spec T s : reader_ok s -> safe map_bits T (rlayer s) ->
  exists ret s', dtls1_process_buffered_records map_bits s = Ret (ret, s') /\ reader_ok s' /\
    safe map_bits T (rlayer s') /\ r_epoch (rlayer s') = r_epoch (rlayer s) /\
    (ret = 0 \/ ((weight s' <= weight s)%nat /\ (busy s' = true -> busy s = true)) \/
     ((weight s' < weight s)%nat /\ rr_epoch (rrec (rlayer s')) = r_epoch (rlayer s'))).
Proof using laws map_bits_ok no_sctp.
  intros Hs Hsafe. unfold dtls1_process_buffered_records. cbv zeta.
  assert (Hsync : forall s, reader_ok s -> safe map_bits T (rlayer s) ->
    let s' := upd_rl (fun l => l <| processed_rcds .: q_epoch := r_epoch l |>
                                 <| unprocessed_rcds .: q_epoch := u16 (r_epoch l + 1) |>) s in
    reader_ok s' /\ safe map_bits T (rlayer s') /\ weight s' = weight s /\ busy s' = busy s).
  { intros s1 Hs1 Hsafe1. by split_and!. }
  destruct (pqueue_peek _) as [i|] eqn:Epeek.
  2:{ destruct (Hsync s Hs Hsafe) as (J1 & J2 & J3 & J4). eexists 1, _. split; [reflexivity|].
      split; [done|]. split; [done|]. split; [done|]. right. left. split; [lia|congruence]. }
  assert (Hleave : forall ret, exists ret' s', Ret (ret, s) = Ret (ret', s') /\ reader_ok s' /\
    safe map_bits T (rlayer s') /\ r_epoch (rlayer s') = r_epoch (rlayer s) /\
    (ret' = 0 \/ ((weight s' <= weight s)%nat /\ (busy s' = true -> busy s = true)) \/
     ((weight s' < weight s)%nat /\ rr_epoch (rrec (rlayer s')) = r_epoch (rlayer s')))).
  { intros ret. exists ret, s. do 4 (split; [done|]). right. left. by split. }
  destruct (Z.eqb_spec (q_epoch (unprocessed_rcds (rlayer s))) (r_epoch (rlayer s))) as [He|]; cbn [negb]; [|apply Hleave].
  destruct (0 <? _); [apply Hleave|]. clear Hleave.
  destruct (process_buffered_loop_spec T (length (waiting (rlayer s))) s Hs Hsafe (le_n _) He)
    as (ret & s' & Erun & Hs' & Hsafe' & He' & Hr).
  unfold waiting in Erun. rewrite Erun. cbn [mbind comp_bind]. destruct ret as [r|].
  - exists r, s'. do 4 (split; [done|]). destruct Hr as [->|(-> & Hw & Hrr)]; [by left|right; right; by split].
  - destruct Hr as [Hw Hb]. destruct (Hsync s' Hs' Hsafe') as (J1 & J2 & J3 & J4). eexists 1, _. split; [reflexivity|].
    split; [done|]. split; [done|]. split; [exact He'|]. right. left. split; [lia|]. by rewrite J4.
Qed.

(** A record that was opened in advance is the next one. *)
Lemma pop_ready T s i rest :
  reader_ok s -> safe map_bits T (rlayer s) -> ready (rlayer s) = i :: rest ->
  exists queue s', dtls1_retrieve_buffered_record s (processed_rcds (rlayer s)) = Ret (true, queue, s') /\
    let s'' := s' <| rlayer .: processed_rcds := queue |> in
    reader_ok s'' /\ safe map_bits (T ++ [delivery_of (rrec (rlayer s''))]) (rlayer s'') /\
    r_epoch (rlayer s'') = r_epoch (rlayer s).
Proof using.
  intros Hs [seen Hsafe] Hw. pose proof Hs as [(K1 & _ & K3 & K4 & Kq & Kw & Kr & Kready) Hb].
  unfold ready in Hw, Kready. unfold dtls1_retrieve_buffered_record, pqueue_pop. rewrite Hw.
  rewrite Hw in Kready. apply Forall_cons_1 in Kready as [(Wbytes & Wz & Wlen & Wzero & Wleft) Kready].
  destruct (copy_record_spec s (PQueue.data i) Hs Wz Wbytes) as (seq & -> & Hseq).
  cbn [mbind comp_bind defined]. do 2 eexists. split; [reflexivity|]. cbv zeta.
  set (s'' := _ <| rlayer .: processed_rcds := _ |>). split; [|split; [|done]].
  - split; [|exact Hb]. split; [exact Hseq|]. split.
    { split; [exact Wbytes|]. change (packet_length (rlayer s'')) with (rd_packet_length (PQueue.data i)).
      rewrite Wzero. split; [|done]. pose proof (zlen_nonneg (packet (rlayer s''))). lia. }
    split; [exact Wlen|]. split; [exact Wleft|]. split; [exact Kq|]. split; [exact Kw|].
    split; [|exact Kready]. destruct Kr as [Kr1 Kr2]. rewrite Hw in Kr1, Kr2.
    split; [by apply Forall_cons_1 in Kr1 as [_ ?]|by inversion Kr2].
  - exists seen. eapply safe_perm; [exact Hsafe| |done..]. unfold ready_records, ready. rewrite Hw, <- app_assoc.
    by apply submseteq_skips_l.
Qed.

Definition once_result (T : list delivery) (s : reader) (x : comp (next_step * reader)) : Prop :=
  exists next s', x = Ret (next, s') /\ reader_ok s' /\
    r_epoch (rlayer s') = r_epoch (rlayer s) /\
    match next with
    | Return r => if r =? 1 then safe map_bits (T ++ [delivery_of (rrec (rlayer s'))]) (rlayer s')
                  else safe map_bits T (rlayer s')
    | Again => safe map_bits T (rlayer s') /\ busy s' = false /\ (weight s' <= S (weight s))%nat /\
               (busy s = false -> (weight s' < weight s)%nat)
    | GoOn => False
    end.

Lemma get_record_once_spec T s : reader_ok s -> safe map_bits T (rlayer s) ->
  once_result T s (get_record_once map_bits align s).
Proof using laws map_bits_ok no_sctp.
  intros Hs Hsafe. unfold get_record_once.
  destruct (process_buffered_spec T s Hs Hsafe) as (ret & s1 & -> & Hs1 & Hsafe1 & He1 & Hr1). cbn [mbind comp_bind].
  destruct (Z.eqb_spec ret 0) as [_|Hret]; [by exists (Return (-1)), s1|].
  destruct Hr1 as [?|Hr1]; [done|].
  destruct (ready (rlayer s1)) as [|i rest] eqn:Er.
  2:{ destruct (pop_ready T s1 i rest Hs1 Hsafe1 Er) as (queue & s2 & -> & Hs2 & Hsafe2 & Er2). cbn [mbind comp_bind].
      cbv zeta. eexists (Return 1), _. split; [reflexivity|]. split; [done|]. split; [congruence|done]. }
  unfold dtls1_retrieve_buffered_record, pqueue_pop.
  change (items (q (processed_rcds (rlayer s1)))) with (ready (rlayer s1)). rewrite Er. cbn [mbind comp_bind].
  cbv zeta. replace (s1 <| rlayer .: processed_rcds := processed_rcds (rlayer s1) |>) with s1 by by destruct s1 as [? [] ?].
  destruct (get_header_spec s1 Hs1) as (next & s2 & -> & Hs2 & Hw2 & Hsame & Hn2). cbn [mbind comp_bind].
  assert (Hcarry : forall s s', same_replay (rlayer s) (rlayer s') -> safe map_bits T (rlayer s) -> safe map_bits T (rlayer s')).
  { intros t t' (E1 & E2 & E3 & E4 & E5) [seen Ht]. exists seen. eapply safe_perm; [exact Ht| |done..].
    unfold ready_records, ready. by rewrite E5. }
  pose proof (Hcarry _ _ Hsame Hsafe1) as Hsafe2.
  assert (Er2 : r_epoch (rlayer s2) = r_epoch (rlayer s)) by (rewrite <- He1; apply Hsame).
  assert (Hw12 : (weight s1 <= weight s)%nat) by (destruct Hr1 as [[? _]|[? _]]; lia).
  destruct next as [r| |].
  - exists (Return r), s2. split; [done|]. split; [done|]. split; [done|]. destruct (Z.eqb_spec r 1); [lia|done].
  - destruct Hn2 as [Hb2 Hlt]. exists Again, s2. split; [done|]. split; [done|]. split; [done|]. split; [done|]. split; [done|].
    split; [lia|]. intros _. lia.
  - destruct Hn2 as [Hb2 Hbusy].
    destruct (get_body_spec s2 Hs2 Hb2) as (next & s3 & -> & Hs3 & Hw3 & Hsame3 & Hn3). cbn [mbind comp_bind].
    pose proof (Hcarry _ _ Hsame3 Hsafe2) as Hsafe3.
    assert (Er3 : r_epoch (rlayer s3) = r_epoch (rlayer s)) by (rewrite <- Er2; apply Hsame3).
    (** what was consumed so far *)
    assert (Hgain : (S (weight s3) < weight s)%nat \/ busy s = true /\ (weight s3 <= weight s)%nat \/
      (weight s3 < weight s)%nat /\ rr_epoch (rrec (rlayer s1)) = r_epoch (rlayer s1) /\ s2 = s1).
    { destruct Hbusy as [[Hb1 ->]|Hlt]; [|left; lia].
      destruct Hr1 as [[_ Hb]|[Hlt He]]; [right; left; split; [by apply Hb|lia]|right; right; by split; [lia|]]. }
    destruct next as [r| |].
    + exists (Return r), s3. split; [done|]. split; [done|]. split; [done|]. destruct (Z.eqb_spec r 1); [lia|done].
    + exists Again, s3. split; [done|]. split; [done|]. split; [done|]. split; [done|]. split; [done|].
      split; [lia|]. intros Hb. destruct Hgain as [?|[[? _]|[? _]]]; [lia|congruence|lia].
    + destruct Hn3 as [Erec Hp3].
      destruct (take_record_spec T s3 Hs3 Hsafe3 Hp3) as (next & s4 & -> & Hs4 & Er4 & Hn4).
      exists next, s4. split; [done|]. split; [done|]. split; [congruence|]. destruct next as [r| |]; [done| |done].
      destruct Hn4 as (Hsafe4 & Hb4 & Hw4 & Hw4'). split; [done|]. split; [done|].
      destruct Hgain as [Hlt|[[Hb Hle]|(Hlt & He & ->)]]; [split; lia|split; [lia|congruence]|].
      destruct Hw4' as [Hle|Hne]; [split; lia|]. exfalso. apply Hne. rewrite Erec, He. symmetry. apply Hsame3.
Qed.

(** Enough iterations, whatever the peer has sent. *)
Definition enough (s : reader) : nat := weight s + 3.

Lemma get_record_spec T fuel : forall s, reader_ok s -> safe map_bits T (rlayer s) ->
  (weight s + (if busy s then 2 else 0) < fuel)%nat ->
  exists ret s', dtls1_get_record map_bits align fuel s = Ret (ret, s') /\ reader_ok s' /\
    r_epoch (rlayer s') = r_epoch (rlayer s) /\
    safe map_bits (if ret =? 1 then T ++ [delivery_of (rrec (rlayer s'))] else T) (rlayer s').
Proof using laws map_bits_ok no_sctp.
  induction fuel as [|fuel IH]; intros s Hs Hsafe Hfuel; [lia|]. cbn [dtls1_get_record].
  destruct (get_record_once_spec T s Hs Hsafe) as (next & s1 & -> & Hs1 & Er & Hn). cbn [mbind comp_bind].
  destruct next as [r| |]; [|destruct Hn as (Hsafe1 & Hb1 & Hw1 & Hlt)|done].
  - exists r, s1. split; [done|]. split; [done|]. split; [done|]. by destruct (r =? 1).
  - rewrite <- Er. apply IH; [done|done|]. rewrite Hb1. destruct (busy s); [lia|]. specialize (Hlt eq_refl). lia.
Qed.

(** *** The life of a connection *)

(** What happens to a connection that reads records. *)
Inductive event : Type :=
(** datagrams arrive *)
| E_arrive (datagrams : list (list Z))
(** [dtls1_get_record] is called *)
| E_get_record
(** the peer's new keys are used from now on *)
| E_change_keys
(** the record just read is consumed: [length], [off] and [read] of [rrec], and [rstate] *)
| E_consume (len off : Z) (read : bool) (state : Z)
(** anything may happen to the rest of the connection *)
| E_connection (c : tls).

Definition arrive (datagrams : list (list Z)) (s : reader) : reader :=
  s <| rbio := Some (default [] (rbio s) ++ datagrams) |>.

Definition consume (len off : Z) (read : bool) (state : Z) (s : reader) : reader :=
  upd_rl (fun l => l <| rstate := state |>
                     <| rrec ::= fun r => (set_length len r) <| rr_off := off |> <| rr_read := read |> |>) s.

(** The records delivered, in their order, and the connection at the end. *)
Fixpoint run (events : list event) (s : reader) : comp (list delivery * reader) :=
  match events with
  | [] => Ret ([], s)
  | E_arrive datagrams :: events => run events (arrive datagrams s)
  | E_get_record :: events =>
      '(ret, s) ← dtls1_get_record map_bits align (enough s) s;
      let d := if ret =? 1 then [delivery_of (rrec (rlayer s))] else [] in
      '(l, s) ← run events s;
      Ret (d ++ l, s)
  | E_change_keys :: events => run events (dtls1_reset_seq_numbers_read s)
  | E_consume len off read state :: events => run events (consume len off read state s)
  | E_connection c :: events => run events (s <| conn := c |>)
  end.

Definition event_ok (e : event) : Prop :=
  match e with
  | E_arrive datagrams => Forall bytes_ok datagrams
  | E_consume len _ _ _ => 0 <= len
  | _ => True
  end.

(** How often the keys change. *)
Definition key_changes (events : list event) : Z :=
  zlen (List.filter (fun e => match e with E_change_keys => true | _ => false end) events).

Lemma key_changes_cons e events :
  key_changes (e :: events) = (match e with E_change_keys => 1 | _ => 0 end) + key_changes events.
Proof using. unfold key_changes. cbn [List.filter]. destruct e; try done. by rewrite zlen_cons. Qed.

Lemma key_changes_nonneg events : 0 <= key_changes events.
Proof using. apply zlen_nonneg. Qed.

Lemma reset_spec T s : reader_ok s -> safe map_bits T (rlayer s) -> 0 <= r_epoch (rlayer s) < 2 ^ 16 - 1 ->
  let s' := dtls1_reset_seq_numbers_read s in
  reader_ok s' /\ safe map_bits T (rlayer s') /\ r_epoch (rlayer s') = r_epoch (rlayer s) + 1.
Proof using map_bits_ok.
  intros [(K1 & K) Hb] [seen Hsafe] Hr s'.
  assert (He : r_epoch (rlayer s') = r_epoch (rlayer s) + 1) by (apply Z.mod_small; lia).
  split; [|split; [|exact He]].
  - split; [|exact Hb]. split; [split; [by repeat constructor|done]|exact K].
  - by eapply safe_new_epoch.
Qed.

Lemma run_spec events : forall T s, reader_ok s -> safe map_bits T (rlayer s) -> Forall event_ok events ->
  0 <= r_epoch (rlayer s) -> r_epoch (rlayer s) + key_changes events < 2 ^ 16 ->
  exists l s', run events s = Ret (l, s') /\ safe map_bits (T ++ l) (rlayer s').
Proof using laws map_bits_ok no_sctp.
  induction events as [|e events IH]; intros T s Hs Hsafe Hev Hr0 Hk; cbn [run].
  { exists [], s. by rewrite app_nil_r. }
  apply Forall_cons_1 in Hev as [He Hev]. rewrite key_changes_cons in Hk. pose proof (key_changes_nonneg events) as Hk0.
  destruct e as [datagrams| | |len off read state|c].
  - apply IH; [|exact Hsafe|done|done|exact Hk]. destruct Hs as [Hl Hb]. split; [exact Hl|].
    apply Forall_app. split; [|exact He]. by destruct (rbio s).
  - destruct (get_record_spec T (enough s) s Hs Hsafe) as (ret & s1 & -> & Hs1 & Er & Hsafe1).
    { unfold enough. destruct (busy s); lia. }
    cbn [mbind comp_bind].
    destruct (IH _ s1 Hs1 Hsafe1 Hev) as (l & s' & -> & Hsafe'); [lia|lia|]. cbn [mbind comp_bind].
    eexists _, s'. split; [reflexivity|]. destruct (ret =? 1); [by rewrite <- app_assoc in Hsafe'|done].
  - destruct (reset_spec T s Hs Hsafe ltac:(lia)) as (Hs1 & Hsafe1 & Er). apply IH; [done|done|done|lia|lia].
  - apply IH; [|exact Hsafe|done|done|exact Hk]. destruct Hs as [(K1 & K2 & _ & K) Hb]. split; [|exact Hb].
    split; [exact K1|]. split; [exact K2|]. split; [exact He|exact K].
  - apply IH; [exact Hs|exact Hsafe|done|done|exact Hk].
Qed.
End Steps.

(** ** Property *)

(** A connection after [DTLS_RECORD_LAYER_new] and [DTLS_RECORD_LAYER_clear], whose buffer [b]
    may have been set up. *)
Definition empty_queue : record_pqueue := mk_record_pqueue 0 (mk_pqueue [] 0).
Definition fresh_layer (b : tls3_BUFFER) : RECORD_LAYER :=
  mk_RECORD_LAYER tls_ST_READ_HEADER b blank_record [] 0 (replicate 8 0) 0
    empty_bitmap empty_bitmap empty_queue empty_queue.
Definition fresh_reader (c : tls) (b : tls3_BUFFER) : reader := mk_reader c (fresh_layer b) (Some []).


(** ** Witness *)

(** A cipher that accepts a record whose first byte is the last one of its number. *)
#[local] Instance toy_protection : RecordProtection := {|
  has_session _ := true;
  read_hash_size _ := None;
  read_hash_md _ := false;
  enc_read_ctx_cbc _ := None;
  enc c l :=
    (if List.last (rl_read_sequence l) 0 =? default 0 (rr_block (rrec l) !! 13%nat) then 1 else -1,
     (rr_block (rrec l), rr_body (rrec l)), c);
  mac _ _ := None;
  expands _ := false;
  tls3_do_uncompress _ _ := None;
  tls_allow_compression _ := false;
  tls3_setup_write_buffer c := (true, c);
  BIO_dgram_is_sctp _ := false;
  rotated_mac_addr := 0;
  rotated_mac_garbage := replicate 128 0;
  mac_tmp_garbage := replicate 64 0
|}.

#[local] Instance toy_laws : ProtectionLaws.
Proof.
  split; try done.
  - intros c l e block rec c' Hfit Henc. by injection Henc as _ <- <- _.
Qed.

Definition dtls_record (epoch number : Z) (body : list Z) : list Z :=
  [22; 254; 253; 0; epoch; 0; 0; 0; 0; 0; number; 0; zlen body] ++ body.

Definition dtls_client : tls := (sample12 false TLS_ST_CR_FINISHED) <| version := 0xfefd |>.

Definition big_buffer : tls3_BUFFER := mk_tls3_BUFFER true 0 16720 3 [].

(** A record, the same again together with a forged one, and one of the next epoch, which
    waits for its keys. *)
Definition some_events : list event :=
  [E_arrive [dtls_record 0 1 [1; 7]; dtls_record 0 1 [1; 7] ++ dtls_record 0 2 [9; 9]; dtls_record 1 0 [0; 5]];
   E_get_record; E_consume 0 0 true tls_ST_READ_HEADER; E_get_record; E_change_keys; E_get_record].

Definition two_deliveries : list delivery := [mk_delivery 0 1 22 [1; 7]; mk_delivery 1 0 22 [0; 5]].


(** *** An error that goes unnoticed

    When opening a buffered record fails fatally, [dtls1_process_buffered_records] returns -1;
    its caller only takes 0 for a failure, and goes on to deliver the next record although an
    alert has been sent and the connection is in the error state. *)

(** Opening record 0 of an epoch is a fatal error. *)
Definition failing_protection : RecordProtection := {|
  has_session _ := true;
  read_hash_size _ := None;
  read_hash_md _ := false;
  enc_read_ctx_cbc _ := None;
  enc c l :=
    if be_val (rl_read_sequence l) =? 0
    then (0, (rr_block (rrec l), rr_body (rrec l)), tlsfatal c tls_AD_INTERNAL_ERROR)
    else (1, (rr_block (rrec l), rr_body (rrec l)), c);
  mac _ _ := None;
  expands _ := false;
  tls3_do_uncompress _ _ := None;
  tls_allow_compression _ := false;
  tls3_setup_write_buffer c := (true, c);
  BIO_dgram_is_sctp _ := false;
  rotated_mac_addr := 0;
  rotated_mac_garbage := replicate 128 0;
  mac_tmp_garbage := replicate 64 0
|}.

Example buffered_error_unnoticed :
  exists s, @run generous_malloc failing_protection 64 3
      [E_arrive [dtls_record 1 0 [0; 5]]; E_get_record; E_change_keys;
       E_arrive [dtls_record 1 1 [8]]; E_get_record] (fresh_reader dtls_client big_buffer) =
    Ret ([mk_delivery 1 1 22 [8]], s) /\ in_error s = true.
Proof. eexists. split; vm_compute; reflexivity. Qed.
